(* ===== verification/_CoqProject ===== *)
-Q . S2P
Prelude.v
Tables.v
PyText.v
PyFloat.v
PyValue.v
ActionVocabulary.v
IpAddress.v
AddressText.v
ProtectedTargets.v
Interfaces.v
Hoare.v
Approvals.v
ResponseQueue.v
Outcomes.v
Deliveries.v
QueueWorker.v
QueueWorkerProofs.v
Alerts.v
ParamBinding.v
BranchConditions.v
PlaybookRegistry.v
PlaybookStore.v
DeadLetters.v
StepLog.v
StepEvents.v
StepActions.v
StepExecutor.v
ExecutorProtocol.v
StepExecutorProofs.v
ExecutorProperties.v
ExecutorLoop.v
ExecutorGates.v
ExecutorEffects.v
ExecutorFindings.v
PlaybookOrchestrator.v
Identifiers.v
EnqueueOrchestrator.v
EnqueueProofs.v
IngestDispatch.v
PlaybookWorker.v
IndicatorRegistry.v
ResponseCommand.v
ResponseCommandProofs.v
ResponseCommandEffects.v
ResponseCommandProperties.v
RateLimiter.v
Sanitizing.v
CircuitBreaker.v
Integration.v
IntegrationProofs.v
UrlTarget.v
SimulationExecutor.v
RealMode.v
SlackAdapter.v
EmailAdapter.v
WebhookAdapter.v
IntegrationRegistry.v
IntegrationSafety.v
PlaybookAdapters.v
NotificationPolicy.v
NotificationService.v
NotificationProofs.v
Filterlog.v
FilterlogEvent.v
FilterlogProofs.v
PfsenseFilter.v
PfsenseFilterProofs.v
PfsenseListener.v
PfsenseListenerProofs.v
DetectionCatalog.v
DetectionConfig.v
Reputation.v
Detections.v
Correlations.v
IngestEngine.v
DetectionProofs.v
IngestProofs.v
PfsenseRecon.v
PfsenseDetectors.v
PfsenseDetectorProofs.v
