(* ===== verification/Prelude.v ===== *)
(** * Verification of the detection and response core of the SIEM dashboard

    The repository is a SIEM backend (Python, Flask, PostgreSQL).  Events are
    stored, detectors count them and raise alerts, and alerts are correlated.
    On the response side alerts are matched against playbooks, playbooks run
    step by step under leases, dangerous steps wait for a human approval,
    response actions go through a queue and a worker, and everything done is
    recorded as an append-only log of outcomes.  This library models
    ingestion, detection and response with the SQL of their stores, and
    proves what makes them correct.

    ** How the parts interact

    - A firewall sends its log as UDP packets.  The listener
      ([PfsenseListener]) admits them by sender, rate and size, parses them
      ([Filterlog], [FilterlogEvent]) and posts one event each to the backend,
      which validates it again and keeps it when the retention policy
      ([PfsenseFilter]) says so.
    - The central path of every event is [IngestEngine]: passwords are
      refused, the event is stored, the detectors of its type run
      ([Detections], with the rules in force by [DetectionConfig] over the
      catalog [DetectionCatalog], and reputations of [Reputation]), and the
      alerts of an address are correlated ([Correlations]).  All of it is one
      transaction over the tables and queries of [Detections].
    - What an ingestion has committed is handed over in
      [IngestDispatch]: playbook executions first, then the notifications of
      the alerts, then the response queue for the alerts no playbook has
      claimed ([EnqueueOrchestrator]).
    - An alert that matches a playbook's trigger ([Alerts], definitions
      accepted by [PlaybookRegistry]) gets a pending execution
      ([PlaybookOrchestrator], [PlaybookStore]).
    - The daemon ([PlaybookWorker]) writes heartbeats, recovers executions
      whose lease has expired, and runs batches of the executor
      ([StepExecutor]): claim an execution under a lease, run its steps one
      by one, extend the lease before each and save the log after each, stop
      at approval gates ([Approvals]) and resume after the decision, finish.
    - A step ([StepActions]) branches ([BranchConditions]), triggers a child
      execution, enriches, sends a notification ([Deliveries]) or acts
      through a command or a simulated adapter, with its parameters bound to
      the alert ([ParamBinding]).  Each step leaves an entry in the log of
      the execution ([StepLog]) and events in the outcome log ([StepEvents]).
    - A failed execution may leave a dead letter that an operator can retry
      ([DeadLetters]).
    - A response action enters the queue ([ResponseQueue]); the queue worker
      ([QueueWorker]) claims it, checks the approvals ([Approvals]) and the
      protected addresses ([ProtectedTargets]), hands it to the response
      command service or to the default executor ([SimulationExecutor]), and
      records decision and outcome ([Outcomes]).
    - The response command service ([ResponseCommand]) is also where analysts
      act from an alert.  It blocks (in a list that only tracks), monitors,
      escalates to an incident, annotates and releases an indicator, and
      keeps the registry of indicators with its events
      ([IndicatorRegistry]).

    - Everything that leaves the process goes through an adapter
      ([Integration]): past its circuit breaker ([CircuitBreaker]), with
      sanitized parameters ([Sanitizing]), and in real mode past the guards of
      the environment ([RealMode]) and the rate limiter ([RateLimiter]).
      Playbook steps reach the adapters by [PlaybookAdapters]; alerts,
      incidents and playbook steps notify by [NotificationService], as the
      policy of [NotificationPolicy] decides.

    ** Files

    What all components share:
    - [Prelude]: exceptions, the result type [outcome], the state monad [M]
      (a Python exception keeps the writes made before it), savepoints and
      rollbacks (class [Transactional]), clocks.
    - [Tables]: tables as [gmap Z row], SELECT with ORDER BY and LIMIT,
      UPDATE .. RETURNING, FOR UPDATE SKIP LOCKED; and a connection whose
      transaction a database error aborts.
    - [PyText], [PyFloat], [PyValue]: the Python strings, floats and
      dynamically typed values the source computes with; [IpAddress],
      [AddressText]: the ipaddress module, parsing and printing.
    - [Interfaces]: the class through which the queue reads approvals.
    - [Hoare]: the rules for triples over computations that may raise; a
      triple also bounds what a computation that raises has changed.

    Components, with the source under src/ each one follows:
    - [ActionVocabulary]: core/canonical_action_vocabulary.py.
    - [ProtectedTargets]: core/soar_protected_targets.py.
    - [Approvals]: core/approval_store.py and the decision handler of
      routes/approval_routes.py ([decision_approval_route]).
    - [ResponseQueue]: core/response_action_queue_store.py and
      enqueue_response_action_if_needed of core/ip_helpers.py.
    - [Outcomes]: core/soar_response_outcomes.py.
    - [QueueWorker], [QueueWorkerProofs]:
      engines/soar_action_worker.py and engines/soar_log_writer.py.
    - [Alerts]: _fetch_alert, _evaluate_trigger and match_playbooks of
      engines/playbook_engine.py.
    - [ParamBinding]: engines/playbook_param_binding.py.
    - [BranchConditions]: engines/playbook_branch_conditions.py.
    - [PlaybookRegistry]: engines/playbook_registry.py.
    - [PlaybookStore]: core/playbook_store.py.
    - [DeadLetters]: core/dead_letter_store.py, the failure capture of
      engines/playbook_step_executor.py, the retry handler of
      routes/dead_letter_routes.py, and the stale-recovery run of
      scripts/run_playbook_executor_once.py.

    - [Deliveries]: core/notification_delivery_store.py.
    - [StepLog], [StepEvents], [StepActions], [StepExecutor]:
      engines/playbook_step_executor.py, from the entries of the step log to
      the batch.  What a step calls outside (command service, notification
      policy, adapters, circuit breakers, enrichment) is the class
      [StepEvents.StepServices]; its state [W] is part of the database
      [StepEvents.exec_db], so that a rollback applies to it as its instance
      says.  A concrete instance stands at the end of [ExecutorProtocol].
    - [ExecutorProtocol]: the store operations an executor may use, and the
      invariant of the executions they and the operators' operations keep.
      [StepExecutorProofs] proves the executor against it;
      [ExecutorProperties], [ExecutorLoop], [ExecutorGates],
      [ExecutorEffects] and [ExecutorFindings] hold the theorems.
    - [PlaybookOrchestrator]:
      engines/soar_playbook_orchestrator.py.
    - [EnqueueOrchestrator], [EnqueueProofs]:
      engines/soar_enqueue_orchestrator.py, on the lemmas about printed ids
      of [Identifiers].
    - [IngestDispatch]: the post-commit part of the
      handlers of routes/ingest_routes.py up to the commit of the queue; the
      notifications are the class [IngestDispatch.AlertNotifier], which
      [NotificationProofs] implements.
    - [Filterlog], [FilterlogEvent]: adapters/pfsense_filterlog_adapter.py,
      the fields of a line and the event made of it, with the validation the
      backend repeats; [FilterlogProofs] proves them.
    - [PfsenseFilter], [PfsenseFilterProofs]: engines/pfsense_ingest_filter.py,
      the handler update_pfsense_ingest_filter of routes/admin_routes.py and
      the screening at the start of add_pfsense_event of
      routes/ingest_routes.py.
    - [PfsenseListener], [PfsenseListenerProofs]:
      engines/pfsense_syslog_listener.py.  The socket is a list of events, the
      backend a function of the request and a world of its own.
    - [DetectionCatalog]: engines/detection_rule_catalog.py and
      engines/detection_applicability.py; [DetectionConfig]:
      engines/detection_config.py and the handler
      update_detection_rule of routes/admin_routes.py; [Reputation]: the
      lookup, cache and response action of core/ip_helpers.py.
    - [Detections]: the tables and queries of detection, and the detectors of
      engines/detection_engine.py that are not the firewall's; eleven are one
      definition, [Detections.run_threshold_detector], with what
      distinguishes them as a record.  [Correlations]:
      engines/correlation_engine.py.  The end of [Detections] is the step
      relation of raising an alert with the rules to prove computations
      against it; [DetectionProofs] holds the theorems.
    - [IngestEngine], [IngestProofs]: engines/ingest_engine.py with the
      password check of helpers/ingest_normalizers.py, the provenance of
      core/synthetic_data_policy.py and core/source_ingestion_health_state.py.
      The detectors of firewall events enter as the class
      [IngestEngine.FirewallDetectors].  The end of [IngestProofs] joins
      it to the dispatch.
    - [PfsenseRecon]: core/pfsense_recon.py; [PfsenseDetectors]: the five
      firewall detectors of engines/detection_engine.py with their severities,
      traffic roles, cooldown and contexts.  [PfsenseDetectorProofs] holds
      their theorems and discharges the class
      ([PfsenseDetectorProofs.pfsense_detectors]).
    - [SimulationExecutor]: engines/soar_executor.py.
    - [PlaybookWorker]: engines/soar_playbook_worker.py and
      core/worker_heartbeat_store.py.
    - [IndicatorRegistry]: core/indicator_response_registry.py.
    - [ResponseCommand]: core/response_command_service.py, its contracts in
      core/response_command_contracts.py, and the blocklist insert of
      core/db.py.  [ResponseCommandProofs] shows which rows a command may
      move, [ResponseCommandEffects] what it records against what it
      reports, [ResponseCommandProperties] holds the theorems.

    - [RateLimiter], [Sanitizing], [CircuitBreaker], [Integration],
      [UrlTarget], [RealMode], [SlackAdapter], [EmailAdapter],
      [WebhookAdapter], [IntegrationRegistry]: the package integrations/,
      with the audit of core/integration_audit.py.  The environment
      variables, the monotonic clock, the network and SMTP are the record
      [RealMode.outside]; the requests made are a log in the state of the
      process.  [IntegrationProofs] and [IntegrationSafety] hold the theorems.
    - [PlaybookAdapters]: the adapters as the adapter part of
      [StepEvents.StepServices], with the theorem about sends carried over to
      the steps.
    - [NotificationPolicy]: core/notification_policy_store.py and the
      decision of core/notification_policy_service.py; [NotificationService]:
      the texts, the delivery and the callers of the latter file, over the
      connection, with [NotificationProofs].

    A definition carries the name of the function it translates, without a
    leading underscore.  A store is a record of tables and sequences, an
    operation a computation in [M], a nullable column an [option], an enum
    column an inductive type with the source's members.

    ** What the theorems show

    - The executor.  [ExecutorProperties.executor_refines_protocol]: a call
      changes the executions only by the operations the protocol allows its
      worker.  From it follow [ExecutorProperties.executions_reachable_ok]
      (logs record a success once, chains of triggers end),
      [ExecutorProperties.executor_respects_leases], and for the daemon
      [PlaybookWorker.worker_respects_leases].  The loop ends
      ([ExecutorLoop.run_steps_terminates]), and from step 0 on it passes every
      step ([ExecutorLoop.finished_run_passes_every_step]); a gate whose
      request is pending, or refused with no branch for that, holds
      everything ([ExecutorGates.gate_blocks]); nothing is
      sent twice, no protected address is blocked, and what is written passes
      the validation of the outcome log ([ExecutorEffects]).
    - The firewall log.  [PfsenseFilterProofs.parsed_events_screened] composes
      parser, validation and retention filter: what becomes of a packet, with
      no other answer possible.  [FilterlogProofs.parsed_events_accepted] is
      the agreement of the two validations,
      [PfsenseFilterProofs.loaded_policy_valid] and
      [PfsenseFilterProofs.update_all_or_nothing] are the policy's.
      [PfsenseListenerProofs.every_packet_accounted] is the book-keeping of
      the listener against the datagrams it reads, and [PfsenseListenerProofs.limiter_recounts_history] what
      its limiter guarantees.
    - Detection.  [DetectionProofs.threshold_detector_exact],
      [DetectionProofs.login_after_spray_exact],
      [DetectionProofs.correlated_activity_exact] and
      [DetectionProofs.targeted_correlation_exact] say exactly when each
      rule raises its alert and what it inserts, when the database takes the
      row.  Of the firewall's detectors,
      [PfsenseDetectorProofs.allow_after_deny_exact] does the same,
      [PfsenseDetectorProofs.repeated_deny_containment] and
      [PfsenseDetectorProofs.port_scan_breadth] say what must have been seen
      before a source is blocked or called a scanner (the replies of a
      protected host never count), and
      [PfsenseDetectorProofs.resolved_stays_quiet] and
      [PfsenseDetectorProofs.noisy_source_yields] when they stay silent.
      [DetectionConfig.effective_rule_in_bounds]: whatever is
      stored as an override, a rule runs with bounded parameters;
      [DetectionConfig.rule_update_all_or_nothing] is the route that
      stores one.
    - The ingestion of an event.  [IngestProofs.ingestion_effect]: what an
      accepted event changes, the alerts it answers, and the invariant that
      at most one alert of a type is open for an address;
      [IngestProofs.passwords_refused]; and
      [IngestProofs.ingested_alerts_dispatchable], that the dispatch can
      handle what was raised.
    - The dispatch.  [IngestDispatch.committed_alerts_dispatched]: each
      committed alert is handled by its playbooks or by the queue, never by
      both, on [PlaybookOrchestrator.every_match_scheduled] and
      [EnqueueProofs.committed_alerts_enqueued].
    - Reaching the outside.  [IntegrationSafety.real_send_guarded] says when a
      call of an adapter sends, [IntegrationSafety.real_sends_rate_limited] how often,
      [IntegrationProofs.execute_refines_machine] what its breaker does;
      [PlaybookAdapters.adapter_step_sends_guarded] and
      [NotificationProofs.notification_sends_guarded] carry it to the steps of
      a playbook and to notifications.  [Sanitizing.sanitized_secret_free] and
      [UrlTarget.path_stays_on_host] say what is sent and where.
    - Notifications.  [NotificationPolicy.notify_exactly_when_due] is the
      meaning of the policy, [NotificationPolicy.policy_roundtrip] that what
      is saved is in force.
    - The default executor.  [SimulationExecutor.simulation_executor_contract]
      and [SimulationExecutor.default_executor_only_refuses].
    - The daemon.  [PlaybookWorker.failed_turn_rolls_back] and
      [PlaybookWorker.worker_survives_failures].
    - Response commands.  [ResponseCommandProperties.commands_reachable_ok]
      is the invariant of registry, blocklist and outcomes over any mix of
      commands; [ResponseCommandProperties.reported_disposition_holds] and
      [ResponseCommandProperties.refused_command_tracks_nothing] compare what
      is answered with what is recorded; blocks and escalations are
      idempotent and tracking is lifted exactly.
    - Lifecycles.  [QueueWorkerProofs.worker_refines_lifecycle] and
      [ResponseQueue.queue_refines_lifecycle] refine the queue to an abstract
      lifecycle of a row with its retry budget, the worker's call on either
      side of whatever other sessions commit inside it;
      [Approvals.approvals_reachable_ok], [Approvals.decision_final],
      [PlaybookStore.playbook_store_reachable_wf],
      [DeadLetters.dead_letters_reachable] and
      [Outcomes.outcome_log_append_only] are invariants over all sequences of
      operations.
    - Safety of acting.  No block command without an approval and against a
      protected address ([QueueWorkerProofs.block_needs_approval]), the exact
      meaning of the protected set ([ProtectedTargets]), one holder per lease
      ([PlaybookStore.lease_exclusive]), bounded recovery
      ([PlaybookStore.recovery_bounded]).
    - Typing of user data.  What a saved playbook guarantees when it runs
      ([PlaybookRegistry.validated_playbook_well_formed],
      [BranchConditions.validated_condition_evaluates],
      [ParamBinding.resolved_params_json]), and that what is written passes
      the schema's constraints ([Outcomes.append_never_violates_schema]).
    - Functional behaviour of the claims, the sweeps, the failure handling,
      the idempotent inserts, the trigger and the two HTTP handlers, with
      their transaction boundaries.
    - What goes wrong.  [ExecutorFindings.poisoned_execution_starves],
      [ExecutorFindings.failure_before_gate_forgotten],
      [ExecutorEffects.not_actioned_never_logged], [ResponseQueue.crash_loop_unbounded],
      [QueueWorkerProofs.database_error_strands_action],
      [Approvals.expired_decision_rolled_back],
      [Alerts.match_playbooks_all_or_nothing],
      [PlaybookStore.abandoned_overwritten],
      [ResponseCommandProperties.used_key_changes_nothing],
      [EnqueueProofs.failed_insert_loses_batch],
      [NotificationPolicy.rejected_policy_stuck],
      [NotificationProofs.eleventh_repeat_goes_out],
      [FilterlogProofs.leap_day_never_parsed],
      [PfsenseFilterProofs.text_port_filtered],
      [PfsenseListenerProofs.unexpected_failure_ends_listener],
      [IngestProofs.login_failure_undetected],
      [IntegrationProofs.failing_adapter_bounded],
      [ResponseCommandProperties.expired_block_stuck] and
      [DeadLetters.exhausted_without_dead_letter] prove behaviours the code
      has and does not mean to have.

    ** Conventions and bounds

    - Integers are [Z]; INTEGER columns are 32-bit and an insertion or update
      out of range raises ([int4]).  Instants are microseconds.  Each call
      reads two clocks, Python's and the transaction's, independent of each
      other; sequences of operations take one clock per operation and need
      not be ordered in time unless a theorem says so.
    - Concurrency is the interleaving of operations.  A locked row is a
      member of the set [locked] that the SKIP LOCKED statements receive.
      Inside one queue-worker call other sessions act between its two
      transactions, as an arbitrary function of the database; a theorem that
      needs them to take lifecycle steps says so.
    - Recursion is structural, on lists, on the depth of a value, or on the
      number of hops of the ancestor chain, which the source itself bounds.
      The loop over the steps has [StepExecutor.steps_fuel], one unit for
      each index from the first on and one to leave the loop; it is enough
      because every step moves to a larger index.
      [PyFloat.shortest] searches the at most 17 digits a binary64 needs.
    - The database parts outside src/ are parameters: the parser of inet
      columns, the foreign keys as predicates on rows, random identifiers, the
      hash and the collation of text columns.
      What PostgreSQL computes for detection (inet, LOWER, the text of JSON
      values, casts) is the record [Detections.postgres].
    - In detection, ties of ORDER BY created_at are broken by id, the
      groups of a GROUP BY come in ascending order of their instant (those of
      an allow after denies in any order, the parameter [returned]), the casts of
      a location are those of the selected row, and the set of the addresses
      to correlate is taken in the order of their appearance.  Two
      transactions that run at once do not see each other's uncommitted
      alerts: what is proved of open alerts holds for transactions that run
      one after the other.
    - Strings are sequences of code points below 256.
    - Some definitions accept or refuse a little more than the code.  Foreign
      keys of alerts, incidents and queue rows are not checked by the inserts
      of [Outcomes] and [ResponseQueue]; a reason or risk of a gate that is no
      string is a TypeError; an event whose source or source_ip is no string
      is detected as one without; a batch of executions reads one clock, as
      the daemon passes it, and a series of operations on dead letters
      ([DeadLetters.run_dl_op]) one clock and one set of existing references.
      The label a caller of [NotificationService] may give a destination is
      left out.

    ** What is not modelled, and why

    The response command service is a class for the queue worker and the
    executor, whose theorems hold whatever it does; so is the notification of
    a playbook step for the executor, because [NotificationService] works on
    the connection and reads the alerts, which the class does not offer.  The
    paged listing and the detail page of the registry only read.  Recon
    notifications and the manual provider tests use stores that are not
    modelled, and so do the incidents an ingestion creates after the queue;
    the incidents a notification is about are a parameter.  The severity
    matrix is a page that explains rules, playbooks and policy and changes
    nothing.  Address classifications of the ipaddress
    module are those of CPython 3.11 ([UrlTarget]).  Listings whose tie order the database leaves open are
    modelled with the tie broken by id.  Of detection, the
    simulator, the sigma playground and the behavioural reputation of
    get_ip_reputation are left out, and of a firewall log line longer than
    131072 characters in one field the error of the csv module; so are the
    formats of ingestion other than pfSense's, the AI assistant, the routes'
    authentication and the frontend: other subsystems that call this one
    through the operations modelled here. *)

From stdpp Require Export base gmap strings list sorting fin_maps numbers.
From Stdlib Require Export ZArith Lia.

Open Scope Z_scope.

Declare Scope soar_scope.
Delimit Scope soar_scope with soar.
Open Scope soar_scope.

(** ** Python exceptions *)

(** The exception classes the modelled code raises or tests for.  Messages
    are kept where the code branches on or stores them. *)
Inductive exn :=
  | ValueError (msg : string)
  | QueueTransitionError (msg : string)
  | SkippedAction (msg code : string)
  | RetryableActionError (msg code : string)
  | ProtectedTargetConfigError (msg : string)
  | CanonicalActionValidationError (msg code : string)
  | OutcomeValidationError (msg : string)
  | BranchConditionError (code msg : string)
  | ParamBindingError (code msg : string)
  | IntegrityError (constraint : string)
  | DatabaseError (msg : string)
  | TypeError
  | KeyError (key : string)
  | OverflowError
  | OtherException (msg : string).

#[export] Instance exn_eq_dec : EqDecision exn.
Proof. solve_decision. Defined.

(** [except ValueError]: the classes the source derives from [ValueError]. *)
Definition is_value_error (e : exn) : bool :=
  match e with
  | ValueError _ | QueueTransitionError _ | ProtectedTargetConfigError _
  | CanonicalActionValidationError _ _ | OutcomeValidationError _ => true
  | _ => false
  end.

(** A statement that fails in the database leaves its transaction aborted. *)
Definition is_db_error (e : exn) : bool :=
  match e with IntegrityError _ | DatabaseError _ => true | _ => false end.

(** ** Computations that may raise *)

Inductive outcome (A : Type) :=
  | Ok (a : A)
  | Raise (e : exn).
Arguments Ok {A} _.
Arguments Raise {A} _.

#[export] Instance outcome_eq_dec {A} `{EqDecision A} : EqDecision (outcome A).
Proof. solve_decision. Defined.

Definition obind {A B} (m : outcome A) (k : A -> outcome B) : outcome B :=
  match m with Ok a => k a | Raise e => Raise e end.

(** ** Stateful computations that may raise

    A Python exception does not undo the writes made before it; only a
    rollback does, so the state is returned in both cases. *)
Definition M (S A : Type) : Type := S -> outcome A * S.

Definition ret {S A} (a : A) : M S A := fun s => (Ok a, s).
Definition raise {S A} (e : exn) : M S A := fun s => (Raise e, s).
Definition bind {S A B} (m : M S A) (k : A -> M S B) : M S B :=
  fun s => match m s with
           | (Ok a, s') => k a s'
           | (Raise e, s') => (Raise e, s')
           end.
Definition get {S} : M S S := fun s => (Ok s, s).
Definition put {S} (s : S) : M S unit := fun _ => (Ok tt, s).
Definition gets {S A} (f : S -> A) : M S A := fun s => (Ok (f s), s).
Definition modify {S} (f : S -> S) : M S unit := fun s => (Ok tt, f s).
Definition of_outcome {S A} (o : outcome A) : M S A := fun s => (o, s).

(** [try: m except e: h e]. *)
Definition try_catch {S A} (m : M S A) (h : exn -> M S A) : M S A :=
  fun s => match m s with
           | (Ok a, s') => (Ok a, s')
           | (Raise e, s') => h e s'
           end.

Notation "'let*' x ':=' m 'in' k" := (bind m (fun x => k))
  (at level 61, x pattern, m at next level, k at level 200, right associativity) : soar_scope.
Notation "m ';;;' k" := (bind m (fun _ => k))
  (at level 62, right associativity) : soar_scope.
Notation "'let!' x ':=' m 'in' k" := (obind m (fun x => k))
  (at level 61, x pattern, m at next level, k at level 200, right associativity) : soar_scope.

(** Run a computation on a component of a larger state. *)
Definition zoom {S T A} (prj : S -> T) (upd : T -> S -> S) (m : M T A) : M S A :=
  fun s => match m (prj s) with (o, t) => (o, upd t s) end.

(** Run a monadic definition symbolically. *)
Ltac run_monad :=
  unfold bind, ret, raise, get, gets, put, modify, of_outcome, try_catch, zoom in *; cbn in *.
Tactic Notation "run_monad" "in" hyp(H) :=
  unfold bind, ret, raise, get, gets, put, modify, of_outcome, try_catch, zoom in H; cbn in H.

Section MonadLaws.
Context {S : Type}.

Lemma bind_ret_l {A B} (a : A) (k : A -> M S B) s : bind (ret a) k s = k a s.
Proof. done. Qed.

Lemma bind_assoc {A B C} (m : M S A) (k : A -> M S B) (h : B -> M S C) s :
  bind (bind m k) h s = bind m (fun a => bind (k a) h) s.
Proof. unfold bind. by destruct (m s) as [[a|e] s']. Qed.

Lemma bind_ok {A B} (m : M S A) (k : A -> M S B) s a s' :
  m s = (Ok a, s') -> bind m k s = k a s'.
Proof. unfold bind. by intros ->. Qed.

Lemma bind_raise {A B} (m : M S A) (k : A -> M S B) s e s' :
  m s = (Raise e, s') -> bind m k s = (Raise e, s').
Proof. unfold bind. by intros ->. Qed.

Lemma bind_ok_inv {A B} (m : M S A) (k : A -> M S B) s b s'' :
  bind m k s = (Ok b, s'') -> exists a s', m s = (Ok a, s') /\ k a s' = (Ok b, s'').
Proof. unfold bind. destruct (m s) as [[a|e] s'] eqn:E; [eauto|done]. Qed.
End MonadLaws.

Create HintDb soar.
Create Rewrite HintDb soar.
#[export] Hint Rewrite @bind_ret_l @bind_assoc : soar.

(** ** Transactions

    [restore snap cur] is what ROLLBACK (to the snapshot) leaves: the
    tables of the snapshot, and what a rollback does not undo (sequence
    values, rows written through another connection) from the current
    state. *)
Class Transactional (S : Type) := {
  restore : S -> S -> S;
  restore_id : forall s, restore s s = s;
  restore_idemp : forall s t u, restore s (restore t u) = restore s u;
}.

(** [SAVEPOINT; m; RELEASE], with [ROLLBACK TO SAVEPOINT] on any exception,
    which is logged and swallowed. *)
Definition with_savepoint {S A} `{Transactional S} (m : M S A) : M S (option A) :=
  fun s => match m s with
           | (Ok a, s') => (Ok (Some a), s')
           | (Raise _, s') => (Ok None, restore s s')
           end.

Lemma with_savepoint_total {S A} `{Transactional S} (m : M S A) s :
  exists r s', with_savepoint m s = (Ok r, s').
Proof. unfold with_savepoint. destruct (m s) as [[a|e] s']; eauto. Qed.

(** ** Lists *)

Lemma list_filter_ext_in {A} (P Q : A -> Prop)
    `{forall x, Decision (P x)} `{forall x, Decision (Q x)} (l : list A) :
  (forall x, x ∈ l -> P x <-> Q x) -> filter P l = filter Q l.
Proof.
  induction l as [|x l IH]; intros HPQ; [done|].
  rewrite !filter_cons, IH by (intros y Hy; apply HPQ; by right).
  pose proof (HPQ x (list_elem_of_here x l)). repeat case_decide; tauto.
Qed.

(** [a if a is not None else b]; also [COALESCE(a, b)]. *)
Definition or_else {A} (a b : option A) : option A := match a with Some x => Some x | None => b end.

(** A check of an optional argument that holds when there is none. *)
Definition opt_check {A} (o : option A) (p : A -> bool) : bool := match o with Some a => p a | None => true end.

(** ** Time

    Instants are microseconds since the epoch.  A call reads two clocks:
    [utc_now], the Python process's, and [sql_now], the transaction
    timestamp that NOW() returns. *)
Record clock := Clock { utc_now : Z; sql_now : Z }.

Definition seconds (n : Z) : Z := n * 1000000.
Definition minutes (n : Z) : Z := seconds (60 * n).

(** Columns of type INTEGER hold 32-bit values. *)
Definition int4 (z : Z) : bool := (-2147483648 <=? z) && (z <=? 2147483647).

(** Association of an optional value with a required one in a WHERE clause:
    [col = %s] is never true of NULL. *)
Definition sql_eq_Z (col : option Z) (v : Z) : bool :=
  match col with Some x => x =? v | None => false end.
