(* ===== verification/Tables.v ===== *)
(** * Tables: the fragment of SQL the stores use

    A table with a SERIAL primary key is a [gmap Z row].  The stores use
    four shapes of statement on one:
    - [SELECT .. WHERE p ORDER BY k1, k2 LIMIT n], here [select];
    - [.. FOR UPDATE SKIP LOCKED], [select] with [unlocked] in the filter;
    - [UPDATE .. WHERE id = i AND cond RETURNING ..], here [update_where];
    - [UPDATE .. FROM (SELECT ids ..) RETURNING ..], here [update_ids].
    An ORDER BY over integer columns is the lexicographic order on a key in
    [list Z]; DESC negates a component.  The file ends with the connection
    whose transaction a database error aborts. *)

From S2P Require Import Prelude.

Section Order.
Fixpoint lex_le (a b : list Z) : Prop :=
  match a, b with
  | [], _ => True
  | _ :: _, [] => False
  | x :: a, y :: b => x < y \/ (x = y /\ lex_le a b)
  end.

#[export] Instance lex_le_dec : RelDecision lex_le.
Proof.
  intros a. induction a as [|x a IH]; intros [|y b]; simpl; apply _.
Defined.

#[export] Instance lex_le_trans : Transitive lex_le.
Proof.
  intros a. induction a as [|x a IH]; intros [|y b] [|z c]; simpl; try tauto.
  intros [?|[-> ?]] [?|[-> ?]]; eauto with lia.
Qed.

#[export] Instance lex_le_total : Total lex_le.
Proof.
  intros a. induction a as [|x a IH]; intros [|y b]; simpl; [tauto..|].
  destruct (Z.lt_total x y) as [?|[->|?]]; [tauto| |tauto].
  destruct (IH b); tauto.
Qed.

Lemma lex_le_antisymm a b : lex_le a b -> lex_le b a -> a = b.
Proof.
  revert b. induction a as [|x a IH]; intros [|y b]; simpl; try tauto.
  intros [?|[-> ?]] [?|[? ?]]; try lia. f_equal. by apply IH.
Qed.
End Order.

Section Select.
Context {R : Type}.
Implicit Types (t : gmap Z R) (p : Z -> R -> bool) (key : Z -> R -> list Z).

Definition key_le key (a b : Z * R) : Prop := lex_le (key a.1 a.2) (key b.1 b.2).

#[export] Instance key_le_dec key : RelDecision (key_le key).
Proof. intros a b. unfold key_le. apply _. Defined.
#[export] Instance key_le_trans key : Transitive (key_le key).
Proof. intros a b c. unfold key_le. apply transitivity. Qed.
#[export] Instance key_le_total key : Total (key_le key).
Proof. intros a b. unfold key_le. apply lex_le_total. Qed.

(** [SELECT id, .. FROM t WHERE p ORDER BY key]. *)
Definition select key p t : list (Z * R) :=
  merge_sort (key_le key) (filter (fun x => p x.1 x.2) (map_to_list t)).

(** [.. LIMIT n]: a negative limit never reaches the database. *)
Definition limit (n : Z) (l : list (Z * R)) : list (Z * R) := take (Z.to_nat n) l.

(** [.. LIMIT 1]. *)
Definition select_one key p t : option (Z * R) := head (select key p t).

Lemma elem_of_select key p t i r :
  (i, r) ∈ select key p t <-> t !! i = Some r /\ p i r = true.
Proof.
  unfold select. rewrite merge_sort_Permutation, list_elem_of_filter, elem_of_map_to_list.
  simpl. rewrite Is_true_true. tauto.
Qed.

Lemma NoDup_select key p t : NoDup (select key p t).*1.
Proof.
  unfold select. rewrite merge_sort_Permutation.
  assert (sublist (filter (fun x => p x.1 x.2) (map_to_list t)).*1 (map_to_list t).*1) as Hs.
  { apply fmap_sublist, sublist_filter. }
  exact (sublist_NoDup _ _ (NoDup_fst_map_to_list t) Hs).
Qed.

Lemma select_sorted key p t : StronglySorted (key_le key) (select key p t).
Proof. apply StronglySorted_merge_sort; apply _. Qed.

(** The first row of an ordered selection is a row that qualifies and no
    qualifying row sorts strictly before it. *)
Lemma select_one_Some key p t i r :
  select_one key p t = Some (i, r) ->
  t !! i = Some r /\ p i r = true /\
  forall j s, t !! j = Some s -> p j s = true -> lex_le (key i r) (key j s).
Proof.
  unfold select_one. intros Hh.
  destruct (select key p t) as [|x l] eqn:El; [done|]. simplify_eq/=.
  assert ((i, r) ∈ select key p t) as Hin by (rewrite El; left).
  pose proof (select_sorted key p t) as Hs. rewrite El in Hs.
  apply elem_of_select in Hin as [Ht Hp]. split; [done|]. split; [done|].
  intros j s Hj Hq. assert ((j, s) ∈ select key p t) as Hin by (by apply elem_of_select).
  rewrite El in Hin. apply elem_of_cons in Hin as [Heq|Hin].
  - simplify_eq. destruct (lex_le_total (key i r) (key i r)); done.
  - apply StronglySorted_inv in Hs as [_ Hall].
    rewrite list.Forall_forall in Hall. exact (Hall (j, s) Hin).
Qed.

Lemma select_one_None key p t :
  select_one key p t = None <-> forall j s, t !! j = Some s -> p j s = false.
Proof.
  unfold select_one. split.
  - intros Hh j s Hj. apply not_true_iff_false. intros Hp.
    assert ((j, s) ∈ select key p t) as Hin by (by apply elem_of_select).
    destruct (select key p t); [by apply not_elem_of_nil in Hin|done].
  - intros H. destruct (select key p t) as [|[j s] l] eqn:E; [done|].
    assert ((j, s) ∈ select key p t) as [Hj Hp]%elem_of_select by (rewrite E; left).
    by rewrite (H j s Hj) in Hp.
Qed.

(** A selection is determined by its rows when no two of them share a key. *)
Lemma select_unique key p t l :
  (forall i r j s, t !! i = Some r -> t !! j = Some s -> p i r = true -> p j s = true ->
     key i r = key j s -> i = j) ->
  StronglySorted (key_le key) l -> NoDup l ->
  (forall i r, (i, r) ∈ l <-> t !! i = Some r /\ p i r = true) ->
  select key p t = l.
Proof.
  intros Hinj Hs Hnd Hl.
  apply (StronglySorted_unique_strong (key_le key)); [|apply select_sorted|done|].
  - intros [i r] [j s] H1%elem_of_select H2%Hl Hle1 Hle2.
    destruct H1 as [Hi Hpi], H2 as [Hj Hpj].
    assert (i = j) as -> by (eapply Hinj; eauto; by apply lex_le_antisymm).
    congruence.
  - apply NoDup_Permutation; [|done|].
    + apply (NoDup_fmap_1 fst), NoDup_select.
    + intros [i r]. by rewrite elem_of_select, Hl.
Qed.

(** Inserting a row puts it where it sorts. *)
Lemma select_insert key p t i r l1 l2 :
  (forall a b c d, key a b = key c d -> a = c) ->
  t !! i = None -> p i r = true -> select key p t = l1 ++ l2 ->
  (forall x, x ∈ l1 -> key_le key x (i, r)) -> (forall x, x ∈ l2 -> key_le key (i, r) x) ->
  select key p (<[i := r]> t) = l1 ++ (i, r) :: l2.
Proof.
  intros Hinj Hi Hp Hsel H1 H2. pose proof (select_sorted key p t) as Hs. rewrite Hsel in Hs.
  pose proof (NoDup_select key p t) as Hnd. rewrite Hsel in Hnd.
  apply StronglySorted_app in Hs as (H12 & Hs1 & Hs2). apply select_unique.
  - intros a b c d _ _ _ _ Hk. exact (Hinj _ _ _ _ Hk).
  - apply StronglySorted_app_2; [|done|].
    + intros x y Hx [-> |Hy]%elem_of_cons; [by apply H1|by apply H12].
    + constructor; [done|]. by apply list.Forall_forall.
  - apply (NoDup_fmap_1 fst). rewrite fmap_app, fmap_cons, <- Permutation_middle, <- fmap_app. constructor; [|done].
    rewrite <- Hsel. intros Hin%list_elem_of_fmap. destruct Hin as ([j s] & Hj & [Hin _]%elem_of_select). cbn in Hj. congruence.
  - intros j s. pose proof (elem_of_select key p t j s) as Hjs. rewrite Hsel, elem_of_app in Hjs.
    rewrite elem_of_app, elem_of_cons. destruct (decide (j = i)) as [->|Hne].
    + rewrite lookup_insert_eq. rewrite Hi in Hjs. naive_solver.
    + rewrite lookup_insert_ne by done. naive_solver.
Qed.

(** Inserting a row that sorts last appends it. *)
Lemma select_insert_last key p t i r :
  (forall a b c d, key a b = key c d -> a = c) ->
  t !! i = None -> p i r = true ->
  (forall j s, t !! j = Some s -> p j s = true -> lex_le (key j s) (key i r)) ->
  select key p (<[i := r]> t) = select key p t ++ [(i, r)].
Proof.
  intros Hinj Hi Hp Hmax. apply select_insert; [done..|by rewrite app_nil_r| |by intros x ?%not_elem_of_nil].
  intros [j s] [Hj Hq]%elem_of_select. by apply Hmax.
Qed.

(** Inserting a row that sorts first puts it in front. *)
Lemma select_insert_first key p t i r :
  (forall a b c d, key a b = key c d -> a = c) ->
  t !! i = None -> p i r = true ->
  (forall j s, t !! j = Some s -> p j s = true -> lex_le (key i r) (key j s)) ->
  select key p (<[i := r]> t) = (i, r) :: select key p t.
Proof.
  intros Hinj Hi Hp Hmin. apply (select_insert _ _ _ _ _ []); [done..|by intros x ?%not_elem_of_nil|].
  intros [j s] [Hj Hq]%elem_of_select. by apply Hmin.
Qed.

(** Inserting a row outside the filter changes nothing. *)
Lemma select_insert_other key p t i r :
  (forall a b c d, key a b = key c d -> a = c) ->
  t !! i = None -> p i r = false ->
  select key p (<[i := r]> t) = select key p t.
Proof.
  intros Hinj Hi Hp. apply select_unique.
  - intros a b c d _ _ _ _ Hk. exact (Hinj _ _ _ _ Hk).
  - apply select_sorted.
  - apply (NoDup_fmap_1 fst), NoDup_select.
  - intros j s. rewrite elem_of_select.
    destruct (decide (j = i)) as [->|Hne].
    + rewrite lookup_insert_eq, Hi. split; [naive_solver|]. intros [? ?]. congruence.
    + by rewrite lookup_insert_ne.
Qed.

(** When the first selected row stops qualifying, the others remain. *)
Lemma select_update_head key p t i r r' l :
  (forall a b c d, key a b = key c d -> a = c) ->
  select key p t = (i, r) :: l -> p i r' = false ->
  select key p (<[i := r']> t) = l.
Proof.
  intros Hinj Hsel Hp.
  pose proof (select_sorted key p t) as Hs. rewrite Hsel in Hs.
  pose proof (NoDup_select key p t) as Hnd. rewrite Hsel in Hnd.
  apply list.NoDup_cons in Hnd as [Hi Hnd].
  apply select_unique.
  - intros a b c d _ _ _ _ Hk. exact (Hinj _ _ _ _ Hk).
  - by apply StronglySorted_inv in Hs as [? _].
  - by apply (NoDup_fmap_1 fst).
  - intros j s. destruct (decide (j = i)) as [->|Hne].
    + rewrite lookup_insert_eq. split; [|intros [? ?]; congruence].
      intros Hin. destruct Hi. apply list_elem_of_fmap. by exists (i, s).
    + rewrite lookup_insert_ne, <- (elem_of_select key p), Hsel, elem_of_cons by done.
      naive_solver.
Qed.

(** Two filters that agree on the rows of the table select the same rows. *)
Lemma select_ext key p q t :
  (forall i r, t !! i = Some r -> p i r = q i r) -> select key p t = select key q t.
Proof.
  intros H. unfold select. f_equal. apply list_filter_ext_in.
  intros [i r] Hin%elem_of_map_to_list. simpl. by rewrite (H i r Hin).
Qed.

Lemma NoDup_limit n key p t : NoDup (limit n (select key p t)).*1.
Proof.
  unfold limit. rewrite fmap_take.
  eapply sublist_NoDup; [|apply sublist_take]. apply NoDup_select.
Qed.

Lemma elem_of_limit n x l : x ∈ limit n l -> x ∈ l.
Proof. unfold limit. apply subseteq_take. Qed.
End Select.

Section Update.
Context {R : Type}.
Implicit Types (t : gmap Z R) (f : R -> R).

(** [UPDATE .. SET f WHERE id = i AND cond RETURNING ..]. *)
Definition update_where (i : Z) (cond : R -> bool) f t : option R * gmap Z R :=
  match t !! i with
  | Some r => if cond r then (Some (f r), <[i := f r]> t) else (None, t)
  | None => (None, t)
  end.

Lemma update_where_Some i cond f t r' t' :
  update_where i cond f t = (Some r', t') ->
  exists r, t !! i = Some r /\ cond r = true /\ r' = f r /\ t' = <[i := f r]> t.
Proof. unfold update_where. intros ?. repeat case_match; simplify_eq; eauto. Qed.

Lemma update_where_None i cond f t t' :
  update_where i cond f t = (None, t') ->
  t' = t /\ forall r, t !! i = Some r -> cond r = false.
Proof.
  unfold update_where. intros ?. repeat case_match; simplify_eq; split; try done.
  intros ? [=]. congruence.
Qed.

Lemma update_where_hit i cond f t r :
  t !! i = Some r -> cond r = true ->
  update_where i cond f t = (Some (f r), <[i := f r]> t).
Proof. unfold update_where. by intros -> ->. Qed.

Lemma update_where_miss i cond f t :
  (forall r, t !! i = Some r -> cond r = false) -> update_where i cond f t = (None, t).
Proof. unfold update_where. intros H. case_match; [|done]. by rewrite (H _ eq_refl). Qed.

(** [UPDATE .. SET g FROM candidates WHERE id = candidates.id]; the new
    values may depend on the candidate row. *)
Definition update_ids (ids : list Z) (g : Z -> R -> R) t : gmap Z R :=
  foldr (fun i u => alter (g i) i u) t ids.

Lemma lookup_update_ids ids (g : Z -> R -> R) t j :
  NoDup ids ->
  update_ids ids g t !! j = if decide (j ∈ ids) then g j <$> t !! j else t !! j.
Proof.
  unfold update_ids. induction 1 as [|i ids Hi Hnd IH]; cbn [foldr]; [done|].
  rewrite lookup_alter. destruct (decide (i = j)) as [<-|Hne].
  - rewrite IH. rewrite (decide_True (P := i ∈ i :: ids)) by left.
    by rewrite (decide_False (P := i ∈ ids)).
  - rewrite IH. destruct (decide (j ∈ ids)).
    + by rewrite decide_True by (by right).
    + rewrite decide_False; [done|]. by intros [->|?]%elem_of_cons.
Qed.
End Update.

(** ** Draining a selection one row at a time

    A worker that repeatedly takes the first row and updates it so that it
    no longer qualifies sees the rows of the initial selection in order. *)
Section Drain.
Context {R : Type} (key : Z -> R -> list Z) (p : Z -> R -> bool) (g : Z -> R -> R).

Fixpoint drain (n : nat) (t : gmap Z R) : list (Z * R) * gmap Z R :=
  match n with
  | O => ([], t)
  | S n =>
      match select_one key p t with
      | None => ([], t)
      | Some (i, r) => let '(l, t') := drain n (<[i := g i r]> t) in ((i, r) :: l, t')
      end
  end.

Lemma drain_spec n t :
  (forall a b c d, key a b = key c d -> a = c) ->
  (forall i r, p i r = true -> p i (g i r) = false) ->
  drain n t = (take n (select key p t), update_ids (take n (select key p t)).*1 g t).
Proof.
  intros Hinj Hp. revert t. induction n as [|n IH]; intros t; [done|].
  cbn [drain]. unfold select_one.
  destruct (select key p t) as [|[i r] l] eqn:E; [done|]. cbn [head].
  assert ((i, r) ∈ select key p t) as [Hi Hpi]%elem_of_select by (rewrite E; left).
  pose proof (NoDup_select key p t) as Hnd. rewrite E in Hnd.
  apply list.NoDup_cons in Hnd as [Hni Hnd].
  rewrite IH, (select_update_head key p t i r (g i r) l) by auto.
  cbn [take fmap list_fmap fst]. f_equal. apply map_eq. intros j.
  assert (NoDup (take n l).*1) as Hnt.
  { rewrite fmap_take. eapply sublist_NoDup; [exact Hnd|apply sublist_take]. }
  assert (i ∉ (take n l).*1) as Hnit.
  { rewrite fmap_take. intros Hin. by apply subseteq_take in Hin. }
  rewrite !lookup_update_ids by (done || by apply list.NoDup_cons).
  destruct (decide (j = i)) as [->|Hne].
  - rewrite (decide_False (P := i ∈ _)) by done.
    rewrite decide_True by left. by rewrite lookup_insert_eq, Hi.
  - rewrite lookup_insert_ne by done. destruct (decide (j ∈ (take n l).*1)) as [Hj|Hj].
    + by rewrite decide_True by (by right).
    + by rewrite decide_False by (by intros [->|?]%elem_of_cons).
Qed.
End Drain.

#[export] Hint Resolve NoDup_select select_sorted : soar.

(** * A database connection with one open transaction

    [D] is the part of the database a component works on.  A statement that
    fails in the database aborts the transaction: every later statement is
    refused until a rollback, and a commit then rolls back. *)

Section Connection.
Context {D : Type} `{Transactional D}.

Record conn := Conn { cn_committed : D; cn_current : D; cn_aborted : bool }.

Definition open_conn (d : D) : conn := Conn d d false.

Definition in_failed_transaction : exn :=
  DatabaseError "current transaction is aborted, commands ignored until end of transaction block".

Definition execute {A} (m : M D A) : M conn A := fun c =>
  if cn_aborted c then (Raise in_failed_transaction, c)
  else match m (cn_current c) with
       | (Ok a, d) => (Ok a, Conn (cn_committed c) d false)
       | (Raise e, d) => (Raise e, Conn (cn_committed c) d (is_db_error e))
       end.

Definition rollback_conn : M conn unit := fun c =>
  let d := restore (cn_committed c) (cn_current c) in (Ok tt, Conn d d false).

Definition commit_conn : M conn unit := fun c =>
  if cn_aborted c then rollback_conn c
  else (Ok tt, Conn (cn_current c) (cn_current c) false).

(** [SAVEPOINT; m; RELEASE], rolling back to the savepoint on any exception,
    which is logged and swallowed.  In an aborted transaction the SAVEPOINT
    itself is refused, and that error is swallowed too. *)
Definition savepoint_conn {A} (m : M D A) : M conn (option A) := fun c =>
  if cn_aborted c then (Ok None, c)
  else match m (cn_current c) with
       | (Ok a, d) => (Ok (Some a), Conn (cn_committed c) d false)
       | (Raise _, d) => (Ok None, Conn (cn_committed c) (restore (cn_current c) d) false)
       end.

Lemma execute_ok {A} (m : M D A) c a d :
  cn_aborted c = false -> m (cn_current c) = (Ok a, d) ->
  execute m c = (Ok a, Conn (cn_committed c) d false).
Proof. unfold execute. by intros -> ->. Qed.

Lemma execute_committed {A} (m : M D A) c : cn_committed (execute m c).2 = cn_committed c.
Proof. unfold execute. destruct (cn_aborted c); [done|]. by destruct (m (cn_current c)) as [[] ?]. Qed.
End Connection.
Arguments conn : clear implicits.

(** Statements on a part of the database, over the connection to all of it;
    [m] must not end the transaction. *)
Definition zoom_conn {D T A} (prj : D -> T) (upd : T -> D -> D) (m : M (conn T) A) : M (conn D) A := fun c =>
  match m (Conn (prj (cn_committed c)) (prj (cn_current c)) (cn_aborted c)) with
  | (o, t) => (o, Conn (cn_committed c) (upd (cn_current t) (cn_current c)) (cn_aborted t))
  end.
