(* ===== verification/PyText.v ===== *)
(** * PyText: the string operations of Python the code uses

    A Python string is modelled as a Rocq [string] whose characters are the
    code points below 256, so [str.strip] and [str.lower] are the Unicode
    operations restricted to that range. *)

From S2P Require Import Prelude.
From stdpp Require Export pretty.
From Stdlib Require Export Ascii.

Open Scope Z_scope.

(** [str.isspace] of one character. *)
Definition is_space (c : ascii) : bool :=
  let n := N.to_nat (N_of_ascii c) in
  ((9 <=? n) && (n <=? 13) || (28 <=? n) && (n <=? 32) || (n =? 133) || (n =? 160))%nat.

(** [str.lower] of one character. *)
Definition lower_char (c : ascii) : ascii :=
  let n := N_of_ascii c in
  if ((65 <=? n) && (n <=? 90) || (192 <=? n) && (n <=? 222) && negb (n =? 215))%N
  then ascii_of_N (n + 32) else c.

Fixpoint lower (s : string) : string :=
  match s with
  | EmptyString => EmptyString
  | String c s => String (lower_char c) (lower s)
  end.

(** [str.upper] of one character; the two whose capital is beyond code point
    255 stay. *)
Definition upper_char (c : ascii) : ascii :=
  let n := N_of_ascii c in
  if ((97 <=? n) && (n <=? 122) || (224 <=? n) && (n <=? 254) && negb (n =? 247))%N then ascii_of_N (n - 32) else c.
Definition sharp_s : ascii := ascii_of_N 223.
Fixpoint upper (s : string) : string :=
  match s with
  | EmptyString => EmptyString
  | String c s => (if Ascii.eqb c sharp_s then "SS" else String (upper_char c) EmptyString) +:+ upper s
  end.

Fixpoint lstrip (s : string) : string :=
  match s with
  | EmptyString => EmptyString
  | String c s' => if is_space c then lstrip s' else s
  end.

Fixpoint rstrip (s : string) : string :=
  match s with
  | EmptyString => EmptyString
  | String c s' =>
      match rstrip s' with
      | EmptyString => if is_space c then EmptyString else String c EmptyString
      | t => String c t
      end
  end.

(** [str.strip()]. *)
Definition strip (s : string) : string := rstrip (lstrip s).

(** [not s] for a string. *)
Definition is_empty (s : string) : bool :=
  match s with EmptyString => true | _ => false end.

Definition str_in (s : string) (l : list string) : bool := existsb (String.eqb s) l.

#[global] Arguments str_in : simpl never.

Definition is_digit (c : ascii) : bool :=
  let n := N_of_ascii c in ((48 <=? n) && (n <=? 57))%N.
Definition is_lower_alpha (c : ascii) : bool :=
  let n := N_of_ascii c in ((97 <=? n) && (n <=? 122))%N.

Fixpoint all_chars (p : ascii -> bool) (s : string) : bool :=
  match s with
  | EmptyString => true
  | String c s => p c && all_chars p s
  end.

(** [needle in s]. *)
Fixpoint contains (needle s : string) : bool :=
  String.prefix needle s ||
  match s with EmptyString => false | String _ s' => contains needle s' end.

Fixpoint drop_prefix (p s : string) : option string :=
  match p, s with
  | EmptyString, _ => Some s
  | String a p, String b s => if Ascii.eqb a b then drop_prefix p s else None
  | _, EmptyString => None
  end.

(** [s.endswith(suffix)]. *)
Fixpoint ends_with (suffix s : string) : bool :=
  String.eqb suffix s ||
  match s with EmptyString => false | String _ s' => ends_with suffix s' end.

Definition starts_nonspace (s : string) : bool :=
  match s with String c _ => negb (is_space c) | EmptyString => false end.

(** [https?://] at the start of a lower-case string: what follows it. *)
Definition url_scheme (s : string) : option string :=
  match drop_prefix "http" s with
  | None => None
  | Some s =>
      match drop_prefix "s://" s with
      | Some s => Some s
      | None => drop_prefix "://" s
      end
  end.

(** [re.search(r"https?://[^\s]+", s, IGNORECASE)]. *)
Fixpoint find_url (s : string) : bool :=
  match url_scheme s with Some t => starts_nonspace t | None => false end ||
  match s with EmptyString => false | String _ s' => find_url s' end.

Definition has_url (s : string) : bool := find_url (lower s).

(** VARCHAR(n) and SQL's [length(trim(s)) > 0], which trims spaces only. *)
Definition varchar (n : nat) (s : string) : bool := (String.length s <=? n)%nat.

Fixpoint sql_blank (s : string) : bool :=
  match s with EmptyString => true | String c s => Ascii.eqb c " " && sql_blank s end.

(** [s.split(sep)] for a one-character separator. *)
Fixpoint split_on (sep : ascii) (s : string) : list string :=
  match s with
  | EmptyString => [EmptyString]
  | String c s =>
      if Ascii.eqb c sep then EmptyString :: split_on sep s
      else match split_on sep s with
           | [] => [String c EmptyString]
           | w :: ws => String c w :: ws
           end
  end.

Definition char_in (c : ascii) (s : string) : bool := negb (all_chars (fun d => negb (Ascii.eqb d c)) s).

Definition digit_value (c : ascii) : Z := Z.of_N (N_of_ascii c) - 48.

(** [int(s)] of a string of decimal digits. *)
Fixpoint decimal_from (s : string) (acc : Z) : Z :=
  match s with
  | EmptyString => acc
  | String c s => decimal_from s (10 * acc + digit_value c)
  end.
Definition decimal (s : string) : Z := decimal_from s 0.

(** [str(n)] of an integer. *)
Definition str_int (z : Z) : string := pretty z.

Lemma str_app_assoc (a b c : string) : (a +:+ b) +:+ c = a +:+ (b +:+ c).
Proof.
  induction a as [|x a IH]; [done|].
  change (String x ((a +:+ b) +:+ c) = String x (a +:+ (b +:+ c))). by rewrite IH.
Qed.

Lemma str_in_spec s l : str_in s l = true <-> s ∈ l.
Proof.
  unfold str_in. rewrite existsb_exists. split.
  - intros (x & Hin & ->%String.eqb_eq). by apply list_elem_of_In.
  - intros Hin%list_elem_of_In. exists s. by rewrite String.eqb_refl.
Qed.

Lemma is_empty_spec s : is_empty s = true <-> s = EmptyString.
Proof. by destruct s. Qed.

Lemma split_on_absent sep s :
  all_chars (fun d => negb (Ascii.eqb d sep)) s = true -> split_on sep s = [s].
Proof.
  induction s as [|c s IH]; simpl; [done|]. intros [Hc Hs]%andb_true_iff.
  rewrite negb_true_iff in Hc. by rewrite Hc, IH.
Qed.

Lemma split_on_nonempty sep s : split_on sep s <> [].
Proof. destruct s as [|c s]; simpl; [done|]. repeat case_match; done. Qed.

Lemma split_on_single sep s w : split_on sep s = [w] -> w = s.
Proof.
  revert w. induction s as [|c s IH]; simpl; intros w; [by intros [= <-]|].
  destruct (Ascii.eqb c sep).
  - intros [= _ H]. by apply split_on_nonempty in H.
  - destruct (split_on sep s) as [|u us] eqn:E; [by apply split_on_nonempty in E|].
    intros [= <- ->]. f_equal. by apply IH.
Qed.

(** A property of every character holds of a string when it holds of the
    separator and of the parts. *)
Lemma split_on_all sep p s :
  p sep = true -> Forall (fun w => all_chars p w = true) (split_on sep s) -> all_chars p s = true.
Proof.
  intros Hsep. induction s as [|c s IH]; simpl; [done|].
  destruct (Ascii.eqb c sep) eqn:Ec.
  - apply Ascii.eqb_eq in Ec as ->. rewrite Forall_cons. intros [_ H]. rewrite Hsep. simpl. auto.
  - destruct (split_on sep s) as [|w ws]; rewrite Forall_cons; simpl; intros [H1 H2];
      apply andb_true_iff in H1 as [-> H1]; simpl; apply IH; by constructor.
Qed.

Lemma all_chars_impl (p q : ascii -> bool) s :
  (forall c, p c = true -> q c = true) -> all_chars p s = true -> all_chars q s = true.
Proof.
  intros H. induction s as [|c s IH]; simpl; [done|]. rewrite !andb_true_iff. intros [? ?]. auto.
Qed.

(** A URL at the start of the text; [\S+] takes it up to the next space. *)
Definition url_here (s : string) : bool :=
  match url_scheme (lower s) with Some t => starts_nonspace t | None => false end.

(** [re.sub(r"https?://\S+", marker, s, IGNORECASE)]; [skipping] inside a
    match. *)
Fixpoint redact_urls (marker : string) (skipping : bool) (s : string) : string :=
  match s with
  | EmptyString => EmptyString
  | String c s' =>
      if skipping
      then (if is_space c then String c (redact_urls marker false s') else redact_urls marker true s')
      else if url_here s then marker +:+ redact_urls marker true s'
      else String c (redact_urls marker false s')
  end.

(** Turn boolean facts about strings into propositions. *)
Ltac text_simpl := repeat match goal with
  | Heq : String.eqb _ _ = true |- _ => rewrite String.eqb_eq in Heq
  | Hneg : negb _ = false |- _ => rewrite negb_false_iff in Hneg
  | Hin : str_in _ _ = true |- _ => apply str_in_spec in Hin
  | Hor : _ || _ = false |- _ => apply orb_false_iff in Hor as [? ?]
  | Hneg : negb _ = true |- _ => rewrite negb_true_iff in Hneg
  | Hand : _ && _ = true |- _ => apply andb_true_iff in Hand as [? ?]
  | Hne : String.eqb _ _ = false |- _ => rewrite String.eqb_neq in Hne
  end.

Section Strip.
Definition starts_clean (s : string) : Prop :=
  match s with EmptyString => True | String c _ => is_space c = false end.

Lemma lstrip_clean s : starts_clean (lstrip s).
Proof. induction s as [|c s IH]; simpl; [done|]. by case_match. Qed.

Lemma lstrip_id s : starts_clean s -> lstrip s = s.
Proof. destruct s as [|c s]; simpl; [done|]. by intros ->. Qed.

Lemma rstrip_starts_clean s : starts_clean s -> starts_clean (rstrip s).
Proof.
  destruct s as [|c s]; simpl; [done|]. intros Hc.
  destruct (rstrip s); simpl; [|done]. by rewrite Hc.
Qed.

Lemma rstrip_idemp s : rstrip (rstrip s) = rstrip s.
Proof.
  induction s as [|c s IH]; simpl; [done|].
  destruct (rstrip s) as [|d t] eqn:E.
  - destruct (is_space c) eqn:Hc; simpl; [done|]. by rewrite Hc.
  - change (rstrip (String c (String d t)))
      with (match rstrip (String d t) with
            | EmptyString => if is_space c then EmptyString else String c EmptyString
            | u => String c u end).
    by rewrite IH.
Qed.

(** Stripping twice is stripping once. *)
Lemma strip_idemp s : strip (strip s) = strip s.
Proof.
  unfold strip. rewrite lstrip_id by apply rstrip_starts_clean, lstrip_clean.
  apply rstrip_idemp.
Qed.
End Strip.

(** Stripping and lower case commute. *)
Lemma space_lower c : is_space (lower_char c) = is_space c.
Proof. by destruct c as [[] [] [] [] [] [] [] []]. Qed.

Lemma lower_char_twice c : lower_char (lower_char c) = lower_char c.
Proof. by destruct c as [[] [] [] [] [] [] [] []]. Qed.

Lemma lower_twice s : lower (lower s) = lower s.
Proof. induction s as [|c s IH]; [done|]. cbn. by rewrite lower_char_twice, IH. Qed.

Lemma strip_of_lower s : strip (lower s) = lower (strip s).
Proof.
  assert (forall x, rstrip (lower x) = lower (rstrip x)) as Hr.
  { intros x. induction x as [|c x IH]; [done|]. cbn. rewrite IH. destruct (rstrip x); cbn; [|done].
    rewrite space_lower. by destruct (is_space c). }
  unfold strip. induction s as [|c s IH]; [done|]. cbn. rewrite space_lower. destruct (is_space c); [exact IH|].
  exact (Hr (String c s)).
Qed.

Lemma starts_clean_sql_blank s : starts_clean s -> is_empty s = false -> sql_blank s = false.
Proof.
  destruct s as [|c s]; [done|]. simpl. intros Hc _. apply andb_false_iff. left.
  apply Ascii.eqb_neq. by intros ->.
Qed.

(** A non-empty stripped string passes the schema's trim check. *)
Lemma strip_sql_blank s : is_empty (strip s) = false -> sql_blank (strip s) = false.
Proof. apply starts_clean_sql_blank. apply rstrip_starts_clean, lstrip_clean. Qed.

#[export] Hint Rewrite strip_idemp : soar.
#[export] Hint Resolve strip_sql_blank : soar.
