(* ===== verification/PyFloat.v ===== *)
(** * PyFloat: Python floats

    A Python float is an IEEE-754 binary64 value, here [spec_float] at
    precision 53 and maximal exponent 1024.  [float(int)] and [float(str)]
    round to nearest even; [repr] prints the shortest decimal that reads
    back as the same float, the closest one when there are several. *)

From S2P Require Import Prelude PyText.
From Stdlib Require Export SpecFloat.

Open Scope Z_scope.

Abbreviation pyfloat := spec_float.

#[export] Instance spec_float_eq_dec : EqDecision spec_float.
Proof. solve_decision. Defined.

(** Correctly rounded [n / d]. *)
Definition float_of_ratio (n : Z) (d : positive) : pyfloat :=
  if n =? 0 then S754_zero false else
  let a := Z.abs n in
  let s := Z.max 0 (Z.log2 (Z.pos d) - Z.log2 a + 56) in
  let '(q, r) := Z.div_eucl (Z.shiftl a s) (Z.pos d) in
  let loc := if r =? 0 then loc_Exact else loc_Inexact (Z.compare (2 * r) (Z.pos d)) in
  binary_round_aux 53 1024 (n <? 0) q (- s) loc.

Definition pow10 (k : Z) : Z := 10 ^ k.

(** Correctly rounded [m * 10^e]. *)
Definition float_of_dec (m e : Z) : pyfloat :=
  if 0 <=? e then float_of_ratio (m * pow10 e) 1
  else float_of_ratio m (Z.to_pos (pow10 (- e))).

(** [float(z)]: [OverflowError] beyond the largest float. *)
Definition float_of_int (z : Z) : outcome pyfloat :=
  match binary_normalize 53 1024 z 0 false with
  | S754_infinity _ => Raise OverflowError
  | f => Ok f
  end.

Definition feq (a b : pyfloat) : bool := SFeqb a b.
Definition flt (a b : pyfloat) : bool := SFltb a b.
Definition fle (a b : pyfloat) : bool := SFleb a b.

(** [bool(x)] of a float. *)
Definition float_truthy (f : pyfloat) : bool :=
  match f with S754_zero _ => false | _ => true end.

(** ** repr *)

Fixpoint zeros (n : nat) : string :=
  match n with O => EmptyString | S n => String "0" (zeros n) end.

Fixpoint strip_zeros_right (s : string) : string :=
  match s with
  | EmptyString => EmptyString
  | String c s' =>
      match strip_zeros_right s' with
      | EmptyString => if Ascii.eqb c "0" then EmptyString else String c EmptyString
      | t => String c t
      end
  end.

(** The numerator and denominator of a positive finite float. *)
Definition ratio_of (m : positive) (e : Z) : Z * Z :=
  if 0 <=? e then (Z.shiftl (Z.pos m) e, 1) else (Z.pos m, Z.shiftl 1 (- e)).

(** The decimal exponent k with 10^(k-1) <= x < 10^k, by search from an
    estimate that is off by at most one. *)
Definition dec_exponent (n d : Z) : Z :=
  let est := ((Z.log2 n - Z.log2 d) * 30103) / 100000 in
  let ge k := if 0 <=? k then pow10 k * d <=? n else d <=? n * pow10 (- k) in
  if ge (est + 1) then est + 2 else if ge est then est + 1
  else if ge (est - 1) then est else est - 1.

(** The [p]-digit decimals around x, with the decimal exponent of their last digit. *)
Definition digit_candidates (n d k : Z) (p : Z) : Z * Z * comparison :=
  let sh := p - k in
  let '(a, b) := if 0 <=? sh then (n * pow10 sh, d) else (n, d * pow10 (- sh)) in
  let c := a / b in
  (c, k - p, Z.compare (2 * (a - c * b)) b).

Fixpoint shortest (fuel : nat) (p : Z) (x : pyfloat) (n d k : Z) : Z * Z :=
  let '(c, e, half) := digit_candidates n d k p in
  let lo := bool_decide (float_of_dec c e = x) in
  let hi := bool_decide (float_of_dec (c + 1) e = x) in
  match fuel with
  | O => (c, e)
  | S fuel =>
      if lo && hi then (match half with Gt => c + 1 | Eq => if Z.even c then c else c + 1 | Lt => c end, e)
      else if lo then (c, e)
      else if hi then (c + 1, e)
      else shortest fuel (p + 1) x n d k
  end.

Definition exp_suffix (x : Z) : string :=
  let a := str_int (Z.abs x) in
  "e" +:+ (if x <? 0 then "-" else "+") +:+ (if Z.abs x <? 10 then "0" +:+ a else a).

Definition format_digits (c e : Z) : string :=
  let full := str_int c in
  let ds := strip_zeros_right full in
  let len := Z.of_nat (String.length ds) in
  let decpt := Z.of_nat (String.length full) + e in
  if (-4 <? decpt) && (decpt <=? 16) then
    if decpt <=? 0 then "0." +:+ zeros (Z.to_nat (- decpt)) +:+ ds
    else if len <=? decpt then ds +:+ zeros (Z.to_nat (decpt - len)) +:+ ".0"
    else String.substring 0 (Z.to_nat decpt) ds +:+ "." +:+
         String.substring (Z.to_nat decpt) (Z.to_nat (len - decpt)) ds
  else
    String.substring 0 1 ds +:+
    (if len =? 1 then EmptyString else "." +:+ String.substring 1 (Z.to_nat (len - 1)) ds) +:+
    exp_suffix (decpt - 1).

(** [repr(x)], which is also [str(x)]. *)
Definition float_repr (x : pyfloat) : string :=
  match x with
  | S754_zero s => if s then "-0.0" else "0.0"
  | S754_infinity s => if s then "-inf" else "inf"
  | S754_nan => "nan"
  | S754_finite s m e =>
      let '(n, d) := ratio_of m e in
      let '(c, e10) := shortest 17 1 (S754_finite false m e) n d (dec_exponent n d) in
      (if s then "-" else EmptyString) +:+ format_digits c e10
  end.

(** ** float(str) *)

(** Decimal digits, with single underscores allowed between two of them. *)
Fixpoint take_digits (s : string) (acc : Z) (cnt : Z) : Z * Z * string :=
  match s with
  | String c s' =>
      if is_digit c then
        take_digits s' (acc * 10 + Z.of_N (N_of_ascii c) - 48) (cnt + 1)
      else if Ascii.eqb c "_" && (0 <? cnt) then
        match s' with
        | String c' _ => if is_digit c' then take_digits s' acc cnt else (acc, cnt, s)
        | EmptyString => (acc, cnt, s)
        end
      else (acc, cnt, s)
  | EmptyString => (acc, cnt, s)
  end.

Definition take_sign (s : string) : bool * string :=
  match s with
  | String "-" s' => (true, s')
  | String "+" s' => (false, s')
  | _ => (false, s)
  end.

(** The exponent part: [Some] value and rest, or [None] when malformed. *)
Definition take_exponent (s : string) : option Z :=
  match s with
  | EmptyString => Some 0
  | String c s' =>
      if Ascii.eqb c "e" then
        let '(neg, s'') := take_sign s' in
        let '(v, n, rest) := take_digits s'' 0 0 in
        if (0 <? n) && is_empty rest then Some (if neg then - v else v) else None
      else None
  end.

Definition apply_sign (neg : bool) (f : pyfloat) : pyfloat := if neg then SFopp f else f.

(** [float(s)]; [None] is the [ValueError] for a malformed literal. *)
Definition parse_float (s : string) : option pyfloat :=
  let '(neg, body) := take_sign (lower (strip s)) in
  if str_in body ["inf"; "infinity"] then Some (apply_sign neg (S754_infinity false))
  else if String.eqb body "nan" then Some S754_nan
  else
    let '(ip, icnt, rest) := take_digits body 0 0 in
    let '(m, fcnt, rest') :=
      match rest with
      | String "." r => take_digits r ip 0
      | _ => (ip, 0, rest)
      end in
    if icnt + fcnt =? 0 then None
    else match take_exponent rest' with
         | Some e => Some (apply_sign neg (float_of_dec m (e - fcnt)))
         | None => None
         end.
