(* ===== verification/PyValue.v ===== *)
(** * PyValue: dynamically typed Python values

    JSON columns (playbook steps, trigger configurations, step logs), rows
    returned as dicts and request parameters are values of [pyval].  A dict
    is an association list in insertion order with string keys. *)

From S2P Require Import Prelude PyText PyFloat.

Open Scope Z_scope.

(** [datetime]: broken-down fields and the UTC offset in minutes, if aware. *)
Record pydatetime := PyDateTime {
  dt_year : Z; dt_month : Z; dt_day : Z;
  dt_hour : Z; dt_minute : Z; dt_second : Z; dt_micro : Z;
  dt_offset : option Z;
}.

(** [PDec m e] is the [decimal.Decimal] of value m * 10^e. *)
Inductive pyval :=
  | PNone
  | PBool (b : bool)
  | PInt (z : Z)
  | PFloat (f : pyfloat)
  | PDec (m e : Z)
  | PStr (s : string)
  | PDateTime (d : pydatetime)
  | PDate (year month day : Z)
  | PList (l : list pyval)
  | PDict (d : list (string * pyval)).

Abbreviation pydict := (list (string * pyval)).

(** Induction that reaches the values inside lists and dicts. *)
Section PyvalInd.
Context (P : pyval -> Prop).
Context (Hnone : P PNone) (Hbool : forall b, P (PBool b)) (Hint : forall z, P (PInt z))
  (Hfloat : forall f, P (PFloat f)) (Hdec : forall m e, P (PDec m e)) (Hstr : forall s, P (PStr s))
  (Hdt : forall d, P (PDateTime d)) (Hdate : forall y m d, P (PDate y m d))
  (Hlist : forall l, Forall P l -> P (PList l))
  (Hdict : forall d : pydict, Forall (fun kv => P kv.2) d -> P (PDict d)).

Fixpoint pyval_nested_ind (v : pyval) : P v :=
  match v with
  | PNone => Hnone | PBool b => Hbool b | PInt z => Hint z | PFloat f => Hfloat f
  | PDec m e => Hdec m e | PStr s => Hstr s | PDateTime d => Hdt d
  | PDate y m d => Hdate y m d
  | PList l => Hlist l ((fix go l : Forall P l :=
      match l with
      | [] => Forall_nil_2 P
      | v :: l => Forall_cons_2 P v l (pyval_nested_ind v) (go l)
      end) l)
  | PDict d => Hdict d ((fix go (d : pydict) : Forall (fun kv => P kv.2) d :=
      match d with
      | [] => Forall_nil_2 _
      | kv :: d => Forall_cons_2 _ kv d (pyval_nested_ind kv.2) (go d)
      end) d)
  end.
End PyvalInd.

(** ** Dicts *)

Fixpoint dlookup (d : pydict) (k : string) : option pyval :=
  match d with
  | [] => None
  | (k', v) :: d => if String.eqb k' k then Some v else dlookup d k
  end.

(** [d.get(k)]. *)
Definition dget (d : pydict) (k : string) : pyval := default PNone (dlookup d k).

(** [k in d]. *)
Definition dmem (d : pydict) (k : string) : bool :=
  match dlookup d k with Some _ => true | None => false end.

(** [d[k]]. *)
Definition dindex (d : pydict) (k : string) : outcome pyval :=
  match dlookup d k with Some v => Ok v | None => Raise (KeyError k) end.

(** [d[k] = v]: in place when the key exists, at the end otherwise. *)
Fixpoint dset (d : pydict) (k : string) (v : pyval) : pydict :=
  match d with
  | (k', v') :: d => if String.eqb k' k then (k', v) :: d else (k', v') :: dset d k v
  | [] => [(k, v)]
  end.

(** [{**base, **extra}]. *)
Definition dmerge (base extra : pydict) : pydict := foldl (fun d kv => dset d kv.1 kv.2) base extra.

(** A nullable column as a value. *)
Definition opt_text (o : option string) : pyval := match o with Some s => PStr s | None => PNone end.
Definition opt_int (o : option Z) : pyval := match o with Some z => PInt z | None => PNone end.

(** ** isinstance and truth *)

Definition is_none (v : pyval) : bool := match v with PNone => true | _ => false end.

(** [bool(v)]. *)
Definition truthy (v : pyval) : bool :=
  match v with
  | PNone => false
  | PBool b => b
  | PInt z => negb (z =? 0)
  | PFloat f => float_truthy f
  | PDec m _ => negb (m =? 0)
  | PStr s => negb (is_empty s)
  | PDateTime _ | PDate _ _ _ => true
  | PList l => match l with [] => false | _ => true end
  | PDict d => match d with [] => false | _ => true end
  end.

(** [a or b]. *)
Definition py_or (a b : pyval) : pyval := if truthy a then a else b.

(** [v if isinstance(v, dict) else {}]. *)
Definition dict_or_empty (v : pyval) : pydict := match v with PDict d => d | _ => [] end.

(** [isinstance(v, dict)]: the dict, when it is one. *)
Definition as_dict (v : pyval) : option pydict := match v with PDict d => Some d | _ => None end.
Definition as_list (v : pyval) : option (list pyval) := match v with PList l => Some l | _ => None end.
Definition as_str (v : pyval) : option string := match v with PStr s => Some s | _ => None end.

(** [isinstance(v, str) and v]. *)
Definition as_nonempty_str (v : pyval) : option string :=
  match v with PStr s => if is_empty s then None else Some s | _ => None end.

(** [isinstance(v, int)]: a bool is an int. *)
Definition as_int (v : pyval) : option Z :=
  match v with PInt z => Some z | PBool b => Some (if b then 1 else 0) | _ => None end.

(** [isinstance(v, int) and not isinstance(v, bool)]. *)
Definition as_strict_int (v : pyval) : option Z := match v with PInt z => Some z | _ => None end.

(** [v in frozenset_of_strings]: a list or a dict is unhashable. *)
Definition in_str_set (v : pyval) (l : list string) : outcome bool :=
  match v with
  | PStr s => Ok (str_in s l)
  | PList _ | PDict _ => Raise TypeError
  | _ => Ok false
  end.

(** [v == s] for a string [s]. *)
Definition eq_str (v : pyval) (s : string) : bool :=
  match v with PStr t => String.eqb t s | _ => false end.

(** The UTC datetime at an instant, in the proleptic Gregorian calendar. *)
Definition civil_date (days : Z) : Z * Z * Z :=
  let z := days + 719468 in
  let era := z / 146097 in
  let doe := z mod 146097 in
  let yoe := (doe - doe / 1460 + doe / 36524 - doe / 146096) / 365 in
  let doy := doe - (365 * yoe + yoe / 4 - yoe / 100) in
  let mp := (5 * doy + 2) / 153 in
  let day := doy - (153 * mp + 2) / 5 + 1 in
  let month := if mp <? 10 then mp + 3 else mp - 9 in
  (yoe + era * 400 + (if month <=? 2 then 1 else 0), month, day).

Definition utc_datetime (t : Z) : pydatetime :=
  let second := t / 1000000 in
  let '(y, m, d) := civil_date (second / 86400) in
  PyDateTime y m d (second mod 86400 / 3600) (second mod 3600 / 60) (second mod 60) (t mod 1000000) (Some 0).

(** ** str, repr, float *)

Definition pad (n : nat) (z : Z) : string :=
  let s := str_int z in zeros (n - String.length s) +:+ s.

Definition iso_date (y m d : Z) : string := pad 4 y +:+ "-" +:+ pad 2 m +:+ "-" +:+ pad 2 d.

(** [dt.isoformat(sep)]. *)
Definition isoformat (sep : string) (d : pydatetime) : string :=
  iso_date (dt_year d) (dt_month d) (dt_day d) +:+ sep +:+
  pad 2 (dt_hour d) +:+ ":" +:+ pad 2 (dt_minute d) +:+ ":" +:+ pad 2 (dt_second d) +:+
  (if dt_micro d =? 0 then EmptyString else "." +:+ pad 6 (dt_micro d)) +:+
  match dt_offset d with
  | None => EmptyString
  | Some o => (if o <? 0 then "-" else "+") +:+ pad 2 (Z.abs o / 60) +:+ ":" +:+ pad 2 (Z.abs o mod 60)
  end.

(** [str(Decimal)]. *)
Definition decimal_str (m e : Z) : string :=
  let ds := str_int (Z.abs m) in
  let len := Z.of_nat (String.length ds) in
  let left := e + len in
  let dot := if (e <=? 0) && (-6 <? left) then left else 1 in
  let body :=
    if dot <=? 0 then "0." +:+ zeros (Z.to_nat (- dot)) +:+ ds
    else if len <=? dot then ds +:+ zeros (Z.to_nat (dot - len))
    else String.substring 0 (Z.to_nat dot) ds +:+ "." +:+
         String.substring (Z.to_nat dot) (Z.to_nat (len - dot)) ds in
  (if m <? 0 then "-" else EmptyString) +:+ body +:+
  (if left =? dot then EmptyString
   else "E" +:+ (if left - dot <? 0 then "-" else "+") +:+ str_int (Z.abs (left - dot))).

Definition hex_digit (n : N) : ascii := ascii_of_N (if (n <? 10)%N then n + 48 else n + 87).

(** One character inside a [repr] quoted with [q]. *)
Definition repr_char (q c : ascii) : string :=
  let n := N_of_ascii c in
  if (Ascii.eqb c q || (n =? 92)%N) then String "\" (String c EmptyString)
  else if (n =? 10)%N then "\n" else if (n =? 13)%N then "\r" else if (n =? 9)%N then "\t"
  else if ((32 <=? n) && (n <=? 126) || (161 <=? n) && negb (n =? 173))%N
  then String c EmptyString
  else "\x" +:+ String (hex_digit (n / 16)) (String (hex_digit (n mod 16)) EmptyString).

Fixpoint repr_chars (q : ascii) (s : string) : string :=
  match s with
  | EmptyString => EmptyString
  | String c s => repr_char q c +:+ repr_chars q s
  end.

Definition squote : ascii := ascii_of_N 39.
Definition dquote : ascii := ascii_of_N 34.

Definition str_repr (s : string) : string :=
  let q := if contains (String squote EmptyString) s && negb (contains (String dquote EmptyString) s)
           then dquote else squote in
  String q (repr_chars q s +:+ String q EmptyString).

(** [str(error)]. *)
Definition exn_str (e : exn) : string :=
  match e with
  | ValueError m | QueueTransitionError m | SkippedAction m _ | RetryableActionError m _
  | ProtectedTargetConfigError m | CanonicalActionValidationError m _ | OutcomeValidationError m
  | BranchConditionError _ m | ParamBindingError _ m | IntegrityError m | DatabaseError m
  | OtherException m => m
  | TypeError | OverflowError => EmptyString
  | KeyError k => str_repr k
  end.

(** The order of [sorted] on strings. *)
Definition str_le (a b : string) : Prop := String.leb a b = true.
#[export] Instance str_le_dec : RelDecision str_le.
Proof. intros a b. unfold str_le. apply _. Defined.

(** [sorted(allowed)] as the messages print it. *)
Definition show_choices (allowed : list string) : string :=
  "[" +:+ String.concat ", " (map str_repr (merge_sort str_le allowed)) +:+ "]".

Definition datetime_repr (d : pydatetime) : string :=
  "datetime.datetime(" +:+
  String.concat ", " (map str_int ([dt_year d; dt_month d; dt_day d; dt_hour d; dt_minute d] ++
     (if (dt_second d =? 0) && (dt_micro d =? 0) then [] else [dt_second d]) ++
     (if dt_micro d =? 0 then [] else [dt_micro d]))) +:+
  match dt_offset d with
  | None => ")"
  | Some 0 => ", tzinfo=datetime.timezone.utc)"
  | Some o => ", tzinfo=datetime.timezone(datetime.timedelta(" +:+
              (if o <? 0 then "days=-1, seconds=" +:+ str_int (86400 + 60 * o)
               else "seconds=" +:+ str_int (60 * o)) +:+ ")))"
  end.

Fixpoint py_repr (v : pyval) : string :=
  match v with
  | PNone => "None"
  | PBool b => if b then "True" else "False"
  | PInt z => str_int z
  | PFloat f => float_repr f
  | PDec m e => "Decimal('" +:+ decimal_str m e +:+ "')"
  | PStr s => str_repr s
  | PDateTime d => datetime_repr d
  | PDate y m d => "datetime.date(" +:+ String.concat ", " (map str_int [y; m; d]) +:+ ")"
  | PList l => "[" +:+ String.concat ", " (map py_repr l) +:+ "]"
  | PDict d => "{" +:+ String.concat ", " (map (fun kv => str_repr kv.1 +:+ ": " +:+ py_repr kv.2) d) +:+ "}"
  end.

(** [str(v)]. *)
Definition py_str (v : pyval) : string :=
  match v with
  | PStr s => s
  | PDateTime d => isoformat " " d
  | PDate y m d => iso_date y m d
  | PDec m e => decimal_str m e
  | _ => py_repr v
  end.

(** [float(v)]. *)
Definition py_float (v : pyval) : outcome pyfloat :=
  match v with
  | PInt z => float_of_int z
  | PBool b => float_of_int (if b then 1 else 0)
  | PFloat f => Ok f
  | PDec m e => Ok (float_of_dec m e)
  | PStr s => match parse_float s with
              | Some f => Ok f
              | None => Raise (ValueError "could not convert string to float")
              end
  | _ => Raise TypeError
  end.

(** [int(s)] of a string, [None] for a malformed literal. *)
Definition parse_int (s : string) : option Z :=
  let '(neg, body) := take_sign (strip s) in
  let '(v, count, rest) := take_digits body 0 0 in
  if (0 <? count) && is_empty rest then Some (if neg then - v else v) else None.

(** [int(v)]: truncation towards zero. *)
Definition py_int (v : pyval) : outcome Z :=
  match v with
  | PInt z => Ok z
  | PBool b => Ok (if b then 1 else 0)
  | PFloat (S754_zero _) => Ok 0
  | PFloat (S754_infinity _) => Raise OverflowError
  | PFloat S754_nan => Raise (ValueError "cannot convert float NaN to integer")
  | PFloat (S754_finite neg m e) =>
      let '(n, d) := ratio_of m e in Ok (if neg then - (n / d) else n / d)
  | PDec m e => Ok (if 0 <=? e then m * pow10 e else Z.quot m (pow10 (- e)))
  | PStr s => match parse_int s with
              | Some z => Ok z
              | None => Raise (ValueError ("invalid literal for int() with base 10: " +:+ str_repr s))
              end
  | _ => Raise TypeError
  end.

Lemma dget_dset_eq d k v : dget (dset d k v) k = v.
Proof.
  unfold dget. induction d as [|[k' v'] d IH]; simpl; [by rewrite String.eqb_refl|].
  destruct (String.eqb k' k) eqn:E; simpl; by rewrite E.
Qed.

Lemma dget_dset_ne d k k' v : k <> k' -> dget (dset d k v) k' = dget d k'.
Proof.
  intros Hne. unfold dget. induction d as [|[k2 v2] d IH]; simpl.
  - by rewrite (proj2 (String.eqb_neq k k')).
  - destruct (String.eqb k2 k) eqn:E; simpl; [|by destruct (String.eqb k2 k')].
    apply String.eqb_eq in E as ->. by rewrite (proj2 (String.eqb_neq k k')).
Qed.

Lemma in_str_set_true v l : in_str_set v l = Ok true -> exists s, v = PStr s /\ s ∈ l.
Proof.
  destruct v; simpl; try done. intros [= H]. exists s. by rewrite <- str_in_spec.
Qed.

Lemma as_dict_Some v d : as_dict v = Some d <-> v = PDict d.
Proof. destruct v; simpl; split; congruence. Qed.
Lemma as_str_Some v s : as_str v = Some s <-> v = PStr s.
Proof. destruct v; simpl; split; congruence. Qed.
Lemma as_nonempty_str_Some v s :
  as_nonempty_str v = Some s <-> v = PStr s /\ is_empty s = false.
Proof.
  destruct v as [| | | | |t| | | |]; simpl; try (split; [done|by intros [? ?]]).
  destruct (is_empty t) eqn:E; split; intros H; destruct_and?; simplify_eq; congruence || done || (split; congruence).
Qed.

#[export] Hint Rewrite dget_dset_eq : soar.
