(* ===== verification/ActionVocabulary.v ===== *)
(** * ActionVocabulary: core/canonical_action_vocabulary.py

    The table of canonical actions and the four validators that route an
    action name to an execution path. *)

From S2P Require Import Prelude PyText PyValue.

(** ** The table *)

Definition OWNER_RESPONSE_COMMAND := "response_command".
Definition OWNER_RESPONSE_QUEUE := "response_queue".
Definition OWNER_PLAYBOOK := "playbook".
Definition OWNER_PLAYBOOK_READ_ONLY := "playbook_read_only".
Definition OWNER_NOTIFICATION_ADAPTER := "notification_adapter".

Definition MODE_TRACKING_ONLY := "tracking_only".
Definition MODE_SIMULATION := "simulation".
Definition MODE_REAL := "real".
Definition MODE_READ_ONLY := "read_only".
Definition MODE_INTERNAL := "internal".

Record CanonicalActionSpec := Spec {
  spec_name : string;
  owning_executor : string;
  supported_modes : list string;
  aliases : list string;
  deprecated : bool;
  description : string;
  validation_hint : string;
}.

Definition CANONICAL_SPECS : list CanonicalActionSpec := [
  Spec "block_ip" OWNER_RESPONSE_COMMAND [MODE_TRACKING_ONLY; MODE_SIMULATION] [] false
    "SIEM Blocklist tracking only; no firewall enforcement."
    "Provide a public source_ip; protected/private targets are rejected.";
  Spec "monitor" OWNER_RESPONSE_COMMAND [MODE_INTERNAL; MODE_SIMULATION] [] false
    "Durable internal watch disposition with optional expiry."
    "Provide source_ip and/or alert_id.";
  Spec "flag_high_priority" OWNER_RESPONSE_COMMAND [MODE_INTERNAL; MODE_SIMULATION] ["escalate"] false
    "Internal escalation via priority/incident handoff."
    "Provide alert_id (preferred) or source_ip for escalation context.";
  Spec "stop_monitor" OWNER_RESPONSE_COMMAND [MODE_INTERNAL] [] false
    "Stop an active monitor/watch disposition without firewall changes."
    "Provide source_ip for the monitored indicator.";
  Spec "remove_tracking" OWNER_RESPONSE_COMMAND [MODE_TRACKING_ONLY] ["unblock"] false
    "Remove active Blocklist tracking; no firewall change."
    "Provide source_ip or an active blocked_ip context.";
  Spec "add_note" OWNER_RESPONSE_COMMAND [MODE_INTERNAL] [] false
    "Append an analyst note to registry history without changing disposition."
    "Provide source_ip and a non-empty reason/note.";
  Spec "enrich_context" OWNER_PLAYBOOK_READ_ONLY [MODE_READ_ONLY] [] false
    "Read-only playbook enrichment; never legacy response-action queue."
    "Use only as a playbook step; do not enqueue to response_actions_queue.";
  Spec "notify_slack" OWNER_NOTIFICATION_ADAPTER [MODE_SIMULATION; MODE_REAL] [] false
    "Provider-specific Slack notification." "";
  Spec "notify_teams" OWNER_NOTIFICATION_ADAPTER [MODE_SIMULATION] [] false
    "Provider-specific Teams notification (simulation-only)." "";
  Spec "notify_email" OWNER_NOTIFICATION_ADAPTER [MODE_SIMULATION; MODE_REAL] [] false
    "Provider-specific Email notification." "";
  Spec "notify_webhook" OWNER_NOTIFICATION_ADAPTER [MODE_SIMULATION; MODE_REAL] [] false
    "Provider-specific Webhook notification." "";
  Spec "require_approval" OWNER_PLAYBOOK [MODE_INTERNAL] [] false "Playbook approval gate." "";
  Spec "branch" OWNER_PLAYBOOK [MODE_INTERNAL] [] false "Playbook conditional branch." "";
  Spec "trigger_playbook" OWNER_PLAYBOOK [MODE_INTERNAL] [] false "Playbook chaining trigger." "";
  Spec "notify" OWNER_NOTIFICATION_ADAPTER [] [] true
    "Ambiguous bare notify; rejected unless a deterministic provider alias applies."
    "Replace bare 'notify' with notify_slack, notify_email, notify_webhook, or notify_teams."
].

(** [CANONICAL_ACTIONS.get(name)]. *)
Definition CANONICAL_ACTIONS (name : string) : option CanonicalActionSpec :=
  List.find (fun spec => String.eqb (spec_name spec) name) CANONICAL_SPECS.

(** [ACTION_ALIASES]: alias to canonical name. *)
Definition ACTION_ALIASES (raw : string) : option string :=
  spec_name <$> List.find (fun spec => str_in raw (aliases spec)) CANONICAL_SPECS.

Definition RESPONSE_QUEUE_ACTIONS : list string := ["block_ip"; "monitor"; "flag_high_priority"].

Definition RESPONSE_COMMAND_ACTIONS : list string :=
  ["block_ip"; "monitor"; "flag_high_priority"; "stop_monitor"; "remove_tracking"; "add_note"].

Definition PLAYBOOK_ACTIONS : list string :=
  ["monitor"; "flag_high_priority"; "require_approval"; "branch"; "trigger_playbook";
   "enrich_context"; "notify_slack"; "notify_teams"; "notify_email"; "notify_webhook"; "block_ip"].

(** ** Validators *)

(** [str(action or "").strip()]. *)
Definition action_text (action : pyval) : string :=
  strip (if truthy action then py_str action else "").

Definition normalize_action_name (action : pyval) : outcome string :=
  let raw := action_text action in
  if is_empty raw then Raise (CanonicalActionValidationError "Action is required" "missing_action")
  else match ACTION_ALIASES raw with
       | Some name => Ok name
       | None => Ok raw
       end.

Definition get_action_spec (action : pyval) : outcome CanonicalActionSpec :=
  let! name := normalize_action_name action in
  match CANONICAL_ACTIONS name with
  | None => Raise (CanonicalActionValidationError
                     ("Unsupported action " +:+ str_repr name) "unsupported_action")
  | Some spec => Ok spec
  end.

Definition resolve_action_for_playbook (action : pyval) : outcome string :=
  let! spec := get_action_spec action in
  if String.eqb (spec_name spec) "notify" || deprecated spec && String.eqb (spec_name spec) "notify" then
    Raise (CanonicalActionValidationError
      ("Ambiguous action 'notify' is not allowed. " +:+
       "Use notify_slack, notify_email, notify_webhook, or notify_teams.") "ambiguous_notify")
  else if negb (str_in (spec_name spec) PLAYBOOK_ACTIONS) then
    Raise (CanonicalActionValidationError
      (strip ("Action " +:+ str_repr (spec_name spec) +:+ " is not a supported playbook action. " +:+
              validation_hint spec)) "unsupported_action")
  else Ok (spec_name spec).

Definition validate_action_for_response_queue (action : pyval) : outcome string :=
  let! spec := get_action_spec action in
  if String.eqb (spec_name spec) "notify" ||
     (deprecated spec && match supported_modes spec with [] => true | _ => false end) then
    Raise (CanonicalActionValidationError
      ("Ambiguous action 'notify' cannot be enqueued. " +:+
       "Use notify_slack, notify_email, notify_webhook, or notify_teams before enqueueing.")
      "ambiguous_notify")
  else if String.eqb (spec_name spec) "enrich_context" then
    Raise (CanonicalActionValidationError
      ("Action 'enrich_context' is owned by the playbook read-only executor and " +:+
       "cannot be enqueued to the legacy response-action queue.") "misrouted_enrich_context")
  else if negb (str_in (spec_name spec) RESPONSE_QUEUE_ACTIONS) then
    Raise (CanonicalActionValidationError
      (strip ("Action " +:+ str_repr (spec_name spec) +:+
              " cannot be enqueued to the response-action queue. " +:+ validation_hint spec))
      "unsupported_action")
  else Ok (spec_name spec).

Definition validate_response_command_action (action : pyval) : outcome string :=
  let! spec := get_action_spec action in
  if negb (str_in (spec_name spec) RESPONSE_COMMAND_ACTIONS) then
    Raise (CanonicalActionValidationError
      ("Action " +:+ str_repr (spec_name spec) +:+ " is not a canonical response command " +:+
       "(block_ip, monitor, flag_high_priority, stop_monitor, " +:+
       "remove_tracking, add_note).") "unsupported_action")
  else Ok (spec_name spec).

(** ** Lemmas *)

Lemma CANONICAL_ACTIONS_name name spec :
  CANONICAL_ACTIONS name = Some spec -> spec_name spec = name /\ In spec CANONICAL_SPECS.
Proof.
  unfold CANONICAL_ACTIONS. intros H. apply find_some in H as [Hin Heq].
  by apply String.eqb_eq in Heq.
Qed.

Lemma get_action_spec_Ok action spec :
  get_action_spec action = Ok spec <->
  exists name, normalize_action_name action = Ok name /\ CANONICAL_ACTIONS name = Some spec.
Proof.
  unfold get_action_spec. destruct (normalize_action_name action) as [n|e]; simpl.
  - destruct (CANONICAL_ACTIONS n) eqn:E; split; naive_solver.
  - split; naive_solver.
Qed.

Lemma in_str_forallb (l : list string) (P : string -> bool) s :
  forallb P l = true -> s ∈ l -> P s = true.
Proof. intros H Hin. rewrite forallb_forall in H. by apply H, list_elem_of_In. Qed.

(** Every name of the three routing sets has a specification. *)
Lemma routed_actions_known s :
  s ∈ PLAYBOOK_ACTIONS ++ RESPONSE_COMMAND_ACTIONS ++ RESPONSE_QUEUE_ACTIONS ->
  is_Some (CANONICAL_ACTIONS s).
Proof.
  intros Hin.
  assert (match CANONICAL_ACTIONS s with Some _ => true | None => false end = true) as H.
  { by apply (in_str_forallb _ (fun s => match CANONICAL_ACTIONS s with Some _ => true | None => false end))
      in Hin. }
  by destruct (CANONICAL_ACTIONS s).
Qed.

(** The queue accepts exactly the names that normalise into the queue's set. *)
Lemma validate_action_for_response_queue_Ok action a :
  validate_action_for_response_queue action = Ok a <->
  normalize_action_name action = Ok a /\ a ∈ RESPONSE_QUEUE_ACTIONS.
Proof.
  unfold validate_action_for_response_queue. split.
  - destruct (get_action_spec action) as [spec|e] eqn:Hs; simpl; [|done].
    apply get_action_spec_Ok in Hs as (name & Hn & Hspec).
    apply CANONICAL_ACTIONS_name in Hspec as [Hname _].
    repeat case_match; intros; simplify_eq; text_simpl; by split.
  - intros [Hn Hin].
    destruct (routed_actions_known a) as [spec Hspec]; [set_solver|].
    assert (get_action_spec action = Ok spec) as -> by (apply get_action_spec_Ok; eauto).
    simpl. pose proof (CANONICAL_ACTIONS_name _ _ Hspec) as [Hname Hsp].
    rewrite Hname. rewrite (proj2 (str_in_spec _ _) Hin). simpl.
    repeat (apply elem_of_cons in Hin as [->|Hin]; [by vm_compute in Hspec; simplify_eq/=|]).
    by apply not_elem_of_nil in Hin.
Qed.

Lemma validate_response_command_action_Ok action a :
  validate_response_command_action action = Ok a <->
  normalize_action_name action = Ok a /\ a ∈ RESPONSE_COMMAND_ACTIONS.
Proof.
  unfold validate_response_command_action. split.
  - destruct (get_action_spec action) as [spec|e] eqn:Hs; simpl; [|done].
    apply get_action_spec_Ok in Hs as (name & Hn & Hspec).
    apply CANONICAL_ACTIONS_name in Hspec as [Hname _].
    case_match; intros; simplify_eq; text_simpl; by split.
  - intros [Hn Hin].
    destruct (routed_actions_known a) as [spec Hspec]; [set_solver|].
    assert (get_action_spec action = Ok spec) as -> by (apply get_action_spec_Ok; eauto).
    simpl. apply CANONICAL_ACTIONS_name in Hspec as [Hname _].
    rewrite Hname. by rewrite (proj2 (str_in_spec _ _) Hin).
Qed.

Lemma resolve_action_for_playbook_Ok action a :
  resolve_action_for_playbook action = Ok a <->
  normalize_action_name action = Ok a /\ a ∈ PLAYBOOK_ACTIONS.
Proof.
  unfold resolve_action_for_playbook. split.
  - destruct (get_action_spec action) as [spec|e] eqn:Hs; simpl; [|done].
    apply get_action_spec_Ok in Hs as (name & Hn & Hspec).
    apply CANONICAL_ACTIONS_name in Hspec as [Hname _].
    repeat case_match; intros; simplify_eq; text_simpl; by split.
  - intros [Hn Hin].
    destruct (routed_actions_known a) as [spec Hspec]; [set_solver|].
    assert (get_action_spec action = Ok spec) as -> by (apply get_action_spec_Ok; eauto).
    simpl. pose proof (CANONICAL_ACTIONS_name _ _ Hspec) as [Hname _].
    rewrite Hname. rewrite (proj2 (str_in_spec _ _) Hin). simpl.
    rewrite andb_comm. destruct (String.eqb a "notify") eqn:E; [|done].
    apply String.eqb_eq in E as ->. exfalso.
    by apply str_in_spec in Hin.
Qed.

(** A canonical name normalises to itself. *)
Lemma normalize_canonical a :
  a ∈ PLAYBOOK_ACTIONS ++ RESPONSE_COMMAND_ACTIONS -> normalize_action_name (PStr a) = Ok a.
Proof.
  intros Hin. assert (bool_decide (normalize_action_name (PStr a) = Ok a) = true) as H.
  { apply (in_str_forallb _ (fun a => bool_decide (normalize_action_name (PStr a) = Ok a))) in Hin;
      [done|]. by vm_compute. }
  by apply bool_decide_eq_true in H.
Qed.
