(* ===== verification/IpAddress.v ===== *)
(** * IpAddress: Python's ipaddress module

    Parsing of IPv4 and IPv6 addresses and networks, and membership, as the
    standard library of Python 3.11 defines them.  A scope id is checked and
    dropped: no operation modelled here reads it. *)

From S2P Require Import Prelude PyText.

Open Scope Z_scope.

Record ip_address := IpAddress { ip_v6 : bool; ip_int : Z }.

#[export] Instance ip_address_eq_dec : EqDecision ip_address.
Proof. solve_decision. Defined.

Definition max_prefixlen (v6 : bool) : Z := if v6 then 128 else 32.

Definition address_value_error {A} : outcome A := Raise (ValueError "AddressValueError").

Fixpoint omap_list {A B} (f : A -> outcome B) (l : list A) : outcome (list B) :=
  match l with
  | [] => Ok []
  | x :: l => let! y := f x in let! ys := omap_list f l in Ok (y :: ys)
  end.

(** ** IPv4 *)

Definition parse_octet (s : string) : outcome Z :=
  if is_empty s || negb (all_chars is_digit s) || (3 <? String.length s)%nat then address_value_error
  else if match s with String "0" (String _ _) => true | _ => false end then address_value_error
  else if 255 <? decimal s then address_value_error
  else Ok (decimal s).

Definition join_octets (octets : list Z) : Z := fold_left (fun acc o => 256 * acc + o) octets 0.

Definition parse_ipv4 (s : string) : outcome Z :=
  let octets := split_on "." s in
  if negb (Nat.eqb (length octets) 4) then address_value_error
  else let! octets := omap_list parse_octet octets in Ok (join_octets octets).

(** ** IPv6 *)

Definition hex_value (c : ascii) : option Z :=
  let n := N_of_ascii c in
  if is_digit c then Some (digit_value c)
  else if ((97 <=? n) && (n <=? 102))%N then Some (Z.of_N n - 87)
  else if ((65 <=? n) && (n <=? 70))%N then Some (Z.of_N n - 55)
  else None.

Fixpoint hex_number (s : string) (acc : Z) : option Z :=
  match s with
  | EmptyString => Some acc
  | String c s => match hex_value c with Some d => hex_number s (16 * acc + d) | None => None end
  end.

Definition parse_hextet (s : string) : outcome Z :=
  if is_empty s || (4 <? String.length s)%nat then address_value_error
  else match hex_number s 0 with Some n => Ok n | None => address_value_error end.

Definition join_hextets (hextets : list Z) : Z := fold_left (fun acc h => 65536 * acc + h) hextets 0.

(** A dotted quad in the last part counts for two hextets. *)
Definition expand_ipv4_tail (parts : list string) : outcome (list string * list Z) :=
  let last := List.last parts EmptyString in
  if contains "." last then
    let! v4 := parse_ipv4 last in
    Ok (removelast parts, [Z.shiftr v4 16; Z.land v4 65535])
  else Ok (parts, []).

(** The hextets of the parts and of the dotted tail, in order.  An empty
    list of parts before or after "::" comes from a leading or trailing "". *)
Definition parse_ipv6_parts (parts : list string) (tail : list Z) : outcome Z :=
  let n := length parts in
  let total := (n + length tail)%nat in
  if (9 <? total)%nat then address_value_error
  else
    (* the dotted tail stands for two non-empty parts at the end *)
    let marks := filter (fun i => nth i parts "x" = EmptyString) (seq 1 (total - 2)) in
    match marks with
    | _ :: _ :: _ => address_value_error
    | [skip] =>
        let hi := take skip parts in
        let lo := drop (S skip) parts in
        let! hi := if String.eqb (hd "x" hi) EmptyString
                   then (match hi with [_] => Ok [] | _ => address_value_error end) else Ok hi in
        let! lo := if (length tail =? 0)%nat && String.eqb (List.last lo "x") EmptyString
                   then (match lo with [_] => Ok [] | _ => address_value_error end) else Ok lo in
        let skipped := (8 - Z.of_nat (length hi + length lo + length tail))%Z in
        if skipped <? 1 then address_value_error
        else
          let! his := omap_list parse_hextet hi in
          let! los := omap_list parse_hextet lo in
          Ok (join_hextets (his ++ repeat 0 (Z.to_nat skipped) ++ los ++ tail))
    | [] =>
        if negb (total =? 8)%nat then address_value_error
        else
          let! his := omap_list parse_hextet parts in
          Ok (join_hextets (his ++ tail))
    end.

Definition parse_ipv6_int (s : string) : outcome Z :=
  if is_empty s then address_value_error
  else
    let parts := split_on ":" s in
    if (length parts <? 3)%nat then address_value_error
    else
      let! x := expand_ipv4_tail parts in
      parse_ipv6_parts x.1 x.2.

(** [addr%scope]. *)
Definition parse_ipv6 (s : string) : outcome Z :=
  match split_on "%" s with
  | [addr] => if contains "/" addr then address_value_error else parse_ipv6_int addr
  | [addr; scope] =>
      if is_empty scope || contains "/" s then address_value_error else parse_ipv6_int addr
  | _ => address_value_error
  end.

(** [ipaddress.ip_address(s)]: IPv4 first. *)
Definition parse_ip (s : string) : outcome ip_address :=
  match parse_ipv4 s with
  | Ok n => Ok (IpAddress false n)
  | Raise _ =>
      match parse_ipv6 s with
      | Ok n => Ok (IpAddress true n)
      | Raise _ => Raise (ValueError "does not appear to be an IPv4 or IPv6 address")
      end
  end.

(** ** Networks *)

Record ip_network := IpNetwork { net_v6 : bool; net_int : Z; net_prefixlen : Z }.

Definition all_ones (v6 : bool) : Z := 2 ^ max_prefixlen v6 - 1.

(** [_ip_int_from_prefix]. *)
Definition netmask (v6 : bool) (prefixlen : Z) : Z :=
  Z.lxor (all_ones v6) (Z.shiftr (all_ones v6) prefixlen).

Definition parse_prefix (v6 : bool) (s : string) : option Z :=
  if negb (is_empty s) && all_chars is_digit s && (decimal s <=? max_prefixlen v6)
  then Some (decimal s) else None.

(** [_prefix_from_ip_int]: the prefix length of a contiguous mask. *)
Definition prefix_of_mask (mask : Z) : option Z :=
  find (fun p => mask =? netmask false p) (map Z.of_nat (seq 0 33)).

Definition parse_mask (v6 : bool) (s : string) : outcome Z :=
  match parse_prefix v6 s with
  | Some p => Ok p
  | None =>
      if v6 then Raise (ValueError "NetmaskValueError")
      else let! mask := parse_ipv4 s in
           match prefix_of_mask mask with
           | Some p => Ok p
           | None => match prefix_of_mask (Z.lxor mask (all_ones false)) with
                     | Some p => Ok p
                     | None => Raise (ValueError "NetmaskValueError")
                     end
           end
  end.

Definition parse_network_as (v6 : bool) (s : string) : outcome ip_network :=
  match split_on "/" s with
  | [addr] =>
      let! n := (if v6 then parse_ipv6 addr else parse_ipv4 addr) in
      Ok (IpNetwork v6 n (max_prefixlen v6))
  | [addr; mask] =>
      let! n := (if v6 then parse_ipv6 addr else parse_ipv4 addr) in
      let! p := parse_mask v6 mask in
      Ok (IpNetwork v6 (Z.land n (netmask v6 p)) p)
  | _ => address_value_error
  end.

(** [ipaddress.ip_network(s, strict=False)]. *)
Definition parse_network (s : string) : outcome ip_network :=
  match parse_network_as false s with
  | Ok n => Ok n
  | Raise _ =>
      match parse_network_as true s with
      | Ok n => Ok n
      | Raise _ => Raise (ValueError "does not appear to be an IPv4 or IPv6 network")
      end
  end.

(** The network of one address, [ip_network(f"{ip}/{max}")]. *)
Definition host_network (ip : ip_address) : ip_network :=
  IpNetwork (ip_v6 ip) (ip_int ip) (max_prefixlen (ip_v6 ip)).

(** [ip in network]. *)
Definition in_network (ip : ip_address) (net : ip_network) : bool :=
  Bool.eqb (ip_v6 ip) (net_v6 net) &&
  (Z.land (ip_int ip) (netmask (net_v6 net) (net_prefixlen net)) =? net_int net).

(** ** Ranges *)

Lemma omap_list_Ok {A B} (f : A -> outcome B) (P : B -> Prop) l r :
  (forall x y, f x = Ok y -> P y) -> omap_list f l = Ok r -> Forall P r /\ length r = length l.
Proof.
  intros Hf. revert r. induction l as [|x l IH]; simpl; intros r; [by intros [= <-]|].
  destruct (f x) eqn:Ex; [|done]. simpl. destruct (omap_list f l) eqn:El; [|done]. simpl.
  intros [= <-]. destruct (IH _ eq_refl) as [? Hlen]. split; [constructor; eauto|simpl; congruence].
Qed.

(** Positional notation stays below [b ^ length]. *)
Lemma join_range b (l : list Z) acc m :
  0 < b -> 0 <= m -> 0 <= acc < b ^ m -> Forall (fun d => 0 <= d < b) l ->
  0 <= fold_left (fun acc d => b * acc + d) l acc < b ^ (m + Z.of_nat (length l)).
Proof.
  intros Hb Hm Hacc Hl. revert acc m Hm Hacc. induction Hl as [|d l Hd _ IH]; intros acc m Hm Hacc; simpl.
  - by rewrite Z.add_0_r.
  - replace (m + Z.of_nat (S (length l))) with ((m + 1) + Z.of_nat (length l)) by lia.
    apply IH; [lia|]. rewrite Z.pow_add_r by lia. change (b ^ 1) with (b * 1). nia.
Qed.

Lemma digit_value_nonneg c : is_digit c = true -> 0 <= digit_value c.
Proof.
  unfold is_digit, digit_value. rewrite andb_true_iff, !N.leb_le. lia.
Qed.

Lemma decimal_from_nonneg s acc : 0 <= acc -> all_chars is_digit s = true -> 0 <= decimal_from s acc.
Proof.
  revert acc. induction s as [|c s IH]; simpl; intros acc Ha; [done|].
  intros [Hc Hs]%andb_true_iff. apply IH; [|done]. apply digit_value_nonneg in Hc. lia.
Qed.

Lemma parse_octet_range s n : parse_octet s = Ok n -> 0 <= n < 256.
Proof.
  unfold parse_octet, address_value_error. destruct (is_empty s); simpl; [done|].
  destruct (all_chars is_digit s) eqn:Hd; simpl; [|done].
  destruct (3 <? _)%nat; [done|]. destruct (match s with EmptyString => _ | _ => _ end); [done|].
  destruct (255 <? decimal s) eqn:Hx; [done|]. intros [= <-].
  pose proof (decimal_from_nonneg s 0 (Z.le_refl 0) Hd). unfold decimal in *. lia.
Qed.

Lemma parse_ipv4_range s n : parse_ipv4 s = Ok n -> 0 <= n < 2 ^ 32.
Proof.
  unfold parse_ipv4. destruct (Nat.eqb_spec (length (split_on "." s)) 4) as [Hlen|]; [|done]. simpl.
  destruct (omap_list parse_octet _) as [os|] eqn:E; [|done]. intros [= <-].
  apply (omap_list_Ok _ (fun d => 0 <= d < 256)) in E as [Hos Hl]; [|by eauto using parse_octet_range].
  pose proof (join_range 256 os 0 0) as H. rewrite Hl, Hlen in H. apply H; done || lia.
Qed.

Lemma hex_number_range s acc n m :
  0 <= acc < 16 ^ m -> 0 <= m -> hex_number s acc = Some n ->
  0 <= n < 16 ^ (m + Z.of_nat (String.length s)).
Proof.
  revert acc m. induction s as [|c s IH]; simpl; intros acc m Hacc Hm.
  - intros [= <-]. by rewrite Z.add_0_r.
  - destruct (hex_value c) as [d|] eqn:Ed; [|done]. intros H.
    assert (0 <= d < 16) as Hd.
    { unfold hex_value, is_digit, digit_value in Ed. repeat case_match; simplify_eq;
        rewrite ?andb_true_iff, ?N.leb_le in *; lia. }
    replace (m + Z.of_nat (S (String.length s))) with ((m + 1) + Z.of_nat (String.length s)) by lia.
    eapply IH; [|lia|exact H]. rewrite Z.pow_add_r by lia. change (16 ^ 1) with 16. nia.
Qed.

Lemma parse_hextet_range s n : parse_hextet s = Ok n -> 0 <= n < 65536.
Proof.
  unfold parse_hextet, address_value_error. destruct (is_empty s || _) eqn:Hs; [done|].
  destruct (hex_number s 0) eqn:E; [|done]. intros [= <-].
  apply orb_false_iff in Hs as [_ Hs%Nat.ltb_ge].
  apply (hex_number_range s 0 _ 0) in E; [|lia..]. rewrite Z.add_0_l in E.
  assert (16 ^ Z.of_nat (String.length s) <= 16 ^ 4) by (apply Z.pow_le_mono_r; lia). lia.
Qed.

Lemma join_hextets_range l :
  Forall (fun d => 0 <= d < 65536) l -> length l = 8%nat -> 0 <= join_hextets l < 2 ^ 128.
Proof.
  intros Hl Hlen. pose proof (join_range 65536 l 0 0) as H. rewrite Hlen in H. apply H; done || lia.
Qed.

Lemma expand_ipv4_tail_range parts ps tail :
  expand_ipv4_tail parts = Ok (ps, tail) -> Forall (fun d => 0 <= d < 65536) tail.
Proof.
  unfold expand_ipv4_tail. destruct (contains _ _); [|by intros [= <- <-]].
  destruct (parse_ipv4 _) as [n|] eqn:E; [|done]. simpl. intros [= <- <-].
  apply parse_ipv4_range in E. repeat constructor.
  - apply Z.shiftr_nonneg. lia.
  - rewrite Z.shiftr_div_pow2 by lia. apply Z.div_lt_upper_bound; lia.
  - apply Z.land_nonneg. lia.
  - change 65535 with (Z.ones 16). rewrite Z.land_ones by lia. apply Z.mod_pos_bound. lia.
Qed.

Lemma parse_ipv6_parts_range parts tail n :
  Forall (fun d => 0 <= d < 65536) tail -> parse_ipv6_parts parts tail = Ok n -> 0 <= n < 2 ^ 128.
Proof.
  intros Ht. unfold parse_ipv6_parts, address_value_error.
  destruct (9 <? _)%nat; [done|].
  destruct (filter _ _) as [|skip [|? ?]]; [| |done].
  - destruct (Nat.eqb_spec (length parts + length tail) 8) as [Hlen|]; [|done]. simpl.
    destruct (omap_list parse_hextet parts) as [his|] eqn:E; [|done]. intros [= <-].
    apply (omap_list_Ok _ (fun d => 0 <= d < 65536)) in E as [Hh Hl]; [|by eauto using parse_hextet_range].
    apply join_hextets_range; [by apply Forall_app_2|]. rewrite length_app. lia.
  - destruct (if String.eqb (hd _ _) _ then _ else _) as [hi|]; [|done]. simpl.
    destruct (if (_ =? 0)%nat && _ then _ else _) as [lo|]; [|done]. simpl.
    destruct (_ <? 1) eqn:Hs; [done|].
    destruct (omap_list parse_hextet hi) as [his|] eqn:E; [|done].
    destruct (omap_list parse_hextet lo) as [los|] eqn:E'; [|done]. intros [= <-].
    apply (omap_list_Ok _ (fun d => 0 <= d < 65536)) in E as [Hh Hl]; [|by eauto using parse_hextet_range].
    apply (omap_list_Ok _ (fun d => 0 <= d < 65536)) in E' as [Hh' Hl']; [|by eauto using parse_hextet_range].
    apply join_hextets_range.
    + repeat apply Forall_app_2; try done. apply Forall_forall. intros d Hd%list_elem_of_In%repeat_spec. lia.
    + rewrite !length_app, repeat_length. apply Z.ltb_ge in Hs. lia.
Qed.

Lemma parse_ipv6_range s n : parse_ipv6 s = Ok n -> 0 <= n < 2 ^ 128.
Proof.
  assert (forall a, parse_ipv6_int a = Ok n -> 0 <= n < 2 ^ 128) as H.
  { intros a. unfold parse_ipv6_int, address_value_error. destruct (is_empty a); [done|].
    destruct (_ <? 3)%nat; [done|]. destruct (expand_ipv4_tail _) as [[ps tail]|] eqn:E; [|done]. simpl.
    apply parse_ipv6_parts_range. by eapply expand_ipv4_tail_range. }
  unfold parse_ipv6, address_value_error. intros. repeat case_match; try done; eauto.
Qed.

Lemma parse_ip_range s ip : parse_ip s = Ok ip -> 0 <= ip_int ip < 2 ^ max_prefixlen (ip_v6 ip).
Proof.
  unfold parse_ip. destruct (parse_ipv4 s) eqn:E4; [|destruct (parse_ipv6 s) eqn:E6];
    intros; simplify_eq; simpl; eauto using parse_ipv4_range, parse_ipv6_range.
Qed.

(** ** Masks are prefixes *)

Lemma netmask_testbit v6 p i :
  0 <= p <= max_prefixlen v6 -> 0 <= i ->
  Z.testbit (netmask v6 p) i = (max_prefixlen v6 - p <=? i) && (i <? max_prefixlen v6).
Proof.
  intros Hp Hi. unfold netmask, all_ones.
  rewrite Z.sub_1_r, <- Z.ones_equiv, Z.lxor_spec, Z.shiftr_spec by lia.
  assert (0 <= max_prefixlen v6) by (by destruct v6).
  rewrite !Z.testbit_ones_nonneg by lia.
  destruct (Z.ltb_spec i (max_prefixlen v6)), (Z.ltb_spec (i + p) (max_prefixlen v6)),
    (Z.leb_spec (max_prefixlen v6 - p) i); simpl; lia.
Qed.

(** Masking an address keeps its top [p] bits. *)
Lemma land_netmask v6 p n :
  0 <= p <= max_prefixlen v6 -> 0 <= n < 2 ^ max_prefixlen v6 ->
  Z.land n (netmask v6 p) = n / 2 ^ (max_prefixlen v6 - p) * 2 ^ (max_prefixlen v6 - p).
Proof.
  intros Hp Hn. rewrite <- Z.shiftr_div_pow2, <- Z.shiftl_mul_pow2 by lia.
  apply Z.bits_inj'. intros i Hi. rewrite Z.land_spec, netmask_testbit by lia.
  destruct (Z.leb_spec (max_prefixlen v6 - p) i).
  - rewrite Z.shiftl_spec, Z.shiftr_spec by lia. simpl.
    replace (i - (max_prefixlen v6 - p) + (max_prefixlen v6 - p)) with i by lia.
    destruct (Z.ltb_spec i (max_prefixlen v6)); [by rewrite andb_true_r|].
    rewrite andb_false_r. symmetry. apply Z.bits_above_log2; [lia|].
    destruct (decide (n = 0)) as [->|]; [simpl; destruct v6; simpl in *; lia|].
    apply Z.log2_lt_pow2; [lia|]. apply Z.lt_le_trans with (2 ^ max_prefixlen v6); [lia|].
    apply Z.pow_le_mono_r; lia.
  - rewrite andb_false_r. symmetry. by apply Z.shiftl_spec_low.
Qed.
