(* ===== verification/AddressText.v ===== *)
(** * AddressText: the text of an address

    [str(ipaddress.ip_address(s))] as Python 3.11 prints it: dotted decimal
    for IPv4, and for IPv6 lower-case hextets with the first longest run of
    at least two zero hextets written "::", followed by the scope id.  What is
    printed parses back to the same address. *)

From S2P Require Import Prelude PyText PyValue IpAddress.

Open Scope Z_scope.

Fixpoint join (sep : string) (parts : list string) : string :=
  match parts with
  | [] => EmptyString
  | [p] => p
  | p :: parts => p +:+ sep +:+ join sep parts
  end.

(** ['%x' % n] for a number below 65536. *)
Definition hex_char (n : Z) : ascii := hex_digit (Z.to_N n).
Definition hex_text (n : Z) : string :=
  let d3 := n / 4096 in
  let d2 := n / 256 mod 16 in
  let d1 := n / 16 mod 16 in
  let d0 := n mod 16 in
  if 0 <? d3 then String (hex_char d3) (String (hex_char d2) (String (hex_char d1) (String (hex_char d0) "")))
  else if 0 <? d2 then String (hex_char d2) (String (hex_char d1) (String (hex_char d0) ""))
  else if 0 <? d1 then String (hex_char d1) (String (hex_char d0) "")
  else String (hex_char d0) "".

Definition ipv4_text (n : Z) : string :=
  join "." (map (fun k => str_int (n / 256 ^ k mod 256)) [3; 2; 1; 0]).

Definition hextets (n : Z) : list string :=
  map (fun k => hex_text (n / 65536 ^ k mod 65536)) [7; 6; 5; 4; 3; 2; 1; 0].

(** [_compress_hextets]: the best run so far and the current one, as
    (start, length). *)
Fixpoint longest_zero_run (parts : list string) (index : nat) (best current : nat * nat) : nat * nat :=
  match parts with
  | [] => best
  | p :: parts =>
      if String.eqb p "0" then
        let current := if (current.2 =? 0)%nat then (index, 1%nat) else (current.1, S current.2) in
        longest_zero_run parts (S index) (if (best.2 <? current.2)%nat then current else best) current
      else longest_zero_run parts (S index) best (0%nat, 0%nat)
  end.

Definition compress_hextets (parts : list string) : list string :=
  let '(start, len) := longest_zero_run parts 0 (0%nat, 0%nat) (0%nat, 0%nat) in
  if (1 <? len)%nat then
    let stop := (start + len)%nat in
    let parts' := take start parts ++ [EmptyString] ++ drop stop parts ++
                  (if (stop =? length parts)%nat then [EmptyString] else []) in
    if (start =? 0)%nat then EmptyString :: parts' else parts'
  else parts.

Definition ipv6_text (n : Z) : string := join ":" (compress_hextets (hextets n)).

Definition ip_text (a : ip_address) : string := if ip_v6 a then ipv6_text (ip_int a) else ipv4_text (ip_int a).

(** The scope id of an IPv6 text that parses, with its "%". *)
Definition scope_suffix (s : string) : string :=
  match split_on "%" s with [_; scope] => String "%" scope | _ => EmptyString end.

(** [str(ipaddress.ip_address(s))]. *)
Definition ip_str (s : string) : outcome string :=
  let! a := parse_ip s in
  Ok (ip_text a +:+ (if ip_v6 a then scope_suffix s else EmptyString)).

Example ip_str_samples :
  map ip_str ["010.0.0.1"; "10.0.0.1"; "2001:DB8::1"; "::"; "1:0:0:2:0:0:0:3"; "fe80::1%eth0"; "::ffff:1.2.3.4"] =
  [Raise (ValueError "does not appear to be an IPv4 or IPv6 address"); Ok "10.0.0.1"; Ok "2001:db8::1"; Ok "::";
   Ok "1:0:0:2::3"; Ok "fe80::1%eth0"; Ok "::ffff:102:304"].
Proof. vm_compute. reflexivity. Qed.

(** ** Splitting what was joined *)

Lemma split_on_cons_absent sep p s :
  all_chars (fun d => negb (Ascii.eqb d sep)) p = true ->
  split_on sep (p +:+ String sep s) = p :: split_on sep s.
Proof.
  induction p as [|c p IH]; simpl; [by rewrite Ascii.eqb_refl|]. intros [Hc Hp]%andb_true_iff.
  rewrite negb_true_iff in Hc. rewrite Hc. by rewrite (IH Hp).
Qed.

Lemma split_on_join sep parts :
  parts <> [] -> Forall (fun p => all_chars (fun d => negb (Ascii.eqb d sep)) p = true) parts ->
  split_on sep (join (String sep EmptyString) parts) = parts.
Proof.
  intros Hne Hall. induction Hall as [|p parts Hp Hall IH]; [done|]. destruct parts as [|q parts].
  - by apply split_on_absent.
  - change (join _ (p :: q :: parts)) with (p +:+ String sep (join (String sep EmptyString) (q :: parts))).
    rewrite split_on_cons_absent by done. by rewrite IH.
Qed.

(** ** Hextets *)

(** A hextet as printed. *)
Definition hextet_char (c : ascii) : bool := match hex_value c with Some _ => true | None => false end.

Definition hextet_checks (n : Z) : bool :=
  let s := hex_text n in
  all_chars hextet_char s && negb (is_empty s) && Bool.eqb (String.eqb s "0") (n =? 0) &&
  match parse_hextet s with Ok m => m =? n | Raise _ => false end.

Definition digits16 : list Z := map Z.of_nat (seq 0 16).

Lemma forallb_16 f n : forallb f digits16 = true -> 0 <= n < 16 -> f n = true.
Proof.
  unfold digits16. rewrite List.forallb_forall. intros H Hn. apply H, List.in_map_iff. exists (Z.to_nat n).
  split; [lia|apply List.in_seq; lia].
Qed.

Lemma all_hextets :
  forallb (fun a => forallb (fun b => forallb (fun c => forallb (fun d => hextet_checks (4096 * a + 256 * b + 16 * c + d))
    digits16) digits16) digits16) digits16 = true.
Proof. vm_compute. reflexivity. Qed.

Lemma hextet_checked n : 0 <= n < 65536 -> hextet_checks n = true.
Proof.
  intros Hn. replace n with (4096 * (n / 4096) + 256 * (n / 256 mod 16) + 16 * (n / 16 mod 16) + n mod 16).
  - apply (forallb_16 (fun d => hextet_checks (4096 * (n / 4096) + 256 * (n / 256 mod 16) + 16 * (n / 16 mod 16) + d)));
      [|by apply Z.mod_pos_bound].
    apply (forallb_16 (fun c => forallb (fun d => hextet_checks (4096 * (n / 4096) + 256 * (n / 256 mod 16) + 16 * c + d)) digits16));
      [|by apply Z.mod_pos_bound].
    apply (forallb_16 (fun b => forallb (fun c => forallb (fun d => hextet_checks (4096 * (n / 4096) + 256 * b + 16 * c + d))
      digits16) digits16)); [|by apply Z.mod_pos_bound].
    apply (forallb_16 (fun a => forallb (fun b => forallb (fun c => forallb (fun d =>
      hextet_checks (4096 * a + 256 * b + 16 * c + d)) digits16) digits16) digits16)); [exact all_hextets|].
    split; [apply Z.div_pos; lia|apply Z.div_lt_upper_bound; lia].
  - replace (n / 4096) with (n / 16 / 16 / 16) by (by rewrite !Z.div_div by done).
    replace (n / 256) with (n / 16 / 16) by (by rewrite Z.div_div by done).
    pose proof (Z.div_mod n 16). pose proof (Z.div_mod (n / 16) 16). pose proof (Z.div_mod (n / 16 / 16) 16). lia.
Qed.

(** [s] prints the hextet [h]. *)
Record hextet_of (h : Z) (s : string) : Prop := {
  ho_chars : all_chars hextet_char s = true;
  ho_cons : exists c s', s = String c s';
  ho_zero : String.eqb s "0" = (h =? 0);
  ho_parse : parse_hextet s = Ok h;
}.

Lemma hex_text_of n : 0 <= n < 65536 -> hextet_of n (hex_text n).
Proof.
  intros Hn. pose proof (hextet_checked n Hn) as Hc. unfold hextet_checks in Hc.
  rewrite !andb_true_iff in Hc. destruct Hc as [[[H1 H2] H3%Bool.eqb_prop] H4]. split; [done| |done|].
  - destruct (hex_text n) as [|c s]; [done|eauto].
  - destruct (parse_hextet _) as [m|]; [|done]. f_equal. lia.
Qed.

(** ** Parsing a compressed text *)

(** What stands before or after "::": hextets, or nothing, which splits into
    an empty part. *)
Definition side (hs : list Z) (parts : list string) : Prop :=
  (hs = [] /\ parts = [EmptyString]) \/ (hs <> [] /\ Forall2 hextet_of hs parts).

Lemma hextet_nonempty h s : hextet_of h s -> s <> EmptyString.
Proof. intros [_ (c & t & ->) _ _]. done. Qed.

Lemma parse_hextets hs parts : Forall2 hextet_of hs parts -> omap_list parse_hextet parts = Ok hs.
Proof. induction 1 as [|h s hs parts [_ _ _ Hp] _ IH]; [done|]. cbn. by rewrite Hp, IH. Qed.

Lemma nth_nonempty hs parts i : Forall2 hextet_of hs parts -> nth i parts "x" <> EmptyString.
Proof.
  intros Hf. revert i. induction Hf as [|h s hs parts Hh _ IH]; intros [|i]; cbn; [done..| |apply IH].
  by eapply hextet_nonempty.
Qed.

Lemma no_marks (f : nat -> string) l :
  (forall i, i ∈ l -> f i <> EmptyString) -> filter (fun i => f i = EmptyString) l = [].
Proof.
  induction l as [|i l IH]; intros Hf; [done|]. rewrite filter_cons, decide_False by (apply Hf; left).
  apply IH. intros j Hj. apply Hf. by right.
Qed.

Lemma side_nonempty hs parts i :
  side hs parts -> (i < length parts)%nat -> (length parts = 1%nat -> False) -> nth i parts "x" <> EmptyString.
Proof.
  intros [[-> ->]|[_ Hf]] Hi Hl; [by destruct Hl|]. by eapply nth_nonempty.
Qed.

Lemma side_length hs parts : side hs parts -> (1 <= length parts)%nat.
Proof.
  intros [[_ ->]|[Hne Hf]]; [done|]. apply Forall2_length in Hf. destruct hs; [done|]. cbn in Hf. lia.
Qed.

(** The only empty part inside is the one of "::". *)
Lemma one_mark his hi los lo :
  side his hi -> side los lo ->
  filter (fun i => nth i (hi ++ EmptyString :: lo) "x" = EmptyString) (seq 1 (length (hi ++ EmptyString :: lo) - 2)) =
  [length hi].
Proof.
  intros Hhi Hlo. pose proof (side_length _ _ Hhi) as Hh. pose proof (side_length _ _ Hlo) as Hl.
  rewrite length_app. cbn [length].
  replace (length hi + S (length lo) - 2)%nat with ((length hi - 1) + S (length lo - 1))%nat by lia.
  rewrite seq_app. replace (1 + (length hi - 1))%nat with (length hi) by lia. cbn [seq]. rewrite filter_app.
  rewrite no_marks.
  - rewrite filter_cons, decide_True; cbn [app].
    + f_equal. apply no_marks. intros i Hi%elem_of_seq. rewrite app_nth2 by lia.
      destruct (i - length hi)%nat as [|j] eqn:Hj; [lia|]. cbn [nth]. eapply side_nonempty; [exact Hlo|lia|intros ?; lia].
    + rewrite app_nth2 by lia. by rewrite Nat.sub_diag.
  - intros i Hi%elem_of_seq. rewrite app_nth1 by lia. eapply side_nonempty; [exact Hhi|lia|intros ?; lia].
Qed.

Lemma parse_around his hi los lo :
  side his hi -> side los lo -> (length his + length los < 8)%nat ->
  parse_ipv6_parts (hi ++ EmptyString :: lo) [] =
  Ok (join_hextets (his ++ repeat 0 (8 - length his - length los) ++ los)).
Proof.
  intros Hhi Hlo Hlen. unfold parse_ipv6_parts. cbn [length]. rewrite Nat.add_0_r, (one_mark his hi los lo Hhi Hlo).
  assert (forall hs parts, side hs parts -> length parts = Nat.max 1 (length hs)) as Hmax.
  { intros hs parts [[-> ->]|[Hne Hf]]; [done|]. rewrite <-(Forall2_length _ _ _ Hf). destruct hs; [done|cbn; lia]. }
  pose proof (Hmax _ _ Hhi). pose proof (Hmax _ _ Hlo). clear Hmax.
  rewrite (proj2 (Nat.ltb_ge _ _)) by (rewrite length_app; cbn; lia).
  assert (take (length hi) (hi ++ EmptyString :: lo) = hi) as -> by (by rewrite take_app_length).
  assert (drop (S (length hi)) (hi ++ EmptyString :: lo) = lo) as ->.
  { change (S (length hi)) with (1 + length hi)%nat. rewrite Nat.add_comm, <-drop_drop, drop_app_length. done. }
  assert ((if String.eqb (hd "x" hi) "" then match hi with [_] => Ok [] | _ => address_value_error end else Ok hi) =
    Ok (if decide (his = []) then [] else hi)) as ->.
  { destruct Hhi as [[-> ->]|[Hne Hf]]; [done|]. rewrite decide_False by done. destruct Hf as [|h s hs l Hh Hf]; [done|].
    cbn [hd]. apply hextet_nonempty, String.eqb_neq in Hh. by rewrite Hh. }
  cbn [obind].
  assert ((if (0 =? 0)%nat && String.eqb (List.last lo "x") "" then match lo with [_] => Ok [] | _ => address_value_error end
    else Ok lo) = Ok (if decide (los = []) then [] else lo)) as ->.
  { destruct Hlo as [[-> ->]|[Hne Hf]]; [done|]. rewrite decide_False by done. cbn [length Nat.eqb andb].
    destruct (String.eqb_spec (List.last lo "x") "") as [He|]; [|done]. exfalso.
    destruct lo as [|s l] using rev_ind; [by apply Forall2_nil_inv_r in Hf|]. rewrite List.last_last in He. subst s.
    apply Forall2_app_inv_r in Hf as (l1 & l2 & _ & Hf & _). inversion Hf as [|? ? ? ? Hh ?]. by apply hextet_nonempty in Hh. }
  cbn [obind].
  assert (forall hs parts, side hs parts -> length (if decide (hs = []) then [] else parts) = length hs /\
    omap_list parse_hextet (if decide (hs = []) then [] else parts) = Ok hs) as Hside.
  { intros hs parts [[-> ->]|[Hne Hf]]; [done|]. rewrite decide_False by done.
    split; [by symmetry; eapply Forall2_length|by apply parse_hextets]. }
  destruct (Hside _ _ Hhi) as [Hlen1 Hp1], (Hside _ _ Hlo) as [Hlen2 Hp2].
  rewrite (proj2 (Z.ltb_ge _ _)) by (rewrite Hlen1, Hlen2; cbn [length]; lia).
  rewrite Hp1, Hp2. cbn [obind]. rewrite app_nil_r, Hlen1, Hlen2. cbn [length].
  by replace (Z.to_nat (8 - Z.of_nat (length his + length los + 0))) with (8 - length his - length los)%nat by lia.
Qed.

Lemma parse_uncompressed hs parts :
  Forall2 hextet_of hs parts -> length hs = 8%nat -> parse_ipv6_parts parts [] = Ok (join_hextets hs).
Proof.
  intros Hf Hlen. pose proof (Forall2_length _ _ _ Hf) as Hl. unfold parse_ipv6_parts.
  rewrite no_marks by (intros i _; by eapply nth_nonempty). cbn [length]. rewrite Nat.add_0_r, <-Hl, Hlen. cbn [Nat.ltb Nat.leb Nat.eqb negb].
  rewrite (parse_hextets _ _ Hf). cbn [obind]. by rewrite app_nil_r.
Qed.

(** ** The run that is compressed *)

Definition zeros (parts : list string) (start len : nat) : Prop :=
  (start + len <= length parts)%nat /\ forall i, (start <= i < start + len)%nat -> parts !! i = Some "0".

Lemma longest_zero_run_zeros parts rest index best current :
  parts = take index parts ++ rest -> (index <= length parts)%nat -> zeros parts best.1 best.2 ->
  zeros parts current.1 current.2 -> (current.2 = 0 \/ current.1 + current.2 = index)%nat ->
  let '(start, len) := longest_zero_run rest index best current in zeros parts start len.
Proof.
  revert index best current. induction rest as [|p rest IH]; intros index best current Hp Hi Hb Hc Hadj.
  { cbn. by destruct best. }
  assert (parts !! index = Some p) as Hat.
  { rewrite Hp, lookup_app_r by (rewrite length_take; lia). by rewrite length_take, Nat.min_l, Nat.sub_diag by lia. }
  assert (parts = take (S index) parts ++ rest) as Hp'.
  { rewrite (take_S_r _ _ p) by done. rewrite <-app_assoc. exact Hp. }
  assert (S index <= length parts)%nat by (by apply lookup_lt_Some in Hat).
  cbn [longest_zero_run]. destruct (String.eqb_spec p "0") as [-> |].
  - set (current' := if (current.2 =? 0)%nat then _ else _).
    assert (zeros parts current'.1 current'.2 /\ (current'.1 + current'.2 = S index)%nat) as [Hc' Ha'].
    { unfold current'. destruct (Nat.eqb_spec current.2 0); cbn [fst snd].
      - split; [|lia]. split; [lia|]. intros i Hii. by replace i with index by lia.
      - destruct Hadj as [|Hadj]; [done|]. split; [|lia]. split; [lia|]. intros i Hii.
        destruct (decide (i = index)) as [-> |]; [done|]. apply (proj2 Hc). lia. }
    apply IH; [done|done|by case_match|done|by right].
  - apply IH; [done..| |by left]. split; cbn; [lia|]. intros i Hii. lia.
Qed.

Lemma best_run_zeros parts :
  let '(start, len) := longest_zero_run parts 0 (0%nat, 0%nat) (0%nat, 0%nat) in zeros parts start len.
Proof.
  apply longest_zero_run_zeros; [done|lia|split; [cbn; lia|intros i Hi; cbn in Hi; lia]|
    split; [cbn; lia|intros i Hi; cbn in Hi; lia]|by left].
Qed.

Lemma lookup_repeat {A} (x : A) n i : (i < n)%nat -> repeat x n !! i = Some x.
Proof. revert i. induction n as [|n IH]; intros [|i] Hi; cbn; [lia..|done|]. apply IH. lia. Qed.

Lemma Forall2_zeros hs parts start len :
  Forall2 hextet_of hs parts -> zeros parts start len ->
  hs = take start hs ++ repeat 0 len ++ drop (start + len) hs.
Proof.
  intros Hf [Hlen Hz]. pose proof (Forall2_length _ _ _ Hf) as Hl.
  rewrite <-(take_drop start hs) at 1. f_equal. rewrite <-(take_drop len (drop start hs)) at 1. rewrite drop_drop. f_equal.
  apply list_eq. intros i. destruct (decide (i < len)%nat) as [Hi|Hi].
  - rewrite lookup_take_lt by done. rewrite lookup_drop.
    assert (repeat 0 len !! i = Some 0) as -> by (by apply lookup_repeat).
    specialize (Hz (start + i)%nat). rewrite (Forall2_lookup _ _ _) in Hf. specialize (Hf (start + i)%nat).
    rewrite Hz in Hf by lia. inversion Hf as [h s Hh Heq1 Heq2|]. subst. destruct Hh as [_ _ Hzero _].
    cbn in Hzero. f_equal. lia.
  - rewrite lookup_take_ge by lia. symmetry. apply lookup_ge_None. rewrite repeat_length. lia.
Qed.

Lemma side_of hs parts : Forall2 hextet_of hs parts -> side hs (if decide (parts = []) then [EmptyString] else parts).
Proof.
  intros Hf. destruct (decide (parts = [])) as [-> |Hne].
  - left. by apply Forall2_nil_inv_r in Hf.
  - right. split; [|done]. intros ->. by apply Forall2_nil_inv_l in Hf.
Qed.

Lemma parse_compressed hs parts :
  Forall2 hextet_of hs parts -> length hs = 8%nat ->
  parse_ipv6_parts (compress_hextets parts) [] = Ok (join_hextets hs).
Proof.
  intros Hf Hlen. pose proof (Forall2_length _ _ _ Hf) as Hl. unfold compress_hextets.
  pose proof (best_run_zeros parts) as Hz. destruct (longest_zero_run parts 0 _ _) as [start len].
  destruct (Nat.ltb_spec 1 len) as [Hlt|]; [|by apply parse_uncompressed].
  set (lo := drop (start + len) parts). set (hi := take start parts).
  assert ((if (start =? 0)%nat then EmptyString :: hi ++ [EmptyString] ++ lo ++ (if (start + len =? length parts)%nat then [EmptyString] else [])
    else hi ++ [EmptyString] ++ lo ++ (if (start + len =? length parts)%nat then [EmptyString] else [])) =
    (if decide (hi = []) then [EmptyString] else hi) ++ EmptyString :: (if decide (lo = []) then [EmptyString] else lo)) as ->.
  { destruct Hz as [Hz _]. assert (hi = [] <-> start = 0%nat) as Hhi.
    { unfold hi. rewrite <-length_zero_iff_nil, length_take. lia. }
    assert (lo = [] <-> (start + len)%nat = length parts) as Hlo.
    { unfold lo. rewrite <-length_zero_iff_nil, length_drop. lia. }
    destruct (Nat.eqb_spec start 0), (Nat.eqb_spec (start + len) (length parts)), (decide (hi = [])) as [Eh|], (decide (lo = [])) as [El|];
      try tauto; rewrite ?Eh, ?El; cbn; rewrite ?app_nil_r; reflexivity. }
  rewrite (parse_around (take start hs) _ (drop (start + len) hs) _).
  - f_equal. rewrite length_take, length_drop, Hlen. destruct Hz as [Hz1 Hz2].
    replace (8 - start `min` 8 - (8 - (start + len)))%nat with len by lia.
    f_equal. symmetry. eapply Forall2_zeros; [done|]. by split.
  - apply side_of. by apply Forall2_take.
  - apply side_of. by apply Forall2_drop.
  - destruct Hz as [Hz1 _]. rewrite length_take, length_drop. lia.
Qed.

(** ** Printing and parsing *)

Lemma join_digits b (m : nat) n acc :
  0 < b ->
  fold_left (fun acc d => b * acc + d) (map (fun k => n / b ^ Z.of_nat k mod b) (rev (seq 0 m))) acc =
  b ^ Z.of_nat m * acc + n mod b ^ Z.of_nat m.
Proof.
  intros Hb. revert acc. induction m as [|m IH]; intros acc; [cbn; rewrite Z.mod_1_r; lia|].
  rewrite seq_S, rev_app_distr. cbn [rev app map fold_left plus]. rewrite IH, Nat2Z.inj_succ, Z.pow_succ_r by lia.
  set (B := b ^ Z.of_nat m). assert (0 < B) by (apply Z.pow_pos_nonneg; lia).
  rewrite (Z.mul_comm b B), (Z.rem_mul_r n B b) by lia. lia.
Qed.

Lemma hextets_of n : Forall2 hextet_of (map (fun k => n / 65536 ^ k mod 65536) [7; 6; 5; 4; 3; 2; 1; 0]) (hextets n).
Proof. unfold hextets. cbn [map]. repeat constructor; apply hex_text_of, Z.mod_pos_bound; done. Qed.

Lemma join_hextets_of n :
  0 <= n < 2 ^ 128 -> join_hextets (map (fun k => n / 65536 ^ k mod 65536) [7; 6; 5; 4; 3; 2; 1; 0]) = n.
Proof.
  intros Hn. pose proof (join_digits 65536 8 n 0 eq_refl) as H. rewrite Z.mul_0_r, Z.mod_small in H by done. exact H.
Qed.

(** The characters of a printed IPv6 address. *)
Definition part_ok (p : string) : Prop := all_chars hextet_char p = true.

Lemma hextet_char_not c d : hextet_char c = true -> hextet_char d = false -> negb (Ascii.eqb c d) = true.
Proof. intros Hc Hd. destruct (Ascii.eqb_spec c d) as [->|]; [congruence|done]. Qed.

Lemma compressed_parts hs parts :
  Forall2 hextet_of hs parts -> Forall part_ok (compress_hextets parts) /\
  ((3 <= length parts)%nat -> (3 <= length (compress_hextets parts))%nat).
Proof.
  intros Hf. assert (Forall part_ok parts) as Hp.
  { clear -Hf. induction Hf as [|h s hs parts [Hc _ _ _] _ IH]; by constructor. }
  unfold compress_hextets. pose proof (best_run_zeros parts) as Hz.
  destruct (longest_zero_run _ _ _ _) as [start len]. destruct Hz as [Hz _]. destruct (Nat.ltb_spec 1 len); [|by split].
  assert (part_ok EmptyString) as He by done.
  assert (Forall part_ok (take start parts)) by (by apply Forall_take).
  assert (Forall part_ok (drop (start + len) parts)) by (by apply Forall_drop).
  split.
  - destruct (start =? 0)%nat, (start + len =? length parts)%nat; rewrite ?list.Forall_cons, ?Forall_app, ?list.Forall_cons, ?Forall_nil; tauto.
  - intros Hlen. destruct (Nat.eqb_spec start 0), (Nat.eqb_spec (start + len) (length parts));
      cbn [length]; rewrite ?length_app, ?length_take, ?length_drop; cbn [length]; lia.
Qed.

Lemma all_chars_app p a b : all_chars p (a +:+ b) = all_chars p a && all_chars p b.
Proof. induction a as [|c a IH]; [done|]. simpl. by rewrite IH, andb_assoc. Qed.

Lemma all_chars_join p sep parts :
  all_chars p sep = true -> Forall (fun w => all_chars p w = true) parts -> all_chars p (join sep parts) = true.
Proof.
  intros Hs Hf. induction Hf as [|w parts Hw Hf IH]; [done|]. destruct parts as [|q parts]; [done|].
  change (join sep (w :: q :: parts)) with (w +:+ sep +:+ join sep (q :: parts)). by rewrite !all_chars_app, Hw, Hs, IH.
Qed.

Lemma parse_ipv4_text n : 0 <= n < 2 ^ 32 -> parse_ipv4 (ipv4_text n) = Ok n.
Proof.
  assert (forall k, 0 <= k < 256 -> parse_octet (str_int k) = Ok k /\
    all_chars (fun d => negb (Ascii.eqb d ".")) (str_int k) = true) as Hoctet.
  { assert (forallb (fun a => forallb (fun b => match parse_octet (str_int (16 * a + b)) with Ok m => m =? 16 * a + b | _ => false end &&
      all_chars (fun d => negb (Ascii.eqb d ".")) (str_int (16 * a + b))) digits16) digits16 = true) as Hall by (vm_compute; reflexivity).
    intros k Hk. apply (forallb_16 _ (k / 16)) in Hall; [|split; [apply Z.div_pos; lia|apply Z.div_lt_upper_bound; lia]].
    apply (forallb_16 _ (k mod 16)) in Hall; [|by apply Z.mod_pos_bound]. cbv beta in Hall. rewrite <-Z.div_mod in Hall by done.
    apply andb_true_iff in Hall as [H1 H2]. split; [|done]. destruct (parse_octet _) as [m|]; [|done]. f_equal. lia. }
  intros Hn. unfold parse_ipv4, ipv4_text. rewrite split_on_join.
  - cbn [map length Nat.eqb negb omap_list]. rewrite !(proj1 (Hoctet _ (Z.mod_pos_bound _ 256 eq_refl))). cbn [obind]. f_equal.
    pose proof (join_digits 256 4 n 0 eq_refl) as H. rewrite Z.mul_0_r, Z.mod_small in H by done. exact H.
  - done.
  - repeat constructor; apply Hoctet, Z.mod_pos_bound; done.
Qed.

Lemma contains_absent c s : all_chars (fun d => negb (Ascii.eqb d c)) s = true -> contains (String c EmptyString) s = false.
Proof.
  induction s as [|d s IH]; simpl; [done|]. intros [Hd Hs]%andb_true_iff. rewrite (IH Hs), orb_false_r.
  rewrite negb_true_iff, Ascii.eqb_sym in Hd. destruct (ascii_dec c d) as [->|]; [by rewrite Ascii.eqb_refl in Hd|done].
Qed.

Lemma contains_absent_inv c s : contains (String c EmptyString) s = false -> all_chars (fun d => negb (Ascii.eqb d c)) s = true.
Proof.
  induction s as [|d s IH]; simpl; [done|]. intros [Hd Hs]%orb_false_iff. rewrite (IH Hs), andb_true_r.
  destruct (ascii_dec c d) as [->|Hne]; [by destruct s|]. by rewrite (proj2 (Ascii.eqb_neq d c)).
Qed.

Lemma ipv6_text_no n d : 0 <= n < 2 ^ 128 -> hextet_char d = false -> Ascii.eqb ":" d = false ->
  all_chars (fun c => negb (Ascii.eqb c d)) (ipv6_text n) = true.
Proof.
  intros Hn Hd Hcolon. destruct (compressed_parts _ _ (hextets_of n)) as [Hparts _].
  apply all_chars_join; [unfold all_chars; by rewrite Hcolon|]. eapply Forall_impl; [exact Hparts|].
  intros w. apply all_chars_impl. intros c Hc. by apply hextet_char_not.
Qed.

Lemma parse_ipv6_text n : 0 <= n < 2 ^ 128 -> parse_ipv6 (ipv6_text n) = Ok n /\ exists e, parse_ipv4 (ipv6_text n) = Raise e.
Proof.
  intros Hn. pose proof (hextets_of n) as Hf. destruct (compressed_parts _ _ Hf) as [Hparts Hlen].
  specialize (Hlen ltac:(cbn; lia)). set (parts := compress_hextets (hextets n)) in *.
  pose proof (fun d => ipv6_text_no n d Hn) as Hno.
  assert (split_on ":" (ipv6_text n) = parts) as Hsplit.
  { apply split_on_join; [intros He; fold parts in He; rewrite He in Hlen; cbn in Hlen; lia|]. eapply Forall_impl; [exact Hparts|].
    intros w. apply all_chars_impl. intros c Hc. by apply hextet_char_not. }
  split.
  - unfold parse_ipv6. rewrite split_on_absent by (by apply Hno). rewrite contains_absent by (by apply Hno).
    unfold parse_ipv6_int. rewrite Hsplit, (proj2 (Nat.ltb_ge _ _)) by exact Hlen.
    assert (is_empty (ipv6_text n) = false) as ->.
    { destruct (ipv6_text n) eqn:He; [|done]. cbn in Hsplit. rewrite <-Hsplit in Hlen. cbn in Hlen. lia. }
    unfold expand_ipv4_tail. rewrite contains_absent.
    + cbn [obind fst snd]. unfold parts. rewrite (parse_compressed _ _ Hf) by done. by rewrite join_hextets_of.
    + assert (part_ok (List.last parts EmptyString)) as Hlast.
      { destruct parts as [|w l] using rev_ind; [done|]. rewrite List.last_last. apply Forall_app in Hparts as [_ Hw].
        by apply list.Forall_cons in Hw as [Hw _]. }
      revert Hlast. apply all_chars_impl. intros c Hc. by apply hextet_char_not.
  - exists (ValueError "AddressValueError"). unfold parse_ipv4. by rewrite split_on_absent by (by apply Hno).
Qed.

(** The text of an address parses to the address. *)
Lemma parse_ip_text a : 0 <= ip_int a < 2 ^ max_prefixlen (ip_v6 a) -> parse_ip (ip_text a) = Ok a.
Proof.
  destruct a as [[] n]; cbn [ip_int ip_v6 max_prefixlen]; intros Hn; unfold parse_ip, ip_text; cbn [ip_v6 ip_int].
  - destruct (parse_ipv6_text n Hn) as [H6 [e H4]]. by rewrite H4, H6.
  - by rewrite parse_ipv4_text.
Qed.

Lemma split_on_two sep s a b : split_on sep s = [a; b] -> s = a +:+ String sep b /\
  all_chars (fun c => negb (Ascii.eqb c sep)) a = true /\ all_chars (fun c => negb (Ascii.eqb c sep)) b = true.
Proof.
  revert a. induction s as [|c s IH]; simpl; intros a; [done|]. destruct (Ascii.eqb_spec c sep) as [->|Hne].
  - intros [= <- H]. apply split_on_single in H as Hb. subst b. split; [done|]. split; [done|].
    clear IH. induction s as [|d s IH]; [done|]. simpl in *. destruct (Ascii.eqb d sep) eqn:Hd; [by injection H as H; destruct (split_on_nonempty sep s)|].
    destruct (split_on sep s) as [|w ws] eqn:Hs; [by apply split_on_nonempty in Hs|]. injection H as -> ->. by apply IH.
  - destruct (split_on sep s) as [|w ws] eqn:Hs; [done|]. intros [= <- ->].
    destruct (IH w eq_refl) as (-> & Ha & Hb). split; [done|]. split; [|done]. simpl.
    by rewrite (proj2 (Ascii.eqb_neq c sep) Hne).
Qed.

Lemma parse_ipv4_chars s n : parse_ipv4 s = Ok n -> all_chars (fun c => is_digit c || Ascii.eqb c ".") s = true.
Proof.
  unfold parse_ipv4. destruct (negb _); [done|]. intros Hp. apply (split_on_all "."); [done|].
  destruct (omap_list parse_octet (split_on "." s)) as [l|] eqn:E; [|done]. clear Hp. revert l E.
  induction (split_on "." s) as [|w ws IH]; intros l; [by constructor|]. cbn.
  destruct (parse_octet w) as [k|] eqn:Ew; [|done]. destruct (omap_list parse_octet ws) as [l'|]; [|done]. intros _.
  constructor; [|by eapply IH]. unfold parse_octet, address_value_error in Ew.
  destruct (is_empty w || negb (all_chars is_digit w)) eqn:Hd; [by rewrite orb_true_l in Ew|].
  apply orb_false_iff in Hd as [_ Hd%negb_false_iff]. revert Hd. apply all_chars_impl. by intros c ->.
Qed.

(** Printing a scoped address and parsing it. *)
Lemma parse_scoped n scope :
  0 <= n < 2 ^ 128 -> is_empty scope = false -> all_chars (fun c => negb (Ascii.eqb c "%")) scope = true ->
  all_chars (fun c => negb (Ascii.eqb c "/")) scope = true ->
  parse_ip (ipv6_text n +:+ String "%" scope) = Ok (IpAddress true n) /\
  scope_suffix (ipv6_text n +:+ String "%" scope) = String "%" scope.
Proof.
  intros Hn He Hp Hslash. set (t := ipv6_text n +:+ String "%" scope).
  assert (split_on "%" t = [ipv6_text n; scope]) as Hsplit.
  { unfold t. rewrite split_on_cons_absent by (by apply ipv6_text_no). by rewrite split_on_absent. }
  split; [|unfold scope_suffix; by rewrite Hsplit].
  assert (exists e, parse_ipv4 t = Raise e) as [e H4].
  { destruct (parse_ipv4 t) as [m|e] eqn:E; [|eauto]. apply parse_ipv4_chars in E. unfold t in E.
    rewrite all_chars_app in E. apply andb_true_iff in E as [_ E]. by cbn in E. }
  unfold parse_ip. rewrite H4. unfold parse_ipv6. rewrite Hsplit, He, (contains_absent "/" t).
  - cbn [orb]. destruct (parse_ipv6_text n Hn) as [H6 _]. unfold parse_ipv6 in H6.
    rewrite split_on_absent in H6 by (by apply ipv6_text_no). rewrite (contains_absent "/") in H6 by (by apply ipv6_text_no).
    by rewrite H6.
  - unfold t. rewrite all_chars_app. simpl. rewrite ipv6_text_no, Hslash by done. done.
Qed.

Lemma append_empty (s : string) : s +:+ EmptyString = s.
Proof. induction s as [|c s IH]; [done|]. change (String c (s +:+ EmptyString) = String c s). by rewrite IH. Qed.

Lemma parse_ip_str s a :
  parse_ip s = Ok a ->
  let t := ip_text a +:+ (if ip_v6 a then scope_suffix s else EmptyString) in
  parse_ip t = Ok a /\ (if ip_v6 a then scope_suffix t = scope_suffix s else True).
Proof.
  intros Ha. cbv zeta. pose proof (parse_ip_range _ _ Ha) as Hr.
  destruct a as [[] n]; cbn [ip_v6 ip_int max_prefixlen] in *; [|rewrite append_empty; by rewrite parse_ip_text by exact Hr].
  assert (scope_suffix s = EmptyString \/ exists scope, scope_suffix s = String "%" scope /\ is_empty scope = false /\
    all_chars (fun c => negb (Ascii.eqb c "%")) scope = true /\ all_chars (fun c => negb (Ascii.eqb c "/")) scope = true) as Hs.
  { unfold parse_ip in Ha. destruct (parse_ipv4 s); [done|]. unfold scope_suffix. unfold parse_ipv6 in Ha.
    destruct (split_on "%" s) as [|addr [|scope [|]]] eqn:Hsplit; [by left..| |by left].
    apply split_on_two in Hsplit as (Hcat & _ & Hp). destruct (is_empty scope) eqn:He; [done|].
    destruct (contains "/" s) eqn:Hc; [done|]. right. exists scope. split_and!; [done..|].
    apply contains_absent_inv in Hc. rewrite Hcat, all_chars_app in Hc. apply andb_true_iff in Hc as [_ Hc]. simpl in Hc. exact Hc. }
  unfold ip_text. cbn [ip_v6 ip_int]. destruct Hs as [-> | (scope & -> & He & Hp & Hslash)]; [|by apply parse_scoped].
  rewrite append_empty. split; [exact (parse_ip_text (IpAddress true n) Hr)|].
  unfold scope_suffix. by rewrite split_on_absent by (by apply ipv6_text_no).
Qed.

(** Printing again changes nothing. *)
Lemma ip_str_idemp s t : ip_str s = Ok t -> ip_str t = Ok t.
Proof.
  unfold ip_str. destruct (parse_ip s) as [a|e] eqn:Ha; [|done]. cbn [obind]. intros [= <-].
  destruct (parse_ip_str s a Ha) as [-> Hs]. cbn [obind]. destruct (ip_v6 a); [by rewrite Hs|done].
Qed.

(** ** An address text has no blanks around it *)

Lemma rstrip_clean_chars s : all_chars (fun c => negb (is_space c)) s = true -> rstrip s = s.
Proof.
  induction s as [|c s IH]; simpl; [done|]. intros [Hc%negb_true_iff Hs]%andb_true_iff. rewrite (IH Hs).
  destruct s; [by rewrite Hc|done].
Qed.

Lemma rstrip_app a b : is_empty (rstrip b) = false -> rstrip (a +:+ b) = a +:+ rstrip b.
Proof.
  intros Hb. induction a as [|c a IH]; [done|]. change (rstrip (String c (a +:+ b)) = String c (a +:+ rstrip b)).
  simpl. rewrite IH. by destruct a as [|d a]; [destruct (rstrip b)|].
Qed.

Lemma app_inj a b b' : a +:+ b = a +:+ b' -> b = b'.
Proof. induction a as [|c a IH]; [done|]. intros [= H]. by apply IH. Qed.

Lemma strip_clean s : starts_clean s -> rstrip s = s -> strip s = s.
Proof. intros Hs Hr. unfold strip. by rewrite lstrip_id. Qed.

Lemma strip_fixed_rstrip s : strip s = s -> rstrip s = s.
Proof. unfold strip. intros H. rewrite <-H at 1. rewrite rstrip_idemp. exact H. Qed.

Lemma all_chars_nospace s :
  (forall d, is_space d = true -> all_chars (fun c => negb (Ascii.eqb c d)) s = true) ->
  all_chars (fun c => negb (is_space c)) s = true.
Proof.
  induction s as [|c s IH]; [done|]. intros H. simpl. rewrite IH.
  - rewrite andb_true_r. destruct (is_space c) eqn:Hc; [|done]. specialize (H c Hc). simpl in H. by rewrite Ascii.eqb_refl in H.
  - intros d Hd. specialize (H d Hd). simpl in H. by apply andb_true_iff in H as [_ H].
Qed.

Lemma ip_text_nospace a :
  0 <= ip_int a < 2 ^ max_prefixlen (ip_v6 a) -> all_chars (fun c => negb (is_space c)) (ip_text a) = true.
Proof.
  destruct a as [[] n]; cbn [ip_int ip_v6 max_prefixlen]; intros Hn; unfold ip_text; cbn [ip_v6 ip_int].
  - apply all_chars_nospace. intros d Hd. apply ipv6_text_no; [done|..]; revert Hd; by destruct d as [[] [] [] [] [] [] [] []].
  - pose proof (parse_ipv4_chars _ _ (parse_ipv4_text n Hn)) as Hc. revert Hc. apply all_chars_impl.
    intros c. by destruct c as [[] [] [] [] [] [] [] []].
Qed.

(** The text of an address is stripped when its source is. *)
Lemma ip_str_strip s t : strip s = s -> ip_str s = Ok t -> strip t = t.
Proof.
  intros Hs. unfold ip_str. destruct (parse_ip s) as [a|e] eqn:Ha; [|done]. cbn [obind]. intros [= <-].
  pose proof (ip_text_nospace a (parse_ip_range _ _ Ha)) as Hc.
  assert (starts_clean (ip_text a) /\ is_empty (ip_text a) = false) as [Hstart Hne].
  { pose proof (parse_ip_text a (parse_ip_range _ _ Ha)) as Hp. destruct (ip_text a) as [|c u] eqn:E; [by vm_compute in Hp|].
    split; [|done]. simpl in *. apply andb_true_iff in Hc as [Hc _]. by apply negb_true_iff. }
  apply strip_clean; [by destruct (ip_text a)|].
  assert (scope_suffix s = EmptyString \/ exists addr scope, scope_suffix s = String "%" scope /\ s = addr +:+ String "%" scope) as Hsuf.
  { unfold scope_suffix. destruct (split_on "%" s) as [|addr [|scope [|]]] eqn:Hsplit; [by left..| |by left].
    apply split_on_two in Hsplit as (Hcat & _). right. by exists addr, scope. }
  destruct (ip_v6 a); [|rewrite append_empty; by apply rstrip_clean_chars].
  destruct Hsuf as [-> |(addr & scope & -> & Hcat)]; [rewrite append_empty; by apply rstrip_clean_chars|].
  assert (is_empty (rstrip (String "%" scope)) = false) as Hn by (simpl; by destruct (rstrip scope)).
  apply strip_fixed_rstrip in Hs. rewrite Hcat, rstrip_app in Hs by done. apply app_inj in Hs.
  by rewrite rstrip_app, Hs.
Qed.
