(* ===== verification/ProtectedTargets.v ===== *)
(** * ProtectedTargets: core/soar_protected_targets.py

    The SOAR_PROTECTED_IPS configuration and the guard that refuses to block
    an address it covers. *)

From S2P Require Import Prelude PyText IpAddress.

Open Scope Z_scope.

(** [_parse_entry_to_network]: every ValueError becomes a configuration error. *)
Definition parse_entry_to_network (entry : string) : outcome ip_network :=
  match (if contains "/" entry then parse_network entry
         else let! ip := parse_ip entry in Ok (host_network ip)) with
  | Ok net => Ok net
  | Raise _ => Raise (ProtectedTargetConfigError ("Invalid SOAR_PROTECTED_IPS entry: " +:+ entry))
  end.

(** The entries of the variable: split on commas, stripped, blanks dropped. *)
Definition protected_entries (raw_value : string) : list string :=
  filter (fun e => is_empty e = false) (strip <$> split_on "," raw_value).

(** [load_protected_targets]: [config] is the variable's value, if set. *)
Definition load_protected_targets (config : option string) : outcome (list ip_network) :=
  omap_list parse_entry_to_network (protected_entries (default EmptyString config)).

Definition is_protected_target (config : option string) (target : option string) : outcome bool :=
  match target with
  | None => Ok false
  | Some target =>
      let! parsed_target := parse_ip target in
      let! networks := load_protected_targets config in
      Ok (existsb (in_network parsed_target) networks)
  end.

Definition require_unprotected_target (config : option string) (target : option string) : outcome unit :=
  let! protected := is_protected_target config target in
  if protected
  then Raise (SkippedAction ("Refusing to block protected target: " +:+ default EmptyString target)
                "protected_target")
  else Ok tt.

(** ** Meaning of an entry *)

(** The addresses an entry denotes: one address, or those that agree with
    the written address on the first [p] bits. *)
Definition entry_covers (entry : string) (ip : ip_address) : Prop :=
  if contains "/" entry
  then exists addr mask (v6 : bool) n p,
    split_on "/" entry = [addr; mask] /\
    (if v6 then parse_ipv6 addr else parse_ipv4 addr) = Ok n /\ parse_mask v6 mask = Ok p /\
    ip_v6 ip = v6 /\
    ip_int ip / 2 ^ (max_prefixlen v6 - p) = n / 2 ^ (max_prefixlen v6 - p)
  else parse_ip entry = Ok ip.

Lemma parse_mask_range v6 s p : parse_mask v6 s = Ok p -> 0 <= p <= max_prefixlen v6.
Proof.
  unfold parse_mask. destruct (parse_prefix v6 s) as [q|] eqn:E.
  - intros [= <-]. unfold parse_prefix in E.
    destruct (negb _ && all_chars is_digit s && _) eqn:H; [|done]. injection E as <-.
    rewrite !andb_true_iff in H. destruct H as [[_ Hd] Hle].
    pose proof (decimal_from_nonneg s 0 (Z.le_refl 0) Hd). unfold decimal in *. lia.
  - destruct v6; [done|]. destruct (parse_ipv4 s) as [mask|]; [|done]. simpl.
    assert (forall m q, prefix_of_mask m = Some q -> 0 <= q <= 32) as Hq.
    { intros m q [Hin _]%find_some. apply in_map_iff in Hin as (k & <- & Hk%in_seq). lia. }
    intros. repeat case_match; simplify_eq; eauto.
Qed.

(** No text is both an IPv4 and an IPv6 address. *)
Lemma parse_ipv4_not_ipv6 s n m : parse_ipv4 s = Ok n -> parse_ipv6 s <> Ok m.
Proof.
  intros H4 H6.
  assert (forall sep, Ascii.eqb "." sep = false -> (forall c, is_digit c = true -> Ascii.eqb c sep = false) ->
    split_on sep s = [s]) as Hsplit.
  { intros sep Hdot Hdig. apply split_on_absent, (split_on_all "."); [by rewrite Hdot|].
    unfold parse_ipv4 in H4. destruct (negb _); [done|].
    destruct (omap_list parse_octet _) as [os|] eqn:E; [|done]. clear H4.
    revert os E. induction (split_on "." s) as [|w ws IH]; [constructor|]. intros os E. simpl in E.
    destruct (parse_octet w) as [o|] eqn:Ew; [|done]. simpl in E.
    destruct (omap_list parse_octet ws) as [os'|]; [|done]. constructor; [|by eapply IH].
    unfold parse_octet, address_value_error in Ew.
    destruct (is_empty w || negb (all_chars is_digit w) || _) eqn:Hw; [done|].
    rewrite !orb_false_iff, negb_false_iff in Hw. destruct Hw as [[_ Hw] _].
    eapply all_chars_impl; [|exact Hw]. intros c Hc. by rewrite Hdig. }
  assert (forall sep, In sep ["%"; ":"]%char -> split_on sep s = [s]) as Hs.
  { intros sep Hin. apply Hsplit; [by destruct Hin as [<-|[<-|[]]]|].
    intros c Hc. apply Ascii.eqb_neq. intros ->. destruct Hin as [<-|[<-|[]]]; by vm_compute in Hc. }
  unfold parse_ipv6 in H6. rewrite (Hs "%"%char) in H6 by (left; done). unfold parse_ipv6_int in H6.
  rewrite (Hs ":"%char) in H6 by (right; left; done). simpl in H6.
  repeat case_match; done.
Qed.

Lemma in_host_network ip ip' :
  0 <= ip_int ip < 2 ^ max_prefixlen (ip_v6 ip) ->
  in_network ip (host_network ip') = true <-> ip = ip'.
Proof.
  intros Hr. unfold in_network, host_network. simpl. rewrite andb_true_iff, Bool.eqb_true_iff, Z.eqb_eq.
  destruct ip as [v n], ip' as [v' n']; simpl in *. split.
  - intros [-> H]. rewrite land_netmask in H by (destruct v'; simpl in *; lia).
    replace (max_prefixlen v' - max_prefixlen v') with 0 in H by lia.
    rewrite Z.pow_0_r, Z.div_1_r, Z.mul_1_r in H. by subst.
  - intros [= -> ->]. split; [done|]. rewrite land_netmask by (destruct v'; simpl in *; lia).
    replace (max_prefixlen v' - max_prefixlen v') with 0 by lia.
    by rewrite Z.pow_0_r, Z.div_1_r, Z.mul_1_r.
Qed.

Lemma in_masked_network ip v6 n p :
  0 <= ip_int ip < 2 ^ max_prefixlen (ip_v6 ip) -> 0 <= n < 2 ^ max_prefixlen v6 ->
  0 <= p <= max_prefixlen v6 ->
  in_network ip (IpNetwork v6 (Z.land n (netmask v6 p)) p) = true <->
  ip_v6 ip = v6 /\ ip_int ip / 2 ^ (max_prefixlen v6 - p) = n / 2 ^ (max_prefixlen v6 - p).
Proof.
  intros Hr Hn Hp. unfold in_network. simpl. rewrite andb_true_iff, Bool.eqb_true_iff, Z.eqb_eq.
  assert (0 < 2 ^ (max_prefixlen v6 - p)) by (apply Z.pow_pos_nonneg; lia).
  destruct ip as [v m]; simpl in *. split.
  - intros [-> H1]. rewrite !land_netmask in H1 by done. split; [done|]. nia.
  - intros [-> H1]. rewrite !land_netmask by done. by rewrite H1.
Qed.

Definition addr_value (v6 : bool) (addr : string) : outcome Z :=
  if v6 then parse_ipv6 addr else parse_ipv4 addr.

Lemma addr_value_range v6 a n : addr_value v6 a = Ok n -> 0 <= n < 2 ^ max_prefixlen v6.
Proof. destruct v6; simpl; eauto using parse_ipv4_range, parse_ipv6_range. Qed.

Lemma addr_value_version v6 v6' a n m : addr_value v6 a = Ok n -> addr_value v6' a = Ok m -> v6 = v6'.
Proof.
  destruct v6, v6'; simpl; intros H1 H2; try done; exfalso.
  - by eapply parse_ipv4_not_ipv6.
  - by eapply parse_ipv4_not_ipv6.
Qed.

Lemma split_on_contains s : contains "/" s = true -> split_on "/" s <> [s].
Proof.
  induction s as [|c s IH]; [done|].
  cbn [contains split_on]. destruct (Ascii.eqb c "/") eqn:Ec; [done|].
  intros Hc. assert (contains "/" s = true) as Hs.
  { apply orb_true_iff in Hc as [Hp|Hp]; [|done]. apply Ascii.eqb_neq in Ec.
    revert Hp. unfold String.prefix. destruct (ascii_dec _ _); [congruence|done]. }
  specialize (IH Hs). destruct (split_on "/" s) as [|w [|w' ws]]; intros Heq; simplify_eq.
Qed.

Lemma parse_network_slash e addr mask net :
  split_on "/" e = [addr; mask] -> parse_network e = Ok net ->
  exists v6 n p, addr_value v6 addr = Ok n /\ parse_mask v6 mask = Ok p /\
    net = IpNetwork v6 (Z.land n (netmask v6 p)) p.
Proof.
  intros Hs. unfold parse_network, parse_network_as. rewrite Hs.
  destruct (parse_ipv4 addr) as [n|] eqn:E4; simpl.
  - destruct (parse_mask false mask) as [p|] eqn:Em.
    { intros [= <-]. by exists false, n, p. }
    destruct (parse_ipv6 addr) as [m|] eqn:E6; [|done]. by apply (parse_ipv4_not_ipv6 _ _ m) in E4.
  - destruct (parse_ipv6 addr) as [m|] eqn:E6; [|done]. simpl.
    destruct (parse_mask true mask) as [p|] eqn:Em; [|done]. intros [= <-]. by exists true, m, p.
Qed.

(** The pieces of a text: one more than its separators. *)
Lemma split_on_pair_ne e addr mask : split_on "/" e = [addr; mask] -> contains "/" e = true.
Proof.
  intros H. destruct (contains "/" e) eqn:Hc; [done|exfalso].
  assert (split_on "/" e = [e]) as H'; [|by rewrite H' in H].
  clear H. induction e as [|c s IH]; [done|]. cbn [contains] in Hc.
  apply orb_false_iff in Hc as [Hp Hs]. cbn [split_on].
  destruct (Ascii.eqb c "/") eqn:Ec.
  - apply Ascii.eqb_eq in Ec as ->. by destruct s.
  - by rewrite IH.
Qed.

Lemma entry_covers_spec e net ip :
  0 <= ip_int ip < 2 ^ max_prefixlen (ip_v6 ip) ->
  parse_entry_to_network e = Ok net -> in_network ip net = true <-> entry_covers e ip.
Proof.
  intros Hr. unfold parse_entry_to_network, entry_covers.
  destruct (contains "/" e) eqn:Hslash.
  - destruct (parse_network e) as [net'|] eqn:E; [|done]. intros [= ->].
    destruct (split_on "/" e) as [|addr [|mask [|? ?]]] eqn:Hs.
    + unfold parse_network, parse_network_as in E. by rewrite Hs in E.
    + apply split_on_contains in Hslash. rewrite Hs in Hslash.
      apply split_on_single in Hs as ->. done.
    + destruct (parse_network_slash e addr mask net Hs E) as (v6 & n & p & Ha & Hm & ->).
      pose proof (addr_value_range _ _ _ Ha). pose proof (parse_mask_range _ _ _ Hm).
      rewrite in_masked_network by done. split.
      * intros [Hv Hd]. by exists addr, mask, v6, n, p.
      * intros (a' & m' & v' & n' & p' & [= <- <-] & Ha' & Hm' & Hv' & Hd').
        pose proof (addr_value_version _ _ _ _ _ Ha Ha') as <-. unfold addr_value in Ha.
        rewrite Ha in Ha'. rewrite Hm in Hm'. by simplify_eq.
    + unfold parse_network, parse_network_as in E. by rewrite Hs in E.
  - destruct (parse_ip e) as [ip'|] eqn:E; [|done]. simpl. intros [= <-].
    rewrite in_host_network by done. split; congruence.
Qed.

(** ** Properties *)

Lemma load_member config nets e :
  load_protected_targets config = Ok nets -> e ∈ protected_entries (default EmptyString config) ->
  exists net, net ∈ nets /\ parse_entry_to_network e = Ok net.
Proof.
  unfold load_protected_targets. generalize (protected_entries (default EmptyString config)) as es.
  intros es. revert nets. induction es as [|x es IH]; simpl; intros nets; [by intros _ ?%not_elem_of_nil|].
  destruct (parse_entry_to_network x) as [n|] eqn:Ex; [|done]. simpl.
  destruct (omap_list _ es) as [ns|]; [|done]. simpl. intros [= <-] [->|Hin]%elem_of_cons.
  - exists n. split; [left|done].
  - destruct (IH ns eq_refl Hin) as (net & ? & ?). exists net. split; [by right|done].
Qed.

Lemma load_member_inv config nets net :
  load_protected_targets config = Ok nets -> net ∈ nets ->
  exists e, e ∈ protected_entries (default EmptyString config) /\ parse_entry_to_network e = Ok net.
Proof.
  unfold load_protected_targets. generalize (protected_entries (default EmptyString config)) as es.
  intros es. revert nets. induction es as [|x es IH]; simpl; intros nets.
  - intros [= <-] ?%not_elem_of_nil. done.
  - destruct (parse_entry_to_network x) as [n|] eqn:Ex; [|done]. simpl.
    destruct (omap_list _ es) as [ns|]; [|done]. simpl. intros [= <-] [->|Hin]%elem_of_cons.
    + exists x. split; [left|done].
    + destruct (IH ns eq_refl Hin) as (e & ? & ?). exists e. split; [by right|done].
Qed.

(** The protected-target guard implements CIDR membership.  When the
    configuration loads, blocking an address is refused exactly when some
    entry covers it: the entry is that address, or it is written as
    address/mask (prefix length, netmask or hostmask), has the same IP
    version, and agrees with the address on the masked leading bits. *)
Theorem protected_target_cidr config nets s ip :
  load_protected_targets config = Ok nets -> parse_ip s = Ok ip ->
  (require_unprotected_target config (Some s) <> Ok tt <->
   exists e, e ∈ protected_entries (default EmptyString config) /\ entry_covers e ip).
Proof.
  intros Hload Hip. pose proof (parse_ip_range _ _ Hip) as Hr.
  unfold require_unprotected_target, is_protected_target. rewrite Hip, Hload. cbn [obind].
  assert (existsb (in_network ip) nets = true <->
    exists e, e ∈ protected_entries (default EmptyString config) /\ entry_covers e ip) as <-.
  { rewrite existsb_exists. split.
    - intros (net & Hin%list_elem_of_In & Hn).
      destruct (load_member_inv _ _ _ Hload Hin) as (e & He & Hp). exists e. split; [done|].
      by apply (entry_covers_spec e net ip).
    - intros (e & He & Hc). destruct (load_member _ _ _ Hload He) as (net & Hin & Hp).
      exists net. rewrite <- list_elem_of_In. split; [done|]. by apply (entry_covers_spec e net ip). }
  destruct (existsb _ _); split; done.
Qed.

(** The guard fails closed.  If any entry of the configuration does not
    parse, every well-formed address is refused with a configuration error,
    whatever the other entries say. *)
Theorem protected_config_fails_closed config s ip e x :
  e ∈ protected_entries (default EmptyString config) -> parse_entry_to_network e = Raise x ->
  parse_ip s = Ok ip ->
  exists m, require_unprotected_target config (Some s) = Raise (ProtectedTargetConfigError m).
Proof.
  intros He Hx Hip. unfold require_unprotected_target, is_protected_target. rewrite Hip. cbn [obind].
  assert (exists m, load_protected_targets config = Raise (ProtectedTargetConfigError m)) as [m ->]; [|eauto].
  unfold load_protected_targets. induction He as [e es|e y es Hin IH]; simpl.
  - rewrite Hx. unfold parse_entry_to_network in Hx. case_match; simplify_eq. eauto.
  - destruct (parse_entry_to_network y) as [n|] eqn:Ey; simpl.
    + destruct (IH Hx) as [m ->]. eauto.
    + unfold parse_entry_to_network in Ey. case_match; simplify_eq. eauto.
Qed.

(** ** Witnesses *)

Lemma protected_target_cidr_witness :
  require_unprotected_target (Some "10.0.0.0/8, 203.0.113.9") (Some "10.1.2.3") <> Ok tt.
Proof.
  destruct (load_protected_targets (Some "10.0.0.0/8, 203.0.113.9")) as [nets|] eqn:E;
    [|vm_compute in E; discriminate E].
  apply (protected_target_cidr (Some "10.0.0.0/8, 203.0.113.9") nets "10.1.2.3" (IpAddress false 167838211) E);
    [by vm_compute|].
  exists "10.0.0.0/8". split.
  - vm_compute. left.
  - unfold entry_covers. replace (contains "/" "10.0.0.0/8") with true by (by vm_compute).
    exists "10.0.0.0", "8", false, 167772160, 8. split_and!; by vm_compute.
Defined.

Lemma protected_config_fails_closed_witness :
  exists m, require_unprotected_target (Some "8.8.8.8,not-an-ip") (Some "8.8.8.8") =
    Raise (ProtectedTargetConfigError m).
Proof.
  apply (protected_config_fails_closed (Some "8.8.8.8,not-an-ip") "8.8.8.8" (IpAddress false 134744072)
    "not-an-ip" (ProtectedTargetConfigError "Invalid SOAR_PROTECTED_IPS entry: not-an-ip")).
  - vm_compute. right. left.
  - by vm_compute.
  - by vm_compute.
Defined.
