(* ===== verification/Interfaces.v ===== *)
(** * Interfaces between the components

    The response queue reads approval decisions, and the queue worker calls
    the protected-target policy and the response command service, through
    the classes of this file.  Each class is implemented where the component
    is modelled; the clients are proved against the class. *)

From S2P Require Import Prelude.

Inductive approval_status := Pending | Approved | Denied | Expired.

#[export] Instance approval_status_eq_dec : EqDecision approval_status.
Proof. solve_decision. Defined.

(** What the queue's statements ask of approval_requests, for a queue row
    and its action: whether an approved request exists, and the status of
    the latest one. *)
Class ApprovalLookup (A : Type) := {
  approved_exists : A -> Z -> string -> bool;
  latest_status : A -> Z -> string -> option approval_status;
  latest_approved_exists : forall a queue action,
    latest_status a queue action = Some Approved -> approved_exists a queue action = true;
}.
