(* ===== verification/Hoare.v ===== *)
(** * Hoare: rules for stateful computations that may raise

    [triple P R m Q]: from a state in [P], running [m] moves the state along
    the preorder [R] whether it returns or raises, and a returned value
    satisfies [Q] with the final state. *)

From S2P Require Import Prelude Tables.

Definition triple {S A} (P : S -> Prop) (R : S -> S -> Prop) (m : M S A) (Q : A -> S -> Prop) : Prop :=
  forall s, P s -> R s (m s).2 /\ forall a, (m s).1 = Ok a -> Q a (m s).2.

(** An assertion that [R] preserves. *)
Definition stable {S} (R : S -> S -> Prop) (P : S -> Prop) : Prop := forall s s', R s s' -> P s -> P s'.

Definition anything {S A} : A -> S -> Prop := fun _ _ => True.

Lemma triple_forget {S A} (P : S -> Prop) R (m : M S A) (Q : A -> S -> Prop) : triple P R m Q -> triple P (fun _ _ => True) m Q.
Proof. intros Hm s Hs. split; [done|]. by apply Hm. Qed.

(** No constraint on the moves. *)
#[export] Instance any_move_preorder S : PreOrder (fun _ _ : S => True).
Proof. by split. Qed.

Section Rules.
Context {S : Type} {R : S -> S -> Prop} `{!PreOrder R}.
Implicit Types P I : S -> Prop.

Lemma triple_ret {A} P (Q : A -> S -> Prop) (a : A) : (forall s, P s -> Q a s) -> triple P R (ret a) Q.
Proof. intros H s Hs. split; [reflexivity|]. intros ? [= <-]. by apply H. Qed.

Lemma triple_raise {A} P (Q : A -> S -> Prop) e : triple P R (raise e) Q.
Proof. intros s Hs. split; [reflexivity|done]. Qed.

Lemma triple_of_outcome {A} P (Q : A -> S -> Prop) (o : outcome A) :
  (forall a s, o = Ok a -> P s -> Q a s) -> triple P R (of_outcome o) Q.
Proof. intros H s Hs. split; [reflexivity|]. intros a Ha. by apply H. Qed.

Lemma triple_gets {A} P (Q : A -> S -> Prop) (f : S -> A) : (forall s, P s -> Q (f s) s) -> triple P R (gets f) Q.
Proof. intros H s Hs. split; [reflexivity|]. intros ? [= <-]. by apply H. Qed.

Lemma triple_bind {A B} P (Q1 : A -> S -> Prop) (Q2 : B -> S -> Prop) (m : M S A) (k : A -> M S B) :
  triple P R m Q1 -> (forall a, triple (Q1 a) R (k a) Q2) -> triple P R (bind m k) Q2.
Proof.
  intros Hm Hk s Hs. destruct (Hm s Hs) as [HR HQ]. unfold bind.
  destruct (m s) as [[a|e] s'] eqn:E; cbn [fst snd] in *; [|by split].
  destruct (Hk a s' (HQ a eq_refl)) as [HR' HQ']. split; [by etrans|done].
Qed.

Lemma triple_weaken {A} P P' (Q Q' : A -> S -> Prop) (m : M S A) :
  triple P R m Q -> (forall s, P' s -> P s) -> (forall a s, Q a s -> Q' a s) -> triple P' R m Q'.
Proof. intros Hm HP HQ s Hs. destruct (Hm s (HP s Hs)) as [HR H]. eauto. Qed.

Lemma triple_pre {A} P P' (Q : A -> S -> Prop) (m : M S A) :
  triple P R m Q -> (forall s, P' s -> P s) -> triple P' R m Q.
Proof. intros Hm HP. by eapply triple_weaken. Qed.

Lemma triple_frame {A} I P (Q : A -> S -> Prop) (m : M S A) :
  stable R I -> triple P R m Q -> triple (fun s => I s /\ P s) R m (fun a s => I s /\ Q a s).
Proof. intros HI Hm s [Hi Hp]. destruct (Hm s Hp) as [HR HQ]. split; [done|]. intros a Ha. eauto. Qed.

(** A fact that does not depend on the state. *)
Lemma triple_pure {A} P (fact : Prop) (m : M S A) Q : (fact -> triple P R m Q) -> triple (fun s => P s /\ fact) R m Q.
Proof using. intros Hm s [Hs Hf]. by apply Hm. Qed.

(** The handler may rely on what survives from the precondition. *)
Lemma triple_try {A} P Pe (Q : A -> S -> Prop) (m : M S A) (h : exn -> M S A) :
  triple P R m Q -> (forall s s', P s -> R s s' -> Pe s') -> (forall e, triple Pe R (h e) Q) ->
  triple P R (try_catch m h) Q.
Proof.
  intros Hm He Hh s Hs. destruct (Hm s Hs) as [HR HQ]. unfold try_catch.
  destruct (m s) as [[a|e] s'] eqn:E; cbn [fst snd] in *; [by split|].
  destruct (Hh e s' (He _ _ Hs HR)) as [HR' HQ']. split; [by etrans|done].
Qed.

(** The common case: one assertion, stable, through the whole computation. *)
Definition keeps {A} I (m : M S A) : Prop := triple I R m (fun _ => I).

Lemma keeps_triple {A} I (m : M S A) : stable R I -> triple I R m anything -> keeps I m.
Proof. intros HI Hm s Hs. destruct (Hm s Hs) as [HR _]. split; [done|]. intros a _. by eapply HI. Qed.

Lemma keeps_ret {A} I (a : A) : keeps I (ret a).
Proof. by apply triple_ret. Qed.
Lemma keeps_raise {A} I e : keeps I (raise e : M S A).
Proof. by apply triple_raise. Qed.
Lemma keeps_of_outcome {A} I (o : outcome A) : keeps I (of_outcome o).
Proof. by apply triple_of_outcome. Qed.
Lemma keeps_seq {A B} I (m : M S A) (k : A -> M S B) : keeps I m -> (forall a, keeps I (k a)) -> keeps I (bind m k).
Proof. intros Hm Hk. by eapply triple_bind. Qed.
Lemma keeps_try {A} I (m : M S A) (h : exn -> M S A) :
  stable R I -> keeps I m -> (forall e, keeps I (h e)) -> keeps I (try_catch m h).
Proof. intros HI Hm Hh. eapply triple_try; [done| |done]. intros s s' Hs HR. by eapply HI. Qed.

(** .. and a fact about the value returned. *)
Definition yields {A} I (m : M S A) (F : A -> Prop) : Prop := triple I R m (fun a s => I s /\ F a).

Lemma yields_ret {A} I (a : A) (F : A -> Prop) : F a -> yields I (ret a) F.
Proof. intros Ha. by apply triple_ret. Qed.
Lemma yields_raise {A} I e (F : A -> Prop) : yields I (raise e : M S A) F.
Proof. by apply triple_raise. Qed.
Lemma yields_bind {A B} I (m : M S A) (k : A -> M S B) (G : A -> Prop) (F : B -> Prop) :
  yields I m G -> (forall a, G a -> yields I (k a) F) -> yields I (bind m k) F.
Proof.
  intros Hm Hk. eapply triple_bind; [exact Hm|]. intros a s [Hs Ha]. by apply (Hk a Ha s Hs).
Qed.
Lemma yields_after {A B} I (m : M S A) (k : A -> M S B) (F : B -> Prop) :
  keeps I m -> (forall a, yields I (k a) F) -> yields I (bind m k) F.
Proof. intros Hm Hk. by eapply triple_bind. Qed.
Lemma yields_keeps {A} I (m : M S A) (F : A -> Prop) : yields I m F -> keeps I m.
Proof. intros Hm s Hs. destruct (Hm s Hs) as [HR HQ]. split; [done|]. intros a Ha. by destruct (HQ a Ha). Qed.
Lemma keeps_yields {A} I (m : M S A) (F : A -> Prop) : keeps I m -> (forall a, F a) -> yields I m F.
Proof. intros Hm HF s Hs. destruct (Hm s Hs) as [HR HQ]. split; [done|]. intros a Ha. split; [exact (HQ a Ha)|apply HF]. Qed.
Lemma yields_of_outcome {A} I (o : outcome A) (F : A -> Prop) : (forall a, o = Ok a -> F a) -> yields I (of_outcome o) F.
Proof. intros HF. apply triple_of_outcome. intros a s Ha Hs. split; [done|by apply HF]. Qed.
Lemma yields_try {A} I (m : M S A) (h : exn -> M S A) (F : A -> Prop) :
  stable R I -> yields I m F -> (forall e, yields I (h e) F) -> yields I (try_catch m h) F.
Proof. intros HI Hm Hh. eapply triple_try; [exact Hm| |done]. intros s s' Hs HR. by eapply HI. Qed.
Lemma yields_weaken {A} I (m : M S A) (F G : A -> Prop) : yields I m F -> (forall a, F a -> G a) -> yields I m G.
Proof. intros Hm HG. eapply triple_weaken; [exact Hm|done|]. intros a s [? ?]. split; [done|by apply HG]. Qed.
End Rules.

(** ** Computations that return

    [total P m Q]: from a state in [P], [m] returns, in [Q]. *)

Definition total {S A} (P : S -> Prop) (m : M S A) (Q : A -> S -> Prop) : Prop :=
  forall s, P s -> exists a s', m s = (Ok a, s') /\ Q a s'.

Lemma total_ret {S A} (P : S -> Prop) (Q : A -> S -> Prop) (a : A) : (forall s, P s -> Q a s) -> total P (ret a) Q.
Proof. intros H s Hs. exists a, s. split; [done|by apply H]. Qed.

Lemma total_bind {S A B} (P : S -> Prop) (Q1 : A -> S -> Prop) (Q2 : B -> S -> Prop) (m : M S A) (k : A -> M S B) :
  total P m Q1 -> (forall a, total (Q1 a) (k a) Q2) -> total P (bind m k) Q2.
Proof.
  intros Hm Hk s Hs. destruct (Hm s Hs) as (a & s1 & Hrun & H1). destruct (Hk a s1 H1) as (b & s2 & Hrun2 & H2).
  exists b, s2. split; [|done]. unfold bind. by rewrite Hrun.
Qed.

Lemma total_try {S A} (P : S -> Prop) (Q : A -> S -> Prop) (m : M S A) h : total P m Q -> total P (try_catch m h) Q.
Proof.
  intros Hm s Hs. destruct (Hm s Hs) as (a & s1 & Hrun & H1). exists a, s1. split; [|done].
  unfold try_catch. by rewrite Hrun.
Qed.

Lemma total_weaken {S A} (P P' : S -> Prop) (Q Q' : A -> S -> Prop) (m : M S A) :
  total P m Q -> (forall s, P' s -> P s) -> (forall a s, Q a s -> Q' a s) -> total P' m Q'.
Proof. intros Hm HP HQ s Hs. destruct (Hm s (HP s Hs)) as (a & s1 & Hrun & H1). exists a, s1. auto. Qed.

Lemma total_pure {S A} (P : S -> Prop) (fact : Prop) (m : M S A) Q :
  (fact -> total P m Q) -> total (fun s => P s /\ fact) m Q.
Proof. intros Hm s [Hs Hf]. by apply Hm. Qed.

(** ** Statements over a connection

    [cn_rel r]: nothing is committed, and the current tables move along [r]. *)
Section Statements.
Context {D : Type} `{Transactional D}.

Record cn_rel (r : D -> D -> Prop) (c c' : conn D) : Prop := CnRel {
  cr_committed : cn_committed c' = cn_committed c;
  cr_current : r (cn_current c) (cn_current c');
}.

#[export] Instance cn_rel_preorder r : PreOrder r -> PreOrder (cn_rel r).
Proof.
  intros Hr. split.
  - intros c. split; [done|reflexivity].
  - intros c1 c2 c3 [H1 H2] [H3 H4]. split; [congruence|by etrans].
Qed.

(** An assertion on the current tables. *)
Definition on_current (P : D -> Prop) (c : conn D) : Prop := P (cn_current c).

Lemma stable_current r P : stable r P -> stable (cn_rel r) (on_current P).
Proof. intros HP c c' [_ Hr] Hc. by eapply HP. Qed.

Lemma triple_execute {A} (r : D -> D -> Prop) (P : D -> Prop) (m : M D A) (Q : A -> D -> Prop) :
  PreOrder r -> triple P r m Q -> triple (on_current P) (cn_rel r) (execute m) (fun a => on_current (Q a)).
Proof.
  intros Hr Hm c Hc. unfold execute. destruct (cn_aborted c) eqn:Ha; [split; [reflexivity|done]|].
  destruct (Hm (cn_current c) Hc) as [HR HQ]. destruct (m (cn_current c)) as [[a|e] d]; cbn [fst snd] in *.
  - split; [by split|]. intros ? [= <-]. by apply HQ.
  - by split; [split|].
Qed.

(** A savepoint never raises; a failed block leaves what the rollback
    restores. *)
Lemma triple_savepoint {A} (r : D -> D -> Prop) (P : D -> Prop) (m : M D A) (Q : option A -> D -> Prop) :
  PreOrder r -> triple P r m (fun a => Q (Some a)) ->
  (forall d d', P d -> r d d' -> r d (restore d d') /\ Q None (restore d d')) ->
  (forall d, P d -> Q None d) ->
  triple (on_current P) (cn_rel r) (savepoint_conn m) (fun a => on_current (Q a)).
Proof.
  intros Hr Hm Hb Hn c Hc. unfold savepoint_conn. destruct (cn_aborted c) eqn:Ha.
  { split; [reflexivity|]. intros ? [= <-]. by apply Hn. }
  destruct (Hm (cn_current c) Hc) as [HR HQ]. destruct (m (cn_current c)) as [[a|e] d]; cbn [fst snd] in *.
  - split; [by split|]. intros ? [= <-]. by apply HQ.
  - destruct (Hb _ _ Hc HR) as [HR' HN]. split; [by split|]. by intros ? [= <-].
Qed.
End Statements.

(** Decompose a computation into its statements, carrying one stable
    assertion. *)
Ltac keeps_step :=
  first
    [ apply keeps_ret | apply keeps_raise | apply keeps_of_outcome
    | apply keeps_seq; [|intros ?] | case_match ].

(** ** Statements on a part of the state *)
Section Parts.
Context {S T : Type} {prj : S -> T} {upd : T -> S -> S}.

Lemma triple_zoom {A} (r : T -> T -> Prop) (R : S -> S -> Prop) (P : T -> Prop) (m : M T A) (Q : A -> T -> Prop) :
  (forall s t, prj (upd t s) = t) -> (forall s t, r (prj s) t -> R s (upd t s)) ->
  triple P r m Q -> triple (fun s => P (prj s)) R (zoom prj upd m) (fun a s => Q a (prj s)).
Proof.
  intros Hget HR Hm s Hs. unfold zoom. destruct (Hm _ Hs) as [H1 H2].
  destruct (m (prj s)) as [o t]; cbn [fst snd] in *. rewrite Hget. auto.
Qed.
End Parts.

(** [holds_still part m]: [m] leaves the part of the state as it is. *)
Definition holds_still {S T A} (part : S -> T) (m : M S A) : Prop := forall s, part (m s).2 = part s.

Section Still.
Context {S T : Type} {part : S -> T}.

Lemma still_ret {A} (a : A) : holds_still part (ret a).
Proof. done. Qed.
Lemma still_raise {A} e : holds_still part (raise e : M S A).
Proof. done. Qed.
Lemma still_gets {A} (f : S -> A) : holds_still part (gets f).
Proof. done. Qed.
Lemma still_of_outcome {A} (o : outcome A) : holds_still part (of_outcome o).
Proof. done. Qed.
Lemma still_bind {A B} (m : M S A) (k : A -> M S B) :
  holds_still part m -> (forall a, holds_still part (k a)) -> holds_still part (bind m k).
Proof. intros Hm Hk s. unfold bind. specialize (Hm s). destruct (m s) as [[a|e] s1]; cbn in *; [by rewrite Hk|done]. Qed.
Lemma still_try {A} (m : M S A) (h : exn -> M S A) :
  holds_still part m -> (forall e, holds_still part (h e)) -> holds_still part (try_catch m h).
Proof. intros Hm Hh s. unfold try_catch. specialize (Hm s). destruct (m s) as [[a|e] s1]; cbn in *; [done|by rewrite Hh]. Qed.
Lemma still_zoom {U A} (prj : S -> U) (upd : U -> S -> S) (m : M U A) :
  (forall u s, part (upd u s) = part s) -> holds_still part (zoom prj upd m).
Proof. intros Hu s. unfold zoom. destruct (m (prj s)) as [o u]. apply Hu. Qed.
End Still.

(** A statement that leaves a part as it is keeps any assertion about it. *)
Lemma triple_still {D T A} `{Transactional D} (part : D -> T) (P : T -> Prop) (m : M D A) :
  holds_still part m ->
  triple (on_current (fun d => P (part d))) (fun _ _ => True) (execute m) (fun _ => on_current (fun d => P (part d))).
Proof.
  intros Hm c Hc. split; [done|]. unfold execute, on_current in *. destruct (cn_aborted c); [done|].
  specialize (Hm (cn_current c)). destruct (m (cn_current c)) as [[a|e] d]; [|done]. intros b _. cbn in *. by rewrite Hm.
Qed.
