(* ===== verification/Approvals.v ===== *)
(** * Approvals: core/approval_store.py

    Approval requests, their event trail, and the decision handler of
    routes/approval_routes.py with its transaction boundary. *)

From S2P Require Import Prelude PyText Tables Interfaces.

Open Scope Z_scope.

(** ** Data *)

Definition status_str (s : approval_status) : string :=
  match s with
  | Pending => "pending" | Approved => "approved" | Denied => "denied" | Expired => "expired"
  end.

(** [TERMINAL_APPROVAL_STATUSES]. *)
Definition terminal_approval (s : approval_status) : bool :=
  match s with Pending => false | _ => true end.

Definition DEFAULT_APPROVAL_TTL_MINUTES : Z := 60.

(** A row of approval_requests, without its id. *)
Record approval_row := ApprovalRow {
  ap_incident_id : option Z;
  ap_queue_id : option Z;
  ap_execution_id : option Z;
  ap_step_index : option Z;
  ap_requested_by : option Z;
  ap_approved_by : option Z;
  ap_decided_by : option Z;
  ap_status : approval_status;
  ap_action : string;
  ap_risk_level : string;
  ap_request_reason : option string;
  ap_decision_comment : option string;
  ap_created_at : Z;
  ap_decided_at : option Z;
  ap_expires_at : Z;
}.

(** A row of approval_request_events. *)
Record approval_event := ApprovalEvent {
  ev_request : Z;
  ev_type : string;
  ev_actor : option Z;
  ev_previous : option approval_status;
  ev_new : approval_status;
  ev_comment : option string;
  ev_created_at : Z;
}.

(** A call of [log_audit_event], which writes through its own connection. *)
Record audit_entry := AuditEntry {
  au_type : string;
  au_actor : option string;
  au_request : Z;
  au_incident : option Z;
  au_queue : option Z;
  au_action : string;
  au_previous : option approval_status;
  au_new : approval_status;
  au_comment : option string;
}.

Record approval_store := ApprovalStore {
  as_rows : gmap Z approval_row;
  as_events : gmap Z approval_event;
  as_row_seq : Z;
  as_event_seq : Z;
  as_audit : list audit_entry;
}.

(** A rollback restores the two tables; the sequences and the audit log stay. *)
#[export, refine] Instance approval_store_tx : Transactional approval_store := {
  restore snap cur :=
    ApprovalStore (as_rows snap) (as_events snap) (as_row_seq cur) (as_event_seq cur) (as_audit cur);
}.
Proof. all: by intros []. Defined.

Definition with_rows (rows : gmap Z approval_row) (s : approval_store) : approval_store :=
  ApprovalStore rows (as_events s) (as_row_seq s) (as_event_seq s) (as_audit s).

(** The orders of the store's queries. *)
Definition newest_first (i : Z) (r : approval_row) : list Z := [- ap_created_at r; - i].
Definition by_expiry (i : Z) (r : approval_row) : list Z := [ap_expires_at r; i].
Definition event_order (i : Z) (e : approval_event) : list Z := [ev_created_at e; i].

(** ** Writes shared by the operations *)

Section Writes.
Context (clk : clock).

Definition insert_event (request : Z) (type : string) (actor : option Z)
    (previous : option approval_status) (new : approval_status) (comment : option string)
    : M approval_store unit :=
  modify (fun s =>
    ApprovalStore (as_rows s)
      (<[as_event_seq s := ApprovalEvent request type actor previous new comment (sql_now clk)]>
         (as_events s))
      (as_row_seq s) (as_event_seq s + 1) (as_audit s)).

(** [_write_audit_event]: failures are logged and swallowed. *)
Definition write_audit_event (type : string) (actor : option Z) (request : Z * approval_row)
    (previous : option approval_status) (new : approval_status) (comment : option string)
    : M approval_store unit :=
  modify (fun s =>
    ApprovalStore (as_rows s) (as_events s) (as_row_seq s) (as_event_seq s)
      (as_audit s ++
       [AuditEntry type (str_int <$> actor) request.1 (ap_incident_id request.2)
          (ap_queue_id request.2) (ap_action request.2) previous new comment])).

(** The UPDATE of a decision or an expiration. *)
Definition decided (new : approval_status) (approver decider : option Z) (at_ : Z)
    (comment : option string) (r : approval_row) : approval_row :=
  ApprovalRow (ap_incident_id r) (ap_queue_id r) (ap_execution_id r) (ap_step_index r)
    (ap_requested_by r) approver decider new (ap_action r) (ap_risk_level r)
    (ap_request_reason r) comment (ap_created_at r) (Some at_) (ap_expires_at r).

Definition set_row (i : Z) (r : approval_row) : M approval_store unit :=
  modify (fun s => with_rows (<[i := r]> (as_rows s)) s).

Definition materialize_expiration (i : Z) (r : approval_row) (now : Z)
    : M approval_store (Z * approval_row) :=
  if bool_decide (ap_status r <> Pending)
  then raise (ValueError "approval request is not pending")
  else
    let expired := decided Expired None None now (ap_decision_comment r) r in
    set_row i expired ;;;
    insert_event i "expired" None (Some Pending) Expired (Some "approval request expired") ;;;
    write_audit_event "approval_request_expired" None (i, expired) (Some Pending) Expired
      (Some "approval request expired") ;;;
    ret (i, expired).
End Writes.

(** ** Creation *)

Record approval_params := ApprovalParams {
  pa_incident_id : option Z;
  pa_queue_id : option Z;
  pa_execution_id : option Z;
  pa_step_index : option Z;
  pa_action : string;
  pa_requested_by : option Z;
  pa_request_reason : option string;
  pa_risk_level : string;
  pa_expires_at : option Z;
  pa_ttl_minutes : Z;
}.

Definition active_status (s : approval_status) : bool :=
  match s with Pending | Approved => true | _ => false end.

(** The two partial unique indexes: one active request per (queue row,
    action) and one per (execution, step). *)
Definition active_conflict (r r' : approval_row) : bool :=
  active_status (ap_status r) && active_status (ap_status r') &&
  ((match ap_queue_id r, ap_queue_id r' with
    | Some q, Some q' => (q =? q') && String.eqb (ap_action r) (ap_action r')
    | _, _ => false
    end) ||
   (match ap_execution_id r, ap_execution_id r', ap_step_index r, ap_step_index r' with
    | Some e, Some e', Some k, Some k' => (e =? e') && (k =? k')
    | _, _, _, _ => false
    end)).

Definition violates_active_index (rows : gmap Z approval_row) (r : approval_row) : bool :=
  existsb (fun x => active_conflict r x.2) (map_to_list rows).

Section Create.
Context (clk : clock).

Definition new_row (p : approval_params) : approval_row :=
  ApprovalRow (pa_incident_id p) (pa_queue_id p) (pa_execution_id p) (pa_step_index p)
    (pa_requested_by p) None None Pending (strip (pa_action p)) (pa_risk_level p)
    (pa_request_reason p) None (sql_now clk) None
    (match pa_expires_at p with Some t => t | None => utc_now clk + minutes (pa_ttl_minutes p) end).

(** INSERT .. RETURNING: the id comes from the sequence, which a failed
    insert has already advanced; the schema checks the risk level and the
    two partial unique indexes. *)
Definition insert_row (r : approval_row) : M approval_store Z :=
  fun s =>
    let s' := ApprovalStore (as_rows s) (as_events s) (as_row_seq s + 1) (as_event_seq s) (as_audit s) in
    if negb (str_in (ap_risk_level r) ["medium"; "high"; "critical"])
    then (Raise (IntegrityError "approval_requests_risk_level_check"), s')
    else if violates_active_index (as_rows s) r
    then (Raise (IntegrityError "idx_approval_requests_active"), s')
    else (Ok (as_row_seq s), with_rows (<[as_row_seq s := r]> (as_rows s)) s').

Definition create_approval_request (p : approval_params) : M approval_store (Z * approval_row) :=
  if bool_decide (pa_incident_id p = None /\ pa_queue_id p = None /\ pa_execution_id p = None)
  then raise (ValueError "approval request target required")
  else if is_empty (pa_action p) || is_empty (strip (pa_action p))
  then raise (ValueError "action is required")
  else
    let r := new_row p in
    let* i := insert_row r in
    insert_event clk i "created" (pa_requested_by p) None Pending (pa_request_reason p) ;;;
    write_audit_event "approval_request_created" (pa_requested_by p) (i, r) None Pending
      (pa_request_reason p) ;;;
    ret (i, r).

(** ** Playbook step gates *)

Definition latest_for_step (execution step : Z) (rows : gmap Z approval_row)
    : option (Z * approval_row) :=
  select_one newest_first
    (fun _ r => sql_eq_Z (ap_execution_id r) execution && sql_eq_Z (ap_step_index r) step) rows.

Definition get_latest_playbook_step_approval_request (execution step : Z)
    (materialize_expired : bool) (now : option Z) : M approval_store (option (Z * approval_row)) :=
  let decision_time := default (utc_now clk) now in
  let* s := get in
  match latest_for_step execution step (as_rows s) with
  | None => ret None
  | Some (i, r) =>
      if materialize_expired && bool_decide (ap_status r = Pending) &&
         (ap_expires_at r <=? decision_time)
      then let* x := materialize_expiration clk i r decision_time in ret (Some x)
      else ret (Some (i, r))
  end.

Definition get_active_playbook_step_approval_request (execution step : Z)
    : M approval_store (option (Z * approval_row)) :=
  let* latest := get_latest_playbook_step_approval_request execution step false None in
  match latest with
  | Some (i, r) => ret (if active_status (ap_status r) then Some (i, r) else None)
  | None => ret None
  end.

Definition create_playbook_step_approval_request (execution step : Z) (action : string)
    (requested_by : option Z) (reason : option string) (risk_level : string)
    (expires_at : option Z) (ttl : Z) : M approval_store (Z * approval_row) :=
  let* existing := get_active_playbook_step_approval_request execution step in
  match existing with
  | Some x => ret x
  | None => create_approval_request
              (ApprovalParams None None (Some execution) (Some step) action requested_by
                 reason risk_level expires_at ttl)
  end.
End Create.

(** ** Reads *)

Definition get_approval_request (i : Z) (s : approval_store)
    : option (Z * approval_row * list (Z * approval_event)) :=
  match as_rows s !! i with
  | None => None
  | Some r => Some (i, r, select event_order (fun _ e => ev_request e =? i) (as_events s))
  end.

Definition list_approval_events (i : Z) (s : approval_store) : list (Z * approval_event) :=
  select event_order (fun _ e => ev_request e =? i) (as_events s).

(** [cap = min(max(int(limit), 0), 100)]. *)
Definition limit_cap (limit : Z) : Z := Z.min (Z.max limit 0) 100.

Definition list_approval_requests (status : option approval_status) (incident queue : option Z)
    (limit offset : Z) (s : approval_store) : list (Z * approval_row) :=
  let rows := select newest_first
    (fun _ r =>
       match status with Some st => bool_decide (ap_status r = st) | None => true end &&
       match incident with Some x => sql_eq_Z (ap_incident_id r) x | None => true end &&
       match queue with Some x => sql_eq_Z (ap_queue_id r) x | None => true end)
    (as_rows s) in
  Tables.limit (limit_cap limit) (drop (Z.to_nat (Z.max offset 0)) rows).

Definition for_queue_action (queue : Z) (action : string) (r : approval_row) : bool :=
  sql_eq_Z (ap_queue_id r) queue && String.eqb (ap_action r) action.

Definition get_latest_approval_for_queue_action (queue : Z) (action : string)
    (s : approval_store) : option (Z * approval_row) :=
  select_one newest_first (fun _ r => for_queue_action queue action r) (as_rows s).

(** ** Decisions *)

Section Decide.
Context (clk : clock).

(** [approve_request] and [deny_request] differ in the new status, the
    approver column and the names of the event and the audit record. *)
Definition decide_request (verdict : approval_status) (i actor : Z)
    (comment : option string) (now : option Z) : M approval_store (Z * approval_row) :=
  let decision_time := default (utc_now clk) now in
  let* s := get in
  match as_rows s !! i with
  | None => raise (ValueError "approval request not found")
  | Some r =>
      if bool_decide (ap_status r <> Pending)
      then raise (ValueError "approval request is not pending")
      else if ap_expires_at r <=? decision_time
      then materialize_expiration clk i r decision_time ;;;
           raise (ValueError "approval request expired")
      else
        let approver := if bool_decide (verdict = Approved) then Some actor else None in
        let updated := decided verdict approver (Some actor) decision_time comment r in
        set_row i updated ;;;
        insert_event clk i (status_str verdict) (Some actor) (Some Pending) verdict comment ;;;
        write_audit_event ("approval_request_" +:+ status_str verdict) (Some actor) (i, updated)
          (Some Pending) verdict comment ;;;
        ret (i, updated)
  end.

Definition approve_request := decide_request Approved.
Definition deny_request := decide_request Denied.

(** [expire_pending_requests]; [locked] are the rows another transaction
    holds, which SKIP LOCKED passes over. *)
Fixpoint expire_rows (rows : list (Z * approval_row)) (now : Z)
    : M approval_store (list (Z * approval_row)) :=
  match rows with
  | [] => ret []
  | (i, r) :: rows =>
      let* x := materialize_expiration clk i r now in
      let* xs := expire_rows rows now in
      ret (x :: xs)
  end.

Definition overdue (now : Z) (r : approval_row) : bool :=
  bool_decide (ap_status r = Pending) && (ap_expires_at r <=? now).

Definition expire_pending_requests (locked : gset Z) (now : option Z) (limit : Z)
    : M approval_store (list (Z * approval_row)) :=
  let expiration_time := default (utc_now clk) now in
  let* s := get in
  expire_rows
    (Tables.limit (limit_cap limit)
       (select by_expiry
          (fun i r => overdue expiration_time r && negb (bool_decide (i ∈ locked)))
          (as_rows s)))
    expiration_time.
End Decide.

(** ** The decision route *)

Inductive http_response :=
  | HttpApproval (approval : Z * approval_row)
  | HttpError (code : Z) (message : string).

(** What is visible to other connections, and the connection's own view. *)
Record approval_conn := ApprovalConn { ac_committed : approval_store; ac_current : approval_store }.

(** POST /approvals/<id>/decision once the actor is resolved: commit on
    success, rollback on any exception. *)
Definition decision_approval_route (clk : clock) (approval_id : Z) (decision : option string)
    (reason : option string) (actor : Z) (c : approval_conn) : http_response * approval_conn :=
  let reason := match reason with
                | Some s => if is_empty (strip s) then None else Some (strip s)
                | None => None
                end in
  match decision with
  | None => (HttpError 400 "decision is required", c)
  | Some d =>
      if is_empty d then (HttpError 400 "decision is required", c)
      else if negb (str_in d ["approved"; "denied"]) then (HttpError 400 "invalid decision", c)
      else
        let op := if String.eqb d "approved" then approve_request clk else deny_request clk in
        match op approval_id actor reason None (ac_current c) with
        | (Ok updated, s) => (HttpApproval updated, ApprovalConn s s)
        | (Raise e, s) =>
            let s' := restore (ac_committed c) s in
            let resp :=
              match e with
              | ValueError m =>
                  if String.eqb m "approval request not found" then HttpError 404 m else HttpError 400 m
              | _ => if is_value_error e then HttpError 400 "" else HttpError 500 "Internal server error"
              end in
            (resp, ApprovalConn s' s')
        end
  end.

(** A decision is taken before the expiry, an expiration at or after it. *)
Definition in_time (new : approval_status) (at_ expires : Z) : Prop :=
  match new with
  | Pending => True
  | Expired => expires <= at_
  | _ => at_ < expires
  end.

(** ** Elementary transitions

    Every operation is a sequence of these three: a request is created
    together with its "created" event, a pending request is closed together
    with the event of its decision, or a failed insert consumes an id. *)
Inductive approval_step (s s' : approval_store) : Prop :=
  | step_create (r : approval_row) (actor : option Z) (comment : option string) (at_ : Z)
      (Hstatus : ap_status r = Pending)
      (Hopen : ap_decided_at r = None)
      (Htarget : ~ (ap_incident_id r = None /\ ap_queue_id r = None /\ ap_execution_id r = None))
      (Hrisk : ap_risk_level r ∈ ["medium"; "high"; "critical"])
      (Hfree : violates_active_index (as_rows s) r = false)
      (Hrows : as_rows s' = <[as_row_seq s := r]> (as_rows s))
      (Hevents : as_events s' =
         <[as_event_seq s := ApprovalEvent (as_row_seq s) "created" actor None Pending comment at_]>
           (as_events s))
      (Hseq : as_row_seq s' = as_row_seq s + 1)
      (Heseq : as_event_seq s' = as_event_seq s + 1)
  | step_close (i : Z) (r : approval_row) (new : approval_status) (approver decider : option Z)
      (at_ ev_at : Z) (comment ev_comment : option string) (type : string) (actor : option Z)
      (Hrow : as_rows s !! i = Some r)
      (Hpending : ap_status r = Pending)
      (Hnew : new <> Pending)
      (Happrover : new = Approved -> approver <> None)
      (Htime : in_time new at_ (ap_expires_at r))
      (Hrows : as_rows s' = <[i := decided new approver decider at_ comment r]> (as_rows s))
      (Hevents : as_events s' =
         <[as_event_seq s := ApprovalEvent i type actor (Some Pending) new ev_comment ev_at]>
           (as_events s))
      (Hseq : as_row_seq s' = as_row_seq s)
      (Heseq : as_event_seq s' = as_event_seq s + 1)
  | step_burn
      (Hrows : as_rows s' = as_rows s)
      (Hevents : as_events s' = as_events s)
      (Hseq : as_row_seq s' = as_row_seq s + 1)
      (Heseq : as_event_seq s' = as_event_seq s).

Section Steps.
Context (clk : clock).

Lemma materialize_expiration_steps i r now s o s' :
  as_rows s !! i = Some r -> ap_expires_at r <= now ->
  materialize_expiration clk i r now s = (o, s') ->
  rtc approval_step s s' /\
  (forall j, i <> j -> as_rows s' !! j = as_rows s !! j).
Proof.
  intros Hi Hx. unfold materialize_expiration. case_bool_decide as Hp; run_monad; intros; simplify_eq.
  - split; [apply rtc_refl|done].
  - split; [|intros j Hj; simpl; by rewrite lookup_insert_ne].
    apply rtc_once. by eapply (step_close _ _ i r Expired).
Qed.

Lemma create_approval_request_steps p s o s' :
  create_approval_request clk p s = (o, s') -> rtc approval_step s s'.
Proof.
  unfold create_approval_request. case_bool_decide as Ht.
  { run_monad; intros; simplify_eq. apply rtc_refl. }
  case_match; [run_monad; intros; simplify_eq; apply rtc_refl|].
  unfold insert_row. run_monad.
  destruct (str_in (pa_risk_level p) _) eqn:Hr; cbn;
    [|intros; simplify_eq; apply rtc_once; by apply step_burn].
  destruct (violates_active_index _ _) eqn:Hv; cbn; intros; simplify_eq; apply rtc_once.
  - by apply step_burn.
  - eapply (step_create _ _ (new_row clk p)); try done. by apply str_in_spec.
Qed.

Lemma get_latest_step_steps ex st m now s o s' :
  get_latest_playbook_step_approval_request clk ex st m now s = (o, s') -> rtc approval_step s s'.
Proof.
  unfold get_latest_playbook_step_approval_request, latest_for_step. run_monad.
  destruct (select_one _ _ _) as [[i r]|] eqn:Hsel; [|intros; simplify_eq; apply rtc_refl].
  case_match eqn:Hc; cbn; [|intros; simplify_eq; apply rtc_refl].
  apply andb_true_iff in Hc as [_ Hx%Z.leb_le].
  apply select_one_Some in Hsel as [Hi _].
  destruct (materialize_expiration clk i r _ s) as [o1 s1] eqn:Hm.
  apply materialize_expiration_steps in Hm as [Hm _]; [|done|done].
  destruct o1; intros; simplify_eq; done.
Qed.

Lemma get_latest_step_readonly ex st now s :
  exists x, get_latest_playbook_step_approval_request clk ex st false now s = (Ok x, s) /\
            x = latest_for_step ex st (as_rows s).
Proof.
  unfold get_latest_playbook_step_approval_request. run_monad.
  destruct (latest_for_step _ _ _) as [[i r]|]; eauto.
Qed.

Lemma create_step_request_steps ex st a rb rs rl xp ttl s o s' :
  create_playbook_step_approval_request clk ex st a rb rs rl xp ttl s = (o, s') ->
  rtc approval_step s s'.
Proof.
  unfold create_playbook_step_approval_request, get_active_playbook_step_approval_request.
  unfold bind at 1 2. destruct (get_latest_step_readonly ex st None s) as (x & -> & _).
  destruct x as [[i r]|]; cbn [ret]; [case_match; cbn [ret]|]; intros Hop;
    first [by eapply create_approval_request_steps|unfold ret in Hop; simplify_eq; apply rtc_refl].
Qed.

Lemma decide_request_steps verdict i actor comment now s o s' :
  verdict = Approved \/ verdict = Denied ->
  decide_request clk verdict i actor comment now s = (o, s') -> rtc approval_step s s'.
Proof.
  intros Hv'. assert (verdict <> Pending) as Hv by (by destruct Hv' as [-> | ->]). unfold decide_request. run_monad.
  destruct (as_rows s !! i) as [r|] eqn:Hi; [|intros; simplify_eq; apply rtc_refl].
  case_bool_decide as Hp; [intros; simplify_eq; apply rtc_refl|].
  case_match eqn:Hx; [apply Z.leb_le in Hx|apply Z.leb_gt in Hx].
  - destruct (materialize_expiration clk i r _ s) as [o1 s1] eqn:Hm.
    apply materialize_expiration_steps in Hm as [Hm _]; [|done|done].
    destruct o1; intros; simplify_eq; done.
  - intros; simplify_eq. apply rtc_once. eapply (step_close _ _ i r verdict); try done.
    + intros ->. by rewrite bool_decide_true.
    + by destruct Hv' as [-> | ->].
Qed.

Lemma expire_rows_steps rows now s o s' :
  (forall i r, (i, r) ∈ rows -> as_rows s !! i = Some r /\ ap_expires_at r <= now) ->
  NoDup rows.*1 ->
  expire_rows clk rows now s = (o, s') -> rtc approval_step s s'.
Proof.
  revert s o s'. induction rows as [|[i r] rows IH]; intros s o s' Hin Hnd; cbn.
  { run_monad. intros; simplify_eq. apply rtc_refl. }
  apply NoDup_cons in Hnd as [Hi Hnd]. unfold bind.
  destruct (materialize_expiration clk i r now s) as [o1 s1] eqn:Hm.
  apply materialize_expiration_steps in Hm as [Hm Hother]; [|apply Hin; left|apply (Hin i r); left].
  destruct o1 as [x|e]; [|intros; simplify_eq; done].
  destruct (expire_rows clk rows now s1) as [o2 s2] eqn:Hr.
  apply IH in Hr; [|intros j q Hj; rewrite Hother; [apply Hin; by right|]|done].
  - destruct o2; run_monad; intros; simplify_eq; by etrans.
  - intros ->. apply Hi, list_elem_of_fmap. by exists (j, q).
Qed.

Lemma expire_pending_steps locked now lim s o s' :
  expire_pending_requests clk locked now lim s = (o, s') -> rtc approval_step s s'.
Proof.
  unfold expire_pending_requests. run_monad. apply expire_rows_steps.
  - intros i r Hin. apply elem_of_take in Hin as (k & Hk & _).
    apply list_elem_of_lookup_2, elem_of_select in Hk as [? Hp].
    apply andb_true_iff in Hp as [[_ Hp%Z.leb_le]%andb_true_iff _]. done.
  - unfold limit. rewrite fmap_take. eapply sublist_NoDup; [|apply sublist_take]. apply NoDup_select.
Qed.
End Steps.

(** ** Well-formed stores *)

Definition history_order (i : Z) (e : approval_event) : list Z := [i].

(** The events of one request, oldest first. *)
Definition history (i : Z) (s : approval_store) : list approval_event :=
  (select history_order (fun _ e => ev_request e =? i) (as_events s)).*2.

(** The trail a request in a given status must have. *)
Definition expected_trail (st : approval_status)
    : list (option approval_status * approval_status) :=
  (None, Pending) :: if terminal_approval st then [(Some Pending, st)] else [].

Definition trail (i : Z) (s : approval_store) : list (option approval_status * approval_status) :=
  (fun e => (ev_previous e, ev_new e)) <$> history i s.

(** The CHECK constraints of approval_requests. *)
Definition row_ok (r : approval_row) : Prop :=
  ~ (ap_incident_id r = None /\ ap_queue_id r = None /\ ap_execution_id r = None) /\
  (ap_status r = Pending <-> ap_decided_at r = None) /\
  (ap_status r = Approved -> ap_approved_by r <> None) /\
  ap_risk_level r ∈ ["medium"; "high"; "critical"].

Record store_ok (s : approval_store) : Prop := {
  ok_row_ids : forall i r, as_rows s !! i = Some r -> i < as_row_seq s;
  ok_event_ids : forall j e, as_events s !! j = Some e ->
    j < as_event_seq s /\ ev_request e < as_row_seq s;
  ok_rows : forall i r, as_rows s !! i = Some r -> row_ok r;
  ok_active : forall i j r q, as_rows s !! i = Some r -> as_rows s !! j = Some q ->
    i <> j -> active_conflict r q = false;
  ok_time : forall i r, as_rows s !! i = Some r ->
    forall t, ap_decided_at r = Some t -> in_time (ap_status r) t (ap_expires_at r);
  ok_trail : forall i r, as_rows s !! i = Some r -> trail i s = expected_trail (ap_status r);
}.

Lemma history_order_inj (a : Z) (b : approval_event) c d :
  history_order a b = history_order c d -> a = c.
Proof. unfold history_order. congruence. Qed.

Lemma active_conflict_sym r q : active_conflict r q = active_conflict q r.
Proof.
  unfold active_conflict. rewrite (andb_comm (active_status (ap_status r))). f_equal. f_equal.
  - repeat case_match; try done. by rewrite Z.eqb_sym, String.eqb_sym.
  - repeat case_match; try done. by rewrite Z.eqb_sym, (Z.eqb_sym z1).
Qed.

Lemma violates_active_index_false rows r :
  violates_active_index rows r = false <->
  forall i q, rows !! i = Some q -> active_conflict r q = false.
Proof.
  unfold violates_active_index. rewrite <- not_true_iff_false, existsb_exists. split.
  - intros H i q Hi. apply not_true_iff_false. intros Hc. apply H. exists (i, q).
    split; [|done]. by apply list_elem_of_In, elem_of_map_to_list.
  - intros H ([i q] & Hin%list_elem_of_In%elem_of_map_to_list & Hc). by erewrite H in Hc.
Qed.

Section Trail.
Context (s : approval_store) (Hok : store_ok s).

(** An appended event extends the trail of its own request and no other. *)
Lemma trail_insert s' i e :
  as_events s' = <[as_event_seq s := e]> (as_events s) ->
  trail i s' = trail i s ++ (if ev_request e =? i then [(ev_previous e, ev_new e)] else []).
Proof.
  intros He. unfold trail, history. rewrite He.
  assert (as_events s !! as_event_seq s = None) as Hfresh.
  { apply eq_None_not_Some. intros [x Hx]. apply (ok_event_ids s Hok) in Hx as [Hx _]. lia. }
  destruct (ev_request e =? i) eqn:Ei.
  - rewrite select_insert_last; try done.
    + by rewrite !fmap_app.
    + apply history_order_inj.
    + intros j x Hj _. apply (ok_event_ids s Hok) in Hj as [Hj _].
      unfold lex_le, history_order; simpl. lia.
  - rewrite select_insert_other; try done; [by rewrite app_nil_r|apply history_order_inj].
Qed.

(** A request that does not exist has no events. *)
Lemma trail_fresh : trail (as_row_seq s) s = [].
Proof.
  unfold trail, history.
  destruct (select _ _ _) as [|[j e] l] eqn:E; [done|]. exfalso.
  assert ((j, e) ∈ select history_order (fun _ e => ev_request e =? as_row_seq s) (as_events s))
    as [Hj He]%elem_of_select by (rewrite E; left).
  apply (ok_event_ids s Hok) in Hj as [_ Hj]. apply Z.eqb_eq in He. lia.
Qed.
End Trail.

Lemma closed_row_ok r new approver decider at_ comment :
  row_ok r -> new <> Pending -> (new = Approved -> approver <> None) ->
  row_ok (decided new approver decider at_ comment r).
Proof. unfold row_ok; simpl. intros (?&?&?&?) ? ?. by split_and!. Qed.

Lemma closed_no_conflict new approver decider at_ comment r q :
  ap_status r = Pending -> active_conflict r q = false ->
  active_conflict (decided new approver decider at_ comment r) q = false.
Proof.
  unfold active_conflict; simpl. intros ->. simpl.
  by destruct (active_status new), (active_status (ap_status q)).
Qed.

Lemma store_ok_create s s' r actor comment at_ :
  store_ok s -> ap_status r = Pending -> row_ok r ->
  violates_active_index (as_rows s) r = false ->
  as_rows s' = <[as_row_seq s := r]> (as_rows s) ->
  as_events s' = <[as_event_seq s :=
    ApprovalEvent (as_row_seq s) "created" actor None Pending comment at_]> (as_events s) ->
  as_row_seq s' = as_row_seq s + 1 -> as_event_seq s' = as_event_seq s + 1 ->
  store_ok s'.
Proof.
  intros Hok Hst Hr Hfree Hrows Hevents Hseq Heseq.
  pose proof (proj1 (violates_active_index_false _ _) Hfree) as Hc.
  split; rewrite ?Hrows, ?Hseq, ?Heseq.
  - intros i q [[<- _]|[_ Hi]]%lookup_insert_Some; [lia|]. apply (ok_row_ids s Hok) in Hi. lia.
  - rewrite Hevents. intros j e [[<- <-]|[_ Hj]]%lookup_insert_Some; simpl; [lia|].
    apply (ok_event_ids s Hok) in Hj. lia.
  - intros i q [[_ <-]|[_ Hi]]%lookup_insert_Some; [done|]. by eapply (ok_rows s Hok).
  - intros i j q q' [[<- <-]|[? Hi]]%lookup_insert_Some
      [[<- <-]|[? Hj]]%lookup_insert_Some Hij; try done.
    + by eapply Hc.
    + rewrite active_conflict_sym. by eapply Hc.
    + by eapply (ok_active s Hok).
  - intros i q [[_ <-]|[_ Hi]]%lookup_insert_Some; [by rewrite Hst|]. by eapply (ok_time s Hok).
  - intros i q Hi. rewrite (trail_insert s Hok s' i _ Hevents); simpl.
    apply lookup_insert_Some in Hi as [[<- <-]|[Hne Hi]].
    + by rewrite Z.eqb_refl, (trail_fresh s Hok), Hst.
    + rewrite (proj2 (Z.eqb_neq _ _)) by done. rewrite app_nil_r. by apply (ok_trail s Hok).
Qed.

Lemma store_ok_close s s' i r new approver decider at_ ev_at comment ev_comment type actor :
  store_ok s -> as_rows s !! i = Some r -> ap_status r = Pending -> new <> Pending ->
  (new = Approved -> approver <> None) -> in_time new at_ (ap_expires_at r) ->
  as_rows s' = <[i := decided new approver decider at_ comment r]> (as_rows s) ->
  as_events s' = <[as_event_seq s :=
    ApprovalEvent i type actor (Some Pending) new ev_comment ev_at]> (as_events s) ->
  as_row_seq s' = as_row_seq s -> as_event_seq s' = as_event_seq s + 1 ->
  store_ok s'.
Proof.
  intros Hok Hi Hst Hnew Happ Htime Hrows Hevents Hseq Heseq.
  split; rewrite ?Hrows, ?Hseq, ?Heseq.
  - intros j q [[<- _]|[_ Hj]]%lookup_insert_Some; by eapply (ok_row_ids s Hok).
  - rewrite Hevents. intros j e [[<- <-]|[_ Hj]]%lookup_insert_Some; simpl.
    + apply (ok_row_ids s Hok) in Hi. lia.
    + apply (ok_event_ids s Hok) in Hj. lia.
  - intros j q [[_ <-]|[_ Hj]]%lookup_insert_Some; [|by eapply (ok_rows s Hok)].
    apply closed_row_ok; [by eapply (ok_rows s Hok)|done|done].
  - intros j k q q' [[<- <-]|[? Hj]]%lookup_insert_Some
      [[<- <-]|[? Hk]]%lookup_insert_Some Hjk; try done.
    + apply closed_no_conflict; [done|]. by eapply (ok_active s Hok).
    + rewrite active_conflict_sym. apply closed_no_conflict; [done|].
      eapply (ok_active s Hok); [exact Hi|exact Hj|congruence].
    + by eapply (ok_active s Hok).
  - intros j q [[_ <-]|[_ Hj]]%lookup_insert_Some; simpl; [congruence|]. by eapply (ok_time s Hok).
  - intros j q Hj. rewrite (trail_insert s Hok s' j _ Hevents); simpl.
    apply lookup_insert_Some in Hj as [[<- <-]|[Hne Hj]].
    + rewrite Z.eqb_refl, (ok_trail s Hok _ _ Hi), Hst. simpl. unfold expected_trail.
      by destruct new.
    + rewrite (proj2 (Z.eqb_neq _ _)) by done. rewrite app_nil_r. by apply (ok_trail s Hok).
Qed.

Lemma store_ok_burn s s' :
  store_ok s -> as_rows s' = as_rows s -> as_events s' = as_events s ->
  as_row_seq s' = as_row_seq s + 1 -> as_event_seq s' = as_event_seq s -> store_ok s'.
Proof.
  intros Hok Hrows Hevents Hseq Heseq. split; rewrite ?Hrows, ?Hseq, ?Heseq.
  - intros i r Hi. apply (ok_row_ids s Hok) in Hi. lia.
  - rewrite Hevents. intros j e Hj. apply (ok_event_ids s Hok) in Hj. lia.
  - apply (ok_rows s Hok).
  - apply (ok_active s Hok).
  - apply (ok_time s Hok).
  - intros i r Hi. unfold trail, history. rewrite Hevents. by apply (ok_trail s Hok).
Qed.

Lemma approval_step_ok s s' : approval_step s s' -> store_ok s -> store_ok s'.
Proof.
  intros [] Hok.
  - eapply store_ok_create; try done. unfold row_ok. rewrite Hstatus. split_and!; try done.
  - by eapply store_ok_close.
  - by eapply store_ok_burn.
Qed.

Lemma approval_steps_ok s s' : rtc approval_step s s' -> store_ok s -> store_ok s'.
Proof. induction 1; eauto using approval_step_ok. Qed.

(** A closed request is never touched again. *)
Lemma approval_step_final s s' i r :
  approval_step s s' -> store_ok s -> as_rows s !! i = Some r -> ap_status r <> Pending ->
  as_rows s' !! i = Some r.
Proof.
  intros [] Hok Hi Hst; rewrite Hrows; [| |done].
  - rewrite lookup_insert_ne; [done|]. apply (ok_row_ids s Hok) in Hi. lia.
  - rewrite lookup_insert_ne; [done|]. congruence.
Qed.

Lemma approval_steps_final s s' i r :
  rtc approval_step s s' -> store_ok s -> as_rows s !! i = Some r -> ap_status r <> Pending ->
  as_rows s' !! i = Some r.
Proof.
  induction 1; eauto using approval_step_final, approval_step_ok.
Qed.

#[export] Hint Resolve create_approval_request_steps get_latest_step_steps
  create_step_request_steps decide_request_steps expire_pending_steps : soar.

(** ** Programs over the store *)

Inductive approval_op :=
  | OpCreate (p : approval_params)
  | OpStepGate (execution step : Z) (action : string) (requested_by : option Z)
      (reason : option string) (risk_level : string) (expires_at : option Z) (ttl : Z)
  | OpLatestStep (execution step : Z) (materialize : bool) (now : option Z)
  | OpApprove (i actor : Z) (comment : option string) (now : option Z)
  | OpDeny (i actor : Z) (comment : option string) (now : option Z)
  | OpExpire (locked : gset Z) (now : option Z) (limit : Z).

(** The store after one call, whether it returned or raised. *)
Definition run_approval_op (s : approval_store) (c : clock * approval_op) : approval_store :=
  match c.2 with
  | OpCreate p => (create_approval_request c.1 p s).2
  | OpStepGate ex st a rb rs rl xp ttl =>
      (create_playbook_step_approval_request c.1 ex st a rb rs rl xp ttl s).2
  | OpLatestStep ex st m now => (get_latest_playbook_step_approval_request c.1 ex st m now s).2
  | OpApprove i actor cm now => (approve_request c.1 i actor cm now s).2
  | OpDeny i actor cm now => (deny_request c.1 i actor cm now s).2
  | OpExpire locked now lim => (expire_pending_requests c.1 locked now lim s).2
  end.

Definition run_approval_ops (l : list (clock * approval_op)) (s : approval_store) : approval_store :=
  fold_left run_approval_op l s.

Definition empty_approvals : approval_store := ApprovalStore ∅ ∅ 1 1 [].

Lemma empty_approvals_ok : store_ok empty_approvals.
Proof. by split. Qed.

Lemma run_approval_op_steps s c : rtc approval_step s (run_approval_op s c).
Proof.
  unfold run_approval_op, approve_request, deny_request.
  destruct c as [clk []]; simpl;
    match goal with |- rtc _ _ (?m s).2 => destruct (m s) eqn:E end; simpl; eauto with soar.
Qed.

Lemma run_approval_ops_steps l s : rtc approval_step s (run_approval_ops l s).
Proof.
  revert s. induction l as [|c l IH]; intros s; [apply rtc_refl|].
  etrans; [apply run_approval_op_steps|apply IH].
Qed.

(** ** The lookup interface *)

#[export, refine] Instance approval_store_lookup : ApprovalLookup approval_store := {
  approved_exists s q a :=
    existsb (fun x => for_queue_action q a x.2 && bool_decide (ap_status x.2 = Approved))
      (map_to_list (as_rows s));
  latest_status s q a := ap_status <$> (snd <$> get_latest_approval_for_queue_action q a s);
}.
Proof.
  intros s q a. unfold get_latest_approval_for_queue_action.
  destruct (select_one _ _ _) as [[i r]|] eqn:E; simpl; [|done]. intros [= Hst].
  apply select_one_Some in E as (Hi & Hp & _).
  apply existsb_exists. exists (i, r). split.
  - by apply list_elem_of_In, elem_of_map_to_list.
  - simpl. rewrite Hp. by rewrite bool_decide_true.
Defined.

(** ** Expiring in bulk *)

Definition expired_at (now : Z) (r : approval_row) : approval_row :=
  decided Expired None None now (ap_decision_comment r) r.

Lemma expire_rows_spec clk rows now s :
  (forall i r, (i, r) ∈ rows -> as_rows s !! i = Some r /\ ap_status r = Pending) ->
  NoDup rows.*1 ->
  exists s', expire_rows clk rows now s =
    (Ok ((fun x => (x.1, expired_at now x.2)) <$> rows), s') /\
    forall j, as_rows s' !! j = if decide (j ∈ rows.*1) then expired_at now <$> as_rows s !! j
                                else as_rows s !! j.
Proof.
  revert s. induction rows as [|[i r] rows IH]; intros s Hin Hnd.
  { exists s. split; [done|]. intros j. by rewrite decide_False by apply not_elem_of_nil. }
  apply NoDup_cons in Hnd as [Hi Hnd].
  destruct (Hin i r) as [Hrow Hst]; [left|].
  cbn [expire_rows]. unfold materialize_expiration. rewrite bool_decide_false by congruence.
  unfold bind, set_row, insert_event, write_audit_event, modify, ret. cbn [fst snd].
  match goal with |- context [expire_rows clk rows now ?st] => set (s1 := st) end.
  destruct (IH s1) as (s' & -> & Hs'); [|done|].
  { intros j q Hj. assert (i <> j) as Hne by (intros ->; apply Hi, list_elem_of_fmap; by exists (j, q)).
    simpl. rewrite lookup_insert_ne by done. apply Hin. by right. }
  exists s'. split; [done|]. intros j. rewrite Hs', fmap_cons. subst s1. cbn [fst as_rows with_rows].
  destruct (decide (j = i)) as [->|Hne].
  - rewrite (decide_False (P := i ∈ rows.*1)) by done.
    rewrite (decide_True (P := i ∈ i :: rows.*1)) by left. by rewrite lookup_insert_eq, Hrow.
  - rewrite lookup_insert_ne by done. destruct (decide (j ∈ rows.*1)) as [H|H].
    + by rewrite decide_True by (by right).
    + by rewrite decide_False by (by intros [->|?]%elem_of_cons).
Qed.

(** The rows one call of [expire_pending_requests] takes. *)
Definition expiry_batch (locked : gset Z) (now limit : Z) (s : approval_store)
    : list (Z * approval_row) :=
  Tables.limit (limit_cap limit)
    (select by_expiry (fun i r => overdue now r && negb (bool_decide (i ∈ locked))) (as_rows s)).

Lemma expiry_batch_overdue locked now lim s i r :
  (i, r) ∈ expiry_batch locked now lim s ->
  as_rows s !! i = Some r /\ ap_status r = Pending /\ ap_expires_at r <= now /\ i ∉ locked.
Proof.
  intros (k & Hk & _)%elem_of_take.
  apply list_elem_of_lookup_2, elem_of_select in Hk as [? Hp]. unfold overdue in Hp.
  rewrite !andb_true_iff, negb_true_iff in Hp. destruct Hp as [[H1%bool_decide_eq_true ?%Z.leb_le] H2].
  by apply bool_decide_eq_false in H2.
Qed.

Lemma expiry_batch_NoDup locked now lim s : NoDup (expiry_batch locked now lim s).*1.
Proof.
  apply NoDup_limit.
Qed.

(** ** Properties *)

(** C8: Whatever sequence of creations, approvals, denials, step gates and
    bulk expirations is run from an empty store, the schema's CHECK
    constraints hold, at most one request per queue action and per playbook
    step is active, decisions fall before the expiry and expirations at or
    after it, and the event trail of every request is exactly "created"
    followed, once it is closed, by the one event of its decision. *)
Theorem approvals_reachable_ok (l : list (clock * approval_op)) :
  store_ok (run_approval_ops l empty_approvals).
Proof. eapply approval_steps_ok; [apply run_approval_ops_steps|apply empty_approvals_ok]. Qed.

(** A decided or expired request is final: no later operation, by
    anyone, at any time, changes any column of its row. *)
Theorem decision_final (s : approval_store) (l : list (clock * approval_op)) i r :
  store_ok s -> as_rows s !! i = Some r -> ap_status r <> Pending ->
  as_rows (run_approval_ops l s) !! i = Some r.
Proof. intros. by eapply approval_steps_final; [apply run_approval_ops_steps|..]. Qed.

(** [expire_pending_requests] returns and closes exactly the first
    [min(max(limit,0),100)] overdue pending requests that are not locked, in
    (expires_at, id) order, stamps them with the call's time, and leaves
    every other row as it was. *)
Theorem expire_pending_requests_spec clk locked now limit s :
  let t := default (utc_now clk) now in
  exists s',
    expire_pending_requests clk locked now limit s =
      (Ok ((fun x => (x.1, expired_at t x.2)) <$> expiry_batch locked t limit s), s') /\
    forall j, as_rows s' !! j =
      if decide (j ∈ (expiry_batch locked t limit s).*1)
      then expired_at t <$> as_rows s !! j else as_rows s !! j.
Proof.
  intros t. apply expire_rows_spec; [|apply expiry_batch_NoDup].
  intros i r Hin%expiry_batch_overdue. tauto.
Qed.

(** The requests table after a decision of [verdict] on request [i]. *)
Definition decides (verdict : approval_status) (i actor : Z) (now : Z) (s s' : approval_store) : Prop :=
  exists r comment,
    as_rows s !! i = Some r /\ ap_status r = Pending /\ now < ap_expires_at r /\
    as_rows s' = <[i := decided verdict (if bool_decide (verdict = Approved) then Some actor else None)
                          (Some actor) now comment r]> (as_rows s).

Lemma decide_request_cases clk verdict i actor comment now s :
  (exists r s', decide_request clk verdict i actor comment now s = (Ok (i, r), s') /\
     as_rows s' !! i = Some r /\ ap_status r = verdict /\
     decides verdict i actor (default (utc_now clk) now) s s') \/
  (exists m s', decide_request clk verdict i actor comment now s = (Raise (ValueError m), s')).
Proof.
  unfold decide_request. run_monad.
  destruct (as_rows s !! i) as [r|] eqn:Hi; [|eauto].
  case_bool_decide as Hp; [eauto|].
  destruct (ap_expires_at r <=? _) eqn:Hx.
  - unfold materialize_expiration. rewrite bool_decide_false by congruence. run_monad. eauto.
  - left. apply Z.leb_gt in Hx. do 2 eexists. split; [done|]. cbn.
    rewrite lookup_insert_eq. split_and!; [done|done|]. exists r, comment. split_and!; done.
Qed.

(** The decision route is all or nothing.  It answers 200 exactly when it
    commits the requested decision of the acting user on a pending, unexpired
    request, changing that row only; on every other answer the committed
    requests and events are those from before the call. *)
Theorem decision_route_atomic clk i d reason actor s :
  let '(resp, c) := decision_approval_route clk i d reason actor (ApprovalConn s s) in
  match resp with
  | HttpApproval x =>
      exists verdict, d = Some (status_str verdict) /\ (verdict = Approved \/ verdict = Denied) /\
        x.1 = i /\ as_rows (ac_committed c) !! i = Some x.2 /\ ap_status x.2 = verdict /\
        decides verdict i actor (utc_now clk) s (ac_committed c)
  | HttpError _ _ =>
      as_rows (ac_committed c) = as_rows s /\ as_events (ac_committed c) = as_events s
  end.
Proof.
  unfold decision_approval_route. destruct d as [d|]; [|done].
  destruct (is_empty d); [done|].
  destruct (str_in d _) eqn:Hd; cbn [negb]; [|done].
  set (cm := match reason with Some _ => _ | None => _ end). clearbody cm.
  assert (exists v, d = status_str v /\ (v = Approved \/ v = Denied) /\
    (if String.eqb d "approved" then approve_request clk else deny_request clk) =
      decide_request clk v) as (v & -> & Hv & ->).
  { text_simpl. repeat (apply elem_of_cons in Hd as [->|Hd]); [exists Approved|exists Denied|];
      eauto. by apply not_elem_of_nil in Hd. }
  cbn [ac_current].
  destruct (decide_request_cases clk v i actor cm None s)
    as [(r & s' & -> & Hrow & Hst & Hdec)|(m & s' & ->)]; cbn [ac_committed ac_current].
  - exists v. split_and!; done.
  - destruct (String.eqb m _); split; done.
Qed.

(** Deciding an overdue request through the route records the expiration
    in the audit log but not in the database: the handler raises after
    materialising it, the route rolls back, and the request is still pending
    with no new event, so every later attempt repeats the same audit entry. *)
Theorem expired_decision_rolled_back clk i d reason actor s r :
  as_rows s !! i = Some r -> ap_status r = Pending -> ap_expires_at r <= utc_now clk ->
  d = "approved" \/ d = "denied" ->
  exists s', decision_approval_route clk i (Some d) reason actor (ApprovalConn s s) =
      (HttpError 400 "approval request expired", ApprovalConn s' s') /\
    as_rows s' = as_rows s /\ as_events s' = as_events s /\
    as_audit s' = as_audit s ++
      [AuditEntry "approval_request_expired" None i (ap_incident_id r) (ap_queue_id r) (ap_action r)
         (Some Pending) Expired (Some "approval request expired")].
Proof.
  intros Hi Hst Hx Hd. unfold decision_approval_route.
  set (cm := match reason with Some _ => _ | None => _ end). clearbody cm.
  assert (is_empty d = false /\ str_in d ["approved"; "denied"] = true) as [-> ->]
    by (by destruct Hd as [-> | ->]).
  cbn [negb ac_current ac_committed].
  destruct (String.eqb d "approved"); unfold approve_request, deny_request, decide_request;
    run_monad; rewrite Hi, bool_decide_false by congruence;
    rewrite (proj2 (Z.leb_le _ _) Hx); unfold materialize_expiration;
    rewrite bool_decide_false by congruence; run_monad; eexists; split_and!; done.
Qed.

(** ** Witnesses *)

Definition ex_clock (t : Z) : clock := Clock t t.
Definition ex_params : approval_params :=
  ApprovalParams None (Some 7) None None "block_ip" None
    (Some "approval required for high-risk SOAR action") "high" None 60.

(** One request for queue row 7, created at time 0. *)
Definition ex_store : approval_store :=
  run_approval_ops [(ex_clock 0, OpCreate ex_params)] empty_approvals.

(** .. and denied by user 3 at time 1. *)
Definition ex_denied : approval_store :=
  run_approval_ops [(ex_clock 1, OpDeny 1 3 (Some "no") None)] ex_store.

Lemma ex_denied_ok : store_ok ex_denied.
Proof.
  eapply approval_steps_ok; [apply run_approval_ops_steps|].
  eapply approval_steps_ok; [apply run_approval_ops_steps|apply empty_approvals_ok].
Qed.

Lemma decision_final_witness :
  ap_status <$> as_rows (run_approval_ops
    [(ex_clock 2, OpApprove 1 4 None None); (ex_clock (minutes 90), OpExpire ∅ None 100)] ex_denied)
    !! 1 = Some Denied.
Proof.
  destruct (as_rows ex_denied !! 1) as [r|] eqn:Hr; [|by vm_compute in Hr].
  rewrite (decision_final ex_denied _ 1 r); [|apply ex_denied_ok|exact Hr|].
  - vm_compute in Hr. by injection Hr as <-.
  - vm_compute in Hr. by injection Hr as <-.
Defined.

Lemma expired_decision_rolled_back_witness :
  exists s', decision_approval_route (ex_clock (minutes 61)) 1 (Some "approved") None 4
      (ApprovalConn ex_store ex_store) = (HttpError 400 "approval request expired", ApprovalConn s' s') /\
    (ap_status <$> as_rows s' !! 1) = Some Pending /\ length (as_audit s') = 2%nat.
Proof.
  destruct (as_rows ex_store !! 1) as [r|] eqn:Hr; [|by vm_compute in Hr].
  destruct (expired_decision_rolled_back (ex_clock (minutes 61)) 1 "approved" None 4 ex_store r)
    as (s' & Hroute & Hrows & _ & Haudit).
  - exact Hr.
  - vm_compute in Hr. by injection Hr as <-.
  - vm_compute in Hr. injection Hr as <-. by vm_compute.
  - by left.
  - exists s'. split; [exact Hroute|]. rewrite Hrows, Hr, Haudit.
    vm_compute in Hr. by injection Hr as <-.
Defined.
