(* ===== verification/ResponseQueue.v ===== *)
(** * ResponseQueue: core/response_action_queue_store.py

    The response-action queue and its status transitions, with the insert of
    core/ip_helpers.py.  The approval requests the queue consults are seen
    through [ApprovalLookup]. *)

From S2P Require Import Prelude PyText PyValue Tables Interfaces ActionVocabulary.

Open Scope Z_scope.

(** ** Data *)

Inductive queue_status :=
  | QPending | QRunning | QAwaitingApproval | QSuccess | QFailed | QSkipped.

#[export] Instance queue_status_eq_dec : EqDecision queue_status.
Proof. solve_decision. Defined.

Definition queue_status_str (s : queue_status) : string :=
  match s with
  | QPending => "pending" | QRunning => "running" | QAwaitingApproval => "awaiting_approval"
  | QSuccess => "success" | QFailed => "failed" | QSkipped => "skipped"
  end.

(** A row of response_actions_queue, without its id. *)
Record queue_row := QueueRow {
  q_alert_id : option Z;
  q_source_ip : option string;
  q_action : string;
  q_status : queue_status;
  q_retry_count : Z;
  q_max_retries : Z;
  q_last_error : option string;
  q_idempotency_key : string;
  q_created_at : Z;
  q_updated_at : Z;
  q_decision_id : option Z;
  q_soar_correlation_id : option string;
}.

Record queue_store := QueueStore { qs_rows : gmap Z queue_row; qs_seq : Z }.

#[export, refine] Instance queue_store_tx : Transactional queue_store := {
  restore snap cur := QueueStore (qs_rows snap) (qs_seq cur);
}.
Proof. all: by intros []. Defined.

(** [STALE_RUNNING_TIMEOUT]. *)
Definition STALE_RUNNING_TIMEOUT : Z := minutes 15.

(** The columns the UPDATE statements of the store write. *)
Definition set_status (st : queue_status) (retries : Z) (err : option string) (upd : Z)
    (r : queue_row) : queue_row :=
  QueueRow (q_alert_id r) (q_source_ip r) (q_action r) st retries (q_max_retries r) err
    (q_idempotency_key r) (q_created_at r) upd (q_decision_id r) (q_soar_correlation_id r).

Definition set_linkage (decision : option Z) (correlation : option string) (r : queue_row) : queue_row :=
  QueueRow (q_alert_id r) (q_source_ip r) (q_action r) (q_status r) (q_retry_count r) (q_max_retries r)
    (q_last_error r) (q_idempotency_key r) (q_created_at r) (q_updated_at r)
    (match decision with Some d => Some d | None => q_decision_id r end)
    (match correlation with Some c => Some c | None => q_soar_correlation_id r end).

Definition has_status (st : queue_status) (r : queue_row) : bool := bool_decide (q_status r = st).

Definition by_id (i : Z) (r : queue_row) : list Z := [i].
Definition by_id_desc (i : Z) (r : queue_row) : list Z := [- i].

(** ** Reads *)

Definition get_queue_action (i : Z) (s : queue_store) : option (Z * queue_row) :=
  (fun r => (i, r)) <$> qs_rows s !! i.

(** GROUP BY status: the count of each status that occurs. *)
Definition get_queue_status_counts (s : queue_store) : gmap string Z :=
  map_fold (fun _ r m => <[queue_status_str (q_status r) :=
                            default 0 (m !! queue_status_str (q_status r)) + 1]> m) ∅ (qs_rows s).

(** [min(int(limit) if limit else 50, 100)]; a negative LIMIT is a database error. *)
Definition list_recent_queue_actions (limit : option Z) (status : option queue_status)
    (s : queue_store) : outcome (list (Z * queue_row)) :=
  let n := Z.min (match limit with Some l => if l =? 0 then 50 else l | None => 50 end) 100 in
  if n <? 0 then Raise (DatabaseError "LIMIT must not be negative")
  else Ok (Tables.limit n (select by_id_desc
             (fun _ r => match status with Some st => has_status st r | None => true end) (qs_rows s))).

(** ** Transitions *)

Section Transitions.
Context (clk : clock).

(** [COALESCE(%s::timestamptz, NOW())]. *)
Definition stamp (now : option Z) : Z := default (sql_now clk) now.

(** [UPDATE .. WHERE id = i AND cond RETURNING ..]. *)
Definition update_row (i : Z) (cond : queue_row -> bool) (f : queue_row -> queue_row)
    : M queue_store (option (Z * queue_row)) :=
  fun s => let '(r, rows) := update_where i cond f (qs_rows s) in
           (Ok ((fun r => (i, r)) <$> r), QueueStore rows (qs_seq s)).

(** Rows another transaction has locked are passed over. *)
Definition claim (locked : gset Z) (cond : Z -> queue_row -> bool) (f : queue_row -> queue_row)
    : M queue_store (option (Z * queue_row)) :=
  fun s =>
    match select_one by_id (fun i r => cond i r && negb (bool_decide (i ∈ locked))) (qs_rows s) with
    | None => (Ok None, s)
    | Some (i, r) => (Ok (Some (i, f r)), QueueStore (<[i := f r]> (qs_rows s)) (qs_seq s))
    end.

Definition claim_next_pending_action (locked : gset Z) (now : option Z)
    : M queue_store (option (Z * queue_row)) :=
  claim locked (fun _ r => has_status QPending r)
    (fun r => set_status QRunning (q_retry_count r) (q_last_error r) (stamp now) r).

Definition transition_action_status (i : Z) (from to : queue_status) (last_error : option string)
    (now : option Z) : M queue_store (Z * queue_row) :=
  let* row := update_row i (has_status from)
                (fun r => set_status to (q_retry_count r) last_error (stamp now) r) in
  match row with
  | None => raise (QueueTransitionError ("queue action " +:+ str_int i +:+ " is not " +:+ queue_status_str from))
  | Some x => ret x
  end.

Definition transition_running_action (i : Z) (new : queue_status) (last_error : option string)
    (now : option Z) : M queue_store (Z * queue_row) :=
  transition_action_status i QRunning new last_error now.

Definition mark_action_awaiting_approval (i : Z) (reason : string) (now : option Z) :=
  transition_action_status i QRunning QAwaitingApproval (Some reason) now.

Definition mark_awaiting_approval_skipped (i : Z) (reason : string) (now : option Z) :=
  transition_action_status i QAwaitingApproval QSkipped (Some reason) now.

Definition mark_action_success (i : Z) (now : option Z) :=
  transition_running_action i QSuccess None now.

Definition mark_action_skipped (i : Z) (reason : string) (now : option Z) :=
  transition_running_action i QSkipped (Some reason) now.

(** [retry_count + 1] is computed in an INTEGER column. *)
Definition mark_action_failed (i : Z) (error_message : string) (now : option Z)
    : M queue_store (Z * queue_row) :=
  let* s := get in
  if match qs_rows s !! i with
     | Some r => has_status QRunning r && negb (int4 (q_retry_count r + 1))
     | None => false
     end
  then raise (DatabaseError "integer out of range")
  else
    let* row := update_row i (has_status QRunning)
                  (fun r => set_status QFailed (q_retry_count r + 1) (Some error_message) (stamp now) r) in
    match row with
    | None => raise (QueueTransitionError ("queue action " +:+ str_int i +:+ " is not running"))
    | Some x => ret x
    end.

Definition requeue_failed_action (i : Z) (now : option Z) : M queue_store (Z * queue_row) :=
  let* row := update_row i (fun r => has_status QFailed r && (q_retry_count r <? q_max_retries r))
                (fun r => set_status QPending (q_retry_count r) (q_last_error r) (stamp now) r) in
  match row with
  | None => raise (QueueTransitionError ("queue action " +:+ str_int i +:+ " is not retryable"))
  | Some x => ret x
  end.

Definition record_action_failure (i : Z) (error_message : string) (retryable : bool) (now : option Z)
    : M queue_store (Z * queue_row) :=
  let* failed := mark_action_failed i error_message now in
  if retryable && (q_retry_count failed.2 <? q_max_retries failed.2)
  then requeue_failed_action i now
  else ret failed.

(** ** Stale recovery *)

Definition is_stale (now : option Z) (stale_after_seconds : Z) (r : queue_row) : bool :=
  has_status QRunning r && (q_updated_at r <=? stamp now - seconds stale_after_seconds).

Definition recovered (now : option Z) (r : queue_row) : queue_row :=
  if q_retry_count r <? q_max_retries r
  then set_status QPending (q_retry_count r) (q_last_error r) (stamp now) r
  else set_status QFailed (q_retry_count r)
         (Some (default "stale running action exhausted retries" (q_last_error r))) (stamp now) r.

Definition stale_candidates (locked : gset Z) (now : option Z) (stale_after_seconds : Z)
    (limit : option Z) (s : queue_store) : list (Z * queue_row) :=
  let rows := select by_id
    (fun i r => is_stale now stale_after_seconds r && negb (bool_decide (i ∈ locked))) (qs_rows s) in
  match limit with Some n => Tables.limit n rows | None => rows end.

(** [stale_after] is a timedelta in microseconds; [int(total_seconds())]
    truncates towards zero. *)
Definition recover_stale_running_actions (locked : gset Z) (now : option Z) (stale_after : Z)
    (limit : option Z) : M queue_store (list (Z * queue_row)) :=
  fun s =>
    if match limit with Some n => n <? 0 | None => false end
    then (Raise (DatabaseError "LIMIT must not be negative"), s)
    else
      let stale := stale_candidates locked now (Z.quot stale_after 1000000) limit s in
      (Ok ((fun x => (x.1, recovered now x.2)) <$> stale),
       QueueStore (update_ids stale.*1 (fun _ => recovered now) (qs_rows s)) (qs_seq s)).

(** ** Transitions that consult the approvals *)

Section WithApprovals.
Context {A : Type} `{ApprovalLookup A} (approvals : A).

Definition claim_next_approved_awaiting_action (locked : gset Z) (now : option Z)
    : M queue_store (option (Z * queue_row)) :=
  claim locked
    (fun i r => has_status QAwaitingApproval r && approved_exists approvals i (q_action r))
    (fun r => set_status QRunning (q_retry_count r) None (stamp now) r).

(** The verdict of the latest request, when it is denied or expired. *)
Definition terminal_verdict (i : Z) (r : queue_row) : option approval_status :=
  match latest_status approvals i (q_action r) with
  | Some Denied => Some Denied
  | Some Expired => Some Expired
  | _ => None
  end.

Definition verdict_error (v : approval_status) : string :=
  if bool_decide (v = Denied) then "approval denied" else "approval expired".

Definition terminal_candidates (locked : gset Z) (s : queue_store) : list (Z * queue_row) :=
  select by_id
    (fun i r => has_status QAwaitingApproval r &&
                match terminal_verdict i r with Some _ => true | None => false end &&
                negb (bool_decide (i ∈ locked))) (qs_rows s).

Definition skip_row (now : option Z) (i : Z) (r : queue_row) : queue_row :=
  set_status QSkipped (q_retry_count r)
    (Some (verdict_error (default Expired (terminal_verdict i r)))) (stamp now) r.

(** The updated row and the verdict that closed it. *)
Definition skipped_result (now : option Z) (x : Z * queue_row) : Z * queue_row * approval_status :=
  (x.1, skip_row now x.1 x.2, default Expired (terminal_verdict x.1 x.2)).

Definition skip_next_terminal_approval_action (locked : gset Z) (now : option Z)
    : M queue_store (option (Z * queue_row * approval_status)) :=
  fun s =>
    match head (terminal_candidates locked s) with
    | None => (Ok None, s)
    | Some (i, r) =>
        (Ok (Some (skipped_result now (i, r))),
         QueueStore (<[i := skip_row now i r]> (qs_rows s)) (qs_seq s))
    end.

Definition sweep_terminal_approval_queue_rows (locked : gset Z) (now : option Z) (limit : Z)
    : M queue_store (list (Z * queue_row * approval_status)) :=
  fun s =>
    let cap := Z.min (Z.max limit 0) 100 in
    let rows := Tables.limit cap (terminal_candidates locked s) in
    (Ok (skipped_result now <$> rows),
     QueueStore (update_ids rows.*1 (skip_row now) (qs_rows s)) (qs_seq s)).
End WithApprovals.

(** ** Linkage and insertion *)

Definition set_queue_linkage (i : Z) (decision : option Z) (correlation : option string)
    : M queue_store (option (Z * queue_row)) :=
  match decision, correlation with
  | None, None => gets (get_queue_action i)
  | _, _ => update_row i (fun _ => true) (set_linkage decision correlation)
  end.
End Transitions.

(** [enqueue_response_action]; [sha256_hex] is hashlib's digest, [inet] the
    database's reading of an INET literal, [int_column] what the driver and
    the INTEGER column make of a value, [alert_exists] the target of the
    foreign key. *)
Section Enqueue.
Context (sha256_hex : string -> string) (inet : string -> option string) (int_column : pyval -> outcome Z).
Context (alert_exists : Z -> bool) (clk : clock).

Definition compute_idempotency_key (alert_id : pyval) (source_ip action : string) : string :=
  sha256_hex (py_str alert_id +:+ ":" +:+ source_ip +:+ ":" +:+ action).

Definition key_taken (key : string) (rows : gmap Z queue_row) : bool :=
  existsb (fun x => String.eqb (q_idempotency_key x.2) key) (map_to_list rows).

Definition pending_row (alert_id : Z) (host action key : string) (max_retries : Z) : queue_row :=
  QueueRow (Some alert_id) (Some host) action QPending 0 max_retries None key (sql_now clk) (sql_now clk) None None.

(** INSERT .. ON CONFLICT (idempotency_key) DO NOTHING RETURNING id: the
    sequence advances even when the insert does nothing. *)
Definition enqueue_response_action (alert_id : pyval) (source_ip : string) (action : pyval) (max_retries : Z)
    : M queue_store (option Z) :=
  let* action := of_outcome (validate_action_for_response_queue action) in
  let key := compute_idempotency_key alert_id source_ip action in
  let* alert := of_outcome (int_column alert_id) in
  match inet source_ip with
  | None => raise (DatabaseError "invalid input syntax for type inet")
  | Some host =>
      if negb (int4 alert && int4 max_retries) then raise (DatabaseError "integer out of range")
      else fun s =>
        let s' := QueueStore (qs_rows s) (qs_seq s + 1) in
        if key_taken key (qs_rows s) then (Ok None, s')
        else if negb (alert_exists alert)
        then (Raise (IntegrityError "response_actions_queue_alert_id_fkey"), s')
        else (Ok (Some (qs_seq s)),
              QueueStore (<[qs_seq s := pending_row alert host action key max_retries]> (qs_rows s)) (qs_seq s + 1))
  end.
End Enqueue.

(** ** The lifecycle of a row

    The abstract machine of one queue row.  Columns other than the status,
    the retry count and the bookkeeping ones never change. *)

Definition same_work (r r' : queue_row) : Prop :=
  q_alert_id r' = q_alert_id r /\ q_source_ip r' = q_source_ip r /\ q_action r' = q_action r /\
  q_max_retries r' = q_max_retries r /\ q_idempotency_key r' = q_idempotency_key r /\
  q_created_at r' = q_created_at r.

Inductive lifecycle (r r' : queue_row) : Prop :=
  | life_claim (Hw : same_work r r') (Hs : q_status r = QPending) (Hs' : q_status r' = QRunning)
      (Hn : q_retry_count r' = q_retry_count r)
  | life_resume (Hw : same_work r r') (Hs : q_status r = QAwaitingApproval) (Hs' : q_status r' = QRunning)
      (Hn : q_retry_count r' = q_retry_count r)
  | life_await (Hw : same_work r r') (Hs : q_status r = QRunning) (Hs' : q_status r' = QAwaitingApproval)
      (Hn : q_retry_count r' = q_retry_count r)
  | life_finish (Hw : same_work r r') (Hs : q_status r = QRunning)
      (Hs' : q_status r' = QSuccess \/ q_status r' = QSkipped) (Hn : q_retry_count r' = q_retry_count r)
  | life_reject (Hw : same_work r r') (Hs : q_status r = QAwaitingApproval) (Hs' : q_status r' = QSkipped)
      (Hn : q_retry_count r' = q_retry_count r)
  | life_fail (Hw : same_work r r') (Hs : q_status r = QRunning) (Hs' : q_status r' = QFailed)
      (Hn : q_retry_count r' = q_retry_count r + 1)
  | life_retry (Hw : same_work r r') (Hs : q_status r = QFailed) (Hs' : q_status r' = QPending)
      (Hn : q_retry_count r' = q_retry_count r) (Hb : q_retry_count r < q_max_retries r)
  | life_recover (Hw : same_work r r') (Hs : q_status r = QRunning) (Hs' : q_status r' = QPending)
      (Hn : q_retry_count r' = q_retry_count r) (Hb : q_retry_count r < q_max_retries r)
  | life_exhaust (Hw : same_work r r') (Hs : q_status r = QRunning) (Hs' : q_status r' = QFailed)
      (Hn : q_retry_count r' = q_retry_count r) (Hb : q_max_retries r <= q_retry_count r)
  | life_link (Hw : same_work r r') (Hs : q_status r' = q_status r)
      (Hn : q_retry_count r' = q_retry_count r).

Lemma same_work_refl r : same_work r r.
Proof. done. Qed.
Lemma set_status_same_work st n e u r : same_work r (set_status st n e u r).
Proof. done. Qed.
Lemma set_linkage_same_work d c r : same_work r (set_linkage d c r).
Proof. done. Qed.
#[export] Hint Resolve same_work_refl set_status_same_work set_linkage_same_work : soar.

Lemma has_status_true st r : has_status st r = true <-> q_status r = st.
Proof. unfold has_status. apply bool_decide_eq_true. Qed.
#[export] Hint Rewrite has_status_true : soar.

Definition live_status (st : queue_status) : bool :=
  match st with QPending | QRunning | QAwaitingApproval => true | _ => false end.

(** The retry budget of one row. *)
Definition row_budget (r : queue_row) : Prop :=
  0 <= q_retry_count r <= q_max_retries r /\ q_max_retries r <= 2147483647 /\
  (live_status (q_status r) = true -> q_retry_count r < q_max_retries r).

Lemma lifecycle_budget r r' : lifecycle r r' -> row_budget r -> row_budget r'.
Proof.
  unfold row_budget, same_work. intros Hl (Hr & Hm & Hlive).
  destruct Hl; destruct Hw as (_ & _ & _ & -> & _);
    try (destruct Hs' as [Hs'|Hs']); rewrite ?Hn; try rewrite Hs';
    try rewrite Hs in *; simpl in *; intuition lia.
Qed.

(** Success and skipped are final. *)
Definition finished (st : queue_status) : bool :=
  match st with QSuccess | QSkipped => true | _ => false end.

Lemma lifecycle_finished r r' :
  lifecycle r r' -> finished (q_status r) = true -> q_status r' = q_status r /\ q_retry_count r' = q_retry_count r.
Proof. intros [] Hf; rewrite Hs in Hf || idtac; done. Qed.

(** ** Every operation moves rows along the lifecycle *)

(** Old rows move along the lifecycle; new rows are pending with their
    whole budget left; ids come from the sequence. *)
Record queue_moves (s s' : queue_store) : Prop := {
  moves_rows : forall i r, qs_rows s !! i = Some r ->
    exists r', qs_rows s' !! i = Some r' /\ rtc lifecycle r r';
  moves_new : forall i r', qs_rows s' !! i = Some r' -> qs_rows s !! i = None ->
    i = qs_seq s /\ q_status r' = QPending /\ q_retry_count r' = 0 /\
    key_taken (q_idempotency_key r') (qs_rows s) = false /\ 1 <= q_max_retries r' <= 2147483647;
  moves_seq : qs_seq s <= qs_seq s' <= qs_seq s + 1;
  moves_seq_new : qs_rows s !! qs_seq s = None -> is_Some (qs_rows s' !! qs_seq s) ->
    qs_seq s' = qs_seq s + 1;
}.

Lemma moves_refl s : queue_moves s s.
Proof. split; [eauto using rtc_refl|congruence|lia|]. intros -> [? ?]. done. Qed.

(** Replacing rows of existing ids. *)
Lemma moves_update s rows' :
  (forall i, match qs_rows s !! i, rows' !! i with
             | Some r, Some r' => rtc lifecycle r r'
             | None, None => True
             | _, _ => False
             end) ->
  queue_moves s (QueueStore rows' (qs_seq s)).
Proof.
  intros H. split; simpl; [| |lia|].
  - intros i r Hi. specialize (H i). rewrite Hi in H. destruct (rows' !! i); [eauto|done].
  - intros i r' Hi' Hi. specialize (H i). by rewrite Hi, Hi' in H.
  - intros Hi [r' Hr']. specialize (H (qs_seq s)). by rewrite Hi, Hr' in H.
Qed.

Lemma moves_insert s i r r' :
  qs_rows s !! i = Some r -> lifecycle r r' ->
  queue_moves s (QueueStore (<[i := r']> (qs_rows s)) (qs_seq s)).
Proof.
  intros Hi Hl. apply moves_update. intros j. destruct (decide (i = j)) as [<-|Hne].
  - rewrite Hi, lookup_insert_eq. by apply rtc_once.
  - rewrite lookup_insert_ne by done. by destruct (qs_rows s !! j).
Qed.

Lemma moves_update_ids s ids g :
  NoDup ids ->
  (forall i r, i ∈ ids -> qs_rows s !! i = Some r -> lifecycle r (g i r)) ->
  queue_moves s (QueueStore (update_ids ids g (qs_rows s)) (qs_seq s)).
Proof.
  intros Hnd Hg. apply moves_update. intros i. rewrite lookup_update_ids by done.
  destruct (qs_rows s !! i) as [r|] eqn:Hi; destruct (decide (i ∈ ids)); simpl;
    eauto using rtc_refl, rtc_once.
Qed.

Lemma update_row_moves i cond f s o s' :
  (forall r, cond r = true -> lifecycle r (f r)) ->
  update_row i cond f s = (o, s') -> queue_moves s s'.
Proof.
  unfold update_row. intros Hf. destruct (update_where i cond f (qs_rows s)) as [[r|] rows] eqn:E.
  - apply update_where_Some in E as (r0 & Hi & Hc & -> & ->). intros [= <- <-].
    eapply moves_insert; eauto.
  - apply update_where_None in E as [-> _]. intros [= <- <-]. destruct s. apply moves_refl.
Qed.

Lemma claim_moves locked cond f s o s' :
  (forall i r, cond i r = true -> lifecycle r (f r)) ->
  claim locked cond f s = (o, s') -> queue_moves s s'.
Proof.
  unfold claim. intros Hf. destruct (select_one _ _ _) as [[i r]|] eqn:E; intros [= <- <-].
  - apply select_one_Some in E as (Hi & Hc & _). apply andb_true_iff in Hc as [Hc _].
    eapply moves_insert; eauto.
  - apply moves_refl.
Qed.

Section OpMoves.
Context (clk : clock).

Ltac by_update_row H :=
  eapply update_row_moves; [|exact H];
  intros r; rewrite ?andb_true_iff, ?has_status_true, ?Z.ltb_lt.

Lemma claim_next_pending_moves locked now s o s' :
  claim_next_pending_action clk locked now s = (o, s') -> queue_moves s s'.
Proof.
  intros H. eapply claim_moves; [|exact H]. intros i r Hs%has_status_true.
  apply life_claim; eauto with soar.
Qed.

Lemma claim_next_approved_moves {A} `{ApprovalLookup A} (ap : A) locked now s o s' :
  claim_next_approved_awaiting_action clk ap locked now s = (o, s') -> queue_moves s s'.
Proof.
  intros Hc. eapply claim_moves; [|exact Hc]. intros i r [Hs%has_status_true _]%andb_true_iff.
  apply life_resume; eauto with soar.
Qed.

(** The transitions the worker performs on a row. *)
Definition worker_transition (from to : queue_status) : bool :=
  match from, to with
  | QRunning, (QSuccess | QSkipped | QAwaitingApproval) => true
  | QAwaitingApproval, QSkipped => true
  | _, _ => false
  end.

Lemma transition_moves i from to err now s o s' :
  worker_transition from to = true ->
  transition_action_status clk i from to err now s = (o, s') -> queue_moves s s'.
Proof.
  intros Hft H. unfold transition_action_status, bind in H.
  destruct (update_row _ _ _ s) as [[[x|]|e] s1] eqn:E; run_monad in H; simplify_eq; by_update_row E.
  all: intros Hs; destruct from, to; try done.
  all: first [by apply life_await; eauto with soar | by apply life_finish; eauto with soar
             | by apply life_reject; eauto with soar].
Qed.

Lemma mark_action_failed_moves i msg now s o s' :
  mark_action_failed clk i msg now s = (o, s') -> queue_moves s s'.
Proof.
  intros H. unfold mark_action_failed in H. unfold bind, get, raise, ret in H.
  destruct (match qs_rows s !! i with Some _ => _ | None => _ end); [simplify_eq; apply moves_refl|].
  destruct (update_row _ _ _ s) as [[[x|]|e] s1] eqn:E; simplify_eq; by_update_row E.
  all: intros Hs; apply life_fail; eauto with soar.
Qed.

Lemma requeue_failed_action_moves i now s o s' :
  requeue_failed_action clk i now s = (o, s') -> queue_moves s s'.
Proof.
  intros H. unfold requeue_failed_action, bind, raise, ret in H.
  destruct (update_row _ _ _ s) as [[[x|]|e] s1] eqn:E; simplify_eq; by_update_row E.
  all: intros [Hs Hb]; apply life_retry; eauto with soar.
Qed.

Lemma set_queue_linkage_moves i d c s o s' :
  set_queue_linkage i d c s = (o, s') -> queue_moves s s'.
Proof.
  intros H. unfold set_queue_linkage in H.
  destruct d, c; try (by eapply update_row_moves; [|exact H]; intros r _; apply life_link; eauto with soar).
  unfold gets in H. simplify_eq. apply moves_refl.
Qed.

Lemma recovered_lifecycle now r : q_status r = QRunning -> lifecycle r (recovered clk now r).
Proof.
  intros Hs. unfold recovered. destruct (_ <? _) eqn:Hb.
  - apply life_recover; eauto with soar. lia.
  - apply life_exhaust; eauto with soar. lia.
Qed.

Lemma stale_candidates_spec locked now secs limit s i r :
  (i, r) ∈ stale_candidates clk locked now secs limit s ->
  qs_rows s !! i = Some r /\ is_stale clk now secs r = true /\ i ∉ locked.
Proof.
  unfold stale_candidates. intros Hin.
  assert ((i, r) ∈ select by_id (fun i r => is_stale clk now secs r && negb (bool_decide (i ∈ locked)))
            (qs_rows s)) as Hsel.
  { destruct limit; [by eapply elem_of_limit|done]. }
  apply elem_of_select in Hsel as [Hi [Hst Hl]%andb_true_iff].
  rewrite negb_true_iff, bool_decide_eq_false in Hl. done.
Qed.

Lemma stale_candidates_NoDup locked now secs limit s :
  NoDup (stale_candidates clk locked now secs limit s).*1.
Proof.
  unfold stale_candidates. destruct limit; [apply NoDup_limit|apply NoDup_select].
Qed.

Lemma recover_stale_moves locked now after limit s o s' :
  recover_stale_running_actions clk locked now after limit s = (o, s') -> queue_moves s s'.
Proof.
  unfold recover_stale_running_actions.
  destruct (match limit with Some _ => _ | None => _ end); intros [= <- <-]; [apply moves_refl|].
  apply moves_update_ids; [apply stale_candidates_NoDup|].
  intros i r ([j r0] & -> & Hin)%list_elem_of_fmap Hi.
  apply stale_candidates_spec in Hin as (Hi' & Hst & _). simplify_eq/=.
  apply recovered_lifecycle. unfold is_stale in Hst.
  apply andb_true_iff in Hst as [Hst%has_status_true _]. done.
Qed.

Section WithApprovals.
Context {A} `{ApprovalLookup A} (ap : A).

Lemma terminal_candidates_spec locked s i r :
  (i, r) ∈ terminal_candidates ap locked s ->
  qs_rows s !! i = Some r /\ q_status r = QAwaitingApproval /\
  is_Some (terminal_verdict ap i r) /\ i ∉ locked.
Proof.
  unfold terminal_candidates. rewrite elem_of_select, !andb_true_iff, has_status_true,
    negb_true_iff, bool_decide_eq_false.
  intros (Hi & (Hst & Hv) & Hl). destruct (terminal_verdict ap i r); naive_solver.
Qed.

Lemma skip_row_lifecycle now i r :
  q_status r = QAwaitingApproval -> lifecycle r (skip_row clk ap now i r).
Proof. intros Hs. apply life_reject; eauto with soar. Qed.

Lemma skip_next_moves locked now s o s' :
  skip_next_terminal_approval_action clk ap locked now s = (o, s') -> queue_moves s s'.
Proof.
  unfold skip_next_terminal_approval_action.
  destruct (terminal_candidates ap locked s) as [|[i r] l] eqn:E; simpl; intros [= <- <-]; [apply moves_refl|].
  assert ((i, r) ∈ terminal_candidates ap locked s) as Hin by (rewrite E; left).
  apply terminal_candidates_spec in Hin as (Hi & Hs & _).
  eapply moves_insert; eauto using skip_row_lifecycle.
Qed.

Lemma sweep_moves locked now limit s o s' :
  sweep_terminal_approval_queue_rows clk ap locked now limit s = (o, s') -> queue_moves s s'.
Proof.
  unfold sweep_terminal_approval_queue_rows. intros [= <- <-]. apply moves_update_ids.
  - apply NoDup_limit.
  - intros i r ([j r0] & -> & Hin)%list_elem_of_fmap Hi. apply elem_of_limit in Hin. apply terminal_candidates_spec in Hin as (Hi' & Hs & _).
    simplify_eq/=. by apply skip_row_lifecycle.
Qed.
End WithApprovals.
End OpMoves.

Lemma key_taken_false key rows :
  key_taken key rows = false <-> forall i r, rows !! i = Some r -> q_idempotency_key r <> key.
Proof.
  unfold key_taken. rewrite <- not_true_iff_false, existsb_exists. split.
  - intros H i r Hi Heq. apply H. exists (i, r).
    by rewrite String.eqb_eq, <- list_elem_of_In, elem_of_map_to_list.
  - intros H ([i r] & Hin & Heq). apply list_elem_of_In, elem_of_map_to_list in Hin.
    apply String.eqb_eq in Heq. by eapply H.
Qed.

(** ** What a transition that returned has written *)

Lemma update_row_Ok i cond f s x s' :
  update_row i cond f s = (Ok (Some x), s') ->
  x.1 = i /\ qs_rows s' !! i = Some x.2 /\ exists r, cond r = true /\ x.2 = f r.
Proof.
  unfold update_row. destruct (update_where i cond f (qs_rows s)) as [[r|] rows] eqn:E; [|done].
  intros [= <- <-]. apply update_where_Some in E as (r0 & _ & Hc & -> & ->). cbn.
  split_and!; [done|apply lookup_insert_eq|eauto].
Qed.

Lemma transition_Ok clk i from to err now s x s' :
  transition_action_status clk i from to err now s = (Ok x, s') ->
  x.1 = i /\ qs_rows s' !! i = Some x.2 /\ q_status x.2 = to.
Proof.
  unfold transition_action_status. intros (row & s1 & Hu & Hk)%bind_ok_inv.
  destruct row as [y|]; [|done]. injection Hk as <- <-.
  apply update_row_Ok in Hu as (? & ? & r & _ & Hx).
  split_and!; [done|done|by rewrite Hx].
Qed.

Lemma claim_Ok locked cond f s x s' :
  claim locked cond f s = (Ok (Some x), s') -> qs_rows s' !! x.1 = Some x.2 /\ exists r, x.2 = f r.
Proof.
  unfold claim. destruct (select_one _ _ _) as [[i r]|]; [|done]. intros [= <- <-]. cbn.
  split; [apply lookup_insert_eq|eauto].
Qed.

Lemma skip_next_Ok {A} `{ApprovalLookup A} clk (ap : A) locked now s i r v s' :
  skip_next_terminal_approval_action clk ap locked now s = (Ok (Some (i, r, v)), s') ->
  qs_rows s' !! i = Some r /\ q_status r = QSkipped.
Proof.
  unfold skip_next_terminal_approval_action. destruct (head _) as [[j q]|]; [|done].
  intros [= <- <- <- <-]. cbn. split; [apply lookup_insert_eq|done].
Qed.

Lemma record_action_failure_Ok clk i msg retryable now s x s' :
  record_action_failure clk i msg retryable now s = (Ok x, s') ->
  x.1 = i /\ qs_rows s' !! i = Some x.2 /\ (q_status x.2 = QFailed \/ q_status x.2 = QPending).
Proof.
  unfold record_action_failure. intros (failed & s1 & Hf & Hk)%bind_ok_inv.
  assert (failed.1 = i /\ qs_rows s1 !! i = Some failed.2 /\ q_status failed.2 = QFailed) as Hfailed.
  { unfold mark_action_failed in Hf. apply bind_ok_inv in Hf as (s2 & s3 & [= <- <-] & Hf).
    destruct (match qs_rows s !! i with Some _ => _ | None => _ end); [done|].
    apply bind_ok_inv in Hf as (row & s4 & Hu & Hr). destruct row as [y|]; [|done].
    injection Hr as <- <-. apply update_row_Ok in Hu as (? & ? & r & _ & Hx).
  split_and!; [done|done|by rewrite Hx]. }
  destruct (retryable && _); [|injection Hk as <- <-; naive_solver].
  unfold requeue_failed_action in Hk. apply bind_ok_inv in Hk as (row & s4 & Hu & Hr).
  destruct row as [y|]; [|done]. injection Hr as <- <-.
  apply update_row_Ok in Hu as (? & ? & r & _ & Hx).
  split_and!; [done|done|right; by rewrite Hx].
Qed.

(** ** Programs over the queue *)

(** What holds of every store the operations reach: ids come from the
    sequence, idempotency keys are unique, every row is within its budget. *)
Record queue_ok (s : queue_store) : Prop := {
  ok_queue_ids : forall i r, qs_rows s !! i = Some r -> i < qs_seq s;
  ok_queue_keys : forall i j r r', qs_rows s !! i = Some r -> qs_rows s !! j = Some r' ->
    q_idempotency_key r = q_idempotency_key r' -> i = j;
  ok_queue_budget : forall i r, qs_rows s !! i = Some r -> row_budget r;
}.

Lemma lifecycle_same_work r r' : lifecycle r r' -> same_work r r'.
Proof. by intros []. Qed.

Lemma lifecycles_key r r' : rtc lifecycle r r' -> q_idempotency_key r' = q_idempotency_key r.
Proof.
  induction 1 as [|r r1 r2 Hl _ IH]; [done|].
  apply lifecycle_same_work in Hl as (_ & _ & _ & _ & Hk & _). congruence.
Qed.

Lemma lifecycles_budget r r' : rtc lifecycle r r' -> row_budget r -> row_budget r'.
Proof. induction 1; eauto using lifecycle_budget. Qed.

Lemma lifecycles_finished r r' :
  rtc lifecycle r r' -> finished (q_status r) = true ->
  q_status r' = q_status r /\ q_retry_count r' = q_retry_count r.
Proof.
  induction 1 as [|r r1 r2 Hl _ IH]; [done|]. intros Hf.
  apply lifecycle_finished in Hl as [Hs Hn]; [|done]. rewrite <- Hs in Hf.
  destruct (IH Hf) as [-> ->]. done.
Qed.

(** Where a row of the new store comes from. *)
Lemma moves_origin s s' i r' :
  queue_moves s s' -> qs_rows s' !! i = Some r' ->
  (exists r, qs_rows s !! i = Some r /\ rtc lifecycle r r') \/
  (qs_rows s !! i = None /\ i = qs_seq s /\ q_status r' = QPending /\ q_retry_count r' = 0 /\
   key_taken (q_idempotency_key r') (qs_rows s) = false /\ 1 <= q_max_retries r' <= 2147483647).
Proof.
  intros Hm Hi'. destruct (qs_rows s !! i) as [r|] eqn:Hi.
  - left. destruct (moves_rows _ _ Hm i r Hi) as (r1 & Hr1 & Hl). simplify_eq. eauto.
  - right. destruct (moves_new _ _ Hm i r' Hi' Hi). by split.
Qed.

Lemma moves_keys s s' i j r1 r2 :
  queue_moves s s' -> queue_ok s -> qs_rows s' !! i = Some r1 -> qs_rows s' !! j = Some r2 ->
  q_idempotency_key r1 = q_idempotency_key r2 -> i = j.
Proof.
  intros Hm Hok Hi Hj Hk.
  destruct (moves_origin _ _ _ _ Hm Hi) as [(r1' & Hi' & Hl1)|(_ & -> & _ & _ & Hk1 & _)];
    destruct (moves_origin _ _ _ _ Hm Hj) as [(r2' & Hj' & Hl2)|(_ & -> & _ & _ & Hk2 & _)]; [| | |done].
  - apply (ok_queue_keys s Hok i j r1' r2' Hi' Hj').
    by rewrite <- (lifecycles_key _ _ Hl1), <- (lifecycles_key _ _ Hl2).
  - apply key_taken_false with (r := r1') (i := i) in Hk2; [|done].
    destruct Hk2. by rewrite <- (lifecycles_key _ _ Hl1).
  - apply key_taken_false with (r := r2') (i := j) in Hk1; [|done].
    destruct Hk1. by rewrite <- (lifecycles_key _ _ Hl2).
Qed.

Lemma moves_ok s s' : queue_moves s s' -> queue_ok s -> queue_ok s'.
Proof.
  intros Hm Hok. split.
  - intros i r Hi. pose proof (moves_seq _ _ Hm).
    destruct (moves_origin _ _ _ _ Hm Hi) as [(r0 & Hi0 & _)|(Hn & -> & _)].
    + apply (ok_queue_ids s Hok) in Hi0. lia.
    + rewrite (moves_seq_new _ _ Hm) by eauto. lia.
  - intros i j r r'. by apply moves_keys with (s := s).
  - intros i r Hi. destruct (moves_origin _ _ _ _ Hm Hi) as [(r0 & Hi0 & Hl)|(_ & _ & Hs & Hn & _ & Hb)].
    + eapply lifecycles_budget; [done|]. by eapply ok_queue_budget.
    + unfold row_budget. rewrite Hn. lia.
Qed.

Lemma steps_ok s s' : rtc queue_moves s s' -> queue_ok s -> queue_ok s'.
Proof. induction 1; eauto using moves_ok. Qed.

Lemma steps_rows s s' i r :
  rtc queue_moves s s' -> qs_rows s !! i = Some r ->
  exists r', qs_rows s' !! i = Some r' /\ rtc lifecycle r r'.
Proof.
  intros Hs. revert r. induction Hs as [|s s1 s2 Hm _ IH]; intros r Hi; [eauto using rtc_refl|].
  destruct (moves_rows _ _ Hm i r Hi) as (r1 & Hi1 & Hl1).
  destruct (IH r1 Hi1) as (r2 & Hi2 & Hl2). exists r2. split; [done|]. by etrans.
Qed.

Section Programs.
Context (sha256_hex : string -> string) (inet : string -> option string) (int_column : pyval -> outcome Z).
Context (alert_exists : Z -> bool).
Context {A : Type} `{ApprovalLookup A}.

Inductive queue_op :=
  | OpEnqueue (alert_id : pyval) (source_ip : string) (action : pyval)
  | OpClaim (locked : gset Z) (now : option Z)
  | OpClaimApproved (ap : A) (locked : gset Z) (now : option Z)
  | OpAwait (i : Z) (reason : string) (now : option Z)
  | OpSkipAwaiting (i : Z) (reason : string) (now : option Z)
  | OpSuccess (i : Z) (now : option Z)
  | OpSkip (i : Z) (reason : string) (now : option Z)
  | OpFailure (i : Z) (msg : string) (retryable : bool) (now : option Z)
  | OpRequeue (i : Z) (now : option Z)
  | OpRecover (locked : gset Z) (now : option Z) (stale_after : Z) (limit : option Z)
  | OpSkipNext (ap : A) (locked : gset Z) (now : option Z)
  | OpSweep (ap : A) (locked : gset Z) (now : option Z) (limit : Z)
  | OpLink (i : Z) (decision : option Z) (correlation : option string).

(** The store after one call, whether it returned or raised.  The
    enqueue calls of the program leave [max_retries] at its default, 3. *)
Definition run_queue_op (s : queue_store) (c : clock * queue_op) : queue_store :=
  let clk := c.1 in
  match c.2 with
  | OpEnqueue alert ip a => (enqueue_response_action sha256_hex inet int_column alert_exists clk alert ip a 3 s).2
  | OpClaim locked now => (claim_next_pending_action clk locked now s).2
  | OpClaimApproved ap locked now => (claim_next_approved_awaiting_action clk ap locked now s).2
  | OpAwait i reason now => (mark_action_awaiting_approval clk i reason now s).2
  | OpSkipAwaiting i reason now => (mark_awaiting_approval_skipped clk i reason now s).2
  | OpSuccess i now => (mark_action_success clk i now s).2
  | OpSkip i reason now => (mark_action_skipped clk i reason now s).2
  | OpFailure i msg retryable now => (record_action_failure clk i msg retryable now s).2
  | OpRequeue i now => (requeue_failed_action clk i now s).2
  | OpRecover locked now after limit => (recover_stale_running_actions clk locked now after limit s).2
  | OpSkipNext ap locked now => (skip_next_terminal_approval_action clk ap locked now s).2
  | OpSweep ap locked now limit => (sweep_terminal_approval_queue_rows clk ap locked now limit s).2
  | OpLink i d c => (set_queue_linkage i d c s).2
  end.

Definition run_queue_ops (l : list (clock * queue_op)) (s : queue_store) : queue_store :=
  fold_left run_queue_op l s.

Lemma enqueue_moves clk alert ip a mr s o s' :
  1 <= mr -> queue_ok s ->
  enqueue_response_action sha256_hex inet int_column alert_exists clk alert ip a mr s = (o, s') -> queue_moves s s'.
Proof.
  intros Hmr Hok. unfold enqueue_response_action, bind, of_outcome.
  destruct (validate_action_for_response_queue a) as [act|e]; [|intros [= <- <-]; apply moves_refl].
  destruct (int_column alert) as [i|e]; [|intros [= <- <-]; apply moves_refl].
  destruct (inet ip) as [host|]; [|intros [= <- <-]; apply moves_refl].
  destruct (int4 i && int4 mr) eqn:Hint; cbn [negb]; [|intros [= <- <-]; apply moves_refl].
  assert (queue_moves s (QueueStore (qs_rows s) (qs_seq s + 1))) as Hseq.
  { split; simpl; [eauto using rtc_refl|congruence|lia|done]. }
  destruct (key_taken _ _) eqn:Hk; [by intros [= <- <-]|].
  destruct (negb _); [by intros [= <- <-]|]. intros [= <- <-].
  unfold int4 in Hint. rewrite !andb_true_iff, !Z.leb_le in Hint.
  assert (qs_rows s !! qs_seq s = None) as Hnone.
  { destruct (qs_rows s !! qs_seq s) eqn:Hi; [|done]. apply (ok_queue_ids s Hok) in Hi. lia. }
  split; simpl; [| |lia|done].
  - intros j r Hj. rewrite lookup_insert_ne by congruence. eauto using rtc_refl.
  - intros j r'. destruct (decide (qs_seq s = j)) as [<-|Hne].
    + rewrite lookup_insert_eq. intros [= <-] _. simpl. by split_and!; try lia.
    + rewrite lookup_insert_ne by done. congruence.
Qed.

Lemma record_action_failure_steps clk i msg b now s o s' :
  record_action_failure clk i msg b now s = (o, s') -> rtc queue_moves s s'.
Proof.
  unfold record_action_failure, bind.
  destruct (mark_action_failed clk i msg now s) as [[x|e] s1] eqn:E; intros Ho;
    apply mark_action_failed_moves in E.
  - destruct (b && _); [|unfold ret in Ho; simplify_eq; by apply rtc_once].
    eapply rtc_l; [done|]. apply rtc_once. by eapply requeue_failed_action_moves.
  - simplify_eq/=. by apply rtc_once.
Qed.

Lemma run_queue_op_steps s c : queue_ok s -> rtc queue_moves s (run_queue_op s c).
Proof.
  intros Hok. destruct c as [clk op]. unfold run_queue_op. cbn [fst snd].
  destruct op; match goal with |- rtc _ _ (?m s).2 => destruct (m s) as [o s'] eqn:E end; cbn [snd].
  8: by eapply record_action_failure_steps.
  all: apply rtc_once; revert E; first
    [ apply enqueue_moves; [lia|done] | apply claim_next_pending_moves | apply claim_next_approved_moves
    | (intros E; eapply transition_moves; [|exact E]; done) | apply requeue_failed_action_moves | apply recover_stale_moves
    | apply skip_next_moves | apply sweep_moves | apply set_queue_linkage_moves ].
Qed.

Lemma run_queue_ops_steps l s : queue_ok s -> rtc queue_moves s (run_queue_ops l s).
Proof.
  revert s. induction l as [|c l IH]; intros s Hok; [apply rtc_refl|].
  etrans; [by apply run_queue_op_steps|]. apply IH. eapply steps_ok; [by apply run_queue_op_steps|done].
Qed.
End Programs.
Arguments queue_op A : clear implicits.

Definition empty_queue : queue_store := QueueStore ∅ 1.

Lemma empty_queue_ok : queue_ok empty_queue.
Proof. by split. Qed.

(** ** Draining *)

Lemma by_id_inj (a : Z) (b : queue_row) (c : Z) (d : queue_row) : by_id a b = by_id c d -> a = c.
Proof. by intros [= ->]. Qed.
#[export] Hint Resolve by_id_inj : soar.

(** [n] claims in a row, by one worker that meets the same locks. *)
Fixpoint claim_times (clk : clock) (locked : gset Z) (now : option Z) (n : nat)
    : M queue_store (list (Z * queue_row)) :=
  match n with
  | O => ret []
  | S n =>
      let* x := claim_next_pending_action clk locked now in
      match x with
      | None => ret []
      | Some x => let* xs := claim_times clk locked now n in ret (x :: xs)
      end
  end.

Definition claimable (locked : gset Z) (s : queue_store) : list (Z * queue_row) :=
  select by_id (fun i r => has_status QPending r && negb (bool_decide (i ∈ locked))) (qs_rows s).

Definition started (clk : clock) (now : option Z) (r : queue_row) : queue_row :=
  set_status QRunning (q_retry_count r) (q_last_error r) (stamp clk now) r.

Lemma claim_times_drain clk locked now n s :
  claim_times clk locked now n s =
    let '(l, t) := drain by_id (fun i r => has_status QPending r && negb (bool_decide (i ∈ locked)))
                     (fun _ => started clk now) n (qs_rows s) in
    (Ok ((fun x => (x.1, started clk now x.2)) <$> l), QueueStore t (qs_seq s)).
Proof.
  revert s. induction n as [|n IH]; intros s; [by destruct s|]. cbn [claim_times drain].
  unfold bind at 1, claim_next_pending_action, claim.
  destruct (select_one _ _ _) as [[i r]|]; [|by destruct s].
  unfold bind. rewrite IH. cbn [qs_rows qs_seq]. by destruct (drain _ _ _ _ _).
Qed.

Section DrainApprovals.
Context {A} `{ApprovalLookup A} (clk : clock) (ap : A) (locked : gset Z) (now : option Z).

(** [n] calls of [skip_next_terminal_approval_action], stopping at None. *)
Fixpoint skip_times (n : nat) : M queue_store (list (Z * queue_row * approval_status)) :=
  match n with
  | O => ret []
  | S n =>
      let* x := skip_next_terminal_approval_action clk ap locked now in
      match x with
      | None => ret []
      | Some x => let* xs := skip_times n in ret (x :: xs)
      end
  end.

Definition skippable (i : Z) (r : queue_row) : bool :=
  has_status QAwaitingApproval r &&
  match terminal_verdict ap i r with Some _ => true | None => false end &&
  negb (bool_decide (i ∈ locked)).

Lemma skip_times_drain n s :
  skip_times n s =
    let '(l, t) := drain by_id skippable (skip_row clk ap now) n (qs_rows s) in
    (Ok (skipped_result clk ap now <$> l), QueueStore t (qs_seq s)).
Proof.
  revert s. induction n as [|n IH]; intros s; [by destruct s|]. cbn [skip_times drain].
  unfold bind at 1, skip_next_terminal_approval_action, terminal_candidates, select_one.
  fold skippable. destruct (head _) as [[i r]|]; [|by destruct s].
  unfold bind. rewrite IH. cbn [qs_rows qs_seq]. by destruct (drain _ _ _ _ _).
Qed.
End DrainApprovals.

(** ** Properties *)

(** Refinement to the lifecycle.  Under any sequence of enqueues, claims,
    worker transitions, failures, requeues, recoveries, sweeps and linkage
    updates, each call raising or not, no row disappears, every row moves
    only along the lifecycle, and the store stays well formed: ids from the
    sequence, unique idempotency keys, and a retry budget under which a
    pending, running or waiting row always has an attempt left. *)
Theorem queue_refines_lifecycle sha256_hex inet int_column alert_exists {A} `{ApprovalLookup A}
    (l : list (clock * queue_op A)) (s : queue_store) :
  queue_ok s ->
  queue_ok (run_queue_ops sha256_hex inet int_column alert_exists l s) /\
  forall i r, qs_rows s !! i = Some r ->
    exists r', qs_rows (run_queue_ops sha256_hex inet int_column alert_exists l s) !! i = Some r' /\ rtc lifecycle r r'.
Proof.
  intros Hok. pose proof (run_queue_ops_steps sha256_hex inet int_column alert_exists l s Hok) as Hs. split.
  - by eapply steps_ok.
  - intros i r Hi. by eapply steps_rows.
Qed.

(** An action that succeeded or was skipped is never run again: its
    status and retry count are final under any later calls. *)
Theorem finished_action_final sha256_hex inet int_column alert_exists {A} `{ApprovalLookup A}
    (l : list (clock * queue_op A)) (s : queue_store) i r :
  queue_ok s -> qs_rows s !! i = Some r -> finished (q_status r) = true ->
  exists r', qs_rows (run_queue_ops sha256_hex inet int_column alert_exists l s) !! i = Some r' /\
    q_status r' = q_status r /\ q_retry_count r' = q_retry_count r.
Proof.
  intros Hok Hi Hf.
  destruct (steps_rows _ _ i r (run_queue_ops_steps sha256_hex inet int_column alert_exists l s Hok) Hi) as (r' & Hi' & Hl).
  exists r'. split; [done|]. by apply lifecycles_finished.
Qed.

(** Claims are first in first out.  [n] claims in a row return the first
    [n] unlocked pending rows in id order, each marked running and stamped,
    and leave every other row and the retry counts as they were. *)
Theorem claims_in_id_order clk locked now n s :
  exists s', claim_times clk locked now n s =
      (Ok ((fun x => (x.1, started clk now x.2)) <$> take n (claimable locked s)), s') /\
    forall j, qs_rows s' !! j =
      if decide (j ∈ (take n (claimable locked s)).*1)
      then started clk now <$> qs_rows s !! j else qs_rows s !! j.
Proof.
  rewrite claim_times_drain, drain_spec; [|eauto with soar|by intros i r _].
  eexists. split; [done|]. intros j. cbn [qs_rows].
  rewrite lookup_update_ids; [done|].
  rewrite <- (Nat2Z.id n). apply NoDup_limit.
Qed.

(** The bulk sweep of denied and expired approvals is the one-row skip
    iterated [min(max(limit,0),100)] times: same rows, same verdicts, same
    order, same final store. *)
Theorem sweep_is_iterated_skip {A} `{ApprovalLookup A} clk (ap : A) locked now limit s :
  sweep_terminal_approval_queue_rows clk ap locked now limit s =
  skip_times clk ap locked now (Z.to_nat (Z.min (Z.max limit 0) 100)) s.
Proof. rewrite skip_times_drain, drain_spec; [done|eauto with soar|by intros i r _]. Qed.

(** Stale recovery never gives up.  In every reachable store each row it
    recovers goes back to pending with its retry count unchanged: the
    "stale running action exhausted retries" branch is dead. *)
Theorem stale_recovery_never_exhausts clk locked now after limit s rows s' i r' :
  queue_ok s ->
  recover_stale_running_actions clk locked now after limit s = (Ok rows, s') ->
  (i, r') ∈ rows ->
  exists r, qs_rows s !! i = Some r /\ q_status r = QRunning /\ (i ∉ locked) /\
    q_updated_at r <= stamp clk now - seconds (Z.quot after 1000000) /\
    r' = set_status QPending (q_retry_count r) (q_last_error r) (stamp clk now) r /\
    qs_rows s' !! i = Some r'.
Proof.
  intros Hok. unfold recover_stale_running_actions.
  destruct (match limit with Some _ => _ | None => _ end); [done|]. intros [= <- <-].
  intros ([j r] & [= -> ->] & Hin)%list_elem_of_fmap. cbn [fst snd] in *.
  pose proof (stale_candidates_spec _ _ _ _ _ _ _ _ Hin) as (Hi & Hst & Hl).
  unfold is_stale in Hst. apply andb_true_iff in Hst as [Hs%has_status_true Ht%Z.leb_le].
  exists r.
  pose proof (ok_queue_budget s Hok j r Hi) as (_ & _ & Hlive). rewrite Hs in Hlive.
  assert (recovered clk now r = set_status QPending (q_retry_count r) (q_last_error r) (stamp clk now) r) as Hrec.
  { unfold recovered. rewrite (proj2 (Z.ltb_lt _ _)); [done|]. by apply Hlive. }
  split_and!; try done. cbn [qs_rows].
  rewrite lookup_update_ids by apply stale_candidates_NoDup.
  rewrite decide_True by (apply list_elem_of_fmap; by exists (j, r)). by rewrite Hi.
Qed.

(** One crash: a worker claims the row at [t] and dies; the row is recovered
    a quarter of an hour later. *)
Definition crash_round (t : Z) (s : queue_store) : queue_store :=
  let s := (claim_next_pending_action (Clock t t) ∅ None s).2 in
  (recover_stale_running_actions (Clock (t + STALE_RUNNING_TIMEOUT) (t + STALE_RUNNING_TIMEOUT))
     ∅ None STALE_RUNNING_TIMEOUT None s).2.

Fixpoint crash_rounds (n : nat) (t : Z) (s : queue_store) : queue_store :=
  match n with
  | O => s
  | S n => crash_rounds n (t + STALE_RUNNING_TIMEOUT) (crash_round t s)
  end.

Definition lone (i : Z) (r : queue_row) (seq : Z) : queue_store := QueueStore {[i := r]} seq.

Lemma select_lone {key} {p : Z -> queue_row -> bool} i r :
  p i r = true -> select key p {[i := r]} = [(i, r)].
Proof. intros Hp. unfold select. rewrite map_to_list_singleton. unfold filter. simpl. by rewrite Hp. Qed.

Lemma crash_round_lone t i r seq :
  q_status r = QPending -> q_retry_count r < q_max_retries r ->
  crash_round t (lone i r seq) =
    lone i (set_status QPending (q_retry_count r) (q_last_error r) (t + STALE_RUNNING_TIMEOUT) r) seq.
Proof.
  intros Hs Hb. unfold crash_round, lone, claim_next_pending_action, claim, select_one. cbn [qs_rows qs_seq].
  rewrite select_lone; [|by rewrite (proj2 (has_status_true _ _) Hs)].
  cbn [head snd qs_rows qs_seq]. unfold recover_stale_running_actions, stale_candidates. cbn [qs_rows qs_seq].
  rewrite insert_singleton_eq, select_lone.
  - unfold update_ids. cbn [fmap list_fmap foldr fst snd].
    rewrite alter_singleton_eq. unfold recovered. cbn [q_retry_count q_max_retries set_status].
    by rewrite (proj2 (Z.ltb_lt _ _) Hb).
  - unfold is_stale, stamp.
    change (seconds (Z.quot STALE_RUNNING_TIMEOUT 1000000)) with STALE_RUNNING_TIMEOUT.
    cbn [q_updated_at set_status default sql_now]. rewrite !andb_true_iff, Z.leb_le. split_and!; [done|lia|done].
Qed.

(** A crashing action is retried forever.  However many times the worker
    dies while running it, the row comes back pending with the same retry
    count, whatever its [max_retries]. *)
Theorem crash_loop_unbounded n t i r seq :
  q_status r = QPending -> q_retry_count r < q_max_retries r ->
  exists r', crash_rounds n t (lone i r seq) = lone i r' seq /\
    q_status r' = QPending /\ q_retry_count r' = q_retry_count r.
Proof.
  revert t r. induction n as [|n IH]; intros t r Hs Hb; [eauto|]. cbn [crash_rounds].
  rewrite crash_round_lone by done.
  destruct (IH (t + STALE_RUNNING_TIMEOUT)
    (set_status QPending (q_retry_count r) (q_last_error r) (t + STALE_RUNNING_TIMEOUT) r))
    as (r' & Hr & Hs' & Hn'); eauto.
Qed.

(** A failed attempt is charged once and decides the next status: a
    running row gets [retry_count + 1], which never overflows the column,
    and returns to pending, keeping the error, exactly when the failure is
    retryable and the budget is not spent; otherwise it is failed. *)
Theorem record_action_failure_spec clk i msg retryable now s r :
  queue_ok s -> qs_rows s !! i = Some r -> q_status r = QRunning ->
  let n := q_retry_count r + 1 in
  let st := if retryable && (n <? q_max_retries r) then QPending else QFailed in
  let r' := set_status st n (Some msg) (stamp clk now) r in
  record_action_failure clk i msg retryable now s =
    (Ok (i, r'), QueueStore (<[i := r']> (qs_rows s)) (qs_seq s)).
Proof.
  intros Hok Hi Hs. cbn zeta.
  pose proof (ok_queue_budget s Hok i r Hi) as ((H0 & H1) & H2 & H3). rewrite Hs in H3.
  specialize (H3 eq_refl).
  assert (int4 (q_retry_count r + 1) = true) as Hint.
  { unfold int4. apply andb_true_iff. split; apply Z.leb_le; lia. }
  unfold record_action_failure, mark_action_failed. run_monad.
  rewrite Hi, (proj2 (has_status_true _ _) Hs), Hint. cbn [negb andb].
  unfold update_row at 1. rewrite (update_where_hit i _ _ _ r Hi) by by apply has_status_true.
  cbn [fmap option_fmap option_map snd q_retry_count q_max_retries set_status].
  destruct (retryable && _) eqn:Hre; [|done].
  apply andb_true_iff in Hre as [_ Hb].
  unfold requeue_failed_action, update_row. run_monad.
  erewrite update_where_hit; [|apply lookup_insert_eq|].
  - cbn. by rewrite insert_insert_eq.
  - unfold has_status. cbn. exact Hb.
Qed.

(** Enqueueing is idempotent for good.  Once an action for an alert and
    address has been queued, enqueueing it again at any later time, after any
    other operations, returns None and changes no row. *)
Theorem enqueue_idempotent sha256_hex inet int_column alert_exists {A} `{ApprovalLookup A} clk clk' alert ip act s i s1
    (l : list (clock * queue_op A)) :
  queue_ok s ->
  enqueue_response_action sha256_hex inet int_column alert_exists clk alert ip act 3 s = (Ok (Some i), s1) ->
  let s2 := run_queue_ops sha256_hex inet int_column alert_exists l s1 in
  enqueue_response_action sha256_hex inet int_column alert_exists clk' alert ip act 3 s2 =
    (Ok None, QueueStore (qs_rows s2) (qs_seq s2 + 1)).
Proof.
  intros Hok He s2. assert (queue_moves s s1) as Hm by (eapply enqueue_moves; [|done|exact He]; lia).
  assert (rtc queue_moves s1 s2) as Hs by (apply run_queue_ops_steps; eauto using moves_ok).
  unfold enqueue_response_action, bind, of_outcome, raise in *.
  destruct (validate_action_for_response_queue act) as [a|]; [|done].
  destruct (int_column alert) as [n|]; [|done]. destruct (inet ip) as [host|]; [|done]. destruct (negb _); [done|].
  destruct (key_taken _ (qs_rows s)) eqn:Hk; [done|]. destruct (negb _); [done|]. injection He as <- <-.
  match type of Hs with rtc _ (QueueStore (<[_ := ?r]> _) _) _ =>
    destruct (steps_rows _ _ (qs_seq s) r Hs) as (r' & Hi' & Hl) end; [apply lookup_insert_eq|].
  destruct (key_taken _ (qs_rows s2)) eqn:Hk2; [done|].
  eapply key_taken_false in Hk2; [|exact Hi']. by apply lifecycles_key in Hl.
Qed.

(** ** Witnesses *)

Definition ex_int_column (v : pyval) : outcome Z :=
  match v with PInt z => Ok z | _ => Raise (DatabaseError "invalid input syntax for type integer") end.
Definition ex_any_alert (i : Z) : bool := true.
Definition ex_inet (s : string) : option string := if is_empty s then None else Some s.

(** A lookup with no approval requests at all. *)
Definition no_approvals : ApprovalLookup unit :=
  {| approved_exists _ _ _ := false; latest_status _ _ _ := None;
     latest_approved_exists _ _ _ H := ltac:(discriminate H) |}.

Definition ex_at (t : Z) : clock := Clock t t.

(** One queued block of 198.51.100.7 for alert 12, claimed at time 1. *)
Definition ex_ops : list (clock * queue_op unit) :=
  [(ex_at 0, OpEnqueue (PInt 12) "198.51.100.7" (PStr "block_ip")); (ex_at 1, OpClaim ∅ None)].
Definition ex_queue : queue_store := run_queue_ops id ex_inet ex_int_column ex_any_alert (H := no_approvals) ex_ops empty_queue.

Lemma ex_queue_ok : queue_ok ex_queue.
Proof. eapply steps_ok; [apply run_queue_ops_steps|]; apply empty_queue_ok. Qed.

Definition ex_row (st : queue_status) (upd : Z) : queue_row :=
  QueueRow (Some 12) (Some "198.51.100.7") "block_ip" st 0 3 None "12:198.51.100.7:block_ip" 0 upd None None.

Lemma ex_queue_row : qs_rows ex_queue !! 1 = Some (ex_row QRunning 1).
Proof. by vm_compute. Qed.

(** .. and finished at time 2. *)
Definition ex_finished : queue_store := (mark_action_success (ex_at 2) 1 None ex_queue).2.

Lemma ex_finished_ok : queue_ok ex_finished.
Proof.
  assert (ex_finished = run_queue_ops id ex_inet ex_int_column ex_any_alert (H := no_approvals) [(ex_at 2, OpSuccess 1 None)] ex_queue)
    as -> by done.
  eapply steps_ok; [apply run_queue_ops_steps|]; apply ex_queue_ok.
Qed.

Lemma queue_refines_lifecycle_witness :
  exists r', qs_rows (run_queue_ops id ex_inet ex_int_column ex_any_alert (H := no_approvals)
      [(ex_at 5, OpFailure 1 "timeout" true None); (ex_at 6, OpClaim ∅ None)] ex_queue) !! 1 = Some r' /\
    rtc lifecycle (ex_row QRunning 1) r' /\ q_retry_count r' = 1.
Proof.
  destruct (queue_refines_lifecycle id ex_inet ex_int_column ex_any_alert (H := no_approvals)
      [(ex_at 5, OpFailure 1 "timeout" true None); (ex_at 6, OpClaim ∅ None)] ex_queue ex_queue_ok)
    as [_ Hrows].
  destruct (Hrows 1 _ ex_queue_row) as (r' & Hr & Hl). exists r'. split_and!; [done|done|].
  vm_compute in Hr. by injection Hr as <-.
Defined.

Lemma finished_action_final_witness :
  exists r', qs_rows (run_queue_ops id ex_inet ex_int_column ex_any_alert (H := no_approvals)
      [(ex_at 3, OpClaim ∅ None); (ex_at (minutes 40), OpRecover ∅ None STALE_RUNNING_TIMEOUT None)]
      ex_finished) !! 1 = Some r' /\ q_status r' = QSuccess /\ q_retry_count r' = 0.
Proof.
  exact (finished_action_final id ex_inet ex_int_column ex_any_alert (H := no_approvals) _ ex_finished 1
    (set_status QSuccess 0 None 2 (ex_row QRunning 1)) ex_finished_ok eq_refl eq_refl).
Defined.

Lemma stale_recovery_never_exhausts_witness :
  exists r, qs_rows ex_queue !! 1 = Some r /\ q_status r = QRunning.
Proof.
  destruct (recover_stale_running_actions (ex_at (minutes 16)) ∅ None STALE_RUNNING_TIMEOUT None ex_queue)
    as [o s'] eqn:E.
  vm_compute in E. injection E as <- <-.
  destruct (stale_recovery_never_exhausts (ex_at (minutes 16)) ∅ None STALE_RUNNING_TIMEOUT None ex_queue
    [(1, ex_row QPending (minutes 16))]
    (recover_stale_running_actions (ex_at (minutes 16)) ∅ None STALE_RUNNING_TIMEOUT None ex_queue).2
    1 (ex_row QPending (minutes 16)) ex_queue_ok) as (r & Hr & Hs & _).
  - by vm_compute.
  - left.
  - eauto.
Defined.

Lemma crash_loop_unbounded_witness :
  exists r', crash_rounds 1000 0 (lone 1 (ex_row QPending 0) 2) = lone 1 r' 2 /\
    q_status r' = QPending /\ q_retry_count r' = 0.
Proof. by apply (crash_loop_unbounded 1000 0 1 (ex_row QPending 0) 2). Defined.

Lemma record_action_failure_spec_witness :
  (record_action_failure (ex_at 9) 1 "timeout" true None ex_queue).1 =
    Ok (1, set_status QPending 1 (Some "timeout") 9 (ex_row QRunning 1)).
Proof.
  pose proof (record_action_failure_spec (ex_at 9) 1 "timeout" true None ex_queue
    (ex_row QRunning 1) ex_queue_ok ex_queue_row eq_refl) as H.
  cbn zeta in H. by rewrite H.
Defined.

Lemma enqueue_idempotent_witness :
  (enqueue_response_action id ex_inet ex_int_column ex_any_alert (ex_at 7) (PInt 12) "198.51.100.7" (PStr " block_ip ") 3 ex_queue).1 = Ok None.
Proof.
  pose proof (enqueue_idempotent id ex_inet ex_int_column ex_any_alert (H := no_approvals) (ex_at 0) (ex_at 7) (PInt 12) "198.51.100.7"
    (PStr " block_ip ") empty_queue 1
    (enqueue_response_action id ex_inet ex_int_column ex_any_alert (ex_at 0) (PInt 12) "198.51.100.7" (PStr " block_ip ") 3 empty_queue).2
    [(ex_at 1, OpClaim ∅ None)] empty_queue_ok) as H.
  cbn zeta in H. replace ex_queue with (run_queue_ops id ex_inet ex_int_column ex_any_alert (H := no_approvals)
    [(ex_at 1, OpClaim ∅ None)]
    (enqueue_response_action id ex_inet ex_int_column ex_any_alert (ex_at 0) (PInt 12) "198.51.100.7" (PStr " block_ip ") 3 empty_queue).2)
    by (by vm_compute).
  by rewrite H by (by vm_compute).
Defined.
