(* ===== verification/Outcomes.v ===== *)
(** * Outcomes: core/soar_response_outcomes.py

    Response decisions and their append-only outcome events: the closed
    vocabularies, the validators, metadata redaction, the two writers and
    the latest-outcome readers.  The CHECK constraints are those of
    migrations 0012, 0017 and 0018. *)

From S2P Require Import Prelude PyText PyValue Tables.

Open Scope Z_scope.

(** ** Vocabularies *)

Definition EXECUTION_MODES : list string :=
  ["observed"; "simulation"; "tracking_only"; "real"; "internal"; "read_only"].
Definition EXECUTION_STATES : list string :=
  ["observed"; "selected"; "queued"; "awaiting_approval"; "running"; "skipped"; "blocked";
   "succeeded"; "failed"].
Definition DECISION_SOURCES : list string :=
  ["detection_default"; "correlation"; "playbook"; "manual"; "migration"].
Definition EXECUTION_ACTORS : list string :=
  ["queue_worker"; "playbook_worker"; "adapter"; "approval_service"; "manual"; "system"].
Definition REASON_CODES : list string :=
  ["approval_required"; "approval_denied"; "approval_expired"; "simulation_mode"; "tracking_only";
   "adapter_unavailable"; "provider_error"; "policy_blocked"; "duplicate_suppressed";
   "unsupported_action"].

(** ** Validators *)

Definition invalid {A} (msg : string) : outcome A := Raise (OutcomeValidationError msg).

Definition correlation_char (c : ascii) : bool :=
  let n := N_of_ascii c in
  is_digit c || is_lower_alpha c || ((65 <=? n) && (n <=? 90))%N ||
  existsb (Ascii.eqb c) [".";"_";":";"-"]%char.

Definition validate_soar_correlation_id (value : string) : outcome string :=
  let correlation_id := strip value in
  if is_empty correlation_id then invalid "soar_correlation_id is required"
  else if negb (varchar 128 correlation_id)
  then invalid "soar_correlation_id must be at most 128 characters"
  else if has_url correlation_id then invalid "soar_correlation_id must not contain URLs"
  else if negb (all_chars correlation_char correlation_id)
  then invalid "soar_correlation_id contains unsupported characters"
  else Ok correlation_id.

(** [soar-{alert_id|none}-{uuid4().hex[:12]}]. *)
Definition generate_soar_correlation_id (alert_id : option Z) (uuid_hex : string) : outcome string :=
  let alert_part := match alert_id with Some a => str_int a | None => "none" end in
  validate_soar_correlation_id ("soar-" +:+ alert_part +:+ "-" +:+ uuid_hex).

Fixpoint keep_chars (p : ascii -> bool) (s : string) : string :=
  match s with
  | EmptyString => EmptyString
  | String c s => if p c then String c (keep_chars p s) else keep_chars p s
  end.

Definition generate_legacy_soar_correlation_id (table : string) (record_id : option Z) : outcome string :=
  if is_empty table || is_empty (strip table) then invalid "table is required for legacy correlation id"
  else match record_id with
  | None => invalid "record_id must be a positive integer"
  | Some n =>
      if n <? 1 then invalid "record_id must be a positive integer"
      else
        let safe_table := keep_chars
          (fun c => is_lower_alpha c || is_digit c || Ascii.eqb c "_") (lower (strip table)) in
        if is_empty safe_table then invalid "table name must contain safe characters"
        else validate_soar_correlation_id ("legacy-" +:+ safe_table +:+ "-" +:+ str_int n)
  end.

(** The four vocabulary validators differ in the set and the message. *)
Definition validate_member (what : string) (allowed : list string) (value : string) : outcome string :=
  let v := strip value in
  if str_in v allowed then Ok v else invalid (what +:+ " must be one of " +:+ show_choices allowed).

Definition validate_decision_source := validate_member "decision_source" DECISION_SOURCES.
Definition validate_execution_mode := validate_member "execution_mode" EXECUTION_MODES.
Definition validate_execution_state := validate_member "execution_state" EXECUTION_STATES.
Definition validate_execution_actor := validate_member "execution_actor" EXECUTION_ACTORS.

Definition validate_reason_code (value : option string) : outcome (option string) :=
  match value with
  | None => Ok None
  | Some value =>
      let reason_code := strip value in
      if is_empty reason_code then Ok None
      else if str_in reason_code REASON_CODES then Ok (Some reason_code)
      else invalid ("reason_code must be one of " +:+ show_choices REASON_CODES)
  end.

Definition validate_outcome_booleans (execution_mode execution_state : string)
    (external_executed tracking_recorded simulated : bool) : outcome unit :=
  let mode_is := String.eqb execution_mode in
  let state_is := String.eqb execution_state in
  if mode_is "observed" then
    if external_executed || tracking_recorded || simulated
    then invalid "observed outcomes must set external_executed, tracking_recorded, and simulated to false"
    else Ok tt
  else if simulated && negb (mode_is "simulation")
  then invalid "simulated may only be true when execution_mode is simulation"
  else if external_executed && (negb (mode_is "real") || negb (state_is "succeeded"))
  then invalid "external_executed may only be true for real/succeeded outcomes"
  else if tracking_recorded && (negb (mode_is "tracking_only") || negb (state_is "succeeded"))
  then invalid "tracking_recorded may only be true for tracking_only/succeeded outcomes"
  else if mode_is "simulation" && (external_executed || tracking_recorded)
  then invalid "simulation outcomes must set external_executed and tracking_recorded to false"
  else if mode_is "real" && (simulated || tracking_recorded)
  then invalid "real outcomes must set simulated and tracking_recorded to false"
  else if mode_is "tracking_only" && (simulated || external_executed)
  then invalid "tracking_only outcomes must set simulated and external_executed to false"
  else if mode_is "internal" && (simulated || external_executed || tracking_recorded)
  then invalid "internal outcomes must set simulated, external_executed, and tracking_recorded to false"
  else if mode_is "read_only" && (simulated || external_executed || tracking_recorded)
  then invalid "read_only outcomes must set simulated, external_executed, and tracking_recorded to false"
  else Ok tt.

(** ** Metadata redaction *)

Definition METADATA_KEY_DENYLIST : list string :=
  ["authorization"; "cookie"; "cookies"; "headers"; "raw_payload"; "raw_response"; "webhook_url";
   "slack_webhook_url"; "teams_webhook_url"; "access_token"; "refresh_token"; "password"; "secret";
   "api_key"; "apikey"].
Definition METADATA_KEY_SUBSTRING_DENY : list string :=
  ["token"; "secret"; "password"; "authorization"; "cookie"; "bearer"; "api_key"; "apikey"; "_url";
   "slack_webhook"; "teams_webhook"].

Definition unsafe_metadata_key (key : string) : bool :=
  let lk := lower key in
  str_in lk METADATA_KEY_DENYLIST ||
  (contains "webhook_url" lk || str_in lk ["webhook"; "incoming_webhook"; "incoming_webhook_url"]) ||
  (ends_with "_webhook_url" lk || ends_with "webhookurl" lk) ||
  existsb (fun part => contains part lk) METADATA_KEY_SUBSTRING_DENY.

(** A nested dict is redacted like the top one. *)
Fixpoint sanitize_scalar (value : pyval) : pyval :=
  match value with
  | PStr s => if has_url s then PStr "[REDACTED_URL]" else value
  | PDict d => PDict (flat_map (fun kv => if unsafe_metadata_key kv.1 then []
                                          else [(kv.1, sanitize_scalar kv.2)]) d)
  | PList l => PList (map sanitize_scalar l)
  | _ => value
  end.

Definition redact_items (d : pydict) : pydict :=
  flat_map (fun kv => if unsafe_metadata_key kv.1 then [] else [(kv.1, sanitize_scalar kv.2)]) d.

Definition redact_soar_outcome_metadata (metadata : pyval) : outcome pydict :=
  if negb (truthy metadata) then Ok []
  else match metadata with
       | PDict d => Ok (redact_items d)
       | _ => Raise TypeError
       end.

(** ** Rows *)

Record decision_row := DecisionRow {
  d_correlation_id : string;
  d_parent_correlation_id : option string;
  d_alert_id : option Z;
  d_incident_id : option Z;
  d_source_ip : option string;
  d_selected_action : string;
  d_decision_source : string;
  d_reason_code : option string;
  d_outcome_summary : string;
  d_playbook_id : option string;
  d_playbook_execution_id : option Z;
  d_playbook_step_index : option Z;
  d_queue_id : option Z;
  d_approval_request_id : option Z;
  d_created_by : option Z;
  d_safe_metadata : pydict;
  d_created_at : Z;
}.

Record event_row := EventRow {
  e_decision_id : Z;
  e_correlation_id : string;
  e_event_type : string;
  e_alert_id : option Z;
  e_incident_id : option Z;
  e_source_ip : option string;
  e_mode : string;
  e_state : string;
  e_external_executed : bool;
  e_tracking_recorded : bool;
  e_simulated : bool;
  e_actor : string;
  e_reason_code : option string;
  e_outcome_summary : string;
  e_queue_id : option Z;
  e_playbook_execution_id : option Z;
  e_playbook_step_index : option Z;
  e_approval_request_id : option Z;
  e_notification_id : option Z;
  e_response_log_id : option Z;
  e_provider : option string;
  e_adapter_name : option string;
  e_external_reference : option string;
  e_idempotency_key : option string;
  e_metadata : pydict;
  e_occurred_at : Z;
  e_created_at : Z;
}.

Record outcome_store := OutcomeStore {
  os_decisions : gmap Z decision_row;
  os_events : gmap Z event_row;
  os_decision_seq : Z;
  os_event_seq : Z;
}.

#[export, refine] Instance outcome_store_tx : Transactional outcome_store := {
  restore snap cur :=
    OutcomeStore (os_decisions snap) (os_events snap) (os_decision_seq cur) (os_event_seq cur);
}.
Proof. all: by intros []. Defined.

(** ** The CHECK constraints of the two tables *)

Definition null_or_in (c : option string) (l : list string) : bool :=
  match c with None => true | Some c => str_in c l end.
Definition nonneg_or_null (c : option Z) : bool :=
  match c with None => true | Some n => 0 <=? n end.
Definition opt_varchar (n : nat) (c : option string) : bool :=
  match c with None => true | Some s => varchar n s end.

Definition event_flag_checks (mode state : string) (external tracking simulated : bool) : bool :=
  (negb external || (String.eqb mode "real" && String.eqb state "succeeded")) &&
  (negb tracking || (String.eqb mode "tracking_only" && String.eqb state "succeeded")) &&
  (negb simulated || String.eqb mode "simulation") &&
  (negb (String.eqb mode "observed") || negb (external || tracking || simulated)) &&
  (negb (String.eqb mode "real") || negb (simulated || tracking)) &&
  (negb (String.eqb mode "tracking_only") || negb (simulated || external)) &&
  (negb (String.eqb mode "internal") || negb (simulated || external || tracking)) &&
  (negb (String.eqb mode "read_only") || negb (simulated || external || tracking)).

Definition event_checks (e : event_row) : bool :=
  negb (sql_blank (e_correlation_id e)) && negb (sql_blank (e_event_type e)) &&
  negb (sql_blank (e_outcome_summary e)) &&
  str_in (e_mode e) EXECUTION_MODES && str_in (e_state e) EXECUTION_STATES &&
  str_in (e_actor e) EXECUTION_ACTORS && null_or_in (e_reason_code e) REASON_CODES &&
  event_flag_checks (e_mode e) (e_state e) (e_external_executed e) (e_tracking_recorded e) (e_simulated e) &&
  nonneg_or_null (e_playbook_step_index e).

Definition decision_checks (d : decision_row) : bool :=
  negb (sql_blank (d_correlation_id d)) && negb (sql_blank (d_selected_action d)) &&
  str_in (d_decision_source d) DECISION_SOURCES && null_or_in (d_reason_code d) REASON_CODES &&
  nonneg_or_null (d_playbook_step_index d).

(** VARCHAR lengths; the vocabularies and correlation ids always fit. *)
Definition event_widths (e : event_row) : bool :=
  varchar 64 (e_event_type e) && opt_varchar 64 (e_provider e) && opt_varchar 64 (e_adapter_name e) &&
  opt_varchar 160 (e_idempotency_key e).

(** ** Readers *)

Definition latest_event (i : Z) (e : event_row) : list Z := [- e_occurred_at e; - e_created_at e; - i].

Definition get_latest_outcome_for_decision (decision : Z) (s : outcome_store) : option (Z * event_row) :=
  select_one latest_event (fun _ e => e_decision_id e =? decision) (os_events s).

(** The columns [_get_latest_outcome_by_column] accepts; source_ip is
    compared as an INET value. *)
Inductive outcome_column :=
  | ByAlert | ByIncident | ByQueue | ByExecution | ByApproval | ByNotification.

Definition outcome_column_value (c : outcome_column) (e : event_row) : option Z :=
  match c with
  | ByAlert => e_alert_id e | ByIncident => e_incident_id e | ByQueue => e_queue_id e
  | ByExecution => e_playbook_execution_id e | ByApproval => e_approval_request_id e
  | ByNotification => e_notification_id e
  end.

Definition get_latest_outcome_by_column (c : outcome_column) (value : Z) (s : outcome_store)
    : option (Z * event_row) :=
  select_one latest_event (fun _ e => sql_eq_Z (outcome_column_value c e) value) (os_events s).

Definition timeline_order (i : Z) (e : event_row) : list Z := [e_occurred_at e; e_created_at e; i].

Definition serialize_outcome_timeline (decision : Z) (limit : option Z) (s : outcome_store)
    : list (Z * event_row) :=
  match os_decisions s !! decision with
  | None => []
  | Some _ =>
      let rows := select timeline_order (fun _ e => e_decision_id e =? decision) (os_events s) in
      match limit with
      | Some n => if 0 <? n then Tables.limit n rows else rows
      | None => rows
      end
  end.

Definition by_correlation (correlation_id : string) (s : outcome_store) : option (Z * decision_row) :=
  select_one (fun i _ => [i]) (fun _ d => String.eqb (d_correlation_id d) correlation_id) (os_decisions s).

Definition by_idempotency_key (key : string) (s : outcome_store) : option (Z * event_row) :=
  select_one (fun i _ => [i])
    (fun _ e => match e_idempotency_key e with Some k => String.eqb k key | None => false end) (os_events s).

Definition derive_outcome_label (execution_mode execution_state : string)
    (external_executed tracking_recorded simulated : bool) : outcome string :=
  let! state := validate_execution_state execution_state in
  let! mode := validate_execution_mode execution_mode in
  let state_is := String.eqb state in
  let mode_is := String.eqb mode in
  Ok (if state_is "awaiting_approval" then "Awaiting approval"
      else if state_is "blocked" then "Blocked"
      else if state_is "skipped" then "Skipped"
      else if state_is "failed" then "Failed"
      else if state_is "running" then "Running"
      else if state_is "queued" then "Queued"
      else if state_is "selected" then "Selected"
      else if mode_is "observed" then "Observed only"
      else if mode_is "simulation" || simulated then "Simulated"
      else if mode_is "tracking_only" || tracking_recorded then "Tracking only"
      else if mode_is "real" && external_executed then "Real executed"
      else if mode_is "real" then "Failed"
      else if state_is "succeeded" then "Selected"
      else "Observed only").

(** ** Writers *)

Record decision_params := DecisionParams {
  dp_selected_action : string;
  dp_decision_source : string;
  dp_outcome_summary : string;
  dp_alert_id : option Z;
  dp_incident_id : option Z;
  dp_source_ip : option string;
  dp_reason_code : option string;
  dp_correlation_id : option string;
  dp_parent_correlation_id : option string;
  dp_playbook_id : option string;
  dp_playbook_execution_id : option Z;
  dp_playbook_step_index : option Z;
  dp_queue_id : option Z;
  dp_approval_request_id : option Z;
  dp_created_by : option Z;
  dp_safe_metadata : pyval;
}.

Record event_params := EventParams {
  ep_mode : string;
  ep_state : string;
  ep_actor : string;
  ep_outcome_summary : string;
  ep_decision_id : option Z;
  ep_correlation_id : option string;
  ep_event_type : option string;
  ep_external_executed : bool;
  ep_tracking_recorded : bool;
  ep_simulated : bool;
  ep_reason_code : option string;
  ep_alert_id : option Z;
  ep_incident_id : option Z;
  ep_source_ip : option string;
  ep_queue_id : option Z;
  ep_playbook_execution_id : option Z;
  ep_playbook_step_index : option Z;
  ep_approval_request_id : option Z;
  ep_notification_id : option Z;
  ep_response_log_id : option Z;
  ep_provider : option string;
  ep_adapter_name : option string;
  ep_external_reference : option string;
  ep_idempotency_key : option string;
  ep_metadata : pyval;
  ep_occurred_at : option Z;
}.

(** A missing or empty string. *)
Definition blank (s : option string) : bool :=
  match s with Some s => is_empty s | None => true end.

Section Writers.
Context (inet : string -> option string) (clk : clock).

(** A [%s::inet] value: NULL, the host text, or a database error. *)
Definition to_inet (ip : option string) : outcome (option string) :=
  match ip with
  | None => Ok None
  | Some ip => match inet ip with
               | Some host => Ok (Some host)
               | None => Raise (DatabaseError "invalid input syntax for type inet")
               end
  end.

Definition insert_decision (d : decision_row) : M outcome_store Z :=
  fun s =>
    let s' := OutcomeStore (os_decisions s) (os_events s) (os_decision_seq s + 1) (os_event_seq s) in
    if negb (decision_checks d) then (Raise (IntegrityError "soar_response_decisions_check"), s')
    else if existsb (fun x => String.eqb (d_correlation_id x.2) (d_correlation_id d))
              (map_to_list (os_decisions s))
    then (Raise (IntegrityError "idx_soar_response_decisions_soar_correlation_id"), s')
    else (Ok (os_decision_seq s),
          OutcomeStore (<[os_decision_seq s := d]> (os_decisions s)) (os_events s)
            (os_decision_seq s + 1) (os_event_seq s)).

Definition create_response_decision (uuid_hex : string) (p : decision_params)
    : M outcome_store (Z * decision_row) :=
  if is_empty (dp_selected_action p) || is_empty (strip (dp_selected_action p))
  then raise (OutcomeValidationError "selected_action is required")
  else if is_empty (dp_outcome_summary p) || is_empty (strip (dp_outcome_summary p))
  then raise (OutcomeValidationError "outcome_summary is required")
  else
    let* source := of_outcome (validate_decision_source (dp_decision_source p)) in
    let* reason := of_outcome (validate_reason_code (dp_reason_code p)) in
    let* correlation := of_outcome
      (if blank (dp_correlation_id p) then generate_soar_correlation_id (dp_alert_id p) uuid_hex
       else validate_soar_correlation_id (default EmptyString (dp_correlation_id p))) in
    let* parent := of_outcome
      (if blank (dp_parent_correlation_id p) then Ok None
       else let! c := validate_soar_correlation_id (default EmptyString (dp_parent_correlation_id p)) in
            Ok (Some c)) in
    if negb (nonneg_or_null (dp_playbook_step_index p))
    then raise (OutcomeValidationError "playbook_step_index must be >= 0")
    else
      let* metadata := of_outcome (redact_soar_outcome_metadata (dp_safe_metadata p)) in
      let* host := of_outcome (to_inet (dp_source_ip p)) in
      if negb (opt_varchar 64 (dp_playbook_id p))
      then raise (DatabaseError "value too long for type character varying(64)")
      else
        let d := DecisionRow correlation parent (dp_alert_id p) (dp_incident_id p) host
          (strip (dp_selected_action p)) source reason (strip (dp_outcome_summary p))
          (dp_playbook_id p) (dp_playbook_execution_id p) (dp_playbook_step_index p) (dp_queue_id p)
          (dp_approval_request_id p) (dp_created_by p) metadata (sql_now clk) in
        let* i := insert_decision d in
        ret (i, d).

Definition insert_outcome_event (e : event_row) : M outcome_store Z :=
  fun s =>
    let s' := OutcomeStore (os_decisions s) (os_events s) (os_decision_seq s) (os_event_seq s + 1) in
    if negb (event_widths e)
    then (Raise (DatabaseError "value too long for type character varying"), s)
    else if negb (event_checks e) then (Raise (IntegrityError "soar_response_outcome_events_check"), s')
    else if match e_idempotency_key e with
            | Some k => match by_idempotency_key k s with Some _ => true | None => false end
            | None => false
            end
    then (Raise (IntegrityError "idx_soar_response_outcome_events_idempotency_key"), s')
    else (Ok (os_event_seq s),
          OutcomeStore (os_decisions s) (<[os_event_seq s := e]> (os_events s))
            (os_decision_seq s) (os_event_seq s + 1)).

(** The decision an event belongs to, by id or by correlation id. *)
Definition resolve_decision (p : event_params) : M outcome_store (Z * decision_row) :=
  match ep_decision_id p with
  | Some i =>
      let* s := get in
      match os_decisions s !! i with
      | Some d => ret (i, d)
      | None => raise (OutcomeValidationError ("decision_id " +:+ str_int i +:+ " not found"))
      end
  | None =>
      let* c := of_outcome (validate_soar_correlation_id (default EmptyString (ep_correlation_id p))) in
      let* s := get in
      match by_correlation c s with
      | Some x => ret x
      | None => raise (OutcomeValidationError ("no decision found for soar_correlation_id " +:+ c))
      end
  end.

(** The insert, once the key has been looked up. *)
Definition append_new_event (p : event_params) (decision : Z * decision_row)
    (mode state actor : string) (reason : option string) (event_type : string) (key : option string)
    : M outcome_store (Z * event_row) :=
  if negb (nonneg_or_null (ep_playbook_step_index p))
  then raise (OutcomeValidationError "playbook_step_index must be >= 0")
  else
    let '(decision_id, d) := decision in
    let* metadata := of_outcome (redact_soar_outcome_metadata (ep_metadata p)) in
    let* host := of_outcome (to_inet (or_else (ep_source_ip p) (d_source_ip d))) in
    let e := EventRow decision_id (d_correlation_id d) event_type
      (or_else (ep_alert_id p) (d_alert_id d)) (or_else (ep_incident_id p) (d_incident_id d)) host
      mode state (ep_external_executed p) (ep_tracking_recorded p) (ep_simulated p) actor reason
      (strip (ep_outcome_summary p)) (ep_queue_id p) (ep_playbook_execution_id p)
      (ep_playbook_step_index p) (ep_approval_request_id p) (ep_notification_id p)
      (ep_response_log_id p) (ep_provider p) (ep_adapter_name p) (ep_external_reference p) key
      metadata (default (sql_now clk) (ep_occurred_at p)) (sql_now clk) in
    let* i := insert_outcome_event e in
    ret (i, e).

Definition append_outcome_event (p : event_params) : M outcome_store (Z * event_row) :=
  if bool_decide (ep_decision_id p = None) && blank (ep_correlation_id p)
  then raise (OutcomeValidationError "decision_id or soar_correlation_id is required")
  else if is_empty (ep_outcome_summary p) || is_empty (strip (ep_outcome_summary p))
  then raise (OutcomeValidationError "outcome_summary is required")
  else
    let* mode := of_outcome (validate_execution_mode (ep_mode p)) in
    let* state := of_outcome (validate_execution_state (ep_state p)) in
    let* actor := of_outcome (validate_execution_actor (ep_actor p)) in
    let* reason := of_outcome (validate_reason_code (ep_reason_code p)) in
    of_outcome (validate_outcome_booleans mode state (ep_external_executed p)
                  (ep_tracking_recorded p) (ep_simulated p)) ;;;
    let* decision := resolve_decision p in
    let event_type := strip (if blank (ep_event_type p) then state
                             else default EmptyString (ep_event_type p)) in
    if is_empty event_type then raise (OutcomeValidationError "event_type is required")
    else if blank (ep_idempotency_key p)
    then append_new_event p decision mode state actor reason event_type (ep_idempotency_key p)
    else
      let key := strip (default EmptyString (ep_idempotency_key p)) in
      if is_empty key then raise (OutcomeValidationError "idempotency_key must not be blank")
      else
        let* s := get in
        match by_idempotency_key key s with
        | Some existing => ret existing
        | None => append_new_event p decision mode state actor reason event_type (Some key)
        end.
End Writers.

(** ** Validators and constraints *)

Lemma str_in_strip_nonempty s l :
  str_in (strip s) l = true -> negb (str_in "" l) = true -> is_empty (strip s) = false.
Proof. intros Hin Hl. destruct (strip s); [|done]. by rewrite Hin in Hl. Qed.

Lemma validate_member_Ok w l v r : validate_member w l v = Ok r -> r = strip v /\ str_in r l = true.
Proof. unfold validate_member. destruct (str_in _ _) eqn:E; intros; simplify_eq. by split. Qed.

Lemma validate_reason_code_Ok v r : validate_reason_code v = Ok r -> null_or_in r REASON_CODES = true.
Proof. unfold validate_reason_code. intros. repeat case_match; by simplify_eq/=. Qed.

Lemma validate_correlation_Ok v r :
  validate_soar_correlation_id v = Ok r -> r = strip v /\ is_empty r = false.
Proof. unfold validate_soar_correlation_id. intros. repeat case_match; by simplify_eq. Qed.

Lemma generate_correlation_Ok a h r :
  generate_soar_correlation_id a h = Ok r -> r = strip r /\ is_empty r = false.
Proof.
  unfold generate_soar_correlation_id. intros [-> ?]%validate_correlation_Ok.
  by rewrite strip_idemp.
Qed.

Lemma validated_flag_checks mode state external tracking simulated :
  validate_outcome_booleans mode state external tracking simulated = Ok tt ->
  event_flag_checks mode state external tracking simulated = true.
Proof.
  unfold validate_outcome_booleans, event_flag_checks, invalid.
  destruct (String.eqb_spec mode "observed") as [->|]; [by destruct external, tracking, simulated|].
  destruct (String.eqb mode "simulation"), (String.eqb mode "real"), (String.eqb mode "tracking_only"),
    (String.eqb mode "internal"), (String.eqb mode "read_only"), (String.eqb state "succeeded"),
    external, tracking, simulated; simpl; by intros.
Qed.

Lemma flag_checks_validated mode state external tracking simulated :
  event_flag_checks mode state external tracking simulated = true ->
  validate_outcome_booleans mode state external tracking simulated = Ok tt.
Proof.
  unfold validate_outcome_booleans, event_flag_checks, invalid.
  destruct (String.eqb_spec mode "observed") as [->|]; [by destruct external, tracking, simulated|].
  destruct (String.eqb_spec mode "real") as [->|];
    [by destruct external, tracking, simulated, (String.eqb state "succeeded")|].
  destruct (String.eqb_spec mode "tracking_only") as [->|];
    [by destruct external, tracking, simulated, (String.eqb state "succeeded")|].
  destruct (String.eqb mode "simulation"), (String.eqb mode "internal"), (String.eqb mode "read_only"),
    external, tracking, simulated; simpl; by intros.
Qed.

(** ** Redaction *)

(** No denied key and no URL, at any depth. *)
Fixpoint metadata_clean (v : pyval) : bool :=
  match v with
  | PStr s => negb (has_url s)
  | PDict d => forallb (fun kv => negb (unsafe_metadata_key kv.1) && metadata_clean kv.2) d
  | PList l => forallb metadata_clean l
  | _ => true
  end.

Lemma sanitize_clean v : metadata_clean (sanitize_scalar v) = true.
Proof.
  induction v using pyval_nested_ind; simpl; try done.
  - destruct (has_url s) eqn:E; simpl; [by vm_compute|by rewrite E].
  - rewrite forallb_forall. intros v Hin%in_map_iff. destruct Hin as (u & <- & Hu).
    rewrite list.Forall_forall in H. apply H. by apply list_elem_of_In.
  - rewrite forallb_forall. intros [k v] Hin%in_flat_map. destruct Hin as ([k' u] & Hu & Hin).
    rewrite list.Forall_forall in H. simpl in Hin.
    destruct (unsafe_metadata_key k') eqn:E; [done|]. destruct Hin as [[= <- <-]|[]]. simpl.
    rewrite E. simpl. apply (H (k', u)). by apply list_elem_of_In.
Qed.

Lemma sanitize_id v : metadata_clean v = true -> sanitize_scalar v = v.
Proof.
  induction v using pyval_nested_ind; simpl; try done.
  - by intros ->%negb_true_iff.
  - intros Hc. f_equal. induction H as [|v l Hv _ IH]; [done|]. simpl in *.
    apply andb_true_iff in Hc as [Hc Hc']. by rewrite Hv, IH.
  - intros Hc. f_equal. induction H as [|[k v] d Hv _ IH]; [done|]. simpl in *.
    rewrite !andb_true_iff, negb_true_iff in Hc. destruct Hc as [[-> Hc] Hc']. simpl. by rewrite Hv, IH.
Qed.

(** ** The store's invariant *)

Record outcome_ok (s : outcome_store) : Prop := {
  ok_decisions : forall i d, os_decisions s !! i = Some d ->
    i < os_decision_seq s /\ decision_checks d = true;
  ok_correlation : forall i j d d', os_decisions s !! i = Some d -> os_decisions s !! j = Some d' ->
    d_correlation_id d = d_correlation_id d' -> i = j;
  ok_events : forall i e, os_events s !! i = Some e ->
    i < os_event_seq s /\ event_checks e = true /\
    exists d, os_decisions s !! e_decision_id e = Some d /\ d_correlation_id d = e_correlation_id e;
  ok_event_keys : forall i j e e' k, os_events s !! i = Some e -> os_events s !! j = Some e' ->
    e_idempotency_key e = Some k -> e_idempotency_key e' = Some k -> i = j;
}.

Lemma by_key_None k s :
  by_idempotency_key k s = None <->
  forall i e, os_events s !! i = Some e -> e_idempotency_key e <> Some k.
Proof.
  unfold by_idempotency_key. rewrite select_one_None. split; intros H i e Hi; specialize (H i e Hi).
  - intros Hk. rewrite Hk, String.eqb_refl in H. done.
  - destruct (e_idempotency_key e) as [k'|]; [|done]. apply String.eqb_neq. congruence.
Qed.

Lemma by_key_Some k s i e :
  by_idempotency_key k s = Some (i, e) -> os_events s !! i = Some e /\ e_idempotency_key e = Some k.
Proof.
  unfold by_idempotency_key. intros (Hi & Hp & _)%select_one_Some. split; [done|].
  destruct (e_idempotency_key e); [|done]. by apply String.eqb_eq in Hp as ->.
Qed.

(** The key finds its event when keys are unique. *)
Lemma by_key_hit k s i e :
  outcome_ok s -> os_events s !! i = Some e -> e_idempotency_key e = Some k ->
  by_idempotency_key k s = Some (i, e).
Proof.
  intros Hok Hi Hk. destruct (by_idempotency_key k s) as [[j e']|] eqn:E.
  - apply by_key_Some in E as [Hj Hk']. assert (j = i) as -> by eauto using ok_event_keys. congruence.
  - by eapply by_key_None in E.
Qed.

(** What one writer call may do to the tables. *)
Inductive outcome_step (s : outcome_store) : outcome_store -> Prop :=
  | step_decision d :
      decision_checks d = true ->
      (forall i d', os_decisions s !! i = Some d' -> d_correlation_id d' <> d_correlation_id d) ->
      outcome_step s (OutcomeStore (<[os_decision_seq s := d]> (os_decisions s)) (os_events s)
                        (os_decision_seq s + 1) (os_event_seq s))
  | step_event e d :
      event_checks e = true ->
      os_decisions s !! e_decision_id e = Some d -> d_correlation_id d = e_correlation_id e ->
      (forall k, e_idempotency_key e = Some k -> by_idempotency_key k s = None) ->
      outcome_step s (OutcomeStore (os_decisions s) (<[os_event_seq s := e]> (os_events s))
                        (os_decision_seq s) (os_event_seq s + 1))
  | step_burn n m :
      0 <= n -> 0 <= m ->
      outcome_step s (OutcomeStore (os_decisions s) (os_events s) (os_decision_seq s + n) (os_event_seq s + m)).

Lemma outcome_fresh_event s : outcome_ok s -> os_events s !! os_event_seq s = None.
Proof.
  intros Hok. destruct (_ !! _) eqn:E; [|done]. apply (ok_events s Hok) in E as [? _]. lia.
Qed.
Lemma outcome_fresh_decision s : outcome_ok s -> os_decisions s !! os_decision_seq s = None.
Proof.
  intros Hok. destruct (_ !! _) eqn:E; [|done]. apply (ok_decisions s Hok) in E as [? _]. lia.
Qed.
#[export] Hint Resolve outcome_fresh_event outcome_fresh_decision : soar.

Lemma outcome_step_grows s s' :
  outcome_step s s' -> outcome_ok s ->
  os_decisions s ⊆ os_decisions s' /\ os_events s ⊆ os_events s'.
Proof.
  intros [] Hok; simpl; split; try done; apply insert_subseteq; eauto with soar.
Qed.

Lemma outcome_step_ok s s' : outcome_step s s' -> outcome_ok s -> outcome_ok s'.
Proof.
  intros Hs Hok. destruct Hs as [d Hc Hnew|e d Hc Hd Hcorr Hkey|n m Hn Hm]; split; cbn.
  all: try (destruct Hok; by eauto).
  - intros i d' Hi. destruct (decide (os_decision_seq s = i)) as [<-|Hne].
    + rewrite lookup_insert_eq in Hi. simplify_eq. split; [lia|done].
    + rewrite lookup_insert_ne in Hi by done. apply (ok_decisions s Hok) in Hi as [? ?]. split; [lia|done].
  - intros i j d1 d2. rewrite !lookup_insert. repeat case_decide; intros; simplify_eq; try done.
    + by edestruct Hnew.
    + by edestruct Hnew.
    + eauto using ok_correlation.
  - intros i e Hi. destruct (ok_events s Hok i e Hi) as (? & ? & d' & Hd' & Hcorr). split_and!; try done.
    exists d'. split; [|done]. rewrite lookup_insert_ne; [done|].
    intros Heq. rewrite <- Heq, outcome_fresh_decision in Hd' by done. done.
  - intros i e' Hi. destruct (decide (os_event_seq s = i)) as [<-|Hne].
    + rewrite lookup_insert_eq in Hi. simplify_eq. split_and!; [lia|done|eauto].
    + rewrite lookup_insert_ne in Hi by done. apply (ok_events s Hok) in Hi as (? & ? & ?).
      split_and!; [lia|done|done].
  - intros i j e1 e2 k. rewrite !lookup_insert.
    repeat case_decide; intros Hi Hj Hk1 Hk2; simplify_eq; try done.
    + apply Hkey in Hk1. by eapply by_key_None in Hk1.
    + apply Hkey in Hk2. by eapply by_key_None in Hk2.
    + eauto using ok_event_keys.
  - intros i d Hi. destruct (ok_decisions s Hok i d Hi). split; [lia|done].
  - intros i e Hi. destruct (ok_events s Hok i e Hi) as (? & ? & ?). split_and!; [lia|done|done].
Qed.

(** ** The writers take steps *)

(** Peel one [let*] of a validator off a run. *)
Ltac peel H :=
  match type of H with
  | bind (of_outcome ?m) _ _ = _ =>
      let E := fresh "E" in
      unfold bind at 1 in H; unfold of_outcome at 1 in H; destruct m as [?|?] eqn:E;
        [cbn beta iota in H | injection H as <- <-]
  end.

Section WriterSteps.
Context (inet : string -> option string) (clk : clock).

Lemma insert_decision_steps d s o s' :
  insert_decision d s = (o, s') -> rtc outcome_step s s'.
Proof.
  unfold insert_decision. destruct (decision_checks d) eqn:Hc; cbn [negb].
  - destruct (existsb _ _) eqn:He; intros [= <- <-]; apply rtc_once.
    + pose proof (step_burn s 1 0) as Hs. rewrite Z.add_0_r in Hs. apply Hs; lia.
    + apply step_decision; [done|]. intros i d' Hi Heq.
      apply not_true_iff_false in He. apply He, existsb_exists. exists (i, d').
      by rewrite String.eqb_eq, <- list_elem_of_In, elem_of_map_to_list.
  - intros [= <- <-]. apply rtc_once. pose proof (step_burn s 1 0) as Hs.
    rewrite Z.add_0_r in Hs. apply Hs; lia.
Qed.

Lemma create_response_decision_steps uuid p s o s' :
  create_response_decision inet clk uuid p s = (o, s') -> rtc outcome_step s s'.
Proof.
  unfold create_response_decision. intros H.
  destruct (is_empty (dp_selected_action p) || _); [by injection H as <- <-|].
  destruct (is_empty (dp_outcome_summary p) || _); [by injection H as <- <-|].
  do 4 (peel H; [|apply rtc_refl]).
  destruct (negb (nonneg_or_null _)); [by injection H as <- <-|].
  do 2 (peel H; [|apply rtc_refl]).
  destruct (negb (opt_varchar 64 _)); [by injection H as <- <-|].
  unfold bind in H. destruct (insert_decision _ s) as [[i|e] s1] eqn:Ei;
    injection H as <- <-; by eapply insert_decision_steps.
Qed.

(** What a call that inserted an event established. *)
Lemma insert_outcome_event_cases e d s o s' :
  outcome_ok s -> event_checks e = true ->
  os_decisions s !! e_decision_id e = Some d -> d_correlation_id d = e_correlation_id e ->
  insert_outcome_event e s = (o, s') ->
  (o = Ok (os_event_seq s) /\ outcome_step s s' /\ os_events s' = <[os_event_seq s := e]> (os_events s)) \/
  (os_events s' = os_events s /\ rtc outcome_step s s' /\
   exists x, o = Raise x /\ (x = DatabaseError "value too long for type character varying" \/
     exists k, e_idempotency_key e = Some k /\ by_idempotency_key k s <> None)).
Proof.
  intros Hok Hc Hd Hcorr. unfold insert_outcome_event.
  destruct (event_widths e) eqn:Hw; cbn [negb].
  2: { intros [= <- <-]. right. split_and!; [done|apply rtc_refl|eauto]. }
  rewrite Hc. cbn [negb].
  destruct (match e_idempotency_key e with Some _ => _ | None => false end) eqn:Hk; intros [= <- <-].
  - right. split_and!; [done| |].
    + apply rtc_once. pose proof (step_burn s 0 1) as Hs. rewrite Z.add_0_r in Hs. apply Hs; lia.
    + eexists. split; [done|]. right. destruct (e_idempotency_key e) as [k|]; [|done].
      exists k. split; [done|]. by destruct (by_idempotency_key k s).
  - left. split_and!; [done| |done]. eapply step_event; eauto. intros k Hk'. rewrite Hk' in Hk.
    by destruct (by_idempotency_key k s).
Qed.

Lemma resolve_decision_cases p s o s' :
  resolve_decision p s = (o, s') ->
  s' = s /\ match o with
            | Ok (i, d) => os_decisions s !! i = Some d
            | Raise (OutcomeValidationError _) => True
            | Raise _ => False
            end.
Proof.
  unfold resolve_decision. destruct (ep_decision_id p) as [i|].
  - unfold bind, get. destruct (os_decisions s !! i) eqn:E; by intros [= <- <-].
  - intros H. unfold bind at 1, of_outcome in H.
    destruct (validate_soar_correlation_id _) eqn:E.
    + unfold bind, get in H. destruct (by_correlation a s) as [[i d]|] eqn:Eb; injection H as <- <-; [|done].
      unfold by_correlation in Eb. by apply select_one_Some in Eb as [? _].
    + injection H as <- <-. split; [done|]. unfold validate_soar_correlation_id, invalid in E.
      repeat case_match; by simplify_eq.
Qed.
End WriterSteps.

Section AppendSteps.
Context (inet : string -> option string) (clk : clock).

Definition is_integrity (x : exn) : bool := match x with IntegrityError _ => true | _ => false end.

(** The three ways an append ends. *)
Inductive append_result (p : event_params) (s : outcome_store)
    : outcome (Z * event_row) -> outcome_store -> Prop :=
  | append_existing k i e :
      blank (ep_idempotency_key p) = false -> k = strip (default EmptyString (ep_idempotency_key p)) ->
      by_idempotency_key k s = Some (i, e) -> append_result p s (Ok (i, e)) s
  | append_inserted e s' :
      outcome_step s s' -> os_events s' = <[os_event_seq s := e]> (os_events s) ->
      e_idempotency_key e = (if blank (ep_idempotency_key p) then ep_idempotency_key p
                             else Some (strip (default EmptyString (ep_idempotency_key p)))) ->
      append_result p s (Ok (os_event_seq s, e)) s'
  | append_rejected x s' :
      rtc outcome_step s s' -> os_events s' = os_events s ->
      (is_integrity x = true -> ep_idempotency_key p = Some EmptyString) ->
      append_result p s (Raise x) s'.

Lemma append_rejected_here p s x : is_integrity x = false -> append_result p s (Raise x) s.
Proof. intros Hx. apply append_rejected; [apply rtc_refl|done|by rewrite Hx]. Qed.

Lemma validate_member_Raise w l v x : validate_member w l v = Raise x -> is_integrity x = false.
Proof. unfold validate_member, invalid. case_match; by intros; simplify_eq. Qed.

Lemma append_new_event_result p i d mode state actor reason event_type key s o s' :
  outcome_ok s -> os_decisions s !! i = Some d ->
  str_in mode EXECUTION_MODES = true -> str_in state EXECUTION_STATES = true ->
  str_in actor EXECUTION_ACTORS = true -> null_or_in reason REASON_CODES = true ->
  event_flag_checks mode state (ep_external_executed p) (ep_tracking_recorded p) (ep_simulated p) = true ->
  sql_blank event_type = false -> is_empty (strip (ep_outcome_summary p)) = false ->
  key = (if blank (ep_idempotency_key p) then ep_idempotency_key p
         else Some (strip (default EmptyString (ep_idempotency_key p)))) ->
  (blank (ep_idempotency_key p) = false -> forall k, key = Some k -> by_idempotency_key k s = None) ->
  append_new_event inet clk p (i, d) mode state actor reason event_type key s = (o, s') ->
  append_result p s o s'.
Proof.
  intros Hok Hd Hmode Hstate Hactor Hreason Hflags Htype Hsum Hkey Hfresh. unfold append_new_event.
  destruct (nonneg_or_null (ep_playbook_step_index p)) eqn:Hstep; cbn [negb].
  2: { intros [= <- <-]. by apply append_rejected_here. }
  intros H. peel H.
  2: { apply append_rejected_here. unfold redact_soar_outcome_metadata in *.
       repeat case_match; by simplify_eq. }
  peel H.
  2: { apply append_rejected_here. unfold to_inet in *. repeat case_match; by simplify_eq. }
  unfold bind at 1 in H. destruct (insert_outcome_event _ s) as [o1 s1] eqn:Ei.
  apply insert_outcome_event_cases with (d := d) in Ei; [|done| |done|done].
  - destruct Ei as [(-> & Hs & Hev)|(Hev & Hs & x & -> & Hx)]; injection H as <- <-.
    + by eapply append_inserted.
    + apply append_rejected; [done|done|]. intros Hint. destruct Hx as [->|(k & Hk & Hn)]; [done|].
      cbn in Hk. destruct (blank (ep_idempotency_key p)) eqn:Hb.
      * destruct (ep_idempotency_key p) as [[|]|]; done || congruence.
      * destruct Hn. by apply Hfresh.
  - unfold event_checks. cbn. destruct (ok_decisions s Hok i d Hd) as [_ Hdc].
    unfold decision_checks in Hdc. rewrite !andb_true_iff in *.
    destruct Hdc as [[[[? _] _] _] _].
    split_and!; try done; [by rewrite Htype|by rewrite strip_sql_blank].
Qed.

Lemma append_outcome_event_result p s o s' :
  outcome_ok s -> append_outcome_event inet clk p s = (o, s') -> append_result p s o s'.
Proof.
  intros Hok. unfold append_outcome_event.
  destruct (bool_decide _ && _); [intros [= <- <-]; by apply append_rejected_here|].
  destruct (is_empty (ep_outcome_summary p) || is_empty (strip _)) eqn:Hsum;
    [intros [= <- <-]; by apply append_rejected_here|].
  apply orb_false_iff in Hsum as [_ Hsum]. intros H.
  do 3 (peel H; [|by eapply append_rejected_here, validate_member_Raise]).
  apply validate_member_Ok in E as [_ E], E0 as [_ E0], E1 as [_ E1].
  peel H; [|apply append_rejected_here; unfold validate_reason_code, invalid in *;
    repeat case_match; by simplify_eq].
  apply validate_reason_code_Ok in E2.
  peel H; [|apply append_rejected_here; unfold validate_outcome_booleans, invalid in *;
    repeat case_match; by simplify_eq].
  destruct a3. apply validated_flag_checks in E3.
  unfold bind at 1 in H. destruct (resolve_decision p s) as [o1 s1] eqn:Er.
  apply resolve_decision_cases in Er as [-> Hd].
  destruct o1 as [[i d]|x]; [|injection H as <- <-; apply append_rejected_here; by destruct x].
  match type of H with context [is_empty (strip ?x)] => set (et := strip x) in * end.
  destruct (is_empty et) eqn:Het; [injection H as <- <-; by apply append_rejected_here|].
  apply strip_sql_blank in Het. fold et in Het.
  destruct (blank (ep_idempotency_key p)) eqn:Hb.
  { eapply append_new_event_result; eauto; rewrite Hb; done. }
  destruct (is_empty (strip (default _ _))) eqn:Hk; [injection H as <- <-; by apply append_rejected_here|].
  unfold bind, get in H. destruct (by_idempotency_key _ s) as [[j e]|] eqn:Ek.
  - injection H as <- <-. by eapply append_existing.
  - eapply append_new_event_result; [..|exact H]; try done; rewrite Hb; [done|]. by intros _ k [= <-].
Qed.

Lemma append_outcome_event_steps p s o s' :
  outcome_ok s -> append_outcome_event inet clk p s = (o, s') -> rtc outcome_step s s'.
Proof.
  intros Hok H. apply append_outcome_event_result in H; [|done].
  destruct H; [apply rtc_refl|by apply rtc_once|done].
Qed.
End AppendSteps.

(** ** Programs over the store *)

Inductive outcome_op :=
  | OpDecide (uuid_hex : string) (p : decision_params)
  | OpAppend (p : event_params).

Section Programs.
Context (inet : string -> option string).

Definition run_outcome_op (s : outcome_store) (c : clock * outcome_op) : outcome_store :=
  match c.2 with
  | OpDecide uuid p => (create_response_decision inet c.1 uuid p s).2
  | OpAppend p => (append_outcome_event inet c.1 p s).2
  end.

Definition run_outcome_ops (l : list (clock * outcome_op)) (s : outcome_store) : outcome_store :=
  fold_left run_outcome_op l s.

Lemma outcome_steps_ok s s' : rtc outcome_step s s' -> outcome_ok s -> outcome_ok s'.
Proof. induction 1; eauto using outcome_step_ok. Qed.

Lemma outcome_steps_seq s s' :
  rtc outcome_step s s' -> os_decision_seq s <= os_decision_seq s' /\ os_event_seq s <= os_event_seq s'.
Proof. induction 1 as [|s s1 s2 Hs _ IH]; [lia|]. destruct Hs; cbn in *; lia. Qed.

Lemma outcome_steps_grow s s' :
  rtc outcome_step s s' -> outcome_ok s ->
  os_decisions s ⊆ os_decisions s' /\ os_events s ⊆ os_events s'.
Proof.
  induction 1 as [s|s s1 s2 Hs _ IH]; [done|]. intros Hok.
  destruct (outcome_step_grows _ _ Hs Hok) as [H1 H2].
  destruct (IH (outcome_step_ok _ _ Hs Hok)) as [H3 H4]. split; by etrans.
Qed.

Lemma run_outcome_op_steps s c : outcome_ok s -> rtc outcome_step s (run_outcome_op s c).
Proof.
  intros Hok. destruct c as [clk [uuid p|p]]; unfold run_outcome_op; cbn [fst snd].
  - destruct (create_response_decision _ _ _ _ _) eqn:E. by eapply create_response_decision_steps.
  - destruct (append_outcome_event _ _ _ _) eqn:E. by eapply append_outcome_event_steps.
Qed.

Lemma run_outcome_ops_steps l s : outcome_ok s -> rtc outcome_step s (run_outcome_ops l s).
Proof.
  revert s. induction l as [|c l IH]; intros s Hok; [apply rtc_refl|].
  etrans; [by apply run_outcome_op_steps|]. apply IH.
  eapply outcome_steps_ok; [by apply run_outcome_op_steps|done].
Qed.
End Programs.

Definition empty_outcomes : outcome_store := OutcomeStore ∅ ∅ 1 1.

Lemma empty_outcomes_ok : outcome_ok empty_outcomes.
Proof. by split. Qed.

(** ** Properties *)

(** The Python validator of the outcome flags accepts exactly what the
    CHECK constraints of the event table accept, for every mode, state and
    combination of flags, so the two layers cannot disagree. *)
Theorem booleans_match_schema mode state external tracking simulated :
  validate_outcome_booleans mode state external tracking simulated = Ok tt <->
  event_flag_checks mode state external tracking simulated = true.
Proof. split; [apply validated_flag_checks|apply flag_checks_validated]. Qed.

(** Labels tell the truth.  For every outcome the validators accept, the
    label is "Real executed" exactly when an external effect was carried
    out, and an outcome marked simulated or tracking-only is never labelled
    as executed. *)
Theorem label_truthful mode state external tracking simulated label :
  validate_outcome_booleans mode state external tracking simulated = Ok tt ->
  derive_outcome_label mode state external tracking simulated = Ok label ->
  (label = "Real executed" <-> external = true) /\
  (tracking = true -> label = "Tracking only") /\
  (simulated = true -> state = "succeeded" -> label = "Simulated").
Proof.
  intros Hv%validated_flag_checks. unfold derive_outcome_label.
  destruct (validate_execution_state state) as [st|] eqn:Hst; [|done].
  destruct (validate_execution_mode mode) as [md|] eqn:Hmd; [|done]. cbn [obind].
  apply validate_member_Ok in Hst as [Hst Hin]. apply validate_member_Ok in Hmd as [Hmd Hin'].
  unfold event_flag_checks in Hv. rewrite !andb_true_iff in Hv.
  destruct Hv as [[[[[[[H1 H2] H3] _] _] _] _] _].
  destruct external; simpl in H1.
  { apply andb_true_iff in H1 as [->%String.eqb_eq ->%String.eqb_eq].
    change (strip "real") with "real" in Hmd. change (strip "succeeded") with "succeeded" in Hst. subst.
    destruct simulated; [done|]. destruct tracking; [done|]. intros [= <-]. done. }
  destruct tracking; simpl in H2.
  { apply andb_true_iff in H2 as [->%String.eqb_eq ->%String.eqb_eq].
    change (strip "tracking_only") with "tracking_only" in Hmd.
    change (strip "succeeded") with "succeeded" in Hst. subst.
    destruct simulated; [done|]. intros [= <-]. done. }
  intros [= <-]. split_and!; [|done|].
  - rewrite andb_false_r. repeat case_match; split; done.
  - intros -> ->. simpl in H3. apply String.eqb_eq in H3 as ->.
    change (strip "simulation") with "simulation" in Hmd.
    change (strip "succeeded") with "succeeded" in Hst. by subst.
Qed.

(** Redaction is complete and precise: at every depth of the result no
    denied key and no string with a URL remains, redacting again changes
    nothing, and metadata that was clean is stored as it was. *)
Theorem redaction_complete (d : pydict) :
  metadata_clean (PDict (redact_items d)) = true /\
  redact_items (redact_items d) = redact_items d /\
  (metadata_clean (PDict d) = true -> redact_items d = d).
Proof.
  pose proof (sanitize_clean (PDict d)) as Hc.
  change (sanitize_scalar (PDict d)) with (PDict (redact_items d)) in Hc.
  assert (forall e, metadata_clean (PDict e) = true -> redact_items e = e) as Hid.
  { intros e He%sanitize_id. change (sanitize_scalar (PDict e)) with (PDict (redact_items e)) in He.
    congruence. }
  split_and!; auto.
Qed.

(** C36: The outcome log is append-only and well formed.  Whatever decisions
    and events are written, valid or not, from any well-formed store, no
    decision and no event is ever changed or removed, every event satisfies
    the schema's constraints and carries the correlation id of its decision,
    and correlation ids and idempotency keys stay unique. *)
Theorem outcome_log_append_only inet (l : list (clock * outcome_op)) s :
  outcome_ok s ->
  outcome_ok (run_outcome_ops inet l s) /\
  os_decisions s ⊆ os_decisions (run_outcome_ops inet l s) /\
  os_events s ⊆ os_events (run_outcome_ops inet l s).
Proof.
  intros Hok. pose proof (run_outcome_ops_steps inet l s Hok) as Hs. split.
  - by eapply outcome_steps_ok.
  - by eapply outcome_steps_grow.
Qed.

(** An append never trips a database constraint: whatever its arguments,
    the validators reject first, the one exception being an empty (not
    missing) idempotency key, which skips the lookup but is inserted. *)
Theorem append_never_violates_schema inet clk p s c s' :
  outcome_ok s -> append_outcome_event inet clk p s = (Raise (IntegrityError c), s') ->
  ep_idempotency_key p = Some EmptyString.
Proof.
  intros Hok H. apply append_outcome_event_result in H; [|done].
  inversion H as [| |x s1 _ _ Hx]; subst. by apply Hx.
Qed.

(** Appends are idempotent.  Once an event has been written under a key,
    every later append with that key, however different its other fields and
    whatever was written in between, adds nothing: it returns that event, or
    is rejected before the tables are touched. *)
Theorem append_idempotent inet clk clk' p p' s x s1 (l : list (clock * outcome_op)) :
  outcome_ok s -> append_outcome_event inet clk p s = (Ok x, s1) ->
  blank (ep_idempotency_key p) = false -> ep_idempotency_key p' = ep_idempotency_key p ->
  let s2 := run_outcome_ops inet l s1 in
  let '(o, s3) := append_outcome_event inet clk' p' s2 in
  os_events s3 = os_events s2 /\ (forall y, o = Ok y -> y = x).
Proof.
  intros Hok H Hb Hk s2. apply append_outcome_event_result in H as Hr; [|done].
  assert (rtc outcome_step s s1) as Hs by by eapply append_outcome_event_steps.
  assert (outcome_ok s1) as Hok1 by by eapply outcome_steps_ok.
  assert (outcome_ok s2) as Hok2.
  { eapply outcome_steps_ok; [by apply run_outcome_ops_steps|done]. }
  destruct (outcome_steps_grow s1 s2) as [_ Hev]; [by apply run_outcome_ops_steps|done|].
  set (k := strip (default EmptyString (ep_idempotency_key p))).
  assert (by_idempotency_key k s2 = Some x) as Hfound.
  { inversion Hr as [k' i e _ Hk' Hby| e s1' _ Hins Hkey|]; subst.
    - apply by_key_Some in Hby as [? ?]. apply by_key_hit; [done| |done]. by eapply lookup_weaken.
    - rewrite Hb in Hkey. apply by_key_hit; [done| |done].
      eapply lookup_weaken; [|exact Hev]. rewrite Hins. apply lookup_insert_eq. }
  destruct (append_outcome_event inet clk' p' s2) as [o s3] eqn:E.
  apply append_outcome_event_result in E; [|done].
  inversion E as [k' i e _ Hk' Hby|e s' Hstep Hins Hkey|y s' _ Hev3 _]; subst.
  - split; [done|]. rewrite Hk in Hby. fold k in Hby. intros y [= <-]. congruence.
  - exfalso. rewrite Hk, Hb in Hkey. fold k in Hkey.
    assert (outcome_ok s3) as Hok3 by by eapply outcome_step_ok.
    destruct x as [j ex]. apply by_key_Some in Hfound as [Hj Hkj].
    assert (os_event_seq s2 = j) as <-.
    { eapply (ok_event_keys s3 Hok3 _ _ e ex k); rewrite ?Hins; [apply lookup_insert_eq| |done|done].
      rewrite lookup_insert_ne; [done|]. apply (ok_events s2 Hok2) in Hj as [? _]. lia. }
    by rewrite outcome_fresh_event in Hj.
  - done.
Qed.

(** ** Witnesses *)

Definition ex_decision : decision_params :=
  DecisionParams "block_ip" "detection_default" "Blocking scheduled" (Some 12) None
    (Some "198.51.100.7") None (Some "soar-12-0a1b2c3d4e5f") None None None None None None None PNone.

Definition ex_event (key : option string) (state : string) (tracking : bool) : event_params :=
  EventParams "tracking_only" state "queue_worker" "Queue worker outcome" (Some 1) None None
    false tracking false (Some "tracking_only") None None None (Some 4) None None None None None
    None None None key (PDict [("webhook_url", PStr "https://hooks.example/x"); ("action", PStr "block_ip")])
    None.

Definition ex_any_inet (s : string) : option string := Some s.
Definition ex_tick (t : Z) : clock := Clock t t.

Definition ex_outcomes : outcome_store :=
  run_outcome_ops ex_any_inet [(ex_tick 0, OpDecide "0a1b2c3d4e5f" ex_decision)] empty_outcomes.

Lemma ex_outcomes_ok : outcome_ok ex_outcomes.
Proof. eapply outcome_steps_ok; [apply run_outcome_ops_steps|]; apply empty_outcomes_ok. Qed.

Lemma label_truthful_witness :
  exists label, derive_outcome_label "tracking_only" "succeeded" false true false = Ok label /\
    label = "Tracking only".
Proof.
  exists "Tracking only". split; [by vm_compute|].
  apply (label_truthful "tracking_only" "succeeded" false true false); [by vm_compute..|done].
Defined.

Lemma outcome_log_append_only_witness :
  exists e, os_events (run_outcome_ops ex_any_inet
      [(ex_tick 2, OpAppend (ex_event (Some "queue-failed-4-0") "failed" false))]
      (run_outcome_ops ex_any_inet
         [(ex_tick 1, OpAppend (ex_event (Some "queue-succeeded-4-0") "succeeded" true))] ex_outcomes))
    !! 1 = Some e /\ e_tracking_recorded e = true /\ e_metadata e = [("action", PStr "block_ip")].
Proof.
  pose (s1 := run_outcome_ops ex_any_inet
         [(ex_tick 1, OpAppend (ex_event (Some "queue-succeeded-4-0") "succeeded" true))] ex_outcomes).
  assert (outcome_ok s1) as Hok.
  { eapply outcome_steps_ok; [apply run_outcome_ops_steps|]; apply ex_outcomes_ok. }
  destruct (outcome_log_append_only ex_any_inet
    [(ex_tick 2, OpAppend (ex_event (Some "queue-failed-4-0") "failed" false))] s1 Hok) as (_ & _ & Hev).
  destruct (os_events s1 !! 1) as [e|] eqn:E; [|vm_compute in E; discriminate E].
  exists e. split; [exact (lookup_weaken _ _ _ _ E Hev)|]. clear Hev.
  vm_compute in E. injection E as <-. split; reflexivity.
Defined.

Lemma append_never_violates_schema_witness :
  exists c s', append_outcome_event ex_any_inet (ex_tick 2) (ex_event (Some "") "failed" false)
      (run_outcome_ops ex_any_inet [(ex_tick 1, OpAppend (ex_event (Some "") "succeeded" true))] ex_outcomes) =
    (Raise (IntegrityError c), s') /\ ep_idempotency_key (ex_event (Some "") "failed" false) = Some EmptyString.
Proof.
  destruct (append_outcome_event ex_any_inet (ex_tick 2) (ex_event (Some "") "failed" false)
      (run_outcome_ops ex_any_inet [(ex_tick 1, OpAppend (ex_event (Some "") "succeeded" true))] ex_outcomes))
    as [o s'] eqn:E.
  assert (o = Raise (IntegrityError "idx_soar_response_outcome_events_idempotency_key")) as ->.
  { vm_compute in E. injection E as <- <-. reflexivity. }
  do 2 eexists. split; [reflexivity|].
  eapply (append_never_violates_schema ex_any_inet (ex_tick 2)); [|exact E].
  eapply outcome_steps_ok; [apply run_outcome_ops_steps|]; apply ex_outcomes_ok.
Defined.

Lemma append_idempotent_witness :
  os_events (append_outcome_event ex_any_inet (ex_tick 9) (ex_event (Some "k") "failed" false)
    (append_outcome_event ex_any_inet (ex_tick 1) (ex_event (Some "k") "succeeded" true) ex_outcomes).2).2 =
  os_events (append_outcome_event ex_any_inet (ex_tick 1) (ex_event (Some "k") "succeeded" true) ex_outcomes).2.
Proof.
  destruct (append_outcome_event ex_any_inet (ex_tick 1) (ex_event (Some "k") "succeeded" true) ex_outcomes)
    as [o s1] eqn:E.
  destruct o as [x|]; [|vm_compute in E; discriminate E].
  pose proof (append_idempotent ex_any_inet (ex_tick 1) (ex_tick 9) (ex_event (Some "k") "succeeded" true)
    (ex_event (Some "k") "failed" false) ex_outcomes x s1 [] ex_outcomes_ok E eq_refl eq_refl) as H.
  cbn zeta in H. unfold run_outcome_ops in H. cbn [fold_left snd] in *.
  destruct (append_outcome_event ex_any_inet (ex_tick 9) (ex_event (Some "k") "failed" false) s1).
  exact (proj1 H).
Defined.
