(* ===== verification/Deliveries.v ===== *)
(** * Deliveries: core/notification_delivery_store.py

    The append-only record of notification attempts: the validated and
    redacted insert, and the filtered listing. *)

From S2P Require Import Prelude PyText PyFloat PyValue Tables Outcomes.

Open Scope Z_scope.

Definition VALID_MODES : list string := ["simulation"; "real"].
Definition VALID_DELIVERY_STATUSES : list string := ["pending"; "success"; "failed"; "timeout"; "blocked"].
Definition VALID_CIRCUIT_STATES : list string := ["closed"; "open"; "half_open"; "unknown"; "invalid"].

(** A row of notification_delivery_attempts, without its id. *)
Record delivery_row := Delivery {
  nd_correlation_id : string;
  nd_idempotency_key : string;
  nd_provider : string;
  nd_mode : string;
  nd_status : string;
  nd_execution_id : option Z;
  nd_step_index : option Z;
  nd_incident_id : option Z;
  nd_approval_request_id : option Z;
  nd_alert_id : option Z;
  nd_recon_activity_id : option Z;
  nd_adapter_name : string;
  nd_action : string;
  nd_requested_at : Z;
  nd_started_at : option Z;
  nd_completed_at : option Z;
  nd_created_at : Z;
  nd_failure_code : option string;
  nd_failure_message : option string;
  nd_timeout_seconds : option Z;
  nd_circuit_breaker_state : option string;
  nd_metadata : pydict;
}.

Record delivery_store := DeliveryStore { ds_rows : gmap Z delivery_row; ds_seq : Z }.

#[export, refine] Instance delivery_store_tx : Transactional delivery_store := {
  restore snap cur := DeliveryStore (ds_rows snap) (ds_seq cur);
}.
Proof. all: by intros []. Defined.

(** ** Redaction *)

(** The deny lists are those of the outcome metadata. *)
Definition redact_notification_delivery_metadata (metadata : pydict) : pydict := redact_items metadata.

Definition sanitize_failure_message (message : option string) : option string :=
  match message with
  | None => None
  | Some m =>
      let text := strip m in
      if is_empty text then None
      else let scrubbed := redact_urls "[REDACTED_URL]" false text in
           if is_empty scrubbed then None else Some scrubbed
  end.

(** ** Rows as dicts *)


(** [dt.isoformat()] of a TIMESTAMPTZ, read back in UTC. *)
Definition opt_iso (o : option Z) : pyval :=
  match o with Some t => PStr (isoformat "T" (utc_datetime t)) | None => PNone end.

Definition delivery_dict (x : Z * delivery_row) : pydict :=
  let r := x.2 in
  [("id", PInt x.1); ("correlation_id", PStr (nd_correlation_id r));
   ("idempotency_key", PStr (nd_idempotency_key r)); ("provider", PStr (nd_provider r));
   ("mode", PStr (nd_mode r)); ("status", PStr (nd_status r));
   ("playbook_execution_id", opt_int (nd_execution_id r));
   ("playbook_step_index", opt_int (nd_step_index r)); ("incident_id", opt_int (nd_incident_id r));
   ("approval_request_id", opt_int (nd_approval_request_id r)); ("alert_id", opt_int (nd_alert_id r));
   ("recon_activity_id", opt_int (nd_recon_activity_id r)); ("adapter_name", PStr (nd_adapter_name r));
   ("action", PStr (nd_action r)); ("requested_at", opt_iso (Some (nd_requested_at r)));
   ("started_at", opt_iso (nd_started_at r)); ("completed_at", opt_iso (nd_completed_at r));
   ("created_at", opt_iso (Some (nd_created_at r))); ("failure_code", opt_text (nd_failure_code r));
   ("failure_message", opt_text (nd_failure_message r)); ("timeout_seconds", opt_int (nd_timeout_seconds r));
   ("circuit_breaker_state", opt_text (nd_circuit_breaker_state r)); ("metadata", PDict (nd_metadata r))].

(** ** Operations *)

Record delivery_params := DeliveryParams {
  np_correlation_id : string;
  np_idempotency_key : string;
  np_provider : string;
  np_mode : string;
  np_status : string;
  np_adapter_name : string;
  np_action : string;
  np_metadata : pydict;
  np_execution_id : option Z;
  np_step_index : option Z;
  np_incident_id : option Z;
  np_approval_request_id : option Z;
  np_alert_id : option Z;
  np_recon_activity_id : option Z;
  np_requested_at : option Z;
  np_started_at : option Z;
  np_completed_at : option Z;
  np_failure_code : option string;
  np_failure_message : option string;
  np_timeout_seconds : option Z;
  np_circuit_breaker_state : option string;
}.

(** The VARCHAR and INTEGER columns of the row. *)
Definition delivery_widths (r : delivery_row) : bool :=
  varchar 128 (nd_correlation_id r) && varchar 128 (nd_idempotency_key r) && varchar 32 (nd_provider r) &&
  varchar 64 (nd_adapter_name r) && varchar 64 (nd_action r) && opt_varchar 64 (nd_failure_code r) &&
  match nd_timeout_seconds r with Some n => int4 n | None => true end &&
  match nd_step_index r with Some n => int4 n | None => true end.

Section Operations.
(** The rows the foreign keys of the table refer to. *)
Context (clk : clock) (nd_references_ok : delivery_row -> bool).

Definition missing (s : string) : bool := is_empty s || is_empty (strip s).

Definition new_delivery (p : delivery_params) : delivery_row :=
  Delivery (strip (np_correlation_id p)) (strip (np_idempotency_key p)) (strip (np_provider p)) (np_mode p)
    (np_status p) (np_execution_id p) (np_step_index p) (np_incident_id p) (np_approval_request_id p)
    (np_alert_id p) (np_recon_activity_id p) (strip (np_adapter_name p)) (strip (np_action p))
    (default (sql_now clk) (np_requested_at p)) (np_started_at p) (np_completed_at p) (sql_now clk)
    (np_failure_code p) (sanitize_failure_message (np_failure_message p)) (np_timeout_seconds p)
    (np_circuit_breaker_state p) (redact_notification_delivery_metadata (np_metadata p)).

Definition insert_delivery (r : delivery_row) : M delivery_store (Z * delivery_row) := fun s =>
  if negb (delivery_widths r) then (Raise (DatabaseError "value out of range"), s)
  else if negb (nd_references_ok r)
  then (Raise (IntegrityError "foreign key"), DeliveryStore (ds_rows s) (ds_seq s + 1))
  else (Ok (ds_seq s, r), DeliveryStore (<[ds_seq s := r]> (ds_rows s)) (ds_seq s + 1)).

Definition create_notification_delivery_attempt (p : delivery_params) : M delivery_store (Z * delivery_row) :=
  if missing (np_correlation_id p) then raise (ValueError "correlation_id is required")
  else if missing (np_idempotency_key p) then raise (ValueError "idempotency_key is required")
  else if missing (np_provider p) then raise (ValueError "provider is required")
  else if negb (str_in (np_mode p) VALID_MODES)
  then raise (ValueError ("mode must be one of " +:+ show_choices VALID_MODES))
  else if negb (str_in (np_status p) VALID_DELIVERY_STATUSES)
  then raise (ValueError ("status must be one of " +:+ show_choices VALID_DELIVERY_STATUSES))
  else if missing (np_adapter_name p) then raise (ValueError "adapter_name is required")
  else if missing (np_action p) then raise (ValueError "action is required")
  else if match np_circuit_breaker_state p with
          | Some c => negb (str_in c VALID_CIRCUIT_STATES)
          | None => false
          end
  then raise (ValueError ("circuit_breaker_state must be one of " +:+ show_choices VALID_CIRCUIT_STATES +:+
                          " or None"))
  else insert_delivery (new_delivery p).

Definition get_notification_delivery_attempt (i : Z) (s : delivery_store) : option (Z * delivery_row) :=
  (fun r => (i, r)) <$> ds_rows s !! i.

Record delivery_filter := DeliveryFilter {
  nf_provider : option string;
  nf_mode : option string;
  nf_status : option string;
  nf_correlation_id : option string;
  nf_idempotency_key : option string;
  nf_execution_id : option Z;
  nf_incident_id : option Z;
  nf_approval_request_id : option Z;
  nf_alert_id : option Z;
  nf_recon_activity_id : option Z;
  nf_adapter_name : option string;
  nf_action : option string;
}.


Definition delivery_newest (i : Z) (r : delivery_row) : list Z := [- i].

Definition delivery_matches (f : delivery_filter) (r : delivery_row) : bool :=
  opt_check (nf_provider f) (String.eqb (nd_provider r)) &&
  opt_check (nf_mode f) (String.eqb (nd_mode r)) &&
  opt_check (nf_status f) (String.eqb (nd_status r)) &&
  opt_check (nf_correlation_id f) (String.eqb (nd_correlation_id r)) &&
  opt_check (nf_idempotency_key f) (String.eqb (nd_idempotency_key r)) &&
  opt_check (nf_execution_id f) (sql_eq_Z (nd_execution_id r)) &&
  opt_check (nf_incident_id f) (sql_eq_Z (nd_incident_id r)) &&
  opt_check (nf_approval_request_id f) (sql_eq_Z (nd_approval_request_id r)) &&
  opt_check (nf_alert_id f) (sql_eq_Z (nd_alert_id r)) &&
  opt_check (nf_recon_activity_id f) (sql_eq_Z (nd_recon_activity_id r)) &&
  opt_check (nf_adapter_name f) (fun a => String.eqb (nd_adapter_name r) (strip a)) &&
  opt_check (nf_action f) (fun a => String.eqb (nd_action r) (strip a)).

Definition list_notification_delivery_attempts (f : delivery_filter) (limit offset : Z) (s : delivery_store)
    : outcome (list (Z * delivery_row)) :=
  if limit <? 1 then Raise (ValueError "limit must be >= 1")
  else if offset <? 0 then Raise (ValueError "offset must be >= 0")
  else if opt_check (nf_mode f) (fun m => str_in m VALID_MODES) then
    if opt_check (nf_status f) (fun m => str_in m VALID_DELIVERY_STATUSES) then
      if opt_check (nf_action f) (fun a => negb (is_empty (strip a))) then
        Ok (Tables.limit (Z.min limit 500) (drop (Z.to_nat offset)
              (select delivery_newest (fun _ => delivery_matches f) (ds_rows s))))
      else Raise (ValueError "action must be non-empty when provided")
    else Raise (ValueError ("status must be one of " +:+ show_choices VALID_DELIVERY_STATUSES))
  else Raise (ValueError ("mode must be one of " +:+ show_choices VALID_MODES)).
End Operations.

(** ** Lemmas *)

(** What an insert that returned has stored. *)
Lemma create_delivery_ok clk refs p s x s' :
  create_notification_delivery_attempt clk refs p s = (Ok x, s') ->
  x = (ds_seq s, new_delivery clk p) /\
  s' = DeliveryStore (<[ds_seq s := new_delivery clk p]> (ds_rows s)) (ds_seq s + 1) /\
  str_in (np_mode p) VALID_MODES = true /\ str_in (np_status p) VALID_DELIVERY_STATUSES = true.
Proof.
  intros Hc. assert (Hi : insert_delivery refs (new_delivery clk p) s = (Ok x, s') /\
      str_in (np_mode p) VALID_MODES = true /\ str_in (np_status p) VALID_DELIVERY_STATUSES = true).
  { unfold create_notification_delivery_attempt, raise in Hc.
    repeat case_match; try done; rewrite ?negb_false_iff in *; done. }
  destruct Hi as [Hi ?]. unfold insert_delivery in Hi. repeat case_match; simplify_eq; done.
Qed.

(** An insert changes no existing row, whether it returns or raises. *)
Lemma create_delivery_keeps clk refs p s i r :
  ds_rows s !! i = Some r -> i < ds_seq s ->
  ds_rows (create_notification_delivery_attempt clk refs p s).2 !! i = Some r.
Proof.
  intros Hi Hlt. unfold create_notification_delivery_attempt, insert_delivery, raise.
  repeat case_match; cbn; rewrite ?lookup_insert_ne by lia; done.
Qed.

(** Stored metadata carries no key of the deny lists and no URL. *)
Lemma stored_metadata_clean clk p k v :
  (k, v) ∈ nd_metadata (new_delivery clk p) -> unsafe_metadata_key k = false /\ metadata_clean v = true.
Proof.
  cbn. unfold redact_notification_delivery_metadata, redact_items.
  rewrite list_elem_of_In, in_flat_map. intros [[k' v'] [_ Hin]]. cbn in Hin.
  destruct (unsafe_metadata_key k') eqn:E; [done|].
  destruct Hin as [[= <- <-]|[]]. split; [done|apply sanitize_clean].
Qed.
