(* ===== verification/QueueWorker.v ===== *)
(** * QueueWorker: engines/soar_action_worker.py

    One worker processing the response-action queue over a database
    connection with its transaction boundary, with the log writer of
    engines/soar_log_writer.py.  The response command service is a class;
    other sessions act between the worker's two transactions. *)

From S2P Require Import Prelude Tables PyText PyValue IpAddress ProtectedTargets Interfaces Approvals ResponseQueue.
From S2P Require Import Outcomes.

(** * The pure helpers of engines/soar_action_worker.py

    Classification of queue outcomes, canonical reason codes, and the
    sanitised summary of an error. *)

Open Scope Z_scope.

Definition APPROVAL_REQUIRED_ACTIONS : list string := ["block_ip"].
Definition CANONICAL_QUEUE_ACTIONS : list string := ["block_ip"; "monitor"; "flag_high_priority"].
Definition INTERNAL_QUEUE_ACTIONS : list string := ["monitor"; "flag_high_priority"; "escalate"].
Definition APPROVAL_REASON_CODES : list string :=
  ["approval_required"; "approval_denied"; "approval_expired"].

Definition action_requires_approval (action : string) : bool := str_in action APPROVAL_REQUIRED_ACTIONS.

(** ** Classification *)

Record classification := Classification {
  cl_mode : string;
  cl_simulated : bool;
  cl_tracking : bool;
  cl_reason : option string;
}.

(** [str(x or "").strip() or None]. *)
Definition normalized (x : option string) : option string :=
  let s := strip (default EmptyString x) in if is_empty s then None else Some s.

Definition opt_in (x : option string) (l : list string) : bool :=
  match x with Some s => str_in s l | None => false end.

Definition queue_outcome_classification (action execution_state : string) (reason_code : option string)
    : classification :=
  let normalized_action := strip action in
  let normalized_reason := normalized reason_code in
  let succeeded := String.eqb execution_state "succeeded" in
  if opt_in normalized_reason APPROVAL_REASON_CODES
  then Classification "internal" false false normalized_reason
  else if String.eqb normalized_action "block_ip" then
    Classification "tracking_only" false succeeded
      (match normalized_reason with
       | None | Some "simulation_mode" => if succeeded then Some "tracking_only" else None
       | r => r
       end)
  else if str_in normalized_action INTERNAL_QUEUE_ACTIONS then
    Classification "internal" false false
      (match normalized_reason with Some "simulation_mode" => None | r => r end)
  else
    Classification "simulation" succeeded false
      (Some (default "simulation_mode" normalized_reason)).

Definition classify_queue_action_mode (action : string) (reason_code : option string) : string :=
  cl_mode (queue_outcome_classification action "succeeded" reason_code).

Definition canonical_worker_reason_code (code : string) : string :=
  if str_in code ["approval_required"; "approval_pending"] then "approval_required"
  else if String.eqb code "approval_denied" then "approval_denied"
  else if String.eqb code "approval_expired" then "approval_expired"
  else if String.eqb code "unsupported_action" then "unsupported_action"
  else if str_in code ["adapter_unavailable"; "adapter_timeout"; "timeout"; "retryable_error"]
  then "adapter_unavailable"
  else if str_in code ["protected_target"; "protected_target_config_invalid"; "policy_disabled";
                       "validation_missing_alert_id"; "validation_no_target"; "validation_null_source_ip";
                       "validation_invalid_ip_format"; "validation_private_ip"]
  then "policy_blocked"
  else if str_in code ["simulated_block_ip"; "simulated_flag_high_priority"; "simulated_monitor"]
  then "simulation_mode"
  else "provider_error".

(** ** Summaries *)

Definition is_newline (c : ascii) : bool := (N_of_ascii c =? 10)%N || (N_of_ascii c =? 13)%N.

Fixpoint newlines_to_spaces (s : string) : string :=
  match s with
  | EmptyString => EmptyString
  | String c s => String (if is_newline c then " "%char else c) (newlines_to_spaces s)
  end.

(** [s.replace("_", " ")]. *)
Fixpoint replace_underscores (s : string) : string :=
  match s with
  | EmptyString => EmptyString
  | String c s => String (if Ascii.eqb c "_" then " "%char else c) (replace_underscores s)
  end.

(** Length of [(token|secret|password|api[_-]?key)] when [=\S] follows it. *)
Definition secret_key_length (s : string) : option nat :=
  let l := lower s in
  let try_key k :=
    match drop_prefix (k +:+ "=") l with
    | Some t => if starts_nonspace t then Some (String.length k) else None
    | None => None
    end in
  fold_right (fun k acc => match try_key k with Some n => Some n | None => acc end) None
    ["token"; "secret"; "password"; "api_key"; "api-key"; "apikey"].

Fixpoint redact_secrets (skipping : bool) (s : string) : string :=
  match s with
  | EmptyString => EmptyString
  | String c s' =>
      if skipping then (if is_space c then String c (redact_secrets false s') else redact_secrets true s')
      else match secret_key_length s with
           | Some n => String.substring 0 n s +:+ "=[redacted]" +:+ redact_secrets true s'
           | None => String c (redact_secrets false s')
           end
  end.

Definition safe_outcome_summary (summary : string) : string :=
  let text := strip (newlines_to_spaces summary) in
  let text := redact_secrets false (redact_urls "[redacted-url]" false text) in
  let text := String.substring 0 500 text in
  if is_empty text then "SOAR queue worker outcome recorded." else text.

(** ** What the outcome writer accepts *)

Lemma normalized_in_codes r :
  null_or_in r REASON_CODES = true -> null_or_in (normalized r) REASON_CODES = true.
Proof.
  destruct r as [r|]; [|done]. simpl. unfold normalized. simpl. intros Hin.
  destruct (is_empty (strip r)) eqn:He; [done|]. simpl.
  apply str_in_spec in Hin. apply str_in_spec.
  repeat (apply elem_of_cons in Hin as [->|Hin]; [vm_compute; repeat (left || right)|]).
  by apply not_elem_of_nil in Hin.
Qed.

(** The worker never writes an outcome its own log would reject: for
    every action, every execution state and every reason code of the
    vocabulary, the classified mode, flags and reason pass the outcome
    validators, with [external_executed] false. *)
Theorem worker_classification_valid action state reason :
  null_or_in reason REASON_CODES = true ->
  let cl := queue_outcome_classification action state reason in
  str_in (cl_mode cl) EXECUTION_MODES = true /\
  validate_outcome_booleans (cl_mode cl) state false (cl_tracking cl) (cl_simulated cl) = Ok tt /\
  null_or_in (cl_reason cl) REASON_CODES = true.
Proof.
  intros Hr%normalized_in_codes. unfold queue_outcome_classification. cbn zeta.
  destruct (opt_in (normalized reason) APPROVAL_REASON_CODES) eqn:Ha; [by split_and!|].
  destruct (String.eqb (strip action) "block_ip"); cbn [cl_mode cl_tracking cl_simulated cl_reason].
  { unfold validate_outcome_booleans.
    destruct (String.eqb state "succeeded"); (split_and!; [done|done|]); by repeat case_match. }
  destruct (str_in (strip action) INTERNAL_QUEUE_ACTIONS); cbn [cl_mode cl_tracking cl_simulated cl_reason].
  { split_and!; [done|done|]. by repeat case_match. }
  split_and!; [done| |by destruct (normalized reason)].
  unfold validate_outcome_booleans. by destruct (String.eqb state "succeeded").
Qed.

(** Every error code, known or not, maps to a reason code of the outcome
    vocabulary. *)
Theorem worker_reason_code_closed code :
  str_in (canonical_worker_reason_code code) REASON_CODES = true.
Proof. unfold canonical_worker_reason_code. by repeat case_match. Qed.

Lemma worker_classification_valid_witness :
  null_or_in (cl_reason (queue_outcome_classification " block_ip" "succeeded" (Some "simulation_mode")))
    REASON_CODES = true.
Proof. apply (worker_classification_valid " block_ip" "succeeded" (Some "simulation_mode")). by vm_compute. Defined.

(** ** The response log *)

Record log_row := LogRow {
  l_alert_id : option Z;
  l_source_ip : option string;
  l_action : string;
  l_status : string;
  l_details : string;
  l_decision_id : option Z;
  l_correlation_id : option string;
  l_executed_at : Z;
}.

Record log_store := LogStore { ls_rows : gmap Z log_row; ls_seq : Z }.

#[export, refine] Instance log_store_tx : Transactional log_store := {
  restore snap cur := LogStore (ls_rows snap) (ls_seq cur);
}.
Proof. all: by intros []. Defined.

Definition log_response_action (clk : clock) (row : queue_row) (log_status details : string)
    (decision_id : option Z) (correlation : option string) : M log_store Z :=
  if negb (str_in log_status ["executed"; "skipped"; "failed"])
  then raise (ValueError ("Invalid response action log status: " +:+ log_status))
  else
    fun s =>
      let r := LogRow (q_alert_id row) (q_source_ip row) (q_action row) log_status details decision_id
                 (normalized correlation) (sql_now clk) in
      (Ok (ls_seq s), LogStore (<[ls_seq s := r]> (ls_rows s)) (ls_seq s + 1)).

(** ** The response command service, as the worker sees it

    It writes decisions and outcome events, the response log and the tables
    of type [O] (blocked addresses, the indicator registry, alerts,
    incidents); it does not touch the queue or the approvals. *)

Record command_request := CommandRequest {
  cr_action : string;
  cr_indicator_value : option string;
  cr_alert_id : option Z;
  cr_reason : string;
  cr_origin_surface : string;
  cr_queue_id : Z;
  cr_approval_request_id : option Z;
  cr_idempotency_key : string;
}.

Record command_result := CommandResult {
  res_success : bool;
  res_outcome_label : string;
  res_message : string;
  res_error : option string;
  res_error_code : option string;
  res_log_id : option Z;
}.

Class ResponseCommand (O : Type) := {
  command_tx :: Transactional O;
  execute_response_command : clock -> command_request -> M (O * outcome_store * log_store) command_result;
}.

(** ** The connection *)

Section Worker.
Context {X : Type} `{ResponseCommand X}.

Record worker_db := WorkerDb {
  w_queue : queue_store;
  w_approvals : approval_store;
  w_outcomes : outcome_store;
  w_log : log_store;
  w_other : X;
}.

Definition restore_db (snap cur : worker_db) : worker_db :=
  WorkerDb (restore (w_queue snap) (w_queue cur)) (restore (w_approvals snap) (w_approvals cur))
    (restore (w_outcomes snap) (w_outcomes cur)) (restore (w_log snap) (w_log cur))
    (restore (w_other snap) (w_other cur)).

(** [c_calls] records the commands executed, in order; it is not part of
    the database and no rollback removes an entry. *)
Record worker_conn := WorkerConn {
  c_committed : worker_db;
  c_current : worker_db;
  c_aborted : bool;
  c_calls : list command_request;
}.

Definition aborted_error : exn :=
  DatabaseError "current transaction is aborted, commands ignored until end of transaction block".

(** A statement: refused in an aborted transaction; a database error
    aborts it. *)
Definition stmt {A} (m : M worker_db A) : M worker_conn A :=
  fun c =>
    if c_aborted c then (Raise aborted_error, c)
    else match m (c_current c) with
         | (Ok a, d) => (Ok a, WorkerConn (c_committed c) d false (c_calls c))
         | (Raise e, d) => (Raise e, WorkerConn (c_committed c) d (is_db_error e) (c_calls c))
         end.

(** COMMIT: of an aborted transaction, a rollback. *)
Definition commit : M worker_conn unit :=
  fun c =>
    let d := if c_aborted c then restore_db (c_committed c) (c_current c) else c_current c in
    (Ok tt, WorkerConn d d false (c_calls c)).

Definition on_queue {A} (m : M queue_store A) : M worker_conn A :=
  stmt (zoom w_queue (fun q d => WorkerDb q (w_approvals d) (w_outcomes d) (w_log d) (w_other d)) m).
Definition on_approvals {A} (m : M approval_store A) : M worker_conn A :=
  stmt (zoom w_approvals (fun a d => WorkerDb (w_queue d) a (w_outcomes d) (w_log d) (w_other d)) m).
Definition on_log {A} (m : M log_store A) : M worker_conn A :=
  stmt (zoom w_log (fun l d => WorkerDb (w_queue d) (w_approvals d) (w_outcomes d) l (w_other d)) m).
Definition on_outcomes_db {A} (m : M outcome_store A) : M worker_db A :=
  zoom w_outcomes (fun o d => WorkerDb (w_queue d) (w_approvals d) o (w_log d) (w_other d)) m.

(** Queue operations that read the approvals of the same database. *)
Definition on_queue_with {A} (m : approval_store -> M queue_store A) : M worker_conn A :=
  stmt (fun d => zoom w_queue
          (fun q d => WorkerDb q (w_approvals d) (w_outcomes d) (w_log d) (w_other d))
          (m (w_approvals d)) d).

(** [_with_canonical_outcome_savepoint]: any failure of the writer is
    rolled back to the savepoint and swallowed. *)
Definition with_canonical_outcome_savepoint {A} (writer : M outcome_store A) : M worker_conn (option A) :=
  fun c =>
    if c_aborted c then (Ok None, c)
    else match on_outcomes_db writer (c_current c) with
         | (Ok a, d) => (Ok (Some a), WorkerConn (c_committed c) d false (c_calls c))
         | (Raise _, d) =>
             (Ok None, WorkerConn (c_committed c) (restore_db (c_current c) d) false (c_calls c))
         end.

(** The call of [execute_response_command]. *)
Definition run_command (clk : clock) (r : command_request) : M worker_conn command_result :=
  fun c =>
    stmt (fun d =>
            match execute_response_command clk r (w_other d, w_outcomes d, w_log d) with
            | (res, (o, oc, l)) => (res, WorkerDb (w_queue d) (w_approvals d) oc l o)
            end)
      (WorkerConn (c_committed c) (c_current c) (c_aborted c) (c_calls c ++ [r])).

(** ** One call of the worker *)

(** What a call meets: its parameters, the clock of each transaction, the
    rows locked by others at each SKIP LOCKED, and what other sessions
    commit between the first and the second transaction. *)
Record call_env := CallEnv {
  v_now : option Z;
  v_clock1 : clock;
  v_clock2 : clock;
  v_locked_claim : gset Z;
  v_locked_expire1 : gset Z;
  v_locked_approved : gset Z;
  v_locked_skip : gset Z;
  v_locked_expire2 : gset Z;
  v_others : worker_db -> worker_db;
  v_protected_ips : option string;
}.

Record worker_result := WorkerResult {
  wr_queue_id : Z;
  wr_action : string;
  wr_prior_status : queue_status;
  wr_new_status : queue_status;
  wr_outcome : string;
  wr_retryable : bool;
  wr_retry_count : Z;
  wr_max_retries : Z;
  wr_error_code : option string;
  wr_reason : option string;
  wr_message : string;
}.

Definition make_worker_result (original updated : Z * queue_row) (outcome : string) (retryable : bool)
    (code message : string) (reason : option string) : worker_result :=
  WorkerResult original.1 (q_action original.2) (q_status original.2) (q_status updated.2) outcome
    retryable (q_retry_count updated.2) (q_max_retries updated.2)
    (if String.eqb outcome "success" then None else Some code) reason message.

Section Call.
Context (inet : string -> option string).
Context (executor : Z * queue_row -> outcome pyval).
Context (env : call_env).

Let now := v_now env.
Let clk := v_clock2 env.

Definition linked (row : queue_row) : option (Z * string) :=
  match q_decision_id row, q_soar_correlation_id row with
  | Some d, Some c => if is_empty c then None else Some (d, c)
  | _, _ => None
  end.

(** The event an append of the worker writes. *)
Definition worker_event (decision : Z) (correlation event_type : string) (cl : classification)
    (state : string) (tracking : bool) (summary : string) (queue_id : Z) (approval log : option Z)
    (key : string) (metadata : pydict) : event_params :=
  EventParams (cl_mode cl) state "queue_worker" summary (Some decision) (Some correlation)
    (Some event_type) false tracking (cl_simulated cl) (cl_reason cl) None None None (Some queue_id)
    None None approval None log None None None (Some key) (PDict metadata) None.

Definition append_running_outcome_event (k : clock) (row : Z * queue_row)
    : M worker_conn (option (Z * event_row)) :=
  match linked row.2 with
  | None => ret None
  | Some (decision, correlation) =>
      let cl := queue_outcome_classification (q_action row.2) "running" None in
      let summary :=
        if String.eqb (cl_mode cl) "simulation"
        then "Queue worker claimed response action " +:+ q_action row.2 +:+ " for simulation."
        else "Queue worker claimed response action " +:+ q_action row.2 +:+ " for " +:+
             replace_underscores (cl_mode cl) +:+ " processing." in
      with_canonical_outcome_savepoint
        (append_outcome_event inet k
           (worker_event decision correlation "running" cl "running" false summary row.1 None None
              ("queue-running-" +:+ str_int row.1 +:+ "-" +:+ str_int (q_retry_count row.2))
              [("queue_id", PInt row.1); ("retry_count", PInt (q_retry_count row.2));
               ("action", PStr (q_action row.2))]))
  end.

Definition append_worker_outcome_event (k : clock) (row : Z * queue_row)
    (execution_state : string) (reason_code : option string) (summary event_type : string)
    (log approval : option Z) (error_code : option string) : M worker_conn (option (Z * event_row)) :=
  match linked row.2 with
  | None => ret None
  | Some (decision, correlation) =>
      let cl := queue_outcome_classification (q_action row.2) execution_state reason_code in
      with_canonical_outcome_savepoint
        (append_outcome_event inet k
           (worker_event decision correlation event_type cl execution_state (cl_tracking cl)
              (safe_outcome_summary summary) row.1 approval log
              ("queue-" +:+ event_type +:+ "-" +:+ str_int row.1 +:+ "-" +:+ str_int (q_retry_count row.2))
              [("queue_id", PInt row.1); ("retry_count", PInt (q_retry_count row.2));
               ("action", PStr (q_action row.2));
               ("error_code", match error_code with Some c => PStr c | None => PNone end)]))
  end.

Definition append_retry_outcome_events (row : Z * queue_row) (error_code error_message : string)
    (log : option Z) : M worker_conn (option (Z * event_row)) :=
  let requeued := has_status QPending row.2 in
  let reason := Some (canonical_worker_reason_code error_code) in
  let* failed := append_worker_outcome_event clk row "failed" reason error_message
                   (if requeued then "failed_attempt" else "failed") log None (Some error_code) in
  if negb requeued then ret failed
  else append_worker_outcome_event clk row "queued" reason
         "Retryable response action failure requeued for another attempt." "requeued" None None
         (Some error_code).
(** The block that closes a row as skipped, which the code repeats at
    each refusal. *)
Definition skip_and_report (row : Z * queue_row) (message execution_state : string)
    (reason_code : string) (event_type : string) (approval : option Z) (code : string)
    : M worker_conn worker_result :=
  let* updated := on_queue (mark_action_skipped clk row.1 message now) in
  let* log := on_log (log_response_action clk row.2 "skipped" message
                        (q_decision_id row.2) (q_soar_correlation_id row.2)) in
  append_worker_outcome_event clk updated execution_state (Some reason_code) message event_type
    (Some log) approval (Some code) ;;;
  commit ;;;
  ret (make_worker_result row updated "skipped" false code message (Some message)).

Definition await_and_report (row updated : Z * queue_row) (message code : string) (approval : Z)
    : M worker_conn worker_result :=
  append_worker_outcome_event clk updated "awaiting_approval" (Some "approval_required") message
    "awaiting_approval" None (Some approval) (Some code) ;;;
  commit ;;;
  ret (make_worker_result row updated "awaiting_approval" false code message (Some message)).

(** [_handle_approval_gate]: None lets the action run. *)
Definition approval_verdict (row : Z * queue_row) : M worker_conn (option worker_result) :=
  on_approvals (expire_pending_requests clk (v_locked_expire2 env) now 100) ;;;
  let* approval := on_approvals (gets (get_latest_approval_for_queue_action row.1 (q_action row.2))) in
  match approval with
  | None =>
      let* created := on_approvals (create_approval_request clk
        (ApprovalParams None (Some row.1) None None (q_action row.2) None
           (Some "approval required for high-risk SOAR action") "high" None
           DEFAULT_APPROVAL_TTL_MINUTES)) in
      let* updated := on_queue (mark_action_awaiting_approval clk row.1 "approval required" now) in
      let* r := await_and_report row updated "approval required" "approval_required" created.1 in
      ret (Some r)
  | Some (i, a) =>
      match ap_status a with
      | Approved => ret None
      | Pending =>
          let* updated := (if has_status QRunning row.2
                           then on_queue (mark_action_awaiting_approval clk row.1 "approval pending" now)
                           else ret row) in
          let* r := await_and_report row updated "approval pending" "approval_pending" i in
          ret (Some r)
      | Denied =>
          let* r := skip_and_report row "approval denied" "blocked" "approval_denied" "blocked"
                      (Some i) "approval_denied" in
          ret (Some r)
      | Expired =>
          let* r := skip_and_report row "approval expired" "blocked" "approval_expired" "blocked"
                      (Some i) "approval_expired" in
          ret (Some r)
      end
  end.

Definition handle_approval_gate (row : Z * queue_row) : M worker_conn (option worker_result) :=
  if negb (action_requires_approval (q_action row.2)) then ret None
  else if negb (String.eqb (q_action row.2) "block_ip") then approval_verdict row
  else match require_unprotected_target (v_protected_ips env) (q_source_ip row.2) with
       | Ok _ => approval_verdict row
       | Raise (SkippedAction m code) =>
           let* r := skip_and_report row m "skipped" (canonical_worker_reason_code code) "skipped"
                       None code in
           ret (Some r)
       | Raise (ProtectedTargetConfigError m) =>
           let* r := skip_and_report row
                       ("Protected target config invalid; refusing block_ip execution: " +:+ m)
                       "skipped" "policy_blocked" "skipped" None "protected_target_config_invalid" in
           ret (Some r)
       | Raise e => raise e
       end.

Definition nonempty (s : option string) : option string :=
  match s with Some t => if is_empty t then None else Some t | None => None end.

Definition queue_command (row : Z * queue_row) : command_request :=
  CommandRequest (q_action row.2) (nonempty (q_source_ip row.2)) (q_alert_id row.2)
    ("Queue worker " +:+ q_action row.2) "response_queue" row.1 None
    ("queue-" +:+ str_int row.1 +:+ "-" +:+ q_action row.2).

(** The body of the try statement, for the canonical actions .. *)
Definition run_canonical (row : Z * queue_row) : M worker_conn worker_result :=
  let* res := run_command clk (queue_command row) in
  if negb (res_success res)
  then raise (SkippedAction (default (res_message res) (nonempty (res_error res)))
                (default "response_command_failed" (nonempty (res_error_code res))))
  else
    let* updated := on_queue (mark_action_success clk row.1 now) in
    append_worker_outcome_event clk updated "succeeded"
      (if String.eqb (q_action row.2) "block_ip" then Some "tracking_only" else None)
      (res_message res) "succeeded" (res_log_id res) None None ;;;
    commit ;;;
    ret (make_worker_result row updated "success" false (res_outcome_label res) (res_message res) None).

Definition validate_executor_result (r : pyval) : outcome (pyval * pyval) :=
  match r with
  | PDict d =>
      if negb (truthy (dget d "code")) then Raise (OtherException "Executor result missing required code")
      else if negb (truthy (dget d "message"))
      then Raise (OtherException "Executor result missing required message")
      else Ok (dget d "code", dget d "message")
  | _ => Raise (OtherException "Executor result must be a dict")
  end.

(** .. and for the others, which go to the executor. *)
Definition run_executor (row : Z * queue_row) : M worker_conn worker_result :=
  let* raw := of_outcome (executor row) in
  let* x := of_outcome (validate_executor_result raw) in
  let message := py_str x.2 in
  let* updated := on_queue (mark_action_success clk row.1 now) in
  let* log := on_log (log_response_action clk row.2 "executed" message
                        (q_decision_id row.2) (q_soar_correlation_id row.2)) in
  append_worker_outcome_event clk updated "succeeded" (Some "simulation_mode") message "succeeded"
    (Some log) None None ;;;
  commit ;;;
  ret (make_worker_result row updated "success" false (py_str x.1) message None).

Definition report_retryable (row : Z * queue_row) (message code : string) : M worker_conn worker_result :=
  let* updated := on_queue (record_action_failure clk row.1 message true now) in
  let* log := (if has_status QFailed updated.2
               then let* l := on_log (log_response_action clk row.2 "failed" message
                                        (q_decision_id row.2) (q_soar_correlation_id row.2)) in
                    ret (Some l)
               else ret None) in
  append_retry_outcome_events updated code message log ;;;
  commit ;;;
  let requeued := has_status QPending updated.2 in
  ret (make_worker_result row updated (if requeued then "requeued" else "failed") requeued code message
         (Some message)).

Definition report_failure (row : Z * queue_row) (message : string) : M worker_conn worker_result :=
  let* updated := on_queue (record_action_failure clk row.1 message false now) in
  let* log := on_log (log_response_action clk row.2 "failed" message
                        (q_decision_id row.2) (q_soar_correlation_id row.2)) in
  append_worker_outcome_event clk updated "failed" (Some "provider_error") message "failed" (Some log)
    None (Some "unexpected_error") ;;;
  commit ;;;
  ret (make_worker_result row updated "failed" false "unexpected_error" message (Some message)).

Definition run_action (row : Z * queue_row) : M worker_conn worker_result :=
  try_catch (if str_in (q_action row.2) CANONICAL_QUEUE_ACTIONS then run_canonical row else run_executor row)
    (fun e => match e with
              | SkippedAction m code =>
                  skip_and_report row m "skipped" (canonical_worker_reason_code code) "skipped" None code
              | RetryableActionError m code => report_retryable row m code
              | e => report_failure row (exn_str e)
              end).

(** The row was skipped because its latest request is denied or expired. *)
Definition report_terminal (i : Z) (r : queue_row) (verdict : approval_status)
    : M worker_conn worker_result :=
  let k := v_clock1 env in
  let message := default EmptyString (q_last_error r) in
  let* approval := on_approvals (gets (get_latest_approval_for_queue_action i (q_action r))) in
  let* log := on_log (log_response_action k r "skipped" message
                        (q_decision_id r) (q_soar_correlation_id r)) in
  let terminal_reason := if bool_decide (verdict = Denied) then "approval_denied"
                         else "approval_expired" in
  append_worker_outcome_event k (i, r) "blocked" (Some terminal_reason) message "blocked"
    (Some log) (fst <$> approval) None ;;;
  commit ;;;
  ret (make_worker_result
         (i, set_status QAwaitingApproval (q_retry_count r) (q_last_error r) (q_updated_at r) r)
         (i, r) "skipped" false terminal_reason message (Some message)).

(** No pending row: expire, then look for an approved or a refused one.
    [inl] is a row to run, [inr] the result of the call. *)
Definition claim_waiting : M worker_conn (Z * queue_row + option worker_result) :=
  let k := v_clock1 env in
  on_approvals (expire_pending_requests k (v_locked_expire1 env) now 100) ;;;
  let* row := on_queue_with (fun ap => claim_next_approved_awaiting_action k ap (v_locked_approved env) now) in
  match row with
  | Some row => ret (inl row)
  | None =>
      let* skipped := on_queue_with (fun ap => skip_next_terminal_approval_action k ap (v_locked_skip env) now) in
      match skipped with
      | None => commit ;;; ret (inr None)
      | Some (i, r, verdict) => let* res := report_terminal i r verdict in ret (inr (Some res))
      end
  end.

(** Other sessions commit while this one has no open transaction. *)
Definition interleave : M worker_conn unit :=
  fun c => let d := v_others env (c_committed c) in (Ok tt, WorkerConn d d (c_aborted c) (c_calls c)).

Definition process_next_action : M worker_conn (option worker_result) :=
  let* row := on_queue (claim_next_pending_action (v_clock1 env) (v_locked_claim env) now) in
  let* claimed := match row with Some row => ret (inl row) | None => claim_waiting end in
  match claimed with
  | inr result => ret result
  | inl row =>
      append_running_outcome_event (v_clock1 env) row ;;;
      commit ;;;
      interleave ;;;
      let* gate := handle_approval_gate row in
      match gate with
      | Some r => ret (Some r)
      | None => let* r := run_action row in ret (Some r)
      end
  end.
End Call.

(** [process_batch]: at most [limit] calls, each meeting its own
    environment, stopping at None. *)
Fixpoint process_batch (inet : string -> option string) (executor : Z * queue_row -> outcome pyval)
    (envs : nat -> call_env) (limit k : nat) : M worker_conn (list worker_result) :=
  match limit with
  | O => ret []
  | S limit =>
      let* result := process_next_action inet executor (envs k) in
      match result with
      | None => ret []
      | Some r =>
          let* rs := process_batch inet executor envs limit (S k) in
          ret (r :: rs)
      end
  end.
End Worker.
