(* ===== verification/QueueWorkerProofs.v ===== *)
(** * QueueWorkerProofs: what one call of the queue worker guarantees

    The approval gate, the transaction boundary, and the status a processed
    row is left in. *)

From S2P Require Import Prelude PyText PyValue Tables Interfaces IpAddress ProtectedTargets Approvals.
From S2P Require Import ResponseQueue Outcomes QueueWorker.

Open Scope Z_scope.

(** ** Frames *)

Section Frames.
Context {X : Type} `{ResponseCommand X}.
Implicit Types (c : worker_conn (X := X)) (d : worker_db (X := X)).

(** Between two commits: nothing committed, no command executed, and the
    queue moves along the lifecycle. *)
Record quiet c c' : Prop := {
  quiet_committed : c_committed c' = c_committed c;
  quiet_calls : c_calls c' = c_calls c;
  quiet_queue : rtc queue_moves (w_queue (c_current c)) (w_queue (c_current c'));
}.

Lemma quiet_refl c : quiet c c.
Proof. by split. Qed.

Lemma quiet_trans c1 c2 c3 : quiet c1 c2 -> quiet c2 c3 -> quiet c1 c3.
Proof. intros [H1 H2 H3] [H4 H5 H6]. split; [congruence..|]. by etrans. Qed.

(** The four kinds of statement. *)
Lemma stmt_aborted {A} (m : M worker_db A) c : c_aborted c = true -> stmt m c = (Raise aborted_error, c).
Proof. unfold stmt. by intros ->. Qed.

Lemma stmt_quiet {A} (m : M worker_db A) c :
  (c_aborted c = false -> rtc queue_moves (w_queue (c_current c)) (w_queue (m (c_current c)).2)) ->
  quiet c (stmt m c).2.
Proof.
  unfold stmt. intros Hm. destruct (c_aborted c); [apply quiet_refl|].
  specialize (Hm eq_refl). by destruct (m (c_current c)) as [[a|e] d].
Qed.

Lemma on_queue_quiet {A} (m : M queue_store A) c :
  (forall s o s', m s = (o, s') -> rtc queue_moves s s') -> quiet c (on_queue m c).2.
Proof.
  intros Hm. apply stmt_quiet. intros _. unfold zoom.
  destruct (m (w_queue (c_current c))) as [o s'] eqn:E. by eapply Hm.
Qed.

Lemma on_queue_with_quiet {A} (m : approval_store -> M queue_store A) c :
  (forall ap s o s', m ap s = (o, s') -> rtc queue_moves s s') -> quiet c (on_queue_with m c).2.
Proof.
  intros Hm. apply stmt_quiet. intros _. unfold zoom.
  destruct (m _ (w_queue (c_current c))) as [o s'] eqn:E. by eapply Hm.
Qed.

Lemma on_approvals_quiet {A} (m : M approval_store A) c : quiet c (on_approvals m c).2.
Proof. apply stmt_quiet. intros _. unfold zoom. by destruct (m _). Qed.

Lemma on_log_quiet {A} (m : M log_store A) c : quiet c (on_log m c).2.
Proof. apply stmt_quiet. intros _. unfold zoom. by destruct (m _). Qed.

Definition with_outcomes (oc : outcome_store) d : worker_db :=
  WorkerDb (w_queue d) (w_approvals d) oc (w_log d) (w_other d).

(** An event append only writes the outcome tables, and never fails. *)
Lemma savepoint_frame {A} (w : M outcome_store A) c :
  exists r c', with_canonical_outcome_savepoint w c = (Ok r, c') /\ quiet c c' /\
    c_aborted c' = c_aborted c /\ w_queue (c_current c') = w_queue (c_current c) /\
    w_approvals (c_current c') = w_approvals (c_current c).
Proof.
  unfold with_canonical_outcome_savepoint. destruct (c_aborted c) eqn:Ha.
  { do 2 eexists. split; [done|]. split_and!; [apply quiet_refl|done..]. }
  unfold on_outcomes_db, zoom. destruct (w (w_outcomes (c_current c))) as [[a|e] oc];
    (do 2 eexists; split; [done|]).
  - split_and!; [by split|done..].
  - cbn [c_current c_aborted restore_db w_queue w_approvals w_outcomes w_log w_other].
    rewrite !restore_id. split_and!; [|done..]. split; [done..|].
    unfold restore_db. cbn [c_current w_queue]. by rewrite restore_id.
Qed.

Lemma append_event_frame inet k row st rc sm et log ap ec c :
  exists r c', append_worker_outcome_event inet k row st rc sm et log ap ec c = (Ok r, c') /\ quiet c c' /\
    c_aborted c' = c_aborted c /\ w_queue (c_current c') = w_queue (c_current c) /\
    w_approvals (c_current c') = w_approvals (c_current c).
Proof.
  unfold append_worker_outcome_event. destruct (linked row.2) as [[dc co]|]; [apply savepoint_frame|].
  do 2 eexists. split; [done|]. split_and!; [apply quiet_refl|done..].
Qed.

Lemma running_event_frame inet k row c :
  exists r c', append_running_outcome_event inet k row c = (Ok r, c') /\ quiet c c' /\
    c_aborted c' = c_aborted c /\ w_queue (c_current c') = w_queue (c_current c) /\
    w_approvals (c_current c') = w_approvals (c_current c).
Proof.
  unfold append_running_outcome_event. destruct (linked row.2) as [[dc co]|]; [apply savepoint_frame|].
  do 2 eexists. split; [done|]. split_and!; [apply quiet_refl|done..].
Qed.
End Frames.

(** ** The blocks that end a call *)

Section Blocks.
Context {X : Type} `{ResponseCommand X}.
Context (inet : string -> option string) (executor : Z * queue_row -> outcome pyval).
Context (env : call_env (X := X)).
Implicit Types (c : worker_conn (X := X)).

(** A call that returned has committed everything, and the row it reports
    is in the committed queue with the reported status, not running. *)
Record settled c0 (calls : list command_request) (i : Z) (r : worker_result) c : Prop := {
  settled_committed : c_current c = c_committed c;
  settled_live : c_aborted c = false;
  settled_calls : c_calls c = calls;
  settled_queue : rtc queue_moves (w_queue (c_current c0)) (w_queue (c_committed c));
  settled_id : wr_queue_id r = i;
  settled_row : exists row, qs_rows (w_queue (c_committed c)) !! i = Some row /\
    q_status row = wr_new_status r /\ q_retry_count row = wr_retry_count r /\ q_status row <> QRunning;
}.

Inductive block_result c0 (i : Z) : outcome worker_result -> worker_conn (X := X) -> Prop :=
  | block_done r c : settled c0 (c_calls c0) i r c -> block_result c0 i (Ok r) c
  | block_raised e c : quiet c0 c -> block_result c0 i (Raise e) c.

Lemma block_weaken c0 c1 i o c : quiet c0 c1 -> block_result c1 i o c -> block_result c0 i o c.
Proof.
  intros [H1 H2 H3] [r c' [S1 S2 S3 S4 S5 S6]|e c' Hq].
  - apply block_done. split; try done; [congruence|by etrans].
  - apply block_raised. by eapply quiet_trans; [split|].
Qed.

Lemma finish_block c row updated k st rc sm et log ap ec outcome retry code msg reason o c' :
  c_aborted c = false -> updated.1 = row.1 ->
  qs_rows (w_queue (c_current c)) !! row.1 = Some updated.2 -> q_status updated.2 <> QRunning ->
  (append_worker_outcome_event inet k updated st rc sm et log ap ec ;;; commit ;;;
   ret (make_worker_result row updated outcome retry code msg reason)) c = (o, c') ->
  block_result c row.1 o c'.
Proof.
  intros Ha Hid Hrow Hst. unfold bind at 1.
  destruct (append_event_frame inet k updated st rc sm et log ap ec c)
    as (r & c1 & -> & Hq & Ha1 & Hq1 & _).
  unfold bind, commit, ret. rewrite Ha1, Ha. intros [= <- <-].
  destruct Hq as [Q1 Q2 Q3]. apply block_done. split; cbn; try done.
  exists updated.2. rewrite Hq1. done.
Qed.

(** A statement followed by a block. *)
Lemma bind_stmt_block {A} (m : M (worker_conn (X := X)) A) (k : A -> M worker_conn worker_result) c i o c' :
  quiet c (m c).2 ->
  (forall a c1, m c = (Ok a, c1) -> k a c1 = (o, c') -> block_result c1 i o c') ->
  bind m k c = (o, c') -> block_result c i o c'.
Proof.
  unfold bind. intros Hq Hk. destruct (m c) as [[a|e] c1]; simpl in *.
  - intros Hr. eapply block_weaken; [exact Hq|by eapply Hk].
  - intros [= <- <-]. by apply block_raised.
Qed.

Lemma stmt_Ok {A} (m : M worker_db A) c a c1 :
  stmt m c = (Ok a, c1) ->
  c_aborted c1 = false /\ m (c_current c) = (Ok a, c_current c1) /\ c_aborted c = false.
Proof.
  unfold stmt. destruct (c_aborted c); [done|]. destruct (m (c_current c)) as [[b|e] d]; [|done].
  by intros [= <- <-].
Qed.

Lemma on_queue_Ok {A} (m : M queue_store A) c a c1 :
  on_queue m c = (Ok a, c1) ->
  c_aborted c1 = false /\ m (w_queue (c_current c)) = (Ok a, w_queue (c_current c1)).
Proof.
  intros (? & Hm & _)%stmt_Ok. split; [done|]. unfold zoom in Hm.
  destruct (m (w_queue (c_current c))) as [o q]. injection Hm as -> Hd. by rewrite <- Hd.
Qed.

Lemma on_log_Ok {A} (m : M log_store A) c a c1 :
  on_log m c = (Ok a, c1) ->
  c_aborted c1 = false /\ w_queue (c_current c1) = w_queue (c_current c).
Proof.
  intros (? & Hm & _)%stmt_Ok. split; [done|]. unfold zoom in Hm.
  destruct (m (w_log (c_current c))) as [o q]. injection Hm as _ Hd. by rewrite <- Hd.
Qed.

Lemma transition_quiet clk i from to err now c :
  worker_transition from to = true -> quiet c (on_queue (transition_action_status clk i from to err now) c).2.
Proof. intros Hw. apply on_queue_quiet. intros. apply rtc_once. by eapply transition_moves. Qed.

Lemma skip_and_report_result row msg st rc et ap code c o c' :
  skip_and_report inet env row msg st rc et ap code c = (o, c') -> block_result c row.1 o c'.
Proof.
  unfold skip_and_report, mark_action_skipped, transition_running_action.
  apply bind_stmt_block; [by apply transition_quiet|]. intros u c1 Hu.
  apply on_queue_Ok in Hu as (_ & (Hid & Hrow & Hst)%transition_Ok).
  apply bind_stmt_block; [apply on_log_quiet|]. intros l c2 (Ha & Hq)%on_log_Ok.
  apply finish_block; [done|done|by rewrite Hq|congruence].
Qed.

Lemma report_failure_result row msg c o c' :
  report_failure inet env row msg c = (o, c') -> block_result c row.1 o c'.
Proof.
  unfold report_failure. apply bind_stmt_block.
  { apply on_queue_quiet. intros. by eapply record_action_failure_steps. }
  intros u c1 Hu. apply on_queue_Ok in Hu as (_ & (Hid & Hrow & Hst)%record_action_failure_Ok).
  apply bind_stmt_block; [apply on_log_quiet|]. intros l c2 (Ha & Hq)%on_log_Ok.
  apply finish_block; [done|done|by rewrite Hq|naive_solver congruence].
Qed.

Lemma report_retryable_result row msg code c o c' :
  report_retryable inet env row msg code c = (o, c') -> block_result c row.1 o c'.
Proof.
  unfold report_retryable. apply bind_stmt_block.
  { apply on_queue_quiet. intros. by eapply record_action_failure_steps. }
  intros u c1 Hu. apply on_queue_Ok in Hu as (Ha1 & (Hid & Hrow & Hst)%record_action_failure_Ok).
  assert (q_status u.2 <> QRunning) as Hnr by naive_solver congruence.
  apply bind_stmt_block.
  { destruct (has_status QFailed u.2); [|apply quiet_refl]. unfold bind.
    pose proof (on_log_quiet (log_response_action (v_clock2 env) row.2 "failed" msg
      (q_decision_id row.2) (q_soar_correlation_id row.2)) c1) as Hq.
    by destruct (on_log _ c1) as [[l|e] c2]. }
  intros l c2 Hl.
  assert (c_aborted c2 = false /\ w_queue (c_current c2) = w_queue (c_current c1)) as [Ha2 Hq2].
  { destruct (has_status QFailed u.2); [|by injection Hl as <- <-].
    apply bind_ok_inv in Hl as (x & c3 & Hx%on_log_Ok & [= <- <-]). done. }
  unfold append_retry_outcome_events. destruct (negb (has_status QPending u.2)).
  - rewrite bind_assoc. unfold bind at 2. unfold ret at 1.
    apply finish_block; [done|done|by rewrite Hq2|done].
  - rewrite bind_assoc. unfold bind at 1.
    match goal with |- match append_worker_outcome_event ?a ?b ?d ?e ?f ?g ?h ?i ?j ?k c2 with _ => _ end = _ -> _ =>
      destruct (append_event_frame a b d e f g h i j k c2) as (r & c3 & -> & Hq & Ha3 & Hq3 & _) end.
    intros Hfin. eapply block_weaken; [exact Hq|]. revert Hfin.
    apply finish_block; [congruence|done|by rewrite Hq3, Hq2|done].
Qed.

Lemma await_and_report_result row updated msg code ap c o c' :
  c_aborted c = false -> updated.1 = row.1 ->
  qs_rows (w_queue (c_current c)) !! row.1 = Some updated.2 -> q_status updated.2 <> QRunning ->
  await_and_report inet env row updated msg code ap c = (o, c') -> block_result c row.1 o c'.
Proof. unfold await_and_report. apply finish_block. Qed.

(** ** The try statement *)

Definition with_call c (r : command_request) : worker_conn :=
  WorkerConn (c_committed c) (c_current c) (c_aborted c) (c_calls c ++ [r]).

Lemma run_command_quiet clk r c : quiet (with_call c r) (run_command clk r c).2.
Proof.
  unfold run_command. apply stmt_quiet. intros _. cbn.
  by destruct (execute_response_command _ _ _) as [res [[o oc] l]].
Qed.

Lemma run_canonical_result row c o c' :
  run_canonical inet env row c = (o, c') -> block_result (with_call c (queue_command row)) row.1 o c'.
Proof.
  unfold run_canonical. intros Hrun. unfold bind at 1 in Hrun.
  pose proof (run_command_quiet (v_clock2 env) (queue_command row) c) as Hq.
  destruct (run_command _ _ c) as [[res|e] c1]; [|by injection Hrun as <- <-; apply block_raised].
  eapply block_weaken; [exact Hq|]. clear Hq.
  destruct (negb (res_success res)).
  { injection Hrun as <- <-. apply block_raised, quiet_refl. }
  revert Hrun. unfold mark_action_success, transition_running_action.
  apply bind_stmt_block; [by apply transition_quiet|]. intros u c2 Hu.
  apply on_queue_Ok in Hu as (Ha & (Hid & Hrow & Hst)%transition_Ok).
  apply finish_block; [done|done|done|congruence].
Qed.

Lemma run_executor_result row c o c' :
  run_executor inet executor env row c = (o, c') -> block_result c row.1 o c'.
Proof.
  unfold run_executor. intros Hrun.
  peel Hrun; [|apply block_raised; apply quiet_refl].
  peel Hrun; [|apply block_raised; apply quiet_refl]. revert Hrun.
  unfold mark_action_success, transition_running_action.
  apply bind_stmt_block; [by apply transition_quiet|]. intros u c2 Hu.
  apply on_queue_Ok in Hu as (_ & (Hid & Hrow & Hst)%transition_Ok).
  apply bind_stmt_block; [apply on_log_quiet|]. intros l c3 (Ha & Hq)%on_log_Ok.
  apply finish_block; [done|done|by rewrite Hq|congruence].
Qed.

(** The connection a run of [row] starts from: the command is on record. *)
Definition run_start (row : Z * queue_row) c : worker_conn :=
  if str_in (q_action row.2) CANONICAL_QUEUE_ACTIONS then with_call c (queue_command row) else c.

Lemma run_action_result row c o c' :
  run_action inet executor env row c = (o, c') -> block_result (run_start row c) row.1 o c'.
Proof.
  unfold run_action, try_catch.
  set (body := if str_in _ _ then run_canonical inet env row else _).
  destruct (body c) as [o1 c1] eqn:E.
  assert (block_result (run_start row c) row.1 o1 c1) as Hbody.
  { unfold run_start, body in *. destruct (str_in _ _); [by apply run_canonical_result|by apply run_executor_result]. }
  destruct o1 as [r|e]; [by intros [= <- <-]|].
  inversion Hbody as [|e' c2 Hq]; subst. intros Hh. eapply block_weaken; [exact Hq|].
  destruct e; first [by eapply skip_and_report_result|by eapply report_retryable_result
                    |by eapply report_failure_result].
Qed.

(** ** The approval gate *)

(** What the gate establishes before a high-risk action runs. *)
Definition approval_given (row : Z * queue_row) (before : approval_store) : Prop :=
  let after := (expire_pending_requests (v_clock2 env) (v_locked_expire2 env) (v_now env) 100 before).2 in
  exists i a, get_latest_approval_for_queue_action row.1 (q_action row.2) after = Some (i, a) /\
    ap_status a = Approved.

Inductive gate_result (row : Z * queue_row) c :
    outcome (option worker_result) -> worker_conn (X := X) -> Prop :=
  | gate_open c' :
      quiet c c' ->
      (action_requires_approval (q_action row.2) = true -> approval_given row (w_approvals (c_current c))) ->
      (q_action row.2 = "block_ip" ->
         require_unprotected_target (v_protected_ips env) (q_source_ip row.2) = Ok tt) ->
      gate_result row c (Ok None) c'
  | gate_closed r c' : settled c (c_calls c) row.1 r c' -> gate_result row c (Ok (Some r)) c'
  | gate_raised e c' : quiet c c' -> gate_result row c (Raise e) c'.

(** A block inside the gate. *)
Lemma gate_block row c c1 (m : M (worker_conn (X := X)) worker_result) o c' :
  quiet c c1 -> (forall o c', m c1 = (o, c') -> block_result c1 row.1 o c') ->
  (let* r := m in ret (Some r)) c1 = (o, c') -> gate_result row c o c'.
Proof.
  intros Hq Hm. unfold bind. pose proof (Hm _ _ (surjective_pairing (m c1))) as E.
  destruct (m c1) as [o1 c2]. cbn [fst snd] in E.
  eapply block_weaken in E; [|exact Hq].
  inversion E; subst; intros [= <- <-]; [by apply gate_closed|by apply gate_raised].
Qed.

Lemma on_approvals_Ok {A} (m : M approval_store A) c a c1 :
  on_approvals m c = (Ok a, c1) ->
  c_aborted c1 = false /\ m (w_approvals (c_current c)) = (Ok a, w_approvals (c_current c1)) /\
  w_queue (c_current c1) = w_queue (c_current c).
Proof.
  intros (? & Hm & _)%stmt_Ok. split; [done|]. unfold zoom in Hm.
  destruct (m (w_approvals (c_current c))) as [o q]. injection Hm as -> Hd. by rewrite <- Hd.
Qed.

Lemma on_approvals_raise {A} (m : M approval_store A) c e c1 :
  on_approvals m c = (Raise e, c1) -> quiet c c1.
Proof. intros Hm. pose proof (on_approvals_quiet m c) as Hq. by rewrite Hm in Hq. Qed.

Lemma on_queue_raise {A} (m : M queue_store A) c e c1 :
  quiet c (on_queue m c).2 -> on_queue m c = (Raise e, c1) -> quiet c c1.
Proof. intros Hq Hm. by rewrite Hm in Hq. Qed.

Lemma expire_Ok k locked now limit c :
  c_aborted c = false ->
  exists xs c', on_approvals (expire_pending_requests k locked now limit) c = (Ok xs, c') /\
    c_aborted c' = false /\ w_queue (c_current c') = w_queue (c_current c) /\
    w_approvals (c_current c') = (expire_pending_requests k locked now limit (w_approvals (c_current c))).2.
Proof.
  intros Ha. unfold on_approvals, stmt, zoom. rewrite Ha.
  destruct (expire_pending_requests k locked now limit (w_approvals (c_current c))) as [[xs|e] s'] eqn:E.
  - eauto 10.
  - exfalso. unfold expire_pending_requests in E. unfold bind, get in E.
    match type of E with expire_rows _ ?l ?t ?s = _ =>
      destruct (expire_rows_spec k l t s) as (s2 & Hs & _) end; [| |rewrite Hs in E; done].
    + intros i r Hin%expiry_batch_overdue. tauto.
    + apply expiry_batch_NoDup.
Qed.

Lemma bind_quiet {A} (m : M (worker_conn (X := X)) A) c0 c o c1 :
  quiet c0 c -> quiet c (m c).2 -> m c = (o, c1) -> quiet c0 c1.
Proof. intros H0 H1 Hm. rewrite Hm in H1. by eapply quiet_trans. Qed.

Lemma await_result row reason msg code ap c o c' :
  (let* u := on_queue (mark_action_awaiting_approval (v_clock2 env) row.1 reason (v_now env)) in
   await_and_report inet env row u msg code ap) c = (o, c') -> block_result c row.1 o c'.
Proof.
  apply bind_stmt_block; [by apply transition_quiet|].
  intros u c1 Hu. apply on_queue_Ok in Hu as (Ha & (Hid & Hrow & Hs)%transition_Ok).
  apply await_and_report_result; [done|done|done|congruence].
Qed.

Lemma approval_verdict_result row c o c' :
  q_status row.2 = QRunning ->
  (q_action row.2 = "block_ip" ->
     require_unprotected_target (v_protected_ips env) (q_source_ip row.2) = Ok tt) ->
  approval_verdict inet env row c = (o, c') -> gate_result row c o c'.
Proof.
  intros Hrun Hprot. unfold approval_verdict. unfold bind at 1.
  destruct (c_aborted c) eqn:Ha.
  { unfold on_approvals at 1. rewrite (stmt_aborted _ c Ha). intros [= <- <-].
    apply gate_raised, quiet_refl. }
  destruct (expire_Ok (v_clock2 env) (v_locked_expire2 env) (v_now env) 100 c Ha)
    as (xs & c1 & He & Ha1 & Hq1 & Hap).
  pose proof He as Hc1. apply (bind_quiet _ c) in Hc1; [|apply quiet_refl|apply on_approvals_quiet].
  rewrite He. unfold bind at 1.
  destruct (on_approvals (gets _) c1) as [o2 c2] eqn:Eg.
  pose proof Eg as Hc2. apply (bind_quiet _ c) in Hc2; [|done|apply on_approvals_quiet].
  destruct o2 as [approval|e]; [|by intros [= <- <-]; apply gate_raised].
  apply on_approvals_Ok in Eg as (Ha2 & Hg & Hq3). unfold gets in Hg. injection Hg as Hg _.
  destruct approval as [[i a]|].
  - destruct (ap_status a) eqn:Hst.
    + rewrite (proj2 (has_status_true _ _) Hrun), <- bind_assoc.
      apply gate_block; [done|]. intros. by eapply await_result.
    + intros [= <- <-]. apply gate_open; [done| |done]. intros _. unfold approval_given.
      rewrite <- Hap, Hg. eauto.
    + apply gate_block; [done|]. intros. by eapply skip_and_report_result.
    + apply gate_block; [done|]. intros. by eapply skip_and_report_result.
  - unfold bind at 1. destruct (on_approvals (create_approval_request _ _) c2) as [o3 c3] eqn:Ec.
    apply (bind_quiet _ c) in Ec; [|done|apply on_approvals_quiet].
    destruct o3 as [created|e]; [|by intros [= <- <-]; apply gate_raised].
    rewrite <- bind_assoc. apply gate_block; [done|]. intros. by eapply await_result.
Qed.

Lemma handle_approval_gate_result row c o c' :
  q_status row.2 = QRunning ->
  handle_approval_gate inet env row c = (o, c') -> gate_result row c o c'.
Proof.
  intros Hrun. unfold handle_approval_gate.
  destruct (action_requires_approval (q_action row.2)) eqn:Hreq; cbn [negb].
  2: { intros [= <- <-]. apply gate_open; [apply quiet_refl|by rewrite Hreq|].
       intros Hb. unfold action_requires_approval in Hreq. by rewrite Hb in Hreq. }
  destruct (String.eqb (q_action row.2) "block_ip") eqn:Hb; cbn [negb].
  2: { apply approval_verdict_result; [done|]. intros Hb'. by rewrite Hb', String.eqb_refl in Hb. }
  destruct (require_unprotected_target _ _) as [[]|e] eqn:Hp.
  - apply approval_verdict_result; done.
  - destruct e; try (intros [= <- <-]; apply gate_raised, quiet_refl).
    + apply gate_block; [apply quiet_refl|]. intros. by eapply skip_and_report_result.
    + apply gate_block; [apply quiet_refl|]. intros. by eapply skip_and_report_result.
Qed.

(** ** The whole call *)

(** No transaction is open. *)
Definition idle c : Prop := c_aborted c = false /\ c_current c = c_committed c.

(** The claim of [row] is committed as [d]; then other sessions act. *)
Record claimed c (row : Z * queue_row) (d : worker_db (X := X)) : Prop := {
  claimed_row : qs_rows (w_queue d) !! row.1 = Some row.2;
  claimed_running : q_status row.2 = QRunning;
  claimed_moves : rtc queue_moves (w_queue (c_committed c)) (w_queue d);
}.

Definition after_others c (d : worker_db (X := X)) : worker_conn :=
  WorkerConn (v_others env d) (v_others env d) false (c_calls c).

Inductive call_result c : outcome (option worker_result) -> worker_conn (X := X) -> Prop :=
  | call_raised e c' : quiet c c' -> call_result c (Raise e) c'
  | call_none c' :
      idle c' -> c_calls c' = c_calls c ->
      rtc queue_moves (w_queue (c_committed c)) (w_queue (c_committed c')) -> call_result c (Ok None) c'
  | call_refused i r c' : settled c (c_calls c) i r c' -> call_result c (Ok (Some r)) c'
  | call_gate_closed row d r c' :
      claimed c row d -> settled (after_others c d) (c_calls c) row.1 r c' ->
      call_result c (Ok (Some r)) c'
  | call_gate_raised row d e c' :
      claimed c row d -> quiet (after_others c d) c' -> call_result c (Raise e) c'
  | call_ran row d c2 o c' :
      claimed c row d -> quiet (after_others c d) c2 ->
      (action_requires_approval (q_action row.2) = true ->
         approval_given row (w_approvals (v_others env d))) ->
      (q_action row.2 = "block_ip" ->
         require_unprotected_target (v_protected_ips env) (q_source_ip row.2) = Ok tt) ->
      block_result (run_start row c2) row.1 o c' ->
      call_result c (let! r := o in Ok (Some r)) c'.

Definition run_claimed (row : Z * queue_row) : M (worker_conn (X := X)) (option worker_result) :=
  append_running_outcome_event inet (v_clock1 env) row ;;;
  commit ;;;
  interleave env ;;;
  let* gate := handle_approval_gate inet env row in
  match gate with
  | Some r => ret (Some r)
  | None => let* r := run_action inet executor env row in ret (Some r)
  end.

Lemma run_claimed_result row c c1 o c' :
  quiet c c1 -> c_aborted c1 = false -> c_current c = c_committed c ->
  qs_rows (w_queue (c_current c1)) !! row.1 = Some row.2 -> q_status row.2 = QRunning ->
  run_claimed row c1 = (o, c') -> call_result c o c'.
Proof.
  intros [Q1 Q2 Q3] Ha Hidle Hrow Hrun. unfold run_claimed. unfold bind at 1.
  destruct (running_event_frame inet (v_clock1 env) row c1) as (ev & c2 & -> & [E1 E2 E3] & Ha2 & Hq2 & _).
  unfold bind at 1, commit. rewrite Ha2, Ha. unfold bind at 1, interleave. cbn [c_committed c_aborted c_calls].
  set (d := c_current c2).
  assert (claimed c row d) as Hcl.
  { split; [by unfold d; rewrite Hq2|done|]. unfold d. rewrite Hq2, <- Hidle. done. }
  replace (c_calls c2) with (c_calls c) by congruence. fold (after_others c d).
  unfold bind at 1. destruct (handle_approval_gate inet env row (after_others c d)) as [g c3] eqn:Eg.
  apply handle_approval_gate_result in Eg; [|done].
  destruct Eg as [c3 Hq Hap Hp|r c3 Hs|e c3 Hq].
  - unfold bind. destruct (run_action inet executor env row c3) as [o1 c4] eqn:Er.
    intros Hres. assert (o = (let! r := o1 in Ok (Some r)) /\ c' = c4) as [-> ->]
      by (destruct o1; injection Hres as <- <-; done).
    eapply call_ran; eauto. by apply run_action_result.
  - intros [= <- <-]. by eapply call_gate_closed.
  - intros [= <- <-]. by eapply call_gate_raised.
Qed.

Lemma report_terminal_result i r v c o c' :
  qs_rows (w_queue (c_current c)) !! i = Some r -> q_status r = QSkipped ->
  report_terminal inet env i r v c = (o, c') -> block_result c i o c'.
Proof.
  intros Hrow Hst. unfold report_terminal. apply bind_stmt_block; [apply on_approvals_quiet|].
  intros ap c1 (_ & _ & Hq1)%on_approvals_Ok.
  apply bind_stmt_block; [apply on_log_quiet|]. intros l c2 (Ha & Hq2)%on_log_Ok.
  apply (finish_block c2 (i, _) (i, r)); [done|done|cbn; by rewrite Hq2, Hq1|cbn; congruence].
Qed.

Lemma claim_approved_quiet k locked now c :
  quiet c (on_queue_with (fun ap => claim_next_approved_awaiting_action k ap locked now) c).2.
Proof. apply on_queue_with_quiet. intros. apply rtc_once. by eapply claim_next_approved_moves. Qed.

Lemma skip_next_quiet k locked now c :
  quiet c (on_queue_with (fun ap => skip_next_terminal_approval_action k ap locked now) c).2.
Proof. apply on_queue_with_quiet. intros. apply rtc_once. by eapply skip_next_moves. Qed.

Lemma on_queue_with_Ok {A} (m : approval_store -> M queue_store A) c a c1 :
  on_queue_with m c = (Ok a, c1) ->
  c_aborted c1 = false /\
  m (w_approvals (c_current c)) (w_queue (c_current c)) = (Ok a, w_queue (c_current c1)).
Proof.
  intros (? & Hm & _)%stmt_Ok. split; [done|]. unfold zoom in Hm.
  destruct (m _ (w_queue (c_current c))) as [o q]. injection Hm as -> Hd. by rewrite <- Hd.
Qed.

(** What [claim_waiting] reports, relative to the start of the call. *)
Definition waiting_result c0 (o : outcome (Z * queue_row + option worker_result)) c' : Prop :=
  match o with
  | Raise _ => quiet c0 c'
  | Ok (inl row) => quiet c0 c' /\ c_aborted c' = false /\
      qs_rows (w_queue (c_current c')) !! row.1 = Some row.2 /\ q_status row.2 = QRunning
  | Ok (inr None) => idle c' /\ c_calls c' = c_calls c0 /\
      rtc queue_moves (w_queue (c_committed c0)) (w_queue (c_committed c'))
  | Ok (inr (Some r)) => exists i, settled c0 (c_calls c0) i r c'
  end.

Lemma claim_waiting_result c c0 o c' :
  quiet c0 c -> c_current c0 = c_committed c0 ->
  claim_waiting inet env c = (o, c') -> waiting_result c0 o c'.
Proof.
  intros Hq0 Hidle. unfold claim_waiting. unfold bind at 1.
  destruct (on_approvals (expire_pending_requests _ _ _ _) c) as [o1 c1] eqn:E1.
  apply (bind_quiet _ c0) in E1; [|done|apply on_approvals_quiet].
  destruct o1 as [xs|e]; [|by intros [= <- <-]]. unfold bind at 1.
  destruct (on_queue_with (fun ap => claim_next_approved_awaiting_action _ ap _ _) c1) as [o2 c2] eqn:E2.
  pose proof E2 as Hq2. apply (bind_quiet _ c0) in Hq2; [|done|apply claim_approved_quiet].
  destruct o2 as [[row|]|e]; [| |by intros [= <- <-]].
  { intros [= <- <-]. apply on_queue_with_Ok in E2 as (Ha & (Hr & r & Hr2)%claim_Ok).
    split_and!; [done|done|done|by rewrite Hr2]. }
  unfold bind at 1.
  destruct (on_queue_with (fun ap => skip_next_terminal_approval_action _ ap _ _) c2) as [o3 c3] eqn:E3.
  pose proof E3 as Hq3. apply (bind_quiet _ c0) in Hq3; [|done|apply skip_next_quiet].
  destruct o3 as [[[[i r] v]|]|e]; [| |by intros [= <- <-]];
    apply on_queue_with_Ok in E3 as (Ha & E3).
  - apply skip_next_Ok in E3 as [Hr Hst]. unfold bind.
    destruct (report_terminal inet env i r v c3) as [o4 c4] eqn:E4.
    apply report_terminal_result in E4; [|done|done]. eapply block_weaken in E4; [|exact Hq3].
    inversion E4; subst; intros [= <- <-]; [by eexists|done].
  - unfold bind, commit, ret. rewrite Ha. intros [= <- <-]. destruct Hq3 as [Q1 Q2 Q3].
    split_and!; [by split|done|]. cbn. by rewrite <- Hidle.
Qed.

Lemma process_next_action_result c o c' :
  idle c -> process_next_action inet executor env c = (o, c') -> call_result c o c'.
Proof.
  intros [Ha Hidle]. unfold process_next_action. unfold bind at 1.
  destruct (on_queue (claim_next_pending_action _ _ _) c) as [[row|e] c1] eqn:E1.
  - assert (quiet c c1) as Hq1.
    { match type of E1 with on_queue ?m c = _ => pose proof (on_queue_quiet m c) as Hqe end.
      rewrite E1 in Hqe. apply Hqe. intros. apply rtc_once. by eapply claim_next_pending_moves. }
    apply on_queue_Ok in E1 as [Ha1 E1].
    destruct row as [row|].
    + unfold bind at 1, ret at 1. apply run_claimed_result; try done;
        unfold claim_next_pending_action in E1; apply claim_Ok in E1 as (Hr & r & Hr2); [done|by rewrite Hr2].
    + unfold bind at 1. destruct (claim_waiting inet env c1) as [o1 c2] eqn:Ew.
      apply (claim_waiting_result c1 c) in Ew; [|done|done].
      destruct o1 as [[row|[r|]]|e].
      * destruct Ew as (Hq & Ha2 & Hrow & Hst). by apply run_claimed_result.
      * destruct Ew as [i Hs]. intros [= <- <-]. by eapply call_refused.
      * destruct Ew as (Hi & Hc & Hm). intros [= <- <-]. by apply call_none.
      * intros [= <- <-]. by apply call_raised.
  - intros [= <- <-]. apply call_raised. eapply on_queue_raise; [|exact E1].
    apply on_queue_quiet. intros. apply rtc_once. by eapply claim_next_pending_moves.
Qed.
End Blocks.

(** ** Properties of a call *)

Section CallProperties.
Context {X : Type} `{ResponseCommand X}.
Context (inet : string -> option string) (executor : Z * queue_row -> outcome pyval).
Implicit Types (c : worker_conn (X := X)) (env : call_env (X := X)).

Lemma block_calls c0 i o c : block_result c0 i o c -> c_calls c = c_calls c0.
Proof. intros [r c' []|e c' []]; done. Qed.

Lemma quiet_idle_committed c0 c : c_current c0 = c_committed c0 -> quiet c0 c ->
  rtc queue_moves (w_queue (c_committed c0)) (w_queue (c_committed c)).
Proof. intros Hi [Q1 _ _]. rewrite Q1. apply rtc_refl. Qed.

Lemma call_calls env c o c' :
  call_result env c o c' ->
  c_calls c' = c_calls c \/
  exists row d, claimed c row d /\ c_calls c' = c_calls c ++ [queue_command row] /\
    q_action row.2 ∈ CANONICAL_QUEUE_ACTIONS /\
    (q_action row.2 = "block_ip" ->
       approval_given env row (w_approvals (v_others env d)) /\
       require_unprotected_target (v_protected_ips env) (q_source_ip row.2) = Ok tt).
Proof.
  intros [e c1 []|c1 _ ? _|i r c1 []|row d r c1 _ []|row d e c1 _ []|row d c2 o' c1 Hcl [Q1 Q2 Q3] Hap Hp Hb];
    try (by left).
  apply block_calls in Hb. unfold run_start in Hb.
  destruct (str_in (q_action row.2) CANONICAL_QUEUE_ACTIONS) eqn:Hact; [right|left; by rewrite Hb].
  exists row, d. split_and!; [done|cbn in Hb; by rewrite Hb, Q2|by apply str_in_spec|].
  intros Hblock. split; [apply Hap; by rewrite Hblock|by apply Hp].
Qed.

Lemma call_settled env c r c' :
  call_result env c (Ok (Some r)) c' ->
  idle c' /\ exists row, qs_rows (w_queue (c_committed c')) !! wr_queue_id r = Some row /\
    q_status row = wr_new_status r /\ q_retry_count row = wr_retry_count r /\ q_status row <> QRunning.
Proof.
  assert (forall c0 calls i, settled c0 calls i r c' ->
    idle c' /\ exists row, qs_rows (w_queue (c_committed c')) !! wr_queue_id r = Some row /\
      q_status row = wr_new_status r /\ q_retry_count row = wr_retry_count r /\ q_status row <> QRunning) as Hs.
  { intros c0 calls i [S1 S2 _ _ <- S6]. split; [by split|done]. }
  intros Hc. remember (Ok (Some r)) as o eqn:Ho. revert Ho.
  destruct Hc as [e c1 _|c1 _ _ _|i r' c1 Hst|row d r' c1 _ Hst|row d e c1 _ _|row d c2 o' c1 _ _ _ _ Hb];
    intros Ho; simplify_eq; eauto.
  destruct Hb as [r' c1 Hst|e c1 _]; simpl in Ho; simplify_eq. eauto.
Qed.

Lemma call_idle env c c' : call_result env c (Ok None) c' -> idle c'.
Proof.
  intros Hc. remember (Ok None) as o eqn:Ho. revert Ho.
  destruct Hc as [| | | | |row d c2 o' c1 _ _ _ _ Hb]; intros; simplify_eq; try done.
  by destruct o'.
Qed.

(** C4: The approval gate holds under any interleaving.  Whatever other
    sessions commit between the worker's claim and the rest of its call,
    one call executes at most one command, for the row it has claimed and
    committed as running; a [block_ip] is executed only if, after overdue
    requests are expired, the latest approval request for that row and
    action in the database at that moment is approved, and the address is
    not protected. *)
Theorem block_needs_approval env c :
  idle c ->
  let c' := (process_next_action inet executor env c).2 in
  c_calls c' = c_calls c \/
  exists row d, claimed c row d /\ c_calls c' = c_calls c ++ [queue_command row] /\
    q_action row.2 ∈ CANONICAL_QUEUE_ACTIONS /\
    (q_action row.2 = "block_ip" ->
       approval_given env row (w_approvals (v_others env d)) /\
       require_unprotected_target (v_protected_ips env) (q_source_ip row.2) = Ok tt).
Proof.
  intros Hi. destruct (process_next_action inet executor env c) as [o c'] eqn:E. cbn zeta. cbn [snd].
  apply process_next_action_result in E; [|done]. by eapply call_calls.
Qed.

(** A call that reports a result leaves nothing open: its transaction
    is committed, and the row it reports is in the committed queue with
    exactly the reported status and retry count, never still running. *)
Theorem processed_row_settled env c r c' :
  idle c -> process_next_action inet executor env c = (Ok (Some r), c') ->
  idle c' /\ exists row, qs_rows (w_queue (c_committed c')) !! wr_queue_id r = Some row /\
    q_status row = wr_new_status r /\ q_retry_count row = wr_retry_count r /\ q_status row <> QRunning.
Proof. intros Hi E%process_next_action_result; [|done]. by eapply call_settled. Qed.

(** Two stretches around the other sessions make one when these keep to the
    lifecycle. *)
Lemma stretches_compose env c after :
  (rtc queue_moves (w_queue (c_committed c)) after \/
   exists row d, claimed c row d /\ rtc queue_moves (w_queue (c_committed c)) (w_queue d) /\ rtc queue_moves (w_queue (v_others env d)) after) ->
  (rtc queue_moves (w_queue (c_committed c)) after \/
   exists row d, claimed c row d /\ rtc queue_moves (w_queue (c_committed c)) (w_queue d) /\ rtc queue_moves (w_queue (v_others env d)) after) /\
  ((forall d, rtc queue_moves (w_queue d) (w_queue (v_others env d))) -> rtc queue_moves (w_queue (c_committed c)) after).
Proof.
  intros Hm. split; [done|]. intros Hoth. destruct Hm as [Hm|(row & d & _ & H1 & H2)]; [done|]. etrans; [exact H1|]. etrans; [apply Hoth|done].
Qed.

(** C3: The worker implements the queue's lifecycle.  A call commits in two
    stretches, up to the claim and after what other sessions then commit.
    Whether the call returns or raises, and whatever the executor and the
    command service answer and the other sessions commit in between, each
    stretch moves the committed queue only along the lifecycle; when the
    other sessions keep to the lifecycle as well, so does the whole. *)
Theorem worker_refines_lifecycle env c :
  idle c ->
  let before := w_queue (c_committed c) in
  let after := w_queue (c_committed (process_next_action inet executor env c).2) in
  (rtc queue_moves before after \/
   exists row d, claimed c row d /\ rtc queue_moves before (w_queue d) /\ rtc queue_moves (w_queue (v_others env d)) after) /\
  ((forall d, rtc queue_moves (w_queue d) (w_queue (v_others env d))) -> rtc queue_moves before after).
Proof.
  intros Hi. cbv zeta. destruct (process_next_action inet executor env c) as [o c'] eqn:E. cbn [snd].
  apply process_next_action_result in E; [|done]. apply stretches_compose. destruct Hi as [_ Hi].
  destruct E as [e c1 Hq|c1 _ _ Hm|i r c1 Hs|row d r c1 Hcl Hs|row d e c1 Hcl Hq|row d c2 o' c1 Hcl Hq _ _ Hb].
  - left. by apply quiet_idle_committed.
  - by left.
  - left. rewrite <- Hi. apply Hs.
  - right. exists row, d. split_and!; [done|apply Hcl|]. apply (settled_queue _ _ _ _ _ Hs).
  - right. exists row, d. split_and!; [done|apply Hcl|]. by apply (quiet_idle_committed (after_others env c d)).
  - right. exists row, d. split_and!; [done|apply Hcl|].
    assert (c_committed (run_start row c2) = v_others env d /\
      rtc queue_moves (w_queue (v_others env d)) (w_queue (c_current (run_start row c2)))) as [Hc Hm].
    { destruct Hq as [Q1 Q2 Q3]. unfold run_start. by destruct (str_in _ _). }
    destruct Hb as [r c1 Hs|e c1 [Q1 Q2 Q3]].
    + etrans; [exact Hm|]. apply (settled_queue _ _ _ _ _ Hs).
    + rewrite Q1, Hc. apply rtc_refl.
Qed.

(** A batch is bounded and committed: it makes at most [limit] calls,
    executes at most one command per reported result, and ends with no
    transaction open. *)
Theorem batch_bounded envs limit k c rs c' :
  idle c -> process_batch inet executor envs limit k c = (Ok rs, c') ->
  idle c' /\ (length rs <= limit)%nat /\
  exists cmds, c_calls c' = c_calls c ++ cmds /\ (length cmds <= length rs)%nat.
Proof.
  revert k c rs. induction limit as [|limit IH]; intros k c rs Hi; simpl.
  { intros [= <- <-]. split_and!; [done..|]. exists []. by rewrite app_nil_r. }
  intros (res & c1 & Hp & Hk)%bind_ok_inv.
  pose proof (process_next_action_result inet executor (envs k) c _ _ Hi Hp) as Hr.
  destruct res as [r|].
  - apply bind_ok_inv in Hk as (rs' & c2 & Hb & [= <- <-]).
    pose proof (call_calls _ _ _ _ Hr) as Hcalls.
    apply call_settled in Hr as [Hi1 _].
    destruct (IH (S k) c1 rs' Hi1 Hb) as (Hi2 & Hlen & cmds & Hc2 & Hcl).
    split_and!; [done|simpl; lia|].
    destruct Hcalls as [Hc1|(row & d & _ & Hc1 & _)]; rewrite Hc2, Hc1.
    + exists cmds. split; [done|simpl; lia].
    + exists (queue_command row :: cmds). rewrite <- app_assoc. split; [done|simpl; lia].
  - injection Hk as <- <-. pose proof (call_idle _ _ _ Hr) as Hi1.
    assert (c_calls c1 = c_calls c) as Hc.
    { remember (Ok None) as o eqn:Ho. revert Ho.
      destruct Hr as [| | | | |row d c2 o' c1 _ _ _ _ Hb]; intros; simplify_eq; try done.
      by destruct o'. }
    split_and!; [done|simpl; lia|]. exists []. by rewrite app_nil_r.
Qed.

(** A database error strands the action.  When the response command
    fails in the database, the handler records the failure in the aborted
    transaction, so the call raises and the row stays committed as
    running, with no attempt charged and no failure logged. *)
Theorem database_error_strands_action env c row q1 :
  idle c ->
  claim_next_pending_action (v_clock1 env) (v_locked_claim env) (v_now env) (w_queue (c_current c))
    = (Ok (Some row), q1) ->
  q_action row.2 = "monitor" \/ q_action row.2 = "flag_high_priority" ->
  (forall d, v_others env d = d) ->
  (forall st, exists e st', execute_response_command (v_clock2 env) (queue_command row) st = (Raise e, st') /\
     is_db_error e = true) ->
  exists c', process_next_action inet executor env c = (Raise aborted_error, c') /\
    qs_rows (w_queue (c_committed c')) !! row.1 = Some row.2 /\ q_status row.2 = QRunning.
Proof.
  intros [Ha Hi] Hclaim Hact Hoth Hcmd.
  pose proof Hclaim as Hrow. unfold claim_next_pending_action in Hrow.
  apply claim_Ok in Hrow as (Hrow & r0 & Hr0).
  unfold process_next_action. unfold bind at 1. unfold on_queue, stmt, zoom. rewrite Ha, Hclaim.
  unfold bind at 1, ret at 1. fold (run_claimed inet executor env row). unfold run_claimed, bind at 1.
  match goal with |- context [append_running_outcome_event inet ?k row ?c1] =>
    destruct (running_event_frame inet k row c1) as (ev & c2 & -> & [_ _ _] & Ha2 & Hq2 & _) end.
  cbn in Ha2, Hq2. unfold bind at 1, commit. rewrite Ha2. unfold bind at 1, interleave.
  cbn [c_committed c_aborted c_calls]. rewrite Hoth. unfold bind at 1, handle_approval_gate.
  assert (action_requires_approval (q_action row.2) = false /\
          str_in (q_action row.2) CANONICAL_QUEUE_ACTIONS = true) as [-> Hcan]
    by (by destruct Hact as [-> | ->]).
  cbn [negb]. unfold ret at 1. unfold bind at 1, run_action, try_catch. rewrite Hcan.
  unfold run_canonical. unfold bind at 1, run_command, stmt. cbn [c_aborted c_current].
  match goal with |- context [execute_response_command ?k ?cmd ?st] =>
    destruct (Hcmd st) as (e & [[o oc] l] & -> & Hdb) end.
  rewrite Hdb. eexists. split.
  - destruct e; simpl in Hdb; try done;
      unfold report_failure, bind at 1, on_queue, stmt; cbn [c_aborted]; reflexivity.
  - cbn. rewrite Hq2. split; [done|by rewrite Hr0].
Qed.
End CallProperties.

(** ** Witnesses *)

#[export, refine] Instance unit_tx : Transactional unit := { restore _ _ := tt }.
Proof. all: by intros []. Defined.

(** A command service that records tracking and succeeds, and one whose
    statements fail. *)
Definition ex_service : ResponseCommand unit :=
  {| command_tx := unit_tx;
     execute_response_command _ _ := ret (CommandResult true "tracked" "Recorded." None None None) |}.
Definition failing_service : ResponseCommand unit :=
  {| command_tx := unit_tx;
     execute_response_command _ _ := raise (DatabaseError "deadlock detected") |}.

Definition ex_env (t : Z) : call_env (X := unit) :=
  CallEnv None (Clock t t) (Clock t t) ∅ ∅ ∅ ∅ ∅ (fun d => d) (Some "10.0.0.0/8").

Definition ex_no_executor (row : Z * queue_row) : outcome pyval :=
  Raise (SkippedAction "Unsupported response action" "unsupported_action").

(** A queue holding one action of each kind, in id order. *)
Definition ex_worker_queue (a : string) : queue_store :=
  QueueStore {[ 1 := QueueRow (Some 12) (Some "198.51.100.7") a QPending 0 3 None "k" 0 0 (Some 1)
                       (Some "soar-12-0a1b2c3d4e5f") ]} 2.

(** An approved request for row 1. *)
Definition ex_approved : approval_store :=
  run_approval_ops [(Clock 0 0, Approvals.OpCreate (ApprovalParams None (Some 1) None None "block_ip" None None
                       "high" None 60)); (Clock 1 1, OpApprove 1 3 None None)] empty_approvals.

Definition ex_conn (a : string) (ap : approval_store) : worker_conn (X := unit) :=
  let d := WorkerDb (ex_worker_queue a) ap ex_outcomes (LogStore ∅ 1) tt in WorkerConn d d false [].

Lemma ex_conn_idle a ap : idle (ex_conn a ap).
Proof. done. Qed.

Lemma block_needs_approval_witness :
  let c := ex_conn "block_ip" ex_approved in
  length (c_calls (process_next_action (H := ex_service) ex_any_inet ex_no_executor (ex_env 2) c).2) = 1%nat /\
  exists row d, claimed c row d /\
    approval_given (ex_env 2) row (w_approvals d).
Proof.
  intros c. split; [by vm_compute|].
  destruct (block_needs_approval (H := ex_service) ex_any_inet ex_no_executor (ex_env 2) c
    (ex_conn_idle _ _)) as [Hc|(row & d & Hcl & Hcalls & _ & Hap)].
  - vm_compute in Hc. discriminate Hc.
  - exists row, d. split; [exact Hcl|]. apply Hap.
    assert (q_action row.2 = cr_action (queue_command row)) as Ha by reflexivity. rewrite Ha.
    assert (queue_command row = hd (queue_command row)
      (c_calls (process_next_action (H := ex_service) ex_any_inet ex_no_executor (ex_env 2) c).2)) as ->
      by (rewrite Hcalls; reflexivity).
    vm_compute. reflexivity.
Defined.

Lemma processed_row_settled_witness :
  exists r c', process_next_action (H := ex_service) ex_any_inet ex_no_executor (ex_env 2)
      (ex_conn "monitor" empty_approvals) = (Ok (Some r), c') /\ idle c' /\ wr_new_status r = QSuccess.
Proof.
  destruct (process_next_action (H := ex_service) ex_any_inet ex_no_executor (ex_env 2)
      (ex_conn "monitor" empty_approvals)) as [o c'] eqn:E.
  destruct o as [[r|]|e]; [|vm_compute in E; discriminate E..].
  exists r, c'. split; [reflexivity|].
  split; [apply (processed_row_settled _ _ _ _ _ _ (ex_conn_idle _ _) E)|].
  vm_compute in E. injection E as <- <-. reflexivity.
Defined.

Lemma worker_refines_lifecycle_witness :
  rtc queue_moves (ex_worker_queue "block_ip")
    (w_queue (c_committed (process_next_action (H := ex_service) ex_any_inet ex_no_executor (ex_env 2)
       (ex_conn "block_ip" empty_approvals)).2)).
Proof.
  apply (proj2 (worker_refines_lifecycle (H := ex_service) ex_any_inet ex_no_executor (ex_env 2)
    (ex_conn "block_ip" empty_approvals) (ex_conn_idle _ _))).
  intros d. apply rtc_refl.
Defined.

Lemma batch_bounded_witness :
  exists rs c', process_batch (H := ex_service) ex_any_inet ex_no_executor (fun k => ex_env (Z.of_nat k)) 5 0
      (ex_conn "monitor" empty_approvals) = (Ok rs, c') /\ idle c' /\ length rs = 1%nat.
Proof.
  destruct (process_batch (H := ex_service) ex_any_inet ex_no_executor (fun k => ex_env (Z.of_nat k)) 5 0
      (ex_conn "monitor" empty_approvals)) as [o c'] eqn:E.
  destruct o as [rs|e]; [|vm_compute in E; discriminate E].
  exists rs, c'. split; [reflexivity|].
  split; [apply (batch_bounded _ _ _ _ _ _ _ _ (ex_conn_idle _ _) E)|].
  vm_compute in E. injection E as <- <-. reflexivity.
Defined.

Lemma database_error_strands_action_witness :
  exists c', process_next_action (H := failing_service) ex_any_inet ex_no_executor (ex_env 2)
      (ex_conn "monitor" empty_approvals) = (Raise aborted_error, c') /\
    (q_status <$> qs_rows (w_queue (c_committed c')) !! 1) = Some QRunning.
Proof.
  set (row := (1, set_status QRunning 0 None 2 (QueueRow (Some 12) (Some "198.51.100.7") "monitor" QPending 0 3
    None "k" 0 0 (Some 1) (Some "soar-12-0a1b2c3d4e5f")))).
  destruct (database_error_strands_action (H := failing_service) ex_any_inet ex_no_executor (ex_env 2)
    (ex_conn "monitor" empty_approvals) row
    (claim_next_pending_action (Clock 2 2) ∅ None (ex_worker_queue "monitor")).2 (ex_conn_idle _ _))
    as (c' & Hc & Hrow & Hst).
  - vm_compute. reflexivity.
  - left. reflexivity.
  - reflexivity.
  - intros st. exists (DatabaseError "deadlock detected"), st. split; reflexivity.
  - exists c'. split; [exact Hc|]. change (row.1) with 1 in Hrow. rewrite Hrow. reflexivity.
Defined.
