(* ===== verification/Alerts.v ===== *)
(** * Alerts: the alert row a playbook reads, and trigger matching

    [_fetch_alert] and [_evaluate_trigger] of engines/playbook_engine.py. *)

From S2P Require Import Prelude PyText PyFloat PyValue Tables.

Open Scope Z_scope.

(** ** The row *)

(** The columns [_fetch_alert] selects. *)
Definition alert_keys : list string :=
  ["id"; "alert_type"; "severity"; "source_ip"; "source"; "source_type"; "message"; "status"; "country";
   "city"; "latitude"; "longitude"; "reputation_score"; "reputation_label"; "reputation_source";
   "reputation_summary"; "response_action"; "response_status"; "created_at"].

(** The alerts table: a row is a dict of its columns; the driver returns
    INTEGER as int, DOUBLE PRECISION as float, TEXT and host(..) as str,
    TIMESTAMPTZ as an aware datetime. *)
Abbreviation alert_table := (gmap Z pydict).

#[export, refine] Instance alert_table_tx : Transactional alert_table := { restore snap cur := snap }.
Proof. all: done. Defined.

Definition fetch_alert (alert_id : Z) (alerts : alert_table) : option pydict :=
  (fun row => map (fun k => (k, dget row k)) alert_keys) <$> alerts !! alert_id.

Definition int_column (v : pyval) : bool :=
  match v with PInt z => int4 z | _ => false end.
Definition text_column (v : pyval) : bool := match v with PStr _ => true | _ => false end.
Definition float_column (v : pyval) : bool := match v with PFloat _ => true | _ => false end.
Definition nullable (p : pyval -> bool) (v : pyval) : bool := is_none v || p v.

(** The schema's types of the selected columns. *)
Definition alert_row_ok (a : pydict) : bool :=
  int_column (dget a "id") &&
  forallb (fun k => text_column (dget a k)) ["alert_type"; "severity"; "source_ip"; "message"; "status"] &&
  forallb (fun k => nullable text_column (dget a k))
    ["source"; "source_type"; "country"; "city"; "reputation_label"; "reputation_source";
     "reputation_summary"; "response_action"; "response_status"] &&
  nullable float_column (dget a "latitude") && nullable float_column (dget a "longitude") &&
  nullable int_column (dget a "reputation_score") &&
  match dget a "created_at" with PDateTime _ => true | _ => false end.

(** ** Trigger matching *)

Definition CORRELATED_ALERT_TYPES : list string :=
  ["correlated_activity"; "web_to_app_attack_pattern"; "spray_then_success_pattern";
   "cloud_app_error_pattern"; "azure_auth_abuse_exception_correlation"].

Definition SEVERITY_RANK (s : string) : option Z :=
  if String.eqb s "low" then Some 1 else if String.eqb s "medium" then Some 2
  else if String.eqb s "high" then Some 3 else if String.eqb s "critical" then Some 4 else None.

Definition KNOWN_TRIGGER_KEYS : list string :=
  ["alert_type"; "exclude_alert_types"; "min_severity"; "source"; "correlation_flag";
   "reputation_score_min"].

(** The normalised exclusions; None when an item is not a non-blank string. *)
Fixpoint normalized_exclusions (items : list pyval) : option (list string) :=
  match items with
  | [] => Some []
  | item :: items =>
      match as_str item with
      | None => None
      | Some s => if is_empty (strip s) then None
                  else (fun l => lower (strip s) :: l) <$> normalized_exclusions items
      end
  end.

(** The exclusion clause: true when the alert is not excluded. *)
Definition exclusion_passes (excluded : pyval) (alert : pydict) : bool :=
  if is_none excluded then true
  else match as_list excluded with
  | None => false
  | Some items =>
      let alert_type := dget alert "alert_type" in
      if is_none alert_type then true
      else match normalized_exclusions items with
           | None => false
           | Some l => negb (str_in (lower (py_str alert_type)) l)
           end
  end.

(** One clause of the conjunction, by key. *)
Definition clause_passes (key : string) (value : pyval) (alert : pydict) : outcome bool :=
  if String.eqb key "alert_type" then
    if is_none value then Ok true
    else let at_ := dget alert "alert_type" in
         if is_none at_ then Ok false else Ok (String.eqb (lower (py_str at_)) (lower (py_str value)))
  else if String.eqb key "min_severity" then
    if is_none value then Ok false
    else match SEVERITY_RANK (lower (py_str value)) with
         | None => Ok false
         | Some want =>
             let sev := dget alert "severity" in
             if is_none sev then Ok false
             else match SEVERITY_RANK (lower (py_str sev)) with
                  | None => Ok false
                  | Some have => Ok (want <=? have)
                  end
         end
  else if String.eqb key "source" then
    let want := if is_none value then EmptyString else lower (py_str value) in
    (* [(have_raw or "").lower()]: a non-string has no [lower] *)
    match dget alert "source" with
    | PStr s => Ok (String.eqb (lower s) want)
    | v => if truthy v then Raise (OtherException "object has no attribute 'lower'")
           else Ok (String.eqb EmptyString want)
    end
  else if String.eqb key "correlation_flag" then
    match value with
    | PBool flag =>
        let at_ := dget alert "alert_type" in
        if is_none at_ then Ok false
        else Ok (Bool.eqb flag (str_in (py_str at_) CORRELATED_ALERT_TYPES))
    | _ => Ok true
    end
  else if String.eqb key "reputation_score_min" then
    match py_float value with
    | Ok minimum =>
        let score := dget alert "reputation_score" in
        let! effective := (if is_none score then Ok (S754_zero false) else py_float score) in
        Ok (negb (flt effective minimum))
    | Raise TypeError | Raise (ValueError _) => Ok false
    | Raise e => Raise e
    end
  else Ok true.

(** The loop over [trigger_config.items()], stopping at the first failure. *)
Fixpoint clauses_pass (config : pydict) (alert : pydict) : outcome bool :=
  match config with
  | [] => Ok true
  | (key, value) :: config =>
      let! ok := clause_passes key value alert in
      if ok then clauses_pass config alert else Ok false
  end.

Definition evaluate_trigger (trigger_config : pyval) (alert : pydict) : outcome bool :=
  match as_dict trigger_config with
  | None => Ok false
  | Some config =>
      if exclusion_passes (dget config "exclude_alert_types") alert then clauses_pass config alert
      else Ok false
  end.

(** The trigger of a definition: [definition.get("trigger_config") or {}],
    and [{}] when it is not a dict. *)
Definition definition_trigger (d : string * pyval) : pyval :=
  match d.2 with PDict c => PDict c | _ => PDict [] end.

Fixpoint matching_ids (definitions : list (string * pyval)) (alert : pydict) : outcome (list string) :=
  match definitions with
  | [] => Ok []
  | d :: definitions =>
      let! matches := evaluate_trigger (definition_trigger d) alert in
      let! rest := matching_ids definitions alert in
      Ok (if matches : bool then d.1 :: rest else rest)
  end.

(** [match_playbooks]: the enabled definitions, in the store's order, whose
    trigger matches; any exception yields no match at all. *)
Definition match_playbooks (definitions : list (string * pyval)) (alerts : alert_table) (alert_id : Z)
    : list string :=
  match fetch_alert alert_id alerts with
  | None => []
  | Some alert =>
      match matching_ids definitions alert with
      | Ok l => l
      | Raise _ => []
      end
  end.

(** ** Lemmas *)

Lemma clauses_pass_true config alert :
  clauses_pass config alert = Ok true <->
  Forall (fun kv => clause_passes kv.1 kv.2 alert = Ok true) config.
Proof.
  induction config as [|[k v] config IH]; simpl; [by split|]. rewrite Forall_cons. simpl.
  destruct (clause_passes k v alert) as [[]|e]; simpl; rewrite ?IH; naive_solver.
Qed.

(** ** Properties *)

(** A trigger matches exactly when the alert is not excluded and every
    clause holds, so the order of the clauses in the stored configuration
    and any unrecognised key are irrelevant. *)
Theorem trigger_is_conjunction (config config' : pydict) (alert : pydict) :
  config ≡ₚ config' -> dget config "exclude_alert_types" = dget config' "exclude_alert_types" ->
  (evaluate_trigger (PDict config) alert = Ok true <->
   exclusion_passes (dget config' "exclude_alert_types") alert = true /\
   forall k v, (k, v) ∈ config' -> k ∈ KNOWN_TRIGGER_KEYS -> clause_passes k v alert = Ok true).
Proof.
  intros Hp He. unfold evaluate_trigger. cbn [as_dict]. rewrite He.
  destruct (exclusion_passes _ _); [|by split; intros H; [done|destruct H]].
  rewrite clauses_pass_true, Hp, list.Forall_forall.
  split; [intros H; split; [done|]; intros k v Hin _; by apply (H (k, v))|].
  intros [_ H] [k v] Hin. destruct (decide (k ∈ KNOWN_TRIGGER_KEYS)) as [Hk|Hk]; [by apply H|].
  unfold clause_passes, KNOWN_TRIGGER_KEYS in *. simpl.
  repeat match goal with |- context [String.eqb k ?s] =>
    destruct (String.eqb_spec k s) as [->|]; [exfalso; set_solver|] end. done.
Qed.

(** Matching returns exactly the enabled definitions whose trigger
    matches, in the store's order, when no trigger raises; and a single
    definition whose trigger raises on the alert (an integer threshold too
    large for a float, say) suppresses every match, its own and the others'. *)
Theorem match_playbooks_all_or_nothing definitions alerts alert_id alert :
  fetch_alert alert_id alerts = Some alert ->
  ((forall d, d ∈ definitions -> exists b, evaluate_trigger (definition_trigger d) alert = Ok b) ->
   match_playbooks definitions alerts alert_id =
     fst <$> filter (fun d => evaluate_trigger (definition_trigger d) alert = Ok true) definitions) /\
  ((exists d e, d ∈ definitions /\ evaluate_trigger (definition_trigger d) alert = Raise e) ->
   match_playbooks definitions alerts alert_id = []).
Proof.
  intros Hf. unfold match_playbooks. rewrite Hf. clear Hf.
  split.
  - intros Hok. assert (matching_ids definitions alert = Ok (fst <$>
      filter (fun d => evaluate_trigger (definition_trigger d) alert = Ok true) definitions)) as ->; [|done].
    induction definitions as [|d ds IH]; [done|]. destruct (Hok d) as [b Hb]; [left|].
    cbn [matching_ids]. rewrite Hb, IH by (intros d' Hd; apply Hok; by right). rewrite filter_cons. cbn [obind].
    destruct b; [by rewrite decide_True|]. rewrite decide_False; [done|congruence].
  - intros (d & e & Hin & He). assert (exists e', matching_ids definitions alert = Raise e') as [e' ->]; [|done].
    induction Hin as [d ds|d d' ds Hin IH]; cbn [matching_ids].
    + rewrite He. cbn. eauto.
    + destruct (evaluate_trigger (definition_trigger d') alert); cbn [obind]; [|eauto].
      destruct (IH He) as [e' ->]. cbn. eauto.
Qed.

(** ** Witnesses *)

Definition ex_alert_row : pydict :=
  [("id", PInt 12); ("alert_type", PStr "failed_login_threshold"); ("severity", PStr "HIGH");
   ("source_ip", PStr "198.51.100.7"); ("message", PStr "m"); ("status", PStr "open");
   ("source", PStr "bank_app"); ("reputation_score", PInt 80);
   ("created_at", PDateTime (PyDateTime 2026 1 2 3 4 5 0 (Some 0)))].
Definition ex_alerts : alert_table := {[ 12 := ex_alert_row ]}.

Lemma trigger_is_conjunction_witness :
  exclusion_passes (dget [("future_key", PNone); ("min_severity", PStr "medium")] "exclude_alert_types")
    ex_alert_row = true /\
  evaluate_trigger (PDict [("min_severity", PStr "medium"); ("future_key", PNone)]) ex_alert_row = Ok true.
Proof.
  split; [by vm_compute|].
  apply (trigger_is_conjunction [("min_severity", PStr "medium"); ("future_key", PNone)]
    [("future_key", PNone); ("min_severity", PStr "medium")] ex_alert_row).
  - constructor.
  - reflexivity.
  - split; [by vm_compute|]. intros k v Hin Hk.
    apply elem_of_cons in Hin as [[= -> ->]|Hin%list_elem_of_singleton].
    + exfalso. vm_compute in Hk. set_solver.
    + injection Hin as -> ->. by vm_compute.
Defined.

Lemma match_playbooks_all_or_nothing_witness :
  match_playbooks [("p1", PDict []); ("p2", PDict [("reputation_score_min", PInt (10 ^ 400))])] ex_alerts 12 = [].
Proof.
  apply (match_playbooks_all_or_nothing _ ex_alerts 12
    (map (fun k => (k, dget ex_alert_row k)) alert_keys)); [reflexivity|].
  exists ("p2", PDict [("reputation_score_min", PInt (10 ^ 400))]), OverflowError. split.
  - right. left.
  - vm_compute. reflexivity.
Defined.
