(* ===== verification/ParamBinding.v ===== *)
(** * ParamBinding: engines/playbook_param_binding.py

    Whole-value [{{alert.<field>}}] and [{{execution.<field>}}] expressions
    in playbook step parameters: parsing, validation and resolution. *)

From S2P Require Import Prelude PyText PyFloat PyValue Tables Alerts.

Open Scope Z_scope.

Definition ALERT_BINDING_FIELDS : list string :=
  ["id"; "alert_type"; "severity"; "source_ip"; "source"; "source_type"; "message"; "status"; "country";
   "city"; "latitude"; "longitude"; "reputation_score"; "reputation_label"; "reputation_source";
   "reputation_summary"; "response_action"; "response_status"; "created_at"].
Definition EXECUTION_BINDING_FIELDS : list string := ["id"; "playbook_id"; "alert_id"].

Definition ALLOWED_BINDING_FIELDS (namespace : string) : option (list string) :=
  if String.eqb namespace "alert" then Some ALERT_BINDING_FIELDS
  else if String.eqb namespace "execution" then Some EXECUTION_BINDING_FIELDS else None.

(** ** Parsing *)

Definition field_char (c : ascii) : bool := is_lower_alpha c || is_digit c || Ascii.eqb c "_".

(** The field and what follows it: [[a-z][a-z0-9_]*]. *)
Fixpoint take_field (s : string) : string * string :=
  match s with
  | String c s' => if field_char c then let '(f, r) := take_field s' in (String c f, r) else (EmptyString, s)
  | EmptyString => (EmptyString, EmptyString)
  end.

Definition newline : string := String (ascii_of_N 10) EmptyString.

(** [\}\}$]: the end of the string, or a last newline. *)
Definition closes (s : string) : bool := String.eqb s "}}" || String.eqb s ("}}" +:+ newline).

Definition parse_field (namespace s : string) : option (string * string) :=
  match s with
  | String c _ =>
      let '(field, rest) := take_field s in
      if is_lower_alpha c && closes rest then Some (namespace, field) else None
  | EmptyString => None
  end.

(** [BINDING_EXPRESSION_RE.match]. *)
Definition match_binding (s : string) : option (string * string) :=
  match drop_prefix "{{alert." s with
  | Some s => parse_field "alert" s
  | None => match drop_prefix "{{execution." s with
            | Some s => parse_field "execution" s
            | None => None
            end
  end.

Definition parse_binding_expression (value : pyval) : option (string * string) :=
  match as_str value with
  | Some s => if contains "{{" s then match_binding s else None
  | None => None
  end.

(** ** Validation *)

Definition validate_param_binding_value (value : pyval) (prefix : string) : list string :=
  match as_str value with
  | None => []
  | Some s =>
      if negb (contains "{{" s) then []
      else match parse_binding_expression value with
           | None => [prefix +:+ ": invalid binding expression " +:+ str_repr s +:+
                      "; expected whole-value form {{alert.<field>}} or {{execution.<field>}}"]
           | Some (namespace, field) =>
               match ALLOWED_BINDING_FIELDS namespace with
               | Some allowed =>
                   if str_in field allowed then []
                   else [prefix +:+ ": unsupported " +:+ namespace +:+ " binding field " +:+ str_repr field]
               | None => [prefix +:+ ": unsupported " +:+ namespace +:+ " binding field " +:+ str_repr field]
               end
           end
  end.

Definition validate_step_param_bindings (step : pydict) (prefix : string) : list string :=
  match as_dict (dget step "params") with
  | None => []
  | Some params =>
      flat_map (fun kv => validate_param_binding_value kv.2 (prefix +:+ ".params." +:+ kv.1)) params
  end.

(** ** Resolution *)

(** [value.isoformat().replace("+00:00", "Z")]: the offset is the only place
    the text occurs in an isoformat. *)
Definition iso_z (d : pydatetime) : string :=
  match dt_offset d with
  | Some 0 => isoformat "T" (PyDateTime (dt_year d) (dt_month d) (dt_day d) (dt_hour d) (dt_minute d)
                               (dt_second d) (dt_micro d) None) +:+ "Z"
  | _ => isoformat "T" d
  end.

(** [int(v)] of an integral Decimal, [float(v)] of another. *)
Definition coerce_decimal (m e : Z) : pyval :=
  if 0 <=? e then PInt (m * pow10 e)
  else if m mod pow10 (- e) =? 0 then PInt (m / pow10 (- e)) else PFloat (float_of_dec m e).

Definition coerce_binding_value (value : pyval) : pyval :=
  match value with
  | PDateTime d => PStr (iso_z d)
  | PDate y m d => PStr (iso_date y m d)
  | PDec m e => coerce_decimal m e
  | _ => value
  end.

Definition execution_binding_value (execution : pydict) (field : string) : pyval :=
  if str_in field EXECUTION_BINDING_FIELDS then dget execution field else PNone.

Definition needs_alert (params : pydict) : bool :=
  existsb (fun kv => match parse_binding_expression kv.2 with
                     | Some (namespace, _) => String.eqb namespace "alert"
                     | None => false
                     end) params.

Definition context_missing {A} : outcome A :=
  Raise (ParamBindingError "binding_alert_context_missing"
           "Dynamic alert binding requires an alert_id on the execution.").

(** The alert the bindings read: the snapshot, or the row, or nothing when
    no parameter asks for it. *)
Definition binding_alert (params : pydict) (execution : pydict) (snapshot : option pydict)
    (alerts : alert_table) : outcome (option pydict) :=
  match snapshot with
  | Some a => Ok (Some a)
  | None =>
      if negb (needs_alert params) then Ok None
      else match dget execution "alert_id" with
           | PInt alert_id =>
               match fetch_alert alert_id alerts with
               | Some a => Ok (Some a)
               | None => Raise (ParamBindingError "binding_alert_not_found"
                                  ("Alert " +:+ str_int alert_id +:+ " was not found for parameter binding."))
               end
           | _ => context_missing
           end
  end.

Definition resolve_value (value : pyval) (execution : pydict) (alert : option pydict) : outcome pyval :=
  match parse_binding_expression value with
  | None => Ok value
  | Some (namespace, field) =>
      let! raw := (if String.eqb namespace "alert"
                   then match alert with
                        | Some a => Ok (dget a field)
                        | None => context_missing
                        end
                   else Ok (execution_binding_value execution field)) in
      if is_none raw
      then Raise (ParamBindingError "binding_field_missing"
                    ("Binding field " +:+ namespace +:+ "." +:+ field +:+ " is missing or null."))
      else Ok (coerce_binding_value raw)
  end.

Fixpoint resolve_items (params : pydict) (execution : pydict) (alert : option pydict) : outcome pydict :=
  match params with
  | [] => Ok []
  | (key, value) :: params =>
      let! v := resolve_value value execution alert in
      let! rest := resolve_items params execution alert in
      Ok ((key, v) :: rest)
  end.

Definition resolve_step_params (params execution : pydict) (snapshot : option pydict)
    (alerts : alert_table) : outcome pydict :=
  match params with
  | [] => Ok []
  | _ => let! alert := binding_alert params execution snapshot alerts in
         resolve_items params execution alert
  end.

(** ** Lemmas *)

Lemma drop_prefix_app p s : drop_prefix p (p +:+ s) = Some s.
Proof. induction p as [|c p IH]; simpl; [done|]. by rewrite Ascii.eqb_refl. Qed.

Lemma drop_prefix_Some p s r : drop_prefix p s = Some r -> s = p +:+ r.
Proof.
  revert s. induction p as [|c p IH]; intros s; simpl; [by intros [= ->]|].
  destruct s as [|d s]; [done|].
  destruct (Ascii.eqb c d) eqn:E; [|done]. apply Ascii.eqb_eq in E as ->. by intros ->%IH.
Qed.

Lemma take_field_app f r :
  all_chars field_char f = true -> (match r with String c _ => field_char c | _ => false end) = false ->
  take_field (f +:+ r) = (f, r).
Proof.
  intros Hf Hr. induction f as [|c f IH]; simpl in *.
  - destruct r as [|c r]; [done|]. simpl. by rewrite Hr.
  - apply andb_true_iff in Hf as [-> Hf]. by rewrite IH.
Qed.

Lemma take_field_spec s f r :
  take_field s = (f, r) -> s = f +:+ r /\ all_chars field_char f = true.
Proof.
  revert f r. induction s as [|c s IH]; simpl; intros f r; [by intros [= <- <-]|].
  destruct (field_char c) eqn:Hc; [|by intros [= <- <-]].
  destruct (take_field s) as [f' r'] eqn:E. intros [= <- <-].
  destruct (IH f' r' eq_refl) as [-> Hf]. simpl. by rewrite Hc.
Qed.

(** A field name: [[a-z][a-z0-9_]*]. *)
Definition field_name (f : string) : bool :=
  match f with
  | String c _ => is_lower_alpha c && all_chars field_char f
  | EmptyString => false
  end.

Lemma closes_spec s : closes s = true <-> s = "}}" \/ s = "}}" +:+ newline.
Proof. unfold closes. by rewrite orb_true_iff, !String.eqb_eq. Qed.

Lemma parse_field_spec ns s x :
  parse_field ns s = Some x <->
  x.1 = ns /\ field_name x.2 = true /\ (s = x.2 +:+ "}}" \/ s = x.2 +:+ ("}}" +:+ newline)).
Proof.
  destruct x as [ns' f]. cbn [fst snd]. unfold parse_field. split.
  - destruct s as [|c s]; [done|]. destruct (take_field (String c s)) as [f' r] eqn:E.
    destruct (is_lower_alpha c && closes r) eqn:Hc; [|done]. intros [= <- <-].
    apply andb_true_iff in Hc as [Ha Hr%closes_spec]. apply take_field_spec in E as [Hs Hf].
    split; [done|]. split; [|rewrite Hs; by destruct Hr as [-> | ->]; [left|right]].
    unfold field_name. destruct f' as [|d f']; simpl in Hs.
    + destruct Hr as [-> | ->]; injection Hs as -> _; by vm_compute in Ha.
    + injection Hs as <- _. by rewrite Ha.
  - intros (-> & Hf & Hs).
    assert (exists r, s = f +:+ r /\ closes r = true) as (r & -> & Hr).
    { destruct Hs as [-> | ->]; eexists; (split; [reflexivity|by vm_compute]). }
    unfold field_name in Hf. destruct f as [|c f]; [done|].
    apply andb_true_iff in Hf as [Ha Hf].
    change (String c f +:+ r) with (String c (f +:+ r)) at 1. cbn iota.
    rewrite take_field_app; [|done|].
    + by rewrite Ha, Hr.
    + apply closes_spec in Hr. by destruct Hr as [-> | ->].
Qed.

Lemma contains_prefix p s : contains p (p +:+ s) = true.
Proof.
  destruct s as [|c s].
  - assert (String.prefix p (p +:+ EmptyString) = true) as H.
    { induction p as [|c p IH]; simpl; [done|]. destruct (ascii_dec c c); done. }
    destruct p; simpl in *; by rewrite ?H.
  - assert (String.prefix p (p +:+ String c s) = true) as H.
    { induction p as [|d p IH]; simpl; [done|]. destruct (ascii_dec d d); done. }
    destruct p as [|d p]; [done|]. cbn [contains]. change (String d p +:+ String c s) with
      (String d (p +:+ String c s)) in *. cbn [contains]. by rewrite H.
Qed.

Definition binding_text (ns f : string) : string := "{{" +:+ ns +:+ "." +:+ f +:+ "}}".

(** The parser accepts exactly the printed bindings, up to a last newline. *)
Lemma parse_binding_spec v ns f :
  parse_binding_expression v = Some (ns, f) <->
  (ns = "alert" \/ ns = "execution") /\ field_name f = true /\
  (v = PStr (binding_text ns f) \/ v = PStr (binding_text ns f +:+ newline)).
Proof.
  unfold parse_binding_expression, binding_text. split.
  - destruct (as_str v) as [s|] eqn:Hs; [|done]. apply as_str_Some in Hs as ->.
    destruct (contains "{{" s); [|done]. unfold match_binding.
    destruct (drop_prefix "{{alert." s) as [t|] eqn:Ea.
    { apply drop_prefix_Some in Ea as ->. intros (Hns & Hf & Ht)%parse_field_spec. cbn [fst snd] in *. subst ns.
      split_and!; [by left|done|]. by destruct Ht as [-> | ->]; [left|right; rewrite ?str_app_assoc]. }
    destruct (drop_prefix "{{execution." s) as [t|] eqn:Ee; [|done].
    apply drop_prefix_Some in Ee as ->. intros (Hns & Hf & Ht)%parse_field_spec. cbn [fst snd] in *. subst ns.
    split_and!; [by right|done|]. by destruct Ht as [-> | ->]; [left|right; rewrite ?str_app_assoc].
  - intros (Hns & Hf & Hv).
    assert (exists t, v = PStr ("{{" +:+ ns +:+ "." +:+ t) /\ (t = f +:+ "}}" \/ t = f +:+ ("}}" +:+ newline)))
      as (t & -> & Ht).
    { destruct Hv as [-> | ->]; [exists (f +:+ "}}")|exists (f +:+ ("}}" +:+ newline))]; split; auto.
      by rewrite !str_app_assoc. }
    clear Hv. cbn [as_str]. rewrite contains_prefix. unfold match_binding.
    destruct Hns as [-> | ->].
    + change ("{{" +:+ "alert" +:+ "." +:+ t) with ("{{alert." +:+ t). rewrite drop_prefix_app.
      by apply parse_field_spec.
    + change ("{{" +:+ "execution" +:+ "." +:+ t) with ("{{execution." +:+ t).
      replace (drop_prefix "{{alert." ("{{execution." +:+ t)) with (@None string) by done.
      rewrite drop_prefix_app. by apply parse_field_spec.
Qed.

(** Values JSON can carry. *)
Fixpoint json_value (v : pyval) : bool :=
  match v with
  | PDec _ _ | PDateTime _ | PDate _ _ _ => false
  | PList l => forallb json_value l
  | PDict d => forallb (fun kv => json_value kv.2) d
  | _ => true
  end.

Lemma dget_json a k :
  alert_row_ok a = true -> k ∈ ALERT_BINDING_FIELDS -> json_value (coerce_binding_value (dget a k)) = true.
Proof.
  intros Hok Hk. unfold alert_row_ok, nullable in Hok. simpl in Hok. rewrite !andb_true_iff in Hok.
  destruct_and! Hok. unfold ALERT_BINDING_FIELDS in Hk.
  repeat (apply elem_of_cons in Hk as [->|Hk];
    [match goal with H : context [dget a ?f] |- context [dget a ?f] => by destruct (dget a f) end|]).
  by apply not_elem_of_nil in Hk.
Qed.

Lemma validated_field v prefix ns f :
  validate_param_binding_value v prefix = [] -> parse_binding_expression v = Some (ns, f) ->
  exists allowed, ALLOWED_BINDING_FIELDS ns = Some allowed /\ f ∈ allowed.
Proof.
  unfold validate_param_binding_value. intros Hv Hp. rewrite Hp in Hv.
  unfold parse_binding_expression in Hp. destruct (as_str v); [|done].
  destruct (contains "{{" s); [|done]. cbn [negb] in Hv.
  destruct (ALLOWED_BINDING_FIELDS ns) as [l|]; [|done]. exists l. split; [done|].
  destruct (str_in f l) eqn:E; [by apply str_in_spec|done].
Qed.

(** ** Properties *)

(** Binding expressions round-trip: a text parses as a binding of field
    [f] in namespace [ns] exactly when it is [{{ns.f}}], possibly followed
    by one newline, with [ns] alert or execution and [f] an identifier; no
    embedded or partial expression is ever taken for a binding. *)
Theorem binding_roundtrip v ns f :
  parse_binding_expression v = Some (ns, f) <->
  (ns = "alert" \/ ns = "execution") /\ field_name f = true /\
  (v = PStr (binding_text ns f) \/ v = PStr (binding_text ns f +:+ newline)).
Proof. apply parse_binding_spec. Qed.

(** The parameters of a step that validated, the row they are read from and
    the execution are well typed. *)
Definition params_ok (params execution : pydict) (alerts : alert_table) : Prop :=
  (forall k v prefix, (k, v) ∈ params -> json_value v = true /\ validate_param_binding_value v prefix = []) /\
  (forall i a, fetch_alert i alerts = Some a -> alert_row_ok a = true) /\
  (forall k, k ∈ EXECUTION_BINDING_FIELDS -> json_value (dget execution k) = true).

Lemma resolve_value_json v execution alert prefix r :
  json_value v = true -> validate_param_binding_value v prefix = [] ->
  (forall a, alert = Some a -> alert_row_ok a = true) ->
  (forall k, k ∈ EXECUTION_BINDING_FIELDS -> json_value (dget execution k) = true) ->
  match resolve_value v execution alert with
  | Ok r => json_value r = true /\ parse_binding_expression v = None -> r = v
  | Raise e => exists code m, e = ParamBindingError code m
  end /\ (resolve_value v execution alert = Ok r -> json_value r = true).
Proof.
  intros Hj Hv Ha He. unfold resolve_value.
  destruct (parse_binding_expression v) as [[ns f]|] eqn:Hp; [|split; [by intros [_ _]|by intros [= <-]]].
  destruct (validated_field _ _ _ _ Hv Hp) as (l & Hl & Hf). unfold ALLOWED_BINDING_FIELDS in Hl.
  destruct (String.eqb ns "alert").
  - injection Hl as <-. destruct alert as [a|]; cbn [obind].
    + destruct (is_none (dget a f)); [split; [by do 2 eexists|done]|]. split; [by intros [_ ?]|].
      intros [= <-]. apply dget_json; [by apply Ha|done].
    + split; [by do 2 eexists|done].
  - destruct (String.eqb ns "execution"); [|done]. injection Hl as <-. cbn [obind].
    unfold execution_binding_value. rewrite (proj2 (str_in_spec _ _) Hf).
    specialize (He f Hf). destruct (is_none (dget execution f)); [split; [by do 2 eexists|done]|].
    split; [by intros [_ ?]|]. intros [= <-]. by destruct (dget execution f).
Qed.

(** Resolving the parameters of a validated step either yields a dict
    with the same keys in the same order, whose every value JSON can carry
    (datetimes and decimals are converted) and whose unbound values are
    unchanged, or raises a binding error; no other exception escapes. *)
Theorem resolved_params_json params execution alerts :
  params_ok params execution alerts ->
  match resolve_step_params params execution None alerts with
  | Ok r => r.*1 = params.*1 /\ (forall k v, (k, v) ∈ r -> json_value v = true) /\
            (needs_alert params = false -> forall k v, (k, v) ∈ params ->
               parse_binding_expression v = None -> (k, v) ∈ r)
  | Raise e => exists code m, e = ParamBindingError code m
  end.
Proof.
  intros (Hv & Hrow & He). unfold resolve_step_params. destruct params as [|p ps] eqn:Hps.
  { split_and!; [done| |]; intros; by apply not_elem_of_nil in H || (by apply not_elem_of_nil in H0). }
  rewrite <- Hps in *. clear Hps p ps.
  destruct (binding_alert params execution None alerts) as [alert|e] eqn:Ha; cbn [obind].
  2: { unfold binding_alert, context_missing in Ha. repeat case_match; simplify_eq; eauto. }
  assert (forall a, alert = Some a -> alert_row_ok a = true) as Hok.
  { intros a ->. unfold binding_alert, context_missing in Ha.
    destruct (negb (needs_alert params)); [done|]. destruct (dget execution "alert_id"); try done.
    destruct (fetch_alert z alerts) eqn:Ef; [|done]. simplify_eq. by eapply Hrow. }
  clear Ha. revert Hv. induction params as [|[k v] params IH]; intros Hv; simpl.
  { split_and!; [done|intros ?? Hi; by apply not_elem_of_nil in Hi|].
    intros _ ?? Hi; by apply not_elem_of_nil in Hi. }
  destruct (Hv k v EmptyString) as [Hj Hval]; [left|].
  destruct (resolve_value_json v execution alert _ (default v (match resolve_value v execution alert with
    | Ok r => Some r | Raise _ => None end)) Hj Hval Hok He) as [H1 H2].
  destruct (resolve_value v execution alert) as [r|e] eqn:Er; cbn [obind]; [|done].
  assert (forall k v prefix, (k, v) ∈ params -> json_value v = true /\ validate_param_binding_value v prefix = [])
    as Hv' by (intros; apply (Hv k0); by right).
  specialize (IH Hv'). destruct (resolve_items params execution alert) as [rest|e]; cbn [obind]; [|done].
  destruct IH as (Hk & Hjr & Hun). simpl in H2. split_and!.
  - rewrite !fmap_cons. by f_equal.
  - intros k' v' [[= -> ->]|Hin]%elem_of_cons; eauto.
  - intros Hneed k' v' [[= -> ->]|Hin]%elem_of_cons Hnone.
    + rewrite H1; [left|]. split; [by apply H2|done].
    + right. apply Hun; try done. unfold needs_alert in *. by apply orb_false_iff in Hneed as [_ ?].
Qed.

(** ** Witness *)

Lemma resolved_params_json_witness :
  exists r, resolve_step_params [("channel", PStr "#soc"); ("score", PStr "{{alert.reputation_score}}")]
      [("id", PInt 5); ("playbook_id", PStr "pb"); ("alert_id", PInt 12)] None ex_alerts = Ok r /\
    r.*1 = ["channel"; "score"].
Proof.
  pose proof (resolved_params_json [("channel", PStr "#soc"); ("score", PStr "{{alert.reputation_score}}")]
    [("id", PInt 5); ("playbook_id", PStr "pb"); ("alert_id", PInt 12)] ex_alerts) as H.
  destruct (resolve_step_params _ _ None ex_alerts) as [r|e] eqn:E; [|vm_compute in E; discriminate E].
  exists r. split; [reflexivity|]. apply H. split_and!.
  - intros k v prefix Hin.
    apply elem_of_cons in Hin as [[= -> ->]|Hin%list_elem_of_singleton]; [by split|].
    injection Hin as -> ->. split; reflexivity.
  - intros i a Hf. unfold fetch_alert, ex_alerts in Hf.
    destruct (decide (i = 12)) as [->|]; [|by rewrite lookup_singleton_ne in Hf].
    rewrite lookup_singleton_eq in Hf. injection Hf as <-. vm_compute. reflexivity.
  - intros k Hk. unfold EXECUTION_BINDING_FIELDS in Hk.
    repeat (apply elem_of_cons in Hk as [->|Hk]; [reflexivity|]). by apply not_elem_of_nil in Hk.
Defined.
