(* ===== verification/BranchConditions.v ===== *)
(** * BranchConditions: engines/playbook_branch_conditions.py

    Labels, branch targets and branch conditions of playbook steps: their
    validation when a playbook is saved and their evaluation when it runs. *)

From S2P Require Import Prelude PyText PyFloat PyValue Tables Alerts ParamBinding.

Open Scope Z_scope.

Definition BRANCH_CONDITION_SOURCES : list string := ["alert"; "previous_step"; "approval"].
Definition EQUALITY_OPS : list string := ["=="; "!="].
Definition ORDINAL_OPS : list string := [">="; ">"; "<="; "<"].
Definition NUMERIC_ALERT_FIELDS : list string := ["id"; "reputation_score"; "latitude"; "longitude"].
Definition PREVIOUS_STEP_STATUS_VALUES : list string := ["success"; "failed"; "skipped"].
Definition APPROVAL_STATUS_VALUES : list string := ["approved"; "denied"; "expired"].

(** ** Labels *)

(** [label_map]: a later step with the same label wins. *)
Fixpoint add_labels (steps : list pyval) (index : Z) (m : gmap string Z) : gmap string Z :=
  match steps with
  | [] => m
  | step :: steps =>
      add_labels steps (index + 1)
        match as_dict step with
        | Some d => match as_nonempty_str (dget d "label") with
                    | Some label => <[label := index]> m
                    | None => m
                    end
        | None => m
        end
  end.

Definition build_label_index_map (steps : list pyval) : gmap string Z := add_labels steps 0 ∅.

Definition validate_step_label (step : pydict) (prefix : string) : list string :=
  let label := dget step "label" in
  if is_none label then []
  else match as_nonempty_str label with
       | None => [prefix +:+ ": label must be a non-empty string"]
       | Some s =>
           if field_name s then []
           else [prefix +:+ ": invalid label " +:+ str_repr s +:+
                 "; expected form matching ^[a-z][a-z0-9_]*$"]
       end.

Definition validate_branch_target (label : string) (branch_index : Z) (label_map : gmap string Z)
    (prefix : string) : list string :=
  match label_map !! label with
  | None => [prefix +:+ ": unknown label " +:+ str_repr label]
  | Some target_index =>
      if target_index <=? branch_index
      then [prefix +:+ ": label " +:+ str_repr label +:+ " resolves to step[" +:+ str_int target_index +:+
            "], which is not forward of branch step[" +:+ str_int branch_index +:+ "]"]
      else []
  end.

Definition resolve_label_target_index (steps : list pyval) (label : string) (branch_index : Z) : option Z :=
  match build_label_index_map steps !! label with
  | None => None
  | Some target => if target <=? branch_index then None else Some target
  end.

(** ** Conditions: validation *)

Definition is_numeric_field (field : string) : bool := str_in field NUMERIC_ALERT_FIELDS.

Definition allowed_ops_for_alert_field (field : string) : list string :=
  if String.eqb field "severity" || is_numeric_field field then EQUALITY_OPS ++ ORDINAL_OPS
  else EQUALITY_OPS.

Definition validate_condition_value_type (field : string) (value : pyval) (prefix : string) : list string :=
  if is_numeric_field field then
    match value with
    | PInt _ | PFloat _ => []
    | _ => [prefix +:+ ": condition.value must be a number for field " +:+ str_repr field]
    end
  else match value with
       | PStr _ => []
       | _ => [prefix +:+ ": condition.value must be a string for field " +:+ str_repr field]
       end.

(** previous_step and approval conditions differ in the accepted values. *)
Definition validate_status_condition (what : string) (values : list string) (field op : string)
    (value : pyval) (prefix : string) : outcome (list string) :=
  if negb (String.eqb field "status")
  then Ok [prefix +:+ ": " +:+ what +:+ " conditions must use field 'status'"]
  else if negb (str_in op EQUALITY_OPS)
  then Ok [prefix +:+ ": " +:+ what +:+ " conditions support only == and !="]
  else
    let! known := in_str_set value values in
    Ok (if known : bool then []
        else [prefix +:+ ": " +:+ what +:+ " condition value must be one of " +:+ show_choices values]).

Definition validate_branch_condition (condition : pyval) (prefix : string) : outcome (list string) :=
  match as_dict condition with
  | None => Ok [prefix +:+ ": condition must be an object"]
  | Some c =>
      let! known := in_str_set (dget c "source") BRANCH_CONDITION_SOURCES in
      if negb known
      then Ok [prefix +:+ ": invalid condition.source " +:+ py_repr (dget c "source") +:+
               "; must be one of " +:+ show_choices BRANCH_CONDITION_SOURCES]
      else match as_nonempty_str (dget c "field") with
      | None => Ok [prefix +:+ ": condition.field must be a non-empty string"]
      | Some field =>
          match as_str (dget c "op") with
          | None => Ok [prefix +:+ ": invalid condition.op " +:+ py_repr (dget c "op")]
          | Some op =>
              if negb (str_in op (EQUALITY_OPS ++ ORDINAL_OPS))
              then Ok [prefix +:+ ": invalid condition.op " +:+ py_repr (dget c "op")]
              else if eq_str (dget c "source") "alert" then
                if negb (str_in field ALERT_BINDING_FIELDS)
                then Ok [prefix +:+ ": unsupported alert condition field " +:+ str_repr field]
                else if negb (str_in op (allowed_ops_for_alert_field field))
                then Ok [prefix +:+ ": operator " +:+ str_repr op +:+ " is not valid for alert field " +:+
                         str_repr field]
                else Ok (validate_condition_value_type field (dget c "value") prefix)
              else if eq_str (dget c "source") "previous_step"
              then validate_status_condition "previous_step" PREVIOUS_STEP_STATUS_VALUES field op
                     (dget c "value") prefix
              else validate_status_condition "approval" APPROVAL_STATUS_VALUES field op (dget c "value") prefix
          end
      end
  end.

Definition step_prefix (index : Z) : string := "step[" +:+ str_int index +:+ "]".

Definition validate_branch_step (step : pydict) (step_index : Z) (label_map : gmap string Z)
    : outcome (list string) :=
  let prefix := step_prefix step_index in
  let condition := dget step "condition" in
  let! condition_errors :=
    (match as_dict condition with
     | None => Ok [prefix +:+ ": branch step requires condition object"]
     | Some _ => validate_branch_condition condition (prefix +:+ ".condition")
     end) in
  let true_errors :=
    match as_nonempty_str (dget step "goto_true") with
    | None => [prefix +:+ ": branch step requires non-empty goto_true"]
    | Some l => validate_branch_target l step_index label_map (prefix +:+ ".goto_true")
    end in
  let goto_false := dget step "goto_false" in
  let false_errors :=
    if is_none goto_false then []
    else match as_nonempty_str goto_false with
         | None => [prefix +:+ ": goto_false must be a non-empty string when set"]
         | Some l => validate_branch_target l step_index label_map (prefix +:+ ".goto_false")
         end in
  Ok (condition_errors ++ true_errors ++ false_errors).

(** ** Conditions: evaluation *)

Definition branch_error {A} (code msg : string) : outcome A := Raise (BranchConditionError code msg).

Definition resolve_alert_field (alerts : alert_table) (alert_id : option Z) (field : pyval) : outcome pyval :=
  match alert_id with
  | None => branch_error "binding_alert_context_missing"
              "Alert-sourced branch condition requires an alert_id on the execution."
  | Some i =>
      match fetch_alert i alerts with
      | None => branch_error "binding_alert_not_found"
                  ("Alert " +:+ str_int i +:+ " was not found for branch evaluation.")
      | Some alert =>
          match field with
          | PList _ | PDict _ => Raise TypeError
          | _ =>
              let value := match field with PStr f => dget alert f | _ => PNone end in
              if is_none value
              then branch_error "binding_field_missing"
                     ("Branch condition field alert." +:+ py_str field +:+ " is missing or null.")
              else Ok match value with PDec m e => coerce_decimal m e | v => v end
          end
      end
  end.

Definition is_int_value (v : pyval) : bool := match as_int v with Some _ => true | None => false end.

(** The newest entry that records a step's status; an unhashable status
    raises. *)
Fixpoint newest_step_status (newest_first : list pyval) : outcome (option string) :=
  match newest_first with
  | [] => Ok None
  | entry :: rest =>
      match as_dict entry with
      | None => newest_step_status rest
      | Some e =>
          let! known := in_str_set (dget e "status") PREVIOUS_STEP_STATUS_VALUES in
          if known && is_int_value (dget e "step_index") then Ok (Some (py_str (dget e "status")))
          else newest_step_status rest
      end
  end.

Definition latest_previous_step_status (steps_log : list pyval) : outcome (option string) :=
  newest_step_status (rev steps_log).

Fixpoint newest_approval_decision (newest_first : list pyval) : option string :=
  match newest_first with
  | [] => None
  | entry :: rest =>
      match as_dict entry with
      | None => newest_approval_decision rest
      | Some e =>
          if negb (eq_str (dget e "action") "require_approval") then newest_approval_decision rest
          else if eq_str (dget e "event") "approval_approved" then Some "approved"
          else if eq_str (dget e "event") "approval_denied" then Some "denied"
          else if eq_str (dget e "event") "approval_expired" then Some "expired"
          else newest_approval_decision rest
      end
  end.

Definition latest_approval_decision_status (steps_log : list pyval) : option string :=
  newest_approval_decision (rev steps_log).

Definition compare_numeric (actual : pyval) (op : pyval) (expected : pyval) : outcome bool :=
  let! lhs := py_float actual in
  let! rhs := py_float expected in
  if eq_str op "==" then Ok (feq lhs rhs)
  else if eq_str op "!=" then Ok (negb (feq lhs rhs))
  else if eq_str op ">=" then Ok (fle rhs lhs)
  else if eq_str op ">" then Ok (flt rhs lhs)
  else if eq_str op "<=" then Ok (fle lhs rhs)
  else if eq_str op "<" then Ok (flt lhs rhs)
  else branch_error "branch_condition_invalid"
         ("Unsupported numeric comparison operator: " +:+ py_repr op).

Definition compare_equality (actual : string) (op : pyval) (expected : pyval) : outcome bool :=
  if eq_str op "==" then Ok (String.eqb actual (py_str expected))
  else if eq_str op "!=" then Ok (negb (String.eqb actual (py_str expected)))
  else branch_error "branch_condition_invalid"
         ("Unsupported equality comparison operator: " +:+ py_repr op).

Definition compare_severity (actual : string) (op : pyval) (expected : string) : outcome bool :=
  match SEVERITY_RANK (lower (strip actual)), SEVERITY_RANK (lower (strip expected)) with
  | Some a, Some e => compare_numeric (PInt a) op (PInt e)
  | _, _ => branch_error "branch_condition_invalid"
              ("Unsupported severity value in branch comparison: " +:+ str_repr actual +:+ " vs " +:+
               str_repr expected)
  end.

Definition compare_values (actual : pyval) (op expected field : pyval) : outcome bool :=
  if eq_str field "severity" then compare_severity (py_str actual) op (py_str expected)
  else let! numeric := in_str_set field NUMERIC_ALERT_FIELDS in
       if numeric : bool then compare_numeric actual op expected
       else compare_equality (py_str actual) op expected.

Definition evaluate_branch_condition (alerts : alert_table) (condition : pydict) (alert_id : option Z)
    (steps_log : list pyval) : outcome bool :=
  let! source := dindex condition "source" in
  let! field := dindex condition "field" in
  let! op := dindex condition "op" in
  let! expected := dindex condition "value" in
  if eq_str source "alert" then
    let! actual := resolve_alert_field alerts alert_id field in
    compare_values actual op expected field
  else if eq_str source "previous_step" then
    let! status := latest_previous_step_status steps_log in
    match status with
    | None => branch_error "branch_context_missing"
                "No previous step outcome is available for branch evaluation."
    | Some s => compare_equality s op expected
    end
  else match latest_approval_decision_status steps_log with
       | None => branch_error "branch_context_missing"
                   "No approval gate decision is available for branch evaluation."
       | Some s => compare_equality s op expected
       end.

(** ** Labels and targets *)

(** The label a step carries, as the label map reads it. *)
Definition step_label (step : pyval) : option string :=
  match as_dict step with Some d => as_nonempty_str (dget d "label") | None => None end.

Lemma add_labels_lookup steps k m l i :
  add_labels steps k m !! l = Some i ->
  (exists n s, i = k + Z.of_nat n /\ steps !! n = Some s /\ step_label s = Some l /\
     forall n' s', steps !! n' = Some s' -> step_label s' = Some l -> (n' <= n)%nat) \/
  (m !! l = Some i /\ forall s, s ∈ steps -> step_label s <> Some l).
Proof.
  revert k m. induction steps as [|s steps IH]; intros k m; simpl.
  { intros H. right. split; [done|]. intros s Hs. by apply not_elem_of_nil in Hs. }
  intros Hi. apply IH in Hi as [(n & s' & -> & Hn & Hl & Hmax)|[Hm Hnone]].
  - left. exists (S n), s'. split_and!; [lia|done|done|].
    intros [|n'] s'' Hn' Hl'; [lia|]. apply le_n_S. by eapply Hmax.
  - assert (match as_dict s with Some d => match as_nonempty_str (dget d "label") with
      | Some label => <[label := k]> m | None => m end | None => m end =
      match step_label s with Some label => <[label := k]> m | None => m end) as Heq.
    { unfold step_label. by destruct (as_dict s). }
    rewrite Heq in Hm. clear Heq. destruct (step_label s) as [l'|] eqn:El.
    + destruct (decide (l' = l)) as [->|Hne].
      * rewrite lookup_insert_eq in Hm. injection Hm as <-. left. exists 0%nat, s.
        split_and!; [lia|done|done|]. intros [|n'] s' Hn' Hl'; [lia|].
        exfalso. eapply (Hnone s'); [|done]. by eapply list_elem_of_lookup_2.
      * rewrite lookup_insert_ne in Hm by done. right. split; [done|].
        intros s' [->|Hs]%elem_of_cons; [congruence|auto].
    + right. split; [done|]. intros s' [->|Hs]%elem_of_cons; [congruence|auto].
Qed.

(** The map sends a label to the last step that carries it. *)
Lemma label_map_lookup steps l i :
  build_label_index_map steps !! l = Some i ->
  exists n s, i = Z.of_nat n /\ steps !! n = Some s /\ step_label s = Some l.
Proof.
  intros H. apply add_labels_lookup in H as [(n & s & -> & Hn & Hl & _)|[H _]].
  - exists n, s. split_and!; [lia|done|done].
  - by rewrite lookup_empty in H.
Qed.

Lemma validate_branch_target_nil l i steps prefix :
  validate_branch_target l i (build_label_index_map steps) prefix = [] ->
  exists t, resolve_label_target_index steps l i = Some t /\ i < t < Z.of_nat (length steps) /\
    exists s, steps !! Z.to_nat t = Some s /\ step_label s = Some l.
Proof.
  unfold validate_branch_target, resolve_label_target_index.
  destruct (build_label_index_map steps !! l) as [t|] eqn:E; [|done].
  destruct (Z.leb_spec t i); [done|]. intros _. exists t. split; [done|].
  apply label_map_lookup in E as (n & s & -> & Hn & Hl).
  pose proof (lookup_lt_Some _ _ _ Hn). split; [lia|]. exists s. by rewrite Nat2Z.id.
Qed.

(** Where a validated branch step may go. *)
Definition branch_targets_ok (step : pydict) (i : Z) (steps : list pyval) : Prop :=
  (exists l t, dget step "goto_true" = PStr l /\ resolve_label_target_index steps l i = Some t /\
     i < t < Z.of_nat (length steps)) /\
  (dget step "goto_false" = PNone \/
   exists l t, dget step "goto_false" = PStr l /\ resolve_label_target_index steps l i = Some t /\
     i < t < Z.of_nat (length steps)).

Lemma validate_branch_step_nil step i steps :
  validate_branch_step step i (build_label_index_map steps) = Ok [] ->
  branch_targets_ok step i steps /\
  exists c prefix, dget step "condition" = PDict c /\ validate_branch_condition (PDict c) prefix = Ok [].
Proof.
  unfold validate_branch_step. intros H.
  destruct (as_dict (dget step "condition")) as [c|] eqn:Ec; [|done].
  apply as_dict_Some in Ec. rewrite Ec in H.
  destruct (validate_branch_condition (PDict c) _) as [errs|] eqn:Ev; [|done]. cbn [obind] in H.
  injection H as H. apply app_eq_nil in H as [-> H]. apply app_eq_nil in H as [Ht Hf].
  split; [split|by eauto].
  - destruct (as_nonempty_str (dget step "goto_true")) as [l|] eqn:El; [|done].
    apply as_nonempty_str_Some in El as [-> _].
    apply validate_branch_target_nil in Ht as (t & ? & ? & _). eauto.
  - destruct (dget step "goto_false") eqn:Eg; try done; [by left|right].
    cbn [is_none] in Hf. destruct (as_nonempty_str (PStr s)) as [l|] eqn:El; [|done].
    apply as_nonempty_str_Some in El as [[= ->] _].
    apply validate_branch_target_nil in Hf as (t & ? & ? & _). eauto.
Qed.

(** ** Conditions *)

Lemma in_str_set_false v l : in_str_set v l = Ok false -> forall s, v = PStr s -> s ∉ l.
Proof. intros H s ->. simpl in H. injection H as H. by rewrite <- str_in_spec, H. Qed.

(** What validation establishes of a condition. *)
Definition condition_ok (c : pydict) : Prop :=
  exists source field op, dget c "source" = PStr source /\ dget c "field" = PStr field /\
    dget c "op" = PStr op /\
    ((source = "alert" /\ field ∈ ALERT_BINDING_FIELDS /\ op ∈ allowed_ops_for_alert_field field /\
      if is_numeric_field field then (exists z, dget c "value" = PInt z) \/ (exists f, dget c "value" = PFloat f)
      else exists s, dget c "value" = PStr s) \/
     (source = "previous_step" /\ field = "status" /\ op ∈ EQUALITY_OPS /\
      exists s, dget c "value" = PStr s /\ s ∈ PREVIOUS_STEP_STATUS_VALUES) \/
     (source = "approval" /\ field = "status" /\ op ∈ EQUALITY_OPS /\
      exists s, dget c "value" = PStr s /\ s ∈ APPROVAL_STATUS_VALUES)).

Lemma validate_status_nil what values field op v prefix :
  validate_status_condition what values field op v prefix = Ok [] ->
  field = "status" /\ op ∈ EQUALITY_OPS /\ exists s, v = PStr s /\ s ∈ values.
Proof.
  unfold validate_status_condition. destruct (String.eqb_spec field "status"); [|done]. cbn [negb].
  destruct (str_in op EQUALITY_OPS) eqn:Ho; [|done]. apply str_in_spec in Ho. cbn [negb].
  destruct (in_str_set v values) as [[]|] eqn:Ev; try done. apply in_str_set_true in Ev. done.
Qed.

Lemma validate_branch_condition_nil c prefix :
  validate_branch_condition (PDict c) prefix = Ok [] -> condition_ok c.
Proof.
  unfold validate_branch_condition. cbn [as_dict].
  destruct (in_str_set (dget c "source") _) as [[]|] eqn:Es; try done. cbn [obind negb].
  apply in_str_set_true in Es as (source & Hs & Hin). rewrite Hs. cbn [eq_str].
  destruct (as_nonempty_str (dget c "field")) as [field|] eqn:Ef; [|done].
  apply as_nonempty_str_Some in Ef as [Hf _].
  destruct (as_str (dget c "op")) as [op|] eqn:Eo; [|done]. apply as_str_Some in Eo.
  destruct (negb (str_in op _)); [done|]. intros H. exists source, field, op. split_and!; try done.
  destruct (String.eqb_spec source "alert") as [->|].
  - left. destruct (str_in field _) eqn:E1; [|done]. destruct (str_in op (allowed_ops_for_alert_field _)) eqn:E2; [|done].
    apply str_in_spec in E1, E2. cbn [negb] in H. split_and!; try done. injection H as H.
    unfold validate_condition_value_type in H.
    destruct (is_numeric_field field), (dget c "value"); try done; eauto.
  - destruct (String.eqb_spec source "previous_step") as [->|].
    + right. left. apply validate_status_nil in H. tauto.
    + right. right. apply validate_status_nil in H. split; [|done].
      unfold BRANCH_CONDITION_SOURCES in Hin. set_solver.
Qed.

Lemma dindex_dget d k v : dget d k = v -> v <> PNone -> dindex d k = Ok v.
Proof. unfold dget, dindex. intros <- Hn. by destruct (dlookup d k). Qed.

(** How the evaluation of a condition may end. *)
Inductive evaluation (c : pydict) : outcome bool -> Prop :=
  | eval_verdict b : evaluation c (Ok b)
  | eval_context code m :
      code ∈ ["binding_alert_context_missing"; "binding_alert_not_found"; "binding_field_missing";
              "branch_context_missing"] -> evaluation c (Raise (BranchConditionError code m))
  | eval_severity m : dget c "field" = PStr "severity" ->
      evaluation c (Raise (BranchConditionError "branch_condition_invalid" m))
  | eval_overflow field : dget c "field" = PStr field -> is_numeric_field field = true ->
      evaluation c (Raise OverflowError).

Lemma evaluation_missing c code m :
  str_in code ["binding_alert_context_missing"; "binding_alert_not_found"; "binding_field_missing";
              "branch_context_missing"] = true -> evaluation c (branch_error code m).
Proof. intros Hc%str_in_spec. by apply eval_context. Qed.

Lemma compare_equality_ok c actual op expected :
  op ∈ EQUALITY_OPS -> evaluation c (compare_equality actual (PStr op) expected).
Proof.
  unfold compare_equality, EQUALITY_OPS. cbn [eq_str]. intros Hop.
  apply elem_of_cons in Hop as [->|Hop%list_elem_of_singleton]; [apply eval_verdict|].
  subst. apply eval_verdict.
Qed.

(** An operand [float()] accepts, up to overflow. *)
Definition numeric_operand (v : pyval) : Prop :=
  match v with PInt _ | PFloat _ => True | _ => False end.

Lemma py_float_operand v :
  numeric_operand v -> (exists f, py_float v = Ok f) \/ py_float v = Raise OverflowError.
Proof.
  destruct v; try done; simpl; eauto. intros _. unfold float_of_int. case_match; eauto.
Qed.

Lemma compare_numeric_ok c field x op y :
  dget c "field" = PStr field -> is_numeric_field field = true ->
  numeric_operand x -> numeric_operand y -> op ∈ EQUALITY_OPS ++ ORDINAL_OPS ->
  evaluation c (compare_numeric x (PStr op) y).
Proof.
  intros Hf Hn Hx Hy Hop. unfold compare_numeric.
  destruct (py_float_operand x Hx) as [[fx ->]| ->]; [|by eapply eval_overflow].
  destruct (py_float_operand y Hy) as [[fy ->]| ->]; [|by eapply eval_overflow]. cbn [obind eq_str].
  unfold EQUALITY_OPS, ORDINAL_OPS in Hop. simpl in Hop.
  repeat (apply elem_of_cons in Hop as [->|Hop]; [apply eval_verdict|]).
  by apply not_elem_of_nil in Hop.
Qed.

(** Comparing ranks compares the integers. *)
Definition rank_compare (op : string) (x y : Z) : bool :=
  if String.eqb op "==" then x =? y else if String.eqb op "!=" then negb (x =? y)
  else if String.eqb op ">=" then y <=? x else if String.eqb op ">" then y <? x
  else if String.eqb op "<=" then x <=? y else x <? y.

Lemma SEVERITY_RANK_range s x : SEVERITY_RANK s = Some x -> x ∈ [1; 2; 3; 4].
Proof. unfold SEVERITY_RANK. intros. repeat case_match; simplify_eq; set_solver. Qed.

Lemma compare_rank op x y :
  x ∈ [1; 2; 3; 4] -> y ∈ [1; 2; 3; 4] -> op ∈ EQUALITY_OPS ++ ORDINAL_OPS ->
  compare_numeric (PInt x) (PStr op) (PInt y) = Ok (rank_compare op x y).
Proof.
  intros Hx Hy Hop.
  assert (forallb (fun x => forallb (fun y => forallb (fun op =>
    bool_decide (compare_numeric (PInt x) (PStr op) (PInt y) = Ok (rank_compare op x y)))
    (EQUALITY_OPS ++ ORDINAL_OPS)) [1; 2; 3; 4]) [1; 2; 3; 4] = true) as H by by vm_compute.
  rewrite forallb_forall in H. specialize (H x (proj1 (list_elem_of_In _ _) Hx)). cbv beta in H.
  rewrite forallb_forall in H. specialize (H y (proj1 (list_elem_of_In _ _) Hy)).
  rewrite forallb_forall in H. specialize (H op (proj1 (list_elem_of_In _ _) Hop)).
  by apply bool_decide_eq_true in H.
Qed.

Lemma alert_row_column a k :
  alert_row_ok a = true -> k ∈ ALERT_BINDING_FIELDS ->
  if is_numeric_field k then dget a k = PNone \/ numeric_operand (dget a k)
  else forall m e, dget a k <> PDec m e.
Proof.
  intros Hok Hk. unfold alert_row_ok, nullable in Hok. simpl in Hok. rewrite !andb_true_iff in Hok.
  destruct_and! Hok. unfold ALERT_BINDING_FIELDS in Hk.
  repeat (apply elem_of_cons in Hk as [->|Hk];
    [match goal with H : context [dget a ?f] |- context [dget a ?f] => destruct (dget a f) end;
     cbn; first [done | by left | by right]|]).
  by apply not_elem_of_nil in Hk.
Qed.

Lemma fetch_alert_dget alerts i a k :
  fetch_alert i alerts = Some a -> k ∈ ALERT_BINDING_FIELDS ->
  exists row, alerts !! i = Some row /\ dget a k = dget row k.
Proof.
  unfold fetch_alert. destruct (alerts !! i) as [row|]; [|done]. intros [= <-] Hk. exists row. split; [done|].
  unfold ALERT_BINDING_FIELDS in Hk.
  repeat (apply elem_of_cons in Hk as [->|Hk]; [reflexivity|]). by apply not_elem_of_nil in Hk.
Qed.

(** Entries whose status the log can be searched by. *)
Definition log_searchable (steps_log : list pyval) : Prop :=
  forall e, PDict e ∈ steps_log -> exists b, in_str_set (dget e "status") PREVIOUS_STEP_STATUS_VALUES = Ok b.

Lemma newest_step_status_ok l :
  log_searchable l -> exists r, newest_step_status l = Ok r.
Proof.
  induction l as [|x l IH]; intros Hl; [by eexists|]. simpl.
  assert (log_searchable l) as Hl' by (intros e He; apply Hl; by right).
  destruct (as_dict x) as [e|] eqn:Ex; [|auto]. apply as_dict_Some in Ex as ->.
  destruct (Hl e) as [b Hb]; [left|]. rewrite Hb. cbn [obind]. destruct (b && _); eauto.
Qed.

Lemma compare_values_ok c field actual op :
  dget c "field" = PStr field -> field ∈ ALERT_BINDING_FIELDS -> op ∈ allowed_ops_for_alert_field field ->
  (if is_numeric_field field then numeric_operand actual /\ numeric_operand (dget c "value")
   else exists s, dget c "value" = PStr s) ->
  evaluation c (compare_values actual (PStr op) (dget c "value") (PStr field)).
Proof.
  intros Hf Hin Hop Hty. unfold compare_values, allowed_ops_for_alert_field in *. cbn [eq_str in_str_set obind].
  destruct (String.eqb_spec field "severity") as [->|Hne].
  - unfold compare_severity.
    destruct (SEVERITY_RANK _) as [x|] eqn:Ex; [|by apply eval_severity].
    destruct (SEVERITY_RANK (lower (strip (py_str (dget c "value"))))) as [y|] eqn:Ey; [|by apply eval_severity].
    rewrite compare_rank; [apply eval_verdict|by eapply SEVERITY_RANK_range..|done].
  - unfold is_numeric_field in *. cbn [orb] in Hop. destruct (str_in field NUMERIC_ALERT_FIELDS) eqn:Hn.
    + destruct Hty. by eapply compare_numeric_ok.
    + by apply compare_equality_ok.
Qed.

Lemma condition_ok_evaluates alerts c alert_id steps_log :
  condition_ok c -> (forall i a, fetch_alert i alerts = Some a -> alert_row_ok a = true) ->
  log_searchable steps_log -> evaluation c (evaluate_branch_condition alerts c alert_id steps_log).
Proof.
  intros (source & field & op & Hs & Hf & Ho & Hc) Hrows Hlog. unfold evaluate_branch_condition.
  assert (dget c "value" <> PNone) as Hv.
  { destruct Hc as [(_ & _ & _ & Hv)|[(_ & _ & _ & s & -> & _)|(_ & _ & _ & s & -> & _)]]; try done.
    destruct (is_numeric_field field); [destruct Hv as [[? ->]|[? ->]]|destruct Hv as [? ->]]; done. }
  rewrite (dindex_dget _ _ _ Hs), (dindex_dget _ _ _ Hf), (dindex_dget _ _ _ Ho), (dindex_dget _ _ _ eq_refl Hv)
    by done. cbn [obind eq_str].
  destruct Hc as [(-> & Hin & Hop & Hty)|[(-> & -> & Hop & s & Hval & _)|(-> & -> & Hop & s & Hval & _)]].
  - cbn. destruct alert_id as [i|]; [|by apply evaluation_missing].
    unfold resolve_alert_field. destruct (fetch_alert i alerts) as [a|] eqn:Ea; [|by apply evaluation_missing].
    pose proof (alert_row_column a field (Hrows _ _ Ea) Hin) as Hcol.
    destruct (is_none (dget a field)) eqn:Hnone; [by apply evaluation_missing|]. cbn [obind].
    apply compare_values_ok; try done. destruct (is_numeric_field field).
    + destruct Hcol as [Hcol|Hcol]; [by rewrite Hcol in Hnone|].
      split; [by destruct (dget a field)|]. by destruct Hty as [[? ->]|[? ->]].
    + done.
  - cbn. unfold latest_previous_step_status.
    destruct (newest_step_status_ok (rev steps_log)) as [r ->].
    { intros e He. apply Hlog. by rewrite list_elem_of_In, in_rev, <- list_elem_of_In. }
    cbn [obind]. destruct r; [by apply compare_equality_ok|by apply evaluation_missing].
  - cbn. destruct (latest_approval_decision_status steps_log);
      [by apply compare_equality_ok|by apply evaluation_missing].
Qed.

(** ** Properties *)

(** A branch step that validates only jumps forward inside the playbook:
    each target label it names resolves, when the step runs, to a step index
    strictly greater than its own and smaller than the number of steps. *)
Theorem validated_branch_forward step i steps :
  validate_branch_step step i (build_label_index_map steps) = Ok [] -> branch_targets_ok step i steps.
Proof. intros H. exact (proj1 (validate_branch_step_nil _ _ _ H)). Qed.

(** A branch condition that validates evaluates: on any execution and
    log the result is a verdict or one of the four missing-context errors;
    the two other ways out are a severity text outside the four known ones
    and a number too large for a float.  No TypeError, KeyError or
    ValueError escapes. *)
Theorem validated_condition_evaluates alerts c prefix alert_id steps_log :
  validate_branch_condition (PDict c) prefix = Ok [] ->
  (forall i a, fetch_alert i alerts = Some a -> alert_row_ok a = true) ->
  log_searchable steps_log ->
  evaluation c (evaluate_branch_condition alerts c alert_id steps_log).
Proof. intros Hv. apply condition_ok_evaluates. by eapply validate_branch_condition_nil. Qed.

(** Severity comparisons are by rank: whatever the case and padding of
    the two texts, and for each of the six operators. *)
Theorem severity_compared_by_rank actual expected op x y :
  SEVERITY_RANK (lower (strip actual)) = Some x -> SEVERITY_RANK (lower (strip expected)) = Some y ->
  op ∈ EQUALITY_OPS ++ ORDINAL_OPS ->
  compare_severity actual (PStr op) expected = Ok (rank_compare op x y).
Proof.
  intros Hx Hy Hop. unfold compare_severity. rewrite Hx, Hy.
  apply compare_rank; [by eapply SEVERITY_RANK_range..|done].
Qed.

(** A severity condition with an unknown severity is accepted when the
    playbook is saved and fails whenever it runs on an alert. *)
Theorem unknown_severity_accepted alerts s op prefix i a steps_log :
  SEVERITY_RANK (lower (strip s)) = None -> op ∈ EQUALITY_OPS ++ ORDINAL_OPS ->
  fetch_alert i alerts = Some a -> alert_row_ok a = true ->
  let c := [("source", PStr "alert"); ("field", PStr "severity"); ("op", PStr op); ("value", PStr s)] in
  validate_branch_condition (PDict c) prefix = Ok [] /\
  exists m, evaluate_branch_condition alerts c (Some i) steps_log =
    Raise (BranchConditionError "branch_condition_invalid" m).
Proof.
  intros Hs Hop Ha Hok c. split.
  - unfold EQUALITY_OPS, ORDINAL_OPS in Hop. simpl in Hop.
    repeat (apply elem_of_cons in Hop as [->|Hop]; [reflexivity|]). by apply not_elem_of_nil in Hop.
  - unfold c, evaluate_branch_condition. cbn. rewrite Ha. unfold alert_row_ok in Hok.
    rewrite !andb_true_iff in Hok. destruct_and! Hok.
    match goal with H : forallb _ ["alert_type"; _; _; _; _] = true |- _ => simpl in H; rewrite !andb_true_iff in H; destruct_and! H end.
    destruct (dget a "severity") eqn:E; try done. cbn. unfold compare_values. cbn.
    unfold compare_severity. cbn [py_str]. rewrite Hs. clear Hs.
    destruct (SEVERITY_RANK _); eexists; reflexivity.
Qed.

(** ** Witnesses *)

Definition ex_branch_steps : list pyval :=
  [PDict [("action", PStr "branch");
          ("condition", PDict [("source", PStr "alert"); ("field", PStr "severity"); ("op", PStr ">=");
                               ("value", PStr "high")]);
          ("goto_true", PStr "contain")];
   PDict [("action", PStr "monitor")];
   PDict [("action", PStr "block_ip"); ("label", PStr "contain")]].
Definition ex_branch_step : pydict :=
  match ex_branch_steps with PDict d :: _ => d | _ => [] end.
Definition ex_condition : pydict :=
  match dget ex_branch_step "condition" with PDict d => d | _ => [] end.

Lemma ex_alerts_ok i a : fetch_alert i ex_alerts = Some a -> alert_row_ok a = true.
Proof.
  unfold fetch_alert, ex_alerts. destruct (decide (i = 12)) as [->|]; [|by rewrite lookup_singleton_ne].
  rewrite lookup_singleton_eq. intros Hf. injection Hf as <-. vm_compute. reflexivity.
Qed.

Lemma validated_branch_forward_witness :
  branch_targets_ok ex_branch_step 0 ex_branch_steps.
Proof. apply (validated_branch_forward ex_branch_step 0 ex_branch_steps). vm_compute. reflexivity. Defined.

Lemma validated_condition_evaluates_witness :
  evaluation ex_condition (evaluate_branch_condition ex_alerts ex_condition (Some 12) []).
Proof.
  apply (validated_condition_evaluates ex_alerts ex_condition "p" (Some 12) []).
  - vm_compute. reflexivity.
  - exact ex_alerts_ok.
  - intros e He. by apply not_elem_of_nil in He.
Defined.

Lemma severity_compared_by_rank_witness : compare_severity " HIGH " (PStr ">=") "medium" = Ok true.
Proof.
  apply (severity_compared_by_rank " HIGH " "medium" ">=" 3 2); [by vm_compute..|].
  apply str_in_spec. by vm_compute.
Defined.

Lemma unknown_severity_accepted_witness :
  validate_branch_condition (PDict [("source", PStr "alert"); ("field", PStr "severity"); ("op", PStr ">=");
                                    ("value", PStr "urgent")]) "p" = Ok [].
Proof.
  apply (unknown_severity_accepted ex_alerts "urgent" ">=" "p" 12
    (map (fun k => (k, dget ex_alert_row k)) alert_keys) []).
  - by vm_compute.
  - apply str_in_spec. by vm_compute.
  - reflexivity.
  - vm_compute. reflexivity.
Defined.
