(* ===== verification/PlaybookRegistry.v ===== *)
(** * PlaybookRegistry: engines/playbook_registry.py

    Validation of the steps of a playbook definition, and what an accepted
    definition guarantees to the executor. *)

From S2P Require Import Prelude PyText PyFloat PyValue Tables ActionVocabulary Alerts ParamBinding.
From S2P Require Import BranchConditions.

Open Scope Z_scope.

Definition CORE_ACTIONS : list string :=
  ["monitor"; "flag_high_priority"; "require_approval"; "branch"; "trigger_playbook"; "enrich_context"].

(** [ADAPTER_ACTIONS]: action to (adapter, adapter action). *)
Definition ADAPTER_ACTIONS (action : string) : option (string * string) :=
  if String.eqb action "notify_slack" then Some ("slack", "send_message")
  else if String.eqb action "notify_teams" then Some ("teams", "send_message")
  else if String.eqb action "notify_email" then Some ("email", "send_email")
  else if String.eqb action "block_ip" then Some ("firewall", "block_ip")
  else if String.eqb action "notify_webhook" then Some ("webhook", "post_event")
  else None.

Definition KNOWN_PLAYBOOK_ACTIONS : list string := PLAYBOOK_ACTIONS.
Definition APPROVAL_RISK_LEVELS : list string := ["medium"; "high"; "critical"].
Definition APPROVAL_TERMINAL_BEHAVIORS : list string := ["fail"; "branch"].
Definition MIN_APPROVAL_TTL_MINUTES : Z := 1.
Definition MAX_APPROVAL_TTL_MINUTES : Z := 10080.

(** ** Duplicate labels *)

Definition step_labels (steps : list pyval) : list string := omap step_label steps.

Definition count_label (l : string) (ls : list string) : nat := length (filter (fun l' => l' = l) ls).

(** [sorted(label for label, count in label_counts.items() if count > 1)]. *)
Definition duplicate_labels (steps : list pyval) : list string :=
  let ls := step_labels steps in
  merge_sort str_le (filter (fun l => (1 < count_label l ls)%nat) (remove_dups ls)).

(** ** The checks of one step *)

Definition validate_enrich_context_step (step : pydict) (prefix : string) : list string :=
  match (if dmem step "params" then dget step "params" else PDict []) with
  | PNone => []
  | PDict params =>
      if negb (dmem params "limit") then []
      else match as_strict_int (dget params "limit") with
           | None => [prefix +:+ ": enrich_context params.limit must be an integer"]
           | Some limit =>
               if (limit <? 1) || (25 <? limit)
               then [prefix +:+ ": enrich_context params.limit must be between 1 and 25"] else []
           end
  | _ => [prefix +:+ ": enrich_context params must be an object"]
  end.

Definition validate_trigger_playbook_step (step : pydict) (prefix : string) (playbook_id : option string)
    : list string :=
  match as_dict (dget step "params") with
  | None => [prefix +:+ ": trigger_playbook requires params object"]
  | Some params =>
      match as_str (dget params "playbook_id") with
      | None => [prefix +:+ ": trigger_playbook requires params.playbook_id"]
      | Some target =>
          if is_empty (strip target) then [prefix +:+ ": trigger_playbook requires params.playbook_id"]
          else match playbook_id with
               | Some own =>
                   if String.eqb (strip target) own
                   then [prefix +:+ ": trigger_playbook cannot reference its own playbook id"] else []
               | None => []
               end
      end
  end.

Definition validate_ttl (step : pydict) (prefix : string) : list string :=
  if negb (dmem step "expires_in_minutes") then []
  else match as_strict_int (dget step "expires_in_minutes") with
       | None => [prefix +:+ ": expires_in_minutes must be an integer"]
       | Some ttl =>
           if (ttl <? MIN_APPROVAL_TTL_MINUTES) || (MAX_APPROVAL_TTL_MINUTES <? ttl)
           then [prefix +:+ ": expires_in_minutes must be between 1 and 10080"] else []
       end.

Definition invalid_choice (prefix key : string) (value : pyval) (allowed : list string) : string :=
  prefix +:+ ": invalid " +:+ key +:+ " " +:+ py_repr value +:+ "; must be one of " +:+ show_choices allowed.

(** [if key in step and step[key] not in allowed]. *)
Definition validate_choice (step : pydict) (key : string) (allowed : list string) (prefix : string)
    : outcome (list string) :=
  if negb (dmem step key) then Ok []
  else let! ok := in_str_set (dget step key) allowed in
       Ok (if ok : bool then [] else [invalid_choice prefix key (dget step key) allowed]).

Definition validate_approval_step (step : pydict) (prefix : string) : outcome (list string) :=
  let risk_level := if dmem step "risk_level" then dget step "risk_level" else PStr "high" in
  let! risk_ok := in_str_set risk_level APPROVAL_RISK_LEVELS in
  let risk_errors := if risk_ok : bool then []
                     else [invalid_choice prefix "risk_level" risk_level APPROVAL_RISK_LEVELS] in
  let reason_errors :=
    if dmem step "reason" && match dget step "reason" with PStr _ => false | _ => true end
    then [prefix +:+ ": reason must be a string"] else [] in
  let! denied_errors := validate_choice step "on_denied" APPROVAL_TERMINAL_BEHAVIORS prefix in
  let! expired_errors := validate_choice step "on_expired" APPROVAL_TERMINAL_BEHAVIORS prefix in
  Ok (risk_errors ++ validate_ttl step prefix ++ reason_errors ++ denied_errors ++ expired_errors).

(** The checks of a step whose action is known. *)
Definition validate_known_step (step : pydict) (action : string) (index : Z) (label_map : gmap string Z)
    (playbook_id : option string) : outcome (list string) :=
  let prefix := step_prefix index in
  let! branch_errors := (if String.eqb action "branch" then validate_branch_step step index label_map
                         else Ok []) in
  let trigger_errors := if String.eqb action "trigger_playbook"
                        then validate_trigger_playbook_step step prefix playbook_id else [] in
  let enrich_errors := if String.eqb action "enrich_context"
                       then validate_enrich_context_step step prefix else [] in
  let! approval_errors := (if String.eqb action "require_approval" then validate_approval_step step prefix
                           else Ok []) in
  let! failure_errors := validate_choice step "on_failure" ["abort"; "continue"] prefix in
  Ok (validate_step_label step prefix ++ branch_errors ++ trigger_errors ++ enrich_errors ++
      approval_errors ++ failure_errors ++ validate_step_param_bindings step prefix).

Definition validate_one_step (step : pyval) (index : Z) (label_map : gmap string Z)
    (playbook_id : option string) : outcome (list string) :=
  let prefix := step_prefix index in
  match as_dict step with
  | None => Ok [prefix +:+ ": must be a dict"]
  | Some d =>
      if negb (dmem d "action") then Ok [prefix +:+ ": missing required key 'action'"]
      else match as_str (dget d "action") with
      | None => Ok [prefix +:+ ": 'action' must be a string"]
      | Some raw =>
          match resolve_action_for_playbook (PStr raw) with
          | Raise e => Ok [prefix +:+ ": " +:+ exn_str e]
          | Ok action =>
              if negb (str_in action KNOWN_PLAYBOOK_ACTIONS)
              then Ok [prefix +:+ ": unsupported action " +:+ str_repr action]
              else validate_known_step d action index label_map playbook_id
          end
      end
  end.

Fixpoint validate_steps_from (steps : list pyval) (index : Z) (label_map : gmap string Z)
    (playbook_id : option string) : outcome (list string) :=
  match steps with
  | [] => Ok []
  | step :: steps =>
      let! errors := validate_one_step step index label_map playbook_id in
      let! rest := validate_steps_from steps (index + 1) label_map playbook_id in
      Ok (errors ++ rest)
  end.

Definition validate_playbook_steps (steps : pyval) (playbook_id : option string) : outcome (list string) :=
  match as_list steps with
  | None => Ok ["steps must be a list"]
  | Some steps =>
      let duplicate_errors :=
        map (fun l => "duplicate label " +:+ str_repr l +:+ " appears more than once in steps")
          (duplicate_labels steps) in
      let! errors := validate_steps_from steps 0 (build_label_index_map steps) playbook_id in
      Ok (duplicate_errors ++ errors)
  end.

(** ** What acceptance guarantees *)

Definition known_step_ok (d : pydict) (action : string) (index : Z) (steps : list pyval)
    (playbook_id : option string) : Prop :=
  (dget d "label" = PNone \/ exists l, dget d "label" = PStr l /\ field_name l = true) /\
  (action = "branch" -> branch_targets_ok d index steps /\
     exists c, dget d "condition" = PDict c /\ condition_ok c) /\
  (action = "trigger_playbook" -> exists params target,
     dget d "params" = PDict params /\ dget params "playbook_id" = PStr target /\
     is_empty (strip target) = false /\ playbook_id <> Some (strip target)) /\
  (action = "require_approval" ->
     (dmem d "risk_level" = true -> exists r, dget d "risk_level" = PStr r /\ r ∈ APPROVAL_RISK_LEVELS) /\
     (dmem d "expires_in_minutes" = true ->
        exists t, dget d "expires_in_minutes" = PInt t /\ 1 <= t <= 10080)) /\
  (forall params k v, dget d "params" = PDict params -> (k, v) ∈ params ->
     exists prefix, validate_param_binding_value v prefix = []).

Definition step_ok (step : pyval) (index : Z) (steps : list pyval) (playbook_id : option string) : Prop :=
  exists d raw action, step = PDict d /\ dget d "action" = PStr raw /\
    normalize_action_name (PStr raw) = Ok action /\ action ∈ KNOWN_PLAYBOOK_ACTIONS /\
    known_step_ok d action index steps playbook_id.

Record playbook_ok (steps : list pyval) (playbook_id : option string) : Prop := {
  playbook_labels : NoDup (step_labels steps);
  playbook_steps : forall n step, steps !! n = Some step -> step_ok step (Z.of_nat n) steps playbook_id;
}.

(** ** Lemmas *)

Lemma merge_sort_nil (l : list string) : merge_sort str_le l = [] -> l = [].
Proof.
  intros H. pose proof (merge_sort_Permutation str_le l) as Hp. rewrite H in Hp.
  by apply Permutation_nil_l in Hp.
Qed.

Lemma count_label_ge l ls : l ∈ ls -> (1 <= count_label l ls)%nat.
Proof.
  intros H. unfold count_label. assert (l ∈ filter (fun l' => l' = l) ls) as Hin
    by (apply list_elem_of_filter; done).
  destruct (filter _ ls); [by apply not_elem_of_nil in Hin|simpl; lia].
Qed.

(** Labels that are each counted once are distinct. *)
Lemma count_label_NoDup ls : (forall l, l ∈ ls -> (count_label l ls <= 1)%nat) -> NoDup ls.
Proof.
  induction ls as [|l ls IH]; intros H; [constructor|]. apply list.NoDup_cons. split.
  - intros Hin. specialize (H l ltac:(left)). unfold count_label in H.
    rewrite filter_cons_True in H by done. simpl in H. apply count_label_ge in Hin.
    unfold count_label in Hin. lia.
  - apply IH. intros l' Hl'. specialize (H l' ltac:(by right)). unfold count_label in *.
    rewrite filter_cons in H. case_decide; simpl in H; lia.
Qed.

Lemma duplicate_labels_nil steps : duplicate_labels steps = [] -> NoDup (step_labels steps).
Proof.
  intros H%merge_sort_nil. apply count_label_NoDup. intros l Hl.
  destruct (decide (1 < count_label l (step_labels steps))%nat) as [Hc|]; [|lia]. exfalso.
  assert (l ∈ filter (fun l => (1 < count_label l (step_labels steps))%nat)
    (remove_dups (step_labels steps))) as Hin.
  { apply list_elem_of_filter. split; [done|]. by apply elem_of_remove_dups. }
  rewrite H in Hin. by apply not_elem_of_nil in Hin.
Qed.

Lemma validate_choice_nil step key allowed prefix :
  validate_choice step key allowed prefix = Ok [] -> dmem step key = true ->
  exists s, dget step key = PStr s /\ s ∈ allowed.
Proof.
  unfold validate_choice. intros H Hm. rewrite Hm in H. simpl in H.
  destruct (in_str_set (dget step key) allowed) as [[]|] eqn:E; try done. by apply in_str_set_true.
Qed.

Lemma validate_label_nil d prefix :
  validate_step_label d prefix = [] ->
  dget d "label" = PNone \/ exists l, dget d "label" = PStr l /\ field_name l = true.
Proof.
  unfold validate_step_label. destruct (is_none (dget d "label")) eqn:En.
  { intros _. left. by destruct (dget d "label"). }
  destruct (as_nonempty_str (dget d "label")) as [l|] eqn:El; [|done].
  destruct (field_name l) eqn:Ef; [|done]. apply as_nonempty_str_Some in El as [-> _]. eauto.
Qed.

Lemma validate_trigger_nil d prefix own :
  validate_trigger_playbook_step d prefix own = [] ->
  exists params target, dget d "params" = PDict params /\ dget params "playbook_id" = PStr target /\
    is_empty (strip target) = false /\ own <> Some (strip target).
Proof.
  unfold validate_trigger_playbook_step. intros H.
  destruct (as_dict (dget d "params")) as [params|] eqn:Ep; [|done]. apply as_dict_Some in Ep.
  destruct (as_str (dget params "playbook_id")) as [target|] eqn:Et; [|done]. apply as_str_Some in Et.
  destruct (is_empty (strip target)) eqn:Ee; [done|]. exists params, target. split_and!; try done.
  destruct own as [own|]; [|done]. intros [= ->]. by rewrite String.eqb_refl in H.
Qed.

Lemma validate_approval_nil d prefix :
  validate_approval_step d prefix = Ok [] ->
  (dmem d "risk_level" = true -> exists r, dget d "risk_level" = PStr r /\ r ∈ APPROVAL_RISK_LEVELS) /\
  (dmem d "expires_in_minutes" = true -> exists t, dget d "expires_in_minutes" = PInt t /\ 1 <= t <= 10080).
Proof.
  unfold validate_approval_step.
  destruct (in_str_set _ APPROVAL_RISK_LEVELS) as [risk|] eqn:Er; [|done]. cbn [obind].
  destruct (validate_choice d "on_denied" _ _) as [e1|]; [|done]. cbn [obind].
  destruct (validate_choice d "on_expired" _ _) as [e2|]; [|done]. intros [= H].
  apply app_eq_nil in H as [Hr H]. apply app_eq_nil in H as [Ht _]. destruct risk; [|done]. split.
  - intros Hm. rewrite Hm in Er. by apply in_str_set_true in Er.
  - intros Hm. unfold validate_ttl in Ht. rewrite Hm in Ht. cbn [negb] in Ht.
    destruct (as_strict_int _) as [t|] eqn:E; [|done]. exists t.
    destruct (dget d "expires_in_minutes"); try done. injection E as ->. split; [done|].
    unfold MIN_APPROVAL_TTL_MINUTES, MAX_APPROVAL_TTL_MINUTES in Ht.
    destruct (Z.ltb_spec t 1), (Z.ltb_spec 10080 t); try done.
Qed.

Lemma param_bindings_nil d prefix params k v :
  validate_step_param_bindings d prefix = [] -> dget d "params" = PDict params -> (k, v) ∈ params ->
  exists prefix, validate_param_binding_value v prefix = [].
Proof.
  unfold validate_step_param_bindings. intros H Hp Hin. rewrite Hp in H. cbn [as_dict] in H.
  exists (prefix +:+ ".params." +:+ k). apply list_elem_of_In in Hin.
  destruct (validate_param_binding_value v _) as [|e es] eqn:E; [done|]. exfalso.
  assert (In e (flat_map (fun kv => validate_param_binding_value kv.2 (prefix +:+ ".params." +:+ kv.1)) params)) as He.
  { apply in_flat_map. exists (k, v). split; [done|]. cbn [fst snd]. rewrite E. by left. }
  by rewrite H in He.
Qed.

Lemma validate_known_step_nil d action index steps own :
  validate_known_step d action index (build_label_index_map steps) own = Ok [] ->
  known_step_ok d action index steps own.
Proof.
  unfold validate_known_step. intros H.
  destruct (if String.eqb action "branch" then _ else _) as [be|] eqn:Eb; [|done]. cbn [obind] in H.
  destruct (if String.eqb action "require_approval" then _ else _) as [ae|] eqn:Ea; [|done]. cbn [obind] in H.
  destruct (validate_choice d "on_failure" _ _) as [fe|] eqn:Ef; [|done]. cbn [obind] in H.
  injection H as H. repeat match goal with H : _ ++ _ = [] |- _ => apply app_eq_nil in H as [? H] end. subst.
  split_and!.
  - by eapply validate_label_nil.
  - intros ->. simpl in Eb. apply validate_branch_step_nil in Eb as [? (c & p & ? & ?)].
    split; [done|]. eauto using validate_branch_condition_nil.
  - intros ->. match goal with H : (if String.eqb _ "trigger_playbook" then _ else _) = [] |- _ =>
      rewrite String.eqb_refl in H; by apply validate_trigger_nil in H end.
  - intros ->. rewrite String.eqb_refl in Ea. by apply validate_approval_nil in Ea.
  - intros params k v. by eapply param_bindings_nil.
Qed.

Lemma validate_one_step_nil step index steps own :
  validate_one_step step index (build_label_index_map steps) own = Ok [] -> step_ok step index steps own.
Proof.
  unfold validate_one_step. destruct (as_dict step) as [d|] eqn:Ed; [|done]. apply as_dict_Some in Ed as ->.
  destruct (dmem d "action"); [|done]. cbn [negb].
  destruct (as_str (dget d "action")) as [raw|] eqn:Er; [|done]. apply as_str_Some in Er.
  destruct (resolve_action_for_playbook (PStr raw)) as [action|e] eqn:Ea; [|done].
  apply resolve_action_for_playbook_Ok in Ea as [Hn Hin]. rewrite (proj2 (str_in_spec action KNOWN_PLAYBOOK_ACTIONS) Hin). cbn [negb].
  intros H%validate_known_step_nil. exists d, raw, action. done.
Qed.

Lemma validate_steps_from_nil steps index labels own :
  validate_steps_from steps index labels own = Ok [] ->
  forall n step, steps !! n = Some step ->
    validate_one_step step (index + Z.of_nat n) labels own = Ok [].
Proof.
  revert index. induction steps as [|s steps IH]; intros index H n step Hn; [done|]. simpl in H.
  destruct (validate_one_step s index labels own) as [errs|] eqn:E; [|done]. cbn [obind] in H.
  destruct (validate_steps_from steps _ labels own) as [rest|] eqn:Er; [|done]. injection H as H.
  apply app_eq_nil in H as [-> ->]. destruct n as [|n]; simpl in Hn.
  - injection Hn as ->. by rewrite Z.add_0_r.
  - specialize (IH _ Er n step Hn). rewrite <- IH. f_equal. lia.
Qed.

Lemma validated_well_formed steps own :
  validate_playbook_steps (PList steps) own = Ok [] -> playbook_ok steps own.
Proof.
  unfold validate_playbook_steps. cbn [as_list]. intros H.
  destruct (validate_steps_from _ _ _ _) as [errs|] eqn:E; [|done]. injection H as H.
  apply app_eq_nil in H as [Hd ->]. apply map_eq_nil in Hd. split; [by apply duplicate_labels_nil|].
  intros n step Hn. apply validate_one_step_nil. rewrite <- (Z.add_0_l (Z.of_nat n)).
  by eapply validate_steps_from_nil.
Qed.

(** ** Property *)

(** C38: A playbook definition without validation errors is well formed: its
    labels are pairwise distinct, and each step is an object whose action
    normalises to a playbook action, whose label is absent or a field name,
    whose branch targets lie strictly forward inside the playbook with a
    well-typed condition, whose approval risk level and time to live are in
    range, whose triggered playbook is not the playbook itself, and whose
    parameters hold only valid binding expressions. *)
Theorem validated_playbook_well_formed steps own :
  validate_playbook_steps (PList steps) own = Ok [] -> playbook_ok steps own.
Proof. apply validated_well_formed. Qed.

Lemma validated_playbook_well_formed_witness : playbook_ok ex_branch_steps (Some "pb-1").
Proof. apply (validated_playbook_well_formed ex_branch_steps (Some "pb-1")). vm_compute. reflexivity. Defined.

(** Validation resolves aliases and strips blanks, but the definition is
    stored as it was written: a step is accepted whose own action text is
    not a playbook action. *)
Theorem alias_accepted raw action own :
  normalize_action_name (PStr raw) = Ok action -> action ∈ ["monitor"; "flag_high_priority"; "block_ip"] ->
  validate_playbook_steps (PList [PDict [("action", PStr raw)]]) own = Ok [].
Proof.
  intros Hn Hin. assert (action ∈ PLAYBOOK_ACTIONS) as Hp by (unfold PLAYBOOK_ACTIONS; set_solver).
  unfold validate_playbook_steps. cbn [as_list validate_steps_from]. unfold validate_one_step. cbn [as_dict].
  change (dget [("action", PStr raw)] "action") with (PStr raw). cbn [as_str dmem].
  rewrite (proj2 (resolve_action_for_playbook_Ok (PStr raw) action)) by done.
  rewrite (proj2 (str_in_spec action KNOWN_PLAYBOOK_ACTIONS) Hp). cbn [negb].
  repeat (apply elem_of_cons in Hin as [->|Hin]; [reflexivity|]). by apply not_elem_of_nil in Hin.
Qed.

Lemma alias_accepted_witness :
  ("escalate" ∉ KNOWN_PLAYBOOK_ACTIONS) /\
  validate_playbook_steps (PList [PDict [("action", PStr "escalate")]]) None = Ok [].
Proof.
  split; [by rewrite <- str_in_spec|].
  apply (alias_accepted "escalate" "flag_high_priority"); [reflexivity|]. apply str_in_spec. reflexivity.
Defined.
