(* ===== verification/PlaybookStore.v ===== *)
(** * PlaybookStore: core/playbook_store.py

    Playbook definitions and executions, and the leases under which workers
    run executions.  Each operation is one function of the source; an UPDATE
    or INSERT that would break the unique index on active (playbook, alert)
    pairs, or a foreign key, raises [IntegrityError] as the database does. *)

From S2P Require Import Prelude PyText PyFloat PyValue Tables PlaybookRegistry.

Open Scope Z_scope.

(** ** Data *)

Inductive exec_status :=
  | XPending | XRunning | XAwaitingApproval
  | XSuccess | XFailed | XAbandoned | XPermanentlyFailed | XNotActioned.

#[export] Instance exec_status_eq_dec : EqDecision exec_status.
Proof. solve_decision. Defined.

Definition exec_status_str (s : exec_status) : string :=
  match s with
  | XPending => "pending" | XRunning => "running" | XAwaitingApproval => "awaiting_approval"
  | XSuccess => "success" | XFailed => "failed" | XAbandoned => "abandoned"
  | XPermanentlyFailed => "permanently_failed" | XNotActioned => "not_actioned"
  end.

(** [_VALID_EXECUTION_STATUSES]. *)
Definition VALID_EXECUTION_STATUSES : list exec_status :=
  [XPending; XRunning; XAwaitingApproval; XSuccess; XFailed; XAbandoned; XPermanentlyFailed; XNotActioned].

Definition parse_exec_status (s : string) : option exec_status :=
  list_find (fun st => exec_status_str st = s) VALID_EXECUTION_STATUSES ≫= fun x => Some x.2.

(** [_TERMINAL_EXECUTION_STATUSES]. *)
Definition terminal_exec_status (s : exec_status) : bool :=
  match s with XSuccess | XFailed | XAbandoned | XPermanentlyFailed | XNotActioned => true | _ => false end.

(** The statuses of the partial unique index. *)
Definition active_exec_status (s : exec_status) : bool :=
  match s with XPending | XRunning | XAwaitingApproval => true | _ => false end.

(** [_PERMANENT_FAIL_ELIGIBLE_STATUSES]. *)
Definition permanent_fail_eligible (s : exec_status) : bool :=
  match s with XRunning | XFailed | XAwaitingApproval => true | _ => false end.

Definition DEFAULT_PLAYBOOK_EXECUTION_MAX_ATTEMPTS : Z := 3.

(** The four lease columns. *)
Record lease := Lease {
  lease_owner : option string;
  lease_acquired_at : option Z;
  lease_heartbeat_at : option Z;
  lease_expires_at : option Z;
}.

Definition no_lease : lease := Lease None None None None.

(** A row of playbook_executions, without its id. *)
Record exec_row := Exec {
  x_playbook_id : string;
  x_alert_id : option Z;
  x_incident_id : option Z;
  x_status : exec_status;
  x_started_at : option Z;
  x_completed_at : option Z;
  x_last_completed_step : option Z;
  x_steps_log : list pyval;
  x_created_at : Z;
  x_attempt_count : Z;
  x_max_attempts : Z;
  x_last_attempted_at : option Z;
  x_failure_reason : option string;
  x_stale_after : option Z;
  x_timeout_seconds : option Z;
  x_lease : lease;
  x_recovery_count : Z;
  x_decision_id : option Z;
  x_soar_correlation_id : option string;
  x_parent_execution_id : option Z;
  x_chain_depth : Z;
}.

(** A row of playbook_definitions, without its id. *)
Record definition_row := Definition_ {
  pd_name : string;
  pd_description : option string;
  pd_trigger_config : pydict;
  pd_steps : list pyval;
  pd_enabled : bool;
  pd_created_at : Z;
  pd_updated_at : Z;
}.

Record pb_store := PbStore {
  pb_defs : gmap string definition_row;
  pb_execs : gmap Z exec_row;
  pb_seq : Z;
}.

#[export, refine] Instance pb_store_tx : Transactional pb_store := {
  restore snap cur := PbStore (pb_defs snap) (pb_execs snap) (pb_seq cur);
}.
Proof. all: by intros []. Defined.

(** ** Column writes *)

Definition set_x_status (st : exec_status) (r : exec_row) : exec_row :=
  let '(Exec p a i _ sa ca l log cr at_ mx la fr st_af tm le rc d c pa ch) := r in
  Exec p a i st sa ca l log cr at_ mx la fr st_af tm le rc d c pa ch.
(** [started_at = COALESCE(started_at, now)]. *)
Definition set_x_started (now : Z) (r : exec_row) : exec_row :=
  let '(Exec p a i st sa ca l log cr at_ mx la fr st_af tm le rc d c pa ch) := r in
  Exec p a i st (Some (default now sa)) ca l log cr at_ mx la fr st_af tm le rc d c pa ch.
Definition set_x_completed (at' : option Z) (r : exec_row) : exec_row :=
  let '(Exec p a i st sa _ l log cr at_ mx la fr st_af tm le rc d c pa ch) := r in
  Exec p a i st sa at' l log cr at_ mx la fr st_af tm le rc d c pa ch.
Definition set_x_log (log' : list pyval) (last : option Z) (r : exec_row) : exec_row :=
  let '(Exec p a i st sa ca _ _ cr at_ mx la fr st_af tm le rc d c pa ch) := r in
  Exec p a i st sa ca last log' cr at_ mx la fr st_af tm le rc d c pa ch.
Definition set_x_lease (le' : lease) (r : exec_row) : exec_row :=
  let '(Exec p a i st sa ca l log cr at_ mx la fr st_af tm _ rc d c pa ch) := r in
  Exec p a i st sa ca l log cr at_ mx la fr st_af tm le' rc d c pa ch.
Definition set_x_reason (reason : option string) (r : exec_row) : exec_row :=
  let '(Exec p a i st sa ca l log cr at_ mx la _ st_af tm le rc d c pa ch) := r in
  Exec p a i st sa ca l log cr at_ mx la reason st_af tm le rc d c pa ch.
Definition add_x_attempts (n : Z) (r : exec_row) : exec_row :=
  let '(Exec p a i st sa ca l log cr at_ mx la fr st_af tm le rc d c pa ch) := r in
  Exec p a i st sa ca l log cr (at_ + n) mx la fr st_af tm le (rc + 1) d c pa ch.
Definition set_x_linkage (d' : Z) (c' : string) (r : exec_row) : exec_row :=
  let '(Exec p a i st sa ca l log cr at_ mx la fr st_af tm le rc _ _ pa ch) := r in
  Exec p a i st sa ca l log cr at_ mx la fr st_af tm le rc (Some d') (Some c') pa ch.

(** The reliability columns; an outer [None] leaves a column unchanged. *)
Record metadata := Metadata {
  m_attempt_count : option Z;
  m_max_attempts : option Z;
  m_last_attempted_at : option (option Z);
  m_failure_reason : option (option string);
  m_stale_after : option (option Z);
  m_timeout_seconds : option (option Z);
}.

Definition set_x_metadata (m : metadata) (r : exec_row) : exec_row :=
  let '(Exec p a i st sa ca l log cr at_ mx la fr st_af tm le rc d c pa ch) := r in
  Exec p a i st sa ca l log cr (default at_ (m_attempt_count m)) (default mx (m_max_attempts m))
    (default la (m_last_attempted_at m)) (default fr (m_failure_reason m))
    (default st_af (m_stale_after m)) (default tm (m_timeout_seconds m)) le rc d c pa ch.

(** ** Staleness *)

Definition has_exec_status (st : exec_status) (r : exec_row) : bool := bool_decide (x_status r = st).

Definition playbook_execution_row_is_stale_running (now : Z) (r : exec_row) : bool :=
  has_exec_status XRunning r &&
  match or_else (x_stale_after r) (x_timeout_seconds r) with
  | None => false
  | Some threshold =>
      match or_else (x_last_attempted_at r) (x_started_at r) with
      | None => false
      | Some ref => seconds threshold <=? now - ref
      end
  end.

Definition lease_is_active (expires_at : option Z) (now : Z) : bool :=
  match expires_at with Some e => now <? e | None => false end.

(** [lease_expires_at IS NOT NULL AND lease_expires_at <= now]. *)
Definition lease_expired (l : lease) (now : Z) : bool :=
  match lease_expires_at l with Some e => e <=? now | None => false end.

Definition x_by_id (i : Z) (r : exec_row) : list Z := [i].
Definition x_by_creation (i : Z) (r : exec_row) : list Z := [x_created_at r; i].
Definition x_newest_first (i : Z) (r : exec_row) : list Z := [- x_created_at r; - i].
(** ORDER BY lease_expires_at, id. *)
Definition x_by_expiry (i : Z) (r : exec_row) : list Z := [default 0 (lease_expires_at (x_lease r)); i].

(** ** Constraints *)

Definition same_pair (r r' : exec_row) : bool :=
  active_exec_status (x_status r) && active_exec_status (x_status r') &&
  String.eqb (x_playbook_id r) (x_playbook_id r') &&
  match x_alert_id r with Some a => sql_eq_Z (x_alert_id r') a | None => false end.

(** Another row holds the index entry of [r]. *)
Definition pair_taken (i : Z) (r : exec_row) (rows : gmap Z exec_row) : bool :=
  existsb (fun x => negb (x.1 =? i) && same_pair r x.2) (map_to_list rows).

Definition unique_violation : exn := IntegrityError "idx_playbook_executions_playbook_alert_unique".

(** [UPDATE .. WHERE id = i AND cond RETURNING ..]. *)
Definition update_exec (i : Z) (cond : exec_row -> bool) (f : exec_row -> exec_row)
    : M pb_store (option (Z * exec_row)) := fun s =>
  match pb_execs s !! i with
  | Some r =>
      if cond r then
        if pair_taken i (f r) (pb_execs s) then (Raise unique_violation, s)
        else (Ok (Some (i, f r)), PbStore (pb_defs s) (<[i := f r]> (pb_execs s)) (pb_seq s))
      else (Ok None, s)
  | None => (Ok None, s)
  end.

(** ** Reads *)

Definition get_playbook_execution (i : Z) (s : pb_store) : option (Z * exec_row) :=
  (fun r => (i, r)) <$> pb_execs s !! i.

Definition playbook_execution_is_stale_running (i now : Z) (s : pb_store) : bool :=
  match pb_execs s !! i with
  | Some r => playbook_execution_row_is_stale_running now r
  | None => false
  end.

Definition list_stale_running_playbook_execution_ids (now : Z) (s : pb_store) : list Z :=
  (filter (fun x => playbook_execution_row_is_stale_running now x.2)
     (select x_by_id (fun _ => has_exec_status XRunning) (pb_execs s))).*1.

Definition list_by_status (st : exec_status) (limit : Z) (s : pb_store) : outcome (list (Z * exec_row)) :=
  if limit <? 0 then Raise (DatabaseError "LIMIT must not be negative")
  else Ok (Tables.limit limit (select x_by_creation (fun _ => has_exec_status st) (pb_execs s))).

Definition list_pending_playbook_executions (limit : Z) (s : pb_store) := list_by_status XPending limit s.
Definition list_awaiting_approval_playbook_executions (limit : Z) (s : pb_store) :=
  list_by_status XAwaitingApproval limit s.

Definition list_stale_running_executions (locked : gset Z) (now limit : Z) (s : pb_store)
    : outcome (list (Z * exec_row)) :=
  if limit <? 0 then Raise (ValueError "limit must be non-negative")
  else Ok (Tables.limit limit (select x_by_expiry
         (fun i r => has_exec_status XRunning r && lease_expired (x_lease r) now &&
                     negb (bool_decide (i ∈ locked))) (pb_execs s))).

Definition count_expired_awaiting_approval_leases (now : Z) (s : pb_store) : Z :=
  Z.of_nat (length (filter (fun x => has_exec_status XAwaitingApproval x.2 && lease_expired (x_lease x.2) now)
                      (map_to_list (pb_execs s)))).

Definition active_for (playbook_id : string) (alert_id : Z) (r : exec_row) : bool :=
  String.eqb (x_playbook_id r) playbook_id && sql_eq_Z (x_alert_id r) alert_id &&
  active_exec_status (x_status r).

Definition get_active_playbook_execution_for_pair (playbook_id : string) (alert_id : option Z) (s : pb_store)
    : option (Z * exec_row) :=
  match alert_id with
  | None => None
  | Some a => select_one x_newest_first (fun _ => active_for playbook_id a) (pb_execs s)
  end.

Definition get_active_playbook_execution_for_target (playbook_id : string) (alert_id incident_id : option Z)
    (s : pb_store) : outcome (option (Z * exec_row)) :=
  match alert_id, incident_id with
  | Some a, None => Ok (select_one x_newest_first (fun _ => active_for playbook_id a) (pb_execs s))
  | None, Some i =>
      Ok (select_one x_newest_first
            (fun _ r => String.eqb (x_playbook_id r) playbook_id && sql_eq_Z (x_incident_id r) i &&
                        active_exec_status (x_status r)) (pb_execs s))
  | _, _ => Raise (ValueError "exactly one of alert_id or incident_id is required")
  end.

Definition active_execution_exists_for_pair (playbook_id : string) (alert_id exclude : option Z) (s : pb_store)
    : bool :=
  match alert_id with
  | None => false
  | Some a =>
      existsb (fun x => active_for playbook_id a x.2 &&
                        negb (match exclude with Some e => x.1 =? e | None => false end))
        (map_to_list (pb_execs s))
  end.

Definition active_playbook_execution_exists (playbook_id : string) (alert_id : option Z) (s : pb_store) : bool :=
  active_execution_exists_for_pair playbook_id alert_id None s.

(** The hop counter bounds the walk; parent links may form a cycle. *)
Fixpoint ancestor_chain (hops : nat) (current : exec_row) (s : pb_store) : list (Z * exec_row) :=
  match x_parent_execution_id current with
  | None => []
  | Some p =>
      match hops with
      | O => []
      | S hops =>
          match pb_execs s !! p with
          | None => []
          | Some parent => (p, parent) :: ancestor_chain hops parent s
          end
      end
  end.

Definition get_playbook_execution_ancestor_chain (i : Z) (max_hops : Z) (s : pb_store) : list (Z * exec_row) :=
  match pb_execs s !! i with
  | None => []
  | Some r => ancestor_chain (Z.to_nat max_hops) r s
  end.

Definition get_playbook_execution_reliability_metadata (i : Z) (s : pb_store)
    : option (Z * Z * option Z * option string * option Z * option Z) :=
  (fun r => (x_attempt_count r, x_max_attempts r, x_last_attempted_at r, x_failure_reason r,
             x_stale_after r, x_timeout_seconds r)) <$> pb_execs s !! i.

(** ** Leases *)

(** [(lease_owner or "").strip()], refused when empty. *)
Definition require_owner {S} (lease_owner : option string) : M S string :=
  let owner := strip (default "" lease_owner) in
  if is_empty owner then raise (ValueError "lease_owner is required") else ret owner.

Definition require_duration {S} (lease_duration_seconds : Z) : M S unit :=
  if lease_duration_seconds <? 1 then raise (ValueError "lease_duration_seconds must be at least 1") else ret tt.

(** The WHERE clause a lease owner adds; without an owner there is none. *)
Definition lease_owner_matches (lease_owner : option string) (r : exec_row) : bool :=
  let owner := strip (default "" lease_owner) in
  is_empty owner || match PlaybookStore.lease_owner (x_lease r) with Some o => String.eqb o owner | None => false end.

Definition owned_by (owner : string) (r : exec_row) : bool :=
  match lease_owner (x_lease r) with Some o => String.eqb o owner | None => false end.

Section Store.
Context (clk : clock).

Definition exec_now (now : option Z) : Z := default (utc_now clk) now.

Definition new_lease (owner : string) (now duration : Z) : lease :=
  Lease (Some owner) (Some now) (Some now) (Some (now + seconds duration)).

(** The locked row is in status [st] and no unexpired lease is on it. *)
Definition leasable (st : exec_status) (now : Z) (r : exec_row) : bool :=
  has_exec_status st r && negb (lease_is_active (lease_expires_at (x_lease r)) now).

Definition start_under (owner : string) (now duration : Z) (r : exec_row) : exec_row :=
  set_x_lease (new_lease owner now duration) (set_x_started now (set_x_status XRunning r)).

Definition acquire_execution_lease (i : Z) (owner : option string) (duration : Z) (now : option Z)
    : M pb_store (option (Z * exec_row)) :=
  let* owner := require_owner owner in
  require_duration duration ;;;
  let now := exec_now now in
  update_exec i (leasable XPending now) (start_under owner now duration).

(** The candidate is the oldest unlocked pending row, whatever its lease. *)
Definition next_pending (locked : gset Z) (s : pb_store) : option (Z * exec_row) :=
  select_one x_by_creation (fun i r => has_exec_status XPending r && negb (bool_decide (i ∈ locked)))
    (pb_execs s).

Definition claim_next_pending_playbook_execution_with_lease (locked : gset Z) (owner : option string)
    (duration : Z) (now : option Z) : M pb_store (option (Z * exec_row)) :=
  let* owner := require_owner owner in
  require_duration duration ;;;
  let now := exec_now now in
  let* row := gets (next_pending locked) in
  match row with
  | None => ret None
  | Some (i, _) => update_exec i (leasable XPending now) (start_under owner now duration)
  end.

Definition acquire_awaiting_approval_resume_lease (i : Z) (owner : option string) (steps_log : list pyval)
    (last_completed_step : option Z) (duration : Z) (now : option Z) : M pb_store (option (Z * exec_row)) :=
  let* owner := require_owner owner in
  require_duration duration ;;;
  let now := exec_now now in
  update_exec i (leasable XAwaitingApproval now)
    (fun r => set_x_log steps_log last_completed_step (set_x_completed None (start_under owner now duration r))).

Definition heartbeat_execution_lease (i : Z) (owner : option string) (duration : Z) (now : option Z)
    : M pb_store (option (Z * exec_row)) :=
  let* owner := require_owner owner in
  require_duration duration ;;;
  let now := exec_now now in
  update_exec i
    (fun r => has_exec_status XRunning r && owned_by owner r &&
              lease_is_active (lease_expires_at (x_lease r)) now)
    (fun r => set_x_lease (Lease (lease_owner (x_lease r)) (lease_acquired_at (x_lease r)) (Some now)
                             (Some (now + seconds duration))) r).

Definition release_execution_lease (i : Z) (owner : option string) : M pb_store (option (Z * exec_row)) :=
  let* owner := require_owner owner in
  update_exec i (owned_by owner) (set_x_lease no_lease).

(** ** Stale recovery *)

Definition can_requeue (r : exec_row) : bool := x_attempt_count r <? x_max_attempts r.

(** [failure_reason or default]. *)
Definition reason_or (reason : option string) (dflt : string) : string :=
  match reason with Some r => if is_empty r then dflt else r | None => dflt end.

Definition recovered_row (now : Z) (reason : option string) (r : exec_row) : exec_row :=
  let r' := add_x_attempts (if can_requeue r then 1 else 0) (set_x_lease no_lease r) in
  if can_requeue r
  then set_x_reason (Some (reason_or reason "stale lease recovered for retry"))
         (set_x_completed None (set_x_status XPending r'))
  else set_x_reason (Some (reason_or reason "stale lease exceeded max attempts"))
         (set_x_completed (Some now) (set_x_status XFailed r')).

Definition recoverable (now : Z) (r : exec_row) : bool :=
  has_exec_status XRunning r && lease_expired (x_lease r) now.

Definition mark_stale_execution_for_recovery (i : Z) (now : option Z) (reason : option string)
    : M pb_store (option (Z * exec_row)) :=
  let now := exec_now now in
  let* s := get in
  if match pb_execs s !! i with
     | Some r => recoverable now r && negb (int4 (x_recovery_count r + 1))
     | None => false
     end
  then raise (DatabaseError "integer out of range")
  else update_exec i (recoverable now) (recovered_row now reason).

(** ** Operator transitions *)

Definition mark_playbook_execution_permanently_failed (i : Z) (failure_reason : option string)
    (now : option Z) : M pb_store (option (Z * exec_row)) :=
  let now := exec_now now in
  let* current := gets (get_playbook_execution i) in
  match current with
  | None => ret None
  | Some (_, r) =>
      if has_exec_status XPermanentlyFailed r then ret (Some (i, r))
      else
        let reason := strip (default "" failure_reason) in
        if is_empty reason then raise (ValueError "failure_reason is required")
        else match x_status r with
        | XSuccess | XAbandoned | XNotActioned =>
            raise (ValueError ("cannot mark execution as permanently_failed from terminal status " +:+
                               str_repr (exec_status_str (x_status r))))
        | _ =>
            if negb (permanent_fail_eligible (x_status r))
            then raise (ValueError ("permanently_failed is only allowed from running, failed, or " +:+
                   "awaiting_approval; current status: " +:+ str_repr (exec_status_str (x_status r))))
            else
              let* row := update_exec i (fun r => permanent_fail_eligible (x_status r))
                (fun r => set_x_reason (Some reason)
                            (set_x_completed (Some now) (set_x_status XPermanentlyFailed r))) in
              match row with
              | None => gets (get_playbook_execution i)
              | Some x => ret (Some x)
              end
        end
  end.

Definition abandon_playbook_execution (i : Z) : M pb_store string :=
  let* row := update_exec i (fun r => active_exec_status (x_status r))
    (fun r => set_x_completed (Some (sql_now clk)) (set_x_status XAbandoned r)) in
  match row with
  | Some _ => ret "ok"
  | None =>
      let* current := gets (get_playbook_execution i) in
      match current with
      | None => raise (ValueError "execution not found")
      | Some (_, r) =>
          match x_status r with
          | XAbandoned => ret "no_op"
          | XSuccess | XFailed | XPermanentlyFailed | XNotActioned =>
              raise (ValueError ("cannot abandon terminal execution with status '" +:+
                                 exec_status_str (x_status r) +:+ "'"))
          | _ => raise (ValueError ("cannot abandon execution with status '" +:+
                                    exec_status_str (x_status r) +:+ "'"))
          end
      end
  end.

(** ** Unleased status changes *)

Definition start_unleased (now : Z) (r : exec_row) : exec_row := set_x_started now (set_x_status XRunning r).

Definition claim_next_pending_playbook_execution (locked : gset Z) (now : option Z)
    : M pb_store (option (Z * exec_row)) :=
  let* row := gets (next_pending locked) in
  match row with
  | None => ret None
  | Some (i, _) => update_exec i (fun _ => true) (start_unleased (exec_now now))
  end.

Definition set_playbook_execution_running (i : Z) (now : option Z) : M pb_store (option (Z * exec_row)) :=
  update_exec i (has_exec_status XPending) (start_unleased (exec_now now)).

Definition set_playbook_execution_resumed_running (i : Z) (steps_log : list pyval)
    (last_completed_step : option Z) (now : option Z) : M pb_store (option (Z * exec_row)) :=
  update_exec i (has_exec_status XAwaitingApproval)
    (fun r => set_x_log steps_log last_completed_step (set_x_completed None (start_unleased (exec_now now) r))).

(** ** Writes of the lease holder *)

Definition update_playbook_execution_step_log (i : Z) (steps_log : list pyval) (last : option Z)
    (owner : option string) : M pb_store (option (Z * exec_row)) :=
  update_exec i (lease_owner_matches owner) (set_x_log steps_log last).

Definition finish_execution (st : exec_status) (i : Z) (steps_log : list pyval) (last : option Z)
    (now : option Z) (owner : option string) : M pb_store (option (Z * exec_row)) :=
  update_exec i (lease_owner_matches owner)
    (fun r => set_x_log steps_log last (set_x_completed (Some (exec_now now)) (set_x_status st r))).

Definition set_playbook_execution_success := finish_execution XSuccess.
Definition set_playbook_execution_failed := finish_execution XFailed.
Definition set_playbook_execution_not_actioned := finish_execution XNotActioned.

Definition set_playbook_execution_awaiting_approval (i : Z) (steps_log : list pyval) (last : option Z)
    (owner : option string) : M pb_store (option (Z * exec_row)) :=
  update_exec i (lease_owner_matches owner)
    (fun r => set_x_log steps_log last (set_x_completed None (set_x_status XAwaitingApproval r))).

(** The texts of [sorted(_VALID_EXECUTION_STATUSES)]. *)
Definition invalid_status_message (status : string) : string :=
  "invalid execution status " +:+ str_repr status +:+ "; must be one of " +:+
  show_choices (map exec_status_str VALID_EXECUTION_STATUSES).

Definition update_execution_status (i : Z) (status : string) (now : option Z) : M pb_store unit :=
  match parse_exec_status status with
  | None => raise (ValueError (invalid_status_message status))
  | Some st =>
      let* _ := update_exec i (fun _ => true)
        (if bool_decide (st = XRunning) then start_unleased (exec_now now)
         else if terminal_exec_status st
         then (fun r => set_x_completed (Some (exec_now now)) (set_x_status st r))
         else set_x_status st) in
      ret tt
  end.

(** ** Linkage and metadata *)

Definition set_playbook_execution_canonical_linkage (i decision_id : Z) (correlation : string)
    : M pb_store (option (Z * exec_row)) :=
  update_exec i (fun _ => true) (set_x_linkage decision_id correlation).

Definition negative (o : option Z) : bool := match o with Some n => n <? 0 | None => false end.
Definition flat (o : option (option Z)) : option Z := match o with Some o => o | None => None end.
Definition in_range (o : option Z) : bool := match o with Some n => int4 n | None => true end.

Definition metadata_empty (m : metadata) : bool :=
  match m with Metadata None None None None None None => true | _ => false end.

Definition update_playbook_execution_reliability_metadata (i : Z) (m : metadata)
    : M pb_store (option (Z * exec_row)) :=
  if negative (m_attempt_count m) then raise (ValueError "attempt_count must be non-negative")
  else if negative (m_max_attempts m) then raise (ValueError "max_attempts must be non-negative")
  else if negative (flat (m_stale_after m)) then raise (ValueError "stale_after must be non-negative when set")
  else if negative (flat (m_timeout_seconds m))
  then raise (ValueError "timeout_seconds must be non-negative when set")
  else if metadata_empty m then gets (get_playbook_execution i)
  else if negb (in_range (m_attempt_count m) && in_range (m_max_attempts m) &&
                in_range (flat (m_stale_after m)) && in_range (flat (m_timeout_seconds m)))
  then raise (DatabaseError "integer out of range")
  else update_exec i (fun _ => true) (set_x_metadata m).
End Store.

(** ** Definitions *)

Section Definitions.
(** [text_le] is the database's collation. *)
Context (clk : clock) (text_le : string -> string -> Prop) `{!RelDecision text_le}.

(** ["; ".join(step_errors)]. *)
Definition check_steps {S} (steps : pyval) (playbook_id : string) : M S unit :=
  let* errors := of_outcome (validate_playbook_steps steps (Some playbook_id)) in
  match errors with
  | [] => ret tt
  | _ => raise (ValueError (String.concat "; " errors))
  end.

Definition put_definition (i : string) (d : definition_row) : M pb_store (option (string * definition_row)) :=
  fun s => (Ok (Some (i, d)), PbStore (<[i := d]> (pb_defs s)) (pb_execs s) (pb_seq s)).

(** [trigger_config] that is not a dict is refused; [steps] is a list once
    it validates. *)
Definition update_playbook_definition (i name : string) (description : option string)
    (trigger_config steps : pyval) (enabled : bool) : M pb_store (option (string * definition_row)) :=
  match as_dict trigger_config with
  | None => raise (ValueError "trigger_config must be a dict")
  | Some config =>
      check_steps steps i ;;;
      let* s := get in
      match pb_defs s !! i with
      | None => ret None
      | Some d =>
          put_definition i (Definition_ name description config (default [] (as_list steps)) enabled
                              (pd_created_at d) (sql_now clk))
      end
  end.

Definition set_playbook_definition_enabled (i : string) (enabled : bool)
    : M pb_store (option (string * definition_row)) :=
  let* s := get in
  match pb_defs s !! i with
  | None => ret None
  | Some d => put_definition i (Definition_ (pd_name d) (pd_description d) (pd_trigger_config d) (pd_steps d)
                                  enabled (pd_created_at d) (sql_now clk))
  end.

Definition create_playbook_definition (i name : string) (steps : pyval) (trigger_config : option pyval)
    (enabled : bool) (description : option string) : M pb_store (option (string * definition_row)) :=
  match as_dict (default (PDict []) trigger_config) with
  | None => raise (ValueError "trigger_config must be a dict")
  | Some config =>
      check_steps steps i ;;;
      let* s := get in
      match pb_defs s !! i with
      | Some _ => raise (IntegrityError "playbook_definitions_pkey")
      | None =>
          if negb (varchar 64 i) then raise (DatabaseError "value too long for type character varying(64)")
          else put_definition i (Definition_ name description config (default [] (as_list steps)) enabled
                                   (sql_now clk) (sql_now clk))
      end
  end.

Definition get_playbook_definition (i : string) (s : pb_store) : option (string * definition_row) :=
  (fun d => (i, d)) <$> pb_defs s !! i.

Definition def_le (a b : string * definition_row) : Prop := text_le a.1 b.1.
#[local] Instance def_le_dec : RelDecision def_le.
Proof using RelDecision0. intros a b. unfold def_le. apply _. Defined.

Definition list_enabled_playbook_definitions (s : pb_store) : list (string * definition_row) :=
  merge_sort def_le (filter (fun x => pd_enabled x.2) (map_to_list (pb_defs s))).
End Definitions.

(** ** New executions *)

(** The columns of an INSERT. *)
Record new_execution := NewExecution {
  ne_playbook_id : string;
  ne_alert_id : option Z;
  ne_incident_id : option Z;
  ne_decision_id : option Z;
  ne_soar_correlation_id : option string;
  ne_parent_execution_id : option Z;
  ne_chain_depth : Z;
}.

Section Creation.
(** The rows of the referenced tables. *)
Context (clk : clock) (alert_exists incident_exists decision_exists : Z -> bool).

Definition opt_exists (p : Z -> bool) (o : option Z) : bool := match o with Some i => p i | None => true end.

Definition references_ok (n : new_execution) (s : pb_store) : bool :=
  bool_decide (is_Some (pb_defs s !! ne_playbook_id n)) &&
  opt_exists alert_exists (ne_alert_id n) && opt_exists incident_exists (ne_incident_id n) &&
  opt_exists decision_exists (ne_decision_id n) &&
  opt_exists (fun i => bool_decide (is_Some (pb_execs s !! i))) (ne_parent_execution_id n).

Definition new_row (n : new_execution) : exec_row :=
  Exec (ne_playbook_id n) (ne_alert_id n) (ne_incident_id n) XPending None None None [] (sql_now clk)
    0 DEFAULT_PLAYBOOK_EXECUTION_MAX_ATTEMPTS None None None None no_lease 0
    (ne_decision_id n) (ne_soar_correlation_id n) (ne_parent_execution_id n) (ne_chain_depth n).

Definition bump (s : pb_store) : pb_store := PbStore (pb_defs s) (pb_execs s) (pb_seq s + 1).

Definition storable (n : new_execution) : bool :=
  int4 (ne_chain_depth n) &&
  match ne_soar_correlation_id n with Some c => varchar 128 c | None => true end.

(** INSERT .. RETURNING id: a failed statement still uses a sequence value. *)
Definition create_playbook_execution (n : new_execution) : M pb_store Z := fun s =>
  if negb (storable n) then (Raise (DatabaseError "value out of range"), s)
  else if pair_taken (pb_seq s) (new_row n) (pb_execs s) then (Raise unique_violation, bump s)
  else if negb (references_ok n s) then (Raise (IntegrityError "foreign key"), bump s)
  else (Ok (pb_seq s), PbStore (pb_defs s) (<[pb_seq s := new_row n]> (pb_execs s)) (pb_seq s + 1)).

(** .. ON CONFLICT (playbook_id, alert_id) WHERE .. DO NOTHING. *)
Definition create_pending_playbook_execution_once (n : new_execution) : M pb_store (option Z) :=
  match ne_alert_id n with
  | None => raise (ValueError "alert_id is required")
  | Some _ => fun s =>
      if negb (storable n) then (Raise (DatabaseError "value out of range"), s)
      else if pair_taken (pb_seq s) (new_row n) (pb_execs s) then (Ok None, bump s)
      else if negb (references_ok n s) then (Raise (IntegrityError "foreign key"), bump s)
      else (Ok (Some (pb_seq s)), PbStore (pb_defs s) (<[pb_seq s := new_row n]> (pb_execs s)) (pb_seq s + 1))
  end.

(** [except psycopg2.IntegrityError]. *)
Definition is_integrity_error (e : exn) : bool := match e with IntegrityError _ => true | _ => false end.

Definition create_retry_execution (source_id : Z) : M pb_store Z :=
  let* source := gets (get_playbook_execution source_id) in
  match source with
  | None => raise (ValueError "execution not found")
  | Some (_, r) =>
      match x_status r with
      | XFailed | XAbandoned =>
          let* active := gets (active_execution_exists_for_pair (x_playbook_id r) (x_alert_id r) (Some source_id)) in
          if active : bool then raise (ValueError "active execution already exists for playbook and alert")
          else try_catch
            (create_playbook_execution
               (NewExecution (x_playbook_id r) (x_alert_id r) (x_incident_id r) None None None 0))
            (fun e => if is_integrity_error e
                      then raise (ValueError "active execution already exists for playbook and alert")
                      else raise e)
      | st => raise (ValueError ("retry requires failed or abandoned execution; current status: " +:+
                                 exec_status_str st))
      end
  end.
End Creation.

(** ** The operations as one alphabet

    [run_op] is the effect of one call by any worker, operator or request;
    a sequence of them is an interleaving of several transactions, each
    serialised by the row lock it takes. *)

Inductive pb_op :=
  | OpAcquire (i : Z) (owner : option string) (duration : Z) (now : option Z)
  | OpClaim (locked : gset Z) (owner : option string) (duration : Z) (now : option Z)
  | OpResume (i : Z) (owner : option string) (log : list pyval) (last : option Z) (duration : Z) (now : option Z)
  | OpHeartbeat (i : Z) (owner : option string) (duration : Z) (now : option Z)
  | OpRelease (i : Z) (owner : option string)
  | OpRecover (i : Z) (now : option Z) (reason : option string)
  | OpLog (i : Z) (log : list pyval) (last : option Z) (owner : option string)
  | OpSuccess (i : Z) (log : list pyval) (last : option Z) (now : option Z) (owner : option string)
  | OpFailed (i : Z) (log : list pyval) (last : option Z) (now : option Z) (owner : option string)
  | OpNotActioned (i : Z) (log : list pyval) (last : option Z) (now : option Z) (owner : option string)
  | OpAwait (i : Z) (log : list pyval) (last : option Z) (owner : option string)
  | OpPermanentlyFail (i : Z) (reason : option string) (now : option Z)
  | OpAbandon (i : Z)
  | OpClaimUnleased (locked : gset Z) (now : option Z)
  | OpSetRunning (i : Z) (now : option Z)
  | OpResumedRunning (i : Z) (log : list pyval) (last : option Z) (now : option Z)
  | OpStatus (i : Z) (status : string) (now : option Z)
  | OpLink (i decision : Z) (correlation : string)
  | OpMetadata (i : Z) (m : metadata)
  | OpCreate (n : new_execution)
  | OpCreateOnce (n : new_execution)
  | OpRetry (source : Z)
  | OpDefine (i name : string) (steps : pyval) (config : option pyval) (enabled : bool) (d : option string)
  | OpUpdateDefinition (i name : string) (d : option string) (config steps : pyval) (enabled : bool)
  | OpEnable (i : string) (enabled : bool).

Section Runs.
Context (clk : clock) (alert_exists incident_exists decision_exists : Z -> bool).

Definition run_op (op : pb_op) (s : pb_store) : pb_store :=
  match op with
  | OpAcquire i w d now => (acquire_execution_lease clk i w d now s).2
  | OpClaim l w d now => (claim_next_pending_playbook_execution_with_lease clk l w d now s).2
  | OpResume i w log last d now => (acquire_awaiting_approval_resume_lease clk i w log last d now s).2
  | OpHeartbeat i w d now => (heartbeat_execution_lease clk i w d now s).2
  | OpRelease i w => (release_execution_lease i w s).2
  | OpRecover i now reason => (mark_stale_execution_for_recovery clk i now reason s).2
  | OpLog i log last w => (update_playbook_execution_step_log i log last w s).2
  | OpSuccess i log last now w => (set_playbook_execution_success clk i log last now w s).2
  | OpFailed i log last now w => (set_playbook_execution_failed clk i log last now w s).2
  | OpNotActioned i log last now w => (set_playbook_execution_not_actioned clk i log last now w s).2
  | OpAwait i log last w => (set_playbook_execution_awaiting_approval i log last w s).2
  | OpPermanentlyFail i reason now => (mark_playbook_execution_permanently_failed clk i reason now s).2
  | OpAbandon i => (abandon_playbook_execution clk i s).2
  | OpClaimUnleased l now => (claim_next_pending_playbook_execution clk l now s).2
  | OpSetRunning i now => (set_playbook_execution_running clk i now s).2
  | OpResumedRunning i log last now => (set_playbook_execution_resumed_running clk i log last now s).2
  | OpStatus i st now => (update_execution_status clk i st now s).2
  | OpLink i d c => (set_playbook_execution_canonical_linkage i d c s).2
  | OpMetadata i m => (update_playbook_execution_reliability_metadata i m s).2
  | OpCreate n => (create_playbook_execution clk alert_exists incident_exists decision_exists n s).2
  | OpCreateOnce n =>
      (create_pending_playbook_execution_once clk alert_exists incident_exists decision_exists n s).2
  | OpRetry i => (create_retry_execution clk alert_exists incident_exists decision_exists i s).2
  | OpDefine i name steps config e d => (create_playbook_definition clk i name steps config e d s).2
  | OpUpdateDefinition i name d config steps e => (update_playbook_definition clk i name d config steps e s).2
  | OpEnable i e => (set_playbook_definition_enabled clk i e s).2
  end.

Definition run_ops (ops : list pb_op) (s : pb_store) : pb_store := foldl (fun s op => run_op op s) s ops.

End Runs.

(** ** The effect of an operation on the executions *)

(** Columns no operation rewrites. *)
Definition kept (r r' : exec_row) : Prop :=
  x_playbook_id r' = x_playbook_id r /\ x_alert_id r' = x_alert_id r /\ x_incident_id r' = x_incident_id r /\
  x_created_at r' = x_created_at r /\ x_parent_execution_id r' = x_parent_execution_id r /\
  x_chain_depth r' = x_chain_depth r.

(** What the attempt columns may do. *)
Definition attempts_change (op : pb_op) (r r' : exec_row) : Prop :=
  match op with
  | OpMetadata _ _ => True
  | OpRecover _ _ _ =>
      x_attempt_count r' = x_attempt_count r + (if can_requeue r then 1 else 0) /\
      x_max_attempts r' = x_max_attempts r /\
      x_status r = XRunning /\ x_status r' = (if can_requeue r then XPending else XFailed)
  | _ => x_attempt_count r' = x_attempt_count r /\ x_max_attempts r' = x_max_attempts r
  end.

Definition row_effect (op : pb_op) (r r' : exec_row) : Prop := kept r r' /\ attempts_change op r r'.

Section Effects.
Context (clk : clock) (alert_exists incident_exists decision_exists : Z -> bool).

(** A definition is written with validated steps, or keeps its own. *)
Definition defs_effect (s s' : pb_store) : Prop :=
  pb_defs s' = pb_defs s \/
  exists i d, pb_defs s' = <[i := d]> (pb_defs s) /\
    (validate_playbook_steps (PList (pd_steps d)) (Some i) = Ok [] \/
     exists d0, pb_defs s !! i = Some d0 /\ pd_steps d = pd_steps d0).

Inductive effect (P : exec_row -> exec_row -> Prop) (s s' : pb_store) : Prop :=
  | effect_none : defs_effect s s' -> pb_execs s' = pb_execs s -> pb_seq s <= pb_seq s' -> effect P s s'
  | effect_update i r r' :
      pb_execs s !! i = Some r -> P r r' -> pair_taken i r' (pb_execs s) = false ->
      s' = PbStore (pb_defs s) (<[i := r']> (pb_execs s)) (pb_seq s) -> effect P s s'
  | effect_insert n :
      pair_taken (pb_seq s) (new_row clk n) (pb_execs s) = false ->
      references_ok alert_exists incident_exists decision_exists n s = true ->
      s' = PbStore (pb_defs s) (<[pb_seq s := new_row clk n]> (pb_execs s)) (pb_seq s + 1) -> effect P s s'.

Lemma effect_refl P s : effect P s s.
Proof. apply effect_none; [by left|done|lia]. Qed.

Lemma update_exec_effect P i cond f s :
  (forall r, cond r = true -> P r (f r)) -> effect P s (update_exec i cond f s).2.
Proof.
  intros HP. unfold update_exec. destruct (pb_execs s !! i) as [r|] eqn:Hi; [|apply effect_refl].
  destruct (cond r) eqn:Hc; [|apply effect_refl].
  destruct (pair_taken i (f r) (pb_execs s)) eqn:Ht; [apply effect_refl|].
  by eapply effect_update; eauto.
Qed.

(** A computation whose store effect is [effect]. *)
Definition has_effect {A} (P : exec_row -> exec_row -> Prop) (m : M pb_store A) : Prop :=
  forall s, effect P s (m s).2.

Lemma has_effect_ret {A} P (a : A) : has_effect P (ret a).
Proof. intros s. apply effect_refl. Qed.
Lemma has_effect_raise {A} P e : has_effect P (raise e : M pb_store A).
Proof. intros s. apply effect_refl. Qed.
Lemma has_effect_gets {A} P (g : pb_store -> A) : has_effect P (gets g).
Proof. intros s. apply effect_refl. Qed.
Lemma has_effect_update P i cond f :
  (forall r, cond r = true -> P r (f r)) -> has_effect P (update_exec i cond f).
Proof. intros HP s. by apply update_exec_effect. Qed.

(** A computation that only reads. *)
Definition reads {A} (m : M pb_store A) : Prop := forall s, (m s).2 = s.

Lemma reads_require_owner o : reads (require_owner o).
Proof. intros s. unfold require_owner. by destruct (is_empty _). Qed.
Lemma reads_require_duration d : reads (require_duration d).
Proof. intros s. unfold require_duration. by destruct (d <? 1). Qed.
Lemma reads_gets {A} (g : pb_store -> A) : reads (gets g).
Proof. done. Qed.
Lemma reads_ret {A} (a : A) : reads (ret a).
Proof. done. Qed.
Lemma reads_raise {A} e : reads (raise e : M pb_store A).
Proof. done. Qed.
Lemma reads_of_outcome {A} (o : outcome A) : reads (of_outcome o).
Proof. done. Qed.

Lemma reads_get : reads get.
Proof. done. Qed.

Lemma has_effect_bind {A B} P (m : M pb_store A) (k : A -> M pb_store B) :
  reads m -> (forall a, has_effect P (k a)) -> has_effect P (bind m k).
Proof.
  intros Hm Hk s. unfold bind. specialize (Hm s). destruct (m s) as [[a|e] s']; simpl in *; subst.
  - apply Hk.
  - apply effect_refl.
Qed.

(** The continuation may only read. *)
Lemma has_effect_then {A B} P (m : M pb_store A) (k : A -> M pb_store B) :
  has_effect P m -> (forall a, reads (k a)) -> has_effect P (bind m k).
Proof.
  intros Hm Hk s. unfold bind. specialize (Hm s). destruct (m s) as [[a|e] s']; simpl in *; [|done].
  by rewrite Hk.
Qed.

Lemma has_effect_try {A} P (m : M pb_store A) (h : exn -> M pb_store A) :
  has_effect P m -> (forall e, reads (h e)) -> has_effect P (try_catch m h).
Proof.
  intros Hm Hh s. unfold try_catch. specialize (Hm s). destruct (m s) as [[a|e] s']; simpl in *; [done|].
  by rewrite Hh.
Qed.

Lemma reads_bind {A B} (m : M pb_store A) (k : A -> M pb_store B) :
  reads m -> (forall a, reads (k a)) -> reads (bind m k).
Proof.
  intros Hm Hk s. unfold bind. specialize (Hm s). destruct (m s) as [[a|e] s']; simpl in *; subst; [|done].
  apply Hk.
Qed.
End Effects.

(** Decompose an operation into its reads and its one UPDATE. *)
Ltac store_reads :=
  repeat first
    [ apply reads_ret | apply reads_raise | apply reads_get | apply reads_gets | apply reads_of_outcome
    | apply reads_require_owner | apply reads_require_duration
    | apply reads_bind; [|intros] | case_match ].
Ltac store_effect :=
  intros;
  repeat first
    [ apply has_effect_ret | apply has_effect_raise | apply has_effect_gets
    | apply has_effect_update; intros ? ?
    | apply has_effect_bind; [by store_reads|intros]
    | apply has_effect_then; [|intros; by store_reads]
    | case_match ].

Lemma recovered_row_attempts now reason r :
  x_attempt_count (recovered_row now reason r) = x_attempt_count r + (if can_requeue r then 1 else 0) /\
  x_max_attempts (recovered_row now reason r) = x_max_attempts r /\
  x_status (recovered_row now reason r) = (if can_requeue r then XPending else XFailed).
Proof. unfold recovered_row. destruct (can_requeue r) eqn:E; destruct r; done. Qed.

Lemma recovered_row_kept now reason r : kept r (recovered_row now reason r).
Proof. unfold recovered_row. destruct (can_requeue r) eqn:E; destruct r; done. Qed.

Section RunEffects.
Context (clk : clock) (alert_exists incident_exists decision_exists : Z -> bool).
Let eff := effect clk alert_exists incident_exists decision_exists.
Let run := run_op clk alert_exists incident_exists decision_exists.

Lemma recover_effect i now reason s :
  eff (row_effect (OpRecover i now reason)) s (mark_stale_execution_for_recovery clk i now reason s).2.
Proof.
  unfold mark_stale_execution_for_recovery, get. run_monad. repeat case_match; try apply effect_refl.
  all: apply update_exec_effect; intros r' Hr'; apply andb_true_iff in Hr' as [Hr' _];
    apply bool_decide_eq_true in Hr';
    destruct (recovered_row_attempts (exec_now clk now) reason r') as (? & ? & ?);
    split; [apply recovered_row_kept|done].
Qed.

Lemma bump_effect P s : eff P s (bump s).
Proof. apply effect_none; [by left|done|]. unfold bump. cbn [pb_seq]. lia. Qed.

Lemma create_effect P n s :
  eff P s (create_playbook_execution clk alert_exists incident_exists decision_exists n s).2.
Proof.
  unfold create_playbook_execution. destruct (negb _); [apply effect_refl|].
  destruct (pair_taken _ _ _) eqn:Et; [apply bump_effect|].
  destruct (references_ok _ _ _ n s) eqn:Er; [|apply bump_effect].
  by eapply effect_insert.
Qed.

Lemma create_once_effect P n s :
  eff P s (create_pending_playbook_execution_once clk alert_exists incident_exists decision_exists n s).2.
Proof.
  unfold create_pending_playbook_execution_once. destruct (ne_alert_id n); [|apply effect_refl].
  destruct (negb _); [apply effect_refl|].
  destruct (pair_taken _ _ _) eqn:Et; [apply bump_effect|].
  destruct (references_ok _ _ _ n s) eqn:Er; [|apply bump_effect].
  by eapply effect_insert.
Qed.

Lemma retry_effect P i s :
  eff P s (create_retry_execution clk alert_exists incident_exists decision_exists i s).2.
Proof.
  revert s. unfold create_retry_execution.
  apply has_effect_bind; [by store_reads|intros [[j r]|]]; [|apply has_effect_raise].
  destruct (x_status r); try apply has_effect_raise.
  all: apply has_effect_bind; [by store_reads|intros []]; [apply has_effect_raise|].
  all: apply has_effect_try; [intros s; apply create_effect|].
  all: intros e s; by destruct (is_integrity_error e).
Qed.

Lemma check_steps_inv steps i (s : pb_store) o s' :
  check_steps steps i s = (o, s') ->
  s' = s /\ match o with
            | Ok _ => exists l, steps = PList l /\ validate_playbook_steps steps (Some i) = Ok []
            | Raise _ => True
            end.
Proof.
  unfold check_steps. unfold bind, of_outcome. destruct (validate_playbook_steps steps (Some i)) as [[|e es]|] eqn:E;
    intros [= <- <-]; try done. split; [done|]. destruct steps; try done. eauto.
Qed.

Lemma put_effect P i d s :
  (validate_playbook_steps (PList (pd_steps d)) (Some i) = Ok [] \/
   exists d0, pb_defs s !! i = Some d0 /\ pd_steps d = pd_steps d0) ->
  eff P s (put_definition i d s).2.
Proof. intros H. apply effect_none; [right; by exists i, d|done|]. apply Z.le_refl. Qed.

Lemma define_effect P i name steps config e d s :
  eff P s (create_playbook_definition clk i name steps config e d s).2.
Proof.
  unfold create_playbook_definition. case_match; [|apply effect_refl]. unfold bind at 1.
  destruct (check_steps steps i s) as [o s'] eqn:E. apply check_steps_inv in E as [-> Ho].
  destruct o; [|apply effect_refl]. destruct Ho as (steps' & -> & Hv). unfold get, bind.
  repeat case_match; try apply effect_refl. apply put_effect. by left.
Qed.

Lemma update_definition_effect P i name d config steps e s :
  eff P s (update_playbook_definition clk i name d config steps e s).2.
Proof.
  unfold update_playbook_definition. case_match; [|apply effect_refl]. unfold bind at 1.
  destruct (check_steps steps i s) as [o s'] eqn:E. apply check_steps_inv in E as [-> Ho].
  destruct o; [|apply effect_refl]. destruct Ho as (steps' & -> & Hv). unfold get, bind.
  repeat case_match; try apply effect_refl. apply put_effect. by left.
Qed.

Lemma enable_effect P i e s : eff P s (set_playbook_definition_enabled clk i e s).2.
Proof.
  unfold set_playbook_definition_enabled, get, bind. case_match; [|apply effect_refl].
  apply put_effect. right. eauto.
Qed.

Lemma run_op_effect op s : eff (row_effect op) s (run op s).
Proof.
  destruct op;
    try first [ apply recover_effect | apply create_effect | apply create_once_effect | apply retry_effect
              | apply define_effect | apply update_definition_effect | apply enable_effect ]; unfold run; cbn [run_op].
  all: match goal with |- eff ?P ?st (?m ?st).2 =>
    cut (has_effect clk alert_exists incident_exists decision_exists P m); [intros Heff; apply Heff|] end;
    unfold acquire_execution_lease, claim_next_pending_playbook_execution_with_lease,
      acquire_awaiting_approval_resume_lease, heartbeat_execution_lease, release_execution_lease,
      mark_playbook_execution_permanently_failed, abandon_playbook_execution,
      claim_next_pending_playbook_execution, set_playbook_execution_running,
      set_playbook_execution_resumed_running, update_playbook_execution_step_log,
      set_playbook_execution_success, set_playbook_execution_failed, set_playbook_execution_not_actioned,
      set_playbook_execution_awaiting_approval, finish_execution, update_execution_status,
      set_playbook_execution_canonical_linkage, update_playbook_execution_reliability_metadata;
    store_effect; match goal with |- row_effect _ ?r _ => by destruct r end.
Qed.
End RunEffects.

(** ** Well-formed stores *)

(** The invariant of every store the operations can produce: ids come from
    the sequence; at most one active execution per (playbook, alert); a
    parent is an older execution; every execution has a definition; the
    steps of every definition are well formed. *)
Record store_wf (s : pb_store) : Prop := {
  wf_ids : forall i r, pb_execs s !! i = Some r -> i < pb_seq s;
  wf_unique : forall i j r r', i <> j -> pb_execs s !! i = Some r -> pb_execs s !! j = Some r' ->
    same_pair r r' = false;
  wf_parent : forall i r p, pb_execs s !! i = Some r -> x_parent_execution_id r = Some p ->
    p < i /\ is_Some (pb_execs s !! p);
  wf_definition : forall i r, pb_execs s !! i = Some r -> is_Some (pb_defs s !! x_playbook_id r);
  wf_steps : forall i d, pb_defs s !! i = Some d -> playbook_ok (pd_steps d) (Some i);
}.

Lemma same_pair_comm r r' : same_pair r r' = same_pair r' r.
Proof.
  unfold same_pair. rewrite (andb_comm (active_exec_status (x_status r))), String.eqb_sym. f_equal.
  destruct (x_alert_id r), (x_alert_id r'); simpl; try done. apply Z.eqb_sym.
Qed.

Lemma pair_taken_false i r rows :
  pair_taken i r rows = false <-> forall j r', j <> i -> rows !! j = Some r' -> same_pair r r' = false.
Proof.
  unfold pair_taken. rewrite <- not_true_iff_false, existsb_exists. split.
  - intros H j r' Hj Hl. apply not_true_iff_false. intros Hs. apply H. exists (j, r').
    split; [apply list_elem_of_In; by apply elem_of_map_to_list|]. cbn [fst snd].
    rewrite Hs, (proj2 (Z.eqb_neq j i) Hj). done.
  - intros H ([j r'] & Hin & Hb). cbn [fst snd] in Hb. apply andb_true_iff in Hb as [Hj Hs].
    apply list_elem_of_In, elem_of_map_to_list in Hin.
    assert (j <> i) as Hne by (intros ->; by rewrite Z.eqb_refl in Hj).
    by rewrite (H j r' Hne Hin) in Hs.
Qed.

Section WellFormed.
Context (clk : clock) (alert_exists incident_exists decision_exists : Z -> bool).

Lemma defs_effect_wf s s' i d :
  defs_effect s s' -> (forall i d, pb_defs s !! i = Some d -> playbook_ok (pd_steps d) (Some i)) ->
  pb_defs s' !! i = Some d -> playbook_ok (pd_steps d) (Some i).
Proof.
  intros [->|(j & d' & -> & Hd)] Hwf Hi; [by eapply Hwf|].
  destruct (decide (i = j)) as [->|Hne]; [|rewrite lookup_insert_ne in Hi by done; by eapply Hwf].
  rewrite lookup_insert_eq in Hi. injection Hi as ->. destruct Hd as [Hv|(d0 & H0 & ->)].
  - by apply validated_well_formed.
  - by apply Hwf.
Qed.

Lemma defs_effect_lookup s s' i : defs_effect s s' -> is_Some (pb_defs s !! i) -> is_Some (pb_defs s' !! i).
Proof.
  intros [-> | (j & d' & -> & _)] Hi; [exact Hi|]. destruct (decide (j = i)) as [<-|Hne].
  - rewrite lookup_insert_eq. eauto.
  - by rewrite lookup_insert_ne.
Qed.

Lemma insert_unique (rows : gmap Z exec_row) i r :
  (forall i j r r', i <> j -> rows !! i = Some r -> rows !! j = Some r' -> same_pair r r' = false) ->
  pair_taken i r rows = false ->
  forall j k r1 r2, j <> k -> <[i := r]> rows !! j = Some r1 -> <[i := r]> rows !! k = Some r2 ->
    same_pair r1 r2 = false.
Proof.
  intros Hu Ht j k r1 r2 Hjk Hj Hk. rewrite pair_taken_false in Ht.
  destruct (decide (j = i)) as [->|]; [|rewrite lookup_insert_ne in Hj by done];
  (destruct (decide (k = i)) as [->|]; [|rewrite lookup_insert_ne in Hk by done]);
  rewrite ?lookup_insert_eq in *; simplify_eq; eauto.
  rewrite same_pair_comm. eauto.
Qed.

Lemma effect_wf P s s' :
  (forall r r', P r r' -> kept r r') ->
  effect clk alert_exists incident_exists decision_exists P s s' -> store_wf s -> store_wf s'.
Proof.
  intros HP Heff [Hids Hu Hp Hd Hst]. destruct Heff as [Hde He Hseq|i r r' Hi HPr Ht ->|n Ht Hr ->].
  - split; rewrite ?He; eauto using defs_effect_wf.
    + intros i r Hi. specialize (Hids i r Hi). lia.
    + intros i r Hi. eauto using defs_effect_lookup.
  - destruct (HP _ _ HPr) as (Hpb & _ & _ & _ & Hpar & _). split; cbn [pb_execs pb_seq pb_defs].
    + intros j r0 [[-> <-]|[Hne Hj]]%lookup_insert_Some; eauto.
    + by apply insert_unique.
    + intros j r0 p [[<- <-]|[Hne Hj]]%lookup_insert_Some Hpa.
      * rewrite Hpar in Hpa. destruct (Hp _ _ _ Hi Hpa) as [Hlt Hs]. split; [done|].
        rewrite lookup_insert_ne by lia. done.
      * destruct (Hp _ _ _ Hj Hpa) as [Hlt Hs]. split; [done|]. by apply lookup_insert_is_Some'; right.
    + intros j r0 [[<- <-]|[Hne Hj]]%lookup_insert_Some; [rewrite Hpb|]; eauto.
    + done.
  - assert (pb_execs s !! pb_seq s = None) as Hfresh.
    { destruct (pb_execs s !! pb_seq s) eqn:E; [|done]. specialize (Hids _ _ E). lia. }
    unfold references_ok in Hr. rewrite !andb_true_iff in Hr. destruct_and! Hr.
    split; cbn [pb_execs pb_seq pb_defs].
    + intros j r0 [[<- <-]|[Hne Hj]]%lookup_insert_Some; [lia|]. specialize (Hids _ _ Hj). lia.
    + by apply insert_unique.
    + intros j r0 p [[<- <-]|[Hne Hj]]%lookup_insert_Some Hpa.
      * cbn in Hpa. rewrite Hpa in *. cbn [opt_exists] in *.
        match goal with H : bool_decide (is_Some (pb_execs s !! p)) = true |- _ =>
          apply bool_decide_eq_true in H as [rp Hrp] end.
        split; [by eapply Hids|]. apply lookup_insert_is_Some'. right. by eexists.
      * destruct (Hp _ _ _ Hj Hpa) as [Hlt Hs]. split; [done|]. by apply lookup_insert_is_Some'; right.
    + intros j r0 [[<- <-]|[Hne Hj]]%lookup_insert_Some; [|eauto]. cbn.
      match goal with H : bool_decide (is_Some (pb_defs s !! _)) = true |- _ =>
          by apply bool_decide_eq_true in H end.
    + done.
Qed.

Lemma run_op_wf op s :
  store_wf s -> store_wf (run_op clk alert_exists incident_exists decision_exists op s).
Proof. eapply effect_wf; [|apply run_op_effect]. by intros r r' []. Qed.

Lemma run_ops_wf ops s :
  store_wf s -> store_wf (run_ops clk alert_exists incident_exists decision_exists ops s).
Proof. revert s. induction ops as [|op ops IH]; intros s H; [done|]. apply IH, run_op_wf, H. Qed.
End WellFormed.

(** ** Rows out of reach of an operation *)

(** An UPDATE leaves row [i] alone when it is for another id or its
    condition is false of the row. *)
Lemma update_exec_other i j cond f s r :
  pb_execs s !! i = Some r -> j <> i \/ cond r = false ->
  pb_execs (update_exec j cond f s).2 !! i = Some r.
Proof.
  intros Hi Hc. unfold update_exec. destruct (pb_execs s !! j) as [r0|] eqn:Hj; [|done].
  destruct (cond r0) eqn:Hc0; [|done]. destruct (pair_taken _ _ _); [done|]. cbn [snd pb_execs].
  rewrite lookup_insert_ne; [done|]. intros ->. destruct Hc; [done|]. congruence.
Qed.

Definition keeps_row {A} (i : Z) (r : exec_row) (m : M pb_store A) : Prop :=
  forall s, pb_execs s !! i = Some r -> pb_execs (m s).2 !! i = Some r.

Lemma keeps_update i j cond f r : j <> i \/ cond r = false -> keeps_row i r (update_exec j cond f).
Proof. intros H s Hi. by apply update_exec_other. Qed.

Lemma keeps_bind {A B} i r (m : M pb_store A) (k : A -> M pb_store B) :
  keeps_row i r m -> (forall a, keeps_row i r (k a)) -> keeps_row i r (bind m k).
Proof.
  intros Hm Hk s Hs. unfold bind. specialize (Hm s Hs). destruct (m s) as [[a|e] s']; [by apply Hk|done].
Qed.

Lemma keeps_reads {A} i r (m : M pb_store A) : reads m -> keeps_row i r m.
Proof. intros Hm s Hs. by rewrite Hm. Qed.

Lemma keeps_require_owner {A} i r w (k : string -> M pb_store A) :
  (is_empty (strip (default "" w)) = false -> keeps_row i r (k (strip (default "" w)))) ->
  keeps_row i r (bind (require_owner w) k).
Proof.
  intros Hk s Hs. unfold bind, require_owner. destruct (is_empty (strip (default "" w))) eqn:E; [done|].
  by apply Hk.
Qed.

(** ** The lease protocol *)

(** [w] names the owner [o]. *)
Definition acts_as (o : string) (w : option string) : Prop := strip (default "" w) = o.

(** A call that leaves the lease of [o] on row [i], valid until [T], alone:
    any claim, acquisition or resumption by anybody; heartbeats, releases
    and progress writes of named workers other than [o]; stale recovery
    that reads a time before [T]; new executions and definition changes;
    and operator actions on other rows. *)
Definition foreign (clk : clock) (o : string) (i T : Z) (op : pb_op) : Prop :=
  match op with
  | OpAcquire _ _ _ _ | OpClaim _ _ _ _ | OpResume _ _ _ _ _ _ | OpClaimUnleased _ _ | OpSetRunning _ _
  | OpResumedRunning _ _ _ _ | OpCreate _ | OpCreateOnce _ | OpRetry _
  | OpDefine _ _ _ _ _ _ | OpUpdateDefinition _ _ _ _ _ _ | OpEnable _ _ => True
  | OpHeartbeat j w _ _ | OpRelease j w => j <> i \/ ~ acts_as o w
  | OpLog j _ _ w | OpSuccess j _ _ _ w | OpFailed j _ _ _ w | OpNotActioned j _ _ _ w | OpAwait j _ _ w =>
      j <> i \/ (~ acts_as o w /\ ~ acts_as "" w)
  | OpRecover j now _ => j <> i \/ exec_now clk now < T
  | OpPermanentlyFail j _ _ | OpAbandon j | OpStatus j _ _ | OpLink j _ _ | OpMetadata j _ => j <> i
  end.

(** A progress write of somebody other than the lease holder. *)
Lemma lease_owner_matches_foreign o w r :
  lease_owner (x_lease r) = Some o -> ~ acts_as o w -> ~ acts_as "" w -> lease_owner_matches w r = false.
Proof.
  unfold acts_as, lease_owner_matches. intros -> Ho He.
  destruct (is_empty _) eqn:E; [destruct He; by destruct (strip _)|]. cbn [orb].
  apply String.eqb_neq. congruence.
Qed.

Lemma owned_by_foreign o w r :
  lease_owner (x_lease r) = Some o -> ~ acts_as o w -> owned_by (strip (default "" w)) r = false.
Proof. unfold acts_as, owned_by. intros -> Ho. apply String.eqb_neq. congruence. Qed.

Lemma running_has_no_other_status r st :
  x_status r = XRunning -> st <> XRunning -> has_exec_status st r = false.
Proof. unfold has_exec_status. intros -> H. by apply bool_decide_eq_false. Qed.

Lemma unexpired_not_recoverable r now T :
  lease_expires_at (x_lease r) = Some T -> now < T -> recoverable now r = false.
Proof.
  unfold recoverable, lease_expired. intros -> Hlt. rewrite (proj2 (Z.leb_gt T now) Hlt). apply andb_false_r.
Qed.

Section Lease.
Context (clk : clock) (alert_exists incident_exists decision_exists : Z -> bool).
Let run := run_op clk alert_exists incident_exists decision_exists.

(** Insertions never touch an existing row. *)
Lemma effect_insert_keeps P s s' i r :
  store_wf s -> (forall r r', ~ P r r') ->
  effect clk alert_exists incident_exists decision_exists P s s' ->
  pb_execs s !! i = Some r -> pb_execs s' !! i = Some r.
Proof.
  intros Hwf HP Heff Hi. destruct Heff as [_ He _|j r0 r1 _ HPr|n _ _ ->].
  - by rewrite He.
  - by destruct (HP r0 r1).
  - cbn. rewrite lookup_insert_ne; [done|]. pose proof (wf_ids _ Hwf _ _ Hi). lia.
Qed.

(** The one UPDATE of an operation misses row [i]. *)
Ltac keep_row :=
  repeat first
    [ apply keeps_require_owner; intros ?
    | apply keeps_bind; [apply keeps_reads; by store_reads|intros]
    | apply keeps_reads; by store_reads
    | apply keeps_update
    | apply keeps_bind; [|intros]
    | case_match ].

Lemma claim_keeps i r locked o d now :
  x_status r = XRunning ->
  keeps_row i r (claim_next_pending_playbook_execution_with_lease clk locked o d now).
Proof.
  intros Hr. unfold claim_next_pending_playbook_execution_with_lease. keep_row.
  right. unfold leasable, has_exec_status. by rewrite Hr.
Qed.

Lemma claim_unleased_keeps i r locked now :
  x_status r = XRunning -> keeps_row i r (claim_next_pending_playbook_execution clk locked now).
Proof.
  intros Hr s Hs. unfold claim_next_pending_playbook_execution, bind, gets.
  destruct (next_pending locked s) as [[j r0]|] eqn:E; [|done].
  apply update_exec_other; [done|]. left. intros ->.
  apply select_one_Some in E as (Hj & Hp & _). apply andb_true_iff in Hp as [Hp _].
  apply bool_decide_eq_true in Hp. congruence.
Qed.

Lemma foreign_keeps o i T op s r :
  store_wf s -> pb_execs s !! i = Some r -> x_status r = XRunning ->
  lease_owner (x_lease r) = Some o -> lease_expires_at (x_lease r) = Some T -> foreign clk o i T op ->
  pb_execs (run op s) !! i = Some r.
Proof.
  intros Hwf Hi Hrun Ho HT Hf. pose proof (fun st => running_has_no_other_status r st Hrun) as Hother.
  unfold run. destruct op; cbn [run_op foreign] in *.
  all: try (eapply (effect_insert_keeps (fun _ _ => False)); [done|by intros ?? []|
    first [apply create_effect|apply create_once_effect|apply retry_effect|apply define_effect
          |apply update_definition_effect|apply enable_effect]|done]).
  all: revert s Hwf Hi; match goal with |- forall s, _ -> _ -> pb_execs (?m s).2 !! _ = _ =>
    cut (keeps_row i r m); [intros Hk s _ Hi; by apply Hk|] end.
  all: try by (apply claim_keeps || apply claim_unleased_keeps).
  all: unfold acquire_execution_lease, acquire_awaiting_approval_resume_lease, heartbeat_execution_lease,
      release_execution_lease, mark_playbook_execution_permanently_failed, abandon_playbook_execution,
      set_playbook_execution_running, set_playbook_execution_resumed_running,
      update_playbook_execution_step_log, set_playbook_execution_success, set_playbook_execution_failed,
      set_playbook_execution_not_actioned, set_playbook_execution_awaiting_approval, finish_execution,
      update_execution_status, set_playbook_execution_canonical_linkage,
      update_playbook_execution_reliability_metadata, mark_stale_execution_for_recovery.
  all: keep_row; try (destruct Hf as [?|Hf]; [by left|right]); try by left.
  all: try (right; unfold leasable; by rewrite Hother by done).
  all: try (by apply owned_by_foreign with (o := o)).
  all: try (destruct Hf; by apply lease_owner_matches_foreign with (o := o)).
  - rewrite owned_by_foreign with (o := o) by done. by rewrite andb_false_r.
  - by apply unexpired_not_recoverable with (T := T).
  - by apply unexpired_not_recoverable with (T := T).
Qed.
End Lease.

(** ** Counting recoveries *)

Definition touches_metadata (i : Z) (op : pb_op) : bool :=
  match op with OpMetadata j _ => j =? i | _ => false end.

Definition status_at (i : Z) (s : pb_store) : option exec_status := x_status <$> pb_execs s !! i.

Section Budget.
Context (clk : clock) (alert_exists incident_exists decision_exists : Z -> bool).
Let run := run_op clk alert_exists incident_exists decision_exists.

(** [op] is a stale recovery that puts execution [i] back in the queue. *)
Definition requeues_row (i : Z) (op : pb_op) (s : pb_store) : bool :=
  match op with
  | OpRecover j _ _ =>
      (j =? i) && bool_decide (status_at i s = Some XRunning) &&
      bool_decide (status_at i (run op s) = Some XPending)
  | _ => false
  end.

Fixpoint count_requeues (i : Z) (ops : list pb_op) (s : pb_store) : Z :=
  match ops with
  | [] => 0
  | op :: ops => (if requeues_row i op s then 1 else 0) + count_requeues i ops (run op s)
  end.

(** An operation on another execution. *)
Lemma recover_other i j now reason s r :
  pb_execs s !! i = Some r -> j <> i -> pb_execs (run (OpRecover j now reason) s) !! i = Some r.
Proof.
  intros Hi Hj. unfold run. cbn [run_op].
  unfold mark_stale_execution_for_recovery, get, bind, raise.
  repeat case_match; try done; apply update_exec_other; auto.
Qed.

Lemma recover_hit i now reason s r :
  pb_execs s !! i = Some r ->
  pb_execs (run (OpRecover i now reason) s) !! i = Some r \/
  (recoverable (exec_now clk now) r = true /\
   pb_execs (run (OpRecover i now reason) s) !! i = Some (recovered_row (exec_now clk now) reason r)).
Proof.
  intros Hi. unfold run. cbn [run_op].
  unfold mark_stale_execution_for_recovery, get, bind, raise. rewrite Hi.
  case_match; [by left|]. unfold update_exec. rewrite Hi.
  destruct (recoverable _ r) eqn:Hr; [|by left]. case_match; [by left|]. right. split; [done|].
  cbn. by rewrite lookup_insert_eq.
Qed.

Lemma metadata_other i j m s r :
  pb_execs s !! i = Some r -> j <> i -> pb_execs (run (OpMetadata j m) s) !! i = Some r.
Proof.
  intros Hi Hj. unfold run. cbn [run_op]. unfold update_playbook_execution_reliability_metadata.
  repeat case_match; try done. apply update_exec_other; auto.
Qed.

Definition attempts_ok (r : exec_row) : Prop := x_attempt_count r <= x_max_attempts r.

Lemma run_op_attempts op s i r :
  store_wf s -> pb_execs s !! i = Some r -> touches_metadata i op = false -> attempts_ok r ->
  exists r', pb_execs (run op s) !! i = Some r' /\ attempts_ok r' /\
    x_max_attempts r' = x_max_attempts r /\
    x_attempt_count r' = x_attempt_count r + (if requeues_row i op s then 1 else 0).
Proof.
  intros Hwf Hi Hm Hok.
  destruct (match op with OpRecover _ _ _ | OpMetadata _ _ => true | _ => false end) eqn:Eop.
  - destruct op as [| | | | |j now reason| | | | | | | | | | | | |j m| | | | | |]; try done.
    + unfold requeues_row. destruct (Z.eqb_spec j i) as [->|Hne].
      2:{ exists r. rewrite (recover_other i j now reason s r) by done. split_and!; try done. cbn. lia. }
      unfold status_at. rewrite Hi. cbn [fmap option_fmap option_map].
      destruct (recover_hit i now reason s r Hi) as [H|[Hrec H]]; rewrite H; cbn [fmap option_fmap option_map].
      * exists r. split_and!; try done. cbn [andb].
        case_bool_decide as E1; [|cbn; lia]. case_bool_decide as E2; [congruence|cbn; lia].
      * destruct (recovered_row_attempts (exec_now clk now) reason r) as (Ha & Hx & Hs).
        eexists. split; [done|]. unfold attempts_ok in *. rewrite Ha, Hx, Hs.
        apply andb_true_iff in Hrec as [Hrun _]. apply bool_decide_eq_true in Hrun. rewrite Hrun.
        unfold can_requeue in *. 
        destruct (Z.ltb_spec (x_attempt_count r) (x_max_attempts r)); split_and!; try done; try lia.
    + cbn in Hm. apply Z.eqb_neq in Hm. exists r. rewrite (metadata_other i j m s r) by done. cbn. split_and!; [done..|lia].
  - assert (requeues_row i op s = false) as -> by (by destruct op).
    pose proof (run_op_effect clk alert_exists incident_exists decision_exists op s) as Heff.
    fold run in Heff. destruct Heff as [_ He _|j r0 r1 Hj [_ Hatt] _ ->|n _ _ ->].
    + rewrite He. exists r. split_and!; [done..|lia].
    + cbn [pb_execs]. assert (x_attempt_count r1 = x_attempt_count r0 /\ x_max_attempts r1 = x_max_attempts r0)
        as [Ha Hx] by (by destruct op).
      destruct (decide (j = i)) as [->|Hne].
      * rewrite lookup_insert_eq. simplify_eq. unfold attempts_ok in *. exists r1. split_and!; [done|lia..].
      * rewrite lookup_insert_ne by done. exists r. split_and!; [done..|lia].
    + cbn [pb_execs]. rewrite lookup_insert_ne by (pose proof (wf_ids _ Hwf _ _ Hi); lia).
      exists r. split_and!; [done..|lia].
Qed.
End Budget.

(** An update that keeps the pair of an active row takes no other entry. *)
Lemma active_update_untaken i r r' s :
  store_wf s -> pb_execs s !! i = Some r -> active_exec_status (x_status r) = true ->
  x_playbook_id r' = x_playbook_id r /\ x_alert_id r' = x_alert_id r ->
  pair_taken i r' (pb_execs s) = false.
Proof.
  intros Hwf Hi Ha [Hp Hal]. apply pair_taken_false. intros j r0 Hj H0.
  pose proof (wf_unique _ Hwf i j r r0 (not_eq_sym Hj) Hi H0) as Hu.
  apply not_true_iff_false. intros Ht. apply not_true_iff_false in Hu. apply Hu.
  unfold same_pair in *. rewrite Hp, Hal in Ht. rewrite !andb_true_iff in Ht. destruct_and! Ht.
  by rewrite Ha, !andb_true_iff.
Qed.

Lemma inactive_untaken i r rows : active_exec_status (x_status r) = false -> pair_taken i r rows = false.
Proof. intros H. apply pair_taken_false. intros j r' _ _. unfold same_pair. by rewrite H. Qed.

Section Retry.
Context (clk : clock) (alert_exists incident_exists decision_exists : Z -> bool).

Lemma retry_inv source s new s' :
  store_wf s -> create_retry_execution clk alert_exists incident_exists decision_exists source s = (Ok new, s') ->
  exists r, pb_execs s !! source = Some r /\ (x_status r = XFailed \/ x_status r = XAbandoned) /\
    (forall a j r', x_alert_id r = Some a -> pb_execs s !! j = Some r' ->
       active_for (x_playbook_id r) a r' = false) /\
    new = pb_seq s /\ pb_execs s !! new = None /\
    pb_execs s' = <[new := new_row clk (NewExecution (x_playbook_id r) (x_alert_id r) (x_incident_id r)
                                          None None None 0)]> (pb_execs s).
Proof.
  intros Hwf H. unfold create_retry_execution, bind, gets, get_playbook_execution in H.
  destruct (pb_execs s !! source) as [r|] eqn:Hr; [|done]. cbn [fmap option_fmap option_map] in H.
  exists r. split; [done|].
  assert ((x_status r = XFailed \/ x_status r = XAbandoned) /\
    active_execution_exists_for_pair (x_playbook_id r) (x_alert_id r) (Some source) s = false /\
    create_playbook_execution clk alert_exists incident_exists decision_exists
      (NewExecution (x_playbook_id r) (x_alert_id r) (x_incident_id r) None None None 0) s = (Ok new, s'))
    as (Hst & Hact & Hc).
  { destruct (x_status r); try done; destruct (active_execution_exists_for_pair _ _ _ s); try done;
      unfold try_catch in H; destruct (create_playbook_execution _ _ _ _ _ s) as [[a|e] s1];
      try (by destruct (is_integrity_error e)); auto. }
  split; [done|]. split.
  { intros a j r' Ha Hj. unfold active_execution_exists_for_pair in Hact. rewrite Ha in Hact.
    destruct (decide (j = source)) as [->|Hne].
    { rewrite Hr in Hj. injection Hj as <-. unfold active_for.
      destruct Hst as [-> | ->]; cbn; by rewrite andb_false_r. }
    apply not_true_iff_false. intros Hf. apply not_true_iff_false in Hact. apply Hact.
    apply existsb_exists. exists (j, r'). split; [by apply list_elem_of_In, elem_of_map_to_list|].
    cbn [fst snd]. rewrite Hf. by rewrite (proj2 (Z.eqb_neq j source) Hne). }
  unfold create_playbook_execution in Hc. repeat case_match; simplify_eq. split_and!; try done.
  all: destruct (pb_execs s !! pb_seq s) eqn:E; [|done]; pose proof (wf_ids _ Hwf _ _ E); lia.
Qed.
End Retry.

(** ** Properties *)

Definition empty_pb_store : pb_store := PbStore ∅ ∅ 1.

Lemma empty_store_wf : store_wf empty_pb_store.
Proof. split; cbn; intros; by rewrite ?lookup_empty in *. Qed.

Section Properties.
Context (clk : clock) (alert_exists incident_exists decision_exists : Z -> bool).
Let run := run_ops clk alert_exists incident_exists decision_exists.

(** C35: Whatever sequence of calls workers, operators and requests make,
    in any order and with any arguments, from the empty store: at most one
    execution of a playbook on an alert is pending, running or awaiting
    approval; the parent of an execution is an older execution, so
    ancestor chains are acyclic; every execution belongs to a definition;
    and the steps of every stored definition are well formed. *)
Theorem playbook_store_reachable_wf ops : store_wf (run ops empty_pb_store).
Proof. apply run_ops_wf, empty_store_wf. Qed.

(** C31: The lease excludes other workers: while the lease of worker [o] on
    a running execution lasts, no sequence of claims, acquisitions,
    resumptions, heartbeats, releases and progress writes by other
    workers, and of stale recoveries that read a time before the expiry,
    changes anything in the row. *)
Theorem lease_exclusive ops s i r o T :
  store_wf s -> pb_execs s !! i = Some r -> x_status r = XRunning ->
  lease_owner (x_lease r) = Some o -> lease_expires_at (x_lease r) = Some T ->
  Forall (foreign clk o i T) ops ->
  pb_execs (run ops s) !! i = Some r.
Proof.
  intros Hwf Hi Hr Ho HT Hops. revert s Hwf Hi. induction Hops as [|op ops Hop _ IH]; intros s Hwf Hi; [done|].
  apply IH; [by apply run_op_wf|]. by eapply foreign_keeps.
Qed.

(** Stale recovery is bounded by the attempt budget: over any sequence
    of calls that leaves the metadata of an execution alone, each recovery
    that requeues it uses one attempt, and the attempts never exceed
    [max_attempts]. *)
Theorem recovery_bounded ops s i r :
  store_wf s -> pb_execs s !! i = Some r -> x_attempt_count r <= x_max_attempts r ->
  Forall (fun op => touches_metadata i op = false) ops ->
  exists r', pb_execs (run ops s) !! i = Some r' /\ x_max_attempts r' = x_max_attempts r /\
    x_attempt_count r' =
      x_attempt_count r + count_requeues clk alert_exists incident_exists decision_exists i ops s /\
    x_attempt_count r' <= x_max_attempts r.
Proof.
  intros Hwf Hi Hok Hops. revert s r Hwf Hi Hok. induction Hops as [|op ops Hop _ IH]; intros s r Hwf Hi Hok.
  { exists r. cbn. split_and!; [done..|lia|done]. }
  destruct (run_op_attempts clk alert_exists incident_exists decision_exists op s i r Hwf Hi Hop Hok)
    as (r1 & H1 & Hok1 & Hm1 & Ha1).
  destruct (IH _ r1 (run_op_wf _ _ _ _ op s Hwf) H1 Hok1) as (r2 & H2 & Hm2 & Ha2 & Hle).
  exists r2. split_and!; [exact H2|congruence| |lia]. cbn [count_requeues]. rewrite Ha2, Ha1. lia.
Qed.

(** A claim takes the oldest unlocked pending execution and nothing
    else: it answers None and writes nothing when there is none, or when
    that one still carries an unexpired lease; otherwise it returns that
    execution running under a fresh lease, keeping its first start time,
    and no unlocked pending execution is older. *)
Theorem claim_takes_oldest locked owner duration now s :
  store_wf s -> is_empty (strip (default "" owner)) = false -> 1 <= duration ->
  let t := exec_now clk now in
  let result := claim_next_pending_playbook_execution_with_lease clk locked owner duration now s in
  match next_pending locked s with
  | None =>
      result = (Ok None, s) /\
      forall j r, pb_execs s !! j = Some r -> x_status r = XPending -> j ∈ locked
  | Some (i, r) =>
      x_status r = XPending /\ (i ∉ locked) /\
      (forall j r', pb_execs s !! j = Some r' -> x_status r' = XPending -> (j ∉ locked) ->
         lex_le [x_created_at r; i] [x_created_at r'; j]) /\
      if lease_is_active (lease_expires_at (x_lease r)) t then result = (Ok None, s)
      else
        let r' := start_under (strip (default "" owner)) t duration r in
        result = (Ok (Some (i, r')), PbStore (pb_defs s) (<[i := r']> (pb_execs s)) (pb_seq s))
  end.
Proof.
  intros Hwf Ho Hd t result. unfold result, claim_next_pending_playbook_execution_with_lease.
  unfold require_owner, require_duration, bind, gets. rewrite Ho.
  rewrite (proj2 (Z.ltb_ge duration 1) Hd). cbn [ret].
  destruct (next_pending locked s) as [[i r]|] eqn:En.
  - unfold next_pending in En. apply select_one_Some in En as (Hi & Hp & Hmin).
    apply andb_true_iff in Hp as [Hs Hl]. apply bool_decide_eq_true in Hs.
    apply negb_true_iff, bool_decide_eq_false in Hl. split_and!; try done.
    { intros j r' Hj Hs' Hl'. apply (Hmin j r' Hj). unfold has_exec_status. rewrite Hs'.
      rewrite bool_decide_eq_true_2 by done. by rewrite bool_decide_eq_false_2. }
    unfold update_exec. rewrite Hi. unfold leasable, has_exec_status. rewrite Hs.
    rewrite bool_decide_eq_true_2 by done. fold t.
    destruct (lease_is_active _ t); [done|]. cbn [andb negb].
    rewrite active_update_untaken with (r := r); [done|done|done|by rewrite Hs|by destruct r].
  - split; [done|]. intros j r Hj Hs. unfold next_pending in En.
    pose proof (proj1 (select_one_None _ _ _) En j r Hj) as Hf. unfold has_exec_status in Hf. rewrite Hs in Hf.
    rewrite bool_decide_eq_true_2 in Hf by done. cbn [andb] in Hf.
    apply negb_false_iff, bool_decide_eq_true in Hf. done.
Qed.

(** A retry never touches the execution it retries: it is accepted only
    for a failed or abandoned execution whose (playbook, alert) has no
    active execution, and adds a pending one for the same playbook, alert
    and incident with an empty log and its attempts unused. *)
Theorem retry_is_fresh source s new s' :
  store_wf s -> create_retry_execution clk alert_exists incident_exists decision_exists source s = (Ok new, s') ->
  exists r, pb_execs s !! source = Some r /\ (x_status r = XFailed \/ x_status r = XAbandoned) /\
    (forall a j r', x_alert_id r = Some a -> pb_execs s !! j = Some r' ->
       active_for (x_playbook_id r) a r' = false) /\
    new = pb_seq s /\ pb_execs s !! new = None /\
    pb_execs s' = <[new := new_row clk (NewExecution (x_playbook_id r) (x_alert_id r) (x_incident_id r)
                                          None None None 0)]> (pb_execs s).
Proof. apply retry_inv. Qed.

(** The progress writes test the lease owner but not the status, and
    abandoning an execution keeps its lease: a worker that still holds the
    lease turns an abandoned execution into a successful one. *)
Theorem abandoned_overwritten s i r o log last now :
  pb_execs s !! i = Some r -> x_status r = XRunning -> lease_owner (x_lease r) = Some o -> strip o = o ->
  let '(answer, s1) := abandon_playbook_execution clk i s in
  let '(result, s2) := set_playbook_execution_success clk i log last now (Some o) s1 in
  answer = Ok "ok" /\ status_at i s1 = Some XAbandoned /\
  (exists x, result = Ok (Some (i, x))) /\ status_at i s2 = Some XSuccess.
Proof.
  intros Hi Hr Ho Hstrip. unfold abandon_playbook_execution, bind.
  unfold update_exec at 1. rewrite Hi, Hr. cbn [active_exec_status].
  rewrite inactive_untaken by (by destruct r). cbn [pb_execs pb_defs pb_seq ret].
  unfold set_playbook_execution_success, finish_execution, update_exec. cbn [pb_execs].
  rewrite lookup_insert_eq. unfold lease_owner_matches. change (default "" (Some o)) with o.
  assert (lease_owner (x_lease (set_x_completed (Some (sql_now clk)) (set_x_status XAbandoned r))) = Some o)
    as -> by (by destruct r).
  rewrite Hstrip, String.eqb_refl, orb_true_r, inactive_untaken by (by destruct r).
  unfold status_at. cbn [pb_execs]. rewrite !lookup_insert_eq. cbn.
  split_and!; [done|by destruct r|by eexists|by destruct r].
Qed.

(** The walk along parent links yields at most [max_hops] executions, each
    older than the one before. *)
Lemma ancestor_chain_bounded hops r s :
  (length (ancestor_chain hops r s) <= hops)%nat.
Proof.
  revert r. induction hops as [|hops IH]; intros r; cbn [ancestor_chain]; destruct (x_parent_execution_id r) as [p|];
    cbn; try lia. destruct (pb_execs s !! p); cbn; [specialize (IH e); lia|lia].
Qed.

Lemma ancestor_chain_older hops i r s :
  store_wf s -> pb_execs s !! i = Some r -> Forall (fun x => x.1 < i) (ancestor_chain hops r s).
Proof.
  intros Hwf. revert i r. induction hops as [|hops IH]; intros i r Hi; cbn [ancestor_chain];
    destruct (x_parent_execution_id r) as [p|] eqn:Ep; try by constructor.
  destruct (pb_execs s !! p) as [rp|] eqn:Hp; [|by constructor].
  pose proof (wf_parent _ Hwf _ _ _ Hi Ep) as [Hlt _]. constructor; [done|].
  eapply list.Forall_impl; [exact (IH p rp Hp)|]. cbn. intros. lia.
Qed.
End Properties.

(** ** Witnesses *)

Definition ex_pb_clock : clock := Clock (seconds 1000) (seconds 1000).
Definition ex_pb_steps : pyval := PList [PDict [("action", PStr "monitor")]].
Definition ex_pb_new : new_execution := NewExecution "pb-1" (Some 7) None None None None 0.
Definition ex_exists (_ : Z) : bool := true.

(** A definition, an execution, and a claim of it by worker w1. *)
Definition ex_pb_ops : list pb_op :=
  [OpDefine "pb-1" "contain" ex_pb_steps None true None; OpCreateOnce ex_pb_new;
   OpClaim ∅ (Some " w1 ") 60 None].
Definition ex_pb_store : pb_store := run_ops ex_pb_clock ex_exists ex_exists ex_exists ex_pb_ops empty_pb_store.
Definition ex_pb_row : exec_row := default (new_row ex_pb_clock ex_pb_new) (pb_execs ex_pb_store !! 1).

Lemma ex_pb_store_wf : store_wf ex_pb_store.
Proof. apply run_ops_wf, empty_store_wf. Qed.

Lemma ex_pb_row_running : pb_execs ex_pb_store !! 1 = Some ex_pb_row /\ x_status ex_pb_row = XRunning /\
  lease_owner (x_lease ex_pb_row) = Some "w1" /\ lease_expires_at (x_lease ex_pb_row) = Some (seconds 1060).
Proof. vm_compute. split_and!; reflexivity. Qed.

(** Another worker claims, heartbeats and writes, and recovery runs early. *)
Definition ex_foreign_ops : list pb_op :=
  [OpClaim ∅ (Some "w2") 60 None; OpHeartbeat 1 (Some "w2") 60 None; OpSuccess 1 [] None None (Some "w2");
   OpRelease 1 (Some "w2"); OpRecover 1 None None].

Lemma lease_exclusive_witness :
  pb_execs (run_ops ex_pb_clock ex_exists ex_exists ex_exists ex_foreign_ops ex_pb_store) !! 1 = Some ex_pb_row.
Proof.
  apply (lease_exclusive ex_pb_clock ex_exists ex_exists ex_exists ex_foreign_ops ex_pb_store 1 ex_pb_row "w1"
    (seconds 1060)).
  - exact ex_pb_store_wf.
  - apply ex_pb_row_running.
  - apply ex_pb_row_running.
  - apply ex_pb_row_running.
  - apply ex_pb_row_running.
  - unfold ex_foreign_ops. rewrite !list.Forall_cons. split_and!.
    + exact I.
    + right. intros H. vm_compute in H. discriminate H.
    + right. split; intros H; vm_compute in H; discriminate H.
    + right. intros H. vm_compute in H. discriminate H.
    + right. reflexivity.
    + apply list.Forall_nil. exact I.
Defined.

(** Four stale recoveries: three requeue, the fourth gives up. *)
Definition ex_recovery_round : list pb_op :=
  [OpRecover 1 (Some (seconds 5000)) None; OpClaim ∅ (Some "w2") 60 None].
Definition ex_recovery_ops : list pb_op :=
  ex_recovery_round ++ ex_recovery_round ++ ex_recovery_round ++ ex_recovery_round.

Lemma recovery_bounded_witness :
  count_requeues ex_pb_clock ex_exists ex_exists ex_exists 1 ex_recovery_ops ex_pb_store = 3 /\
  exists r', pb_execs (run_ops ex_pb_clock ex_exists ex_exists ex_exists ex_recovery_ops ex_pb_store) !! 1 = Some r' /\
    x_attempt_count r' <= 3.
Proof.
  split; [vm_compute; reflexivity|].
  destruct (recovery_bounded ex_pb_clock ex_exists ex_exists ex_exists ex_recovery_ops ex_pb_store 1 ex_pb_row
    ex_pb_store_wf (proj1 ex_pb_row_running)) as (r' & Hr' & _ & _ & Hle).
  - vm_compute. discriminate.
  - repeat constructor.
  - exists r'. split; [exact Hr'|exact Hle].
Defined.

Lemma claim_takes_oldest_witness :
  (claim_next_pending_playbook_execution_with_lease ex_pb_clock ∅ (Some "w2") 60 None ex_pb_store).1 = Ok None.
Proof.
  pose proof (claim_takes_oldest ex_pb_clock ∅ (Some "w2") 60 None ex_pb_store ex_pb_store_wf eq_refl
    ltac:(lia)) as H.
  assert (next_pending ∅ ex_pb_store = None) as E by (vm_compute; reflexivity).
  rewrite E in H. destruct H as [H _]. rewrite H. reflexivity.
Defined.

Definition ex_failed_store : pb_store :=
  run_ops ex_pb_clock ex_exists ex_exists ex_exists [OpFailed 1 [] None None (Some "w1")] ex_pb_store.

Lemma retry_is_fresh_witness :
  exists r, pb_execs ex_failed_store !! 1 = Some r /\ (x_status r = XFailed \/ x_status r = XAbandoned).
Proof.
  destruct (create_retry_execution ex_pb_clock ex_exists ex_exists ex_exists 1 ex_failed_store) as [[n|e] s'] eqn:E.
  - destruct (retry_is_fresh ex_pb_clock ex_exists ex_exists ex_exists 1 ex_failed_store n s') as (r & Hr & Hs & _).
    + apply run_ops_wf. exact ex_pb_store_wf.
    + exact E.
    + exists r. split; [exact Hr|exact Hs].
  - exfalso. vm_compute in E. discriminate E.
Defined.

Lemma abandoned_overwritten_witness :
  status_at 1 (set_playbook_execution_success ex_pb_clock 1 [] None None (Some "w1")
    (abandon_playbook_execution ex_pb_clock 1 ex_pb_store).2).2 = Some XSuccess.
Proof.
  destruct ex_pb_row_running as (Hi & Hs & Ho & _).
  pose proof (abandoned_overwritten ex_pb_clock ex_pb_store 1 ex_pb_row "w1" [] None None Hi Hs Ho eq_refl) as H.
  destruct (abandon_playbook_execution ex_pb_clock 1 ex_pb_store) as [a s1]. cbn [snd].
  destruct (set_playbook_execution_success ex_pb_clock 1 [] None None (Some "w1") s1) as [b s2].
  apply H.
Defined.
