(* ===== verification/DeadLetters.v ===== *)
(** * DeadLetters: core/dead_letter_store.py

    The dead letters operators review, the capture of a failed execution
    (engines/playbook_step_executor.py), the retry route
    (routes/dead_letter_routes.py) and the stale-recovery run
    (scripts/run_playbook_executor_once.py), which writes both executions
    and dead letters. *)

From S2P Require Import Prelude PyText PyFloat PyValue Tables Outcomes Deliveries PlaybookStore.

Open Scope Z_scope.

(** ** Data *)

Inductive dl_status := DOpen | DRetrying | DRetried | DDismissed.

#[export] Instance dl_status_eq_dec : EqDecision dl_status.
Proof. solve_decision. Defined.

Definition dl_status_str (s : dl_status) : string :=
  match s with DOpen => "open" | DRetrying => "retrying" | DRetried => "retried" | DDismissed => "dismissed" end.

(** The statuses of the partial unique index. *)
Definition dl_active (s : dl_status) : bool := match s with DOpen | DRetrying => true | _ => false end.

Definition VALID_SOURCE_TYPES : list string :=
  ["playbook_execution"; "notification_delivery"; "response_action"; "approval"].
Definition VALID_DL_STATUSES : list string := ["open"; "retrying"; "retried"; "dismissed"].

Definition RETRYABLE_FAILURE_CLASSES : list string :=
  ["adapter_simulation_failed"; "adapter_timeout"; "circuit_breaker_open"; "circuit_open";
   "provider_rate_limited"; "rate_limited"; "temporary_provider_failure"; "timeout"; "transient";
   "transient_network_error"].

(** A row of soar_dead_letters, without its id. *)
Record dl_row := DlRow {
  dl_source_type : string;
  dl_source_id : Z;
  dl_execution_id : option Z;
  dl_incident_id : option Z;
  dl_alert_id : option Z;
  dl_playbook_id : option string;
  dl_step_index : option Z;
  dl_action_name : option string;
  dl_failure_class : string;
  dl_error_message : string;
  dl_payload : pydict;
  dl_retryable : bool;
  dl_st : dl_status;
  dl_retry_count : Z;
  dl_first_failed_at : Z;
  dl_last_failed_at : Z;
  dl_dismissed_at : option Z;
  dl_dismissed_by : option Z;
  dl_dismiss_reason : option string;
  dl_retry_requested_at : option Z;
  dl_retry_requested_by : option Z;
  dl_created_at : Z;
}.

Record dl_store := DlStore { dls_rows : gmap Z dl_row; dls_seq : Z }.

#[export, refine] Instance dl_store_tx : Transactional dl_store := {
  restore snap cur := DlStore (dls_rows snap) (dls_seq cur);
}.
Proof. all: by intros []. Defined.

(** ** Validation and redaction *)

Definition require_text (value : option string) (field_name : string) : outcome string :=
  let v := strip (default "" value) in
  if is_empty v then Raise (ValueError (field_name +:+ " is required")) else Ok v.

Definition optional_text (value : option string) : option string :=
  match value with
  | None => None
  | Some v => if is_empty (strip v) then None else Some (strip v)
  end.

Definition validate_choice_text (value field_name : string) (allowed : list string) : outcome string :=
  let! normalized := require_text (Some value) field_name in
  if str_in normalized allowed then Ok normalized
  else Raise (ValueError (field_name +:+ " must be one of " +:+ show_choices allowed)).

Definition validate_source_type (source_type : string) : outcome string :=
  validate_choice_text source_type "source_type" VALID_SOURCE_TYPES.

Definition validate_status (status : string) : outcome string :=
  validate_choice_text status "status" VALID_DL_STATUSES.

Definition validate_optional_nonnegative (value : option Z) (field_name : string) : outcome (option Z) :=
  match value with
  | Some n => if n <? 0 then Raise (ValueError (field_name +:+ " must be >= 0")) else Ok (Some n)
  | None => Ok None
  end.

Definition classify_dead_letter_retryable (failure_class source_type status : option string) : outcome bool :=
  let source := strip (default "" source_type) in
  let! approval := (if is_empty source then Ok false
                    else let! s := validate_source_type source in Ok (String.eqb source "approval")) in
  if approval : bool then Ok false
  else
    let st := strip (match status with Some s => if is_empty s then "open" else s | None => "open" end) in
    let! closed := (if is_empty st then Ok false
                    else let! s := validate_status st in Ok (str_in st ["retried"; "dismissed"])) in
    if closed : bool then Ok false
    else Ok (str_in (lower (strip (default "" failure_class))) RETRYABLE_FAILURE_CLASSES).

(** ** Operations *)

Definition dl_newest (i : Z) (r : dl_row) : list Z := [- i].

(** The columns of a new failure. *)
Record dl_params := DlParams {
  dp_source_type : string;
  dp_source_id : Z;
  dp_error_message : string;
  dp_failure_class : string;
  dp_payload : pydict;
  dp_retryable : bool;
  dp_execution_id : option Z;
  dp_incident_id : option Z;
  dp_alert_id : option Z;
  dp_playbook_id : option string;
  dp_step_index : option Z;
  dp_action_name : option string;
  dp_first_failed_at : option Z;
  dp_last_failed_at : option Z;
}.

Definition same_source (r r' : dl_row) : bool :=
  String.eqb (dl_source_type r) (dl_source_type r') && (dl_source_id r =? dl_source_id r').

(** The active letter of the same source, which the unique index finds. *)
Definition dl_conflict (r : dl_row) (rows : gmap Z dl_row) : option (Z * dl_row) :=
  select_one dl_newest (fun _ r' => dl_active (dl_st r') && same_source r r') rows.

(** DO UPDATE SET ..: [new] is EXCLUDED. *)
Definition merge_failure (new old : dl_row) : dl_row :=
  DlRow (dl_source_type old) (dl_source_id old)
    (or_else (dl_execution_id new) (dl_execution_id old)) (or_else (dl_incident_id new) (dl_incident_id old))
    (or_else (dl_alert_id new) (dl_alert_id old)) (or_else (dl_playbook_id new) (dl_playbook_id old))
    (or_else (dl_step_index new) (dl_step_index old)) (or_else (dl_action_name new) (dl_action_name old))
    (dl_failure_class new) (dl_error_message new) (dl_payload new) (dl_retryable new)
    (dl_st old) (dl_retry_count old) (dl_first_failed_at old) (dl_last_failed_at new)
    (dl_dismissed_at old) (dl_dismissed_by old) (dl_dismiss_reason old)
    (dl_retry_requested_at old) (dl_retry_requested_by old) (dl_created_at old).

Definition dl_widths (r : dl_row) : bool :=
  varchar 64 (dl_failure_class r) && int4 (dl_source_id r) &&
  match dl_playbook_id r with Some p => varchar 64 p | None => true end &&
  match dl_action_name r with Some a => varchar 128 a | None => true end &&
  match dl_step_index r with Some k => int4 k | None => true end.

Section Letters.
(** [references_ok] says the foreign keys of a row exist. *)
Context (clk : clock) (dl_references_ok : dl_row -> bool).

Definition dl_update (i : Z) (cond : dl_row -> bool) (f : dl_row -> dl_row)
    : M dl_store (option (Z * dl_row)) := fun s =>
  let '(r, rows) := update_where i cond f (dls_rows s) in
  (Ok ((fun r => (i, r)) <$> r), DlStore rows (dls_seq s)).

Definition upsert_dead_letter (r : dl_row) : M dl_store (Z * dl_row) := fun s =>
  if negb (dl_widths r) then (Raise (DatabaseError "value out of range"), s)
  else
    let s' := DlStore (dls_rows s) (dls_seq s + 1) in
    match dl_conflict r (dls_rows s) with
    | Some (i, old) =>
        let m := merge_failure r old in
        if dl_references_ok m then (Ok (i, m), DlStore (<[i := m]> (dls_rows s)) (dls_seq s + 1))
        else (Raise (IntegrityError "foreign key"), s')
    | None =>
        if dl_references_ok r then (Ok (dls_seq s, r), DlStore (<[dls_seq s := r]> (dls_rows s)) (dls_seq s + 1))
        else (Raise (IntegrityError "foreign key"), s')
    end.

Definition create_dead_letter (p : dl_params) : M dl_store (Z * dl_row) :=
  let* source_type := of_outcome (validate_source_type (dp_source_type p)) in
  let* failure_class := of_outcome (require_text (Some (dp_failure_class p)) "failure_class") in
  let* message := of_outcome (require_text (Some (dp_error_message p)) "error_message") in
  match sanitize_failure_message (Some message) with
  | None => raise (ValueError "error_message is required")
  | Some message =>
      let* step_index := of_outcome (validate_optional_nonnegative (dp_step_index p) "step_index") in
      upsert_dead_letter
        (DlRow source_type (dp_source_id p) (dp_execution_id p) (dp_incident_id p) (dp_alert_id p)
           (optional_text (dp_playbook_id p)) step_index (optional_text (dp_action_name p)) failure_class
           message (redact_notification_delivery_metadata (dp_payload p)) (dp_retryable p) DOpen 0
           (default (sql_now clk) (dp_first_failed_at p)) (default (sql_now clk) (dp_last_failed_at p))
           None None None None None (sql_now clk))
  end.

Definition get_dead_letter (i : Z) (s : dl_store) : option (Z * dl_row) := (fun r => (i, r)) <$> dls_rows s !! i.

Definition set_dismissed (at_ : Z) (by_ : option Z) (reason : string) (r : dl_row) : dl_row :=
  let '(DlRow a b c d e f g h i j k l _ n o p _ _ _ t u v) := r in
  DlRow a b c d e f g h i j k l DDismissed n o p (Some at_) by_ (Some reason) t u v.
Definition set_retrying (at_ : Z) (by_ : option Z) (r : dl_row) : dl_row :=
  let '(DlRow a b c d e f g h i j k l _ n o p q x y _ _ v) := r in
  DlRow a b c d e f g h i j k l DRetrying (n + 1) o p q x y (Some at_) by_ v.
Definition set_retried (r : dl_row) : dl_row :=
  let '(DlRow a b c d e f g h i j k l _ n o p q x y t u v) := r in
  DlRow a b c d e f g h i j k l DRetried n o p q x y t u v.

Definition dl_has (st : dl_status) (r : dl_row) : bool := bool_decide (dl_st r = st).

Definition mark_dead_letter_dismissed (i : Z) (dismissed_by : option Z) (reason : string)
    (dismissed_at : option Z) : M dl_store (option (Z * dl_row)) :=
  let* reason := of_outcome (require_text (Some reason) "reason") in
  match sanitize_failure_message (Some reason) with
  | None => raise (ValueError "reason is required")
  | Some reason =>
      dl_update i (fun r => dl_active (dl_st r))
        (set_dismissed (default (sql_now clk) dismissed_at) dismissed_by reason)
  end.

Definition mark_dead_letter_retry_requested (i : Z) (requested_by : option Z) (at_ : option Z)
    : M dl_store (option (Z * dl_row)) :=
  let* s := get in
  if match dls_rows s !! i with
     | Some r => dl_has DOpen r && negb (int4 (dl_retry_count r + 1))
     | None => false
     end
  then raise (DatabaseError "integer out of range")
  else dl_update i (dl_has DOpen) (set_retrying (default (sql_now clk) at_) requested_by).

Definition mark_dead_letter_retried (i : Z) : M dl_store (option (Z * dl_row)) :=
  dl_update i (dl_has DRetrying) set_retried.

(** ** Reads *)

Record dl_filter := DlFilter {
  df_status : option string;
  df_source_type : option string;
  df_failure_class : option string;
  df_retryable : option bool;
  df_incident_id : option Z;
  df_alert_id : option Z;
  df_execution_id : option Z;
}.

Definition opt_validate (o : option string) (f : string -> outcome string) : outcome (option string) :=
  match o with Some v => let! v := f v in Ok (Some v) | None => Ok None end.

Definition list_dead_letters (f : dl_filter) (limit offset : Z) (s : dl_store) : outcome (list (Z * dl_row)) :=
  if limit <? 1 then Raise (ValueError "limit must be >= 1")
  else if offset <? 0 then Raise (ValueError "offset must be >= 0")
  else
    let! status := opt_validate (df_status f) validate_status in
    let! source := opt_validate (df_source_type f) validate_source_type in
    let! class := opt_validate (df_failure_class f) (fun c => require_text (Some c) "failure_class") in
    Ok (Tables.limit (Z.min limit 500) (drop (Z.to_nat offset)
      (select dl_newest (fun _ r =>
         opt_check status (String.eqb (dl_status_str (dl_st r))) &&
         opt_check source (String.eqb (dl_source_type r)) &&
         opt_check class (String.eqb (dl_failure_class r)) &&
         opt_check (df_retryable f) (Bool.eqb (dl_retryable r)) &&
         opt_check (df_incident_id f) (sql_eq_Z (dl_incident_id r)) &&
         opt_check (df_alert_id f) (sql_eq_Z (dl_alert_id r)) &&
         opt_check (df_execution_id f) (sql_eq_Z (dl_execution_id r))) (dls_rows s)))).
End Letters.

(** ** Executions and dead letters in one database *)

Record soar_db := SoarDb { sd_pb : pb_store; sd_dl : dl_store }.

#[export, refine] Instance soar_db_tx : Transactional soar_db := {
  restore snap cur := SoarDb (restore (sd_pb snap) (sd_pb cur)) (restore (sd_dl snap) (sd_dl cur));
}.
Proof. all: intros [[] []]; done. Defined.

Definition on_pb {A} (m : M pb_store A) : M soar_db A := zoom sd_pb (fun p d => SoarDb p (sd_dl d)) m.
Definition on_dl {A} (m : M dl_store A) : M soar_db A := zoom sd_dl (fun l d => SoarDb (sd_pb d) l) m.

(** ** Capturing a failed execution *)

(** [_latest_failed_step_entry]. *)
Fixpoint first_failed (entries : list pyval) : option pydict :=
  match entries with
  | [] => None
  | PDict e :: rest => if eq_str (dget e "status") "failed" then Some e else first_failed rest
  | _ :: rest => first_failed rest
  end.

Definition latest_failed_step_entry (steps_log : list pyval) : option pydict := first_failed (rev steps_log).

Definition nonblank_text (v : pyval) : option string :=
  match as_str v with Some s => if is_empty (strip s) then None else Some (String.substring 0 64 (strip s)) | None => None end.

Definition dead_letter_failure_class (entry : pydict) : string :=
  let output := dict_or_empty (dget entry "output") in
  let adapter_result := dict_or_empty (dget output "adapter_result") in
  let metadata := dict_or_empty (dget adapter_result "metadata") in
  match nonblank_text (dget metadata "failure_classification") with
  | Some c => c
  | None => match nonblank_text (dget (dict_or_empty (dget entry "error")) "code") with
            | Some c => c
            | None => "unknown"
            end
  end.


Definition failure_params (i : Z) (x : exec_row) (entry : pydict) (last : option Z) (now : Z)
    (retryable : bool) : dl_params :=
  let error := dict_or_empty (dget entry "error") in
  let output := dict_or_empty (dget entry "output") in
  let message := py_or (dget error "message") (py_or (dget entry "message")
                   (py_or (opt_text (x_failure_reason x)) (PStr "Playbook execution failed."))) in
  DlParams "playbook_execution" i (py_str message) (dead_letter_failure_class entry)
    [("source", PStr "playbook_step_executor");
     ("execution_status", PStr (exec_status_str (x_status x)));
     ("failure_reason", opt_text (x_failure_reason x));
     ("last_completed_step", opt_int last);
     ("step", PDict [("step_index", dget entry "step_index"); ("action", dget entry "action");
                     ("status", dget entry "status"); ("message", dget entry "message");
                     ("error", PDict error); ("output", PDict output)])]
    retryable (Some i) (x_incident_id x) (x_alert_id x) (Some (x_playbook_id x))
    (as_int (dget entry "step_index")) (as_str (dget entry "action")) (Some now) (Some now).

Section Combined.
Context (clk : clock) (dl_references_ok : soar_db -> dl_row -> bool).

Definition store_dead_letter (p : dl_params) : M soar_db (Z * dl_row) :=
  fun d => on_dl (create_dead_letter clk (dl_references_ok d) p) d.

(** Every exception is logged and swallowed; one of the database leaves
    the transaction aborted. *)
Definition capture_failed_execution_dead_letter (i : Z) (x : exec_row) (steps_log : list pyval)
    (last : option Z) (now : Z) : M (conn soar_db) unit :=
  match latest_failed_step_entry steps_log with
  | None => ret tt
  | Some entry =>
      try_catch
        (let* retryable := of_outcome (classify_dead_letter_retryable
            (Some (dead_letter_failure_class entry)) (Some "playbook_execution") (Some "open")) in
         execute (store_dead_letter (failure_params i x entry last now retryable)) ;;;
         ret tt)
        (fun _ => ret tt)
  end.

(** ** recover_stale_playbook_executions *)

Definition normalize_stale_limit (n : Z) : Z := if n <? 1 then 1 else Z.min n 200.

(** What each scanned row became; None when it was passed over. *)
Fixpoint recover_rows (rows : list (Z * exec_row)) (now : Z) : M (conn soar_db) (list (Z * option exec_row)) :=
  match rows with
  | [] => ret []
  | (i, _) :: rows =>
      let* updated := execute (on_pb (mark_stale_execution_for_recovery clk i (Some now) None)) in
      match updated with
      | None => let* rest := recover_rows rows now in ret ((i, None) :: rest)
      | Some (_, x) =>
          (if has_exec_status XFailed x
           then capture_failed_execution_dead_letter i x (x_steps_log x) (x_last_completed_step x) now
           else ret tt) ;;;
          let* rest := recover_rows rows now in
          ret ((i, Some x) :: rest)
      end
  end.

Definition recover_stale_playbook_executions (locked : gset Z) (limit : Z) (dry_run : bool) (now : option Z)
    : M (conn soar_db) (list (Z * option exec_row)) :=
  let timestamp := exec_now clk now in
  let* rows := execute (fun d =>
    (list_stale_running_executions locked timestamp (normalize_stale_limit limit) (sd_pb d), d)) in
  if dry_run then ret [] else recover_rows rows timestamp.

(** ** POST /dead-letters/<id>/retry-execute *)

Context (alert_exists incident_exists decision_exists : Z -> bool).

Inductive retry_response :=
  | RetryNotFound
  | RetryInvalidState
  | RetryUnsupportedSource
  | RetryNotAllowed (message : string)
  | RetryCreated (dead_letter : Z * dl_row) (new_execution_id : Z)
  | RetryServerError.

(** The insert of the new execution; a ValueError is answered, not raised. *)
Definition create_retry (source : Z) : M (conn soar_db) (Z + string) :=
  try_catch
    (let* new := execute (on_pb (create_retry_execution clk alert_exists incident_exists decision_exists source)) in
     ret (inl new))
    (fun e => if is_value_error e then rollback_conn ;;; ret (inr (exn_str e)) else raise e).

Definition retry_letter (i : Z) (r : dl_row) : M (conn soar_db) retry_response :=
  if negb (dl_has DRetrying r) then ret RetryInvalidState
  else if negb (String.eqb (dl_source_type r) "playbook_execution") then ret RetryUnsupportedSource
  else
    let* created := create_retry (dl_source_id r) in
    match created with
    | inr message => ret (RetryNotAllowed message)
    | inl new =>
        let* updated := execute (on_dl (mark_dead_letter_retried i)) in
        match updated with
        | None => rollback_conn ;;; ret RetryInvalidState
        | Some x => commit_conn ;;; ret (RetryCreated x new)
        end
    end.

Definition retry_execute_dead_letter (i : Z) : M (conn soar_db) retry_response :=
  try_catch
    (let* existing := execute (gets (fun d => get_dead_letter i (sd_dl d))) in
     match existing with
     | None => ret RetryNotFound
     | Some (_, r) => retry_letter i r
     end)
    (fun _ => rollback_conn ;;; ret RetryServerError).
End Combined.

(** ** The lifecycle of a dead letter *)

Definition same_letter (r r' : dl_row) : Prop :=
  dl_source_type r' = dl_source_type r /\ dl_source_id r' = dl_source_id r /\
  dl_first_failed_at r' = dl_first_failed_at r /\ dl_created_at r' = dl_created_at r.

Inductive dl_life (r r' : dl_row) : Prop :=
  | dl_unchanged (He : r' = r)
  | dl_refailed (Hl : same_letter r r') (Hs : dl_active (dl_st r) = true) (Hs' : dl_st r' = dl_st r)
      (Hn : dl_retry_count r' = dl_retry_count r)
  | dl_requested (Hl : same_letter r r') (Hs : dl_st r = DOpen) (Hs' : dl_st r' = DRetrying)
      (Hn : dl_retry_count r' = dl_retry_count r + 1)
  | dl_done (Hl : same_letter r r') (Hs : dl_st r = DRetrying) (Hs' : dl_st r' = DRetried)
      (Hn : dl_retry_count r' = dl_retry_count r)
  | dl_dismissed (Hl : same_letter r r') (Hs : dl_active (dl_st r) = true) (Hs' : dl_st r' = DDismissed)
      (Hn : dl_retry_count r' = dl_retry_count r).

(** A letter is retried at most once. *)
Definition dl_count_ok (r : dl_row) : Prop :=
  match dl_st r with
  | DOpen => dl_retry_count r = 0
  | DRetrying | DRetried => dl_retry_count r = 1
  | DDismissed => 0 <= dl_retry_count r <= 1
  end.

Record dl_ok (s : dl_store) : Prop := {
  dl_ids : forall i r, dls_rows s !! i = Some r -> i < dls_seq s;
  dl_unique : forall i j r r', i <> j -> dls_rows s !! i = Some r -> dls_rows s !! j = Some r' ->
    dl_active (dl_st r) = true -> dl_active (dl_st r') = true -> same_source r r' = false;
  dl_counts : forall i r, dls_rows s !! i = Some r -> dl_count_ok r;
}.

(** Old letters live on, a new one is open, of a source without an active
    letter, with no retry. *)
Record dl_moves (s s' : dl_store) : Prop := {
  dlm_rows : forall i r, dls_rows s !! i = Some r -> exists r', dls_rows s' !! i = Some r' /\ dl_life r r';
  dlm_new : forall i r, dls_rows s' !! i = Some r -> dls_rows s !! i = None ->
    i = dls_seq s /\ dl_st r = DOpen /\ dl_retry_count r = 0 /\
    forall j r', dls_rows s !! j = Some r' -> dl_active (dl_st r') = true -> same_source r r' = false;
  dlm_seq : dls_seq s <= dls_seq s';
  dlm_seq_new : forall i r, dls_rows s' !! i = Some r -> dls_rows s !! i = None -> dls_seq s' = dls_seq s + 1;
}.

Lemma dl_moves_none s seq : dls_seq s <= seq -> dl_moves s (DlStore (dls_rows s) seq).
Proof.
  intros Hseq. split; cbn; [|intros; congruence|done|intros; congruence].
  intros i r Hi. exists r. split; [done|by apply dl_unchanged].
Qed.

Lemma dl_moves_refl s : dl_moves s s.
Proof. destruct s. by apply dl_moves_none. Qed.

Lemma dl_moves_update s i r r' seq :
  dls_rows s !! i = Some r -> dl_life r r' -> dls_seq s <= seq ->
  dl_moves s (DlStore (<[i := r']> (dls_rows s)) seq).
Proof.
  intros Hi Hl Hseq. split; cbn; [| |done|].
  - intros j r0 Hj. destruct (decide (j = i)) as [->|Hne].
    + rewrite lookup_insert_eq. simplify_eq. eauto.
    + rewrite lookup_insert_ne by done. exists r0. split; [done|by apply dl_unchanged].
  - intros j r0 Hj Hn. destruct (decide (j = i)) as [->|Hne]; [congruence|].
    rewrite lookup_insert_ne in Hj by done. congruence.
  - intros j r0 Hj Hn. destruct (decide (j = i)) as [->|Hne]; [congruence|].
    rewrite lookup_insert_ne in Hj by done. congruence.
Qed.

Lemma dl_update_moves i cond f s :
  (forall r, cond r = true -> dl_life r (f r)) -> dl_moves s (dl_update i cond f s).2.
Proof.
  intros Hf. unfold dl_update. destruct (update_where i cond f (dls_rows s)) as [[r'|] rows] eqn:E.
  - apply update_where_Some in E as (r & Hi & Hc & -> & ->). eapply dl_moves_update; [done|auto|cbn; lia].
  - apply update_where_None in E as [-> _]. cbn. apply dl_moves_none. lia.
Qed.

Lemma dl_life_source r r' : dl_life r r' -> same_letter r r'.
Proof. intros []; subst; done. Qed.

Lemma dl_life_active r r' : dl_life r r' -> dl_active (dl_st r') = true -> dl_active (dl_st r) = true.
Proof. intros []; subst; rewrite ?Hs, ?Hs'; try done. Qed.

Lemma dl_life_count r r' : dl_life r r' -> dl_count_ok r -> dl_count_ok r'.
Proof.
  unfold dl_count_ok. intros []; subst; try done.
  - by rewrite Hs', Hn.
  - rewrite Hs', Hn, Hs. lia.
  - by rewrite Hs', Hn, Hs.
  - rewrite Hs', Hn. destruct (dl_st r); try done; lia.
Qed.

Lemma same_source_letter r1 r1' r2 r2' :
  same_letter r1 r1' -> same_letter r2 r2' -> same_source r1' r2' = same_source r1 r2.
Proof. unfold same_source. intros (-> & -> & _) (-> & -> & _). done. Qed.

Lemma same_source_sym r r' : same_source r r' = same_source r' r.
Proof. unfold same_source. by rewrite String.eqb_sym, Z.eqb_sym. Qed.

(** Every row of the new store comes from an old one or is the new letter. *)
Lemma dl_moves_ok s s' : dl_moves s s' -> dl_ok s -> dl_ok s'.
Proof.
  intros [Hrows Hnew Hseq Hseqn] [Hids Huniq Hcnt].
  assert (forall i r, dls_rows s' !! i = Some r ->
    (exists r0, dls_rows s !! i = Some r0 /\ dl_life r0 r) \/
    (dls_rows s !! i = None /\ i = dls_seq s /\ dl_st r = DOpen /\ dl_retry_count r = 0 /\
     forall j r', dls_rows s !! j = Some r' -> dl_active (dl_st r') = true -> same_source r r' = false)) as Hcase.
  { intros i r Hi. destruct (dls_rows s !! i) as [r0|] eqn:E; [left|right; by eauto].
    destruct (Hrows i r0 E) as (r1 & H1 & Hl). simplify_eq. eauto. }
  split.
  - intros i r Hi. destruct (Hcase i r Hi) as [(r0 & H0 & _)|(Hn & -> & _)].
    + specialize (Hids _ _ H0). lia.
    + rewrite (Hseqn _ _ Hi Hn). lia.
  - intros i j r r' Hne Hi Hj Ha Ha'.
    destruct (Hcase i r Hi) as [(r0 & H0 & Hl)|(Hn & -> & _ & _ & Hfresh)],
      (Hcase j r' Hj) as [(r0' & H0' & Hl')|(Hn' & -> & _ & _ & Hfresh')].
    + rewrite (same_source_letter r0 r r0' r') by (by apply dl_life_source).
      eapply Huniq; eauto using dl_life_active.
    + rewrite same_source_sym. rewrite (same_source_letter r' r' r0 r); [|done|by apply dl_life_source].
      eapply Hfresh'; eauto using dl_life_active.
    + rewrite (same_source_letter r r r0' r'); [|done|by apply dl_life_source].
      eapply Hfresh; eauto using dl_life_active.
    + done.
  - intros i r Hi. destruct (Hcase i r Hi) as [(r0 & H0 & Hl)|(_ & _ & Hs & Hn & _)].
    + eauto using dl_life_count.
    + unfold dl_count_ok. by rewrite Hs.
Qed.

Section LetterOps.
Context (clk : clock) (refs : dl_row -> bool).

Lemma upsert_moves r s :
  dl_ok s -> dl_st r = DOpen -> dl_retry_count r = 0 -> dl_moves s (upsert_dead_letter refs r s).2.
Proof.
  intros Hok Hs Hn. unfold upsert_dead_letter. destruct (negb _); [apply dl_moves_refl|].
  destruct (dl_conflict r (dls_rows s)) as [[i old]|] eqn:E; unfold dl_conflict in E.
  - apply select_one_Some in E as (Hi & Hp & _). apply andb_true_iff in Hp as [Ha _].
    destruct (refs _); cbn; [|apply dl_moves_none; lia].
    eapply dl_moves_update; [done| |lia]. apply dl_refailed; [|done..]. by destruct old.
  - pose proof (proj1 (select_one_None _ _ _) E) as Hnone.
    destruct (refs r); cbn; [|apply dl_moves_none; lia].
    assert (dls_rows s !! dls_seq s = None) as Hfresh.
    { destruct (dls_rows s !! dls_seq s) eqn:E'; [|done]. pose proof (dl_ids _ Hok _ _ E'). lia. }
    split; cbn; [| |lia|done].
    + intros j r0 Hj. exists r0. rewrite lookup_insert_ne by congruence. split; [done|by apply dl_unchanged].
    + intros j r0 Hj Hjn. destruct (decide (j = dls_seq s)) as [->|Hne];
        [|rewrite lookup_insert_ne in Hj by done; congruence].
      rewrite lookup_insert_eq in Hj. simplify_eq. split_and!; try done.
      intros k r' Hk Ha. specialize (Hnone k r' Hk). by rewrite Ha in Hnone.
Qed.

Inductive dl_op :=
  | DlCreate (p : dl_params)
  | DlDismiss (i : Z) (by_ : option Z) (reason : string) (at_ : option Z)
  | DlRequest (i : Z) (by_ : option Z) (at_ : option Z)
  | DlRetried (i : Z).

Definition run_dl_op (op : dl_op) (s : dl_store) : dl_store :=
  match op with
  | DlCreate p => (create_dead_letter clk refs p s).2
  | DlDismiss i b r t => (mark_dead_letter_dismissed clk i b r t s).2
  | DlRequest i b t => (mark_dead_letter_retry_requested clk i b t s).2
  | DlRetried i => (mark_dead_letter_retried i s).2
  end.

Lemma run_dl_op_moves op s : dl_ok s -> dl_moves s (run_dl_op op s).
Proof.
  intros Hok. destruct op as [p|i b reason t|i b t|i]; cbn [run_dl_op].
  - unfold create_dead_letter, bind, of_outcome. repeat case_match; simplify_eq; try apply dl_moves_refl.
    all: by apply upsert_moves.
  - unfold mark_dead_letter_dismissed, bind, of_outcome. repeat case_match; simplify_eq; try apply dl_moves_refl.
    all: apply dl_update_moves; intros r Hr; apply dl_dismissed; try done; by destruct r.
  - unfold mark_dead_letter_retry_requested, bind, get, raise. case_match; [apply dl_moves_refl|].
    apply dl_update_moves. intros r Hr%bool_decide_eq_true. apply dl_requested; try done; by destruct r.
  - unfold mark_dead_letter_retried. apply dl_update_moves. intros r Hr%bool_decide_eq_true.
    apply dl_done; try done; by destruct r.
Qed.
End LetterOps.

(** ** Properties *)

Definition empty_letters : dl_store := DlStore ∅ 1.

(** Same tables; only sequences may have advanced. *)
Definition same_tables (d d' : soar_db) : Prop :=
  pb_defs (sd_pb d') = pb_defs (sd_pb d) /\ pb_execs (sd_pb d') = pb_execs (sd_pb d) /\
  dls_rows (sd_dl d') = dls_rows (sd_dl d).

Lemma same_tables_refl d : same_tables d d.
Proof. done. Qed.
Lemma restore_same_tables d d' : same_tables d (restore d d').
Proof. done. Qed.

Section Properties.
Context (clk : clock).

(** C39: Whatever calls are made on the dead letters, there is never more
    than one active letter for a source, each letter only moves from open
    to retrying to retried or is dismissed while active, keeping its
    source and its first failure time, and it is retried at most once. *)
Theorem dead_letters_reachable refs ops op :
  let s := foldl (fun s op => run_dl_op clk refs op s) empty_letters ops in
  dl_ok s /\ dl_moves s (run_dl_op clk refs op s).
Proof.
  intros s. assert (dl_ok s) as Hok.
  { unfold s. clear op. assert (dl_ok empty_letters) as H0.
    { split; cbn; intros; by rewrite ?lookup_empty in *. }
    revert H0. generalize empty_letters. induction ops as [|op ops IH]; intros s0 H0; [done|].
    cbn [foldl]. apply IH. eapply dl_moves_ok; [|done]. by apply run_dl_op_moves. }
  split; [done|]. by apply run_dl_op_moves.
Qed.

Context (alert_exists incident_exists decision_exists : Z -> bool).

(** Retry execution of a dead letter is atomic: either it commits
    exactly one new pending execution together with the letter marked
    retried, which was retrying and belongs to a failed or abandoned
    playbook execution, or it commits no change to any table. *)
Theorem retry_execute_atomic i d :
  store_wf (sd_pb d) ->
  let '(o, c) := retry_execute_dead_letter clk alert_exists incident_exists decision_exists i (open_conn d) in
  match o with
  | Ok (RetryCreated x new) =>
      exists r source,
        dls_rows (sd_dl d) !! i = Some r /\ dl_st r = DRetrying /\ dl_source_type r = "playbook_execution" /\
        pb_execs (sd_pb d) !! dl_source_id r = Some source /\
        (x_status source = XFailed \/ x_status source = XAbandoned) /\
        pb_execs (sd_pb d) !! new = None /\
        (exists row, x_status row = XPending /\ x_playbook_id row = x_playbook_id source /\
           x_alert_id row = x_alert_id source /\ x_steps_log row = [] /\
           pb_execs (sd_pb (cn_committed c)) = <[new := row]> (pb_execs (sd_pb d))) /\
        x = (i, set_retried r) /\
        dls_rows (sd_dl (cn_committed c)) = <[i := set_retried r]> (dls_rows (sd_dl d))
  | Ok _ => same_tables d (cn_committed c)
  | Raise _ => False
  end.
Proof.
  intros Hwf. unfold retry_execute_dead_letter, try_catch at 1, bind at 1.
  change (execute (gets (fun d => get_dead_letter i (sd_dl d))) (open_conn d))
    with (@Ok (option (Z * dl_row)) (get_dead_letter i (sd_dl d)), open_conn d).
  cbv iota beta. unfold get_dead_letter. destruct (dls_rows (sd_dl d) !! i) as [r|] eqn:Hr; [|by apply same_tables_refl].
  cbn [fmap option_fmap option_map]. unfold retry_letter.
  destruct (dl_has DRetrying r) eqn:Hst; [|by apply same_tables_refl].
  destruct (String.eqb_spec (dl_source_type r) "playbook_execution") as [Hsrc|]; [|by apply same_tables_refl].
  cbn [negb]. unfold bind at 1, create_retry, try_catch, bind at 1, execute at 1, on_pb, zoom.
  cbn [open_conn cn_aborted cn_current cn_committed].
  destruct (create_retry_execution _ _ _ _ _ (sd_pb d)) as [[new|e] pb'] eqn:Ec.
  - cbn [ret]. unfold bind at 1, execute at 1, on_dl, zoom, mark_dead_letter_retried, dl_update, update_where.
    cbn [cn_aborted cn_current cn_committed sd_dl]. rewrite Hr, Hst.
    destruct (retry_inv clk alert_exists incident_exists decision_exists _ _ _ _ Hwf Ec)
      as (source & Hs & Hss & _ & _ & Hn & He).
    apply bool_decide_eq_true in Hst. exists r, source. split_and!; try done.
    eexists. split_and!; [| | | |exact He]; done.
  - destruct (is_value_error e); exact (restore_same_tables d _).
Qed.

(** An execution that exhausts its attempts without a failed step in
    its log, which is what a worker that dies in the middle of a step
    leaves behind, is failed by stale recovery and no dead letter records
    it. *)
Theorem exhausted_without_dead_letter refs c i r now rows :
  cn_aborted c = false -> pb_execs (sd_pb (cn_current c)) !! i = Some r ->
  recoverable now r = true -> can_requeue r = false -> int4 (x_recovery_count r + 1) = true ->
  latest_failed_step_entry (x_steps_log r) = None ->
  let '(o, c') := recover_rows clk refs [(i, rows)] now c in
  (exists x, o = Ok [(i, Some x)] /\ x_status x = XFailed) /\
  status_at i (sd_pb (cn_current c')) = Some XFailed /\
  sd_dl (cn_current c') = sd_dl (cn_current c).
Proof.
  intros Hc Hi Hrec Hreq Hint Hlog. cbn [recover_rows]. unfold bind at 1, execute. rewrite Hc.
  unfold on_pb, zoom, mark_stale_execution_for_recovery, bind at 1, get.
  change (exec_now clk (Some now)) with now. rewrite Hi, Hrec, Hint. cbn [negb andb]. unfold update_exec. rewrite Hi, Hrec.
  destruct (recovered_row_attempts now None r) as (_ & _ & Hst). rewrite Hreq in Hst.
  rewrite inactive_untaken by (by rewrite Hst). cbn [fst snd].
  unfold has_exec_status. rewrite Hst. rewrite bool_decide_eq_true_2 by done.
  assert (x_steps_log (recovered_row now None r) = x_steps_log r) as Hlog'.
  { unfold recovered_row. rewrite Hreq. by destruct r. }
  unfold capture_failed_execution_dead_letter. rewrite Hlog', Hlog.
  cbn. split_and!; [by eexists|unfold status_at; cbn; by rewrite lookup_insert_eq; cbn; rewrite Hst|done].
Qed.
End Properties.

(** ** Witnesses *)

(** A failed execution and its retrying dead letter. *)
Definition ex_letter_params : dl_params :=
  failure_params 1 ex_pb_row [("status", PStr "failed"); ("step_index", PInt 0); ("action", PStr "monitor");
    ("message", PStr "see https://x.example/y now")] None (seconds 1000) false.
Definition ex_refs (_ : dl_row) : bool := true.
Definition ex_letters : dl_store :=
  foldl (fun s op => run_dl_op ex_pb_clock ex_refs op s) empty_letters
    [DlCreate ex_letter_params; DlRequest 1 (Some 3) None].
Definition ex_soar_db : soar_db := SoarDb ex_failed_store ex_letters.

Definition is_created (o : outcome retry_response) : bool :=
  match o with Ok (RetryCreated _ _) => true | _ => false end.

Lemma retry_execute_atomic_witness :
  let c := (retry_execute_dead_letter ex_pb_clock ex_exists ex_exists ex_exists 1 (open_conn ex_soar_db)).2 in
  exists new, pb_execs ex_failed_store !! new = None /\ status_at new (sd_pb (cn_committed c)) = Some XPending.
Proof.
  assert (is_created (retry_execute_dead_letter ex_pb_clock ex_exists ex_exists ex_exists 1
            (open_conn ex_soar_db)).1 = true) as Hc by (vm_compute; reflexivity).
  pose proof (retry_execute_atomic ex_pb_clock ex_exists ex_exists ex_exists 1 ex_soar_db
    (run_ops_wf _ _ _ _ _ _ ex_pb_store_wf)) as H.
  destruct (retry_execute_dead_letter ex_pb_clock ex_exists ex_exists ex_exists 1 (open_conn ex_soar_db))
    as [o c].
  cbn [fst snd] in *.
  destruct o as [[| | | |x new|]|e]; try discriminate Hc.
  destruct H as (r & source & _ & _ & _ & _ & _ & Hn & (row & Hrow & _ & _ & _ & He) & _).
  exists new. split; [exact Hn|]. unfold status_at. rewrite He, lookup_insert_eq. cbn. rewrite Hrow. reflexivity.
Defined.

(** A running execution with no attempt left and an empty log. *)
Definition ex_spent_row : exec_row :=
  set_x_metadata (Metadata (Some 3) None None None None None) ex_pb_row.
Definition ex_spent_db : soar_db := SoarDb (PbStore ∅ {[ 1 := ex_spent_row ]} 2) empty_letters.

Lemma exhausted_without_dead_letter_witness :
  dls_rows (sd_dl (cn_current
    (recover_rows ex_pb_clock (fun _ => ex_refs) [(1, ex_spent_row)] (seconds 5000) (open_conn ex_spent_db)).2)) = ∅.
Proof.
  pose proof (exhausted_without_dead_letter ex_pb_clock (fun _ => ex_refs) (open_conn ex_spent_db) 1 ex_spent_row
    (seconds 5000) ex_spent_row eq_refl) as H.
  destruct (recover_rows _ _ _ _ _) as [o c]. cbn [snd].
  destruct H as (_ & _ & Hd); try (vm_compute; reflexivity). rewrite Hd. reflexivity.
Defined.
