(* ===== verification/StepLog.v ===== *)
(** * StepLog: the entries of a playbook execution's step log

    The pure part of engines/playbook_step_executor.py: the entries the
    executor appends, the questions it asks of the log, the classification
    of an entry for the outcome log, and the mapping of a notification
    delivery to an outcome. *)

From S2P Require Import Prelude PyText PyFloat PyValue Tables Outcomes Deliveries ParamBinding.
From S2P Require Import ActionVocabulary BranchConditions PlaybookRegistry PlaybookStore.

Open Scope Z_scope.

Definition NOTIFICATION_ACTIONS : list string := ["notify_slack"; "notify_teams"; "notify_email"; "notify_webhook"].
Definition INTERNAL_PLAYBOOK_ACTIONS : list string :=
  ["monitor"; "flag_high_priority"; "require_approval"; "branch"; "trigger_playbook"; "add_note"; "stop_monitor"].

Definition PROVIDER_FOR_ACTION (action : string) : option string :=
  if String.eqb action "notify_slack" then Some "slack"
  else if String.eqb action "notify_teams" then Some "teams"
  else if String.eqb action "notify_email" then Some "email"
  else if String.eqb action "notify_webhook" then Some "webhook"
  else None.

(** [action in ADAPTER_ACTIONS]: an unhashable action raises. *)
Definition in_adapter_actions (action : pyval) : outcome bool :=
  in_str_set action ["notify_slack"; "notify_teams"; "notify_email"; "block_ip"; "notify_webhook"].

(** [_iso]. *)
Definition iso (t : Z) : pyval := PStr (iso_z (utc_datetime t)).

(** ** Entries *)

Section Entries.
Context (now : Z).

Definition failure_mode (action_name code : string) : string :=
  if String.eqb action_name "enrich_context" then "read_only"
  else if str_in action_name INTERNAL_PLAYBOOK_ACTIONS || String.eqb code "unsupported_action" then "internal"
  else if match ADAPTER_ACTIONS action_name with Some _ => true | None => false end ||
          str_in action_name NOTIFICATION_ACTIONS then "simulation"
  else "internal".

(** [output]: what replaces the default output. *)
Definition failure_entry (step_index : option Z) (action : pyval) (message code : string)
    (output : option pydict) : pydict :=
  let mode := failure_mode (strip (py_str (py_or action (PStr "")))) code in
  [("step_index", opt_int step_index); ("action", action); ("status", PStr "failed"); ("mode", PStr mode);
   ("started_at", iso now); ("completed_at", iso now); ("message", PStr message);
   ("output", PDict (default [("simulated", PBool (String.eqb mode "simulation")); ("executed", PBool false)]
                       output));
   ("error", PDict [("code", PStr code); ("message", PStr message)])].

(** The label a step hands on to its entry. *)
Definition with_label (step entry : pydict) : pydict :=
  match as_nonempty_str (dget step "label") with
  | Some label => dset entry "label" (PStr label)
  | None => entry
  end.

(** The fields of an approval request an entry records. *)
Record gate_request := GateRequest { gr_id : Z; gr_status : string; gr_risk_level : string }.

Definition gate_output : pyval :=
  PDict [("simulated", PBool false); ("executed", PBool true); ("approval_gate", PBool true)].

Definition approval_requested_entry (step_index : Z) (request : gate_request) (step : pydict) : pydict :=
  [("step_index", PInt step_index); ("action", PStr "require_approval"); ("status", PStr "awaiting_approval");
   ("event", PStr "approval_requested"); ("mode", PStr "internal"); ("simulated", PBool false);
   ("executed", PBool true); ("started_at", iso now); ("completed_at", PNone);
   ("approval_request_id", PInt (gr_id request)); ("approval_status", PStr (gr_status request));
   ("risk_level", PStr (gr_risk_level request));
   ("message", py_or (dget step "reason") (PStr "Approval requested before continuing playbook execution."));
   ("output", gate_output); ("error", PNone)].

Definition approval_decision_entry (step_index : Z) (request : gate_request) (status event message : string)
    : pydict :=
  [("step_index", PInt step_index); ("action", PStr "require_approval"); ("status", PStr status);
   ("event", PStr event); ("mode", PStr "internal"); ("simulated", PBool false);
   ("executed", PBool true); ("started_at", iso now); ("completed_at", iso now);
   ("approval_request_id", PInt (gr_id request)); ("approval_status", PStr (gr_status request));
   ("risk_level", PStr (gr_risk_level request)); ("message", PStr message);
   ("output", gate_output); ("error", PNone)].

(** [step.get("action") if isinstance(step, dict) else None]. *)
Definition step_action (step : pyval) : pyval :=
  match as_dict step with Some d => dget d "action" | None => PNone end.

Definition skipped_by_branch_entry (index : Z) (step : pyval) : pydict :=
  [("step_index", PInt index); ("action", step_action step); ("status", PStr "skipped");
   ("event", PStr "skipped_by_branch"); ("skip_reason", PStr "branch_not_taken"); ("mode", PStr "internal");
   ("simulated", PBool false); ("executed", PBool false); ("started_at", PNone); ("completed_at", iso now);
   ("message", PStr "Step skipped because branch chose another path.");
   ("output", PDict [("simulated", PBool false); ("executed", PBool false);
                     ("skip_reason", PStr "branch_not_taken")]);
   ("error", PNone)].

(** [range(start_index, end_index)], with the step at each index. *)
Definition skipped_branch_step_entries (steps : list pyval) (start_index end_index : Z) : list pyval :=
  map (fun index => PDict (skipped_by_branch_entry index (default (PDict []) (steps !! Z.to_nat index))))
    (seqZ start_index (end_index - start_index)).

Definition skipped_after_gate_entry (reason : string) (index : Z) (step : pyval) : pydict :=
  [("step_index", PInt index); ("action", step_action step); ("status", PStr "skipped");
   ("event", PStr "skipped_after_approval_gate"); ("mode", PStr "internal"); ("simulated", PBool false);
   ("executed", PBool false); ("started_at", PNone); ("completed_at", iso now);
   ("message", PStr ("Step skipped because " +:+ reason +:+ " stopped the playbook."));
   ("output", PDict [("simulated", PBool false); ("executed", PBool false); ("skip_reason", PStr reason)]);
   ("error", PNone)].

Definition skipped_later_step_entries (steps : list pyval) (start_index : Z) (reason : string) : list pyval :=
  imap (fun k step => PDict (skipped_after_gate_entry reason (start_index + Z.of_nat k) step))
    (drop (Z.to_nat start_index) steps).
End Entries.

(** ** Questions to the log *)

(** [entry.get("step_index") == step_index]: True and False equal 1 and 0. *)
Definition at_index (entry : pydict) (index : Z) : bool :=
  match dget entry "step_index" with
  | PInt z => z =? index
  | PBool b => (if b then 1 else 0) =? index
  | PFloat f => match float_of_int index with Ok g => feq f g | Raise _ => false end
  | _ => false
  end.

Definition has_status (status : string) (index : Z) (entry : pyval) : bool :=
  match as_dict entry with
  | Some e => at_index e index && eq_str (dget e "status") status
  | None => false
  end.

Definition step_already_succeeded_in_log (steps_log : list pyval) (index : Z) : bool :=
  existsb (has_status "success" index) steps_log.

Definition step_already_skipped_in_log (steps_log : list pyval) (index : Z) : bool :=
  existsb (has_status "skipped" index) steps_log.

Definition is_gate_entry (entry : pyval) : option (Z * pydict) :=
  match as_dict entry with
  | Some e =>
      if eq_str (dget e "action") "require_approval" && eq_str (dget e "event") "approval_requested"
      then match as_int (dget e "step_index") with Some i => Some (i, e) | None => None end
      else None
  | None => None
  end.

Fixpoint first_gate (entries : list pyval) : option (Z * pydict) :=
  match entries with
  | [] => None
  | e :: rest => match is_gate_entry e with Some x => Some x | None => first_gate rest end
  end.

(** The newest gate entry, with its step index. *)
Definition latest_gate_entry (steps_log : list pyval) : option (Z * pydict) := first_gate (rev steps_log).

Definition eq_int (v : pyval) (n : Z) : bool :=
  match v with PInt z => z =? n | PBool b => (if b then 1 else 0) =? n | _ => false end.

Definition has_gate_event (steps_log : list pyval) (index request : Z) (event : string) : bool :=
  existsb (fun entry => match as_dict entry with
                        | Some e => at_index e index && eq_int (dget e "approval_request_id") request &&
                                    eq_str (dget e "event") event
                        | None => false
                        end) steps_log.

(** Where a claimed execution starts, from its last completed step. *)
Definition resume_progress (x : exec_row) : Z * list pyval * option Z :=
  match x_last_completed_step x with
  | None => (0, x_steps_log x, None)
  | Some completed =>
      if completed <? 0 then (0, x_steps_log x, None) else (completed + 1, x_steps_log x, Some completed)
  end.

(** ** Classification *)

Record step_classification := StepClassification {
  sc_mode : string;
  sc_simulated : bool;
  sc_reason : option string;
  sc_prefix : string;
}.

Definition error_code (entry : pydict) : pyval := dget (dict_or_empty (dget entry "error")) "code".

Definition canonical_playbook_reason_code (entry : pydict) : string :=
  let code := error_code entry in
  if eq_str code "unsupported_action" then "unsupported_action"
  else if eq_str code "invalid_step" || eq_str code "missing_action" then "policy_blocked"
  else "provider_error".

(** [str(entry.get(key) or "").strip()]. *)
Definition entry_text (entry : pydict) (key : string) : string := strip (py_str (py_or (dget entry key) (PStr ""))).

Definition playbook_step_outcome_classification (entry : pydict) : step_classification :=
  let action := entry_text entry "action" in
  let status := lower (entry_text entry "status") in
  let entry_mode := lower (entry_text entry "mode") in
  let output := dict_or_empty (dget entry "output") in
  let succeeded := String.eqb status "success" in
  let reason := canonical_playbook_reason_code entry in
  if String.eqb action "enrich_context" || String.eqb entry_mode "read_only" || truthy (dget output "read_only")
  then StepClassification "read_only" false (if succeeded then None else Some reason) "Read-only"
  else if str_in action INTERNAL_PLAYBOOK_ACTIONS || String.eqb entry_mode "internal" then
    StepClassification "internal" false
      (if negb succeeded then Some reason
       else if String.eqb action "require_approval" then Some "approval_required" else None) "Internal"
  else if String.eqb status "failed" &&
          (eq_str (error_code entry) "unsupported_action" || negb (str_in action KNOWN_PLAYBOOK_ACTIONS))
  then StepClassification "internal" false (Some "unsupported_action") "Unsupported"
  else if str_in entry_mode ["simulation"; "real"; "tracking_only"] then
    let simulated := String.eqb entry_mode "simulation" in
    StepClassification entry_mode simulated
      (if simulated && succeeded then Some "simulation_mode" else if negb succeeded then Some reason else None)
      (if simulated then "Simulation" else if String.eqb entry_mode "real" then "Real" else "Tracking Only")
  else StepClassification "internal" false (if succeeded then None else Some reason) "Internal".

(** ** Notification deliveries *)

(** [x.get(k)] of a value that may not be a dict. *)
Definition attr_get (v : pyval) (k : string) : outcome pyval :=
  match v with PDict d => Ok (dget d k) | _ => Raise (OtherException "AttributeError") end.

(** [x.get(key) or {}], which must be a dict to be read further. *)
Definition or_empty (v : pyval) : pyval := py_or v (PDict []).

Definition lower_text (v : pyval) (dflt : string) : string := lower (strip (py_str (py_or v (PStr dflt)))).

Definition delivery_status_from_adapter_result (adapter_result : pydict) : outcome string :=
  match dget adapter_result "success" with
  | PBool true => Ok "success"
  | _ =>
      let! fc := attr_get (or_empty (dget adapter_result "metadata")) "failure_classification" in
      let fc := lower_text fc "" in
      if String.eqb fc "timeout" then Ok "timeout"
      else if str_in fc ["circuit_open"; "circuit_state_invalid"; "provider_rate_limited"; "guard_failed";
                         "credential_missing"] then Ok "blocked"
      else if String.eqb (lower_text (dget adapter_result "mode") "") "real" &&
              match dget adapter_result "simulated", dget adapter_result "executed" with
              | PBool true, PBool false => true
              | _, _ => false
              end then Ok "blocked"
      else Ok "failed"
  end.

Definition is_true (v : pyval) : bool := match v with PBool true => true | _ => false end.
Definition is_false (v : pyval) : bool := match v with PBool false => true | _ => false end.

Definition notification_delivery_has_real_evidence (attempt : pydict) : outcome bool :=
  let metadata := or_empty (dget attempt "metadata") in
  if negb (eq_str (dget attempt "mode") "real") || negb (eq_str (dget attempt "status") "success") then Ok false
  else
    let! executed := attr_get metadata "executed" in
    if negb (is_true executed) then Ok false
    else
      let m := dict_or_empty metadata in
      if negb (is_false (dget m "simulated")) then Ok false
      else Ok (String.eqb (lower_text (dget m "adapter_mode") "") "real" ||
               existsb (fun key => is_true (dget m key))
                 ["provider_success"; "provider_success_evidence"; "provider_delivery_confirmed";
                  "delivery_confirmed"]).

Record delivery_outcome := DeliveryOutcome {
  do_mode : string;
  do_state : string;
  do_external : bool;
  do_simulated : bool;
  do_reason : option string;
  do_evidence : bool;
  do_summary : string;
}.

Definition map_notification_delivery_outcome (attempt : pydict) : outcome delivery_outcome :=
  let status := lower_text (dget attempt "status") "failed" in
  let provider := py_str (py_or (dget attempt "provider") (PStr "notification provider")) in
  let! evidence := notification_delivery_has_real_evidence attempt in
  let teams := String.eqb (lower (strip provider)) "teams" || eq_str (dget attempt "action") "notify_teams" in
  let mode := if teams then "simulation" else lower_text (dget attempt "mode") "simulation" in
  let evidence := negb teams && evidence in
  let real := String.eqb mode "real" in
  let shown := if real then "real" else "simulation" in
  let to_provider := "Notification delivery to " +:+ provider in
  if String.eqb status "blocked" then
    Ok (DeliveryOutcome shown "blocked" false (negb real) (Some "policy_blocked") false
          (to_provider +:+ " was blocked; no real execution was confirmed."))
  else if str_in status ["failed"; "timeout"] then
    Ok (DeliveryOutcome shown "failed" false (negb real)
          (Some (if String.eqb status "timeout" then "adapter_unavailable" else "provider_error")) false
          (to_provider +:+ " " +:+ status +:+ "; no real execution was confirmed."))
  else if real && String.eqb status "success" && evidence then
    Ok (DeliveryOutcome "real" "succeeded" true false None true
          (to_provider +:+ " succeeded with explicit real execution evidence."))
  else if real && String.eqb status "success" then
    Ok (DeliveryOutcome "simulation" "succeeded" false true (Some "simulation_mode") false
          (to_provider +:+ " reported success without complete real execution evidence; recorded as simulated."))
  else
    Ok (DeliveryOutcome "simulation" (if String.eqb status "success" then "succeeded" else "failed")
          false true (Some "simulation_mode") false
          ("Simulated notification delivery to " +:+ provider +:+ " " +:+ status +:+ ".")).
