(* ===== verification/StepEvents.v ===== *)
(** * StepEvents: the database of the playbook executor and its outcome log

    The tables the executor works on, the services it calls, and the events
    it appends to the outcome log (engines/playbook_step_executor.py, with
    the decision of a new execution from
    engines/soar_playbook_orchestrator.py).  Every append runs under its own
    savepoint and never raises. *)

From S2P Require Import Prelude PyText PyFloat PyValue Tables Interfaces Approvals Outcomes.
From S2P Require Import Deliveries Alerts ParamBinding PlaybookStore DeadLetters StepLog.

Open Scope Z_scope.

(** ** The database *)

(** [xd_world] stands for the tables and the outside world that only the
    services below touch. *)
Record exec_db (W : Type) := ExecDb {
  xd_soar : soar_db;
  xd_approvals : approval_store;
  xd_outcomes : outcome_store;
  xd_deliveries : delivery_store;
  xd_alerts : alert_table;
  xd_world : W;
}.
Arguments ExecDb {W} _ _ _ _ _ _.
Arguments xd_soar {W} _.
Arguments xd_approvals {W} _.
Arguments xd_outcomes {W} _.
Arguments xd_deliveries {W} _.
Arguments xd_alerts {W} _.
Arguments xd_world {W} _.

(** What a statement of the executor needs from its surroundings: the
    clocks, the random and hashed identifiers, the type inet, the foreign
    keys that lead out of the model, and the process's configuration. *)
Record exec_env := ExecEnv {
  en_clock : clock;
  en_inet : string -> option string;
  en_uuid_hex : Z -> string;
  en_sha256_hex : string -> string;
  en_incident_exists : Z -> bool;
  en_delivery_refs : delivery_row -> bool;
  en_letter_refs : soar_db -> dl_row -> bool;
  en_worker_id : string;
  en_lease_seconds : option string;
  en_protected_ips : option string;
}.

(** A command for the response command service. *)
Record step_command := StepCommand {
  sc_action : string;
  sc_indicator_value : option string;
  sc_alert_id : option Z;
  sc_incident_id : option Z;
  sc_command_reason : pyval;
  sc_execution_id : Z;
  sc_step_index : Z;
  sc_idempotency_key : string;
  sc_playbook_id : string;
}.

Record step_command_result := StepCommandResult {
  sr_success : bool;
  sr_message : string;
  sr_error : option string;
  sr_error_code : option string;
  sr_idempotent : bool;
  sr_enforcement : string;
  sr_registry_record_id : option Z;
  sr_registry_event_id : option Z;
  sr_blocked_ip_id : option Z;
  sr_incident_id : option Z;
  sr_disposition : option string;
}.

(** The services a step calls: the response command service, the
    notification policy service, the integration adapters with their circuit
    breakers, the read-only enrichment, and the address check of
    core/db.py.  None of them writes the executions, the dead letters or the
    approvals. *)
Class StepServices (W : Type) := {
  world_tx :: Transactional W;
  execute_response_command : clock -> step_command -> M (W * outcome_store * alert_table) step_command_result;
  send_playbook_notification : clock -> Z * exec_row -> pyval -> pyval -> Z ->
    M (W * outcome_store * delivery_store) pydict;
  execute_playbook_simulated_adapter : string -> string -> pydict -> pydict -> M W pydict;
  circuit_breaker_dict : string -> Z -> W -> pyval;
  build_playbook_enrichment_context : exec_db W -> Z * exec_row -> pyval -> outcome pyval;
  validate_blocked_ip : string -> outcome string;
}.

Section Db.
Context {W : Type} `{StepServices W}.

#[export, refine] Instance exec_db_tx : Transactional (exec_db W) := {
  restore snap cur :=
    ExecDb (restore (xd_soar snap) (xd_soar cur)) (restore (xd_approvals snap) (xd_approvals cur))
      (restore (xd_outcomes snap) (xd_outcomes cur)) (restore (xd_deliveries snap) (xd_deliveries cur))
      (restore (xd_alerts snap) (xd_alerts cur)) (restore (xd_world snap) (xd_world cur));
}.
Proof.
  - intros []. cbn [xd_soar xd_approvals xd_outcomes xd_deliveries xd_alerts xd_world]. by rewrite !restore_id.
  - intros [] [] []. cbn [xd_soar xd_approvals xd_outcomes xd_deliveries xd_alerts xd_world].
    by rewrite !restore_idemp.
Defined.

Definition xd_pb (d : exec_db W) : pb_store := sd_pb (xd_soar d).

Definition in_soar {A} (m : M soar_db A) : M (exec_db W) A :=
  zoom xd_soar (fun s d => ExecDb s (xd_approvals d) (xd_outcomes d) (xd_deliveries d) (xd_alerts d) (xd_world d)) m.
Definition in_pb {A} (m : M pb_store A) : M (exec_db W) A := in_soar (on_pb m).
Definition in_approvals {A} (m : M approval_store A) : M (exec_db W) A :=
  zoom xd_approvals (fun a d => ExecDb (xd_soar d) a (xd_outcomes d) (xd_deliveries d) (xd_alerts d) (xd_world d)) m.
Definition in_outcomes {A} (m : M outcome_store A) : M (exec_db W) A :=
  zoom xd_outcomes (fun o d => ExecDb (xd_soar d) (xd_approvals d) o (xd_deliveries d) (xd_alerts d) (xd_world d)) m.
Definition in_deliveries {A} (m : M delivery_store A) : M (exec_db W) A :=
  zoom xd_deliveries (fun s d => ExecDb (xd_soar d) (xd_approvals d) (xd_outcomes d) s (xd_alerts d) (xd_world d)) m.
Definition in_world {A} (m : M W A) : M (exec_db W) A :=
  zoom xd_world (fun w d => ExecDb (xd_soar d) (xd_approvals d) (xd_outcomes d) (xd_deliveries d) (xd_alerts d) w) m.

(** The statements of a part, over the connection. *)
Definition stmt_pb {A} (m : M pb_store A) : M (conn (exec_db W)) A := execute (in_pb m).
Definition stmt_approvals {A} (m : M approval_store A) : M (conn (exec_db W)) A := execute (in_approvals m).
Definition stmt_reads {A} (f : exec_db W -> A) : M (conn (exec_db W)) A := execute (gets f).
Definition conn_soar {A} (m : M (conn soar_db) A) : M (conn (exec_db W)) A :=
  zoom_conn xd_soar
    (fun s d => ExecDb s (xd_approvals d) (xd_outcomes d) (xd_deliveries d) (xd_alerts d) (xd_world d)) m.

(** [SELECT host(source_ip) FROM alerts WHERE id = ..]. *)
Definition resolve_playbook_alert_source_ip (alert_id : option Z) (d : exec_db W) : option string :=
  match alert_id with
  | None => None
  | Some a => match xd_alerts d !! a with
              | Some row => as_nonempty_str (dget row "source_ip")
              | None => None
              end
  end.

(** ** Appending an event *)

Context (env : exec_env).
Let clk := en_clock env.

Record playbook_event := PlaybookEvent {
  pe_type : string;
  pe_state : string;
  pe_summary : string;
  pe_key : string;
  pe_step_index : option Z;
  pe_approval : option Z;
  pe_notification : option Z;
  pe_actor : string;
  pe_reason : option string;
  pe_mode : string;
  pe_simulated : bool;
  pe_external : bool;
  pe_provider : option string;
  pe_adapter : option string;
  pe_metadata : pydict;
}.

Definition playbook_event_params (x : Z * exec_row) (decision : Z) (correlation : string) (ip : option string)
    (e : playbook_event) : event_params :=
  EventParams (pe_mode e) (pe_state e) (pe_actor e) (pe_summary e) (Some decision) (Some correlation)
    (Some (pe_type e)) (pe_external e) false (pe_simulated e) (pe_reason e) (x_alert_id x.2) (x_incident_id x.2) ip
    None (Some x.1) (pe_step_index e) (pe_approval e) (pe_notification e) None (pe_provider e) (pe_adapter e) None
    (Some (pe_key e))
    (PDict (dmerge [("playbook_execution_id", PInt x.1); ("playbook_id", PStr (x_playbook_id x.2));
                    ("status", PStr (exec_status_str (x_status x.2)))] (pe_metadata e)))
    None.

Definition append_playbook_execution_outcome_event (x : Z * exec_row) (e : playbook_event)
    : M (conn (exec_db W)) (option (Z * event_row)) :=
  match x_decision_id x.2, x_soar_correlation_id x.2 with
  | Some decision, Some correlation =>
      if is_empty correlation then ret None
      else savepoint_conn (fun d =>
             in_outcomes (append_outcome_event (en_inet env) clk
               (playbook_event_params x decision correlation
                  (resolve_playbook_alert_source_ip (x_alert_id x.2) d) e)) d)
  | _, _ => ret None
  end.

(** ** The events *)

Definition playbook_running_event (x : Z * exec_row) : playbook_event :=
  PlaybookEvent "running" "running" ("Playbook worker claimed playbook execution " +:+ str_int x.1 +:+ ".")
    ("playbook-running-" +:+ str_int x.1) None None None "playbook_worker" None "internal" false false None None [].

Definition append_playbook_running_outcome_event (x : Z * exec_row) :=
  append_playbook_execution_outcome_event x (playbook_running_event x).

Definition request_status (r : Z * approval_row) : string := status_str (ap_status r.2).

Definition playbook_resumed_event (x : Z * exec_row) (r : Z * approval_row) : playbook_event :=
  PlaybookEvent "resumed" "running" "Playbook execution resumed after approval."
    ("playbook-resumed-" +:+ str_int x.1 +:+ "-" +:+ str_int r.1) (ap_step_index r.2) (Some r.1) None
    "playbook_worker" (Some "approval_required") "internal" false false None None
    [("approval_request_id", PInt r.1); ("approval_status", PStr (request_status r))].

Definition append_playbook_resumed_outcome_event (x : Z * exec_row) (r : Z * approval_row) :=
  append_playbook_execution_outcome_event x (playbook_resumed_event x r).

(** [str(int or None)] as an f-string prints it. *)
Definition notification_event (x : Z * exec_row) (attempt : pydict) (mapped : delivery_outcome) : playbook_event :=
  PlaybookEvent "notification_delivery" (do_state mapped) (do_summary mapped)
    ("playbook-notification-" +:+ str_int x.1 +:+ "-" +:+ py_str (dget attempt "playbook_step_index") +:+ "-" +:+
     py_str (dget attempt "id"))
    (as_int (dget attempt "playbook_step_index")) None (as_int (dget attempt "id")) "adapter" (do_reason mapped)
    (do_mode mapped) (do_simulated mapped) (do_external mapped) (as_str (dget attempt "provider"))
    (as_str (dget attempt "adapter_name"))
    [("notification_delivery_attempt_id", dget attempt "id"); ("delivery_mode", dget attempt "mode");
     ("delivery_status", dget attempt "status"); ("provider", dget attempt "provider");
     ("adapter_name", dget attempt "adapter_name"); ("action", dget attempt "action");
     ("real_evidence", PBool (do_evidence mapped))].

Definition append_notification_delivery_outcome_event (x : Z * exec_row) (attempt : pydict)
    : M (conn (exec_db W)) (option (Z * event_row)) :=
  let* mapped := of_outcome (map_notification_delivery_outcome attempt) in
  append_playbook_execution_outcome_event x (notification_event x attempt mapped).

(** The event of a finished step, when it has one. *)
Definition step_event (i : Z) (entry : pydict) (index : Z) : option playbook_event :=
  let state := if eq_str (dget entry "status") "success" then Some ("succeeded", "step_succeeded")
               else if eq_str (dget entry "status") "failed" then Some ("failed", "step_failed") else None in
  match state with
  | None => None
  | Some (execution_state, event_type) =>
      let c := playbook_step_outcome_classification entry in
      let summary := py_or (dget entry "message")
        (PStr (sc_prefix c +:+ " playbook step " +:+ str_int index +:+ " " +:+ py_str (dget entry "status") +:+ ".")) in
      Some (PlaybookEvent event_type execution_state (py_str summary)
        ("playbook-step-" +:+ str_int i +:+ "-" +:+ str_int index +:+ "-" +:+ execution_state) (Some index) None None
        "playbook_worker" (sc_reason c) (sc_mode c) (sc_simulated c) false None None
        [("step_index", PInt index); ("action", dget entry "action"); ("step_status", dget entry "status")])
  end.

Definition append_non_adapter_playbook_step_outcome_event (x : Z * exec_row) (entry : pydict)
    : M (conn (exec_db W)) (option (Z * event_row)) :=
  if eq_str (dget entry "action") "require_approval" then ret None
  else
    let* adapter := of_outcome (in_adapter_actions (dget entry "action")) in
    if adapter : bool then ret None
    else match as_int (dget entry "step_index") with
         | None => ret None
         | Some index => match step_event x.1 entry index with
                         | None => ret None
                         | Some e => append_playbook_execution_outcome_event x e
                         end
         end.

Definition awaiting_event (x : Z * exec_row) (r : Z * approval_row) (index : Z) (summary : string) : playbook_event :=
  PlaybookEvent "awaiting_approval" "awaiting_approval" summary
    ("playbook-awaiting-approval-" +:+ str_int x.1 +:+ "-" +:+ str_int index +:+ "-" +:+ str_int r.1)
    (Some index) (Some r.1) None "playbook_worker" (Some "approval_required") "internal" false false None None
    [("step_index", PInt index); ("action", PStr "require_approval"); ("approval_request_id", PInt r.1);
     ("approval_status", PStr (request_status r))].

Definition append_playbook_awaiting_approval_outcome_event (x : Z * exec_row) (r : Z * approval_row) (index : Z)
    (summary : string) :=
  append_playbook_execution_outcome_event x (awaiting_event x r index summary).

Definition newest_event (i : Z) (e : approval_event) : list Z := [- ev_created_at e; - i].

Definition latest_approval_request_event_id (request : Z) (status : string) (s : approval_store) : option Z :=
  if is_empty status then None
  else fst <$> select_one newest_event
                 (fun _ e => (ev_request e =? request) && String.eqb (ev_type e) status) (as_events s).

Definition decision_event (x : Z * exec_row) (r : Z * approval_row) (event_type execution_state summary : string)
    (event_id : option Z) : playbook_event :=
  PlaybookEvent event_type execution_state summary
    ("playbook-" +:+ event_type +:+ "-" +:+ str_int x.1 +:+ "-" +:+ str_int r.1) (ap_step_index r.2) (Some r.1) None
    "approval_service"
    (Some match ap_status r.2 with
          | Denied => "approval_denied" | Expired => "approval_expired" | _ => "approval_required"
          end) "internal" false false None None
    ([("approval_request_id", PInt r.1); ("approval_status", PStr (request_status r));
      ("playbook_step_index", opt_int (ap_step_index r.2))] ++
     match event_id with Some e => [("approval_request_event_id", PInt e)] | None => [] end).

Definition append_playbook_approval_decision_outcome_event (x : Z * exec_row) (r : Z * approval_row)
    (event_type execution_state summary : string) : M (conn (exec_db W)) (option (Z * event_row)) :=
  let* event_id := stmt_reads (fun d => latest_approval_request_event_id r.1 (request_status r) (xd_approvals d)) in
  append_playbook_execution_outcome_event x (decision_event x r event_type execution_state summary event_id).

Definition playbook_terminal_idempotency_label (event_type : string) : string :=
  if String.eqb event_type "succeeded" then "success" else event_type.

Definition terminal_event (x : Z * exec_row) (execution_state event_type summary : string) : playbook_event :=
  PlaybookEvent event_type execution_state summary
    ("playbook-" +:+ playbook_terminal_idempotency_label event_type +:+ "-" +:+ str_int x.1) None None None
    "playbook_worker" None "internal" false false None None [].

Definition append_playbook_terminal_outcome_event (x : Z * exec_row) (execution_state event_type summary : string) :=
  append_playbook_execution_outcome_event x (terminal_event x execution_state event_type summary).

Definition try_append_playbook_lifecycle_outcome_event (x : Z * exec_row)
    (event_type execution_state summary key actor : string) (reason : option string) (metadata : pydict)
    : M (conn (exec_db W)) unit :=
  let* _ := append_playbook_execution_outcome_event x
    (PlaybookEvent event_type execution_state summary key None None None actor reason "internal" false false
       None None metadata) in
  ret tt.

(** ** The decision of a new execution *)

Record new_decision := NewDecision {
  nw_playbook_id : string;
  nw_alert_id : option Z;
  nw_incident_id : option Z;
  nw_parent_correlation : option string;
  nw_event_type : string;
  nw_key : option string;
  nw_event_metadata : pydict;
}.

Definition execution_decision_params (i : Z) (n : new_decision) (ip : option string) : decision_params :=
  DecisionParams "run_playbook" "playbook" ("Playbook " +:+ nw_playbook_id n +:+ " selected for simulated execution.")
    (nw_alert_id n) (nw_incident_id n) ip None None (nw_parent_correlation n) (Some (nw_playbook_id n)) (Some i)
    None None None None
    (PDict [("playbook_id", PStr (nw_playbook_id n)); ("playbook_execution_id", PInt i)]).

Definition initial_event_params (i : Z) (n : new_decision) (ip : option string) (decision : Z * decision_row)
    : event_params :=
  EventParams "simulation" "selected" "system" ("Playbook " +:+ nw_playbook_id n +:+ " execution created.")
    (Some decision.1) (Some (d_correlation_id decision.2)) (Some (nw_event_type n)) false false true
    (Some "simulation_mode") (nw_alert_id n) (nw_incident_id n) ip None (Some i) None None None None None None None
    (Some match nw_key n with
          | Some k => if is_empty k then "playbook-" +:+ nw_event_type n +:+ "-" +:+ str_int i else k
          | None => "playbook-" +:+ nw_event_type n +:+ "-" +:+ str_int i
          end)
    (PDict (dmerge [("playbook_id", PStr (nw_playbook_id n)); ("playbook_execution_id", PInt i)]
              (nw_event_metadata n)))
    None.

(** The decision and its link, then the first event, each under a savepoint
    of its own. *)
Definition create_and_link_playbook_execution_decision (i : Z) (n : new_decision)
    : M (conn (exec_db W)) (option (Z * decision_row)) :=
  let* ip := stmt_reads (resolve_playbook_alert_source_ip (nw_alert_id n)) in
  let* decision := savepoint_conn
    (let* dr := in_outcomes (create_response_decision (en_inet env) clk (en_uuid_hex env i)
                               (execution_decision_params i n ip)) in
     in_pb (set_playbook_execution_canonical_linkage i dr.1 (d_correlation_id dr.2)) ;;;
     ret dr) in
  match decision with
  | None => ret None
  | Some dr =>
      savepoint_conn (in_outcomes (append_outcome_event (en_inet env) clk (initial_event_params i n ip dr))) ;;;
      ret (Some dr)
  end.
End Db.
