(* ===== verification/StepActions.v ===== *)
(** * StepActions: what one step of a playbook does

    The steps of engines/playbook_step_executor.py: branches, chained
    playbooks, enrichment, response commands, adapter calls and policy
    notifications.  A step returns the entry for the step log; a raised
    exception is the caller's to handle. *)

From S2P Require Import Prelude PyText PyFloat PyValue Tables IpAddress ProtectedTargets Approvals.
From S2P Require Import Outcomes Deliveries ActionVocabulary Alerts ParamBinding BranchConditions.
From S2P Require Import PlaybookRegistry PlaybookStore DeadLetters StepLog StepEvents.

Open Scope Z_scope.

Definition MAX_CHAIN_DEPTH : Z := 3.

(** The keys of an execution's dict that parameter bindings read. *)
Definition execution_dict (x : Z * exec_row) : pydict :=
  [("id", PInt x.1); ("playbook_id", PStr (x_playbook_id x.2)); ("alert_id", opt_int (x_alert_id x.2))].

Section Actions.
Context {W : Type} `{StepServices W}.
Context (env : exec_env) (now : Z).
Let clk := en_clock env.

Implicit Types (x : Z * exec_row) (step : pydict) (index : Z).

Definition step_failure (index : Z) (action : string) (message code : string) : pydict :=
  failure_entry now (Some index) (PStr action) message code None.

(** ** branch *)

(** The entry, the entries of the steps jumped over, and the next index. *)
Definition branch_failed (index : Z) (message code : string) : pydict * list pyval * Z :=
  (step_failure index "branch" message code, [], index + 1).

Definition branch_entry (step : pydict) (index : Z) (condition : pydict) (result : bool) (goto_label : pyval)
    (target : Z) : pydict :=
  [("step_index", PInt index); ("action", PStr "branch"); ("label", dget step "label");
   ("status", PStr "success"); ("event", PStr "branch_evaluated"); ("condition", PDict condition);
   ("result", PBool result); ("goto_label", goto_label); ("goto_step_index", PInt target);
   ("mode", PStr "internal"); ("simulated", PBool false); ("executed", PBool true);
   ("started_at", iso now); ("completed_at", iso now); ("message", PStr "Branch condition evaluated.");
   ("output", PDict [("simulated", PBool false); ("executed", PBool true); ("condition", PDict condition);
                     ("result", PBool result); ("goto_label", goto_label); ("goto_step_index", PInt target)]);
   ("error", PNone)].

(** Where the branch goes: the label written in the entry and the index, or
    the failure. *)
Definition branch_target (step : pydict) (index : Z) (steps : list pyval) (result : bool)
    : (pyval * Z) + (string * string) :=
  let resolved label :=
    match resolve_label_target_index steps label index with
    | Some t => inl (PStr label, t)
    | None => inr ("Branch target label could not be resolved.", "branch_target_not_found")
    end in
  if result then
    match as_nonempty_str (dget step "goto_true") with
    | Some label => resolved label
    | None => inr ("Branch step goto_true is missing.", "branch_target_not_found")
    end
  else if dmem step "goto_false" then
    match as_nonempty_str (dget step "goto_false") with
    | Some label => resolved label
    | None => inr ("Branch step goto_false is invalid.", "branch_target_not_found")
    end
  else inl (PNone, index + 1).

(** Only a [PlaybookBranchConditionError] becomes a failed entry. *)
Definition execute_branch_step (step : pydict) (index : Z) (steps steps_log : list pyval) (x : Z * exec_row)
    (alerts : alert_table) : outcome (pydict * list pyval * Z) :=
  match as_dict (dget step "condition") with
  | None => Ok (branch_failed index "Branch step condition must be an object." "invalid_branch")
  | Some condition =>
      match evaluate_branch_condition alerts condition (x_alert_id x.2) steps_log with
      | Raise (BranchConditionError code message) => Ok (branch_failed index message code)
      | Raise e => Raise e
      | Ok result =>
          match branch_target step index steps result with
          | inr (message, code) => Ok (branch_failed index message code)
          | inl (goto_label, target) =>
              Ok (branch_entry step index condition result goto_label target,
                  skipped_branch_step_entries now steps (index + 1) target, target)
          end
      end
  end.

(** ** trigger_playbook *)

Definition target_in_execution_ancestry (x : Z * exec_row) (target : string) (s : pb_store) : bool :=
  String.eqb target (x_playbook_id x.2) ||
  existsb (fun a => String.eqb (x_playbook_id a.2) target) (get_playbook_execution_ancestor_chain x.1 MAX_CHAIN_DEPTH s).

Definition trigger_entry (index : Z) (target : string) (child : option Z) (depth : Z) (duplicate : bool) : pydict :=
  [("step_index", PInt index); ("action", PStr "trigger_playbook"); ("status", PStr "success");
   ("event", PStr "playbook_triggered"); ("mode", PStr "internal"); ("simulated", PBool false);
   ("executed", PBool true); ("started_at", iso now); ("completed_at", iso now);
   ("message", PStr (if duplicate
                     then "Target playbook " +:+ target +:+ " already has an active execution for this alert."
                     else "Triggered playbook " +:+ target +:+ "."));
   ("child_execution_id", opt_int child); ("child_playbook_id", PStr target); ("chain_depth", PInt depth);
   ("output", PDict [("simulated", PBool false); ("executed", PBool true); ("child_execution_id", opt_int child);
                     ("child_playbook_id", PStr target); ("chain_depth", PInt depth); ("duplicate", PBool duplicate)]);
   ("error", PNone)].

(** The target of a trigger step, or why the step fails before it looks at
    the database. *)
Definition trigger_target (step : pydict) : string + (string * string) :=
  match as_dict (dget step "params") with
  | None => inr ("trigger_playbook requires params object.", "invalid_trigger_playbook_params")
  | Some params =>
      match as_str (dget params "playbook_id") with
      | Some t => if is_empty (strip t)
                  then inr ("trigger_playbook requires params.playbook_id.", "invalid_trigger_playbook_target")
                  else inl (strip t)
      | None => inr ("trigger_playbook requires params.playbook_id.", "invalid_trigger_playbook_target")
      end
  end.

(** Why the trigger is refused, if it is; otherwise the alert. *)
Definition trigger_refused (x : Z * exec_row) (target : string) (s : pb_store) : Z + (string * string) :=
  match get_playbook_definition target s with
  | None => inr ("Target playbook " +:+ str_repr target +:+ " was not found.", "trigger_playbook_not_found")
  | Some (_, d) =>
      if negb (pd_enabled d)
      then inr ("Target playbook " +:+ str_repr target +:+ " is disabled.", "trigger_playbook_disabled")
      else if MAX_CHAIN_DEPTH <=? x_chain_depth x.2
      then inr ("Maximum playbook chain depth exceeded.", "chain_depth_exceeded")
      else if target_in_execution_ancestry x target s
      then inr ("Playbook chain cycle detected.", "chain_cycle_detected")
      else match x_alert_id x.2 with
           | None => inr ("trigger_playbook requires an alert_id on the parent execution.",
                          "trigger_playbook_alert_context_missing")
           | Some a => inl a
           end
  end.

Definition child_execution (x : Z * exec_row) (target : string) (alert_id : Z) : new_execution :=
  NewExecution target (Some alert_id) (x_incident_id x.2) None None (Some x.1) (x_chain_depth x.2 + 1).

Definition child_decision (x : Z * exec_row) (index : Z) (target : string) (alert_id child : Z) : new_decision :=
  NewDecision target (Some alert_id) (x_incident_id x.2) (x_soar_correlation_id x.2) "chained"
    (Some ("playbook-chained-" +:+ str_int child))
    [("triggered_by_execution_id", PInt x.1); ("triggered_by_step_index", PInt index);
     ("parent_playbook_id", PStr (x_playbook_id x.2)); ("chain_depth", PInt (x_chain_depth x.2 + 1))].

Definition alert_exists (d : exec_db W) (a : Z) : bool := bool_decide (is_Some (xd_alerts d !! a)).
Definition decision_exists (d : exec_db W) (i : Z) : bool := bool_decide (is_Some (os_decisions (xd_outcomes d) !! i)).

(** [create_pending_playbook_execution_once] against the rows its foreign
    keys refer to. *)
Definition create_child (n : new_execution) : M (exec_db W) (option Z) := fun d =>
  in_pb (create_pending_playbook_execution_once clk (alert_exists d) (en_incident_exists env) (decision_exists d) n) d.

Definition execute_trigger_playbook_step (step : pydict) (index : Z) (x : Z * exec_row)
    : M (conn (exec_db W)) pydict :=
  match trigger_target step with
  | inr (message, code) => ret (step_failure index "trigger_playbook" message code)
  | inl target =>
      let* refused := stmt_reads (fun d => trigger_refused x target (xd_pb d)) in
      match refused with
      | inr (message, code) => ret (step_failure index "trigger_playbook" message code)
      | inl alert_id =>
          let depth := x_chain_depth x.2 + 1 in
          let* child := execute (create_child (child_execution x target alert_id)) in
          match child with
          | Some i =>
              create_and_link_playbook_execution_decision env i (child_decision x index target alert_id i) ;;;
              ret (trigger_entry index target (Some i) depth false)
          | None =>
              let* active := stmt_pb (gets (get_active_playbook_execution_for_pair target (Some alert_id))) in
              ret (trigger_entry index target (fst <$> active) depth true)
          end
      end
  end.

(** ** enrich_context *)

Definition enrich_entry (step : pydict) (index : Z) (context : pyval) : pydict :=
  with_label step
    [("step_index", PInt index); ("action", PStr "enrich_context"); ("status", PStr "success");
     ("mode", PStr "read_only"); ("started_at", iso now); ("completed_at", iso now);
     ("message", PStr "Read-only database enrichment completed; no external action was performed.");
     ("output", PDict [("simulated", PBool false); ("executed", PBool true); ("read_only", PBool true);
                       ("external_side_effect", PBool false); ("context", context)]);
     ("error", PNone)].

Definition execute_enrich_context_step (step : pydict) (index : Z) (x : Z * exec_row)
    : M (conn (exec_db W)) pydict :=
  match as_dict (or_empty (dget step "params")) with
  | None => ret (step_failure index "enrich_context" "enrich_context params must be an object."
                   "invalid_enrich_context_params")
  | Some params =>
      try_catch
        (let* context := execute (fun d => (build_playbook_enrichment_context d x (dget params "limit"), d)) in
         ret (enrich_entry step index context))
        (fun e => ret (step_failure index "enrich_context" (exn_str e) "enrich_context_failed"))
  end.

(** ** Parameters *)

(** [step.get("params") if isinstance(.., dict) else {}], resolved; only a
    [PlaybookParamBindingError] becomes a failed entry. *)
Definition step_params (step : pydict) : pydict := dict_or_empty (dget step "params").

Definition with_params (step : pydict) (index : Z) (action : string) (x : Z * exec_row)
    (k : pydict -> M (conn (exec_db W)) pydict) : M (conn (exec_db W)) pydict :=
  let* resolved := stmt_reads (fun d => resolve_step_params (step_params step) (execution_dict x) None (xd_alerts d)) in
  match resolved with
  | Ok params => k params
  | Raise (ParamBindingError code message) => ret (step_failure index action message code)
  | Raise e => raise e
  end.

(** ** monitor, flag_high_priority *)

Definition run_command (c : step_command) : M (conn (exec_db W)) step_command_result :=
  execute (fun d =>
    match execute_response_command clk c (xd_world d, xd_outcomes d, xd_alerts d) with
    | (r, (w, o, a)) => (r, ExecDb (xd_soar d) (xd_approvals d) o (xd_deliveries d) a w)
    end).

(** [str(source_ip) if source_ip else None]; an execution has no
    [source_ip] of its own. *)
Definition indicator (params : pydict) : option string :=
  if truthy (dget params "source_ip") then Some (py_str (dget params "source_ip")) else None.

Definition response_command (x : Z * exec_row) (index : Z) (action : string) (params : pydict) : step_command :=
  StepCommand action (indicator params) (x_alert_id x.2) (x_incident_id x.2)
    (py_or (dget params "reason") (PStr ("Playbook step " +:+ action))) x.1 index
    ("playbook-" +:+ str_int x.1 +:+ "-" +:+ str_int index +:+ "-" +:+ action) (x_playbook_id x.2).

Definition nonempty_or (s : option string) (dflt : string) : string :=
  match s with Some t => if is_empty t then dflt else t | None => dflt end.

Definition command_entry (step : pydict) (index : Z) (action : string) (r : step_command_result) : pydict :=
  with_label step
    [("step_index", PInt index); ("action", PStr action); ("status", PStr "success"); ("mode", PStr "internal");
     ("started_at", iso now); ("completed_at", iso now); ("message", PStr (sr_message r));
     ("output", PDict [("simulated", PBool false); ("executed", PBool true);
                       ("enforcement", PStr (sr_enforcement r));
                       ("registry_record_id", opt_int (sr_registry_record_id r));
                       ("registry_event_id", opt_int (sr_registry_event_id r));
                       ("blocked_ip_id", opt_int (sr_blocked_ip_id r));
                       ("incident_id", opt_int (sr_incident_id r));
                       ("disposition", opt_text (sr_disposition r)); ("canonical_response", PBool true)]);
     ("error", PNone)].

Definition execute_canonical_response_step (step : pydict) (index : Z) (x : Z * exec_row) (action : string)
    : M (conn (exec_db W)) pydict :=
  with_params step index action x (fun params =>
    let* r := run_command (response_command x index action params) in
    if negb (sr_success r)
    then ret (step_failure index action (nonempty_or (sr_error r) (sr_message r))
                (nonempty_or (sr_error_code r) "response_command_failed"))
    else ret (command_entry step index action r)).

(** ** Notification deliveries *)

Definition make_delivery_correlation_id (provider : string) (i index : Z) : string :=
  "ntfy-" +:+ String.substring 0 8 provider +:+ "-" +:+ str_int i +:+ "-" +:+ str_int index +:+ "-" +:+
  en_uuid_hex env i.

Definition make_delivery_idempotency_key (provider action : string) (i index : Z) : string :=
  String.substring 0 64 (en_sha256_hex env
    (provider +:+ ":" +:+ action +:+ ":" +:+ str_int i +:+ ":" +:+ str_int index)).

Definition by_key (key : string) : delivery_filter :=
  DeliveryFilter None None None None (Some key) None None None None None None None.

Definition delivered (r : delivery_row) : bool := str_in (nd_status r) ["success"; "pending"].

(** The newest delivered attempt among the last ten with the step's key. *)
Definition existing_active_delivery (provider action : string) (i index : Z) (d : exec_db W)
    : outcome (option (Z * delivery_row)) :=
  let! rows := list_notification_delivery_attempts (by_key (make_delivery_idempotency_key provider action i index))
                 10 0 (xd_deliveries d) in
  Ok (snd <$> list_find (fun r => delivered r.2 = true) rows).

Definition already_delivered_entry (step : pydict) (index : Z) (action : string) (x : Z * delivery_row) : pydict :=
  with_label step
    [("step_index", PInt index); ("action", PStr action); ("status", PStr "success");
     ("event", PStr "notification_delivery_already_delivered"); ("mode", PStr "simulation");
     ("simulated", PBool true); ("executed", PBool false); ("skipped", PBool true);
     ("started_at", iso now); ("completed_at", iso now);
     ("message", PStr "Notification delivery already succeeded; adapter call skipped.");
     ("output", PDict [("simulated", PBool true); ("executed", PBool false); ("skipped", PBool true);
                       ("skip_reason", PStr ("delivery_" +:+ nd_status x.2));
                       ("failure_classification", PStr "duplicate_delivery");
                       ("existing_delivery_id", PInt x.1);
                       ("existing_delivery_status", PStr (nd_status x.2));
                       ("idempotency_key", PStr (nd_idempotency_key x.2))]);
     ("error", PNone)].

(** [x or {}] of a value that must then be a dict. *)
Definition dict_or_raise (v : pyval) : outcome pydict :=
  match or_empty v with PDict d => Ok d | _ => Raise (OtherException "AttributeError") end.

(** [timeout_seconds]: only TypeError and ValueError are caught. *)
Definition delivery_timeout (raw : pyval) : outcome (option Z) :=
  if is_none raw then Ok None
  else match py_int raw with
       | Ok n => Ok (Some n)
       | Raise TypeError | Raise (ValueError _) => Ok None
       | Raise e => Raise e
       end.

(** [str(x or "simulation").strip().lower()], [simulation] unless real. *)
Definition shown_mode (v : pyval) : string :=
  let m := lower_text v "simulation" in if str_in m ["simulation"; "real"] then m else "simulation".

Definition delivery_circuit_state (output meta : pydict) : outcome (option string) :=
  let! snapshot := dict_or_raise (dget output "circuit_breaker") in
  let raw := py_or (dget snapshot "state") (dget meta "circuit_state") in
  let candidate := lower (strip (py_str raw)) in
  Ok (if truthy raw && str_in candidate ["closed"; "open"; "half_open"; "unknown"; "invalid"]
      then Some candidate else None).

(** The parameters of the record of an adapter call. *)
Definition delivery_attempt_params (x : Z * exec_row) (action provider : string) (index : Z) (entry : pydict)
    : outcome delivery_params :=
  match ADAPTER_ACTIONS action with
  | None => Raise (KeyError action)
  | Some (adapter_name, adapter_action) =>
      let! output := dict_or_raise (dget entry "output") in
      let! adapter_result := dict_or_raise (dget output "adapter_result") in
      let! status := delivery_status_from_adapter_result adapter_result in
      let! meta := dict_or_raise (dget adapter_result "metadata") in
      let! circuit_state := delivery_circuit_state output meta in
      let! timeout := delivery_timeout (dget meta "timeout_seconds") in
      let failed := negb (truthy (dget adapter_result "success")) in
      let err := dict_or_empty (dget entry "error") in
      Ok (DeliveryParams (make_delivery_correlation_id provider x.1 index)
            (make_delivery_idempotency_key provider action x.1 index) provider
            (shown_mode (dget adapter_result "mode")) status adapter_name adapter_action
            (dset (dset (dset meta "adapter_mode" (dget adapter_result "mode"))
                     "simulated" (dget adapter_result "simulated"))
               "executed" (dget adapter_result "executed"))
            (Some x.1) (Some index) (x_incident_id x.2) None (x_alert_id x.2) None None (Some now) (Some now)
            (if failed then as_str (dget err "code") else None)
            (if failed then as_str (dget err "message") else None) timeout circuit_state)
  end.

(** The keys of the attempt that the entry shows. *)
Definition shown_attempt (attempt : pydict) : pydict :=
  map (fun k => (k, dget attempt k))
    ["id"; "provider"; "mode"; "status"; "adapter_name"; "action"; "playbook_step_index"; "failure_code";
     "failure_message"; "circuit_breaker_state"].

(** A failure to record is logged and swallowed. *)
Definition record_notification_delivery_attempt (x : Z * exec_row) (action : string) (index : Z) (entry : pydict)
    : M (conn (exec_db W)) (option pydict) :=
  match PROVIDER_FOR_ACTION action with
  | None => ret None
  | Some provider =>
      try_catch
        (let* p := of_outcome (delivery_attempt_params x action provider index entry) in
         let* attempt := execute (in_deliveries (create_notification_delivery_attempt clk (en_delivery_refs env) p)) in
         append_notification_delivery_outcome_event env x (delivery_dict attempt) ;;;
         ret (Some (shown_attempt (delivery_dict attempt))))
        (fun _ => ret None)
  end.

(** ** Adapter steps *)

Definition adapter_context (x : Z * exec_row) (index : Z) : pydict :=
  [("execution_id", PInt x.1); ("playbook_id", PStr (x_playbook_id x.2)); ("alert_id", opt_int (x_alert_id x.2));
   ("incident_id", opt_int (x_incident_id x.2)); ("step_index", PInt index)].

Definition breaker (adapter : string) (c : conn (exec_db W)) : pyval :=
  circuit_breaker_dict adapter now (xd_world (cn_current c)).

(** The entry for an adapter that raised. *)
Definition adapter_raised_entry (index : Z) (action adapter adapter_action : string) (e : exn) (circuit : pyval)
    : pydict :=
  failure_entry now (Some index) (PStr action) ("Simulated adapter action failed safely: " +:+ exn_str e)
    "adapter_simulation_failed"
    (Some [("simulated", PBool true); ("executed", PBool false); ("adapter", PStr adapter);
           ("adapter_action", PStr adapter_action); ("circuit_breaker", circuit)]).

(** The error code of a failed adapter result. *)
Definition adapter_error_code (result : pydict) : string :=
  match as_dict (dget result "metadata") with
  | None => "adapter_simulation_failed"
  | Some meta =>
      let fc := lower_text (dget meta "failure_classification") "" in
      if String.eqb fc "circuit_state_invalid" then "circuit_breaker_invalid"
      else if String.eqb fc "circuit_open" then "circuit_breaker_open"
      else "adapter_simulation_failed"
  end.

Definition adapter_entry (step : pydict) (index : Z) (action : string) (params result : pydict) (circuit : pyval)
    : pydict :=
  let success := is_true (dget result "success") in
  let mode := shown_mode (dget result "mode") in
  let simulated := match dget result "simulated" with PBool b => b | _ => negb (String.eqb mode "real") end in
  let executed := is_true (dget result "executed") in
  let message := py_or (dget result "message")
    (PStr (if success
           then (if String.eqb mode "real" && executed then "Real adapter action completed."
                 else "Simulated adapter action completed.")
           else "Adapter action failed safely.")) in
  with_label step
    [("step_index", PInt index); ("action", PStr action);
     ("status", PStr (if success then "success" else "failed")); ("mode", PStr mode);
     ("simulated", PBool simulated); ("executed", PBool executed); ("started_at", iso now);
     ("completed_at", iso now); ("message", message);
     ("output", PDict [("simulated", PBool simulated); ("executed", PBool executed); ("adapter_mode", PStr mode);
                       ("resolved_params", PDict params); ("adapter_result", PDict result);
                       ("circuit_breaker", circuit)]);
     ("error", if success then PNone
               else PDict [("code", PStr (adapter_error_code result)); ("message", message)])].

Definition block_command (x : Z * exec_row) (index : Z) (params : pydict) : step_command :=
  StepCommand "block_ip" (Some (py_str (dget params "source_ip"))) (x_alert_id x.2) (x_incident_id x.2)
    (py_or (dget params "reason") (PStr "Playbook block_ip tracking")) x.1 index
    ("playbook-block-" +:+ str_int x.1 +:+ "-" +:+ str_int index) (x_playbook_id x.2).

(** [_record_playbook_block_tracking]: the tracking dict. *)
Definition tracking_skipped (code message : string) : pydict :=
  [("success", PBool false); ("skipped", PBool true); ("error_code", PStr code); ("message", PStr message)].

Definition record_playbook_block_tracking (x : Z * exec_row) (index : Z) (params : pydict)
    : M (conn (exec_db W)) pydict :=
  if negb (truthy (dget params "source_ip"))
  then ret (tracking_skipped "validation_no_target" "No source_ip for blocklist tracking")
  else match validate_blocked_ip (W := W) (py_str (dget params "source_ip")) with
       | Raise e => if is_value_error e then ret (tracking_skipped "invalid_indicator" (exn_str e)) else raise e
       | Ok _ =>
           let* r := run_command (block_command x index params) in
           ret [("success", PBool (sr_success r)); ("message", PStr (sr_message r));
                ("error_code", opt_text (sr_error_code r));
                ("registry_record_id", opt_int (sr_registry_record_id r));
                ("blocked_ip_id", opt_int (sr_blocked_ip_id r)); ("idempotent", PBool (sr_idempotent r));
                ("enforcement", PStr (sr_enforcement r))]
       end.

Definition TOLERATED_TRACKING_ERRORS : list string :=
  ["invalid_indicator"; "protected_target"; "protected_target_config_invalid"; "validation_no_target"].

(** The entry of a block step once its tracking is known. *)
Definition with_tracking (entry tracking : pydict) : pydict :=
  let output := dset (dict_or_empty (dget entry "output")) "blocklist_tracking" (PDict tracking) in
  let entry := dset entry "output" (PDict output) in
  let code := dget tracking "error_code" in
  if is_false (dget tracking "success") &&
     negb (existsb (eq_str code) TOLERATED_TRACKING_ERRORS) then
    let failed := dset entry "status" (PStr "failed") in
    let failed := dset failed "error"
      (PDict [("code", py_or code (PStr "blocklist_tracking_failed"));
              ("message", py_or (dget tracking "message") (PStr "Blocklist tracking failed"))]) in
    dset failed "message" (py_or (dget tracking "message") (dget entry "message"))
  else entry.

(** [require_unprotected_target(params.get("source_ip"))]; a target that is
    not a string is turned into one by the address parser. *)
Definition block_target (params : pydict) : option string :=
  match dget params "source_ip" with PNone => None | v => Some (py_str v) end.

Definition call_adapter (step : pydict) (index : Z) (x : Z * exec_row) (action adapter adapter_action : string)
    (params : pydict) : M (conn (exec_db W)) pydict := fun c =>
  match execute (in_world (execute_playbook_simulated_adapter adapter adapter_action params (adapter_context x index))) c with
  | (Raise e, c') => (Ok (adapter_raised_entry index action adapter adapter_action e (breaker adapter c')), c')
  | (Ok result, c') =>
      let entry := adapter_entry step index action params result (breaker adapter c') in
      if is_true (dget result "success") && String.eqb action "block_ip"
      then (let* tracking := record_playbook_block_tracking x index params in ret (with_tracking entry tracking)) c'
      else (Ok entry, c')
  end.

Definition guarded_adapter (step : pydict) (index : Z) (x : Z * exec_row) (action adapter adapter_action : string)
    : M (conn (exec_db W)) pydict :=
  with_params step index action x (fun params =>
    let guard := if String.eqb action "block_ip"
                 then require_unprotected_target (en_protected_ips env) (block_target params) else Ok tt in
    match guard with
    | Raise (SkippedAction message code) => ret (step_failure index action message code)
    | Raise e => raise e
    | Ok _ => call_adapter step index x action adapter adapter_action params
    end).

Definition simulate_adapter_step (step : pydict) (index : Z) (x : Z * exec_row) (action adapter adapter_action : string)
    : M (conn (exec_db W)) pydict :=
  match PROVIDER_FOR_ACTION action with
  | Some provider =>
      let* rows := stmt_reads (existing_active_delivery provider action x.1 index) in
      let* existing := of_outcome rows in
      match existing with
      | Some row => ret (already_delivered_entry step index action row)
      | None => guarded_adapter step index x action adapter adapter_action
      end
  | None => guarded_adapter step index x action adapter adapter_action
  end.
(** ** notify_slack *)

(** [result.get("attempt")]: None or the dict of an attempt, whose metadata
    is a dict. *)
Definition attempt_of (result : pydict) : outcome (option pydict) :=
  match dget result "attempt" with
  | PNone => Ok None
  | PDict d => Ok (Some d)
  | _ => Raise (OtherException "AttributeError")
  end.

Definition attempt_metadata (attempt : option pydict) : outcome pydict :=
  match attempt with
  | None => Ok []
  | Some d => match dget d "metadata" with PDict m => Ok m | _ => Raise (OtherException "AttributeError") end
  end.

Definition attempt_get (attempt : option pydict) (key : string) : pyval :=
  match attempt with Some d => dget d key | None => PNone end.

Definition send_notification (x : Z * exec_row) (params : pydict) (index : Z) : M (conn (exec_db W)) pydict :=
  execute (fun d =>
    match send_playbook_notification clk x (dget params "message") (dget params "purpose") index
            (xd_world d, xd_outcomes d, xd_deliveries d) with
    | (r, (w, o, n)) => (r, ExecDb (xd_soar d) (xd_approvals d) o n (xd_alerts d) w)
    end).

Definition slack_output (params result : pydict) (attempt : option pydict) (mode : string)
    (simulated executed : bool) (circuit : pyval) : pydict :=
  [("simulated", PBool simulated); ("executed", PBool executed); ("adapter_mode", PStr mode);
   ("resolved_params", PDict params); ("circuit_breaker", circuit);
   ("notification_policy",
     PDict [("purpose", dget result "purpose"); ("delivery_stage", dget result "delivery_stage");
            ("route_key", dget result "route_key"); ("suppressed", PBool (is_true (dget result "suppressed")));
            ("duplicate", PBool (is_true (dget result "duplicate")))]);
   ("notification_delivery", match attempt with Some d => PDict (shown_attempt d) | None => PNone end)] ++
  match as_dict (dget result "adapter_result") with Some d => [("adapter_result", PDict d)] | None => [] end.

Definition suppressed_output (output metadata : pydict) (attempt : option pydict) (duplicate : bool) : outcome pydict :=
  let existing := dget metadata "duplicate_of_status" in
  let! delivered := (if duplicate then in_str_set existing ["success"; "pending"] else Ok false) in
  let skip_reason :=
    if delivered : bool then PStr ("delivery_" +:+ py_str existing)
    else match attempt with Some d => dget d "failure_code" | None => PStr "policy_suppressed" end in
  Ok (dset (dset (dset (dset output "skipped" (PBool true)) "skip_reason" skip_reason)
              "failure_classification" (attempt_get attempt "failure_code"))
        "idempotency_key" (attempt_get attempt "idempotency_key")).

Definition slack_suppressed_entry (index : Z) (result output : pydict) (duplicate : bool) : pydict :=
  [("step_index", PInt index); ("action", PStr "notify_slack"); ("status", PStr "success");
   ("event", PStr (if duplicate then "notification_delivery_already_delivered" else "notification_policy_suppressed"));
   ("mode", PStr "simulation"); ("simulated", PBool true); ("executed", PBool false); ("skipped", PBool true);
   ("started_at", iso now); ("completed_at", iso now);
   ("message", py_or (dget result "message") (PStr "Notification policy suppressed Slack delivery."));
   ("output", PDict output); ("error", PNone)].

Definition slack_error_code (attempt : option pydict) : string :=
  let code := attempt_get attempt "failure_code" in
  if eq_str code "circuit_open" then "circuit_breaker_open"
  else if eq_str code "circuit_state_invalid" then "circuit_breaker_invalid"
  else "adapter_simulation_failed".

Definition slack_sent_entry (index : Z) (result output : pydict) (attempt : option pydict) (mode : string)
    (simulated executed : bool) : pydict :=
  let success := truthy (dget result "success") || eq_str (attempt_get attempt "status") "success" in
  let text dflt := py_or (dget result "message") (py_or (attempt_get attempt "failure_message") (PStr dflt)) in
  [("step_index", PInt index); ("action", PStr "notify_slack");
   ("status", PStr (if success then "success" else "failed")); ("mode", PStr mode); ("simulated", PBool simulated);
   ("executed", PBool executed); ("started_at", iso now); ("completed_at", iso now);
   ("message", text "Slack delivery processed."); ("output", PDict output);
   ("error", if success then PNone
             else PDict [("code", PStr (slack_error_code attempt)); ("message", text "Slack delivery failed safely.")])].

(** The entry for what the policy service answered. *)
Definition slack_entry (step : pydict) (index : Z) (params result : pydict) (circuit : pyval) : outcome pydict :=
  let! attempt := attempt_of result in
  let! metadata := attempt_metadata attempt in
  let mode := shown_mode (attempt_get attempt "mode") in
  let simulated := match dget metadata "simulated" with PBool b => b | _ => negb (String.eqb mode "real") end in
  let executed := truthy (dget metadata "executed") in
  let output := slack_output params result attempt mode simulated executed circuit in
  let duplicate := is_true (dget result "duplicate") in
  if is_true (dget result "suppressed") then
    let! output := suppressed_output output metadata attempt duplicate in
    Ok (with_label step (slack_suppressed_entry index result output duplicate))
  else Ok (with_label step (slack_sent_entry index result output attempt mode simulated executed)).

Definition notify_slack (step : pydict) (index : Z) (x : Z * exec_row) (params : pydict)
    : M (conn (exec_db W)) pydict :=
  let* result := send_notification x params index in
  let* attempt := of_outcome (attempt_of result) in
  (match attempt with
   | Some d => if is_none (dget d "id") then ret None else append_notification_delivery_outcome_event env x d
   | None => ret None
   end) ;;;
  fun c => (slack_entry step index params result (breaker "slack" c), c).

Definition simulate_notification_policy_slack_step (step : pydict) (index : Z) (x : Z * exec_row)
    : M (conn (exec_db W)) pydict :=
  let* rows := stmt_reads (existing_active_delivery "slack" "notify_slack" x.1 index) in
  let* existing := of_outcome rows in
  match existing with
  | Some row => ret (already_delivered_entry step index "notify_slack" row)
  | None => with_params step index "notify_slack" x (notify_slack step index x)
  end.

(** ** Any other step *)

Definition plain_entry (step : pydict) (index : Z) (action : string) : pydict :=
  with_label step
    [("step_index", PInt index); ("action", PStr action); ("status", PStr "success"); ("mode", PStr "simulation");
     ("started_at", iso now); ("completed_at", iso now); ("message", PStr ("[PLAYBOOK STEP] " +:+ action));
     ("output", PDict [("simulated", PBool true); ("executed", PBool false)]); ("error", PNone)].

Definition simulate_step (step : pyval) (index : Z) (x : Z * exec_row) : M (conn (exec_db W)) pydict :=
  match as_dict step with
  | None => ret (failure_entry now (Some index) PNone "Playbook step must be an object." "invalid_step" None)
  | Some d =>
      match as_nonempty_str (dget d "action") with
      | None => ret (failure_entry now (Some index) (dget d "action") "Playbook step action is required."
                       "missing_action" None)
      | Some action =>
          if String.eqb action "notify_slack" then simulate_notification_policy_slack_step d index x
          else match ADAPTER_ACTIONS action with
          | Some (adapter, adapter_action) => simulate_adapter_step d index x action adapter adapter_action
          | None =>
              if negb (str_in action KNOWN_PLAYBOOK_ACTIONS)
              then ret (step_failure index action "Unsupported playbook step action." "unsupported_action")
              else if str_in action ["monitor"; "flag_high_priority"]
              then execute_canonical_response_step d index x action
              else ret (plain_entry d index action)
          end
      end
  end.
End Actions.
