(* ===== verification/StepExecutor.v ===== *)
(** * StepExecutor: engines/playbook_step_executor.py

    Running an execution: the loop over its steps under a lease, the
    approval gates, resuming after a decision, and finalising.  A call works
    inside the caller's transaction; [now] is the timestamp every statement
    of a call is given. *)

From S2P Require Import Prelude PyText PyFloat PyValue Tables Interfaces Approvals Outcomes.
From S2P Require Import Deliveries ActionVocabulary Alerts ParamBinding BranchConditions PlaybookRegistry.
From S2P Require Import PlaybookStore DeadLetters StepLog StepEvents StepActions.

Open Scope Z_scope.

(** ** Results *)

Record exec_result := ExecResult {
  er_execution_id : Z;
  er_playbook_id : option string;
  er_prior_status : option string;
  er_new_status : option string;
  er_outcome : string;
  er_reason : option string;
  er_steps_processed : Z;
  er_message : pyval;
}.

(** [_result]. *)
Definition make_result (x : Z * exec_row) (prior new outcome : string) (processed : Z) (message : pyval)
    (reason : option string) : exec_result :=
  ExecResult x.1 (Some (x_playbook_id x.2)) (Some prior) (Some new) outcome reason processed message.

(** [_skip_result] and the skipped results written out in the source. *)
Definition skip_result (x : Z * exec_row) (prior new reason message : string) : exec_result :=
  make_result x prior new "skipped" 0 (PStr message) (Some reason).

(** ** Configuration *)

Definition DEFAULT_PLAYBOOK_LEASE_SECONDS : Z := 60.

Definition normalize_limit (limit : Z) : Z := if limit <? 1 then 1 else Z.min limit 50.

Definition coerce_lease_duration (env : exec_env) (seconds : option Z) : outcome Z :=
  match seconds with
  | Some n => if n <? 1 then Raise (ValueError "lease_duration_seconds must be at least 1") else Ok n
  | None =>
      match parse_int (strip (default (str_int DEFAULT_PLAYBOOK_LEASE_SECONDS) (en_lease_seconds env))) with
      | Some n => Ok (Z.max 1 n)
      | None => Ok DEFAULT_PLAYBOOK_LEASE_SECONDS
      end
  end.

Definition resolve_worker_id (env : exec_env) (worker_id : option string) : string :=
  let owner := strip (default "" worker_id) in if is_empty owner then en_worker_id env else owner.

(** ** The loop's state *)

(** [steps_log], [last_completed_step], [failed] and [failure_message]. *)
Record progress := Progress {
  pr_log : list pyval;
  pr_last : option Z;
  pr_failed : bool;
  pr_message : pyval;
}.

(** What one step decides: go on at an index, leave the loop, or return. *)
Inductive step_next :=
  | Continue (index : Z) (p : progress)
  | Break (p : progress)
  | Return (r : exec_result).

Inductive loop_end :=
  | Finished (p : progress)
  | Returned (r : exec_result).

(** [steps[index]]: a negative index counts from the end. *)
Definition py_nth (steps : list pyval) (index : Z) : option pyval :=
  if 0 <=? index then steps !! Z.to_nat index
  else if 0 <=? Z.of_nat (length steps) + index then steps !! Z.to_nat (Z.of_nat (length steps) + index)
  else None.

Definition text_arg (v : pyval) : outcome string := match v with PStr s => Ok s | _ => Raise TypeError end.

Section Executor.
Context {W : Type} `{StepServices W}.
Context (env : exec_env) (now : Z).
Let clk := en_clock env.

(** ** Finalising *)

Definition get_execution (i : Z) : M (conn (exec_db W)) (option (Z * exec_row)) :=
  stmt_reads (fun d => get_playbook_execution i (xd_pb d)).

Definition no_owner (r : exec_row) : bool :=
  match lease_owner (x_lease r) with Some o => is_empty o | None => true end.

Definition finish (st : exec_status) (i : Z) (owner : option string) (log : list pyval) (last : option Z)
    : M (conn (exec_db W)) (option (Z * exec_row)) :=
  stmt_pb (finish_execution clk st i log last (Some now) owner).

(** The lease holder's update; an unleased execution awaiting approval is
    updated without a lease. *)
Definition finish_awaiting_too (st : exec_status) (i : Z) (owner : string) (log : list pyval) (last : option Z)
    : M (conn (exec_db W)) (option (Z * exec_row)) :=
  let* updated := finish st i (Some owner) log last in
  match updated with
  | Some u => ret (Some u)
  | None =>
      let* current := get_execution i in
      match current with
      | Some (_, r) => if has_exec_status XAwaitingApproval r && no_owner r then finish st i None log last else ret None
      | None => ret None
      end
  end.

Definition release (i : Z) (owner : string) : M (conn (exec_db W)) unit :=
  let* _ := stmt_pb (release_execution_lease i (Some owner)) in ret tt.

Definition finalize_success (i : Z) (owner : string) (log : list pyval) (last : option Z)
    : M (conn (exec_db W)) (option (Z * exec_row)) :=
  let* updated := finish XSuccess i (Some owner) log last in
  match updated with
  | None => ret None
  | Some u =>
      append_playbook_terminal_outcome_event env u "succeeded" "succeeded"
        "Playbook execution completed successfully." ;;;
      release i owner ;;;
      ret (Some u)
  end.

Definition finalize_failed (i : Z) (owner : string) (log : list pyval) (last : option Z)
    : M (conn (exec_db W)) (option (Z * exec_row)) :=
  let* updated := finish_awaiting_too XFailed i owner log last in
  match updated with
  | None => ret None
  | Some u =>
      append_playbook_terminal_outcome_event env u "failed" "failed" "Playbook execution failed." ;;;
      conn_soar (capture_failed_execution_dead_letter clk (en_letter_refs env) u.1 u.2 log last now) ;;;
      release i owner ;;;
      ret (Some u)
  end.

Definition finalize_not_actioned (i : Z) (owner : string) (log : list pyval) (last : option Z)
    : M (conn (exec_db W)) (option (Z * exec_row)) :=
  let* updated := finish_awaiting_too XNotActioned i owner log last in
  match updated with
  | None => ret None
  | Some u =>
      append_playbook_terminal_outcome_event env u "not_actioned" "not_actioned"
        "Playbook execution ended without action after approval denial or expiration." ;;;
      release i owner ;;;
      ret (Some u)
  end.

(** ** One step *)

Section Steps.
Context (x : Z * exec_row) (steps : list pyval) (prior owner : string) (duration : Z).

Definition heartbeat_lease : M (conn (exec_db W)) bool :=
  let* updated := stmt_pb (heartbeat_execution_lease clk x.1 (Some owner) duration (Some now)) in
  ret match updated with Some _ => true | None => false end.

Definition lease_lost (p : progress) (message : string) : exec_result :=
  make_result x prior (exec_status_str (x_status x.2)) "skipped" (Z.of_nat (length (pr_log p))) (PStr message)
    (Some "lease_lost").

(** A failed entry: leave the loop unless the step says to continue. *)
Definition after_failure (step : pyval) (index : Z) (entry : pydict) (p : progress) : step_next :=
  let p := Progress (pr_log p) (pr_last p) true (dget entry "message") in
  if eq_str (dget (dict_or_empty step) "on_failure") "continue" then Continue (index + 1) p else Break p.

(** Save a completed step; [None] when the lease is gone. *)
Definition save_progress (index : Z) (p : progress) : M (conn (exec_db W)) (option progress) :=
  let* updated := stmt_pb (update_playbook_execution_step_log x.1 (pr_log p) (Some index) (Some owner)) in
  ret match updated with
      | Some _ => Some (Progress (pr_log p) (Some index) (pr_failed p) (pr_message p))
      | None => None
      end.

Definition log_entries (p : progress) (entries : list pyval) : progress :=
  Progress (pr_log p ++ entries) (pr_last p) (pr_failed p) (pr_message p).

Definition succeeded (entry : pydict) : bool := eq_str (dget entry "status") "success".

(** The end of a branch, trigger or enrichment step. *)
Definition finish_control_step (what : string) (step : pydict) (index : Z) (p : progress) (entry : pydict)
    (skipped : list pyval) (next_index : Z) : M (conn (exec_db W)) step_next :=
  let p := log_entries p (PDict entry :: skipped) in
  append_non_adapter_playbook_step_outcome_event env x entry ;;;
  if succeeded entry then
    let* saved := save_progress index p in
    ret match saved with
        | None => Return (lease_lost p ("Playbook execution lease was lost while saving " +:+ what +:+ " progress."))
        | Some p => Continue next_index p
        end
  else ret (after_failure (PDict step) index entry p).

Definition gate_arguments (step : pydict) : outcome (string * string * Z) :=
  let! reason := text_arg (py_or (dget step "reason")
                             (PStr "Approval required before continuing simulated playbook.")) in
  let! risk := (if dmem step "risk_level" then text_arg (dget step "risk_level") else Ok "high") in
  let! ttl := (if dmem step "expires_in_minutes"
               then match as_int (dget step "expires_in_minutes") with Some n => Ok n | None => Raise TypeError end
               else Ok DEFAULT_APPROVAL_TTL_MINUTES) in
  Ok (reason, risk, ttl).

Definition gate_of (r : Z * approval_row) : gate_request :=
  GateRequest r.1 (status_str (ap_status r.2)) (ap_risk_level r.2).

(** A [require_approval] step always ends the call. *)
Definition run_gate_step (step : pydict) (index : Z) (p : progress) : M (conn (exec_db W)) step_next :=
  let* args := of_outcome (gate_arguments step) in
  let '(reason, risk, ttl) := args in
  let* request := stmt_approvals (create_playbook_step_approval_request clk x.1 index "playbook.require_approval" None
                                    (Some reason) risk None ttl) in
  let entry := approval_requested_entry now index (gate_of request) step in
  let p := log_entries p [PDict entry] in
  let* updated := stmt_pb (set_playbook_execution_awaiting_approval x.1 (pr_log p) (pr_last p) (Some owner)) in
  match updated with
  | None => ret (Return (lease_lost p "Playbook execution lease was lost while pausing for approval."))
  | Some u =>
      append_playbook_awaiting_approval_outcome_event env u request index (py_str (dget entry "message")) ;;;
      release x.1 owner ;;;
      ret (Return (make_result x prior "awaiting_approval" "awaiting_approval" (Z.of_nat (length (pr_log p)))
                     (PStr "Approval requested before continuing simulated playbook.") None))
  end.

Definition run_branch_step (step : pydict) (index : Z) (p : progress) : M (conn (exec_db W)) step_next :=
  let* r := stmt_reads (fun d => execute_branch_step now step index steps (pr_log p) x (xd_alerts d)) in
  let* r := of_outcome r in
  let '(entry, skipped, next_index) := r in
  finish_control_step "branch" step index p entry skipped next_index.

(** The record of the delivery, added to the output of the entry. *)
Definition with_delivery (entry : pydict) (attempt : option pydict) : pydict :=
  match attempt with
  | None => entry
  | Some a =>
      let entry := if dmem entry "output" then entry else dset entry "output" (PDict []) in
      match dget entry "output" with
      | PDict output => dset entry "output" (PDict (dset output "notification_delivery" (PDict a)))
      | _ => entry
      end
  end.

(** [step.get("action") in _NOTIFICATION_ACTIONS and .. != "notify_slack"],
    when the adapter was called. *)
Definition to_record (step : pyval) (entry : pydict) : outcome (option string) :=
  match as_dict step with
  | None => Ok None
  | Some d =>
      let! notification := in_str_set (dget d "action") NOTIFICATION_ACTIONS in
      Ok (if (notification : bool) && negb (eq_str (dget d "action") "notify_slack") &&
             negb (is_true (dget entry "skipped"))
          then as_str (dget d "action") else None)
  end.

Definition simulated_entry (step : pyval) (index : Z) : M (conn (exec_db W)) pydict :=
  try_catch (simulate_step env now step index x)
    (fun e => ret (failure_entry now (Some index) (step_action step) (exn_str e) "simulation_exception" None)).

Definition record_delivery (step : pyval) (index : Z) (entry : pydict) : M (conn (exec_db W)) pydict :=
  let* action := of_outcome (to_record step entry) in
  match action with
  | None => ret entry
  | Some a =>
      let* attempt := record_notification_delivery_attempt env now x a index entry in
      ret (with_delivery entry attempt)
  end.

(** Any other step.  Its event is appended after its progress is saved. *)
Definition run_plain_step (step : pyval) (index : Z) (p : progress) : M (conn (exec_db W)) step_next :=
  let* entry := simulated_entry step index in
  let* entry := record_delivery step index entry in
  let p := log_entries p [PDict entry] in
  if succeeded entry then
    let* saved := save_progress index p in
    match saved with
    | None => ret (Return (lease_lost p "Playbook execution lease was lost while saving step progress."))
    | Some p =>
        append_non_adapter_playbook_step_outcome_event env x entry ;;;
        ret (Continue (index + 1) p)
    end
  else
    append_non_adapter_playbook_step_outcome_event env x entry ;;;
    ret (after_failure step index entry p).

Definition has_action (step : pyval) (action : string) : bool := eq_str (step_action step) action.

Definition dispatch_step (step : pyval) (index : Z) (p : progress) : M (conn (exec_db W)) step_next :=
  let d := dict_or_empty step in
  if has_action step "require_approval" then run_gate_step d index p
  else if has_action step "branch" then run_branch_step d index p
  else if has_action step "trigger_playbook" then
    let* entry := execute_trigger_playbook_step env now d index x in
    finish_control_step "trigger_playbook" d index p entry [] (index + 1)
  else if has_action step "enrich_context" then
    let* entry := execute_enrich_context_step now d index x in
    finish_control_step "enrich_context" d index p entry [] (index + 1)
  else run_plain_step step index p.

(** A step the log already records is passed over; any other one first
    extends the lease. *)
Definition run_step (step : pyval) (index : Z) (p : progress) : M (conn (exec_db W)) step_next :=
  if step_already_succeeded_in_log (pr_log p) index
  then ret (Continue (index + 1) (Progress (pr_log p) (Some index) (pr_failed p) (pr_message p)))
  else if step_already_skipped_in_log (pr_log p) index then ret (Continue (index + 1) p)
  else
    let* held := heartbeat_lease in
    if negb held then ret (Return (lease_lost p "Playbook execution lease was lost before step execution."))
    else dispatch_step step index p.

(** ** The loop *)

Definition out_of_fuel : exn := OtherException "fuel".

Fixpoint run_steps (fuel : nat) (index : Z) (p : progress) : M (conn (exec_db W)) loop_end :=
  match fuel with
  | O => raise out_of_fuel
  | S fuel =>
      if Z.of_nat (length steps) <=? index then ret (Finished p)
      else match py_nth steps index with
           | None => raise (OtherException "IndexError")
           | Some step =>
               let* n := run_step step index p in
               match n with
               | Continue index p => run_steps fuel index p
               | Break p => ret (Finished p)
               | Return r => ret (Returned r)
               end
           end
  end.

(** One unit of fuel per index from [start_index] on, and one to leave the
    loop: every step moves to a larger index. *)
Definition steps_fuel (start_index : Z) : nat := S (Z.to_nat (Z.of_nat (length steps) - start_index)).

Definition process_steps (start_index : Z) (steps_log : list pyval) (last : option Z)
    : M (conn (exec_db W)) exec_result :=
  let* e := run_steps (steps_fuel start_index) start_index (Progress steps_log last false PNone) in
  match e with
  | Returned r => ret r
  | Finished p =>
      let processed := Z.of_nat (length (pr_log p)) in
      if pr_failed p then
        finalize_failed x.1 owner (pr_log p) (pr_last p) ;;;
        ret (make_result x prior "failed" "failed" processed
               (py_or (pr_message p) (PStr "One or more simulated playbook steps failed.")) None)
      else
        finalize_success x.1 owner (pr_log p) (pr_last p) ;;;
        ret (make_result x prior "success" "success" processed
               (PStr "Playbook execution completed successfully.") None)
  end.
End Steps.

(** ** A running execution *)

Definition definition_steps (playbook : string) (d : exec_db W) : option (list pyval) :=
  (fun pd => pd_steps pd.2) <$> get_playbook_definition playbook (xd_pb d).

(** The steps column of a definition is always a list, so the source's
    [invalid_steps] failure does not arise. *)
Definition process_running_execution (x : Z * exec_row) (prior owner : string) (duration : Z)
    : M (conn (exec_db W)) exec_result :=
  let* steps := stmt_reads (definition_steps (x_playbook_id x.2)) in
  match steps with
  | None =>
      let log := [PDict (failure_entry now None PNone "Playbook definition not found." "definition_not_found" None)] in
      finalize_failed x.1 owner log None ;;;
      ret (make_result x prior "failed" "failed" 1 (PStr "Playbook definition not found.") None)
  | Some steps =>
      let '(start_index, log, last) := resume_progress x.2 in
      process_steps x steps prior owner duration (Z.min start_index (Z.of_nat (length steps))) log last
  end.

(** ** An execution awaiting approval *)

Definition fail_awaiting_execution (x : Z * exec_row) (log : list pyval) (index : option Z) (code message owner : string)
    : M (conn (exec_db W)) exec_result :=
  let log := log ++ [PDict (failure_entry now index (PStr "require_approval") message code None)] in
  finalize_failed x.1 owner log (x_last_completed_step x.2) ;;;
  ret (make_result x "awaiting_approval" "failed" "failed" 0 (PStr message) None).

(** Append the entry of a decision unless the log already has it. *)
Definition record_gate_event (log : list pyval) (gate : Z) (r : Z * approval_row) (status event message : string)
    : list pyval :=
  if has_gate_event log gate r.1 event then log
  else log ++ [PDict (approval_decision_entry now gate (gate_of r) status event message)].

(** Lease the execution to resume it with the given log. *)
Definition resume_lease (x : Z * exec_row) (owner : string) (log : list pyval) (gate duration : Z)
    : M (conn (exec_db W)) (option (Z * exec_row)) :=
  stmt_pb (acquire_awaiting_approval_resume_lease clk x.1 (Some owner) log (Some gate) duration (Some now)).

Definition resume_refused (x : Z * exec_row) (message : string) : M (conn (exec_db W)) exec_result :=
  let* latest := get_execution x.1 in
  ret (skip_result x "awaiting_approval" (exec_status_str (x_status (default x latest).2)) "lease_not_acquired" message).

Definition resume_approved (x : Z * exec_row) (log : list pyval) (gate : Z) (r : Z * approval_row) (owner : string)
    (duration : Z) : M (conn (exec_db W)) exec_result :=
  append_playbook_approval_decision_outcome_event env x r "approval_approved" "running"
    "Approval granted for simulated playbook gate." ;;;
  let log := record_gate_event log gate r "approved" "approval_approved" "Approval granted for simulated playbook gate." in
  let log := record_gate_event log gate r "resumed" "approval_resumed" "Simulation resumed after approval." in
  let* resumed := resume_lease x owner log gate duration in
  match resumed with
  | None => resume_refused x "Playbook execution could not be leased for approval resume."
  | Some y =>
      append_playbook_running_outcome_event env y ;;;
      append_playbook_resumed_outcome_event env y r ;;;
      let* steps := stmt_reads (definition_steps (x_playbook_id x.2)) in
      match steps with
      | None => fail_awaiting_execution y log (Some gate) "invalid_resume_definition"
                  "Playbook definition could not be loaded for approval resume." owner
      | Some steps => process_steps y steps "awaiting_approval" owner duration (gate + 1) log (Some gate)
      end
  end.

(** What the gate step says to do when the request is denied or expired. *)
Definition terminal_behavior (steps : list pyval) (gate : Z) (st : approval_status) : pyval :=
  let step := if 0 <=? gate then match steps !! Z.to_nat gate with Some s => dict_or_empty s | None => [] end else [] in
  let key := match st with Denied => "on_denied" | _ => "on_expired" end in
  if dmem step key then dget step key else PStr "fail".

Definition stop_refused (x : Z * exec_row) (steps log : list pyval) (gate : Z) (r : Z * approval_row) (owner : string)
    : M (conn (exec_db W)) exec_result :=
  let status := status_str (ap_status r.2) in
  let log := log ++ skipped_later_step_entries now steps (gate + 1) ("approval_" +:+ status) in
  finalize_not_actioned x.1 owner log (x_last_completed_step x.2) ;;;
  ret (make_result x "awaiting_approval" "not_actioned" "not_actioned" 0
         (PStr ("Approval " +:+ status +:+ "; simulated playbook stopped safely.")) None).

Definition resume_branch (x : Z * exec_row) (steps log : list pyval) (gate : Z) (owner : string) (duration : Z)
    : M (conn (exec_db W)) exec_result :=
  let* resumed := resume_lease x owner log gate duration in
  match resumed with
  | None => resume_refused x "Playbook execution could not be leased for approval branch resume."
  | Some y =>
      append_playbook_running_outcome_event env y ;;;
      process_steps y steps "awaiting_approval" owner duration (gate + 1) log (Some gate)
  end.

Definition resume_refused_request (x : Z * exec_row) (log : list pyval) (gate : Z) (r : Z * approval_row)
    (owner : string) (duration : Z) : M (conn (exec_db W)) exec_result :=
  let status := status_str (ap_status r.2) in
  let event := "approval_" +:+ status in
  let* found := stmt_reads (definition_steps (x_playbook_id x.2)) in
  let steps := default [] found in
  let continue := eq_str (terminal_behavior steps gate (ap_status r.2)) "branch" in
  append_playbook_approval_decision_outcome_event env x r event (if continue then "running" else "blocked")
    ("Approval " +:+ status +:+ "; simulated playbook " +:+
     (if continue then "continuing to branch path." else "stopped safely.")) ;;;
  let log := record_gate_event log gate r status event ("Approval " +:+ status +:+ "; later steps were not run.") in
  if continue then resume_branch x steps log gate owner duration else stop_refused x steps log gate r owner.

Definition process_awaiting_approval_execution (x : Z * exec_row) (owner : string) (duration : Z)
    : M (conn (exec_db W)) exec_result :=
  let log := x_steps_log x.2 in
  match latest_gate_entry log with
  | None => fail_awaiting_execution x log None "missing_approval_gate"
              "Awaiting approval execution has no approval gate entry." owner
  | Some (gate, _) =>
      let* request := stmt_approvals (get_latest_playbook_step_approval_request clk x.1 gate true (Some now)) in
      match request with
      | None => fail_awaiting_execution x log (Some gate) "missing_approval_request"
                  "Linked approval request was not found." owner
      | Some r =>
          match ap_status r.2 with
          | Pending => ret (skip_result x "awaiting_approval" "awaiting_approval" "approval_pending"
                              "Playbook execution is still awaiting approval.")
          | Approved => resume_approved x log gate r owner duration
          | Denied | Expired => resume_refused_request x log gate r owner duration
          end
      end
  end.

(** ** Entry points *)

Definition process_next_pending_playbook_execution (locked : gset Z) (worker_id : option string) (lease : option Z)
    : M (conn (exec_db W)) (option exec_result) :=
  let owner := resolve_worker_id env worker_id in
  let* duration := of_outcome (coerce_lease_duration env lease) in
  let* claimed := stmt_pb (claim_next_pending_playbook_execution_with_lease clk locked (Some owner) duration (Some now)) in
  match claimed with
  | None => ret None
  | Some x =>
      append_playbook_running_outcome_event env x ;;;
      let* r := process_running_execution x "pending" owner duration in
      ret (Some r)
  end.

Definition process_running_status (x : Z * exec_row) (owner : string) (duration : Z) : M (conn (exec_db W)) exec_result :=
  match lease_owner (x_lease x.2) with
  | Some o =>
      if String.eqb o owner then process_running_execution x "running" owner duration
      else if is_empty o then ret (skip_result x "running" "running" "already_running"
                                     "Running playbook execution was not re-run.")
      else ret (skip_result x "running" "running" "lease_not_owned"
                  "Running playbook execution is owned by another worker.")
  | None => ret (skip_result x "running" "running" "already_running" "Running playbook execution was not re-run.")
  end.

Definition process_pending_status (x : Z * exec_row) (owner : string) (duration : Z) : M (conn (exec_db W)) exec_result :=
  let* running := stmt_pb (acquire_execution_lease clk x.1 (Some owner) duration (Some now)) in
  match running with
  | Some y =>
      append_playbook_running_outcome_event env y ;;;
      process_running_execution y "pending" owner duration
  | None =>
      let* latest := get_execution x.1 in
      let y := default x latest in
      ret (skip_result x "pending" (exec_status_str (x_status y.2))
             (if has_exec_status XPending y.2 then "lease_not_acquired" else "claim_failed")
             "Playbook execution could not be leased for processing.")
  end.

Definition process_playbook_execution (i : Z) (worker_id : option string) (lease : option Z)
    : M (conn (exec_db W)) exec_result :=
  let* found := get_execution i in
  match found with
  | None => ret (ExecResult i None None None "skipped" (Some "execution_not_found") 0
                   (PStr "Playbook execution not found."))
  | Some x =>
      let owner := resolve_worker_id env worker_id in
      let* duration := of_outcome (coerce_lease_duration env lease) in
      match x_status x.2 with
      | XRunning => process_running_status x owner duration
      | XAwaitingApproval => process_awaiting_approval_execution x owner duration
      | XPending => process_pending_status x owner duration
      | st => ret (skip_result x (exec_status_str st) (exec_status_str st) "terminal_status"
                     "Terminal playbook execution was not re-run.")
      end
  end.

(** Claim and run until the limit or until nothing can be claimed. *)
Fixpoint process_pending (n : nat) (locked : gset Z) (owner : string) (duration : Z)
    : M (conn (exec_db W)) (list exec_result) :=
  match n with
  | O => ret []
  | S n =>
      let* r := process_next_pending_playbook_execution locked (Some owner) (Some duration) in
      match r with
      | None => ret []
      | Some r => let* rest := process_pending n locked owner duration in ret (r :: rest)
      end
  end.

Fixpoint process_each (rows : list (Z * exec_row)) (owner : string) (duration : Z)
    : M (conn (exec_db W)) (list exec_result) :=
  match rows with
  | [] => ret []
  | (i, _) :: rows =>
      let* r := process_playbook_execution i (Some owner) (Some duration) in
      let* rest := process_each rows owner duration in
      ret (r :: rest)
  end.

Definition process_playbook_execution_batch (limit : Z) (locked : gset Z) (worker_id : option string)
    (lease : option Z) : M (conn (exec_db W)) (list exec_result) :=
  let owner := resolve_worker_id env worker_id in
  let* duration := of_outcome (coerce_lease_duration env lease) in
  let batch_limit := normalize_limit limit in
  let* results := process_pending (Z.to_nat batch_limit) locked owner duration in
  let remaining := batch_limit - Z.of_nat (length results) in
  if 0 <? remaining then
    let* rows := stmt_reads (fun d => list_awaiting_approval_playbook_executions remaining (xd_pb d)) in
    let* rows := of_outcome rows in
    let* more := process_each rows owner duration in
    ret (results ++ more)
  else ret results.
End Executor.
