(* ===== verification/ExecutorProtocol.v ===== *)
(** * ExecutorProtocol: the store operations a playbook executor performs

    The part of the alphabet of [PlaybookStore] that the executor uses, and
    what any sequence of it preserves: well-formed stores, step logs that
    record a success once, and chains of executions without repetition. *)

From S2P Require Import Prelude Tables PyText PyFloat PyValue Approvals Outcomes Deliveries Alerts PlaybookRegistry.
From S2P Require Import PlaybookStore DeadLetters StepLog StepEvents StepActions StepExecutor.

Open Scope Z_scope.

(** ** Step logs *)

(** No step is recorded as succeeded twice. *)
Definition log_once (log : list pyval) : Prop :=
  forall k, (length (List.filter (has_status "success" k) log) <= 1)%nat.

Definition quiet_entry (e : pyval) : Prop := forall k, has_status "success" k e = false.

Lemma log_once_nil : log_once [].
Proof. intros k. cbn. lia. Qed.

Lemma quiet_failed (e : pydict) st : dget e "status" = PStr st -> String.eqb st "success" = false -> quiet_entry (PDict e).
Proof. intros Hs He k. unfold has_status. cbn [as_dict]. rewrite Hs. cbn [eq_str]. rewrite He. apply andb_false_r. Qed.

Lemma log_once_quiet log l : log_once log -> Forall quiet_entry l -> log_once (log ++ l).
Proof.
  intros Hlog Hl k. rewrite List.filter_app, length_app. specialize (Hlog k).
  assert (List.filter (has_status "success" k) l = []) as ->; [|cbn; lia].
  induction Hl as [|e l He _ IH]; [done|]. cbn. by rewrite He.
Qed.

Lemma existsb_filter_nil {A} (f : A -> bool) l : existsb f l = false -> List.filter f l = [].
Proof. induction l as [|a l IH]; cbn; [done|]. intros [-> H]%orb_false_iff. auto. Qed.

(** The entry of a step at an index the log does not record yet. *)
Lemma log_once_entry log entry index :
  log_once log -> step_already_succeeded_in_log log index = false -> dget entry "step_index" = PInt index ->
  log_once (log ++ [PDict entry]).
Proof.
  intros Hlog Hnew Hi k. rewrite List.filter_app, length_app.
  destruct (decide (k = index)) as [->|Hne].
  - rewrite (existsb_filter_nil _ _ Hnew). cbn. case_match; cbn; lia.
  - specialize (Hlog k). cbn [List.filter]. unfold has_status at 2. cbn [as_dict]. unfold at_index. rewrite Hi.
    rewrite (proj2 (Z.eqb_neq index k)) by done. cbn. lia.
Qed.

Definition logs_ok (s : pb_store) : Prop := forall i r, pb_execs s !! i = Some r -> log_once (x_steps_log r).

(** ** Chains of executions *)

Inductive ancestor (s : pb_store) (i : Z) : Z -> Prop :=
  | ancestor_parent r p :
      pb_execs s !! i = Some r -> x_parent_execution_id r = Some p -> ancestor s i p
  | ancestor_up r p a :
      pb_execs s !! i = Some r -> x_parent_execution_id r = Some p -> ancestor s p a -> ancestor s i a.

(** Depths count the ancestors, are at most [MAX_CHAIN_DEPTH], and no
    playbook occurs twice on the way up. *)
Definition chain_ok (s : pb_store) (i : Z) (r : exec_row) : Prop :=
  (0 <= x_chain_depth r <= MAX_CHAIN_DEPTH /\ (x_parent_execution_id r = None -> x_chain_depth r = 0)) /\
  (forall p, x_parent_execution_id r = Some p ->
     exists rp, pb_execs s !! p = Some rp /\ x_chain_depth r = x_chain_depth rp + 1) /\
  (forall a ra, ancestor s i a -> pb_execs s !! a = Some ra -> x_playbook_id ra <> x_playbook_id r).

Definition chains_ok (s : pb_store) : Prop := forall i r, pb_execs s !! i = Some r -> chain_ok s i r.

Record exec_inv (s : pb_store) : Prop := {
  ei_wf : store_wf s;
  ei_logs : logs_ok s;
  ei_chains : chains_ok s;
}.

(** The walk of at most [MAX_CHAIN_DEPTH] hops meets every ancestor. *)
Lemma ancestor_chain_complete s hops i r a :
  chains_ok s -> pb_execs s !! i = Some r -> x_chain_depth r <= Z.of_nat hops -> ancestor s i a ->
  exists ra, (a, ra) ∈ ancestor_chain hops r s /\ pb_execs s !! a = Some ra.
Proof.
  intros Hc. revert i r. induction hops as [|hops IH]; intros i r Hi Hd Ha.
  - destruct (Hc _ _ Hi) as ([Hr0 _] & Hp & _).
    assert (exists p, x_parent_execution_id r = Some p) as [p Hpa].
    { destruct Ha as [r0 p H1 H2|r0 p a H1 H2 _]; simplify_eq; eauto. }
    destruct (Hp _ Hpa) as (rp & Hrp & Hdp). destruct (Hc _ _ Hrp) as ([Hrp0 _] & _). lia.
  - destruct (Hc _ _ Hi) as (_ & Hp & _). cbn [ancestor_chain].
    destruct Ha as [r0 p H1 H2|r0 p a H1 H2 Ha]; rewrite Hi in H1; simplify_eq; rewrite H2;
      destruct (Hp _ H2) as (rp & Hrp & Hdp); rewrite Hrp.
    + exists rp. split; [by left|done].
    + destruct (IH p rp Hrp ltac:(lia) Ha) as (ra & Hin & Hra). exists ra. split; [by right|done].
Qed.

Lemma ancestor_chain_sound s hops i r a ra :
  pb_execs s !! i = Some r -> (a, ra) ∈ ancestor_chain hops r s -> ancestor s i a /\ pb_execs s !! a = Some ra.
Proof.
  revert i r. induction hops as [|hops IH]; intros i r Hi; cbn [ancestor_chain];
    (destruct (x_parent_execution_id r) as [p|] eqn:Hp; [|intros H; by apply not_elem_of_nil in H]);
    [intros H; by apply not_elem_of_nil in H|].
  destruct (pb_execs s !! p) as [rp|] eqn:Hrp; [|intros H; by apply not_elem_of_nil in H].
  intros [[= -> ->]|Hin]%elem_of_cons; [split; [by eapply ancestor_parent|done]|].
  destruct (IH p rp Hrp Hin) as [Ha Hra]. split; [by eapply ancestor_up|done].
Qed.

(** ** Updates that keep the linking columns *)

Inductive updates (P : exec_row -> exec_row -> Prop) (s s' : pb_store) : Prop :=
  | updates_none : s' = s -> updates P s s'
  | updates_row i r r' :
      pb_execs s !! i = Some r -> P r r' -> s' = PbStore (pb_defs s) (<[i := r']> (pb_execs s)) (pb_seq s) ->
      updates P s s'.

Definition has_updates {A} (P : exec_row -> exec_row -> Prop) (m : M pb_store A) : Prop :=
  forall s, updates P s (m s).2.

Lemma has_updates_update P i cond f : (forall r, P r (f r)) -> has_updates P (update_exec i cond f).
Proof.
  intros HP s. unfold update_exec. destruct (pb_execs s !! i) as [r|] eqn:Hi; [|by apply updates_none].
  destruct (cond r); [|by apply updates_none]. destruct (pair_taken _ _ _); [by apply updates_none|].
  by eapply updates_row.
Qed.

Lemma has_updates_reads {A} P (m : M pb_store A) : reads m -> has_updates P m.
Proof. intros Hm s. by apply updates_none. Qed.

Lemma has_updates_bind {A B} P (m : M pb_store A) (k : A -> M pb_store B) :
  reads m -> (forall a, has_updates P (k a)) -> has_updates P (bind m k).
Proof.
  intros Hm Hk s. unfold bind. specialize (Hm s). destruct (m s) as [[a|e] s']; cbn in *; subst.
  - apply Hk.
  - by apply updates_none.
Qed.

Lemma has_updates_then {A B} P (m : M pb_store A) (k : A -> M pb_store B) :
  has_updates P m -> (forall a, reads (k a)) -> has_updates P (bind m k).
Proof.
  intros Hm Hk s. unfold bind. specialize (Hm s). destruct (m s) as [[a|e] s'] eqn:E; cbn in *; [|done].
  by rewrite Hk.
Qed.

Ltac store_updates :=
  repeat first
    [ apply has_updates_update; intros ?
    | apply has_updates_reads; by store_reads
    | apply has_updates_bind; [by store_reads|intros]
    | apply has_updates_then; [|intros; by store_reads]
    | case_match ].

(** The linking columns are kept, and the log stays a log of first
    successes. *)
Definition log_kept (r r' : exec_row) : Prop := kept r r' /\ (log_once (x_steps_log r) -> log_once (x_steps_log r')).

Lemma kept_refl r : kept r r.
Proof. done. Qed.
Lemma kept_trans r1 r2 r3 : kept r1 r2 -> kept r2 r3 -> kept r1 r3.
Proof. unfold kept. intuition congruence. Qed.
#[export] Hint Resolve kept_refl : soar.

Lemma ancestor_updates s s' i a :
  (forall j r', pb_execs s' !! j = Some r' -> exists r, pb_execs s !! j = Some r /\ kept r r') ->
  ancestor s' i a -> ancestor s i a.
Proof.
  intros Hb. induction 1 as [i r' p Hi Hp|i r' p a Hi Hp _ IH];
    destruct (Hb _ _ Hi) as (r & Hr & (_ & _ & _ & _ & Hpar & _)); rewrite Hpar in Hp.
  - by eapply ancestor_parent.
  - by eapply ancestor_up.
Qed.

Lemma updates_rows P s s' : (forall r r', P r r' -> log_kept r r') -> updates P s s' ->
  (forall j r', pb_execs s' !! j = Some r' -> exists r, pb_execs s !! j = Some r /\
     kept r r' /\ (log_once (x_steps_log r) -> log_once (x_steps_log r'))) /\
  (forall j r, pb_execs s !! j = Some r -> exists r', pb_execs s' !! j = Some r' /\ kept r r').
Proof.
  intros HP [->|i r r' Hi Hr ->].
  { split; intros j r ?; exists r; by split_and?; eauto with soar. }
  destruct (HP _ _ Hr) as [Hk Hl]. split; cbn [pb_execs]; intros j r0 Hj.
  - apply lookup_insert_Some in Hj as [[<- <-]|[Hne Hj]]; [by exists r|]. exists r0. by split_and?.
  - destruct (decide (j = i)) as [->|Hne].
    + simplify_eq. exists r'. by rewrite lookup_insert_eq.
    + exists r0. by rewrite lookup_insert_ne.
Qed.

Lemma updates_keep P s s' :
  (forall r r', P r r' -> log_kept r r') -> updates P s s' -> logs_ok s -> chains_ok s -> logs_ok s' /\ chains_ok s'.
Proof.
  intros HP Hu Hl Hc. destruct (updates_rows P s s' HP Hu) as [Hb Hf]. split.
  - intros j r' Hj. destruct (Hb _ _ Hj) as (r & Hr & _ & Hlog). by apply Hlog, Hl with j.
  - intros j r' Hj. destruct (Hb _ _ Hj) as (r & Hr & Hk & _).
    assert (x_chain_depth r' = x_chain_depth r) as Hd by apply Hk.
    assert (x_parent_execution_id r' = x_parent_execution_id r) as Hpar by apply Hk.
    assert (x_playbook_id r' = x_playbook_id r) as Hpb by apply Hk.
    destruct (Hc _ _ Hr) as (Hrange & Hp & Ha). destruct Hrange as [Hrange Hroot].
    rewrite <- Hpar, <- Hd in Hroot. split_and!; rewrite ?Hd; [lia|lia|by rewrite <- Hd| |].
    + intros p Hpp. rewrite Hpar in Hpp. destruct (Hp _ Hpp) as (rp & Hrp & Hdp).
      destruct (Hf _ _ Hrp) as (rp' & Hrp' & Hkp). exists rp'. split; [done|].
      destruct Hkp as (_ & _ & _ & _ & _ & Hdk). lia.
    + intros a ra' Hanc Hra. rewrite Hpb. destruct (Hb _ _ Hra) as (ra & Hra0 & Hka & _).
      destruct Hka as (-> & _). apply (Ha a ra); [|done]. eapply ancestor_updates; [|done].
      intros k rk Hk'. destruct (Hb _ _ Hk') as (r1 & ? & ? & _). eauto.
Qed.

(** ** The executor's operations *)

(** An execution a trigger step may create: below a parent that is not at
    the maximal depth, for a playbook that neither the parent nor any of its
    ancestors runs. *)
Definition child_ok (s : pb_store) (n : new_execution) : Prop :=
  exists p r, ne_parent_execution_id n = Some p /\ pb_execs s !! p = Some r /\
    ne_chain_depth n = x_chain_depth r + 1 /\ x_chain_depth r < MAX_CHAIN_DEPTH /\
    ne_playbook_id n <> x_playbook_id r /\
    Forall (fun a => x_playbook_id a.2 <> ne_playbook_id n) (ancestor_chain (Z.to_nat MAX_CHAIN_DEPTH) r s).

Definition unleased_awaiting (s : pb_store) (i : Z) : Prop :=
  exists r, pb_execs s !! i = Some r /\ x_status r = XAwaitingApproval.

(** What a worker acting as [owner] at [now] may do to a store. *)
Inductive allowed (owner : string) (now : Z) (s : pb_store) : pb_op -> Prop :=
  | al_claim locked d : allowed owner now s (OpClaim locked (Some owner) d (Some now))
  | al_acquire i d : allowed owner now s (OpAcquire i (Some owner) d (Some now))
  | al_resume i log last d : log_once log -> allowed owner now s (OpResume i (Some owner) log last d (Some now))
  | al_heartbeat i d : allowed owner now s (OpHeartbeat i (Some owner) d (Some now))
  | al_release i : allowed owner now s (OpRelease i (Some owner))
  | al_log i log last : log_once log -> allowed owner now s (OpLog i log last (Some owner))
  | al_await i log last : log_once log -> allowed owner now s (OpAwait i log last (Some owner))
  | al_success i log last : log_once log -> allowed owner now s (OpSuccess i log last (Some now) (Some owner))
  | al_failed i log last w :
      log_once log -> w = Some owner \/ (w = None /\ unleased_awaiting s i) ->
      allowed owner now s (OpFailed i log last (Some now) w)
  | al_not_actioned i log last w :
      log_once log -> w = Some owner \/ (w = None /\ unleased_awaiting s i) ->
      allowed owner now s (OpNotActioned i log last (Some now) w)
  | al_child n : child_ok s n -> allowed owner now s (OpCreateOnce n)
  | al_link j decision correlation r :
      pb_execs s !! j = Some r -> x_status r = XPending -> allowed owner now s (OpLink j decision correlation).

(** One such operation, whatever rows the foreign keys find. *)
Definition exec_step (clk : clock) (owner : string) (now : Z) (s s' : pb_store) : Prop :=
  exists alert_exists incident_exists decision_exists op,
    allowed owner now s op /\ s' = run_op clk alert_exists incident_exists decision_exists op s.

Definition is_create (op : pb_op) : bool := match op with OpCreateOnce _ => true | _ => false end.

Lemma log_kept_log log last r f :
  log_once log -> (forall r, kept r (f r)) -> log_kept r (set_x_log log last (f r)).
Proof.
  intros Hlog Hf. split; [|by destruct (f r)]. eapply kept_trans; [apply Hf|]. by destruct (f r).
Qed.

Lemma allowed_updates clk al inc dec owner now s op :
  allowed owner now s op -> is_create op = false -> updates log_kept s (run_op clk al inc dec op s).
Proof.
  intros Hal Hnc. destruct Hal; try done; cbn [run_op].
  all: match goal with |- updates ?P ?st (?m ?st).2 =>
    cut (has_updates P m); [intros Hu; apply Hu|] end.
  all: unfold acquire_execution_lease, claim_next_pending_playbook_execution_with_lease,
      acquire_awaiting_approval_resume_lease, heartbeat_execution_lease, release_execution_lease,
      update_playbook_execution_step_log, set_playbook_execution_success, set_playbook_execution_failed,
      set_playbook_execution_not_actioned, set_playbook_execution_awaiting_approval, finish_execution,
      set_playbook_execution_canonical_linkage; store_updates.
  all: try (split; [by destruct r|by destruct r]).
  all: try (apply log_kept_log; [done|intros []; done]).
  all: try (apply (log_kept_log _ _ _ id); [done|intros []; done]).
  all: match goal with H : exec_row |- _ => split; [by destruct H|by destruct H] end.
Qed.

(** ** Creating a child *)

Lemma create_once_cases clk al inc dec n s :
  let s' := (create_pending_playbook_execution_once clk al inc dec n s).2 in
  s' = s \/ s' = bump s \/
  (references_ok al inc dec n s = true /\
   s' = PbStore (pb_defs s) (<[pb_seq s := new_row clk n]> (pb_execs s)) (pb_seq s + 1) /\
   (create_pending_playbook_execution_once clk al inc dec n s).1 = Ok (Some (pb_seq s))).
Proof.
  cbn zeta. unfold create_pending_playbook_execution_once. repeat case_match; cbn; auto.
  right. right. split; [|done]. by apply negb_false_iff.
Qed.

Lemma ancestor_insert s i r n a :
  (forall j r, pb_execs s !! j = Some r -> j < i) ->
  (forall j r p, pb_execs s !! j = Some r -> x_parent_execution_id r = Some p -> p < j) ->
  i <> n -> pb_execs s !! i = None ->
  ancestor (PbStore (pb_defs s) (<[i := r]> (pb_execs s)) (pb_seq s + 1)) n a -> n < i -> ancestor s n a.
Proof.
  intros Hids Hpar Hne Hnone Ha. induction Ha as [n r0 p H1 H2|n r0 p a H1 H2 _ IH]; intros Hlt;
    cbn [pb_execs] in H1; rewrite lookup_insert_ne in H1 by lia.
  - by eapply ancestor_parent.
  - pose proof (Hpar _ _ _ H1 H2). eapply ancestor_up; [done..|]. apply IH; lia.
Qed.

Section Child.
Context (s : pb_store) (clk : clock) (n : new_execution).
Context (Hwf : store_wf s) (Hchains : chains_ok s).
Let s' := PbStore (pb_defs s) (<[pb_seq s := new_row clk n]> (pb_execs s)) (pb_seq s + 1).

Lemma fresh_id : pb_execs s !! pb_seq s = None.
Proof using Hwf.
  destruct (pb_execs s !! pb_seq s) eqn:E; [|done]. pose proof (wf_ids _ Hwf _ _ E). lia.
Qed.

Lemma child_keeps_ancestors j r a :
  pb_execs s !! j = Some r -> ancestor s' j a -> ancestor s j a.
Proof using Hwf.
  intros Hj Ha. pose proof (wf_ids _ Hwf _ _ Hj). eapply (ancestor_insert s (pb_seq s)); [..|exact Ha|done].
  - intros k rk. apply (wf_ids _ Hwf).
  - intros k rk p Hk Hp. by apply (wf_parent _ Hwf _ _ _ Hk Hp).
  - lia.
  - apply fresh_id.
Qed.

Lemma ancestor_older j r a : pb_execs s !! j = Some r -> ancestor s j a -> a < j.
Proof using Hwf.
  intros Hj Ha. revert r Hj. induction Ha as [j r0 p H1 H2|j r0 p a H1 H2 _ IH]; intros r Hj;
    destruct (wf_parent _ Hwf _ _ _ H1 H2) as [Hlt [rp Hrp]]; [done|]. specialize (IH _ Hrp). lia.
Qed.

Lemma child_chain_ok : child_ok s n -> chain_ok s' (pb_seq s) (new_row clk n).
Proof using Hwf Hchains.
  intros Hchild. destruct Hchild as (p & r & Hp & Hr & Hd & Hlt & Hpb & Hanc).
  destruct (Hchains _ _ Hr) as ([Hr0 _] & _ & _). pose proof (wf_ids _ Hwf _ _ Hr) as Hid.
  unfold chain_ok. cbn [new_row x_chain_depth x_parent_execution_id x_playbook_id].
  split_and!; [lia|unfold MAX_CHAIN_DEPTH in *; lia|by rewrite Hp| |].
  - intros p' Hp'. rewrite Hp in Hp'. injection Hp' as <-. exists r. split; [|lia].
    cbn [s' pb_execs]. by rewrite lookup_insert_ne by lia.
  - intros a ra Ha Hra.
    assert (a = p \/ ancestor s p a) as Hcase.
    { destruct Ha as [r0 q H1 H2|r0 q a H1 H2 Hup]; cbn [s' pb_execs] in H1; rewrite lookup_insert_eq in H1;
        injection H1 as <-; cbn [new_row x_parent_execution_id] in H2; rewrite Hp in H2; injection H2 as <-;
        [by left|]. right. by eapply child_keeps_ancestors. }
    assert (a <> pb_seq s) as Hne.
    { destruct Hcase as [->|Hup]; [lia|]. pose proof (ancestor_older _ _ _ Hr Hup). lia. }
    cbn [s' pb_execs] in Hra. rewrite lookup_insert_ne in Hra by done.
    destruct Hcase as [->|Hup]; [by simplify_eq|].
    destruct (ancestor_chain_complete s (Z.to_nat MAX_CHAIN_DEPTH) p r a Hchains Hr) as (ra' & Hin & Hra'); [|done|].
    { rewrite Z2Nat.id; [lia|done]. }
    rewrite Hra in Hra'. injection Hra' as <-. rewrite Forall_forall in Hanc. by apply (Hanc (a, ra)).
Qed.

(** The other rows keep their chains. *)
Lemma new_chains : chain_ok s' (pb_seq s) (new_row clk n) -> chains_ok s'.
Proof using Hwf Hchains.
  intros Hnew j r Hj. destruct (decide (j = pb_seq s)) as [->|Hne].
  { cbn [s' pb_execs] in Hj. rewrite lookup_insert_eq in Hj. by injection Hj as <-. }
  cbn [s' pb_execs] in Hj. rewrite lookup_insert_ne in Hj by done.
  destruct (Hchains _ _ Hj) as ([Hr Hroot] & Hp & Ha). split_and!; [lia|lia|done| |].
  - intros p Hpp. destruct (Hp _ Hpp) as (rp & Hrp & Hd). exists rp. split; [|done].
    pose proof (wf_ids _ Hwf _ _ Hrp). cbn [s' pb_execs]. by rewrite lookup_insert_ne by lia.
  - intros a ra Hanc Hra. apply (Ha a); [by eapply child_keeps_ancestors|].
    pose proof (ancestor_older _ _ _ Hj (child_keeps_ancestors _ _ _ Hj Hanc)) as Hlt.
    pose proof (wf_ids _ Hwf _ _ Hj). cbn [s' pb_execs] in Hra. by rewrite lookup_insert_ne in Hra by lia.
Qed.
End Child.

(** ** What every sequence of executor operations preserves *)

Section Preserved.
Context (clk : clock) (owner : string) (now : Z).

Lemma same_execs_inv s s' :
  pb_execs s' = pb_execs s -> logs_ok s -> chains_ok s -> logs_ok s' /\ chains_ok s'.
Proof.
  intros He Hl Hc. split; [intros i r; rewrite He; apply Hl|]. intros i r Hi. rewrite He in Hi.
  destruct (Hc _ _ Hi) as ([Hr Hroot] & Hp & Ha). split_and!; [lia|lia|done| |].
  - intros p Hpp. destruct (Hp p Hpp) as (rp & ? & ?). exists rp. by rewrite He.
  - intros a ra Hanc Hra. rewrite He in Hra. apply (Ha a); [|done]. eapply ancestor_updates; [|done].
    intros j rj Hj. rewrite He in Hj. eauto with soar.
Qed.

Lemma new_logs s n :
  logs_ok s -> logs_ok (PbStore (pb_defs s) (<[pb_seq s := new_row clk n]> (pb_execs s)) (pb_seq s + 1)).
Proof.
  intros Hl i r Hi. cbn [pb_execs] in Hi.
  apply lookup_insert_Some in Hi as [[_ <-]|[_ Hi]]; [apply log_once_nil|by eapply Hl].
Qed.

Lemma create_inv al inc dec n s :
  exec_inv s -> child_ok s n ->
  logs_ok (run_op clk al inc dec (OpCreateOnce n) s) /\ chains_ok (run_op clk al inc dec (OpCreateOnce n) s).
Proof.
  intros [Hwf Hl Hc] Hn. cbn [run_op].
  destruct (create_once_cases clk al inc dec n s) as [->|[->|(_ & -> & _)]]; [done|by apply (same_execs_inv s)|].
  split; [by apply new_logs|]. apply new_chains; [done..|]. by apply child_chain_ok.
Qed.

Lemma exec_step_inv s s' : exec_inv s -> exec_step clk owner now s s' -> exec_inv s'.
Proof.
  intros Hinv (al & inc & dec & op & Hal & ->).
  assert (logs_ok (run_op clk al inc dec op s) /\ chains_ok (run_op clk al inc dec op s)) as [? ?].
  { destruct (is_create op) eqn:Hcr.
    - destruct op; try done. inversion Hal; subst. by apply create_inv.
    - destruct Hinv. eapply updates_keep; [|by eapply allowed_updates|done..]. done. }
  split; [apply run_op_wf, Hinv|done..].
Qed.

Lemma exec_steps_inv s s' : rtc (exec_step clk owner now) s s' -> exec_inv s -> exec_inv s'.
Proof. induction 1; eauto using exec_step_inv. Qed.

(** Rolled-back steps leave at most a gap in the sequence. *)
Definition same_executions (s s' : pb_store) : Prop :=
  pb_defs s' = pb_defs s /\ pb_execs s' = pb_execs s /\ pb_seq s <= pb_seq s'.

Lemma same_executions_inv s s' : same_executions s s' -> exec_inv s -> exec_inv s'.
Proof.
  intros (Hd & He & Hseq) [Hwf Hl Hc]. destruct (same_execs_inv s s' He Hl Hc). split; [|done..].
  apply (effect_wf clk (fun _ => true) (fun _ => true) (fun _ => true) kept s s'); [done| |done].
  apply effect_none; [by left|done..].
Qed.

Lemma exec_steps_seq s s' : rtc (exec_step clk owner now) s s' -> pb_seq s <= pb_seq s'.
Proof.
  induction 1 as [|s1 s2 s3 (al & inc & dec & op & _ & ->) _ IH]; [lia|].
  destruct (run_op_effect clk al inc dec op s1) as [_ _ Hseq|i r r' _ _ _ Hs|n _ _ Hs]; [lia|rewrite Hs in IH|rewrite Hs in IH];
    cbn [pb_seq] in IH; lia.
Qed.

(** The linking columns of a known execution never change. *)
Definition known (x : Z * exec_row) (s : pb_store) : Prop := exists r, pb_execs s !! x.1 = Some r /\ kept r x.2.

Lemma exec_step_known x s s' : exec_inv s -> exec_step clk owner now s s' -> known x s -> known x s'.
Proof.
  intros Hinv (al & inc & dec & op & Hal & ->) (r & Hr & Hk). destruct (is_create op) eqn:Hcr.
  - destruct op; try done. cbn [run_op]. exists r. split; [|done].
    pose proof (wf_ids _ (ei_wf _ Hinv) _ _ Hr).
    destruct (create_once_cases clk al inc dec n s) as [->|[->|(_ & -> & _)]]; [done..|].
    cbn [pb_execs]. by rewrite lookup_insert_ne by lia.
  - pose proof (allowed_updates clk al inc dec _ _ _ _ Hal Hcr) as Hu.
    destruct (updates_rows _ _ _ (fun r r' H => H) Hu) as [_ Hf]. destruct (Hf _ _ Hr) as (r' & Hr' & Hkk).
    exists r'. split; [done|]. destruct Hk as (? & ? & ? & ? & ? & ?), Hkk as (? & ? & ? & ? & ? & ?).
    repeat split; congruence.
Qed.

Lemma exec_steps_known x s s' :
  rtc (exec_step clk owner now) s s' -> exec_inv s -> known x s -> known x s'.
Proof. induction 1; eauto using exec_step_inv, exec_step_known. Qed.

(** A running execution leased to somebody else is out of reach, whether
    the lease has expired or not. *)
Lemma allowed_foreign o j T s r op :
  allowed owner now s op -> pb_execs s !! j = Some r -> x_status r = XRunning ->
  strip owner <> o -> strip owner <> "" -> foreign clk o j T op.
Proof.
  intros Hal Hj Hr Ho He. assert (~ acts_as o (Some owner)) by done. assert (~ acts_as "" (Some owner)) by done.
  destruct Hal; cbn [foreign]; try done; try (by right).
  all: try (destruct H2 as [->|(-> & r0 & Hr0 & Hst)]; [by right|left; congruence]).
  congruence.
Qed.

Lemma exec_steps_lease o j T s s' r :
  rtc (exec_step clk owner now) s s' -> exec_inv s -> pb_execs s !! j = Some r -> x_status r = XRunning ->
  lease_owner (x_lease r) = Some o -> lease_expires_at (x_lease r) = Some T ->
  strip owner <> o -> strip owner <> "" -> pb_execs s' !! j = Some r.
Proof.
  intros Hs Hinv Hj Hr Ho HT Hne He. revert Hinv Hj.
  induction Hs as [|s1 s2 s3 Hstep _ IH]; intros Hinv Hj; [done|].
  apply IH; [by eapply exec_step_inv|]. destruct Hstep as (al & inc & dec & op & Hal & ->).
  eapply foreign_keeps; [apply Hinv|done..|]. by eapply allowed_foreign.
Qed.
End Preserved.

(** ** Everybody else *)

(** The calls of operators, recovery and the alert pipeline: they create
    executions without a parent, and leave the step logs alone. *)
Definition operator_op (op : pb_op) : bool :=
  match op with
  | OpRecover _ _ _ | OpPermanentlyFail _ _ _ | OpAbandon _ | OpClaimUnleased _ _ | OpSetRunning _ _
  | OpStatus _ _ _ | OpLink _ _ _ | OpMetadata _ _ | OpRetry _
  | OpDefine _ _ _ _ _ _ | OpUpdateDefinition _ _ _ _ _ _ | OpEnable _ _ => true
  | OpCreate n | OpCreateOnce n =>
      match ne_parent_execution_id n with Some _ => false | None => ne_chain_depth n =? 0 end
  | _ => false
  end.

Inductive system_step (clk : clock) (s s' : pb_store) : Prop :=
  | sys_executor owner now : exec_step clk owner now s s' -> system_step clk s s'
  | sys_operator al inc dec op :
      operator_op op = true -> s' = run_op clk al inc dec op s -> system_step clk s s'.

(** The new rows of operators start a chain. *)
Definition root (n : new_execution) : Prop := ne_parent_execution_id n = None /\ ne_chain_depth n = 0.

Lemma root_chains s n clk :
  store_wf s -> chains_ok s -> root n ->
  chains_ok (PbStore (pb_defs s) (<[pb_seq s := new_row clk n]> (pb_execs s)) (pb_seq s + 1)).
Proof.
  intros Hwf Hc [Hp Hd]. apply new_chains; [done..|]. split_and!; cbn [new_row x_chain_depth x_parent_execution_id].
  - rewrite Hd. unfold MAX_CHAIN_DEPTH. lia.
  - rewrite Hd. unfold MAX_CHAIN_DEPTH. lia.
  - done.
  - intros p. by rewrite Hp.
  - intros a ra Ha. exfalso.
    destruct Ha as [r0 p H1 H2|r0 p a H1 H2 _]; cbn [pb_execs] in H1; rewrite lookup_insert_eq in H1;
      injection H1 as <-; cbn in H2; congruence.
Qed.

Section Operators.
Context (clk : clock) (al inc dec : Z -> bool).

(** Nothing but a new row that starts a chain. *)
Inductive starts (s s' : pb_store) : Prop :=
  | starts_none : pb_execs s' = pb_execs s -> starts s s'
  | starts_row n :
      root n -> s' = PbStore (pb_defs s) (<[pb_seq s := new_row clk n]> (pb_execs s)) (pb_seq s + 1) -> starts s s'.

Lemma starts_inv s s' :
  store_wf s -> logs_ok s -> chains_ok s -> starts s s' -> logs_ok s' /\ chains_ok s'.
Proof.
  intros Hwf Hl Hc [He|n Hn ->]; [by apply (same_execs_inv s)|]. split; [|by apply root_chains].
  by apply new_logs.
Qed.

Lemma create_starts n s : root n -> starts s (create_playbook_execution clk al inc dec n s).2.
Proof. 
  intros Hn. unfold create_playbook_execution. destruct (negb (storable n)); [by apply starts_none|].
  destruct (pair_taken _ _ _); [by apply starts_none|]. destruct (negb _); [by apply starts_none|by apply (starts_row _ _ n)].
Qed.

Lemma create_once_starts n s : root n -> starts s (create_pending_playbook_execution_once clk al inc dec n s).2.
Proof.
  intros Hn. destruct (create_once_cases clk al inc dec n s) as [->|[->|(_ & -> & _)]];
    [by apply starts_none..|by apply (starts_row _ _ n)].
Qed.

Lemma retry_starts i s : starts s (create_retry_execution clk al inc dec i s).2.
Proof.
  unfold create_retry_execution, bind, gets, try_catch, raise.
  destruct (get_playbook_execution i s) as [[j r]|]; [|by apply starts_none].
  destruct (x_status r); try by apply starts_none.
  all: destruct (active_execution_exists_for_pair _ _ _ s); [by apply starts_none|].
  all: set (n := NewExecution _ _ _ _ _ _ _); pose proof (create_starts n s) as Hs;
    destruct (create_playbook_execution clk al inc dec n s) as [[a|e] s']; [by apply Hs|].
  all: destruct (is_integrity_error e); by apply Hs.
Qed.

Lemma definition_starts op s :
  match op with OpDefine _ _ _ _ _ _ | OpUpdateDefinition _ _ _ _ _ _ | OpEnable _ _ => True | _ => False end ->
  starts s (run_op clk al inc dec op s).
Proof.
  destruct op; try done; intros _; apply starts_none; cbn [run_op].
  - unfold create_playbook_definition. case_match; [|done]. unfold bind at 1.
    destruct (check_steps steps i s) as [o s'] eqn:E. apply check_steps_inv in E as [-> _].
    destruct o; [|done]. unfold get, bind. by repeat case_match.
  - unfold update_playbook_definition. case_match; [|done]. unfold bind at 1.
    destruct (check_steps steps i s) as [o s'] eqn:E. apply check_steps_inv in E as [-> _].
    destruct o; [|done]. unfold get, bind. by repeat case_match.
  - unfold set_playbook_definition_enabled, get, bind. by case_match.
Qed.

Lemma recovered_log_kept now reason r : log_kept r (recovered_row now reason r).
Proof. split; [apply recovered_row_kept|]. unfold recovered_row. case_match; by destruct r. Qed.

Lemma operator_updates op s :
  match op with
  | OpRecover _ _ _ | OpPermanentlyFail _ _ _ | OpAbandon _ | OpClaimUnleased _ _ | OpSetRunning _ _
  | OpStatus _ _ _ | OpLink _ _ _ | OpMetadata _ _ => True
  | _ => False
  end -> updates log_kept s (run_op clk al inc dec op s).
Proof.
  destruct op; try done; intros _; cbn [run_op].
  all: match goal with |- updates ?P ?st (?m ?st).2 =>
    cut (has_updates P m); [intros Hu; apply Hu|] end.
  all: unfold mark_stale_execution_for_recovery, mark_playbook_execution_permanently_failed, abandon_playbook_execution,
      claim_next_pending_playbook_execution, set_playbook_execution_running, update_execution_status,
      set_playbook_execution_canonical_linkage, update_playbook_execution_reliability_metadata; store_updates.
  all: try apply recovered_log_kept.
  all: try (split; [by destruct r|by destruct r]).
Qed.

Lemma operator_inv op s : exec_inv s -> operator_op op = true -> exec_inv (run_op clk al inc dec op s).
Proof.
  intros [Hwf Hl Hc] Hop.
  assert (logs_ok (run_op clk al inc dec op s) /\ chains_ok (run_op clk al inc dec op s)) as [? ?];
    [|split; [by apply run_op_wf|done..]].
  destruct op; try done.
  all: try (apply (updates_keep log_kept s); [done|by apply operator_updates|done..]).
  all: apply (starts_inv s); [done..|].
  all: try (by apply definition_starts).
  - apply create_starts. cbn in Hop. case_match; [done|]. split; [done|lia].
  - apply create_once_starts. cbn in Hop. case_match; [done|]. split; [done|lia].
  - apply retry_starts.
Qed.
End Operators.

Lemma system_steps_inv clk s s' : rtc (system_step clk) s s' -> exec_inv s -> exec_inv s'.
Proof.
  induction 1 as [|s1 s2 s3 [owner now Hs|al inc dec op Hop ->] _ IH]; [done| |]; intros Hinv; apply IH.
  - by eapply exec_step_inv.
  - by apply operator_inv.
Qed.

Lemma operator_run clk al inc dec ops s :
  forallb operator_op ops = true -> rtc (system_step clk) s (run_ops clk al inc dec ops s).
Proof.
  revert s. induction ops as [|op ops IH]; intros s; [by intros|]. cbn [forallb]. intros [Hop Hops]%andb_true_iff.
  eapply rtc_l; [by apply (sys_operator clk s _ al inc dec op)|]. by apply IH.
Qed.

(** What the invariant says of a chain. *)
Lemma chain_distinct s hops i r :
  exec_inv s -> pb_execs s !! i = Some r ->
  NoDup (x_playbook_id r :: map (fun a => x_playbook_id a.2) (ancestor_chain hops r s)).
Proof.
  intros Hinv. revert i r. induction hops as [|hops IH]; intros i r Hi; cbn [ancestor_chain].
  - case_match; repeat constructor; by apply not_elem_of_nil.
  - destruct (x_parent_execution_id r) as [p|] eqn:Hp; [|repeat constructor; by apply not_elem_of_nil].
    destruct (pb_execs s !! p) as [rp|] eqn:Hrp; [|repeat constructor; by apply not_elem_of_nil].
    constructor; [|by eapply IH]. cbn [map]. intros Hin.
    destruct (ei_chains _ Hinv _ _ Hi) as (_ & _ & Hanc).
    apply elem_of_cons in Hin as [Heq|(x & Heq & Hx)%list_elem_of_fmap].
    + apply (Hanc p rp); [by eapply ancestor_parent|done|done].
    + destruct x as [a ra]. destruct (ancestor_chain_sound _ _ _ _ _ _ Hrp Hx) as [Ha Hra].
      apply (Hanc a ra); [by eapply ancestor_up|done|done].
Qed.

Lemma chain_length s i r :
  exec_inv s -> pb_execs s !! i = Some r ->
  x_chain_depth r = Z.of_nat (length (ancestor_chain (Z.to_nat MAX_CHAIN_DEPTH) r s)) /\
  (length (ancestor_chain (Z.to_nat MAX_CHAIN_DEPTH) r s) <= 3)%nat.
Proof.
  intros Hinv Hi. assert (forall hops i r, pb_execs s !! i = Some r -> x_chain_depth r <= Z.of_nat hops ->
    x_chain_depth r = Z.of_nat (length (ancestor_chain hops r s))) as Hlen.
  { clear i r Hi. intros hops. induction hops as [|hops IH]; intros i r Hi Hd;
      destruct (ei_chains _ Hinv _ _ Hi) as ([[Hr _] Hroot] & Hp & _); cbn [ancestor_chain].
    - case_match; cbn; lia.
    - destruct (x_parent_execution_id r) as [p|] eqn:Hpar; [|by apply Hroot].
      destruct (Hp _ eq_refl) as (rp & Hrp & Hdp). rewrite Hrp. cbn [length]. rewrite Nat2Z.inj_succ, <- (IH p rp Hrp); lia. }
  destruct (ei_chains _ Hinv _ _ Hi) as ([[_ Hd] _] & _). pose proof (Hlen (Z.to_nat MAX_CHAIN_DEPTH) i r Hi Hd) as Heq.
  split; [done|]. unfold MAX_CHAIN_DEPTH in *. lia.
Qed.

(** * A concrete database and concrete services

    The services record their calls in a list of texts and succeed; the
    witnesses of the executor's theorems run the model on them. *)

Definition call_log : Type := list string.

#[export, refine] Instance call_log_tx : Transactional call_log := { restore snap _ := snap }.
Proof. all: done. Defined.

Definition log_call {S} (get : S -> call_log) (set : call_log -> S -> S) (what : string) : M S unit :=
  fun s => (Ok tt, set (get s ++ [what]) s).

Definition ex_command_result : step_command_result :=
  StepCommandResult true "recorded" None None false "tracking" (Some 1) (Some 1) None None None.

Definition ex_adapter_result : pydict :=
  [("success", PBool true); ("mode", PStr "simulation"); ("simulated", PBool true); ("executed", PBool false);
   ("message", PStr "sent"); ("metadata", PDict [])].

#[export] Instance ex_services : StepServices call_log := {
  execute_response_command _ c s := (Ok ex_command_result, (s.1.1 ++ [sc_action c], s.1.2, s.2));
  send_playbook_notification _ _ _ _ _ s := (Ok [("success", PBool true); ("attempt", PNone)], (s.1.1 ++ ["slack"], s.1.2, s.2));
  execute_playbook_simulated_adapter adapter _ _ _ s := (Ok ex_adapter_result, s ++ [adapter]);
  circuit_breaker_dict _ _ _ := PDict [("state", PStr "closed")];
  build_playbook_enrichment_context _ _ _ := Ok (PDict []);
  validate_blocked_ip s := Ok s;
}.

Definition ex_time : Z := seconds 1000.

Definition ex_env : exec_env :=
  ExecEnv (Clock ex_time ex_time) (fun s => Some s) (fun _ => "0123abcd") (fun s => s) (fun _ => true) (fun _ => true)
    (fun _ _ => true) "worker-1" None (Some "10.0.0.0/8").

(** A playbook definition with the given steps, and a pending execution of
    it for alert 12. *)
Definition ex_steps_ops (steps : list pyval) : list pb_op :=
  [OpDefine "pb-1" "contain" (PList steps) None true None;
   OpCreateOnce (NewExecution "pb-1" (Some 12) None None None None 0)].

Definition ex_pb (steps : list pyval) : pb_store :=
  run_ops ex_pb_clock ex_exists ex_exists ex_exists (ex_steps_ops steps) empty_pb_store.

Definition ex_db (steps : list pyval) : exec_db call_log :=
  ExecDb (SoarDb (ex_pb steps) empty_letters) empty_approvals empty_outcomes (DeliveryStore ∅ 1) ex_alerts [].

Definition ex_action (action : string) : pyval := PDict [("action", PStr action)].

Lemma ex_pb_inv steps : exec_inv (ex_pb steps).
Proof.
  apply (system_steps_inv ex_pb_clock empty_pb_store).
  - by apply operator_run.
  - split; [apply empty_store_wf| |]; intros i r Hi; cbn in Hi; by rewrite lookup_empty in Hi.
Qed.

(** The execution of [ex_gated] has stopped at its gate. *)
Definition ex_gated : list pyval := [ex_action "monitor"; ex_action "require_approval"; ex_action "notify_teams"].
Definition ex_waiting : exec_db call_log :=
  cn_current (process_playbook_execution ex_env ex_time 1 None None (open_conn (ex_db ex_gated))).2.
Definition ex_row_of (d : exec_db call_log) : exec_row :=
  default (new_row ex_pb_clock ex_pb_new) (pb_execs (xd_pb d) !! 1).
