(* ===== verification/StepExecutorProofs.v ===== *)
(** * StepExecutorProofs: the executor against its store protocol

    Every call of [StepExecutor] changes the execution store by a sequence of
    [exec_step]s, whatever the services answer and whichever statements fail:
    it refines the protocol of [ExecutorProtocol]. *)

From S2P Require Import Prelude PyText PyFloat PyValue Tables Interfaces Hoare Approvals Outcomes.
From S2P Require Import Deliveries ActionVocabulary Alerts ParamBinding BranchConditions PlaybookRegistry.
From S2P Require Import PlaybookStore DeadLetters StepLog StepEvents StepActions StepExecutor ExecutorProtocol.

Open Scope Z_scope.

(** ** The dead letters *)

Definition same_pb (d d' : soar_db) : Prop := sd_pb d' = sd_pb d.

#[export] Instance same_pb_preorder : PreOrder same_pb.
Proof. split; [done|]. unfold same_pb. intros d1 d2 d3 -> ->. done. Qed.

Lemma capture_same_pb clk refs now i x log last :
  triple (fun _ => True) (cn_rel same_pb)
    (capture_failed_execution_dead_letter clk refs i x log last now) anything.
Proof.
  unfold capture_failed_execution_dead_letter. case_match; [|by apply triple_ret].
  apply (keeps_try (fun _ => True)); [done| |intros; by apply keeps_ret].
  apply keeps_seq; [apply keeps_of_outcome|]. intros b. apply keeps_seq; [|intros; by apply keeps_ret].
  apply (triple_execute same_pb (fun _ => True) _ (fun _ _ => True)); [apply _|]. intros d _. split; [|done].
  unfold same_pb, store_dead_letter, on_dl, zoom. by destruct (create_dead_letter _ _ _ _).
Qed.

Section Refinement.
Context {W : Type} `{StepServices W}.
Context (env : exec_env) (owner : string) (now : Z).
Let clk := en_clock env.

(** Nothing is committed, and the store takes steps of the protocol. *)
Definition store_moves (d d' : exec_db W) : Prop := rtc (exec_step clk owner now) (xd_pb d) (xd_pb d').
Definition moves : conn (exec_db W) -> conn (exec_db W) -> Prop := cn_rel store_moves.

#[export] Instance store_moves_preorder : PreOrder store_moves.
Proof. unfold store_moves. split; [intros d; reflexivity|intros d1 d2 d3 H12 H23; by etrans]. Qed.
#[export] Instance moves_preorder : PreOrder moves.
Proof. unfold moves. apply _. Qed.

(** The store satisfies [P]. *)
Definition pbs (P : pb_store -> Prop) : conn (exec_db W) -> Prop := on_current (fun d => P (xd_pb d)).

(** The invariant, with the columns of the execution at hand. *)
Definition at_work (x : Z * exec_row) (s : pb_store) : Prop := exec_inv s /\ known x s.

(** What no step of the protocol can break. *)
Definition lasting (P : pb_store -> Prop) : Prop := stable (rtc (exec_step clk owner now)) P.

Lemma lasting_stable P : lasting P -> stable moves (pbs P).
Proof. intros HP c c' [_ Hr] Hc. by eapply HP. Qed.

Lemma lasting_inv : lasting exec_inv.
Proof. intros s s'. apply exec_steps_inv. Qed.

Lemma lasting_at_work x : lasting (at_work x).
Proof. intros s s' Hs [Hi Hk]. split; [by eapply exec_steps_inv|by eapply exec_steps_known]. Qed.

Abbreviation runs P m Q := (triple (pbs P) moves m Q).
Abbreviation preserves P m := (keeps (R := moves) (pbs P) m).

(** ** Statements *)

(** A statement that leaves the store alone keeps every assertion on it. *)
Definition pb_frame {A} (m : M (exec_db W) A) : Prop := forall d, xd_soar (m d).2 = xd_soar d.

Lemma frame_triple {A} P (m : M (exec_db W) A) :
  pb_frame m -> triple (fun d => P (xd_pb d)) store_moves m (fun _ d => P (xd_pb d)).
Proof.
  intros Hm d Hd. unfold store_moves, xd_pb in *. split; [|intros a _]; rewrite Hm; [reflexivity|done].
Qed.

Lemma execute_frame {A} P (m : M (exec_db W) A) : pb_frame m -> preserves P (execute m).
Proof. intros Hm. apply triple_execute; [apply _|]. by apply frame_triple. Qed.

Lemma savepoint_keeps {A} P (m : M (exec_db W) A) : pb_frame m -> preserves P (savepoint_conn m).
Proof.
  intros Hm c Hc. unfold savepoint_conn. destruct (cn_aborted c); [split; [reflexivity|by intros]|].
  specialize (Hm (cn_current c)). destruct (m (cn_current c)) as [[a|e] d]; cbn [fst snd] in *.
  - split; [|by intros; unfold pbs, on_current, xd_pb; cbn; rewrite Hm].
    split; [done|]. unfold store_moves, xd_pb. cbn. by rewrite Hm.
  - assert (xd_pb (restore (cn_current c) d) = xd_pb (cn_current c)) as He.
    { unfold xd_pb, restore. cbn. rewrite Hm. by destruct (sd_pb (xd_soar (cn_current c))). }
    split; [|by intros; unfold pbs, on_current; cbn [cn_current]; rewrite He].
    split; [done|]. unfold store_moves. cbn [cn_current]. by rewrite He.
Qed.

Lemma reads_frame {A} P (f : exec_db W -> A) : preserves P (stmt_reads f).
Proof. by apply execute_frame. Qed.
Lemma gets_pb_frame {A} P (f : pb_store -> A) : preserves P (stmt_pb (W := W) (gets f)).
Proof. apply execute_frame. by intros [[] ]. Qed.
Lemma approvals_frame {A} P (m : M approval_store A) : preserves P (stmt_approvals m).
Proof. apply execute_frame. intros d. unfold in_approvals, zoom. by destruct (m _) as [? ?]. Qed.
Lemma outcomes_frame {A} (m : M outcome_store A) : pb_frame (in_outcomes m : M (exec_db W) A).
Proof. intros d. unfold in_outcomes, zoom. by destruct (m _) as [? ?]. Qed.

(** What [m] returns is a reading of the store that satisfies [Q]. *)
Lemma triple_reads {A} (P : pb_store -> Prop) (f : exec_db W -> A) (Q : A -> pb_store -> Prop) :
  (forall d, P (xd_pb d) -> Q (f d) (xd_pb d)) -> runs P (stmt_reads f) (fun a => pbs (Q a)).
Proof. intros HQ. apply triple_execute; [apply _|]. by apply triple_gets. Qed.

Lemma reads_yield {A} (P : pb_store -> Prop) (f : exec_db W -> A) (F : A -> Prop) :
  (forall d, F (f d)) -> yields (R := moves) (pbs P) (stmt_reads f) F.
Proof. intros HF. apply (triple_reads P f (fun a s => P s /\ F a)). intros d Hd. by split. Qed.

(** A statement on the store that is one of the allowed operations. *)
Lemma triple_stmt_pb {A} (P : pb_store -> Prop) (m : M pb_store A) (Q : A -> pb_store -> Prop) :
  (forall s, P s -> rtc (exec_step clk owner now) s (m s).2 /\ forall a, (m s).1 = Ok a -> Q a (m s).2) ->
  runs P (stmt_pb m) (fun a => pbs (Q a)).
Proof.
  intros Hm. apply triple_execute; [apply _|]. intros d Hd. destruct (Hm _ Hd) as [Hs HQ].
  unfold store_moves, xd_pb, in_pb, in_soar, on_pb, zoom. unfold xd_pb in *.
  destruct (m (sd_pb (xd_soar d))) as [o s]. cbn in *. by split.
Qed.

Lemma steps_op {A} (m : M pb_store A) op s :
  allowed owner now s op -> (forall al inc dec, run_op clk al inc dec op s = (m s).2) ->
  rtc (exec_step clk owner now) s (m s).2.
Proof.
  intros Hal Hrun. apply rtc_once. exists (fun _ => true), (fun _ => true), (fun _ => true), op. by rewrite Hrun.
Qed.

Lemma keeps_op {A} P (m : M pb_store A) op :
  lasting P -> (forall s, P s -> allowed owner now s op) ->
  (forall al inc dec s, run_op clk al inc dec op s = (m s).2) -> preserves P (stmt_pb m).
Proof.
  intros HP Hal Hrun. apply keeps_triple; [by apply lasting_stable|].
  eapply triple_weaken; [eapply (triple_stmt_pb P _ (fun _ _ => True))|done|done].
  intros s Hs. split; [|done]. eapply steps_op; eauto.
Qed.
(** ** The outcome log and the dead letters *)

Lemma append_keeps P x e : preserves P (append_playbook_execution_outcome_event env x e).
Proof.
  unfold append_playbook_execution_outcome_event. repeat case_match; try apply keeps_ret.
  apply savepoint_keeps. intros d. apply outcomes_frame.
Qed.

Lemma append_step_keeps P x entry : preserves P (append_non_adapter_playbook_step_outcome_event env x entry).
Proof.
  unfold append_non_adapter_playbook_step_outcome_event. case_match; [apply keeps_ret|].
  apply keeps_seq; [apply keeps_of_outcome|intros []]; [apply keeps_ret|].
  repeat case_match; try apply keeps_ret. apply append_keeps.
Qed.

Lemma append_delivery_keeps P x attempt : preserves P (append_notification_delivery_outcome_event env x attempt).
Proof. apply keeps_seq; [apply keeps_of_outcome|]. intros mapped. apply append_keeps. Qed.

Lemma append_decision_keeps P x r ty st su :
  preserves P (append_playbook_approval_decision_outcome_event env x r ty st su).
Proof. apply keeps_seq; [apply reads_frame|]. intros event_id. apply append_keeps. Qed.

Lemma capture_keeps P i x log last :
  preserves P (conn_soar (W := W) (capture_failed_execution_dead_letter clk (en_letter_refs env) i x log last now)).
Proof.
  intros c Hc. unfold conn_soar, zoom_conn.
  pose proof (capture_same_pb clk (en_letter_refs env) now i x log last
    (Conn (xd_soar (cn_committed c)) (xd_soar (cn_current c)) (cn_aborted c)) I) as [[_ Hsame] _].
  destruct (capture_failed_execution_dead_letter _ _ _ _ _ _ _ _) as [o t].
  unfold same_pb, pbs, on_current, xd_pb in *. cbn [fst snd cn_current] in *.
  split; [split; [done|]|intros _ _]; unfold store_moves, xd_pb; cbn; rewrite Hsame; [reflexivity|done].
Qed.

(** ** Finalising *)

Section Writes.
Context (P : pb_store -> Prop) (HP : lasting P).
Context (log : list pyval) (Hlog : log_once log).

Lemma release_keeps i : preserves P (release (W := W) i owner).
Proof using HP.
  apply keeps_seq; [|intros _; apply keeps_ret].
  apply (keeps_op _ _ (OpRelease i (Some owner))); [done|intros; constructor|done].
Qed.

Lemma finish_keeps st i last :
  st = XSuccess \/ st = XFailed \/ st = XNotActioned -> preserves P (finish env now st i (Some owner) log last).
Proof using HP Hlog.
  intros [-> |[-> | ->]].
  - apply (keeps_op _ _ (OpSuccess i log last (Some now) (Some owner))); [done|by constructor|done].
  - apply (keeps_op _ _ (OpFailed i log last (Some now) (Some owner))); [done|constructor; auto|done].
  - apply (keeps_op _ _ (OpNotActioned i log last (Some now) (Some owner))); [done|constructor; auto|done].
Qed.

Lemma finish_unleased st i last :
  st = XFailed \/ st = XNotActioned ->
  triple (pbs (fun s => P s /\ unleased_awaiting s i)) moves (finish env now st i None log last) (fun _ => pbs P).
Proof using HP Hlog.
  intros Hst. eapply triple_weaken; [eapply (triple_stmt_pb (fun s => P s /\ unleased_awaiting s i) _ (fun _ => P))|done|done].
  intros s [Hs Hu].
  assert (rtc (exec_step clk owner now) s (finish_execution clk st i log last (Some now) None s).2) as Hstep.
  { destruct Hst as [->| ->].
    - eapply (steps_op _ (OpFailed i log last (Some now) None)); [constructor; auto|done].
    - eapply (steps_op _ (OpNotActioned i log last (Some now) None)); [constructor; auto|done]. }
  split; [done|]. intros _ _. by eapply HP.
Qed.
Lemma finish_awaiting_too_keeps st i last :
  st = XFailed \/ st = XNotActioned -> preserves P (finish_awaiting_too env now st i owner log last).
Proof using HP Hlog.
  intros Hst. apply keeps_seq; [apply finish_keeps; tauto|]. intros [u|]; [apply keeps_ret|].
  eapply triple_bind.
  - apply (triple_reads P (fun d => get_playbook_execution i (xd_pb d))
             (fun o s => P s /\ o = get_playbook_execution i s)). done.
  - intros [[j r]|]; [|by apply triple_ret; intros s [Hs _]].
    destruct (has_exec_status XAwaitingApproval r && no_owner r) eqn:Hst'; [|by apply triple_ret; intros s [Hs _]].
    eapply triple_weaken; [by apply finish_unleased|cbn|done].
    intros c [Hc Hr]. split; [done|]. apply andb_true_iff in Hst' as [Hst'%bool_decide_eq_true _].
    unfold get_playbook_execution in Hr. destruct (pb_execs _ !! i) as [r'|] eqn:Hi; [|done].
    injection Hr as -> ->. by exists r'.
Qed.

Lemma finalize_success_keeps i last : preserves P (finalize_success env now i owner log last).
Proof using HP Hlog.
  apply keeps_seq; [apply finish_keeps; tauto|]. intros [u|]; [|apply keeps_ret].
  apply keeps_seq; [apply append_keeps|intros _]. apply keeps_seq; [apply release_keeps|intros _]. apply keeps_ret.
Qed.

Lemma finalize_failed_keeps i last : preserves P (finalize_failed env now i owner log last).
Proof using HP Hlog.
  apply keeps_seq; [apply finish_awaiting_too_keeps; tauto|]. intros [u|]; [|apply keeps_ret].
  apply keeps_seq; [apply append_keeps|intros _]. apply keeps_seq; [apply capture_keeps|intros _].
  apply keeps_seq; [apply release_keeps|intros _]. apply keeps_ret.
Qed.

Lemma finalize_not_actioned_keeps i last : preserves P (finalize_not_actioned env now i owner log last).
Proof using HP Hlog.
  apply keeps_seq; [apply finish_awaiting_too_keeps; tauto|]. intros [u|]; [|apply keeps_ret].
  apply keeps_seq; [apply append_keeps|intros _]. apply keeps_seq; [apply release_keeps|intros _]. apply keeps_ret.
Qed.
End Writes.

(** ** Creating a child execution *)

Definition pending_at (i : Z) (s : pb_store) : Prop := exists r, pb_execs s !! i = Some r /\ x_status r = XPending.

Lemma link_never_bumps i d c s : pb_seq (set_playbook_execution_canonical_linkage i d c s).2 = pb_seq s.
Proof. unfold set_playbook_execution_canonical_linkage, update_exec. by repeat case_match. Qed.

Lemma restored_pb (d d' : exec_db W) : pb_seq (xd_pb d') = pb_seq (xd_pb d) -> xd_pb (restore d d') = xd_pb d.
Proof. intros Hseq. unfold xd_pb in *. cbn. rewrite Hseq. by destruct (sd_pb (xd_soar d)). Qed.

(** What a savepoint keeps when it is rolled back. *)
Lemma rolled_back {A} P c d :
  pbs P c -> pb_seq (xd_pb d) = pb_seq (xd_pb (cn_current c)) ->
  let c' := Conn (cn_committed c) (restore (cn_current c) d) false in
  moves c c' /\ forall a' : option A, Ok None = Ok a' -> pbs P c'.
Proof.
  intros Hc Hseq. pose proof (restored_pb _ _ Hseq) as He. split; [split; [done|]|intros _ _].
  - unfold store_moves. cbn [cn_current]. by rewrite He.
  - unfold pbs, on_current. cbn [cn_current]. by rewrite He.
Qed.

Lemma decision_keeps P i n :
  lasting P ->
  triple (pbs (fun s => P s /\ pending_at i s)) moves (create_and_link_playbook_execution_decision (W := W) env i n)
    (fun _ => pbs P).
Proof.
  intros HP. eapply triple_bind; [apply reads_frame|]. intros ip.
  apply triple_bind with (Q1 := fun _ => pbs P); [|intros [dr|]; [|apply keeps_ret];
    apply keeps_seq; [apply savepoint_keeps, outcomes_frame|intros; apply keeps_ret]].
  intros c [Hc (r & Hr & Hp)]. unfold savepoint_conn.
  destruct (cn_aborted c); [split; [reflexivity|by intros]|].
  unfold bind. pose proof (outcomes_frame (create_response_decision (en_inet env) (en_clock env) (en_uuid_hex env i)
    (execution_decision_params i n ip)) (cn_current c)) as Hf.
  destruct (in_outcomes _ (cn_current c)) as [[dr|e] d]; cbn [fst snd] in Hf.
  - pose proof (link_never_bumps i dr.1 (d_correlation_id dr.2) (xd_pb (cn_current c))) as Hseq.
    assert (rtc (exec_step clk owner now) (xd_pb (cn_current c))
      (set_playbook_execution_canonical_linkage i dr.1 (d_correlation_id dr.2) (xd_pb (cn_current c))).2) as Hstep.
    { eapply (steps_op _ (OpLink i dr.1 (d_correlation_id dr.2))); [by econstructor|done]. }
    unfold in_pb, in_soar, on_pb, zoom. rewrite Hf. unfold xd_pb in *.
    destruct (set_playbook_execution_canonical_linkage _ _ _ _) as [[a|e] s']; cbn [fst snd] in *.
    + split; [by split|]. intros _ _. by eapply HP.
    + by apply rolled_back.
  - apply rolled_back; [done|]. unfold xd_pb. by rewrite Hf.
Qed.

Lemma kept_sym r r' : kept r r' -> kept r' r.
Proof. unfold kept. intuition congruence. Qed.

(** A trigger step that is not refused may create its child. *)
Lemma trigger_child_ok x target alert s :
  known x s -> trigger_refused x target s = inl alert -> child_ok s (child_execution x target alert).
Proof.
  intros (r & Hr & Hk). unfold trigger_refused, target_in_execution_ancestry, get_playbook_execution_ancestor_chain.
  rewrite Hr. destruct (get_playbook_definition target s) as [[? d]|]; [|done]. destruct (negb (pd_enabled d)); [done|].
  destruct (MAX_CHAIN_DEPTH <=? x_chain_depth x.2) eqn:Hd; [done|].
  destruct (_ || _) eqn:Hanc; [done|]. destruct (x_alert_id x.2) as [a|]; [|done]. intros [= ->].
  apply orb_false_iff in Hanc as [Hpb%String.eqb_neq Hanc]. destruct Hk as (Hk & _ & _ & _ & _ & Hkd).
  exists x.1, r. cbn. split_and!; [done|done|lia|lia|congruence|].
  apply Forall_forall. intros [j rj] Hin Heq. cbn in Heq. apply not_true_iff_false in Hanc. apply Hanc.
  apply existsb_exists. exists (j, rj). split; [by apply list_elem_of_In|]. by apply String.eqb_eq.
Qed.

Definition entry_at (index : Z) (e : pydict) : Prop := dget e "step_index" = PInt index.

Lemma create_once_pending al inc dec n s i :
  (create_pending_playbook_execution_once clk al inc dec n s).1 = Ok (Some i) ->
  pending_at i (create_pending_playbook_execution_once clk al inc dec n s).2.
Proof.
  unfold create_pending_playbook_execution_once. repeat case_match; cbn; try done.
  intros [= <-]. exists (new_row clk n). cbn [pb_execs]. split; [apply lookup_insert_eq|done].
Qed.

Lemma create_child_triple x n :
  triple (pbs (fun s => at_work x s /\ child_ok s n)) moves (execute (create_child (W := W) env n))
    (fun o => pbs (fun s => at_work x s /\ forall i, o = Some i -> pending_at i s)).
Proof.
  apply (triple_execute store_moves (fun d => at_work x (xd_pb d) /\ child_ok (xd_pb d) n) _
           (fun o d => at_work x (xd_pb d) /\ forall i, o = Some i -> pending_at i (xd_pb d))); [apply _|].
  intros d [Hw Hc]. unfold create_child. unfold in_pb, in_soar, on_pb, zoom, store_moves, xd_pb in *.
  set (m := create_pending_playbook_execution_once _ _ _ _ n).
  assert (rtc (exec_step clk owner now) (sd_pb (xd_soar d)) (m (sd_pb (xd_soar d))).2) as Hstep.
  { apply rtc_once. exists (alert_exists d), (en_incident_exists env), (decision_exists d), (OpCreateOnce n).
    by split; [constructor|]. }
  assert (forall i, (m (sd_pb (xd_soar d))).1 = Ok (Some i) -> pending_at i (m (sd_pb (xd_soar d))).2) as Hpending
    by (intros i; apply create_once_pending).
  destruct (m (sd_pb (xd_soar d))) as [o s'] eqn:Hm. cbn [fst snd xd_soar sd_pb] in *.
  split; [done|]. intros a ->. split; [by eapply lasting_at_work|]. intros i ->. by apply Hpending.
Qed.

Lemma trigger_yields x step index :
  yields (R := moves) (pbs (at_work x)) (execute_trigger_playbook_step env now step index x) (entry_at index).
Proof.
  unfold execute_trigger_playbook_step. destruct (trigger_target step) as [target|[message code]]; [|by apply yields_ret].
  eapply triple_bind.
  { apply (triple_reads _ (fun d => trigger_refused x target (xd_pb d))
             (fun o s => at_work x s /\ o = trigger_refused x target s)). done. }
  intros [alert|[message code]]; [|apply triple_ret; by intros s [Hs _]].
  eapply triple_bind.
  { eapply triple_weaken; [apply create_child_triple with (n := child_execution x target alert)| |done].
    intros c [Hw Ha]. split; [done|]. apply trigger_child_ok; [by apply Hw|done]. }
  intros [i|].
  - eapply triple_bind.
    { eapply triple_weaken; [apply (decision_keeps (at_work x)), lasting_at_work| |done].
      intros c [Hw Hp]. split; [done|]. by apply Hp. }
    intros linked. by apply triple_ret.
  - eapply triple_bind; [eapply triple_weaken; [apply (gets_pb_frame (at_work x))| |done]|].
    + by intros c [Hw _].
    + intros active. by apply triple_ret.
Qed.
(** ** The other steps leave the store alone *)

Section Actions.
Context (P : pb_store -> Prop) (HP : lasting P).
Abbreviation gives m index := (yields (R := moves) (pbs P) m (entry_at index)).

Lemma entry_at_set index e k v : entry_at index e -> k <> "step_index" -> entry_at index (dset e k v).
Proof. unfold entry_at. intros He Hk. by rewrite dget_dset_ne. Qed.

Lemma entry_at_label index step e : entry_at index e -> entry_at index (with_label step e).
Proof. unfold with_label. intros He. case_match; [|done]. by apply entry_at_set. Qed.

Lemma enrich_gives step index x : gives (execute_enrich_context_step (W := W) now step index x) index.
Proof using HP.
  unfold execute_enrich_context_step. case_match; [|by apply yields_ret].
  apply yields_try; [by apply lasting_stable| |intros e; by apply yields_ret].
  apply yields_after; [by apply execute_frame|]. intros context. by apply yields_ret, entry_at_label.
Qed.

Lemma with_params_gives step index action x k :
  (forall params, gives (k params) index) -> gives (with_params (W := W) now step index action x k) index.
Proof.
  intros Hk. apply yields_after; [apply reads_frame|]. intros [params|[]]; try apply yields_raise; [done|].
  by apply yields_ret.
Qed.

Lemma run_command_keeps c : preserves P (run_command (W := W) env c).
Proof. apply execute_frame. intros d. by destruct (execute_response_command _ _ _) as [? [[] ?]]. Qed.

Lemma response_gives step index x action : gives (execute_canonical_response_step (W := W) env now step index x action) index.
Proof.
  apply with_params_gives. intros params. apply yields_after; [apply run_command_keeps|]. intros r.
  case_match; [by apply yields_ret|by apply yields_ret, entry_at_label].
Qed.

Lemma tracking_keeps x index params : preserves P (record_playbook_block_tracking (W := W) env x index params).
Proof.
  unfold record_playbook_block_tracking. repeat case_match; try apply keeps_ret; try apply keeps_raise.
  apply keeps_seq; [apply run_command_keeps|intros; apply keeps_ret].
Qed.

Lemma with_tracking_at index entry tracking : entry_at index entry -> entry_at index (with_tracking entry tracking).
Proof. intros He. unfold with_tracking. case_match; by repeat apply entry_at_set. Qed.

Lemma adapter_gives step index x action adapter adapter_action params :
  gives (call_adapter (W := W) env now step index x action adapter adapter_action params) index.
Proof.
  intros c Hc. unfold call_adapter.
  assert (preserves P (execute (in_world (execute_playbook_simulated_adapter adapter adapter_action params
    (adapter_context x index))))) as Hcall.
  { apply execute_frame. intros d. unfold in_world, zoom. by destruct (execute_playbook_simulated_adapter _ _ _ _ _). }
  destruct (Hcall c Hc) as [Hm Hp]. destruct (execute _ c) as [[result|e] c']; cbn [fst snd] in *.
  - specialize (Hp _ eq_refl).
    assert (entry_at index (adapter_entry now step index action params result (breaker now adapter c'))) as He
      by by apply entry_at_label.
    case_match; [|split; [done|]; by intros e [= <-]].
    assert (gives (let* tracking := record_playbook_block_tracking env x index params in
      ret (with_tracking (adapter_entry now step index action params result (breaker now adapter c')) tracking)) index)
      as Htrack by (apply yields_after; [apply tracking_keeps|]; intros; by apply yields_ret, with_tracking_at).
    destruct (Htrack c' Hp) as [Hm' Hq]. split; [by etrans|done].
  - split; [done|]. intros a [= <-]. split; [by eapply lasting_stable|done].
Qed.

Lemma guarded_gives step index x action adapter adapter_action :
  gives (guarded_adapter (W := W) env now step index x action adapter adapter_action) index.
Proof using HP.
  apply with_params_gives. intros params. cbn zeta.
  case_match; last (match goal with e : exn |- _ => destruct e end); try apply yields_raise; [apply adapter_gives|by apply yields_ret].
Qed.

Lemma simulate_adapter_gives step index x action adapter adapter_action :
  gives (simulate_adapter_step (W := W) env now step index x action adapter adapter_action) index.
Proof using HP.
  unfold simulate_adapter_step. case_match; [|apply guarded_gives].
  apply yields_after; [apply reads_frame|]. intros rows. apply yields_after; [apply keeps_of_outcome|].
  intros [row|]; [by apply yields_ret, entry_at_label|apply guarded_gives].
Qed.

Lemma slack_entry_at step index params result circuit e :
  slack_entry now step index params result circuit = Ok e -> entry_at index e.
Proof.
  unfold slack_entry. destruct (attempt_of result) as [attempt|]; [|done]. cbn [obind].
  destruct (attempt_metadata attempt) as [metadata|]; [|done]. cbn [obind].
  destruct (is_true (dget result "suppressed")); [|intros [= <-]; by apply entry_at_label].
  destruct (suppressed_output _ _ _ _); [|done]. intros [= <-]. by apply entry_at_label.
Qed.

Lemma notify_slack_gives step index x params : gives (notify_slack (W := W) env now step index x params) index.
Proof.
  apply yields_after.
  { apply execute_frame. intros d. by destruct (send_playbook_notification _ _ _ _ _ _) as [? [[] ?]]. }
  intros result. apply yields_after; [apply keeps_of_outcome|]. intros attempt. apply yields_after.
  { repeat case_match; try apply keeps_ret. apply append_delivery_keeps. }
  intros sent c Hc. split; [reflexivity|]. intros e He. split; [done|]. by eapply slack_entry_at.
Qed.

Lemma simulate_step_gives step index x : gives (simulate_step (W := W) env now step index x) index.
Proof using HP.
  unfold simulate_step. case_match; [|by apply yields_ret]. case_match; [|by apply yields_ret].
  case_match.
  { apply yields_after; [apply reads_frame|]. intros rows. apply yields_after; [apply keeps_of_outcome|].
    intros [row|]; [by apply yields_ret, entry_at_label|]. apply with_params_gives. intros params.
    apply notify_slack_gives. }
  case_match; [case_match; apply simulate_adapter_gives|].
  case_match; [by apply yields_ret|]. case_match; [apply response_gives|]. by apply yields_ret, entry_at_label.
Qed.
End Actions.
(** ** One step of the loop *)

Section Loop.
Context (x : Z * exec_row) (steps : list pyval) (prior : string) (duration : Z).
Abbreviation works m F := (yields (R := moves) (pbs (at_work x)) m F).

Definition next_ok (n : step_next) : Prop :=
  match n with Continue _ p | Break p => log_once (pr_log p) | Return _ => True end.

Lemma after_failure_ok step index entry p : log_once (pr_log p) -> next_ok (after_failure step index entry p).
Proof. unfold after_failure. by case_match. Qed.

Lemma log_keeps P i log last :
  lasting P -> log_once log ->
  preserves P (stmt_pb (W := W) (update_playbook_execution_step_log i log last (Some owner))).
Proof. intros HP Hlog. apply (keeps_op _ _ (OpLog i log last (Some owner))); [done|by constructor|done]. Qed.

Lemma save_yields index p :
  log_once (pr_log p) ->
  works (save_progress (W := W) x owner index p) (fun o => forall p', o = Some p' -> pr_log p' = pr_log p).
Proof.
  intros Hlog. apply yields_after; [by apply log_keeps; [apply lasting_at_work|]|]. intros updated.
  apply yields_ret. intros p'. case_match; [|done]. by intros [= <-].
Qed.

(** The entries a control step adds: its own, and skipped ones. *)
Lemma control_step_ok what step index p entry skipped next_index :
  log_once (pr_log p) -> step_already_succeeded_in_log (pr_log p) index = false ->
  entry_at index entry -> Forall quiet_entry skipped ->
  works (finish_control_step (W := W) env x prior owner what step index p entry skipped next_index) next_ok.
Proof.
  intros Hlog Hnew He Hq. unfold finish_control_step.
  assert (log_once (pr_log (log_entries p (PDict entry :: skipped)))) as Hlog'.
  { cbn. rewrite cons_middle, app_assoc. apply log_once_quiet; [by eapply log_once_entry|done]. }
  apply yields_after; [apply append_step_keeps|]. intros _. case_match; [|by apply yields_ret, after_failure_ok].
  eapply yields_bind; [by apply save_yields|]. intros [p'|] Hp'; apply yields_ret; [|done].
  cbn. by rewrite (Hp' _ eq_refl).
Qed.

Lemma gate_step_ok step index p :
  log_once (pr_log p) -> works (run_gate_step (W := W) env now x prior owner step index p) next_ok.
Proof.
  intros Hlog. apply yields_after; [apply keeps_of_outcome|]. intros [[reason risk] ttl].
  apply yields_after; [apply approvals_frame|]. intros request.
  set (entry := approval_requested_entry now index (gate_of request) step).
  assert (log_once (pr_log (log_entries p [PDict entry]))) as Hlog'.
  { apply log_once_quiet; [done|]. apply list.Forall_cons. split; [|done]. by eapply quiet_failed. }
  apply yields_after.
  { apply (keeps_op _ _ (OpAwait x.1 (pr_log (log_entries p [PDict entry])) (pr_last p) (Some owner)));
      [apply lasting_at_work|by constructor|done]. }
  intros [u|]; [|by apply yields_ret].
  apply yields_after; [apply append_keeps|]. intros _.
  apply yields_after; [apply release_keeps, lasting_at_work|]. intros _. by apply yields_ret.
Qed.

Lemma skipped_quiet a b : Forall quiet_entry (skipped_branch_step_entries now steps a b).
Proof.
  apply Forall_forall. intros e (k & -> & _)%list_elem_of_fmap. by eapply quiet_failed.
Qed.

Definition branch_ok (index : Z) (o : outcome (pydict * list pyval * Z)) : Prop :=
  match o with Ok (entry, skipped, _) => entry_at index entry /\ Forall quiet_entry skipped | Raise _ => True end.

Lemma branch_entries step index log alerts : branch_ok index (execute_branch_step now step index steps log x alerts).
Proof.
  unfold execute_branch_step. destruct (as_dict _) as [condition|]; [|by split].
  destruct (evaluate_branch_condition _ _ _ _) as [result|[]]; try done.
  destruct (branch_target _ _ _ _) as [[label target]|[message code]]; [|by split].
  split; [done|apply skipped_quiet].
Qed.

Lemma branch_step_ok step index p :
  log_once (pr_log p) -> step_already_succeeded_in_log (pr_log p) index = false ->
  works (run_branch_step (W := W) env now x steps prior owner step index p) next_ok.
Proof.
  intros Hlog Hnew. apply yields_bind with (G := branch_ok index); [apply reads_yield; intros d; apply branch_entries|].
  intros [[[entry skipped] next]|e] Hr; [|intros c Hc; by split; [reflexivity|]].
  destruct Hr as [He Hq]. by apply control_step_ok.
Qed.

Lemma record_keeps P step index entry :
  lasting P ->
  yields (R := moves) (pbs P) (record_delivery (W := W) env now x step index entry)
    (fun e => entry_at index entry -> entry_at index e).
Proof.
  intros HP. apply yields_after; [apply keeps_of_outcome|]. intros [a|]; [|by apply yields_ret].
  apply yields_after.
  - unfold record_notification_delivery_attempt. case_match; [|apply keeps_ret].
    apply keeps_try; [by apply lasting_stable| |intros; apply keeps_ret].
    apply keeps_seq; [apply keeps_of_outcome|]. intros q.
    apply keeps_seq; [apply execute_frame; intros d; unfold in_deliveries, zoom; by destruct (create_notification_delivery_attempt _ _ _ _)|].
    intros attempt. apply keeps_seq; [apply append_delivery_keeps|]. intros sent. apply keeps_ret.
  - intros attempt. apply yields_ret. intros He. unfold with_delivery. case_match; [|done].
    repeat case_match; try done; repeat apply entry_at_set; done.
Qed.

Lemma plain_step_ok step index p :
  log_once (pr_log p) -> step_already_succeeded_in_log (pr_log p) index = false ->
  works (run_plain_step (W := W) env now x prior owner step index p) next_ok.
Proof.
  intros Hlog Hnew. apply yields_bind with (G := entry_at index).
  { apply yields_try; [apply lasting_stable, lasting_at_work|apply simulate_step_gives, lasting_at_work|].
    intros e. by apply yields_ret. }
  intros entry He. eapply yields_bind; [apply record_keeps, lasting_at_work|]. intros entry' He'. specialize (He' He).
  assert (log_once (pr_log (log_entries p [PDict entry']))) as Hlog' by by eapply log_once_entry.
  case_match.
  - eapply yields_bind; [by apply save_yields|]. intros [p'|] Hp'; [|by apply yields_ret].
    apply yields_after; [apply append_step_keeps|]. intros _. apply yields_ret. cbn. by rewrite (Hp' _ eq_refl).
  - apply yields_after; [apply append_step_keeps|]. intros _. by apply yields_ret, after_failure_ok.
Qed.

Lemma heartbeat_keeps P : lasting P -> preserves P (heartbeat_lease (W := W) env now x owner duration).
Proof.
  intros HP. apply keeps_seq; [|intros; apply keeps_ret].
  apply (keeps_op _ _ (OpHeartbeat x.1 (Some owner) duration (Some now))); [done|constructor|done].
Qed.

Lemma run_step_ok step index p :
  log_once (pr_log p) -> works (run_step (W := W) env now x steps prior owner duration step index p) next_ok.
Proof.
  intros Hlog. unfold run_step. destruct (step_already_succeeded_in_log _ _) eqn:Hnew; [by apply yields_ret|].
  case_match; [by apply yields_ret|]. apply yields_after; [apply heartbeat_keeps, lasting_at_work|].
  intros []; cbn [negb]; [|by apply yields_ret]. unfold dispatch_step.
  repeat case_match; [by apply gate_step_ok|by apply branch_step_ok| | |by apply plain_step_ok].
  - eapply yields_bind; [apply trigger_yields|]. intros entry He. by apply control_step_ok.
  - eapply yields_bind; [apply enrich_gives, lasting_at_work|]. intros entry He. by apply control_step_ok.
Qed.

Lemma run_steps_ok fuel index p :
  log_once (pr_log p) ->
  works (run_steps (W := W) env now x steps prior owner duration fuel index p)
    (fun e => match e with Finished p => log_once (pr_log p) | Returned _ => True end).
Proof.
  revert index p. induction fuel as [|fuel IH]; intros index p Hlog; [apply yields_raise|].
  cbn [run_steps]. case_match; [by apply yields_ret|]. case_match; [|apply yields_raise].
  eapply yields_bind; [by apply run_step_ok|]. intros [index' p'|p'|r] Hn; [by apply IH|by apply yields_ret..].
Qed.

Lemma process_steps_keeps start log last :
  log_once log -> preserves (at_work x) (process_steps (W := W) env now x steps prior owner duration start log last).
Proof.
  intros Hlog. eapply yields_keeps. eapply yields_bind; [by apply run_steps_ok|].
  intros [p|r] Hp; [|by apply (yields_ret _ _ (fun _ => True))].
  case_match; apply (yields_after _ _ _ (fun _ => True)); try (by intros; apply yields_ret).
  - apply finalize_failed_keeps; [apply lasting_at_work|done].
  - apply finalize_success_keeps; [apply lasting_at_work|done].
Qed.
End Loop.
(** ** Whole executions *)

(** An update that answers with a row has just written it. *)
Definition returns_row (m : M pb_store (option (Z * exec_row))) : Prop :=
  forall s y, (m s).1 = Ok (Some y) -> pb_execs (m s).2 !! y.1 = Some y.2.

Lemma returns_update i cond f : returns_row (update_exec i cond f).
Proof.
  intros s y. unfold update_exec. repeat case_match; try done. intros [= <-]. cbn [pb_execs fst snd]. apply lookup_insert_eq.
Qed.

Lemma returns_none : returns_row (ret None).
Proof. done. Qed.

Lemma returns_bind {A} (m : M pb_store A) k : (forall a, returns_row (k a)) -> returns_row (bind m k).
Proof. intros Hk s y. unfold bind. destruct (m s) as [[a|e] s']; [apply Hk|done]. Qed.

(** What is known of a row an update answers with. *)
Definition row_at_work (o : option (Z * exec_row)) (s : pb_store) : Prop :=
  forall y, o = Some y -> at_work y s /\ log_once (x_steps_log y.2).

Lemma row_triple P (m : M pb_store (option (Z * exec_row))) op :
  lasting P -> (forall s, P s -> exec_inv s) -> (forall s, P s -> allowed owner now s op) -> returns_row m ->
  (forall al inc dec s, run_op clk al inc dec op s = (m s).2) ->
  runs P (stmt_pb (W := W) m) (fun o => pbs (fun s => P s /\ row_at_work o s)).
Proof.
  intros HP Hinv Hal Hrow Hrun. apply triple_stmt_pb. intros s Hs.
  assert (rtc (exec_step clk owner now) s (m s).2) as Hstep by (eapply steps_op; eauto).
  assert (P (m s).2) as Hs' by by eapply HP.
  split; [done|]. intros o Ho. split; [done|]. intros y ->. specialize (Hrow _ _ Ho).
  split; [split; [by apply Hinv|by exists y.2]|]. eapply ei_logs; [by apply Hinv|done].
Qed.

Lemma row_cases {A} P (k : option (Z * exec_row) -> M (conn (exec_db W)) A) Q :
  (forall y, log_once (x_steps_log y.2) -> triple (pbs (at_work y)) moves (k (Some y)) Q) ->
  triple (pbs P) moves (k None) Q ->
  forall o, triple (pbs (fun s => P s /\ row_at_work o s)) moves (k o) Q.
Proof.
  intros Hsome Hnone [y|] c [Hp Hy]; [|by apply Hnone]. destruct (Hy y eq_refl) as [Hat Hlog]. by apply Hsome.
Qed.

Lemma resume_returns i w log last d t : returns_row (acquire_awaiting_approval_resume_lease clk i w log last d t).
Proof. repeat (apply returns_bind; intros ?). apply returns_update. Qed.
Lemma acquire_returns i w d t : returns_row (acquire_execution_lease clk i w d t).
Proof. repeat (apply returns_bind; intros ?). apply returns_update. Qed.
Lemma claim_returns l w d t : returns_row (claim_next_pending_playbook_execution_with_lease clk l w d t).
Proof.
  do 2 (apply returns_bind; intros ?). cbn zeta. apply returns_bind. intros [[i r]|]; [apply returns_update|apply returns_none].
Qed.

(** The work on a row ends, however it goes, with the invariant. *)
Lemma at_work_end {A} y (m : M (conn (exec_db W)) A) P :
  preserves (at_work y) m -> (forall s, P s -> at_work y s) -> triple (pbs P) moves m (fun _ => pbs exec_inv).
Proof. intros Hm HP. eapply triple_weaken; [exact Hm|intros c; apply HP|by intros a c [Hi _]]. Qed.

Section Execution.
Context (duration : Z).

Lemma running_keeps x prior :
  log_once (x_steps_log x.2) ->
  preserves (at_work x) (process_running_execution (W := W) env now x prior owner duration).
Proof.
  intros Hlog. apply keeps_seq; [apply reads_frame|]. intros [steps|].
  - destruct (resume_progress x.2) as [[start log] last] eqn:Hr. apply process_steps_keeps.
    unfold resume_progress in Hr. repeat case_match; by simplify_eq.
  - apply keeps_seq; [|intros; apply keeps_ret]. apply finalize_failed_keeps; [apply lasting_at_work|].
    apply (log_once_quiet []); [apply log_once_nil|]. apply list.Forall_cons. split; [by eapply quiet_failed|done].
Qed.

Lemma log_once_add log e st :
  log_once log -> dget e "status" = PStr st -> String.eqb st "success" = false -> log_once (log ++ [PDict e]).
Proof. intros Hlog Hs He. apply log_once_quiet; [done|]. apply list.Forall_cons. split; [by eapply quiet_failed|done]. Qed.

Lemma fail_awaiting_keeps x log index code message :
  log_once log -> preserves (at_work x) (fail_awaiting_execution (W := W) env now x log index code message owner).
Proof.
  intros Hlog. apply keeps_seq; [|intros; apply keeps_ret]. apply finalize_failed_keeps; [apply lasting_at_work|].
  by eapply log_once_add.
Qed.

Lemma gate_event_once log gate r status event message :
  log_once log -> String.eqb status "success" = false -> log_once (record_gate_event now log gate r status event message).
Proof. intros Hlog Hs. unfold record_gate_event. case_match; [done|]. by eapply log_once_add. Qed.

Lemma resume_lease_triple x log gate :
  log_once log ->
  runs (at_work x) (resume_lease (W := W) env now x owner log gate duration)
    (fun o => pbs (fun s => at_work x s /\ row_at_work o s)).
Proof.
  intros Hlog. apply (row_triple _ _ (OpResume x.1 (Some owner) log (Some gate) duration (Some now))).
  - apply lasting_at_work.
  - by intros s [Hi _].
  - by constructor.
  - apply resume_returns.
  - done.
Qed.

Lemma resume_refused_keeps P x message : preserves P (resume_refused (W := W) x message).
Proof. apply keeps_seq; [apply reads_frame|intros; apply keeps_ret]. Qed.

Lemma resume_approved_ok x log gate r :
  log_once log ->
  runs (at_work x) (resume_approved (W := W) env now x log gate r owner duration) (fun _ => pbs exec_inv).
Proof.
  intros Hlog. eapply triple_bind; [apply append_decision_keeps|]. intros sent. cbn zeta.
  assert (forall b, log_once (record_gate_event now
    (record_gate_event now log gate r "approved" "approval_approved" b) gate r "resumed" "approval_resumed"
    "Simulation resumed after approval.")) as Hlog' by (intros b; apply gate_event_once; [by apply gate_event_once|done]).
  eapply triple_bind; [by apply resume_lease_triple|]. apply row_cases.
  - intros y _. eapply at_work_end; [|done].
    apply keeps_seq; [apply append_keeps|intros _]. apply keeps_seq; [apply append_keeps|intros _].
    apply keeps_seq; [apply reads_frame|]. intros [steps|]; [by apply process_steps_keeps|by apply fail_awaiting_keeps].
  - eapply at_work_end; [apply resume_refused_keeps|done].
Qed.

Lemma skipped_later_quiet steps start reason : Forall quiet_entry (skipped_later_step_entries now steps start reason).
Proof.
  apply Forall_forall. intros e (k & step & -> & _)%elem_of_lookup_imap. by eapply quiet_failed.
Qed.

Lemma resume_refused_request_ok x log gate r :
  log_once log -> ap_status r.2 = Denied \/ ap_status r.2 = Expired ->
  runs (at_work x) (resume_refused_request (W := W) env now x log gate r owner duration) (fun _ => pbs exec_inv).
Proof.
  intros Hlog Hst. eapply triple_bind; [apply reads_frame|]. intros found. cbn zeta.
  eapply triple_bind; [apply append_decision_keeps|]. intros sent.
  assert (String.eqb (status_str (ap_status r.2)) "success" = false) as Hs by (by destruct Hst as [-> | ->]).
  set (log' := record_gate_event _ _ _ _ _ _ _). assert (log_once log') as Hlog' by by apply gate_event_once.
  case_match.
  - eapply triple_bind; [by apply resume_lease_triple|]. apply row_cases.
    + intros y _. eapply at_work_end; [|done].
      apply keeps_seq; [apply append_keeps|intros _]. by apply process_steps_keeps.
    + eapply at_work_end; [apply resume_refused_keeps|done].
  - eapply at_work_end with (y := x); [|done]. apply keeps_seq; [|intros; apply keeps_ret].
    apply finalize_not_actioned_keeps; [apply lasting_at_work|]. apply log_once_quiet; [done|]. apply skipped_later_quiet.
Qed.

Lemma awaiting_ok x :
  log_once (x_steps_log x.2) ->
  runs (at_work x) (process_awaiting_approval_execution (W := W) env now x owner duration) (fun _ => pbs exec_inv).
Proof.
  intros Hlog. unfold process_awaiting_approval_execution.
  assert (forall index code message, triple (pbs (at_work x)) moves
    (fail_awaiting_execution (W := W) env now x (x_steps_log x.2) index code message owner) (fun _ => pbs exec_inv)) as Hfail.
  { intros. eapply at_work_end; [by apply fail_awaiting_keeps|done]. }
  destruct (latest_gate_entry _) as [[gate entry]|]; [|apply Hfail].
  eapply triple_bind; [apply approvals_frame|]. intros [r|]; [|apply Hfail].
  destruct (ap_status r.2) eqn:Hst.
  - apply triple_ret. by intros c [Hi _].
  - by apply resume_approved_ok.
  - apply resume_refused_request_ok; [done|by left].
  - apply resume_refused_request_ok; [done|by right].
Qed.
End Execution.
(** ** The entry points *)

Lemma claimed_keeps y prior duration :
  log_once (x_steps_log y.2) ->
  preserves (at_work y)
    (append_playbook_running_outcome_event env y ;;; process_running_execution (W := W) env now y prior owner duration).
Proof. intros Hlog. apply keeps_seq; [apply append_keeps|]. intros sent. by apply running_keeps. Qed.

Lemma process_next_keeps locked worker lease :
  resolve_worker_id env worker = owner ->
  preserves exec_inv (process_next_pending_playbook_execution (W := W) env now locked worker lease).
Proof.
  intros Hw. unfold process_next_pending_playbook_execution. rewrite Hw.
  apply keeps_seq; [apply keeps_of_outcome|]. intros d.
  eapply triple_bind.
  { apply (row_triple exec_inv _ (OpClaim locked (Some owner) d (Some now)));
      [apply lasting_inv|done|by constructor|apply claim_returns|done]. }
  apply row_cases; [|apply keeps_ret]. intros y Hlog.
  apply (at_work_end y _ (at_work y)); [|done].
  apply keeps_seq; [apply append_keeps|]. intros sent.
  apply keeps_seq; [by apply running_keeps|intros; apply keeps_ret].
Qed.

Lemma running_status_ok x duration :
  log_once (x_steps_log x.2) ->
  runs (at_work x) (process_running_status (W := W) env now x owner duration) (fun _ => pbs exec_inv).
Proof.
  intros Hlog. eapply at_work_end with (y := x); [|done]. unfold process_running_status.
  repeat case_match; try apply keeps_ret. by apply running_keeps.
Qed.

Lemma pending_status_ok x duration :
  runs (at_work x) (process_pending_status (W := W) env now x owner duration) (fun _ => pbs exec_inv).
Proof.
  eapply triple_bind.
  { apply (row_triple (at_work x) _ (OpAcquire x.1 (Some owner) duration (Some now)));
      [apply lasting_at_work|by intros s [Hi _]|by constructor|apply acquire_returns|done]. }
  apply row_cases.
  - intros y Hlog. eapply at_work_end; [by apply claimed_keeps|done].
  - eapply (at_work_end x); [|done]. apply keeps_seq; [apply reads_frame|intros; apply keeps_ret].
Qed.

Lemma process_execution_keeps i worker lease :
  resolve_worker_id env worker = owner ->
  preserves exec_inv (process_playbook_execution (W := W) env now i worker lease).
Proof.
  intros Hw. unfold process_playbook_execution. rewrite Hw. eapply triple_bind.
  { apply (triple_reads exec_inv (fun d => get_playbook_execution i (xd_pb d)) 
             (fun o s => exec_inv s /\ row_at_work o s)).
    intros d Hi. split; [done|]. unfold get_playbook_execution.
    destruct (pb_execs (xd_pb d) !! i) as [r|] eqn:Hr; [|done]. intros y [= <-].
    split; [split; [done|by exists r]|by eapply ei_logs]. }
  apply row_cases; [|apply keeps_ret]. intros x Hlog.
  eapply triple_bind; [apply keeps_of_outcome|]. intros d.
  destruct (x_status x.2); try (eapply at_work_end; [apply keeps_ret|done]).
  - apply pending_status_ok.
  - by apply running_status_ok.
  - by apply awaiting_ok.
Qed.

Lemma process_pending_keeps n locked w duration :
  resolve_worker_id env (Some w) = owner ->
  preserves exec_inv (process_pending (W := W) env now n locked w duration).
Proof.
  intros Hw. induction n as [|n IH]; [apply keeps_ret|].
  apply keeps_seq; [by apply process_next_keeps|]. intros [r|]; [|apply keeps_ret].
  apply keeps_seq; [done|intros; apply keeps_ret].
Qed.

Lemma process_each_keeps rows w duration :
  resolve_worker_id env (Some w) = owner ->
  preserves exec_inv (process_each (W := W) env now rows w duration).
Proof.
  intros Hw. induction rows as [|[i r] rows IH]; [apply keeps_ret|].
  apply keeps_seq; [by apply process_execution_keeps|]. intros result.
  apply keeps_seq; [done|intros; apply keeps_ret].
Qed.

Lemma batch_keeps limit locked worker lease :
  resolve_worker_id env (Some (resolve_worker_id env worker)) = owner ->
  preserves exec_inv (process_playbook_execution_batch (W := W) env now limit locked worker lease).
Proof.
  intros Hw. apply keeps_seq; [apply keeps_of_outcome|]. intros duration.
  apply keeps_seq; [by apply process_pending_keeps|]. intros results. cbn zeta. case_match; [|apply keeps_ret].
  apply keeps_seq; [apply reads_frame|]. intros rows. apply keeps_seq; [apply keeps_of_outcome|]. intros rows'.
  apply keeps_seq; [by apply process_each_keeps|intros; apply keeps_ret].
Qed.
End Refinement.
