(* ===== verification/ExecutorProperties.v ===== *)
(** * ExecutorProperties: what a call of the playbook executor guarantees

    The two entry points of engines/playbook_step_executor.py as calls of a
    worker, alone and in sequences of committed or rolled-back transactions. *)

From S2P Require Import Prelude PyText PyFloat PyValue Tables Interfaces Hoare Approvals Outcomes.
From S2P Require Import Deliveries ActionVocabulary Alerts ParamBinding BranchConditions PlaybookRegistry.
From S2P Require Import PlaybookStore DeadLetters StepLog StepEvents StepActions StepExecutor ExecutorProtocol.
From S2P Require Import StepExecutorProofs.

Open Scope Z_scope.

(** ** Calls *)

Inductive executor_call :=
  | CallBatch (limit : Z) (locked : gset Z) (worker_id : option string) (lease : option Z)
  | CallOne (i : Z) (worker_id : option string) (lease : option Z).

(** The lease owner a call works under; the batch hands the resolved
    identity on, where it is resolved again. *)
Definition call_owner (env : exec_env) (call : executor_call) : string :=
  match call with
  | CallBatch _ _ w _ => resolve_worker_id env (Some (resolve_worker_id env w))
  | CallOne _ w _ => resolve_worker_id env w
  end.

Section Calls.
Context {W : Type} `{StepServices W}.

Definition run_call (env : exec_env) (now : Z) (call : executor_call) : M (conn (exec_db W)) (list exec_result) :=
  match call with
  | CallBatch limit locked w lease => process_playbook_execution_batch env now limit locked w lease
  | CallOne i w lease => let* r := process_playbook_execution env now i w lease in ret [r]
  end.

(** Its transaction: committed when the call returns, else rolled back. *)
Definition run_turn (env : exec_env) (now : Z) (call : executor_call) (d : exec_db W) : exec_db W :=
  match run_call env now call (open_conn d) with
  | (Ok _, c) => cn_committed (commit_conn c).2
  | (Raise _, c) => cn_committed (rollback_conn c).2
  end.

Lemma run_call_keeps env now call :
  keeps (R := moves env (call_owner env call) now) (pbs exec_inv) (run_call env now call).
Proof.
  destruct call as [limit locked w lease|i w lease]; cbn [run_call].
  - by apply batch_keeps.
  - apply keeps_seq; [by apply process_execution_keeps|intros; apply keeps_ret].
Qed.

(** C1: Whatever the services answer, whichever statements fail and whatever
    the definitions contain, a call of the executor commits nothing itself,
    and it changes the executions only by a sequence of the operations its
    protocol allows the calling worker: it refines the store protocol. *)
Theorem executor_refines_protocol env now call c :
  exec_inv (xd_pb (cn_current c)) ->
  let c' := (run_call env now call c).2 in
  cn_committed c' = cn_committed c /\
  rtc (exec_step (en_clock env) (call_owner env call) now) (xd_pb (cn_current c)) (xd_pb (cn_current c')).
Proof. intros Hinv. by destruct (run_call_keeps env now call c Hinv) as [[Hc Hs] _]. Qed.

(** ** Sequences of transactions *)

(** The tables after a turn: moved by the protocol, or rolled back. *)
Lemma run_turn_steps env now call d :
  exec_inv (xd_pb d) ->
  rtc (exec_step (en_clock env) (call_owner env call) now) (xd_pb d) (xd_pb (run_turn env now call d)) \/
  same_executions (xd_pb d) (xd_pb (run_turn env now call d)).
Proof.
  intros Hinv. destruct (run_call_keeps env now call (open_conn d) Hinv) as [[Hc Hs] _].
  pose proof (exec_steps_seq _ _ _ _ _ Hs) as Hseq.
  unfold run_turn. destruct (run_call env now call (open_conn d)) as [[r|e] c']; cbn [fst snd] in *.
  - unfold commit_conn. destruct (cn_aborted c'); [|by left]. right. cbn. by rewrite Hc.
  - right. cbn. by rewrite Hc.
Qed.

Definition run_turns (turns : list (exec_env * Z * executor_call)) (d : exec_db W) : exec_db W :=
  foldl (fun d t => run_turn t.1.1 t.1.2 t.2 d) d turns.

Lemma run_turn_inv env now call d : exec_inv (xd_pb d) -> exec_inv (xd_pb (run_turn env now call d)).
Proof.
  intros Hinv. destruct (run_turn_steps env now call d Hinv) as [Hs|Hs];
    [by eapply exec_steps_inv|by eapply same_executions_inv].
Qed.

(** The worker of a turn is somebody else than [o], under a name that is not
    blank. *)
Definition foreign_turn (o : string) (t : exec_env * Z * executor_call) : Prop :=
  strip (call_owner t.1.1 t.2) <> o /\ strip (call_owner t.1.1 t.2) <> "".

(** A running execution that one worker has leased is out of reach of
    every other worker's executor: no sequence of calls, at whatever times
    and whether they are committed or rolled back, changes the row, even
    after the lease has expired; only stale recovery takes it back. *)
Theorem executor_respects_leases turns d j r o T :
  exec_inv (xd_pb d) -> Forall (foreign_turn o) turns ->
  pb_execs (xd_pb d) !! j = Some r -> x_status r = XRunning ->
  lease_owner (x_lease r) = Some o -> lease_expires_at (x_lease r) = Some T ->
  pb_execs (xd_pb (run_turns turns d)) !! j = Some r.
Proof.
  intros Hinv Hf Hj Hr Ho HT. revert d Hinv Hj. induction Hf as [|[[env now] call] turns [Hne Hb] _ IH]; intros d Hinv Hj; [done|].
  apply IH; [by apply run_turn_inv|]. cbn.
  destruct (run_turn_steps env now call d Hinv) as [Hs|(_ & -> & _)]; [|done].
  by eapply exec_steps_lease.
Qed.

(** ** Everything that happens to the executions *)

Inductive activity :=
  | Turn (env : exec_env) (now : Z) (call : executor_call)
  | Operator (clk : clock) (al inc dec : Z -> bool) (op : pb_op).

Definition do_activity (a : activity) (d : exec_db W) : exec_db W :=
  match a with
  | Turn env now call => run_turn env now call d
  | Operator clk al inc dec op =>
      if operator_op op then (in_pb (fun s => (Ok tt, run_op clk al inc dec op s)) d).2 else d
  end.

Lemma activities_inv acts d : exec_inv (xd_pb d) -> exec_inv (xd_pb (foldl (fun d a => do_activity a d) d acts)).
Proof.
  revert d. induction acts as [|a acts IH]; intros d Hinv; [done|]. apply IH.
  destruct a as [env now call|clk al inc dec op]; [by apply run_turn_inv|]. cbn.
  destruct (operator_op op) eqn:Hop; [|done]. by apply operator_inv.
Qed.

(** C2: Start from tables without executions and let any workers' calls,
    committed or rolled back, alternate with the operations of operators,
    stale recovery and the alert pipeline.  Then always: no step of an
    execution is recorded as succeeded twice, a chain of executions has at
    most four members, depths count along it, and no playbook occurs in it
    twice, so chains of triggers end. *)
Theorem executions_reachable_ok acts d :
  store_wf (xd_pb d) -> pb_execs (xd_pb d) = ∅ ->
  forall i r, pb_execs (xd_pb (foldl (fun d a => do_activity a d) d acts)) !! i = Some r ->
  let s := xd_pb (foldl (fun d a => do_activity a d) d acts) in
  let chain := get_playbook_execution_ancestor_chain i MAX_CHAIN_DEPTH s in
  (forall k, (length (List.filter (has_status "success" k) (x_steps_log r)) <= 1)%nat) /\
  x_chain_depth r = Z.of_nat (length chain) /\ (length chain <= 3)%nat /\
  (forall a, ancestor s i a -> a ∈ chain.*1) /\
  NoDup (x_playbook_id r :: map (fun a => x_playbook_id a.2) chain).
Proof.
  intros Hwf He i r Hi s chain. assert (exec_inv s) as Hinv.
  { apply activities_inv. split; [done|intros j rj; by rewrite He, lookup_empty|intros j rj; by rewrite He, lookup_empty]. }
  split; [by eapply ei_logs|]. destruct (chain_length s i r Hinv Hi) as [Hlen Hmax].
  assert (chain = ancestor_chain (Z.to_nat MAX_CHAIN_DEPTH) r s) as ->.
  { unfold chain, get_playbook_execution_ancestor_chain. fold s in Hi. by rewrite Hi. }
  split_and!; [done|done| |by eapply chain_distinct].
  intros a Ha. destruct (ei_chains _ Hinv _ _ Hi) as ([[_ Hd] _] & _).
  destruct (ancestor_chain_complete s (Z.to_nat MAX_CHAIN_DEPTH) i r a) as (ra & Hin & _); [apply Hinv|done|done|done|].
  apply list_elem_of_fmap. by exists (a, ra).
Qed.
End Calls.

(** ** Witnesses *)

Definition ex_batch : executor_call := CallBatch 10 ∅ None None.

Lemma executor_refines_protocol_witness :
  let c := open_conn (ex_db [ex_action "monitor"; ex_action "notify_teams"]) in
  let c' := (run_call ex_env ex_time ex_batch c).2 in
  xd_world (cn_current c') = ["monitor"; "teams"] /\
  rtc (exec_step (en_clock ex_env) "worker-1" ex_time) (xd_pb (cn_current c)) (xd_pb (cn_current c')).
Proof.
  split; [vm_compute; reflexivity|].
  apply (executor_refines_protocol ex_env ex_time ex_batch (open_conn (ex_db [ex_action "monitor"; ex_action "notify_teams"]))).
  apply ex_pb_inv.
Defined.

(** The execution, leased to another worker. *)
Definition ex_leased : exec_db call_log :=
  (in_pb (claim_next_pending_playbook_execution_with_lease ex_pb_clock ∅ (Some "worker-2") 60 (Some ex_time))
     (ex_db [ex_action "monitor"])).2.

Lemma ex_leased_inv : exec_inv (xd_pb ex_leased).
Proof.
  apply (exec_steps_inv ex_pb_clock "worker-2" ex_time (ex_pb [ex_action "monitor"])); [|apply ex_pb_inv].
  apply rtc_once. exists ex_exists, ex_exists, ex_exists, (OpClaim ∅ (Some "worker-2") 60 (Some ex_time)).
  by split; [constructor|].
Qed.

Lemma executor_respects_leases_witness :
  pb_execs (xd_pb (run_turns [(ex_env, ex_time, ex_batch); (ex_env, seconds 9000, CallOne 1 None None)] ex_leased)) !! 1 =
  Some (ex_row_of ex_leased) /\ lease_owner (x_lease (ex_row_of ex_leased)) = Some "worker-2".
Proof.
  split; [|vm_compute; reflexivity].
  apply (executor_respects_leases _ ex_leased 1 (ex_row_of ex_leased) "worker-2" (seconds 1060)).
  - apply ex_leased_inv.
  - rewrite !list.Forall_cons. split_and!; [split; vm_compute; discriminate..|constructor].
  - vm_compute. reflexivity.
  - vm_compute. reflexivity.
  - vm_compute. reflexivity.
  - vm_compute. reflexivity.
Defined.

(** One playbook triggers another one, and a retry follows. *)
Definition ex_acts : list activity :=
  [Operator ex_pb_clock ex_exists ex_exists ex_exists
     (OpDefine "pb-1" "first" (PList [PDict [("action", PStr "trigger_playbook");
        ("params", PDict [("playbook_id", PStr "pb-2")])]]) None true None);
   Operator ex_pb_clock ex_exists ex_exists ex_exists (OpDefine "pb-2" "second" (PList [ex_action "monitor"]) None true None);
   Operator ex_pb_clock ex_exists ex_exists ex_exists (OpCreateOnce (NewExecution "pb-1" (Some 12) None None None None 0));
   Turn ex_env ex_time ex_batch].

Definition ex_empty : exec_db call_log :=
  ExecDb (SoarDb empty_pb_store empty_letters) empty_approvals empty_outcomes (DeliveryStore ∅ 1) ex_alerts [].
Definition ex_chained : exec_db call_log := foldl (fun d a => do_activity a d) ex_empty ex_acts.
Definition ex_child_row : exec_row := default (new_row ex_pb_clock ex_pb_new) (pb_execs (xd_pb ex_chained) !! 2).

Lemma executions_reachable_ok_witness :
  x_parent_execution_id ex_child_row = Some 1 /\ x_status ex_child_row = XSuccess /\
  x_chain_depth ex_child_row =
    Z.of_nat (length (get_playbook_execution_ancestor_chain 2 MAX_CHAIN_DEPTH (xd_pb ex_chained))).
Proof.
  split_and!; [vm_compute; reflexivity..|].
  apply (executions_reachable_ok ex_acts ex_empty empty_store_wf eq_refl 2 ex_child_row).
  vm_compute. reflexivity.
Defined.
