(* ===== verification/ExecutorLoop.v ===== *)
(** * ExecutorLoop: the loop over the steps of a playbook

    The loop ends, and a run that ends without a failure has passed every
    step. *)

From S2P Require Import Prelude PyText PyFloat PyValue Tables Interfaces Hoare Approvals Outcomes.
From S2P Require Import Deliveries ActionVocabulary Alerts ParamBinding BranchConditions PlaybookRegistry.
From S2P Require Import PlaybookStore DeadLetters StepLog StepEvents StepActions StepExecutor ExecutorProtocol.
From S2P Require Import StepExecutorProofs.

Open Scope Z_scope.

(** ** The loop ends *)

(** What every value [m] can return satisfies. *)
Definition returns {S A} (m : M S A) (F : A -> Prop) : Prop := forall s a, (m s).1 = Ok a -> F a.

Lemma returns_ret {S A} (a : A) (F : A -> Prop) : F a -> returns (ret a : M S A) F.
Proof. intros Ha s b [= <-]. done. Qed.
Lemma returns_seq {S A B} (m : M S A) (k : A -> M S B) (G : A -> Prop) (F : B -> Prop) :
  returns m G -> (forall a, G a -> returns (k a) F) -> returns (bind m k) F.
Proof.
  intros Hm Hk s b. unfold bind. specialize (Hm s). destruct (m s) as [[a|e] s']; [|done]. by apply Hk, Hm.
Qed.
Lemma returns_then {S A B} (m : M S A) (k : A -> M S B) (F : B -> Prop) :
  (forall a, returns (k a) F) -> returns (bind m k) F.
Proof. intros Hk. apply returns_seq with (G := fun _ => True); [done|auto]. Qed.

Lemma returns_weaken {S A} (m : M S A) (F G : A -> Prop) : returns m F -> (forall a, F a -> G a) -> returns m G.
Proof. intros Hm HG s a Ha. by apply HG, (Hm s). Qed.

Section Termination.
Context {W : Type} `{StepServices W}.
Context (env : exec_env) (now : Z) (x : Z * exec_row) (steps : list pyval) (prior owner : string) (duration : Z).

Definition advances (index : Z) (n : step_next) : Prop := match n with Continue i _ => index < i | _ => True end.

Lemma after_failure_advances step index entry p : advances index (after_failure step index entry p).
Proof. unfold after_failure. case_match; [cbn; lia|done]. Qed.

Lemma control_advances what step index p entry skipped next :
  index < next -> returns (finish_control_step (W := W) env x prior owner what step index p entry skipped next) (advances index).
Proof.
  intros Hlt. apply returns_then. intros _. case_match; [|apply returns_ret, after_failure_advances].
  apply returns_then. intros [q|]; by apply returns_ret.
Qed.

Lemma branch_target_after step index result label target :
  branch_target step index steps result = inl (label, target) -> index < target.
Proof.
  unfold branch_target, resolve_label_target_index. intros Hb.
  repeat (case_match; simplify_eq/=; try lia).
Qed.

Lemma branch_advances step index p :
  returns (run_branch_step (W := W) env now x steps prior owner step index p) (advances index).
Proof.
  apply returns_seq with (G := fun o => forall e sk t, o = Ok (e, sk, t) -> index < t).
  { intros c o. unfold stmt_reads, execute. destruct (cn_aborted c); [done|]. cbn. intros [= <-] e sk t.
    unfold execute_branch_step. destruct (as_dict _); [|intros [= _ _ <-]; lia].
    destruct (evaluate_branch_condition _ _ _ _) as [b|[]]; try done; [|intros [= _ _ <-]; lia].
    destruct (branch_target step index steps b) as [[label target]|[]] eqn:Hb; intros [= _ _ <-]; [|lia].
    by eapply branch_target_after. }
  intros o Ho. apply returns_seq with (G := fun r => index < r.2).
  - intros c [[e sk] t] Hr. by eapply Ho.
  - intros [[e sk] t] Ht. by apply control_advances.
Qed.

Lemma run_step_advances step index p :
  returns (run_step (W := W) env now x steps prior owner duration step index p) (advances index).
Proof.
  unfold run_step. case_match; [apply returns_ret; cbn; lia|]. case_match; [apply returns_ret; cbn; lia|].
  apply returns_then. intros []; cbn [negb]; [|by apply returns_ret]. unfold dispatch_step. repeat case_match.
  - apply returns_then. intros [[reason risk] ttl]. do 2 (apply returns_then; intros ?). case_match; [|by apply returns_ret].
    do 2 (apply returns_then; intros ?). by apply returns_ret.
  - apply branch_advances.
  - apply returns_then. intros entry. apply control_advances. lia.
  - apply returns_then. intros entry. apply control_advances. lia.
  - do 2 (apply returns_then; intros ?). case_match.
    + apply returns_then. intros [q|]; [|by apply returns_ret]. apply returns_then. intros _. apply returns_ret. cbn. lia.
    + apply returns_then. intros _. apply returns_ret, after_failure_advances.
Qed.

(** The loop without fuel: its finite runs. *)
Inductive loop_run : Z -> progress -> conn (exec_db W) -> outcome loop_end * conn (exec_db W) -> Prop :=
  | loop_ends index p c : Z.of_nat (length steps) <= index -> loop_run index p c (Ok (Finished p), c)
  | loop_misses index p c :
      index < Z.of_nat (length steps) -> py_nth steps index = None ->
      loop_run index p c (Raise (OtherException "IndexError"), c)
  | loop_raises index p c step e c' :
      index < Z.of_nat (length steps) -> py_nth steps index = Some step ->
      run_step env now x steps prior owner duration step index p c = (Raise e, c') ->
      loop_run index p c (Raise e, c')
  | loop_stops index p c step n c' :
      index < Z.of_nat (length steps) -> py_nth steps index = Some step ->
      run_step env now x steps prior owner duration step index p c = (Ok n, c') ->
      match n with Continue _ _ => False | _ => True end ->
      loop_run index p c (Ok match n with Return r => Returned r | Break q | Continue _ q => Finished q end, c')
  | loop_goes_on index p c step index' p' c' out :
      index < Z.of_nat (length steps) -> py_nth steps index = Some step ->
      run_step env now x steps prior owner duration step index p c = (Ok (Continue index' p'), c') ->
      loop_run index' p' c' out -> loop_run index p c out.

Lemma run_steps_loop fuel index p c :
  (Z.to_nat (Z.of_nat (length steps) - index) < fuel)%nat ->
  loop_run index p c (run_steps env now x steps prior owner duration fuel index p c).
Proof.
  revert index p c. induction fuel as [|fuel IH]; intros index p c Hf; [lia|]. cbn [run_steps].
  destruct (Z.leb_spec (Z.of_nat (length steps)) index) as [Hle|Hlt]; [by apply loop_ends|].
  destruct (py_nth steps index) as [step|] eqn:Hstep; [|by apply loop_misses].
  pose proof (run_step_advances step index p c) as Hadv. unfold bind.
  destruct (run_step env now x steps prior owner duration step index p c) as [[n|e] c'] eqn:Hrun;
    [|by eapply loop_raises].
  specialize (Hadv n eq_refl). destruct n as [index' p'|p'|r].
  - eapply loop_goes_on; [done..|]. apply IH. cbn in Hadv. lia.
  - by apply (loop_stops index p c step (Break p') c').
  - by apply (loop_stops index p c step (Return r) c').
Qed.

(** C9: The loop over the steps ends from every index, whatever happens in
    the steps and wherever its branches lead: the model's loop, with the
    fuel it is given, is a finite run of the loop as it is written. *)
Theorem run_steps_terminates index p c :
  loop_run index p c (run_steps env now x steps prior owner duration (steps_fuel steps index) index p c).
Proof. apply run_steps_loop. unfold steps_fuel. lia. Qed.
End Termination.

(** ** Every step is passed *)

Section Coverage.
Context {W : Type} `{StepServices W}.
Context (env : exec_env) (now : Z) (x : Z * exec_row) (steps : list pyval) (prior owner : string) (duration : Z).

(** Step [k] is recorded as succeeded, or as jumped over by a branch. *)
Definition passed_step (log : list pyval) (k : Z) : Prop :=
  step_already_succeeded_in_log log k = true \/ step_already_skipped_in_log log k = true.

Definition passed (index : Z) (p : progress) : Prop :=
  0 <= index /\ (pr_failed p = false -> forall k, 0 <= k < index -> passed_step (pr_log p) k).

Definition passes (n : step_next) : Prop :=
  match n with Continue i p => passed i p | Break p => pr_failed p = true | Return _ => True end.

Lemma passed_step_app log l k : passed_step log k \/ passed_step l k -> passed_step (log ++ l) k.
Proof.
  unfold passed_step, step_already_succeeded_in_log, step_already_skipped_in_log. rewrite !existsb_app, !orb_true_iff.
  tauto.
Qed.

Lemma success_passes entry index l :
  entry_at index entry -> succeeded entry = true -> passed_step (PDict entry :: l) index.
Proof.
  intros He Hs. left. cbn. apply orb_true_iff. left. unfold has_status. cbn [as_dict]. unfold at_index.
  rewrite He, Z.eqb_refl. exact Hs.
Qed.

Lemma skipped_passes e index k target :
  index < k < target -> passed_step (e :: skipped_branch_step_entries now steps (index + 1) target) k.
Proof.
  intros Hk. right. cbn. apply orb_true_iff. right. apply existsb_exists.
  exists (PDict (skipped_by_branch_entry now k (default (PDict []) (steps !! Z.to_nat k)))). split.
  - unfold skipped_branch_step_entries. apply in_map_iff. exists k. split; [done|].
    apply list_elem_of_In, elem_of_seqZ. lia.
  - unfold has_status, at_index. cbn. by rewrite Z.eqb_refl.
Qed.

Lemma after_failure_passes step index entry p : 0 <= index -> passes (after_failure step index entry p).
Proof. intros Hi. unfold after_failure. case_match; [split; [lia|done]|done]. Qed.

(** The progress after a successful step that goes on at [next]. *)
Lemma passed_next index next p entry skipped :
  passed index p -> index < next -> entry_at index entry -> succeeded entry = true ->
  (forall k, index < k < next -> passed_step (PDict entry :: skipped) k) ->
  passed next (log_entries p (PDict entry :: skipped)).
Proof.
  intros [Hi Hp] Hn He Hs Hk. split; [lia|]. cbn. intros Hf k Hlt. apply passed_step_app.
  destruct (Z.lt_trichotomy k index) as [H1|[->|H1]]; [left; apply Hp; [done|lia]|right; by apply success_passes|].
  right. apply Hk. lia.
Qed.

Lemma save_returns index p next :
  passed next p -> returns (save_progress (W := W) x owner index p) (fun o => forall q, o = Some q -> passed next q).
Proof.
  intros Hp. apply returns_then. intros [u|]; apply returns_ret; intros q [= <-]. exact Hp.
Qed.

Lemma control_passes what step index p entry skipped next :
  passed index p -> index < next -> entry_at index entry ->
  (forall k, index < k < next -> passed_step (PDict entry :: skipped) k) ->
  returns (finish_control_step (W := W) env x prior owner what step index p entry skipped next) passes.
Proof.
  intros Hp Hn He Hk. apply returns_then. intros _.
  destruct (succeeded entry) eqn:Hs; [|by apply returns_ret, after_failure_passes; destruct Hp].
  eapply returns_seq; [by apply (save_returns index _ next), (passed_next index)|]. intros [q|] Hq; apply returns_ret; [|done].
  by apply Hq.
Qed.

Lemma anything_lasts : lasting env owner now (fun _ => True).
Proof. done. Qed.

Lemma gives_returns {A} (m : M (conn (exec_db W)) A) (F : A -> Prop) :
  yields (R := moves env owner now) (pbs (fun _ => True)) m F -> returns m F.
Proof. intros Hm c a Ha. destruct (Hm c I) as [_ HQ]. by destruct (HQ a Ha). Qed.

Lemma branch_passes step index p :
  passed index p -> returns (run_branch_step (W := W) env now x steps prior owner step index p) passes.
Proof.
  intros Hp.
  apply returns_seq with (G := fun o => forall e sk t, o = Ok (e, sk, t) ->
    index < t /\ entry_at index e /\ (succeeded e = false \/ sk = skipped_branch_step_entries now steps (index + 1) t)).
  { intros c o. unfold stmt_reads, execute. destruct (cn_aborted c); [done|]. cbn. intros [= <-] e sk t.
    unfold execute_branch_step. destruct (as_dict _); [|intros [= <- <- <-]; split_and!; [lia|done|by left]].
    destruct (evaluate_branch_condition _ _ _ _) as [b|[]]; try done;
      [|intros [= <- <- <-]; split_and!; [lia|done|by left]].
    destruct (branch_target step index steps b) as [[label target]|[]] eqn:Hb; intros [= <- <- <-].
    - split_and!; [by eapply branch_target_after|done|by right].
    - split_and!; [lia|done|by left]. }
  intros o Ho. apply returns_seq with (G := fun r => o = Ok r).
  { intros c r Hr. exact Hr. }
  intros [[e sk] t] ->. destruct (Ho _ _ _ eq_refl) as (Hlt & He & [Hs| ->]).
  - apply returns_then. intros _. rewrite Hs. by apply returns_ret, after_failure_passes; destruct Hp.
  - apply control_passes; [done..|]. intros k Hk. by apply skipped_passes.
Qed.

Lemma trigger_returns step index : returns (execute_trigger_playbook_step (W := W) env now step index x) (entry_at index).
Proof.
  unfold execute_trigger_playbook_step. destruct (trigger_target step) as [target|[]]; [|by apply returns_ret].
  apply returns_then. intros [alert|[]]; [|by apply returns_ret]. apply returns_then. intros [i|].
  - apply returns_then. intros u. by apply returns_ret.
  - apply returns_then. intros u. by apply returns_ret.
Qed.

Lemma plain_passes step index p :
  passed index p -> returns (run_plain_step (W := W) env now x prior owner step index p) passes.
Proof.
  intros Hp. apply returns_seq with (G := entry_at index).
  { apply gives_returns, yields_try; [done|apply simulate_step_gives, anything_lasts|]. intros e. by apply yields_ret. }
  intros entry He. eapply returns_seq; [apply gives_returns, record_keeps, anything_lasts|].
  intros entry' He'. specialize (He' He). destruct (succeeded entry') eqn:Hs.
  - eapply returns_seq; [apply (save_returns index _ (index + 1)), (passed_next index); try done; lia|].
    intros [q|] Hq; [|by apply returns_ret]. apply returns_then. intros u. apply returns_ret. by apply Hq.
  - apply returns_then. intros u. by apply returns_ret, after_failure_passes; destruct Hp.
Qed.

Lemma run_step_passes step index p :
  passed index p -> returns (run_step (W := W) env now x steps prior owner duration step index p) passes.
Proof.
  intros Hp. unfold run_step. destruct Hp as [Hi Hp].
  destruct (step_already_succeeded_in_log (pr_log p) index) eqn:Hs.
  { apply returns_ret. split; [lia|]. cbn. intros Hf k Hk. destruct (decide (k = index)) as [->|]; [by left|].
    apply Hp; [done|lia]. }
  destruct (step_already_skipped_in_log (pr_log p) index) eqn:Hsk.
  { apply returns_ret. split; [lia|]. intros Hf k Hk. destruct (decide (k = index)) as [->|]; [by right|].
    apply Hp; [done|lia]. }
  apply returns_then. intros []; cbn [negb]; [|by apply returns_ret]. unfold dispatch_step. repeat case_match.
  - apply returns_then. intros [[reason risk] ttl]. do 2 (apply returns_then; intros ?). case_match; [|by apply returns_ret].
    do 2 (apply returns_then; intros ?). by apply returns_ret.
  - by apply branch_passes.
  - eapply returns_seq; [apply trigger_returns|]. intros entry He. apply control_passes; [done|lia|done|lia].
  - eapply returns_seq; [apply gives_returns, enrich_gives, anything_lasts|].
    intros entry He. apply control_passes; [done|lia|done|lia].
  - by apply plain_passes.
Qed.

(** C10: A run of the loop from step 0 that ends without a failed step has
    passed every step of the playbook: the log records each one as succeeded
    or as jumped over by a branch. *)
Theorem finished_run_passes_every_step p c p' c' :
  run_steps (W := W) env now x steps prior owner duration (steps_fuel steps 0) 0 p c = (Ok (Finished p'), c') ->
  pr_failed p' = false ->
  forall k, 0 <= k < Z.of_nat (length steps) -> passed_step (pr_log p') k.
Proof.
  intros Hrun Hf.
  assert (forall fuel index p c, passed index p ->
    run_steps (W := W) env now x steps prior owner duration fuel index p c = (Ok (Finished p'), c') ->
    forall k, 0 <= k < Z.of_nat (length steps) -> passed_step (pr_log p') k) as Hgen.
  { clear Hrun p c. intros fuel. induction fuel as [|fuel IH]; intros index p c Hp; cbn [run_steps]; [done|].
    destruct (Z.leb_spec (Z.of_nat (length steps)) index) as [Hle|_].
    { intros [= <- _] k Hk. apply Hp; [done|lia]. }
    destruct (py_nth steps index) as [step|]; [|done].
    pose proof (run_step_passes step index p Hp c) as Hn. unfold bind.
    destruct (run_step _ _ _ _ _ _ _ step index p c) as [[n|e] c1]; [|done]. specialize (Hn n eq_refl).
    destruct n as [i q|q|r]; [by apply IH| |done]. intros [= -> _]. cbn in Hn. congruence. }
  eapply Hgen; [|exact Hrun]. split; [lia|]. lia.
Qed.
End Coverage.


(** ** Witnesses *)

(** A branch over the second step. *)
Definition ex_branching : list pyval :=
  [PDict [("action", PStr "branch");
          ("condition", PDict [("source", PStr "alert"); ("field", PStr "severity"); ("op", PStr ">="); ("value", PStr "high")]);
          ("goto_true", PStr "end")];
   ex_action "notify_teams"; PDict [("action", PStr "monitor"); ("label", PStr "end")]].

(** The execution, claimed by the worker. *)
Definition ex_claimed (steps : list pyval) : exec_db call_log :=
  (in_pb (claim_next_pending_playbook_execution_with_lease ex_pb_clock ∅ (Some "worker-1") 60 (Some ex_time)) (ex_db steps)).2.
Definition ex_loop_run : outcome loop_end * conn (exec_db call_log) :=
  run_steps ex_env ex_time (1, ex_row_of (ex_claimed ex_branching)) ex_branching "pending" "worker-1" 60
    (steps_fuel ex_branching 0) 0 (Progress [] None false PNone) (open_conn (ex_claimed ex_branching)).
Definition ex_loop_progress : progress :=
  match ex_loop_run.1 with Ok (Finished p) => p | _ => Progress [] None true PNone end.

Lemma finished_run_passes_every_step_witness :
  xd_world (cn_current ex_loop_run.2) = ["monitor"] /\
  forall k, 0 <= k < 3 -> passed_step (pr_log ex_loop_progress) k.
Proof.
  split; [vm_compute; reflexivity|].
  apply (finished_run_passes_every_step ex_env ex_time (1, ex_row_of (ex_claimed ex_branching)) ex_branching "pending"
    "worker-1" 60 (Progress [] None false PNone) (open_conn (ex_claimed ex_branching)) ex_loop_progress ex_loop_run.2).
  - vm_compute. reflexivity.
  - vm_compute. reflexivity.
Defined.
