(* ===== verification/ExecutorGates.v ===== *)
(** * ExecutorGates: approval gates hold the execution back *)

From S2P Require Import Prelude PyText PyFloat PyValue Tables Interfaces Hoare Approvals Outcomes.
From S2P Require Import Deliveries ActionVocabulary Alerts ParamBinding BranchConditions PlaybookRegistry.
From S2P Require Import PlaybookStore DeadLetters StepLog StepEvents StepActions StepExecutor ExecutorProtocol.
From S2P Require Import StepExecutorProofs.

Open Scope Z_scope.

(** ** Approval gates *)

Section Gate.
Context {W : Type} `{StepServices W}.
Context (i : Z).

(** The services' state, the alerts and the deliveries are untouched, so are
    all other executions, and [i] is at most set to not_actioned. *)
Record held (d d' : exec_db W) : Prop := Held {
  hd_world : xd_world d' = xd_world d;
  hd_alerts : xd_alerts d' = xd_alerts d;
  hd_deliveries : xd_deliveries d' = xd_deliveries d;
  hd_others : forall j, j <> i -> pb_execs (xd_pb d') !! j = pb_execs (xd_pb d) !! j;
  hd_status : forall r, pb_execs (xd_pb d) !! i = Some r ->
    exists r', pb_execs (xd_pb d') !! i = Some r' /\ (x_status r' = x_status r \/ x_status r' = XNotActioned);
}.

#[local] Instance held_preorder : PreOrder held.
Proof.
  split.
  - intros d. split; [done..|]. eauto.
  - intros d1 d2 d3 [H1 H2 H3 H4 H5] [G1 G2 G3 G4 G5]. split; [congruence..| |].
    + intros j Hj. by rewrite G4, H4.
    + intros r Hr. destruct (H5 r Hr) as (r2 & Hr2 & Hs2). destruct (G5 r2 Hr2) as (r3 & Hr3 & Hs3).
      exists r3. split; [done|]. destruct Hs3 as [->|]; auto.
Qed.

Abbreviation holds m := (keeps (R := cn_rel held) (fun _ => True) m).

(** A statement on the approvals or the outcome log. *)
Definition side_frame {A} (m : M (exec_db W) A) : Prop := forall d,
  xd_soar (m d).2 = xd_soar d /\ xd_world (m d).2 = xd_world d /\ xd_alerts (m d).2 = xd_alerts d /\
  xd_deliveries (m d).2 = xd_deliveries d.

Lemma side_held {A} (m : M (exec_db W) A) d : side_frame m -> held d (m d).2.
Proof.
  intros Hm. destruct (Hm d) as (Hs & Hw & Ha & Hd). split; [done..| |]; unfold xd_pb; rewrite Hs; eauto.
Qed.

Lemma execute_holds {A} (m : M (exec_db W) A) : (forall d, held d (m d).2) -> holds (execute m).
Proof.
  intros Hm. apply (triple_execute held (fun _ => True) m (fun _ _ => True)); [apply _|]. by intros d _.
Qed.

Lemma savepoint_holds {A} (m : M (exec_db W) A) : side_frame m -> holds (savepoint_conn m).
Proof.
  intros Hm c _. unfold savepoint_conn. destruct (cn_aborted c); [by split; [reflexivity|]|].
  pose proof (side_held m (cn_current c) Hm) as Hh. destruct (Hm (cn_current c)) as (Hs & Hw & Ha & Hd).
  destruct (m (cn_current c)) as [[a|e] d]; cbn [fst snd] in *; (split; [|done]); split; try done.
  cbn [cn_current]. split; cbn; [by rewrite Hw, restore_id|done|rewrite Hd; by destruct (xd_deliveries (cn_current c))| |].
  all: unfold xd_pb; cbn; rewrite ?Hs; eauto.
Qed.

Lemma append_holds x e : forall env, holds (append_playbook_execution_outcome_event (W := W) env x e).
Proof.
  intros env. unfold append_playbook_execution_outcome_event. repeat case_match; try apply keeps_ret.
  apply savepoint_holds. intros d. unfold in_outcomes, zoom. by destruct (append_outcome_event _ _ _ _).
Qed.

Lemma update_holds cond f :
  (forall r, x_status (f r) = x_status r \/ x_status (f r) = XNotActioned) ->
  holds (stmt_pb (W := W) (update_exec i cond f)).
Proof.
  intros Hf. apply execute_holds. intros d. unfold in_pb, in_soar, on_pb, zoom, update_exec, xd_pb.
  destruct (pb_execs (sd_pb (xd_soar d)) !! i) as [r|] eqn:Hi; [|split; unfold xd_pb; cbn; try done; by rewrite Hi].
  destruct (cond r); [|split; unfold xd_pb; cbn; eauto].
  destruct (pair_taken _ _ _); [split; unfold xd_pb; cbn; eauto|].
  split; unfold xd_pb; cbn; [done..| |].
  - intros j Hj. by rewrite lookup_insert_ne.
  - intros r0 Hr0. rewrite Hi in Hr0. injection Hr0 as <-. exists (f r). by rewrite lookup_insert_eq.
Qed.
Lemma release_holds owner : holds (release (W := W) i owner).
Proof.
  apply keeps_seq; [|intros; apply keeps_ret]. unfold release_execution_lease, require_owner.
  destruct (is_empty (strip (default "" (Some owner)))).
  - apply execute_holds. intros [[]]. split; unfold xd_pb; cbn; eauto.
  - apply (update_holds (owned_by _) (set_x_lease no_lease)). intros []. by left.
Qed.

Lemma finalize_not_actioned_holds env now owner log last :
  holds (finalize_not_actioned (W := W) env now i owner log last).
Proof.
  assert (forall w, holds (finish (W := W) env now XNotActioned i w log last)) as Hfinish.
  { intros w. apply update_holds. intros []. by right. }
  assert (forall (f : exec_db W -> option (Z * exec_row)), holds (stmt_reads f)) as Hreads.
  { intros f. apply execute_holds. intros d. cbn. reflexivity. }
  apply keeps_seq.
  - apply keeps_seq; [apply Hfinish|]. intros [u|]; [apply keeps_ret|]. apply keeps_seq; [apply Hreads|].
    intros [[j r]|]; [|apply keeps_ret]. case_match; [apply Hfinish|apply keeps_ret].
  - intros [u|]; [|apply keeps_ret]. apply keeps_seq; [apply append_holds|intros _].
    apply keeps_seq; [apply release_holds|intros _]. apply keeps_ret.
Qed.

(** The request of the gate that [i] waits at, after it is expired if it is
    overdue. *)
Definition gate_request_of (env : exec_env) (now gate : Z) (d : exec_db W) : outcome (option (Z * approval_row)) :=
  (get_latest_playbook_step_approval_request (en_clock env) i gate true (Some now) (xd_approvals d)).1.

(** The request does not let the execution pass: it is pending, or it was
    denied or expired and the gate does not branch on that. *)
Definition gate_shut (d : exec_db W) (x : exec_row) (gate : Z) (r : Z * approval_row) : Prop :=
  ap_status r.2 = Pending \/
  (ap_status r.2 <> Approved /\
   eq_str (terminal_behavior (default [] (definition_steps (x_playbook_id x) d)) gate (ap_status r.2)) "branch" = false).

Lemma stop_holds env now x steps log gate r owner :
  x.1 = i -> holds (stop_refused (W := W) env now x steps log gate r owner).
Proof.
  intros Hx. unfold stop_refused. rewrite Hx.
  apply keeps_seq; [apply finalize_not_actioned_holds|intros; apply keeps_ret].
Qed.

Lemma reads_triple {A B} (P : exec_db W -> Prop) (f : exec_db W -> A) a0 (k : A -> M (conn (exec_db W)) B) Q :
  (forall d, P d -> f d = a0) -> triple (on_current P) (cn_rel held) (k a0) Q ->
  triple (on_current P) (cn_rel held) (bind (stmt_reads f) k) Q.
Proof.
  intros Hf Hk. eapply triple_bind.
  { apply (triple_execute held P (gets f) (fun a d => P d /\ a = f d)); [apply _|]. by apply triple_gets. }
  intros a c [Hp ->]. rewrite (Hf _ Hp). by apply Hk.
Qed.

(** A refused request that the gate does not branch on. *)
Lemma refused_holds env now x log gate r owner duration found :
  x.1 = i -> eq_str (terminal_behavior (default [] found) gate (ap_status r.2)) "branch" = false ->
  triple (on_current (fun d => definition_steps (x_playbook_id x.2) d = found)) (cn_rel held)
    (resume_refused_request (W := W) env now x log gate r owner duration) anything.
Proof.
  intros Hx Hb. apply (reads_triple _ _ found); [done|]. cbn zeta. rewrite Hb.
  eapply triple_weaken with (P := fun _ => True) (Q := fun _ _ => True); [|done|done].
  apply keeps_seq; [|intros sent; by apply stop_holds].
  apply keeps_seq; [|intros; apply append_holds]. apply execute_holds. intros d. reflexivity.
Qed.

Lemma awaiting_holds env now x gate entry r owner duration d :
  x.1 = i -> latest_gate_entry (x_steps_log x.2) = Some (gate, entry) ->
  gate_request_of env now gate d = Ok (Some r) -> gate_shut d x.2 gate r ->
  triple (on_current (fun d' => d' = d)) (cn_rel held)
    (process_awaiting_approval_execution (W := W) env now x owner duration) anything.
Proof.
  intros Hx Hgate Hr Hshut. unfold process_awaiting_approval_execution. rewrite Hgate, Hx. eapply triple_bind.
  { apply (triple_execute held (fun d' => d' = d) _
      (fun a d' => definition_steps (x_playbook_id x.2) d' = definition_steps (x_playbook_id x.2) d /\ a = Some r));
      [apply _|]. intros d0 ->. unfold gate_request_of in Hr. unfold in_approvals, zoom.
    destruct (get_latest_playbook_step_approval_request _ _ _ _ _ _) as [o s']. cbn in Hr. subst o.
    split; [split; unfold xd_pb; cbn; eauto|]. by intros a [= <-]. }
  intros a. apply (triple_pure (on_current (fun d' => definition_steps (x_playbook_id x.2) d' = definition_steps (x_playbook_id x.2) d))).
  intros ->. destruct Hshut as [Hp|[Ha Hb]].
  - rewrite Hp. by apply triple_ret.
  - destruct (ap_status r.2) eqn:Hst; [by apply triple_ret|done| |]; apply refused_holds; by rewrite ?Hst.
Qed.

(** C5: While the approval request of the gate an execution waits at is
    pending, or was denied or has expired and the gate does not branch on
    that, a call on the execution calls no service, sends nothing, writes no
    alert, starts no child and touches no other execution; the execution
    stays awaiting or becomes not_actioned. *)
Theorem gate_blocks env now worker lease c x gate entry r :
  pb_execs (xd_pb (cn_current c)) !! i = Some x -> x_status x = XAwaitingApproval ->
  latest_gate_entry (x_steps_log x) = Some (gate, entry) ->
  gate_request_of env now gate (cn_current c) = Ok (Some r) -> gate_shut (cn_current c) x gate r ->
  held (cn_current c) (cn_current (process_playbook_execution env now i worker lease c).2).
Proof.
  intros Hi Hst Hgate Hr Hshut.
  assert (triple (on_current (fun d => d = cn_current c)) (cn_rel held)
    (process_playbook_execution (W := W) env now i worker lease) anything) as Ht; [|by apply (Ht c)].
  apply (reads_triple _ _ (Some (i, x))); [by intros d ->; unfold get_playbook_execution; rewrite Hi|].
  cbn zeta. cbn [snd]. rewrite Hst. eapply triple_bind; [by apply keeps_of_outcome|]. intros duration.
  by eapply awaiting_holds.
Qed.
End Gate.


(** ** Witnesses *)

Definition ex_gate_entry : pydict := match latest_gate_entry (x_steps_log (ex_row_of ex_waiting)) with Some (_, e) => e | None => [] end.
Definition ex_gate_request : Z * approval_row :=
  match gate_request_of 1 ex_env ex_time 1 ex_waiting with
  | Ok (Some r) => r
  | _ => (0, ApprovalRow None None None None None None None Approved "" "" None None 0 None 0)
  end.

Lemma gate_blocks_witness :
  ap_status ex_gate_request.2 = Pending /\
  held 1 (cn_current (open_conn ex_waiting))
    (cn_current (process_playbook_execution ex_env ex_time 1 None None (open_conn ex_waiting)).2).
Proof.
  split; [vm_compute; reflexivity|].
  apply (gate_blocks 1 ex_env ex_time None None (open_conn ex_waiting) (ex_row_of ex_waiting) 1 ex_gate_entry ex_gate_request).
  - vm_compute. reflexivity.
  - vm_compute. reflexivity.
  - vm_compute. reflexivity.
  - vm_compute. reflexivity.
  - left. vm_compute. reflexivity.
Defined.
