(* ===== verification/ExecutorEffects.v ===== *)
(** * ExecutorEffects: what a step may do and what it records

    The guards in front of the adapters, and the events of the outcome
    log. *)

From S2P Require Import Prelude PyText PyFloat PyValue Tables Interfaces ProtectedTargets Approvals Outcomes.
From S2P Require Import Deliveries ActionVocabulary Alerts ParamBinding BranchConditions PlaybookRegistry.
From S2P Require Import PlaybookStore DeadLetters StepLog StepEvents StepActions StepExecutor ExecutorProtocol.

Open Scope Z_scope.

(** ** Guards *)

Section Guards.
Context {W : Type} `{StepServices W}.
Context (env : exec_env) (now : Z).

(** The parameters of a step, with their bindings resolved. *)
Definition resolved_params (step : pydict) (x : Z * exec_row) (d : exec_db W) : outcome pydict :=
  resolve_step_params (step_params step) (execution_dict x) None (xd_alerts d).

Lemma stmt_reads_bind {A B} (f : exec_db W -> A) (k : A -> M (conn (exec_db W)) B) c :
  cn_aborted c = false -> bind (stmt_reads f) k c = k (f (cn_current c)) c.
Proof. intros Hc. unfold bind, stmt_reads, execute. rewrite Hc. destruct c as [com cur ab]. cbn in *. by subst ab. Qed.

Definition adapter_of (action : string) : string * string := default ("", "") (ADAPTER_ACTIONS action).

(** C32: A block_ip step whose target is protected, or cannot be checked
    because the configuration does not parse or because it is no address,
    fails without calling an adapter or a service: the database is left as
    it was. *)
Theorem block_ip_guarded step index x c params e :
  cn_aborted c = false -> dget step "action" = PStr "block_ip" ->
  resolved_params step x (cn_current c) = Ok params ->
  require_unprotected_target (en_protected_ips env) (block_target params) = Raise e ->
  exists entry, simulated_entry env now x (PDict step) index c = (Ok entry, c) /\
    dget entry "status" = PStr "failed" /\ dget entry "step_index" = PInt index.
Proof.
  intros Hc Ha Hp Hr. exists (match e with
    | SkippedAction message code => step_failure now index "block_ip" message code
    | e => failure_entry now (Some index) (PStr "block_ip") (exn_str e) "simulation_exception" None
    end).
  assert (simulate_step env now (PDict step) index x c = match e with
    | SkippedAction message code => (Ok (step_failure now index "block_ip" message code), c)
    | e => (Raise e, c) end) as Hs.
  { unfold simulate_step. cbn [as_dict]. rewrite Ha. cbn [as_nonempty_str as_str].
    change (guarded_adapter env now step index x "block_ip" (adapter_of "block_ip").1 (adapter_of "block_ip").2 c = match e with
    | SkippedAction message code => (Ok (step_failure now index "block_ip" message code), c)
    | e => (Raise e, c) end).
    unfold guarded_adapter, with_params. rewrite stmt_reads_bind by done.
    unfold resolved_params in Hp. rewrite Hp. cbn zeta. cbn [String.eqb]. rewrite Hr. by destruct e. }
  unfold simulated_entry, try_catch. rewrite Hs. destruct e; (split; [|by split]); cbn; by rewrite ?Ha.
Qed.

Lemma notification_cases action : str_in action NOTIFICATION_ACTIONS = true ->
  action = "notify_slack" \/ action = "notify_teams" \/ action = "notify_email" \/ action = "notify_webhook".
Proof.
  intros Hn%str_in_spec. unfold NOTIFICATION_ACTIONS in Hn. rewrite !elem_of_cons, elem_of_nil in Hn. tauto.
Qed.

(** The delivery of the step that is recorded as succeeded or pending. *)
Definition delivered_already (action : string) (index : Z) (x : Z * exec_row) (d : exec_db W) (row : Z * delivery_row) : Prop :=
  existing_active_delivery env (default "" (PROVIDER_FOR_ACTION action)) action x.1 index d = Ok (Some row).

(** A notification step whose delivery is already recorded as succeeded
    or pending is not sent again: the step succeeds as skipped and the
    database is left as it was. *)
Theorem delivered_step_not_resent step action index x c row :
  cn_aborted c = false -> dget step "action" = PStr action ->
  str_in action NOTIFICATION_ACTIONS = true ->
  delivered_already action index x (cn_current c) row ->
  exists entry, simulated_entry env now x (PDict step) index c = (Ok entry, c) /\
    dget entry "status" = PStr "success" /\ dget entry "skipped" = PBool true /\ dget entry "step_index" = PInt index.
Proof.
  intros Hc Ha Hn He. exists (already_delivered_entry now step index action row).
  assert (simulate_step env now (PDict step) index x c = (Ok (already_delivered_entry now step index action row), c)) as Hs.
  { unfold simulate_step. cbn [as_dict]. rewrite Ha.
    apply notification_cases in Hn as [-> |[-> |[-> | ->]]]; cbn [as_nonempty_str as_str is_empty].
    - change (simulate_notification_policy_slack_step env now step index x c =
        (Ok (already_delivered_entry now step index "notify_slack" row), c)).
      unfold simulate_notification_policy_slack_step. rewrite stmt_reads_bind by done. by setoid_rewrite He.
    - change (simulate_adapter_step env now step index x "notify_teams" "teams" "send_message" c =
        (Ok (already_delivered_entry now step index "notify_teams" row), c)).
      unfold simulate_adapter_step. change (PROVIDER_FOR_ACTION "notify_teams") with (Some "teams"). cbv iota.
      rewrite stmt_reads_bind by done. by setoid_rewrite He.
    - change (simulate_adapter_step env now step index x "notify_email" "email" "send_email" c =
        (Ok (already_delivered_entry now step index "notify_email" row), c)).
      unfold simulate_adapter_step. change (PROVIDER_FOR_ACTION "notify_email") with (Some "email"). cbv iota.
      rewrite stmt_reads_bind by done. by setoid_rewrite He.
    - change (simulate_adapter_step env now step index x "notify_webhook" "webhook" "post_event" c =
        (Ok (already_delivered_entry now step index "notify_webhook" row), c)).
      unfold simulate_adapter_step. change (PROVIDER_FOR_ACTION "notify_webhook") with (Some "webhook"). cbv iota.
      rewrite stmt_reads_bind by done. by setoid_rewrite He. }
  unfold simulated_entry, try_catch. rewrite Hs. split; [done|].
  unfold already_delivered_entry, with_label. case_match; rewrite ?dget_dset_ne by done; by split_and!.
Qed.
End Guards.

(** ** Events *)

(** What the outcome writer's validators ask of an event. *)
Definition event_valid (e : playbook_event) : Prop :=
  validate_execution_mode (pe_mode e) = Ok (pe_mode e) /\ validate_execution_state (pe_state e) = Ok (pe_state e) /\
  validate_execution_actor (pe_actor e) = Ok (pe_actor e) /\ validate_reason_code (pe_reason e) = Ok (pe_reason e) /\
  validate_outcome_booleans (pe_mode e) (pe_state e) (pe_external e) false (pe_simulated e) = Ok tt.

(** The events of an execution. *)
Inductive executor_event (x : Z * exec_row) : playbook_event -> Prop :=
  | ev_running : executor_event x (playbook_running_event x)
  | ev_resumed r : executor_event x (playbook_resumed_event x r)
  | ev_step entry index e : step_event x.1 entry index = Some e -> executor_event x e
  | ev_delivery attempt mapped :
      map_notification_delivery_outcome attempt = Ok mapped -> executor_event x (notification_event x attempt mapped)
  | ev_awaiting r index summary : executor_event x (awaiting_event x r index summary)
  | ev_approved r summary id : ap_status r.2 = Approved ->
      executor_event x (decision_event x r "approval_approved" "running" summary id)
  | ev_refused r ty continue summary id : ap_status r.2 = Denied \/ ap_status r.2 = Expired ->
      executor_event x (decision_event x r ty (if continue : bool then "running" else "blocked") summary id)
  | ev_succeeded summary : executor_event x (terminal_event x "succeeded" "succeeded" summary)
  | ev_failed summary : executor_event x (terminal_event x "failed" "failed" summary).

Lemma delivery_event_valid x attempt mapped :
  map_notification_delivery_outcome attempt = Ok mapped -> event_valid (notification_event x attempt mapped).
Proof.
  unfold map_notification_delivery_outcome. destruct (notification_delivery_has_real_evidence attempt) as [ev|]; [|done].
  cbn [obind]. generalize (lower_text (dget attempt "status") "failed") as status. intros status.
  destruct (String.eqb (if _ || _ then _ else _) "real"); cbn [negb andb];
    repeat case_match; intros [= <-]; by split_and!.
Qed.

(** The classification of a step, against the writer's validators. *)
Definition class_valid (st : string) (c : step_classification) : Prop :=
  validate_execution_mode (sc_mode c) = Ok (sc_mode c) /\ validate_reason_code (sc_reason c) = Ok (sc_reason c) /\
  validate_outcome_booleans (sc_mode c) st false false (sc_simulated c) = Ok tt.

Lemma reason_valid entry :
  validate_reason_code (Some (canonical_playbook_reason_code entry)) = Ok (Some (canonical_playbook_reason_code entry)).
Proof. unfold canonical_playbook_reason_code. by repeat case_match. Qed.

Lemma classification_valid entry st :
  st = "succeeded" \/ st = "failed" -> class_valid st (playbook_step_outcome_classification entry).
Proof.
  intros Hst. unfold playbook_step_outcome_classification.
  pose proof (reason_valid entry) as Hr. revert Hr. generalize (canonical_playbook_reason_code entry) as reason. intros reason Hr.
  generalize (String.eqb (lower (entry_text entry "status")) "success") as ok. intros ok. cbn zeta.
  destruct (_ || _ || _). { destruct ok, Hst as [-> | ->]; by split_and!. }
  destruct (_ || String.eqb _ "internal").
  { destruct ok, Hst as [-> | ->]; cbn [negb]; repeat case_match; by split_and!. }
  destruct (_ && _). { destruct Hst as [-> | ->]; by split_and!. }
  destruct (str_in (lower (entry_text entry "mode")) _) eqn:Hm.
  - apply str_in_spec in Hm. rewrite !elem_of_cons, elem_of_nil in Hm.
    destruct Hm as [Hm|[Hm|[Hm|[]]]]; rewrite Hm; destruct ok, Hst as [-> | ->]; by split_and!.
  - destruct ok, Hst as [-> | ->]; by split_and!.
Qed.

Lemma step_event_valid i entry index e : step_event i entry index = Some e -> event_valid e.
Proof.
  unfold step_event. intros He.
  pose proof (classification_valid entry "succeeded" (or_introl eq_refl)) as (Hm & Hr & Hs).
  pose proof (classification_valid entry "failed" (or_intror eq_refl)) as (_ & _ & Hf).
  destruct (eq_str (dget entry "status") "success"); [|destruct (eq_str (dget entry "status") "failed"); [|done]];
    injection He as <-; by split_and!.
Qed.

(** Every event the executor appends passes the outcome writer's
    validation of modes, states, actors, reason codes and flags, whatever
    the steps, the services and the approvals answered, except the one for
    an execution that ends as not_actioned (see
    [not_actioned_never_logged]). *)
Theorem executor_events_valid x e : executor_event x e -> event_valid e.
Proof.
  intros []; try by split_and!.
  - by eapply step_event_valid.
  - by apply delivery_event_valid.
  - unfold decision_event, event_valid. cbn. by rewrite H.
  - unfold decision_event, event_valid. cbn. destruct H as [-> | ->]; by destruct continue.
Qed.

Section Dropped.
Context {W : Type} `{StepServices W}.

(** The event for an execution that ended as not_actioned is never
    written: the state "not_actioned" is no execution state of the outcome
    log, the writer refuses it, and the refusal is swallowed. *)
Theorem not_actioned_never_logged env x summary (c : conn (exec_db W)) :
  append_playbook_terminal_outcome_event env x "not_actioned" "not_actioned" summary c = (Ok None, c).
Proof.
  unfold append_playbook_terminal_outcome_event, append_playbook_execution_outcome_event.
  destruct (x_decision_id x.2) as [decision|]; [|done]. destruct (x_soar_correlation_id x.2) as [correlation|]; [|done].
  destruct (is_empty correlation); [done|]. unfold savepoint_conn. destruct (cn_aborted c) eqn:Ha; [done|].
  set (p := playbook_event_params _ _ _ _ _).
  assert (exists e, append_outcome_event (en_inet env) (en_clock env) p (xd_outcomes (cn_current c)) =
    (Raise e, xd_outcomes (cn_current c))) as [e He].
  { unfold append_outcome_event. cbn [p playbook_event_params ep_decision_id ep_outcome_summary ep_mode ep_state].
    rewrite bool_decide_eq_false_2 by done. cbn [andb]. case_match; eexists; reflexivity. }
  unfold in_outcomes, zoom. rewrite He. destruct c as [com [s a o n l w] ab]. cbn in Ha. subst ab.
  cbn [cn_committed cn_current xd_soar xd_approvals xd_outcomes xd_deliveries xd_alerts xd_world]. by rewrite restore_id.
Qed.
End Dropped.

(** ** Deliveries *)

Lemma eq_str_spec v t : eq_str v t = true -> v = PStr t.
Proof. destruct v; cbn; try done. intros Ht%String.eqb_eq. by subst. Qed.

Lemma real_evidence attempt :
  notification_delivery_has_real_evidence attempt = Ok true ->
  dget attempt "mode" = PStr "real" /\ dget attempt "status" = PStr "success" /\
  exists metadata, dget attempt "metadata" = PDict metadata /\ dget metadata "executed" = PBool true /\
    dget metadata "simulated" = PBool false.
Proof.
  unfold notification_delivery_has_real_evidence.
  destruct (eq_str (dget attempt "mode") "real") eqn:Hm; [|done].
  destruct (eq_str (dget attempt "status") "success") eqn:Hs; [|done]. cbn [negb orb].
  apply eq_str_spec in Hm, Hs. intros He. split_and!; [done..|].
  unfold or_empty, py_or in He. destruct (truthy (dget attempt "metadata")); [|done].
  destruct (dget attempt "metadata") as [| | | | | | | | |metadata] eqn:Hmd; try done. exists metadata. cbn [attr_get obind] in He.
  split; [done|]. cbn [dict_or_empty] in He. unfold is_true, is_false in He.
  destruct (dget metadata "executed") as [|[]| | | | | | | |]; try done.
  destruct (dget metadata "simulated") as [|[]| | | | | | | |]; try done.
Qed.

Definition external_evidence (attempt : pydict) : Prop :=
  dget attempt "mode" = PStr "real" /\ dget attempt "status" = PStr "success" /\
  dget attempt "action" <> PStr "notify_teams" /\
  (exists metadata, dget attempt "metadata" = PDict metadata /\ dget metadata "executed" = PBool true /\
     dget metadata "simulated" = PBool false).

(** A delivery is reported as executed outside only on evidence: it was
    a successful attempt in real mode, by a provider other than Teams, whose
    metadata says executed and not simulated. *)
Theorem external_needs_evidence attempt mapped :
  map_notification_delivery_outcome attempt = Ok mapped -> do_external mapped = true ->
  external_evidence attempt /\ do_state mapped = "succeeded" /\ do_mode mapped = "real" /\ do_simulated mapped = false.
Proof.
  unfold map_notification_delivery_outcome. destruct (notification_delivery_has_real_evidence attempt) as [ev|] eqn:Hev; [|done].
  cbn [obind]. intros Hm Hext.
  destruct (_ || _) eqn:Hteams in Hm; cbn [negb andb] in Hm.
  { repeat (case_match; simplify_eq/=; try done). }
  destruct ev; [|rewrite !andb_false_r in Hm; repeat (case_match; simplify_eq/=; try done)].
  assert (do_state mapped = "succeeded" /\ do_mode mapped = "real" /\ do_simulated mapped = false) as Hrest.
  { repeat (case_match; simplify_eq/=; try done). }
  apply orb_false_iff in Hteams as [_ Hteams].
  assert (dget attempt "action" <> PStr "notify_teams") as Hact by (intros Hact; by rewrite Hact in Hteams).
  destruct (real_evidence _ Hev) as (Hmode & Hstatus & Hmeta). unfold external_evidence. tauto.
Qed.

(** ** Witnesses *)

Definition ex_target (ip : string) : pydict :=
  [("action", PStr "block_ip"); ("params", PDict [("source_ip", PStr ip)])].

Lemma block_ip_guarded_witness :
  exists entry, simulated_entry ex_env ex_time (1, ex_pb_row) (PDict (ex_target "10.1.2.3")) 0 (open_conn (ex_db [])) =
    (Ok entry, open_conn (ex_db [])) /\ dget entry "status" = PStr "failed" /\ dget entry "step_index" = PInt 0.
Proof.
  destruct (require_unprotected_target (en_protected_ips ex_env) (block_target [("source_ip", PStr "10.1.2.3")])) as [u|e] eqn:E;
    [vm_compute in E; discriminate E|].
  apply (block_ip_guarded ex_env ex_time (ex_target "10.1.2.3") 0 (1, ex_pb_row) (open_conn (ex_db []))
    [("source_ip", PStr "10.1.2.3")] e); [reflexivity|reflexivity|vm_compute; reflexivity|exact E].
Defined.

(** A playbook that has sent its notification. *)
Definition ex_sent : exec_db call_log :=
  cn_current (process_playbook_execution ex_env ex_time 1 None None (open_conn (ex_db [ex_action "notify_teams"]))).2.
Definition ex_sent_row : option (Z * delivery_row) :=
  match existing_active_delivery ex_env "teams" "notify_teams" 1 0 ex_sent with Ok o => o | Raise _ => None end.

Lemma delivered_step_not_resent_witness :
  exists entry, simulated_entry ex_env ex_time (1, ex_row_of ex_sent) (ex_action "notify_teams") 0 (open_conn ex_sent) =
    (Ok entry, open_conn ex_sent) /\ dget entry "status" = PStr "success" /\ dget entry "skipped" = PBool true /\
    dget entry "step_index" = PInt 0.
Proof.
  destruct ex_sent_row as [row|] eqn:E; [|vm_compute in E; discriminate E].
  apply (delivered_step_not_resent ex_env ex_time [("action", PStr "notify_teams")] "notify_teams" 0 (1, ex_row_of ex_sent)
    (open_conn ex_sent) row); [reflexivity|reflexivity|reflexivity|].
  unfold ex_sent_row in E. revert E. vm_compute. intros [= <-]. reflexivity.
Defined.

Lemma executor_events_valid_witness :
  event_valid (playbook_running_event (1, ex_pb_row)) /\
  event_valid (terminal_event (1, ex_pb_row) "failed" "failed" "Playbook execution failed.").
Proof. split; apply (executor_events_valid (1, ex_pb_row)); constructor. Defined.

Definition ex_attempt : pydict :=
  [("mode", PStr "real"); ("status", PStr "success"); ("provider", PStr "slack"); ("action", PStr "send_message");
   ("metadata", PDict [("executed", PBool true); ("simulated", PBool false); ("adapter_mode", PStr "real")])].
Definition ex_mapped : delivery_outcome :=
  match map_notification_delivery_outcome ex_attempt with
  | Ok m => m | Raise _ => DeliveryOutcome "" "" false false None false "" end.

Lemma external_needs_evidence_witness : do_external ex_mapped = true /\ do_mode ex_mapped = "real".
Proof.
  split; [vm_compute; reflexivity|].
  apply (external_needs_evidence ex_attempt ex_mapped); vm_compute; reflexivity.
Defined.
