(* ===== verification/ExecutorFindings.v ===== *)
(** * ExecutorFindings: behaviours of the executor its callers may not expect *)

From S2P Require Import Prelude PyText PyFloat PyValue Tables Interfaces Hoare Approvals Outcomes.
From S2P Require Import Deliveries ActionVocabulary Alerts ParamBinding BranchConditions PlaybookRegistry.
From S2P Require Import PlaybookStore DeadLetters StepLog StepEvents StepActions StepExecutor ExecutorProtocol.
From S2P Require Import StepExecutorProofs ExecutorProperties.

Open Scope Z_scope.

(** ** A poisoned execution *)

Section Poison.
Context {W : Type} `{StepServices W}.

Definition any (c c' : conn (exec_db W)) : Prop := True.
#[local] Instance any_preorder : PreOrder any.
Proof. done. Qed.

(** [m] does not return from states in [P]. *)
Abbreviation never P m := (triple P any m (fun _ _ => False)).

Lemma never_raises {A} P (m : M (conn (exec_db W)) A) c : never P m -> P c -> exists e, (m c).1 = Raise e.
Proof. intros Hm Hp. destruct (Hm c Hp) as [_ HQ]. destruct (m c).1 as [a|e]; [by destruct (HQ a)|eauto]. Qed.

(** The tables a turn reads to decide what to run. *)
Definition same_work (d d' : exec_db W) : Prop :=
  pb_defs (xd_pb d') = pb_defs (xd_pb d) /\ pb_execs (xd_pb d') = pb_execs (xd_pb d) /\ xd_alerts d' = xd_alerts d.

Lemma never_bind {A B} P (m : M (conn (exec_db W)) A) (k : A -> M (conn (exec_db W)) B) : never P m -> never P (bind m k).
Proof. intros Hm. eapply triple_bind; [exact Hm|by intros ? c []]. Qed.

Lemma pure_pre {A} (P : exec_db W -> Prop) (fact : Prop) (m : M (conn (exec_db W)) A) Q :
  (fact -> triple (on_current P) any m Q) -> triple (on_current (fun d => P d /\ fact)) any m Q.
Proof. intros Hm c [Hp Hf]. by apply Hm. Qed.

Section Claim.
Context (i : Z) (r : exec_row) (condition step0 : pydict) (rest : list pyval) (def : definition_row) (e0 : exn).
Context (Hr : x_status r = XPending) (Hlease : x_lease r = no_lease) (Hlog : x_steps_log r = [])
  (Hlast : x_last_completed_step r = None) (Hsteps : pd_steps def = PDict step0 :: rest).
Context (Haction : dget step0 "action" = PStr "branch") (Hcond : dget step0 "condition" = PDict condition)
  (He0 : forall code message, e0 <> BranchConditionError code message).

(** The oldest pending execution is [i]; the branch that starts its playbook
    raises on the alert. *)
Definition poisoned (d : exec_db W) : Prop :=
  pb_execs (xd_pb d) !! i = Some r /\ pb_defs (xd_pb d) !! x_playbook_id r = Some def /\
  evaluate_branch_condition (xd_alerts d) condition (x_alert_id r) [] = Raise e0.

(** .. and the next to be claimed. *)
Definition poisoned_next (locked : gset Z) (d : exec_db W) : Prop :=
  poisoned d /\ fst <$> next_pending locked (xd_pb d) = Some i.

Section Run.
Context (env : exec_env) (now : Z) (owner : string) (duration : Z).
Let claimed : exec_row := start_under (strip owner) now duration r.

Definition at_branch (s : pb_store) (alerts : alert_table) : Prop :=
  0 < duration /\ pb_execs s !! i = Some claimed /\ pb_defs s !! x_playbook_id r = Some def /\
  evaluate_branch_condition alerts condition (x_alert_id r) [] = Raise e0.

(** The branch step, once the execution is claimed. *)
Definition started (d : exec_db W) : Prop := at_branch (xd_pb d) (xd_alerts d).

Lemma claim_starts locked :
  triple (on_current (poisoned_next locked)) any
    (stmt_pb (claim_next_pending_playbook_execution_with_lease (en_clock env) locked (Some owner) duration (Some now)))
    (fun o => on_current (fun d => started d /\ o = Some (i, claimed))).
Proof using Hr Hlease.
  eapply triple_weaken with (Q := fun o => on_current (fun d => started d /\ o = Some (i, claimed)));
    [|exact (fun c H => H)|done].
  intros c [(Hi & Hd & He) Hnext]. split; [done|]. intros o. unfold stmt_pb, execute.
  destruct (cn_aborted c); [done|]. unfold in_pb, in_soar, on_pb, zoom. unfold xd_pb in *.
  set (s := sd_pb (xd_soar (cn_current c))) in *.
  unfold claim_next_pending_playbook_execution_with_lease, require_owner, require_duration, bind, raise, ret, gets.
  cbn [default from_option id]. destruct (is_empty (strip owner)); [done|].
  destruct (Z.ltb_spec duration 1) as [|Hdur]; [done|]. destruct (next_pending locked s) as [[j r0]|]; [|done]. cbn in Hnext. injection Hnext as ->.
  unfold update_exec. rewrite Hi. unfold leasable, has_exec_status. rewrite Hr, Hlease. cbn.
  destruct (pair_taken _ _ _); [done|]. cbn. intros [= <-]. split; [|done].
  split_and!; [lia|apply lookup_insert_eq|exact Hd|exact He].
Qed.

Lemma append_starts x e :
  triple (on_current started) any (append_playbook_execution_outcome_event env x e) (fun _ => on_current started).
Proof using.
  intros c Hc. split; [done|]. intros o. unfold append_playbook_execution_outcome_event.
  repeat case_match; try (by intros [= <-]). unfold savepoint_conn. destruct (cn_aborted c); [by intros [= <-]|].
  unfold in_outcomes, zoom. destruct (append_outcome_event _ _ _ _) as [[a|ex] s']; intros [= <-]; [exact Hc|].
  unfold on_current, started, xd_pb in *. cbn. by destruct (sd_pb (xd_soar (cn_current c))).
Qed.

(** The heartbeat before the step succeeds or raises. *)
Lemma heartbeat_starts x :
  x.1 = i ->
  triple (on_current started) any (heartbeat_lease env now x owner duration)
    (fun held => on_current (fun d => started d /\ held = true)).
Proof using Hr Hlease Hlog Hlast.
  intros Hx. eapply triple_bind with (Q1 := fun o => on_current (fun d => started d /\ is_Some o)).
  - intros c (Hdur & Hi & Hd & He). split; [done|]. intros o. unfold stmt_pb, execute.
    destruct (cn_aborted c); [done|]. unfold in_pb, in_soar, on_pb, zoom. unfold xd_pb in *.
    set (s := sd_pb (xd_soar (cn_current c))) in *. rewrite Hx.
    unfold heartbeat_execution_lease, require_owner, require_duration, bind, raise, ret. cbn [default from_option id].
    destruct (is_empty (strip owner)); [done|]. rewrite (proj2 (Z.ltb_ge duration 1)) by lia.
    unfold update_exec. rewrite Hi.
    assert (has_exec_status XRunning claimed && owned_by (strip owner) claimed &&
      lease_is_active (lease_expires_at (x_lease claimed)) now = true) as Hheld.
    { unfold claimed, start_under, new_lease, owned_by, has_exec_status, lease_is_active, seconds. destruct r. cbn.
      rewrite String.eqb_refl. cbn. apply Z.ltb_lt. lia. }
    change (exec_now (en_clock env) (Some now)) with now. rewrite Hheld. destruct (pair_taken _ _ _); [done|]. cbn. intros [= <-]. split; [|done].
    split_and!; [done| |exact Hd|exact He]. cbn. rewrite lookup_insert_eq. f_equal.
    unfold claimed, start_under, new_lease. by destruct r.
  - intros [u|]; apply triple_ret; intros c [Hc Hs]; [by split|by destruct Hs].
Qed.

Lemma claimed_columns :
  x_playbook_id claimed = x_playbook_id r /\ x_alert_id claimed = x_alert_id r /\ resume_progress claimed = (0, [], None).
Proof using Hlog Hlast.
  unfold claimed, start_under, resume_progress. clear -Hlog Hlast. destruct r. cbn in *. by rewrite Hlog, Hlast.
Qed.

Lemma reads_value {A B} (P : exec_db W -> Prop) (f : exec_db W -> A) a0 (k : A -> M (conn (exec_db W)) B) Q :
  (forall d, P d -> f d = a0) -> triple (on_current P) any (k a0) Q -> triple (on_current P) any (bind (stmt_reads f) k) Q.
Proof using.
  intros Hf Hk c Hc. unfold bind, stmt_reads, execute. destruct (cn_aborted c) eqn:Ha; [by split|]. cbn.
  rewrite (Hf _ Hc). by apply (Hk (Conn (cn_committed c) (cn_current c) false)).
Qed.

Lemma step_never prior p :
  pr_log p = [] ->
  never (on_current started) (run_step env now (i, claimed) (PDict step0 :: rest) prior owner duration (PDict step0) 0 p).
Proof using Hr Hlease Hlog Hlast Haction Hcond He0.
  destruct claimed_columns as (_ & Hal & _).
  intros Hp. unfold run_step. rewrite Hp. cbn [step_already_succeeded_in_log step_already_skipped_in_log existsb].
  eapply triple_bind; [by apply heartbeat_starts|]. intros held.
  apply pure_pre. intros ->. cbn [negb].
  unfold dispatch_step, has_action, step_action. cbn [as_dict]. rewrite Haction.
  change (never (on_current started)
    (run_branch_step env now (i, claimed) (PDict step0 :: rest) prior owner step0 0 p)).
  apply (reads_value started _ (Raise e0)).
  - intros d (_ & _ & _ & He). unfold execute_branch_step. rewrite Hcond, Hp. cbn [as_dict snd]. rewrite Hal, He.
    destruct e0; try done. exfalso. by eapply He0.
  - by apply never_bind, triple_of_outcome.
Qed.

Lemma process_never prior :
  never (on_current started) (process_running_execution env now (i, claimed) prior owner duration).
Proof using Hr Hlease Hlog Hlast Hsteps Haction Hcond He0.
  destruct claimed_columns as (Hid & _ & Hresume). unfold process_running_execution. cbn [snd]. rewrite Hid, Hresume.
  apply (reads_value started _ (Some (PDict step0 :: rest))).
  { intros d (_ & _ & Hd & _). unfold definition_steps, get_playbook_definition. by rewrite Hd, <- Hsteps. }
  rewrite Z.min_l by (cbn; lia). apply never_bind. unfold steps_fuel. cbn [run_steps length py_nth]. rewrite (proj2 (Z.leb_gt _ _)) by lia.
  by apply never_bind, step_never.
Qed.
End Run.

Lemma batch_never env now limit locked worker lease :
  never (on_current (poisoned_next locked)) (process_playbook_execution_batch env now limit locked worker lease).
Proof using Hr Hlease Hlog Hlast Hsteps Haction Hcond He0.
  eapply triple_bind; [apply triple_of_outcome with (Q := fun _ => on_current (poisoned_next locked)); by intros|].
  intros d1. cbn zeta. destruct (Z.to_nat (normalize_limit limit)) as [|n] eqn:Hn.
  { unfold normalize_limit in Hn. case_match; lia. }
  cbn [process_pending]. do 2 apply never_bind.
  unfold process_next_pending_playbook_execution.
  eapply triple_bind; [apply triple_of_outcome with (Q := fun _ => on_current (poisoned_next locked)); by intros|].
  intros d2. set (o := resolve_worker_id env _). eapply triple_bind; [apply claim_starts|]. intros found.
  apply pure_pre. intros ->. eapply triple_bind; [apply append_starts|]. intros sent.
  by apply never_bind, process_never.
Qed.
Lemma turn_rolled_back env now limit locked worker lease d :
  exec_inv (xd_pb d) -> poisoned_next locked d ->
  same_work d (run_turn env now (CallBatch limit locked worker lease) d).
Proof using Hr Hlease Hlog Hlast Hsteps Haction Hcond He0.
  intros Hinv Hd. pose proof (run_call_keeps env now (CallBatch limit locked worker lease) (open_conn d) Hinv) as [[Hb _] _].
  unfold run_turn. cbn [run_call] in *.
  destruct (never_raises _ _ (open_conn d) (batch_never env now limit locked worker lease) Hd) as [e He].
  destruct (process_playbook_execution_batch _ _ _ _ _ _ (open_conn d)) as [o c] eqn:Hrun. cbn [fst] in He. subst o.
  cbn in Hb. cbn. rewrite Hb. by destruct d as [[[] ?] ? ? ? ? ?].
Qed.

(** A turn that is a batch, for which [i] is the oldest unlocked pending
    execution. *)
Definition batch_turn (d : exec_db W) (t : exec_env * Z * executor_call) : Prop :=
  exists limit locked worker lease, t.2 = CallBatch limit locked worker lease /\
    fst <$> next_pending locked (xd_pb d) = Some i.

End Claim.
End Poison.

(** ** A failure before a gate *)

(** A step that fails and lets the playbook continue, then a gate. *)
Definition ex_failing : pyval :=
  PDict [("action", PStr "block_ip"); ("params", PDict [("source_ip", PStr "10.1.2.3")]); ("on_failure", PStr "continue")].
Definition ex_failing_gated : list pyval := [ex_failing; ex_action "require_approval"].
Definition ex_failing_plain : list pyval := [ex_failing; ex_action "monitor"].

Definition run_once (d : exec_db call_log) : exec_db call_log := run_turn ex_env ex_time (CallOne 1 None None) d.
Definition approve_gate (d : exec_db call_log) : exec_db call_log :=
  (in_approvals (approve_request (Clock ex_time ex_time) 1 7 None None) d).2.

(** How the execution stands: its status and whether its log records the
    first step as failed. *)
Definition standing (d : exec_db call_log) : option (exec_status * bool) :=
  (fun r => (x_status r, existsb (has_status "failed" 0) (x_steps_log r))) <$> pb_execs (xd_pb d) !! 1.

(** A failed step that lets the playbook continue makes the execution
    fail in the end, but not when an approval gate follows it: the failure
    is kept in a variable of the call, so once the gate is approved the
    execution ends as a success, with the failed step in its log. *)
Theorem failure_before_gate_forgotten :
  validate_playbook_steps (PList ex_failing_gated) (Some "pb-1") = Ok [] /\
  standing (run_once (ex_db ex_failing_plain)) = Some (XFailed, true) /\
  standing (run_once (approve_gate (run_once (ex_db ex_failing_gated)))) = Some (XSuccess, true).
Proof. vm_compute. by split_and!. Qed.

(** ** Witnesses *)

(** The branch compares the reputation score with 10^400. *)
Definition ex_poison_condition : pydict :=
  [("source", PStr "alert"); ("field", PStr "reputation_score"); ("op", PStr ">="); ("value", PInt (10 ^ 400))].
Definition ex_poison_branch : pydict :=
  [("action", PStr "branch"); ("condition", PDict ex_poison_condition); ("goto_true", PStr "end")].
Definition ex_poison_rest : list pyval := [PDict [("action", PStr "monitor"); ("label", PStr "end")]].
Definition ex_poison_ops : list pb_op :=
  ex_steps_ops (PDict ex_poison_branch :: ex_poison_rest) ++
  [OpDefine "pb-2" "other" (PList [ex_action "monitor"]) None true None;
   OpCreateOnce (NewExecution "pb-2" (Some 12) None None None None 0)].
Definition ex_poison_store : pb_store := run_ops ex_pb_clock ex_exists ex_exists ex_exists ex_poison_ops empty_pb_store.
Definition ex_poison_db : exec_db call_log :=
  ExecDb (SoarDb ex_poison_store empty_letters) empty_approvals empty_outcomes (DeliveryStore ∅ 1) ex_alerts [].
Definition ex_poison_def : definition_row :=
  default (Definition_ "" None [] [] false 0 0) (pb_defs ex_poison_store !! "pb-1").
Definition ex_poison_turns : list (exec_env * Z * executor_call) :=
  [(ex_env, ex_time, ex_batch); (ex_env, seconds 9000, CallBatch 5 ∅ (Some "worker-2") (Some 30))].

Lemma ex_poison_inv : exec_inv ex_poison_store.
Proof.
  apply (system_steps_inv ex_pb_clock empty_pb_store); [by apply operator_run|].
  split; [apply empty_store_wf| |]; intros i r Hi; cbn in Hi; by rewrite lookup_empty in Hi.
Qed.

