(* ===== verification/PlaybookOrchestrator.v ===== *)
(** * PlaybookOrchestrator: engines/soar_playbook_orchestrator.py

    For each committed alert, a pending execution of every enabled playbook
    whose trigger matches it.  The caller commits, or rolls back when the
    call raises (routes/ingest_routes.py). *)

From S2P Require Import Prelude Tables PyText PyFloat PyValue Interfaces Hoare Outcomes Alerts PlaybookRegistry.
From S2P Require Import PlaybookStore DeadLetters StepEvents StepActions ExecutorProtocol StepExecutorProofs.

Open Scope Z_scope.

Record orchestration_summary := OrchestrationSummary {
  os_processed_alerts : Z;
  os_matched_playbooks : Z;
  os_created : Z;
  os_duplicates : Z;
  os_skipped : Z;
  os_errors : Z;
}.

(** An entry of [results]. *)
Record orchestration_result := OrchestrationResult {
  or_index : Z;
  or_alert_id : pyval;
  or_playbook_id : option string;
  or_execution_id : option Z;
  or_status : string;
  or_detail : option string;
}.

Record orchestration := Orchestration { oc_summary : orchestration_summary; oc_results : list orchestration_result }.

Definition add_summary (p m c d s e : Z) (o : orchestration) : orchestration :=
  let s0 := oc_summary o in
  Orchestration (OrchestrationSummary (os_processed_alerts s0 + p) (os_matched_playbooks s0 + m) (os_created s0 + c)
                   (os_duplicates s0 + d) (os_skipped s0 + s) (os_errors s0 + e)) (oc_results o).
Definition count_processed := add_summary 1 0 0 0 0 0.
Definition count_matched := add_summary 0 1 0 0 0 0.
Definition count_created := add_summary 0 0 1 0 0 0.
Definition count_duplicate := add_summary 0 0 0 1 0 0.
Definition count_skipped := add_summary 0 0 0 0 1 0.
Definition count_error := add_summary 0 0 0 0 0 1.

Definition add_result (r : orchestration_result) (o : orchestration) : orchestration :=
  Orchestration (oc_summary o) (oc_results o ++ [r]).

Section Orchestrator.
Context {W : Type} `{StepServices W}.
(** [text_le] is the database's collation. *)
Context (env : exec_env) (text_le : string -> string -> Prop) `{!RelDecision text_le}.

Definition enabled_definitions (d : exec_db W) : list (string * pyval) :=
  map (fun x => (x.1, PDict (pd_trigger_config x.2))) (list_enabled_playbook_definitions text_le (xd_pb d)).

(** [match_playbooks] catches every exception of its statements. *)
Definition match_alert (alert_id : Z) : M (conn (exec_db W)) (list string) :=
  try_catch (stmt_reads (fun d => match_playbooks (enabled_definitions d) (xd_alerts d) alert_id)) (fun _ => ret []).

(** [_get_parent_soar_correlation_id]. *)
Definition parent_correlation (alert_id : Z) : M (conn (exec_db W)) (option string) :=
  try_catch
    (stmt_reads (fun d => (fun e => e_correlation_id e.2) <$> get_latest_outcome_by_column ByAlert alert_id (xd_outcomes d)))
    (fun _ => ret None).

Definition alert_execution (playbook : string) (alert_id : Z) : new_execution :=
  NewExecution playbook (Some alert_id) None None None None 0.
Definition alert_decision (playbook : string) (alert_id : Z) (parent : option string) : new_decision :=
  NewDecision playbook (Some alert_id) None parent "pending" None [].

(** One matched playbook of an alert. *)
Definition orchestrate_playbook (index : Z) (raw : pyval) (alert_id : Z) (parent : option string) (playbook : string)
    (o : orchestration) : M (conn (exec_db W)) orchestration :=
  if is_empty playbook
  then ret (add_result (OrchestrationResult index raw None None "skipped" (Some "missing_playbook_id")) (count_skipped o))
  else
    let o := count_matched o in
    let* created := try_catch
      (let* i := execute (create_child env (alert_execution playbook alert_id)) in ret (inl i))
      (fun e => ret (inr (exn_str e))) in
    match created with
    | inr error =>
        ret (add_result (OrchestrationResult index raw (Some playbook) None "error" (Some error)) (count_error o))
    | inl None =>
        ret (add_result (OrchestrationResult index raw (Some playbook) None "duplicate" None) (count_duplicate o))
    | inl (Some i) =>
        create_and_link_playbook_execution_decision env i (alert_decision playbook alert_id parent) ;;;
        ret (add_result (OrchestrationResult index raw (Some playbook) (Some i) "created" None) (count_created o))
    end.

Fixpoint orchestrate_matches (index : Z) (raw : pyval) (alert_id : Z) (parent : option string) (matches : list string)
    (o : orchestration) : M (conn (exec_db W)) orchestration :=
  match matches with
  | [] => ret o
  | playbook :: matches =>
      let* o := orchestrate_playbook index raw alert_id parent playbook o in
      orchestrate_matches index raw alert_id parent matches o
  end.

(** One entry of [alerts_created]; [int(alert_id)] may raise. *)
Definition orchestrate_alert (index : Z) (alert : pyval) (o : orchestration) : M (conn (exec_db W)) orchestration :=
  match alert with
  | PDict entry =>
      let raw := dget entry "alert_id" in
      if is_none raw
      then ret (add_result (OrchestrationResult index PNone None None "skipped" (Some "missing_alert_id")) (count_skipped o))
      else
        let o := count_processed o in
        let* alert_id := of_outcome (py_int raw) in
        let* parent := parent_correlation alert_id in
        let* matches := try_catch (let* l := match_alert alert_id in ret (inl l)) (fun e => ret (inr (exn_str e))) in
        match matches with
        | inr error => ret (add_result (OrchestrationResult index raw None None "error" (Some error)) (count_error o))
        | inl [] => ret (add_result (OrchestrationResult index raw None None "no_match" None) o)
        | inl l => orchestrate_matches index raw alert_id parent l o
        end
  | _ => ret (add_result (OrchestrationResult index PNone None None "skipped" (Some "invalid_alert_dict")) (count_skipped o))
  end.

Fixpoint orchestrate_alerts (index : Z) (alerts : list pyval) (o : orchestration) : M (conn (exec_db W)) orchestration :=
  match alerts with
  | [] => ret o
  | alert :: alerts =>
      let* o := orchestrate_alert index alert o in
      orchestrate_alerts (index + 1) alerts o
  end.

Definition create_pending_executions_for_committed_alerts (alerts_created : list pyval)
    : M (conn (exec_db W)) orchestration :=
  orchestrate_alerts 0 alerts_created (Orchestration (OrchestrationSummary 0 0 0 0 0 0) []).
End Orchestrator.

(** * What an orchestration leaves

    The call of engines/soar_playbook_orchestrator.py returns without an
    error, leaves an execution under way for every alert and matching
    playbook, and its results name exactly the alerts that have one
    ([every_match_scheduled]). *)

(** ** Every match is scheduled *)

Section Scheduled.
Context {W : Type} `{StepServices W}.
Context (env : exec_env) (text_le : string -> string -> Prop) `{!RelDecision text_le}.

(** An execution of the playbook for the alert is under way. *)
Definition under_way (playbook : string) (alert : Z) (s : pb_store) : Prop :=
  exists i r, pb_execs s !! i = Some r /\ active_for playbook alert r = true.

(** ** What the results say

    [claims o a]: alert [a] has a result that an execution was created or is
    there already.  The callers read the ids of those results. *)
Definition claiming (r : orchestration_result) : bool := str_in (or_status r) ["created"; "duplicate"].
Definition claims (o : orchestration) (a : Z) : Prop :=
  exists r, r ∈ oc_results o /\ claiming r = true /\ or_alert_id r = PInt a.

Record tally (claimed : Z -> Prop) (o : orchestration) : Prop := Tally {
  ta_errors : os_errors (oc_summary o) = 0;
  ta_claims : forall a, claims o a <-> claimed a;
  ta_typed : forall r, r ∈ oc_results o -> claiming r = true -> exists a, or_alert_id r = PInt a;
}.

Lemma tally_ext C C' o : (forall a, C a <-> C' a) -> tally C o -> tally C' o.
Proof. intros HC [He Hc Ht]. split; [done| |done]. intros a. by rewrite Hc. Qed.

Lemma tally_same C o o' :
  os_errors (oc_summary o') = os_errors (oc_summary o) -> oc_results o' = oc_results o -> tally C o -> tally C o'.
Proof. unfold claims. intros He Hr [H1 H2 H3]. split; unfold claims in *; by rewrite ?Hr, ?He. Qed.

(** A result that claims nothing. *)
Lemma tally_skip C o o' r :
  os_errors (oc_summary o') = os_errors (oc_summary o) -> oc_results o' = oc_results o ++ [r] -> claiming r = false ->
  tally C o -> tally C o'.
Proof.
  intros He Hr Hc [H1 H2 H3]. split; [by rewrite He| |].
  - intros a. rewrite <- H2. unfold claims. rewrite Hr. split; intros (x & Hx & Hcx & Ha); exists x.
    + apply elem_of_app in Hx as [Hx| ->%list_elem_of_singleton]; [done|congruence].
    + split; [|done]. apply elem_of_app. by left.
  - intros x Hx Hcx. rewrite Hr in Hx. apply elem_of_app in Hx as [Hx| ->%list_elem_of_singleton]; [by apply H3|congruence].
Qed.

(** A result that claims alert [a]. *)
Lemma tally_claim C o o' r a :
  os_errors (oc_summary o') = os_errors (oc_summary o) -> oc_results o' = oc_results o ++ [r] -> claiming r = true ->
  or_alert_id r = PInt a -> tally C o -> tally (fun a' => a' = a \/ C a') o'.
Proof.
  intros He Hr Hc Ha [H1 H2 H3]. split; [by rewrite He| |].
  - intros a'. rewrite <- H2. unfold claims. rewrite Hr. split.
    + intros (x & [Hx| ->%list_elem_of_singleton]%elem_of_app & Hcx & Hax); [right; eauto|left; congruence].
    + intros [->|(x & Hx & Hcx & Hax)]; [exists r|exists x]; (split; [apply elem_of_app|done]); [right|by left].
      by apply list_elem_of_singleton.
  - intros x Hx Hcx. rewrite Hr in Hx. apply elem_of_app in Hx as [Hx| ->%list_elem_of_singleton]; eauto.
Qed.

Section Invariant.
Context (defs : gmap string definition_row) (alerts : alert_table).
(** What the statements on the outcome log keep, with the rollback of a
    savepoint. *)
Context (good_log : outcome_store -> Prop).
Definition log_keeps {A} (m : M outcome_store A) : Prop :=
  forall s, good_log s -> good_log (m s).2 /\ good_log (restore s (m s).2).
Context (decision_keeps : forall i n ip, log_keeps (create_response_decision (en_inet env) (en_clock env) (en_uuid_hex env i)
                                                     (execution_decision_params i n ip))).
Context (event_keeps : forall i n ip dr, nw_event_type n = "pending" -> nw_key n = None ->
  log_keeps (append_outcome_event (en_inet env) (en_clock env) (initial_event_params i n ip dr))).

(** The connection is usable, and the executions of [scheduled] are under
    way. *)
Record ready (scheduled : string -> Z -> Prop) (c : conn (exec_db W)) : Prop := Ready {
  rd_usable : cn_aborted c = false;
  rd_wf : store_wf (xd_pb (cn_current c));
  rd_defs : pb_defs (xd_pb (cn_current c)) = defs;
  rd_alerts : xd_alerts (cn_current c) = alerts;
  rd_log : good_log (xd_outcomes (cn_current c));
  rd_scheduled : forall p a, scheduled p a -> under_way p a (xd_pb (cn_current c));
}.

Definition with_pair (p : string) (a : Z) (scheduled : string -> Z -> Prop) : string -> Z -> Prop :=
  fun p' a' => (p' = p /\ a' = a) \/ scheduled p' a'.

Lemma reads_total {A B} S (f : exec_db W -> A) (k : A -> M (conn (exec_db W)) B) Q :
  (forall d, xd_alerts d = alerts -> pb_defs (xd_pb d) = defs -> total (ready S) (k (f d)) Q) ->
  total (ready S) (bind (stmt_reads f) k) Q.
Proof.
  intros Hk c Hc. unfold bind, stmt_reads, execute. rewrite (rd_usable _ _ Hc). cbn.
  destruct (Hk (cn_current c) (rd_alerts _ _ Hc) (rd_defs _ _ Hc) c Hc) as (b & c' & Hrun & HQ).
  exists b, c'. split; [|done]. destruct c as [com cur ab]. pose proof (rd_usable _ _ Hc). cbn in *. by subst ab.
Qed.

(** A statement on the outcome log under a savepoint. *)
Lemma savepoint_total {A} S (m : M outcome_store A) :
  log_keeps m -> total (ready S) (savepoint_conn (in_outcomes m)) (fun _ => ready S).
Proof.
  intros Hm c [Hu Hwf Hd Ha Hg Hs]. unfold savepoint_conn, in_outcomes, zoom. rewrite Hu. destruct (Hm _ Hg) as [Hm1 Hm2].
  destruct (m (xd_outcomes (cn_current c))) as [[a|e] s]; eexists _, _; (split; [reflexivity|]); [by split|].
  split; [done|..|done|done|]; cbn [cn_current]; by rewrite restored_pb.
Qed.

Lemma link_ready S i d c0 c s' o :
  ready S c -> set_playbook_execution_canonical_linkage i d c0 (xd_pb (cn_current c)) = (o, s') ->
  store_wf s' /\ pb_defs s' = defs /\ (forall p a, S p a -> under_way p a s').
Proof.
  intros [Hu Hwf Hd Ha _ Hs] Hl.
  pose proof (run_op_wf (en_clock env) (fun _ => true) (fun _ => true) (fun _ => true) (OpLink i d c0) _ Hwf) as Hwf'.
  cbn [run_op] in Hwf'. rewrite Hl in Hwf'. split; [done|].
  unfold set_playbook_execution_canonical_linkage, update_exec in Hl.
  destruct (pb_execs (xd_pb (cn_current c)) !! i) as [r|] eqn:Hi; [|by injection Hl as <- <-].
  destruct (pair_taken _ _ _); injection Hl as <- <-; [done|]. split; [done|].
  intros p a Hpa. destruct (Hs p a Hpa) as (j & rj & Hj & Hact). cbn. destruct (decide (j = i)) as [->|Hne].
  - simplify_eq. exists i, (set_x_linkage d c0 r). cbn. rewrite lookup_insert_eq. split; [done|]. by destruct r.
  - exists j, rj. cbn. by rewrite lookup_insert_ne.
Qed.

Lemma decision_total S i n :
  nw_event_type n = "pending" -> nw_key n = None ->
  total (ready S) (create_and_link_playbook_execution_decision (W := W) env i n) (fun _ => ready S).
Proof.
  intros Hty Hkey. unfold create_and_link_playbook_execution_decision. apply reads_total. intros d0 _ _.
  apply total_bind with (Q1 := fun _ => ready S).
  2: { intros [dr|]; [|by apply total_ret]. eapply total_bind; [by apply savepoint_total, event_keeps|]. intros e. by apply total_ret. }
  intros c Hc. unfold savepoint_conn. rewrite (rd_usable _ _ Hc). unfold bind, in_outcomes, zoom.
  destruct (decision_keeps i n (resolve_playbook_alert_source_ip (nw_alert_id n) d0) _ (rd_log _ _ Hc)) as [Hg1 Hg2].
  destruct (create_response_decision _ _ _ _ _) as [[dr|e] s]; cbn [snd] in Hg1, Hg2.
  - unfold in_pb, in_soar, on_pb, zoom. cbn [xd_soar xd_pb].
    destruct (set_playbook_execution_canonical_linkage _ _ _ _) as [o s'] eqn:Hl.
    destruct (link_ready S _ _ _ c s' o Hc Hl) as (Hwf' & Hd' & Hs'). destruct Hc as [Hu Hwf Hd Ha _ Hs].
    pose proof (link_never_bumps i dr.1 (d_correlation_id dr.2) (sd_pb (xd_soar (cn_current c)))) as Hseq.
    rewrite Hl in Hseq.
    destruct o as [u|e]; eexists _, _; (split; [reflexivity|]); [by split|].
    split; [done|..|done|done|]; cbn [cn_current]; by rewrite restored_pb by exact Hseq.
  - destruct Hc as [Hu Hwf Hd Ha _ Hs]. eexists _, _; (split; [reflexivity|]).
    split; [done|..|done|done|]; cbn [cn_current]; by rewrite restored_pb.
Qed.
Lemma under_way_taken s n p a :
  ne_playbook_id n = p -> ne_alert_id n = Some a ->
  pair_taken (pb_seq s) (new_row (en_clock env) n) (pb_execs s) = true -> under_way p a s.
Proof.
  intros Hp Ha Ht. unfold pair_taken in Ht. apply existsb_exists in Ht as ([i r] & Hin & Hsame).
  apply list_elem_of_In, elem_of_map_to_list in Hin. exists i, r. split; [done|].
  apply andb_true_iff in Hsame as [_ Hsame]. unfold same_pair in Hsame. cbn in Hsame. rewrite Hp, Ha in Hsame.
  unfold active_for. rewrite !andb_true_iff in *. destruct_and! Hsame.
  split_and!; [by rewrite String.eqb_sym|done|done].
Qed.

(** Creating the execution of an existing playbook and alert never fails. *)
Lemma create_total S p a :
  is_Some (defs !! p) -> is_Some (alerts !! a) ->
  total (ready S) (execute (create_child (W := W) env (alert_execution p a))) (fun _ => ready (with_pair p a S)).
Proof.
  intros Hp Ha c [Hu Hwf Hd Hal Hg Hs]. unfold execute, create_child. rewrite Hu.
  unfold in_pb, in_soar, on_pb, zoom, create_pending_playbook_execution_once. cbn [ne_alert_id alert_execution].
  unfold xd_pb in *. set (s := sd_pb (xd_soar (cn_current c))) in *.
  pose proof (run_op_wf (en_clock env) (alert_exists (cn_current c)) (en_incident_exists env)
    (decision_exists (cn_current c)) (OpCreateOnce (alert_execution p a)) s Hwf) as Hwf'.
  cbn [run_op] in Hwf'. unfold create_pending_playbook_execution_once in Hwf'. cbn [ne_alert_id alert_execution] in Hwf'.
  change (storable (alert_execution p a)) with true in *. cbn [negb] in *.
  destruct (pair_taken (pb_seq s) _ _) eqn:Ht.
  { eexists _, _; (split; [reflexivity|]). split; cbn; try done.
    intros p' a' [[-> ->]|Hpa]; [exact (under_way_taken s (alert_execution p a) p a eq_refl eq_refl Ht)|by apply Hs]. }
  assert (references_ok (alert_exists (cn_current c)) (en_incident_exists env) (decision_exists (cn_current c))
    (alert_execution p a) s = true) as Hrefs.
  { unfold references_ok. cbn. rewrite Hd. rewrite bool_decide_eq_true_2 by done. unfold alert_exists. rewrite Hal.
    by rewrite bool_decide_eq_true_2. }
  rewrite Hrefs in *. cbn [negb] in *. eexists _, _; (split; [reflexivity|]). split; cbn; try done.
  intros p' a' [[-> ->]|Hpa].
  - exists (pb_seq s), (new_row (en_clock env) (alert_execution p a)). cbn. rewrite lookup_insert_eq. split; [done|].
      unfold active_for. cbn. by rewrite String.eqb_refl, Z.eqb_refl.
  - destruct (Hs _ _ Hpa) as (j & r & Hj & Hact). exists j, r. split; [|done]. cbn.
      rewrite lookup_insert_ne; [done|]. pose proof (wf_ids _ Hwf _ _ Hj). lia.
Qed.

Lemma playbook_total S C index a parent p o :
  is_Some (defs !! p) -> is_Some (alerts !! a) -> tally C o ->
  total (ready S) (orchestrate_playbook (W := W) env index (PInt a) a parent p o)
    (fun o' c => ready (if is_empty p then S else with_pair p a S) c /\
                 tally (if is_empty p then C else fun a' => a' = a \/ C a') o').
Proof.
  intros Hp Ha Ht. unfold orchestrate_playbook. destruct (is_empty p).
  { apply total_ret. intros c Hc. split; [done|]. eapply tally_skip, Ht; [cbn; lia|reflexivity|done]. }
  eapply total_bind.
  { apply total_try with (Q := fun r c => ready (with_pair p a S) c /\ exists i, r = inl i).
    eapply total_bind; [by apply create_total|]. intros i. apply total_ret. eauto. }
  intros r. apply total_pure. intros [[i|] ->].
  - eapply total_bind; [by apply decision_total|]. intros dr. apply total_ret. intros c Hc. split; [done|].
    eapply tally_claim, Ht; [cbn; lia|reflexivity|done|done].
  - apply total_ret. intros c Hc. split; [done|]. eapply tally_claim, Ht; [cbn; lia|reflexivity|done|done].
Qed.
Lemma ready_weaken (S S' : string -> Z -> Prop) c : (forall p a, S' p a -> S p a) -> ready S c -> ready S' c.
Proof. intros HS []. split; auto. Qed.

Definition with_matches (l : list string) (a : Z) (S : string -> Z -> Prop) : string -> Z -> Prop :=
  fun p' a' => (p' ∈ l /\ p' <> "" /\ a' = a) \/ S p' a'.

Lemma matches_total S C index a parent l o :
  (forall p, p ∈ l -> is_Some (defs !! p)) -> is_Some (alerts !! a) -> tally C o ->
  total (ready S) (orchestrate_matches (W := W) env index (PInt a) a parent l o)
    (fun o' c => ready (with_matches l a S) c /\ tally (fun a' => (a' = a /\ exists p, p ∈ l /\ p <> "") \/ C a') o').
Proof.
  revert S C o. induction l as [|p l IH]; intros S C o Hl Ha Ht; cbn [orchestrate_matches].
  { apply total_ret. intros c Hc. split.
    - eapply ready_weaken; [|done]. intros p' a' [[Hin _]|]; [by apply not_elem_of_nil in Hin|done].
    - eapply tally_ext, Ht. intros a'. split; [by right|]. intros [(_ & p & Hin & _)|]; [by apply not_elem_of_nil in Hin|done]. }
  eapply total_bind; [apply playbook_total; [apply Hl; by left|done|done]|].
  intros o'. apply total_pure. intros Ht'.
  eapply total_weaken; [apply IH; [intros q Hq; apply Hl; by right|done|done]|intros c Hc; exact Hc|].
  intros o2 c [Hc Ht2]. split.
  - eapply ready_weaken; [|exact Hc].
    intros p' a' [[Hin [Hne ->]]|HS]; unfold with_matches.
    + apply elem_of_cons in Hin as [->|Hin]; [right|by left]. destruct (is_empty p) eqn:Hp; [by destruct p|by left].
    + right. destruct (is_empty p); [done|by right].
  - eapply tally_ext, Ht2. intros a'. setoid_rewrite elem_of_cons. destruct (is_empty p) eqn:Hp.
    + apply is_empty_spec in Hp as ->. naive_solver.
    + assert (p <> "") as Hne by (by intros ->). naive_solver.
Qed.

(** The playbooks that match an alert. *)
Definition playbooks_for (a : Z) : list string :=
  match_playbooks (map (fun x => (x.1, PDict (pd_trigger_config x.2)))
                     (list_enabled_playbook_definitions text_le (PbStore defs ∅ 0))) alerts a.

Lemma matching_subset definitions alert l p : matching_ids definitions alert = Ok l -> p ∈ l -> p ∈ definitions.*1.
Proof.
  revert l. induction definitions as [|d ds IH]; intros l Hl Hp; cbn [matching_ids] in Hl.
  { injection Hl as <-. done. }
  destruct (evaluate_trigger _ _) as [b|]; [|done]. cbn [obind] in Hl.
  destruct (matching_ids ds alert) as [rest|]; [|done]. cbn [obind] in Hl. injection Hl as <-. cbn [fmap list_fmap].
  destruct b; [apply elem_of_cons in Hp as [->|Hp]; [by left|]|]; right; by eapply IH.
Qed.

Lemma playbooks_exist a p : p ∈ playbooks_for a -> is_Some (defs !! p) /\ is_Some (alerts !! a).
Proof.
  unfold playbooks_for, match_playbooks, fetch_alert. destruct (alerts !! a) as [row|]; [|by intros Hp%not_elem_of_nil].
  cbn [fmap option_fmap option_map]. destruct (matching_ids _ _) as [l|] eqn:Hl; [|by intros Hp%not_elem_of_nil].
  intros Hp. split; [|done]. eapply matching_subset in Hp; [|done].
  apply list_elem_of_fmap in Hp as ([q c] & -> & Hq). apply list_elem_of_fmap in Hq as ([q' row'] & [= -> ->] & Hq).
  cbn. unfold list_enabled_playbook_definitions in Hq. rewrite merge_sort_Permutation in Hq.
  apply list_elem_of_filter in Hq as [_ Hq]. apply elem_of_map_to_list in Hq. eauto.
Qed.

(** The alerts with a playbook to claim them. *)
Definition has_playbook (a : Z) : Prop := exists p, p ∈ playbooks_for a /\ p <> "".

Lemma alert_total S C index entry a o :
  dget entry "alert_id" = PInt a -> tally C o ->
  total (ready S) (orchestrate_alert (W := W) env text_le index (PDict entry) o)
    (fun o' c => ready (with_matches (playbooks_for a) a S) c /\
                 tally (fun a' => (a' = a /\ has_playbook a') \/ C a') o').
Proof.
  intros Hraw Ht. unfold orchestrate_alert. rewrite Hraw. cbn [is_none].
  eapply total_bind with (Q1 := fun z c => ready S c /\ z = a).
  { intros c Hc. exists a, c. by split. }
  intros z. apply total_pure. intros ->.
  eapply total_bind with (Q1 := fun _ => ready S).
  { apply total_try. intros c Hc. unfold stmt_reads, execute. rewrite (rd_usable _ _ Hc). eexists _, _.
    split; [reflexivity|]. by destruct Hc. }
  intros parent. eapply total_bind with (Q1 := fun r c => ready S c /\ r = inl (playbooks_for a)).
  { apply total_try. eapply total_bind with (Q1 := fun l c => ready S c /\ l = playbooks_for a).
    - apply total_try. intros c Hc. unfold stmt_reads, execute. rewrite (rd_usable _ _ Hc). eexists _, _.
      split; [reflexivity|]. split; [by destruct Hc|]. destruct Hc as [_ _ Hd Hal _ _].
      unfold playbooks_for, enabled_definitions, list_enabled_playbook_definitions. by rewrite Hd, Hal.
    - intros l. apply total_pure. intros ->. apply total_ret. by intros. }
  intros r. apply total_pure. intros ->. destruct (playbooks_for a) as [|p l] eqn:Hl.
  - apply total_ret. intros c Hc. split.
    + eapply ready_weaken; [|done]. intros p' a' [[Hin _]|]; [by apply not_elem_of_nil in Hin|done].
    + eapply tally_ext; [|eapply tally_skip, Ht; [cbn; lia|reflexivity|done]].
      intros a'. unfold has_playbook. split; [by right|]. intros [(-> & p & Hin & _)|]; [|done].
      rewrite Hl in Hin. by apply not_elem_of_nil in Hin.
  - rewrite <- Hl. assert (is_Some (alerts !! a)) as Ha by (apply (playbooks_exist a p); rewrite Hl; by left).
    eapply total_weaken; [apply matches_total with (C := C)|intros c Hc; exact Hc|].
    + intros q Hq. by eapply playbooks_exist.
    + done.
    + eapply tally_same, Ht; [cbn; lia|done].
    + intros o' c [Hc Ht']. split; [done|]. eapply tally_ext, Ht'. unfold has_playbook. naive_solver.
Qed.
(** An entry of [alerts_created] for alert [a]. *)
Definition entry_for (a : Z) (v : pyval) : Prop := exists entry, v = PDict entry /\ dget entry "alert_id" = PInt a.

Lemma alerts_total S C index entries o :
  Forall (fun v => exists a, entry_for a v) entries -> tally C o ->
  total (ready S) (orchestrate_alerts (W := W) env text_le index entries o)
    (fun o' c => ready (fun p a => (p <> "" /\ p ∈ playbooks_for a /\ exists v, v ∈ entries /\ entry_for a v) \/ S p a) c /\
                 tally (fun a => ((exists v, v ∈ entries /\ entry_for a v) /\ has_playbook a) \/ C a) o').
Proof.
  intros Hf. revert S C index o. induction Hf as [|v entries (a & entry & -> & Hraw) _ IH]; intros S C index o Ht;
    cbn [orchestrate_alerts].
  { apply total_ret. intros c Hc. split.
    - eapply ready_weaken; [|done]. intros p' a' [(_ & _ & v & Hv & _)|]; [by apply not_elem_of_nil in Hv|done].
    - eapply tally_ext, Ht. intros a'. split; [by right|].
      intros [[(v & Hv & _) _]|]; [by apply not_elem_of_nil in Hv|done]. }
  eapply total_bind; [by apply alert_total|]. intros o'. apply total_pure. intros Ht'.
  eapply total_weaken; [by apply IH|intros c Hc; exact Hc|].
  assert (forall a', entry_for a' (PDict entry) <-> a' = a) as Hthis.
  { intros a'. unfold entry_for. split; [|intros ->; eauto]. intros (entry' & [= <-] & Hraw').
    rewrite Hraw in Hraw'. by injection Hraw'. }
  intros o2 c [Hc Ht2]. split.
  - eapply ready_weaken; [|exact Hc]. unfold with_matches. setoid_rewrite elem_of_cons.
    intros p' a' [(Hne & Hin & v & [->|Hv] & Hfor)|HS]; [|by left; eauto 6|by do 2 right].
    right. left. by apply Hthis in Hfor as ->.
  - eapply tally_ext, Ht2. intros a'. setoid_rewrite elem_of_cons. specialize (Hthis a'). naive_solver.
Qed.
End Invariant.

Definition empty_orchestration : orchestration := Orchestration (OrchestrationSummary 0 0 0 0 0 0) [].

Lemma empty_tally : tally (fun _ => False) empty_orchestration.
Proof.
  split; [done| |]; [intros a; split; [|done]|]; [intros (r & Hr & _)|intros r Hr _]; by apply not_elem_of_nil in Hr.
Qed.

(** What the call establishes, with an invariant of the outcome log. *)
Lemma orchestration_total (good_log : outcome_store -> Prop) entries c :
  (forall i n ip, log_keeps good_log (create_response_decision (en_inet env) (en_clock env) (en_uuid_hex env i)
                                        (execution_decision_params i n ip))) ->
  (forall i n ip dr, nw_event_type n = "pending" -> nw_key n = None ->
     log_keeps good_log (append_outcome_event (en_inet env) (en_clock env) (initial_event_params i n ip dr))) ->
  good_log (xd_outcomes (cn_current c)) -> cn_aborted c = false ->
  store_wf (xd_pb (cn_current c)) -> Forall (fun v => exists a, entry_for a v) entries ->
  exists o c', create_pending_executions_for_committed_alerts env text_le entries c = (Ok o, c') /\
    ready (pb_defs (xd_pb (cn_current c))) (xd_alerts (cn_current c)) good_log
      (fun p a => (p <> "" /\ p ∈ playbooks_for (pb_defs (xd_pb (cn_current c))) (xd_alerts (cn_current c)) a /\
                   exists v, v ∈ entries /\ entry_for a v) \/ False) c' /\
    tally (fun a => ((exists v, v ∈ entries /\ entry_for a v) /\
                     has_playbook (pb_defs (xd_pb (cn_current c))) (xd_alerts (cn_current c)) a) \/ False) o.
Proof.
  intros Hdec Hev Hg Hu Hwf Hf.
  destruct (alerts_total (pb_defs (xd_pb (cn_current c))) (xd_alerts (cn_current c)) good_log Hdec Hev
    (fun _ _ => False) (fun _ => False) 0 entries empty_orchestration Hf empty_tally c) as (o & c' & Hrun & Hr & Ht).
  { by split. }
  eauto.
Qed.

(** For committed alerts the orchestrator returns without an error, the
    transaction can be committed, and an execution is under way for every
    alert and every enabled playbook whose trigger matches it; its results
    claim exactly the alerts that have such a playbook. *)
Theorem every_match_scheduled entries d :
  store_wf (xd_pb d) -> Forall (fun v => exists a, entry_for a v) entries ->
  exists o c, create_pending_executions_for_committed_alerts env text_le entries (open_conn d) = (Ok o, c) /\
    os_errors (oc_summary o) = 0 /\ cn_aborted c = false /\ store_wf (xd_pb (cn_current c)) /\
    (forall a v p, v ∈ entries -> entry_for a v ->
      p ∈ match_playbooks (enabled_definitions text_le d) (xd_alerts d) a -> p <> "" ->
      under_way p a (xd_pb (cn_current c))) /\
    (forall a, claims o a <-> exists v p, v ∈ entries /\ entry_for a v /\
      p ∈ match_playbooks (enabled_definitions text_le d) (xd_alerts d) a /\ p <> "").
Proof.
  intros Hwf Hf.
  destruct (orchestration_total (fun _ => True) entries (open_conn d)) as (o & c & Hrun & [Hu Hwf' _ _ _ Hs] & [He Hc _]);
    [done..|].
  exists o, c. split_and!; [done..| |].
  - intros a v p Hv Hfor Hp Hne. apply Hs. left. split_and!; [done|done|eauto].
  - intros a. rewrite Hc. unfold has_playbook, playbooks_for. cbn. naive_solver.
Qed.
End Scheduled.

(** ** Witnesses *)

#[local] Instance true_le_dec : RelDecision (fun _ _ : string => True).
Proof. intros x y. by left. Defined.

(** Two playbooks, one of which wants a higher severity. *)
Definition ex_triggers : pb_store :=
  run_ops ex_pb_clock ex_exists ex_exists ex_exists
    [OpDefine "pb-1" "any" (PList [ex_action "monitor"]) (Some (PDict [])) true None;
     OpDefine "pb-2" "critical" (PList [ex_action "monitor"]) (Some (PDict [("min_severity", PStr "critical")])) true None]
    empty_pb_store.
Definition ex_trigger_db : exec_db call_log :=
  ExecDb (SoarDb ex_triggers empty_letters) Approvals.empty_approvals empty_outcomes (Deliveries.DeliveryStore ∅ 1) ex_alerts [].
Definition ex_committed : list pyval := [PDict [("alert_id", PInt 12)]; PDict [("alert_id", PInt 12)]].

Lemma every_match_scheduled_witness :
  match_playbooks (enabled_definitions (fun _ _ => True) ex_trigger_db) ex_alerts 12 = ["pb-1"] /\
  exists o c, create_pending_executions_for_committed_alerts ex_env (fun _ _ => True) ex_committed (open_conn ex_trigger_db)
      = (Ok o, c) /\ under_way "pb-1" 12 (xd_pb (cn_current c)).
Proof.
  split; [vm_compute; reflexivity|].
  destruct (every_match_scheduled ex_env (fun _ _ => True) ex_committed ex_trigger_db) as (o & c & Hrun & _ & _ & _ & Hs & _).
  - apply run_ops_wf, empty_store_wf.
  - unfold ex_committed. rewrite !list.Forall_cons. split_and!; [exists 12; eexists; split; reflexivity..|constructor].
  - exists o, c. split; [exact Hrun|]. apply (Hs 12 (PDict [("alert_id", PInt 12)])).
    + left.
    + eexists. split; reflexivity.
    + vm_compute. left.
    + discriminate.
Defined.
