(* ===== verification/Identifiers.v ===== *)
(** * Identifiers: the texts the code builds from numbers and random hex

    Characters and lengths of printed integers, and when a correlation id
    built from them passes its validator. *)

From S2P Require Import Prelude PyText PyValue AddressText ParamBinding Outcomes.

Open Scope Z_scope.

(** ** Printed integers *)

Definition number_char (c : ascii) : bool := is_digit c || Ascii.eqb c "-".

Lemma pretty_N_char_digit n : (n < 10)%N -> is_digit (pretty_N_char n) = true.
Proof.
  intros Hn. assert (n ∈ [0; 1; 2; 3; 4; 5; 6; 7; 8; 9]%N) as Hin.
  { rewrite !elem_of_cons. lia. }
  by repeat (apply elem_of_cons in Hin as [->|Hin]; [reflexivity|]); apply not_elem_of_nil in Hin.
Qed.

Lemma pretty_N_go_chars x s : all_chars number_char s = true -> all_chars number_char (pretty_N_go x s) = true.
Proof.
  revert s. induction (N.lt_wf_0 x) as [x _ IH]. intros s Hs.
  destruct (decide (x = 0)%N) as [->|Hx]; [by rewrite pretty_N_go_0|].
  rewrite pretty_N_go_step by lia. apply IH; [apply N.div_lt; lia|]. cbn [all_chars]. rewrite Hs, andb_true_r.
  unfold number_char. rewrite pretty_N_char_digit; [done|]. apply N.mod_lt. lia.
Qed.

Lemma str_int_chars z : all_chars number_char (str_int z) = true.
Proof.
  assert (forall p, all_chars number_char (pretty (N.pos p)) = true) as Hp.
  { intros p. unfold pretty, pretty_N. case_decide; [done|]. by apply pretty_N_go_chars. }
  unfold str_int, pretty, pretty_Z. destruct z as [|p|p]; [done|apply (Hp p)|exact (Hp p)].
Qed.

Lemma pretty_N_go_length n x s : (x < 10 ^ N.of_nat n)%N -> (String.length (pretty_N_go x s) <= n + String.length s)%nat.
Proof.
  revert x s. induction n as [|n IH]; intros x s Hx.
  { replace x with 0%N by (cbn in Hx; lia). by rewrite pretty_N_go_0. }
  destruct (decide (x = 0)%N) as [->|Hx0]; [rewrite pretty_N_go_0; lia|].
  rewrite pretty_N_go_step by lia. etrans; [apply IH|cbn; lia].
  apply N.Div0.div_lt_upper_bound. rewrite Nat2N.inj_succ, N.pow_succ_r' in Hx. lia.
Qed.

Lemma str_int_length z : int4 z = true -> (String.length (str_int z) <= 11)%nat.
Proof.
  unfold int4. rewrite andb_true_iff, !Z.leb_le. intros Hz.
  assert (forall p, (Z.pos p < 10 ^ 10) -> (String.length (pretty (N.pos p)) <= 10)%nat) as Hp.
  { intros p Hp. unfold pretty, pretty_N. case_decide; [done|]. etrans; [apply (pretty_N_go_length 10)|cbn; lia]. lia. }
  unfold str_int, pretty, pretty_Z. destruct z as [|p|p]; [cbn; lia|..].
  - etrans; [apply (Hp p); lia|lia].
  - cbn. apply le_n_S. apply Hp. lia.
Qed.

(** ** Correlation ids *)

Lemma url_needs_slash s : all_chars (fun c => negb (Ascii.eqb c "/")) s = true -> find_url s = false.
Proof.
  induction s as [|c s IH]; [done|]. intros Hs. cbn [find_url].
  assert (url_scheme (String c s) = None) as ->.
  { unfold url_scheme. destruct (drop_prefix "http" _) as [t|] eqn:Ht; [|done].
    apply drop_prefix_Some in Ht. rewrite Ht, all_chars_app in Hs. apply andb_true_iff in Hs as [_ Hs].
    destruct (drop_prefix "s://" t) as [u|] eqn:Hu; [by apply drop_prefix_Some in Hu as ->|].
    destruct (drop_prefix "://" t) as [u|] eqn:Hu'; [by apply drop_prefix_Some in Hu' as ->|done]. }
  apply IH. cbn in Hs. by apply andb_true_iff in Hs as [_ Hs].
Qed.

Lemma lower_keeps_slash s :
  all_chars (fun c => negb (Ascii.eqb c "/")) s = true -> all_chars (fun c => negb (Ascii.eqb c "/")) (lower s) = true.
Proof.
  induction s as [|c s IH]; [done|]. cbn [all_chars lower]. rewrite !andb_true_iff. intros [Hc Hs]. split; [|auto].
  destruct c as [[] [] [] [] [] [] [] []]; done.
Qed.

(** A byte at a time: every correlation character satisfies [q]. *)
Ltac correlation_byte := intros c; destruct c as [[] [] [] [] [] [] [] []]; done.

Lemma correlation_not_space c : correlation_char c = true -> negb (is_space c) = true.
Proof. revert c. correlation_byte. Qed.
Lemma correlation_not_slash c : correlation_char c = true -> negb (Ascii.eqb c "/") = true.
Proof. revert c. correlation_byte. Qed.
Lemma number_correlation c : number_char c = true -> correlation_char c = true.
Proof. revert c. correlation_byte. Qed.

Lemma correlation_strip s : all_chars correlation_char s = true -> strip s = s.
Proof.
  intros Hs. apply strip_clean.
  - destruct s as [|c s]; [done|]. cbn in *. apply andb_true_iff in Hs as [Hc _].
    apply correlation_not_space in Hc. by apply negb_true_iff in Hc.
  - apply rstrip_clean_chars. by eapply all_chars_impl, Hs; apply correlation_not_space.
Qed.

Lemma correlation_valid s :
  all_chars correlation_char s = true -> is_empty s = false -> varchar 128 s = true ->
  validate_soar_correlation_id s = Ok s.
Proof.
  intros Hs He Hl. unfold validate_soar_correlation_id. rewrite correlation_strip by done. rewrite He, Hl. cbn [negb].
  assert (has_url s = false) as ->.
  { apply url_needs_slash, lower_keeps_slash. eapply all_chars_impl, Hs; apply correlation_not_slash. }
  by rewrite Hs.
Qed.

Lemma length_str_app a b : String.length (a +:+ b) = (String.length a + String.length b)%nat.
Proof. induction a as [|c a IH]; [done|exact (f_equal S IH)]. Qed.

(** Texts whose last parts are equally long end alike when they are equal. *)
Lemma same_suffix a b a' b' : a +:+ b = a' +:+ b' -> String.length b = String.length b' -> b = b'.
Proof.
  revert a'. induction a as [|c a IH]; intros [|c' a'] Heq Hlen; [done| | |injection Heq as _ Heq; by eapply IH].
  all: apply (f_equal String.length) in Heq; rewrite !length_str_app in Heq; cbn in Heq; lia.
Qed.
