(* ===== verification/EnqueueOrchestrator.v ===== *)
(** * EnqueueOrchestrator: engines/soar_enqueue_orchestrator.py

    The committed alerts of an ingestion enter the response queue, except
    those a playbook has claimed.  Every insert is followed by the canonical
    decision and event of the outcome log, whose failures are swallowed
    without a savepoint.  The caller commits. *)

From S2P Require Import Prelude PyText PyFloat PyValue Tables ActionVocabulary Outcomes ResponseQueue.

Open Scope Z_scope.

(** ** The database and the results *)

Record enqueue_db := EnqueueDb { ed_queue : queue_store; ed_outcomes : outcome_store }.

#[export, refine] Instance enqueue_db_tx : Transactional enqueue_db := {
  restore snap cur :=
    EnqueueDb (restore (ed_queue snap) (ed_queue cur)) (restore (ed_outcomes snap) (ed_outcomes cur));
}.
Proof.
  - intros []. cbn [ed_queue ed_outcomes]. by rewrite !restore_id.
  - intros [] [] []. cbn [ed_queue ed_outcomes]. by rewrite !restore_idemp.
Defined.

Definition in_queue {A} (m : M queue_store A) : M enqueue_db A :=
  zoom ed_queue (fun q d => EnqueueDb q (ed_outcomes d)) m.
Definition in_log {A} (m : M outcome_store A) : M enqueue_db A :=
  zoom ed_outcomes (fun o d => EnqueueDb (ed_queue d) o) m.

(** An entry of the list returned; [er_error] is the exception whose text
    and class the entry reports. *)
Record enqueue_result := EnqueueResult {
  er_index : Z;
  er_alert_id : pyval;
  er_source_ip : pyval;
  er_action : pyval;
  er_queue_id : option Z;
  er_skipped : bool;
  er_status : string;
  er_skip_reason : option string;
  er_error : option exn;
}.

(** What the inserts depend on outside the source: the digest, the column
    types, the foreign key, and the random hex of the decision that belongs
    to a row. *)
Record enqueue_env := EnqueueEnv {
  ee_clock : clock;
  ee_sha256_hex : string -> string;
  ee_inet : string -> option string;
  ee_int_column : pyval -> outcome Z;
  ee_alert_exists : Z -> bool;
  ee_uuid_hex : Z -> string;
}.

(** ** Reading an entry *)

(** [except (TypeError, ValueError)]: the OverflowError of an infinite float
    escapes. *)
Definition normalize_alert_id (raw : pyval) : outcome (option Z) :=
  match py_int raw with
  | Ok i => Ok (Some i)
  | Raise TypeError => Ok None
  | Raise e => if is_value_error e then Ok None else Raise e
  end.

Fixpoint normalize_excluded_alert_ids (exclude_alert_ids : list pyval) : outcome (gset Z) :=
  match exclude_alert_ids with
  | [] => Ok ∅
  | raw :: rest =>
      let! i := normalize_alert_id raw in
      let! ids := normalize_excluded_alert_ids rest in
      Ok (match i with Some i => {[ i ]} ∪ ids | None => ids end)
  end.

Definition first_missing_required_field (alert_id source_ip action : pyval) : option string :=
  if is_none alert_id then Some "alert_id"
  else if is_none source_ip then Some "source_ip"
  else if is_none action then Some "response_action"
  else None.

(** [.lower()] of a truthy value that is not a string is an AttributeError. *)
Definition infer_decision_source (alert : pydict) : outcome string :=
  match py_or (dget alert "alert_type") (PStr "") with
  | PStr alert_type => Ok (if contains "correl" (lower alert_type) then "correlation" else "detection_default")
  | _ => Raise (OtherException "AttributeError")
  end.

(** ** The outcome of an insert *)

Section Enqueue.
Context (env : enqueue_env).
Let clk := ee_clock env.
Let inet := ee_inet env.

(** [generate_soar_correlation_id] prints the id as the entry has it. *)
Definition enqueue_correlation (alert_id : pyval) (queue_id : Z) : string :=
  "soar-" +:+ py_str alert_id +:+ "-" +:+ ee_uuid_hex env queue_id.

Definition enqueue_decision_params (alert_id : pyval) (alert : Z) (source_ip action decision_source : string)
    (queue_id : Z) : decision_params :=
  DecisionParams action decision_source ("Response '" +:+ action +:+ "' selected and queued in simulation mode.")
    (Some alert) None (Some source_ip) None (Some (enqueue_correlation alert_id queue_id)) None None None None
    (Some queue_id) None None PNone.

Definition enqueue_event_params (decision alert : Z) (source_ip action : string) (queue_id : Z) : event_params :=
  EventParams "simulation" "queued" "system"
    ("Response '" +:+ action +:+ "' queued in simulation mode. No real execution has occurred.")
    (Some decision) None None false false true (Some "simulation_mode") (Some alert) None (Some source_ip)
    (Some queue_id) None None None None None None None None (Some ("queue-enqueue-" +:+ str_int queue_id)) PNone None.

Definition write_canonical_enqueue_outcome (alert_id : pyval) (source_ip action : string) (queue_id : Z)
    (alert : pydict) : M (conn enqueue_db) unit :=
  let* decision_source := of_outcome (infer_decision_source alert) in
  let* id := of_outcome (ee_int_column env alert_id) in
  let* decision := execute (in_log (create_response_decision inet clk (ee_uuid_hex env queue_id)
    (enqueue_decision_params alert_id id source_ip action decision_source queue_id))) in
  execute (in_queue (set_queue_linkage queue_id (Some decision.1) (Some (d_correlation_id decision.2)))) ;;;
  execute (in_log (append_outcome_event inet clk
    (enqueue_event_params decision.1 id source_ip action queue_id))) ;;;
  ret tt.

Definition try_write_canonical_enqueue_outcome (alert_id : pyval) (source_ip action : string) (queue_id : Z)
    (alert : pydict) : M (conn enqueue_db) unit :=
  try_catch (write_canonical_enqueue_outcome alert_id source_ip action queue_id alert) (fun _ => ret tt).

(** ** One entry, and the loop *)

Definition refused_entry (index : Z) (alert_id source_ip action : pyval) (status reason : string)
    (error : option exn) : enqueue_result :=
  EnqueueResult index alert_id source_ip action None true status (Some reason) error.

Definition enqueue_validated (index : Z) (entry : pydict) (alert_id : pyval) (source_ip_text action : string)
    : M (conn enqueue_db) enqueue_result :=
  let* queued := try_catch
    (let* q := execute (in_queue (enqueue_response_action (ee_sha256_hex env) inet (ee_int_column env)
                                    (ee_alert_exists env) clk alert_id source_ip_text (PStr action) 3)) in
     ret (inl q))
    (fun e => ret (inr e)) in
  match queued with
  | inr e => ret (refused_entry index alert_id (PStr source_ip_text) (PStr action) "error" "enqueue_exception" (Some e))
  | inl None =>
      ret (EnqueueResult index alert_id (PStr source_ip_text) (PStr action) None true "duplicate_skipped"
             (Some "duplicate") None)
  | inl (Some queue_id) =>
      try_write_canonical_enqueue_outcome alert_id source_ip_text action queue_id entry ;;;
      ret (EnqueueResult index alert_id (PStr source_ip_text) (PStr action) (Some queue_id) false "enqueued" None None)
  end.

Definition enqueue_entry (excluded_ids : gset Z) (index : Z) (alert : pyval) : M (conn enqueue_db) enqueue_result :=
  match alert with
  | PDict entry =>
      let alert_id := dget entry "alert_id" in
      let source_ip := dget entry "source_ip" in
      let action := dget entry "response_action" in
      let* normalized_alert_id := of_outcome (normalize_alert_id alert_id) in
      if match normalized_alert_id with Some i => bool_decide (i ∈ excluded_ids) | None => false end
      then
        let source_ip_text := if is_none source_ip then PNone else PStr (py_str source_ip) in
        ret (refused_entry index alert_id source_ip_text action "skipped" "playbook_precedence" None)
      else
        match first_missing_required_field alert_id source_ip action with
        | Some field => ret (refused_entry index alert_id source_ip action "skipped" ("missing_" +:+ field) None)
        | None =>
            let source_ip_text := py_str source_ip in
            match validate_action_for_response_queue action with
            | Raise (CanonicalActionValidationError msg code as e) =>
                ret (refused_entry index alert_id (PStr source_ip_text) action "rejected" code (Some e))
            | Raise e => raise e
            | Ok action => enqueue_validated index entry alert_id source_ip_text action
            end
        end
  | _ => ret (refused_entry index PNone PNone PNone "skipped" "invalid_alert_dict" None)
  end.

Fixpoint enqueue_entries (excluded_ids : gset Z) (index : Z) (alerts : list pyval)
    : M (conn enqueue_db) (list enqueue_result) :=
  match alerts with
  | [] => ret []
  | alert :: alerts =>
      let* r := enqueue_entry excluded_ids index alert in
      let* rs := enqueue_entries excluded_ids (index + 1) alerts in
      ret (r :: rs)
  end.

Definition enqueue_committed_alerts (alerts_created exclude_alert_ids : list pyval)
    : M (conn enqueue_db) (list enqueue_result) :=
  let* excluded_ids := of_outcome (normalize_excluded_alert_ids exclude_alert_ids) in
  enqueue_entries excluded_ids 0 alerts_created.
End Enqueue.
