(* ===== verification/EnqueueProofs.v ===== *)
(** * EnqueueProofs: what the queue holds after an ingestion

    Every admitted alert has a row in the queue with its decision and event
    ([committed_alerts_enqueued]); one insert that fails in the database
    takes the whole batch with it ([failed_insert_loses_batch]). *)

From S2P Require Import Prelude PyText PyFloat PyValue Tables AddressText ActionVocabulary Interfaces Outcomes.
From S2P Require Import ResponseQueue Hoare Identifiers EnqueueOrchestrator.

Open Scope Z_scope.

(** ** The writes of one enqueued alert *)

(** Step over a validator whose result has been computed. *)
Ltac validated := unfold bind at 1, of_outcome at 1.

(** The three actions of the queue, one by one. *)
Ltac each_action H := apply list_elem_of_In in H; cbn in H; destruct_or? H; subst; try done.

Section Writes.
Context (env : enqueue_env).
Let inet := ee_inet env.
Let clk := ee_clock env.

Definition enqueue_event_key (queue_id : Z) : string := "queue-enqueue-" +:+ str_int queue_id.

Lemma enqueue_key_strip i : strip (enqueue_event_key i) = enqueue_event_key i.
Proof.
  apply correlation_strip. unfold enqueue_event_key. rewrite all_chars_app.
  by rewrite (all_chars_impl _ _ _ number_correlation (str_int_chars i)).
Qed.

Lemma enqueue_key_width i : int4 i = true -> varchar 160 (enqueue_event_key i) = true.
Proof.
  intros Hi. apply str_int_length in Hi. unfold varchar, enqueue_event_key. rewrite length_str_app.
  apply Nat.leb_le. change (String.length "queue-enqueue-") with 14%nat. lia.
Qed.

Lemma enqueue_key_inj i j : enqueue_event_key i = enqueue_event_key j -> i = j.
Proof. unfold enqueue_event_key. intros H%app_inj. by apply (inj pretty). Qed.

(** The hex of [uuid4], cut to twelve characters. *)
Definition hex12 (s : string) : Prop := String.length s = 12%nat /\ all_chars correlation_char s = true.

Lemma enqueue_correlation_valid a i :
  int4 a = true -> hex12 (ee_uuid_hex env i) ->
  validate_soar_correlation_id (enqueue_correlation env (PInt a) i) = Ok (enqueue_correlation env (PInt a) i).
Proof.
  intros Ha [Hl Hc]. apply str_int_length in Ha. apply correlation_valid; [|done|].
  - unfold enqueue_correlation. cbn [py_str py_repr]. rewrite !all_chars_app, Hc.
    by rewrite (all_chars_impl _ _ _ number_correlation (str_int_chars a)).
  - unfold varchar, enqueue_correlation. cbn [py_str py_repr]. rewrite !length_str_app, Hl. apply Nat.leb_le.
    change (String.length "soar-") with 5%nat. change (String.length "-") with 1%nat. lia.
Qed.

Lemma enqueue_correlation_inj a b i j :
  hex12 (ee_uuid_hex env i) -> hex12 (ee_uuid_hex env j) ->
  enqueue_correlation env a i = enqueue_correlation env b j -> ee_uuid_hex env i = ee_uuid_hex env j.
Proof.
  intros [Hi _] [Hj _]. unfold enqueue_correlation. intros H%app_inj.
  apply same_suffix in H; [by apply app_inj in H|]. rewrite !length_str_app. congruence.
Qed.

(** A canonical queue action. *)
Definition queue_action (action : string) : Prop := action ∈ RESPONSE_QUEUE_ACTIONS.

Lemma decision_written a ip host act source i log :
  int4 a = true -> hex12 (ee_uuid_hex env i) -> queue_action act -> str_in source DECISION_SOURCES = true ->
  strip source = source -> inet ip = Some host ->
  (forall j d, os_decisions log !! j = Some d -> d_correlation_id d <> enqueue_correlation env (PInt a) i) ->
  exists d, d_correlation_id d = enqueue_correlation env (PInt a) i /\
    create_response_decision inet clk (ee_uuid_hex env i) (enqueue_decision_params env (PInt a) a ip act source i) log =
      (Ok (os_decision_seq log, d),
       OutcomeStore (<[os_decision_seq log := d]> (os_decisions log)) (os_events log)
         (os_decision_seq log + 1) (os_event_seq log)).
Proof.
  intros Ha Hu Hact Hsrc Hstrip Hip Hfresh. eexists. split; [|].
  2: { unfold create_response_decision, enqueue_decision_params.
       cbn [dp_selected_action dp_decision_source dp_outcome_summary dp_alert_id dp_incident_id dp_source_ip
            dp_reason_code dp_correlation_id dp_parent_correlation_id dp_playbook_id dp_playbook_execution_id
            dp_playbook_step_index dp_queue_id dp_approval_request_id dp_created_by dp_safe_metadata].
       assert (is_empty act || is_empty (strip act) = false) as -> by (each_action Hact).
       match goal with |- context [is_empty ?s || is_empty (strip ?s)] =>
         assert (is_empty s || is_empty (strip s) = false) as -> by (each_action Hact) end.
       unfold validate_decision_source, validate_member. rewrite Hstrip, Hsrc. validated.
       validated. cbn [validate_reason_code].
       validated. cbn [blank default].
       assert (is_empty (enqueue_correlation env (PInt a) i) = false) as -> by done. cbn [from_option id].
       rewrite enqueue_correlation_valid by done.
       validated. cbn [nonneg_or_null negb].
       validated. unfold redact_soar_outcome_metadata. cbn [truthy negb].
       validated. unfold to_inet. rewrite Hip. cbn [opt_varchar negb].
       unfold bind at 1, insert_decision.
       match goal with |- context [decision_checks ?d] => assert (decision_checks d = true) as -> end.
       { unfold decision_checks. cbn [d_correlation_id d_selected_action d_decision_source d_reason_code
           d_playbook_step_index null_or_in nonneg_or_null]. rewrite Hsrc. each_action Hact. }
       cbn [negb].
       match goal with |- context [existsb ?f ?l] => destruct (existsb f l) eqn:He end.
       - apply existsb_exists in He as ([j d] & Hin & Heq). apply String.eqb_eq in Heq.
         apply list_elem_of_In, elem_of_map_to_list in Hin. by destruct (Hfresh j d Hin).
       - reflexivity. }
  done.
Qed.

Lemma event_written a ip host act i dec d log :
  int4 i = true -> queue_action act -> inet ip = Some host -> outcome_ok log ->
  os_decisions log !! dec = Some d -> by_idempotency_key (enqueue_event_key i) log = None ->
  exists e, e_idempotency_key e = Some (enqueue_event_key i) /\ e_decision_id e = dec /\ e_queue_id e = Some i /\
    e_state e = "queued" /\ e_simulated e = true /\ e_external_executed e = false /\
    append_outcome_event inet clk (enqueue_event_params dec a ip act i) log =
      (Ok (os_event_seq log, e),
       OutcomeStore (os_decisions log) (<[os_event_seq log := e]> (os_events log))
         (os_decision_seq log) (os_event_seq log + 1)).
Proof.
  intros Hi Hact Hip Hok Hd Hkey.
  destruct (ok_decisions _ Hok _ _ Hd) as [_ Hchecks]. unfold decision_checks in Hchecks.
  rewrite !andb_true_iff, negb_true_iff in Hchecks. destruct Hchecks as [[[[Hblank _] _] _] _].
  eexists. split_and!.
  7: { unfold append_outcome_event, enqueue_event_params.
       cbn [ep_mode ep_state ep_actor ep_outcome_summary ep_decision_id ep_correlation_id ep_event_type
         ep_external_executed ep_tracking_recorded ep_simulated ep_reason_code ep_idempotency_key].
       rewrite bool_decide_eq_false_2 by done. cbn [andb].
       match goal with |- context [is_empty ?s || is_empty (strip ?s)] =>
         assert (is_empty s || is_empty (strip s) = false) as -> by (each_action Hact) end.
       do 5 (validated; lazymatch goal with |- context [validate_outcome_booleans] => idtac | _ => idtac end;
             match goal with |- context [match ?m with Ok _ => _ | Raise _ => _ end] =>
               let v := eval vm_compute in m in change m with v end; cbv iota beta).
       unfold bind at 1, resolve_decision. cbn [ep_decision_id]. unfold bind at 1, get at 1. rewrite Hd.
       cbn [blank ret default from_option id]. change (strip "queued") with "queued". cbn [is_empty].
       change ("queue-enqueue-" +:+ str_int i) with (enqueue_event_key i). rewrite enqueue_key_strip.
       assert (is_empty (enqueue_event_key i) = false) as Hne by done. rewrite Hne.
       unfold bind at 1, get at 1. rewrite Hkey. unfold append_new_event.
       cbn [ep_playbook_step_index nonneg_or_null negb ep_metadata]. validated.
       change (redact_soar_outcome_metadata PNone) with (Ok (A := pydict) []). cbv iota beta.
       cbn [ep_source_ip or_else]. validated. unfold to_inet. rewrite Hip. cbv iota beta.
       unfold bind at 1, insert_outcome_event.
       match goal with |- context [event_widths ?e] => assert (event_widths e = true) as -> end.
       { unfold event_widths. cbn. by rewrite enqueue_key_width. }
       match goal with |- context [event_checks ?e] => assert (event_checks e = true) as -> end.
       { unfold event_checks. cbn [e_correlation_id e_event_type e_outcome_summary e_mode e_state e_actor
           e_reason_code e_external_executed e_tracking_recorded e_simulated e_playbook_step_index].
         rewrite Hblank. each_action Hact. }
       cbn [negb e_idempotency_key]. rewrite Hkey. reflexivity. }
  all: done.
Qed.
End Writes.

(** ** Which alerts are admitted

    The reference reading of an entry that an ingestion committed. *)

Inductive admission :=
  | Admit (alert_id : Z) (source_ip action : string)
  | Refuse (reason : string).

Definition admission_of (excluded : gset Z) (alert : pyval) : admission :=
  match alert with
  | PDict entry =>
      match dget entry "alert_id" with
      | PInt a =>
          if bool_decide (a ∈ excluded) then Refuse "playbook_precedence"
          else if is_none (dget entry "source_ip") then Refuse "missing_source_ip"
          else if is_none (dget entry "response_action") then Refuse "missing_response_action"
          else match validate_action_for_response_queue (dget entry "response_action") with
               | Ok action => Admit a (py_str (dget entry "source_ip")) action
               | Raise (CanonicalActionValidationError _ code) => Refuse code
               | Raise _ => Refuse "unexpected"
               end
      | _ => Refuse "missing_alert_id"
      end
  | _ => Refuse "invalid_alert_dict"
  end.

Ltac refused_by H := eapply H; [eassumption|reflexivity|by split].

Section Batch.
Context (env : enqueue_env).
(** The driver writes an int as its literal. *)
Context (int_column_int : forall a, ee_int_column env (PInt a) = Ok a).
Let clk := ee_clock env.

(** An entry as the ingestion makes it: the id of a row of alerts, whose
    address the type inet reads, and a text for its type. *)
Definition committed_entry (alert : pyval) : Prop :=
  match alert with
  | PDict entry =>
      match dget entry "alert_id" with
      | PNone => True
      | PInt a =>
          int4 a = true /\ ee_alert_exists env a = true /\
          (is_none (dget entry "source_ip") = false -> is_Some (ee_inet env (py_str (dget entry "source_ip")))) /\
          match dget entry "alert_type" with PStr _ | PNone => True | _ => False end
      | _ => False
      end
  | _ => True
  end.

Definition entry_key (a : Z) (ip act : string) : string :=
  compute_idempotency_key (ee_sha256_hex env) (PInt a) ip act.

Definition has_key (key : string) (q : queue_store) : Prop :=
  exists i r, qs_rows q !! i = Some r /\ q_idempotency_key r = key.

Lemma key_taken_has key q : key_taken key (qs_rows q) = true <-> has_key key q.
Proof.
  unfold has_key. split.
  - intros Hk. unfold key_taken in Hk. apply existsb_exists in Hk as ([i r] & Hin & Heq). exists i, r.
    apply list_elem_of_In, elem_of_map_to_list in Hin. split; [done|by apply String.eqb_eq].
  - intros (i & r & Hi & Hk). destruct (key_taken key (qs_rows q)) eqn:E; [done|].
    by destruct (proj1 (key_taken_false _ _) E i r Hi).
Qed.

(** The decision and the event that go with row [i]. *)
Definition outcome_recorded (i : Z) (r : queue_row) (d : enqueue_db) : Prop :=
  exists dec dr j e, q_decision_id r = Some dec /\ q_soar_correlation_id r = Some (d_correlation_id dr) /\
    os_decisions (ed_outcomes d) !! dec = Some dr /\ os_events (ed_outcomes d) !! j = Some e /\
    e_decision_id e = dec /\ e_queue_id e = Some i /\ e_state e = "queued" /\ e_simulated e = true /\
    e_external_executed e = false.

Record admitted_row (admitted : list admission) (i : Z) (r : queue_row) (d : enqueue_db) : Prop := {
  ar_from : exists a ip, Admit a ip (q_action r) ∈ admitted /\ q_alert_id r = Some a /\
    q_source_ip r = ee_inet env ip /\ q_idempotency_key r = entry_key a ip (q_action r);
  ar_pending : q_status r = QPending /\ q_retry_count r = 0 /\ q_max_retries r = 3;
  ar_outcome : outcome_recorded i r d;
}.

(** The hex drawn for the queue ids [lo .. hi - 1], which neither it nor the
    keys of the events have been used for. *)
Record supply (lo hi : Z) (log : outcome_store) : Prop := {
  su_ids : 0 <= lo /\ hi <= 2147483648;
  su_hex : forall i, lo <= i < hi -> hex12 (ee_uuid_hex env i);
  su_inj : forall i j, lo <= i < hi -> lo <= j < hi -> ee_uuid_hex env i = ee_uuid_hex env j -> i = j;
  su_fresh : forall i a j d, lo <= i < hi -> os_decisions log !! j = Some d ->
    d_correlation_id d <> enqueue_correlation env a i;
  su_keys : forall i, lo <= i < hi -> by_idempotency_key (enqueue_event_key i) log = None;
}.

(** The transaction after some entries, with room for [room] more. *)
Record batch (q0 : queue_store) (admitted : list admission) (room : nat) (c : conn enqueue_db) : Prop := {
  ba_usable : cn_aborted c = false;
  ba_queue : queue_ok (ed_queue (cn_current c));
  ba_log : outcome_ok (ed_outcomes (cn_current c));
  ba_kept : qs_rows q0 ⊆ qs_rows (ed_queue (cn_current c));
  ba_new : forall i r, qs_rows (ed_queue (cn_current c)) !! i = Some r -> qs_rows q0 !! i = None ->
    admitted_row admitted i r (cn_current c);
  ba_done : forall a ip act, Admit a ip act ∈ admitted -> has_key (entry_key a ip act) (ed_queue (cn_current c));
  ba_supply : supply (qs_seq (ed_queue (cn_current c))) (qs_seq (ed_queue (cn_current c)) + Z.of_nat room)
    (ed_outcomes (cn_current c));
}.

Lemma supply_next lo hi log log' :
  lo < hi -> supply lo hi log ->
  (forall j d, os_decisions log' !! j = Some d ->
     os_decisions log !! j = Some d \/ exists a, d_correlation_id d = enqueue_correlation env a lo) ->
  (forall j e, os_events log' !! j = Some e ->
     os_events log !! j = Some e \/ e_idempotency_key e = Some (enqueue_event_key lo)) ->
  supply (lo + 1) hi log'.
Proof.
  intros Hlt [Hids Hhex Hinj Hfresh Hkeys] Hd He. split.
  - lia.
  - intros i Hi. apply Hhex. lia.
  - intros i j Hi Hj. apply Hinj; lia.
  - intros i a j d Hi Hj Heq. destruct (Hd j d Hj) as [Hold|[a' Hnew]]; [by eapply (Hfresh i a j d); [lia|..]|].
    rewrite Hnew in Heq. apply enqueue_correlation_inj in Heq; [|apply Hhex; lia..]. apply Hinj in Heq; lia.
  - intros i Hi. apply by_key_None. intros j e Hj Hk. destruct (He j e Hj) as [Hold|Hnew].
    + eapply by_key_None; [apply (Hkeys i); lia|exact Hold|exact Hk].
    + rewrite Hnew in Hk. apply (inj Some), enqueue_key_inj in Hk. lia.
Qed.

Lemma supply_skip lo hi log : lo < hi -> supply lo hi log -> supply (lo + 1) hi log.
Proof. intros Hlt Hs. eapply supply_next; eauto. Qed.

Lemma outcome_recorded_mono i r d d' :
  os_decisions (ed_outcomes d) ⊆ os_decisions (ed_outcomes d') ->
  os_events (ed_outcomes d) ⊆ os_events (ed_outcomes d') -> outcome_recorded i r d -> outcome_recorded i r d'.
Proof.
  intros Hd He (dec & dr & j & e & H). destruct_and! H. exists dec, dr, j, e.
  split_and!; try done; by eapply lookup_weaken.
Qed.

Lemma admitted_row_mono l l' i r d d' :
  l ⊆ l' -> os_decisions (ed_outcomes d) ⊆ os_decisions (ed_outcomes d') ->
  os_events (ed_outcomes d) ⊆ os_events (ed_outcomes d') -> admitted_row l i r d -> admitted_row l' i r d'.
Proof.
  intros Hl Hd He [(a & ip & Hin & Hrest) Hp Ho]. split; [|done|by eapply outcome_recorded_mono].
  exists a, ip. split; [by apply Hl|done].
Qed.

Lemma queue_action_valid act : queue_action act -> validate_action_for_response_queue (PStr act) = Ok act.
Proof. intros Hact. each_action Hact. Qed.

(** The insert, when the key is new. *)
Lemma insert_new a ip host act q :
  queue_action act -> int4 a = true -> ee_alert_exists env a = true -> ee_inet env ip = Some host ->
  key_taken (entry_key a ip act) (qs_rows q) = false ->
  enqueue_response_action (ee_sha256_hex env) (ee_inet env) (ee_int_column env) (ee_alert_exists env) clk (PInt a) ip
    (PStr act) 3 q =
  (Ok (Some (qs_seq q)),
   QueueStore (<[qs_seq q := pending_row clk a host act (entry_key a ip act) 3]> (qs_rows q)) (qs_seq q + 1)).
Proof.
  intros Hact Ha Hex Hip Hk. unfold enqueue_response_action. rewrite queue_action_valid by done. validated.
  rewrite int_column_int. validated. rewrite Hip, Ha. change (int4 3) with true. cbn [andb negb].
  unfold entry_key in *. by rewrite Hk, Hex.
Qed.

(** .. and when it is taken. *)
Lemma insert_duplicate a ip host act q :
  queue_action act -> int4 a = true -> ee_inet env ip = Some host ->
  key_taken (entry_key a ip act) (qs_rows q) = true ->
  enqueue_response_action (ee_sha256_hex env) (ee_inet env) (ee_int_column env) (ee_alert_exists env) clk (PInt a) ip
    (PStr act) 3 q = (Ok None, QueueStore (qs_rows q) (qs_seq q + 1)).
Proof.
  intros Hact Ha Hip Hk. unfold enqueue_response_action. rewrite queue_action_valid by done. validated.
  rewrite int_column_int. validated. rewrite Hip, Ha. change (int4 3) with true. cbn [andb negb].
  unfold entry_key in *. by rewrite Hk.
Qed.

Lemma batch_skip q0 adm room c reason :
  batch q0 adm (S room) c -> batch q0 (adm ++ [Refuse reason]) room c.
Proof.
  intros [Hu Hq Hl Hk Hn Hd Hs]. split; [done..| | |].
  - intros i r Hi Hi0. eapply admitted_row_mono; [..|by apply Hn]; [set_solver|done|done].
  - intros a ip act Hin. apply elem_of_app in Hin as [Hin|Hin]; [by apply Hd|]. set_solver.
  - destruct Hs as [[Hlo Hhi] Hhex Hinj Hfresh Hkeys]. split; [lia|..]; intros; try (apply Hhex; lia).
    + apply Hinj; [lia..|done].
    + eapply Hfresh; [lia|done].
    + apply Hkeys; lia.
Qed.

(** What the call answers for an entry. *)
Definition answers (index : Z) (m : admission) (r : enqueue_result) : Prop :=
  er_index r = index /\
  match m with
  | Refuse reason => er_skipped r = true /\ er_queue_id r = None /\ er_skip_reason r = Some reason
  | Admit a ip act =>
      er_alert_id r = PInt a /\ er_source_ip r = PStr ip /\ er_action r = PStr act /\
      (er_status r = "enqueued" /\ er_skipped r = false /\ is_Some (er_queue_id r) \/
       er_status r = "duplicate_skipped" /\ er_skipped r = true /\ er_queue_id r = None)
  end.

Lemma decision_source_known entry :
  match dget entry "alert_type" with PStr _ | PNone => True | _ => False end ->
  exists source, infer_decision_source entry = Ok source /\ str_in source DECISION_SOURCES = true /\ strip source = source.
Proof.
  unfold infer_decision_source, py_or. intros Ht. destruct (truthy (dget entry "alert_type")) eqn:Htr.
  - destruct (dget entry "alert_type") as [| | | | |t| | | |] eqn:E; try done.
    destruct (contains "correl" (lower t)); eexists; split_and!; reflexivity.
  - eexists; split_and!; reflexivity.
Qed.

(** The state after the canonical writes of a new row. *)
Lemma outcome_written q log com entry a ip host act i r0 :
  queue_action act -> int4 a = true -> ee_inet env ip = Some host ->
  match dget entry "alert_type" with PStr _ | PNone => True | _ => False end ->
  outcome_ok log -> int4 i = true -> hex12 (ee_uuid_hex env i) ->
  (forall j d, os_decisions log !! j = Some d -> d_correlation_id d <> enqueue_correlation env (PInt a) i) ->
  by_idempotency_key (enqueue_event_key i) log = None -> qs_rows q !! i = Some r0 ->
  exists d e log', write_canonical_enqueue_outcome env (PInt a) ip act i entry (Conn com (EnqueueDb q log) false) =
      (Ok tt, Conn com (EnqueueDb (QueueStore (<[i := set_linkage (Some (os_decision_seq log)) (Some (d_correlation_id d)) r0]>
                                                  (qs_rows q)) (qs_seq q)) log') false) /\
    outcome_ok log' /\ d_correlation_id d = enqueue_correlation env (PInt a) i /\
    os_decisions log' = <[os_decision_seq log := d]> (os_decisions log) /\
    os_events log' = <[os_event_seq log := e]> (os_events log) /\
    e_idempotency_key e = Some (enqueue_event_key i) /\ e_decision_id e = os_decision_seq log /\
    e_queue_id e = Some i /\ e_state e = "queued" /\ e_simulated e = true /\ e_external_executed e = false.
Proof.
  intros Hact Ha Hip Htype Hok Hi Hhex Hfresh Hkey Hrow.
  destruct (decision_source_known entry Htype) as (source & Hsrc & Hin & Hstrip).
  destruct (decision_written env a ip host act source i log) as (d & Hd & Hrun); [done..|].
  pose proof (create_response_decision_steps _ _ _ _ _ _ _ Hrun) as Hsteps.
  apply outcome_steps_ok in Hsteps; [|done].
  destruct (event_written env a ip host act i (os_decision_seq log) d _ Hi Hact Hip Hsteps) as
    (e & Hek & Hed & Heq & Hes & Hesim & Heext & Herun).
  { cbn. by rewrite lookup_insert_eq. }
  { apply by_key_None. intros j e Hj. by eapply by_key_None in Hj. }
  pose proof (append_outcome_event_steps _ _ _ _ _ _ Hsteps Herun) as Hsteps'.
  apply outcome_steps_ok in Hsteps'; [|done].
  exists d, e. eexists. split; [|split_and!; [exact Hsteps'|done..]].
  unfold write_canonical_enqueue_outcome. rewrite Hsrc. validated. rewrite int_column_int. validated.
  unfold bind at 1, execute at 1. cbn [cn_aborted cn_current]. unfold in_log at 1, zoom at 1.
  cbn [ed_outcomes ed_queue]. rewrite Hrun. cbn [fst snd cn_committed].
  unfold bind at 1, execute at 1. cbn [cn_aborted cn_current]. unfold in_queue at 1, zoom at 1.
  cbn [ed_outcomes ed_queue]. unfold set_queue_linkage, update_row.
  rewrite (update_where_hit i _ _ _ r0) by done. cbn [fst snd cn_committed qs_seq].
  unfold bind at 1, execute at 1. cbn [cn_aborted cn_current]. unfold in_log at 1, zoom at 1.
  cbn [ed_outcomes ed_queue]. rewrite Herun. reflexivity.
Qed.

(** A new row with its outcome extends the batch. *)
Lemma batch_insert q0 adm room com q log log' a ip host act d e :
  batch q0 adm (S room) (Conn com (EnqueueDb q log) false) -> qs_rows q !! qs_seq q = None ->
  let r0 := pending_row clk a host act (entry_key a ip act) 3 in
  let r1 := set_linkage (Some (os_decision_seq log)) (Some (d_correlation_id d)) r0 in
  queue_ok (QueueStore (<[qs_seq q := r0]> (qs_rows q)) (qs_seq q + 1)) -> ee_inet env ip = Some host ->
  outcome_ok log' -> d_correlation_id d = enqueue_correlation env (PInt a) (qs_seq q) ->
  os_decisions log' = <[os_decision_seq log := d]> (os_decisions log) ->
  os_events log' = <[os_event_seq log := e]> (os_events log) ->
  e_idempotency_key e = Some (enqueue_event_key (qs_seq q)) -> e_decision_id e = os_decision_seq log ->
  e_queue_id e = Some (qs_seq q) -> e_state e = "queued" -> e_simulated e = true -> e_external_executed e = false ->
  batch q0 (adm ++ [Admit a ip act]) room
    (Conn com (EnqueueDb (QueueStore (<[qs_seq q := r1]> (qs_rows q)) (qs_seq q + 1)) log') false).
Proof.
  intros [_ Hq Hl Hkept Hnew Hdone Hsup] Hfree r0 r1 Hq1 Hip Hl' Hd Hdec Hev Hek Hed Heq Hes Hesim Heext.
  cbn [cn_current cn_aborted ed_queue ed_outcomes] in *. set (i := qs_seq q) in *.
  split; cbn [cn_current cn_aborted ed_queue ed_outcomes qs_rows qs_seq]; [done| |done|..].
  - set (q1 := QueueStore (<[i := r0]> (qs_rows q)) (i + 1)) in *.
    replace (<[i:=r1]> (qs_rows q)) with (<[i:=r1]> (qs_rows q1)) by apply insert_insert_eq.
    eapply moves_ok; [|exact Hq1]. eapply (moves_insert q1 i r0); [apply lookup_insert_eq|]. by apply life_link.
  - etrans; [exact Hkept|]. by apply insert_subseteq.
  - intros j r Hj Hj0. destruct (decide (i = j)) as [<-|Hne].
    + rewrite lookup_insert_eq in Hj. injection Hj as <-. split; [|done|].
      * exists a, ip. split_and!; [set_solver|done|by rewrite Hip|done].
      * exists (os_decision_seq log), d, (os_event_seq log), e. cbn [ed_outcomes].
        by rewrite Hdec, Hev, !lookup_insert_eq.
    + rewrite lookup_insert_ne in Hj by done. eapply admitted_row_mono; [..|by apply Hnew]; cbn [ed_outcomes].
      * set_solver.
      * rewrite Hdec. by apply insert_subseteq, outcome_fresh_decision.
      * rewrite Hev. by apply insert_subseteq, outcome_fresh_event.
  - intros a' ip' act' [Hin|[= -> -> ->]%list_elem_of_singleton]%elem_of_app.
    + destruct (Hdone _ _ _ Hin) as (j & r & Hj & Hkey). exists j, r.
      split; [|done]. cbn. rewrite lookup_insert_ne; [done|]. by intros <-; rewrite Hj in Hfree.
    + exists i, r1. cbn. by rewrite lookup_insert_eq.
  - replace (i + 1 + Z.of_nat room) with (i + Z.of_nat (S room)) by lia. apply (supply_next _ _ log); [lia|done|..].
    + intros j d' Hj. rewrite Hdec in Hj. apply lookup_insert_Some in Hj as [[_ <-]|[_ Hj]]; eauto.
    + intros j e' Hj. rewrite Hev in Hj. apply lookup_insert_Some in Hj as [[_ <-]|[_ Hj]]; eauto.
Qed.

Lemma admit_new q0 adm room com q log idx entry a ip host act :
  queue_action act -> int4 a = true -> ee_alert_exists env a = true -> ee_inet env ip = Some host ->
  match dget entry "alert_type" with PStr _ | PNone => True | _ => False end ->
  batch q0 adm (S room) (Conn com (EnqueueDb q log) false) ->
  key_taken (entry_key a ip act) (qs_rows q) = false ->
  exists r c, enqueue_validated env idx entry (PInt a) ip act (Conn com (EnqueueDb q log) false) = (Ok r, c) /\
    batch q0 (adm ++ [Admit a ip act]) room c /\ answers idx (Admit a ip act) r.
Proof.
  intros Hact Ha Hex Hip Htype Hb Hk. pose proof (insert_new a ip host act q Hact Ha Hex Hip Hk) as Hins.
  pose proof (ba_queue _ _ _ _ Hb) as Hq. pose proof (ba_log _ _ _ _ Hb) as Hl. cbn [cn_current ed_queue ed_outcomes] in *.
  destruct (ba_supply _ _ _ _ Hb) as [Hids Hhex _ Hfresh Hkeys]. cbn [cn_current ed_queue ed_outcomes] in *.
  set (r0 := pending_row clk a host act (entry_key a ip act) 3) in *.
  assert (int4 (qs_seq q) = true) as Hi by (unfold int4; rewrite andb_true_iff, !Z.leb_le; lia).
  destruct (outcome_written (QueueStore (<[qs_seq q := r0]> (qs_rows q)) (qs_seq q + 1)) log com entry a ip host act
    (qs_seq q) r0) as (d & e & log' & Hrun & Hl' & Hd & Hdec & Hev & Hek & Hed & Heq & Hes & Hesim & Heext); [done..| | | | |].
  { apply Hhex. lia. } { intros j d. apply Hfresh. lia. } { apply Hkeys. lia. } { apply lookup_insert_eq. }
  assert (qs_rows q !! qs_seq q = None) as Hfree.
  { destruct (qs_rows q !! qs_seq q) eqn:E; [|done]. apply (ok_queue_ids _ Hq) in E. lia. }
  eexists _, _. split; [|split].
  - unfold enqueue_validated. unfold bind at 1, try_catch, bind at 1, execute at 1. cbn [cn_aborted cn_current].
    unfold in_queue at 1, zoom at 1. cbn [ed_queue ed_outcomes]. fold clk. rewrite Hins. cbn [fst snd cn_committed ret].
    unfold try_write_canonical_enqueue_outcome. unfold bind at 1, try_catch. rewrite Hrun. reflexivity.
  - cbn [qs_rows qs_seq]. rewrite insert_insert_eq. eapply batch_insert; try done.
    eapply moves_ok; [eapply (enqueue_moves _ _ _ _ clk (PInt a) ip (PStr act) 3); [lia|exact Hq|exact Hins]|exact Hq].
  - split; [done|]. cbn. split_and!; try done. left. by eauto.
Qed.

Lemma admit_duplicate q0 adm room com q log idx entry a ip host act :
  queue_action act -> int4 a = true -> ee_inet env ip = Some host ->
  batch q0 adm (S room) (Conn com (EnqueueDb q log) false) ->
  key_taken (entry_key a ip act) (qs_rows q) = true ->
  exists r c, enqueue_validated env idx entry (PInt a) ip act (Conn com (EnqueueDb q log) false) = (Ok r, c) /\
    batch q0 (adm ++ [Admit a ip act]) room c /\ answers idx (Admit a ip act) r.
Proof.
  intros Hact Ha Hip [_ Hq Hl Hkept Hnew Hdone Hsup] Hk. pose proof (insert_duplicate a ip host act q Hact Ha Hip Hk) as Hins.
  cbn [cn_current cn_aborted ed_queue ed_outcomes] in *. eexists _, _. split; [|split].
  - unfold enqueue_validated. unfold bind at 1, try_catch, bind at 1, execute at 1. cbn [cn_aborted cn_current].
    unfold in_queue at 1, zoom at 1. cbn [ed_queue ed_outcomes]. fold clk. rewrite Hins. reflexivity.
  - split; cbn [cn_current cn_aborted cn_committed ed_queue ed_outcomes qs_rows qs_seq]; [done| |done|done|..].
    + eapply moves_ok; [eapply (enqueue_moves _ _ _ _ clk (PInt a) ip (PStr act) 3); [lia|exact Hq|exact Hins]|exact Hq].
    + intros i r Hi Hi0. eapply admitted_row_mono; [..|by apply Hnew]; [set_solver|done|done].
    + intros a' ip' act' [Hin|[= -> -> ->]%list_elem_of_singleton]%elem_of_app; [by apply Hdone|by apply key_taken_has].
    + replace (qs_seq q + 1 + Z.of_nat room) with (qs_seq q + Z.of_nat (S room)) by lia. by apply supply_skip; [lia|].
  - split; [done|]. cbn. split_and!; try done. by right.
Qed.

Lemma queue_refusal v e :
  validate_action_for_response_queue v = Raise e -> exists msg code, e = CanonicalActionValidationError msg code.
Proof.
  unfold validate_action_for_response_queue, get_action_spec, normalize_action_name.
  intros H. repeat (case_match; simplify_eq/=; eauto).
Qed.

Lemma batch_usable q0 adm room c : batch q0 adm room c -> exists com q log, c = Conn com (EnqueueDb q log) false.
Proof. intros [Hu _ _ _ _ _ _]. destruct c as [com [q log] ab]. cbn in Hu. subst. eauto. Qed.

(** A refusal leaves the state alone. *)
Lemma refusal_total q0 adm room c idx run r reason :
  batch q0 adm (S room) c -> run = (Ok r, c) -> answers idx (Refuse reason) r ->
  exists r c', run = (Ok r, c') /\ batch q0 (adm ++ [Refuse reason]) room c' /\ answers idx (Refuse reason) r.
Proof. intros Hb -> Hans. exists r, c. split_and!; [done|by apply batch_skip|done]. Qed.

Lemma entry_total q0 adm room c excl idx v :
  committed_entry v -> batch q0 adm (S room) c ->
  exists r c', enqueue_entry env excl idx v c = (Ok r, c') /\
    batch q0 (adm ++ [admission_of excl v]) room c' /\ answers idx (admission_of excl v) r.
Proof.
  intros Hv Hb. destruct v as [| | | | | | | | |entry]; try refused_by (refusal_total q0 adm room c idx).
  cbn [committed_entry admission_of enqueue_entry] in *.
  destruct (dget entry "alert_id") as [| |a| | | | | | |] eqn:Ha; try done; [refused_by (refusal_total q0 adm room c idx)|].
  destruct Hv as (H4 & Hex & Hip & Htype). unfold normalize_alert_id. cbn [py_int]. validated.
  destruct (bool_decide (a ∈ excl)); [refused_by (refusal_total q0 adm room c idx)|].
  unfold first_missing_required_field in *. cbn [is_none] in *.
  destruct (is_none (dget entry "source_ip")); [refused_by (refusal_total q0 adm room c idx)|].
  destruct (is_none (dget entry "response_action")); [refused_by (refusal_total q0 adm room c idx)|].
  destruct (validate_action_for_response_queue _) as [act|e] eqn:Hact.
  2: { destruct (queue_refusal _ _ Hact) as (msg & code & ->). refused_by (refusal_total q0 adm room c idx). }
  destruct (Hip eq_refl) as [host Hhost]. apply validate_action_for_response_queue_Ok in Hact as [_ Hact].
  destruct (batch_usable _ _ _ _ Hb) as (com & q & log & ->).
  destruct (key_taken (entry_key a (py_str (dget entry "source_ip")) act) (qs_rows q)) eqn:Hk.
  - by eapply admit_duplicate.
  - by eapply admit_new.
Qed.

Lemma entries_total q0 adm c excl idx entries :
  Forall committed_entry entries -> batch q0 adm (length entries) c ->
  exists rs c', enqueue_entries env excl idx entries c = (Ok rs, c') /\
    batch q0 (adm ++ map (admission_of excl) entries) 0 c' /\
    length rs = length entries /\
    forall k m, map (admission_of excl) entries !! k = Some m -> exists r, rs !! k = Some r /\ answers (idx + Z.of_nat k) m r.
Proof.
  intros Hf. revert adm c idx. induction Hf as [|v entries Hv _ IH]; intros adm c idx Hb.
  { exists [], c. rewrite app_nil_r. done. }
  destruct (entry_total q0 adm _ c excl idx v Hv Hb) as (r & c1 & Hrun & Hb1 & Hans).
  destruct (IH _ _ (idx + 1) Hb1) as (rs & c2 & Hruns & Hb2 & Hlen & Hall).
  exists (r :: rs), c2. split; [|split; [|split]].
  - cbn [enqueue_entries]. unfold bind at 1. rewrite Hrun. unfold bind at 1. by rewrite Hruns.
  - by rewrite <- app_assoc in Hb2.
  - cbn. by rewrite Hlen.
  - intros [|k] m Hm.
    + injection Hm as <-. exists r. split; [done|]. by replace (idx + Z.of_nat 0) with idx by lia.
    + destruct (Hall k m Hm) as (r' & Hr & Hans'). exists r'. split; [done|].
      by replace (idx + Z.of_nat (S k)) with (idx + 1 + Z.of_nat k) by lia.
Qed.

Lemma batch_start c q log (entries : list pyval) :
  cn_current c = EnqueueDb q log -> cn_aborted c = false -> queue_ok q -> outcome_ok log ->
  supply (qs_seq q) (qs_seq q + Z.of_nat (length entries)) log -> batch q [] (length entries) c.
Proof.
  intros Hc Hu Hq Hl Hs. split; rewrite ?Hc; cbn [ed_queue ed_outcomes]; [done..| | |done].
  - intros i r Hi Hi0. by rewrite Hi0 in Hi.
  - by intros a ip act Hin%not_elem_of_nil.
Qed.

Lemma alerts_batched com q log entries exclude excl :
  Forall committed_entry entries -> normalize_excluded_alert_ids exclude = Ok excl ->
  queue_ok q -> outcome_ok log -> supply (qs_seq q) (qs_seq q + Z.of_nat (length entries)) log ->
  exists rs c, enqueue_committed_alerts env entries exclude (Conn com (EnqueueDb q log) false) = (Ok rs, c) /\
    batch q (map (admission_of excl) entries) 0 c /\ length rs = length entries /\
    (forall k m, map (admission_of excl) entries !! k = Some m -> exists r, rs !! k = Some r /\ answers (Z.of_nat k) m r).
Proof.
  intros Hf Hex Hq Hl Hs. unfold enqueue_committed_alerts. rewrite Hex. validated.
  destruct (entries_total q [] (Conn com (EnqueueDb q log) false) excl 0 entries Hf) as (rs & c & Hrun & Hb & Hlen & Hall).
  { by eapply batch_start. }
  by exists rs, c.
Qed.

(** C33: Alerts an ingestion has committed are queued.  The call returns with
    its transaction usable and answers entry by entry: an excluded alert, an
    incomplete entry or an action the queue does not take is refused with its
    reason and gets no row; for every other there is then a row with its
    idempotency key, either the very row that was there before, in whatever
    state, or a new one.  Rows that were there keep everything, and a row
    that is new belongs to an admitted entry, is pending with its whole retry
    budget, and is linked to a decision with a simulated queued event. *)
Theorem committed_alerts_enqueued com q log entries exclude excl :
  Forall committed_entry entries -> normalize_excluded_alert_ids exclude = Ok excl ->
  queue_ok q -> outcome_ok log -> supply (qs_seq q) (qs_seq q + Z.of_nat (length entries)) log ->
  let verdicts := map (admission_of excl) entries in
  exists rs c, enqueue_committed_alerts env entries exclude (Conn com (EnqueueDb q log) false) = (Ok rs, c) /\
    cn_aborted c = false /\ length rs = length entries /\
    (forall k m, verdicts !! k = Some m -> exists r, rs !! k = Some r /\ answers (Z.of_nat k) m r) /\
    qs_rows q ⊆ qs_rows (ed_queue (cn_current c)) /\
    (forall i r, qs_rows (ed_queue (cn_current c)) !! i = Some r -> qs_rows q !! i = None ->
       admitted_row verdicts i r (cn_current c)) /\
    (forall a ip act, Admit a ip act ∈ verdicts -> exists i r,
       qs_rows (ed_queue (cn_current c)) !! i = Some r /\ q_idempotency_key r = entry_key a ip act /\
       (qs_rows q !! i = Some r \/ qs_rows q !! i = None /\ admitted_row verdicts i r (cn_current c))).
Proof.
  intros Hf Hex Hq Hl Hs. destruct (alerts_batched com q log entries exclude excl Hf Hex Hq Hl Hs) as (rs & c & Hrun & Hb & Hlen & Hall).
  exists rs, c. destruct Hb as [Hu _ _ Hkept Hnew Hdone _]. split_and!; try done. intros a ip act Hin.
  destruct (Hdone a ip act Hin) as (i & r & Hi & Hk). exists i, r. split_and!; [done|done|].
  destruct (qs_rows q !! i) as [r0|] eqn:H0; [left|right; auto]. pose proof (lookup_weaken _ _ _ _ H0 Hkept) as Hi'. congruence.
Qed.

(** The loop never ends the transaction. *)
Lemma entry_committed excl idx v : holds_still cn_committed (enqueue_entry env excl idx v).
Proof.
  unfold enqueue_entry, enqueue_validated, try_write_canonical_enqueue_outcome, write_canonical_enqueue_outcome.
  repeat first [ exact (execute_committed _) | apply still_ret | apply still_raise | apply still_of_outcome
               | apply still_try; [|intros ?] | apply still_bind; [|intros ?] | case_match ].
Qed.

Lemma entries_committed excl idx entries : holds_still cn_committed (enqueue_entries env excl idx entries).
Proof.
  revert idx. induction entries as [|v entries IH]; intros idx; [apply still_ret|]. cbn [enqueue_entries].
  apply still_bind; [apply entry_committed|]. intros r. apply still_bind; [apply IH|]. intros rs. apply still_ret.
Qed.

(** In an aborted transaction every insert fails and nothing changes. *)
Lemma entries_aborted excl idx entries c :
  cn_aborted c = true -> Forall committed_entry entries ->
  exists rs, enqueue_entries env excl idx entries c = (Ok rs, c).
Proof.
  intros Hab Hf. revert idx. induction Hf as [|v entries Hv _ IH]; intros idx; [by exists []|].
  assert (exists r, enqueue_entry env excl idx v c = (Ok r, c)) as [r Hr].
  { destruct v as [| | | | | | | | |entry]; try (by eexists). cbn [committed_entry enqueue_entry] in *.
    destruct (dget entry "alert_id") as [| |a| | | | | | |] eqn:Ha; try done; unfold normalize_alert_id; cbn [py_int]; validated;
      [by eexists|]. destruct (bool_decide _); [by eexists|].
    destruct (first_missing_required_field _ _ _); [by eexists|].
    destruct (validate_action_for_response_queue _) as [act|e] eqn:Hact.
    2: { destruct (queue_refusal _ _ Hact) as (msg & code & ->). by eexists. }
    unfold enqueue_validated, execute. unfold bind at 1, try_catch, bind at 1. rewrite Hab. by eexists. }
  destruct (IH (idx + 1)) as [rs Hrs]. exists (r :: rs). cbn [enqueue_entries]. unfold bind at 1. rewrite Hr.
  unfold bind at 1. by rewrite Hrs.
Qed.

(** An entry of an alert that has been deleted meanwhile, with the key of
    its row. *)
Definition vanished_entry (excl : gset Z) (alert : pyval) (key : string) : Prop :=
  exists entry a act, alert = PDict entry /\ dget entry "alert_id" = PInt a /\ int4 a = true /\ a ∉ excl /\
    ee_alert_exists env a = false /\ is_none (dget entry "source_ip") = false /\
    is_Some (ee_inet env (py_str (dget entry "source_ip"))) /\ is_none (dget entry "response_action") = false /\
    validate_action_for_response_queue (dget entry "response_action") = Ok act /\
    key = entry_key a (py_str (dget entry "source_ip")) act.

Lemma vanished_aborts excl idx alert key q com log :
  vanished_entry excl alert key -> key_taken key (qs_rows q) = false ->
  exists r q', enqueue_entry env excl idx alert (Conn com (EnqueueDb q log) false) =
      (Ok r, Conn com (EnqueueDb q' log) true) /\ er_status r = "error".
Proof.
  intros (entry & a & act & -> & Ha & H4 & Hex & Hgone & Hip & [host Hhost] & Hact & Hval & ->) Hk.
  cbn [enqueue_entry]. rewrite Ha. unfold normalize_alert_id. cbn [py_int]. validated.
  rewrite bool_decide_eq_false_2 by done. unfold first_missing_required_field. rewrite Hip, Hact. cbn [is_none].
  rewrite Hval. unfold enqueue_validated. unfold bind at 1, try_catch, bind at 1, execute at 1.
  cbn [cn_aborted cn_current]. unfold in_queue at 1, zoom at 1. cbn [ed_queue ed_outcomes].
  unfold enqueue_response_action. apply validate_action_for_response_queue_Ok in Hval as [_ Hval].
  rewrite queue_action_valid by done. validated. rewrite int_column_int. validated. rewrite Hhost, H4.
  change (int4 3) with true. cbn [andb negb]. fold (entry_key a (py_str (dget entry "source_ip")) act).
  rewrite Hk, Hgone. cbn [negb]. eexists _, _. split; [reflexivity|done].
Qed.

Lemma entries_app excl idx l l' c rs c' :
  enqueue_entries env excl idx l c = (Ok rs, c') ->
  enqueue_entries env excl idx (l ++ l') c =
    (let* rs' := enqueue_entries env excl (idx + Z.of_nat (length l)) l' in ret (rs ++ rs')) c'.
Proof.
  revert idx c rs. induction l as [|v l IH]; intros idx c rs.
  - intros [= <- <-]. cbn [app length]. replace (idx + Z.of_nat 0) with idx by lia.
    unfold bind. by destruct (enqueue_entries _ _ _ l' c) as [[]].
  - cbn [app enqueue_entries]. intros (r & c1 & Hr & H)%bind_ok_inv.
    apply bind_ok_inv in H as (rs1 & c2 & Hrs & [= <- <-]).
    rewrite (bind_ok _ _ _ _ _ Hr). apply IH in Hrs. unfold bind at 1. rewrite Hrs. cbn [length].
    replace (idx + Z.of_nat (S (length l))) with (idx + 1 + Z.of_nat (length l)) by lia.
    unfold bind. by destruct (enqueue_entries _ _ _ l' c2) as [[]].
Qed.

(** One failing insert loses the whole batch.  The loop catches the error
    of an insert and goes on, but it has set no savepoint: the entries before
    it are reported as enqueued, the call returns, and the caller's commit
    rolls everything back, so that no alert has a row. *)
Theorem failed_insert_loses_batch com q log pre gone post exclude excl key :
  Forall committed_entry pre -> Forall committed_entry post -> vanished_entry excl gone key ->
  normalize_excluded_alert_ids exclude = Ok excl -> queue_ok q -> outcome_ok log ->
  supply (qs_seq q) (qs_seq q + Z.of_nat (length pre)) log ->
  (~ has_key key q) -> (forall a ip act, Admit a ip act ∈ map (admission_of excl) pre -> entry_key a ip act <> key) ->
  exists rs c, enqueue_committed_alerts env (pre ++ gone :: post) exclude (Conn com (EnqueueDb q log) false) = (Ok rs, c) /\
    (forall k m, map (admission_of excl) pre !! k = Some m -> exists r, rs !! k = Some r /\ answers (Z.of_nat k) m r) /\
    qs_rows (ed_queue (cn_committed (commit_conn c).2)) = qs_rows (ed_queue com) /\
    os_events (ed_outcomes (cn_committed (commit_conn c).2)) = os_events (ed_outcomes com).
Proof.
  intros Hpre Hpost Hgone Hex Hq Hl Hs Hk Hkeys. unfold enqueue_committed_alerts. rewrite Hex. validated.
  destruct (entries_total q [] (Conn com (EnqueueDb q log) false) excl 0 pre Hpre) as (rs & c & Hrun & Hb & Hlen & Hall).
  { by eapply batch_start. }
  assert (cn_committed c = com) as Hcom.
  { change com with (cn_committed (Conn com (EnqueueDb q log) false)).
    replace c with (enqueue_entries env excl 0 pre (Conn com (EnqueueDb q log) false)).2 by (by rewrite Hrun).
    apply entries_committed. }
  destruct (batch_usable _ _ _ _ Hb) as (com' & q1 & log1 & ->). cbn in Hcom. subst com'.
  destruct (vanished_aborts excl (0 + Z.of_nat (length pre)) gone key q1 com log1 Hgone) as (r & q2 & Hr & _).
  { apply not_true_iff_false. intros (i & row & Hi & Hrow)%key_taken_has.
    destruct (qs_rows q !! i) as [row0|] eqn:Hi0.
    - apply Hk. exists i, row0. split; [done|]. pose proof (lookup_weaken _ _ _ _ Hi0 (ba_kept _ _ _ _ Hb)) as Hi1.
      cbn in Hi1. congruence.
    - destruct (ar_from _ _ _ _ (ba_new _ _ _ _ Hb i row Hi Hi0)) as (a & ip & Hin & _ & _ & Hrk).
      eapply Hkeys; [exact Hin|congruence]. }
  destruct (entries_aborted excl (0 + Z.of_nat (length pre) + 1) post (Conn com (EnqueueDb q2 log1) true)) as [rs' Hrs']; [done..|].
  exists (rs ++ r :: rs'), (Conn com (EnqueueDb q2 log1) true). split; [|split; [|done]].
  - rewrite (entries_app _ _ _ _ _ _ _ Hrun). unfold bind at 1. cbn [enqueue_entries].
    rewrite (bind_ok _ _ _ _ _ Hr). by rewrite (bind_ok _ _ _ _ _ Hrs').
  - intros k m Hm. destruct (Hall k m Hm) as (r' & Hr' & Hans). exists r'. split; [|done]. by apply lookup_app_l_Some.
Qed.
End Batch.

(** ** Witnesses *)

Definition ex_alert (id : Z) (action : string) : pyval :=
  PDict [("alert_id", PInt id); ("source_ip", PStr "198.51.100.7"); ("response_action", PStr action);
         ("alert_type", PStr "failed_login_threshold")].
(** Alert 40 has been deleted. *)
Definition ex_enqueue_env : enqueue_env :=
  EnqueueEnv (ex_at 0) id ex_inet ex_int_column (fun i => negb (i =? 40)) (pad 12).
Definition ex_batch : list pyval := [ex_alert 12 "block_ip"; ex_alert 13 "monitor"; PNone; ex_alert 14 "open_firewall"].

Lemma ex_supply n : (n <= 4)%nat -> supply ex_enqueue_env 1 (1 + Z.of_nat n) empty_outcomes.
Proof.
  intros Hn. assert (forall i, 1 <= i < 1 + Z.of_nat n -> i = 1 \/ i = 2 \/ i = 3 \/ i = 4) as Hcase by lia.
  split; [lia|..|done|by vm_compute].
  - intros i Hi%Hcase. destruct_or! Hi; subst; by split; vm_compute.
  - intros i j Hi%Hcase Hj%Hcase. by destruct_or! Hi; destruct_or! Hj; subst.
Qed.

Lemma ex_batch_committed : Forall (committed_entry ex_enqueue_env) ex_batch.
Proof. repeat constructor; cbn; try done; intros _; eexists; reflexivity. Qed.

Lemma committed_alerts_enqueued_witness :
  exists rs c, enqueue_committed_alerts ex_enqueue_env ex_batch [PInt 13] (open_conn (EnqueueDb empty_queue empty_outcomes)) = (Ok rs, c) /\
    map er_status rs = ["enqueued"; "skipped"; "skipped"; "rejected"] /\
    exists i r, qs_rows (ed_queue (cn_current c)) !! i = Some r /\ q_idempotency_key r = "12:198.51.100.7:block_ip".
Proof.
  destruct (committed_alerts_enqueued ex_enqueue_env (fun _ => eq_refl) (EnqueueDb empty_queue empty_outcomes) empty_queue
    empty_outcomes ex_batch [PInt 13] {[ 13 ]}) as (rs & c & Hrun & _ & _ & _ & _ & _ & Hkey).
  - apply ex_batch_committed.
  - by vm_compute.
  - apply empty_queue_ok.
  - apply empty_outcomes_ok.
  - exact (ex_supply 4 ltac:(lia)).
  - exists rs, c. split; [exact Hrun|]. split.
    + vm_compute in Hrun. by injection Hrun as <- _.
    + destruct (Hkey 12 "198.51.100.7" "block_ip") as (i & r & Hi & Hk & _); [vm_compute; left|]. by exists i, r.
Defined.

Lemma failed_insert_loses_batch_witness :
  exists rs c, enqueue_committed_alerts ex_enqueue_env [ex_alert 12 "block_ip"; ex_alert 40 "monitor"] []
      (open_conn (EnqueueDb empty_queue empty_outcomes)) = (Ok rs, c) /\
    map er_status rs = ["enqueued"; "error"] /\ qs_rows (ed_queue (cn_committed (commit_conn c).2)) = ∅.
Proof.
  destruct (failed_insert_loses_batch ex_enqueue_env (fun _ => eq_refl) (EnqueueDb empty_queue empty_outcomes) empty_queue
    empty_outcomes [ex_alert 12 "block_ip"] (ex_alert 40 "monitor") [] [] ∅ "40:198.51.100.7:monitor")
    as (rs & c & Hrun & _ & Hq & _).
  - repeat constructor; cbn; try done; intros _; eexists; reflexivity.
  - constructor.
  - eexists _, 40, "monitor". split_and!; try reflexivity; [set_solver|by eexists].
  - reflexivity.
  - apply empty_queue_ok.
  - apply empty_outcomes_ok.
  - exact (ex_supply 1 ltac:(lia)).
  - intros (i & r & Hi & _). done.
  - intros a ip act Hin. vm_compute in Hin. apply elem_of_cons in Hin as [[= -> -> ->]|Hin]; [by vm_compute|].
    by apply not_elem_of_nil in Hin.
  - exists rs, c. split; [exact Hrun|]. split; [|exact Hq]. vm_compute in Hrun. by injection Hrun as <- _.
Defined.
