(* ===== verification/IngestDispatch.v ===== *)
(** * IngestDispatch: what an ingestion does with the alerts it has committed

    The part of the handlers of routes/ingest_routes.py that follows the
    commit of the events and alerts: playbook executions first
    ([PlaybookOrchestrator]), then the notifications of the alerts, then the
    response queue ([EnqueueOrchestrator]) for the alerts no playbook has
    claimed.  Each part is a transaction of its own. *)

From S2P Require Import Prelude Tables PyText PyFloat PyValue AddressText Interfaces Hoare ResponseQueue Outcomes.
From S2P Require Import Alerts PlaybookStore StepEvents StepActions ExecutorProtocol PlaybookOrchestrator.
From S2P Require Import Identifiers EnqueueOrchestrator EnqueueProofs.

Open Scope Z_scope.

(** ** The database *)

Record dispatch_db (W : Type) := DispatchDb { dd_exec : exec_db W; dd_queue : queue_store }.
Arguments DispatchDb {W} _ _.
Arguments dd_exec {W} _.
Arguments dd_queue {W} _.

(** [notify_for_alert] of core/notification_policy_service.py as its callers
    see it: it neither ends the transaction nor touches the executions, the
    outcome log or the alerts. *)
Class AlertNotifier (W : Type) := {
  notify_for_alert : Z -> M (conn (exec_db W)) unit;
  notify_committed : forall i c, cn_committed (notify_for_alert i c).2 = cn_committed c;
  notify_scheduling : forall i c, let d := cn_current c in let d' := cn_current (notify_for_alert i c).2 in
    xd_soar d' = xd_soar d /\ xd_outcomes d' = xd_outcomes d /\ xd_alerts d' = xd_alerts d;
}.

Section Dispatch.
Context {W : Type} `{StepServices W} `{AlertNotifier W}.

#[export, refine] Instance dispatch_db_tx : Transactional (dispatch_db W) := {
  restore snap cur := DispatchDb (restore (dd_exec snap) (dd_exec cur)) (restore (dd_queue snap) (dd_queue cur));
}.
Proof.
  - intros []. cbn [dd_exec dd_queue]. by rewrite !restore_id.
  - intros [] [] []. cbn [dd_exec dd_queue]. by rewrite !restore_idemp.
Defined.

Definition on_exec {A} (m : M (conn (exec_db W)) A) : M (conn (dispatch_db W)) A :=
  zoom_conn dd_exec (fun x d => DispatchDb x (dd_queue d)) m.

(** The tables of the enqueue: the queue and the outcome log. *)
Definition enqueue_part (d : dispatch_db W) : enqueue_db := EnqueueDb (dd_queue d) (xd_outcomes (dd_exec d)).
Definition set_enqueue_part (e : enqueue_db) (d : dispatch_db W) : dispatch_db W :=
  let x := dd_exec d in
  DispatchDb (ExecDb (xd_soar x) (xd_approvals x) (ed_outcomes e) (xd_deliveries x) (xd_alerts x) (xd_world x)) (ed_queue e).
Definition on_enqueue {A} (m : M (conn enqueue_db) A) : M (conn (dispatch_db W)) A :=
  zoom_conn enqueue_part set_enqueue_part m.

(** The clock of the second transaction, the INTEGER column, and the hex of
    the decisions that belong to queue rows. *)
Context (env : exec_env) (text_le : string -> string -> Prop) `{!RelDecision text_le}.
Context (enqueue_clock : clock) (int_column : pyval -> outcome Z) (queue_uuid_hex : Z -> string).

Definition dispatch_enqueue_env (d : dispatch_db W) : enqueue_env :=
  EnqueueEnv enqueue_clock (en_sha256_hex env) (en_inet env) int_column (alert_exists (dd_exec d)) queue_uuid_hex.

(** ** The parts *)

Fixpoint send_alert_notifications_for_alerts (alerts_created : list pyval) : M (conn (dispatch_db W)) unit :=
  match alerts_created with
  | [] => ret tt
  | PDict alert :: rest =>
      (if truthy (dget alert "alert_id")
       then try_catch (let* i := of_outcome (py_int (dget alert "alert_id")) in on_exec (notify_for_alert i))
              (fun _ => ret tt)
       else ret tt) ;;;
      send_alert_notifications_for_alerts rest
  | _ :: _ => raise (OtherException "AttributeError")
  end.

(** [None] for the summary of an error. *)
Definition create_playbook_executions_for_alerts (alerts_created : list pyval)
    : M (conn (dispatch_db W)) (option orchestration) :=
  try_catch
    (let* result := on_exec (create_pending_executions_for_committed_alerts env text_le alerts_created) in
     commit_conn ;;;
     try_catch (send_alert_notifications_for_alerts alerts_created ;;; commit_conn) (fun _ => ret tt) ;;;
     ret (Some result))
    (fun _ => rollback_conn ;;; ret None).

Fixpoint claimed_ids (results : list orchestration_result) : outcome (list pyval) :=
  match results with
  | [] => Ok []
  | item :: rest =>
      if negb (str_in (or_status item) ["created"; "duplicate"]) || is_none (or_alert_id item) then claimed_ids rest
      else
        let! i := normalize_alert_id (or_alert_id item) in
        let! ids := claimed_ids rest in
        Ok (match i with Some i => PInt i :: ids | None => ids end)
  end.

Definition playbook_claimed_alert_ids (playbook_result : option orchestration) : outcome (list pyval) :=
  match playbook_result with Some o => claimed_ids (oc_results o) | None => Ok [] end.

Definition dispatch_committed_alerts (alerts_created : list pyval) : M (conn (dispatch_db W)) unit :=
  let* playbook_result := create_playbook_executions_for_alerts alerts_created in
  let* claimed := of_outcome (playbook_claimed_alert_ids playbook_result) in
  try_catch
    (let* c := get in
     on_enqueue (enqueue_committed_alerts (dispatch_enqueue_env (cn_current c)) alerts_created claimed) ;;;
     commit_conn)
    (fun _ => ret tt).
End Dispatch.

(** * Every committed alert is handled once

    After the dispatch of IngestDispatch a committed alert has an execution
    under way for each playbook that matches it, or else, when none does, a
    row in the response queue; an alert with a playbook never gets one
    ([committed_alerts_dispatched]). *)

(** ** The writers of the outcome log *)

Section Writers.
Context (inet : string -> option string) (clk : clock).

Lemma append_keeps_decisions p : holds_still os_decisions (append_outcome_event inet clk p).
Proof.
  assert (forall e, holds_still os_decisions (insert_outcome_event e)) as Hins.
  { intros e s. unfold insert_outcome_event. by repeat case_match. }
  unfold append_outcome_event, append_new_event, resolve_decision.
  repeat first [ apply Hins | apply still_ret | apply still_raise | apply still_of_outcome | apply (still_gets (fun s => s))
               | apply still_bind; [|intros ?] | case_match ].
Qed.

(** A decision that is new has the correlation id that was generated. *)
Definition generated (alert_id : option Z) (uuid : string) (s s' : outcome_store) : Prop :=
  os_events s' = os_events s /\
  forall j d, os_decisions s' !! j = Some d ->
    os_decisions s !! j = Some d \/ generate_soar_correlation_id alert_id uuid = Ok (d_correlation_id d).

Lemma insert_decision_generated alert uuid d s :
  generate_soar_correlation_id alert uuid = Ok (d_correlation_id d) -> generated alert uuid s (insert_decision d s).2.
Proof.
  intros Hg. unfold insert_decision. repeat case_match; cbn; (split; [done|]); cbn; eauto.
  intros j d' Hj. apply lookup_insert_Some in Hj as [[_ <-]|[_ Hj]]; auto.
Qed.

Lemma create_decision_generated uuid p s :
  blank (dp_correlation_id p) = true -> generated (dp_alert_id p) uuid s (create_response_decision inet clk uuid p s).2.
Proof.
  intros Hb. assert (generated (dp_alert_id p) uuid s s) as Hs by (split; [done|auto]). unfold create_response_decision.
  destruct (_ || _); [done|]. destruct (_ || _); [done|].
  destruct (validate_decision_source _); [|done]. validated. destruct (validate_reason_code _); [|done]. validated.
  rewrite Hb. destruct (generate_soar_correlation_id _ _) as [c|] eqn:Hc; [|done]. validated.
  destruct (if blank (dp_parent_correlation_id p) then _ else _); [|done]. validated.
  destruct (negb _); [done|]. destruct (redact_soar_outcome_metadata _); [|done]. validated.
  destruct (to_inet inet _); [|done]. validated. destruct (negb _); [done|].
  unfold bind. match goal with |- context [insert_decision ?d s] => pose proof (insert_decision_generated (dp_alert_id p) uuid d s) as Hi;
    destruct (insert_decision d s) as [[i|e] s'] end; by apply Hi.
Qed.
End Writers.

Lemma restored_log_ok s s' : outcome_ok s -> rtc outcome_step s s' -> outcome_ok (restore s s').
Proof.
  intros [Hd Hc He Hk] [Hds Hes]%outcome_steps_seq. split; cbn; try done.
  - intros i d Hi. destruct (Hd i d Hi). split; [lia|done].
  - intros i e Hi. destruct (He i e Hi) as (? & ? & ?). split_and!; [lia|done..].
Qed.

Lemma generated_text alert uuid c :
  hex12 uuid -> generate_soar_correlation_id alert uuid = Ok c -> exists a, c = "soar-" +:+ a +:+ "-" +:+ uuid.
Proof.
  intros [Hl Hu] Hg. unfold generate_soar_correlation_id in Hg.
  set (a := match alert with Some a => str_int a | None => "none" end) in *.
  apply validate_correlation_Ok in Hg as [-> _]. exists a. apply correlation_strip. rewrite !all_chars_app, Hu.
  unfold a. destruct alert as [z|]; [|done]. by rewrite (all_chars_impl _ _ _ number_correlation (str_int_chars z)).
Qed.

(** ** The hex of the queue survives the scheduling *)

Section Supply.
Context (qenv : enqueue_env) (env : exec_env).
Context (execution_hex : forall i, hex12 (en_uuid_hex env i)).

Lemma supply_grow lo hi log log' :
  supply qenv lo hi log ->
  (forall j d, os_decisions log' !! j = Some d ->
     os_decisions log !! j = Some d \/ forall i a, lo <= i < hi -> d_correlation_id d <> enqueue_correlation qenv a i) ->
  (forall j e, os_events log' !! j = Some e ->
     os_events log !! j = Some e \/ forall i, e_idempotency_key e <> Some (enqueue_event_key i)) ->
  supply qenv lo hi log'.
Proof.
  intros [Hids Hhex Hinj Hfresh Hkeys] Hd He. split; [done..| |].
  - intros i a j d Hi Hj. destruct (Hd j d Hj) as [Hold|Hnew]; [by eapply Hfresh|by apply Hnew].
  - intros i Hi. apply by_key_None. intros j e Hj. destruct (He j e Hj) as [Hold|Hnew]; [|apply Hnew].
    eapply by_key_None; [apply (Hkeys i); lia|exact Hold].
Qed.

(** The log invariant the scheduling keeps; the hex of executions and of
    queue rows are different draws. *)
Definition dispatch_log (lo hi : Z) (log : outcome_store) : Prop :=
  outcome_ok log /\ supply qenv lo hi log /\ forall i j, lo <= j < hi -> en_uuid_hex env i <> ee_uuid_hex qenv j.

(** The rollback of a savepoint has the tables of its start. *)
Lemma dispatch_log_restore lo hi s s' : dispatch_log lo hi s -> rtc outcome_step s s' -> dispatch_log lo hi (restore s s').
Proof.
  intros (Hok & Hs & Hne) Hsteps. split_and!; [by apply restored_log_ok| |done].
  eapply supply_grow; [exact Hs|intros; by left|intros; by left].
Qed.

Lemma decision_keeps_supply lo hi i n ip :
  log_keeps (dispatch_log lo hi)
    (create_response_decision (en_inet env) (en_clock env) (en_uuid_hex env i) (execution_decision_params i n ip)).
Proof.
  intros s (Hok & Hs & Hne).
  destruct (create_decision_generated (en_inet env) (en_clock env) (en_uuid_hex env i) (execution_decision_params i n ip) s)
    as [Hev Hdec]; [done|].
  destruct (create_response_decision _ _ _ _ s) as [o s'] eqn:E. cbn [snd] in *.
  apply create_response_decision_steps in E. split; [|by apply dispatch_log_restore].
  split_and!; [by eapply outcome_steps_ok| |done]. eapply supply_grow; [exact Hs| |intros j e; rewrite Hev; by left].
  intros j d Hj. destruct (Hdec j d Hj) as [Hold|Hg]; [by left|right]. intros k a Hk Heq.
  apply generated_text in Hg as [b Hb]; [|apply execution_hex]. rewrite Hb in Heq. unfold enqueue_correlation in Heq.
  apply app_inj, same_suffix in Heq.
  - apply app_inj in Heq. by eapply Hne.
  - rewrite !length_str_app. destruct (execution_hex i) as [-> _]. by destruct (su_hex _ _ _ _ Hs k Hk) as [-> _].
Qed.

Lemma event_keeps_supply lo hi i n ip dr :
  nw_event_type n = "pending" -> nw_key n = None ->
  log_keeps (dispatch_log lo hi) (append_outcome_event (en_inet env) (en_clock env) (initial_event_params i n ip dr)).
Proof.
  intros Hty Hkey s (Hok & Hs & Hne). pose proof (append_keeps_decisions (en_inet env) (en_clock env)
    (initial_event_params i n ip dr) s) as Hdec.
  destruct (append_outcome_event _ _ _ s) as [o s'] eqn:E. cbn [snd] in *.
  pose proof (append_outcome_event_steps _ _ _ _ _ _ Hok E) as Hsteps. apply append_outcome_event_result in E; [|done].
  split; [|by apply dispatch_log_restore]. split_and!; [by eapply outcome_steps_ok| |done].
  eapply supply_grow; [exact Hs|intros j d; rewrite Hdec; by left|].
  intros j e Hj. destruct E as [k i0 e0 _ _ _|e0 s1 _ Hev Hk|x s1 _ Hev _]; [by left| |rewrite Hev in Hj; by left].
  rewrite Hev in Hj. apply lookup_insert_Some in Hj as [[_ <-]|[_ Hj]]; [right|by left].
  intros k. rewrite Hk. unfold initial_event_params. cbn [ep_idempotency_key]. rewrite Hkey, Hty.
  assert (blank (Some ("playbook-" +:+ "pending" +:+ "-" +:+ str_int i)) = false) as -> by done. cbn [default from_option id].
  rewrite correlation_strip; [done|]. rewrite !all_chars_app.
  by rewrite (all_chars_impl _ _ _ number_correlation (str_int_chars i)).
Qed.
End Supply.

(** ** The claimed ids *)

Lemma claimed_ids_spec results :
  (forall r, r ∈ results -> claiming r = true -> exists a, or_alert_id r = PInt a) ->
  exists ids excl, claimed_ids results = Ok ids /\ normalize_excluded_alert_ids ids = Ok excl /\
    forall a, a ∈ excl <-> exists r, r ∈ results /\ claiming r = true /\ or_alert_id r = PInt a.
Proof.
  induction results as [|r results IH]; intros Ht.
  { exists [], ∅. split_and!; [done..|]. intros a. split; [set_solver|]. intros (r & Hr & _). by apply not_elem_of_nil in Hr. }
  destruct IH as (ids & excl & Hids & Hexcl & Hin); [intros x Hx; apply Ht; by right|].
  cbn [claimed_ids]. fold (claiming r). destruct (claiming r) eqn:Hc; cbn [negb orb].
  2: { exists ids, excl. split_and!; [done..|]. intros a. rewrite Hin. setoid_rewrite elem_of_cons. naive_solver congruence. }
  destruct (Ht r) as [a Ha]; [by left|done|]. rewrite Ha. cbn [is_none normalize_alert_id py_int obind]. rewrite Hids.
  exists (PInt a :: ids), ({[ a ]} ∪ excl). split_and!; [done| |].
  - cbn [normalize_excluded_alert_ids normalize_alert_id py_int obind]. by rewrite Hexcl.
  - intros b. rewrite elem_of_union, elem_of_singleton, Hin. setoid_rewrite elem_of_cons. split.
    + intros [->|(x & Hx & Hcx & Hax)]; eauto.
    + intros (x & [->|Hx] & Hcx & Hax); [left; congruence|eauto].
Qed.

(** ** The dispatch *)

Section Dispatch.
Context {W : Type} `{StepServices W} `{AlertNotifier W}.
Context (env : exec_env) (text_le : string -> string -> Prop) `{!RelDecision text_le}.
Context (enqueue_clock : clock) (int_column : pyval -> outcome Z) (queue_uuid_hex : Z -> string).
Context (int_column_int : forall a, int_column (PInt a) = Ok a) (execution_hex : forall i, hex12 (en_uuid_hex env i)).

Let queue_env (d : dispatch_db W) : enqueue_env :=
  dispatch_enqueue_env env enqueue_clock int_column queue_uuid_hex d.

(** The notifications, and the commit that follows them, leave everything
    the other parts work on. *)
Definition same_schedule (d d' : dispatch_db W) : Prop :=
  xd_soar (dd_exec d') = xd_soar (dd_exec d) /\ xd_outcomes (dd_exec d') = xd_outcomes (dd_exec d) /\
  xd_alerts (dd_exec d') = xd_alerts (dd_exec d) /\ dd_queue d' = dd_queue d.

Lemma notifications_total alerts c :
  Forall (fun v => exists a, entry_for a v) alerts ->
  exists c', send_alert_notifications_for_alerts alerts c = (Ok tt, c') /\ cn_committed c' = cn_committed c /\
    same_schedule (cn_current c) (cn_current c').
Proof.
  intros Hf. revert c. induction Hf as [|v alerts (a & entry & -> & Ha) _ IH]; intros c; [by exists c|].
  cbn [send_alert_notifications_for_alerts]. rewrite Ha.
  assert (exists c1, (if truthy (PInt a)
       then try_catch (let* i := of_outcome (py_int (PInt a)) in on_exec (notify_for_alert i)) (fun _ => ret tt)
       else ret tt) c = (Ok tt, c1) /\ cn_committed c1 = cn_committed c /\ same_schedule (cn_current c) (cn_current c1))
    as (c1 & Hrun & Hcom & Hsame).
  { destruct (truthy (PInt a)); [|by exists c]. unfold try_catch, on_exec, zoom_conn. cbn [py_int]. validated.
    pose proof (notify_committed a (Conn (dd_exec (cn_committed c)) (dd_exec (cn_current c)) (cn_aborted c))) as Hcom.
    pose proof (notify_scheduling a (Conn (dd_exec (cn_committed c)) (dd_exec (cn_current c)) (cn_aborted c))) as Hsch.
    destruct (notify_for_alert a _) as [[[]|e] c1]; cbn [fst snd cn_current cn_committed] in *; destruct_and! Hsch;
      eexists; (split; [reflexivity|]); by split. }
  destruct (IH c1) as (c2 & Hrun2 & Hcom2 & Hsame2). exists c2.
  rewrite (bind_ok _ _ _ _ _ Hrun), Hrun2. unfold same_schedule in *. destruct_and! Hsame. destruct_and! Hsame2.
  split_and!; congruence.
Qed.

Lemma commit_schedule c :
  same_schedule (cn_committed c) (cn_current c) ->
  exists d, commit_conn c = (Ok tt, Conn d d false) /\ same_schedule (cn_committed c) d.
Proof.
  intros Hs. unfold commit_conn, rollback_conn. destruct (cn_aborted c); eexists; (split; [reflexivity|]); [|done].
  unfold same_schedule in *. destruct Hs as (H1 & H2 & H3 & H4). cbn [cn_current restore dispatch_db_tx exec_db_tx dd_exec dd_queue xd_soar xd_outcomes xd_alerts].
  rewrite H1, H2, H3, H4, !restore_id. by split_and!.
Qed.

(** The executions, committed, and the notifications after them. *)
Lemma executions_total d entries lo hi :
  store_wf (xd_pb (dd_exec d)) -> Forall (fun v => exists a, entry_for a v) entries ->
  dispatch_log (queue_env d) env lo hi (xd_outcomes (dd_exec d)) ->
  exists o d', create_playbook_executions_for_alerts env text_le entries (open_conn d) = (Ok (Some o), Conn d' d' false) /\
    ready (pb_defs (xd_pb (dd_exec d))) (xd_alerts (dd_exec d)) (dispatch_log (queue_env d) env lo hi)
      (fun p a => (p <> "" /\ p ∈ playbooks_for text_le (pb_defs (xd_pb (dd_exec d))) (xd_alerts (dd_exec d)) a /\
                   exists v, v ∈ entries /\ entry_for a v) \/ False) (open_conn (dd_exec d')) /\
    tally (fun a => ((exists v, v ∈ entries /\ entry_for a v) /\
                     has_playbook text_le (pb_defs (xd_pb (dd_exec d))) (xd_alerts (dd_exec d)) a) \/ False) o /\
    dd_queue d' = dd_queue d.
Proof.
  intros Hwf Hf Hlog.
  destruct (orchestration_total env text_le (dispatch_log (queue_env d) env lo hi) entries (open_conn (dd_exec d)))
    as (o & cx & Hrun & Hready & Ht); [by apply decision_keeps_supply|by apply event_keeps_supply|done..|].
  set (d1 := DispatchDb (cn_current cx) (dd_queue d)).
  assert (on_exec (create_pending_executions_for_committed_alerts env text_le entries) (open_conn d) = (Ok o, Conn d d1 false))
    as Hon.
  { unfold on_exec, zoom_conn, open_conn in *. cbn [cn_committed cn_current cn_aborted] in *. rewrite Hrun.
    by rewrite (rd_usable _ _ _ _ _ Hready). }
  destruct (notifications_total entries (Conn d1 d1 false) Hf) as (c2 & Hrun2 & Hcom2 & Hsame2).
  destruct (commit_schedule c2) as (d2 & Hcommit & Hsame3); [by rewrite Hcom2|]. rewrite Hcom2 in Hsame3. cbn in Hsame3.
  exists o, d2. split; [|split; [|split; [done|by destruct Hsame3 as (_ & _ & _ & ->)]]].
  - unfold create_playbook_executions_for_alerts, try_catch at 1. rewrite (bind_ok _ _ _ _ _ Hon).
    unfold bind at 1, commit_conn at 1. cbn [cn_aborted cn_current]. unfold bind at 1, try_catch at 1.
    rewrite (bind_ok _ _ _ _ _ Hrun2), Hcommit. reflexivity.
  - destruct Hready as [_ Hwf' Hd Ha Hg Hs], Hsame3 as (H1 & H2 & H3 & _). unfold d1, xd_pb in *. cbn in *.
    split; cbn; unfold xd_pb; rewrite ?H1, ?H2, ?H3; done.
Qed.

Lemma admission_unclaimed excl a v : entry_for a v -> a ∉ excl -> admission_of excl v = admission_of ∅ v.
Proof.
  intros (entry & -> & Ha) Hex. cbn. rewrite Ha. by rewrite !bool_decide_eq_false_2 by set_solver.
Qed.

Lemma admitted_unclaimed excl a ip act v : admission_of excl v = Admit a ip act -> entry_for a v /\ a ∉ excl.
Proof.
  destruct v as [| | | | | | | | |entry]; try done. cbn. destruct (dget entry "alert_id") as [| |b| | | | | | |] eqn:Hb; try done.
  case_bool_decide as Hex; [done|]. intros Had. repeat case_match; simplify_eq. split; [by exists entry|done].
Qed.

(** The playbooks that match alert [a] when the dispatch starts. *)
Definition matches (d : dispatch_db W) (a : Z) (p : string) : Prop :=
  p ∈ match_playbooks (enabled_definitions text_le (dd_exec d)) (xd_alerts (dd_exec d)) a /\ p <> "".

(** C12: A committed alert is handled by the playbooks or by the queue, never
    by both.  The dispatch returns and commits everything: each playbook that
    matches an alert has an execution under way for it; an alert that no
    playbook matches and the queue admits has a row there; a row the dispatch
    has added belongs to an alert without a playbook, and the rows that were
    there are kept. *)
Theorem committed_alerts_dispatched d entries :
  store_wf (xd_pb (dd_exec d)) -> queue_ok (dd_queue d) -> outcome_ok (xd_outcomes (dd_exec d)) ->
  Forall (fun v => exists a, entry_for a v) entries -> Forall (committed_entry (queue_env d)) entries ->
  let lo := qs_seq (dd_queue d) in let hi := lo + Z.of_nat (length entries) in
  supply (queue_env d) lo hi (xd_outcomes (dd_exec d)) ->
  (forall i j, lo <= j < hi -> en_uuid_hex env i <> queue_uuid_hex j) ->
  exists d', dispatch_committed_alerts env text_le enqueue_clock int_column queue_uuid_hex entries (open_conn d) =
      (Ok tt, open_conn d') /\
    (forall a v p, v ∈ entries -> entry_for a v -> matches d a p -> under_way p a (xd_pb (dd_exec d'))) /\
    (forall a v ip act, v ∈ entries -> entry_for a v -> (forall p, ~ matches d a p) ->
       admission_of ∅ v = Admit a ip act -> has_key (entry_key (queue_env d) a ip act) (dd_queue d')) /\
    (forall i r, qs_rows (dd_queue d') !! i = Some r -> qs_rows (dd_queue d) !! i = None ->
       exists a, q_alert_id r = Some a /\ forall p, ~ matches d a p) /\
    qs_rows (dd_queue d) ⊆ qs_rows (dd_queue d').
Proof.
  intros Hwf Hq Hl Hf Hcom lo hi Hsup Hne.
  destruct (executions_total d entries lo hi Hwf Hf) as (o & d1 & Hrun & [_ _ _ Ha1 (Hl1 & Hsup1 & _) Hs1] & [_ Hc Ht] & Hq1);
    [by split_and!|].
  destruct (claimed_ids_spec (oc_results o) Ht) as (ids & excl & Hids & Hexcl & Hin).
  unfold open_conn in Ha1, Hl1, Hsup1, Hs1. cbn [cn_current] in *. assert (queue_env d1 = queue_env d) as Henv.
  { unfold queue_env, dispatch_enqueue_env, alert_exists. by rewrite Ha1. }
  destruct (alerts_batched (queue_env d1) int_column_int (enqueue_part d1) (dd_queue d1) (xd_outcomes (dd_exec d1))
    entries ids excl) as (rs & c2 & Hrun2 & [Hu2 _ _ Hkept Hnew Hdone _] & _ & _); [by rewrite Henv|done|by rewrite Hq1|done| |].
  { by rewrite Henv, Hq1. }
  assert (forall a, a ∈ excl <-> (exists v, v ∈ entries /\ entry_for a v) /\ exists p, matches d a p) as Hexcl'.
  { intros a. rewrite Hin. unfold claims in Hc. rewrite Hc. unfold has_playbook, playbooks_for, matches. cbn. naive_solver. }
  exists (set_enqueue_part (cn_current c2) d1). split; [|split_and!].
  - unfold dispatch_committed_alerts. rewrite (bind_ok _ _ _ _ _ Hrun). unfold playbook_claimed_alert_ids. rewrite Hids. validated.
    unfold try_catch at 1, bind at 1, get at 1, bind at 1, on_enqueue, zoom_conn. cbn [cn_current cn_committed cn_aborted].
    change (enqueue_part d1) with (EnqueueDb (dd_queue d1) (xd_outcomes (dd_exec d1))) at 2. unfold queue_env in Hrun2.
    rewrite Hrun2, Hu2. reflexivity.
  - intros a v p Hv Hfor [Hp Hnempty]. apply Hs1. left. split_and!; [done|done|eauto].
  - intros a v ip act Hv Hfor Hno Had. rewrite <- Henv. apply Hdone.
    assert (a ∉ excl) as Hout by (rewrite Hexcl'; naive_solver).
    apply list_elem_of_fmap. exists v. split; [|done]. by rewrite (admission_unclaimed excl a v).
  - intros i r Hi Hi0. rewrite <- Hq1 in Hi0. destruct (ar_from _ _ _ _ _ (Hnew i r Hi Hi0)) as (a & ip & Hadm & Hra & _).
    apply list_elem_of_fmap in Hadm as (v & Had & Hv). symmetry in Had. apply admitted_unclaimed in Had as [Hfor Hout].
    exists a. split; [done|]. intros p Hp. apply Hout, Hexcl'. eauto.
  - by rewrite <- Hq1.
Qed.
End Dispatch.

(** ** Witness *)

#[local, refine] Instance silent_notifier : AlertNotifier call_log := { notify_for_alert i c := (Ok tt, c) }.
Proof. all: done. Defined.

#[local] Instance any_collation : RelDecision (fun _ _ : string => True).
Proof. intros x y. by left. Defined.

Definition ex_dispatch_env : exec_env :=
  ExecEnv (Clock ex_time ex_time) ex_inet (fun _ => "0123456789ab") id (fun _ => true) (fun _ => true)
    (fun _ _ => true) "worker-1" None None.

(** Alert 13 is critical and has a playbook; alert 12 has none. *)
Definition ex_dispatch_db : dispatch_db call_log :=
  DispatchDb
    (ExecDb (DeadLetters.SoarDb (run_ops ex_pb_clock ex_exists ex_exists ex_exists
        [OpDefine "pb-2" "critical" (PList []) (Some (PDict [("min_severity", PStr "critical")])) true None] empty_pb_store)
        DeadLetters.empty_letters) Approvals.empty_approvals empty_outcomes (Deliveries.DeliveryStore ∅ 1)
      {[ 12 := ex_alert_row; 13 := dset ex_alert_row "severity" (PStr "critical") ]} [])
    empty_queue.

Lemma committed_alerts_dispatched_witness :
  exists d', dispatch_committed_alerts ex_dispatch_env (fun _ _ => True) (ex_at 0) ex_int_column (pad 12)
      [ex_alert 12 "block_ip"; ex_alert 13 "block_ip"] (open_conn ex_dispatch_db) = (Ok tt, open_conn d') /\
    under_way "pb-2" 13 (xd_pb (dd_exec d')) /\ has_key "12:198.51.100.7:block_ip" (dd_queue d') /\
    size (qs_rows (dd_queue d')) = 1%nat.
Proof.
  destruct (committed_alerts_dispatched ex_dispatch_env (fun _ _ => True) (ex_at 0) ex_int_column (pad 12)
    (fun _ => eq_refl) (fun _ => conj eq_refl eq_refl) ex_dispatch_db [ex_alert 12 "block_ip"; ex_alert 13 "block_ip"])
    as (d' & Hrun & Hplay & Hqueue & _).
  - apply run_ops_wf, empty_store_wf.
  - apply empty_queue_ok.
  - apply empty_outcomes_ok.
  - repeat constructor; eexists _, _; done.
  - repeat constructor; cbn; try done; intros _; eexists; reflexivity.
  - destruct (ex_supply 2 ltac:(lia)) as [Hids Hhex Hinj Hfresh Hkeys]. by split.
  - intros i j Hj. change (qs_seq (dd_queue ex_dispatch_db)) with 1 in Hj. cbn [length] in Hj.
    assert (j = 1 \/ j = 2) as [-> | ->] by lia; by vm_compute.
  - exists d'. split; [exact Hrun|]. split_and!.
    + apply (Hplay 13 (ex_alert 13 "block_ip")); [by right; left|eexists; split; reflexivity|]. split; [vm_compute; left|discriminate].
    + apply (Hqueue 12 (ex_alert 12 "block_ip") "198.51.100.7" "block_ip"); [left|eexists; split; reflexivity| |by vm_compute].
      intros p [Hp _]. vm_compute in Hp. by apply not_elem_of_nil in Hp.
    + vm_compute in Hrun. injection Hrun as <-. by vm_compute.
Defined.
