(* ===== verification/PlaybookWorker.v ===== *)
(** * PlaybookWorker: engines/soar_playbook_worker.py

    The daemon around the executor: configuration, heartbeats
    (core/worker_heartbeat_store.py), stale recovery and batches, each
    iteration on a connection of its own.  Times are microseconds since the
    epoch; intervals are Python floats.  The sleeping itself, logging and
    signal handling are left out: a shutdown request is an input. *)

From S2P Require Import Prelude PyText PyFloat PyValue Tables Interfaces Hoare Approvals Outcomes Alerts.
From S2P Require Import PlaybookStore DeadLetters StepEvents StepExecutor ExecutorProtocol StepExecutorProofs ExecutorProperties ExecutorFindings.

Open Scope Z_scope.

(** ** Floats *)

Definition fadd (a b : pyfloat) : pyfloat := SFadd 53 1024 a b.
Definition fsub (a b : pyfloat) : pyfloat := SFsub 53 1024 a b.
Definition fmul (a b : pyfloat) : pyfloat := SFmul 53 1024 a b.
Definition fzero : pyfloat := S754_zero false.

(** [max(0.0, x)] and [min(x, y)]. *)
Definition fmax0 (x : pyfloat) : pyfloat := if flt fzero x then x else fzero.
Definition fmin (x y : pyfloat) : pyfloat := if flt y x then y else x.

(** [td.total_seconds()] of a difference in microseconds. *)
Definition total_seconds (us : Z) : pyfloat := float_of_ratio us 1000000.

(** Round half to even. *)
Definition round_half_even (n : Z) (d : Z) : Z :=
  let q := n / d in
  match 2 * (n mod d) ?= d with Lt => q | Gt => q + 1 | Eq => if Z.even q then q else q + 1 end.

(** [timedelta(seconds=x)] in microseconds: the whole seconds exactly, the
    fraction times [1e6] as a float, rounded half to even. *)
Definition timedelta_seconds (x : pyfloat) : outcome Z :=
  match x with
  | S754_zero _ => Ok 0
  | S754_infinity _ => Raise OverflowError
  | S754_nan => Raise (ValueError "cannot convert float NaN to integer")
  | S754_finite neg m e =>
      let '(n, d) := ratio_of m e in
      let whole := n / d in
      let fraction := fmul (float_of_ratio (n mod d) (Z.to_pos d)) (float_of_ratio 1000000 1) in
      let us := whole * 1000000 +
                match fraction with
                | S754_finite _ fm fe => let '(fn, fd) := ratio_of fm fe in round_half_even fn fd
                | _ => 0
                end in
      if 86400000000 * 1000000000 <=? us then Raise OverflowError else Ok (if neg then - us else us)
  end.

(** [datetime + timedelta], refused after the year 9999. *)
Definition datetime_add (t us : Z) : outcome Z :=
  if (t + us <? -62135596800000000) || (253402300799999999 <? t + us) then Raise OverflowError else Ok (t + us).

(** ** Configuration *)

Record worker_config := WorkerConfig {
  wc_batch_size : Z;
  wc_poll_interval : pyfloat;
  wc_idle_backoff : pyfloat;
  wc_jitter : pyfloat;
  wc_error_backoff : pyfloat;
  wc_recovery_interval : pyfloat;
  wc_stale_limit : Z;
  wc_dry_run_recovery : bool;
  wc_max_loops : option Z;
  wc_heartbeat_interval : pyfloat;
}.

(** The values a configuration is given. *)
Record raw_config := RawConfig {
  rc_batch_size : pyval;
  rc_poll_interval : pyval;
  rc_idle_backoff : pyval;
  rc_jitter : pyval;
  rc_error_backoff : pyval;
  rc_recovery_interval : pyval;
  rc_stale_limit : pyval;
  rc_dry_run_recovery : pyval;
  rc_max_loops : pyval;
  rc_heartbeat_interval : pyval;
}.

(** [try: .. except (TypeError, ValueError): default]. *)
Definition or_default {A} (o : outcome A) (dflt : A) : outcome A :=
  match o with Raise TypeError | Raise (ValueError _) => Ok dflt | o => o end.

Definition clamp_int (value : pyval) (minimum maximum dflt : Z) : outcome Z :=
  let! parsed := or_default (py_int value) dflt in Ok (Z.min (Z.max parsed minimum) maximum).

Definition nonnegative_float (value : pyval) (dflt : pyfloat) : outcome pyfloat :=
  let! parsed := or_default (py_float value) dflt in Ok (fmax0 parsed).

Definition whole (z : Z) : pyfloat := float_of_ratio z 1.

Definition normalize_config (raw : raw_config) : outcome worker_config :=
  let! batch_size := clamp_int (rc_batch_size raw) 1 50 10 in
  let! poll := nonnegative_float (rc_poll_interval raw) (whole 5) in
  let! idle := nonnegative_float (rc_idle_backoff raw) (whole 30) in
  let! jitter := nonnegative_float (rc_jitter raw) (whole 2) in
  let! error := nonnegative_float (rc_error_backoff raw) (whole 10) in
  let! recovery := nonnegative_float (rc_recovery_interval raw) (whole 60) in
  let! stale_limit := clamp_int (rc_stale_limit raw) 1 200 50 in
  let! max_loops := (if is_none (rc_max_loops raw) then Ok None
                     else let! n := py_int (rc_max_loops raw) in Ok (Some (Z.max 0 n))) in
  let! heartbeat := nonnegative_float (rc_heartbeat_interval raw) (whole 15) in
  Ok (WorkerConfig batch_size poll idle jitter error recovery stale_limit (truthy (rc_dry_run_recovery raw)) max_loops
        heartbeat).

(** ** Timing *)

Definition should_run_recovery (last_recovery_at : option Z) (now : Z) (interval : pyfloat) : outcome bool :=
  match last_recovery_at with
  | None => Ok true
  | Some last =>
      if fle interval fzero then Ok true
      else
        let! td := timedelta_seconds interval in
        let! due := datetime_add last td in
        Ok (due <=? now)
  end.

Definition seconds_until_heartbeat_due (last_heartbeat_at : option Z) (now : Z) (interval : pyfloat) : pyfloat :=
  let interval := fmax0 interval in
  if feq interval fzero then fzero
  else match last_heartbeat_at with
       | None => fzero
       | Some last => fmax0 (fsub interval (fmax0 (total_seconds (now - last))))
       end.

Definition heartbeat_due (last_heartbeat_at : option Z) (now : Z) (interval : pyfloat) : bool :=
  fle (seconds_until_heartbeat_due last_heartbeat_at now interval) fzero.

(** [jitter] is what [jitter_fn] returned. *)
Definition sleep_seconds (cfg : worker_config) (idle : bool) (jitter : pyfloat) (last_heartbeat_at : option Z) (now : Z)
    : pyfloat :=
  fmin (fadd (if idle then wc_idle_backoff cfg else wc_poll_interval cfg) jitter)
    (seconds_until_heartbeat_due last_heartbeat_at now (wc_heartbeat_interval cfg)).

Definition sleep_seconds_for_error (cfg : worker_config) (jitter : pyfloat) (last_heartbeat_at : option Z) (now : Z)
    : pyfloat :=
  fmin (fadd (wc_error_backoff cfg) jitter)
    (seconds_until_heartbeat_due last_heartbeat_at now (wc_heartbeat_interval cfg)).

Definition loop_was_idle (processed recovered : Z) : bool := (processed =? 0) && (recovered =? 0).

(** ** Heartbeats *)

Definition PLAYBOOK_WORKER_NAME : string := "playbook_worker".

(** A row of soar_worker_heartbeats, without its worker name. *)
Record heartbeat_row := HeartbeatRow {
  hb_worker_instance_id : string;
  hb_build_version : option string;
  hb_started_at : Z;
  hb_last_heartbeat_at : Z;
  hb_updated_at : Z;
}.

Abbreviation heartbeat_table := (gmap string heartbeat_row).

Definition heartbeat_storable (name : string) (r : heartbeat_row) : outcome unit :=
  if negb (varchar 64 name && varchar 128 (hb_worker_instance_id r) &&
           match hb_build_version r with Some b => varchar 64 b | None => true end)
  then Raise (DatabaseError "value too long")
  else if sql_blank name || sql_blank (hb_worker_instance_id r) then Raise (IntegrityError "soar_worker_heartbeats_check")
  else Ok tt.

(** INSERT .. ON CONFLICT (worker_name) DO UPDATE. *)
Definition upsert_worker_heartbeat (name instance : string) (build : option string) (started_at heartbeat_at : Z)
    : M heartbeat_table (string * heartbeat_row) :=
  let row := HeartbeatRow instance build started_at heartbeat_at heartbeat_at in
  of_outcome (heartbeat_storable name row) ;;;
  fun t => (Ok (name, row), <[name := row]> t).

Definition get_worker_heartbeat (name : string) (t : heartbeat_table) : option (string * heartbeat_row) :=
  (fun r => (name, r)) <$> t !! name.

Record worker_health := WorkerHealth {
  wh_status : string;
  wh_worker_name : string;
  wh_available : bool;
  wh_row : option heartbeat_row;
  wh_uptime_seconds : option Z;
  wh_message : string;
}.

(** [max(0, int((current - t).total_seconds()))]. *)
Definition age_seconds (current t : Z) : outcome Z :=
  let! n := py_int (PFloat (total_seconds (current - t))) in Ok (Z.max 0 n).

Definition health_of_age (age : Z) : string * string :=
  if age <=? 45 then ("healthy", "Worker heartbeat is recent.")
  else if age <=? 120 then ("degraded", "Worker heartbeat is late but still within the stale window.")
  else ("offline", "Worker heartbeat exceeded the offline timeout.").

Definition summarize_worker_health (row : option (string * heartbeat_row)) (current : Z) : outcome worker_health :=
  match row with
  | None => Ok (WorkerHealth "unknown" PLAYBOOK_WORKER_NAME false None None "Worker heartbeat has never been recorded.")
  | Some (name, r) =>
      let! age := age_seconds current (hb_last_heartbeat_at r) in
      let! uptime := age_seconds current (hb_started_at r) in
      let '(status, message) := health_of_age age in
      Ok (WorkerHealth status (if is_empty name then PLAYBOOK_WORKER_NAME else name) true (Some r) (Some uptime) message)
  end.

#[export, refine] Instance heartbeat_table_tx : Transactional heartbeat_table := { restore snap cur := snap }.
Proof. all: done. Defined.

(** ** The loop *)

(** The counters of [stats] and the loop's local variables. *)
Record worker_state := WorkerState {
  ws_loops : Z;
  ws_processed : Z;
  ws_success : Z;
  ws_failed : Z;
  ws_skipped : Z;
  ws_recovered : Z;
  ws_errors : Z;
  ws_last_recovery_at : option Z;
  ws_last_heartbeat_at : option Z;
  ws_last_heartbeat_attempt_at : option Z;
}.

Definition initial_state : worker_state := WorkerState 0 0 0 0 0 0 0 None None None.

Definition recovery_done (n now : Z) (s : worker_state) : worker_state :=
  WorkerState (ws_loops s) (ws_processed s) (ws_success s) (ws_failed s) (ws_skipped s) (ws_recovered s + n)
    (ws_errors s) (Some now) (ws_last_heartbeat_at s) (ws_last_heartbeat_attempt_at s).

Definition heartbeat_attempted (recorded : bool) (now : Z) (s : worker_state) : worker_state :=
  WorkerState (ws_loops s) (ws_processed s) (ws_success s) (ws_failed s) (ws_skipped s) (ws_recovered s)
    (ws_errors s) (ws_last_recovery_at s) (if recorded then Some now else ws_last_heartbeat_at s) (Some now).

Definition loop_failed (s : worker_state) : worker_state :=
  WorkerState (ws_loops s) (ws_processed s) (ws_success s) (ws_failed s) (ws_skipped s) (ws_recovered s)
    (ws_errors s + 1) (ws_last_recovery_at s) (ws_last_heartbeat_at s) (ws_last_heartbeat_attempt_at s).

(** [sum(1 for row in results if row.get("outcome") == ..)]. *)
Definition count_outcome (outcome : string) (results : list exec_result) : Z :=
  Z.of_nat (length (List.filter (fun r => String.eqb (er_outcome r) outcome) results)).

Definition batch_done (results : list exec_result) (s : worker_state) : worker_state :=
  WorkerState (ws_loops s + 1) (ws_processed s + Z.of_nat (length results))
    (ws_success s + count_outcome "success" results) (ws_failed s + count_outcome "failed" results)
    (ws_skipped s + count_outcome "skipped" results) (ws_recovered s) (ws_errors s) (ws_last_recovery_at s)
    (ws_last_heartbeat_at s) (ws_last_heartbeat_attempt_at s).

(** [(worker_id or "").strip() or generate_playbook_worker_id()]. *)
Definition worker_owner (worker_id : option string) (generated : string) : string :=
  let owner := strip (default "" worker_id) in if is_empty owner then generated else owner.

(** What the outside supplies to one turn of the loop: a requested shutdown
    when the loop tests the flag and when it would sleep, both readings of the clock,
    the environment of the executor, whether the two connections open, the
    rows other transactions hold locked, and the jitter. *)
Record tick := Tick {
  tk_shutdown : option string;
  tk_now : Z;
  tk_env : exec_env;
  tk_heartbeat_connects : bool;
  tk_connects : bool;
  tk_recovery_locked : gset Z;
  tk_batch_locked : gset Z;
  tk_after : Z;
  tk_jitter : pyfloat;
  tk_shutdown_after : bool;
}.

Section Worker.
Context {W : Type} `{StepServices W}.
Context (cfg : worker_config) (owner : string) (build_version : option string) (started_at : Z).

Record worker_db := WorkerDb { wd_exec : exec_db W; wd_heartbeats : heartbeat_table }.

(** A connection of its own; every exception is logged and swallowed. *)
Definition record_worker_heartbeat (connects : bool) (heartbeat_at : Z) (t : heartbeat_table) : bool * heartbeat_table :=
  if connects then
    match execute (upsert_worker_heartbeat PLAYBOOK_WORKER_NAME owner build_version started_at heartbeat_at) (open_conn t) with
    | (Ok _, c) => (true, cn_committed (commit_conn c).2)
    | (Raise _, c) => (false, cn_committed (rollback_conn c).2)
    end
  else (false, t).

Definition heartbeat_turn (t : tick) (s : worker_state) (h : heartbeat_table) : worker_state * heartbeat_table :=
  if heartbeat_due (ws_last_heartbeat_attempt_at s) (tk_now t) (wc_heartbeat_interval cfg) then
    let '(recorded, h) := record_worker_heartbeat (tk_heartbeat_connects t) (tk_now t) h in
    (heartbeat_attempted recorded (tk_now t) s, h)
  else (s, h).

Definition on_conn {A} (m : M (conn (exec_db W)) A) : M (worker_state * conn (exec_db W)) A :=
  zoom snd (fun c s => (s.1, c)) m.
Definition count {A} (f : worker_state -> worker_state) (a : A) : M (worker_state * conn (exec_db W)) A :=
  fun s => (Ok a, (f s.1, s.2)).

Definition count_recovered (rows : list (Z * option exec_row)) : Z :=
  Z.of_nat (length (List.filter (fun r => match r.2 with Some _ => true | None => false end) rows)).

(** Returns the recovered count, 0 when recovery is not due. *)
Definition recovery_turn (t : tick) : M (worker_state * conn (exec_db W)) Z :=
  let* due := (fun s => of_outcome
    (should_run_recovery (ws_last_recovery_at s.1) (tk_now t) (wc_recovery_interval cfg)) s) in
  if due : bool then
    let* rows := on_conn (conn_soar (recover_stale_playbook_executions (en_clock (tk_env t)) (en_letter_refs (tk_env t))
      (tk_recovery_locked t) (wc_stale_limit cfg) (wc_dry_run_recovery cfg) (Some (tk_now t)))) in
    on_conn (if wc_dry_run_recovery cfg then rollback_conn else commit_conn) ;;;
    count (recovery_done (count_recovered rows) (tk_now t)) (count_recovered rows)
  else ret 0.

(** The body of the loop's try after connecting; returns how long to sleep. *)
Definition loop_body (t : tick) : M (worker_state * conn (exec_db W)) pyfloat :=
  let* recovered := recovery_turn t in
  let* results := on_conn (process_playbook_execution_batch (tk_env t) (tk_now t) (wc_batch_size cfg)
    (tk_batch_locked t) (Some owner) None) in
  on_conn commit_conn ;;;
  count (batch_done results) tt ;;;
  (fun s => (Ok (sleep_seconds cfg (loop_was_idle (Z.of_nat (length results)) recovered) (tk_jitter t)
                   (ws_last_heartbeat_attempt_at s.1) (tk_after t)), s)).

Definition sleep_after_error (t : tick) (s : worker_state) : pyfloat :=
  sleep_seconds_for_error cfg (tk_jitter t) (ws_last_heartbeat_attempt_at s) (tk_after t).

Definition worker_turn (t : tick) (s : worker_state) (d : worker_db) : worker_state * worker_db * pyfloat :=
  let '(s, h) := heartbeat_turn t s (wd_heartbeats d) in
  if tk_connects t then
    match loop_body t (s, open_conn (wd_exec d)) with
    | (Ok sleep, (s, c)) => (s, WorkerDb (cn_committed c) h, sleep)
    | (Raise _, (s, c)) => (loop_failed s, WorkerDb (cn_committed (rollback_conn c).2) h, sleep_after_error t s)
    end
  else (loop_failed s, WorkerDb (wd_exec d) h, sleep_after_error t s).

(** [_sleep_if_needed]: what is passed to the sleeper. *)
Definition sleep_if_needed (seconds : pyfloat) (shutdown : bool) : list pyfloat :=
  if shutdown || fle seconds fzero then [] else [seconds].

Inductive worker_outcome := Stopped (reason : string) | StillRunning.

(** The loop as far as the given turns go; a shutdown that was requested
    before the loop tests the flag again is the next turn's. *)
Fixpoint run_playbook_worker (ticks : list tick) (s : worker_state) (d : worker_db)
    : worker_outcome * worker_state * worker_db * list pyfloat :=
  match ticks with
  | [] => (StillRunning, s, d, [])
  | t :: ticks =>
      match tk_shutdown t with
      | Some reason => (Stopped reason, s, d, [])
      | None =>
          if match wc_max_loops cfg with Some n => n <=? ws_loops s | None => false end
          then (Stopped "max_loops", s, d, [])
          else
            let '(s, d, seconds) := worker_turn t s d in
            let '(o, s, d, sleeps) := run_playbook_worker ticks s d in
            (o, s, d, sleep_if_needed seconds (tk_shutdown_after t) ++ sleeps)
      end
  end.
End Worker.
Arguments worker_db : clear implicits.

(** ** What recovery does to the executions *)

Section Recovery.
Context (clk : clock) (now : Z).

Definition recover_step (s s' : pb_store) : Prop :=
  exists i, s' = (mark_stale_execution_for_recovery clk i (Some now) None s).2.
Definition recovers (d d' : soar_db) : Prop := rtc recover_step (sd_pb d) (sd_pb d').

#[local] Instance recovers_preorder : PreOrder recovers.
Proof. split; [intros d; unfold recovers; reflexivity|intros d1 d2 d3 H1 H2; unfold recovers in *; by etrans]. Qed.

Lemma recover_rows_recovers refs rows :
  triple (fun _ => True) (cn_rel recovers) (recover_rows clk refs rows now) anything.
Proof.
  induction rows as [|[i r] rows IH]; cbn [recover_rows]; [by apply triple_ret|].
  eapply (triple_bind _ anything).
  - apply (triple_execute recovers (fun _ => True) _ anything); [apply _|]. intros d _. split; [|done].
    unfold on_pb, zoom, recovers. destruct (mark_stale_execution_for_recovery _ _ _ _ _) as [o s] eqn:E.
    apply rtc_once. exists i. by rewrite E.
  - intros [[j x]|]; [|eapply (triple_bind _ anything); [exact IH|intros; by apply triple_ret]].
    eapply (triple_bind _ anything).
    + case_match; [|by apply triple_ret]. intros c _.
      destruct (capture_same_pb clk refs now i x (x_steps_log x) (x_last_completed_step x) c I) as [[Hc Hs] _].
      split; [|done]. split; [exact Hc|]. unfold recovers, same_pb in *. rewrite Hs. reflexivity.
    + intros u. eapply (triple_bind _ anything); [exact IH|intros; by apply triple_ret].
Qed.

Lemma recovery_recovers refs locked limit dry c :
  let c' := (recover_stale_playbook_executions clk refs locked limit dry (Some now) c).2 in
  cn_committed c' = cn_committed c /\ recovers (cn_current c) (cn_current c').
Proof.
  enough (triple (fun _ => True) (cn_rel recovers)
            (recover_stale_playbook_executions clk refs locked limit dry (Some now)) anything) as Ht.
  { cbn zeta. by destruct (Ht c I) as [[Hc Hr] _]. }
  eapply (triple_bind _ anything).
  - apply (triple_execute recovers (fun _ => True) _ anything); [apply _|]. intros d _. by split.
  - intros rows. case_match; [by apply triple_ret|]. apply recover_rows_recovers.
Qed.
End Recovery.

(** ** What a turn of the loop keeps *)

Section Turn.
Context {W : Type} `{StepServices W}.
Context (cfg : worker_config) (owner : string) (build_version : option string) (started_at : Z).

Definition lease_identity (t : tick) : string :=
  call_owner (tk_env t) (CallBatch (wc_batch_size cfg) (tk_batch_locked t) (Some owner) None).

(** An assertion on the executions that nothing in the turn can break. *)
Record turn_stable (t : tick) (P : pb_store -> Prop) : Prop := {
  ts_inv : forall s, P s -> exec_inv s;
  ts_exec : forall s s', exec_step (en_clock (tk_env t)) (lease_identity t) (tk_now t) s s' -> P s -> P s';
  ts_recover : forall s s', recover_step (en_clock (tk_env t)) (tk_now t) s s' -> P s -> P s';
  ts_same : forall s s', same_executions s s' -> P s -> P s';
}.

Lemma recover_step_seq clk now s s' : recover_step clk now s s' -> pb_seq s' = pb_seq s.
Proof.
  intros [i ->]. unfold mark_stale_execution_for_recovery, get, update_exec. run_monad. by repeat case_match.
Qed.

Context (t : tick) (P : pb_store -> Prop) (HP : turn_stable t P).

Definition turn_inv (s : worker_state * conn (exec_db W)) : Prop :=
  P (xd_pb (cn_committed s.2)) /\ P (xd_pb (cn_current s.2)) /\
  pb_seq (xd_pb (cn_committed s.2)) <= pb_seq (xd_pb (cn_current s.2)).

Definition turn_keeps {A} (m : M (worker_state * conn (exec_db W)) A) : Prop := forall s, turn_inv s -> turn_inv (m s).2.

Lemma turn_keeps_bind {A B} (m : M (worker_state * conn (exec_db W)) A) (k : A -> M _ B) :
  turn_keeps m -> (forall a, turn_keeps (k a)) -> turn_keeps (bind m k).
Proof.
  intros Hm Hk s Hs. specialize (Hm s Hs). unfold bind. destruct (m s) as [[a|e] s']; [by apply Hk|done].
Qed.

Lemma turn_rollback c s : turn_inv (s, c) -> turn_inv (s, (rollback_conn c).2).
Proof.
  intros (Hc & Hd & Hseq). cbn in *. 
  assert (P (xd_pb (restore (cn_committed c) (cn_current c)))) as Hr.
  { eapply (ts_same _ _ HP); [|exact Hc]. by split_and!. }
  by split_and!.
Qed.

Lemma turn_commit c s : turn_inv (s, c) -> turn_inv (s, (commit_conn c).2).
Proof.
  intros Hs. unfold commit_conn. destruct (cn_aborted c); [by apply turn_rollback|].
  destruct Hs as (Hc & Hd & Hseq). cbn in *. split_and!; [done..|reflexivity].
Qed.

Lemma turn_call limit locked :
  lease_identity t = call_owner (tk_env t) (CallBatch limit locked (Some owner) None) ->
  turn_keeps (on_conn (process_playbook_execution_batch (tk_env t) (tk_now t) limit locked (Some owner) None)).
Proof using HP.
  intros Ho [s c] (Hc & Hd & Hseq). cbn [snd] in *.
  destruct (run_call_keeps (tk_env t) (tk_now t) (CallBatch limit locked (Some owner) None) c) as [[Hcom Hs] _].
  { by apply (ts_inv _ _ HP). }
  cbn [run_call] in *. unfold on_conn, zoom. cbn [snd fst].
  destruct (process_playbook_execution_batch _ _ _ _ _ _ c) as [o c']. cbn [snd fst] in *.
  unfold turn_inv. cbn [snd fst]. rewrite Hcom. split_and!; [done| |].
  - unfold store_moves in Hs. rewrite <-Ho in Hs. clear -Hs Hd HP. induction Hs as [|s1 s2 s3 H12 _ IH]; [done|].
    apply IH. by eapply (ts_exec _ _ HP).
  - etrans; [exact Hseq|]. by apply exec_steps_seq in Hs.
Qed.

Lemma turn_recovers refs locked limit dry :
  turn_keeps (on_conn (conn_soar
    (recover_stale_playbook_executions (en_clock (tk_env t)) refs locked limit dry (Some (tk_now t))))).
Proof using HP.
  intros [s c] (Hc & Hd & Hseq). unfold on_conn, zoom, conn_soar, zoom_conn. cbn [snd fst] in *.
  pose proof (recovery_recovers (en_clock (tk_env t)) (tk_now t) refs locked limit dry
    (Conn (xd_soar (cn_committed c)) (xd_soar (cn_current c)) (cn_aborted c))) as [Hcom Hr].
  destruct (recover_stale_playbook_executions _ _ _ _ _ _ _) as [o c']. cbn [snd fst cn_current cn_committed] in *.
  unfold turn_inv, recovers, xd_pb in *. cbn [snd fst cn_current cn_committed xd_soar]. split; [done|].
  clear -Hr Hd Hseq HP. induction Hr as [|s1 s2 s3 H12 _ IH]; [done|]. apply IH.
  - by eapply (ts_recover _ _ HP).
  - by rewrite (recover_step_seq _ _ _ _ H12).
Qed.

Lemma commit_keeps : turn_keeps (on_conn commit_conn).
Proof using HP.
  intros [s c] Hs. unfold on_conn, zoom. cbn [snd fst]. apply (turn_commit _ s) in Hs. destruct (commit_conn c); exact Hs.
Qed.

Lemma rollback_keeps : turn_keeps (on_conn rollback_conn).
Proof using HP. intros [s c] Hs. by apply (turn_rollback _ s) in Hs. Qed.

Lemma recovery_turn_keeps : turn_keeps (recovery_turn cfg t).
Proof using HP.
  apply turn_keeps_bind; [by intros s Hs|]. intros []; [|by intros s Hs].
  apply turn_keeps_bind; [apply turn_recovers|]. intros rows.
  apply turn_keeps_bind; [destruct (wc_dry_run_recovery cfg); [apply rollback_keeps|apply commit_keeps]|by intros _ s Hs].
Qed.

Lemma loop_body_keeps : turn_keeps (loop_body cfg owner t).
Proof using HP.
  apply turn_keeps_bind; [apply recovery_turn_keeps|]. intros n. apply turn_keeps_bind; [by apply turn_call|]. intros results.
  apply turn_keeps_bind; [apply commit_keeps|]. intros u. apply turn_keeps_bind; [by intros s Hs|by intros v s Hs].
Qed.

Lemma worker_turn_keeps s d :
  P (xd_pb (wd_exec d)) -> P (xd_pb (wd_exec (worker_turn cfg owner build_version started_at t s d).1.2)).
Proof using HP.
  intros Hd. unfold worker_turn. destruct (heartbeat_turn _ _ _ _ _ _ _) as [s1 h].
  destruct (tk_connects t); [|done].
  pose proof (loop_body_keeps (s1, open_conn (wd_exec d))) as Hk.
  destruct (loop_body cfg owner t _) as [[sleep|e] [s2 c]]; cbn [fst snd] in *.
  - apply Hk. by split_and!.
  - apply (turn_rollback c s2). apply Hk. by split_and!.
Qed.
End Turn.

(** ** The worker's guarantees *)

Section Guarantees.
Context {W : Type} `{StepServices W}.
Context (cfg : worker_config) (owner : string) (build_version : option string) (started_at : Z).
Let run := run_playbook_worker (W := W) cfg owner build_version started_at.

Lemma run_keeps P ticks s d :
  Forall (fun t => turn_stable cfg owner t P) ticks -> P (xd_pb (wd_exec d)) -> P (xd_pb (wd_exec (run ticks s d).1.2)).
Proof.
  intros Ht. revert s d. induction Ht as [|t ticks HP _ IH]; intros s d Hd; [done|]. unfold run. cbn [run_playbook_worker].
  destruct (tk_shutdown t); [done|]. destruct (match wc_max_loops cfg with Some n => n <=? ws_loops s | None => false end); [done|].
  pose proof (worker_turn_keeps cfg owner build_version started_at t P HP s d Hd) as Hd1.
  destruct (worker_turn _ _ _ _ t s d) as [[s1 d1] f]. cbn [fst snd] in Hd1. specialize (IH s1 d1 Hd1). unfold run in IH.
  by destruct (run_playbook_worker _ _ _ _ ticks s1 d1) as [[[o s2] d2] l].
Qed.

(** Somebody else's live lease. *)
Definition foreign_lease (o : string) (T : Z) (t : tick) : Prop :=
  tk_now t < T /\ strip (lease_identity cfg owner t) <> o /\ strip (lease_identity cfg owner t) <> "".

Lemma foreign_lease_stable j r o T t :
  foreign_lease o T t -> x_status r = XRunning -> lease_owner (x_lease r) = Some o -> lease_expires_at (x_lease r) = Some T ->
  turn_stable cfg owner t (fun s => exec_inv s /\ pb_execs s !! j = Some r).
Proof.
  intros (HT & Hne & Hb) Hr Ho He. split.
  - by intros s [].
  - intros s s' Hs [Hinv Hj]. split; [by eapply exec_step_inv|]. eapply exec_steps_lease; [by apply rtc_once|done..].
  - intros s s' [i ->] [Hinv Hj]. split.
    + by apply (operator_inv (en_clock (tk_env t)) (fun _ => true) (fun _ => true) (fun _ => true) (OpRecover i (Some (tk_now t)) None) s).
    + unfold mark_stale_execution_for_recovery, get. run_monad. case_match; [done|].
      apply update_exec_other; [done|]. right. unfold recoverable, lease_expired. rewrite He.
      cbn [exec_now]. rewrite (proj2 (Z.leb_gt _ _)); [apply andb_false_r|]. done.
  - intros s s' Hs [Hinv Hj]. split; [by eapply same_executions_inv|]. by destruct Hs as (_ & -> & _).
Qed.

(** C7: While the lease of a running execution is alive, the daemon of any
    other worker leaves it alone: over any number of turns, with heartbeats,
    stale recovery and batches, whatever fails in them, the row does not
    change before the lease expires. *)
Theorem worker_respects_leases ticks s d j r o T :
  exec_inv (xd_pb (wd_exec d)) -> Forall (foreign_lease o T) ticks ->
  pb_execs (xd_pb (wd_exec d)) !! j = Some r -> x_status r = XRunning ->
  lease_owner (x_lease r) = Some o -> lease_expires_at (x_lease r) = Some T ->
  pb_execs (xd_pb (wd_exec (run ticks s d).1.2)) !! j = Some r.
Proof.
  intros Hinv Ht Hj Hr Ho He. eapply (run_keeps (fun s => exec_inv s /\ pb_execs s !! j = Some r)); [|done].
  eapply Forall_impl; [exact Ht|]. intros t Hf. by eapply foreign_lease_stable.
Qed.

(** *** One turn *)

Lemma inv_stable t : turn_stable cfg owner t exec_inv.
Proof.
  split; [done|by intros s s' Hs Hinv; eapply exec_step_inv| |by intros s s'; apply same_executions_inv].
  intros s s' [i ->] Hinv.
  by apply (operator_inv (en_clock (tk_env t)) (fun _ => true) (fun _ => true) (fun _ => true) (OpRecover i (Some (tk_now t)) None) s).
Qed.

Lemma heartbeat_turn_counts t s h :
  ws_loops (heartbeat_turn cfg owner build_version started_at t s h).1 = ws_loops s /\
  ws_errors (heartbeat_turn cfg owner build_version started_at t s h).1 = ws_errors s.
Proof. unfold heartbeat_turn. destruct (heartbeat_due _ _ _); [|done]. by destruct (record_worker_heartbeat _ _ _ _ _ _). Qed.

(** The executions of the transaction that recovery leaves behind. *)
Definition recovered_only (t : tick) (s : pb_store) (d : exec_db W) : Prop :=
  exists s1, rtc (recover_step (en_clock (tk_env t)) (tk_now t)) s s1 /\ pb_execs (xd_pb d) = pb_execs s1.

Lemma recovery_turn_effect t s d :
  let s' := (recovery_turn cfg t (s, open_conn d)).2 in
  ws_loops s'.1 = ws_loops s /\ ws_errors s'.1 = ws_errors s /\
  recovered_only t (xd_pb d) (cn_committed s'.2) /\
  ((exists n, (recovery_turn cfg t (s, open_conn d)).1 = Ok n) -> cn_current s'.2 = cn_committed s'.2).
Proof.
  unfold recovery_turn, bind, of_outcome. destruct (should_run_recovery _ _ _) as [[]|e].
  2,3: split_and!; [done..|by exists (xd_pb d)|by intros [n Hn]].
  set (m := recover_stale_playbook_executions _ _ _ _ _ _). unfold on_conn, conn_soar, zoom, zoom_conn. cbn [fst snd].
  pose proof (recovery_recovers (en_clock (tk_env t)) (tk_now t) (en_letter_refs (tk_env t)) (tk_recovery_locked t)
    (wc_stale_limit cfg) (wc_dry_run_recovery cfg) (Conn (xd_soar d) (xd_soar d) false)) as [Hcom Hr]. fold m in Hcom, Hr.
  cbn [cn_committed cn_current cn_aborted open_conn] in *.
  destruct (m _) as [[rows|e] c1]; cbn [fst snd cn_committed cn_current cn_aborted] in *.
  2: { split_and!; [done..|by exists (xd_pb d)|by intros [n Hn]]. }
  destruct (wc_dry_run_recovery cfg); cbn [rollback_conn fst snd count cn_committed cn_current].
  { split_and!; [done..|by exists (xd_pb d)|done]. }
  unfold commit_conn. cbn [cn_aborted]. destruct (cn_aborted c1); cbn [rollback_conn fst snd count cn_committed cn_current].
  - split_and!; [done..|by exists (xd_pb d)|done].
  - split_and!; [done..|exists (sd_pb (cn_current c1)); by split|done].
Qed.

(** A turn of the daemon is all or nothing.  It either counts a loop, or
    counts an error, and then whatever its batch had done to the executions
    is undone: only what stale recovery had already committed remains. *)
Theorem failed_turn_rolls_back t s d :
  exec_inv (xd_pb (wd_exec d)) ->
  let '(s', d', _) := worker_turn cfg owner build_version started_at t s d in
  (ws_loops s' = ws_loops s + 1 /\ ws_errors s' = ws_errors s) \/
  (ws_loops s' = ws_loops s /\ ws_errors s' = ws_errors s + 1 /\
   recovered_only t (xd_pb (wd_exec d)) (wd_exec d')).
Proof.
  intros Hinv. unfold worker_turn. pose proof (heartbeat_turn_counts t s (wd_heartbeats d)) as [Hl0 He0].
  destruct (heartbeat_turn _ _ _ _ _ _ _) as [s0 h]. cbn [fst] in Hl0, He0.
  destruct (tk_connects t); cbn [loop_failed ws_loops ws_errors].
  2: { right. split_and!; [done|by rewrite He0|by exists (xd_pb (wd_exec d))]. }
  pose proof (recovery_turn_effect t s0 (wd_exec d)) as (Hl1 & He1 & Hrec & Hcur).
  unfold loop_body, bind at 1. destruct (recovery_turn cfg t _) as [[n|e] [s1 c1]] eqn:E; cbn [fst snd] in *.
  2: { right. cbn. split_and!; [congruence..|]. by destruct Hrec as (x & Hx & Hex); exists x. }
  specialize (Hcur (ex_intro _ n eq_refl)).
  pose proof (recovery_turn_keeps cfg owner t exec_inv (inv_stable t) (s0, open_conn (wd_exec d))) as Hkeep.
  rewrite E in Hkeep. destruct Hkeep as (_ & Hinv1 & _); [by split_and!|]. cbn [snd] in Hinv1.
  set (call := CallBatch (wc_batch_size cfg) (tk_batch_locked t) (Some owner) None).
  destruct (run_call_keeps (tk_env t) (tk_now t) call c1 Hinv1) as [[Hcom _] _]. cbn [run_call call] in Hcom.
  unfold bind, on_conn, zoom. cbn [fst snd].
  destruct (process_playbook_execution_batch _ _ _ _ _ _ c1) as [[results|e] c2]; cbn [fst snd count] in *.
  - destruct (commit_conn c2) as [[u|e] c3] eqn:Hc3; cbn [fst snd count batch_done ws_loops ws_errors].
    + left. split; congruence.
    + unfold commit_conn in Hc3. by destruct (cn_aborted c2).
  - right. cbn [loop_failed ws_loops ws_errors wd_exec rollback_conn fst snd cn_committed].
    split_and!; [congruence..|]. destruct Hrec as (x & Hx & Hex). exists x. split; [done|]. by rewrite Hcom.
Qed.

Lemma worker_turn_counts t s d :
  let s' := (worker_turn cfg owner build_version started_at t s d).1.1 in
  (ws_loops s' = ws_loops s + 1 /\ ws_errors s' = ws_errors s) \/ (ws_loops s' = ws_loops s /\ ws_errors s' = ws_errors s + 1).
Proof.
  unfold worker_turn. pose proof (heartbeat_turn_counts t s (wd_heartbeats d)) as [Hl0 He0].
  destruct (heartbeat_turn _ _ _ _ _ _ _) as [s0 h]. cbn [fst] in Hl0, He0.
  destruct (tk_connects t); [|right; cbn; lia].
  pose proof (recovery_turn_effect t s0 (wd_exec d)) as (Hl1 & He1 & _ & _).
  unfold loop_body, bind, on_conn, zoom. destruct (recovery_turn cfg t _) as [[n|e] [s1 c1]]; cbn [fst snd] in *; [|right; cbn; lia].
  destruct (process_playbook_execution_batch _ _ _ _ _ _ c1) as [[results|e] c2]; cbn [fst snd count]; [|right; cbn; lia].
  destruct (commit_conn c2) as [[u|e] c3]; [left|right]; cbn; lia.
Qed.

(** No failure stops the daemon.  Every turn is counted once, as a loop
    or as an error, and the daemon stops only when a shutdown was requested
    or the configured number of successful loops is reached. *)
Theorem worker_survives_failures ticks s d :
  let '(o, s', d', _) := run ticks s d in
  match o with
  | StillRunning => ws_loops s' + ws_errors s' = ws_loops s + ws_errors s + Z.of_nat (length ticks)
  | Stopped reason =>
      (exists t, t ∈ ticks /\ tk_shutdown t = Some reason) \/
      (reason = "max_loops" /\ exists n, wc_max_loops cfg = Some n /\ n <= ws_loops s')
  end.
Proof.
  unfold run. revert s d. induction ticks as [|t ticks IH]; intros s d; cbn [run_playbook_worker length]; [lia|].
  destruct (tk_shutdown t) eqn:Ht; [left; exists t; split; [left|done]|].
  destruct (match wc_max_loops cfg with Some n => n <=? ws_loops s | None => false end) eqn:Hmax.
  { right. split; [done|]. destruct (wc_max_loops cfg) as [n|]; [|done]. exists n. split; [done|lia]. }
  pose proof (worker_turn_counts t s d) as Hc. destruct (worker_turn _ _ _ _ t s d) as [[s1 d1] f]. cbn [fst] in Hc.
  specialize (IH s1 d1). destruct (run_playbook_worker _ _ _ _ ticks s1 d1) as [[[o s2] d2] l].
  destruct o as [reason|]; [|lia]. destruct IH as [(t' & Hin & Ht')|IH]; [left|by right].
  exists t'. split; [by right|done].
Qed.
End Guarantees.

(** ** Witnesses *)

Definition ex_raw_config : raw_config :=
  RawConfig (PInt 10) (PInt 5) (PInt 30) (PInt 0) (PInt 10) (PInt 60) (PInt 50) (PBool false) PNone (PInt 15).
Definition ex_config : worker_config :=
  WorkerConfig 10 (whole 5) (whole 30) fzero (whole 10) (whole 60) 50 false None (whole 15).

Example ex_config_normal : normalize_config ex_raw_config = Ok ex_config.
Proof. vm_compute. reflexivity. Qed.

Definition ex_tick (now : Z) (connects : bool) : tick :=
  Tick None now ex_env connects connects ∅ ∅ now fzero false.

(** The other worker's lease ends at second 1060. *)
Definition ex_turns : list tick := [ex_tick (seconds 1001) true; ex_tick (seconds 1031) false; ex_tick (seconds 1050) true].

Lemma worker_respects_leases_witness :
  let d := WorkerDb ex_leased ∅ in
  let d' := (run_playbook_worker ex_config "worker-1" None (seconds 1000) ex_turns initial_state d).1.2 in
  pb_execs (xd_pb (wd_exec d')) !! 1 = Some (ex_row_of ex_leased) /\
  (hb_last_heartbeat_at <$> wd_heartbeats d' !! PLAYBOOK_WORKER_NAME) = Some (seconds 1050).
Proof.
  split; [|vm_compute; reflexivity].
  apply (worker_respects_leases ex_config "worker-1" None (seconds 1000) ex_turns initial_state (WorkerDb ex_leased ∅) 1
           (ex_row_of ex_leased) "worker-2" (seconds 1060)).
  - apply ex_leased_inv.
  - unfold ex_turns. rewrite !list.Forall_cons. split_and!; [split_and!; vm_compute; congruence..|constructor].
  - vm_compute. reflexivity.
  - vm_compute. reflexivity.
  - vm_compute. reflexivity.
  - vm_compute. reflexivity.
Defined.

(** After the lease the daemon recovers the execution and runs it. *)
Example ex_recovered :
  x_status (ex_row_of (wd_exec (run_playbook_worker ex_config "worker-1" None (seconds 1000) [ex_tick (seconds 1061) true]
    initial_state (WorkerDb ex_leased ∅)).1.2)) = XSuccess.
Proof. vm_compute. reflexivity. Qed.

(** The poisoned execution, leased to another worker: recovery puts it back,
    and the batch that claims it raises. *)
Definition ex_poison_leased : exec_db call_log :=
  (in_pb (claim_next_pending_playbook_execution_with_lease ex_pb_clock ∅ (Some "worker-2") 60 (Some ex_time)) ex_poison_db).2.

Lemma ex_poison_leased_inv : exec_inv (xd_pb ex_poison_leased).
Proof.
  apply (exec_steps_inv ex_pb_clock "worker-2" ex_time ex_poison_store); [|apply ex_poison_inv].
  apply rtc_once. exists ex_exists, ex_exists, ex_exists, (OpClaim ∅ (Some "worker-2") 60 (Some ex_time)).
  by split; [constructor|].
Qed.

Lemma failed_turn_rolls_back_witness :
  let r := worker_turn ex_config "worker-1" None (seconds 1000) (ex_tick (seconds 1061) true) initial_state
             (WorkerDb ex_poison_leased ∅) in
  ws_errors r.1.1 = 1 /\ x_status (ex_row_of (wd_exec r.1.2)) = XPending /\
  recovered_only (ex_tick (seconds 1061) true) (xd_pb ex_poison_leased) (wd_exec r.1.2).
Proof.
  cbn zeta. split_and!; [vm_compute; reflexivity..|].
  pose proof (failed_turn_rolls_back ex_config "worker-1" None (seconds 1000) (ex_tick (seconds 1061) true) initial_state
    (WorkerDb ex_poison_leased ∅) ex_poison_leased_inv) as Hturn.
  assert (ws_errors (worker_turn ex_config "worker-1" None (seconds 1000) (ex_tick (seconds 1061) true) initial_state
            (WorkerDb ex_poison_leased ∅)).1.1 = 1) as He by (vm_compute; reflexivity).
  destruct (worker_turn _ _ _ _ _ _ _) as [[s' d'] f]. cbn [fst snd] in He |- *.
  destruct Hturn as [[_ Hs]|(_ & _ & Hr)]; [cbn in Hs; congruence|exact Hr].
Defined.
