(* ===== verification/IndicatorRegistry.v ===== *)
(** * IndicatorRegistry: core/indicator_response_registry.py

    The registry of indicators with their current disposition, and the
    append-only events that explain it. *)

From S2P Require Import Prelude PyText PyValue Tables IpAddress AddressText.

Open Scope Z_scope.

(** ** Data *)

Inductive disposition :=
  | DispObserved | DispMonitored | DispEscalated | DispPending | DispBlocklistTracked
  | DispRejected | DispFailed | DispExpired | DispRemoved.

#[export] Instance disposition_eq_dec : EqDecision disposition.
Proof. solve_decision. Defined.

Definition disposition_str (d : disposition) : string :=
  match d with
  | DispObserved => "observed" | DispMonitored => "monitored" | DispEscalated => "escalated"
  | DispPending => "pending" | DispBlocklistTracked => "blocklist_tracked" | DispRejected => "rejected"
  | DispFailed => "failed" | DispExpired => "expired" | DispRemoved => "removed"
  end.

Definition VALID_DISPOSITIONS : list disposition :=
  [DispObserved; DispMonitored; DispEscalated; DispPending; DispBlocklistTracked; DispRejected; DispFailed; DispExpired;
   DispRemoved].

Definition disposition_of (s : string) : option disposition :=
  List.find (fun d => String.eqb (disposition_str d) s) VALID_DISPOSITIONS.

(** A row of indicator_registry. *)
Record indicator_row := IndicatorRow {
  ir_type : string;
  ir_value : string;
  ir_disposition : disposition;
  ir_active_blocked_ip_id : option Z;
  ir_active_incident_id : option Z;
  ir_monitor_expires_at : option Z;
  ir_created_at : Z;
  ir_updated_at : Z;
}.

(** The other rows an event refers to. *)
Record registry_refs := RegistryRefs {
  rr_alert_id : option Z;
  rr_incident_id : option Z;
  rr_playbook_execution_id : option Z;
  rr_playbook_step_index : option Z;
  rr_queue_id : option Z;
  rr_approval_request_id : option Z;
  rr_blocked_ip_id : option Z;
  rr_decision_id : option Z;
  rr_correlation_id : option string;
  rr_response_action_log_id : option Z;
}.

(** A row of indicator_response_events. *)
Record registry_event := RegistryEvent {
  re_registry_id : Z;
  re_event_type : string;
  re_requested_action : string;
  re_outcome : string;
  re_disposition_after : disposition;
  re_enforcement : string;
  re_origin_surface : string;
  re_actor_user_id : option Z;
  re_reason : option string;
  re_refs : registry_refs;
  re_idempotency_key : option string;
  re_provenance : string;
  re_expires_at : option Z;
  re_safe_metadata : pydict;
  re_created_at : Z;
}.

Record registry_store := RegistryStore {
  rg_rows : gmap Z indicator_row;
  rg_seq : Z;
  rg_events : gmap Z registry_event;
  rg_event_seq : Z;
}.

Definition empty_registry : registry_store := RegistryStore ∅ 1 ∅ 1.

#[export, refine] Instance registry_store_tx : Transactional registry_store := {
  restore snap cur := RegistryStore (rg_rows snap) (rg_seq cur) (rg_events snap) (rg_event_seq cur);
}.
Proof. all: by intros []. Defined.

(** The arguments of [append_registry_event]. *)
Record registry_event_params := RegistryEventParams {
  rp_registry_id : Z;
  rp_event_type : string;
  rp_requested_action : string;
  rp_outcome : string;
  rp_disposition_after : option string;
  rp_enforcement : string;
  rp_origin_surface : string;
  rp_actor_user_id : option Z;
  rp_reason : option string;
  rp_refs : registry_refs;
  rp_idempotency_key : option string;
  rp_expires_at : option Z;
  rp_safe_metadata : pydict;
  rp_update_registry : bool;
}.

(** ** Updating a row *)

Definition set_ir_disposition (d : disposition) (now : Z) (r : indicator_row) : indicator_row :=
  IndicatorRow (ir_type r) (ir_value r) d (ir_active_blocked_ip_id r) (ir_active_incident_id r)
    (ir_monitor_expires_at r) (ir_created_at r) now.
Definition set_ir_block (b : option Z) (now : Z) (r : indicator_row) : indicator_row :=
  IndicatorRow (ir_type r) (ir_value r) (ir_disposition r) b (ir_active_incident_id r)
    (ir_monitor_expires_at r) (ir_created_at r) now.
Definition set_ir_incident (i : option Z) (now : Z) (r : indicator_row) : indicator_row :=
  IndicatorRow (ir_type r) (ir_value r) (ir_disposition r) (ir_active_blocked_ip_id r) i
    (ir_monitor_expires_at r) (ir_created_at r) now.
Definition set_ir_expiry (e : option Z) (now : Z) (r : indicator_row) : indicator_row :=
  IndicatorRow (ir_type r) (ir_value r) (ir_disposition r) (ir_active_blocked_ip_id r) (ir_active_incident_id r)
    e (ir_created_at r) now.
Definition touch_ir (now : Z) (r : indicator_row) : indicator_row := set_ir_expiry (ir_monitor_expires_at r) now r.

(** [COALESCE(a, b)]. *)
Definition coalesce {A} (a b : option A) : option A := match a with Some _ => a | None => b end.

Definition update_indicator (i : Z) (f : indicator_row -> indicator_row) : M registry_store unit := fun s =>
  (Ok tt, RegistryStore (alter f i (rg_rows s)) (rg_seq s) (rg_events s) (rg_event_seq s)).

Definition ir_by_id (i : Z) (r : indicator_row) : list Z := [i].
Definition re_by_id (i : Z) (e : registry_event) : list Z := [i].
Definition re_newest (i : Z) (e : registry_event) : list Z := [- re_created_at e; - i].

(** ** Operations *)

Definition INDICATOR_TYPE_IP : string := "ip".

Definition normalize_indicator_value (indicator_type value : string) : outcome string :=
  let raw := strip value in
  if is_empty raw then Raise (ValueError "Indicator value is required")
  else if String.eqb indicator_type INDICATOR_TYPE_IP then ip_str raw
  else Ok (lower raw).

Definition derive_disposition_from_event (requested_action outcome : string) (previous : option disposition) : disposition :=
  if str_in outcome ["rejected"; "policy_blocked"] then DispRejected
  else if str_in outcome ["failed"; "error"] then DispFailed
  else if str_in outcome ["awaiting_approval"; "pending"] then DispPending
  else if str_in outcome ["expired"] then DispExpired
  else if str_in outcome ["removed"; "unblocked"] then DispRemoved
  else if String.eqb requested_action "block_ip" && str_in outcome ["succeeded"; "tracking_recorded"; "idempotent_reuse"]
  then DispBlocklistTracked
  else if String.eqb requested_action "monitor" && str_in outcome ["succeeded"; "renewed"] then DispMonitored
  else if str_in requested_action ["flag_high_priority"; "escalate"] && str_in outcome ["succeeded"; "escalated"]
  then DispEscalated
  else default DispObserved previous.

Definition get_indicator_by_id (i : Z) (s : registry_store) : option (Z * indicator_row) := (fun r => (i, r)) <$> rg_rows s !! i.

Definition is_indicator (indicator_type value : string) (r : indicator_row) : bool :=
  String.eqb (ir_type r) indicator_type && String.eqb (ir_value r) value.

Definition find_indicator (indicator_type value : string) (s : registry_store) : option (Z * indicator_row) :=
  select_one ir_by_id (fun _ => is_indicator indicator_type value) (rg_rows s).

Definition get_indicator_by_value (indicator_type value : string) : M registry_store (option (Z * indicator_row)) :=
  let* normalized := of_outcome (normalize_indicator_value indicator_type value) in
  gets (find_indicator indicator_type normalized).

Definition event_by_key (key : string) (s : registry_store) : option (Z * registry_event) :=
  select_one re_by_id (fun _ e => match re_idempotency_key e with Some k => String.eqb k key | None => false end) (rg_events s).

(** The table's widths and CHECK constraints; the dispositions and the
    provenance always satisfy theirs. *)
Definition registry_event_fits (e : registry_event) : outcome unit :=
  if negb (varchar 64 (re_event_type e) && varchar 64 (re_requested_action e) && varchar 64 (re_outcome e) &&
           varchar 32 (re_enforcement e) && varchar 64 (re_origin_surface e) &&
           match rr_correlation_id (re_refs e) with Some c => varchar 128 c | None => true end &&
           match re_idempotency_key e with Some k => varchar 128 k | None => true end)
  then Raise (DatabaseError "value too long for type character varying")
  else if sql_blank (re_event_type e) || sql_blank (re_requested_action e) || sql_blank (re_outcome e) ||
          negb (str_in (re_enforcement e) ["none"; "tracking_only"; "simulation"; "real_external"]) ||
          match rr_playbook_step_index (re_refs e) with Some k => k <? 0 | None => false end
  then Raise (IntegrityError "indicator_response_events_check")
  else Ok tt.

Section Registry.
(** [refs_ok] says the foreign keys of an event exist. *)
Context (clk : clock) (refs_ok : registry_event -> bool).
Let now := sql_now clk.

(** INSERT .. ON CONFLICT DO UPDATE SET updated_at = NOW(): a conflict still
    takes a number of the sequence. *)
Definition upsert_indicator_identity (indicator_type value : string) : M registry_store (Z * indicator_row) :=
  let* normalized := of_outcome (normalize_indicator_value indicator_type value) in
  if negb (varchar 32 indicator_type) then raise (DatabaseError "value too long for type character varying(32)")
  else fun s =>
    let bumped rows := RegistryStore rows (rg_seq s + 1) (rg_events s) (rg_event_seq s) in
    if sql_blank indicator_type || sql_blank normalized
    then (Raise (IntegrityError "indicator_registry_check"), bumped (rg_rows s))
    else match find_indicator indicator_type normalized s with
         | Some (i, r) => (Ok (i, touch_ir now r), bumped (<[i := touch_ir now r]> (rg_rows s)))
         | None =>
             let r := IndicatorRow indicator_type normalized DispObserved None None None now now in
             (Ok (rg_seq s, r), bumped (<[rg_seq s := r]> (rg_rows s)))
         end.

Definition insert_registry_event (e : registry_event) : M registry_store (Z * registry_event) :=
  of_outcome (registry_event_fits e) ;;;
  fun s =>
    let bumped events := RegistryStore (rg_rows s) (rg_seq s) events (rg_event_seq s + 1) in
    if match re_idempotency_key e with Some k => negb (bool_decide (event_by_key k s = None)) | None => false end
    then (Raise (IntegrityError "idx_indicator_response_events_idempotency"), bumped (rg_events s))
    else if negb (refs_ok e) then (Raise (IntegrityError "foreign key"), bumped (rg_events s))
    else (Ok (rg_event_seq s, e), bumped (<[rg_event_seq s := e]> (rg_events s))).

(** The UPDATE of the registry row that follows an event. *)
Definition apply_event (e : registry_event) (r : indicator_row) : indicator_row :=
  IndicatorRow (ir_type r) (ir_value r) (re_disposition_after e)
    (coalesce (rr_blocked_ip_id (re_refs e)) (ir_active_blocked_ip_id r))
    (coalesce (rr_incident_id (re_refs e)) (ir_active_incident_id r))
    (coalesce (re_expires_at e) (ir_monitor_expires_at r)) (ir_created_at r) now.

Definition event_of (p : registry_event_params) (d : disposition) : registry_event :=
  RegistryEvent (rp_registry_id p) (rp_event_type p) (rp_requested_action p) (rp_outcome p) d (rp_enforcement p)
    (rp_origin_surface p) (rp_actor_user_id p) (rp_reason p) (rp_refs p) (rp_idempotency_key p) "recorded"
    (rp_expires_at p) (rp_safe_metadata p) now.

(** [disposition_after or derive_disposition_from_event(..)]. *)
Definition event_disposition (p : registry_event_params) (r : indicator_row) : outcome disposition :=
  match rp_disposition_after p with
  | Some text =>
      if is_empty text
      then Ok (derive_disposition_from_event (rp_requested_action p) (rp_outcome p) (Some (ir_disposition r)))
      else match disposition_of text with
           | Some d => Ok d
           | None => Raise (ValueError ("Invalid disposition " +:+ str_repr text))
           end
  | None => Ok (derive_disposition_from_event (rp_requested_action p) (rp_outcome p) (Some (ir_disposition r)))
  end.

Definition append_new_registry_event (p : registry_event_params) : M registry_store (Z * registry_event) :=
  let* record := gets (get_indicator_by_id (rp_registry_id p)) in
  match record with
  | None => raise (ValueError ("Registry record " +:+ str_int (rp_registry_id p) +:+ " not found"))
  | Some (i, r) =>
      let* d := of_outcome (event_disposition p r) in
      let* event := insert_registry_event (event_of p d) in
      (if rp_update_registry p then update_indicator i (apply_event event.2) else ret tt) ;;;
      ret event
  end.

Definition append_registry_event (p : registry_event_params) : M registry_store (Z * registry_event) :=
  match rp_idempotency_key p with
  | Some key =>
      if is_empty key then append_new_registry_event p
      else
        let* existing := gets (event_by_key key) in
        match existing with
        | Some e => ret e
        | None => append_new_registry_event p
        end
  | None => append_new_registry_event p
  end.

Definition list_registry_events (registry_id limit offset : Z) (s : registry_store) : list (Z * registry_event) :=
  let limit := Z.max 1 (Z.min limit 500) in
  let offset := Z.max 0 offset in
  Tables.limit limit (drop (Z.to_nat offset)
    (select re_newest (fun _ e => re_registry_id e =? registry_id) (rg_events s))).

Definition monitor_expired (moment : Z) (r : indicator_row) : bool :=
  bool_decide (ir_disposition r = DispMonitored) &&
  match ir_monitor_expires_at r with Some e => e <=? moment | None => false end.

(** [moment] is the [now] of the caller. *)
Definition apply_monitor_expiry (moment : option Z) : M registry_store Z := fun s =>
  let moment := default (utc_now clk) moment in
  let expired := filter (fun x => monitor_expired moment x.2) (map_to_list (rg_rows s)) in
  (Ok (Z.of_nat (length expired)),
   RegistryStore ((fun r => if monitor_expired moment r then set_ir_disposition DispExpired now r else r) <$> rg_rows s)
     (rg_seq s) (rg_events s) (rg_event_seq s)).
End Registry.

(** ** What the operations do to the registry *)

Definition re_latest (i : Z) (e : registry_event) : list Z := [- i].

(** The newest event of a row. *)
Definition latest_event (i : Z) (s : registry_store) : option (Z * registry_event) :=
  select_one re_latest (fun _ e => re_registry_id e =? i) (rg_events s).

(** The disposition of a row is the one its newest event recorded, unless
    monitoring has expired since. *)
Definition explained (s : registry_store) (i : Z) (r : indicator_row) : Prop :=
  match latest_event i s with
  | None => ir_disposition r = DispObserved
  | Some (_, e) =>
      ir_disposition r = re_disposition_after e \/
      (ir_disposition r = DispExpired /\ re_disposition_after e = DispMonitored)
  end.

Record registry_ok (s : registry_store) : Prop := RegistryOk {
  ro_ids : forall i r, rg_rows s !! i = Some r -> i < rg_seq s;
  ro_event_ids : forall i e, rg_events s !! i = Some e -> i < rg_event_seq s;
  ro_registered : forall i e, rg_events s !! i = Some e -> is_Some (rg_rows s !! re_registry_id e);
  ro_unique : forall i j r r', rg_rows s !! i = Some r -> rg_rows s !! j = Some r' ->
    ir_type r = ir_type r' -> ir_value r = ir_value r' -> i = j;
  ro_keys : forall i j e e' k, rg_events s !! i = Some e -> rg_events s !! j = Some e' ->
    re_idempotency_key e = Some k -> re_idempotency_key e' = Some k -> i = j;
  ro_explained : forall i r, rg_rows s !! i = Some r -> explained s i r;
}.

Definition same_indicator (r r' : indicator_row) : Prop := ir_type r' = ir_type r /\ ir_value r' = ir_value r.

Inductive reg_step (s s' : registry_store) : Prop :=
  | reg_burn n m : 0 <= n -> 0 <= m ->
      s' = RegistryStore (rg_rows s) (rg_seq s + n) (rg_events s) (rg_event_seq s + m) -> reg_step s s'
  | reg_new r : find_indicator (ir_type r) (ir_value r) s = None -> ir_disposition r = DispObserved ->
      s' = RegistryStore (<[rg_seq s := r]> (rg_rows s)) (rg_seq s + 1) (rg_events s) (rg_event_seq s) -> reg_step s s'
  | reg_row i r r' : rg_rows s !! i = Some r -> same_indicator r r' ->
      ir_disposition r' = ir_disposition r \/ (ir_disposition r = DispMonitored /\ ir_disposition r' = DispExpired) ->
      s' = RegistryStore (<[i := r']> (rg_rows s)) (rg_seq s) (rg_events s) (rg_event_seq s) -> reg_step s s'
  | reg_event e r r' : rg_rows s !! re_registry_id e = Some r -> same_indicator r r' ->
      ir_disposition r' = re_disposition_after e ->
      (forall k, re_idempotency_key e = Some k -> event_by_key k s = None) ->
      s' = RegistryStore (<[re_registry_id e := r']> (rg_rows s)) (rg_seq s)
             (<[rg_event_seq s := e]> (rg_events s)) (rg_event_seq s + 1) -> reg_step s s'.

Lemma find_indicator_None t v s :
  find_indicator t v s = None <-> forall i r, rg_rows s !! i = Some r -> is_indicator t v r = false.
Proof. apply select_one_None. Qed.

Lemma event_by_key_None k s :
  event_by_key k s = None <-> forall i e, rg_events s !! i = Some e -> re_idempotency_key e <> Some k.
Proof.
  unfold event_by_key. rewrite select_one_None. split; intros H i e Hi; specialize (H i e Hi).
  - intros Hk. by rewrite Hk, String.eqb_refl in H.
  - destruct (re_idempotency_key e) as [k'|]; [|done]. apply String.eqb_neq. congruence.
Qed.

Lemma is_indicator_spec t v r : is_indicator t v r = true <-> ir_type r = t /\ ir_value r = v.
Proof. unfold is_indicator. by rewrite andb_true_iff, !String.eqb_eq. Qed.

Lemma latest_event_insert s e i rows n :
  (forall j x, rg_events s !! j = Some x -> j < rg_event_seq s) ->
  latest_event i (RegistryStore rows n (<[rg_event_seq s := e]> (rg_events s)) (rg_event_seq s + 1)) =
  if re_registry_id e =? i then Some (rg_event_seq s, e) else latest_event i s.
Proof.
  intros Hids. unfold latest_event. cbn [rg_events].
  assert (rg_events s !! rg_event_seq s = None) as Hnew.
  { destruct (rg_events s !! rg_event_seq s) as [x|] eqn:E; [|done]. apply Hids in E. lia. }
  destruct (Z.eqb_spec (re_registry_id e) i) as [Hi|Hi].
  - destruct (select_one _ _ _) as [[j x]|] eqn:E.
    + apply select_one_Some in E as (Hj & _ & Hmin). specialize (Hmin (rg_event_seq s) e).
      rewrite lookup_insert_eq in Hmin. specialize (Hmin eq_refl (proj2 (Z.eqb_eq _ _) Hi)). cbn in Hmin.
      destruct (decide (j = rg_event_seq s)) as [->|Hne]; [rewrite lookup_insert_eq in Hj; by simplify_eq|].
      rewrite lookup_insert_ne in Hj by done. apply Hids in Hj. lia.
    + rewrite select_one_None in E. specialize (E (rg_event_seq s) e). rewrite lookup_insert_eq in E.
      specialize (E eq_refl). cbn in E. lia.
  - unfold select_one. rewrite select_insert_other; [done| |done|by apply Z.eqb_neq].
    intros a b x y. unfold re_latest. intros [= Hab]. lia.
Qed.

Lemma reg_step_ok s s' : registry_ok s -> reg_step s s' -> registry_ok s'.
Proof.
  intros [Hid Heid Hreg Huniq Hkeys Hexp] Hs.
  destruct Hs as [n m Hn Hm ->|r Hnone Hobs ->|i r r' Hi [Ht Hv] Hd ->|e r r' Hi [Ht Hv] Hd Hk ->].
  - split; cbn; [|..]; try done; intros i x Hx; [apply Hid in Hx|apply Heid in Hx]; lia.
  - assert (rg_rows s !! rg_seq s = None) as Hnew.
    { destruct (rg_rows s !! rg_seq s) as [x|] eqn:E; [|done]. apply Hid in E. lia. }
    rewrite find_indicator_None in Hnone. split; cbn [rg_rows rg_seq rg_events rg_event_seq].
    + intros i x. destruct (decide (i = rg_seq s)) as [->|Hne]; [lia|]. rewrite lookup_insert_ne by done. intros Hx%Hid. lia.
    + done.
    + intros i e He. apply Hreg in He as [x Hx]. exists x. rewrite lookup_insert_ne; [done|]. intros Heq. rewrite <-Heq in Hx. congruence.
    + intros i j x y. destruct (decide (i = rg_seq s)) as [->|Hi], (decide (j = rg_seq s)) as [->|Hj];
        rewrite ?lookup_insert_eq, ?lookup_insert_ne by done; [done| | |by apply Huniq].
      * intros [= <-] Hy Ht Hv. apply Hnone in Hy. by rewrite (proj2 (is_indicator_spec _ _ y)) in Hy.
      * intros Hx [= <-] Ht Hv. apply Hnone in Hx. by rewrite (proj2 (is_indicator_spec _ _ x)) in Hx.
    + done.
    + intros i x. destruct (decide (i = rg_seq s)) as [->|Hne].
      * rewrite lookup_insert_eq. intros [= <-]. unfold explained.
        destruct (latest_event _ _) as [[j e]|] eqn:E; [|done]. apply select_one_Some in E as (Hj & Hje & _).
        cbn in Hj, Hje. apply Hreg in Hj as [y Hy]. apply Z.eqb_eq in Hje. congruence.
      * rewrite lookup_insert_ne by done. apply Hexp.
  - split; cbn [rg_rows rg_seq rg_events rg_event_seq].
    + intros j x. destruct (decide (j = i)) as [->|]; [intros _; by apply Hid in Hi|]. rewrite lookup_insert_ne by done. apply Hid.
    + done.
    + intros j e He. rewrite lookup_insert_is_Some'. right. by eapply Hreg.
    + intros j k x y Hx Hy Hxt Hxv. rewrite lookup_insert_Some in Hx, Hy.
      destruct Hx as [[<- <-]|[_ Hx]], Hy as [[<- <-]|[_ Hy]]; [done|eapply Huniq; eauto; congruence..].
    + done.
    + intros j x. destruct (decide (j = i)) as [->|]; [|rewrite lookup_insert_ne by done; apply Hexp].
      rewrite lookup_insert_eq. intros [= <-]. specialize (Hexp i r Hi). unfold explained, latest_event in *. cbn [rg_events].
      destruct (select_one _ _ _) as [[k e]|].
      * destruct Hd as [-> |[Hm Hx]]; [done|]. right. destruct Hexp as [He|[He _]]; [|congruence]. split; congruence.
      * destruct Hd as [-> |[Hm _]]; [done|congruence].
  - assert (rg_events s !! rg_event_seq s = None) as Hnew.
    { destruct (rg_events s !! rg_event_seq s) as [x|] eqn:E; [|done]. apply Heid in E. lia. }
    split; cbn [rg_rows rg_seq rg_events rg_event_seq].
    + intros j x. rewrite lookup_insert_Some. intros [[<- _]|[_ Hx]]; [by apply Hid in Hi|by apply Hid in Hx].
    + intros j x. rewrite lookup_insert_Some. intros [[<- _]|[_ Hx]]; [lia|]. apply Heid in Hx. lia.
    + intros j x. rewrite lookup_insert_Some, lookup_insert_is_Some'. intros [[_ <-]|[_ Hx]]; [by left|right; by eapply Hreg].
    + intros j k x y Hx Hy Hxt Hxv. rewrite lookup_insert_Some in Hx, Hy.
      destruct Hx as [[<- <-]|[_ Hx]], Hy as [[<- <-]|[_ Hy]]; [done|eapply Huniq; eauto; congruence..].
    + intros i j x y k. rewrite !lookup_insert_Some. intros [[<- <-]|[Hni Hx]] [[<- <-]|[Hnj Hy]] Hxk Hyk; [done|..].
      * apply Hk in Hxk. rewrite event_by_key_None in Hxk. by apply Hxk in Hy.
      * apply Hk in Hyk. rewrite event_by_key_None in Hyk. by apply Hyk in Hx.
      * by eapply Hkeys.
    + intros j x Hx. unfold explained. rewrite latest_event_insert by done. destruct (Z.eqb_spec (re_registry_id e) j) as [He|He].
      * rewrite He, lookup_insert_eq in Hx. injection Hx as <-. by left.
      * rewrite lookup_insert_ne in Hx by done. by apply Hexp.
Qed.

Lemma empty_registry_ok : registry_ok empty_registry.
Proof. split; intros *; cbn; by rewrite ?lookup_empty. Qed.
