(* ===== verification/ResponseCommand.v ===== *)
(** * ResponseCommand: core/response_command_service.py

    The one path by which analysts, playbooks and the action queue block,
    monitor, escalate, annotate and release an indicator, with the contracts
    of core/response_command_contracts.py and the blocklist rows of
    core/db.py.  The service runs on the caller's connection and does not end
    its transaction. *)

From S2P Require Import Prelude PyText PyValue Tables IpAddress AddressText ActionVocabulary ProtectedTargets.
From S2P Require Import Outcomes QueueWorker Alerts IndicatorRegistry.

Open Scope Z_scope.

(** ** Contracts *)

Record response_command_request := ResponseCommandRequest {
  rq_action : string;
  rq_indicator_type : string;
  rq_indicator_value : option string;
  rq_alert_id : option Z;
  rq_incident_id : option Z;
  rq_reason : option string;
  rq_actor_user_id : option Z;
  rq_origin_surface : string;
  rq_idempotency_key : option string;
  rq_expires_at : option string;
  rq_playbook_execution_id : option Z;
  rq_playbook_step_index : option Z;
  rq_queue_id : option Z;
  rq_approval_request_id : option Z;
  rq_safe_metadata : pydict;
}.

Record response_command_result := ResponseCommandResult {
  rc_success : bool;
  rc_action : string;
  rc_outcome_label : string;
  rc_idempotent : bool;
  rc_enforcement : string;
  rc_registry_record_id : option Z;
  rc_registry_event_id : option Z;
  rc_blocked_ip_id : option Z;
  rc_incident_id : option Z;
  rc_decision_id : option Z;
  rc_correlation_id : option string;
  rc_response_action_log_id : option Z;
  rc_disposition : option string;
  rc_message : string;
  rc_error : option string;
  rc_error_code : option string;
  rc_affected_resource_keys : list string;
  rc_compatible_fields : pydict;
}.

Definition to_api_dict (r : response_command_result) : pydict :=
  let nonempty key o := match o with Some s => if is_empty s then [] else [(key, PStr s)] | None => [] end in
  dmerge
    (dmerge
      [("success", PBool (rc_success r)); ("action", PStr (rc_action r)); ("outcome_label", PStr (rc_outcome_label r));
       ("idempotent", PBool (rc_idempotent r)); ("enforcement", PStr (rc_enforcement r));
       ("registry_record_id", opt_int (rc_registry_record_id r)); ("registry_event_id", opt_int (rc_registry_event_id r));
       ("blocked_ip_id", opt_int (rc_blocked_ip_id r)); ("incident_id", opt_int (rc_incident_id r));
       ("decision_id", opt_int (rc_decision_id r)); ("soar_correlation_id", opt_text (rc_correlation_id r));
       ("response_action_log_id", opt_int (rc_response_action_log_id r)); ("disposition", opt_text (rc_disposition r));
       ("message", PStr (rc_message r)); ("affected_resource_keys", PList (map PStr (rc_affected_resource_keys r)))]
      (nonempty "error" (rc_error r) ++ nonempty "error_code" (rc_error_code r)))
    (rc_compatible_fields r).

Definition build_affected_resource_keys (alert_id incident_id : option Z) (source_ip : option string)
    (blocked_ip_id registry_record_id queue_id playbook_execution_id : option Z) : list string :=
  let id_key prefix o := match o with Some i => [prefix +:+ str_int i] | None => [] end in
  id_key "alert:" alert_id ++ id_key "incident:" incident_id ++
  match source_ip with Some ip => if is_empty ip then [] else ["source_ip:" +:+ ip] | None => [] end ++
  id_key "blocked_ip:" blocked_ip_id ++ id_key "registry:" registry_record_id ++ id_key "queue:" queue_id ++
  id_key "playbook_execution:" playbook_execution_id ++ ["response_registry"; "blocklist"].

Definition DEFAULT_MONITOR_TTL_HOURS : Z := 168.

(** ** Blocked addresses *)

Record blocked_row := BlockedRow {
  bl_ip : string;
  bl_reason : option string;
  bl_active : bool;
  bl_created_by : option Z;
  bl_created_at : Z;
  bl_expires_at : option Z;
  bl_source_alert_id : option Z;
}.

Record blocklist := Blocklist { bk_rows : gmap Z blocked_row; bk_seq : Z }.

#[export, refine] Instance blocklist_tx : Transactional blocklist := {
  restore snap cur := Blocklist (bk_rows snap) (bk_seq cur);
}.
Proof. all: by intros []. Defined.

Definition bl_by_id (i : Z) (r : blocked_row) : list Z := [i].
Definition bl_by_id_desc (i : Z) (r : blocked_row) : list Z := [- i].

Definition active_block (host : string) (r : blocked_row) : bool := bl_active r && String.eqb (bl_ip r) host.
Definition unexpired (now : Z) (r : blocked_row) : bool :=
  match bl_expires_at r with Some e => now <? e | None => true end.

(** ** Incidents *)

Record incident_row := IncidentRow {
  inc_title : string;
  inc_severity : string;
  inc_priority : string;
  inc_status : string;
  inc_source_ip : option string;
  inc_assigned_to : option Z;
  inc_created_at : Z;
  inc_resolved_at : option Z;
}.

(** [is_links]: for an alert, its incidents with the time of the link. *)
Record incident_store := IncidentStore { is_rows : gmap Z incident_row; is_seq : Z; is_links : gmap Z (gmap Z Z) }.

#[export, refine] Instance incident_store_tx : Transactional incident_store := {
  restore snap cur := IncidentStore (is_rows snap) (is_seq cur) (is_links snap);
}.
Proof. all: by intros []. Defined.

Definition open_incident (r : incident_row) : bool := str_in (inc_status r) ["open"; "investigating"].

(** ** The database of the service *)

Record command_db := CommandDb {
  cd_registry : registry_store;
  cd_blocklist : blocklist;
  cd_incidents : incident_store;
  cd_alerts : alert_table;
  cd_outcomes : outcome_store;
  cd_log : log_store;
}.

#[export, refine] Instance command_db_tx : Transactional command_db := {
  restore snap cur :=
    CommandDb (restore (cd_registry snap) (cd_registry cur)) (restore (cd_blocklist snap) (cd_blocklist cur))
      (restore (cd_incidents snap) (cd_incidents cur)) (restore (cd_alerts snap) (cd_alerts cur))
      (restore (cd_outcomes snap) (cd_outcomes cur)) (restore (cd_log snap) (cd_log cur));
}.
Proof.
  - intros []. cbn [cd_registry cd_blocklist cd_incidents cd_alerts cd_outcomes cd_log]. by rewrite !restore_id.
  - intros [] [] []. cbn [cd_registry cd_blocklist cd_incidents cd_alerts cd_outcomes cd_log]. by rewrite !restore_idemp.
Defined.

Definition in_registry {A} (m : M registry_store A) : M command_db A :=
  zoom cd_registry (fun x d => CommandDb x (cd_blocklist d) (cd_incidents d) (cd_alerts d) (cd_outcomes d) (cd_log d)) m.
Definition in_blocklist {A} (m : M blocklist A) : M command_db A :=
  zoom cd_blocklist (fun x d => CommandDb (cd_registry d) x (cd_incidents d) (cd_alerts d) (cd_outcomes d) (cd_log d)) m.
Definition in_incidents {A} (m : M incident_store A) : M command_db A :=
  zoom cd_incidents (fun x d => CommandDb (cd_registry d) (cd_blocklist d) x (cd_alerts d) (cd_outcomes d) (cd_log d)) m.
Definition in_alerts {A} (m : M alert_table A) : M command_db A :=
  zoom cd_alerts (fun x d => CommandDb (cd_registry d) (cd_blocklist d) (cd_incidents d) x (cd_outcomes d) (cd_log d)) m.
Definition in_decisions {A} (m : M outcome_store A) : M command_db A :=
  zoom cd_outcomes (fun x d => CommandDb (cd_registry d) (cd_blocklist d) (cd_incidents d) (cd_alerts d) x (cd_log d)) m.
Definition in_log {A} (m : M log_store A) : M command_db A :=
  zoom cd_log (fun x d => CommandDb (cd_registry d) (cd_blocklist d) (cd_incidents d) (cd_alerts d) (cd_outcomes d) x) m.

(** The outside of a call: the clocks, the parser of inet columns, a random
    identifier, the hash, [datetime.fromisoformat] read as UTC when it has no
    zone, the addresses ipaddress calls loopback, private, link-local,
    multicast, reserved or unspecified, the protected targets, and whether
    the users, incidents, executions, queue rows and approvals a request
    names exist. *)
Record command_env := CommandEnv {
  ce_clock : clock;
  ce_inet : string -> option string;
  ce_uuid_hex : string;
  ce_sha256_hex : string -> string;
  ce_parse_instant : string -> outcome Z;
  ce_internal : ip_address -> bool;
  ce_protected : option string;
  ce_refs_ok : response_command_request -> bool;
}.

(** [a or b] on an optional text. *)
Definition text_or (a : option string) (b : string) : string :=
  match a with Some s => if is_empty s then b else s | None => b end.
(** [str(x or "")]. *)
Definition id_or_empty (o : option Z) : string :=
  match o with Some z => if z =? 0 then EmptyString else str_int z | None => EmptyString end.

(** ** The service *)

Section Service.
Context (env : command_env).
Let clk := ce_clock env.

Definition idempotency_key_of (r : response_command_request) : string :=
  text_or (rq_idempotency_key r)
    (ce_sha256_hex env (join "|"
      [rq_action r; rq_indicator_type r; text_or (rq_indicator_value r) ""; id_or_empty (rq_alert_id r);
       rq_origin_surface r; id_or_empty (rq_queue_id r); id_or_empty (rq_playbook_execution_id r);
       id_or_empty (rq_playbook_step_index r)])).

(** A "Z" is read as UTC. *)
Fixpoint replace_z (s : string) : string :=
  match s with
  | EmptyString => EmptyString
  | String c s => if Ascii.eqb c "Z" then "+00:00" +:+ replace_z s else String c (replace_z s)
  end.

Definition parse_expires_at (value : option string) : outcome (option Z) :=
  match value with
  | Some s => if is_empty s then Ok None else let! t := ce_parse_instant env (replace_z (strip s)) in Ok (Some t)
  | None => Ok None
  end.

Definition normalize_ip_or_raise (value : string) : outcome string := ip_str (strip value).

Definition validate_blocked_ip (s : string) : outcome string :=
  if is_empty (strip s) then Raise (ValueError "IP address is required")
  else match parse_ip (strip s) with
       | Raise _ => Raise (ValueError "Invalid IP address")
       | Ok a =>
           if ce_internal env a then Raise (ValueError "Private, loopback, and internal IPs cannot be blocked")
           else ip_str (strip s)
       end.

Definition no_actionable_ip : exn := ValueError "This registry record does not contain a valid actionable IP.".

Definition alert_source_ip (alert_id : option Z) : M (conn command_db) (option string) :=
  match alert_id with
  | None => ret None
  | Some a => execute (gets (fun d => row ← cd_alerts d !! a; as_str (dget row "source_ip")))
  end.

(** The indicator, or else the address of the alert. *)
Definition resolve_source_ip (r : response_command_request) : M (conn command_db) (option string) :=
  match rq_indicator_value r with
  | Some v =>
      if is_empty v then alert_source_ip (rq_alert_id r)
      else match normalize_ip_or_raise v with
           | Ok ip => ret (Some ip)
           | Raise e => raise (if is_value_error e then no_actionable_ip else e)
           end
  | None => alert_source_ip (rq_alert_id r)
  end.

(** *** Statements *)

(** The foreign keys of a row that names the alert of the request. *)
Definition references (r : response_command_request) (d : command_db) : bool :=
  ce_refs_ok env r && match rq_alert_id r with Some a => bool_decide (is_Some (cd_alerts d !! a)) | None => true end.

Definition checked {A} (r : response_command_request) (m : M command_db A) : M command_db A :=
  let* a := m in
  fun d => if references r d then (Ok a, d) else (Raise (IntegrityError "foreign key"), d).

(** [get_or_create_active_blocked_ip] with [create_blocked_ip_record]. *)
Definition create_blocked_ip_record (ip : string) (r : response_command_request) (reason : string) (expires_at : option Z)
    : M command_db Z :=
  let* normalized := of_outcome (validate_blocked_ip ip) in
  let* known := gets (fun d => match rq_alert_id r with Some a => bool_decide (is_Some (cd_alerts d !! a)) | None => true end) in
  if negb known then raise (ValueError "Source alert not found")
  else
    let* host := of_outcome (to_inet (ce_inet env) (Some normalized)) in
    let host := default "" host in
    let* taken := gets (fun d => existsb (fun x => active_block host x.2) (map_to_list (bk_rows (cd_blocklist d)))) in
    if taken then raise (ValueError "An active block already exists for this IP")
    else in_blocklist (fun s =>
      (Ok (bk_seq s),
       Blocklist (<[bk_seq s := BlockedRow host (Some reason) true (rq_actor_user_id r) (sql_now clk) expires_at (rq_alert_id r)]>
                    (bk_rows s)) (bk_seq s + 1))).

Definition get_or_create_active_blocked_ip (ip : string) (r : response_command_request) (reason : string)
    (expires_at : option Z) : M command_db (Z * bool) :=
  let* normalized := of_outcome (validate_blocked_ip ip) in
  let* host := of_outcome (to_inet (ce_inet env) (Some normalized)) in
  let* row := gets (fun d => select_one bl_by_id (fun _ b => active_block (default "" host) b && unexpired (sql_now clk) b)
                               (bk_rows (cd_blocklist d))) in
  match row with
  | Some (i, _) => ret (i, false)
  | None => let* i := create_blocked_ip_record normalized r reason expires_at in ret (i, true)
  end.

Definition linked_incident (alert_id : Z) (s : incident_store) : option Z :=
  fst <$> select_one (fun i linked_at => [- linked_at; i])
            (fun i _ => match is_rows s !! i with Some row => open_incident row | None => false end)
            (default ∅ (is_links s !! alert_id)).

Definition incident_of_source (host : string) (s : incident_store) : option Z :=
  fst <$> select_one (fun i row => [- inc_created_at row; i])
            (fun _ row => open_incident row && match inc_source_ip row with Some h => String.eqb h host | None => false end)
            (is_rows s).

(** INSERT INTO incident_alerts .. ON CONFLICT DO NOTHING. *)
Definition link_alert (i alert_id : Z) : M incident_store unit := fun s =>
  let links := default ∅ (is_links s !! alert_id) in
  let links := if decide (is_Some (links !! i)) then links else <[i := sql_now clk]> links in
  (Ok tt, IncidentStore (is_rows s) (is_seq s) (<[alert_id := links]> (is_links s))).

Definition insert_incident (row : incident_row) : M incident_store Z := fun s =>
  (Ok (is_seq s), IncidentStore (<[is_seq s := row]> (is_rows s)) (is_seq s + 1) (is_links s)).

Definition incident_title (alert_id : option Z) (source_ip : option string) : string :=
  if is_empty (id_or_empty alert_id) then "Escalated IP " +:+ default "None" source_ip
  else "Escalated alert " +:+ id_or_empty alert_id.

Definition link_to (r : response_command_request) (i : Z) : M command_db Z :=
  match rq_alert_id r with
  | Some a => checked r (in_incidents (link_alert i a)) ;;; ret i
  | None => ret i
  end.

Definition ensure_escalation_incident (r : response_command_request) (source_ip : option string) : M command_db Z :=
  let* linked := gets (fun d => a ← rq_alert_id r; linked_incident a (cd_incidents d)) in
  match linked with
  | Some i => ret i
  | None =>
      let* host := of_outcome (to_inet (ce_inet env) (match source_ip with Some ip => if is_empty ip then None else Some ip
                                                      | None => None end)) in
      let* existing := gets (fun d => h ← host; incident_of_source h (cd_incidents d)) in
      match existing with
      | Some i => link_to r i
      | None =>
          let* host := of_outcome (to_inet (ce_inet env) source_ip) in
          let* i := checked r (in_incidents (insert_incident
            (IncidentRow (incident_title (rq_alert_id r) source_ip) "high" "P2" "open" host (rq_actor_user_id r)
               (sql_now clk) None))) in
          link_to r i
      end
  end.

Definition log_action (r : response_command_request) (source_ip : option string) (action details : string)
    (decision : Z * decision_row) : M command_db Z :=
  let* host := of_outcome (to_inet (ce_inet env) source_ip) in
  checked r (in_log (fun s =>
    (Ok (ls_seq s),
     LogStore (<[ls_seq s := LogRow (rq_alert_id r) host action "executed" details (Some decision.1)
                               (Some (d_correlation_id decision.2)) (sql_now clk)]> (ls_rows s)) (ls_seq s + 1)))).

Definition decide_command (r : response_command_request) (p : decision_params) : M command_db (Z * decision_row) :=
  checked r (in_decisions (create_response_decision (ce_inet env) clk (ce_uuid_hex env) p)).

Definition append_command_event (r : response_command_request) (p : event_params) : M command_db (Z * event_row) :=
  checked r (in_decisions (append_outcome_event (ce_inet env) clk p)).

Definition append_indicator_event (r : response_command_request) (p : registry_event_params) : M command_db (Z * registry_event) :=
  fun d => in_registry (append_registry_event clk (fun _ => references r d) p) d.

Definition upsert_ip (ip : string) : M command_db (Z * indicator_row) :=
  in_registry (upsert_indicator_identity clk INDICATOR_TYPE_IP ip).

Definition mark_alert_executed (r : response_command_request) (action : string) : M command_db unit :=
  match rq_alert_id r with
  | None => ret tt
  | Some a => in_alerts (fun t =>
      (Ok tt, alter (fun row => dset (dset row "response_action" (PStr action)) "response_status" (PStr "executed")) a t))
  end.
(** *** The commands *)

Definition actor_kind (r : response_command_request) : string :=
  if is_empty (id_or_empty (rq_actor_user_id r)) then "system" else "manual".
Definition origin_of (r : response_command_request) : string :=
  if is_empty (rq_origin_surface r) then "system" else rq_origin_surface r.

Definition refused (action message error_code : string) : response_command_result :=
  ResponseCommandResult false action "rejected" false "none" None None None None None None None None message (Some message)
    (Some error_code) [] [].

Definition no_refs : registry_refs := RegistryRefs None None None None None None None None None None.

(** Every exception of the two statements is swallowed. *)
Definition reject (r : response_command_request) (action : string) (source_ip : option string) (key message error_code : string)
    : M (conn command_db) response_command_result :=
  let* ids :=
    match source_ip with
    | Some ip =>
        if is_empty ip then ret None
        else try_catch
          (let* registry := execute (upsert_ip ip) in
           let* event := execute (append_indicator_event r
             (RegistryEventParams registry.1 "rejected" action "rejected" (Some "rejected") "none" (origin_of r)
                (rq_actor_user_id r) (Some message)
                (RegistryRefs (rq_alert_id r) None None None None None None None None None)
                (Some ("reject-" +:+ key)) None [("error_code", PStr error_code)] true)) in
           ret (Some (registry.1, event.1)))
          (fun _ => ret None)
    | None => ret None
    end in
  ret (ResponseCommandResult false action "rejected" false "none" (fst <$> ids) (snd <$> ids) None None None None None
         (match ids with Some (i, _) => if i =? 0 then None else Some "rejected" | None => None end) message (Some message)
         (Some error_code)
         (build_affected_resource_keys (rq_alert_id r) None source_ip None (fst <$> ids) None None) []).

(** [require_unprotected_target; validate_blocked_ip]: None when both pass,
    else the message and the code of the rejection. *)
Definition block_refusal (source_ip : string) : outcome (option (string * string)) :=
  match (let! _ := require_unprotected_target (ce_protected env) (Some source_ip) in validate_blocked_ip source_ip) with
  | Ok _ => Ok None
  | Raise (SkippedAction message code) => Ok (Some (message, code))
  | Raise (ProtectedTargetConfigError message) => Ok (Some (message, "protected_target_config_invalid"))
  | Raise e => if is_value_error e then Ok (Some (exn_str e, "invalid_indicator")) else Raise e
  end.

Definition command_decision (r : response_command_request) (action : string) (source_ip : option string)
    (incident : option Z) (source : string) (reason : option string) (summary : string) (step approval : option Z)
    (metadata : pydict) : decision_params :=
  DecisionParams action source summary (rq_alert_id r) incident source_ip reason None None None
    (rq_playbook_execution_id r) step (rq_queue_id r) approval (rq_actor_user_id r) (PDict metadata).

Definition block_tracking (r : response_command_request) (action source_ip key : string) (expires_at : option Z)
    : M (conn command_db) response_command_result :=
  let* registry := execute (upsert_ip source_ip) in
  let* block := execute (get_or_create_active_blocked_ip source_ip r
                           (text_or (rq_reason r) "Canonical block_ip tracking") expires_at) in
  let '(block_id, created_new) := block in
  let* decision := execute (decide_command r
    (command_decision r action (Some source_ip) (rq_incident_id r)
       (if String.eqb (rq_origin_surface r) "playbook" then "playbook" else "manual") (Some "tracking_only")
       "SIEM blocklist tracking recorded; no firewall or host enforcement occurred." (rq_playbook_step_index r)
       (rq_approval_request_id r)
       (dmerge [("origin_surface", PStr (rq_origin_surface r)); ("idempotent", PBool (negb created_new))]
          (rq_safe_metadata r)))) in
  let* log_id := execute (log_action r (Some source_ip) action
    (if created_new then "Recorded in SIEM blocklist (tracking only)"
     else "Reused active SIEM blocklist tracking record") decision) in
  execute (append_command_event r
    (EventParams "tracking_only" "succeeded" (actor_kind r)
       (if created_new
        then "SIEM blocklist tracking was recorded for this IP; no firewall enforcement occurred."
        else "Active blocklist tracking already existed; provenance appended.")
       (Some decision.1) (Some (d_correlation_id decision.2)) (Some "succeeded") false true false
       (Some (if created_new then "tracking_only" else "duplicate_suppressed")) (rq_alert_id r) None (Some source_ip)
       (rq_queue_id r) (rq_playbook_execution_id r) None (rq_approval_request_id r) None (Some log_id) None None None
       (Some ("outcome-" +:+ key)) (PDict [("blocked_ip_id", PInt block_id); ("created_new", PBool created_new)]) None)) ;;;
  let* event := execute (append_indicator_event r
    (RegistryEventParams registry.1 "block_ip_tracking" action (if created_new then "succeeded" else "idempotent_reuse")
       (Some "blocklist_tracked") "tracking_only" (origin_of r) (rq_actor_user_id r) (rq_reason r)
       (RegistryRefs (rq_alert_id r) (rq_incident_id r) (rq_playbook_execution_id r) (rq_playbook_step_index r) (rq_queue_id r)
          (rq_approval_request_id r) (Some block_id) (Some decision.1) (Some (d_correlation_id decision.2)) (Some log_id))
       (Some key) expires_at [("created_new", PBool created_new)] true)) in
  execute (mark_alert_executed r action) ;;;
  ret (ResponseCommandResult true action (if created_new then "tracking_recorded" else "idempotent_reuse")
         (negb created_new) "none" (Some registry.1) (Some event.1) (Some block_id) None (Some decision.1)
         (Some (d_correlation_id decision.2)) (Some log_id) (Some "blocklist_tracked")
         (if created_new then "Blocked IP tracking recorded (no firewall enforcement)."
          else "Active blocklist tracking reused; provenance recorded.") None None
         (build_affected_resource_keys (rq_alert_id r) None (Some source_ip) (Some block_id) (Some registry.1)
            (rq_queue_id r) (rq_playbook_execution_id r))
         [("id", PInt block_id);
          ("message", PStr (if created_new then "Blocked IP added successfully"
                            else "Active block already exists for this IP"));
          ("response_status", PStr "executed"); ("alert_id", opt_int (rq_alert_id r))]).

Definition execute_block_ip (r : response_command_request) (action source_ip key : string)
    : M (conn command_db) response_command_result :=
  let* refusal := of_outcome (block_refusal source_ip) in
  match refusal with
  | Some (message, code) => reject r action (Some source_ip) key message code
  | None =>
      let* expires_at := of_outcome (parse_expires_at (rq_expires_at r)) in
      block_tracking r action source_ip key expires_at
  end.
Definition monitored_fields (r : response_command_request) (action : string) : pydict :=
  [("response_status", PStr "executed"); ("alert_id", opt_int (rq_alert_id r)); ("action", PStr action)].

(** Monitoring is on already: only its expiry is renewed. *)
Definition renew_monitor (r : response_command_request) (action source_ip : string) (i : Z) (expires_at : Z)
    : M (conn command_db) response_command_result :=
  execute (in_registry (update_indicator i (set_ir_expiry (Some expires_at) (sql_now clk)))) ;;;
  ret (ResponseCommandResult true action "monitored" true "none" (Some i) None None None None None None (Some "monitored")
         "Monitoring is already active for this indicator; expiry renewed." None None
         (build_affected_resource_keys (rq_alert_id r) (rq_incident_id r) (Some source_ip) None (Some i) None
            (rq_playbook_execution_id r))
         (monitored_fields r action)).

Definition start_monitor (r : response_command_request) (action source_ip key : string) (expires_at : Z)
    : M (conn command_db) response_command_result :=
  let* registry := execute (upsert_ip source_ip) in
  let* decision := execute (decide_command r
    (command_decision r action (Some source_ip) (rq_incident_id r) "manual" None
       "Durable monitor/watch disposition recorded." None None [("origin_surface", PStr (rq_origin_surface r))])) in
  let* log_id := execute (log_action r (Some source_ip) action "Monitoring disposition recorded" decision) in
  execute (append_command_event r
    (EventParams "internal" "succeeded" (actor_kind r) "Monitor/watch disposition is active in the response registry."
       (Some decision.1) (Some (d_correlation_id decision.2)) (Some "succeeded") false false false None (rq_alert_id r) None
       (Some source_ip) None None None None None (Some log_id) None None None (Some ("outcome-" +:+ key)) PNone None)) ;;;
  let* event := execute (append_indicator_event r
    (RegistryEventParams registry.1 "monitor_started" action "succeeded" (Some "monitored") "none" (origin_of r)
       (rq_actor_user_id r) (Some (text_or (rq_reason r) "Monitor selected"))
       (RegistryRefs (rq_alert_id r) (rq_incident_id r) (rq_playbook_execution_id r) None (rq_queue_id r) None None
          (Some decision.1) (Some (d_correlation_id decision.2)) (Some log_id))
       (Some key) (Some expires_at) [] true)) in
  execute (mark_alert_executed r action) ;;;
  ret (ResponseCommandResult true action "monitored" false "none" (Some registry.1) (Some event.1) None None (Some decision.1)
         (Some (d_correlation_id decision.2)) (Some log_id) (Some "monitored") "Monitoring disposition recorded." None None
         (build_affected_resource_keys (rq_alert_id r) None (Some source_ip) None (Some registry.1) None None)
         (monitored_fields r action)).

Definition execute_monitor (r : response_command_request) (action source_ip key : string)
    : M (conn command_db) response_command_result :=
  let* given := of_outcome (parse_expires_at (rq_expires_at r)) in
  let expires_at := default (utc_now clk + DEFAULT_MONITOR_TTL_HOURS * 3600000000) given in
  let* existing := execute (in_registry (get_indicator_by_value INDICATOR_TYPE_IP source_ip)) in
  match existing with
  | Some (i, row) =>
      if decide (ir_disposition row = DispMonitored) then renew_monitor r action source_ip i expires_at
      else start_monitor r action source_ip key expires_at
  | None => start_monitor r action source_ip key expires_at
  end.

Definition execute_escalate (r : response_command_request) (action : string) (source_ip : option string) (key : string)
    : M (conn command_db) response_command_result :=
  let* incident := execute (ensure_escalation_incident r source_ip) in
  let* registry :=
    match source_ip with
    | Some ip => if is_empty ip then ret None else let* x := execute (upsert_ip ip) in ret (Some x)
    | None => ret None
    end in
  let* decision := execute (decide_command r
    (command_decision r action source_ip (Some incident) "manual" None
       "Internal escalation recorded via incident handoff." None None [("origin_surface", PStr (rq_origin_surface r))])) in
  let* log_id := execute (log_action r source_ip action ("Escalated to incident " +:+ str_int incident) decision) in
  execute (append_command_event r
    (EventParams "internal" "succeeded" (actor_kind r) ("Escalation created/linked incident " +:+ str_int incident +:+ ".")
       (Some decision.1) (Some (d_correlation_id decision.2)) (Some "succeeded") false false false None (rq_alert_id r)
       (Some incident) source_ip None None None None None (Some log_id) None None None (Some ("outcome-" +:+ key))
       (PDict [("incident_id", PInt incident)]) None)) ;;;
  let* event :=
    match registry with
    | Some x =>
        let* e := execute (append_indicator_event r
          (RegistryEventParams x.1 "escalated" action "escalated" (Some "escalated") "none" (origin_of r)
             (rq_actor_user_id r) (Some (text_or (rq_reason r) "Escalation selected"))
             (RegistryRefs (rq_alert_id r) (Some incident) (rq_playbook_execution_id r) None (rq_queue_id r) None None
                (Some decision.1) (Some (d_correlation_id decision.2)) (Some log_id))
             (Some key) None [] true)) in
        ret (Some e)
    | None => ret None
    end in
  execute (mark_alert_executed r action) ;;;
  ret (ResponseCommandResult true action "escalated" false "none" (fst <$> registry) (fst <$> event) None (Some incident)
         (Some decision.1) (Some (d_correlation_id decision.2)) (Some log_id)
         (match registry with Some (i, _) => if i =? 0 then None else Some "escalated" | None => None end)
         ("Escalation recorded; incident " +:+ str_int incident +:+ ".") None None
         (build_affected_resource_keys (rq_alert_id r) (Some incident) source_ip None (fst <$> registry) None None)
         (dmerge (monitored_fields r action) [("incident_id", PInt incident)])).

(** The result of a command that found nothing to undo. *)
Definition nothing_to_remove (r : response_command_request) (action source_ip message : string) (x : Z * indicator_row)
    (affected : list string) : response_command_result :=
  ResponseCommandResult true action "removed" true "none" (Some x.1) None None None None None None
    (Some (disposition_str (ir_disposition x.2))) message None None affected [].

Definition removal_event (r : response_command_request) (action key : string) (i : Z) (event_type reason : string)
    (incident block : option Z) : M command_db (Z * registry_event) :=
  append_indicator_event r
    (RegistryEventParams i event_type action "removed" (Some "removed") "none" (origin_of r) (rq_actor_user_id r)
       (Some (text_or (rq_reason r) reason))
       (RegistryRefs (rq_alert_id r) incident None None None None block None None None) (Some key) None [] true).

Definition execute_stop_monitor (r : response_command_request) (action source_ip key : string)
    : M (conn command_db) response_command_result :=
  let* found := execute (in_registry (get_indicator_by_value INDICATOR_TYPE_IP source_ip)) in
  let* x := match found with Some x => ret x | None => execute (upsert_ip source_ip) end in
  if negb (bool_decide (ir_disposition x.2 = DispMonitored)) then
    ret (nothing_to_remove r action source_ip "Monitoring is already inactive for this indicator." x
           (build_affected_resource_keys (rq_alert_id r) (rq_incident_id r) (Some source_ip) None (Some x.1) None
              (rq_playbook_execution_id r)))
  else
    let* event := execute (removal_event r action key x.1 "monitor_stopped" "Monitoring stopped" (rq_incident_id r) None) in
    execute (in_registry (update_indicator x.1 (set_ir_expiry None (sql_now clk)))) ;;;
    ret (ResponseCommandResult true action "removed" false "none" (Some x.1) (Some event.1) None None None None None
           (Some "removed") "Monitoring stopped. No firewall or host enforcement changed." None None
           (build_affected_resource_keys (rq_alert_id r) None (Some source_ip) None (Some x.1) None None) []).

Definition find_active_block (ip : string) : M command_db (option (Z * blocked_row)) :=
  let* host := of_outcome (to_inet (ce_inet env) (Some ip)) in
  gets (fun d => select_one bl_by_id_desc (fun _ => active_block (default "" host)) (bk_rows (cd_blocklist d))).

(** UPDATE blocked_ips SET status = 'inactive' WHERE id = %s AND status = 'active'. *)
Definition deactivate_block (i : Z) : M blocklist unit := fun s =>
  (Ok tt, Blocklist (alter (fun b => if bl_active b
     then BlockedRow (bl_ip b) (bl_reason b) false (bl_created_by b) (bl_created_at b) (bl_expires_at b) (bl_source_alert_id b)
     else b) i (bk_rows s)) (bk_seq s)).

Definition execute_remove_tracking (r : response_command_request) (action source_ip key : string)
    : M (conn command_db) response_command_result :=
  let* row := execute (find_active_block source_ip) in
  let* x := execute (upsert_ip source_ip) in
  match row with
  | None =>
      ret (nothing_to_remove r action source_ip "No active Blocklist tracking exists for this IP." x
             (build_affected_resource_keys None None (Some source_ip) None (Some x.1) None None))
  | Some (block, _) =>
      execute (in_blocklist (deactivate_block block)) ;;;
      let* event := execute (removal_event r action key x.1 "tracking_removed" "Blocklist tracking removed" None (Some block)) in
      execute (in_registry (update_indicator x.1 (set_ir_block None (sql_now clk)))) ;;;
      ret (ResponseCommandResult true action "removed" false "none" (Some x.1) (Some event.1) (Some block) None None None None
             (Some "removed") "Blocklist tracking removed. Tracking only; no firewall or host enforcement changed." None None
             (build_affected_resource_keys (rq_alert_id r) None (Some source_ip) (Some block) (Some x.1) None None)
             [("message", PStr ("SIEM Blocklist tracking removed. History remains; " +:+
                                "no firewall or host enforcement changed.")); ("id", PInt block)])
  end.

Definition execute_add_note (r : response_command_request) (action source_ip key : string)
    : M (conn command_db) response_command_result :=
  let* x := execute (upsert_ip source_ip) in
  let* event := execute (append_indicator_event r
    (RegistryEventParams x.1 "note" action "recorded" (Some (disposition_str (ir_disposition x.2))) "none" (origin_of r)
       (rq_actor_user_id r) (Some (strip (default "" (rq_reason r))))
       (RegistryRefs (rq_alert_id r) (rq_incident_id r) None None None None None None None None) (Some key) None [] false)) in
  execute (in_registry (update_indicator x.1 (touch_ir (sql_now clk)))) ;;;
  ret (ResponseCommandResult true action "recorded" false "none" (Some x.1) (Some event.1) None None None None None
         (Some (disposition_str (ir_disposition x.2))) "Note recorded in response history." None None
         (build_affected_resource_keys (rq_alert_id r) None (Some source_ip) None (Some x.1) None None) []).

(** The request under which the key is computed. *)
Definition keyed_request (r : response_command_request) (action : string) (source_ip : option string)
    : response_command_request :=
  ResponseCommandRequest action (rq_indicator_type r)
    (match source_ip with Some ip => if is_empty ip then rq_indicator_value r else Some ip | None => rq_indicator_value r end)
    (rq_alert_id r) (rq_incident_id r) (rq_reason r) (rq_actor_user_id r) (rq_origin_surface r) (rq_idempotency_key r)
    (rq_expires_at r) (rq_playbook_execution_id r) (rq_playbook_step_index r) (rq_queue_id r) (rq_approval_request_id r)
    (rq_safe_metadata r).

Definition has_target (source_ip : option string) : bool :=
  match source_ip with Some ip => negb (is_empty ip) | None => false end.

(** The checks before the action is run. *)
Definition command_refusal (r : response_command_request) (action : string) (source_ip : option string)
    : option response_command_result :=
  if str_in action ["block_ip"; "monitor"; "stop_monitor"; "remove_tracking"; "add_note"] && negb (has_target source_ip)
  then Some (refused action "No actionable IP is available for this registry record." "validation_no_target")
  else if String.eqb action "flag_high_priority" && bool_decide (rq_alert_id r = None) && negb (has_target source_ip)
  then Some (refused action "alert_id or source_ip is required for escalation" "validation_no_target")
  else if String.eqb action "add_note" && is_empty (strip (default "" (rq_reason r)))
  then Some (refused action "reason is required for add_note" "validation_missing_reason")
  else None.

Definition run_command (r : response_command_request) (action : string) (source_ip : option string)
    : M (conn command_db) response_command_result :=
  let key := idempotency_key_of (keyed_request r action source_ip) in
  let ip := default "" source_ip in
  if String.eqb action "block_ip" then execute_block_ip r action ip key
  else if String.eqb action "monitor" then execute_monitor r action ip key
  else if String.eqb action "stop_monitor" then execute_stop_monitor r action ip key
  else if String.eqb action "remove_tracking" then execute_remove_tracking r action ip key
  else if String.eqb action "add_note" then execute_add_note r action ip key
  else execute_escalate r action source_ip key.

Definition execute_response_command (r : response_command_request) : M (conn command_db) response_command_result :=
  match validate_response_command_action (PStr (rq_action r)) with
  | Raise (CanonicalActionValidationError message code) => ret (refused (rq_action r) message code)
  | Raise e => raise e
  | Ok action =>
      let* resolved := try_catch (let* ip := resolve_source_ip r in ret (inl ip))
        (fun e => if is_value_error e then ret (inr (exn_str e)) else raise e) in
      match resolved with
      | inr message => ret (refused action message "invalid_indicator")
      | inl source_ip =>
          match command_refusal r action source_ip with
          | Some result => ret result
          | None => run_command r action source_ip
          end
      end
  end.
End Service.
