(* ===== verification/ResponseCommandProofs.v ===== *)
(** * ResponseCommandProofs: what a response command may do to the tables

    The rows of the registry, the blocklist and the outcomes move only along
    their step relations, whatever the command, and hence keep their
    invariants; what a command reports is what it did. *)

From S2P Require Import Prelude PyText PyValue Tables Hoare IpAddress AddressText ActionVocabulary ProtectedTargets.
From S2P Require Import Outcomes QueueWorker Alerts IndicatorRegistry ResponseCommand.

Open Scope Z_scope.

Lemma alter_present {A} (f : A -> A) (m : gmap Z A) i x : m !! i = Some x -> alter f i m = <[i := f x]> m.
Proof.
  intros Hi. apply map_eq. intros j. destruct (decide (j = i)) as [->|Hne].
  - by rewrite lookup_alter_eq, lookup_insert_eq, Hi.
  - by rewrite lookup_alter_ne, lookup_insert_ne.
Qed.

(** ** Steps of the blocklist *)

Definition no_active (host : string) (s : blocklist) : Prop :=
  forall i b, bk_rows s !! i = Some b -> active_block host b = false.

Record block_ok (s : blocklist) : Prop := BlockOk {
  bo_ids : forall i b, bk_rows s !! i = Some b -> i < bk_seq s;
  bo_one : forall host i j b b', bk_rows s !! i = Some b -> bk_rows s !! j = Some b' ->
    active_block host b = true -> active_block host b' = true -> i = j;
}.

Inductive block_step (s s' : blocklist) : Prop :=
  | block_new b : no_active (bl_ip b) s ->
      s' = Blocklist (<[bk_seq s := b]> (bk_rows s)) (bk_seq s + 1) -> block_step s s'
  | block_off i b b' : bk_rows s !! i = Some b -> (forall host, active_block host b' = false) ->
      s' = Blocklist (<[i := b']> (bk_rows s)) (bk_seq s) -> block_step s s'.

Lemma active_block_ip host b : active_block host b = true -> host = bl_ip b.
Proof. unfold active_block. intros [_ H]%andb_true_iff. by apply String.eqb_eq in H. Qed.

Lemma block_step_ok s s' : block_ok s -> block_step s s' -> block_ok s'.
Proof.
  intros [Hid Hone] [b Hnone ->|i b b' Hi Hoff ->]; split; cbn [bk_rows bk_seq].
  - intros i x. rewrite lookup_insert_Some. intros [[<- _]|[_ Hx%Hid]]; lia.
  - intros host i j x y. rewrite !lookup_insert_Some. intros [[<- <-]|[Hni Hx]] [[<- <-]|[Hnj Hy]] Hax Hay; [done|..].
    + pose proof (active_block_ip _ _ Hax) as ->. by rewrite (Hnone j y Hy) in Hay.
    + pose proof (active_block_ip _ _ Hay) as ->. by rewrite (Hnone i x Hx) in Hax.
    + by eapply Hone.
  - intros j x. rewrite lookup_insert_Some. intros [[<- _]|[_ Hx]]; [by eapply Hid|by eapply Hid].
  - intros host j k x y. rewrite !lookup_insert_Some.
    intros [[_ <-]|[_ Hx]] [[_ <-]|[_ Hy]] Hax Hay; [congruence..|by eapply Hone].
Qed.

Lemma block_step_seq s s' : block_step s s' -> bk_seq s <= bk_seq s'.
Proof. intros [b _ ->|i b b' _ _ ->]; cbn; lia. Qed.

Lemma reg_step_seq s s' : reg_step s s' -> rg_seq s <= rg_seq s' /\ rg_event_seq s <= rg_event_seq s'.
Proof. intros [n m ?? ->|r ?? ->|i r r' ??? ->|e r r' ???? ->]; cbn; lia. Qed.

Lemma reg_steps_ok s s' : rtc reg_step s s' -> registry_ok s -> registry_ok s'.
Proof. induction 1; eauto using reg_step_ok. Qed.
Lemma block_steps_ok s s' : rtc block_step s s' -> block_ok s -> block_ok s'.
Proof. induction 1; eauto using block_step_ok. Qed.

Lemma reg_steps_seq s s' : rtc reg_step s s' -> rg_seq s <= rg_seq s' /\ rg_event_seq s <= rg_event_seq s'.
Proof. induction 1 as [|s s1 s2 Hs%reg_step_seq _ IH]; lia. Qed.
Lemma block_steps_seq s s' : rtc block_step s s' -> bk_seq s <= bk_seq s'.
Proof. induction 1 as [|s s1 s2 Hs%block_step_seq _ IH]; lia. Qed.

(** ** What a command may do *)

Record command_moves (d d' : command_db) : Prop := CommandMoves {
  cm_registry : rtc reg_step (cd_registry d) (cd_registry d');
  cm_blocklist : rtc block_step (cd_blocklist d) (cd_blocklist d');
  cm_outcomes : outcome_ok (cd_outcomes d) -> rtc outcome_step (cd_outcomes d) (cd_outcomes d');
}.

#[export] Instance command_moves_preorder : PreOrder command_moves.
Proof.
  split; [by split|]. intros d1 d2 d3 [H1 H2 H3] [H4 H5 H6]. split; [by etrans..|].
  intros Hok. etrans; [by apply H3|]. apply H6. by eapply outcome_steps_ok; [apply H3|].
Qed.

(** Statements that touch none of the three. *)
Definition tracked (d : command_db) := (cd_registry d, cd_blocklist d, cd_outcomes d).

Lemma tracked_moves d d' : tracked d' = tracked d -> command_moves d d'.
Proof. intros [= H1 H2 H3]. split; [rewrite H1|rewrite H2|intros _; rewrite H3]; apply rtc_refl. Qed.

Lemma moves_still {A} (m : M command_db A) : holds_still tracked m -> triple (fun _ => True) command_moves m anything.
Proof. intros Hm d _. split; [by apply tracked_moves, Hm|done]. Qed.

Lemma moves_checked {A} r env P (m : M command_db A) :
  triple P command_moves m anything -> triple P command_moves (checked env r m) anything.
Proof.
  intros Hm. eapply triple_bind; [exact Hm|]. intros a d _. case_match; (split; [reflexivity|done]).
Qed.

(** ** The registry's operations *)
Section RegistryMoves.
Context (clk : clock) (refs_ok : registry_event -> bool).
Abbreviation reg_moves := (rtc reg_step).

Lemma reg_burnt s n m :
  0 <= n -> 0 <= m -> reg_step s (RegistryStore (rg_rows s) (rg_seq s + n) (rg_events s) (rg_event_seq s + m)).
Proof. intros. by apply (reg_burn _ _ n m). Qed.

Lemma find_indicator_Some t v s i r :
  find_indicator t v s = Some (i, r) -> rg_rows s !! i = Some r /\ ir_type r = t /\ ir_value r = v.
Proof. intros (Hi & Hp & _)%select_one_Some. by rewrite is_indicator_spec in Hp. Qed.

Lemma upsert_indicator_moves t v :
  triple (fun _ => True) reg_moves (upsert_indicator_identity clk t v) (fun x s => rg_rows s !! x.1 = Some x.2).
Proof.
  intros s _. unfold upsert_indicator_identity.
  destruct (normalize_indicator_value t v) as [n|e]; cbn [of_outcome bind fst snd]; [|by split].
  unfold bind. cbn. destruct (varchar 32 t); cbn; [|by split].
  destruct (sql_blank t || sql_blank n); cbn.
  { split; [|done]. apply rtc_once. pose proof (reg_burnt s 1 0) as Hs. rewrite Z.add_0_r in Hs. apply Hs; lia. }
  destruct (find_indicator t n s) as [[i r]|] eqn:E; cbn.
  - apply find_indicator_Some in E as (Hi & _). split.
    + eapply rtc_l; [by eapply (reg_row _ _ i r (touch_ir (sql_now clk) r)); [|split|left|]|]. apply rtc_once. cbn.
      eapply (reg_burn _ _ 1 0); [lia..|]. cbn. by rewrite Z.add_0_r.
    + intros ? [= <-]. by rewrite lookup_insert_eq.
  - split; [|by intros ? [= <-]; rewrite lookup_insert_eq]. apply rtc_once. by apply (reg_new _ _ (IndicatorRow t n DispObserved None None None (sql_now clk) (sql_now clk))).
Qed.

(** Updates that keep identity and disposition. *)
Definition mild (f : indicator_row -> indicator_row) : Prop :=
  forall r, same_indicator r (f r) /\ ir_disposition (f r) = ir_disposition r.

Lemma mild_block b now : mild (set_ir_block b now).
Proof. by intros []. Qed.
Lemma mild_expiry e now : mild (set_ir_expiry e now).
Proof. by intros []. Qed.

Lemma mild_touch now : mild (touch_ir now).
Proof. by intros []. Qed.

Lemma update_mild_moves i f P : mild f -> triple P reg_moves (update_indicator i f) anything.
Proof.
  intros Hf s _. split; [|done]. cbn. destruct (rg_rows s !! i) as [r|] eqn:E.
  - rewrite (alter_present _ _ _ _ E). apply rtc_once. destruct (Hf r) as [Hs Hd].
    by eapply (reg_row _ _ i r (f r)); [| |left|].
  - rewrite alter_id' by done. by destruct s.
Qed.

(** An event either enters the table or leaves it as it was. *)
Lemma insert_event_cases e s :
  let '(o, s') := insert_registry_event refs_ok e s in
  (exists x, o = Raise x /\ reg_moves s s' /\ rg_rows s' = rg_rows s /\ rg_events s' = rg_events s) \/
  (o = Ok (rg_event_seq s, e) /\ (forall k, re_idempotency_key e = Some k -> event_by_key k s = None) /\
   s' = RegistryStore (rg_rows s) (rg_seq s) (<[rg_event_seq s := e]> (rg_events s)) (rg_event_seq s + 1)).
Proof.
  unfold insert_registry_event, bind. destruct (registry_event_fits e) as [u|x]; cbn; [|left; by exists x].
  assert (reg_step s (RegistryStore (rg_rows s) (rg_seq s) (rg_events s) (rg_event_seq s + 1))) as Hb.
  { pose proof (reg_burnt s 0 1) as Hs. rewrite Z.add_0_r in Hs. apply Hs; lia. }
  destruct (re_idempotency_key e) as [k|] eqn:Ek.
  - case_bool_decide as Hk; cbn; [|left; eauto 6 using rtc_once].
    destruct (refs_ok e); cbn; [right|left; eauto 6 using rtc_once]. split; [done|]. split; [|done]. congruence.
  - destruct (refs_ok e); cbn; [right; by split_and!|left; eauto 6 using rtc_once].
Qed.

(** What a new event does to the tables. *)
Lemma append_new_cases p s r d :
  rg_rows s !! rp_registry_id p = Some r -> event_disposition p r = Ok d ->
  let e := event_of clk p d in
  let '(o, s') := append_new_registry_event clk refs_ok p s in
  (exists x, o = Raise x /\ reg_moves s s' /\ rg_rows s' = rg_rows s /\ rg_events s' = rg_events s) \/
  (o = Ok (rg_event_seq s, e) /\ (forall k, re_idempotency_key e = Some k -> event_by_key k s = None) /\
   s' = RegistryStore (if rp_update_registry p then <[rp_registry_id p := apply_event clk e r]> (rg_rows s) else rg_rows s)
          (rg_seq s) (<[rg_event_seq s := e]> (rg_events s)) (rg_event_seq s + 1)).
Proof.
  intros Er Ed. cbv zeta. unfold append_new_registry_event, gets. unfold bind at 1. unfold get_indicator_by_id. rewrite Er.
  cbn [fmap option_fmap option_map]. unfold bind at 1, of_outcome. rewrite Ed. unfold bind.
  pose proof (insert_event_cases (event_of clk p d) s) as Hc.
  destruct (insert_registry_event refs_ok _ s) as [o s1]. destruct Hc as [(x & -> & Hc)|(-> & Hk & ->)]; [left; eauto|].
  destruct (rp_update_registry p); cbn; right; [by rewrite (alter_present _ _ _ _ Er)|done].
Qed.

(** The disposition the event records, when the row is updated with it or
    already has it. *)
Definition event_agrees (p : registry_event_params) (s : registry_store) : Prop :=
  rp_update_registry p = true \/
  exists r, rg_rows s !! rp_registry_id p = Some r /\ event_disposition p r = Ok (ir_disposition r).

Lemma append_new_moves p :
  triple (event_agrees p) reg_moves (append_new_registry_event clk refs_ok p) anything.
Proof.
  intros s Hagr. split; [|done]. destruct (rg_rows s !! rp_registry_id p) as [r|] eqn:Er.
  2: { unfold append_new_registry_event, bind, gets, get_indicator_by_id. by rewrite Er. }
  destruct (event_disposition p r) as [dsp|x] eqn:Ed.
  2: { unfold append_new_registry_event, gets. unfold bind at 1. unfold get_indicator_by_id. rewrite Er.
       cbn [fmap option_fmap option_map]. unfold bind at 1, of_outcome. by rewrite Ed. }
  pose proof (append_new_cases p s r dsp Er Ed) as Hc. destruct (append_new_registry_event clk refs_ok p s) as [o s'].
  destruct Hc as [(x & _ & Hs & _)|(_ & Hk & ->)]; [done|]. apply rtc_once. cbn. destruct (rp_update_registry p) eqn:Hup.
  - by eapply (reg_event _ _ (event_of clk p dsp) r (apply_event clk (event_of clk p dsp) r)).
  - destruct Hagr as [?|(r' & Hr' & Hd)]; [congruence|]. assert (r' = r) as -> by congruence.
    assert (dsp = ir_disposition r) as -> by congruence.
    eapply (reg_event _ _ (event_of clk p (ir_disposition r)) r r); try done. f_equal. cbn. by rewrite insert_id.
Qed.

Lemma append_registry_event_moves p :
  triple (event_agrees p) reg_moves (append_registry_event clk refs_ok p) anything.
Proof.
  unfold append_registry_event. case_match; [|apply append_new_moves]. case_match; [apply append_new_moves|].
  intros s0 Hs. unfold bind, gets. destruct (event_by_key _ s0); [by split|]. exact (append_new_moves p s0 Hs).
Qed.
End RegistryMoves.

(** ** The statements of a command *)

Lemma in_registry_moves {A} P (m : M registry_store A) Q :
  triple P (rtc reg_step) m Q ->
  triple (fun d => P (cd_registry d)) command_moves (in_registry m) (fun a d => Q a (cd_registry d)).
Proof. apply triple_zoom; [done|]. intros d t Ht. split; [done|apply rtc_refl|intros _; apply rtc_refl]. Qed.

Lemma in_blocklist_moves {A} P (m : M blocklist A) Q :
  triple P (rtc block_step) m Q ->
  triple (fun d => P (cd_blocklist d)) command_moves (in_blocklist m) (fun a d => Q a (cd_blocklist d)).
Proof. apply triple_zoom; [done|]. intros d t Ht. split; [apply rtc_refl|done|intros _; apply rtc_refl]. Qed.

Lemma in_decisions_moves {A} (m : M outcome_store A) :
  (forall s, outcome_ok s -> rtc outcome_step s (m s).2) -> triple (fun _ => True) command_moves (in_decisions m) anything.
Proof.
  intros Hm d _. split; [|done]. unfold in_decisions, zoom. specialize (Hm (cd_outcomes d)).
  destruct (m (cd_outcomes d)) as [o s]. split; [apply rtc_refl..|exact Hm].
Qed.

(** A command's statement, as a step of its transaction. *)
Lemma run_moves {A} (m : M command_db A) :
  triple (fun _ => True) command_moves m anything -> triple (fun _ => True) (cn_rel command_moves) (execute m) anything.
Proof. intros Hm. by apply (triple_execute command_moves (fun _ => True) m anything _). Qed.

(** Whether a statement leaves a part as it is: through its binds. *)
Ltac still :=
  repeat first
    [ apply still_ret | apply still_raise | apply still_gets | apply still_of_outcome
    | apply still_bind; [|intros ?] | (apply still_zoom; intros; reflexivity) | case_match ].

Section StatementMoves.
Context (env : command_env).
Abbreviation moves m := (triple (fun _ => True) command_moves m anything).

Lemma upsert_ip_moves ip :
  triple (fun _ => True) command_moves (upsert_ip env ip) (fun x d => rg_rows (cd_registry d) !! x.1 = Some x.2).
Proof. apply (in_registry_moves (fun _ => True) _ (fun x s => rg_rows s !! x.1 = Some x.2)), upsert_indicator_moves. Qed.

Lemma append_indicator_moves r p :
  triple (fun d => event_agrees p (cd_registry d)) command_moves (append_indicator_event env r p) anything.
Proof.
  intros d Hd. apply (in_registry_moves (event_agrees p) _ anything); [|done].
  apply append_registry_event_moves.
Qed.

Lemma append_updating_moves r p : rp_update_registry p = true -> moves (append_indicator_event env r p).
Proof. intros Hp. eapply triple_weaken; [apply append_indicator_moves| |done]. by left. Qed.

Lemma update_indicator_moves i f : mild f -> moves (in_registry (update_indicator i f)).
Proof. intros Hf. by apply (in_registry_moves (fun _ => True) _ anything), update_mild_moves. Qed.

Lemma decide_command_moves r p : moves (decide_command env r p).
Proof.
  apply moves_checked, in_decisions_moves. intros s _. destruct (create_response_decision _ _ _ _ _) eqn:E.
  by eapply create_response_decision_steps.
Qed.

Lemma append_command_event_moves r p : moves (append_command_event env r p).
Proof.
  apply moves_checked, in_decisions_moves. intros s Hs. destruct (append_outcome_event _ _ _ _) eqn:E.
  by eapply append_outcome_event_steps.
Qed.

Lemma still_checked {T A} (part : command_db -> T) r (m : M command_db A) :
  holds_still part m -> holds_still part (checked env r m).
Proof. intros Hm. apply still_bind; [exact Hm|]. intros a d. by case_match. Qed.

Lemma log_action_still {T} (part : command_db -> T) r ip action details decision :
  (forall l d, part (CommandDb (cd_registry d) (cd_blocklist d) (cd_incidents d) (cd_alerts d) (cd_outcomes d) l) = part d) ->
  holds_still part (log_action env r ip action details decision).
Proof. intros Hp. apply still_bind; [still|]. intros h. apply still_checked, still_zoom. intros l d. apply Hp. Qed.

Lemma mark_alert_still {T} (part : command_db -> T) r action :
  (forall a d, part (CommandDb (cd_registry d) (cd_blocklist d) (cd_incidents d) a (cd_outcomes d) (cd_log d)) = part d) ->
  holds_still part (mark_alert_executed r action).
Proof. intros Hp. unfold mark_alert_executed. case_match; [|still]. apply still_zoom. intros a d. apply Hp. Qed.

Lemma link_to_still {T} (part : command_db -> T) r i :
  (forall x d, part (CommandDb (cd_registry d) (cd_blocklist d) x (cd_alerts d) (cd_outcomes d) (cd_log d)) = part d) ->
  holds_still part (link_to env r i).
Proof.
  intros Hp. unfold link_to. case_match; [|still]. apply still_bind; [|still]. apply still_checked, still_zoom.
  intros x d. apply Hp.
Qed.

Lemma ensure_incident_still {T} (part : command_db -> T) r ip :
  (forall x d, part (CommandDb (cd_registry d) (cd_blocklist d) x (cd_alerts d) (cd_outcomes d) (cd_log d)) = part d) ->
  holds_still part (ensure_escalation_incident env r ip).
Proof.
  intros Hp. unfold ensure_escalation_incident. apply still_bind; [still|]. intros [?|]; [still|].
  apply still_bind; [still|]. intros h. apply still_bind; [still|]. intros [?|]; [by apply link_to_still|].
  apply still_bind; [still|]. intros h'. apply still_bind; [|intros ?; by apply link_to_still].
  apply still_checked, still_zoom. intros x d. apply Hp.
Qed.

Lemma log_action_moves r ip action details decision : moves (log_action env r ip action details decision).
Proof. by apply moves_still, log_action_still. Qed.
Lemma mark_alert_moves r action : moves (mark_alert_executed r action).
Proof. by apply moves_still, mark_alert_still. Qed.
Lemma ensure_incident_moves r ip : moves (ensure_escalation_incident env r ip).
Proof. by apply moves_still, ensure_incident_still. Qed.

Lemma create_block_moves ip r reason e : moves (create_blocked_ip_record env ip r reason e).
Proof.
  eapply (triple_bind _ anything); [by apply triple_of_outcome|]. intros n.
  eapply (triple_bind _ anything); [by apply triple_gets|]. intros known. case_match; [by apply triple_raise|].
  eapply (triple_bind _ anything); [by apply triple_of_outcome|]. intros host.
  eapply (triple_bind _ (fun taken d => taken = false -> no_active (default "" host) (cd_blocklist d))).
  { apply triple_gets. intros d _ Hno i b Hi. apply not_true_iff_false. intros Hact.
    apply not_true_iff_false in Hno. apply Hno, existsb_exists. exists (i, b). split; [|done].
    by apply list_elem_of_In, elem_of_map_to_list. }
  intros [|]; [by apply triple_raise|]. eapply triple_weaken; [|intros d Hd; exact (Hd eq_refl)|done].
  apply (in_blocklist_moves (no_active (default "" host)) _ anything). intros s Hs. split; [|done].
  apply rtc_once. eapply block_new; [|reflexivity]. exact Hs.
Qed.

Lemma get_or_create_moves ip r reason e : moves (get_or_create_active_blocked_ip env ip r reason e).
Proof.
  eapply (triple_bind _ anything); [by apply triple_of_outcome|]. intros n.
  eapply (triple_bind _ anything); [by apply triple_of_outcome|]. intros host.
  eapply (triple_bind _ anything); [by apply triple_gets|]. intros [[i b]|]; [by apply triple_ret|].
  eapply (triple_bind _ anything); [apply (create_block_moves n r reason e)|]. intros i. by apply triple_ret.
Qed.

Lemma deactivate_moves i : moves (in_blocklist (deactivate_block i)).
Proof.
  apply (in_blocklist_moves (fun _ => True) _ anything). intros s _. split; [|done]. cbn.
  destruct (bk_rows s !! i) as [b|] eqn:E.
  - rewrite (alter_present _ _ _ _ E). apply rtc_once.
    destruct (bl_active b) eqn:Hb; (eapply block_off; [done| |reflexivity]); intros host; unfold active_block; cbn; by rewrite ?Hb.
  - rewrite alter_id' by done. by destruct s.
Qed.
End StatementMoves.

(** ** The commands *)

Create HintDb moves.
Create HintDb still.
#[export] Hint Resolve decide_command_moves append_command_event_moves log_action_moves mark_alert_moves
  ensure_incident_moves get_or_create_moves deactivate_moves update_indicator_moves mild_block mild_expiry mild_touch : moves.
#[export] Hint Resolve append_updating_moves : moves.

Lemma disposition_of_str d : disposition_of (disposition_str d) = Some d.
Proof. by destruct d. Qed.

Section CommandMoves.
Context (env : command_env).
Abbreviation transacts m := (triple (fun _ => True) (cn_rel command_moves) m anything).

Lemma moves_seq {A B} (m : M (conn command_db) A) (k : A -> M (conn command_db) B) :
  transacts m -> (forall a, transacts (k a)) -> transacts (bind m k).
Proof. intros Hm Hk. by eapply (triple_bind _ anything); [exact Hm|intros a; apply Hk]. Qed.

Lemma moves_upsert ip : transacts (execute (upsert_ip env ip)).
Proof. apply run_moves. eapply triple_weaken; [apply upsert_ip_moves|done|done]. Qed.

(** Decompose a command into its statements. *)
Ltac transact :=
  repeat first
    [ (apply triple_ret; done) | apply triple_raise | (apply triple_of_outcome; done) | apply moves_upsert
    | (apply run_moves; solve [auto with moves])
    | apply moves_seq; [|intros ?] | case_match ].

Lemma moves_read {A} (f : command_db -> A) : transacts (execute (gets f)).
Proof. apply run_moves. by apply triple_gets. Qed.

Lemma reject_moves r action ip key message code : transacts (reject env r action ip key message code).
Proof.
  unfold reject. apply moves_seq; [|intros ids; by apply triple_ret]. case_match; [|by apply triple_ret].
  case_match; [by apply triple_ret|].
  apply (triple_try (fun _ => True) (fun _ => True) anything); [transact|done|intros e; by apply triple_ret].
Qed.

Lemma block_ip_moves r action ip key : transacts (execute_block_ip env r action ip key).
Proof.
  unfold execute_block_ip, block_tracking. apply moves_seq; [by apply triple_of_outcome|].
  intros [[message code]|]; [apply reject_moves|transact].
Qed.

Lemma find_indicator_moves ip : transacts (execute (in_registry (get_indicator_by_value INDICATOR_TYPE_IP ip))).
Proof.
  apply run_moves, (in_registry_moves (fun _ => True) _ anything). eapply (triple_bind _ anything).
  - by apply triple_of_outcome.
  - intros n. by apply triple_gets.
Qed.

Lemma monitor_moves r action ip key : transacts (execute_monitor env r action ip key).
Proof.
  unfold execute_monitor, renew_monitor, start_monitor. apply moves_seq; [by apply triple_of_outcome|]. intros given.
  apply moves_seq; [apply find_indicator_moves|]. intros [[i row]|]; transact.
Qed.

Lemma escalate_moves r action ip key : transacts (execute_escalate env r action ip key).
Proof. unfold execute_escalate. transact. Qed.

Lemma stop_monitor_moves r action ip key : transacts (execute_stop_monitor env r action ip key).
Proof.
  unfold execute_stop_monitor, removal_event. apply moves_seq; [apply find_indicator_moves|]. intros found. transact.
Qed.

Lemma remove_tracking_moves r action ip key : transacts (execute_remove_tracking env r action ip key).
Proof.
  unfold execute_remove_tracking, removal_event. apply moves_seq; [|intros row; transact].
  apply run_moves. eapply (triple_bind _ anything); [by apply triple_of_outcome|]. intros h. by apply triple_gets.
Qed.

Lemma add_note_moves r action ip key : transacts (execute_add_note env r action ip key).
Proof.
  unfold execute_add_note. eapply triple_bind.
  { eapply (triple_weaken (on_current (fun _ => True))); [|done|done].
    apply triple_execute; [apply _|apply upsert_ip_moves]. }
  intros x. eapply triple_bind; [|intros ?; transact].
  eapply (triple_weaken (on_current (fun d => rg_rows (cd_registry d) !! x.1 = Some x.2))); [|done|done].
  eapply (triple_execute command_moves _ _ anything); [apply _|].
  eapply triple_weaken; [apply append_indicator_moves| |done].
  intros d Hd. right. exists x.2. split; [exact Hd|]. unfold event_disposition. cbn [rp_disposition_after].
  rewrite disposition_of_str. by destruct (ir_disposition x.2).
Qed.

Lemma resolve_moves r : transacts (resolve_source_ip r).
Proof. unfold resolve_source_ip, alert_source_ip. transact; apply moves_read. Qed.

Lemma execute_response_command_moves r : transacts (execute_response_command env r).
Proof.
  unfold execute_response_command. case_match; [|case_match; transact].
  apply moves_seq.
  - apply (triple_try (fun _ => True) (fun _ => True) anything);
      [apply moves_seq; [apply resolve_moves|intros; by apply triple_ret]|done|].
    intros e. case_match; transact.
  - intros [ip|message]; [|by apply triple_ret]. case_match; [by apply triple_ret|]. unfold run_command.
    repeat case_match; eauto using block_ip_moves, monitor_moves, escalate_moves, stop_monitor_moves,
      remove_tracking_moves, add_note_moves.
Qed.
End CommandMoves.

(** ** The effect on the registry *)

(** The row [i] has the disposition [t]. *)
Definition shows (i : Z) (t : string) (s : registry_store) : Prop :=
  exists row, rg_rows s !! i = Some row /\ disposition_str (ir_disposition row) = t.

Definition fresh (key : string) (s : registry_store) : Prop := event_by_key key s = None.

Definition ids_ok (s : registry_store) : Prop := forall i r, rg_rows s !! i = Some r -> i < rg_seq s.

(** No event is recorded and no disposition changes. *)
Record unmoved (s s' : registry_store) : Prop := Unmoved {
  um_events : rg_events s' = rg_events s;
  um_ids : ids_ok s -> ids_ok s';
  um_rows : ids_ok s -> forall i row, rg_rows s !! i = Some row ->
    exists row', rg_rows s' !! i = Some row' /\ ir_disposition row' = ir_disposition row;
}.

#[export] Instance unmoved_preorder : PreOrder unmoved.
Proof.
  split; [split; eauto|]. intros s1 s2 s3 [H1 Hi H2] [H3 Hi' H4]. split; [congruence|auto|].
  intros Hok i row Hr. destruct (H2 Hok _ _ Hr) as (row' & Hr' & Hd). destruct (H4 (Hi Hok) _ _ Hr') as (row'' & Hr'' & Hd').
  exists row''. split; congruence.
Qed.

Lemma unmoved_fresh key : stable unmoved (fresh key).
Proof. intros s s' [He _]. unfold fresh, event_by_key. by rewrite He. Qed.

(** The row [i] has the disposition [t], in a table whose sequence is ahead
    of its rows. *)
Definition settled (i : Z) (t : string) (s : registry_store) : Prop := ids_ok s /\ shows i t s.

Lemma unmoved_settled i t : stable unmoved (settled i t).
Proof.
  intros s s' [_ Hi Hr] [Hok (row & Hrow & Ht)]. destruct (Hr Hok _ _ Hrow) as (row' & Hrow' & Hd).
  split; [auto|]. exists row'. split; congruence.
Qed.

Lemma insert_unmoved s i r r' :
  rg_rows s !! i = Some r -> ir_disposition r' = ir_disposition r ->
  forall n m, rg_seq s <= n -> unmoved s (RegistryStore (<[i := r']> (rg_rows s)) n (rg_events s) m).
Proof.
  intros Hi Hd n m Hn. split; [done|..]; cbn [rg_rows rg_seq].
  - intros Hok j x. cbn. rewrite lookup_insert_Some. intros [[<- _]|[_ Hx]]; [apply Hok in Hi|apply Hok in Hx]; lia.
  - intros Hok j x Hx. destruct (decide (j = i)) as [->|Hne].
    + rewrite lookup_insert_eq. exists r'. split; congruence.
    + rewrite lookup_insert_ne by done. eauto.
Qed.

Lemma bumped_unmoved s n m :
  rg_seq s <= n -> unmoved s (RegistryStore (rg_rows s) n (rg_events s) m).
Proof. intros Hn. split; [done| |eauto]. intros Hok j x Hx%Hok. cbn. lia. Qed.

Section RegistryEffects.
Context (clk : clock) (refs_ok : registry_event -> bool).

Lemma upsert_unmoved t v :
  triple ids_ok unmoved (upsert_indicator_identity clk t v)
    (fun x => settled x.1 (disposition_str (ir_disposition x.2))).
Proof.
  intros s Hok. unfold upsert_indicator_identity.
  destruct (normalize_indicator_value t v) as [n|e]; cbn [of_outcome bind fst snd]; [|by split].
  unfold bind. cbn. destruct (varchar 32 t); cbn; [|by split].
  destruct (sql_blank t || sql_blank n); cbn; [split; [apply bumped_unmoved; lia|done]|].
  destruct (find_indicator t n s) as [[i r]|] eqn:E; cbn.
  - apply find_indicator_Some in E as (Hi & _).
    assert (unmoved s (RegistryStore (<[i := touch_ir (sql_now clk) r]> (rg_rows s)) (rg_seq s + 1) (rg_events s) (rg_event_seq s)))
      as Hu by (apply (insert_unmoved s i r); [done|done|lia]).
    split; [done|]. intros ? [= <-]. split; [by apply Hu|]. eexists. cbn. by rewrite lookup_insert_eq.
  - assert (rg_rows s !! rg_seq s = None) as Hnew.
    { destruct (rg_rows s !! rg_seq s) as [x|] eqn:Ex; [|done]. apply Hok in Ex. lia. }
    assert (ids_ok (RegistryStore (<[rg_seq s := IndicatorRow t n DispObserved None None None (sql_now clk) (sql_now clk)]>
      (rg_rows s)) (rg_seq s + 1) (rg_events s) (rg_event_seq s))) as Hok'.
    { intros j x. cbn. rewrite lookup_insert_Some. intros [[<- _]|[_ Hx%Hok]]; lia. }
    split; [split; [done..|]|].
    + intros _ j x Hx. cbn. rewrite lookup_insert_ne; [eauto|]. intros <-. congruence.
    + intros ? [= <-]. split; [done|]. eexists. cbn. by rewrite lookup_insert_eq.
Qed.

Lemma update_mild_unmoved i f P : mild f -> triple P unmoved (update_indicator i f) anything.
Proof.
  intros Hf s _. split; [|done]. cbn. destruct (rg_rows s !! i) as [r|] eqn:E.
  - rewrite (alter_present _ _ _ _ E). destruct (Hf r). by apply (insert_unmoved s i r).
  - rewrite alter_id' by done. by apply bumped_unmoved.
Qed.

Lemma get_indicator_unmoved t v :
  triple ids_ok unmoved (get_indicator_by_value t v)
    (fun o s => ids_ok s /\ forall x, o = Some x -> settled x.1 (disposition_str (ir_disposition x.2)) s).
Proof.
  unfold get_indicator_by_value. eapply (triple_bind _ (fun _ => ids_ok)); [by apply triple_of_outcome|].
  intros n. apply triple_gets. intros s Hok. split; [done|]. intros [i r] (Hi & _)%find_indicator_Some.
  split; [done|]. by exists r.
Qed.

(** With a key that names no event, an event enters the table and the row
    shows the disposition it records. *)
Lemma append_fresh_new p key s :
  rp_idempotency_key p = Some key -> fresh key s ->
  append_registry_event clk refs_ok p s = append_new_registry_event clk refs_ok p s.
Proof.
  intros Hk Hf. unfold append_registry_event. rewrite Hk. case_match; [done|]. unfold bind at 1, gets. by rewrite Hf.
Qed.

(** A returned event has a row. *)
Lemma append_new_Ok p s x s' :
  append_new_registry_event clk refs_ok p s = (Ok x, s') ->
  exists r d, rg_rows s !! rp_registry_id p = Some r /\ event_disposition p r = Ok d /\
    s' = RegistryStore (if rp_update_registry p then <[rp_registry_id p := apply_event clk (event_of clk p d) r]> (rg_rows s)
                        else rg_rows s)
           (rg_seq s) (<[rg_event_seq s := event_of clk p d]> (rg_events s)) (rg_event_seq s + 1).
Proof.
  intros H. destruct (rg_rows s !! rp_registry_id p) as [r|] eqn:Er.
  2: { revert H. unfold append_new_registry_event, bind, gets, get_indicator_by_id. by rewrite Er. }
  destruct (event_disposition p r) as [d|e] eqn:Ed.
  2: { revert H. unfold append_new_registry_event, gets. unfold bind at 1. unfold get_indicator_by_id. rewrite Er.
       cbn [fmap option_fmap option_map]. unfold bind at 1, of_outcome. by rewrite Ed. }
  exists r, d. split; [done|]. split; [done|]. pose proof (append_new_cases clk refs_ok p s r d Er Ed) as Hc.
  rewrite H in Hc. by destruct Hc as [(e & [=] & _)|(_ & _ & Hs)].
Qed.

Lemma append_fresh_settles p key d i :
  rp_registry_id p = i -> rp_idempotency_key p = Some key -> rp_disposition_after p = Some (disposition_str d) -> rp_update_registry p = true ->
  triple (fun s => ids_ok s /\ fresh key s) (fun _ _ => True) (append_registry_event clk refs_ok p)
    (fun _ => settled i (disposition_str d)).
Proof.
  intros <- Hk Hd Hup s [Hok Hf]. split; [done|]. rewrite (append_fresh_new p key s Hk Hf). intros a Ha.
  destruct (append_new_registry_event clk refs_ok p s) as [o s'] eqn:E. cbn in Ha. subst o.
  apply append_new_Ok in E as (r & d' & Hr & Hd' & ->). rewrite Hup. cbn [snd].
  unfold event_disposition in Hd'. rewrite Hd, disposition_of_str in Hd'.
  replace (is_empty (disposition_str d)) with false in Hd' by (by destruct d). injection Hd' as <-. split.
  - intros j x. cbn. rewrite lookup_insert_Some. intros [[<- _]|[_ Hx]]; [by eapply Hok|by eapply Hok].
  - eexists. cbn. by rewrite lookup_insert_eq.
Qed.

(** An event that leaves the rows as they are. *)
Lemma append_silent p i t :
  rp_update_registry p = false ->
  triple (settled i t) (fun _ _ => True) (append_registry_event clk refs_ok p) (fun _ => settled i t).
Proof.
  intros Hup s Hs. split; [done|]. intros a Ha. unfold append_registry_event in *.
  assert (forall o s', append_new_registry_event clk refs_ok p s = (o, s') -> o = Ok a -> settled i t s') as Hnew.
  { intros o s' E ->. apply append_new_Ok in E as (r & d & _ & _ & ->). rewrite Hup. exact Hs. }
  destruct (rp_idempotency_key p) as [k|]; [destruct (is_empty k)|].
  - destruct (append_new_registry_event clk refs_ok p s) eqn:E. by eapply Hnew.
  - unfold bind, gets in *. destruct (event_by_key k s) as [x|]; [exact Hs|].
    destruct (append_new_registry_event clk refs_ok p s) eqn:E. by eapply Hnew.
  - destruct (append_new_registry_event clk refs_ok p s) eqn:E. by eapply Hnew.
Qed.

(** A key that names an event already: nothing is written. *)
Lemma append_used p key s x :
  rp_idempotency_key p = Some key -> is_empty key = false -> event_by_key key s = Some x ->
  append_registry_event clk refs_ok p s = (Ok x, s).
Proof. intros Hk He Hx. unfold append_registry_event. rewrite Hk, He. unfold bind, gets. by rewrite Hx. Qed.
End RegistryEffects.

(** ** What a command reports and what the registry shows *)

(** A fact of the current registry. *)
Definition reg (P : registry_store -> Prop) : conn command_db -> Prop := on_current (fun d => P (cd_registry d)).

Section CommandEffects.
Context (env : command_env).
Abbreviation top := (fun _ _ => True).

Lemma exec_registry {A} P r (m : M registry_store A) Q :
  triple P r m Q -> triple (reg P) top (execute (in_registry m)) (fun a => reg (Q a)).
Proof.
  intros Hm c Hc. split; [done|]. unfold execute, reg, on_current in *. destruct (cn_aborted c); [done|].
  unfold in_registry, zoom. destruct (Hm _ Hc) as [_ HQ].
  destruct (m (cd_registry (cn_current c))) as [[a|e] s]; [|done]. intros ? [= <-]. by apply HQ.
Qed.

Lemma exec_append P r p Q :
  (forall refs, triple P top (append_registry_event (ce_clock env) refs p) (fun _ => Q)) ->
  triple (reg P) top (execute (append_indicator_event env r p)) (fun _ => reg Q).
Proof.
  intros Hm c Hc. split; [done|]. unfold execute, reg, on_current in *. destruct (cn_aborted c); [done|].
  unfold append_indicator_event, in_registry, zoom. destruct (Hm (fun _ => references env r (cn_current c)) _ Hc) as [_ HQ].
  destruct (append_registry_event _ _ _ _) as [[a|e] s]; [|done]. intros ? [= <-]. by eapply HQ.
Qed.

Lemma exec_upsert key ip :
  triple (reg (fun s => ids_ok s /\ fresh key s)) top (execute (upsert_ip env ip))
    (fun x => reg (fun s => (ids_ok s /\ fresh key s) /\ settled x.1 (disposition_str (ir_disposition x.2)) s)).
Proof.
  eapply exec_registry. intros s [Hok Hf]. destruct (upsert_unmoved (ce_clock env) INDICATOR_TYPE_IP ip s Hok) as [Hu HQ].
  split; [exact Hu|]. intros a Ha. split; [|by apply HQ]. split; [by apply Hu|by eapply unmoved_fresh].
Qed.

Lemma exec_mild P i t f : mild f -> (forall s, P s -> settled i t s) ->
  forall j, triple (reg P) top (execute (in_registry (update_indicator j f))) (fun _ => reg (settled i t)).
Proof.
  intros Hf HP j. eapply exec_registry. intros s Hs. destruct (update_mild_unmoved j f (fun _ => True) Hf s I) as [Hu _].
  split; [exact Hu|]. intros _ _. by eapply unmoved_settled, HP.
Qed.

(** The statements on the other tables. *)
Lemma exec_other {A} P (m : M command_db A) :
  holds_still cd_registry m -> triple (reg P) top (execute m) (fun _ => reg P).
Proof. apply triple_still. Qed.

Lemma decide_registry r p : holds_still cd_registry (decide_command env r p).
Proof. by apply still_checked, still_zoom. Qed.
Lemma append_event_registry r p : holds_still cd_registry (append_command_event env r p).
Proof. by apply still_checked, still_zoom. Qed.
Lemma log_registry r ip action details decision : holds_still cd_registry (log_action env r ip action details decision).
Proof. by apply log_action_still. Qed.
Lemma mark_registry r action : holds_still cd_registry (mark_alert_executed r action).
Proof. by apply mark_alert_still. Qed.
Lemma incident_registry r ip : holds_still cd_registry (ensure_escalation_incident env r ip).
Proof. by apply ensure_incident_still. Qed.
Lemma create_block_registry ip r reason e : holds_still cd_registry (create_blocked_ip_record env ip r reason e).
Proof. unfold create_blocked_ip_record. still. Qed.
Lemma get_or_create_registry ip r reason e : holds_still cd_registry (get_or_create_active_blocked_ip env ip r reason e).
Proof.
  unfold get_or_create_active_blocked_ip. do 2 (apply still_bind; [still|intros ?]). apply still_bind; [still|]. intros [[i b]|]; [still|].
  apply still_bind; [apply create_block_registry|still].
Qed.
Lemma find_block_registry ip : holds_still cd_registry (find_active_block env ip).
Proof. unfold find_active_block. still. Qed.
Lemma deactivate_registry i : holds_still cd_registry (in_blocklist (deactivate_block i)).
Proof. by apply still_zoom. Qed.
End CommandEffects.

#[export] Hint Resolve decide_registry append_event_registry log_registry mark_registry incident_registry
  get_or_create_registry find_block_registry deactivate_registry : still.
