(* ===== verification/ResponseCommandEffects.v ===== *)
(** * ResponseCommandEffects: what a command reports and what it did

    Under a key that names no event yet, the registry shows the disposition a
    successful command reports; under a key that does, no disposition
    changes. *)

From S2P Require Import Prelude PyText PyValue Tables Hoare IpAddress AddressText ActionVocabulary ProtectedTargets.
From S2P Require Import Outcomes QueueWorker Alerts IndicatorRegistry ResponseCommand ResponseCommandProofs.

Open Scope Z_scope.

(** The registry shows what a success reports. *)
Definition honest (res : response_command_result) (s : registry_store) : Prop :=
  rc_success res = true ->
  forall i t, rc_registry_record_id res = Some i -> rc_disposition res = Some t -> shows i t s.

Lemma settled_honest res i t s :
  settled i t s -> rc_registry_record_id res = Some i -> rc_disposition res = Some t -> honest res s.
Proof. intros [_ Hs] Hi Ht _ j u Hj Hu. congruence. Qed.

Section HonestCommands.
Context (env : command_env).
Abbreviation top := (fun _ _ => True).
Abbreviation ready key := (fun s => ids_ok s /\ fresh key s).
Abbreviation reports key m := (triple (reg (ready key)) top m (fun res => reg (honest res))).

(** Statements on other tables carry a fact of the registry along. *)
Ltac past_others :=
  repeat (eapply triple_bind; [apply exec_other; solve [auto with still]|intros ?]).

Lemma start_monitor_honest r action ip key e : reports key (start_monitor env r action ip key e).
Proof.
  unfold start_monitor. eapply triple_bind; [apply exec_upsert|]. intros [i row]. cbn [fst snd].
  apply (triple_pre (reg (ready key))); [|by intros c [Hc _]]. past_others.
  eapply triple_bind; [apply exec_append; intros refs; by eapply (append_fresh_settles _ _ _ key DispMonitored)|].
  intros event. past_others. apply triple_ret. intros c Hc. by eapply settled_honest.
Qed.

Lemma block_tracking_honest r action ip key e : reports key (block_tracking env r action ip key e).
Proof.
  unfold block_tracking. eapply triple_bind; [apply exec_upsert|]. intros [i row]. cbn [fst snd].
  apply (triple_pre (reg (ready key))); [|by intros c [Hc _]].
  eapply triple_bind; [apply exec_other; auto with still|]. intros [b new]. past_others.
  eapply triple_bind; [apply exec_append; intros refs; by eapply (append_fresh_settles _ _ _ key DispBlocklistTracked)|].
  intros event. past_others. apply triple_ret. intros c Hc. by eapply settled_honest.
Qed.

Lemma reject_honest r action ip key message code P :
  triple P top (reject env r action ip key message code) (fun res => reg (honest res)).
Proof. eapply (triple_bind _ anything); [done|]. intros ids. by apply triple_ret. Qed.

Lemma execute_block_ip_honest r action ip key : reports key (execute_block_ip env r action ip key).
Proof.
  unfold execute_block_ip. eapply triple_bind; [by apply (triple_of_outcome _ (fun _ => reg (ready key)))|].
  intros [[message code]|]; [apply reject_honest|].
  eapply triple_bind; [by apply (triple_of_outcome _ (fun _ => reg (ready key)))|]. intros e. apply block_tracking_honest.
Qed.

Lemma exec_find key ip :
  triple (reg (ready key)) top (execute (in_registry (get_indicator_by_value INDICATOR_TYPE_IP ip)))
    (fun o => reg (fun s => ready key s /\ forall x, o = Some x -> settled x.1 (disposition_str (ir_disposition x.2)) s)).
Proof.
  eapply exec_registry. intros s [Hok Hf]. destruct (get_indicator_unmoved INDICATOR_TYPE_IP ip s Hok) as [Hu HQ].
  split; [exact Hu|]. intros o Ho. destruct (HQ o Ho). split; [|done]. split; [done|]. by eapply unmoved_fresh.
Qed.

Lemma execute_monitor_honest r action ip key : reports key (execute_monitor env r action ip key).
Proof.
  unfold execute_monitor. eapply triple_bind; [by apply (triple_of_outcome _ (fun _ => reg (ready key)))|]. intros given.
  eapply triple_bind; [apply exec_find|]. intros [[i row]|].
  2: { eapply triple_pre; [apply start_monitor_honest|by intros c [Hc _]]. }
  case_decide as Hd; [|eapply triple_pre; [apply start_monitor_honest|by intros c [Hc _]]].
  unfold renew_monitor. eapply triple_bind.
  - eapply (exec_mild _ i (disposition_str DispMonitored)); [apply mild_expiry|]. intros s [_ Hs].
    rewrite <-Hd. exact (Hs _ eq_refl).
  - intros u. apply triple_ret. intros c Hc. by eapply settled_honest.
Qed.

Lemma removal_event_settles r action key i type reason incident block :
  triple (reg (ready key)) top (execute (removal_event env r action key i type reason incident block))
    (fun _ => reg (settled i (disposition_str DispRemoved))).
Proof. apply exec_append. intros refs. by eapply (append_fresh_settles _ _ _ key DispRemoved). Qed.

Lemma execute_stop_monitor_honest r action ip key : reports key (execute_stop_monitor env r action ip key).
Proof.
  unfold execute_stop_monitor. eapply triple_bind; [apply exec_find|]. intros found.
  apply (triple_bind _ (fun x => reg (fun s => ready key s /\ settled x.1 (disposition_str (ir_disposition x.2)) s))).
  - destruct found as [x|]; [apply triple_ret; intros c [Hc Hs]; split; [done|by apply Hs]|].
    eapply triple_pre; [apply exec_upsert|by intros c [Hc _]].
  - intros x. case_match; [apply triple_ret; intros c [_ Hc]; by eapply settled_honest|].
    eapply triple_bind; [eapply triple_pre; [apply removal_event_settles|by intros c [Hc _]]|]. intros event.
    eapply triple_bind; [eapply (exec_mild _ x.1 (disposition_str DispRemoved)); [apply mild_expiry|done]|].
    intros u. apply triple_ret. intros c Hc. by eapply settled_honest.
Qed.

Lemma execute_remove_tracking_honest r action ip key : reports key (execute_remove_tracking env r action ip key).
Proof.
  unfold execute_remove_tracking. eapply triple_bind; [apply exec_other; auto with still|]. intros row.
  eapply triple_bind; [apply exec_upsert|]. intros x.
  destruct row as [[block b]|]; [|apply triple_ret; intros c [_ Hc]; by eapply settled_honest].
  apply (triple_pre (reg (ready key))); [|by intros c [Hc _]]. past_others.
  eapply triple_bind; [apply removal_event_settles|]. intros event.
  eapply triple_bind; [eapply (exec_mild _ x.1 (disposition_str DispRemoved)); [apply mild_block|done]|].
  intros u. apply triple_ret. intros c Hc. by eapply settled_honest.
Qed.

Lemma execute_add_note_honest r action ip key : reports key (execute_add_note env r action ip key).
Proof.
  unfold execute_add_note. eapply triple_bind; [apply exec_upsert|]. intros x.
  apply (triple_pre (reg (settled x.1 (disposition_str (ir_disposition x.2))))); [|by intros c [_ Hc]].
  eapply triple_bind; [apply exec_append; intros refs; by apply append_silent|]. intros event.
  eapply triple_bind; [eapply (exec_mild _ x.1); [apply mild_touch|intros s Hs; exact Hs]|].
  intros u. apply triple_ret. intros c Hc. by eapply settled_honest.
Qed.

Lemma execute_escalate_honest r action ip key : reports key (execute_escalate env r action ip key).
Proof.
  unfold execute_escalate. past_others.
  eapply (triple_bind _ (fun _ => reg (ready key))).
  { destruct ip as [ip|]; [case_match|]; [by apply triple_ret| |by apply triple_ret].
    eapply triple_bind; [apply exec_upsert|]. intros x. apply triple_ret. by intros c [Hc _]. }
  intros registry. past_others.
  eapply (triple_bind _ (fun _ => reg (fun s => forall x, registry = Some x -> settled x.1 "escalated" s))).
  { destruct registry as [x|]; [|by apply triple_ret].
    eapply triple_bind; [apply exec_append; intros refs; by eapply (append_fresh_settles _ _ _ key DispEscalated)|].
    intros event. apply triple_ret. by intros c Hc ? [= <-]. }
  intros event. past_others. apply triple_ret. intros c Hc. destruct registry as [[i row]|]; [|by intros _ j t [=]].
  intros _ j t [= <-]. cbn. case_match; [done|]. intros [= <-]. by apply (Hc _ eq_refl).
Qed.

Lemma run_command_honest r action ip :
  reports (idempotency_key_of env (keyed_request r action ip)) (run_command env r action ip).
Proof.
  unfold run_command. repeat case_match; eauto using execute_block_ip_honest, execute_monitor_honest,
    execute_escalate_honest, execute_stop_monitor_honest, execute_remove_tracking_honest, execute_add_note_honest.
Qed.
End HonestCommands.

(** ** Under a used key *)

Definition registry_unmoved (d d' : command_db) : Prop := unmoved (cd_registry d) (cd_registry d').

#[export] Instance registry_unmoved_preorder : PreOrder registry_unmoved.
Proof. split; [intros d; apply unmoved_preorder|intros d1 d2 d3; apply unmoved_preorder]. Qed.

Section UsedKey.
Context (env : command_env) (key : string) (Hkey : is_empty key = false).

Definition used (s : registry_store) : Prop := ids_ok s /\ exists x, event_by_key key s = Some x.

Abbreviation quiet m := (triple (reg used) (cn_rel registry_unmoved) m (fun _ => reg used)).

Lemma unmoved_used : stable unmoved used.
Proof. intros s s' [He Hi _] [Hok Hx]. split; [auto|]. unfold event_by_key in *. by rewrite He. Qed.

Lemma quiet_stmt {A} (m : M command_db A) :
  (forall d, used (cd_registry d) -> registry_unmoved d (m d).2) -> quiet (execute m).
Proof.
  intros Hm. apply (triple_execute registry_unmoved (fun d => used (cd_registry d)) m (fun _ d => used (cd_registry d))); [apply _|].
  intros d Hd. split; [by apply Hm|]. intros a _. eapply unmoved_used; [by apply Hm|done].
Qed.

Lemma quiet_still {A} (m : M command_db A) : holds_still cd_registry m -> quiet (execute m).
Proof. intros Hm. apply quiet_stmt. intros d _. unfold registry_unmoved. rewrite Hm. reflexivity. Qed.

Lemma quiet_registry {A} P (m : M registry_store A) Q :
  triple P unmoved m Q -> (forall s, used s -> P s) -> quiet (execute (in_registry m)).
Proof.
  intros Hm HP. apply quiet_stmt. intros d Hd. unfold registry_unmoved, in_registry, zoom.
  destruct (Hm _ (HP _ Hd)) as [Hu _]. by destruct (m (cd_registry d)).
Qed.

Lemma quiet_upsert ip : quiet (execute (upsert_ip env ip)).
Proof. eapply quiet_registry; [apply upsert_unmoved|]. by intros s [Hok _]. Qed.

Lemma quiet_find ip : quiet (execute (in_registry (get_indicator_by_value INDICATOR_TYPE_IP ip))).
Proof. eapply quiet_registry; [apply get_indicator_unmoved|]. by intros s [Hok _]. Qed.

Lemma quiet_mild i f : mild f -> quiet (execute (in_registry (update_indicator i f))).
Proof. intros Hf. eapply (quiet_registry (fun _ => True)); [by apply update_mild_unmoved|done]. Qed.

Lemma quiet_append r p : rp_idempotency_key p = Some key -> quiet (execute (append_indicator_event env r p)).
Proof.
  intros Hp. apply quiet_stmt. intros d [_ [x Hx]]. unfold registry_unmoved, append_indicator_event, in_registry, zoom.
  rewrite (append_used _ _ p key _ x Hp Hkey Hx). reflexivity.
Qed.

Lemma quiet_seq {A B} (m : M (conn command_db) A) (k : A -> M (conn command_db) B) :
  quiet m -> (forall a, quiet (k a)) -> quiet (bind m k).
Proof. intros Hm Hk. by eapply triple_bind. Qed.

Ltac quietly :=
  repeat first
    [ (apply triple_ret; done) | (apply triple_of_outcome; done) | apply quiet_upsert | apply quiet_find
    | (apply quiet_mild; solve [auto with moves]) | (apply quiet_append; reflexivity)
    | (apply quiet_still; solve [auto with still]) | apply quiet_seq; [|intros ?] | case_match ].

Lemma quiet_run r action ip :
  key = idempotency_key_of env (keyed_request r action ip) ->
  (action = "block_ip" -> block_refusal env (default "" ip) = Ok None) ->
  quiet (run_command env r action ip).
Proof.
  intros Hk Hb. unfold run_command. rewrite <-Hk. destruct (String.eqb_spec action "block_ip") as [Ha|_].
  { unfold execute_block_ip, block_tracking. rewrite (Hb Ha).
    eapply (triple_bind _ (fun o c => reg used c /\ o = None)); [apply triple_of_outcome; by intros o c [= <-]|].
    intros o. apply triple_pure. intros ->. quietly. }
  unfold execute_monitor, renew_monitor, start_monitor, execute_stop_monitor, execute_remove_tracking, removal_event,
    execute_add_note, execute_escalate.
  quietly.
Qed.
End UsedKey.

(** ** Which results are successes *)

(** Whatever [m] returns satisfies [F]. *)
Definition answers {S A} (F : A -> Prop) (m : M S A) : Prop := forall s a, (m s).1 = Ok a -> F a.

Lemma answers_ret {S A} (F : A -> Prop) (a : A) : F a -> answers F (ret a : M S A).
Proof. by intros Ha s b [= <-]. Qed.
Lemma answers_bind {S A B} (F : B -> Prop) (m : M S A) (k : A -> M S B) : (forall a, answers F (k a)) -> answers F (bind m k).
Proof. intros Hk s b. unfold bind. destruct (m s) as [[a|e] s']; [apply Hk|done]. Qed.

Lemma reject_fails env r action ip key message code :
  answers (fun res => rc_success res = false) (reject env r action ip key message code).
Proof. apply answers_bind. intros ids. by apply answers_ret. Qed.

(** A refused block is not a success. *)
Lemma block_success_unrefused env r action ip key c res c' :
  execute_block_ip env r action ip key c = (Ok res, c') -> rc_success res = true -> block_refusal env ip = Ok None.
Proof.
  unfold execute_block_ip, bind at 1, of_outcome. destruct (block_refusal env ip) as [[[message code]|]|e]; [|done|done].
  intros Hrun Hs. pose proof (reject_fails env r action (Some ip) key message code c res) as Hf. rewrite Hrun in Hf.
  specialize (Hf eq_refl). congruence.
Qed.

Lemma commands_succeed env r action ip :
  action <> "block_ip" -> answers (fun res => rc_success res = true) (run_command env r action ip).
Proof.
  intros Ha. unfold run_command. destruct (String.eqb_spec action "block_ip"); [done|].
  unfold execute_monitor, renew_monitor, start_monitor, execute_stop_monitor, execute_remove_tracking, execute_add_note,
    execute_escalate.
  repeat first [(apply answers_ret; reflexivity) | (apply answers_bind; intros ?) | case_match].
Qed.

Lemma tracking_succeeds env r action ip key e :
  answers (fun res => rc_success res = true) (block_tracking env r action ip key e).
Proof.
  unfold block_tracking. repeat first [(apply answers_ret; reflexivity) | (apply answers_bind; intros ?) | case_match].
Qed.

(** Only a refused block runs and fails. *)
Lemma run_command_fails env r action ip c res c' :
  run_command env r action ip c = (Ok res, c') -> rc_success res = false ->
  exists message code,
    block_refusal env (default "" ip) = Ok (Some (message, code)) /\
    reject env r action (Some (default "" ip)) (idempotency_key_of env (keyed_request r action ip)) message code c = (Ok res, c').
Proof.
  intros Hrun Hs. destruct (decide (action = "block_ip")) as [->|Ha].
  2: { pose proof (commands_succeed env r action ip Ha c res) as Hok. rewrite Hrun in Hok. specialize (Hok eq_refl). congruence. }
  unfold run_command, execute_block_ip in Hrun. cbn [String.eqb Ascii.eqb Bool.eqb] in Hrun.
  unfold bind at 1, of_outcome at 1 in Hrun.
  destruct (block_refusal env (default "" ip)) as [[[message code]|]|e]; [by exists message, code| |done].
  assert (answers (fun x => rc_success x = true) (let* e := of_outcome (parse_expires_at env (rq_expires_at r)) in
    block_tracking env r "block_ip" (default "" ip) (idempotency_key_of env (keyed_request r "block_ip" ip)) e)) as Hok
    by (apply answers_bind; intros e; apply tracking_succeeds).
  specialize (Hok c res). rewrite Hrun in Hok. specialize (Hok eq_refl). congruence.
Qed.

(** *** What a refusal leaves *)

(** Every table but the registry is as it was, and new events only say
    "rejected". *)
Record only_rejects (d d' : command_db) : Prop := OnlyRejects {
  oj_others : (cd_blocklist d', cd_incidents d', cd_alerts d', cd_outcomes d', cd_log d') =
              (cd_blocklist d, cd_incidents d, cd_alerts d, cd_outcomes d, cd_log d);
  oj_events : forall i e, rg_events (cd_registry d') !! i = Some e ->
    rg_events (cd_registry d) !! i = Some e \/ re_outcome e = "rejected" /\ re_disposition_after e = DispRejected;
}.

#[export] Instance only_rejects_preorder : PreOrder only_rejects.
Proof.
  split; [split; eauto|]. intros d1 d2 d3 [H1 H2] [H3 H4]. split; [congruence|].
  intros i e [He|He]%H4; [|by right]. by apply H2.
Qed.

Lemma rejects_registry {A} (m : M registry_store A) :
  (forall s i e, rg_events (m s).2 !! i = Some e ->
     rg_events s !! i = Some e \/ re_outcome e = "rejected" /\ re_disposition_after e = DispRejected) ->
  triple (fun _ => True) only_rejects (in_registry m) anything.
Proof.
  intros Hm d _. split; [|done]. unfold in_registry, zoom. specialize (Hm (cd_registry d)).
  destruct (m (cd_registry d)) as [o s]. split; [done|exact Hm].
Qed.

Lemma upsert_events clk t v s : rg_events (upsert_indicator_identity clk t v s).2 = rg_events s.
Proof.
  unfold upsert_indicator_identity, bind, of_outcome. destruct (normalize_indicator_value t v) as [n|e]; [|done].
  destruct (varchar 32 t); cbn; [|done]. destruct (sql_blank t || sql_blank n); [done|].
  by destruct (find_indicator t n s) as [[i r]|].
Qed.

Lemma append_events clk refs_ok p s i e :
  rp_outcome p = "rejected" -> rp_disposition_after p = Some "rejected" ->
  rg_events (append_registry_event clk refs_ok p s).2 !! i = Some e ->
  rg_events s !! i = Some e \/ re_outcome e = "rejected" /\ re_disposition_after e = DispRejected.
Proof.
  intros Ho Hd. assert (forall o s', append_new_registry_event clk refs_ok p s = (o, s') ->
    rg_events s' !! i = Some e ->
    rg_events s !! i = Some e \/ re_outcome e = "rejected" /\ re_disposition_after e = DispRejected) as Hnew.
  { intros o s' Hrun. destruct o as [x|x].
    - apply append_new_Ok in Hrun as (r & d & _ & Hdd & ->). cbn. rewrite lookup_insert_Some.
      intros [[_ <-]|[_ He]]; [|by left]. right. split; [exact Ho|]. cbn. unfold event_disposition in Hdd. rewrite Hd in Hdd.
      cbn in Hdd. congruence.
    - destruct (rg_rows s !! rp_registry_id p) as [r|] eqn:Er.
      2: { revert Hrun. unfold append_new_registry_event, bind, gets, get_indicator_by_id. rewrite Er. intros [= _ <-]. by left. }
      assert (event_disposition p r = Ok DispRejected) as Hdd by (unfold event_disposition; by rewrite Hd).
      pose proof (append_new_cases clk refs_ok p s r _ Er Hdd) as Hc. rewrite Hrun in Hc.
      destruct Hc as [(y & _ & _ & _ & ->)|([=] & _)]. by left. }
  unfold append_registry_event. destruct (rp_idempotency_key p) as [k|]; [destruct (is_empty k)|].
  - destruct (append_new_registry_event clk refs_ok p s) eqn:E. by eapply Hnew.
  - unfold bind, gets. destruct (event_by_key k s) as [x|]; [by left|].
    destruct (append_new_registry_event clk refs_ok p s) eqn:E. by eapply Hnew.
  - destruct (append_new_registry_event clk refs_ok p s) eqn:E. by eapply Hnew.
Qed.

Lemma rejects_stmt {A} (m : M command_db A) :
  triple (fun _ => True) only_rejects m anything -> triple (fun _ => True) (cn_rel only_rejects) (execute m) anything.
Proof. intros Hm. by apply (triple_execute only_rejects (fun _ => True) m anything _). Qed.

Lemma reject_only env r action ip key message code :
  triple (fun _ => True) (cn_rel only_rejects) (reject env r action ip key message code) anything.
Proof.
  unfold reject. eapply (triple_bind _ anything); [|intros ids; by apply triple_ret].
  destruct ip as [ip|]; [|by apply triple_ret]. case_match; [by apply triple_ret|].
  apply (triple_try (fun _ => True) (fun _ => True) anything); [|done|intros x; by apply triple_ret].
  eapply (triple_bind _ anything).
  - apply rejects_stmt, rejects_registry. intros s i e. rewrite upsert_events. by left.
  - intros x. eapply (triple_bind _ anything); [|intros y; by apply triple_ret].
    apply rejects_stmt. intros d _. apply (rejects_registry (append_registry_event _ _ _)); [|done].
    intros s i e. by apply append_events.
Qed.
