(* ===== verification/ResponseCommandProperties.v ===== *)
(** * ResponseCommandProperties: what response commands promise

    The invariant of the tables over every mix of commands, the effect a
    command reports against the effect it has, what a refused command leaves
    behind, and the two ways a reported effect fails to take place. *)

From S2P Require Import Prelude PyText PyValue Tables Hoare IpAddress AddressText ActionVocabulary ProtectedTargets.
From S2P Require Import Outcomes QueueWorker Alerts IndicatorRegistry ResponseCommand ResponseCommandProofs ResponseCommandEffects.

Open Scope Z_scope.

(** ** Every mix of commands keeps the tables in order *)

Inductive command_op :=
  | RunCommand (env : command_env) (r : response_command_request) (commit : bool)
  | ExpireMonitors (clk : clock) (moment : option Z).

Definition end_command (commit : bool) (c : conn command_db) : command_db :=
  cn_current ((if commit then commit_conn c else rollback_conn c).2).

Definition run_command_op (d : command_db) (op : command_op) : command_db :=
  match op with
  | RunCommand env r commit => end_command commit (execute_response_command env r (open_conn d)).2
  | ExpireMonitors clk moment => (in_registry (apply_monitor_expiry clk moment) d).2
  end.

Record records_ok (d : command_db) : Prop := RecordsOk {
  rec_registry : registry_ok (cd_registry d);
  rec_blocklist : block_ok (cd_blocklist d);
  rec_outcomes : outcome_ok (cd_outcomes d);
}.

Lemma registry_ok_bump s n m :
  rg_seq s <= n -> rg_event_seq s <= m -> registry_ok s -> registry_ok (RegistryStore (rg_rows s) n (rg_events s) m).
Proof.
  intros Hn Hm Hok. eapply reg_step_ok; [exact Hok|].
  apply (reg_burn _ _ (n - rg_seq s) (m - rg_event_seq s)); [lia..|]. f_equal; lia.
Qed.

Lemma outcome_ok_bump s n m :
  os_decision_seq s <= n -> os_event_seq s <= m -> outcome_ok s ->
  outcome_ok (OutcomeStore (os_decisions s) (os_events s) n m).
Proof.
  intros Hn Hm Hok. eapply outcome_step_ok; [|exact Hok].
  replace n with (os_decision_seq s + (n - os_decision_seq s)) by lia.
  replace m with (os_event_seq s + (m - os_event_seq s)) by lia. apply step_burn; lia.
Qed.

Lemma records_ok_moves d d' : command_moves d d' -> records_ok d -> records_ok d'.
Proof.
  intros [Hr Hb Ho] [H1 H2 H3].
  split; [by eapply reg_steps_ok|by eapply block_steps_ok|eapply outcome_steps_ok; [by apply Ho|done]].
Qed.

(** A rollback restores the rows and keeps the sequences. *)
Lemma records_ok_restore d d' : command_moves d d' -> records_ok d -> records_ok (restore d d').
Proof.
  intros [Hr%reg_steps_seq Hb%block_steps_seq Ho] [H1 H2 H3]. specialize (Ho H3). apply outcome_steps_seq in Ho. split.
  - apply registry_ok_bump; [lia..|done].
  - destruct H2 as [Hid Hone]. split; [|exact Hone]. intros i b Hi%Hid. cbn. lia.
  - apply outcome_ok_bump; [lia..|done].
Qed.

Lemma records_ok_command env r commit d : records_ok d -> records_ok (run_command_op d (RunCommand env r commit)).
Proof.
  intros Hok. cbn. destruct (execute_response_command_moves env r (open_conn d) I) as [[Hc Hm] _].
  unfold end_command. destruct (execute_response_command env r (open_conn d)) as [o c]. cbn [snd] in *. cbn in Hc, Hm.
  destruct commit; unfold commit_conn, rollback_conn; [destruct (cn_aborted c)|]; cbn [snd cn_current]; rewrite ?Hc;
    eauto using records_ok_moves, records_ok_restore.
Qed.

Lemma records_ok_expiry clk moment d : records_ok d -> records_ok (run_command_op d (ExpireMonitors clk moment)).
Proof.
  intros [[Hid Heid Hreg Huniq Hkeys Hexp] H2 H3]. split; [|exact H2|exact H3].
  cbn. set (f := fun r => if monitor_expired _ r then _ else r).
  assert (forall r, ir_type (f r) = ir_type r /\ ir_value (f r) = ir_value r) as Hf by (intros r; unfold f; by case_match).
  split; cbn [rg_rows rg_seq rg_events rg_event_seq]; try done.
  - intros i r. rewrite lookup_fmap, fmap_Some. intros (x & Hx & _). by eapply Hid.
  - intros i e He%Hreg. by rewrite lookup_fmap, fmap_is_Some.
  - intros i j r r'. rewrite !lookup_fmap, !fmap_Some. intros (x & Hx & ->) (y & Hy & ->).
    destruct (Hf x) as [-> ->], (Hf y) as [-> ->]. by eapply Huniq.
  - intros i r. rewrite lookup_fmap, fmap_Some. intros (x & Hx & ->). specialize (Hexp i x Hx).
    unfold explained, latest_event in *. cbn [rg_events]. unfold f, monitor_expired. case_bool_decide as Hd; cbn [andb]; [|done].
    destruct (ir_monitor_expires_at x) as [e|]; [|exact Hexp]. destruct (e <=? _); [|exact Hexp]. cbn [ir_disposition set_ir_disposition].
    destruct (select_one _ _ _) as [[k y]|]; [|congruence].
    right. destruct Hexp as [He|[He _]]; [|congruence]. split; congruence.
Qed.

(** C6: whatever analysts, playbooks and the queue command, in any order and
    whether each command's transaction is committed or rolled back, and
    whenever monitoring expires in between: identities are unique, the
    disposition of every indicator is the one its newest event records,
    idempotency keys name one event, an address has at most one active
    blocklist row, and the decisions and outcome events satisfy their
    schema. *)
Theorem commands_reachable_ok (ops : list command_op) (d : command_db) :
  records_ok d -> records_ok (fold_left run_command_op ops d).
Proof.
  revert d. induction ops as [|[env r commit|clk moment] ops IH]; intros d Hok; [done|..]; apply IH.
  - by apply records_ok_command.
  - by apply records_ok_expiry.
Qed.

(** ** What is reported and what is recorded *)

(** The event the idempotency key of a command names already. *)
Definition keyed_event (env : command_env) (r : response_command_request) (action : string) (ip : option string)
    (c : conn command_db) : option (Z * registry_event) :=
  event_by_key (idempotency_key_of env (keyed_request r action ip)) (cd_registry (cn_current c)).

(** C11: a command whose idempotency key names no event yet does what it
    reports: when it answers success with a registry record and a
    disposition, that record has that disposition. *)
Theorem reported_disposition_holds env r action ip c res c' i t :
  ids_ok (cd_registry (cn_current c)) ->
  keyed_event env r action ip c = None ->
  run_command env r action ip c = (Ok res, c') ->
  rc_success res = true -> rc_registry_record_id res = Some i -> rc_disposition res = Some t ->
  exists row, rg_rows (cd_registry (cn_current c')) !! i = Some row /\ disposition_str (ir_disposition row) = t.
Proof.
  intros Hok Hf Hrun Hs Hi Ht. destruct (run_command_honest env r action ip c (conj Hok Hf)) as [_ HQ].
  rewrite Hrun in HQ. exact (HQ res eq_refl Hs i t Hi Ht).
Qed.

(** a command whose idempotency key names an event already records
    nothing and changes no disposition, and yet answers success with the
    disposition it did not set. *)
Theorem used_key_changes_nothing env r action ip c res c' x :
  ids_ok (cd_registry (cn_current c)) ->
  is_empty (idempotency_key_of env (keyed_request r action ip)) = false -> keyed_event env r action ip c = Some x ->
  run_command env r action ip c = (Ok res, c') -> rc_success res = true ->
  rg_events (cd_registry (cn_current c')) = rg_events (cd_registry (cn_current c)) /\
  forall i row, rg_rows (cd_registry (cn_current c)) !! i = Some row ->
    exists row', rg_rows (cd_registry (cn_current c')) !! i = Some row' /\ ir_disposition row' = ir_disposition row.
Proof.
  intros Hok Hkey Hx Hrun Hs. set (key := idempotency_key_of _ _) in Hkey.
  assert (action = "block_ip" -> block_refusal env (default "" ip) = Ok None) as Hb.
  { intros ->. unfold run_command in Hrun. cbn [String.eqb Ascii.eqb Bool.eqb] in Hrun. by eapply block_success_unrefused. }
  destruct (quiet_run env key Hkey r action ip eq_refl Hb c) as [[_ Hu] _]; [by split; [|exists x]|].
  rewrite Hrun in Hu. split; [exact (um_events _ _ Hu)|exact (um_rows _ _ Hu Hok)].
Qed.

(** ** What a refusal leaves behind *)

Lemma execute_reads {A} (f : command_db -> A) c : cn_current (execute (gets f) c).2 = cn_current c.
Proof. unfold execute. by destruct (cn_aborted c). Qed.

Lemma resolve_still r : holds_still (fun c => cn_current c) (resolve_source_ip r).
Proof.
  unfold resolve_source_ip, alert_source_ip. repeat case_match; try done; intros c; apply execute_reads.
Qed.


(** Nothing is tracked between [d] and [d'], and what was added to the
    registry's events says "rejected". *)
Record nothing_tracked (d d' : command_db) : Prop := NothingTracked {
  nt_blocklist : cd_blocklist d' = cd_blocklist d;
  nt_incidents : cd_incidents d' = cd_incidents d;
  nt_alerts : cd_alerts d' = cd_alerts d;
  nt_outcomes : cd_outcomes d' = cd_outcomes d;
  nt_log : cd_log d' = cd_log d;
  nt_events : forall i e, rg_events (cd_registry d') !! i = Some e ->
    rg_events (cd_registry d) !! i = Some e \/ re_outcome e = "rejected" /\ re_disposition_after e = DispRejected;
}.

(** a command that answers without success, whatever the reason, has
    tracked nothing: the blocklist, the incidents, the alerts, the
    decisions and outcome events and the action log are as they were, and an
    event it added to the registry says "rejected". *)
Theorem refused_command_tracks_nothing env r c res c' :
  execute_response_command env r c = (Ok res, c') -> rc_success res = false ->
  nothing_tracked (cn_current c) (cn_current c').
Proof.
  intros Hrun Hs. enough (only_rejects (cn_current c) (cn_current c')) as [Ho He]
    by (injection Ho as H1 H2 H3 H4 H5; by split).
  revert Hrun. unfold execute_response_command. destruct (validate_response_command_action _) as [action|e].
  2: { destruct e; try done. intros [= _ <-]. reflexivity. }
  unfold bind at 1. unfold try_catch, bind at 1. pose proof (resolve_still r c) as Hr.
  destruct (resolve_source_ip r c) as [[ip|e] c1]; cbn [ret fst snd] in *.
  - destruct (command_refusal r action ip) as [x|]; [intros [= _ <-]; by rewrite Hr|]. intros Hrun.
    destruct (run_command_fails _ _ _ _ _ _ _ Hrun Hs) as (message & code & _ & Hrej).
    destruct (reject_only env r action (Some (default "" ip)) (idempotency_key_of env (keyed_request r action ip)) message code c1 I)
      as [[_ Hm] _]. rewrite Hrej in Hm. by rewrite <-Hr.
  - destruct (is_value_error e); [|done]. intros [= _ <-]. by rewrite Hr.
Qed.

(** ** Blocklist rows *)

Lemma validate_blocked_ip_idemp env s n : validate_blocked_ip env s = Ok n -> validate_blocked_ip env n = Ok n.
Proof.
  unfold validate_blocked_ip. destruct (is_empty (strip s)); [done|]. destruct (parse_ip (strip s)) as [a|e] eqn:Ha; [|done].
  destruct (ce_internal env a) eqn:Hi; [done|]. intros Hn.
  assert (strip n = n) as -> by (eapply ip_str_strip; [apply strip_idemp|done]).
  pose proof Hn as Hn'. unfold ip_str in Hn. rewrite Ha in Hn. cbn [obind] in Hn. injection Hn as Hn.
  destruct (parse_ip_str _ _ Ha) as [Hp _]. rewrite Hn in Hp. rewrite Hp, Hi.
  apply ip_str_idemp in Hn'. rewrite Hn'. by destruct n as [|ch n'].
Qed.

(** The tables with another blocklist. *)
Definition with_blocklist (x : blocklist) (d : command_db) : command_db :=
  CommandDb (cd_registry d) x (cd_incidents d) (cd_alerts d) (cd_outcomes d) (cd_log d).

Lemma taken_spec host (d : command_db) :
  existsb (fun x => active_block host x.2) (map_to_list (bk_rows (cd_blocklist d))) = false <-> no_active host (cd_blocklist d).
Proof.
  split.
  - intros Hno i b Hi. apply not_true_iff_false. intros Hact. apply not_true_iff_false in Hno. apply Hno, existsb_exists.
    exists (i, b). split; [|done]. by apply list_elem_of_In, elem_of_map_to_list.
  - intros Hno. apply not_true_iff_false. intros ([i b] & Hin & Hact)%existsb_exists.
    apply list_elem_of_In, elem_of_map_to_list in Hin. cbn [snd] in Hact. by rewrite (Hno i b Hin) in Hact.
Qed.

Section Blocks.
Context (env : command_env).
Let now := sql_now (ce_clock env).

(** What [get_or_create_active_blocked_ip] finds or makes. *)
Definition block_found (ip : string) (r : response_command_request) (reason : string) (e : option Z) (d : command_db)
    (i : Z) (new : bool) (d' : command_db) : Prop :=
  exists n h, validate_blocked_ip env ip = Ok n /\ to_inet (ce_inet env) (Some n) = Ok h /\
    let host := default "" h in
    if new
    then no_active host (cd_blocklist d) /\ i = bk_seq (cd_blocklist d) /\
         d' = with_blocklist (Blocklist (<[i := BlockedRow host (Some reason) true (rq_actor_user_id r) now e (rq_alert_id r)]>
                                (bk_rows (cd_blocklist d))) (i + 1)) d
    else d' = d /\ exists b, bk_rows (cd_blocklist d) !! i = Some b /\ active_block host b = true /\ unexpired now b = true.

Lemma create_block_run ip r reason e d i d' :
  create_blocked_ip_record env ip r reason e d = (Ok i, d') ->
  exists n h, validate_blocked_ip env ip = Ok n /\ to_inet (ce_inet env) (Some n) = Ok h /\
    no_active (default "" h) (cd_blocklist d) /\ i = bk_seq (cd_blocklist d) /\
    d' = with_blocklist (Blocklist (<[i := BlockedRow (default "" h) (Some reason) true (rq_actor_user_id r) now e (rq_alert_id r)]>
                           (bk_rows (cd_blocklist d))) (i + 1)) d.
Proof.
  unfold create_blocked_ip_record, bind at 1, of_outcome at 1. destruct (validate_blocked_ip env ip) as [n|x]; [|done].
  unfold bind at 1, gets at 1. destruct (negb _); [done|]. unfold bind at 1, of_outcome.
  destruct (to_inet _ _) as [h|x] eqn:Eh; [|done]. unfold bind, gets. destruct (existsb _ _) eqn:Et; [done|].
  intros [= <- <-]. exists n, h. by rewrite taken_spec in Et.
Qed.

Lemma get_or_create_run ip r reason e d i new d' :
  get_or_create_active_blocked_ip env ip r reason e d = (Ok (i, new), d') -> block_found ip r reason e d i new d'.
Proof.
  unfold get_or_create_active_blocked_ip, bind at 1, of_outcome at 1. destruct (validate_blocked_ip env ip) as [n|x] eqn:Ev; [|done].
  unfold bind at 1, of_outcome at 1. destruct (to_inet _ _) as [h|x] eqn:Eh; [|done]. unfold bind at 1, gets at 1.
  destruct (select_one _ _ _) as [[j b]|] eqn:Es.
  - intros [= <- <- <-]. apply select_one_Some in Es as (Hj & [Ha Hu]%andb_true_iff & _). exists n, h. split_and!; [done..|]. eauto.
  - unfold bind. destruct (create_blocked_ip_record _ _ _ _ _ d) as [[j|x] d1] eqn:Ec; [|done]. intros [= <- <- <-].
    apply create_block_run in Ec as (n' & h' & Hn' & Hh' & Hno & Hi & Hd). rewrite (validate_blocked_ip_idemp _ _ _ Ev) in Hn'.
    injection Hn' as <-. assert (h' = h) as -> by congruence. exists n, h. by split_and!.
Qed.

(** The only active row of a host is the one found. *)
Lemma get_or_create_reuses ip r reason e d n h i b :
  validate_blocked_ip env ip = Ok n -> to_inet (ce_inet env) (Some n) = Ok h -> block_ok (cd_blocklist d) ->
  bk_rows (cd_blocklist d) !! i = Some b -> active_block (default "" h) b = true -> unexpired now b = true ->
  get_or_create_active_blocked_ip env ip r reason e d = (Ok (i, false), d).
Proof.
  intros Hv Hh Hok Hi Ha Hu. unfold get_or_create_active_blocked_ip. rewrite Hv. unfold bind at 1, of_outcome at 1.
  rewrite Hh. unfold bind at 1, of_outcome at 1. unfold bind at 1, gets at 1.
  destruct (select_one _ _ _) as [[j b']|] eqn:Es.
  - apply select_one_Some in Es as (Hj & [Ha' Hu']%andb_true_iff & _). assert (j = i) as -> by (by eapply (bo_one _ Hok)). done.
  - rewrite select_one_None in Es. specialize (Es i b Hi). cbn beta in Es. fold now in Es. by rewrite Ha, Hu in Es.
Qed.
End Blocks.

(** The row has not expired at the time of the call. *)
Definition block_in_force (env : command_env) (i : Z) (d : command_db) : Prop :=
  forall b, bk_rows (cd_blocklist d) !! i = Some b -> unexpired (sql_now (ce_clock env)) b = true.

(** the address of a block that was recorded or reused stays blocked by
    that one row: until it expires, any later request for the address
    answers the same row and changes nothing. *)
Theorem active_block_reused env env' ip r r' reason reason' e e' d i new d' :
  block_ok (cd_blocklist d) ->
  get_or_create_active_blocked_ip env ip r reason e d = (Ok (i, new), d') ->
  ce_inet env' = ce_inet env -> ce_internal env' = ce_internal env ->
  block_in_force env' i d' ->
  get_or_create_active_blocked_ip env' ip r' reason' e' d' = (Ok (i, false), d').
Proof.
  intros Hok Hrun Hinet Hint Hu.
  assert (block_ok (cd_blocklist d')) as Hok'.
  { destruct (get_or_create_moves env ip r reason e d I) as [[_ Hb _] _]. rewrite Hrun in Hb. by eapply block_steps_ok. }
  apply get_or_create_run in Hrun as (n & h & Hv & Hh & Hd).
  assert (exists b, bk_rows (cd_blocklist d') !! i = Some b /\ active_block (default "" h) b = true) as (b & Hi & Ha).
  { destruct new; [destruct Hd as (_ & _ & ->)|destruct Hd as (-> & b & Hi & Ha & _); eauto].
    eexists. cbn. rewrite lookup_insert_eq. split; [done|]. unfold active_block. cbn. by rewrite String.eqb_refl. }
  eapply get_or_create_reuses; [| |done|exact Hi|exact Ha|by apply Hu].
  - unfold validate_blocked_ip in *. rewrite Hint. exact Hv.
  - by rewrite Hinet.
Qed.

Lemma expired_create_refused env ip r reason e d n h i b :
  validate_blocked_ip env ip = Ok n -> to_inet (ce_inet env) (Some n) = Ok h ->
  bk_rows (cd_blocklist d) !! i = Some b -> active_block (default "" h) b = true ->
  (forall j b', bk_rows (cd_blocklist d) !! j = Some b' -> active_block (default "" h) b' = true ->
     unexpired (sql_now (ce_clock env)) b' = false) ->
  exists x, get_or_create_active_blocked_ip env ip r reason e d = (Raise x, d).
Proof.
  intros Hv Hh Hi Ha Hexp. unfold get_or_create_active_blocked_ip. rewrite Hv. unfold bind at 1, of_outcome at 1.
  rewrite Hh. unfold bind at 1, of_outcome at 1. unfold bind at 1, gets at 1.
  destruct (select_one _ _ _) as [[j b']|] eqn:Es.
  { apply select_one_Some in Es as (Hj & [Ha' Hu']%andb_true_iff & _). by rewrite (Hexp j b' Hj Ha') in Hu'. }
  unfold bind at 1, create_blocked_ip_record. rewrite (validate_blocked_ip_idemp _ _ _ Hv). unfold bind at 1, of_outcome at 1.
  unfold bind at 1, gets at 1. destruct (negb _); [by eexists|]. unfold bind at 1, of_outcome at 1. rewrite Hh.
  unfold bind at 1, gets at 1. destruct (existsb _ _) eqn:Et; [by eexists|]. rewrite taken_spec in Et.
  by rewrite (Et i b Hi) in Ha.
Qed.

Lemma upsert_ip_blocklist env ip : holds_still cd_blocklist (upsert_ip env ip).
Proof. by apply still_zoom. Qed.

(** once the blocklist row of an address has expired while it is still
    marked active, no command blocks that address again: the command fails,
    or raises, and the blocklist stays as it is. *)
Theorem expired_block_stuck env r ip c o c' n h i b :
  validate_blocked_ip env ip = Ok n -> to_inet (ce_inet env) (Some n) = Ok h ->
  bk_rows (cd_blocklist (cn_current c)) !! i = Some b -> active_block (default "" h) b = true ->
  (forall j b', bk_rows (cd_blocklist (cn_current c)) !! j = Some b' -> active_block (default "" h) b' = true ->
     unexpired (sql_now (ce_clock env)) b' = false) ->
  run_command env r "block_ip" (Some ip) c = (o, c') ->
  cd_blocklist (cn_current c') = cd_blocklist (cn_current c) /\ forall res, o = Ok res -> rc_success res = false.
Proof.
  intros Hv Hh Hi Ha Hexp. unfold run_command. cbn [String.eqb Ascii.eqb Bool.eqb]. change (default "" (Some ip)) with ip.
  set (key := idempotency_key_of _ _). unfold execute_block_ip, bind at 1, of_outcome at 1.
  destruct (block_refusal env ip) as [[[message code]|]|x]; [| |intros [= <- <-]; by split].
  - intros Hrun. split.
    + destruct (reject_only env r "block_ip" (Some ip) key message code c I) as [[_ [Ho _]] _]. rewrite Hrun in Ho.
      by injection Ho.
    + intros res ->. pose proof (reject_fails env r "block_ip" (Some ip) key message code c res) as Hf. rewrite Hrun in Hf. by apply Hf.
  - unfold bind at 1, of_outcome at 1. destruct (parse_expires_at env (rq_expires_at r)) as [e|x]; [|intros [= <- <-]; by split].
    unfold block_tracking, bind at 1. pose proof (upsert_ip_blocklist env ip (cn_current c)) as Hstill.
    destruct (execute (upsert_ip env ip) c) as [[x|x] c1] eqn:E1;
      assert (cd_blocklist (cn_current c1) = cd_blocklist (cn_current c)) as H1 by
        (revert E1; unfold execute; destruct (cn_aborted c); [by intros [= _ <-]|];
         destruct (upsert_ip env ip (cn_current c)) as [[y|y] d]; intros [= _ <-]; exact Hstill).
    2: { intros [= <- <-]. by split. }
    unfold bind at 1. set (reason := text_or _ _).
    rewrite <-H1 in Hi, Hexp.
    destruct (expired_create_refused env ip r reason e (cn_current c1) n h i b Hv Hh Hi Ha Hexp) as [y Hy].
    unfold execute at 1. destruct (cn_aborted c1); [intros [= <- <-]; by split|]. rewrite Hy. intros [= <- <-].
    split; [exact H1|done].
Qed.

(** The active row found for a host, if any. *)
Definition found_in (host : string) (s : blocklist) (row : option (Z * blocked_row)) : Prop :=
  match row with
  | Some (i, b) => bk_rows s !! i = Some b /\ active_block host b = true
  | None => no_active host s
  end.

(** The row after its block is lifted. *)
Definition lifted (host : string) (b : blocked_row) : blocked_row :=
  if active_block host b
  then BlockedRow (bl_ip b) (bl_reason b) false (bl_created_by b) (bl_created_at b) (bl_expires_at b) (bl_source_alert_id b)
  else b.

Section Removal.
Definition blocks (P : blocklist -> Prop) : conn command_db -> Prop := on_current (fun d => P (cd_blocklist d)).

Lemma blocks_still {A} P (m : M command_db A) :
  holds_still cd_blocklist m -> triple (blocks P) (fun _ _ => True) (execute m) (fun _ => blocks P).
Proof. apply triple_still. Qed.

Lemma append_indicator_blocklist env r p : holds_still cd_blocklist (append_indicator_event env r p).
Proof. intros d. unfold append_indicator_event, in_registry, zoom. by destruct (append_registry_event _ _ _ _). Qed.

Lemma deactivated_rows B host i b :
  block_ok B -> bk_rows B !! i = Some b -> active_block host b = true ->
  bk_rows (deactivate_block i B).2 = lifted host <$> bk_rows B.
Proof.
  intros Hok Hi Ha. cbn. rewrite (alter_present _ _ _ _ Hi). apply map_eq. intros j. rewrite lookup_fmap.
  assert (bl_active b = true) as Hb by (by apply andb_true_iff in Ha as [? _]). rewrite Hb.
  destruct (decide (j = i)) as [->|Hne].
  - rewrite lookup_insert_eq, Hi. cbn. unfold lifted. by rewrite Ha.
  - rewrite lookup_insert_ne by done. destruct (bk_rows B !! j) as [x|] eqn:Hj; [|done]. cbn. unfold lifted.
    destruct (active_block host x) eqn:Hx; [|done]. destruct Hne. by eapply (bo_one _ Hok).
Qed.

Lemma lifted_none B host : no_active host B -> lifted host <$> bk_rows B = bk_rows B.
Proof.
  intros Hno. apply map_eq. intros j. rewrite lookup_fmap. destruct (bk_rows B !! j) as [x|] eqn:Hj; [|done]. cbn.
  unfold lifted. by rewrite (Hno j x Hj).
Qed.
End Removal.

(** removing the tracking of an address lifts its active block and
    leaves every other row, and the history in the lifted one, as it was. *)
Theorem remove_tracking_lifts env r action ip key c res c' h :
  block_ok (cd_blocklist (cn_current c)) -> to_inet (ce_inet env) (Some ip) = Ok h ->
  execute_remove_tracking env r action ip key c = (Ok res, c') ->
  bk_rows (cd_blocklist (cn_current c')) = lifted (default "" h) <$> bk_rows (cd_blocklist (cn_current c)).
Proof.
  intros Hok Hh Hrun. set (B := cd_blocklist (cn_current c)) in *. set (host := default "" h).
  assert (triple (blocks (fun s => s = B)) (fun _ _ => True) (execute_remove_tracking env r action ip key)
            (fun _ => blocks (fun s => bk_rows s = lifted host <$> bk_rows B))) as Ht.
  { unfold execute_remove_tracking.
    apply (triple_bind _ (fun row => blocks (fun s => s = B /\ found_in host B row))).
    - eapply triple_forget, (triple_execute (fun _ _ => True) (fun d => cd_blocklist d = B) _
        (fun row d => cd_blocklist d = B /\ found_in host B row)); [apply _|].
      unfold find_active_block. rewrite Hh. intros d Hd. split; [done|]. intros row [= <-]. split; [exact Hd|]. rewrite Hd. fold host.
      destruct (select_one _ _ _) as [[i b]|] eqn:Es; [by apply select_one_Some in Es as (? & ? & _)|].
      rewrite select_one_None in Es. exact Es.
    - intros row. eapply triple_bind; [apply blocks_still, upsert_ip_blocklist|]. intros x. destruct row as [[i b]|].
      + eapply (triple_bind _ (fun _ => blocks (fun s => bk_rows s = lifted host <$> bk_rows B))).
        * eapply triple_forget, (triple_execute (fun _ _ => True) (fun d => cd_blocklist d = B /\ bk_rows B !! i = Some b /\ active_block host b = true)
            _ (fun _ d => bk_rows (cd_blocklist d) = lifted host <$> bk_rows B)); [apply _|].
          intros d (Hd & Hi & Ha). split; [done|]. intros u _. unfold in_blocklist, zoom. rewrite Hd.
          exact (deactivated_rows B host i b Hok Hi Ha).
        * intros u. eapply triple_bind; [apply blocks_still, append_indicator_blocklist|]. intros event.
          eapply triple_bind; [apply blocks_still; by apply still_zoom|]. intros v. by apply triple_ret.
      + apply triple_ret. intros c0 [Hc Hno]. unfold blocks, on_current. by rewrite Hc, lifted_none. }
  destruct (Ht c eq_refl) as [_ HQ]. rewrite Hrun in HQ. by apply (HQ res).
Qed.

(** ** Escalation *)

(** The keys of the incidents and of the links are numbers the sequence has
    already given. *)
Definition incidents_ok (s : incident_store) : Prop :=
  (forall i row, is_rows s !! i = Some row -> i < is_seq s) /\
  (forall a links i t, is_links s !! a = Some links -> links !! i = Some t -> i < is_seq s).

Lemma linked_only a s i links :
  is_links s !! a = Some links -> is_Some (links !! i) ->
  (exists row, is_rows s !! i = Some row /\ open_incident row = true) ->
  (forall j t row, links !! j = Some t -> is_rows s !! j = Some row -> open_incident row = true -> j = i) ->
  linked_incident a s = Some i.
Proof.
  intros Hl [t Ht] (row & Hrow & Ho) Honly. unfold linked_incident. rewrite Hl. cbn [default from_option].
  change (default ∅ (Some links)) with links.
  destruct (select_one _ _ _) as [[j u]|] eqn:Es.
  - apply select_one_Some in Es as (Hj & Hp & _). cbn. f_equal. destruct (is_rows s !! j) as [row'|] eqn:Hr; [|done].
    by eapply Honly.
  - rewrite select_one_None in Es. specialize (Es i t Ht). cbn in Es. rewrite Hrow in Es. congruence.
Qed.

Lemma linked_none a s links :
  linked_incident a s = None -> is_links s !! a = Some links ->
  forall j t row, links !! j = Some t -> is_rows s !! j = Some row -> open_incident row = true -> False.
Proof.
  unfold linked_incident. intros Hn Hl j t row Hj Hr Ho. rewrite Hl in Hn. change (default ∅ (Some links)) with links in Hn.
  destruct (select_one _ _ _) eqn:Es; [done|]. rewrite select_one_None in Es. specialize (Es j t Hj). cbn in Es.
  rewrite Hr in Es. congruence.
Qed.

Lemma linked_open a s i : linked_incident a s = Some i -> exists row, is_rows s !! i = Some row /\ open_incident row = true.
Proof.
  unfold linked_incident. intros Hs. destruct (select_one _ _ _) as [[j t]|] eqn:Es; [|done]. injection Hs as <-.
  apply select_one_Some in Es as (_ & Hp & _). destruct (is_rows s !! j) as [row|]; [|done]. eauto.
Qed.

Lemma checked_run {A} env r (m : M command_db A) d a d' : checked env r m d = (Ok a, d') -> m d = (Ok a, d').
Proof. unfold checked, bind. destruct (m d) as [[x|x] d1]; [|done]. by destruct (references env r d1). Qed.

Lemma link_to_run env r a i d j d' :
  rq_alert_id r = Some a -> link_to env r i d = (Ok j, d') ->
  j = i /\ is_rows (cd_incidents d') = is_rows (cd_incidents d) /\
  exists links, is_links (cd_incidents d') !! a = Some links /\ is_Some (links !! i) /\
    forall k t, links !! k = Some t -> k = i \/ exists old, is_links (cd_incidents d) !! a = Some old /\ old !! k = Some t.
Proof.
  intros Ha. unfold link_to. rewrite Ha. unfold bind. destruct (checked _ _ _ d) as [[u|x] d1] eqn:E; [|done]. intros [= <- <-].
  apply checked_run in E. unfold in_incidents, zoom, link_alert in E. injection E as _ <-. cbn.
  split; [done|]. split; [done|]. eexists. rewrite lookup_insert_eq. split; [done|].
  assert (forall k t, default ∅ (is_links (cd_incidents d) !! a) !! k = Some t ->
    exists old, is_links (cd_incidents d) !! a = Some old /\ old !! k = Some t) as Hold.
  { intros k t. destruct (is_links (cd_incidents d) !! a) as [old|]; [by exists old|]. cbn. by rewrite lookup_empty. }
  case_decide as Hs.
  - split; [done|]. intros k t Hk. right. by apply Hold.
  - rewrite lookup_insert_eq. split; [done|]. intros k t. rewrite lookup_insert_Some. intros [[<- _]|[_ Hk]]; [by left|right; by apply Hold].
Qed.

(** After its link, an open incident is the alert's, when no open incident
    was linked before. *)
Lemma link_to_links env r a i d j d' s0 :
  rq_alert_id r = Some a -> link_to env r i d = (Ok j, d') ->
  linked_incident a s0 = None -> is_links s0 = is_links (cd_incidents d) ->
  (forall k row, is_rows (cd_incidents d) !! k = Some row -> k = i \/ is_rows s0 !! k = Some row) ->
  (exists row, is_rows (cd_incidents d) !! i = Some row /\ open_incident row = true) ->
  j = i /\ linked_incident a (cd_incidents d') = Some i.
Proof.
  intros Ha Hrun Hnone Hl Hrows Hopen. destruct (link_to_run _ _ _ _ _ _ _ Ha Hrun) as (-> & Hr & links & Hlinks & Hi & Honly).
  split; [done|]. apply (linked_only a _ i links); [done|done|by rewrite Hr|]. intros k t row Hk Hrow Ho.
  destruct (Honly k t Hk) as [->|(old & Hold & Hk')]; [done|]. rewrite Hr in Hrow.
  destruct (Hrows k row Hrow) as [->|Hrow0]; [done|]. rewrite <-Hl in Hold. exfalso. by eapply linked_none.
Qed.

Lemma incident_of_source_Some h s i :
  incident_of_source h s = Some i ->
  exists row, is_rows s !! i = Some row /\ open_incident row = true /\ inc_source_ip row = Some h.
Proof.
  unfold incident_of_source. intros Hs. destruct (select_one _ _ _) as [[j row]|] eqn:Es; [|done]. injection Hs as <-.
  apply select_one_Some in Es as (Hj & [Ho Hh]%andb_true_iff & _). exists row. split_and!; [done..|].
  destruct (inc_source_ip row) as [h'|]; [|done]. by apply String.eqb_eq in Hh as ->.
Qed.

(** An incident inserted when none of the host was open is the host's. *)
Lemma incident_of_source_new h s row n :
  incident_of_source h s = None -> is_rows s !! n = None -> open_incident row = true -> inc_source_ip row = Some h ->
  forall m links, incident_of_source h (IncidentStore (<[n := row]> (is_rows s)) m links) = Some n.
Proof.
  unfold incident_of_source. intros Hnone Hn Ho Hh m links. cbn [is_rows].
  destruct (select_one _ _ (is_rows s)) eqn:E0; [done|]. rewrite select_one_None in E0.
  destruct (select_one _ _ (<[n := row]> (is_rows s))) as [[j x]|] eqn:E1.
  - apply select_one_Some in E1 as (Hj & Hp & _). cbn. f_equal. apply lookup_insert_Some in Hj as [[<- _]|[_ Hj]]; [done|].
    specialize (E0 j x Hj). cbn beta in *. congruence.
  - rewrite select_one_None in E1. specialize (E1 n row (lookup_insert_eq _ _ _)). cbn beta in E1.
    by rewrite Ho, Hh, String.eqb_refl in E1.
Qed.

Section Escalation.
Context (inet : string -> option string) (r : response_command_request) (ip : option string).

(** The incident an escalation of [r] finds. *)
Definition escalated_to (i : Z) (s : incident_store) : Prop :=
  (exists row, is_rows s !! i = Some row /\ open_incident row = true) /\
  match rq_alert_id r with
  | Some a => linked_incident a s = Some i
  | None => exists h, to_inet inet ip = Ok (Some h) /\ incident_of_source h s = Some i
  end.

Lemma has_target_inet h :
  has_target ip = true -> to_inet inet ip = Ok h -> exists host, h = Some host /\ to_inet inet ip = Ok (Some host).
Proof. destruct ip as [x|]; [|done]. cbn. destruct (inet x); [|done]. intros _ [= <-]. eauto. Qed.

Lemma target_text : has_target ip = true ->
  match ip with Some x => if is_empty x then None else Some x | None => None end = ip.
Proof. destruct ip as [x|]; [|done]. cbn. by destruct (is_empty x). Qed.

Lemma escalated_again env d i :
  ce_inet env = inet -> rq_alert_id r <> None \/ has_target ip = true -> escalated_to i (cd_incidents d) ->
  ensure_escalation_incident env r ip d = (Ok i, d).
Proof.
  intros Hinet Ht [_ Hs]. unfold ensure_escalation_incident, bind at 1, gets at 1. destruct (rq_alert_id r) as [a|] eqn:Ea.
  - cbn. by rewrite Hs.
  - destruct Ht as [?|Ht]; [done|]. destruct Hs as (h & Hh & Hs). cbn [mbind option_bind]. rewrite (target_text Ht), Hinet, Hh.
    unfold bind at 1, of_outcome. unfold bind, gets. cbn. rewrite Hs. unfold link_to. by rewrite Ea.
Qed.

Lemma insert_incident_run env row d n d1 :
  checked env r (in_incidents (insert_incident row)) d = (Ok n, d1) ->
  n = is_seq (cd_incidents d) /\
  cd_incidents d1 = IncidentStore (<[n := row]> (is_rows (cd_incidents d))) (n + 1) (is_links (cd_incidents d)).
Proof. intros H%checked_run. unfold in_incidents, zoom, insert_incident in H. injection H as <- <-. by split. Qed.

Lemma escalation_settles env d i d' :
  ce_inet env = inet -> incidents_ok (cd_incidents d) -> rq_alert_id r <> None \/ has_target ip = true ->
  ensure_escalation_incident env r ip d = (Ok i, d') -> escalated_to i (cd_incidents d').
Proof.
  intros Hinet [Hids Hlinks] Ht. unfold ensure_escalation_incident, bind at 1, gets at 1.
  destruct (a ← rq_alert_id r; linked_incident a (cd_incidents d)) as [j|] eqn:El.
  { intros [= <- <-]. destruct (rq_alert_id r) as [a|] eqn:Ea; [|done]. cbn in El. split; [by eapply linked_open|by rewrite Ea]. }
  unfold bind at 1, of_outcome at 1. destruct (to_inet (ce_inet env) _) as [h|x] eqn:Eh; [|done].
  unfold bind at 1, gets at 1. destruct (h ← h; incident_of_source h (cd_incidents d)) as [j|] eqn:Es.
  - destruct h as [h|]; [|done]. cbn in Es. apply incident_of_source_Some in Es as Hj. destruct Hj as (row & Hj & Ho & _).
    destruct (rq_alert_id r) as [a|] eqn:Ea.
    + intros Hrun. cbn in El. destruct (link_to_links _ _ _ _ _ _ _ (cd_incidents d) Ea Hrun) as [-> Hl]; eauto.
      destruct (link_to_run _ _ _ _ _ _ _ Ea Hrun) as (_ & Hr & _). split; [rewrite Hr; eauto|by rewrite Ea].
    + unfold link_to. rewrite Ea. intros [= <- <-]. destruct Ht as [?|Ht]; [done|]. split; [eauto|]. rewrite Ea.
      rewrite (target_text Ht), Hinet in Eh. eauto.
  - unfold bind at 1, of_outcome at 1. destruct (to_inet (ce_inet env) ip) as [h'|x] eqn:Eh'; [|done].
    unfold bind at 1. set (row := IncidentRow _ _ _ _ _ _ _ _). destruct (checked _ _ _ d) as [[n|x] d1] eqn:Ei; [|done].
    apply insert_incident_run in Ei as [-> Hd1].
    assert (is_rows (cd_incidents d) !! is_seq (cd_incidents d) = None) as Hnew.
    { destruct (is_rows (cd_incidents d) !! _) as [x|] eqn:E; [|done]. apply Hids in E. lia. }
    assert (exists row', is_rows (cd_incidents d1) !! is_seq (cd_incidents d) = Some row' /\ open_incident row' = true) as Hopen.
    { exists row. rewrite Hd1. cbn. by rewrite lookup_insert_eq. }
    destruct (rq_alert_id r) as [a|] eqn:Ea.
    + intros Hrun. cbn in El. destruct (link_to_links _ _ _ _ _ _ _ (cd_incidents d) Ea Hrun) as [-> Hl]; [done|by rewrite Hd1| |done|].
      { intros k x. rewrite Hd1. cbn. rewrite lookup_insert_Some. intros [[-> _]|[_ Hk]]; [by left|by right]. }
      destruct (link_to_run _ _ _ _ _ _ _ Ea Hrun) as (_ & Hr & _). split; [by rewrite Hr|by rewrite Ea].
    + unfold link_to. rewrite Ea. intros [= <- <-]. destruct Ht as [?|Ht]; [done|]. split; [done|]. rewrite Ea.
      rewrite (target_text Ht) in Eh. assert (h' = h) as -> by congruence. rewrite Hinet in Eh.
      destruct (has_target_inet h Ht Eh) as (host & -> & Hh). exists host. split; [done|]. cbn in Es. rewrite Hd1.
      apply incident_of_source_new; [done..|]. subst row. reflexivity.
Qed.
End Escalation.

(** The incident exists and is open. *)
Definition incident_open (i : Z) (d : command_db) : Prop :=
  exists row, is_rows (cd_incidents d) !! i = Some row /\ open_incident row = true.

(** an escalation ends at one open incident: escalating the same alert,
    or without an alert the same address, again finds that incident and
    changes nothing. *)
Theorem escalation_idempotent env env' r ip d i d' :
  incidents_ok (cd_incidents d) -> rq_alert_id r <> None \/ has_target ip = true -> ce_inet env' = ce_inet env ->
  ensure_escalation_incident env r ip d = (Ok i, d') ->
  incident_open i d' /\
  ensure_escalation_incident env' r ip d' = (Ok i, d').
Proof.
  intros Hok Ht Hinet Hrun. pose proof (escalation_settles (ce_inet env) r ip env d i d' eq_refl Hok Ht Hrun) as Hs.
  split; [apply Hs|]. by apply (escalated_again (ce_inet env)).
Qed.

(** ** At work *)

Definition demo_env (t : Z) (uuid : string) : command_env :=
  CommandEnv (Clock (seconds t) (seconds t)) (fun s => Some s) uuid (fun s => s) (fun s => Raise (ValueError s))
    (fun _ => false) (Some "10.0.0.0/8") (fun _ => true).

Definition demo_db : command_db :=
  CommandDb empty_registry (Blocklist ∅ 1) (IncidentStore ∅ 1 ∅) ex_alerts empty_outcomes (LogStore ∅ 1).

(** The requests of the alert routes, whose key names the alert and the
    action. *)
Definition demo_request (action ip : string) : response_command_request :=
  ResponseCommandRequest action "ip" (Some ip) (Some 12) None None (Some 7) "manual_alert"
    (Some ("manual-alert-12-" +:+ action)) None None None None None [].

Definition demo_ip : string := "203.0.113.9".

Definition demo_step (d : command_db) (x : Z * string * string) : command_db :=
  let '(t, uuid, action) := x in run_command_op d (RunCommand (demo_env t uuid) (demo_request action demo_ip) true).

Lemma ran {A B} (x : outcome A * B) (a : A) : x.1 = Ok a -> x = (Ok a, x.2).
Proof. destruct x as [o b]. by intros <-. Qed.

Lemma demo_db_ok : records_ok demo_db.
Proof. split; [apply empty_registry_ok|by split|apply empty_outcomes_ok]. Qed.

Lemma commands_reachable_ok_witness :
  records_ok (fold_left run_command_op
    [RunCommand (demo_env 1000 "aaaaaaaa") (demo_request "block_ip" demo_ip) true;
     RunCommand (demo_env 1001 "bbbbbbbb") (demo_request "monitor" demo_ip) false;
     RunCommand (demo_env 1002 "cccccccc") (demo_request "monitor" "10.1.1.1") true;
     ExpireMonitors (Clock (seconds 1000000) (seconds 1000000)) None] demo_db).
Proof. apply commands_reachable_ok. apply demo_db_ok. Defined.

Lemma reported_disposition_holds_witness :
  exists row, rg_rows (cd_registry (cn_current
    (run_command (demo_env 1000 "aaaaaaaa") (demo_request "monitor" demo_ip) "monitor" (Some demo_ip) (open_conn demo_db)).2)) !! 1
    = Some row /\ disposition_str (ir_disposition row) = "monitored".
Proof.
  eapply (reported_disposition_holds (demo_env 1000 "aaaaaaaa") (demo_request "monitor" demo_ip) "monitor" (Some demo_ip)
    (open_conn demo_db));
    [exact (ro_ids _ (rec_registry _ demo_db_ok))|vm_compute; reflexivity|apply ran; vm_compute; reflexivity|reflexivity..].
Defined.

(** Monitor, stop, monitor: the third command reuses the first one's key. *)
Definition demo_stopped : command_db :=
  fold_left demo_step [(1000, "aaaaaaaa", "monitor"); (1001, "bbbbbbbb", "stop_monitor")] demo_db.

Definition demo_remonitor := run_command (demo_env 1002 "cccccccc") (demo_request "monitor" demo_ip) "monitor" (Some demo_ip)
  (open_conn demo_stopped).

Lemma demo_stopped_ok : records_ok demo_stopped.
Proof. unfold demo_stopped. cbn [fold_left demo_step]. do 2 apply records_ok_command. apply demo_db_ok. Qed.

Lemma used_key_changes_nothing_witness :
  (match demo_remonitor.1 with Ok res => rc_disposition res | Raise _ => None end) = Some "monitored" /\
  (ir_disposition <$> rg_rows (cd_registry demo_stopped) !! 1) = Some DispRemoved /\
  exists row, rg_rows (cd_registry (cn_current demo_remonitor.2)) !! 1 = Some row /\ ir_disposition row = DispRemoved.
Proof.
  split; [vm_compute; reflexivity|]. split; [vm_compute; reflexivity|].
  edestruct (used_key_changes_nothing (demo_env 1002 "cccccccc") (demo_request "monitor" demo_ip) "monitor" (Some demo_ip)
    (open_conn demo_stopped)) as [_ Hrows]; [exact (ro_ids _ (rec_registry _ demo_stopped_ok))|vm_compute; reflexivity
    |vm_compute; reflexivity|apply ran; vm_compute; reflexivity|vm_compute; reflexivity|].
  edestruct (Hrows 1) as (row & Hr & Hd); [vm_compute; reflexivity|]. exists row. split; [exact Hr|exact Hd].
Defined.

Lemma refused_command_tracks_nothing_witness :
  let d' := cn_current (execute_response_command (demo_env 1000 "aaaaaaaa") (demo_request "block_ip" "10.1.1.1") (open_conn demo_db)).2 in
  size (rg_events (cd_registry d')) = 1%nat /\ cd_blocklist d' = cd_blocklist demo_db.
Proof.
  split; [vm_compute; reflexivity|].
  eapply nt_blocklist, (refused_command_tracks_nothing (demo_env 1000 "aaaaaaaa") (demo_request "block_ip" "10.1.1.1") (open_conn demo_db));
    [apply ran; vm_compute; reflexivity|vm_compute; reflexivity].
Defined.

Definition demo_block (t : Z) (e : option Z) (d : command_db) :=
  get_or_create_active_blocked_ip (demo_env t "aaaaaaaa") demo_ip (demo_request "block_ip" demo_ip) "scan" e d.

Lemma active_block_reused_witness :
  let d' := (demo_block 1000 (Some (seconds 2000)) demo_db).2 in
  demo_block 1500 None d' = (Ok (1, false), d').
Proof.
  eapply (active_block_reused (demo_env 1000 "aaaaaaaa") (demo_env 1500 "aaaaaaaa")); [exact (rec_blocklist _ demo_db_ok)| |done|done|].
  - apply ran. vm_compute. reflexivity.
  - intros b Hb. vm_compute in Hb. injection Hb as <-. vm_compute. reflexivity.
Defined.

(** A block that expired at 2000, and is still marked active at 3000. *)
Definition demo_expired : command_db := (demo_block 1000 (Some (seconds 2000)) demo_db).2.

Lemma expired_block_stuck_witness :
  (run_command (demo_env 3000 "bbbbbbbb") (demo_request "block_ip" demo_ip) "block_ip" (Some demo_ip) (open_conn demo_expired)).1 =
    Raise (ValueError "An active block already exists for this IP") /\
  cd_blocklist (cn_current
    (run_command (demo_env 3000 "bbbbbbbb") (demo_request "block_ip" demo_ip) "block_ip" (Some demo_ip) (open_conn demo_expired)).2)
  = cd_blocklist demo_expired.
Proof.
  split; [vm_compute; reflexivity|].
  eapply (expired_block_stuck (demo_env 3000 "bbbbbbbb") (demo_request "block_ip" demo_ip) demo_ip (open_conn demo_expired) _ _
    demo_ip (Some demo_ip) 1
    (BlockedRow demo_ip (Some "scan") true (Some 7) (seconds 1000) (Some (seconds 2000)) (Some 12)));
    [vm_compute; reflexivity..| |apply surjective_pairing].
  intros j b Hj _. revert Hj. unfold demo_expired. cbn [open_conn cn_current]. intros Hj.
  assert (bk_rows (cd_blocklist (demo_block 1000 (Some (seconds 2000)) demo_db).2) =
    {[ 1 := BlockedRow demo_ip (Some "scan") true (Some 7) (seconds 1000) (Some (seconds 2000)) (Some 12) ]}) as Hrows
    by (vm_compute; reflexivity).
  rewrite Hrows in Hj. apply lookup_singleton_Some in Hj as [_ <-]. vm_compute. reflexivity.
Defined.

Definition demo_blocked : command_db := (demo_block 1000 None demo_db).2.

Lemma demo_blocked_ok : block_ok (cd_blocklist demo_blocked).
Proof.
  destruct (get_or_create_moves (demo_env 1000 "aaaaaaaa") demo_ip (demo_request "block_ip" demo_ip) "scan" None demo_db I) as [[_ Hb _] _].
  eapply block_steps_ok; [exact Hb|exact (rec_blocklist _ demo_db_ok)].
Qed.

Lemma remove_tracking_lifts_witness :
  let c' := (execute_remove_tracking (demo_env 1100 "bbbbbbbb") (demo_request "remove_tracking" demo_ip) "remove_tracking" demo_ip "k"
               (open_conn demo_blocked)).2 in
  (bl_active <$> bk_rows (cd_blocklist demo_blocked) !! 1) = Some true /\
  bk_rows (cd_blocklist (cn_current c')) = lifted demo_ip <$> bk_rows (cd_blocklist demo_blocked).
Proof.
  split; [vm_compute; reflexivity|].
  eapply (remove_tracking_lifts (demo_env 1100 "bbbbbbbb") (demo_request "remove_tracking" demo_ip) "remove_tracking" demo_ip "k"
    (open_conn demo_blocked) _ _ (Some demo_ip)); [exact demo_blocked_ok|reflexivity|].
  apply ran. vm_compute. reflexivity.
Defined.

Lemma escalation_idempotent_witness :
  let r := demo_request "flag_high_priority" demo_ip in
  let d' := (ensure_escalation_incident (demo_env 1000 "aaaaaaaa") r (Some demo_ip) demo_db).2 in
  ensure_escalation_incident (demo_env 2000 "bbbbbbbb") r (Some demo_ip) d' = (Ok 1, d').
Proof.
  eapply (escalation_idempotent (demo_env 1000 "aaaaaaaa") (demo_env 2000 "bbbbbbbb")
    (demo_request "flag_high_priority" demo_ip) (Some demo_ip) demo_db 1).
  - unfold demo_db. split; cbn [cd_incidents is_rows is_links is_seq]; intros *; by rewrite lookup_empty.
  - right. reflexivity.
  - reflexivity.
  - apply ran. vm_compute. reflexivity.
Defined.
