(* ===== verification/RateLimiter.v ===== *)
(** * RateLimiter: integrations/adapter_rate_limiter.py

    The sliding window that bounds the real sends of each adapter.  Instants
    of the monotonic clock are nanoseconds; the rounding of their float
    difference is not modelled. *)

From S2P Require Import Prelude PyText PyValue.

Open Scope Z_scope.

(** ** Data *)

Definition DEFAULT_RATE_LIMITS_PER_MINUTE : list (string * Z) :=
  [("slack", 20); ("teams", 20); ("email", 10); ("webhook", 30)].

Definition RATE_LIMIT_ENVS : list (string * string) :=
  [("slack", "SLACK_MAX_SENDS_PER_MINUTE"); ("teams", "TEAMS_MAX_SENDS_PER_MINUTE");
   ("email", "EMAIL_MAX_SENDS_PER_MINUTE"); ("webhook", "WEBHOOK_MAX_SENDS_PER_MINUTE")].

Definition WINDOW_SECONDS : Z := 60.
Definition window_ns : Z := WINDOW_SECONDS * 1000000000.

(** [_attempts]: for an adapter, the instants of its attempts, oldest first. *)
Abbreviation attempts := (gmap string (list Z)).

Record rate_decision := RateDecision {
  rd_allowed : bool;
  rd_adapter : string;
  rd_limit : Z;
  rd_remaining : Z;
  rd_reset_after_seconds : Z;
}.

(** The first value under a key. *)
Definition assoc {A} (k : string) (l : list (string * A)) : option A :=
  snd <$> List.find (fun kv => String.eqb kv.1 k) l.

(** ** Operations *)

(** The process environment. *)
Definition environ := string -> option string.

Definition normalize_adapter (adapter_name : string) : string := lower (strip adapter_name).

Definition reset_adapter_rate_limiters (adapter_name : option string) : M attempts unit :=
  modify (fun s => match adapter_name with
                   | None => ∅
                   | Some name => delete (normalize_adapter name) s
                   end).

Section Limiter.
Context (env : environ).

Definition limit_for_adapter (adapter_name : string) : Z :=
  let adapter := normalize_adapter adapter_name in
  let default_limit := default 10 (assoc adapter DEFAULT_RATE_LIMITS_PER_MINUTE) in
  let raw := match assoc adapter RATE_LIMIT_ENVS with
             | Some env_name => strip (default (str_int default_limit) (env env_name))
             | None => str_int default_limit
             end in
  match parse_int raw with
  | Some value => Z.max 1 (Z.min value 1000)
  | None => default_limit
  end.

(** [while bucket and bucket[0] <= window_start: bucket.popleft()]. *)
Fixpoint drop_old (window_start : Z) (bucket : list Z) : list Z :=
  match bucket with
  | t :: rest => if t <=? window_start then drop_old window_start rest else bucket
  | [] => []
  end.

(** [int(x) + (1 if x % 1 else 0)] for [x >= 0]. *)
Definition seconds_up (ns : Z) : Z := (ns + 999999999) / 1000000000.

Definition check_adapter_rate_limit (adapter_name : string) (now : Z) : M attempts rate_decision := fun s =>
  let adapter := normalize_adapter adapter_name in
  let limit := limit_for_adapter adapter in
  let bucket := drop_old (now - window_ns) (default [] (s !! adapter)) in
  if limit <=? Z.of_nat (length bucket) then
    let reset_after := match bucket with
                       | oldest :: _ => Z.max 0 (window_ns - (now - oldest))
                       | [] => window_ns
                       end in
    (Ok (RateDecision false adapter limit 0 (seconds_up reset_after)), <[adapter := bucket]> s)
  else
    (Ok (RateDecision true adapter limit (Z.max 0 (limit - Z.of_nat (length (bucket ++ [now])))) 0),
     <[adapter := bucket ++ [now]]> s).
End Limiter.

(** ** Runs *)

(** The instants of the allowed attempts under the key [adapter] in a series
    of attempts of any adapters. *)
Fixpoint sends (env : environ) (adapter : string) (calls : list (string * Z)) : M attempts (list Z) :=
  match calls with
  | [] => ret []
  | (name, t) :: calls =>
      let* d := check_adapter_rate_limit env name t in
      let* rest := sends env adapter calls in
      ret (if rd_allowed d && String.eqb (rd_adapter d) adapter then t :: rest else rest)
  end.

(** Those in [(a, a + 60s]]. *)
Definition in_window (a : Z) (times : list Z) : list Z := filter (fun t => a < t <= a + window_ns) times.

(** ** Normal names *)

Lemma normalize_adapter_twice name : normalize_adapter (normalize_adapter name) = normalize_adapter name.
Proof. unfold normalize_adapter. by rewrite strip_of_lower, strip_idemp, lower_twice. Qed.

(** ** The window *)

Lemma drop_old_suffix w bucket :
  exists dropped, bucket = dropped ++ drop_old w bucket /\ Forall (fun t => t <= w) dropped.
Proof.
  induction bucket as [|t bucket (dropped & IH & Hd)]; [by exists []|]. cbn [drop_old].
  destruct (t <=? w) eqn:Ht; [|by exists []]. exists (t :: dropped). split; [by rewrite IH at 1|].
  constructor; [lia|done].
Qed.

Lemma drop_old_recent w bucket : Sorted Z.le bucket -> Forall (fun t => w < t) (drop_old w bucket).
Proof.
  induction bucket as [|t bucket IH]; intros Hs; [constructor|]. cbn [drop_old].
  destruct (t <=? w) eqn:Ht; [apply IH; by inversion Hs|].
  apply Sorted_StronglySorted in Hs; [|intros ??? ??; lia]. inversion Hs as [|? ? _ Hall]; subst.
  constructor; [lia|]. eapply Forall_impl; [exact Hall|]. cbn. intros; lia.
Qed.

Lemma in_window_app a l k : in_window a (l ++ k) = in_window a l ++ in_window a k.
Proof. apply filter_app. Qed.

Lemma in_window_none a l : Forall (fun t => t <= a) l -> in_window a l = [].
Proof.
  induction 1 as [|t l Ht _ IH]; [done|]. unfold in_window in *. rewrite filter_cons_False by lia. exact IH.
Qed.

Lemma in_window_length a l : (length (in_window a l) <= length l)%nat.
Proof. apply length_filter. Qed.

(** What the state remembers of the allowed attempts so far: its bucket is
    their tail, nothing older is recent, and no window has seen more than the
    limit. *)
Record remembers (limit last : Z) (sent bucket : list Z) : Prop := Remembers {
  rm_split : exists old, sent = old ++ bucket /\ Forall (fun t => t <= last - window_ns) old;
  rm_past : Forall (fun t => t <= last) sent;
  rm_sorted : Sorted Z.le bucket;
  rm_room : Z.of_nat (length bucket) <= limit;
  rm_windows : forall a, Z.of_nat (length (in_window a sent)) <= limit;
}.

Lemma remembers_later limit last now sent bucket :
  last <= now -> remembers limit last sent bucket -> remembers limit now sent (drop_old (now - window_ns) bucket).
Proof.
  intros Hnow [(old & -> & Hold) Hpast Hsorted Hroom Hwin].
  destruct (drop_old_suffix (now - window_ns) bucket) as (dropped & Hb & Hd). set (b := drop_old _ _) in *. split.
  - exists (old ++ dropped). split; [rewrite Hb at 1; by rewrite app_assoc|]. apply Forall_app. split; [|exact Hd].
    eapply Forall_impl; [exact Hold|]. cbn. intros; lia.
  - eapply Forall_impl; [exact Hpast|]. cbn. intros; lia.
  - rewrite Hb in Hsorted. clear -Hsorted. induction dropped as [|x l IH]; [done|]. apply IH. by inversion Hsorted.
  - rewrite Hb, length_app in Hroom. lia.
  - exact Hwin.
Qed.

Lemma Sorted_snoc l t : Sorted Z.le l -> Forall (fun x => x <= t) l -> Sorted Z.le (l ++ [t]).
Proof.
  induction l as [|x l IH]; intros Hs Hl; [repeat constructor|]. inversion Hs as [|? ? Hs' Hhd]; inversion Hl; subst.
  cbn. constructor; [by apply IH|]. destruct l; cbn; constructor; [done|by inversion Hhd].
Qed.

Lemma remembers_send limit last now sent bucket :
  last <= now -> remembers limit last sent bucket ->
  let b := drop_old (now - window_ns) bucket in
  Z.of_nat (length b) < limit -> remembers limit now (sent ++ [now]) (b ++ [now]).
Proof.
  intros Hnow Hrem b Hroom. apply (remembers_later limit last now) in Hrem; [|done]. fold b in Hrem.
  destruct Hrem as [(old & Hsent & Hold) Hpast Hsorted _ Hwin]. split.
  - exists old. split; [|exact Hold]. by rewrite Hsent, app_assoc.
  - apply Forall_app. split; [exact Hpast|]. repeat constructor. lia.
  - apply Sorted_snoc; [done|]. rewrite Hsent in Hpast. by apply Forall_app in Hpast as [_ ?].
  - rewrite length_app. cbn. lia.
  - intros a. rewrite in_window_app. destruct (decide (a < now <= a + window_ns)) as [Hin|Hout].
    + rewrite Hsent, in_window_app, (in_window_none a old).
      * rewrite app_nil_l, length_app. pose proof (in_window_length a b). pose proof (in_window_length a [now]). cbn in *. lia.
      * eapply Forall_impl; [exact Hold|]. cbn. intros; lia.
    + assert (in_window a [now] = []) as -> by (unfold in_window; by rewrite filter_cons_False).
      rewrite app_nil_r. apply Hwin.
Qed.

Lemma limit_normal env name : limit_for_adapter env (normalize_adapter name) = limit_for_adapter env name.
Proof. unfold limit_for_adapter. by rewrite normalize_adapter_twice. Qed.

(** One attempt, on the bucket of [adapter]. *)
Lemma check_effect env name now s adapter limit last sent :
  (normalize_adapter name = adapter -> limit_for_adapter env name = limit) ->
  last <= now -> remembers limit last sent (default [] (s !! adapter)) ->
  exists d s', check_adapter_rate_limit env name now s = (Ok d, s') /\
    remembers limit now (if rd_allowed d && String.eqb (rd_adapter d) adapter then sent ++ [now] else sent)
      (default [] (s' !! adapter)).
Proof.
  intros Hl Hnow Hrem. unfold check_adapter_rate_limit. cbv zeta. set (b := drop_old _ _).
  destruct (decide (normalize_adapter name = adapter)) as [Hn|Hn].
  - rewrite limit_normal, (Hl Hn). subst b. rewrite Hn. destruct (Z.leb_spec limit (Z.of_nat (length (drop_old (now - window_ns) (default [] (s !! adapter)))))) as [Hf|Hf].
    + eexists _, _. split; [done|]. cbn [rd_allowed andb]. rewrite lookup_insert_eq. by eapply remembers_later.
    + eexists _, _. split; [done|]. cbn [rd_allowed rd_adapter andb]. rewrite String.eqb_refl, lookup_insert_eq.
      by eapply remembers_send.
  - assert (forall b', default [] ((<[normalize_adapter name := b']> s) !! adapter) = default [] (s !! adapter)) as Hother.
    { intros b'. by rewrite lookup_insert_ne. }
    assert (remembers limit now sent (default [] (s !! adapter))) as Hlater.
    { destruct Hrem as [(old & -> & Hold) Hpast Hsorted Hroom Hwin]. split; [|..|done|done|done].
      - exists old. split; [done|]. eapply Forall_impl; [exact Hold|]. cbn. intros; lia.
      - eapply Forall_impl; [exact Hpast|]. cbn. intros; lia. }
    case_match; (eexists _, _; split; [done|]; cbn [rd_allowed rd_adapter andb]; rewrite Hother).
    + exact Hlater.
    + rewrite (proj2 (String.eqb_neq _ _) Hn). exact Hlater.
Qed.

Lemma sends_remembered env adapter limit calls :
  (forall name, normalize_adapter name = adapter -> limit_for_adapter env name = limit) ->
  forall s last sent l, Sorted Z.le (last :: map snd calls) -> remembers limit last sent (default [] (s !! adapter)) ->
  (sends env adapter calls s).1 = Ok l -> forall a, Z.of_nat (length (in_window a (sent ++ l))) <= limit.
Proof.
  intros Hl. induction calls as [|[name t] calls IH]; intros s last sent l Hs Hrem.
  - intros [= <-] a. rewrite app_nil_r. apply Hrem.
  - cbn [map snd] in Hs. inversion Hs as [|? ? Hs' Hhd]; subst. inversion Hhd; subst.
    destruct (check_effect env name t s adapter limit last sent (Hl name) ltac:(done) Hrem) as (d & s' & Hrun & Hrem').
    cbn [sends]. unfold bind at 1. rewrite Hrun. unfold bind.
    destruct (sends env adapter calls s') as [[rest|e] s2] eqn:E; [|done]. intros [= <-] a.
    specialize (IH s' t _ rest Hs' Hrem'). rewrite E in IH. specialize (IH eq_refl a).
    destruct (rd_allowed d && _); [|exact IH]. by rewrite <-app_assoc in IH.
Qed.

Lemma limit_positive env name : 1 <= limit_for_adapter env name.
Proof.
  unfold limit_for_adapter. destruct (parse_int _); [lia|]. unfold assoc, DEFAULT_RATE_LIMITS_PER_MINUTE. cbn [List.find].
  repeat case_match; cbn; lia.
Qed.

(** however attempts of all adapters interleave, no window of sixty
    seconds contains more allowed sends of an adapter than its limit. *)
Theorem no_window_exceeds_limit env name calls l a :
  Sorted Z.le (map snd calls) ->
  (sends env (normalize_adapter name) calls ∅).1 = Ok l ->
  Z.of_nat (length (in_window a l)) <= limit_for_adapter env name.
Proof.
  intros Hs Hrun. change l with ([] ++ l). destruct calls as [|[n t] calls].
  { injection Hrun as <-. cbn. pose proof (limit_positive env name). lia. }
  eapply (sends_remembered env (normalize_adapter name) _ ((n, t) :: calls)); [|constructor; [exact Hs|constructor; reflexivity]| |exact Hrun].
  - intros name' Hn. unfold limit_for_adapter. by rewrite Hn.
  - rewrite lookup_empty. cbn [default from_option]. pose proof (limit_positive env name).
    split; [by exists []|constructor|constructor|cbn; lia|intros; cbn; lia].
Qed.

(** ** Waiting as told *)

(** a refused attempt tells how long to wait: with no attempt in
    between, one made that many seconds later is allowed. *)
Theorem refused_then_allowed env name now later s d s' :
  Z.of_nat (length (default [] (s !! normalize_adapter name))) <= limit_for_adapter env name ->
  check_adapter_rate_limit env name now s = (Ok d, s') -> rd_allowed d = false ->
  now + rd_reset_after_seconds d * 1000000000 <= later ->
  exists d' s'', check_adapter_rate_limit env name later s' = (Ok d', s'') /\ rd_allowed d' = true.
Proof.
  intros Hroom. unfold check_adapter_rate_limit. rewrite limit_normal.
  set (ad := normalize_adapter name) in *. set (limit := limit_for_adapter env name) in *.
  pose proof (limit_positive env name) as Hpos. fold limit in Hpos.
  destruct (drop_old_suffix (now - window_ns) (default [] (s !! ad))) as (dropped & Hb & _).
  set (b := drop_old (now - window_ns) _) in *. assert (length b <= length (default [] (s !! ad)))%nat as Hlen by (rewrite Hb, length_app; lia).
  destruct (Z.leb_spec limit (Z.of_nat (length b))) as [Hfull|]; [|by intros [= <- <-]]. intros [= <- <-] _. cbn [rd_reset_after_seconds].
  rewrite lookup_insert_eq. unfold default at 1 2 3. cbn [id].
  destruct b as [|oldest b]; [cbn in Hfull; lia|]. intros Hwait. cbn [drop_old id from_option].
  assert ((oldest <=? later - window_ns) = true) as ->.
  { apply Z.leb_le. unfold seconds_up in Hwait. set (x := Z.max 0 (window_ns - (now - oldest))) in *.
    pose proof (Z.div_mod (x + 999999999) 1000000000 ltac:(lia)). pose proof (Z.mod_pos_bound (x + 999999999) 1000000000 ltac:(lia)). lia. }
  destruct (drop_old_suffix (later - window_ns) b) as (dropped' & Hb' & _).
  assert (length (drop_old (later - window_ns) b) <= length b)%nat by (rewrite Hb' at 2; rewrite length_app; lia).
  cbn [length] in *. rewrite (proj2 (Z.leb_gt _ _)) by lia. eexists _, _. split; [done|]. done.
Qed.

(** ** The theorems at work *)

(** Two sends a minute for the webhook adapter, the default for the others. *)
Example two_per_minute : environ := fun n => if String.eqb n "WEBHOOK_MAX_SENDS_PER_MINUTE" then Some " 2 " else None.

Example ex_calls : list (string * Z) :=
  [("webhook", 0); ("Webhook ", 1000000000); ("slack", 2000000000); ("webhook", 59000000000); ("webhook", 60000000000)].

Lemma no_window_exceeds_limit_witness :
  (sends two_per_minute "webhook" ex_calls ∅).1 = Ok [0; 1000000000; 60000000000] /\
  Z.of_nat (length (in_window 0 [0; 1000000000; 60000000000])) <= limit_for_adapter two_per_minute "webhook".
Proof.
  split; [vm_compute; reflexivity|].
  apply (no_window_exceeds_limit two_per_minute "webhook" ex_calls).
  - vm_compute. repeat (constructor; try discriminate).
  - vm_compute. reflexivity.
Defined.

Lemma refused_then_allowed_witness :
  exists d' s'', check_adapter_rate_limit two_per_minute "webhook" 60500000000 {["webhook" := [0; 1000000000]]} = (Ok d', s'') /\
    rd_allowed d' = true.
Proof.
  eapply (refused_then_allowed two_per_minute "webhook" 58500000000 60500000000 {["webhook" := [0; 1000000000]]}).
  - vm_compute. discriminate.
  - vm_compute. reflexivity.
  - reflexivity.
  - vm_compute. discriminate.
Defined.
