(* ===== verification/Sanitizing.v ===== *)
(** * Sanitizing: secrets removed from the parameters of an integration

    [sanitize_payload] of integrations/base_integration.py, through which the
    parameters and the context of every adapter call go before the adapter
    and its result see them. *)

From S2P Require Import Prelude PyText PyValue.

Open Scope Z_scope.

Definition SECRET_FIELD_NAMES : list string :=
  ["api_key"; "authorization"; "auth"; "password"; "secret"; "slack_webhook_url"; "teams_webhook_url"; "token";
   "webhook_url"].

(** ** The webhook patterns *)

(** White space, quotes and angle brackets: what ends a URL. *)
Definition url_end (c : ascii) : bool :=
  is_space c || Ascii.eqb c dquote || Ascii.eqb c squote || Ascii.eqb c "<" || Ascii.eqb c ">".

(** The longest run without them from the start of the text. *)
Fixpoint url_run (s : string) : string :=
  match s with
  | EmptyString => EmptyString
  | String c s => if url_end c then EmptyString else String c (url_run s)
  end.

Definition slack_prefix : string := "https://hooks.slack.com/services/".

(** A match of [_SLACK_WEBHOOK_RE], and of [_TEAMS_WEBHOOK_RE], at the start
    of the text; both end at the end of the run. *)
Definition slack_here (s : string) : bool :=
  match drop_prefix slack_prefix s with Some t => negb (is_empty (url_run t)) | None => false end.

Definition teams_words (run : string) : bool :=
  contains "webhook" run || contains "office" run || contains "logic.azure" run.

Definition teams_here (s : string) : bool :=
  match drop_prefix "https://" s with Some t => teams_words (url_run t) | None => false end.

Definition redacted : string := "[redacted]".

(** [pattern.sub(redacted, s)]; [skipping] inside a match. *)
Fixpoint redact_runs (here : string -> bool) (skipping : bool) (s : string) : string :=
  match s with
  | EmptyString => EmptyString
  | String c s' =>
      if skipping then (if url_end c then String c (redact_runs here false s') else redact_runs here true s')
      else if here s then redacted +:+ redact_runs here true s'
      else String c (redact_runs here false s')
  end.

(** [pattern.search(s)]. *)
Fixpoint found (here : string -> bool) (s : string) : bool :=
  here s || match s with EmptyString => false | String _ s' => found here s' end.

(** ** sanitize_payload *)

Definition redact_webhooks (s : string) : string :=
  redact_runs teams_here false (redact_runs slack_here false s).

Fixpoint sanitize_value (key : string) (value : pyval) : pyval :=
  if str_in (lower key) SECRET_FIELD_NAMES then PStr redacted
  else match value with
       | PDict d => PDict (map (fun kv => (kv.1, sanitize_value kv.1 kv.2)) d)
       | PList l => PList (map (sanitize_value EmptyString) l)
       | PStr s => PStr (redact_webhooks s)
       | v => v
       end.

Definition sanitize_payload (payload : pyval) : pydict :=
  match payload with
  | PDict d => map (fun kv => (kv.1, sanitize_value kv.1 kv.2)) d
  | _ => []
  end.

(** Nothing secret at any depth: no webhook URL in a string, and no value
    under a secret name but the marker. *)
Fixpoint secret_free (v : pyval) : Prop :=
  match v with
  | PStr s => found slack_here s = false /\ found teams_here s = false
  | PList l => fold_right (fun v P => secret_free v /\ P) True l
  | PDict d =>
      fold_right (fun kv P => (str_in (lower kv.1) SECRET_FIELD_NAMES = true -> kv.2 = PStr redacted) /\
                              secret_free kv.2 /\ P) True d
  | _ => True
  end.

(** ** The patterns after a substitution *)

Definition plain_char (c : ascii) : bool := negb (url_end c) && negb (Ascii.eqb c "[").

Section Redact.
Context (here : string -> bool).
Context (Hfirst : forall s, here s = true -> exists t, s = String "h" t).

Lemma redact_fresh s : found here s = false -> redact_runs here false s = s.
Proof.
  induction s as [|c s IH]; [done|]. cbn [found redact_runs]. intros [-> Hs]%orb_false_iff. by rewrite IH.
Qed.

(** A literal in the redacted text stands in the text. *)
Lemma redact_literal p s t :
  all_chars plain_char p = true -> drop_prefix p (redact_runs here false s) = Some t ->
  exists s', drop_prefix p s = Some s' /\ t = redact_runs here false s'.
Proof.
  revert s. induction p as [|x p IH]; intros s; cbn [all_chars drop_prefix]; [intros _ [= <-]; by exists s|].
  intros [Hx Hp]%andb_true_iff. destruct s as [|c s]; [done|]. cbn [redact_runs]. destruct (here (String c s)).
  - change (redacted +:+ redact_runs here true s) with (String "[" ("redacted]" +:+ redact_runs here true s)).
    cbn [drop_prefix]. unfold plain_char in Hx. destruct (Ascii.eqb x "[") eqn:E; [|done].
    apply Ascii.eqb_eq in E as ->. done.
  - destruct (Ascii.eqb x c); [|done]. by apply IH.
Qed.

Lemma redact_run_starts s : is_empty (url_run (redact_runs here false s)) = is_empty (url_run s).
Proof.
  destruct s as [|c s]; [done|]. cbn [redact_runs]. destruct (here (String c s)) eqn:E; [|by cbn; destruct (url_end c)].
  destruct (Hfirst _ E) as [t [= -> ->]]. done.
Qed.

(** No match of [other] in the redacted text, when there is none at the
    places that were kept. *)
Lemma redact_clears (other : string -> bool) (P : string -> Prop) :
  (forall s, other s = true -> exists t, s = String "h" t) ->
  (forall c s, P (String c s) -> P s) ->
  (forall s, P s -> here s = false -> other (redact_runs here false s) = false) ->
  forall s skipping, P s -> found other (redact_runs here skipping s) = false.
Proof.
  intros Hother Htail Hkept s.
  assert (other EmptyString = false) as He by (destruct (other EmptyString) eqn:E; [by apply Hother in E as [? ?]|done]).
  assert (forall c t, Ascii.eqb c "h" = false -> other (String c t) = false) as Hne.
  { intros c t Hc. destruct (other (String c t)) eqn:E; [|done]. apply Hother in E as [? [= -> ->]]. done. }
  induction s as [|c s IH]; intros skipping HP; [cbn; by rewrite He|]. pose proof (Htail _ _ HP) as HP'.
  cbn [redact_runs]. destruct skipping.
  - destruct (url_end c) eqn:Ec; [|by apply IH]. cbn [found]. rewrite (IH _ HP'), orb_false_r. apply Hne.
    destruct (Ascii.eqb c "h") eqn:E; [|done]. apply Ascii.eqb_eq in E as ->. done.
  - destruct (here (String c s)) eqn:Eh.
    + change (redacted +:+ redact_runs here true s) with
        (String "[" (String "r" (String "e" (String "d" (String "a" (String "c" (String "t" (String "e" (String "d"
           (String "]" (redact_runs here true s))))))))))).
      cbn [found]. rewrite !Hne by done. by apply IH.
    + cbn [found]. rewrite (IH _ HP'), orb_false_r. specialize (Hkept _ HP Eh). cbn [redact_runs] in Hkept.
      by rewrite Eh in Hkept.
Qed.
End Redact.

Lemma slack_first s : slack_here s = true -> exists t, s = String "h" t.
Proof.
  unfold slack_here. destruct s as [|c s]; [done|]. cbn [drop_prefix slack_prefix].
  destruct (Ascii.eqb "h" c) eqn:E; [|done]. apply Ascii.eqb_eq in E as <-. by exists s.
Qed.

Lemma teams_first s : teams_here s = true -> exists t, s = String "h" t.
Proof.
  unfold teams_here. destruct s as [|c s]; [done|]. cbn [drop_prefix].
  destruct (Ascii.eqb "h" c) eqn:E; [|done]. apply Ascii.eqb_eq in E as <-. by exists s.
Qed.

(** A kept place at which the Slack pattern would match matched before. *)
Lemma slack_kept here (Hfirst : forall s, here s = true -> exists t, s = String "h" t) s :
  slack_here (redact_runs here false s) = true -> slack_here s = true.
Proof.
  unfold slack_here. destruct (drop_prefix slack_prefix (redact_runs here false s)) as [t|] eqn:E; [|done].
  apply redact_literal in E as (s' & -> & ->); [|done]. by rewrite redact_run_starts.
Qed.

Lemma slack_redacted s : found slack_here (redact_runs slack_here false s) = false.
Proof.
  apply (redact_clears _ _ (fun _ => True)); [exact slack_first|done| |done]. intros t _ Ht.
  destruct (slack_here (redact_runs slack_here false t)) eqn:E; [|done]. apply slack_kept in E; [congruence|exact slack_first].
Qed.

Lemma slack_stays_redacted s : found slack_here s = false -> found slack_here (redact_runs teams_here false s) = false.
Proof.
  apply (redact_clears _ _ (fun s => found slack_here s = false)); [exact slack_first| |].
  - intros c t. cbn [found]. by intros [_ ?]%orb_false_iff.
  - intros t Ht _. destruct (slack_here (redact_runs teams_here false t)) eqn:E; [|done].
    apply slack_kept in E; [|exact teams_first]. destruct t; cbn [found] in Ht; rewrite E in Ht; done.
Qed.

Lemma teams_words_tail c s : teams_words (String c s) = false -> teams_words s = false.
Proof. unfold teams_words. cbn [contains]. rewrite !orb_false_iff. naive_solver. Qed.

Lemma teams_words_cons c s : teams_words s = true -> teams_words (String c s) = true.
Proof. intros H. destruct (teams_words (String c s)) eqn:E; [done|]. apply teams_words_tail in E. congruence. Qed.

Lemma drop_prefix_run p s t : all_chars plain_char p = true -> drop_prefix p s = Some t -> url_run s = p +:+ url_run t.
Proof.
  revert s. induction p as [|x p IH]; intros s; cbn [all_chars drop_prefix]; [by intros _ [= ->]|].
  intros [Hx Hp]%andb_true_iff. destruct s as [|c s]; [done|]. destruct (Ascii.eqb x c) eqn:E; [|done].
  apply Ascii.eqb_eq in E as ->. intros H. cbn [url_run]. unfold plain_char in Hx.
  destruct (url_end c); [done|]. by rewrite (IH _ Hp H).
Qed.

Lemma teams_run s : teams_here s = true -> teams_words (url_run s) = true.
Proof.
  unfold teams_here. destruct (drop_prefix "https://" s) as [t|] eqn:E; [|done]. intros H.
  rewrite (drop_prefix_run "https://" s t) by done. cbn [String.append]. by repeat apply teams_words_cons.
Qed.

(** A run without the words stays as it is. *)
Lemma teams_run_kept s : teams_words (url_run s) = false -> url_run (redact_runs teams_here false s) = url_run s.
Proof.
  induction s as [|c s IH]; intros Hs; [done|]. cbn [redact_runs].
  destruct (teams_here (String c s)) eqn:E; [by rewrite (teams_run _ E) in Hs|]. cbn [url_run] in *.
  destruct (url_end c); [done|]. by rewrite IH by (by eapply teams_words_tail).
Qed.

Lemma teams_redacted s : found teams_here (redact_runs teams_here false s) = false.
Proof.
  apply (redact_clears _ _ (fun _ => True)); [exact teams_first|done| |done]. intros t _ Ht. unfold teams_here at 1.
  destruct (drop_prefix "https://" (redact_runs teams_here false t)) as [u|] eqn:E; [|done].
  apply redact_literal in E as (s' & E & ->); [|done]. unfold teams_here in Ht. rewrite E in Ht.
  by rewrite teams_run_kept.
Qed.

Lemma redact_webhooks_clean s :
  found slack_here (redact_webhooks s) = false /\ found teams_here (redact_webhooks s) = false.
Proof. split; [apply slack_stays_redacted, slack_redacted|apply teams_redacted]. Qed.

Lemma redact_webhooks_fixed s :
  found slack_here s = false -> found teams_here s = false -> redact_webhooks s = s.
Proof. intros. unfold redact_webhooks. by rewrite !redact_fresh by (rewrite ?redact_fresh; done). Qed.

(** ** Sanitized values *)

Definition value_secret_free (key : string) (v : pyval) : Prop :=
  (str_in (lower key) SECRET_FIELD_NAMES = true -> v = PStr redacted) /\ secret_free v.

Lemma secret_free_dict (d : pydict) : secret_free (PDict d) <-> Forall (fun kv => value_secret_free kv.1 kv.2) d.
Proof.
  cbn [secret_free]. induction d as [|kv d IH]; [split; [constructor|done]|].
  rewrite Forall_cons, <-IH. unfold value_secret_free. cbn [fold_right]. tauto.
Qed.

Lemma secret_free_list l : secret_free (PList l) <-> Forall secret_free l.
Proof.
  cbn [secret_free]. induction l as [|v l IH]; [split; [constructor|done]|].
  rewrite Forall_cons, <-IH. cbn [fold_right]. tauto.
Qed.

Lemma sanitize_value_secret_free key v : value_secret_free key (sanitize_value key v).
Proof.
  revert key. induction v using pyval_nested_ind; intros key; unfold value_secret_free; cbn [sanitize_value];
    (destruct (str_in (lower key) SECRET_FIELD_NAMES) eqn:E; [by vm_compute|split; [done|]]); try exact I.
  - apply redact_webhooks_clean.
  - apply secret_free_list, Forall_map. eapply Forall_impl; [exact H|]. intros w Hw. apply (Hw EmptyString).
  - apply secret_free_dict, Forall_map. eapply Forall_impl; [exact H|]. intros kv Hkv. apply Hkv.
Qed.

Lemma sanitize_value_fixed key v : value_secret_free key v -> sanitize_value key v = v.
Proof.
  revert key. induction v using pyval_nested_ind; intros key; unfold value_secret_free; cbn [sanitize_value];
    (destruct (str_in (lower key) SECRET_FIELD_NAMES) eqn:E; [intros [Hs _]; by rewrite Hs|intros [_ Hv]]); try done.
  - f_equal. destruct Hv. by apply redact_webhooks_fixed.
  - f_equal. apply secret_free_list in Hv. induction l as [|w l IH]; [done|]. inversion H; inversion Hv; subst.
    cbn [map]. f_equal; [|by apply IH]. match goal with Hw : forall key, _ |- _ => by apply Hw end.
  - f_equal. apply secret_free_dict in Hv. induction d as [|[k w] d IH]; [done|]. inversion H; inversion Hv; subst.
    cbn [map]. f_equal; [|by apply IH]. cbn in *. f_equal. by auto.
Qed.

(** what an adapter and its result see of the parameters holds no webhook
    URL in any string and nothing but the marker under a secret name, at any
    depth, and sanitizing it again changes nothing. *)
Theorem sanitized_secret_free payload :
  secret_free (PDict (sanitize_payload payload)) /\
  sanitize_payload (PDict (sanitize_payload payload)) = sanitize_payload payload.
Proof.
  assert (secret_free (PDict (sanitize_payload payload))) as Hfree.
  { apply secret_free_dict. destruct payload; cbn [sanitize_payload]; try constructor.
    apply Forall_map, Forall_true. intros kv. apply (sanitize_value_secret_free kv.1 kv.2). }
  split; [exact Hfree|]. apply secret_free_dict in Hfree. cbn [sanitize_payload].
  induction Hfree as [|[k v] d Hkv _ IH]; [done|]. cbn [map]. rewrite IH. cbn in *. by rewrite sanitize_value_fixed.
Qed.
