(* ===== verification/CircuitBreaker.v ===== *)
(** * CircuitBreaker: the breaker of each integration adapter

    The circuit state of integrations/base_integration.py and everything
    that changes it.  Instants are microseconds, without the year 9999 at
    which [datetime] ends. *)

From S2P Require Import Prelude PyText PyValue ParamBinding.

Open Scope Z_scope.

(** ** Data *)

Definition CIRCUIT_STATE_CLOSED : string := "closed".
Definition CIRCUIT_STATE_OPEN : string := "open".
Definition CIRCUIT_STATE_HALF_OPEN : string := "half_open".

Definition VALID_CIRCUIT_STATES : list string := [CIRCUIT_STATE_CLOSED; CIRCUIT_STATE_OPEN; CIRCUIT_STATE_HALF_OPEN].

Definition TRANSIENT : string := "transient".
Definition NON_TRANSIENT : string := "non_transient".
Definition CIRCUIT_OPEN : string := "circuit_open".
Definition CIRCUIT_STATE_INVALID : string := "circuit_state_invalid".
Definition PROVIDER_RATE_LIMITED : string := "provider_rate_limited".
Definition TIMEOUT : string := "timeout".
Definition GUARD_FAILED : string := "guard_failed".
Definition CREDENTIAL_MISSING : string := "credential_missing".
Definition INVALID_CREDENTIALS : string := "invalid_credentials".
Definition TRANSIENT_NETWORK_ERROR : string := "transient_network_error".
Definition MALFORMED_PAYLOAD : string := "malformed_payload".
Definition INVALID_TARGET : string := "invalid_target".
Definition TEMPORARY_PROVIDER_FAILURE : string := "temporary_provider_failure".

(** [_SimulatedCircuitBreakerState]. *)
Record breaker := Breaker {
  cb_state : string;
  cb_consecutive_failures : Z;
  cb_failure_threshold : Z;
  cb_cooldown_seconds : Z;
  cb_opened_at : option Z;
  cb_last_failure_reason : option string;
  cb_timeout_seconds : option Z;
  cb_retry_eligible : bool;
  cb_cooldown_until : option Z;
  cb_last_failure_classification : option string;
  cb_half_open_probe_available : bool;
  cb_last_manual_action : option string;
  cb_last_manual_action_by : option string;
  cb_last_manual_action_at : option Z;
  cb_last_manual_reason : option string;
}.

Definition new_breaker : breaker :=
  Breaker CIRCUIT_STATE_CLOSED 0 3 60 None None (Some 30) true None None false None None None None.

(** [_circuit_store]. *)
Abbreviation breakers := (gmap string breaker).

Definition state_is (st : breaker) (state : string) : bool := String.eqb (cb_state st) state.
Definition state_valid (st : breaker) : bool := str_in (cb_state st) VALID_CIRCUIT_STATES.

(** ** Changes of one breaker *)

Definition reset_to_closed_success (st : breaker) : breaker :=
  Breaker CIRCUIT_STATE_CLOSED 0 (cb_failure_threshold st) (cb_cooldown_seconds st) None None
    (cb_timeout_seconds st) true None None false
    (cb_last_manual_action st) (cb_last_manual_action_by st) (cb_last_manual_action_at st) (cb_last_manual_reason st).

Definition force_open (st : breaker) (reason classification : string) (now : Z) : breaker :=
  Breaker CIRCUIT_STATE_OPEN (Z.max (cb_consecutive_failures st) (cb_failure_threshold st)) (cb_failure_threshold st)
    (cb_cooldown_seconds st) (Some now) (Some reason) (cb_timeout_seconds st) false
    (Some (now + seconds (cb_cooldown_seconds st))) (Some classification) false
    (cb_last_manual_action st) (cb_last_manual_action_by st) (cb_last_manual_action_at st) (cb_last_manual_reason st).

Definition apply_failure_increment (st : breaker) (reason classification : string) (now : Z) : breaker :=
  if state_is st CIRCUIT_STATE_OPEN then st
  else if String.eqb classification NON_TRANSIENT then force_open st reason classification now
  else
    let failures := cb_consecutive_failures st + 1 in
    let counted eligible :=
      Breaker (cb_state st) failures (cb_failure_threshold st) (cb_cooldown_seconds st) (cb_opened_at st) (Some reason)
        (cb_timeout_seconds st) eligible (cb_cooldown_until st) (Some classification) (cb_half_open_probe_available st)
        (cb_last_manual_action st) (cb_last_manual_action_by st) (cb_last_manual_action_at st)
        (cb_last_manual_reason st) in
    if cb_failure_threshold st <=? failures
    then force_open (counted (cb_retry_eligible st)) reason classification now
    else counted (String.eqb classification TRANSIENT).

Definition complete_half_open_failure (st : breaker) (reason : string) (now : Z) : breaker :=
  Breaker CIRCUIT_STATE_OPEN (cb_consecutive_failures st) (cb_failure_threshold st) (cb_cooldown_seconds st) (Some now)
    (Some reason) (cb_timeout_seconds st) false (Some (now + seconds (cb_cooldown_seconds st))) (Some TRANSIENT) false
    (cb_last_manual_action st) (cb_last_manual_action_by st) (cb_last_manual_action_at st) (cb_last_manual_reason st).

(** [st.state = "half_open"] with the probe available, or taken. *)
Definition half_open (st : breaker) (probe : bool) : breaker :=
  Breaker CIRCUIT_STATE_HALF_OPEN (cb_consecutive_failures st) (cb_failure_threshold st) (cb_cooldown_seconds st)
    (cb_opened_at st) (cb_last_failure_reason st) (cb_timeout_seconds st) (if probe then false else cb_retry_eligible st)
    (cb_cooldown_until st) (cb_last_failure_classification st) probe
    (cb_last_manual_action st) (cb_last_manual_action_by st) (cb_last_manual_action_at st) (cb_last_manual_reason st).

Definition apply_manual_operator_metadata (st : breaker) (action actor_username reason : string) (at_ : Z) : breaker :=
  let trimmed := strip reason in
  Breaker (cb_state st) (cb_consecutive_failures st) (cb_failure_threshold st) (cb_cooldown_seconds st)
    (cb_opened_at st) (cb_last_failure_reason st) (cb_timeout_seconds st) (cb_retry_eligible st)
    (cb_cooldown_until st) (cb_last_failure_classification st) (cb_half_open_probe_available st)
    (Some action) (Some actor_username) (Some at_)
    (if is_empty trimmed then None else Some (String.substring 0 2000 trimmed)).

Definition manual_force_open (st : breaker) (reason : string) (now : Z) : breaker :=
  Breaker CIRCUIT_STATE_OPEN (cb_consecutive_failures st) (cb_failure_threshold st) (cb_cooldown_seconds st) (Some now)
    (Some ("manual force_open: " +:+ String.substring 0 500 (strip reason))) (cb_timeout_seconds st) false
    (Some (now + seconds (cb_cooldown_seconds st))) (Some CIRCUIT_OPEN) false
    (cb_last_manual_action st) (cb_last_manual_action_by st) (cb_last_manual_action_at st) (cb_last_manual_reason st).

Definition compute_retry_eligible (st : breaker) : bool :=
  if state_is st CIRCUIT_STATE_OPEN then false
  else if negb (state_valid st) then false
  else if bool_decide (cb_last_failure_classification st = Some NON_TRANSIENT) then false
  else cb_retry_eligible st.

(** ** The store *)

Definition normalize_adapter_key (name : string) : string := lower (strip name).

Definition circuit (s : breakers) (adapter_name : string) : breaker :=
  default new_breaker (s !! normalize_adapter_key adapter_name).

(** The breaker of the adapter, created when there is none. *)
Definition get_circuit_state (adapter_name : string) : M breakers breaker := fun s =>
  let st := circuit s adapter_name in (Ok st, <[normalize_adapter_key adapter_name := st]> s).

(** A write to the fields of the breaker that [get_circuit_state] returned. *)
Definition set_circuit (adapter_name : string) (st : breaker) : M breakers unit :=
  modify (fun s => <[normalize_adapter_key adapter_name := st]> s).

Definition update_circuit (adapter_name : string) (f : breaker -> breaker) : M breakers unit :=
  let* st := get_circuit_state adapter_name in set_circuit adapter_name (f st).

Definition reset_simulated_circuit_breakers (adapter_name : option string) : M breakers unit :=
  modify (fun s => match adapter_name with None => ∅ | Some name => delete (normalize_adapter_key name) s end).

(** [_iso_utc]. *)
Definition iso_utc (t : option Z) : pyval :=
  match t with None => PNone | Some t => PStr (iso_z (utc_datetime t)) end.

Definition snapshot (st : breaker) : pydict :=
  [("state", PStr (cb_state st)); ("consecutive_failures", PInt (cb_consecutive_failures st));
   ("failure_threshold", PInt (cb_failure_threshold st)); ("cooldown_seconds", PInt (cb_cooldown_seconds st));
   ("opened_at", iso_utc (cb_opened_at st)); ("last_failure_reason", opt_text (cb_last_failure_reason st));
   ("timeout_seconds", opt_int (cb_timeout_seconds st)); ("retry_eligible", PBool (compute_retry_eligible st));
   ("cooldown_until", iso_utc (cb_cooldown_until st));
   ("last_failure_classification", opt_text (cb_last_failure_classification st));
   ("half_open_probe_available", PBool (cb_half_open_probe_available st));
   ("last_manual_action", opt_text (cb_last_manual_action st));
   ("last_manual_action_by", opt_text (cb_last_manual_action_by st));
   ("last_manual_action_at", iso_utc (cb_last_manual_action_at st));
   ("last_manual_reason", opt_text (cb_last_manual_reason st)); ("state_persisted", PBool false)].

Definition get_simulated_circuit_breaker_dict (adapter_name : string) : M breakers pydict :=
  let* st := get_circuit_state adapter_name in ret (snapshot st).

(** ** Controls *)

(** [SimulatedCircuitBreakerControlError]. *)
Record control_error := ControlError { ce_message : string; ce_status_code : Z }.

Definition manual_control (adapter_name action actor_username reason : string) (now : Z) (f : breaker -> breaker)
    : M breakers pydict :=
  update_circuit adapter_name (fun st => apply_manual_operator_metadata (f st) action actor_username reason now) ;;;
  get_simulated_circuit_breaker_dict adapter_name.

Definition manual_reset_simulated_circuit_breaker (adapter_name actor_username reason : string) (now : Z)
    : M breakers pydict :=
  manual_control adapter_name "reset" actor_username reason now reset_to_closed_success.

Definition manual_force_open_simulated_circuit_breaker (adapter_name actor_username reason : string) (now : Z)
    : M breakers pydict :=
  manual_control adapter_name "force_open" actor_username reason now (fun st => manual_force_open st reason now).

(** The cooldown has not passed. *)
Definition cooling_down (st : breaker) (now : Z) : bool :=
  match cb_cooldown_until st with Some until => now <? until | None => false end.

Definition manual_enable_half_open_probe_simulated_circuit_breaker (adapter_name actor_username reason : string)
    (override_cooldown : bool) (now : Z) : M breakers (control_error + pydict) :=
  let* st := get_circuit_state adapter_name in
  if negb (state_valid st) then
    ret (inl (ControlError
      "Circuit breaker state is invalid; reset the breaker before enabling a half-open probe." 409))
  else if negb (state_is st CIRCUIT_STATE_OPEN) then
    ret (inl (ControlError "Half-open probe can only be enabled when the breaker is open." 400))
  else if cooling_down st now && negb override_cooldown then
    ret (inl (ControlError
      "Cooldown is still active; retry after cooldown or pass override_cooldown=true with reason." 409))
  else
    let* d := manual_control adapter_name "enable_half_open" actor_username reason now (fun st => half_open st true) in
    ret (inr d).

Definition request_half_open_probe (adapter_name : string) (now : Z) : M breakers bool :=
  let* st := get_circuit_state adapter_name in
  if negb (state_is st CIRCUIT_STATE_OPEN) then ret false
  else if cooling_down st now then ret false
  else set_circuit adapter_name (half_open st true) ;;; ret true.

Definition record_simulated_adapter_failure (adapter_name reason classification : string) (now : Z)
    : M breakers unit :=
  let c := lower (strip classification) in
  update_circuit adapter_name (fun st => apply_failure_increment st reason (if is_empty c then TRANSIENT else c) now).

Definition record_simulated_adapter_success (adapter_name : string) : M breakers unit :=
  update_circuit adapter_name reset_to_closed_success.

(** [configure_simulated_circuit_breaker]: the fields that are given. *)
Record configuration := Configuration {
  cf_failure_threshold : option Z; cf_cooldown_seconds : option Z; cf_timeout_seconds : option Z;
  cf_state : option string; cf_consecutive_failures : option Z; cf_cooldown_until : option Z; cf_opened_at : option Z;
  cf_last_failure_reason : option string; cf_last_failure_classification : option string;
  cf_retry_eligible : option bool; cf_half_open_probe_available : option bool;
}.

Definition configured (c : configuration) (st : breaker) : breaker :=
  let state := match cf_state c with Some s => lower (strip s) | None => cb_state st end in
  let probe := match cf_state c with
               | Some _ => String.eqb state CIRCUIT_STATE_HALF_OPEN
               | None => cb_half_open_probe_available st
               end in
  Breaker state
    (match cf_consecutive_failures c with Some n => Z.max 0 n | None => cb_consecutive_failures st end)
    (match cf_failure_threshold c with Some n => Z.max 1 n | None => cb_failure_threshold st end)
    (match cf_cooldown_seconds c with Some n => Z.max 0 n | None => cb_cooldown_seconds st end)
    (or_else (cf_opened_at c) (cb_opened_at st))
    (or_else (cf_last_failure_reason c) (cb_last_failure_reason st))
    (or_else (cf_timeout_seconds c) (cb_timeout_seconds st))
    (default (cb_retry_eligible st) (cf_retry_eligible c))
    (or_else (cf_cooldown_until c) (cb_cooldown_until st))
    (or_else (cf_last_failure_classification c) (cb_last_failure_classification st))
    (default probe (cf_half_open_probe_available c))
    (cb_last_manual_action st) (cb_last_manual_action_by st) (cb_last_manual_action_at st) (cb_last_manual_reason st).

Definition configure_simulated_circuit_breaker (adapter_name : string) (c : configuration) : M breakers unit :=
  update_circuit adapter_name (configured c).
