(* ===== verification/Integration.v ===== *)
(** * Integration: BaseIntegration.execute

    The base class of the integration adapters: what it takes for an action
    to be run, the result it returns and what the outcome does to the
    breaker.  The action of a concrete adapter acts on a part [X] of the
    state that the breakers are not in. *)

From S2P Require Import Prelude PyText PyValue CircuitBreaker Sanitizing.

Open Scope Z_scope.

Definition SIMULATION_MODE : string := "simulation".
Definition REAL_MODE : string := "real".

(** The class attributes of an adapter. *)
Record adapter := Adapter {
  adapter_name : string;
  supported_actions : list string;
  allow_real_mode : bool;
}.

(** [BaseIntegration.__init__]: the mode of the object. *)
Definition init_mode (a : adapter) (mode : string) : outcome string :=
  let normalized := lower (strip (if is_empty mode then SIMULATION_MODE else mode)) in
  if String.eqb normalized REAL_MODE && negb (allow_real_mode a) || negb (str_in normalized [SIMULATION_MODE; REAL_MODE])
  then Raise (OtherException "real integration mode is not implemented") else Ok normalized.

Definition normalize_action (action : string) : string := lower (strip action).

Definition can_handle (a : adapter) (action : string) : bool := str_in (normalize_action action) (supported_actions a).

(** ** Results *)

(** The [mode], [simulated] and [executed] arguments of [_result]. *)
Record result_mode := ResultMode { rm_mode : option string; rm_simulated : option bool; rm_executed : option bool }.

Definition own_mode : result_mode := ResultMode None None None.

(** [_result] and [as_dict]. *)
Definition result_as (a : adapter) (self_mode : string) (how : result_mode) (action : string) (params context : pydict)
    (success : bool) (message : string) (metadata : pydict) : pydict :=
  let mode := default self_mode (rm_mode how) in
  let simulated := default (String.eqb mode SIMULATION_MODE) (rm_simulated how) in
  [("adapter", PStr (adapter_name a)); ("action", PStr action); ("mode", PStr mode); ("simulated", PBool simulated);
   ("executed", PBool (if simulated then false else default false (rm_executed how))); ("success", PBool success);
   ("message", PStr message); ("params", PDict params); ("context", PDict context); ("metadata", PDict metadata)].

(** [d.setdefault(k, v)]. *)
Definition setdefault (d : pydict) (k : string) (v : pyval) : pydict := if dmem d k then d else dset d k v.

(** [_merge_result_circuit_metadata]. *)
Definition merge_circuit_metadata (st : breaker) (result : pydict) : pydict :=
  let result := setdefault result "metadata" (PDict []) in
  match dget result "metadata" with
  | PDict meta =>
      let meta := setdefault meta "circuit_state" (PStr (cb_state st)) in
      let meta := setdefault meta "retry_eligible" (PBool (compute_retry_eligible st)) in
      let meta := match cb_timeout_seconds st with
                  | Some t => setdefault meta "timeout_seconds" (PInt t)
                  | None => meta
                  end in
      dset result "metadata" (PDict meta)
  | _ => result
  end.

(** The classification of a result and its metadata. *)
Definition result_metadata (result : pydict) : pydict := dict_or_empty (dget result "metadata").

Definition result_classification (result : pydict) : string :=
  lower (strip (py_str (py_or (dget (result_metadata result) "failure_classification") (PStr TRANSIENT)))).

(** [str(result.get("message") or otherwise)]. *)
Definition result_message (result : pydict) (otherwise : string) : string :=
  py_str (py_or (dget result "message") (PStr otherwise)).

(** [_integrate_circuit_after_simulation]: the breaker after the result, and
    the result with the metadata written into it. *)
Definition integrate_circuit (st : breaker) (result : pydict) (was_half_open : bool) (now : Z) : breaker * pydict :=
  let meta := result_metadata result in
  let classification := result_classification result in
  let with_meta m := dset result "metadata" (PDict m) in
  if truthy (dget result "success") then
    (reset_to_closed_success st,
     with_meta (dset (dset meta "circuit_state" (PStr CIRCUIT_STATE_CLOSED)) "retry_eligible" (PBool true)))
  else if String.eqb classification PROVIDER_RATE_LIMITED then
    (st, with_meta (dset (dset meta "circuit_state" (PStr (cb_state st))) "retry_eligible" (PBool true)))
  else
    let st := if was_half_open
              then complete_half_open_failure st (result_message result "half_open probe failed") now
              else apply_failure_increment st (result_message result "simulated failure") classification now in
    let meta := dset meta "circuit_state" (PStr (cb_state st)) in
    let meta := dset meta "failure_classification"
                  (PStr (if state_is st CIRCUIT_STATE_OPEN && was_half_open then CIRCUIT_OPEN else classification)) in
    (st, with_meta (setdefault meta "retry_eligible" (PBool (compute_retry_eligible st)))).

(** ** execute *)

Record world (X : Type) := World { w_circuits : breakers; w_ext : X }.
Arguments World {X} _ _.
Arguments w_circuits {X} _.
Arguments w_ext {X} _.

Definition in_circuits {X A} (m : M breakers A) : M (world X) A := zoom w_circuits (fun c w => World c (w_ext w)) m.
Definition in_ext {X A} (m : M X A) : M (world X) A := zoom w_ext (fun x w => World (w_circuits w) x) m.

Section Execute.
Context {X : Type}.
Context (a : adapter) (mode : string) (now : Z).
(** [_execute_supported_action] of the adapter in this mode. *)
Context (supported_action : string -> pydict -> pydict -> M X pyval).

(** [action or "unspecified"] in a result. *)
Definition shown_action (action : string) : string := if is_empty action then "unspecified" else action.

(** A result of the base class that carries the breaker's metadata. *)
Definition blocked (st : breaker) (action : string) (params context : pydict) (message classification state : string)
    (retry_eligible : bool) : pydict :=
  merge_circuit_metadata st
    (result_as a mode own_mode (shown_action action) params context false message
       [("failure_classification", PStr classification); ("circuit_state", PStr state);
        ("retry_eligible", PBool retry_eligible); ("timeout_seconds", opt_int (cb_timeout_seconds st))]).

Definition unsupported_message (action : string) : string :=
  "Unsupported simulated " +:+ adapter_name a +:+ " action: " +:+ shown_action action.

(** Past the breaker. *)
Definition run_action (st : breaker) (was_half_open : bool) (action : string) (params context : pydict)
    : M (world X) pydict :=
  if negb (can_handle a action) then
    let st := apply_failure_increment st (unsupported_message action) NON_TRANSIENT now in
    in_circuits (set_circuit (adapter_name a) st) ;;;
    ret (blocked st action params context (unsupported_message action) NON_TRANSIENT (cb_state st)
           (compute_retry_eligible st))
  else fun w =>
    match in_ext (supported_action action params context) w with
    | (Raise e, w) =>
        if was_half_open then
          (let st := complete_half_open_failure st ("simulation error: " +:+ exn_str e) now in
           in_circuits (set_circuit (adapter_name a) st) ;;;
           ret (merge_circuit_metadata st
                  (result_as a mode own_mode action params context false ("Simulated execution error: " +:+ exn_str e)
                     [("failure_classification", PStr CIRCUIT_OPEN); ("circuit_state", PStr CIRCUIT_STATE_OPEN);
                      ("retry_eligible", PBool false); ("timeout_seconds", opt_int (cb_timeout_seconds st))]))) w
        else (Raise e, w)
    | (Ok returned, w) =>
        (let result := match returned with
                       | PDict d => d
                       | _ => result_as a mode own_mode action params context false
                                "Adapter returned invalid simulation result."
                                [("failure_classification", PStr NON_TRANSIENT)]
                       end in
         let* st := in_circuits (get_circuit_state (adapter_name a)) in
         let '(st, result) := integrate_circuit st result was_half_open now in
         in_circuits (set_circuit (adapter_name a) st) ;;;
         ret (merge_circuit_metadata st result)) w
    end.

Definition execute (action : string) (params context : pyval) : M (world X) pydict :=
  let action := normalize_action action in
  let params := sanitize_payload params in
  let context := sanitize_payload context in
  let* st := in_circuits (get_circuit_state (adapter_name a)) in
  if negb (state_valid st) then
    ret (blocked st action params context "Simulated execution blocked: circuit breaker state is invalid."
           CIRCUIT_STATE_INVALID CIRCUIT_STATE_OPEN false)
  else if state_is st CIRCUIT_STATE_OPEN then
    ret (blocked st action params context "Simulated execution blocked: integration circuit breaker is open."
           CIRCUIT_OPEN CIRCUIT_STATE_OPEN false)
  else if state_is st CIRCUIT_STATE_HALF_OPEN then
    if negb (cb_half_open_probe_available st) then
      ret (blocked st action params context
             "Simulated execution blocked: half-open recovery probe was already used."
             CIRCUIT_OPEN CIRCUIT_STATE_HALF_OPEN false)
    else
      in_circuits (set_circuit (adapter_name a) (half_open st false)) ;;;
      run_action (half_open st false) true action params context
  else run_action st false action params context.
End Execute.
