(* ===== verification/IntegrationProofs.v ===== *)
(** * IntegrationProofs: the breaker as a machine of three phases

    Every operation on a breaker is a step of a small abstract machine, and
    the action of an adapter is run in the phases that admit it only. *)

From S2P Require Import Prelude PyText PyValue CircuitBreaker Sanitizing Integration.

Open Scope Z_scope.

(** ** The machine *)

Inductive phase := Closed (failures : Z) | Opened | HalfOpen (probe : bool).

(** What an admitted call comes to. *)
Inductive verdict := Succeeded | Failed | Fatal | RateLimited | Raised.

(** The phases in which an action is run. *)
Definition admits (p : phase) : bool := match p with Closed _ | HalfOpen true => true | _ => false end.

Definition after_call (threshold : Z) (p : phase) (v : verdict) : phase :=
  match p, v with
  | Opened, _ => Opened
  | HalfOpen false, _ => HalfOpen false
  | _, Succeeded => Closed 0
  | HalfOpen true, RateLimited => HalfOpen false
  | HalfOpen true, _ => Opened
  | Closed n, Failed => if threshold <=? n + 1 then Opened else Closed (n + 1)
  | Closed _, Fatal => Opened
  | Closed n, RateLimited | Closed n, Raised => Closed n
  end.

(** The phase of a breaker; none when the state is invalid. *)
Definition phase_of (st : breaker) : option phase :=
  if state_is st CIRCUIT_STATE_CLOSED then Some (Closed (cb_consecutive_failures st))
  else if state_is st CIRCUIT_STATE_OPEN then Some Opened
  else if state_is st CIRCUIT_STATE_HALF_OPEN then Some (HalfOpen (cb_half_open_probe_available st))
  else None.

(** The verdict on what the action of an adapter returned. *)
Definition verdict_of (o : outcome pyval) : verdict :=
  match o with
  | Raise _ => Raised
  | Ok (PDict d) =>
      if truthy (dget d "success") then Succeeded
      else if String.eqb (result_classification d) PROVIDER_RATE_LIMITED then RateLimited
      else if String.eqb (result_classification d) NON_TRANSIENT then Fatal else Failed
  | Ok _ => Fatal
  end.

(** ** Well-formed breakers *)

(** In [open], the cooldown runs from the moment it opened. *)
Definition cooling (st : breaker) : Prop :=
  cb_retry_eligible st = false /\
  exists t, cb_opened_at st = Some t /\ cb_cooldown_until st = Some (t + seconds (cb_cooldown_seconds st)).

Definition phase_ok (st : breaker) (p : phase) : Prop :=
  match p with
  | Closed n => 0 <= n < cb_failure_threshold st
  | Opened => cooling st
  | HalfOpen _ => True
  end.

Definition breaker_in (st : breaker) (p : phase) : Prop :=
  phase_of st = Some p /\ phase_ok st p /\ 1 <= cb_failure_threshold st.

Lemma new_breaker_closed : breaker_in new_breaker (Closed 0).
Proof. repeat split; cbn; lia. Qed.

Lemma reset_closed st : 1 <= cb_failure_threshold st -> breaker_in (reset_to_closed_success st) (Closed 0).
Proof. repeat split; cbn; lia. Qed.

Lemma force_open_opened st reason classification now :
  1 <= cb_failure_threshold st -> breaker_in (force_open st reason classification now) Opened.
Proof. intros. repeat split; [|exact H]. by exists now. Qed.

Lemma half_open_failure_opened st reason now :
  1 <= cb_failure_threshold st -> breaker_in (complete_half_open_failure st reason now) Opened.
Proof. intros. repeat split; [|exact H]. by exists now. Qed.

Lemma half_open_in st probe : 1 <= cb_failure_threshold st -> breaker_in (half_open st probe) (HalfOpen probe).
Proof. by repeat split. Qed.

(** A failure counted in [closed]. *)
Lemma failure_counted st n reason classification now :
  breaker_in st (Closed n) ->
  breaker_in (apply_failure_increment st reason classification now)
    (after_call (cb_failure_threshold st) (Closed n)
       (if String.eqb classification NON_TRANSIENT then Fatal else Failed)).
Proof.
  intros (Hp & Hok & Ht). unfold phase_of, apply_failure_increment, state_is in *.
  destruct (String.eqb_spec (cb_state st) CIRCUIT_STATE_CLOSED) as [Es|]; [|by repeat case_match].
  injection Hp as Hn. rewrite Es. change (String.eqb CIRCUIT_STATE_CLOSED CIRCUIT_STATE_OPEN) with false. cbv iota.
  destruct (String.eqb classification NON_TRANSIENT); [by apply force_open_opened|]. cbn [after_call]. rewrite Hn.
  destruct (Z.leb_spec (cb_failure_threshold st) (n + 1)) as [Hle|Hlt]; [by apply force_open_opened|].
  repeat split; cbn in *; lia.
Qed.

Lemma phase_valid st p : phase_of st = Some p -> state_valid st = true.
Proof.
  unfold phase_of, state_valid, state_is, str_in, VALID_CIRCUIT_STATES. cbn [existsb].
  repeat case_match; intros; try done; by rewrite ?orb_true_r.
Qed.

(** The tests of [execute], by phase. *)
Lemma phase_tests st p :
  phase_of st = Some p ->
  state_is st CIRCUIT_STATE_OPEN = match p with Opened => true | _ => false end /\
  state_is st CIRCUIT_STATE_HALF_OPEN = match p with HalfOpen _ => true | _ => false end /\
  match p with HalfOpen b => cb_half_open_probe_available st = b | _ => True end.
Proof.
  unfold phase_of, state_is.
  destruct (String.eqb_spec (cb_state st) CIRCUIT_STATE_CLOSED) as [E|]; [intros [= <-]; rewrite ?E; by repeat split|].
  destruct (String.eqb_spec (cb_state st) CIRCUIT_STATE_OPEN) as [E|]; [intros [= <-]; rewrite ?E; by repeat split|].
  destruct (String.eqb_spec (cb_state st) CIRCUIT_STATE_HALF_OPEN) as [E|]; [intros [= <-]; rewrite ?E; by repeat split|done].
Qed.

(** ** One call *)

Section Calls.
Context {X : Type} (a : adapter) (mode : string) (now : Z).
Context (supported_action : string -> pydict -> pydict -> M X pyval).
Implicit Types w : world X.

Abbreviation key := (normalize_adapter_key (adapter_name a)).

Lemma circuit_written (s : breakers) st name : circuit (<[normalize_adapter_key name := st]> s) name = st.
Proof. unfold circuit. by rewrite lookup_insert_eq. Qed.

(** The breakers of the other adapters. *)
Definition others_same (s s' : breakers) : Prop := forall k, k <> key -> s' !! k = s !! k.

Lemma others_write s s' st : others_same s s' -> others_same s (<[key := st]> s').
Proof. intros H k Hk. rewrite lookup_insert_ne by done. by apply H. Qed.

Lemma others_refl s : others_same s s.
Proof. done. Qed.

(** What a call does when the action is run. *)
Definition call_result (action : string) (params context : pyval) (w : world X) : outcome pyval * X :=
  supported_action (normalize_action action) (sanitize_payload params) (sanitize_payload context) (w_ext w).

Definition call_verdict (action : string) (params context : pyval) (w : world X) : verdict :=
  if can_handle a (normalize_action action) then verdict_of (call_result action params context w).1 else Fatal.

Definition call_runs (p : phase) (action : string) : bool := admits p && can_handle a (normalize_action action).

(** The breaker after the verdict on a result. *)
Lemma integrate_phase st p result (was_half_open : bool) :
  breaker_in st p ->
  (if was_half_open then p = HalfOpen false else exists n, p = Closed n) ->
  breaker_in (integrate_circuit st result was_half_open now).1
    (after_call (cb_failure_threshold st) (if was_half_open then HalfOpen true else p) (verdict_of (Ok (PDict result)))).
Proof.
  intros Hin Hhalf. pose proof Hin as (_ & _ & Ht). unfold integrate_circuit. cbn [verdict_of].
  destruct (truthy (dget result "success")).
  - cbn [fst]. destruct was_half_open; [by apply reset_closed|]. destruct Hhalf as [n ->]. by apply reset_closed.
  - destruct (String.eqb (result_classification result) PROVIDER_RATE_LIMITED).
    + cbn [fst]. destruct was_half_open; [by subst|]. by destruct Hhalf as [n ->].
    + cbn [fst]. destruct was_half_open.
      * destruct (String.eqb _ NON_TRANSIENT); by apply half_open_failure_opened.
      * destruct Hhalf as [n ->]. by apply failure_counted.
Qed.

Lemma run_action_phase st p (was_half_open : bool) action params context w :
  breaker_in st p -> circuit (w_circuits w) (adapter_name a) = st ->
  (if was_half_open then p = HalfOpen false else exists n, p = Closed n) ->
  let v := if can_handle a action then verdict_of (supported_action action params context (w_ext w)).1 else Fatal in
  let '(o, w') := run_action a mode now supported_action st was_half_open action params context w in
  breaker_in (circuit (w_circuits w') (adapter_name a))
    (after_call (cb_failure_threshold st) (if was_half_open then HalfOpen true else p) v) /\
  w_ext w' = (if can_handle a action then (supported_action action params context (w_ext w)).2 else w_ext w) /\
  others_same (w_circuits w) (w_circuits w') /\
  (forall e, o = Raise e -> was_half_open = false /\ v = Raised).
Proof.
  intros Hin Hst Hhalf. cbv zeta. pose proof Hin as (_ & _ & Ht). unfold run_action.
  destruct (can_handle a action); cbn [negb].
  - unfold in_ext, zoom at 1. destruct (supported_action action params context (w_ext w)) as [[returned|e] x].
    + unfold bind, in_circuits, zoom, get_circuit_state. cbn [w_circuits fst]. rewrite Hst.
      set (result := match returned with PDict d => d | _ => _ end).
      assert (verdict_of (Ok returned) = verdict_of (Ok (PDict result))) as -> by (by destruct returned).
      pose proof (integrate_phase st p result was_half_open Hin Hhalf) as Hi.
      destruct (integrate_circuit st result was_half_open now) as [st' result']. cbn [fst] in Hi.
      cbn [set_circuit modify ret w_circuits w_ext snd]. rewrite circuit_written.
      split_and!; [exact Hi|done| |done]. by apply others_write, others_write.
    + destruct was_half_open.
      * cbn [fst snd verdict_of after_call]. unfold bind, in_circuits, zoom. cbn [set_circuit modify ret w_circuits w_ext].
        rewrite circuit_written. split_and!; [by apply half_open_failure_opened|done|by apply others_write|done].
      * cbn [fst snd verdict_of w_circuits w_ext]. rewrite Hst. destruct Hhalf as [n ->]. by split_and!.
  - unfold bind, in_circuits, zoom. cbn [set_circuit modify ret w_circuits w_ext]. rewrite circuit_written.
    split_and!; [|done|by apply others_write|done]. destruct was_half_open.
    + subst p. destruct (phase_tests _ _ (proj1 Hin)) as (E & _). unfold apply_failure_increment. rewrite E.
      by apply force_open_opened.
    + destruct Hhalf as [n ->]. by apply failure_counted.
Qed.

(** What a call does to the breakers and to the outside, as a step of the
    machine. *)
Definition machine_step (action : string) (params context : pyval) (w : world X) (p : phase) (r : outcome pydict * world X)
    : Prop :=
  let threshold := cb_failure_threshold (circuit (w_circuits w) (adapter_name a)) in
  let '(o, w') := r in
  breaker_in (circuit (w_circuits w') (adapter_name a)) (after_call threshold p (call_verdict action params context w)) /\
  w_ext w' = (if call_runs p action then (call_result action params context w).2 else w_ext w) /\
  others_same (w_circuits w) (w_circuits w') /\
  (forall e, o = Raise e -> (exists n, p = Closed n) /\ call_verdict action params context w = Raised).

Lemma execute_steps action params context w p :
  breaker_in (circuit (w_circuits w) (adapter_name a)) p ->
  machine_step action params context w p (execute a mode now supported_action action params context w).
Proof.
  intros Hin. unfold machine_step. cbv zeta. pose proof Hin as (Hp & _ & Ht). set (st := circuit (w_circuits w) (adapter_name a)) in *.
  destruct (phase_tests _ _ Hp) as (Eo & Eh & Eb). unfold execute, call_runs, call_verdict, call_result.
  unfold bind at 1. unfold in_circuits at 1, zoom at 1, get_circuit_state at 1. fold st. cbn [w_circuits w_ext].
  rewrite (phase_valid _ _ Hp), Eo, Eh. cbn [negb].
  set (w1 := World (<[key := st]> (w_circuits w)) (w_ext w)).
  assert (circuit (w_circuits w1) (adapter_name a) = st) as Hst1 by apply circuit_written.
  assert (others_same (w_circuits w) (w_circuits w1)) as Ho1 by by apply others_write.
  destruct p as [n| |[]]; cbn [admits andb after_call].
  - pose proof (run_action_phase st (Closed n) false (normalize_action action) (sanitize_payload params)
      (sanitize_payload context) w1 Hin Hst1 ltac:(by exists n)) as Hr. cbv zeta in Hr. change (w_ext w1) with (w_ext w) in Hr.
    destruct (run_action _ _ _ _ _ _ _ _ _ w1) as [o w2]. destruct Hr as (Hb & Hx & Ho & He).
    split_and!; [exact Hb|exact Hx| |].
    + intros k Hk. rewrite Ho by done. by apply Ho1.
    + intros e ->. split; [by exists n|]. by destruct (He e eq_refl).
  - cbn [ret]. rewrite Hst1. split_and!; [exact Hin|done|exact Ho1|done].
  - rewrite Eb. cbn [negb]. unfold bind at 1. unfold in_circuits at 1, zoom at 1. cbn [set_circuit modify w_circuits w_ext].
    set (w2 := World (<[key := half_open st false]> (w_circuits w1)) (w_ext w1)).
    pose proof (run_action_phase (half_open st false) (HalfOpen false) true (normalize_action action)
      (sanitize_payload params) (sanitize_payload context) w2 (half_open_in st false Ht) (circuit_written _ _ _) eq_refl) as Hr.
    cbv zeta in Hr. change (w_ext w2) with (w_ext w) in Hr.
    destruct (run_action _ _ _ _ _ _ _ _ _ w2) as [o w3]. destruct Hr as (Hb & Hx & Ho & He).
    split_and!; [exact Hb|exact Hx| |].
    + intros k Hk. rewrite Ho by done. cbn [w2 w_circuits]. rewrite lookup_insert_ne by done. by apply Ho1.
    + intros e ->. by destruct (He e eq_refl).
  - rewrite Eb. cbn [negb ret]. rewrite Hst1. split_and!; [exact Hin|done|exact Ho1|done].
Qed.

(** C28: a call of an adapter follows the machine.  The action is run in
    [closed] and once in [half_open], on the sanitized parameters, and not at
    all in [open] or when it is not supported; the breaker moves as the
    verdict on the outcome says, no other breaker moves, and an exception
    leaves the call only in [closed], when the action raised it. *)
Theorem execute_refines_machine action params context w p :
  breaker_in (circuit (w_circuits w) (adapter_name a)) p ->
  let threshold := cb_failure_threshold (circuit (w_circuits w) (adapter_name a)) in
  let '(o, w') := execute a mode now supported_action action params context w in
  breaker_in (circuit (w_circuits w') (adapter_name a)) (after_call threshold p (call_verdict action params context w)) /\
  w_ext w' = (if call_runs p action then (call_result action params context w).2 else w_ext w) /\
  others_same (w_circuits w) (w_circuits w') /\
  (forall e, o = Raise e -> (exists n, p = Closed n) /\ call_verdict action params context w = Raised).
Proof. exact (execute_steps action params context w p). Qed.
End Calls.

(** ** A failing adapter *)

(** The action of an adapter, with its runs counted. *)
Definition counted {X} (act : string -> pydict -> pydict -> M X pyval)
    : string -> pydict -> pydict -> M (nat * X) pyval :=
  fun action params context x => let '(o, x') := act action params context x.2 in (o, (S x.1, x')).

Record call := Call { c_action : string; c_params : pyval; c_context : pyval; c_now : Z }.

(** The state after a series of calls, each of which may raise. *)
Fixpoint after_calls {X} (a : adapter) (mode : string) (act : string -> pydict -> pydict -> M X pyval) (calls : list call)
    (w : world X) : world X :=
  match calls with
  | [] => w
  | c :: calls => after_calls a mode act calls (execute a mode (c_now c) act (c_action c) (c_params c) (c_context c) w).2
  end.

(** How many more times an action that fails can be run. *)
Definition budget (threshold : Z) (p : phase) : Z :=
  match p with Closed n => threshold - n | HalfOpen true => 1 | _ => 0 end.

Definition fails (v : verdict) : Prop := v = Failed \/ v = Fatal.

(** The threshold is changed by configuration only. *)
Lemma threshold_force st reason classification now :
  cb_failure_threshold (force_open st reason classification now) = cb_failure_threshold st.
Proof. done. Qed.

Lemma threshold_increment st reason classification now :
  cb_failure_threshold (apply_failure_increment st reason classification now) = cb_failure_threshold st.
Proof. unfold apply_failure_increment. by repeat case_match. Qed.

Lemma threshold_integrate st result was_half_open now :
  cb_failure_threshold (integrate_circuit st result was_half_open now).1 = cb_failure_threshold st.
Proof.
  unfold integrate_circuit. destruct (truthy _); [done|]. destruct (String.eqb _ PROVIDER_RATE_LIMITED); [done|].
  destruct was_half_open; [done|]. apply threshold_increment.
Qed.

Section Threshold.
Context {X : Type} (a : adapter) (mode : string) (now : Z).
Context (act : string -> pydict -> pydict -> M X pyval).

Abbreviation threshold w := (cb_failure_threshold (circuit (w_circuits w) (adapter_name a))).

Lemma threshold_run_action st was_half_open action params context (w : world X) :
  circuit (w_circuits w) (adapter_name a) = st ->
  threshold (run_action a mode now act st was_half_open action params context w).2 = cb_failure_threshold st.
Proof.
  intros Hst. unfold run_action. destruct (can_handle a action); cbn [negb].
  - destruct (in_ext _ w) as [[returned|e] w'] eqn:E.
    + assert (circuit (w_circuits w') (adapter_name a) = st) as Hst'.
      { unfold in_ext, zoom in E. destruct (act _ _ _ _) as [o x]. by injection E as _ <-. }
      unfold bind, in_circuits, zoom, get_circuit_state. cbn [w_circuits]. rewrite Hst'.
      pose proof (threshold_integrate st
        match returned with
        | PDict d => d
        | _ => result_as a mode own_mode action params context false "Adapter returned invalid simulation result."
                 [("failure_classification", PStr NON_TRANSIENT)]
        end was_half_open now) as Ht.
      destruct (integrate_circuit _ _ _ _) as [st' r]. cbn [set_circuit modify ret snd w_circuits].
      by rewrite circuit_written.
    + destruct was_half_open.
      * unfold bind, in_circuits, zoom. cbn [set_circuit modify ret snd w_circuits]. by rewrite circuit_written.
      * unfold in_ext, zoom in E. destruct (act _ _ _ _) as [o x]. injection E as _ <-. cbn [snd w_circuits]. by rewrite Hst.
  - unfold bind, in_circuits, zoom. cbn [set_circuit modify ret snd w_circuits]. rewrite circuit_written.
    apply threshold_increment.
Qed.

Lemma threshold_execute action params context (w : world X) :
  threshold (execute a mode now act action params context w).2 = threshold w.
Proof.
  unfold execute. unfold bind at 1. unfold in_circuits at 1, zoom at 1, get_circuit_state at 1. cbn [w_circuits].
  set (st := circuit (w_circuits w) (adapter_name a)).
  destruct (state_valid st); cbn [negb]; [|cbn [ret snd w_circuits]; by rewrite circuit_written].
  destruct (state_is st CIRCUIT_STATE_OPEN); [cbn [ret snd w_circuits]; by rewrite circuit_written|].
  destruct (state_is st CIRCUIT_STATE_HALF_OPEN); [|by rewrite threshold_run_action by apply circuit_written].
  destruct (cb_half_open_probe_available st); cbn [negb]; [|cbn [ret snd w_circuits]; by rewrite circuit_written].
  unfold bind, in_circuits at 1, zoom. cbn [set_circuit modify w_circuits w_ext].
  by rewrite threshold_run_action by apply circuit_written.
Qed.
End Threshold.

Section Failing.
Context {X : Type} (a : adapter) (mode : string).
Context (act : string -> pydict -> pydict -> M X pyval).
Context (Hfails : forall action params context x, fails (verdict_of (act action params context x).1)).

Lemma failing_call c (w : world (nat * X)) p :
  breaker_in (circuit (w_circuits w) (adapter_name a)) p ->
  let w' := (execute a mode (c_now c) (counted act) (c_action c) (c_params c) (c_context c) w).2 in
  exists p', breaker_in (circuit (w_circuits w') (adapter_name a)) p' /\
    let t := cb_failure_threshold (circuit (w_circuits w) (adapter_name a)) in
    Z.of_nat (w_ext w').1 + budget t p' <= Z.of_nat (w_ext w).1 + budget t p.
Proof.
  intros Hin w'.
  pose proof (execute_steps a mode (c_now c) (counted act) (c_action c) (c_params c) (c_context c) w p Hin) as Hr.
  unfold machine_step in Hr. cbv zeta in Hr. destruct (execute _ _ _ _ _ _ _ w) as [o w2] eqn:E. subst w'. cbn [snd].
  destruct Hr as (Hb & Hx & _). eexists. split; [exact Hb|]. cbv zeta. clear Hb E.
  destruct Hin as (_ & Hok & Ht). set (t := cb_failure_threshold _) in *. rewrite Hx. unfold call_runs.
  set (v := call_verdict _ _ _ _ _ _).
  assert (fails v) as Hv.
  { unfold v, call_verdict, call_result. destruct (can_handle a _); [|by right]. unfold counted.
    pose proof (Hfails (normalize_action (c_action c)) (sanitize_payload (c_params c)) (sanitize_payload (c_context c)) (w_ext w).2).
    by destruct (act _ _ _ _). }
  assert (forall b : bool, ((if b then (call_result (counted act) (c_action c) (c_params c) (c_context c) w).2 else w_ext w).1
            <= (if b then S (w_ext w).1 else (w_ext w).1))%nat) as Hcount.
  { intros []; [|done]. unfold call_result, counted. by destruct (act _ _ _ _). }
  specialize (Hcount (admits p && can_handle a (normalize_action (c_action c)))).
  set (y := if _ && _ then (call_result _ _ _ _ _).2 else _) in *.
  destruct p as [n| |[]], Hv as [-> | ->]; cbn [admits andb after_call phase_ok] in *;
    repeat match goal with |- context [if ?c then _ else _] => destruct c eqn:? end;
    repeat match goal with Hc : context [if ?c then _ else _] |- _ => destruct c end; cbn [budget]; lia.
Qed.

(** an adapter whose action keeps failing is asked at most as often as
    the threshold has failures left, however many calls are made and whenever
    they are made; in [open], never again. *)
Theorem failing_adapter_bounded calls (w : world (nat * X)) p :
  breaker_in (circuit (w_circuits w) (adapter_name a)) p ->
  Z.of_nat (w_ext (after_calls a mode (counted act) calls w)).1 <=
    Z.of_nat (w_ext w).1 + budget (cb_failure_threshold (circuit (w_circuits w) (adapter_name a))) p.
Proof.
  revert w p. induction calls as [|c calls IH]; intros w p Hin.
  - cbn [after_calls]. destruct Hin as (_ & Hok & Ht). destruct p as [n| |[]]; cbn in *; lia.
  - cbn [after_calls]. destruct (failing_call c w p Hin) as (p' & Hin' & Hle). specialize (IH _ _ Hin').
    rewrite (threshold_execute a mode (c_now c) (counted act)) in IH. cbv zeta in Hle. lia.
Qed.
End Failing.

(** ** The controls of an operator *)

(** What an operator's control leaves: who used which control, when. *)
Definition used_by (st : breaker) (action actor : string) (now : Z) : Prop :=
  cb_last_manual_action st = Some action /\ cb_last_manual_action_by st = Some actor /\
  cb_last_manual_action_at st = Some now.

Lemma manual_control_effect name action actor reason now f s :
  exists st', manual_control name action actor reason now f s =
    (Ok (snapshot st'), <[normalize_adapter_key name := st']> (<[normalize_adapter_key name := st']>
       (<[normalize_adapter_key name := circuit s name]> s))) /\
    st' = apply_manual_operator_metadata (f (circuit s name)) action actor reason now.
Proof.
  eexists. split; [|reflexivity]. unfold manual_control, update_circuit, get_simulated_circuit_breaker_dict, bind.
  unfold get_circuit_state, set_circuit, modify, ret. by rewrite !circuit_written.
Qed.

Lemma metadata_in st p action actor reason now :
  breaker_in st p -> breaker_in (apply_manual_operator_metadata st action actor reason now) p.
Proof. by destruct p. Qed.

(** The phase an operator's control leads to, when it is accepted. *)
Inductive control := Reset | ForceOpen | EnableHalfOpen (override_cooldown : bool).

Definition run_control (c : control) (name actor reason : string) (now : Z) : M breakers (control_error + pydict) :=
  match c with
  | Reset => let* d := manual_reset_simulated_circuit_breaker name actor reason now in ret (inr d)
  | ForceOpen => let* d := manual_force_open_simulated_circuit_breaker name actor reason now in ret (inr d)
  | EnableHalfOpen override => manual_enable_half_open_probe_simulated_circuit_breaker name actor reason override now
  end.

Definition accepted (c : control) (st : breaker) (p : phase) (now : Z) : bool :=
  match c, p with
  | EnableHalfOpen override, Opened => override || negb (cooling_down st now)
  | EnableHalfOpen _, _ => false
  | _, _ => true
  end.

Definition target_phase (c : control) : phase :=
  match c with Reset => Closed 0 | ForceOpen => Opened | EnableHalfOpen _ => HalfOpen true end.

Definition control_name (c : control) : string :=
  match c with Reset => "reset" | ForceOpen => "force_open" | EnableHalfOpen _ => "enable_half_open" end.

Lemma accepted_effect name action actor reason now f s p :
  breaker_in (f (circuit s name)) p ->
  exists s', manual_control name action actor reason now f s = (Ok (snapshot (circuit s' name)), s') /\
    breaker_in (circuit s' name) p /\ used_by (circuit s' name) action actor now.
Proof.
  intros Hf. destruct (manual_control_effect name action actor reason now f s) as (st' & -> & Hst).
  eexists. rewrite circuit_written. split; [done|]. subst st'. split; [by apply metadata_in|done].
Qed.

(** an operator's control is refused, leaving the breaker alone, exactly
    when it is a half-open probe asked for outside [open] or, without the
    override, before the cooldown is over; accepted, it leads to its phase,
    is recorded with the operator, and answers what the breaker now is. *)
Theorem controls_refine_machine c name actor reason now s p :
  breaker_in (circuit s name) p ->
  let '(o, s') := run_control c name actor reason now s in
  if accepted c (circuit s name) p now
  then o = Ok (inr (snapshot (circuit s' name))) /\ breaker_in (circuit s' name) (target_phase c) /\
       used_by (circuit s' name) (control_name c) actor now
  else (exists e, o = Ok (inl e)) /\ circuit s' name = circuit s name.
Proof.
  intros Hin. pose proof Hin as (Hp & _ & Ht). destruct c as [| |override]; cbn [run_control accepted target_phase control_name].
  - destruct (accepted_effect name "reset" actor reason now reset_to_closed_success s (Closed 0)) as (s' & E & ?);
      [by apply reset_closed|]. unfold manual_reset_simulated_circuit_breaker, bind. by rewrite E.
  - destruct (accepted_effect name "force_open" actor reason now (fun st => manual_force_open st reason now) s Opened)
      as (s' & E & ?); [repeat split; [by exists now|exact Ht]|].
    unfold manual_force_open_simulated_circuit_breaker, bind. by rewrite E.
  - destruct (phase_tests _ _ Hp) as (Eo & _). unfold manual_enable_half_open_probe_simulated_circuit_breaker, bind at 1.
    cbn [get_circuit_state]. unfold get_circuit_state. rewrite (phase_valid _ _ Hp), Eo. cbn [negb].
    set (s1 := <[normalize_adapter_key name := circuit s name]> s).
    assert (circuit s1 name = circuit s name) as E1 by apply circuit_written.
    destruct p as [n| |b]; cbn [negb ret]; [by split; [eexists|]| |by split; [eexists|]].
    destruct override, (cooling_down (circuit s name) now); cbn [andb negb orb ret]; try (by split; [eexists|]);
      (destruct (accepted_effect name "enable_half_open" actor reason now (fun st => half_open st true) s1 (HalfOpen true))
        as (s' & E & ?); [rewrite E1; by apply half_open_in|]; unfold bind; by rewrite E).
Qed.

(** ** The theorems at work *)

(** An adapter whose provider is down. *)
Definition ex_adapter : adapter := Adapter "slack" ["send_message"] true.

Definition ex_failing : string -> pydict -> pydict -> M unit pyval := fun action params context =>
  ret (PDict [("success", PBool false); ("message", PStr "down")]).

Definition ex_call (now : Z) : call := Call " Send_Message" (PDict [("token", PStr "x")]) PNone now.

Lemma execute_refines_machine_witness :
  let w : world unit := World ∅ tt in
  breaker_in (circuit (w_circuits (execute ex_adapter REAL_MODE 5 ex_failing "send_message" PNone PNone w).2) "slack")
    (Closed 1).
Proof.
  intros w.
  pose proof (execute_refines_machine ex_adapter REAL_MODE 5 ex_failing "send_message" PNone PNone w (Closed 0) new_breaker_closed)
    as H.
  cbv zeta in H. destruct (execute _ _ _ _ _ _ _ w) as [o w']. destruct H as (H & _). exact H.
Defined.

Lemma failing_adapter_bounded_witness :
  (w_ext (after_calls ex_adapter REAL_MODE (counted ex_failing) (map ex_call (seqZ 0 10)) (World ∅ (0%nat, tt)))).1 = 3%nat /\
  Z.of_nat (w_ext (after_calls ex_adapter REAL_MODE (counted ex_failing) (map ex_call (seqZ 0 10)) (World ∅ (0%nat, tt)))).1 <= 3.
Proof.
  split; [vm_compute; reflexivity|].
  eapply Z.le_trans; [apply (failing_adapter_bounded ex_adapter REAL_MODE ex_failing) with (p := Closed 0)|].
  - intros. by left.
  - unfold circuit. cbn [w_circuits]. rewrite lookup_empty. exact new_breaker_closed.
  - unfold circuit. cbn [w_circuits]. rewrite lookup_empty. cbn. lia.
Defined.

Lemma controls_refine_machine_witness :
  let s := {["slack" := manual_force_open new_breaker "maintenance" 7]} in
  exists e, (run_control (EnableHalfOpen false) "Slack" "root" "probe" 8 s).1 = Ok (inl e).
Proof.
  intros s.
  assert (breaker_in (circuit s "Slack") Opened) as Hin by (repeat split; [by exists 7|vm_compute; discriminate]).
  pose proof (controls_refine_machine (EnableHalfOpen false) "Slack" "root" "probe" 8 s Opened Hin) as H.
  destruct (run_control _ _ _ _ _ s) as [o s']. cbn [fst]. change (accepted _ _ _ 8) with false in H. exact (proj1 H).
Defined.
