(* ===== verification/UrlTarget.v ===== *)
(** * UrlTarget: where a webhook may be sent

    The target checks of integrations/webhook_adapter.py and what they use of
    urllib.parse and ipaddress (CPython 3.11).  The NFKC check of a netloc
    is the identity on the characters modelled. *)

From S2P Require Import Prelude PyText PyValue IpAddress CircuitBreaker.

Open Scope Z_scope.

(** ** Cutting strings *)

(** [s.partition(c)], when the separator is found. *)
Fixpoint cut (c : ascii) (s : string) : option (string * string) :=
  match s with
  | EmptyString => None
  | String x s => if Ascii.eqb x c then Some (EmptyString, s)
                  else match cut c s with Some (a, b) => Some (String x a, b) | None => None end
  end.

(** What follows the last [c]; the whole string without one. *)
Fixpoint after_last (c : ascii) (s : string) : string :=
  match s with
  | EmptyString => EmptyString
  | String x t => if char_in c t then after_last c t else if Ascii.eqb x c then t else s
  end.

(** Up to the last [c], included. *)
Fixpoint upto_last (c : ascii) (s : string) : string :=
  match s with
  | EmptyString => EmptyString
  | String x t => if char_in c t || Ascii.eqb x c then String x (upto_last c t) else EmptyString
  end.

Definition before (c : ascii) (s : string) : string := match cut c s with Some (a, _) => a | None => s end.

(** The prefix up to the first character that satisfies [stop]. *)
Fixpoint take_until (stop : ascii -> bool) (s : string) : string :=
  match s with
  | EmptyString => EmptyString
  | String x s => if stop x then EmptyString else String x (take_until stop s)
  end.

Fixpoint drop_until (stop : ascii -> bool) (s : string) : string :=
  match s with
  | EmptyString => EmptyString
  | String x t => if stop x then s else drop_until stop t
  end.

(** [s.lstrip(chars)] and [s.rstrip(chars)]. *)
Fixpoint lstrip_of (p : ascii -> bool) (s : string) : string :=
  match s with
  | EmptyString => EmptyString
  | String x t => if p x then lstrip_of p t else s
  end.

Fixpoint rstrip_of (p : ascii -> bool) (s : string) : string :=
  match s with
  | EmptyString => EmptyString
  | String x t => let r := rstrip_of p t in if is_empty r && p x then EmptyString else String x r
  end.

Fixpoint keep_chars (p : ascii -> bool) (s : string) : string :=
  match s with
  | EmptyString => EmptyString
  | String x s => if p x then String x (keep_chars p s) else keep_chars p s
  end.

(** ** urllib.parse *)

Definition is_alpha (c : ascii) : bool := is_lower_alpha (lower_char c) && (N_of_ascii c <? 128)%N.
Definition scheme_char (c : ascii) : bool :=
  is_alpha c || is_digit c || Ascii.eqb c "+" || Ascii.eqb c "-" || Ascii.eqb c ".".

(** The C0 controls and the space. *)
Definition control_or_space (c : ascii) : bool := (N_of_ascii c <=? 32)%N.

(** What [urlsplit] removes before it looks at the URL. *)
Definition unsafe_char (c : ascii) : bool :=
  (N_of_ascii c =? 9)%N || (N_of_ascii c =? 10)%N || (N_of_ascii c =? 13)%N.
Definition clean_url (s : string) : string := keep_chars (fun c => negb (unsafe_char c)) (lstrip_of control_or_space s).

(** The scheme, if there is one, and the rest. *)
Definition split_scheme (url : string) : option (string * string) :=
  match cut ":" url with
  | Some (String c s as scheme, rest) =>
      if is_alpha c && all_chars scheme_char scheme then Some (lower scheme, rest) else None
  | _ => None
  end.

Definition netloc_end (c : ascii) : bool := Ascii.eqb c "/" || Ascii.eqb c "?" || Ascii.eqb c "#".

(** [_check_bracketed_host]. *)
Definition ipvfuture (s : string) : bool :=
  match s with
  | String v t => Ascii.eqb v "v" &&
      match cut "." t with
      | Some (h, rest) => negb (is_empty h) && all_chars (fun c => match hex_value c with Some _ => true | None => false end) h &&
                          negb (is_empty rest) && negb (char_in (ascii_of_N 10) rest)
      | None => false
      end
  | EmptyString => false
  end.

Definition bracketed_host_ok (hostname : string) : bool :=
  if String.prefix "v" hostname then ipvfuture hostname
  else match parse_ip hostname with Ok ip => ip_v6 ip | Raise _ => false end.

(** [_check_bracketed_netloc]. *)
Definition bracketed_netloc_ok (netloc : string) : bool :=
  let host_and_port := after_last "@" netloc in
  match cut "[" host_and_port with
  | Some (before_bracket, bracketed) =>
      let '(hostname, port) := match cut "]" bracketed with Some hp => hp | None => (bracketed, EmptyString) end in
      is_empty before_bracket && (is_empty port || String.prefix ":" port) && bracketed_host_ok hostname
  | None => bracketed_host_ok (before ":" host_and_port)
  end.

Definition netloc_ok (netloc : string) : bool :=
  let opens := char_in "[" netloc in
  let closes := char_in "]" netloc in
  Bool.eqb opens closes && (negb opens || bracketed_netloc_ok netloc).

Record url_parts := UrlParts {
  u_scheme : string; u_netloc : string; u_path : string; u_query : string; u_fragment : string;
}.

Definition invalid_url : exn := ValueError "Invalid IPv6 URL".

(** [urlsplit(url, scheme)]. *)
Definition urlsplit (url default_scheme : string) : outcome url_parts :=
  let url := clean_url url in
  let '(scheme, rest) := match split_scheme url with Some sr => sr | None => (default_scheme, url) end in
  let '(netloc, rest) := match drop_prefix "//" rest with
                         | Some t => (take_until netloc_end t, drop_until netloc_end t)
                         | None => (EmptyString, rest)
                         end in
  if negb (netloc_ok netloc) then Raise invalid_url
  else
    let '(rest, fragment) := match cut "#" rest with Some rf => rf | None => (rest, EmptyString) end in
    let '(rest, query) := match cut "?" rest with Some rq => rq | None => (rest, EmptyString) end in
    Ok (UrlParts scheme netloc rest query fragment).

Definition uses_relative : list string :=
  [""; "ftp"; "http"; "gopher"; "nntp"; "imap"; "wais"; "file"; "https"; "shttp"; "mms"; "prospero"; "rtsp"; "rtspu";
   "sftp"; "svn"; "svn+ssh"; "ws"; "wss"].
Definition uses_netloc : list string :=
  [""; "ftp"; "http"; "gopher"; "nntp"; "telnet"; "imap"; "wais"; "file"; "mms"; "https"; "shttp"; "snews"; "prospero";
   "rtsp"; "rtspu"; "rsync"; "svn"; "svn+ssh"; "sftp"; "nfs"; "git"; "git+ssh"; "ws"; "wss"].
Definition uses_params : list string :=
  [""; "ftp"; "hdl"; "prospero"; "http"; "imap"; "https"; "shttp"; "rtsp"; "rtspu"; "sip"; "sips"; "mms"; "sftp"; "tel"].

(** [urlparse]: the parameters of the last segment taken off the path. *)
Definition split_params (scheme path : string) : string * string :=
  if str_in scheme uses_params then
    match cut ";" (after_last "/" path) with
    | Some (a, params) => (upto_last "/" path +:+ a, params)
    | None => (path, EmptyString)
    end
  else (path, EmptyString).

Definition urlunsplit (scheme netloc path query fragment : string) : string :=
  let url :=
    if negb (is_empty netloc) || (negb (is_empty scheme) && str_in scheme uses_netloc && negb (String.prefix "//" path))
    then "//" +:+ netloc +:+ (if negb (is_empty path) && negb (String.prefix "/" path) then "/" +:+ path else path)
    else path in
  let url := if is_empty scheme then url else scheme +:+ ":" +:+ url in
  let url := if is_empty query then url else url +:+ "?" +:+ query in
  if is_empty fragment then url else url +:+ "#" +:+ fragment.

Definition urlunparse (scheme netloc path params query fragment : string) : string :=
  urlunsplit scheme netloc (if is_empty params then path else path +:+ ";" +:+ params) query fragment.

(** The empty segments between the first and the last, dropped. *)
Definition drop_empty_middle (segments : list string) : list string :=
  match segments with
  | first :: (_ :: _) as rest =>
      first :: List.filter (fun s => negb (is_empty s)) (removelast rest) ++ [List.last rest EmptyString]
  | _ => segments
  end.

(** The loop over the segments; the resolved path is kept reversed. *)
Fixpoint resolve_dots (segments resolved : list string) : list string :=
  match segments with
  | [] => resolved
  | seg :: segments =>
      if String.eqb seg ".." then resolve_dots segments (tl resolved)
      else if String.eqb seg "." then resolve_dots segments resolved
      else resolve_dots segments (seg :: resolved)
  end.

Definition resolve_path (base_path path : string) : string :=
  let base_parts := split_on "/" base_path in
  let base_parts := if is_empty (List.last base_parts EmptyString) then base_parts else removelast base_parts in
  let segments := if String.prefix "/" path then split_on "/" path
                  else drop_empty_middle (base_parts ++ split_on "/" path) in
  let resolved := List.rev (resolve_dots segments []) in
  let resolved := if str_in (List.last segments EmptyString) ["."; ".."] then resolved ++ [EmptyString] else resolved in
  let joined := String.concat "/" resolved in
  if is_empty joined then "/" else joined.

Definition urljoin (base url : string) : outcome string :=
  if is_empty base then Ok url
  else if is_empty url then Ok base
  else
    let! b := urlsplit base EmptyString in
    let '(bpath, bparams) := split_params (u_scheme b) (u_path b) in
    let! u := urlsplit url (u_scheme b) in
    let '(path, params) := split_params (u_scheme u) (u_path u) in
    let scheme := u_scheme u in
    if negb (String.eqb scheme (u_scheme b)) || negb (str_in scheme uses_relative) then Ok url
    else if str_in scheme uses_netloc && negb (is_empty (u_netloc u)) then
      Ok (urlunparse scheme (u_netloc u) path params (u_query u) (u_fragment u))
    else
      let netloc := if str_in scheme uses_netloc then u_netloc b else u_netloc u in
      if is_empty path && is_empty params then
        Ok (urlunparse scheme netloc bpath bparams (if is_empty (u_query u) then u_query b else u_query u) (u_fragment u))
      else Ok (urlunparse scheme netloc (resolve_path bpath path) params (u_query u) (u_fragment u)).

(** [parsed.hostname]. *)
Definition hostname_of (netloc : string) : option string :=
  let hostinfo := after_last "@" netloc in
  let hostname := match cut "[" hostinfo with
                  | Some (_, bracketed) => before "]" bracketed
                  | None => before ":" hostinfo
                  end in
  if is_empty hostname then None
  else Some (match cut "%" hostname with
             | Some (host, zone) => lower host +:+ "%" +:+ zone
             | None => lower hostname
             end).

(** ** ipaddress *)

Definition networks (l : list string) : list ip_network :=
  omap (fun s => match parse_network s with Ok n => Some n | Raise _ => None end) l.

Definition in_any (ip : ip_address) (nets : list ip_network) : bool := existsb (in_network ip) nets.

Definition private_v4 : list ip_network := Eval vm_compute in networks
  ["0.0.0.0/8"; "10.0.0.0/8"; "127.0.0.0/8"; "169.254.0.0/16"; "172.16.0.0/12"; "192.0.0.0/24"; "192.0.0.170/31";
   "192.0.2.0/24"; "192.168.0.0/16"; "198.18.0.0/15"; "198.51.100.0/24"; "203.0.113.0/24"; "240.0.0.0/4";
   "255.255.255.255/32"].
Definition private_v4_exceptions : list ip_network := Eval vm_compute in networks ["192.0.0.9/32"; "192.0.0.10/32"].
Definition private_v6 : list ip_network := Eval vm_compute in networks
  ["::1/128"; "::/128"; "::ffff:0:0/96"; "64:ff9b:1::/48"; "100::/64"; "2001::/23"; "2001:db8::/32"; "2002::/16";
   "fc00::/7"; "fe80::/10"].
Definition private_v6_exceptions : list ip_network := Eval vm_compute in networks
  ["2001:1::1/128"; "2001:1::2/128"; "2001:3::/32"; "2001:4:112::/48"; "2001:20::/28"; "2001:30::/28"].
Definition reserved_v6 : list ip_network := Eval vm_compute in networks
  ["::/8"; "100::/8"; "200::/7"; "400::/6"; "800::/5"; "1000::/4"; "4000::/3"; "6000::/3"; "8000::/3"; "A000::/3";
   "C000::/3"; "E000::/4"; "F000::/5"; "F800::/6"; "FE00::/9"].
Definition link_local : list ip_network := Eval vm_compute in networks ["169.254.0.0/16"; "fe80::/10"].
Definition multicast : list ip_network := Eval vm_compute in networks ["224.0.0.0/4"; "ff00::/8"].
Definition reserved : list ip_network := Eval vm_compute in networks ["240.0.0.0/4"] ++ reserved_v6.
Definition loopback : list ip_network := Eval vm_compute in networks ["127.0.0.0/8"; "::1/128"].

(** [ip.ipv4_mapped]. *)
Definition ipv4_mapped (ip : ip_address) : option ip_address :=
  if ip_v6 ip && (Z.shiftr (ip_int ip) 32 =? 65535) then Some (IpAddress false (Z.land (ip_int ip) 4294967295)) else None.

Definition is_private_v4 (ip : ip_address) : bool := in_any ip private_v4 && negb (in_any ip private_v4_exceptions).

Definition is_private (ip : ip_address) : bool :=
  if ip_v6 ip then
    match ipv4_mapped ip with
    | Some v4 => is_private_v4 v4
    | None => in_any ip private_v6 && negb (in_any ip private_v6_exceptions)
    end
  else is_private_v4 ip.

(** [ip.is_private or ip.is_loopback or ip.is_link_local or ip.is_reserved
    or ip.is_multicast]. *)
Definition blocked_ip (ip : ip_address) : bool :=
  is_private ip || in_any ip loopback || in_any ip link_local || in_any ip reserved || in_any ip multicast.

(** ** The target checks *)

Definition is_dot (c : ascii) : bool := Ascii.eqb c ".".
Definition is_bracket (c : ascii) : bool := Ascii.eqb c "[" || Ascii.eqb c "]".

(** [16 <= int(second) <= 31] of [172.second...]. *)
Definition private_172 (host : string) : bool :=
  match split_on "." host with
  | _ :: second :: _ => match parse_int second with Some n => (16 <=? n) && (n <=? 31) | None => false end
  | _ => false
  end.

Definition is_blocked_hostname (hostname : string) : bool :=
  let host := rstrip_of is_dot (lower (strip hostname)) in
  if is_empty host then true
  else if str_in host ["localhost"; "0.0.0.0"; "::1"; "[::1]"] then true
  else if ends_with ".localhost" host || ends_with ".local" host || ends_with ".internal" host then true
  else if String.eqb host "metadata.google.internal" || ends_with ".metadata.google.internal" host then true
  else
    match parse_ip (rstrip_of is_bracket (lstrip_of is_bracket host)) with
    | Ok ip => blocked_ip ip
    | Raise _ =>
        if String.prefix "127." host then true
        else if String.prefix "10." host || String.prefix "192.168." host || String.prefix "169.254." host then true
        else String.prefix "172." host && private_172 host
    end.


(** [_hostname_from_url]. *)
Definition hostname_from_url (url : string) : option string :=
  match urlsplit url EmptyString with
  | Ok u => match hostname_of (u_netloc u) with
            | Some h => let h := lower (strip h) in if is_empty h then None else Some h
            | None => None
            end
  | Raise _ => None
  end.

(** [_validate_https_target_url]: the failure classification, if any. *)
Definition validate_https_target_url (url : string) : option string :=
  if is_empty url then Some CREDENTIAL_MISSING
  else match urlsplit url EmptyString with
       | Raise _ => Some MALFORMED_PAYLOAD
       | Ok parsed =>
           let scheme := lower (strip (u_scheme parsed)) in
           if str_in scheme ["file"; "ftp"; "gopher"; "javascript"; "data"] then Some INVALID_TARGET
           else if negb (String.eqb scheme "https") then Some INVALID_CREDENTIALS
           else if is_empty (u_netloc parsed) then Some MALFORMED_PAYLOAD
           else match hostname_from_url url with
                | None => Some INVALID_TARGET
                | Some hostname => if is_blocked_hostname hostname then Some INVALID_TARGET else None
                end
       end.

Definition is_slash (c : ascii) : bool := Ascii.eqb c "/".

(** The target of a path under the base URL, both checked: the URL or the
    failure classification. *)
Definition resolve_target (base_url path : string) : outcome (string + string) :=
  if is_empty base_url then Ok (inr CREDENTIAL_MISSING)
  else match validate_https_target_url base_url with
       | Some failure => Ok (inr failure)
       | None =>
           let checked target :=
             match validate_https_target_url target with Some failure => inr failure | None => inl target end in
           if is_empty path then Ok (checked base_url)
           else if negb (String.prefix "/" path) || contains "://" path || String.prefix "//" path
                then Ok (inr MALFORMED_PAYLOAD)
                else let! target := urljoin (rstrip_of is_slash base_url +:+ "/") (lstrip_of is_slash path) in
                     Ok (checked target)
       end.

(** ** A path stays on the host *)

Definition visible (c : ascii) : bool := negb (control_or_space c).
Definition host_char (c : ascii) : bool := visible c && negb (netloc_end c).

(** What may follow a netloc. *)
Definition after_netloc (s : string) : Prop :=
  match s with EmptyString => True | String c _ => netloc_end c = true end.

Definition https (netloc rest : string) : string := "https://" +:+ netloc +:+ rest.

Lemma visible_safe c : visible c = true -> unsafe_char c = false.
Proof. by destruct c as [[] [] [] [] [] [] [] []]. Qed.

Lemma netloc_end_safe c : netloc_end c = true -> unsafe_char c = false.
Proof. by destruct c as [[] [] [] [] [] [] [] []]. Qed.

Lemma keep_chars_app p a b : keep_chars p (a +:+ b) = keep_chars p a +:+ keep_chars p b.
Proof.
  induction a as [|c a IH]; [done|]. change (String c a +:+ b) with (String c (a +:+ b)). cbn [keep_chars].
  rewrite IH. by destruct (p c).
Qed.

Lemma keep_visible s : all_chars visible s = true -> keep_chars (fun c => negb (unsafe_char c)) s = s.
Proof.
  induction s as [|c s IH]; [done|]. cbn [all_chars keep_chars]. intros [Hc Hs]%andb_true_iff.
  by rewrite visible_safe, IH.
Qed.

Lemma clean_visible s : all_chars visible s = true -> clean_url s = s.
Proof.
  intros Hs. unfold clean_url. destruct s as [|c s]; [done|]. cbn [lstrip_of].
  pose proof Hs as [Hc _]%andb_true_iff. unfold visible in Hc. rewrite negb_true_iff in Hc. rewrite Hc.
  by apply keep_visible.
Qed.

Lemma host_visible s : all_chars host_char s = true -> all_chars visible s = true.
Proof. apply all_chars_impl. intros c. unfold host_char. by intros [? _]%andb_true_iff. Qed.

Lemma take_netloc n t : all_chars host_char n = true -> after_netloc t ->
  take_until netloc_end (n +:+ t) = n /\ drop_until netloc_end (n +:+ t) = t.
Proof.
  intros Hn Ht. induction n as [|c n IH].
  - destruct t as [|c t]; [done|]. change (EmptyString +:+ String c t) with (String c t).
    cbn [take_until drop_until after_netloc] in *. by rewrite Ht.
  - cbn [all_chars] in Hn. apply andb_true_iff in Hn as [Hc Hn]. unfold host_char in Hc.
    apply andb_true_iff in Hc as [_ Hc]. rewrite negb_true_iff in Hc.
    change (String c n +:+ t) with (String c (n +:+ t)). cbn [take_until drop_until]. rewrite Hc.
    destruct (IH Hn) as [-> ->]. done.
Qed.

Lemma keep_after_netloc t : after_netloc t -> after_netloc (keep_chars (fun c => negb (unsafe_char c)) t).
Proof. destruct t as [|c t]; [done|]. intros Hc. cbn [keep_chars]. by rewrite (netloc_end_safe c Hc). Qed.

Lemma clean_https n t :
  all_chars host_char n = true ->
  clean_url (https n t) = https n (keep_chars (fun c => negb (unsafe_char c)) t).
Proof.
  intros Hn. unfold clean_url.
  assert (lstrip_of control_or_space (https n t) = "https://" +:+ (n +:+ t)) as -> by reflexivity.
  rewrite keep_chars_app, keep_chars_app, (keep_visible n) by (by apply host_visible). reflexivity.
Qed.

(** An https URL splits at its netloc. *)
Lemma urlsplit_https n t default_scheme :
  all_chars host_char n = true -> after_netloc t ->
  exists path query fragment,
    urlsplit (https n t) default_scheme =
      (if netloc_ok n then Ok (UrlParts "https" n path query fragment) else Raise invalid_url).
Proof.
  intros Hn Ht. unfold urlsplit. rewrite (clean_https n t Hn).
  apply keep_after_netloc in Ht. set (t' := keep_chars _ t) in *.
  change (split_scheme (https n t')) with (Some ("https", "//" +:+ (n +:+ t'))). cbv iota beta.
  change (drop_prefix "//" ("//" +:+ (n +:+ t'))) with (Some (n +:+ t')). cbv iota beta.
  destruct (take_netloc n t' Hn Ht) as [-> ->]. destruct (netloc_ok n); cbn [negb];
    [|by exists EmptyString, EmptyString, EmptyString].
  destruct (cut "#" t') as [[? ?]|]; destruct (cut "?" _) as [[? ?]|]; by eexists _, _, _.
Qed.

Lemma hostname_https n t t' :
  all_chars host_char n = true -> after_netloc t -> after_netloc t' ->
  hostname_from_url (https n t) = hostname_from_url (https n t').
Proof.
  intros Hn Ht Ht'. unfold hostname_from_url.
  destruct (urlsplit_https n t EmptyString Hn Ht) as (? & ? & ? & ->).
  destruct (urlsplit_https n t' EmptyString Hn Ht') as (? & ? & ? & ->). by destruct (netloc_ok n).
Qed.

(** A URL put together from a netloc has it. *)
Lemma urlunparse_https n path params query fragment :
  n <> EmptyString ->
  exists t, urlunparse "https" n path params query fragment = https n t /\ after_netloc t.
Proof.
  intros Hn. unfold urlunparse, urlunsplit. set (p := if is_empty params then _ else _).
  assert (is_empty n = false) as -> by (by destruct n). cbn [negb orb is_empty].
  set (p' := if _ && _ then "/" +:+ p else p).
  assert (after_netloc p') as Hp'.
  { unfold p'. destruct p as [|c p0]; [done|]. cbn [is_empty negb andb].
    destruct (String.prefix "/" (String c p0)) eqn:E; [|done]. cbn [String.prefix negb] in E |- *.
    destruct (ascii_dec "/" c) as [<-|]; done. }
  set (f := fun s : string => if is_empty fragment then s else s +:+ ("#" +:+ fragment)).
  set (g := fun s : string => if is_empty query then s else s +:+ ("?" +:+ query)).
  exists (f (g p')). split.
  - unfold f, g, https. destruct (is_empty query), (is_empty fragment); rewrite ?str_app_assoc; reflexivity.
  - unfold f, g. destruct p'; [|by destruct (is_empty query), (is_empty fragment)].
    destruct (is_empty query), (is_empty fragment); done.
Qed.

Lemma rstrip_of_app p a b : is_empty a = false -> all_chars (fun c => negb (p c)) a = true ->
  rstrip_of p (a +:+ b) = a +:+ rstrip_of p b /\ is_empty (rstrip_of p (a +:+ b)) = false.
Proof.
  induction a as [|c a IH]; [done|]. intros _ [Hc Ha]%andb_true_iff. change (String c a +:+ b) with (String c (a +:+ b)).
  cbn [rstrip_of]. rewrite negb_true_iff in Hc. rewrite Hc, andb_false_r. split; [|done].
  destruct a as [|d a]; [done|]. by rewrite (proj1 (IH eq_refl Ha)).
Qed.

Lemma rstrip_of_keep p a b : is_empty (rstrip_of p b) = false -> rstrip_of p (a +:+ b) = a +:+ rstrip_of p b.
Proof.
  intros Hb. induction a as [|c a IH]; [done|]. change (String c a +:+ b) with (String c (a +:+ b)).
  cbn [rstrip_of]. rewrite IH. by destruct a, (rstrip_of p b).
Qed.

Lemma host_no_slash n : all_chars host_char n = true -> all_chars (fun c => negb (is_slash c)) n = true.
Proof.
  apply all_chars_impl. intros c. unfold host_char, netloc_end, is_slash. destruct (Ascii.eqb c "/"); [|done].
  cbn. by rewrite andb_false_r.
Qed.

(** The base URL with its slash. *)
Lemma base_with_slash n t :
  is_empty n = false -> all_chars host_char n = true -> after_netloc t ->
  exists t', rstrip_of is_slash (https n t) +:+ "/" = https n t' /\ after_netloc t'.
Proof.
  intros Hn Hc Ht. destruct (rstrip_of_app is_slash n t Hn (host_no_slash n Hc)) as [E He].
  exists (rstrip_of is_slash t +:+ "/"). split.
  - unfold https.
    assert (rstrip_of is_slash ("https://" +:+ (n +:+ t)) = "https://" +:+ rstrip_of is_slash (n +:+ t)) as ->.
    { by apply rstrip_of_keep. }
    rewrite E, <-!str_app_assoc. done.
  - destruct t as [|c t]; [done|]. cbn [rstrip_of]. by destruct (is_empty (rstrip_of is_slash t) && is_slash c).
Qed.

Lemma cut_app c s a b : cut c s = Some (a, b) -> s = a +:+ String c b.
Proof.
  revert a. induction s as [|x s IH]; [done|]. cbn [cut]. intros a.
  destruct (Ascii.eqb x c) eqn:E; [intros [= <- <-]; by apply Ascii.eqb_eq in E as ->|].
  destruct (cut c s) as [[a' b']|]; [|done]. intros [= <- <-]. by rewrite (IH a' eq_refl) at 1.
Qed.

Lemma contains_app needle a b : contains needle b = true -> contains needle (a +:+ b) = true.
Proof.
  intros Hb. induction a as [|c a IH]; [done|]. change (String c a +:+ b) with (String c (a +:+ b)). cbn [contains].
  by rewrite IH, orb_true_r.
Qed.

Lemma drop_prefix_slashes s t : drop_prefix "//" s = Some t -> s = String "/" (String "/" t).
Proof.
  destruct s as [|a [|b s]]; try done; cbn [drop_prefix].
  - by destruct (Ascii.eqb "/" a).
  - destruct (Ascii.eqb "/" a) eqn:Ea; [|done]. destruct (Ascii.eqb "/" b) eqn:Eb; [|done].
    apply Ascii.eqb_eq in Ea as <-, Eb as <-. by intros [= ->].
Qed.

(** A path that passed the checks has no netloc of its own. *)
Lemma path_has_no_netloc q default_scheme u :
  all_chars visible q = true -> contains "://" q = false -> String.prefix "/" q = false ->
  urlsplit q default_scheme = Ok u -> u_netloc u = EmptyString.
Proof.
  intros Hv Hs Hq. unfold urlsplit. rewrite (clean_visible q Hv).
  assert (match split_scheme q with Some sr => drop_prefix "//" sr.2 = None | None => drop_prefix "//" q = None end) as Hnone.
  { destruct (split_scheme q) as [[sch rest]|] eqn:E.
    - cbn [snd]. destruct (drop_prefix "//" rest) as [t|] eqn:Ed; [|done]. apply drop_prefix_slashes in Ed as ->.
      unfold split_scheme in E. destruct (cut ":" q) as [[[|c a] b]|] eqn:Ec; [done| |done].
      destruct (is_alpha c && _); [|done]. injection E as _ ->. apply cut_app in Ec. rewrite Ec in Hs.
      rewrite contains_app in Hs by (by destruct t). done.
    - destruct (drop_prefix "//" q) as [t|] eqn:Ed; [|done]. apply drop_prefix_slashes in Ed as ->. by destruct t. }
  destruct (split_scheme q) as [[sch rest]|]; cbn [snd] in Hnone; rewrite Hnone; cbn [netloc_ok negb];
    change (negb (netloc_ok EmptyString)) with false; cbv iota;
    repeat case_match; by intros [= <-].
Qed.

Lemma lstrip_slashes_first s : String.prefix "/" (lstrip_of is_slash s) = false.
Proof.
  induction s as [|c s IH]; [done|]. cbn [lstrip_of]. destruct (is_slash c) eqn:E; [exact IH|].
  cbn [String.prefix]. destruct (ascii_dec "/" c) as [<-|]; [discriminate E|done].
Qed.

Lemma lstrip_of_suffix p s : exists d, s = d +:+ lstrip_of p s.
Proof.
  induction s as [|c s [d IH]]; [by exists EmptyString|]. cbn [lstrip_of].
  destruct (p c); [exists (String c d); by rewrite IH at 1|by exists EmptyString].
Qed.

Lemma all_chars_lstrip p q s : all_chars q s = true -> all_chars q (lstrip_of p s) = true.
Proof.
  induction s as [|c s IH]; [done|]. cbn [all_chars lstrip_of]. intros [Hc Hs]%andb_true_iff.
  destruct (p c); [by apply IH|]. cbn. by rewrite Hc.
Qed.

Lemma resolve_target_checked base path target :
  resolve_target base path = Ok (inl target) -> validate_https_target_url target = None.
Proof.
  assert (forall t, (match validate_https_target_url t with Some failure => inr failure | None => inl t end) =
            (inl target : string + string) -> validate_https_target_url target = None) as Hc.
  { intros t. destruct (validate_https_target_url t) eqn:E; [done|]. by intros [= <-]. }
  unfold resolve_target. destruct (is_empty base); [done|]. destruct (validate_https_target_url base) eqn:Eb; [done|].
  cbv zeta. destruct (is_empty path); [rewrite ?Eb; intros [= <-]; exact Eb|]. destruct (_ || _); [done|].
  destruct (urljoin _ _) as [t|]; [|done]. cbn [obind]. intros [= H]. by apply (Hc t).
Qed.

Lemma validated_host target :
  validate_https_target_url target = None ->
  exists host, hostname_from_url target = Some host /\ is_blocked_hostname host = false.
Proof.
  unfold validate_https_target_url. destruct (is_empty target); [done|].
  destruct (urlsplit target EmptyString) as [u|e]; [|done]. destruct (str_in _ _); [done|].
  destruct (negb _); [done|]. destruct (is_empty (u_netloc u)); [done|].
  destruct (hostname_from_url target) as [h|]; [|done]. destruct (is_blocked_hostname h) eqn:E; [done|]. by exists h.
Qed.

(** a path of visible characters that passes the checks keeps the
    webhook on the configured host: the accepted target is an https URL of
    that host, and that host is not a blocked one. *)
Theorem path_stays_on_host n t path target :
  is_empty n = false -> all_chars host_char n = true -> after_netloc t -> all_chars visible path = true ->
  resolve_target (https n t) path = Ok (inl target) ->
  hostname_from_url target = hostname_from_url (https n t) /\
  (exists rest, target = https n rest) /\
  exists host, hostname_from_url target = Some host /\ is_blocked_hostname host = false.
Proof.
  intros Hn Hc Ht Hpath Hres.
  pose proof (validated_host target (resolve_target_checked _ _ _ Hres)) as Hvalid.
  unfold resolve_target in Hres. change (is_empty (https n t)) with false in Hres. cbv iota in Hres.
  destruct (validate_https_target_url (https n t)) eqn:Hbase; [done|]. cbv zeta beta in Hres.
  destruct (is_empty path) eqn:Ep.
  { rewrite ?Hbase in Hres. injection Hres as <-. split; [done|]. split; [by exists t|exact Hvalid]. }
  destruct (negb (String.prefix "/" path)) eqn:E1; [done|]. destruct (contains "://" path) eqn:E2; [done|].
  destruct (String.prefix "//" path) eqn:E3; [done|]. cbn [orb] in Hres.
  destruct (base_with_slash n t Hn Hc Ht) as (t' & Eb & Ht'). rewrite Eb in Hres.
  set (q := lstrip_of is_slash path) in *. destruct (urljoin (https n t') q) as [tgt|e] eqn:Ej; [|done]. cbn [obind] in Hres.
  destruct (validate_https_target_url tgt) eqn:Hv; [done|]. injection Hres as <-.
  enough (exists rest, tgt = https n rest /\ after_netloc rest) as (rest & -> & Hrest).
  { split; [by apply hostname_https|]. split; [by exists rest|exact Hvalid]. }
  unfold urljoin in Ej. change (is_empty (https n t')) with false in Ej. cbv iota in Ej.
  destruct (is_empty q) eqn:Eq; [injection Ej as <-; by exists t'|].
  destruct (urlsplit_https n t' EmptyString Hc Ht') as (bp & bq & bf & Eu). rewrite Eu in Ej.
  destruct (netloc_ok n); [|done]. cbn [obind u_scheme u_path u_netloc u_query] in Ej.
  destruct (split_params "https" bp) as [bpath bparams].
  assert (all_chars visible q = true) as Hqv by by apply all_chars_lstrip.
  assert (contains "://" q = false) as Hqs.
  { destruct (contains "://" q) eqn:E; [|done]. destruct (lstrip_of_suffix is_slash path) as [d Hd].
    rewrite Hd, contains_app in E2 by exact E. done. }
  destruct (urlsplit q "https") as [u|e] eqn:Euq; [|done]. cbn [obind] in Ej.
  pose proof (path_has_no_netloc q "https" u Hqv Hqs (lstrip_slashes_first path) Euq) as Hnet. rewrite Hnet in Ej.
  destruct (split_params (u_scheme u) (u_path u)) as [p0 params0].
  destruct (negb (String.eqb (u_scheme u) "https") || negb (str_in (u_scheme u) uses_relative)) eqn:Es.
  - injection Ej as <-. exfalso. unfold validate_https_target_url in Hv. rewrite Eq in Hv.
    destruct (urlsplit q EmptyString) as [u'|e'] eqn:Eu'; [|done].
    pose proof (path_has_no_netloc q EmptyString u' Hqv Hqs (lstrip_slashes_first path) Eu') as Hnet'. rewrite Hnet' in Hv.
    cbn [is_empty] in Hv. revert Hv. repeat case_match; discriminate.
  - apply orb_false_iff in Es as [Es _]. rewrite negb_false_iff in Es. apply String.eqb_eq in Es. rewrite Es in Ej.
    change (str_in "https" uses_netloc) with true in Ej. cbn [andb negb is_empty] in Ej.
    assert (n <> EmptyString) as Hn' by (by destruct n).
    destruct (is_empty p0 && is_empty params0); injection Ej as <-; by apply urlunparse_https.
Qed.

Lemma path_stays_on_host_witness :
  resolve_target (https "hooks.example.com:8443" "/x/?k#f") "/a/../b;c" =
    Ok (inl "https://hooks.example.com:8443/x/b;c") /\
  hostname_from_url "https://hooks.example.com:8443/x/b;c" =
    hostname_from_url (https "hooks.example.com:8443" "/x/?k#f").
Proof.
  split; [vm_compute; reflexivity|].
  refine (proj1 (path_stays_on_host "hooks.example.com:8443" "/x/?k#f" "/a/../b;c" _ _ _ _ _ _));
    vm_compute; reflexivity.
Defined.

(** A tab in the path is enough to leave it: the checks see no second slash,
    [urljoin] removes the tab before it looks. *)
Example tab_leaves_host :
  resolve_target "https://hooks.example.com/x" (String "/" (String (ascii_of_N 9) "//evil.example.net/y")) =
    Ok (inl "https://evil.example.net/y").
Proof. vm_compute. reflexivity. Qed.

(** The loopback address written as one number is not a blocked host. *)
Example decimal_loopback_allowed :
  validate_https_target_url "https://2130706433/" = None /\ is_blocked_hostname "127.0.0.1" = true.
Proof. split; vm_compute; reflexivity. Qed.
