(* ===== verification/SimulationExecutor.v ===== *)
(** * SimulationExecutor: engines/soar_executor.py

    The executor the queue worker uses by default.  It validates the action
    of a row and answers with a simulated result. *)

From S2P Require Import Prelude PyText PyFloat PyValue Tables IpAddress UrlTarget Interfaces Outcomes ResponseQueue.
From S2P Require Import QueueWorker.

Open Scope Z_scope.

Definition SUPPORTED_ACTIONS : list string := ["block_ip"; "flag_high_priority"; "monitor"].

Definition skipped {A} (message code : string) : outcome A := Raise (SkippedAction message code).

Definition is_unspecified (ip : ip_address) : bool := ip_int ip =? 0.

(** What an f-string prints for a column that may be NULL. *)
Definition show_text (o : option string) : string := default "None" o.
Definition show_id (o : option Z) : string := py_str (opt_int o).

Definition validate_block_ip (source_ip : option string) : outcome unit :=
  match source_ip with
  | None => skipped "Cannot block IP without a source_ip" "validation_null_source_ip"
  | Some source_ip =>
      match parse_ip source_ip with
      | Raise _ => skipped ("Invalid source_ip for block_ip: " +:+ source_ip) "validation_invalid_ip_format"
      | Ok ip =>
          if is_private ip || in_any ip loopback || in_any ip link_local || in_any ip reserved || is_unspecified ip ||
             in_any ip multicast
          then skipped ("Refusing to block non-public source_ip: " +:+ source_ip) "validation_private_ip"
          else Ok tt
      end
  end.

Definition validate_action (row : Z * queue_row) : outcome unit :=
  let action := q_action row.2 in
  if negb (str_in action SUPPORTED_ACTIONS) then skipped ("Unsupported response action: " +:+ action) "unsupported_action"
  else if String.eqb action "block_ip" then validate_block_ip (q_source_ip row.2)
  else if String.eqb action "flag_high_priority" && bool_decide (q_alert_id row.2 = None)
  then skipped "Cannot flag high priority without an alert_id" "validation_missing_alert_id"
  else if String.eqb action "monitor" && bool_decide (q_source_ip row.2 = None) && bool_decide (q_alert_id row.2 = None)
  then skipped "Cannot monitor without a source_ip or alert_id" "validation_no_target"
  else Ok tt.

(** [details] is unordered for its readers. *)
Definition simulated (row : Z * queue_row) (code message : string) : pyval :=
  PDict [("code", PStr code); ("message", PStr message);
         ("details", PDict [("source_ip", opt_text (q_source_ip row.2)); ("alert_id", opt_int (q_alert_id row.2))])].

Definition simulate_block_ip (row : Z * queue_row) : pyval :=
  simulated row "simulated_block_ip" ("Simulated IP block for " +:+ show_text (q_source_ip row.2)).
Definition simulate_flag_high_priority (row : Z * queue_row) : pyval :=
  simulated row "simulated_flag_high_priority" ("Simulated escalation for alert " +:+ show_id (q_alert_id row.2)).
Definition simulate_monitor (row : Z * queue_row) : pyval :=
  simulated row "simulated_monitor" ("Monitoring only - no action taken for queue_id=" +:+ str_int row.1).

Definition simulation_executor (row : Z * queue_row) : outcome pyval :=
  let! _ := validate_action row in
  let action := q_action row.2 in
  if String.eqb action "block_ip" then Ok (simulate_block_ip row)
  else if String.eqb action "flag_high_priority" then Ok (simulate_flag_high_priority row)
  else if String.eqb action "monitor" then Ok (simulate_monitor row)
  else skipped ("Unsupported response action: " +:+ action) "unsupported_action".

(** ** The executor against its contract *)

(** A row the executor takes. *)
Definition executable (row : queue_row) : Prop :=
  (q_action row = "block_ip" /\ exists ip a, q_source_ip row = Some ip /\ parse_ip ip = Ok a /\ blocked_ip a = false /\
     is_unspecified a = false) \/
  (q_action row = "flag_high_priority" /\ is_Some (q_alert_id row)) \/
  (q_action row = "monitor" /\ (is_Some (q_source_ip row) \/ is_Some (q_alert_id row))).

Lemma validate_block_ip_Ok source_ip :
  validate_block_ip source_ip = Ok tt <->
  exists ip a, source_ip = Some ip /\ parse_ip ip = Ok a /\ blocked_ip a = false /\ is_unspecified a = false.
Proof.
  unfold validate_block_ip, blocked_ip, skipped. destruct source_ip as [ip|]; [|by split; [|intros (? & ? & ? & _)]].
  destruct (parse_ip ip) as [a|e] eqn:Ha; [|by split; [|intros (? & ? & [= <-] & ? & _); congruence]].
  split.
  - intros H. exists ip, a. rewrite Ha. destruct (is_private a), (in_any a loopback), (in_any a link_local), (in_any a reserved),
      (in_any a multicast), (is_unspecified a); done.
  - intros (ip' & a' & [= <-] & Hp & Hb & Hu). rewrite Ha in Hp. injection Hp as <-. rewrite !orb_false_iff in Hb. destruct_and! Hb.
    repeat match goal with H : ?b = false |- context [?b] => rewrite H end. done.
Qed.

(** The executor returns a result exactly for the rows whose action it
    supports with a target that makes sense - a public address for a block,
    an alert for an escalation, either for monitoring - and its result then
    satisfies the worker's contract.  It refuses every other row with
    SkippedAction, which the worker records as a skip, never as a failure. *)
Theorem simulation_executor_contract (row : Z * queue_row) :
  match simulation_executor row with
  | Ok r => executable row.2 /\ exists code message,
      validate_executor_result r = Ok (PStr code, PStr message) /\ is_empty code = false /\ is_empty message = false
  | Raise (SkippedAction _ _) => ~ executable row.2
  | Raise _ => False
  end.
Proof.
  assert (forall code message, is_empty code = false -> is_empty message = false -> exists c m,
    validate_executor_result (simulated row code message) = Ok (PStr c, PStr m) /\ is_empty c = false /\ is_empty m = false)
    as Hres.
  { intros code message Hc Hm. exists code, message. unfold validate_executor_result, simulated. cbn. by rewrite Hc, Hm. }
  unfold simulation_executor, validate_action, executable, skipped. destruct row as [i r]. cbn [fst snd].
  destruct (str_in (q_action r) SUPPORTED_ACTIONS) eqn:Hin; cbn [negb obind].
  2: { intros [[Ha _]|[[Ha _]|[Ha _]]]; by rewrite Ha in Hin. }
  apply str_in_spec in Hin. apply list_elem_of_In in Hin. cbn in Hin. destruct_or? Hin; try done; rewrite <- Hin; cbn.
  - destruct (validate_block_ip (q_source_ip r)) as [[]|e] eqn:Hv; cbn [obind].
    + apply validate_block_ip_Ok in Hv. split; [by left|]. by apply Hres.
    + assert (exists m c, e = SkippedAction m c) as (m & c & ->).
      { unfold validate_block_ip, skipped in Hv. repeat case_match; naive_solver. }
      intros [[_ Hex]|[[? _]|[? _]]]; [|done..]. by apply validate_block_ip_Ok in Hex; rewrite Hex in Hv.
  - case_bool_decide as Hn; cbn [obind]; [by intros [[? _]|[[_ [? ?]]|[? _]]]; congruence|].
    split; [|by apply Hres]. right. left. split; [done|]. by destruct (q_alert_id r).
  - repeat case_bool_decide; cbn [andb obind].
    + intros [[? _]|[[? _]|[_ [[? ?]|[? ?]]]]]; congruence.
    + split; [|by apply Hres]. right. right. split; [done|]. destruct (q_alert_id r); [eauto|done].
    + split; [|by apply Hres]. right. right. split; [done|]. destruct (q_source_ip r); [eauto|done].
    + split; [|by apply Hres]. right. right. split; [done|]. destruct (q_source_ip r); [eauto|done].
Qed.

(** With the default executor the worker simulates nothing: the actions
    the executor supports are those the worker hands to the response command
    service, so what reaches the executor is refused. *)
Theorem default_executor_only_refuses {X} `{ResponseCommand X} inet env (row : Z * queue_row) :
  run_action (X := X) inet simulation_executor env row =
  run_action (X := X) inet (fun row => skipped ("Unsupported response action: " +:+ q_action row.2) "unsupported_action") env row.
Proof.
  unfold run_action. destruct (str_in (q_action row.2) CANONICAL_QUEUE_ACTIONS) eqn:Hin; [done|].
  assert (str_in (q_action row.2) SUPPORTED_ACTIONS = false) as Hout.
  { apply not_true_iff_false. intros Hs%str_in_spec. apply not_true_iff_false in Hin. apply Hin, str_in_spec. set_solver. }
  unfold run_executor, simulation_executor, validate_action. by rewrite Hout.
Qed.
