(* ===== verification/RealMode.v ===== *)
(** * RealMode: what the real modes of the adapters share

    The guards of integrations/base_integration.py, the process environment,
    the outside world a real send talks to, the audit of an attempt
    (core/integration_audit.py) and the steps that the Slack, email and
    webhook adapters have in common. *)

From S2P Require Import Prelude PyText PyValue Outcomes Deliveries RateLimiter CircuitBreaker Integration.

Open Scope Z_scope.

(** ** The environment *)

Section Environment.
Context (env : environ).

(** [os.getenv(name, "").strip()]. *)
Definition env_text (name : string) : string := strip (default EmptyString (env name)).

Definition env_set (name : string) : bool := negb (is_empty (env_text name)).

(** [_truthy]. *)
Definition truthy_text (value : string) : bool := str_in (lower (strip value)) ["1"; "true"; "yes"; "on"].
Definition env_enabled (name : string) : bool := truthy_text (default EmptyString (env name)).

(** A number of the environment, between 1 and [most]. *)
Definition env_number (name : string) (otherwise most : Z) : Z :=
  match parse_int (strip (default (str_int otherwise) (env name))) with
  | Some value => Z.max 1 (Z.min value most)
  | None => otherwise
  end.

(** What [_validate_real_mode_guards] returns. *)
Record readiness := Readiness {
  rg_adapter : string;
  rg_configured_mode : string;
  rg_soar_env_allowed : bool;
  rg_adapter_enabled : bool;
  rg_enabled_env : string;
  rg_credential_envs : list string;
  rg_credential_configured : pydict;
  rg_missing_guards : list string;
  rg_real_mode_allowed : bool;
  rg_real_mode_status : string;
  rg_failure_classification : option string;
}.

Definition guard_status (adapter : string) (missing : list string) : string :=
  "blocked: " +:+ adapter +:+ " real mode requires guard(s): " +:+ String.concat ", " missing.

(** The names of [credential_envs] that are not blank, stripped. *)
Definition credential_names (credential_envs : list string) : list string :=
  List.filter (fun n => negb (is_empty n)) (map strip credential_envs).

Definition validate_real_mode_guards (adapter_name : string) (mode : option string) (enabled_env : string)
    (credential_envs allowed_envs : list string) : readiness :=
  let adapter := normalize_adapter_key adapter_name in
  let configured_mode := lower (strip (match mode with
                                       | Some m => m
                                       | None => default SIMULATION_MODE (env "INTEGRATION_MODE")
                                       end)) in
  let allowed := map (fun v => lower (strip v)) (List.filter (fun v => negb (is_empty (strip v))) allowed_envs) in
  let soar_env_allowed := str_in (lower (env_text "SOAR_ENV")) allowed in
  let enabled := env_enabled enabled_env in
  let names := credential_names credential_envs in
  let configured := foldl (fun d n => dset d n (PBool (env_set n))) [] names in
  let missing :=
    (if String.eqb configured_mode REAL_MODE then [] else ["INTEGRATION_MODE"]) ++
    (if soar_env_allowed then [] else ["SOAR_ENV"]) ++
    (if enabled then [] else [enabled_env]) ++
    map fst (List.filter (fun kv => negb (truthy kv.2)) configured) in
  let allowed_now := match missing with [] => true | _ => false end in
  Readiness adapter configured_mode soar_env_allowed enabled enabled_env names configured missing
    allowed_now
    (if String.eqb configured_mode REAL_MODE then (if allowed_now then "ready" else guard_status adapter missing)
     else "simulation")
    (if allowed_now then None
     else if existsb (fun n => dmem configured n) missing then Some CREDENTIAL_MISSING else Some GUARD_FAILED).

Definition staging : list string := ["staging"].
End Environment.

(** ** The outside world *)

Record http_request := HttpRequest { hr_url : string; hr_headers : pydict; hr_payload : pydict; hr_timeout : Z }.

Record smtp_request := SmtpRequest {
  sr_host : string; sr_port : Z; sr_timeout : Z; sr_starttls : bool; sr_username : string; sr_password : string;
  sr_to : string; sr_from : string; sr_subject : string; sr_body : string;
}.

Inductive outbound := HttpPost (r : http_request) | SmtpSend (r : smtp_request).

(** How [urlopen] ends: a status, [TimeoutError], [HTTPError], another
    [URLError], or an exception of none of these classes. *)
Inductive http_reply := HttpStatus (status : Z) | HttpTimeout | HttpError (code : Z) | HttpUrlError | HttpOther (e : exn).

(** How an SMTP session ends: with the refused recipients, a timeout, an
    authentication error, all recipients refused, another response, another
    [OSError], or an exception of none of these classes. *)
Inductive smtp_reply :=
  | SmtpSent (refused : bool) | SmtpTimeout | SmtpAuthError | SmtpRecipientsRefused | SmtpResponse (code : Z)
  | SmtpOsError | SmtpOther (e : exn).

(** What the adapters read from outside: the environment, the monotonic
    clock, and the replies, which may differ from one call to the next.
    [os_email_message] is the exception, if any, that [EmailMessage] raises
    for the recipient, sender, subject and body. *)
Record outside := Outside {
  os_environ : environ;
  os_monotonic : Z;
  os_elapsed_ms : Z;
  os_http : nat -> http_request -> http_reply;
  os_smtp : nat -> smtp_request -> smtp_reply;
  os_email_message : string -> string -> string -> string -> option exn;
  os_audit_written : bool;
}.

(** What they write: the attempts of the rate limiter, the calls made, and
    the audit log. *)
Record traffic := Traffic { tr_attempts : attempts; tr_sent : list outbound; tr_audit : list pydict }.

Definition no_traffic : traffic := Traffic ∅ [] [].

Definition in_attempts {A} (m : M attempts A) : M traffic A :=
  zoom tr_attempts (fun s t => Traffic s (tr_sent t) (tr_audit t)) m.

(** A call is made and answered. *)
Definition send (request : outbound) : M traffic nat := fun t =>
  (Ok (length (tr_sent t)), Traffic (tr_attempts t) (tr_sent t ++ [request]) (tr_audit t)).

(** ** The audit of an attempt *)

Definition safe_int (v : pyval) : outcome pyval :=
  match v with
  | PNone => Ok PNone
  | _ => match py_int v with
         | Ok z => Ok (PInt z)
         | Raise e => if bool_decide (e = TypeError) || is_value_error e then Ok PNone else Raise e
         end
  end.

Definition safe_text (v : pyval) : pyval :=
  match v with
  | PNone => PNone
  | _ => let text := strip (py_str v) in if is_empty text then PNone else PStr (String.substring 0 256 text)
  end.

Definition compact (d : pydict) : pydict := List.filter (fun kv => negb (is_none kv.2)) d.

Definition build_integration_attempt_audit_details (result context : pydict) : outcome pydict :=
  let metadata := redact_notification_delivery_metadata (result_metadata result) in
  let execution_id := default (dget context "execution_id") (dlookup context "playbook_execution_id") in
  let! execution := safe_int execution_id in
  let! incident := safe_int (dget context "incident_id") in
  let! alert := safe_int (dget context "alert_id") in
  Ok (redact_notification_delivery_metadata (compact
    [("adapter", safe_text (dget result "adapter")); ("action", safe_text (dget result "action"));
     ("mode", safe_text (dget result "mode")); ("success", PBool (truthy (dget result "success")));
     ("simulated", PBool (truthy (dget result "simulated"))); ("executed", PBool (truthy (dget result "executed")));
     ("result_status", PStr (match dget result "success" with PBool true => "success" | _ => "failed" end));
     ("failure_class", safe_text (dget metadata "failure_classification"));
     ("failure_code", safe_text (dget metadata "failure_code"));
     ("retry_eligible", if dmem metadata "retry_eligible" then PBool (truthy (dget metadata "retry_eligible")) else PNone);
     ("playbook_execution_id", execution); ("incident_id", incident); ("alert_id", alert);
     ("correlation_id", safe_text (dget context "correlation_id"));
     ("idempotency_key", safe_text (dget context "idempotency_key"))])).

Section Attempts.
Context (o : outside).

(** [log_integration_execution_attempt]: a failure to write it is logged. *)
Definition log_integration_execution_attempt (result context : pydict) : M traffic unit :=
  let* details := of_outcome (build_integration_attempt_audit_details result context) in
  modify (fun t => if os_audit_written o then Traffic (tr_attempts t) (tr_sent t) (tr_audit t ++ [details]) else t).

(** The outcome of a real attempt: the [simulated] and [executed] flags, the
    message and the metadata. *)
Record attempt := Attempt {
  at_success : bool; at_simulated : bool; at_executed : bool; at_message : string; at_metadata : pydict;
}.

(** An attempt that sent nothing. *)
Definition failed (simulated : bool) (message : string) (metadata : pydict) : attempt :=
  Attempt false simulated false message metadata.

(** [_audit_real_attempt(self._result(...), context)]. *)
Definition audited (a : adapter) (mode : string) (action : string) (params context : pydict) (t : attempt)
    : M traffic pyval :=
  let result := result_as a mode (ResultMode (Some REAL_MODE) (Some (at_simulated t)) (Some (at_executed t)))
                  action params context (at_success t) (at_message t) (at_metadata t) in
  log_integration_execution_attempt result context ;;;
  ret (PDict result).

(** The keys added to the metadata of every attempt. *)
Definition failure_keys (base : pydict) (classification : string) (retry_eligible : bool) (extra : pydict) : pydict :=
  dmerge base ([("failure_classification", PStr classification); ("retry_eligible", PBool retry_eligible)] ++ extra).

(** A refusal of the rate limiter. *)
Definition rate_limited (label : string) (base : pydict) (d : rate_decision) : attempt :=
  failed false (label +:+ " real-mode send blocked safely by adapter rate limit.")
    (failure_keys base PROVIDER_RATE_LIMITED true
       [("rate_limited", PBool true);
        ("rate_limit", PDict [("limit", PInt (rd_limit d)); ("window_seconds", PInt WINDOW_SECONDS);
                              ("reset_after_seconds", PInt (rd_reset_after_seconds d))])]).

(** The rate limiter, then the send. *)
Definition within_rate_limit (a : adapter) (label : string) (base : pydict) (next : M traffic attempt)
    : M traffic attempt :=
  let* d := in_attempts (check_adapter_rate_limit (os_environ o) (adapter_name a) (os_monotonic o)) in
  if rd_allowed d then next else ret (rate_limited label base d).
End Attempts.
