(* ===== verification/SlackAdapter.v ===== *)
(** * SlackAdapter: integrations/slack_adapter.py *)

From S2P Require Import Prelude PyText PyValue RateLimiter CircuitBreaker Integration RealMode.

Open Scope Z_scope.

Definition slack : adapter := Adapter "slack" ["send_message"; "notify_channel"; "test_notification"] true.

Definition SLACK_WEBHOOK_ENV : string := "SLACK_WEBHOOK_URL".
Definition SLACK_REAL_ALLOW_ENV : string := "SOAR_REAL_SLACK_ENABLED".
Definition ROUTE_KEY_TO_SLACK_WEBHOOK_ENV : list (string * string) :=
  [("pfsense", "SLACK_PFSENSE_WEBHOOK_URL"); ("honeypot", "SLACK_HONEYPOT_WEBHOOK_URL");
   ("critical_cross_source", "SLACK_CRITICAL_CROSS_SOURCE_WEBHOOK_URL")].
Definition MAX_SLACK_TEXT_CHARS : nat := 3000.
Definition DEFAULT_SLACK_SUMMARY : string := "SOAR playbook notification.".

Definition clip (n : nat) (s : string) : string := String.substring 0 n s.

(** [_notification_policy_route_key]; [None] is Python's. *)
Definition notification_policy_route_key (context : pydict) : option string :=
  match dget context "notification_policy" with
  | PBool true =>
      let key := lower (strip (py_str (py_or (dget context "route_key") (PStr EmptyString)))) in
      if is_empty key then None else Some key
  | _ => None
  end.

Record slack_target := SlackTarget {
  st_route_key : option string; st_env_name : string; st_webhook_url : string; st_configured : bool; st_valid : bool;
  st_generic : bool;
}.

(** A list the Slack payload is made of. *)
Definition context_line (context : pydict) (label key : string) : list string :=
  if is_none (dget context key) then [] else [label +:+ py_str (dget context key)].

(** [context.get(key) or 'unknown']. *)
Definition or_unknown (context : pydict) (key : string) : string := py_str (py_or (dget context key) (PStr "unknown")).

Definition newline : string := String (ascii_of_N 10) EmptyString.

Definition format_slack_payload (action : string) (params context : pydict) : pydict :=
  let preformatted := strip (py_str (py_or (dget params "text") (PStr EmptyString))) in
  if negb (is_empty preformatted) then [("text", PStr (clip MAX_SLACK_TEXT_CHARS preformatted))]
  else
    let summary := strip (py_str (py_or (py_or (dget params "message") (dget params "summary"))
                                    (PStr DEFAULT_SLACK_SUMMARY))) in
    let summary := clip MAX_SLACK_TEXT_CHARS (if is_empty summary then DEFAULT_SLACK_SUMMARY else summary) in
    let destination := strip (py_str (py_or (dget params "destination_label") (PStr EmptyString))) in
    let lines :=
      ["SOAR notification"; "Action: " +:+ action; "Playbook: " +:+ or_unknown context "playbook_id";
       "Execution: " +:+ or_unknown context "execution_id"] ++
      context_line context "Alert: " "alert_id" ++ context_line context "Incident: " "incident_id" ++
      (if is_empty destination then [] else ["Destination: " +:+ destination]) ++ ["Summary: " +:+ summary] in
    [("text", PStr (clip MAX_SLACK_TEXT_CHARS (String.concat newline lines)))].

Definition slack_simulate (mode action : string) (params context : pydict) : pydict :=
  result_as slack mode own_mode action params context true "Simulated slack action. No webhook or API call was made."
    [("delivery", PStr "not_sent")].

Section Slack.
Context (o : outside).
Let env := os_environ o.

Definition slack_webhook_valid_for_env (env_name : string) : bool :=
  String.prefix "https://hooks.slack.com/services/" (env_text env env_name).

Definition resolve_slack_webhook_target (context : pydict) : slack_target :=
  let target route env_name generic :=
    SlackTarget route env_name (env_text env env_name) (env_set env env_name) (slack_webhook_valid_for_env env_name)
      generic in
  let route := notification_policy_route_key context in
  match (match route with Some key => assoc key ROUTE_KEY_TO_SLACK_WEBHOOK_ENV | None => None end) with
  | Some env_name => target route env_name false
  | None => target None SLACK_WEBHOOK_ENV true
  end.

Definition slack_timeout_seconds : Z := env_number env "SLACK_TIMEOUT_SECONDS" 3 30.

Definition slack_guards (mode : option string) (credential_env : string) : readiness :=
  validate_real_mode_guards env "slack" mode SLACK_REAL_ALLOW_ENV [credential_env] staging.

Definition slack_real_mode_allowed : bool := rg_real_mode_allowed (slack_guards (Some REAL_MODE) SLACK_WEBHOOK_ENV).

(** [configured_mode or os.getenv("INTEGRATION_MODE", ...)]. *)
Definition configured_or_env (configured_mode : option string) : string :=
  lower (strip (match configured_mode with
                | Some (String _ _ as m) => m
                | _ => default SIMULATION_MODE (env "INTEGRATION_MODE")
                end)).

(** [get_slack_real_mode_readiness]. *)
Record slack_readiness := SlackReadiness {
  sl_configured : bool; sl_real_mode_allowed : bool; sl_real_mode_ready : bool; sl_real_mode_status : string;
}.

Definition get_slack_real_mode_readiness (configured_mode : option string) : slack_readiness :=
  let mode := configured_or_env configured_mode in
  let guards := slack_guards (Some mode) SLACK_WEBHOOK_ENV in
  let configured := env_set env SLACK_WEBHOOK_ENV in
  let valid := slack_webhook_valid_for_env SLACK_WEBHOOK_ENV in
  let allowed := rg_real_mode_allowed guards in
  SlackReadiness configured allowed (allowed && configured && valid)
    (if negb (String.eqb mode REAL_MODE) then "simulation"
     else match rg_missing_guards guards with
          | _ :: _ => rg_real_mode_status guards
          | [] => if negb configured then "blocked: Slack webhook is not configured"
                  else if negb valid then "blocked: Slack webhook configuration is invalid"
                  else "ready"
          end).

(** [missing webhook X] or [missing route-specific webhook X for R]. *)
Definition slack_target_problem (problem : string) (t : slack_target) : string :=
  "Slack real mode failed closed: " +:+ problem +:+
  match st_route_key t with
  | Some route => " route-specific webhook " +:+ st_env_name t +:+ " for " +:+ route +:+ "."
  | None => " webhook " +:+ st_env_name t +:+ "."
  end.

Definition slack_base_metadata (t : slack_target) (allowed : bool) : pydict :=
  [("delivery", PStr "not_sent"); ("slack_configured", PBool (st_configured t)); ("real_mode_allowed", PBool allowed);
   ("real_mode_ready", PBool (allowed && st_configured t && st_valid t)); ("webhook_configured", PBool (st_configured t));
   ("timeout_seconds", PInt slack_timeout_seconds); ("max_adapter_attempts", PInt 1)].

(** The send, and what its reply comes to. *)
Definition slack_send (base : pydict) (url : string) (payload : pydict) : M traffic attempt :=
  let request := HttpRequest url [("Content-Type", PStr "application/json")] payload slack_timeout_seconds in
  let* n := send (HttpPost request) in
  let fail message classification retry extra :=
    ret (failed false message (failure_keys base classification retry extra)) in
  match os_http o n request with
  | HttpTimeout =>
      fail "Slack real-mode send timed out safely." TIMEOUT true
        [("timed_out", PBool true); ("elapsed_ms", PInt (os_elapsed_ms o))]
  | HttpError code =>
      let transient := (500 <=? code) || (code =? 429) in
      fail ("Slack real-mode send failed safely with HTTP " +:+ str_int code +:+ ".")
        (if transient then TRANSIENT else NON_TRANSIENT) transient [("http_status", PInt code)]
  | HttpUrlError => fail "Slack real-mode send failed safely before confirmation." TRANSIENT true []
  | HttpOther e => raise e
  | HttpStatus status =>
      ret (Attempt ((200 <=? status) && (status <? 300)) false true "Slack real-mode notification sent."
             (dmerge base [("delivery", PStr "sent"); ("http_status", PInt status);
                           ("payload_fields", PList [PStr "text"]); ("retry_eligible", PBool false)]))
  end.

Definition slack_attempt (action : string) (params context : pydict) : M traffic attempt :=
  let t := resolve_slack_webhook_target context in
  let guards := slack_guards (Some REAL_MODE) (st_env_name t) in
  let base := slack_base_metadata t (rg_real_mode_allowed guards) in
  if negb (rg_real_mode_allowed guards) then
    ret (failed true ("Slack real mode failed closed: " +:+ rg_real_mode_status guards +:+ ".")
           (failure_keys base
              (if str_in (st_env_name t) (rg_missing_guards guards) then CREDENTIAL_MISSING else NON_TRANSIENT) false []))
  else if negb (st_configured t) then
    ret (failed true (slack_target_problem "missing" t)
           (failure_keys base CREDENTIAL_MISSING false [("webhook_configured", PBool false)]))
  else if negb (st_valid t) then
    ret (failed true (slack_target_problem "invalid" t)
           (failure_keys base NON_TRANSIENT false [("webhook_configured", PBool true)]))
  else
    within_rate_limit o slack "Slack" base (slack_send base (st_webhook_url t) (format_slack_payload action params context)).

(** [_execute_supported_action]. *)
Definition slack_execute (mode action : string) (params context : pydict) : M traffic pyval :=
  if negb (String.eqb mode REAL_MODE) then ret (PDict (slack_simulate mode action params context))
  else let* t := slack_attempt action params context in audited o slack mode action params context t.
End Slack.
