(* ===== verification/EmailAdapter.v ===== *)
(** * EmailAdapter: integrations/email_adapter.py *)

From S2P Require Import Prelude PyText PyValue RateLimiter CircuitBreaker Integration RealMode SlackAdapter.

Open Scope Z_scope.

Definition email : adapter := Adapter "email" ["send_email"; "notify_owner"; "test_notification"] true.

Definition EMAIL_REAL_ALLOW_ENV : string := "SOAR_REAL_EMAIL_ENABLED".
Definition SMTP_HOST_ENV : string := "SMTP_HOST".
Definition SMTP_USERNAME_ENV : string := "SMTP_USERNAME".
Definition SMTP_FROM_ENV : string := "SMTP_FROM_EMAIL".
Definition SMTP_TO_ENV : string := "SMTP_TO_EMAIL".

Definition email_simulate (mode action : string) (params context : pydict) : pydict :=
  result_as email mode own_mode action params context true
    "Simulated email action. No SMTP or provider call was made." [("delivery", PStr "not_sent")].

(** A line feed or a carriage return. *)
Definition has_newline (s : string) : bool := char_in (ascii_of_N 10) s || char_in (ascii_of_N 13) s.

Definition safe_email (v : pyval) : string := clip 320 (strip (py_str (py_or v (PStr EmptyString)))).
Definition valid_email (s : string) : bool := negb (is_empty s) && char_in "@" s && negb (has_newline s).

(** The addresses, subject and text of a message. *)
Record email_message := EmailMessage { em_to : string; em_from : string; em_subject : string; em_body : string }.

Section Email.
Context (o : outside).
Let env := os_environ o.

Definition email_timeout_seconds : Z := env_number env "EMAIL_TIMEOUT_SECONDS" 10 60.
Definition smtp_port : Z := env_number env "SMTP_PORT" 587 65535.

(** [get_email_real_mode_readiness]. *)
Record email_readiness := EmailReadiness {
  el_guards : readiness;
  el_smtp_configured : bool;
  el_real_mode_allowed : bool;
  el_real_mode_ready : bool;
  el_real_mode_status : string;
}.

Definition get_email_real_mode_readiness (configured_mode : option string) : email_readiness :=
  let mode := configured_or_env o configured_mode in
  let guards := validate_real_mode_guards env "email" (Some mode) EMAIL_REAL_ALLOW_ENV [SMTP_HOST_ENV; SMTP_USERNAME_ENV]
                  staging in
  let defaults := env_set env SMTP_FROM_ENV && env_set env SMTP_TO_ENV in
  let allowed := rg_real_mode_allowed guards in
  EmailReadiness guards (env_set env SMTP_HOST_ENV && env_set env SMTP_USERNAME_ENV) allowed (allowed && defaults)
    (if negb (String.eqb mode REAL_MODE) then "simulation"
     else match rg_missing_guards guards with
          | _ :: _ => rg_real_mode_status guards
          | [] => if negb defaults then "blocked: Email real mode requires SMTP_FROM_EMAIL and SMTP_TO_EMAIL defaults"
                  else "ready"
          end).

Definition email_base_metadata (r : email_readiness) : pydict :=
  [("delivery", PStr "not_sent"); ("smtp_configured", PBool (el_smtp_configured r));
   ("smtp_host_configured", PBool (env_set env SMTP_HOST_ENV));
   ("smtp_username_configured", PBool (env_set env SMTP_USERNAME_ENV));
   ("smtp_from_configured", PBool (env_set env SMTP_FROM_ENV)); ("smtp_to_configured", PBool (env_set env SMTP_TO_ENV));
   ("email_real_enabled", PBool (env_enabled env EMAIL_REAL_ALLOW_ENV));
   ("real_mode_allowed", PBool (el_real_mode_allowed r)); ("real_mode_ready", PBool (el_real_mode_ready r));
   ("timeout_seconds", PInt email_timeout_seconds); ("max_adapter_attempts", PInt 1)].

(** [os.getenv(name)] as a value. *)
Definition getenv (name : string) : pyval := opt_text (env name).

(** [_build_email_message]: the message or the exception. *)
Definition build_email_message (action : string) (params context : pydict) : outcome email_message :=
  let to_addr := safe_email (py_or (py_or (dget params "to") (dget params "recipient")) (getenv SMTP_TO_ENV)) in
  let from_addr := safe_email (py_or (dget params "from") (getenv SMTP_FROM_ENV)) in
  if negb (valid_email to_addr) || negb (valid_email from_addr) then
    Raise (ValueError "Email real mode requires valid from/to addresses")
  else
    let subject := strip (py_str (py_or (dget params "subject") (PStr "SOAR playbook notification"))) in
    if is_empty subject || has_newline subject then Raise (ValueError "Email real mode requires a safe subject")
    else
      let subject := clip 160 subject in
      let body := strip (py_str (py_or (py_or (dget params "body") (dget params "message")) (PStr DEFAULT_SLACK_SUMMARY))) in
      let body := clip 4000 (if is_empty body then DEFAULT_SLACK_SUMMARY else body) in
      let lines :=
        [body; EmptyString; "SOAR context:"; "Action: " +:+ action; "Playbook: " +:+ or_unknown context "playbook_id";
         "Execution: " +:+ or_unknown context "execution_id"] ++
        context_line context "Alert: " "alert_id" ++ context_line context "Incident: " "incident_id" in
      let text := clip 4000 (String.concat newline lines) in
      match os_email_message o to_addr from_addr subject text with
      | Some e => Raise e
      | None => Ok (EmailMessage to_addr from_addr subject text)
      end.

(** The send, and what its reply comes to. *)
Definition email_send (base : pydict) (m : email_message) : M traffic attempt :=
  let request :=
    SmtpRequest (env_text env SMTP_HOST_ENV) smtp_port email_timeout_seconds
      (truthy_text (default "true" (env "SMTP_USE_TLS"))) (env_text env SMTP_USERNAME_ENV)
      (default EmptyString (env "SMTP_PASSWORD")) (em_to m) (em_from m) (em_subject m) (em_body m) in
  let* n := send (SmtpSend request) in
  let fail message classification retry extra :=
    ret (failed false message (failure_keys base classification retry extra)) in
  match os_smtp o n request with
  | SmtpTimeout =>
      fail "Email real-mode send timed out safely." TIMEOUT true
        [("timed_out", PBool true); ("elapsed_ms", PInt (os_elapsed_ms o))]
  | SmtpAuthError => fail "Email real-mode authentication failed safely." INVALID_CREDENTIALS false []
  | SmtpRecipientsRefused => fail "Email real-mode recipient was rejected safely." MALFORMED_PAYLOAD false []
  | SmtpResponse code =>
      let classification := if existsb (Z.eqb code) [421; 450; 451; 452] then PROVIDER_RATE_LIMITED
                            else if 500 <=? code then TEMPORARY_PROVIDER_FAILURE else MALFORMED_PAYLOAD in
      fail ("Email real-mode provider rejected safely with SMTP " +:+ str_int code +:+ ".") classification
        (str_in classification [PROVIDER_RATE_LIMITED; TEMPORARY_PROVIDER_FAILURE]) [("smtp_status", PInt code)]
  | SmtpOsError => fail "Email real-mode send failed safely before confirmation." TRANSIENT_NETWORK_ERROR true []
  | SmtpOther e => raise e
  | SmtpSent true =>
      fail "Email real-mode provider refused one or more recipients safely." MALFORMED_PAYLOAD false []
  | SmtpSent false =>
      ret (Attempt true false true "Email real-mode notification sent."
             (dmerge base [("delivery", PStr "sent");
                           ("payload_fields", PList [PStr "body"; PStr "from"; PStr "subject"; PStr "to"]);
                           ("retry_eligible", PBool false); ("elapsed_ms", PInt (os_elapsed_ms o))]))
  end.

Definition email_attempt (action : string) (params context : pydict) : M traffic attempt :=
  let r := get_email_real_mode_readiness (Some REAL_MODE) in
  let base := email_base_metadata r in
  let closed classification :=
    ret (failed true ("Email real mode failed closed: " +:+ el_real_mode_status r +:+ ".")
           (failure_keys base classification false [])) in
  if negb (el_real_mode_allowed r) then closed CREDENTIAL_MISSING
  else if negb (el_real_mode_ready r) then closed MALFORMED_PAYLOAD
  else
    within_rate_limit o email "Email" base
      match build_email_message action params context with
      | Raise e =>
          if is_value_error e
          then ret (failed false ("Email real-mode payload rejected safely: " +:+ exn_str e)
                      (failure_keys base MALFORMED_PAYLOAD false []))
          else raise e
      | Ok m => email_send base m
      end.

Definition email_execute (mode action : string) (params context : pydict) : M traffic pyval :=
  if negb (String.eqb mode REAL_MODE) then ret (PDict (email_simulate mode action params context))
  else let* t := email_attempt action params context in audited o email mode action params context t.
End Email.
