(* ===== verification/WebhookAdapter.v ===== *)
(** * WebhookAdapter: integrations/webhook_adapter.py *)

From S2P Require Import Prelude PyText PyFloat PyValue RateLimiter CircuitBreaker Integration UrlTarget RealMode SlackAdapter.

Open Scope Z_scope.

Definition webhook : adapter :=
  Adapter "webhook" ["post_event"; "send_webhook"; "notify_webhook"; "test_notification"] true.

Definition WEBHOOK_URL_ENV : string := "WEBHOOK_URL".
Definition WEBHOOK_BASE_URL_ENV : string := "WEBHOOK_BASE_URL".
Definition WEBHOOK_REAL_ALLOW_ENV : string := "SOAR_REAL_WEBHOOK_ENABLED".
Definition MAX_WEBHOOK_BODY_BYTES : Z := 8192.
Definition MAX_WEBHOOK_SUMMARY_CHARS : nat := 2000.

(** The names of [_SAFE_PAYLOAD_KEYS]; the order in which a frozenset is
    walked does not show, since the body is sorted. *)
Definition SAFE_PAYLOAD_KEYS : list string :=
  ["alert_id"; "alert_type"; "event"; "event_type"; "execution_id"; "incident_id"; "message"; "playbook_id"; "severity";
   "source"; "summary"].

Definition webhook_simulate (mode action : string) (params context : pydict) : pydict :=
  result_as webhook mode own_mode action params context true "Simulated webhook action. No HTTP request was made."
    [("delivery", PStr "not_sent")].

(** ** The payload *)

Definition safe_scalar (max_len : nat) (v : pyval) : pyval :=
  match v with
  | PNone => PNone
  | PBool _ | PInt _ | PFloat _ => v
  | _ =>
      let text := strip (py_str v) in
      if is_empty text || char_in (ascii_of_N 10) text || char_in (ascii_of_N 13) text then PNone
      else PStr (clip max_len text)
  end.

(** [json.dumps] of a string, with [ensure_ascii]. *)
Definition json_char (c : ascii) : string :=
  let n := N_of_ascii c in
  if Ascii.eqb c dquote then String (ascii_of_N 92) (String dquote EmptyString)
  else if (n =? 92)%N then String c (String c EmptyString)
  else if (n =? 8)%N then String (ascii_of_N 92) "b"
  else if (n =? 9)%N then String (ascii_of_N 92) "t"
  else if (n =? 10)%N then String (ascii_of_N 92) "n"
  else if (n =? 12)%N then String (ascii_of_N 92) "f"
  else if (n =? 13)%N then String (ascii_of_N 92) "r"
  else if (n <? 32)%N || (126 <? n)%N
       then String (ascii_of_N 92) ("u00" +:+ String (hex_digit (n / 16)) (String (hex_digit (n mod 16)) EmptyString))
  else String c EmptyString.

Fixpoint json_chars (s : string) : string :=
  match s with EmptyString => EmptyString | String c s => json_char c +:+ json_chars s end.

Definition json_string (s : string) : string := String dquote (json_chars s +:+ String dquote EmptyString).

(** [json.dumps] of a scalar. *)
Definition json_scalar (v : pyval) : string :=
  match v with
  | PBool b => if b then "true" else "false"
  | PInt z => str_int z
  | PFloat S754_nan => "NaN"
  | PFloat (S754_infinity neg) => if neg then "-Infinity" else "Infinity"
  | PFloat f => float_repr f
  | PStr s => json_string s
  | _ => "null"
  end.

(** [json.dumps(d, separators=(",", ":"), sort_keys=True)] of a dict of
    scalars. *)
Definition json_object (d : pydict) : string :=
  let keys := merge_sort str_le (map fst d) in
  "{" +:+ String.concat "," (map (fun k => json_string k +:+ ":" +:+ json_scalar (dget d k)) keys) +:+ "}".

Definition json_size (d : pydict) : Z := Z.of_nat (String.length (json_object d)).

(** The key, when the value is a safe one. *)
Definition set_safe (payload : pydict) (key : string) (v : pyval) : pydict :=
  let safe := safe_scalar MAX_WEBHOOK_SUMMARY_CHARS v in if is_none safe then payload else dset payload key safe.

Definition merge_nested (payload : pydict) (kv : string * pyval) : pydict :=
  let key := lower (strip kv.1) in
  if str_in key SAFE_PAYLOAD_KEYS then set_safe payload key kv.2 else payload.

Definition merge_param (params payload : pydict) (key : string) : pydict :=
  if dmem payload key then payload
  else match dlookup params key with Some v => set_safe payload key v | None => payload end.

Definition webhook_payload (action : string) (params context : pydict) : pydict :=
  let scalar key := safe_scalar 512 (dget context key) in
  let payload :=
    [("event", PStr "soar_playbook_notification"); ("action", PStr action); ("playbook_id", scalar "playbook_id");
     ("execution_id", scalar "execution_id"); ("alert_id", scalar "alert_id"); ("incident_id", scalar "incident_id")] in
  let payload := match dget params "payload" with PDict nested => foldl merge_nested payload nested | _ => payload end in
  let payload := foldl (merge_param params) payload SAFE_PAYLOAD_KEYS in
  let payload := set_safe payload "summary"
                   (py_or (py_or (dget params "message") (dget params "summary")) (dget params "event")) in
  let payload := if truthy (dget payload "summary") then payload
                 else dset payload "summary" (PStr DEFAULT_SLACK_SUMMARY) in
  compact payload.

Definition payload_too_large : exn := ValueError "Webhook payload exceeds maximum allowed size".

Definition build_webhook_payload (action : string) (params context : pydict) : outcome pydict :=
  let payload := webhook_payload action params context in
  if MAX_WEBHOOK_BODY_BYTES <? json_size payload then Raise payload_too_large else Ok payload.

Section Webhook.
Context (o : outside).
Let env := os_environ o.

Definition configured_webhook_url : string :=
  if env_set env WEBHOOK_URL_ENV then env_text env WEBHOOK_URL_ENV
  else if env_set env WEBHOOK_BASE_URL_ENV then env_text env WEBHOOK_BASE_URL_ENV else EmptyString.

Definition webhook_timeout_seconds : Z := env_number env "WEBHOOK_TIMEOUT_SECONDS" 5 60.

(** [get_webhook_real_mode_readiness]. *)
Record webhook_readiness := WebhookReadiness {
  wr_configured : bool;
  wr_real_enabled : bool;
  wr_real_mode_allowed : bool;
  wr_real_mode_ready : bool;
  wr_real_mode_status : string;
  wr_missing_guards : list string;
}.

Definition get_webhook_real_mode_readiness (configured_mode : option string) : webhook_readiness :=
  let mode := configured_or_env o configured_mode in
  let guards := validate_real_mode_guards env "webhook" (Some mode) WEBHOOK_REAL_ALLOW_ENV [] staging in
  let url := configured_webhook_url in
  let configured := negb (is_empty url) in
  (* WEBHOOK_URL is not a guard's name: nothing is listed twice *)
  let missing := rg_missing_guards guards ++ (if configured then [] else [WEBHOOK_URL_ENV]) in
  let allowed := match missing with [] => true | _ => false end in
  let failure := if configured then validate_https_target_url url else None in
  let target_allowed := configured && match failure with None => true | Some _ => false end in
  WebhookReadiness configured (env_enabled env WEBHOOK_REAL_ALLOW_ENV) allowed (allowed && configured && target_allowed)
    (if negb (String.eqb mode REAL_MODE) then "simulation"
     else if negb allowed then "blocked: webhook real mode requires guard(s): " +:+ String.concat ", " missing
     else if negb configured then "blocked: Webhook URL is not configured"
     else if negb target_allowed then
       (if bool_decide (failure = Some INVALID_CREDENTIALS) then "blocked: Webhook URL must use https:// scheme"
        else if bool_decide (failure = Some INVALID_TARGET) then "blocked: Webhook URL target is not allowed"
        else "blocked: Webhook URL configuration is invalid")
     else "ready")
    missing.

Definition webhook_base_metadata (r : webhook_readiness) : pydict :=
  [("delivery", PStr "not_sent"); ("webhook_configured", PBool (wr_configured r));
   ("webhook_url_configured", PBool (wr_configured r)); ("webhook_real_enabled", PBool (wr_real_enabled r));
   ("real_mode_allowed", PBool (wr_real_mode_allowed r)); ("real_mode_ready", PBool (wr_real_mode_ready r));
   ("timeout_seconds", PInt webhook_timeout_seconds); ("max_adapter_attempts", PInt 1)].

(** [_resolve_request_url]. *)
Definition resolve_request_url (params : pydict) : outcome (string + string) :=
  resolve_target configured_webhook_url (strip (py_str (py_or (dget params "path") (PStr EmptyString)))).

(** [_build_request_headers]. *)
Definition build_request_headers : pydict :=
  [("Content-Type", PStr "application/json"); ("User-Agent", PStr "SOAR-Webhook/1.0")] ++
  (if env_set env "WEBHOOK_AUTH_TOKEN" then [("Authorization", PStr ("Bearer " +:+ env_text env "WEBHOOK_AUTH_TOKEN"))]
   else []).

(** The send, and what its reply comes to. *)
Definition webhook_send (base : pydict) (url : string) (payload : pydict) : M traffic attempt :=
  if MAX_WEBHOOK_BODY_BYTES <? json_size payload then raise payload_too_large
  else
    let request := HttpRequest url build_request_headers payload webhook_timeout_seconds in
    let* n := send (HttpPost request) in
    let fail message classification retry extra :=
      ret (failed false message (failure_keys base classification retry extra)) in
    match os_http o n request with
    | HttpTimeout =>
        fail "Webhook real-mode send timed out safely." TIMEOUT true
          [("timed_out", PBool true); ("elapsed_ms", PInt (os_elapsed_ms o))]
    | HttpError code =>
        let '(classification, retryable) :=
          if code =? 429 then (PROVIDER_RATE_LIMITED, true)
          else if 500 <=? code then (TEMPORARY_PROVIDER_FAILURE, true) else (MALFORMED_PAYLOAD, false) in
        fail ("Webhook real-mode send failed safely with HTTP " +:+ str_int code +:+ ".") classification retryable
          [("http_status", PInt code)]
    | HttpUrlError =>
        fail "Webhook real-mode send failed safely before confirmation." TRANSIENT_NETWORK_ERROR true []
    | HttpOther e => raise e
    | HttpStatus status =>
        ret (Attempt ((200 <=? status) && (status <? 300)) false true "Webhook real-mode notification sent."
               (dmerge base [("delivery", PStr "sent"); ("http_status", PInt status);
                             ("payload_fields", PList (map PStr (merge_sort str_le (map fst payload))));
                             ("retry_eligible", PBool false); ("elapsed_ms", PInt (os_elapsed_ms o))]))
    end.

Definition webhook_closed_classification (status : string) : string :=
  if contains "https://" status then INVALID_CREDENTIALS
  else if contains "target is not allowed" status then INVALID_TARGET else MALFORMED_PAYLOAD.

Definition webhook_attempt (action : string) (params context : pydict) : M traffic attempt :=
  let r := get_webhook_real_mode_readiness (Some REAL_MODE) in
  let base := webhook_base_metadata r in
  let closed classification :=
    ret (failed true ("Webhook real mode failed closed: " +:+ wr_real_mode_status r +:+ ".")
           (failure_keys base classification false [])) in
  if negb (wr_real_mode_allowed r) then closed CREDENTIAL_MISSING
  else if negb (wr_real_mode_ready r) then closed (webhook_closed_classification (wr_real_mode_status r))
  else
    within_rate_limit o webhook "Webhook" base
      (let* target := of_outcome (resolve_request_url params) in
       match target with
       | inr failure =>
           ret (failed false "Webhook real-mode target rejected safely before outbound call."
                  (failure_keys base failure false []))
       | inl url =>
           match build_webhook_payload action params context with
           | Raise e =>
               if is_value_error e
               then ret (failed false ("Webhook real-mode payload rejected safely: " +:+ exn_str e)
                           (failure_keys base MALFORMED_PAYLOAD false []))
               else raise e
           | Ok payload => webhook_send base url payload
           end
       end).

Definition webhook_execute (mode action : string) (params context : pydict) : M traffic pyval :=
  if negb (String.eqb mode REAL_MODE) then ret (PDict (webhook_simulate mode action params context))
  else let* t := webhook_attempt action params context in audited o webhook mode action params context t.
End Webhook.
