(* ===== verification/IntegrationRegistry.v ===== *)
(** * IntegrationRegistry: integrations/integration_registry.py

    The registry, and the two adapters that only simulate
    (integrations/teams_adapter.py, integrations/firewall_adapter.py). *)

From S2P Require Import Prelude PyText PyValue RateLimiter CircuitBreaker Integration RealMode.
From S2P Require Import SlackAdapter EmailAdapter WebhookAdapter.

Open Scope Z_scope.

Definition teams : adapter :=
  Adapter "teams" ["send_message"; "notify_channel"; "notify_teams"; "test_notification"] false.
Definition firewall : adapter := Adapter "firewall" ["block_ip"; "unblock_ip"; "tag_ip"] false.

Definition firewall_simulate (mode action : string) (params context : pydict) : pydict :=
  result_as firewall mode own_mode action params context true
    "Simulated firewall action. No firewall or blocklist change was made." [("mutation", PStr "none")].

Definition real_mode_disabled : exn := OtherException "real integration mode is not implemented".

Section Registry.
Context (o : outside).
Let env := os_environ o.

(** ** Teams *)

Definition TEAMS_WEBHOOK_ENV : string := "TEAMS_WEBHOOK_URL".
Definition teams_webhook_configured : bool := env_set env TEAMS_WEBHOOK_ENV.

Definition teams_webhook_valid : bool :=
  let value := lower (env_text env TEAMS_WEBHOOK_ENV) in
  negb (is_empty value) && String.prefix "https://" value &&
  (contains "webhook.office.com" value || contains "logic.azure.com" value ||
   (contains "office.com" value && contains "webhook" value)).

Definition teams_status : string := "disabled: Teams remains simulation-only".

Definition get_teams_real_mode_readiness : pydict :=
  [("teams_configured", PBool teams_webhook_configured); ("real_mode_allowed", PBool false);
   ("real_mode_ready", PBool false); ("real_mode_status", PStr teams_status);
   ("webhook_configured", PBool teams_webhook_configured);
   ("webhook_valid", PBool (teams_webhook_configured && teams_webhook_valid)); ("simulation_only", PBool true)].

Definition teams_simulate (mode action : string) (params context : pydict) : pydict :=
  result_as teams mode own_mode action params context true "Simulated Teams action. No webhook or API call was made."
    [("delivery", PStr "not_sent"); ("simulation_only", PBool true); ("teams_configured", PBool teams_webhook_configured);
     ("real_mode_allowed", PBool false); ("real_mode_ready", PBool false);
     ("timeout_seconds", PInt (env_number env "TEAMS_TIMEOUT_SECONDS" 3 30))].

(** ** The adapters by name *)

(** An adapter class: its attributes and its [_execute_supported_action]. *)
Record integration := MkIntegration {
  ig_adapter : adapter;
  ig_action : string -> string -> pydict -> pydict -> M traffic pyval;
}.

Definition simulating (simulate : string -> string -> pydict -> pydict -> pydict)
    : string -> string -> pydict -> pydict -> M traffic pyval :=
  fun mode action params context => ret (PDict (simulate mode action params context)).

(** [_ADAPTERS], in the order of its names. *)
Definition ADAPTERS : list (string * integration) :=
  [("email", MkIntegration email (email_execute o)); ("firewall", MkIntegration firewall (simulating firewall_simulate));
   ("slack", MkIntegration slack (slack_execute o)); ("teams", MkIntegration teams (simulating teams_simulate));
   ("webhook", MkIntegration webhook (webhook_execute o))].

Definition normalize_registered_integration_adapter_name (name : string) : option string :=
  let key := lower (strip name) in
  match assoc key ADAPTERS with Some _ => if is_empty key then None else Some key | None => None end.

Definition integration_mode_env : string := default SIMULATION_MODE (env "INTEGRATION_MODE").

Definition or_simulation (mode : string) : string := if is_empty mode then SIMULATION_MODE else mode.

Definition resolve_integration_mode (mode : option string) : outcome string :=
  let normalized := lower (strip (or_simulation (default integration_mode_env mode))) in
  if str_in normalized [SIMULATION_MODE; REAL_MODE] then Ok normalized else Raise real_mode_disabled.

Definition safe_adapter_mode_decision (adapter_name configured_mode : string) : string :=
  if negb (String.eqb configured_mode REAL_MODE) then SIMULATION_MODE
  else if str_in adapter_name ["slack"; "email"; "webhook"] then REAL_MODE else SIMULATION_MODE.

(** The breaker that the startup log looks at is created by looking. *)
Definition log_adapter_registry_startup (adapter_name : string) : M (world traffic) unit :=
  in_circuits (get_simulated_circuit_breaker_dict adapter_name) ;;; ret tt.

(** The adapter and its mode. *)
Definition get_integration_adapter (name : string) (mode : option string)
    : M (world traffic) (integration * string) :=
  let normalized := lower (strip name) in
  if is_empty normalized then raise (ValueError "integration adapter name is required")
  else match assoc normalized ADAPTERS with
       | None => raise (ValueError ("unknown integration adapter: " +:+ normalized))
       | Some ig =>
           let* configured := of_outcome (resolve_integration_mode mode) in
           let resolved := safe_adapter_mode_decision normalized configured in
           log_adapter_registry_startup normalized ;;;
           let* m := of_outcome (init_mode (ig_adapter ig) resolved) in
           ret (ig, m)
       end.

(** [adapter.execute] of an object of the class. *)
Definition execute_on (ig : integration) (mode : string) (now : Z) (action : string) (params context : pyval)
    : M (world traffic) pydict :=
  execute (ig_adapter ig) mode now (ig_action ig mode) action params context.

(** [get_integration_adapter(name, mode).execute(...)], as the callers do. *)
Definition use_adapter (name : string) (mode : option string) (now : Z) (action : string) (params context : pyval)
    : M (world traffic) pydict :=
  let* am := get_integration_adapter name mode in
  execute_on am.1 am.2 now action params context.

Definition execute_playbook_simulated_adapter (now : Z) (adapter_name adapter_action : string) (params context : pyval)
    : M (world traffic) pydict :=
  use_adapter adapter_name None now adapter_action params context.

Fixpoint start_adapters (configured_mode : string) (l : list (string * integration))
    : M (world traffic) (list (string * (integration * string))) :=
  match l with
  | [] => ret []
  | (name, ig) :: l =>
      let decision := safe_adapter_mode_decision name configured_mode in
      log_adapter_registry_startup name ;;;
      let* m := of_outcome (init_mode (ig_adapter ig) decision) in
      let* rest := start_adapters configured_mode l in
      ret ((name, (ig, m)) :: rest)
  end.

Definition list_integration_adapters (mode : option string) : M (world traffic) (list (string * (integration * string))) :=
  let* configured := of_outcome (resolve_integration_mode mode) in
  start_adapters configured ADAPTERS.

(** ** The status page *)

(** Whether the real mode of the adapter is ready, and its part of the row. *)
Definition row_ready (configured_mode name : string) : bool :=
  if String.eqb name "slack" then sl_real_mode_ready (get_slack_real_mode_readiness o (Some configured_mode))
  else if String.eqb name "email" then el_real_mode_ready (get_email_real_mode_readiness o (Some configured_mode))
  else if String.eqb name "webhook" then wr_real_mode_ready (get_webhook_real_mode_readiness o (Some configured_mode))
  else false.

Definition row_details (configured_mode name : string) : pydict :=
  if String.eqb name "slack" then
    let r := get_slack_real_mode_readiness o (Some configured_mode) in
    [("slack_configured", PBool (sl_configured r)); ("real_mode_allowed", PBool (sl_real_mode_allowed r));
     ("real_mode_ready", PBool (sl_real_mode_ready r)); ("webhook_configured", PBool (sl_configured r))]
  else if String.eqb name "email" then
    let r := get_email_real_mode_readiness o (Some configured_mode) in
    [("smtp_configured", PBool (el_smtp_configured r)); ("smtp_host_configured", PBool (env_set env SMTP_HOST_ENV));
     ("smtp_username_configured", PBool (env_set env SMTP_USERNAME_ENV));
     ("smtp_from_configured", PBool (env_set env SMTP_FROM_ENV)); ("smtp_to_configured", PBool (env_set env SMTP_TO_ENV));
     ("email_real_enabled", PBool (env_enabled env EMAIL_REAL_ALLOW_ENV));
     ("real_mode_allowed", PBool (el_real_mode_allowed r)); ("real_mode_ready", PBool (el_real_mode_ready r))]
  else if String.eqb name "teams" then
    [("teams_configured", PBool teams_webhook_configured); ("real_mode_available", PBool false);
     ("real_mode_allowed", PBool false); ("real_mode_ready", PBool false); ("simulation_only", PBool true);
     ("real_mode_status", PStr teams_status); ("webhook_configured", PBool teams_webhook_configured)]
  else if String.eqb name "firewall" then
    [("real_mode_available", PBool false); ("real_mode_allowed", PBool false); ("real_mode_ready", PBool false);
     ("real_mode_status", PStr "blocked: firewall real mode requires a separate approved OpenSpec")]
  else if String.eqb name "webhook" then
    let r := get_webhook_real_mode_readiness o (Some configured_mode) in
    [("webhook_url_configured", PBool (wr_configured r)); ("webhook_real_enabled", PBool (wr_real_enabled r));
     ("real_mode_allowed", PBool (wr_real_mode_allowed r)); ("real_mode_ready", PBool (wr_real_mode_ready r))]
  else [].

Definition status_row (configured_mode : string) (x : string * integration) : M (world traffic) pyval :=
  let '(name, ig) := x in
  let real := row_ready configured_mode name in
  log_adapter_registry_startup name ;;;
  let* circuit_breaker := in_circuits (get_simulated_circuit_breaker_dict name) in
  ret (PDict ([("name", PStr name); ("mode", PStr (if real then REAL_MODE else SIMULATION_MODE));
               ("simulated", PBool (negb real)); ("real_client", PBool real);
               ("supported_actions", PList (map PStr (merge_sort str_le (supported_actions (ig_adapter ig)))));
               ("circuit_breaker", PDict circuit_breaker)] ++ row_details configured_mode name)).

Fixpoint status_rows (configured_mode : string) (l : list (string * integration)) : M (world traffic) (list pyval) :=
  match l with
  | [] => ret []
  | x :: l =>
      let* row := status_row configured_mode x in
      let* rows := status_rows configured_mode l in
      ret (row :: rows)
  end.

Definition get_integration_status (mode : option string) : M (world traffic) pydict :=
  let normalized := lower (strip (or_simulation (default integration_mode_env mode))) in
  let configured := if str_in normalized [SIMULATION_MODE; REAL_MODE] then normalized else SIMULATION_MODE in
  let s := get_slack_real_mode_readiness o (Some configured) in
  let e := get_email_real_mode_readiness o (Some configured) in
  let w := get_webhook_real_mode_readiness o (Some configured) in
  let ready := sl_real_mode_ready s || el_real_mode_ready e || wr_real_mode_ready w in
  let allowed := sl_real_mode_allowed s || el_real_mode_allowed e || wr_real_mode_allowed w in
  let status := if negb (String.eqb configured REAL_MODE) then "disabled"
                else if ready then "ready"
                else "disabled: no real notification adapter ready; slack=" +:+ sl_real_mode_status s +:+ "; teams=" +:+
                     teams_status +:+ "; email=" +:+ el_real_mode_status e +:+ "; webhook=" +:+ wr_real_mode_status w in
  let* rows := status_rows configured ADAPTERS in
  ret [("mode", PStr (if ready then REAL_MODE else SIMULATION_MODE)); ("configured_mode", PStr configured);
       ("simulated", PBool (negb ready)); ("real_mode_enabled", PBool ready); ("real_mode_status", PStr status);
       ("slack_configured", PBool (sl_configured s)); ("teams_configured", PBool teams_webhook_configured);
       ("smtp_configured", PBool (el_smtp_configured e));
       ("email_real_enabled", PBool (env_enabled env EMAIL_REAL_ALLOW_ENV)); ("real_mode_allowed", PBool allowed);
       ("real_mode_ready", PBool ready); ("adapters", PList rows)].
End Registry.
