(* ===== verification/IntegrationSafety.v ===== *)
(** * IntegrationSafety: what the adapters let out

    Every call to the outside, traced back to the guards that allowed it,
    and what the results say of it. *)

From S2P Require Import Prelude PyText PyValue RateLimiter Sanitizing CircuitBreaker Integration IntegrationProofs.
From S2P Require Import UrlTarget RealMode SlackAdapter EmailAdapter WebhookAdapter IntegrationRegistry.

Open Scope Z_scope.

(** ** The calls that are allowed *)

Definition slack_webhook_envs : list string := SLACK_WEBHOOK_ENV :: map snd ROUTE_KEY_TO_SLACK_WEBHOOK_ENV.

(** The URL of a webhook: the configured one, which is a valid target, or
    what a path under it resolves to.  With a path of visible characters it
    stays on the configured host; [UrlTarget.tab_leaves_host] is a path with a
    tab that does not. *)
Record configured_target (base path url : string) : Prop := ConfiguredTarget {
  ct_configured : is_empty base = false;
  ct_base_valid : validate_https_target_url base = None;
  ct_resolved : resolve_target base path = Ok (inl url);
  ct_valid : validate_https_target_url url = None;
  ct_itself : is_empty path = true -> url = base;
  ct_same_host : forall n t, base = https n t -> is_empty n = false -> all_chars host_char n = true -> after_netloc t ->
    all_chars visible path = true -> hostname_from_url url = hostname_from_url base;
}.

(** The request an adapter may make in an environment: it is enabled, in
    staging, and the request goes where the environment says.  An email goes
    through the server of the environment; its addresses may be the step's. *)
Inductive may_send (o : outside) : string -> outbound -> Prop :=
  | may_slack r env_name :
      lower (env_text (os_environ o) "SOAR_ENV") = "staging" ->
      env_enabled (os_environ o) "SOAR_REAL_SLACK_ENABLED" = true ->
      env_name ∈ slack_webhook_envs -> hr_url r = env_text (os_environ o) env_name ->
      String.prefix "https://hooks.slack.com/services/" (hr_url r) = true ->
      may_send o "slack" (HttpPost r)
  | may_email r :
      lower (env_text (os_environ o) "SOAR_ENV") = "staging" ->
      env_enabled (os_environ o) "SOAR_REAL_EMAIL_ENABLED" = true ->
      sr_host r = env_text (os_environ o) "SMTP_HOST" -> env_set (os_environ o) "SMTP_HOST" = true ->
      env_set (os_environ o) "SMTP_USERNAME" = true -> env_set (os_environ o) "SMTP_FROM_EMAIL" = true ->
      env_set (os_environ o) "SMTP_TO_EMAIL" = true ->
      valid_email (sr_to r) = true -> valid_email (sr_from r) = true -> has_newline (sr_subject r) = false ->
      may_send o "email" (SmtpSend r)
  | may_webhook r path :
      lower (env_text (os_environ o) "SOAR_ENV") = "staging" ->
      env_enabled (os_environ o) "SOAR_REAL_WEBHOOK_ENABLED" = true ->
      configured_target (configured_webhook_url o) path (hr_url r) ->
      json_size (hr_payload r) <= MAX_WEBHOOK_BODY_BYTES ->
      may_send o "webhook" (HttpPost r).

Lemma resolved_configured base path url : resolve_target base path = Ok (inl url) -> configured_target base path url.
Proof.
  intros H. pose proof (resolve_target_checked _ _ _ H) as Hv. split; [| |exact H|exact Hv| |].
  - unfold resolve_target in H. by destruct (is_empty base).
  - unfold resolve_target in H. destruct (is_empty base); [done|]. by destruct (validate_https_target_url base).
  - intros Hp. unfold resolve_target in H. destruct (is_empty base); [done|]. destruct (validate_https_target_url base) eqn:E; [done|].
    cbv zeta in H. rewrite Hp in H. rewrite ?E in H. by injection H.
  - intros n t -> Hn Hc Ht Hvis. by apply (path_stays_on_host n t path url).
Qed.

(** ** Attempts *)

Section Sending.
Context (P : outbound -> Prop).

(** At most one call, allowed by [P]; a result that claims execution made
    one, a result that claims simulation made none. *)
Definition sends_once {A} (simulated executed : A -> bool) (m : M traffic A) : Prop := forall t,
  let '(r, t') := m t in
  (tr_sent t' = tr_sent t /\ forall a, r = Ok a -> executed a = false) \/
  (exists q, tr_sent t' = tr_sent t ++ [q] /\ P q /\ forall a, r = Ok a -> simulated a = false).

Abbreviation attempts_once := (sends_once at_simulated at_executed).

Lemma once_none (a : attempt) : at_executed a = false -> attempts_once (ret a).
Proof. intros Ha t. left. split; [done|]. by intros ? [= <-]. Qed.

Lemma once_raise e : attempts_once (raise e).
Proof. intros t. by left. Qed.

Lemma once_send q (k : nat -> M traffic attempt) :
  P q -> (forall n, (exists e, k n = raise e) \/ exists a, k n = ret a /\ at_simulated a = false) ->
  attempts_once (bind (send q) k).
Proof.
  intros Hq Hk t. unfold bind, send. destruct (Hk (length (tr_sent t))) as [[e ->]|(a & -> & Ha)]; right; exists q;
    (split; [done|]; split; [exact Hq|]); [done|by intros ? [= <-]].
Qed.

Lemma once_rate o a label base m : attempts_once m -> attempts_once (within_rate_limit o a label base m).
Proof.
  intros Hm t. unfold within_rate_limit, bind, in_attempts, zoom.
  destruct (check_adapter_rate_limit _ _ _ _) as [[d|e] s]; [|by left].
  destruct (rd_allowed d); [|by left; split; [|intros ? [= <-]]].
  specialize (Hm (Traffic s (tr_sent t) (tr_audit t))). exact Hm.
Qed.

(** The flags that a result shows. *)
Definition shows (key : string) (v : pyval) : bool :=
  match v with PDict d => match dget d key with PBool b => b | _ => false end | _ => false end.

Lemma once_audited o a mode action params context (m : M traffic attempt) :
  attempts_once m ->
  sends_once (shows "simulated") (shows "executed") (bind m (audited o a mode action params context)).
Proof.
  intros Hm t. specialize (Hm t). unfold bind at 1. destruct (m t) as [[at_|e] t1].
  - unfold audited. unfold bind at 1, log_integration_execution_attempt. unfold bind at 1, of_outcome.
    destruct (build_integration_attempt_audit_details _ _) as [details|e].
    + unfold modify, ret.
      assert (forall t, tr_sent (if os_audit_written o then Traffic (tr_attempts t) (tr_sent t) (tr_audit t ++ [details]) else t)
                = tr_sent t) as Hs by (intros ?; by destruct (os_audit_written o)).
      rewrite Hs. destruct Hm as [[-> Hm]|(q & -> & Hq & Hm)]; [left|right; exists q]; (split; [done|]).
      * intros ? [= <-]. cbn. specialize (Hm _ eq_refl). rewrite Hm. by destruct (at_simulated at_).
      * split; [exact Hq|]. intros ? [= <-]. cbn. by rewrite (Hm _ eq_refl).
    + destruct Hm as [[-> _]|(q & -> & Hq & _)]; [by left|right; by exists q].
  - destruct Hm as [[-> _]|(q & -> & Hq & _)]; [by left|right; by exists q].
Qed.
End Sending.

Lemma once_weaken {A} (P Q : outbound -> Prop) (s e : A -> bool) m :
  (forall q, P q -> Q q) -> sends_once P s e m -> sends_once Q s e m.
Proof. intros HPQ Hm t. specialize (Hm t). destruct (m t) as [r t']. naive_solver. Qed.

(** ** Guards *)

Lemma dlookup_dset d k v k' : dlookup (dset d k v) k' = if String.eqb k k' then Some v else dlookup d k'.
Proof.
  induction d as [|[k2 v2] d IH]; cbn [dset dlookup]; [done|].
  destruct (String.eqb k2 k) eqn:E; cbn [dlookup].
  - apply String.eqb_eq in E as ->. by destruct (String.eqb k k').
  - rewrite IH. destruct (String.eqb k2 k') eqn:E2, (String.eqb k k') eqn:E3; try done.
    apply String.eqb_eq in E2 as ->, E3 as ->. by rewrite String.eqb_refl in E.
Qed.

Lemma dlookup_In d k v : dlookup d k = Some v -> In (k, v) d.
Proof.
  induction d as [|[k2 v2] d IH]; cbn [dlookup]; [done|]. destruct (String.eqb k2 k) eqn:E; [|right; auto].
  intros [= ->]. apply String.eqb_eq in E as ->. by left.
Qed.

Lemma configured_lookup env names d n :
  n ∈ names \/ dlookup d n = Some (PBool (env_set env n)) ->
  dlookup (foldl (fun d n => dset d n (PBool (env_set env n))) d names) n = Some (PBool (env_set env n)).
Proof.
  revert d. induction names as [|m names IH]; intros d; cbn [foldl].
  - intros [[]%not_elem_of_nil|H]; exact H.
  - intros H. apply IH. rewrite dlookup_dset. destruct (String.eqb m n) eqn:E.
    + apply String.eqb_eq in E as ->. by right.
    + destruct H as [[->|?]%elem_of_cons|?]; [by rewrite String.eqb_refl in E|by left|by right].
Qed.

Lemma guards_allowed env name mode enabled_env credential_envs :
  rg_real_mode_allowed (validate_real_mode_guards env name mode enabled_env credential_envs staging) = true ->
  lower (env_text env "SOAR_ENV") = "staging" /\ env_enabled env enabled_env = true /\
  Forall (fun n => env_set env n = true) (credential_names credential_envs).
Proof.
  unfold validate_real_mode_guards. cbv zeta. cbn [rg_real_mode_allowed].
  change (map (fun v => lower (strip v)) (List.filter (fun v => negb (is_empty (strip v))) staging)) with ["staging"].
  set (configured := foldl _ _ _). destruct (String.eqb _ REAL_MODE); [|done].
  destruct (str_in _ ["staging"]) eqn:Es; [|done]. destruct (env_enabled env enabled_env); [|done]. cbn [app].
  destruct (map fst (List.filter _ configured)) eqn:Ec; [|done]. intros _. split_and!; [|done|].
  - apply str_in_spec, list_elem_of_singleton in Es. exact Es.
  - apply Forall_forall. intros n Hn. pose proof (configured_lookup env _ [] n (or_introl Hn)) as Hl. fold configured in Hl.
    destruct (env_set env n) eqn:E; [done|]. apply dlookup_In in Hl.
    assert (In (n, PBool false) (List.filter (fun kv => negb (truthy kv.2)) configured)) as Hin by by apply filter_In.
    apply (in_map fst) in Hin. by rewrite Ec in Hin.
Qed.

(** ** The three senders *)

Section Senders.
Context (o : outside).
Let env := os_environ o.

Lemma slack_target_env context :
  st_env_name (resolve_slack_webhook_target o context) ∈ slack_webhook_envs /\
  st_webhook_url (resolve_slack_webhook_target o context) =
    env_text env (st_env_name (resolve_slack_webhook_target o context)) /\
  st_valid (resolve_slack_webhook_target o context) =
    String.prefix "https://hooks.slack.com/services/" (st_webhook_url (resolve_slack_webhook_target o context)).
Proof.
  unfold resolve_slack_webhook_target.
  destruct (match notification_policy_route_key context with Some key => _ | None => None end) as [env_name|] eqn:E.
  - split_and!; [|done|done]. cbn [st_env_name]. right. destruct (notification_policy_route_key context) as [key|]; [|done].
    unfold assoc in E. apply fmap_Some in E as (kv & Hf & ->). apply find_some in Hf as [Hin _].
    apply list_elem_of_In. by apply in_map.
  - split_and!; [left|done|done].
Qed.

Lemma slack_once action params context :
  sends_once (may_send o "slack") at_simulated at_executed (slack_attempt o action params context).
Proof.
  unfold slack_attempt. set (t := resolve_slack_webhook_target o context).
  destruct (rg_real_mode_allowed (slack_guards o (Some REAL_MODE) (st_env_name t))) eqn:Eg; cbn [negb]; [|by apply once_none].
  destruct (st_configured t); cbn [negb]; [|by apply once_none].
  destruct (st_valid t) eqn:Ev; cbn [negb]; [|by apply once_none].
  apply guards_allowed in Eg as (Hstaging & Henabled & _). destruct (slack_target_env context) as (Hin & Hurl & Hvalid).
  fold t in Hin, Hurl, Hvalid. apply once_rate, once_send.
  - eapply may_slack; [done|done|exact Hin|exact Hurl|]. cbn [hr_url]. by rewrite <-Hvalid.
  - intros n. destruct (os_http o n _); [right|right|right|right|left]; eauto.
Qed.

Lemma all_chars_clip p n s : all_chars p s = true -> all_chars p (clip n s) = true.
Proof.
  unfold clip. revert n. induction s as [|c s IH]; intros [|n]; cbn [String.substring all_chars]; try done.
  intros [-> Hs]%andb_true_iff. by apply IH.
Qed.

Lemma no_newline_clip n s : has_newline s = false -> has_newline (clip n s) = false.
Proof.
  unfold has_newline, char_in. rewrite !orb_false_iff, !negb_false_iff. intros [? ?]. by split; apply all_chars_clip.
Qed.

Lemma email_message_valid action params context m :
  build_email_message o action params context = Ok m ->
  valid_email (em_to m) = true /\ valid_email (em_from m) = true /\ has_newline (em_subject m) = false.
Proof.
  unfold build_email_message.
  destruct (valid_email (safe_email (py_or (py_or (dget params "to") (dget params "recipient")) (getenv o SMTP_TO_ENV)))) eqn:E1;
    [|done].
  destruct (valid_email (safe_email (py_or (dget params "from") (getenv o SMTP_FROM_ENV)))) eqn:E2; [|done]. cbn [negb orb].
  set (subject := strip _). destruct (is_empty subject); [done|]. destruct (has_newline subject) eqn:E3; [done|]. cbn [orb].
  destruct (os_email_message o _ _ _ _); [done|]. intros [= <-]. cbn [em_to em_from em_subject]. split_and!; [done|done|].
  by apply no_newline_clip.
Qed.

Lemma email_once action params context :
  sends_once (may_send o "email") at_simulated at_executed (email_attempt o action params context).
Proof.
  unfold email_attempt. set (r := get_email_real_mode_readiness o (Some REAL_MODE)).
  destruct (el_real_mode_allowed r) eqn:Ea; cbn [negb]; [|by apply once_none].
  destruct (el_real_mode_ready r) eqn:Er; cbn [negb]; [|by apply once_none].
  unfold r, get_email_real_mode_readiness in Ea, Er. cbn [el_real_mode_allowed el_real_mode_ready] in Ea, Er.
  rewrite Ea in Er. cbn [andb] in Er. apply andb_true_iff in Er as [Hfrom Hto].
  apply guards_allowed in Ea as (Hstaging & Henabled & Hcred).
  change (credential_names [SMTP_HOST_ENV; SMTP_USERNAME_ENV]) with [SMTP_HOST_ENV; SMTP_USERNAME_ENV] in Hcred.
  rewrite !Forall_cons in Hcred. destruct Hcred as (Hhost & Huser & _). apply once_rate.
  destruct (build_email_message o action params context) as [m|e] eqn:Em.
  - apply email_message_valid in Em as (Ht & Hf & Hs). apply once_send; [by apply may_email|].
    intros n. destruct (os_smtp o n _) as [[]| | | | | |]; [right..|left]; eauto.
  - destruct (is_value_error e); [by apply once_none|apply once_raise].
Qed.

Lemma webhook_once action params context :
  sends_once (may_send o "webhook") at_simulated at_executed (webhook_attempt o action params context).
Proof.
  unfold webhook_attempt. set (r := get_webhook_real_mode_readiness o (Some REAL_MODE)).
  destruct (wr_real_mode_allowed r) eqn:Ea; cbn [negb]; [|by apply once_none].
  destruct (wr_real_mode_ready r) eqn:Er; cbn [negb]; [|by apply once_none]. apply once_rate.
  assert (rg_real_mode_allowed (validate_real_mode_guards env "webhook" (Some REAL_MODE) WEBHOOK_REAL_ALLOW_ENV [] staging)
            = true) as Eg.
  { unfold r, get_webhook_real_mode_readiness in Ea. cbn [wr_real_mode_allowed] in Ea.
    change (configured_or_env o (Some REAL_MODE)) with REAL_MODE in Ea. fold env in Ea.
    set (g := validate_real_mode_guards _ _ _ _ _ _) in *.
    change (rg_real_mode_allowed g) with (match rg_missing_guards g with [] => true | _ => false end).
    by destruct (rg_missing_guards g). }
  apply guards_allowed in Eg as (Hstaging & Henabled & _).
  destruct (resolve_request_url o params) as [[url|failure]|e] eqn:Eu; cbn [of_outcome]; unfold bind, of_outcome.
  - destruct (build_webhook_payload action params context) as [payload|e] eqn:Ep.
    + unfold webhook_send. destruct (Z.ltb_spec MAX_WEBHOOK_BODY_BYTES (json_size payload)) as [|Hsize]; [apply once_raise|].
      apply once_send.
      * eapply may_webhook; [done|done| |exact Hsize]. cbn [hr_url]. by apply resolved_configured.
      * intros n. destruct (os_http o n _) as [| |code| |]; [right|right|right|right|left]; eauto.
        destruct (code =? 429), (500 <=? code); eauto.
    + destruct (is_value_error e); [by apply once_none|apply once_raise].
  - by apply once_none.
  - apply once_raise.
Qed.
End Senders.

(** ** Through the base class *)

Lemma shows_merge st result key :
  key <> "metadata" -> shows key (PDict (merge_circuit_metadata st result)) = shows key (PDict result).
Proof.
  intros Hk. unfold merge_circuit_metadata. set (r := setdefault result "metadata" (PDict [])).
  assert (dget r key = dget result key) as Hr.
  { unfold r, setdefault. destruct (dmem result "metadata"); [done|]. by rewrite dget_dset_ne by congruence. }
  destruct (dget r "metadata"); cbn [shows]; rewrite ?dget_dset_ne by congruence; by rewrite Hr.
Qed.

Lemma shows_integrate st result was_half_open now key :
  key <> "metadata" ->
  shows key (PDict (integrate_circuit st result was_half_open now).2) = shows key (PDict result).
Proof.
  intros Hk. unfold integrate_circuit. destruct (truthy _); [|destruct (String.eqb _ PROVIDER_RATE_LIMITED)];
    cbn [snd shows]; by rewrite dget_dset_ne by congruence.
Qed.

Definition admitted (st : breaker) : Prop := exists p, phase_of st = Some p /\ admits p = true.

Section Base.
Context (a : adapter) (mode : string) (now : Z) (P : outbound -> Prop).
Context (act : string -> pydict -> pydict -> M traffic pyval).
Context (Hact : forall action params context,
  sends_once P (shows "simulated") (shows "executed") (act action params context)).
Context (Hmode : forall q, P q -> mode = REAL_MODE).

(** What a call did, by its state before and after. *)
Definition call_sends (st : breaker) (w w' : world traffic) (r : outcome pydict) : Prop :=
  (tr_sent (w_ext w') = tr_sent (w_ext w) /\ forall d, r = Ok d -> shows "executed" (PDict d) = false) \/
  (admitted st /\ exists q, tr_sent (w_ext w') = tr_sent (w_ext w) ++ [q] /\ P q /\
     forall d, r = Ok d -> shows "simulated" (PDict d) = false).

Lemma own_not_executed m action params context success message metadata :
  shows "executed" (PDict (result_as a m own_mode action params context success message metadata)) = false.
Proof. cbn. by destruct (String.eqb m SIMULATION_MODE). Qed.

Lemma blocked_sends st st0 w w' action params context message classification state retry :
  w_ext w' = w_ext w ->
  call_sends st0 w w' (Ok (blocked a mode st action params context message classification state retry)).
Proof.
  intros E. left. rewrite E. split; [done|]. intros ? [= <-]. unfold blocked. rewrite shows_merge by done.
  apply own_not_executed.
Qed.

Lemma run_action_sends st0 st was_half_open action params context w r w' :
  admitted st0 -> run_action a mode now act st was_half_open action params context w = (r, w') -> call_sends st0 w w' r.
Proof.
  intros Hst0 E. unfold run_action in E.
  destruct (can_handle a action); cbn [negb] in E.
  - unfold in_ext, zoom in E. specialize (Hact action params context (w_ext w)).
    destruct (act action params context (w_ext w)) as [[returned|e] x].
    + unfold bind, in_circuits, zoom, get_circuit_state in E. cbn [w_circuits w_ext] in E.
      set (result := match returned with PDict d => d | _ => _ end) in E.
      pose proof (shows_integrate (circuit (w_circuits w) (adapter_name a)) result was_half_open now) as Hi.
      destruct (integrate_circuit _ result was_half_open now) as [st' result'] in E, Hi. cbn [snd] in Hi.
      cbn [set_circuit modify ret w_circuits w_ext] in E. injection E as <- <-. cbn [w_ext].
      destruct Hact as [[Hs He]|(q & Hs & Hq & Hsim)]; [left|right; split; [exact Hst0|]; exists q].
      * split; [exact Hs|]. intros ? [= <-]. rewrite shows_merge, Hi by done. unfold result.
        destruct returned; try apply own_not_executed. exact (He _ eq_refl).
      * split; [exact Hs|]. split; [exact Hq|]. intros ? [= <-]. rewrite shows_merge, Hi by done. unfold result.
        destruct returned; try (cbn; by rewrite (Hmode q Hq)). exact (Hsim _ eq_refl).
    + destruct was_half_open.
      * unfold bind, in_circuits, zoom in E. cbn [set_circuit modify ret w_circuits w_ext] in E. injection E as <- <-.
        cbn [w_ext]. destruct Hact as [[Hs He]|(q & Hs & Hq & Hsim)]; [left|right; split; [exact Hst0|]; exists q].
        -- split; [exact Hs|]. intros ? [= <-]. rewrite shows_merge by done. apply own_not_executed.
        -- split; [exact Hs|]. split; [exact Hq|]. intros ? [= <-]. rewrite shows_merge by done. cbn.
           by rewrite (Hmode q Hq).
      * injection E as <- <-. cbn [w_ext].
        destruct Hact as [[Hs He]|(q & Hs & Hq & Hsim)]; [by left|right; split; [exact Hst0|]; by exists q].
  - unfold bind, in_circuits, zoom in E. cbn [set_circuit modify ret w_circuits w_ext] in E. injection E as <- <-.
    by apply blocked_sends.
Qed.

Lemma admitted_tests st :
  state_valid st = true -> state_is st CIRCUIT_STATE_OPEN = false ->
  (state_is st CIRCUIT_STATE_HALF_OPEN = true -> cb_half_open_probe_available st = true) -> admitted st.
Proof.
  unfold state_valid, state_is, admitted, phase_of, state_is, str_in, VALID_CIRCUIT_STATES. cbn [existsb].
  destruct (String.eqb (cb_state st) CIRCUIT_STATE_CLOSED); [by intros; eexists|].
  destruct (String.eqb (cb_state st) CIRCUIT_STATE_OPEN); [done|].
  destruct (String.eqb (cb_state st) CIRCUIT_STATE_HALF_OPEN); [|done]. intros _ _ H. eexists. split; [done|]. by rewrite H.
Qed.

Lemma execute_sends action params context w r w' :
  execute a mode now act action params context w = (r, w') ->
  call_sends (circuit (w_circuits w) (adapter_name a)) w w' r.
Proof.
  intros E. unfold execute in E. unfold bind at 1 in E. unfold in_circuits at 1, zoom at 1, get_circuit_state at 1 in E.
  cbn [w_circuits w_ext] in E. set (st := circuit (w_circuits w) (adapter_name a)) in *.
  destruct (state_valid st) eqn:Ev; cbn [negb] in E; [|injection E as <- <-; by apply blocked_sends].
  destruct (state_is st CIRCUIT_STATE_OPEN) eqn:Eo; [injection E as <- <-; by apply blocked_sends|].
  destruct (state_is st CIRCUIT_STATE_HALF_OPEN) eqn:Eh.
  - destruct (cb_half_open_probe_available st) eqn:Ep; cbn [negb] in E; [|injection E as <- <-; by apply blocked_sends].
    unfold bind at 1, in_circuits at 1, zoom at 1 in E. cbn [set_circuit modify w_circuits w_ext] in E.
    eapply run_action_sends in E; [exact E|by apply admitted_tests].
  - eapply run_action_sends in E; [exact E|apply admitted_tests; congruence].
Qed.
End Base.

(** ** The registered adapters *)

Section Registered.
Context (o : outside).

Lemma simulating_once P simulate mode action params context :
  (forall mode action params context, shows "executed" (PDict (simulate mode action params context)) = false) ->
  sends_once P (shows "simulated") (shows "executed") (simulating simulate mode action params context).
Proof. intros Hs t. left. split; [done|]. by intros ? [= <-]. Qed.

Lemma once_mode P (Q : outbound -> Prop) mode (m1 : pydict) (m2 : M traffic pyval) :
  shows "executed" (PDict m1) = false -> sends_once Q (shows "simulated") (shows "executed") m2 ->
  (forall q, Q q -> mode = REAL_MODE -> P q) ->
  sends_once P (shows "simulated") (shows "executed") (if negb (String.eqb mode REAL_MODE) then ret (PDict m1) else m2).
Proof.
  intros H1 H2 HP. destruct (String.eqb_spec mode REAL_MODE) as [->|]; cbn [negb].
  - eapply once_weaken; [|exact H2]. naive_solver.
  - intros t. left. split; [done|]. by intros ? [= <-].
Qed.

Lemma registered_once name ig mode action params context :
  (name, ig) ∈ ADAPTERS o ->
  adapter_name (ig_adapter ig) = name /\
  sends_once (fun q => mode = REAL_MODE /\ may_send o name q) (shows "simulated") (shows "executed")
    (ig_action ig mode action params context).
Proof.
  unfold ADAPTERS. rewrite !elem_of_cons. intros [E|[E|[E|[E|[E|[]%not_elem_of_nil]]]]]; injection E as -> ->;
    cbn [ig_adapter ig_action]; (split; [done|]).
  - apply once_mode with (Q := may_send o "email"); [apply own_not_executed|apply once_audited, email_once|done].
  - apply simulating_once. intros. apply own_not_executed.
  - apply once_mode with (Q := may_send o "slack"); [apply own_not_executed|apply once_audited, slack_once|done].
  - apply simulating_once. intros. apply own_not_executed.
  - apply once_mode with (Q := may_send o "webhook"); [apply own_not_executed|apply once_audited, webhook_once|done].
Qed.

Lemma assoc_In {A} k (l : list (string * A)) x : assoc k l = Some x -> (k, x) ∈ l.
Proof.
  unfold assoc. intros H. apply fmap_Some in H as ([k' y] & Hf & ->). apply find_some in Hf as [Hin Heq].
  apply String.eqb_eq in Heq. cbn in *. subst. by apply list_elem_of_In.
Qed.

Lemma circuit_same s name n : circuit (<[normalize_adapter_key name := circuit s name]> s) n = circuit s n.
Proof.
  unfold circuit at 1 3. destruct (decide (normalize_adapter_key name = normalize_adapter_key n)) as [E|E].
  - rewrite E, lookup_insert_eq. unfold circuit. by rewrite E.
  - by rewrite lookup_insert_ne.
Qed.

(** Getting an adapter only looks at its breaker. *)
Lemma get_integration_adapter_effect name mode w r w' :
  get_integration_adapter o name mode w = (r, w') ->
  w_ext w' = w_ext w /\ (forall n, circuit (w_circuits w') n = circuit (w_circuits w) n) /\
  forall ig m, r = Ok (ig, m) ->
    (lower (strip name), ig) ∈ ADAPTERS o /\ (m = REAL_MODE -> resolve_integration_mode o mode = Ok REAL_MODE).
Proof.
  unfold get_integration_adapter. destruct (is_empty (lower (strip name))); [by intros [= <- <-]|].
  destruct (assoc (lower (strip name)) (ADAPTERS o)) as [ig|] eqn:Ea; [|by intros [= <- <-]].
  unfold bind at 1, of_outcome at 1. destruct (resolve_integration_mode o mode) as [configured|e] eqn:Em; [|by intros [= <- <-]].
  unfold log_adapter_registry_startup, bind, in_circuits, zoom, get_simulated_circuit_breaker_dict, bind, get_circuit_state,
    ret, of_outcome. cbn [w_circuits w_ext].
  destruct (init_mode (ig_adapter ig) (safe_adapter_mode_decision (lower (strip name)) configured)) as [m|e] eqn:Ei;
    intros [= <- <-]; cbn [w_ext w_circuits]; (split; [done|]; split; [intros; apply circuit_same|]); [|done].
  intros ? ? [= <- <-]. split; [by apply assoc_In|]. intros ->. unfold safe_adapter_mode_decision in Ei.
  destruct (String.eqb_spec configured REAL_MODE) as [->|]; [done|]. cbn [negb] in Ei.
  unfold init_mode in Ei. vm_compute in Ei. by destruct (allow_real_mode (ig_adapter ig)).
Qed.

Lemma circuit_normal s name : circuit s (lower (strip name)) = circuit s name.
Proof.
  unfold circuit. change (normalize_adapter_key (lower (strip name))) with (normalize_adapter (normalize_adapter name)).
  by rewrite normalize_adapter_twice.
Qed.

(** A call of an adapter from [w] to [w']: no request, or one that its
    guards allow. *)
Definition guarded_use (name : string) (mode : option string) (w w' : world traffic) (r : outcome pydict) : Prop :=
  (tr_sent (w_ext w') = tr_sent (w_ext w) /\ forall d, r = Ok d -> shows "executed" (PDict d) = false) \/
  (resolve_integration_mode o mode = Ok REAL_MODE /\ admitted (circuit (w_circuits w) name) /\
   exists q, tr_sent (w_ext w') = tr_sent (w_ext w) ++ [q] /\ may_send o (lower (strip name)) q /\
     forall d, r = Ok d -> shows "simulated" (PDict d) = false).

Lemma use_adapter_guarded name mode now action params context w r w' :
  use_adapter o name mode now action params context w = (r, w') -> guarded_use name mode w w' r.
Proof.
  unfold guarded_use, use_adapter, bind. destruct (get_integration_adapter o name mode w) as [[[ig m]|e] w1] eqn:E1.
  - destruct (get_integration_adapter_effect _ _ _ _ _ E1) as (Hx & Hc & Hig). destruct (Hig _ _ eq_refl) as [Hin Hreal].
    cbn [fst snd]. intros E. unfold execute_on in E.
    destruct (registered_once (lower (strip name)) ig m EmptyString [] [] Hin) as [Hname _].
    apply execute_sends with (P := fun q => m = REAL_MODE /\ may_send o (lower (strip name)) q) in E;
      [|intros; by apply registered_once|by intros q [? _]].
    unfold call_sends in E. rewrite Hx, Hname, Hc, circuit_normal in E.
    destruct E as [E|(Hst & q & Hs & [Hm Hq] & Hsim)]; [by left|right]. split; [by apply Hreal|]. split; [exact Hst|]. by exists q.
  - intros [= <- <-]. destruct (get_integration_adapter_effect _ _ _ _ _ E1) as (Hx & _). left. by rewrite Hx.
Qed.

(** C26: a call of an adapter reaches the outside at most once, and only if
    real mode is asked for, the breaker admits the call, and the adapter's
    guards hold of the environment and of the request: Slack posts to the
    configured URL, an email goes through the configured server, and a
    webhook to the configured URL or to what a path resolves to under it, on
    its host unless the path has control characters or spaces; Teams and the
    firewall never do.  A result that claims to be executed comes with a call, one
    that claims to be simulated with none. *)
Theorem real_send_guarded name mode now action params context w r w' :
  use_adapter o name mode now action params context w = (r, w') ->
  (tr_sent (w_ext w') = tr_sent (w_ext w) /\ forall d, r = Ok d -> shows "executed" (PDict d) = false) \/
  (resolve_integration_mode o mode = Ok REAL_MODE /\ admitted (circuit (w_circuits w) name) /\
   exists q, tr_sent (w_ext w') = tr_sent (w_ext w) ++ [q] /\ may_send o (lower (strip name)) q /\
     forall d, r = Ok d -> shows "simulated" (PDict d) = false).
Proof. apply use_adapter_guarded. Qed.
End Registered.

(** ** The theorem at work *)

(** Slack in real mode, two sends a minute. *)
Definition ex_environ : environ := fun n =>
  assoc n [("INTEGRATION_MODE", "real"); ("SOAR_ENV", "staging"); ("SOAR_REAL_SLACK_ENABLED", "yes");
           ("SLACK_WEBHOOK_URL", "https://hooks.slack.com/services/T0/B0/x"); ("SLACK_MAX_SENDS_PER_MINUTE", "2")].

Definition ex_outside (monotonic : Z) : outside :=
  Outside ex_environ monotonic 12 (fun _ _ => HttpStatus 200) (fun _ _ => SmtpSent false) (fun _ _ _ _ => None) true.

Definition ex_world : world traffic := World ∅ no_traffic.

Definition ex_message : pyval := PDict [("message", PStr "hello")].

Lemma real_send_guarded_witness :
  let '(r, w') := use_adapter (ex_outside 0) " Slack" None 5 "send_message" ex_message PNone ex_world in
  resolve_integration_mode (ex_outside 0) None = Ok REAL_MODE /\
  exists q, tr_sent (w_ext w') = [q] /\ may_send (ex_outside 0) "slack" q.
Proof.
  assert (tr_sent (w_ext (use_adapter (ex_outside 0) " Slack" None 5 "send_message" ex_message PNone ex_world).2) <> []) as Hs
    by (vm_compute; discriminate).
  destruct (use_adapter (ex_outside 0) " Slack" None 5 "send_message" ex_message PNone ex_world) as [r w'] eqn:E.
  pose proof (real_send_guarded (ex_outside 0) " Slack" None 5 "send_message" ex_message PNone ex_world r w' E) as H.
  destruct H as [[H _]|(Hm & _ & q & Hq & Hmay & _)]; [by cbn [snd] in Hs; rewrite H in Hs|]. split; [exact Hm|]. by exists q.
Defined.

(** * The rate of the real sends

    The rate limiter in front of the adapters: in a series of calls of any
    adapters, the times at which one of them reached the outside. *)

(** ** One call *)

(** The traffic of a call that asked the rate limiter of [name] once before
    it sent anything, or did neither. *)
Definition metered (o : outside) (name : string) (t t' : traffic) : Prop :=
  (tr_attempts t' = tr_attempts t /\ tr_sent t' = tr_sent t) \/
  exists d, check_adapter_rate_limit (os_environ o) name (os_monotonic o) (tr_attempts t) = (Ok d, tr_attempts t') /\
    (tr_sent t' = tr_sent t \/ rd_allowed d = true /\ exists q, tr_sent t' = tr_sent t ++ [q]).

Lemma metered_refl o name t : metered o name t t.
Proof. by left. Qed.

(** A send behind the limiter. *)
Definition unmetered {A} (m : M traffic A) : Prop := forall t,
  tr_attempts (m t).2 = tr_attempts t /\ (tr_sent (m t).2 = tr_sent t \/ exists q, tr_sent (m t).2 = tr_sent t ++ [q]).

Lemma unmetered_ret {A} (a : A) : unmetered (ret a).
Proof. intros t. split; [done|by left]. Qed.

Lemma unmetered_raise {A} e : unmetered (raise e : M traffic A).
Proof. intros t. split; [done|by left]. Qed.

Lemma unmetered_send {A} q (k : nat -> M traffic A) :
  (forall n, (exists e, k n = raise e) \/ exists a, k n = ret a) -> unmetered (bind (send q) k).
Proof.
  intros Hk t. unfold bind, send. destruct (Hk (length (tr_sent t))) as [[e ->]|[a ->]]; (split; [done|right; by exists q]).
Qed.

Lemma metered_rate o a label base m t :
  unmetered m -> metered o (adapter_name a) t (within_rate_limit o a label base m t).2.
Proof.
  intros Hm. unfold within_rate_limit, bind, in_attempts, zoom.
  destruct (check_adapter_rate_limit _ _ _ (tr_attempts t)) as [[d|e] s] eqn:E.
  - right. exists d. specialize (Hm (Traffic s (tr_sent t) (tr_audit t))). cbn [tr_attempts tr_sent] in Hm.
    destruct (rd_allowed d) eqn:Ed; cbn [ret snd tr_attempts tr_sent].
    + destruct Hm as [-> Hm]. split; [exact E|]. destruct Hm as [?|?]; [by left|by right].
    + split; [exact E|by left].
  - unfold check_adapter_rate_limit in E. cbv zeta in E. by case_match.
Qed.

Lemma metered_audited o name a mode action params context (m : M traffic attempt) t :
  metered o name t (m t).2 -> metered o name t (bind m (audited o a mode action params context) t).2.
Proof.
  unfold bind at 1. destruct (m t) as [[at_|e] t1]; [|done]. cbn [snd]. unfold audited, log_integration_execution_attempt.
  unfold bind, of_outcome. destruct (build_integration_attempt_audit_details _ _); [|done].
  unfold modify, ret. cbn [snd]. by destruct (os_audit_written o).
Qed.

Section Senders.
Context (o : outside).

Lemma slack_metered action params context t : metered o "slack" t (slack_attempt o action params context t).2.
Proof.
  unfold slack_attempt. destruct (negb _); [by left|]. destruct (negb _); [by left|]. destruct (negb _); [by left|].
  apply (metered_rate o slack), unmetered_send. intros n. destruct (os_http o n _); eauto.
Qed.

Lemma email_metered action params context t : metered o "email" t (email_attempt o action params context t).2.
Proof.
  unfold email_attempt. destruct (negb _); [by left|]. destruct (negb _); [by left|].
  apply (metered_rate o email). destruct (build_email_message o action params context) as [m|e].
  - apply unmetered_send. intros n. destruct (os_smtp o n _) as [[]| | | | | |]; eauto.
  - destruct (is_value_error e); [apply unmetered_ret|apply unmetered_raise].
Qed.

Lemma webhook_metered action params context t : metered o "webhook" t (webhook_attempt o action params context t).2.
Proof.
  unfold webhook_attempt. destruct (negb _); [by left|]. destruct (negb _); [by left|].
  apply (metered_rate o webhook). destruct (resolve_request_url o params) as [[url|f]|e]; unfold of_outcome, bind.
  - destruct (build_webhook_payload action params context) as [payload|e].
    + unfold webhook_send. destruct (_ <? _); [apply unmetered_raise|]. apply unmetered_send.
      intros n. destruct (os_http o n _) as [| |code| |]; eauto. destruct (code =? 429), (500 <=? code); eauto.
    + destruct (is_value_error e); [apply unmetered_ret|apply unmetered_raise].
  - apply unmetered_ret.
  - apply unmetered_raise.
Qed.

Lemma registered_metered name ig mode action params context t :
  (name, ig) ∈ ADAPTERS o -> metered o name t (ig_action ig mode action params context t).2.
Proof.
  unfold ADAPTERS. rewrite !elem_of_cons. intros [E|[E|[E|[E|[E|[]%not_elem_of_nil]]]]]; injection E as -> ->;
    cbn [ig_action]; try by left.
  - unfold email_execute. destruct (negb _); [by left|]. apply metered_audited, email_metered.
  - unfold slack_execute. destruct (negb _); [by left|]. apply metered_audited, slack_metered.
  - unfold webhook_execute. destruct (negb _); [by left|]. apply metered_audited, webhook_metered.
Qed.
End Senders.

(** The base class runs the action once or not at all. *)
Lemma execute_runs_once {X} (a : adapter) mode now (act : string -> pydict -> pydict -> M X pyval) action params context w r w' :
  execute a mode now act action params context w = (r, w') ->
  w_ext w' = w_ext w \/ exists action' params' context', w_ext w' = (act action' params' context' (w_ext w)).2.
Proof.
  assert (forall st was_half_open action params context (w : world X),
    w_ext (run_action a mode now act st was_half_open action params context w).2 = w_ext w \/
    w_ext (run_action a mode now act st was_half_open action params context w).2 = (act action params context (w_ext w)).2)
    as Hrun.
  { clear. intros. unfold run_action. destruct (can_handle a action); cbn [negb]; [right|by left].
    unfold in_ext, zoom. destruct (act action params context (w_ext w)) as [[returned|e] x]; cbn [snd].
    - unfold bind, in_circuits, zoom, get_circuit_state. cbn [w_circuits w_ext].
      by destruct (integrate_circuit _ _ _ _).
    - by destruct was_half_open. }
  intros E. unfold execute in E. unfold bind at 1 in E. unfold in_circuits at 1, zoom at 1, get_circuit_state at 1 in E.
  cbn [w_circuits w_ext] in E. set (st := circuit (w_circuits w) (adapter_name a)) in *.
  destruct (negb (state_valid st)); [injection E as <- <-; by left|].
  destruct (state_is st CIRCUIT_STATE_OPEN); [injection E as <- <-; by left|]. destruct (state_is st CIRCUIT_STATE_HALF_OPEN).
  - destruct (negb (cb_half_open_probe_available st)); [injection E as <- <-; by left|].
    unfold bind at 1, in_circuits at 1, zoom at 1 in E. cbn [set_circuit modify w_circuits w_ext] in E.
    apply (f_equal snd) in E. cbn [snd] in E. subst w'.
    edestruct Hrun as [H|H]; [left; exact H|right; do 3 eexists; exact H].
  - apply (f_equal snd) in E. cbn [snd] in E. subst w'.
    edestruct Hrun as [H|H]; [left; exact H|right; do 3 eexists; exact H].
Qed.

Lemma call_metered o name mode now action params context w :
  metered o (lower (strip name)) (w_ext w) (w_ext (use_adapter o name mode now action params context w).2).
Proof.
  unfold use_adapter, bind. destruct (get_integration_adapter o name mode w) as [[[ig m]|e] w1] eqn:E1.
  - destruct (get_integration_adapter_effect _ _ _ _ _ _ E1) as (Hx & _ & Hig). destruct (Hig _ _ eq_refl) as [Hin _].
    cbn [fst snd]. unfold execute_on.
    destruct (execute (ig_adapter ig) m now (ig_action ig m) action params context w1) as [r2 w2] eqn:E2.
    destruct (execute_runs_once _ _ _ _ _ _ _ _ _ _ E2) as [E|(? & ? & ? & E)]; cbn [snd];
      rewrite E, Hx; [by left|by apply registered_metered].
  - destruct (get_integration_adapter_effect _ _ _ _ _ _ E1) as (Hx & _). cbn [snd]. rewrite Hx. by left.
Qed.

(** ** A series of calls *)

Record use := Use {
  us_name : string; us_mode : option string; us_now : Z; us_action : string; us_params : pyval; us_context : pyval;
  us_outside : outside;
}.

Definition run_use (u : use) (w : world traffic) : world traffic :=
  (use_adapter (us_outside u) (us_name u) (us_mode u) (us_now u) (us_action u) (us_params u) (us_context u) w).2.

Definition sent_count (w : world traffic) : nat := length (tr_sent (w_ext w)).

(** The times at which a call of [name] reached the outside. *)
Fixpoint send_times (name : string) (uses : list use) (w : world traffic) : list Z :=
  match uses with
  | [] => []
  | u :: uses =>
      let w' := run_use u w in
      (if String.eqb (lower (strip (us_name u))) name && (sent_count w <? sent_count w')%nat
       then [os_monotonic (us_outside u)] else []) ++
      send_times name uses w'
  end.

Section Rate.
Context (env : environ) (name : string).
Abbreviation limit := (limit_for_adapter env name).

Lemma remembers_same lim last now sent bucket :
  last <= now -> remembers lim last sent bucket -> remembers lim now sent bucket.
Proof.
  intros Hnow [(old & -> & Hold) Hpast Hsorted Hroom Hwin]. split; [|..|done|done|done].
  - exists old. split; [done|]. eapply Forall_impl; [exact Hold|]. cbn. intros; lia.
  - eapply Forall_impl; [exact Hpast|]. cbn. intros; lia.
Qed.

(** What a call leaves of the bucket: the allowed attempts so far include
    its send. *)
Lemma use_remembered u w last allowed :
  os_environ (us_outside u) = env -> last <= os_monotonic (us_outside u) ->
  remembers limit last allowed (default [] (tr_attempts (w_ext w) !! name)) -> normalize_adapter name = name ->
  exists extra, remembers limit (os_monotonic (us_outside u)) (allowed ++ extra)
                  (default [] (tr_attempts (w_ext (run_use u w)) !! name)) /\
    (extra = [] \/ extra = [os_monotonic (us_outside u)]) /\
    (lower (strip (us_name u)) = name -> (sent_count w < sent_count (run_use u w))%nat ->
     extra = [os_monotonic (us_outside u)]).
Proof.
  intros Henv Hlast Hrem Hname. unfold run_use, sent_count.
  pose proof (call_metered (us_outside u) (us_name u) (us_mode u) (us_now u) (us_action u) (us_params u) (us_context u) w) as Hm.
  set (w' := (use_adapter _ _ _ _ _ _ _ w).2) in *. destruct Hm as [[Ha Hs]|(d & Hd & Hs)].
  - exists []. rewrite Ha, Hs, app_nil_r. split; [by eapply remembers_same|]. split; [by left|lia].
  - rewrite Henv in Hd.
    destruct (check_effect env (lower (strip (us_name u))) (os_monotonic (us_outside u)) (tr_attempts (w_ext w)) name limit last
      allowed) as (d' & s' & Hd' & Hrem'); [|done|done|].
    { intros E. unfold limit_for_adapter. by rewrite E, Hname. }
    rewrite Hd in Hd'. injection Hd' as <- <-.
    destruct (rd_allowed d && String.eqb (rd_adapter d) name) eqn:Eb.
    + exists [os_monotonic (us_outside u)]. split; [exact Hrem'|]. split; [by right|done].
    + exists []. rewrite app_nil_r. split; [exact Hrem'|]. split; [by left|]. intros En Hlt. exfalso.
      destruct Hs as [Hs|[Hok [q Hs]]]; rewrite Hs in Hlt; [lia|]. rewrite Hok in Eb. cbn [andb] in Eb.
      assert (rd_adapter d = normalize_adapter (lower (strip (us_name u)))) as Ead.
      { unfold check_adapter_rate_limit in Hd. cbv zeta in Hd. case_match; by injection Hd as <- _. }
      rewrite Ead, En, Hname, String.eqb_refl in Eb. done.
Qed.

Lemma in_window_mono a extra sent times :
  (length (in_window a (times ++ sent)) <= length (in_window a (times ++ extra ++ sent)))%nat.
Proof. rewrite !in_window_app, !length_app. lia. Qed.

Lemma sends_within uses : forall w last allowed times,
  Forall (fun u => os_environ (us_outside u) = env) uses ->
  Sorted Z.le (last :: map (fun u => os_monotonic (us_outside u)) uses) ->
  remembers limit last allowed (default [] (tr_attempts (w_ext w) !! name)) -> normalize_adapter name = name ->
  (forall a, length (in_window a times) <= length (in_window a allowed))%nat ->
  forall a, Z.of_nat (length (in_window a (times ++ send_times name uses w))) <= limit.
Proof.
  induction uses as [|u uses IH]; intros w last allowed times Henv Hs Hrem Hname Htimes a; cbn [send_times].
  - rewrite app_nil_r. pose proof (rm_windows _ _ _ _ Hrem a). specialize (Htimes a). lia.
  - apply Forall_cons in Henv as [Hu Henv']. cbn [map] in Hs. apply Sorted_inv in Hs as [Hs' Hhd]. apply HdRel_inv in Hhd.
    destruct (use_remembered u w last allowed Hu Hhd Hrem Hname) as (extra & Hrem' & Hextra & Hsent).
    rewrite app_assoc. set (mine := if (_ : bool) then [_] else []).
    apply (IH (run_use u w) (os_monotonic (us_outside u)) (allowed ++ extra)); try done. intros b.
    rewrite !in_window_app, !length_app. specialize (Htimes b).
    enough (length (in_window b mine) <= length (in_window b extra))%nat by lia. subst mine.
    destruct (String.eqb_spec (lower (strip (us_name u))) name) as [En|]; cbn [andb]; [|cbn; lia].
    destruct (Nat.ltb_spec (sent_count w) (sent_count (run_use u w))) as [Hlt|]; [|cbn; lia].
    by rewrite (Hsent En Hlt).
Qed.
End Rate.

(** C27: however the calls of the adapters follow one another, in whatever
    modes and with whatever replies, no window of sixty seconds contains more
    calls that an adapter made to the outside than its limit. *)
Theorem real_sends_rate_limited env name uses c a :
  Forall (fun u => os_environ (us_outside u) = env) uses ->
  Sorted Z.le (map (fun u => os_monotonic (us_outside u)) uses) ->
  Z.of_nat (length (in_window a (send_times (normalize_adapter name) uses (World c no_traffic)))) <=
    limit_for_adapter env name.
Proof.
  intros Henv Hs. rewrite <-(limit_normal env name). pose proof (limit_positive env (normalize_adapter name)) as Hpos.
  destruct uses as [|u uses]; [cbn; lia|].
  apply (sends_within env (normalize_adapter name) (u :: uses) _ (os_monotonic (us_outside u)) [] []); try done.
  - constructor; [exact Hs|]. constructor. reflexivity.
  - cbn [w_ext no_traffic tr_attempts]. rewrite lookup_empty. cbn [default from_option].
    split; [by exists []|constructor|constructor|cbn; lia|intros; cbn; lia].
  - apply normalize_adapter_twice.
Qed.

Definition ex_use (t : Z) : use := Use "slack" None 5 "send_message" ex_message PNone (ex_outside t).

Lemma real_sends_rate_limited_witness :
  let uses := [ex_use 0; ex_use 1000000000; ex_use 2000000000; ex_use 60000000000] in
  send_times "slack" uses ex_world = [0; 1000000000; 60000000000] /\
  Z.of_nat (length (in_window 0 (send_times "slack" uses ex_world))) <= limit_for_adapter ex_environ "slack".
Proof.
  intros uses. split; [vm_compute; reflexivity|].
  apply (real_sends_rate_limited ex_environ "slack" uses ∅ 0).
  - repeat constructor.
  - repeat (constructor; try (vm_compute; discriminate)).
Defined.
