(* ===== verification/PlaybookAdapters.v ===== *)
(** * PlaybookAdapters: playbook steps on the registered adapters

    The executor's steps were modelled against an interface
    ([StepEvents.StepServices]); here the adapter part of the interface is
    the registry of integrations/integration_registry.py, and the guarantee
    about real sends is carried over to the steps of a playbook. *)

From S2P Require Import RateLimiter CircuitBreaker Integration RealMode WebhookAdapter IntegrationRegistry IntegrationSafety.
From S2P Require Import Prelude PyText PyValue Tables Hoare IpAddress ProtectedTargets Approvals Outcomes Deliveries.
From S2P Require Import Alerts ParamBinding PlaybookRegistry PlaybookStore DeadLetters StepLog StepEvents StepActions ExecutorProtocol.

Open Scope Z_scope.

(** What a process keeps in memory is not part of any transaction. *)
#[export, refine] Instance world_transactional : Transactional (world traffic) := { restore _ cur := cur; }.
Proof. all: done. Defined.

Section Services.
Context (o : outside) (now : Z).
(** The services other than the adapters. *)
Context (response_commands : clock -> step_command -> M (world traffic * outcome_store * alert_table) step_command_result).
Context (notifications : clock -> Z * exec_row -> pyval -> pyval -> Z ->
  M (world traffic * outcome_store * delivery_store) pydict).
Context (enrichment : exec_db (world traffic) -> Z * exec_row -> pyval -> outcome pyval).
Context (blocked_ip_check : string -> outcome string).

Definition registered_services : StepServices (world traffic) := {|
  world_tx := world_transactional;
  execute_response_command := response_commands;
  send_playbook_notification := notifications;
  StepEvents.execute_playbook_simulated_adapter name action params context :=
    IntegrationRegistry.execute_playbook_simulated_adapter o now name action (PDict params) (PDict context);
  circuit_breaker_dict name _ w := PDict (snapshot (circuit (w_circuits w) name));
  build_playbook_enrichment_context := enrichment;
  validate_blocked_ip := blocked_ip_check;
|}.

(** The response command service records and tracks; it calls no adapter. *)
Context (Hcommands : forall clk c s, (response_commands clk c s).2.1.1 = s.1.1).

#[local] Existing Instance registered_services.
Context (env : exec_env).
Implicit Types c : conn (exec_db (world traffic)).

Definition sent_by (c : conn (exec_db (world traffic))) : list outbound := tr_sent (w_ext (xd_world (cn_current c))).

(** The calls of a step: none, or one that the adapter's guards allow. *)
Definition step_sends (adapter : string) c c' : Prop :=
  sent_by c' = sent_by c \/
  (resolve_integration_mode o None = Ok REAL_MODE /\
   admitted (circuit (w_circuits (xd_world (cn_current c))) adapter) /\
   exists q, sent_by c' = sent_by c ++ [q] /\ may_send o (lower (strip adapter)) q).

Lemma execute_sent {A} (m : M (exec_db (world traffic)) A) :
  (forall d, xd_world (m d).2 = xd_world d) -> forall c, xd_world (cn_current (execute m c).2) = xd_world (cn_current c).
Proof.
  intros Hm c. unfold execute. destruct (cn_aborted c); [done|]. specialize (Hm (cn_current c)).
  by destruct (m (cn_current c)) as [[a|e] d].
Qed.

Lemma run_command_sent cmd c : xd_world (cn_current (run_command env cmd c).2) = xd_world (cn_current c).
Proof.
  apply execute_sent. intros d. pose proof (Hcommands (en_clock env) cmd (xd_world d, xd_outcomes d, xd_alerts d)) as Hc.
  cbn [execute_response_command registered_services]. by destruct (response_commands _ _ _) as [r [[w o'] a]].
Qed.

Lemma tracking_sent x index params c :
  xd_world (cn_current (record_playbook_block_tracking env x index params c).2) = xd_world (cn_current c).
Proof.
  unfold record_playbook_block_tracking. destruct (negb _); [done|].
  destruct (validate_blocked_ip _) as [ip|e]; [|by destruct (is_value_error e)].
  pose proof (run_command_sent (block_command x index params) c) as H. unfold bind.
  by destruct (run_command env (block_command x index params) c) as [[r|e] c'].
Qed.

Lemma call_adapter_sends step index x action adapter adapter_action params c :
  step_sends adapter c (call_adapter env now step index x action adapter adapter_action params c).2.
Proof.
  unfold call_adapter. destruct (execute (in_world _) c) as [r c1] eqn:E.
  assert (step_sends adapter c c1) as Hs.
  { unfold execute in E. destruct (cn_aborted c); [injection E as _ <-; by left|]. unfold in_world, zoom in E.
    cbn [StepEvents.execute_playbook_simulated_adapter registered_services] in E.
    unfold IntegrationRegistry.execute_playbook_simulated_adapter in E.
    destruct (use_adapter o adapter None now adapter_action (PDict params) (PDict (adapter_context x index))
                (xd_world (cn_current c))) as [r1 w1] eqn:Eu.
    assert (sent_by c1 = tr_sent (w_ext w1)) as Hc1 by (destruct r1; by injection E as _ <-).
    unfold step_sends. rewrite Hc1. unfold sent_by.
    destruct (use_adapter_guarded _ _ _ _ _ _ _ _ _ _ Eu) as [[H _]|(Hm & Ha & q & Hq & Hmay & _)]; [by left|].
    right. split; [exact Hm|]. split; [exact Ha|]. by exists q. }
  assert (forall c2, xd_world (cn_current c2) = xd_world (cn_current c1) -> step_sends adapter c c2) as Hkeep.
  { intros c2 H2. unfold step_sends, sent_by. by rewrite H2. }
  destruct r as [result|e]; [|exact Hs]. destruct (_ && _); [|exact Hs]. unfold bind.
  pose proof (tracking_sent x index params c1) as Ht.
  destruct (record_playbook_block_tracking env x index params c1) as [[t|e] c2]; cbn [ret snd] in *; by apply Hkeep.
Qed.

Lemma guarded_adapter_sends step index x action adapter adapter_action c :
  step_sends adapter c (guarded_adapter env now step index x action adapter adapter_action c).2.
Proof.
  unfold guarded_adapter, with_params, stmt_reads, bind, execute, gets. destruct (cn_aborted c) eqn:Ea; [by left|].
  set (c1 := Conn _ _ _). assert (step_sends adapter c c1) as H1 by by left.
  destruct (resolve_step_params _ _ _ _) as [params|e]; [|destruct e; exact H1].
  destruct (if String.eqb action "block_ip" then _ else _) as [u|e]; [|destruct e; exact H1].
  apply (call_adapter_sends step index x action adapter adapter_action params c1).
Qed.

(** an adapter step of a playbook reaches the outside at most once, and
    only in real mode, past the breaker and within the guards of its
    adapter; when a delivery of the step is on record it reaches it not at
    all, and a [block_ip] step never does. *)
Theorem adapter_step_sends_guarded step index x action adapter adapter_action c r c' :
  ADAPTER_ACTIONS action = Some (adapter, adapter_action) ->
  simulate_adapter_step env now step index x action adapter adapter_action c = (r, c') ->
  step_sends adapter c c' /\ (action = "block_ip" -> sent_by c' = sent_by c) /\
  (forall provider row, PROVIDER_FOR_ACTION action = Some provider -> cn_aborted c = false ->
     existing_active_delivery env provider action x.1 index (cn_current c) = Ok (Some row) -> sent_by c' = sent_by c).
Proof.
  intros Hact E. assert (step_sends adapter c c') as Hs.
  { apply (f_equal snd) in E. cbn [snd] in E. subst c'. unfold simulate_adapter_step.
    destruct (PROVIDER_FOR_ACTION action) as [provider|]; [|apply guarded_adapter_sends].
    unfold stmt_reads, bind at 1, execute, gets. destruct (cn_aborted c) eqn:Ea; [by left|].
    set (c1 := Conn _ _ _). unfold bind, of_outcome. destruct (existing_active_delivery _ _ _ _ _ _) as [[row|]|e]; [by left| |by left].
    apply (guarded_adapter_sends step index x action adapter adapter_action c1). }
  split; [exact Hs|]. split.
  - intros ->. injection Hact as <- <-. destruct Hs as [Hs|(_ & _ & q & _ & Hq)]; [exact Hs|]. by inversion Hq.
  - intros provider row Hp Ha Hrow. unfold simulate_adapter_step in E. rewrite Hp in E.
    unfold stmt_reads, bind, execute, gets, of_outcome in E. rewrite Ha, Hrow in E. by injection E as _ <-.
Qed.
End Services.

(** ** The theorem at work *)

(** A command service that records nothing. *)
Definition ex_commands (clk : clock) (cmd : step_command) : M (world traffic * outcome_store * alert_table) step_command_result :=
  ret ex_command_result.

Definition ex_notifications (clk : clock) (x : Z * exec_row) (a b : pyval) (index : Z)
    : M (world traffic * outcome_store * delivery_store) pydict := ret [].

Definition ex_exec_db : exec_db (world traffic) :=
  ExecDb (SoarDb (ex_pb []) empty_letters) empty_approvals empty_outcomes (DeliveryStore ∅ 1) ex_alerts ex_world.

Definition ex_notify (c : conn (exec_db (world traffic))) : outcome pydict * conn (exec_db (world traffic)) :=
  simulate_adapter_step (H := registered_services (ex_outside 0) 5 ex_commands ex_notifications (fun _ _ _ => Ok PNone) Ok)
    ex_env 5 [("params", PDict [("message", PStr "hello")])] 0 (1, ex_row_of (ex_db [])) "notify_slack" "slack" "send_message" c.

Lemma adapter_step_sends_guarded_witness :
  let c := open_conn ex_exec_db in
  exists q, sent_by (ex_notify c).2 = [q] /\ may_send (ex_outside 0) "slack" q.
Proof.
  intros c. assert (sent_by (ex_notify c).2 <> []) as Hs by (vm_compute; discriminate).
  destruct (ex_notify c) as [r c'] eqn:E.
  pose proof (adapter_step_sends_guarded (ex_outside 0) 5 ex_commands ex_notifications (fun _ _ _ => Ok PNone) Ok
    (fun _ _ _ => eq_refl) ex_env [("params", PDict [("message", PStr "hello")])] 0 (1, ex_row_of (ex_db [])) "notify_slack"
    "slack" "send_message" c r c' eq_refl E) as (H & _).
  destruct H as [H|(_ & _ & q & Hq & Hmay)]; [by cbn [snd] in Hs; rewrite H in Hs|]. by exists q.
Defined.
