(* ===== verification/NotificationPolicy.v ===== *)
(** * NotificationPolicy: core/notification_policy_store.py

    The single row of notification_policy, its validated updates, and the
    decision evaluate_notification_policy of
    core/notification_policy_service.py takes from it. *)

From S2P Require Import Prelude PyText PyFloat PyValue Tables Hoare Outcomes Deliveries RateLimiter.

Open Scope Z_scope.

(** ** Validation *)

Definition ALLOWED_NOTIFICATION_SEVERITIES : list string := ["low"; "medium"; "high"; "critical"].
Definition ALLOWED_SLACK_FORMATS : list string := ["compact"; "detailed"].

(** [raise ValueError(message)]. *)
Definition refuse {A} (message : string) : outcome A := Raise (ValueError message).

Definition normalize_bool (value : pyval) (field : string) : outcome pyval :=
  match value with PBool _ => Ok value | _ => refuse (field +:+ " must be a boolean") end.

Definition is_ascii_letter (c : ascii) : bool :=
  let n := N_of_ascii c in is_lower_alpha c || ((65 <=? n) && (n <=? 90))%N.
Definition label_start (c : ascii) : bool := is_ascii_letter c || is_digit c || Ascii.eqb c "#".
Definition label_char (c : ascii) : bool := label_start c || existsb (Ascii.eqb c) [" "; "."; "_"; "/"; "-"]%char.

(** [_DESTINATION_LABEL_RE.fullmatch]. *)
Definition destination_label (s : string) : bool :=
  match s with
  | EmptyString => false
  | String c rest => label_start c && all_chars label_char rest && (String.length rest <=? 79)%nat
  end.

Definition normalize_destination (value : pyval) (field : string) : outcome pyval :=
  match value with
  | PStr s =>
      let normalized := strip s in
      if is_empty normalized then refuse (field +:+ " must not be empty")
      else if contains "://" (lower normalized) then refuse (field +:+ " must be a routing label, not a URL")
      else if negb (destination_label normalized)
      then refuse (field +:+ " must start with a letter, number, or # and contain only bounded label characters")
      else Ok (PStr normalized)
  | _ => refuse (field +:+ " must be a string")
  end.

(** [str(value or "").strip().lower()]. *)
Definition choice_text (value : pyval) : string := lower (strip (py_str (py_or value (PStr "")))).

Definition normalize_choice (allowed : list string) (value : pyval) (field : string) : outcome pyval :=
  if str_in (choice_text value) allowed then Ok (PStr (choice_text value))
  else refuse (field +:+ " must be one of " +:+ show_choices allowed).

Definition destination_fields : list string :=
  ["pfsense_destination"; "honeypot_destination"; "critical_cross_source_destination"].
Definition allowed_fields : list string :=
  ["slack_enabled"; "minimum_severity"; "notify_on_alerts"; "notify_on_incidents"; "slack_format"] ++ destination_fields.

Definition normalize_field (key : string) (value : pyval) : outcome pyval :=
  if str_in key ["slack_enabled"; "notify_on_alerts"; "notify_on_incidents"] then normalize_bool value key
  else if String.eqb key "minimum_severity" then normalize_choice ALLOWED_NOTIFICATION_SEVERITIES value key
  else if String.eqb key "slack_format" then normalize_choice ALLOWED_SLACK_FORMATS value key
  else normalize_destination value key.

Fixpoint normalize_fields (items : pydict) : outcome pydict :=
  match items with
  | [] => Ok []
  | (key, value) :: items =>
      let! v := normalize_field key value in
      let! rest := normalize_fields items in
      Ok ((key, v) :: rest)
  end.

(** [sorted(unknown)[0]]. *)
Definition first_unknown (keys : list string) : option string :=
  head (merge_sort str_le (List.filter (fun k => negb (str_in k allowed_fields)) keys)).

Definition validate_notification_policy_updates (payload : pyval) : outcome pydict :=
  match payload with
  | PDict items =>
      match first_unknown (map fst items) with
      | Some key => refuse ("Unknown notification policy field: " +:+ key)
      | None => normalize_fields items
      end
  | _ => refuse "Notification policy payload must be an object"
  end.

(** ** The row *)

Record policy_row := PolicyRow {
  np_slack_enabled : bool;
  np_minimum_severity : string;
  np_notify_on_alerts : bool;
  np_notify_on_incidents : bool;
  np_slack_format : string;
  np_pfsense_destination : string;
  np_honeypot_destination : string;
  np_critical_cross_source_destination : string;
  np_updated_at : Z;
  np_updated_by : option string;
}.

(** The table: its CHECK allows no other id than 1. *)
Abbreviation policy_table := (option policy_row).

#[export, refine] Instance policy_table_tx : Transactional policy_table := { restore snap _ := snap; }.
Proof. all: done. Defined.

(** The validated fields of a row. *)
Definition policy_fields (r : policy_row) : pydict :=
  [("slack_enabled", PBool (np_slack_enabled r)); ("minimum_severity", PStr (np_minimum_severity r));
   ("notify_on_alerts", PBool (np_notify_on_alerts r)); ("notify_on_incidents", PBool (np_notify_on_incidents r));
   ("slack_format", PStr (np_slack_format r)); ("pfsense_destination", PStr (np_pfsense_destination r));
   ("honeypot_destination", PStr (np_honeypot_destination r));
   ("critical_cross_source_destination", PStr (np_critical_cross_source_destination r))].

Definition DEFAULT_NOTIFICATION_POLICY : pydict :=
  [("slack_enabled", PBool false); ("minimum_severity", PStr "high"); ("notify_on_alerts", PBool true);
   ("notify_on_incidents", PBool true); ("slack_format", PStr "compact");
   ("pfsense_destination", PStr "pfSense destination"); ("honeypot_destination", PStr "Honeypot destination");
   ("critical_cross_source_destination", PStr "Critical / Cross-Source Security destination")].

Definition default_notification_policy (status : string) : pydict :=
  [("id", PInt 1)] ++ DEFAULT_NOTIFICATION_POLICY ++
  [("updated_at", PNone); ("updated_by", PNone); ("status", PStr status)].

(** [str(row[9])] of a TIMESTAMPTZ in UTC. *)
Definition row_to_dict (r : policy_row) : pydict :=
  [("id", PInt 1)] ++ policy_fields r ++
  [("updated_at", PStr (isoformat " " (utc_datetime (np_updated_at r)))); ("updated_by", opt_text (np_updated_by r));
   ("status", PStr "applied")].

(** The CHECK constraints. *)
Definition policy_checks (r : policy_row) : bool :=
  str_in (np_minimum_severity r) ALLOWED_NOTIFICATION_SEVERITIES && str_in (np_slack_format r) ALLOWED_SLACK_FORMATS &&
  negb (sql_blank (np_pfsense_destination r)) && negb (sql_blank (np_honeypot_destination r)) &&
  negb (sql_blank (np_critical_cross_source_destination r)).

(** ** Reading and writing it *)

(** A row that fails the validation is found after the savepoint has been
    released: ROLLBACK TO SAVEPOINT then names a savepoint that no longer
    exists, which is an error of the database.  The handler swallows it, and
    the transaction of the caller is aborted. *)
Definition load_notification_policy : M (conn policy_table) pydict := fun c =>
  if cn_aborted c then (Ok (default_notification_policy "unavailable"), c)
  else match cn_current c with
       | None => (Ok (default_notification_policy "default"), c)
       | Some r =>
           match validate_notification_policy_updates (PDict (policy_fields r)) with
           | Ok _ => (Ok (row_to_dict r), c)
           | Raise _ => (Ok (default_notification_policy "unavailable"), Conn (cn_committed c) (cn_current c) true)
           end
       end.

(** On a connection of its own; [None] when it cannot be opened. *)
Definition get_effective_notification_policy (committed : option policy_table) : pydict :=
  match committed with
  | None => default_notification_policy "unavailable"
  | Some t => match load_notification_policy (open_conn t) with
              | (Ok policy, _) => policy
              | (Raise _, _) => default_notification_policy "unavailable"
              end
  end.

(** [normalized.get(key, current[key])]. *)
Definition merged_field (normalized current : pydict) (key : string) : outcome pyval :=
  match dlookup normalized key with Some v => Ok v | None => dindex current key end.

(** A value the driver writes into a BOOLEAN or a TEXT column. *)
Definition as_bool_column (v : pyval) : outcome bool :=
  match v with PBool b => Ok b | _ => Raise (DatabaseError "invalid input syntax for type boolean") end.
Definition as_text_column (v : pyval) : outcome string :=
  match v with PStr s => Ok s | _ => Raise (DatabaseError "null value violates not-null constraint") end.

Definition merged_bool (normalized current : pydict) (key : string) : outcome bool :=
  let! v := merged_field normalized current key in as_bool_column v.
Definition merged_text (normalized current : pydict) (key : string) : outcome string :=
  let! v := merged_field normalized current key in as_text_column v.

Definition merged_row (normalized current : pydict) (updated_at : Z) (updated_by : option string) : outcome policy_row :=
  let! enabled := merged_bool normalized current "slack_enabled" in
  let! severity := merged_text normalized current "minimum_severity" in
  let! alerts := merged_bool normalized current "notify_on_alerts" in
  let! incidents := merged_bool normalized current "notify_on_incidents" in
  let! format := merged_text normalized current "slack_format" in
  let! pfsense := merged_text normalized current "pfsense_destination" in
  let! honeypot := merged_text normalized current "honeypot_destination" in
  let! critical := merged_text normalized current "critical_cross_source_destination" in
  Ok (PolicyRow enabled severity alerts incidents format pfsense honeypot critical updated_at updated_by).

(** INSERT .. ON CONFLICT (id) DO UPDATE. *)
Definition write_policy (r : policy_row) : M policy_table unit := fun t =>
  if policy_checks r then (Ok tt, Some r) else (Raise (IntegrityError "notification_policy_check"), t).

Definition upsert_notification_policy (clk : clock) (updates : pyval) (updated_by : option string)
    : M (conn policy_table) pydict :=
  let* normalized := of_outcome (validate_notification_policy_updates updates) in
  let* current := load_notification_policy in
  let* r := of_outcome (merged_row normalized current (sql_now clk) updated_by) in
  Tables.execute (write_policy r) ;;;
  ret (policy_fields r).

(** ** The decision *)

Definition SEVERITY_RANK (s : string) : option Z :=
  if String.eqb s "low" then Some 1 else if String.eqb s "medium" then Some 2
  else if String.eqb s "high" then Some 3 else if String.eqb s "critical" then Some 4 else None.

Definition ROUTE_KEY_PFSENSE : string := "pfsense".
Definition ROUTE_KEY_HONEYPOT : string := "honeypot".
Definition ROUTE_KEY_CRITICAL_CROSS_SOURCE : string := "critical_cross_source".

Definition normalize_notification_source (source source_type : pyval) : option string :=
  if String.eqb (choice_text source) "pfsense" || String.eqb (choice_text source_type) "firewall" then Some ROUTE_KEY_PFSENSE
  else if String.eqb (choice_text source) "honeypot" || String.eqb (choice_text source_type) "honeypot"
  then Some ROUTE_KEY_HONEYPOT
  else None.

(** [str(value).strip() or None]. *)
Definition label_of (value : pyval) : option string :=
  if is_none value then None else let s := strip (py_str value) in if is_empty s then None else Some s.

Definition policy_destination (policy : pydict) (route_key : string) : option string :=
  if String.eqb route_key ROUTE_KEY_PFSENSE then label_of (dget policy "pfsense_destination")
  else if String.eqb route_key ROUTE_KEY_HONEYPOT then label_of (dget policy "honeypot_destination")
  else if String.eqb route_key ROUTE_KEY_CRITICAL_CROSS_SOURCE then label_of (dget policy "critical_cross_source_destination")
  else None.

Record policy_decision := PolicyDecision {
  pd_should_notify : bool;
  pd_reason : string;
  pd_route_key : option string;
  pd_destination : option string;
  pd_slack_format : pyval;
}.

Definition suppressed (reason : string) (route_key : option string) : policy_decision :=
  PolicyDecision false reason route_key None PNone.

(** [policy.get(key, default)]. *)
Definition policy_get (policy : pydict) (key : string) (d : pyval) : pyval := default d (dlookup policy key).

Definition evaluate_notification_policy (policy : pydict) (event_kind : string) (severity source source_type : pyval)
    (bypass_slack_disabled : bool) : policy_decision :=
  if eq_str (dget policy "status") "unavailable" then suppressed "policy_unavailable" None
  else
    let kind := lower (strip event_kind) in
    if str_in kind ["alert"; "recon_activity"] && negb (truthy (policy_get policy "notify_on_alerts" (PBool true)))
    then suppressed "alerts_disabled" None
    else if String.eqb kind "incident" && negb (truthy (policy_get policy "notify_on_incidents" (PBool true)))
    then suppressed "incidents_disabled" None
    else if negb bypass_slack_disabled && negb (truthy (policy_get policy "slack_enabled" (PBool false)))
    then suppressed "slack_disabled" None
    else
      let threshold := lower (strip (py_str (py_or (dget policy "minimum_severity") (PStr "high")))) in
      match SEVERITY_RANK (choice_text severity), SEVERITY_RANK threshold with
      | Some rank, Some least =>
          if rank <? least then suppressed "below_minimum_severity" None
          else
            let route_key :=
              match normalize_notification_source source source_type with
              | Some k => Some k
              | None => if String.eqb (choice_text severity) "critical" then Some ROUTE_KEY_CRITICAL_CROSS_SOURCE else None
              end in
            match route_key with
            | None => suppressed "source_not_routed" None
            | Some k =>
                match policy_destination policy k with
                | None => suppressed "source_not_routed" (Some k)
                | Some destination =>
                    PolicyDecision true "eligible" (Some k) (Some destination) (policy_get policy "slack_format" (PStr "compact"))
                end
            end
      | _, _ => suppressed "invalid_severity" None
      end.

(** ** Validated values *)

Definition field_ok (key : string) (v : pyval) : Prop := exists v', normalize_field key v = Ok v'.

(** The row passes the CHECK constraints and the validation of a load. *)
Definition row_ok (r : policy_row) : Prop :=
  policy_checks r = true /\ Forall (fun kv => field_ok kv.1 kv.2) (policy_fields r).

Definition table_ok (t : policy_table) : Prop := match t with Some r => row_ok r | None => True end.

Lemma normalize_fields_Ok items :
  (exists n, normalize_fields items = Ok n) <-> Forall (fun kv => field_ok kv.1 kv.2) items.
Proof.
  induction items as [|[k v] items IH]; cbn [normalize_fields]; [split; [constructor|eauto]|].
  rewrite list.Forall_cons, <- IH. unfold field_ok. cbn [fst snd]. destruct (normalize_field k v) as [v'|e]; cbn [obind].
  - destruct (normalize_fields items) as [n|e]; cbn [obind]; naive_solver.
  - naive_solver.
Qed.

Lemma loads r : (exists n, validate_notification_policy_updates (PDict (policy_fields r)) = Ok n) <->
  Forall (fun kv => field_ok kv.1 kv.2) (policy_fields r).
Proof. rewrite <- normalize_fields_Ok. reflexivity. Qed.

Lemma normalized_value items n k v :
  normalize_fields items = Ok n -> dlookup n k = Some v -> exists v0, normalize_field k v0 = Ok v.
Proof.
  revert n. induction items as [|[k0 v0] items IH]; intros n; cbn [normalize_fields]; [by intros [= <-]|].
  destruct (normalize_field k0 v0) as [v'|] eqn:Hv; [|done]. cbn [obind].
  destruct (normalize_fields items) as [rest|] eqn:Hr; [|done]. intros [= <-]. cbn [dlookup].
  destruct (String.eqb k0 k) eqn:E; [|by apply IH]. apply String.eqb_eq in E as ->. intros [= <-]. eauto.
Qed.

(** What a normalized value is, field by field. *)
Definition bool_field (key : string) : bool := str_in key ["slack_enabled"; "notify_on_alerts"; "notify_on_incidents"].

Lemma strip_lower_idemp s : lower (strip (lower (strip s))) = lower (strip s).
Proof.
  assert (forall t, strip t = t -> strip (lower t) = lower t) as Hs.
  { intros t Ht. assert (strip (lower t) = lower (strip t)) as ->; [|by rewrite Ht]. apply strip_of_lower. }
  rewrite Hs by apply strip_idemp. clear Hs. induction (strip s) as [|c t IH]; [done|]. cbn [lower]. rewrite IH.
  f_equal. by destruct c as [[] [] [] [] [] [] [] []].
Qed.

Lemma normalize_field_bool key v v' :
  bool_field key = true -> normalize_field key v = Ok v' -> (exists b, v' = PBool b) /\ normalize_field key v' = Ok v'.
Proof.
  unfold bool_field, normalize_field. intros ->. unfold normalize_bool, refuse. destruct v; try done.
  intros [= <-]. split; [by eexists|done].
Qed.

Lemma normalize_choice_idemp allowed v key v' :
  normalize_choice allowed v key = Ok v' -> exists s, v' = PStr s /\ str_in s allowed = true /\
    (negb (str_in "" allowed) = true -> normalize_choice allowed v' key = Ok v').
Proof.
  unfold normalize_choice, refuse. destruct (str_in (choice_text v) allowed) eqn:Hin; [|done]. intros [= <-].
  eexists. split; [done|]. split; [done|]. intros Hne. assert (choice_text (PStr (choice_text v)) = choice_text v) as ->.
  { unfold choice_text at 1, py_or. cbn [truthy]. destruct (is_empty (choice_text v)) eqn:He.
    - apply is_empty_spec in He. by rewrite He in *.
    - cbn [negb py_str]. unfold choice_text. apply strip_lower_idemp. }
  by rewrite Hin.
Qed.

Lemma label_not_blank s : destination_label s = true -> sql_blank s = false.
Proof.
  destruct s as [|c s]; [done|]. cbn [destination_label sql_blank]. rewrite !andb_true_iff. intros [[Hc _] _].
  destruct (Ascii.eqb c " ") eqn:E; [|done]. apply Ascii.eqb_eq in E as ->. done.
Qed.

Lemma normalize_destination_idemp v key v' :
  normalize_destination v key = Ok v' ->
  exists s, v' = PStr s /\ sql_blank s = false /\ normalize_destination v' key = Ok v'.
Proof.
  unfold normalize_destination, refuse. destruct v; try done.
  destruct (is_empty (strip s)) eqn:He; [done|]. destruct (contains "://" _) eqn:Hu; [done|].
  destruct (negb _) eqn:Hl; [done|]. intros [= <-]. eexists. split; [done|]. rewrite strip_idemp, He, Hu, Hl.
  split; [|done]. apply label_not_blank. by apply negb_false_iff.
Qed.

Definition column_check (key s : string) : bool :=
  if String.eqb key "minimum_severity" then str_in s ALLOWED_NOTIFICATION_SEVERITIES
  else if String.eqb key "slack_format" then str_in s ALLOWED_SLACK_FORMATS
  else negb (sql_blank s).

(** A value that a column of the row takes and a load accepts. *)
Definition column_value (key : string) (v : pyval) : Prop :=
  field_ok key v /\ if bool_field key then exists b, v = PBool b else exists s, v = PStr s /\ column_check key s = true.

Lemma normalized_column key v v' : normalize_field key v = Ok v' -> column_value key v'.
Proof.
  intros Hv. unfold column_value, field_ok. destruct (bool_field key) eqn:Hb.
  { apply normalize_field_bool in Hv as [Hbool Hv']; [|done]. eauto. }
  unfold bool_field in Hb. revert Hv. unfold normalize_field at 1 2, column_check. rewrite Hb.
  destruct (String.eqb key "minimum_severity").
  { intros (s & -> & Hs & Hi)%normalize_choice_idemp. split; [eexists; by apply Hi|eauto]. }
  destruct (String.eqb key "slack_format").
  { intros (s & -> & Hs & Hi)%normalize_choice_idemp. split; [eexists; by apply Hi|eauto]. }
  intros (s & -> & Hs & Hi)%normalize_destination_idemp. split; [by eexists|]. exists s. by rewrite Hs.
Qed.

(** The eight columns, one by one. *)
Ltac each_field H := apply list_elem_of_In in H; cbn in H; destruct_or? H; subst; try done.

Lemma row_column r key v :
  row_ok r -> key ∈ allowed_fields -> dlookup (policy_fields r) key = Some v -> column_value key v.
Proof.
  intros [Hc Hf] Hk Hv. assert (field_ok key v) as Hfield.
  { apply (Forall_forall (fun kv => field_ok kv.1 kv.2)) with (x := (key, v)) in Hf; [done|].
    each_field Hk; cbn in Hv; injection Hv as <-; cbn; set_solver. }
  split; [done|]. unfold policy_checks in Hc. rewrite !andb_true_iff in Hc. destruct_and! Hc.
  each_field Hk; cbn in Hv; injection Hv as <-; cbn; eexists; try done; by split.
Qed.

Definition default_row : policy_row :=
  PolicyRow false "high" true true "compact" "pfSense destination" "Honeypot destination"
    "Critical / Cross-Source Security destination" 0 None.

Lemma default_row_ok : row_ok default_row.
Proof. split; [done|]. repeat constructor; eexists; reflexivity. Qed.

(** A policy as a load returns it: the fields of a good row. *)
Definition policy_of (current : pydict) (r : policy_row) : Prop :=
  forall key, key ∈ allowed_fields -> dlookup current key = dlookup (policy_fields r) key.

Lemma load_ok c :
  cn_aborted c = false -> table_ok (cn_current c) ->
  exists policy r, load_notification_policy c = (Ok policy, c) /\ row_ok r /\ policy_of policy r.
Proof.
  intros Hu Ht. unfold load_notification_policy. rewrite Hu. destruct (cn_current c) as [r|] eqn:Hc; cbn in Ht.
  - destruct (proj2 (loads r) (proj2 Ht)) as [n ->]. exists (row_to_dict r), r. split_and!; [done|done|].
    intros key Hk. each_field Hk.
  - exists (default_notification_policy "default"), default_row. split_and!; [done|apply default_row_ok|].
    intros key Hk. each_field Hk.
Qed.

Section Merge.
Context (items normalized current : pydict) (r0 : policy_row).
Context (Hn : normalize_fields items = Ok normalized) (Hr0 : row_ok r0) (Hcur : policy_of current r0).

Definition merged_value (key : string) : pyval := default (dget current key) (dlookup normalized key).

Lemma merged_column key :
  key ∈ allowed_fields ->
  merged_field normalized current key = Ok (merged_value key) /\ column_value key (merged_value key).
Proof using All.
  intros Hk. unfold merged_field, merged_value. destruct (dlookup normalized key) as [v|] eqn:Hv; cbn [default from_option id].
  - destruct (normalized_value _ _ _ _ Hn Hv) as [v0 Hv0]. split; [done|]. by eapply normalized_column.
  - unfold dindex, dget. rewrite (Hcur key Hk). destruct (dlookup (policy_fields r0) key) as [v|] eqn:Hv0.
    + split; [done|]. by eapply row_column.
    + each_field Hk.
Qed.

Lemma merged_bool_ok key :
  key ∈ allowed_fields -> bool_field key = true ->
  exists b, merged_bool normalized current key = Ok b /\ merged_value key = PBool b.
Proof using All.
  intros Hk Hb. destruct (merged_column key Hk) as [Hm [_ Hv]]. rewrite Hb in Hv. destruct Hv as [b Hv]. exists b.
  unfold merged_bool. by rewrite Hm, Hv.
Qed.

Lemma merged_text_ok key :
  key ∈ allowed_fields -> bool_field key = false ->
  exists s, merged_text normalized current key = Ok s /\ merged_value key = PStr s /\ column_check key s = true.
Proof using All.
  intros Hk Hb. destruct (merged_column key Hk) as [Hm [_ Hv]]. rewrite Hb in Hv. destruct Hv as (s & Hv & Hs). exists s.
  unfold merged_text. by rewrite Hm, Hv.
Qed.

Lemma merged_row_ok now by_ :
  exists r, merged_row normalized current now by_ = Ok r /\ row_ok r /\ np_updated_by r = by_ /\ np_updated_at r = now /\
    forall key, key ∈ allowed_fields -> dlookup (policy_fields r) key = Some (merged_value key).
Proof using All.
  unfold merged_row.
  destruct (merged_bool_ok "slack_enabled") as (b1 & -> & V1); [set_solver|done|].
  destruct (merged_text_ok "minimum_severity") as (s1 & -> & W1 & C1); [set_solver|done|].
  destruct (merged_bool_ok "notify_on_alerts") as (b2 & -> & V2); [set_solver|done|].
  destruct (merged_bool_ok "notify_on_incidents") as (b3 & -> & V3); [set_solver|done|].
  destruct (merged_text_ok "slack_format") as (s2 & -> & W2 & C2); [set_solver|done|].
  destruct (merged_text_ok "pfsense_destination") as (s3 & -> & W3 & C3); [set_solver|done|].
  destruct (merged_text_ok "honeypot_destination") as (s4 & -> & W4 & C4); [set_solver|done|].
  destruct (merged_text_ok "critical_cross_source_destination") as (s5 & -> & W5 & C5); [set_solver|done|].
  cbn [obind]. eexists. split; [done|]. split; [split|].
  - unfold policy_checks. cbn [np_minimum_severity np_slack_format np_pfsense_destination np_honeypot_destination
      np_critical_cross_source_destination]. cbn in C1, C2, C3, C4, C5. by rewrite C1, C2, C3, C4, C5.
  - apply Forall_forall. intros [key v] Hin. cbn [fst snd].
    assert (v = merged_value key /\ key ∈ allowed_fields) as [-> Hk].
    { cbn in Hin. repeat (apply elem_of_cons in Hin as [[= -> ->]|Hin]; [split; [done|set_solver]|]). by apply not_elem_of_nil in Hin. }
    by apply merged_column.
  - split_and!; [done|done|]. intros key Hk. each_field Hk; cbn; congruence.
Qed.
End Merge.

(** ** Updates *)

(** C37: A policy that is saved is the policy in force.  From a good row, or
    from none, an accepted update returns; each field then has the value of
    the update, normalized, or the one it had; a load gives the row back as
    applied; and the row is good again, so that no later load finds it
    unavailable. *)
Theorem policy_roundtrip clk updates normalized by_ c :
  cn_aborted c = false -> table_ok (cn_current c) -> validate_notification_policy_updates updates = Ok normalized ->
  exists current r c', load_notification_policy c = (Ok current, c) /\
    upsert_notification_policy clk updates by_ c = (Ok (policy_fields r), c') /\
    c' = Conn (cn_committed c) (Some r) false /\ row_ok r /\
    load_notification_policy c' = (Ok (row_to_dict r), c') /\
    forall key, key ∈ allowed_fields -> dget (row_to_dict r) key = merged_value normalized current key.
Proof.
  intros Hu Ht Hv. destruct (load_ok c Hu Ht) as (current & r0 & Hload & Hr0 & Hcur).
  unfold validate_notification_policy_updates in Hv. destruct updates as [| | | | | | | | |items]; try done.
  destruct (first_unknown _) eqn:Hunk; [done|].
  destruct (merged_row_ok items normalized current r0 Hv Hr0 Hcur (sql_now clk) by_) as (r & Hr & Hok & _ & _ & Hfields).
  exists current, r, (Conn (cn_committed c) (Some r) false). split_and!; [done| |done|done| |].
  - unfold upsert_notification_policy, validate_notification_policy_updates. rewrite Hunk, Hv.
    unfold bind at 1, of_outcome at 1. rewrite (bind_ok _ _ _ _ _ Hload), Hr.
    unfold bind at 1, of_outcome at 1. unfold bind, Tables.execute, write_policy. rewrite Hu.
    by destruct Hok as [-> _].
  - unfold load_notification_policy. cbn [cn_aborted cn_current]. by destruct (proj2 (loads r) (proj2 Hok)) as [n ->].
  - intros key Hk. pose proof (Hfields key Hk) as Hl. unfold dget at 1. unfold row_to_dict.
    each_field Hk; cbn in Hl |- *; congruence.
Qed.

(** A stored policy that the validation rejects can never be repaired
    through the application.  It is found after its savepoint has been
    released, so the recovery of the load aborts the transaction: every
    update then fails, a commit leaves the row as it is, and until somebody
    edits the table no notification is sent. *)
Theorem rejected_policy_stuck clk updates by_ r e :
  validate_notification_policy_updates (PDict (policy_fields r)) = Raise e ->
  (exists x c', upsert_notification_policy clk updates by_ (open_conn (Some r)) = (Raise x, c') /\
     cn_committed (commit_conn c').2 = Some r) /\
  forall kind severity source source_type bypass,
    pd_should_notify (evaluate_notification_policy (get_effective_notification_policy (Some (Some r))) kind severity source
                        source_type bypass) = false.
Proof.
  intros He. split.
  - unfold upsert_notification_policy. destruct (validate_notification_policy_updates updates) as [normalized|x] eqn:Hv.
    2: { eexists _, _. split; [reflexivity|done]. }
    unfold bind at 1, of_outcome at 1. unfold bind at 1, load_notification_policy. cbn [open_conn cn_aborted cn_current].
    rewrite He. unfold validate_notification_policy_updates in Hv. destruct updates as [| | | | | | | | |items]; try done.
    destruct (first_unknown _); [done|].
    destruct (merged_row_ok items normalized (default_notification_policy "unavailable") default_row Hv default_row_ok)
      with (now := sql_now clk) (by_ := by_) as (r' & -> & _); [intros key Hk; each_field Hk|].
    eexists _, _. split; [reflexivity|done].
  - intros. unfold get_effective_notification_policy, load_notification_policy. cbn [open_conn cn_aborted cn_current].
    by rewrite He.
Qed.

(** ** The decision *)

(** The kinds of event a policy can switch off. *)
Definition kind_enabled (policy : pydict) (kind : string) : Prop :=
  (kind ∈ ["alert"; "recon_activity"] -> truthy (policy_get policy "notify_on_alerts" (PBool true)) = true) /\
  (kind = "incident" -> truthy (policy_get policy "notify_on_incidents" (PBool true)) = true).

(** The route of an event: its source's, or that of critical events. *)
Definition routed (source source_type severity : pyval) (route : string) : Prop :=
  normalize_notification_source source source_type = Some route \/
  (normalize_notification_source source source_type = None /\ choice_text severity = "critical" /\
   route = ROUTE_KEY_CRITICAL_CROSS_SOURCE).

(** The decision to notify on a route. *)
Definition accepted (route destination : string) (d : policy_decision) : Prop :=
  pd_should_notify d = true /\ pd_route_key d = Some route /\ pd_destination d = Some destination.

Lemma accepted_unless route destination (b : bool) reason k d :
  accepted route destination (if b then suppressed reason k else d) <-> b = false /\ accepted route destination d.
Proof. unfold accepted. destruct b; cbn; naive_solver. Qed.

Lemma not_str v s : eq_str v s = false <-> v <> PStr s.
Proof. destruct v; try done. cbn. rewrite String.eqb_neq. split; congruence. Qed.
Lemma off_unless b t : b && negb t = false <-> (b = true -> t = true).
Proof. destruct b, t; cbn; naive_solver. Qed.
Lemma off_unless_either b t : negb b && negb t = false <-> b = true \/ t = true.
Proof. destruct b, t; cbn; naive_solver. Qed.

Lemma routed_spec source source_type severity route :
  match normalize_notification_source source source_type with
  | Some k => Some k
  | None => if String.eqb (choice_text severity) "critical" then Some ROUTE_KEY_CRITICAL_CROSS_SOURCE else None
  end = Some route <-> routed source source_type severity route.
Proof.
  unfold routed. destruct (normalize_notification_source _ _) as [k|]; [naive_solver|].
  destruct (String.eqb_spec (choice_text severity) "critical"); naive_solver.
Qed.

Lemma accepted_destination policy route destination format (key : option string) :
  accepted route destination
    match key with
    | None => suppressed "source_not_routed" None
    | Some k => match policy_destination policy k with
                | None => suppressed "source_not_routed" (Some k)
                | Some dest => PolicyDecision true "eligible" (Some k) (Some dest) format
                end
    end <-> key = Some route /\ policy_destination policy route = Some destination.
Proof.
  unfold accepted. destruct key as [k|]; [|by split; intros [? ?]].
  destruct (policy_destination policy k) as [dest|] eqn:Hk; cbn; split; naive_solver.
Qed.

(** C34: Exactly when a notification is due.  The policy could be read and is
    enabled for the kind of event and for Slack (a route test bypasses the
    latter), the severity is known and not below the policy's, and the event
    has a route whose destination is set; the decision then carries both. *)
Theorem notify_exactly_when_due policy kind severity source source_type bypass route destination :
  accepted route destination (evaluate_notification_policy policy kind severity source source_type bypass) <->
  (dget policy "status" <> PStr "unavailable" /\ kind_enabled policy (lower (strip kind)) /\
   (bypass = true \/ truthy (policy_get policy "slack_enabled" (PBool false)) = true) /\
   (exists rank least, SEVERITY_RANK (choice_text severity) = Some rank /\
      SEVERITY_RANK (lower (strip (py_str (py_or (dget policy "minimum_severity") (PStr "high"))))) = Some least /\ least <= rank) /\
   routed source source_type severity route /\ policy_destination policy route = Some destination).
Proof.
  unfold evaluate_notification_policy, kind_enabled. rewrite !accepted_unless, not_str, off_unless_either, !off_unless.
  rewrite str_in_spec, String.eqb_eq.
  destruct (SEVERITY_RANK (choice_text severity)) as [rank|]; [|unfold accepted; cbn; naive_solver].
  destruct (SEVERITY_RANK (lower _)) as [least|]; [|unfold accepted; cbn; naive_solver].
  rewrite accepted_unless, Z.ltb_ge, accepted_destination, routed_spec. naive_solver.
Qed.

(** ** Witnesses *)

Definition ex_policy_updates : pyval := PDict [("slack_enabled", PBool true); ("minimum_severity", PStr " Critical ")].

Lemma policy_roundtrip_witness :
  exists r c', upsert_notification_policy (Clock 0 0) ex_policy_updates (Some "admin") (open_conn None) =
      (Ok (policy_fields r), c') /\
    dget (row_to_dict r) "minimum_severity" = PStr "critical" /\ dget (row_to_dict r) "slack_format" = PStr "compact".
Proof.
  destruct (policy_roundtrip (Clock 0 0) ex_policy_updates [("slack_enabled", PBool true); ("minimum_severity", PStr "critical")]
    (Some "admin") (open_conn None)) as (current & r & c' & Hload & Hup & _ & _ & _ & Hfields); [done|done|by vm_compute|].
  vm_compute in Hload. injection Hload as <-.
  exists r, c'. split_and!; [exact Hup|apply (Hfields "minimum_severity"); set_solver|apply (Hfields "slack_format"); set_solver].
Defined.

(** The CHECK constraints allow this destination. *)
Definition ex_rejected_row : policy_row :=
  PolicyRow true "high" true true "compact" "https://hooks.example/1" "Honeypot destination" "Critical" 0 None.

Lemma rejected_policy_stuck_witness :
  policy_checks ex_rejected_row = true /\
  exists x c', upsert_notification_policy (Clock 0 0) (PDict [("pfsense_destination", PStr "firewall team")]) None
      (open_conn (Some ex_rejected_row)) = (Raise x, c') /\ cn_committed (commit_conn c').2 = Some ex_rejected_row.
Proof.
  split; [done|].
  destruct (rejected_policy_stuck (Clock 0 0) (PDict [("pfsense_destination", PStr "firewall team")]) None ex_rejected_row
    (ValueError "pfsense_destination must be a routing label, not a URL")) as [H _]; [by vm_compute|exact H].
Defined.
