(* ===== verification/NotificationService.v ===== *)
(** * NotificationService: core/notification_policy_service.py

    What an alert, an incident or a playbook step does to notify: take the
    decision of the policy, drop a repeat of a delivered notification, send
    through the Slack adapter in real mode, and record the attempt.  The
    notifications of recon activities, which read tables of their own, share
    [deliver_notification] and are not followed further. *)

From S2P Require Import RateLimiter CircuitBreaker Integration RealMode SlackAdapter IntegrationRegistry.
From S2P Require Import Prelude PyText PyFloat PyValue Tables Outcomes Deliveries Alerts PlaybookStore StepEvents.
From S2P Require Import PlaybookAdapters NotificationPolicy.

Open Scope Z_scope.

(** ** Purposes and stages *)

Definition PURPOSE_IMMEDIATE_ALERT : string := "immediate_alert".
Definition PURPOSE_INCIDENT_CREATED : string := "incident_created".
Definition PURPOSE_INVESTIGATION_UPDATE : string := "investigation_update".
Definition PURPOSE_CONTAINMENT_OUTCOME : string := "containment_outcome".
Definition PURPOSE_ROUTE_TEST : string := "route_test".
Definition NOTIFICATION_PURPOSES : list string :=
  [PURPOSE_IMMEDIATE_ALERT; PURPOSE_INCIDENT_CREATED; PURPOSE_INVESTIGATION_UPDATE; PURPOSE_CONTAINMENT_OUTCOME;
   PURPOSE_ROUTE_TEST].

Definition DELIVERY_STAGE_INITIAL : string := "initial".
Definition DELIVERY_STAGE_PLAYBOOK : string := "playbook".
Definition DELIVERY_STAGE_TEST : string := "test".

Definition normalize_notification_purpose (value : pyval) (default : string) : string :=
  if str_in (choice_text value) NOTIFICATION_PURPOSES then choice_text value else default.

Definition delivery_stage_for_purpose (purpose : string) : string :=
  if String.eqb purpose PURPOSE_ROUTE_TEST then DELIVERY_STAGE_TEST
  else if str_in purpose [PURPOSE_INVESTIGATION_UPDATE; PURPOSE_CONTAINMENT_OUTCOME] then DELIVERY_STAGE_PLAYBOOK
  else DELIVERY_STAGE_INITIAL.

(** ** Texts *)

(** [d.get(key) or default], printed. *)
Definition shown (d : pydict) (key default : string) : string := py_str (py_or (dget d key) (PStr default)).
Definition shown_severity (d : pydict) : string := upper (shown d "severity" "").
Definition severity_line (d : pydict) : string :=
  "Severity: " +:+ (if is_empty (shown_severity d) then "UNKNOWN" else shown_severity d).

(** A line for a value that is truthy, and for one that is a text. *)
Definition line_of (d : pydict) (label key : string) : list string :=
  if truthy (dget d key) then [label +:+ py_str (dget d key)] else [].
Definition text_line (d : pydict) (label key : string) : list string :=
  match dget d key with PStr s => if is_empty s then [] else [label +:+ s] | _ => [] end.

Definition message_text (lines : list string) : string := clip 3000 (String.concat newline lines).

Definition compact_alert_text (alert : pydict) (destination : string) : string :=
  clip 3000 ("[" +:+ destination +:+ "] ALERT " +:+ shown_severity alert +:+ " " +:+ shown alert "source" "unknown" +:+
             " #" +:+ py_str (dget alert "id") +:+ " " +:+ shown alert "message" "Notification").

Definition detailed_alert_text (alert : pydict) (destination : string) : string :=
  message_text
    (["[" +:+ destination +:+ "] Alert notification"; severity_line alert; "Rule: " +:+ shown alert "alert_type" "unknown";
      "Source: " +:+ shown alert "source" "unknown"] ++
     line_of alert "Source IP: " "source_ip" ++ line_of alert "Summary: " "message" ++ text_line alert "MITRE: " "mitre" ++
     line_of alert "Response action: " "response_action" ++ line_of alert "Response status: " "response_status" ++
     text_line alert "Target context: " "target_context").

Definition format_alert_notification (alert : pydict) (slack_format : pyval) (destination : string) : string :=
  if eq_str slack_format "detailed" then detailed_alert_text alert destination else compact_alert_text alert destination.

Definition compact_recon_activity_text (activity : pydict) (destination : string) : string :=
  clip 3000 ("[" +:+ destination +:+ "] RECON " +:+ shown_severity activity +:+ " #" +:+ py_str (dget activity "id") +:+ " " +:+
             shown activity "message" "Distributed Internet Reconnaissance Activity").

Definition detailed_recon_activity_text (activity : pydict) (destination : string) : string :=
  message_text
    (["[" +:+ destination +:+ "] Recon activity notification"; severity_line activity;
      "Label: " +:+ shown activity "message" "Distributed Internet Reconnaissance Activity";
      "Status: " +:+ shown activity "status" "unknown"] ++
     line_of activity "Assessment: " "assessment_text" ++ line_of activity "Target context: " "target_context").

Definition format_recon_activity_notification (activity : pydict) (slack_format : pyval) (destination : string) : string :=
  if eq_str slack_format "detailed" then detailed_recon_activity_text activity destination
  else compact_recon_activity_text activity destination.

Definition compact_incident_text (incident : pydict) (destination : string) : string :=
  clip 3000 ("[" +:+ destination +:+ "] INCIDENT " +:+ shown_severity incident +:+ " #" +:+ py_str (dget incident "id") +:+ " " +:+
             shown incident "title" "Notification").

Definition detailed_incident_text (incident : pydict) (destination : string) : string :=
  message_text
    (["[" +:+ destination +:+ "] Incident notification"; severity_line incident;
      "Title: " +:+ shown incident "title" "Untitled incident"; "Status: " +:+ shown incident "status" "unknown"] ++
     line_of incident "Source IP: " "source_ip" ++ line_of incident "Rule: " "alert_type" ++
     line_of incident "Source: " "source" ++ line_of incident "Response action: " "response_action" ++
     line_of incident "Target context: " "target_context").

Definition format_incident_notification (incident : pydict) (slack_format : pyval) (destination : string) : string :=
  if eq_str slack_format "detailed" then detailed_incident_text incident destination
  else compact_incident_text incident destination.

Definition playbook_purpose_label (purpose : string) : string :=
  if String.eqb purpose PURPOSE_CONTAINMENT_OUTCOME then "Containment outcome"
  else if String.eqb purpose PURPOSE_INVESTIGATION_UPDATE then "Investigation update"
  else "Notification update".

Definition default_playbook_message (purpose event_kind : string) : string :=
  if String.eqb purpose PURPOSE_CONTAINMENT_OUTCOME then "Containment outcome update."
  else if String.eqb event_kind "incident" then "Incident investigation update."
  else "Alert investigation update.".

Definition or_unknown_severity (subject : pydict) : string :=
  if is_empty (shown_severity subject) then "UNKNOWN" else shown_severity subject.

Definition compact_playbook_text (subject : pydict) (destination event_kind purpose message : string) : string :=
  let head := "[" +:+ destination +:+ "] " +:+ upper purpose +:+ " " +:+ or_unknown_severity subject +:+ " " in
  if String.eqb event_kind "incident"
  then clip 3000 (strip (head +:+ "#" +:+ py_str (dget subject "id") +:+ " " +:+ shown subject "title" "Incident update" +:+
                         " " +:+ message))
  else clip 3000 (strip (head +:+ shown subject "source" "unknown" +:+ " #" +:+ py_str (dget subject "id") +:+ " " +:+ message)).

Definition detailed_playbook_text (subject : pydict) (destination event_kind purpose message : string) : string :=
  let incident := String.eqb event_kind "incident" in
  message_text
    (["[" +:+ destination +:+ "] " +:+ playbook_purpose_label purpose; severity_line subject; "Purpose: " +:+ purpose] ++
     (if incident
      then ["Title: " +:+ shown subject "title" "Untitled incident"; "Status: " +:+ shown subject "status" "unknown"]
      else ["Rule: " +:+ shown subject "alert_type" "unknown"; "Source: " +:+ shown subject "source" "unknown"]) ++
     line_of subject "Source IP: " "source_ip" ++
     (if incident then line_of subject "Rule: " "alert_type" ++ line_of subject "Source: " "source" else []) ++
     line_of subject "Response action: " "response_action" ++ line_of subject "Response status: " "response_status" ++
     text_line subject "Target context: " "target_context" ++ ["Summary: " +:+ message]).

Definition format_playbook_notification (subject : pydict) (slack_format : pyval) (destination event_kind purpose : string)
    (message : pyval) : string :=
  let given := if is_none message then "" else strip (py_str message) in
  let text := if is_empty given then default_playbook_message purpose event_kind else given in
  if eq_str slack_format "detailed" then detailed_playbook_text subject destination event_kind purpose text
  else compact_playbook_text subject destination event_kind purpose text.

Definition format_route_test_text (route_key destination slack_format : string) : string :=
  let route_label := if String.eqb route_key ROUTE_KEY_PFSENSE then "pfSense"
                     else if String.eqb route_key ROUTE_KEY_HONEYPOT then "Honeypot" else "Critical / Cross-Source" in
  if String.eqb slack_format "detailed"
  then message_text ["[" +:+ destination +:+ "] Notification policy route test"; "Route: " +:+ route_label;
                     "Severity: CRITICAL"; "Source: synthetic_admin_test";
                     "Summary: Synthetic notification-policy route verification. No alert, incident, playbook, approval, or SOAR execution was created."]
  else clip 3000 ("[" +:+ destination +:+ "] NOTIFICATION POLICY ROUTE TEST " +:+ route_label +:+
                  " synthetic verification message. No alert or incident was created.").

(** ** Delivery *)

(** The arguments of [_deliver_notification]. *)
Record notification := Notification {
  nt_event_kind : string;
  nt_object_id : Z;
  nt_subject : pydict;
  nt_purpose : string;
  nt_custom_text : pyval;
  nt_requested_by : option string;
  nt_bypass_slack_disabled : bool;
  nt_allow_dedup : bool;
  nt_execution_id : option Z;
  nt_step_index : option Z;
  nt_correlation_kind : option string;
  nt_scope_suffix : option string;
  nt_recon_activity_id : option Z;
}.

(** What it returns. *)
Record notification_result := NotificationResult {
  nr_success : bool;
  nr_suppressed : bool;
  nr_duplicate : bool;
  nr_purpose : string;
  nr_delivery_stage : string;
  nr_route_key : string;
  nr_message : pyval;
  nr_attempt : option (Z * delivery_row);
  nr_adapter_result : option pydict;
  nr_decision : policy_decision;
}.

(** What differs from one [_record_attempt] to the next. *)
Record attempt_record := AttemptRecord {
  ar_status : string;
  ar_failure_code : option string;
  ar_failure_message : option string;
  ar_metadata : pydict;
  ar_mode_override : option string;
  ar_timeout_seconds : option Z;
  ar_circuit_breaker_state : option string;
}.

Definition delivery_status_from_adapter_result (result : pydict) : string :=
  let metadata := dict_or_empty (dget result "metadata") in
  let classification := choice_text (dget metadata "failure_classification") in
  match dget result "success", dget metadata "timed_out" with
  | PBool true, _ => "success"
  | _, PBool true => "timeout"
  | _, _ =>
      if String.eqb classification "timeout" then "timeout"
      else if str_in classification ["circuit_open"; "circuit_state_invalid"; "provider_rate_limited"; "guard_failed";
                                     "credential_missing"] then "blocked"
      else "failed"
  end.

Section Service.
(** What the process finds outside: the environment and the network, the
    clocks, the digest, the random part of a correlation id, the rows the
    foreign keys refer to, the policy as another connection reads it, and the
    incidents joined with their first linked alert. *)
Context (o : outside) (now : Z) (clk : clock) (sha256_hex : string -> string) (uuid_hex : string).
Context (references_ok : delivery_row -> bool) (policy_db : option policy_table) (incident_view : Z -> option pydict).

Abbreviation db := (exec_db (world traffic)).

Definition stmt_deliveries {A} (m : M delivery_store A) : M (conn db) A := Tables.execute (in_deliveries m).

(** Memory of the process and calls over the network: outside of any
    transaction. *)
Definition in_process {A} (m : M (world traffic) A) : M (conn db) A := fun c =>
  match in_world m (cn_current c) with (r, d) => (r, Conn (cn_committed c) d (cn_aborted c)) end.

Definition notification_correlation_id (kind : string) (object_id : Z) (route_key : string) : string :=
  "policy-" +:+ kind +:+ "-" +:+ route_key +:+ "-" +:+ str_int object_id +:+ "-" +:+ uuid_hex.

Definition notification_idempotency_key (kind : string) (object_id : Z) (route_key purpose delivery_stage : string)
    (scope_suffix : option string) : string :=
  let suffix := match scope_suffix with Some s => if is_empty s then "" else ":" +:+ s | None => "" end in
  clip 64 (sha256_hex ("policy:" +:+ kind +:+ ":" +:+ str_int object_id +:+ ":" +:+ route_key +:+ ":" +:+ purpose +:+ ":" +:+
                       delivery_stage +:+ suffix)).

Definition by_key_filter (key : string) : delivery_filter :=
  DeliveryFilter None None None None (Some key) None None None None None None None.

Definition is_active (x : Z * delivery_row) : bool := str_in (nd_status x.2) ["success"; "pending"].

Definition existing_policy_delivery (key : string) : M (conn db) (option (Z * delivery_row)) :=
  let* rows := stmt_deliveries (fun s => (list_notification_delivery_attempts (by_key_filter key) 10 0 s, s)) in
  ret (List.find is_active rows).

Definition record_attempt (n : notification) (correlation_id key : string) (alert_ref incident_ref : option Z)
    (a : attempt_record) : M (conn db) (Z * delivery_row) :=
  let override := lower (strip (default "" (ar_mode_override a))) in
  let mode := if str_in override ["simulation"; "real"] then override
              else if str_in (ar_status a) ["success"; "failed"; "timeout"] then "real" else "simulation" in
  stmt_deliveries (create_notification_delivery_attempt clk references_ok
    (DeliveryParams correlation_id key "slack" mode (ar_status a) "slack" "send_message" (ar_metadata a) (nt_execution_id n)
       (nt_step_index n) incident_ref None alert_ref (nt_recon_activity_id n) (Some (utc_now clk)) (Some (utc_now clk))
       (Some (utc_now clk)) (ar_failure_code a) (ar_failure_message a) (ar_timeout_seconds a) (ar_circuit_breaker_state a))).

Definition record_attempt_safe (n : notification) (correlation_id key : string) (alert_ref incident_ref : option Z)
    (a : attempt_record) : M (conn db) (option (Z * delivery_row)) :=
  try_catch (let* x := record_attempt n correlation_id key alert_ref incident_ref a in ret (Some x)) (fun _ => ret None).

Definition notification_text (n : notification) (purpose destination : string) (d : policy_decision) : string :=
  let kind := nt_event_kind n in
  if String.eqb purpose PURPOSE_ROUTE_TEST
  then format_route_test_text (default "" (pd_route_key d)) destination (py_str (py_or (pd_slack_format d) (PStr "compact")))
  else if String.eqb kind "recon_activity"
  then format_recon_activity_notification (nt_subject n) (pd_slack_format d) destination
  else if String.eqb purpose PURPOSE_IMMEDIATE_ALERT && String.eqb kind "alert"
  then format_alert_notification (nt_subject n) (pd_slack_format d) destination
  else if String.eqb purpose PURPOSE_INCIDENT_CREATED && String.eqb kind "incident"
  then format_incident_notification (nt_subject n) (pd_slack_format d) destination
  else format_playbook_notification (nt_subject n) (pd_slack_format d) destination kind purpose (nt_custom_text n).

Definition adapter_params (n : notification) (text destination : string) : pyval :=
  PDict [("text", PStr text);
         ("message", py_or (nt_custom_text n) (py_or (dget (nt_subject n) "message") (dget (nt_subject n) "title")));
         ("destination_label", PStr destination)].

Definition notification_context (n : notification) (d : policy_decision) (purpose stage correlation_id : string)
    (alert_ref incident_ref : option Z) : pyval :=
  PDict [("alert_id", opt_int alert_ref); ("incident_id", opt_int incident_ref);
         ("playbook_id", match nt_execution_id n with
                         | None => PStr "notification_policy" | Some _ => dget (nt_subject n) "playbook_id" end);
         ("execution_id", match nt_execution_id n with None => PStr correlation_id | Some i => PInt i end);
         ("notification_policy", PBool true); ("route_key", opt_text (pd_route_key d)); ("purpose", PStr purpose);
         ("delivery_stage", PStr stage); ("playbook_execution_id", opt_int (nt_execution_id n));
         ("playbook_step_index", opt_int (nt_step_index n))].

(** [{key: value}] with [None] for an absent row. *)
Definition common_metadata (n : notification) (purpose stage : string) : pydict :=
  [("notification_policy", PBool true); ("event_kind", PStr (nt_event_kind n)); ("purpose", PStr purpose);
   ("delivery_stage", PStr stage); ("source", dget (nt_subject n) "source"); ("source_type", dget (nt_subject n) "source_type");
   ("severity", dget (nt_subject n) "severity"); ("requested_by", opt_text (nt_requested_by n));
   ("playbook_execution_id", opt_int (nt_execution_id n)); ("playbook_step_index", opt_int (nt_step_index n));
   ("recon_activity_id", opt_int (nt_recon_activity_id n))].

Definition blocked_attempt (failure_code failure_message : string) (metadata : pydict) : attempt_record :=
  AttemptRecord "blocked" (Some failure_code) (Some failure_message) metadata None None None.

Definition suppression_message (d : policy_decision) : string :=
  "Notification policy suppressed Slack delivery: " +:+ pd_reason d +:+ ".".
Definition duplicate_message : string :=
  "Equivalent Slack notification already delivered; duplicate send suppressed.".

(** [attempt["failure_message"] if attempt is not None else message]. *)
Definition recorded_message (attempt : option (Z * delivery_row)) (message : string) : pyval :=
  match attempt with Some x => opt_text (nd_failure_message x.2) | None => PStr message end.

(** The attempt of a result of the adapter. *)
Definition sent_attempt (n : notification) (purpose stage destination : string) (d : policy_decision) (result : pydict)
    : attempt_record :=
  let metadata := dict_or_empty (dget result "metadata") in
  AttemptRecord (delivery_status_from_adapter_result result) (as_str (dget metadata "failure_classification"))
    (if truthy (dget result "success") then None else as_str (dget result "message"))
    (common_metadata n purpose stage ++
     [("route_key", opt_text (pd_route_key d)); ("destination_label", PStr destination);
      ("slack_format", pd_slack_format d); ("adapter_mode", dget result "mode"); ("executed", dget result "executed");
      ("simulated", dget result "simulated"); ("provider_success", dget metadata "provider_success");
      ("failure_classification", dget metadata "failure_classification"); ("rate_limited", dget metadata "rate_limited");
      ("adapter_result", PDict [("success", dget result "success");
                                ("failure_classification", dget metadata "failure_classification")])])
    (Some (py_str (py_or (dget result "mode") (PStr "simulation")))) (as_int (dget metadata "timeout_seconds"))
    (as_str (dget metadata "circuit_state")).

Definition object_ref (n : notification) (kind : string) : option Z :=
  if String.eqb (nt_event_kind n) kind && (0 <? nt_object_id n) then Some (nt_object_id n) else None.

(** The send, once the decision is taken and no repeat found. *)
Definition send_notification (n : notification) (purpose stage correlation_id key : string) (d : policy_decision)
    : M (conn db) notification_result :=
  let destination := default "" (pd_destination d) in
  let route := default "" (pd_route_key d) in
  let alert_ref := object_ref n "alert" in
  let incident_ref := object_ref n "incident" in
  let* result := in_process (use_adapter o "slack" (Some REAL_MODE) now "send_message"
    (adapter_params n (notification_text n purpose destination d) destination)
    (notification_context n d purpose stage correlation_id alert_ref incident_ref)) in
  let* attempt := record_attempt_safe n correlation_id key alert_ref incident_ref
                    (sent_attempt n purpose stage destination d result) in
  ret (NotificationResult
         (match attempt with Some x => String.eqb (nd_status x.2) "success" | None => truthy (dget result "success") end)
         false false purpose stage route (dget result "message") attempt (Some result) d).

Definition notification_decision (policy : pydict) (n : notification) : policy_decision :=
  evaluate_notification_policy policy (nt_event_kind n) (dget (nt_subject n) "severity") (dget (nt_subject n) "source")
    (dget (nt_subject n) "source_type") (nt_bypass_slack_disabled n).

Definition purpose_of (n : notification) : string :=
  normalize_notification_purpose (PStr (nt_purpose n))
    (if String.eqb (nt_event_kind n) "alert" then PURPOSE_IMMEDIATE_ALERT else PURPOSE_INCIDENT_CREATED).

(** [decision.get("route_key") or "unrouted"]. *)
Definition route_of (d : policy_decision) : string := default "unrouted" (pd_route_key d).

Definition key_of (policy : pydict) (n : notification) : string :=
  notification_idempotency_key (nt_event_kind n) (nt_object_id n) (route_of (notification_decision policy n)) (purpose_of n)
    (delivery_stage_for_purpose (purpose_of n)) (nt_scope_suffix n).

Definition deliver_notification (policy : pydict) (n : notification) : M (conn db) notification_result :=
  let purpose := purpose_of n in
  let stage := delivery_stage_for_purpose purpose in
  let d := notification_decision policy n in
  let route := route_of d in
  let correlation_id := notification_correlation_id (default (nt_event_kind n) (nt_correlation_kind n)) (nt_object_id n) route in
  let key := key_of policy n in
  let record := record_attempt_safe n correlation_id key (object_ref n "alert") (object_ref n "incident") in
  let common := common_metadata n purpose stage in
  if negb (pd_should_notify d) then
    let* attempt := record (blocked_attempt (pd_reason d) (suppression_message d)
      (common ++ [("policy_status", dget policy "status"); ("policy_reason", PStr (pd_reason d)); ("executed", PBool false);
                  ("simulated", PBool true)])) in
    ret (NotificationResult false true false purpose stage route (recorded_message attempt (suppression_message d)) attempt
           None d)
  else
    let* existing := (if nt_allow_dedup n then existing_policy_delivery key else ret None) in
    match existing with
    | Some x =>
        let* attempt := record (blocked_attempt "duplicate_delivery" duplicate_message
          (common ++ [("route_key", opt_text (pd_route_key d)); ("destination_label", opt_text (pd_destination d));
                      ("duplicate_of_attempt_id", PInt x.1); ("duplicate_of_status", PStr (nd_status x.2));
                      ("executed", PBool false); ("simulated", PBool true)])) in
        ret (NotificationResult false true true purpose stage route (recorded_message attempt duplicate_message) attempt None d)
    | None => send_notification n purpose stage correlation_id key d
    end.

(** ** What is notified *)

Definition alert_context_keys : list string :=
  ["id"; "alert_type"; "severity"; "source_ip"; "source"; "source_type"; "message"; "response_action"; "response_status"].

Definition alert_context (row : pydict) : pydict :=
  map (fun k => (k, dget row k)) alert_context_keys ++ [("context", PDict (dict_or_empty (dget row "context")))].

Definition fetch_alert_notification_context (alert_id : Z) : M (conn db) (option pydict) :=
  stmt_reads (fun d => alert_context <$> xd_alerts d !! alert_id).

Definition fetch_incident_notification_context (incident_id : Z) : M (conn db) (option pydict) :=
  stmt_reads (fun _ => incident_view incident_id).

(** A notification with no caller's choices. *)
Definition plain_notification (event_kind : string) (object_id : Z) (subject : pydict) (purpose : string) : notification :=
  Notification event_kind object_id subject purpose PNone None false true None None None None None.

(** The context of an alert may say that it is not to be notified at once. *)
Definition immediate_alert_eligible (alert : pydict) : bool :=
  match dget (dict_or_empty (dget alert "context")) "notification_policy" with
  | PDict override => match dget override "immediate_alert_eligible" with PBool b => b | _ => true end
  | _ => true
  end.

Definition notify_for_alert (alert_id : Z) : M (conn db) (option (Z * delivery_row)) :=
  let* alert := fetch_alert_notification_context alert_id in
  match alert with
  | None => ret None
  | Some alert =>
      if negb (immediate_alert_eligible alert) then ret None
      else
        let* result := deliver_notification (get_effective_notification_policy policy_db)
                         (plain_notification "alert" alert_id alert PURPOSE_IMMEDIATE_ALERT) in
        ret (nr_attempt result)
  end.

Definition notify_for_incident (incident_id : Z) : M (conn db) (option (Z * delivery_row)) :=
  let* incident := fetch_incident_notification_context incident_id in
  match incident with
  | None => ret None
  | Some incident =>
      let* result := deliver_notification (get_effective_notification_policy policy_db)
                       (plain_notification "incident" incident_id incident PURPOSE_INCIDENT_CREATED) in
      ret (nr_attempt result)
  end.

(** ** A step of a playbook that notifies *)

Definition no_subject : policy_decision := PolicyDecision false "missing_notification_subject" None None PNone.
Definition no_subject_result (purpose : string) (message : pyval) (attempt : option (Z * delivery_row)) : notification_result :=
  NotificationResult false true false purpose DELIVERY_STAGE_PLAYBOOK "unrouted" message attempt None no_subject.

(** The execution itself, as what a notification without a subject is about. *)
Definition execution_notification (x : Z * exec_row) (purpose : string) (step_index : option Z) : notification :=
  Notification "playbook" x.1 [] purpose PNone None false true (Some x.1) step_index None None None.

Definition unlinked_metadata (x : Z * exec_row) (purpose : string) (step_index : option Z) : pydict :=
  [("notification_policy", PBool true); ("event_kind", PStr "playbook"); ("purpose", PStr purpose);
   ("delivery_stage", PStr DELIVERY_STAGE_PLAYBOOK); ("executed", PBool false); ("simulated", PBool true);
   ("playbook_execution_id", PInt x.1); ("playbook_step_index", opt_int step_index)].

Definition playbook_subject (x : Z * exec_row) : M (conn db) (option (string * Z * pydict)) :=
  match x_alert_id x.2, x_incident_id x.2 with
  | Some i, _ => let* s := fetch_alert_notification_context i in ret ((fun s => ("alert", i, s)) <$> s)
  | None, Some i => let* s := fetch_incident_notification_context i in ret ((fun s => ("incident", i, s)) <$> s)
  | None, None => ret None
  end.

Definition send_playbook_notification (x : Z * exec_row) (message purpose : pyval) (step_index : option Z)
    : M (conn db) notification_result :=
  let purpose := normalize_notification_purpose purpose PURPOSE_INVESTIGATION_UPDATE in
  match x_alert_id x.2, x_incident_id x.2 with
  | None, None =>
    let* attempt := record_attempt (execution_notification x purpose step_index)
      (notification_correlation_id "playbook" x.1 "unrouted")
      (notification_idempotency_key "playbook" x.1 "unrouted" purpose DELIVERY_STAGE_PLAYBOOK None) None None
      (blocked_attempt "missing_notification_subject" "Playbook Slack notification has no linked alert or incident context."
         (unlinked_metadata x purpose step_index)) in
    ret (no_subject_result purpose (opt_text (nd_failure_message attempt.2)) (Some attempt))
  | _, _ =>
    let* subject := playbook_subject x in
    match subject with
    | None => ret (no_subject_result purpose (PStr "Linked notification context was not found.") None)
    | Some (kind, object_id, subject) =>
        deliver_notification (get_effective_notification_policy policy_db)
          (Notification kind object_id (dset subject "playbook_id" (PStr (x_playbook_id x.2))) purpose message None false true
             (Some x.1) step_index (Some "playbook") None None)
    end
  end.

(** ** The test of a route *)

Definition route_test_source (route_key : string) : outcome (string * string) :=
  if String.eqb route_key ROUTE_KEY_PFSENSE then Ok ("pfsense", "firewall")
  else if String.eqb route_key ROUTE_KEY_HONEYPOT then Ok ("honeypot", "honeypot")
  else if String.eqb route_key ROUTE_KEY_CRITICAL_CROSS_SOURCE then Ok ("bank_app", "custom")
  else Raise (ValueError "Notification policy test route is not supported").

(** The policy as the connection of the request reads it. *)
Definition load_policy (t : policy_table) : M (conn db) pydict := fun c =>
  match load_notification_policy (Conn t t (cn_aborted c)) with
  | (r, c') => (r, Conn (cn_committed c) (cn_current c) (cn_aborted c'))
  end.

Definition attempt_summary_keys : list string :=
  ["id"; "provider"; "status"; "action"; "created_at"; "completed_at"; "failure_code"; "failure_message"].
Definition attempt_summary (x : Z * delivery_row) : pydict := map (fun k => (k, dget (delivery_dict x) k)) attempt_summary_keys.

Definition route_test_subject (route_key : string) (source : string * string) (policy : pydict) : pydict :=
  [("id", PInt 0); ("severity", PStr "critical"); ("source", PStr source.1); ("source_type", PStr source.2);
   ("message", PStr (format_route_test_text route_key "test" (py_str (py_or (dget policy "slack_format") (PStr "compact")))))].

Definition route_test_result (r : notification_result) (x : Z * delivery_row) : pydict :=
  let sent := String.eqb (nd_status x.2) "success" in
  [("route_key", PStr (nr_route_key r)); ("success", PBool sent); ("status", PStr (nd_status x.2));
   ("message", if sent then PStr ("Notification policy route test sent for " +:+ nr_route_key r +:+ ".")
               else opt_text (nd_failure_message x.2));
   ("attempt", PDict (attempt_summary x))].

Definition send_notification_policy_route_test (t : policy_table) (route_key : string) (requested_by : option string)
    (bypass_slack_disabled : bool) : M (conn db) pydict :=
  let* source := of_outcome (route_test_source (lower (strip route_key))) in
  let* policy := load_policy t in
  let* r := deliver_notification policy
    (Notification "alert" 0 (route_test_subject route_key source policy) PURPOSE_ROUTE_TEST
       (PStr ("Notification policy route test for " +:+ route_key)) requested_by bypass_slack_disabled false None None
       (Some "route_test") None None) in
  match nr_attempt r with
  | Some x => ret (route_test_result r x)
  | None => raise TypeError
  end.
End Service.
