(* ===== verification/NotificationProofs.v ===== *)
(** * NotificationProofs: what a notification does to the rest of the system

    A delivery stays out of every table but its own and ends no transaction,
    which is what an ingestion asks of it ([IngestDispatch.AlertNotifier]);
    it reaches Slack at most once, within the guards of the adapter; and an
    equivalent delivery on record is looked for among the ten newest attempts
    of its key only. *)

From S2P Require Import RateLimiter CircuitBreaker Integration RealMode SlackAdapter IntegrationRegistry IntegrationSafety.
From S2P Require Import Prelude PyText PyFloat PyValue Tables Hoare Outcomes Deliveries Alerts PlaybookStore StepEvents.
From S2P Require Import PlaybookAdapters NotificationPolicy NotificationService IngestDispatch.

Open Scope Z_scope.

Abbreviation db := (exec_db (world traffic)).

(** ** Frames *)

(** What a delivery leaves alone: the committed state, and the executions,
    the outcome log and the alerts of the transaction; before and after the
    call of the adapter, the memory of the process as well. *)
Definition beyond (c : conn db) :=
  let d := cn_current c in (cn_committed c, xd_soar d, xd_outcomes d, xd_alerts d).
Definition beyond_and_world (c : conn db) := (beyond c, xd_world (cn_current c)).

Lemma still_beyond {A} (m : M (conn db) A) : holds_still beyond_and_world m -> holds_still beyond m.
Proof. intros Hm c. exact (f_equal fst (Hm c)). Qed.

Lemma still_reads {A} (f : db -> A) : holds_still beyond_and_world (stmt_reads f).
Proof. intros c. unfold stmt_reads, execute, gets. by destruct (cn_aborted c), c. Qed.

Lemma still_deliveries {A} (m : M delivery_store A) : holds_still beyond_and_world (stmt_deliveries m).
Proof.
  intros c. unfold stmt_deliveries, execute, in_deliveries, zoom. destruct (cn_aborted c); [done|].
  by destruct (m _) as [[a|e] s].
Qed.

Lemma still_process {A} (m : M (world traffic) A) : holds_still beyond (in_process m).
Proof. intros c. unfold in_process, in_world, zoom. by destruct (m _) as [r w]. Qed.

Create HintDb notify.
#[export] Hint Resolve still_ret still_raise still_of_outcome still_bind still_try still_reads still_deliveries
  still_process still_beyond : notify.

Section Service.
Context (o : outside) (now : Z) (clk : clock) (sha256_hex : string -> string) (uuid_hex : string).
Context (references_ok : delivery_row -> bool) (policy_db : option policy_table) (incident_view : Z -> option pydict).

Abbreviation deliver := (deliver_notification o now clk sha256_hex uuid_hex references_ok).
Abbreviation send := (send_notification o now clk references_ok).
Abbreviation notify := (NotificationService.notify_for_alert o now clk sha256_hex uuid_hex references_ok policy_db).

Lemma still_record_safe n correlation key alert incident a :
  holds_still beyond_and_world (record_attempt_safe clk references_ok n correlation key alert incident a).
Proof. unfold record_attempt_safe, record_attempt. eauto with notify. Qed.

Lemma still_existing key : holds_still beyond_and_world (existing_policy_delivery key).
Proof. unfold existing_policy_delivery. eauto with notify. Qed.

Hint Resolve still_record_safe still_existing : notify.

Lemma still_send n purpose stage correlation key d : holds_still beyond (send n purpose stage correlation key d).
Proof. unfold send_notification. auto 8 with notify. Qed.

(** The send is the call of the adapter and a row. *)
Lemma send_reaches n purpose stage correlation key d c :
  let c' := (send n purpose stage correlation key d c).2 in
  sent_by c' = sent_by c \/
  (admitted (circuit (w_circuits (xd_world (cn_current c))) "slack") /\
   exists q, sent_by c' = sent_by c ++ [q] /\ may_send o "slack" q).
Proof.
  cbn zeta. generalize (eq_refl (send n purpose stage correlation key d c).2).
  generalize (send n purpose stage correlation key d c).2 at 2 3 4. intros c'. unfold send_notification. unfold bind at 1.
  destruct (in_process _ c) as [r c1] eqn:E.
  unfold in_process, in_world, zoom in E.
  destruct (use_adapter o "slack" (Some REAL_MODE) now _ _ _ (xd_world (cn_current c))) as [r1 w1] eqn:Eu.
  injection E as <- <-. set (c1 := Conn _ _ _).
  assert (forall c2, xd_world (cn_current c2) = w1 -> sent_by c2 = sent_by c \/
    admitted (circuit (w_circuits (xd_world (cn_current c))) "slack") /\
    exists q, sent_by c2 = sent_by c ++ [q] /\ may_send o "slack" q) as Hsent.
  { intros c2 Hc2. unfold sent_by. rewrite Hc2.
    destruct (use_adapter_guarded _ _ _ _ _ _ _ _ _ _ Eu) as [[H _]|(_ & Ha & q & Hq & Hmay & _)]; [by left|].
    right. split; [exact Ha|]. by exists q. }
  intros <-. apply Hsent. destruct r1 as [a|e]; [|done].
  match goal with |- xd_world (cn_current (?m c1).2) = _ => assert (holds_still beyond_and_world m) as Hm by auto with notify end.
  exact (f_equal snd (Hm c1)).
Qed.

Hint Resolve still_send : notify.

Lemma still_deliver policy n : holds_still beyond (deliver policy n).
Proof.
  unfold deliver_notification. destruct (negb _); [auto 8 with notify|]. apply still_bind.
  - destruct (nt_allow_dedup n); auto with notify.
  - intros [x|]; auto 8 with notify.
Qed.

Lemma still_notify i : holds_still beyond (notify i).
Proof.
  unfold NotificationService.notify_for_alert, fetch_alert_notification_context. apply still_bind; [auto with notify|].
  intros [a|]; [|apply still_ret]. destruct (negb _); [apply still_ret|]. apply still_bind; [apply still_deliver|auto with notify].
Qed.

(** The notifications of an ingestion are those of this service. *)
#[export, refine] Instance policy_notifier : AlertNotifier (world traffic) := {
  notify_for_alert i := let* _ := notify i in ret tt;
}.
Proof.
  all: intros i c; pose proof (still_bind (notify i) (fun _ => ret tt) (still_notify i) (fun _ => still_ret tt) c) as H.
  - by injection H.
  - by injection H.
Defined.

(** ** The newest attempts of a notification *)

Definition rows_of (c : conn db) : gmap Z delivery_row := ds_rows (xd_deliveries (cn_current c)).
Definition attempts (key : string) (t : gmap Z delivery_row) : list (Z * delivery_row) :=
  select delivery_newest (fun _ r => String.eqb (nd_idempotency_key r) key) t.

Lemma newest_inj (a : Z) (b : delivery_row) (i : Z) (d : delivery_row) : delivery_newest a b = delivery_newest i d -> a = i.
Proof. unfold delivery_newest. intros [=]. lia. Qed.

Lemma newest_le x y : key_le delivery_newest x y <-> y.1 <= x.1.
Proof. unfold key_le, delivery_newest. cbn. lia. Qed.

Lemma existing_is key c : cn_aborted c = false ->
  existing_policy_delivery key c = (Ok (List.find is_active (take 10 (attempts key (rows_of c)))), c).
Proof.
  intros Ha. unfold existing_policy_delivery, bind, stmt_deliveries, execute, in_deliveries, zoom. rewrite Ha.
  unfold list_notification_delivery_attempts. cbn. unfold ret, Tables.limit, attempts, rows_of, delivery_matches.
  destruct c as [cm [] ab]; cbn in *; subst. do 4 f_equal. apply select_ext. intros i r _. cbn. by rewrite !andb_true_r.
Qed.

(** An attempt that is on record and not among the ten newest of its key has
    ten newer ones. *)
Lemma ten_newer key t i r :
  t !! i = Some r -> nd_idempotency_key r = key -> (i, r) ∉ take 10 (attempts key t) ->
  exists newer, length newer = 10%nat /\ NoDup newer.*1 /\
    forall x, x ∈ newer -> x ∈ take 10 (attempts key t) /\ i < x.1 /\ t !! x.1 = Some x.2 /\ nd_idempotency_key x.2 = key.
Proof.
  intros Hi Hk Hout. pose proof (select_sorted delivery_newest (fun _ r => String.eqb (nd_idempotency_key r) key) t) as Hs.
  pose proof (NoDup_select delivery_newest (fun _ r => String.eqb (nd_idempotency_key r) key) t) as Hnd.
  assert ((i, r) ∈ attempts key t) as Hin by (apply elem_of_select; by rewrite Hk, String.eqb_refl).
  fold (attempts key t) in Hs, Hnd. pose proof (take_drop 10 (attempts key t)) as Htd.
  rewrite <- Htd in Hin, Hs, Hnd. apply elem_of_app in Hin as [?|Hin]; [done|]. exists (take 10 (attempts key t)). split_and!.
  - rewrite length_take. apply Nat.min_l. destruct (decide (10 <= length (attempts key t))%nat) as [|Hlt]; [done|].
    rewrite drop_ge in Hin by lia. by apply not_elem_of_nil in Hin.
  - rewrite fmap_app in Hnd. by apply list.NoDup_app in Hnd as (? & _).
  - intros [j a] Hj. split; [done|]. pose proof (proj1 (StronglySorted_app _ _ _) Hs) as (H12 & _).
    pose proof (proj1 (newest_le _ _) (H12 _ _ Hj Hin)) as Hle. cbn in Hle.
    assert (j <> i) as Hne.
    { intros ->. rewrite fmap_app in Hnd. apply list.NoDup_app in Hnd as (_ & Hd & _).
      apply (Hd i); apply list_elem_of_fmap; [by exists (i, a)|by exists (i, r)]. }
    assert ((j, a) ∈ attempts key t) as Hja by (rewrite <- Htd; apply elem_of_app; by left).
    apply elem_of_select in Hja as [? Hjk]. apply String.eqb_eq in Hjk. cbn. split_and!; [lia|done|done].
Qed.

(** C25: a notification reaches the outside at most once, and only when the
    policy's decision is to notify, the breaker of the Slack adapter admits
    the call and the guards of the adapter allow the request; where repeats
    are to be dropped and an equivalent attempt is on record as delivered or
    pending, then only after ten newer attempts at the same notification,
    none of them delivered or pending. *)
Theorem notification_sends_guarded policy n c r c' :
  deliver policy n c = (r, c') ->
  sent_by c' = sent_by c \/
  (pd_should_notify (notification_decision policy n) = true /\
   admitted (circuit (w_circuits (xd_world (cn_current c))) "slack") /\
   (exists q, sent_by c' = sent_by c ++ [q] /\ may_send o "slack" q) /\
   (nt_allow_dedup n = true -> forall i a, rows_of c !! i = Some a -> nd_idempotency_key a = key_of sha256_hex policy n ->
      is_active (i, a) = true ->
      exists newer, length newer = 10%nat /\ NoDup newer.*1 /\
        forall x, x ∈ newer -> i < x.1 /\ rows_of c !! x.1 = Some x.2 /\ nd_idempotency_key x.2 = nd_idempotency_key a /\
          is_active x = false)).
Proof.
  assert (forall A (m : M (conn db) A) c, holds_still beyond_and_world m -> xd_world (cn_current (m c).2) = xd_world (cn_current c))
    as Hworld by (intros A m c1 Hm; exact (f_equal snd (Hm c1))).
  intros E. apply (f_equal snd) in E. cbn in E. revert E. unfold deliver_notification.
  destruct (pd_should_notify (notification_decision policy n)) eqn:Ed; cbn [negb].
  2:{ intros <-. left. unfold sent_by. rewrite Hworld; [done|]. auto 8 with notify. }
  set (key := key_of sha256_hex policy n). set (existing := if nt_allow_dedup n then _ else _).
  assert (holds_still beyond_and_world existing) as Hstill by (unfold existing; destruct (nt_allow_dedup n); auto with notify).
  unfold bind at 1. pose proof (Hworld _ _ c Hstill) as Hw1. destruct (existing c) as [[[x|]|e] c1] eqn:Ex; cbn [snd] in Hw1; intros <-.
  - left. unfold sent_by. rewrite Hworld, Hw1; [done|]. auto 8 with notify.
  - match goal with |- context [send n ?p ?s ?i ?k ?d c1] =>
      destruct (send_reaches n p s i k d c1) as [Hs|(Ha & q & Hq & Hmay)] end; unfold sent_by in *; rewrite Hw1 in *; [by left|]. right.
    split_and!; [done|exact Ha|by exists q|]. intros Hdedup i a Hi Hk Hact. unfold existing in Ex. rewrite Hdedup in Ex.
    destruct (cn_aborted c) eqn:Hab.
    { unfold existing_policy_delivery, bind, stmt_deliveries, execute in Ex. by rewrite Hab in Ex. }
    rewrite existing_is in Ex by done. injection Ex as Hfind _.
    pose proof (List.find_none _ _ Hfind) as Hnone. setoid_rewrite <- list_elem_of_In in Hnone.
    destruct (ten_newer key (rows_of c) i a Hi Hk) as (newer & Hlen & Hnd & Hnew).
    + intros Hin. apply Hnone in Hin. congruence.
    + exists newer. split_and!; [done|done|]. intros x Hx. destruct (Hnew x Hx) as (Hin & Hlt & Hx1 & Hx2).
      rewrite Hk. auto.
  - left. unfold sent_by. cbn [snd]. by rewrite Hw1.
Qed.

(** ** Repeats *)

(** The rows of a blocked attempt are within their columns. *)
Definition recordable (n : notification) (correlation key : string) : Prop :=
  is_empty (strip correlation) = false /\ varchar 128 (strip correlation) = true /\
  is_empty key = false /\ strip key = key /\ varchar 128 key = true /\
  opt_check (nt_step_index n) int4 = true.

Definition next_delivery (c : conn db) : Z := ds_seq (xd_deliveries (cn_current c)).

Lemma blocked_recorded n correlation key alert incident code message metadata c :
  cn_aborted c = false -> (forall r, references_ok r = true) -> recordable n correlation key -> varchar 64 code = true ->
  exists row c', record_attempt_safe clk references_ok n correlation key alert incident
                   (blocked_attempt code message metadata) c = (Ok (Some (next_delivery c, row)), c') /\
    nd_idempotency_key row = key /\ nd_status row = "blocked" /\
    rows_of c' = <[next_delivery c := row]> (rows_of c) /\ next_delivery c' = next_delivery c + 1 /\ cn_aborted c' = false.
Proof.
  intros Ha Hrefs (Hc1 & Hc2 & Hk1 & Hk2 & Hk3 & Hstep) Hcode.
  assert (is_empty correlation = false) as Hc0 by (destruct correlation; [by vm_compute in Hc1|done]).
  unfold record_attempt_safe, record_attempt, try_catch, bind, stmt_deliveries, execute, in_deliveries, zoom. rewrite Ha.
  unfold create_notification_delivery_attempt, missing. cbn [np_correlation_id np_idempotency_key np_provider np_mode np_status
    np_adapter_name np_action np_circuit_breaker_state blocked_attempt ar_status ar_mode_override ar_circuit_breaker_state].
  rewrite Hc0, Hc1, Hk2, Hk1. cbn -[insert_delivery].
  unfold insert_delivery, delivery_widths. cbn -[varchar strip int4]. rewrite Hc2, Hk2, Hk3, Hcode, Hrefs.
  assert (match nt_step_index n with Some i => int4 i | None => true end = true) as -> by exact Hstep.
  cbn. eexists _, _. split; [reflexivity|]. by split_and!.
Qed.

Section Repeats.
Context (policy : pydict) (n : notification).
Context (Hnotify : pd_should_notify (notification_decision policy n) = true) (Hdedup : nt_allow_dedup n = true).

Definition correlation_of : string :=
  notification_correlation_id uuid_hex (default (nt_event_kind n) (nt_correlation_kind n)) (nt_object_id n)
    (route_of (notification_decision policy n)).

Context (Hrefs : forall r, references_ok r = true).
Context (Hrow : recordable n correlation_of (key_of sha256_hex policy n)).

(** No statement of the transaction has failed, and the sequence of the
    table is past its rows. *)
Definition usable (c : conn db) : Prop :=
  cn_aborted c = false /\ forall i, is_Some (rows_of c !! i) -> i < next_delivery c.

Definition goes_out (c : conn db) : Prop :=
  deliver policy n c = send n (purpose_of n) (delivery_stage_for_purpose (purpose_of n)) correlation_of
                         (key_of sha256_hex policy n) (notification_decision policy n) c.

Abbreviation key := (key_of sha256_hex policy n).

Lemma deliver_unknown c :
  cn_aborted c = false -> List.find is_active (take 10 (attempts key (rows_of c))) = None -> goes_out c.
Proof.
  intros Ha Hf. unfold goes_out, deliver_notification. rewrite Hnotify, Hdedup. cbn [negb].
  unfold bind at 1. by rewrite (existing_is key c Ha), Hf.
Qed.

Lemma deliver_repeat c x :
  cn_aborted c = false -> List.find is_active (take 10 (attempts key (rows_of c))) = Some x ->
  exists row, let c' := (deliver policy n c).2 in nd_idempotency_key row = key /\ nd_status row = "blocked" /\
    rows_of c' = <[next_delivery c := row]> (rows_of c) /\ next_delivery c' = next_delivery c + 1 /\ cn_aborted c' = false.
Proof.
  intros Ha Hf.
  assert (exists metadata, (deliver policy n c).2 = (record_attempt_safe clk references_ok n correlation_of key
      (object_ref n "alert") (object_ref n "incident") (blocked_attempt "duplicate_delivery" duplicate_message metadata) c).2)
    as [metadata ->].
  { unfold deliver_notification. rewrite Hnotify, Hdedup. cbn [negb]. unfold bind at 1. rewrite (existing_is key c Ha), Hf.
    match goal with |- context [blocked_attempt "duplicate_delivery" _ ?d] => exists d end.
    unfold bind, ret. by destruct (record_attempt_safe _ _ _ _ _ _ _ _ c) as [[]]. }
  destruct (blocked_recorded n correlation_of key (object_ref n "alert") (object_ref n "incident") "duplicate_delivery"
    duplicate_message metadata c Ha Hrefs Hrow eq_refl) as (row & c1 & -> & Hnew).
  by exists row.
Qed.

(** A repeat goes out, or puts a blocked row in front of the attempts. *)
Lemma repeat_blocked c : usable c ->
  goes_out c \/
  exists row, usable (deliver policy n c).2 /\ nd_status row = "blocked" /\
    attempts key (rows_of (deliver policy n c).2) = (next_delivery c, row) :: attempts key (rows_of c).
Proof.
  intros [Ha Hids]. destruct (List.find is_active (take 10 (attempts key (rows_of c)))) as [x|] eqn:Hf; [right|left; by apply deliver_unknown].
  destruct (deliver_repeat c x Ha Hf) as (row & Hk & Hst & Hrows & Hseq & Ha'). exists row. split_and!; [split; [done|]|done|].
  - intros i. rewrite Hrows, Hseq. destruct (decide (i = next_delivery c)) as [-> |Hne]; [lia|].
    rewrite lookup_insert_ne by done. intros Hi%Hids. lia.
  - rewrite Hrows. unfold attempts. apply select_insert_first.
    + intros. by eapply newest_inj.
    + apply eq_None_not_Some. intros Hi%Hids. lia.
    + by rewrite Hk, String.eqb_refl.
    + intros j r Hj _. apply (newest_le (_, row) (j, r)). change (j <= next_delivery c). specialize (Hids j (ex_intro _ _ Hj)). lia.
Qed.

Definition repeated (k : nat) (c : conn db) : conn db := Nat.iter k (fun c => (deliver policy n c).2) c.

Lemma repeats_pile_up k c : usable c ->
  (exists j, (j < k)%nat /\ goes_out (repeated j c)) \/
  (usable (repeated k c) /\ exists blocked, length blocked = k /\ Forall (fun x => is_active x = false) blocked /\
     attempts key (rows_of (repeated k c)) = blocked ++ attempts key (rows_of c)).
Proof.
  intros Hc. induction k as [|k IH]; [right; split; [exact Hc|]; by exists []|].
  destruct IH as [(j & Hj & Hout)|(Hk & blocked & Hlen & Hall & Hatt)]; [left; exists j; auto with lia|].
  destruct (repeat_blocked _ Hk) as [Hout|(row & Hu & Hst & Hrows)]; [left; exists k; auto|].
  right. split; [exact Hu|]. exists ((next_delivery (repeated k c), row) :: blocked). split_and!; [by rewrite <- Hlen| |].
  - constructor; [|exact Hall]. unfold is_active. cbn [snd]. by rewrite Hst.
  - change (repeated (S k) c) with (deliver policy n (repeated k c)).2. by rewrite Hrows, Hatt.
Qed.

(** the suppression of repeats forgets: of any eleven attempts at one
    notification, one goes out, however recently it has been delivered. *)
Theorem eleventh_repeat_goes_out c : usable c ->
  exists k, (k <= 10)%nat /\ goes_out (repeated k c).
Proof.
  intros Hc. destruct (repeats_pile_up 10 c Hc) as [(k & Hk & Hout)|(Hu & blocked & Hlen & Hall & Hatt)].
  - exists k. auto with lia.
  - exists 10%nat. split; [done|]. apply deliver_unknown; [exact (proj1 Hu)|]. rewrite Hatt, take_app_length' by done.
    destruct (List.find is_active blocked) as [x|] eqn:Hfind; [|done].
    apply List.find_some in Hfind as [Hin Hx]. apply list_elem_of_In in Hin.
    rewrite list.Forall_forall in Hall. specialize (Hall _ Hin). congruence.
Qed.
End Repeats.
End Service.

(** ** The theorems at work *)

Definition ex_routed : outside :=
  Outside (fun name => if String.eqb name "SLACK_PFSENSE_WEBHOOK_URL" then ex_environ "SLACK_WEBHOOK_URL" else ex_environ name)
    0 12 (fun _ _ => HttpStatus 200) (fun _ _ => SmtpSent false) (fun _ _ _ _ => None) true.

(** A critical alert of the firewall, with Slack on. *)
Definition ex_policy : pydict :=
  row_to_dict (PolicyRow true "high" true true "compact" "#firewall" "#honeypot" "#critical" 0 None).
Definition ex_notification : notification :=
  plain_notification "alert" 13
    [("id", PInt 13); ("severity", PStr "critical"); ("source", PStr "pfsense"); ("message", PStr "port scan")]
    PURPOSE_IMMEDIATE_ALERT.
Definition ex_deliver : M (conn db) notification_result :=
  deliver_notification ex_routed 5 (Clock 0 0) id "0123456789" (fun _ => true) ex_policy ex_notification.
Definition ex_conn_db : conn db := open_conn ex_exec_db.

Lemma notification_sends_guarded_witness :
  exists q, sent_by (ex_deliver ex_conn_db).2 = [q] /\ may_send ex_routed "slack" q /\
    pd_should_notify (notification_decision ex_policy ex_notification) = true.
Proof.
  assert (sent_by (ex_deliver ex_conn_db).2 <> []) as Hs by (vm_compute; discriminate).
  destruct (ex_deliver ex_conn_db) as [r c'] eqn:E. cbn [snd] in *.
  destruct (notification_sends_guarded ex_routed 5 (Clock 0 0) id "0123456789" (fun _ => true) ex_policy ex_notification
    ex_conn_db r c' E) as [H|(Hn & _ & (q & Hq & Hmay) & _)]; [by rewrite H in Hs|].
  by exists q.
Defined.

(** The first attempt is sent, the ten that follow are dropped, and the
    twelfth is sent again. *)
Lemma eleventh_repeat_goes_out_witness :
  let runs k := Nat.iter k (fun c => (ex_deliver c).2) ex_conn_db in
  (exists k, (k <= 10)%nat /\
    goes_out ex_routed 5 (Clock 0 0) id "0123456789" (fun _ => true) ex_policy ex_notification (Nat.iter k (fun c => (ex_deliver c).2) (runs 1%nat))) /\
  length (sent_by (runs 1%nat)) = 1%nat /\ length (sent_by (runs 11%nat)) = 1%nat /\ length (sent_by (runs 12%nat)) = 2%nat.
Proof.
  cbn zeta. split; [|by vm_compute].
  apply (eleventh_repeat_goes_out ex_routed 5 (Clock 0 0) id "0123456789" (fun _ => true) ex_policy ex_notification).
  - by vm_compute.
  - by vm_compute.
  - done.
  - by vm_compute.
  - split; [by vm_compute|]. intros i [r Hi]. revert i r Hi.
    apply (bool_decide_eq_true_1 (map_Forall (fun i _ => i < next_delivery (Nat.iter 1 (fun c => (ex_deliver c).2) ex_conn_db))
      (rows_of (Nat.iter 1 (fun c => (ex_deliver c).2) ex_conn_db)))). by vm_compute.
Defined.
