(* ===== verification/Filterlog.v ===== *)
(** * Filterlog: the parser of adapters/pfsense_filterlog_adapter.py

    From the text of a syslog packet to the fields of a pfSense filterlog
    line: the sanitized text, the csv module's reader, the marker, and the
    fields with their checks. *)

From S2P Require Import Prelude PyText PyFloat PyValue IpAddress AddressText.

Open Scope Z_scope.

Definition MAX_PACKET_BYTES : Z := 4096.
Definition MAX_SUMMARY_CHARS : nat := 160.

(** ** Characters *)

(** [UNSAFE_CONTROL_PATTERN]. *)
Definition unsafe_control (c : ascii) : bool :=
  let n := N_of_ascii c in
  ((n <=? 8) || (n =? 11) || (n =? 12) || ((14 <=? n) && (n <=? 31)) || (n =? 127))%N.

Fixpoint drop_chars (p : ascii -> bool) (s : string) : string :=
  match s with EmptyString => EmptyString | String c s => if p c then drop_chars p s else String c (drop_chars p s) end.

Definition sanitize_text (s : string) : string := strip (drop_chars unsafe_control s).

Definition sanitize_pfsense_text (value : pyval) : string := if is_none value then "" else sanitize_text (py_str value).

(** [\w] of the re module: [str.isalnum] or an underscore. *)
Definition word_char (c : ascii) : bool :=
  let n := N_of_ascii c in
  is_digit c || is_lower_alpha (lower_char c) || Ascii.eqb c "_" ||
  (existsb (N.eqb n) [170; 178; 179; 181; 185; 186; 188; 189; 190] ||
   ((192 <=? n) && negb (n =? 215) && negb (n =? 247)))%N.

(** [str.isdigit] of one character: superscripts are digits too. *)
Definition is_digit_char (c : ascii) : bool := is_digit c || existsb (N.eqb (N_of_ascii c)) [178; 179; 185]%N.
Definition isdigit (s : string) : bool := negb (is_empty s) && all_chars is_digit_char s.

Definition newline : ascii := ascii_of_N 10.
Definition carriage_return : ascii := ascii_of_N 13.
Definition quote_char : ascii := ascii_of_N 34.

(** ** csv.reader, the excel dialect *)

Inductive csv_state := StartRecord | StartField | InField | InQuoted | QuoteInQuoted | EatNewlines.

#[export] Instance csv_state_eq_dec : EqDecision csv_state.
Proof. solve_decision. Defined.

(** The fields saved and the one being read, in order. *)
Record csv_reader := CsvReader { cr_state : csv_state; cr_fields : list string; cr_field : string }.

Definition save_field (st : csv_state) (r : csv_reader) : csv_reader := CsvReader st (cr_fields r ++ [cr_field r]) "".
Definition add_char (st : csv_state) (c : ascii) (r : csv_reader) : csv_reader :=
  CsvReader st (cr_fields r) (cr_field r +:+ String c EmptyString).
Definition set_csv_state (st : csv_state) (r : csv_reader) : csv_reader := CsvReader st (cr_fields r) (cr_field r).

Definition line_end (c : ascii) : bool := Ascii.eqb c newline || Ascii.eqb c carriage_return.

(** A character at the start of a field and inside an unquoted one. *)
Definition csv_start_field (c : ascii) (r : csv_reader) : csv_reader :=
  if line_end c then save_field EatNewlines r
  else if Ascii.eqb c quote_char then set_csv_state InQuoted r
  else if Ascii.eqb c "," then save_field StartField r
  else add_char InField c r.
Definition csv_in_field (c : ascii) (r : csv_reader) : csv_reader :=
  if line_end c then save_field EatNewlines r
  else if Ascii.eqb c "," then save_field StartField r
  else add_char InField c r.

(** One character; [None] is csv.Error. *)
Definition csv_char (r : csv_reader) (c : ascii) : option csv_reader :=
  match cr_state r with
  | StartRecord => Some (if line_end c then set_csv_state EatNewlines r else csv_start_field c r)
  | StartField => Some (csv_start_field c r)
  | InField => Some (csv_in_field c r)
  | InQuoted => Some (if Ascii.eqb c quote_char then set_csv_state QuoteInQuoted r else add_char InQuoted c r)
  | QuoteInQuoted => Some (if Ascii.eqb c quote_char then add_char InQuoted c r else csv_in_field c r)
  | EatNewlines => if line_end c then Some r else None
  end.

(** The end of a line of the input. *)
Definition csv_end_of_line (r : csv_reader) : csv_reader :=
  match cr_state r with
  | StartRecord | InQuoted => r
  | StartField | InField | QuoteInQuoted => save_field StartRecord r
  | EatNewlines => set_csv_state StartRecord r
  end.

Fixpoint csv_line (r : csv_reader) (line : string) : option csv_reader :=
  match line with
  | EmptyString => Some (csv_end_of_line r)
  | String c line => match csv_char r c with Some r => csv_line r line | None => None end
  end.

(** The lines of a StringIO, with their newlines. *)
Fixpoint io_lines (s : string) : list string :=
  match s with
  | EmptyString => []
  | String c s' =>
      if Ascii.eqb c newline then String c EmptyString :: io_lines s'
      else match io_lines s' with [] => [String c EmptyString] | l :: ls => String c l :: ls end
  end.

(** The first record; [None] when the reader raises or is exhausted. *)
Fixpoint csv_record (r : csv_reader) (lines : list string) : option (list string) :=
  match lines with
  | [] => if negb (is_empty (cr_field r)) || bool_decide (cr_state r = InQuoted)
          then Some (cr_fields (save_field StartRecord r)) else None
  | line :: lines =>
      match csv_line r line with
      | None => None
      | Some r => if bool_decide (cr_state r = StartRecord) then Some (cr_fields r) else csv_record r lines
      end
  end.

Definition parse_csv_fields (payload : string) : list string :=
  default [] (csv_record (CsvReader StartRecord [] "") (io_lines payload)).

(** ** The marker *)

Fixpoint take_decimal (s : string) : string :=
  match s with String c s' => if is_digit c then take_decimal s' else s | EmptyString => EmptyString end.

(** [(?:\[\d+\])?]: what follows it; nothing else can follow the marker than
    what it matches or a colon. *)
Definition skip_pid (s : string) : string :=
  match s with
  | String "[" (String c rest) =>
      if is_digit c then match take_decimal rest with String "]" t => t | _ => s end else s
  | _ => s
  end.

(** [filterlog(?:\[\d+\])?:\s*(.+)$] at the start of a text that does not
    end in a space: the group. *)
Definition marker_here (s : string) : option string :=
  match drop_prefix "filterlog" s with
  | None => None
  | Some s =>
      match skip_pid s with
      | String ":" rest =>
          let payload := lstrip rest in
          if is_empty payload || char_in newline payload then None else Some payload
      | _ => None
      end
  end.

(** [re.search] of the marker after [\b]. *)
Fixpoint find_marker (after_word : bool) (s : string) : option string :=
  match (if after_word then None else marker_here s) with
  | Some payload => Some payload
  | None => match s with EmptyString => None | String c s' => find_marker (word_char c) s' end
  end.

(** ** Fields *)

Definition field (fields : list string) (index : nat) : pyval := opt_text (fields !! index).
Definition clean (value : pyval) : string := sanitize_pfsense_text value.
Definition clean_field (fields : list string) (index : nat) : string := clean (field fields index).

Definition actions : list string := ["block"; "pass"].

Definition extract_filterlog_payload (syslog_text : string) : option string :=
  let text := sanitize_text syslog_text in
  match find_marker false text with
  | Some payload => Some (sanitize_text payload)
  | None =>
      let fields := parse_csv_fields text in
      if (22 <=? length fields)%nat && str_in (clean_field fields 6) actions then Some text else None
  end.

Definition PFSENSE_VALID_PROTOCOLS : list string :=
  ["ah"; "carp"; "esp"; "gre"; "icmp"; "igmp"; "ipencap"; "ospf"; "pfsync"; "pim"; "sctp"; "tcp"; "udp"].
Definition PFSENSE_TEXTUAL_ICMP_TYPES : list string :=
  ["maskreply"; "needfrag"; "parameterprob"; "paramprob"; "redirect"; "reply"; "request"; "timexceed"; "tstamp";
   "tstampreply"; "unreach"; "unreachport"; "unreachproto"].

Definition validated_ip (value : pyval) : option string :=
  match parse_ip (clean value) with
  | Ok a => if ip_v6 a then None else Some (ip_text a)
  | Raise _ => None
  end.

(** [int(text)] of a text that is not empty, when it lies in [0, top]. *)
Definition bounded_int (top : Z) (value : pyval) : option Z :=
  let text := clean value in
  if is_empty text then None
  else match parse_int text with
       | Some n => if (0 <=? n) && (n <=? top) then Some n else None
       | None => None
       end.
Definition optional_port (value : pyval) : option Z := bounded_int 65535 value.
Definition optional_icmp_value (value : pyval) : option Z := bounded_int 255 value.

Definition all_decimal_fields (fields : list string) (indexes : list nat) : bool :=
  forallb (fun i => isdigit (clean_field fields i)) indexes.

(** The reason of a refusal, or the type and code. *)
Definition parse_icmp_fields (fields : list string) : string + (pyval * option Z) :=
  let type_text := lower (clean_field fields 20) in
  let invalid := inl "invalid_icmp_details" in
  match optional_icmp_value (PStr type_text) with
  | Some numeric_type =>
      let code_text := clean_field fields 21 in
      match optional_icmp_value (PStr code_text) with
      | None => if negb (is_empty code_text) then inl "invalid_icmp_code" else inr (PInt numeric_type, None)
      | Some code => inr (PInt numeric_type, Some code)
      end
  | None =>
      if negb (str_in type_text PFSENSE_TEXTUAL_ICMP_TYPES) then inl "invalid_icmp_type"
      else if (if str_in type_text ["request"; "reply"; "tstamp"] then negb (all_decimal_fields fields [21; 22]%nat)
               else if String.eqb type_text "tstampreply" then negb (all_decimal_fields fields [21; 22; 23; 24; 25]%nat)
               else if str_in type_text ["unreachproto"; "needfrag"]
               then bool_decide (validated_ip (field fields 21) = None) || negb (all_decimal_fields fields [22]%nat)
               else if String.eqb type_text "unreachport"
               then bool_decide (validated_ip (field fields 21) = None) || negb (all_decimal_fields fields [22]%nat) ||
                    bool_decide (optional_port (field fields 23) = None)
               else is_empty (clean_field fields 21))
           then invalid
      else inr (PStr type_text, None)
  end.

(** ** The parsed line *)

Record filterlog := FilterlogLine {
  fl_rule_id : option string;
  fl_tracker : option string;
  fl_interface : option string;
  fl_action : string;
  fl_direction : option string;
  fl_ip_version : string;
  fl_protocol : string;
  fl_source_ip : string;
  fl_destination_ip : string;
  fl_source_port : option Z;
  fl_destination_port : option Z;
  fl_tcp_flags : option string;
  fl_icmp_type : pyval;
  fl_icmp_code : option Z;
}.

(** [text or None]. *)
Definition text_or_none (s : string) : option string := if is_empty s then None else Some s.

(** The ports and flags, or the ICMP type and code, of a line. *)
Definition protocol_fields (fields : list string) (protocol : string)
    : string + (option Z * option Z * option string * pyval * option Z) :=
  if str_in protocol ["tcp"; "udp"] then
    match optional_port (field fields 20), optional_port (field fields 21) with
    | Some s, Some d =>
        inr (Some s, Some d,
             if String.eqb protocol "tcp" then text_or_none (upper (clean_field fields 23)) else None, PNone, None)
    | _, _ => inl "invalid_port"
    end
  else if String.eqb protocol "icmp" then
    match parse_icmp_fields fields with
    | inl reason => inl reason
    | inr (icmp_type, icmp_code) => inr (None, None, None, icmp_type, icmp_code)
    end
  else inr (None, None, None, PNone, None).

Definition parse_filterlog_fields (fields : list string) : string + filterlog :=
  if (length fields <? 20)%nat then inl "not_enough_fields"
  else
    let action := lower (clean_field fields 6) in
    let direction := lower (clean_field fields 7) in
    let ip_version := clean_field fields 8 in
    let protocol := lower (clean_field fields 16) in
    if negb (String.eqb ip_version "4") then inl "unsupported_ip_version"
    else if negb (str_in protocol PFSENSE_VALID_PROTOCOLS) then inl "unsupported_protocol"
    else if negb (str_in action actions) then inl "unsupported_action"
    else
      match validated_ip (field fields 18), validated_ip (field fields 19) with
      | Some source_ip, Some destination_ip =>
          match protocol_fields fields protocol with
          | inl reason => inl reason
          | inr (source_port, destination_port, tcp_flags, icmp_type, icmp_code) =>
              inr (FilterlogLine (text_or_none (clean_field fields 0)) (text_or_none (clean_field fields 3))
                     (text_or_none (clean_field fields 4)) action (text_or_none direction) ip_version protocol source_ip
                     destination_ip source_port destination_port tcp_flags icmp_type icmp_code)
          end
      | _, _ => inl "invalid_ip_address"
      end.

(** ** Examples *)

Definition ex_tcp_line : string :=
  "<134>Jan  5 10:11:12 fw filterlog[4321]: 5,,,1000000103,igb0,match,block,in,4,0x0,,64,0,0,DF,6,tcp,60,198.51.100.7,203.0.113.9,51515,22,0,S,1,,64240,,mss".

Example marker_found : extract_filterlog_payload ex_tcp_line =
  Some "5,,,1000000103,igb0,match,block,in,4,0x0,,64,0,0,DF,6,tcp,60,198.51.100.7,203.0.113.9,51515,22,0,S,1,,64240,,mss".
Proof. by vm_compute. Qed.

Example quoted_fields : parse_csv_fields "a,b c,,d" = ["a"; "b c"; ""; "d"].
Proof. by vm_compute. Qed.
