(* ===== verification/FilterlogEvent.v ===== *)
(** * FilterlogEvent: the events of adapters/pfsense_filterlog_adapter.py

    A parsed filterlog line becomes a normalized event, with the time its
    syslog header tells; the backend validates such an event again when it
    comes in over HTTP. *)

From S2P Require Import Prelude PyText PyFloat PyValue IpAddress AddressText Filterlog.

Open Scope Z_scope.

(** ** Local times *)

(** Days from the epoch; the inverse of [civil_date]. *)
Definition civil_days (year month day : Z) : Z :=
  let y := if month <=? 2 then year - 1 else year in
  let yoe := y mod 400 in
  let doy := (153 * ((month + 9) mod 12) + 2) / 5 + day - 1 in
  y / 400 * 146097 + (yoe * 365 + yoe / 4 - yoe / 100 + doy) - 719468.

Definition leap_year (y : Z) : bool := (y mod 4 =? 0) && negb (y mod 100 =? 0) || (y mod 400 =? 0).
Definition days_in_month (y m : Z) : Z :=
  if m =? 2 then (if leap_year y then 29 else 28) else if existsb (Z.eqb m) [4; 6; 9; 11] then 30 else 31.

(** What the constructor of datetime accepts. *)
Definition date_ok (y m d : Z) : bool :=
  (1 <=? y) && (y <=? 9999) && (1 <=? m) && (m <=? 12) && (1 <=? d) && (d <=? days_in_month y m).
Definition clock_ok (h mi s : Z) : bool := (h <=? 23) && (mi <=? 59) && (s <=? 59).

(** A local time as microseconds, without a zone. *)
Definition local_time (y m d h mi s micro : Z) : Z :=
  seconds (civil_days y m d * 86400 + h * 3600 + mi * 60 + s) + micro.

(** A zone of the time zone database: the local time of an instant, and the
    offset, in minutes, of a local time. *)
Record timezone := Timezone { tz_local : Z -> Z; tz_offset : Z -> Z }.

(** ** Scanning *)

(** [\d{n}]. *)
Fixpoint digits (n : nat) (acc : Z) (s : string) : option (Z * string) :=
  match n, s with
  | O, _ => Some (acc, s)
  | S n, String c s => if is_digit c then digits n (10 * acc + digit_value c) s else None
  | S _, EmptyString => None
  end.

Definition char (c : ascii) (s : string) : option string :=
  match s with String d s => if Ascii.eqb c d then Some s else None | EmptyString => None end.

(** [\s+] and [\d+]. *)
Definition spaces (s : string) : option string :=
  match s with String c s' => if is_space c then Some (lstrip s') else None | EmptyString => None end.
Definition some_digits (s : string) : option string :=
  match s with String c s' => if is_digit c then Some (take_decimal s') else None | EmptyString => None end.

(** [\d{1,2}]. *)
Definition one_or_two_digits (s : string) : option (Z * string) :=
  match digits 2 0 s with Some x => Some x | None => digits 1 0 s end.

(** [(?:<\d{1,3}>)?]: a text that goes on with ["<"] matches nothing else. *)
Definition skip_priority (s : string) : option string :=
  match s with
  | String "<" s =>
      match digits 1 0 s with
      | None => None
      | Some (_, s) =>
          let s := match digits 2 0 s, digits 1 0 s with
                   | Some (_, t), _ => t | None, Some (_, t) => t | None, None => s end in
          char ">" s
      end
  | _ => Some s
  end.

(** [(?:\s|$)]. *)
Definition at_break (s : string) : bool := match s with String c _ => is_space c | EmptyString => true end.

(** The part of [s] before its suffix [rest]. *)
Definition before (s rest : string) : string := String.substring 0 (String.length s - String.length rest) s.

Definition hh_mm_ss (s : string) : option (Z * Z * Z * string) :=
  x ← digits 2 0 s; s ← char ":" x.2; y ← digits 2 0 s; s ← char ":" y.2; z ← digits 2 0 s; Some (x.1, y.1, z.1, z.2).

(** ** RFC 5424 *)

(** [(?:\.\d+)?]: the microseconds, from the first six digits. *)
Definition fraction (s : string) : option (Z * string) :=
  match char "." s with
  | None => Some (0, s)
  | Some t =>
      rest ← some_digits t;
      let ds := String.substring 0 6 (before t rest) in
      Some (decimal ds * 10 ^ Z.of_nat (6 - String.length ds), rest)
  end.

(** [(?:Z|[+-]\d{2}:\d{2})]: the offset in minutes. *)
Definition zone_suffix (s : string) : option (Z * string) :=
  match s with
  | String "Z" s => Some (0, s)
  | String c s =>
      sign ← (if Ascii.eqb c "+" then Some 1 else if Ascii.eqb c "-" then Some (-1) else None);
      h ← digits 2 0 s; s ← char ":" h.2; m ← digits 2 0 s;
      Some (sign * (60 * h.1 + m.1), m.2)
  | EmptyString => None
  end.

(** The timestamp of the header: its text, and the instant [fromisoformat]
    reads in it, [None] when it raises. *)
Definition rfc5424_timestamp (text : string) : option (string * option Z) :=
  s ← skip_priority text; s ← some_digits s; start ← spaces s;
  y ← digits 4 0 start; s ← char "-" y.2; m ← digits 2 0 s; s ← char "-" m.2; d ← digits 2 0 s; s ← char "T" d.2;
  t ← hh_mm_ss s; f ← fraction t.2; z ← zone_suffix f.2;
  let '(h, mi, sec, _) := t in
  if at_break z.2 then
    Some (before start z.2,
          if date_ok y.1 m.1 d.1 && clock_ok h mi sec && (Z.abs z.1 <? 1440)
          then Some (local_time y.1 m.1 d.1 h mi sec f.1 - minutes z.1) else None)
  else None.

(** ** BSD *)

Definition months : list string :=
  ["Jan"; "Feb"; "Mar"; "Apr"; "May"; "Jun"; "Jul"; "Aug"; "Sep"; "Oct"; "Nov"; "Dec"].

Fixpoint index_of (x : string) (l : list string) (from : Z) : option Z :=
  match l with [] => None | y :: l => if String.eqb x y then Some from else index_of x l (from + 1) end.

Definition is_upper_alpha (c : ascii) : bool := let n := N_of_ascii c in ((65 <=? n) && (n <=? 90))%N.

(** [[A-Z][a-z]{2}]. *)
Definition three_letters (s : string) : option (string * string) :=
  match s with
  | String a (String b (String c rest)) =>
      if is_upper_alpha a && is_lower_alpha b && is_lower_alpha c
      then Some (String a (String b (String c EmptyString)), rest) else None
  | _ => None
  end.

(** The fields of the header's timestamp, [None] when there is none. *)
Definition bsd_fields (text : string) : option (string * Z * Z * Z * Z) :=
  s ← skip_priority text; mon ← three_letters s; s ← spaces mon.2; d ← one_or_two_digits s; s ← spaces d.2; t ← hh_mm_ss s;
  let '(h, mi, sec, rest) := t in
  if at_break rest then Some (mon.1, d.1, h, mi, sec) else None.

(** [datetime.strptime(text, "%b %d %H:%M:%S")], which puts the fields into
    the year 1900. *)
Definition strptime_bsd (mon : string) (d h mi sec : Z) : option (Z * Z * Z * Z * Z) :=
  match index_of mon months 1 with
  | Some m => if date_ok 1900 m d && clock_ok h mi sec then Some (m, d, h, mi, sec) else None
  | None => None
  end.

Record timestamp_result := TimestampResult {
  ts_event_timestamp : option string;
  ts_status : string;
  ts_reason : option string;
}.

Definition invalid_timestamp (reason : string) : timestamp_result := TimestampResult None "invalid" (Some reason).
Definition parsed_timestamp (text : string) : timestamp_result := TimestampResult (Some text) "parsed" None.

Definition MAX_FUTURE_SKEW : Z := seconds (24 * 3600).

(** The local times the fields may mean: this year's, last year's and next
    year's, unless more than a day ahead. *)
Definition bsd_candidates (local_now m d h mi sec : Z) : list Z :=
  let year := (civil_date (local_now / seconds 86400)).1.1 in
  List.filter (fun t => t <=? local_now + MAX_FUTURE_SKEW)
    (map (fun y => local_time y m d h mi sec 0) (List.filter (fun y => date_ok y m d) [year - 1; year; year + 1])).

(** [min(.., key=..)]: the first of the smallest. *)
Fixpoint closest (to best : Z) (candidates : list Z) : Z :=
  match candidates with
  | [] => best
  | t :: candidates => closest to (if Z.abs (t - to) <? Z.abs (best - to) then t else best) candidates
  end.

(** [datetime.isoformat()] of a local time in a zone. *)
Definition zoned_isoformat (tz : timezone) (t : Z) : string :=
  let d := utc_datetime t in
  isoformat "T" (PyDateTime (dt_year d) (dt_month d) (dt_day d) (dt_hour d) (dt_minute d) (dt_second d) (dt_micro d)
                   (Some (tz_offset tz t))).

Section Events.
(** The time zone database (ZoneInfo raises for an unknown name), the value
    of PFSENSE_SYSLOG_TIMEZONE, and what decoding makes of a packet that is
    not ASCII, with whether it replaced a byte. *)
Context (zone_info : string -> outcome timezone) (syslog_timezone : string) (decode : string -> string * bool).

Definition parse_bsd_timestamp (now : Z) (fields : string * Z * Z * Z * Z) : outcome timestamp_result :=
  let '(mon, d, h, mi, sec) := fields in
  match strptime_bsd mon d h mi sec with
  | None => Ok (invalid_timestamp "invalid_bsd_timestamp")
  | Some (m, d, h, mi, sec) =>
      let timezone_name := sanitize_text syslog_timezone in
      if is_empty timezone_name then Ok (invalid_timestamp "syslog_timezone_not_configured")
      else
        match zone_info timezone_name with
        | Ok tz =>
            let local_now := tz_local tz now in
            match bsd_candidates local_now m d h mi sec with
            | [] => Ok (invalid_timestamp "timestamp_too_far_in_future")
            | t :: candidates => Ok (parsed_timestamp (zoned_isoformat tz (closest local_now t candidates)))
            end
        | Raise (OtherException "ZoneInfoNotFoundError") | Raise (ValueError _) => Ok (invalid_timestamp "invalid_syslog_timezone")
        | Raise e => Raise e
        end
  end.

Definition parse_pfsense_syslog_timestamp (syslog_text : string) (now : Z) : outcome timestamp_result :=
  let text := sanitize_text syslog_text in
  match rfc5424_timestamp text with
  | Some (_, None) => Ok (invalid_timestamp "invalid_rfc5424_timestamp")
  | Some (timestamp_text, Some t) =>
      if now + MAX_FUTURE_SKEW <? t then Ok (invalid_timestamp "timestamp_too_far_in_future")
      else Ok (parsed_timestamp timestamp_text)
  | None =>
      match bsd_fields text with
      | None => Ok (TimestampResult None "missing" (Some "timestamp_not_found"))
      | Some fields => parse_bsd_timestamp now fields
      end
  end.

(** ** The normalized event *)

Definition event_type_of (action : string) : string :=
  if String.eqb action "block" then "firewall_block" else "firewall_allow".
Definition severity_of (action : string) : string := if String.eqb action "block" then "medium" else "low".

(** [raw_payload[key] = value], unless it is None or empty. *)
Definition unless_missing (key : string) (value : pyval) : pydict :=
  if is_none value || eq_str value "" then [] else [(key, value)].

Definition build_message (p : filterlog) (event_type : string) : string :=
  "pfSense " +:+ upper (fl_protocol p) +:+ " traffic " +:+
  (if String.eqb event_type "firewall_block" then "blocked" else "allowed") +:+ " from " +:+ fl_source_ip p +:+ " to " +:+
  fl_destination_ip p +:+ match fl_destination_port p with Some n => ":" +:+ str_int n | None => "" end.

Definition bounded_summary (value : string) : string := String.substring 0 MAX_SUMMARY_CHARS (sanitize_text value).

Definition pfsense_raw_payload (p : filterlog) (ts : timestamp_result) (sender_ip summary raw_message : string)
    (utf8_replaced : bool) : pydict :=
  [("action", PStr (fl_action p)); ("interface", opt_text (fl_interface p)); ("direction", opt_text (fl_direction p));
   ("ip_version", PStr (fl_ip_version p)); ("protocol", PStr (fl_protocol p)); ("source_ip", PStr (fl_source_ip p));
   ("destination_ip", PStr (fl_destination_ip p)); ("event_type_candidate", PStr (event_type_of (fl_action p)));
   ("utf8_replaced", PBool utf8_replaced); ("timestamp_parse_status", PStr (ts_status ts))] ++
  unless_missing "timestamp_parse_reason" (opt_text (ts_reason ts)) ++
  unless_missing "source_port" (opt_int (fl_source_port p)) ++
  unless_missing "destination_port" (opt_int (fl_destination_port p)) ++
  unless_missing "tcp_flags" (opt_text (fl_tcp_flags p)) ++ unless_missing "icmp_type" (fl_icmp_type p) ++
  unless_missing "icmp_code" (opt_int (fl_icmp_code p)) ++ unless_missing "rule_id" (opt_text (fl_rule_id p)) ++
  unless_missing "tracker" (opt_text (fl_tracker p)) ++
  (if is_empty sender_ip then [] else [("pfsense_sender_ip", PStr (sanitize_text sender_ip))]) ++
  unless_missing "raw_log" (PStr (sanitize_text summary)) ++ unless_missing "raw_syslog" (PStr (sanitize_text raw_message)) ++
  unless_missing "sanitized_summary" (PStr (bounded_summary summary)).

(** [sanitize_pfsense_text(environment) or "prod"]. *)
Definition environment_text (value : pyval) : string :=
  let text := sanitize_pfsense_text value in if is_empty text then "prod" else text.

Definition normalize_pfsense_filterlog_event (p : filterlog) (environment : string) (ts : timestamp_result)
    (sender_ip summary raw_message : string) (utf8_replaced : bool) : pydict :=
  let event_type := event_type_of (fl_action p) in
  [("event_type", PStr event_type); ("severity", PStr (severity_of (fl_action p))); ("source_ip", PStr (fl_source_ip p));
   ("source", PStr "pfsense"); ("source_type", PStr "firewall"); ("event_timestamp", opt_text (ts_event_timestamp ts));
   ("message", PStr (build_message p event_type)); ("app_name", PStr "pfsense_filterlog");
   ("environment", PStr (environment_text (PStr environment)));
   ("raw_payload", PDict (pfsense_raw_payload p ts sender_ip summary raw_message utf8_replaced))].

(** ** The packet *)

Record parse_failure := ParseFailure {
  pf_stage : string;
  pf_reason : string;
  pf_input_byte_length : Z;
  pf_summary : option string;
}.

Definition failure (stage reason : string) (byte_length : Z) (summary : string) : parse_failure :=
  ParseFailure stage reason byte_length (text_or_none (bounded_summary summary)).

Record parsed_packet := ParsedPacket { pp_event : pydict; pp_parsed : filterlog; pp_utf8_replaced : bool; pp_timestamp : timestamp_result }.

(** A packet is a string of bytes. *)
Definition decode_packet (packet : string) : string * bool :=
  if all_chars (fun c => (N_of_ascii c <? 128)%N) packet then (packet, false) else decode packet.

Definition parse_pfsense_filterlog_packet (packet environment sender_ip : string) (now : Z)
    : outcome (parse_failure + parsed_packet) :=
  let byte_length := Z.of_nat (String.length packet) in
  if MAX_PACKET_BYTES <? byte_length then Ok (inl (failure "size" "packet_too_large" byte_length ""))
  else
    let '(text, utf8_replaced) := decode_packet packet in
    let sanitized_text := sanitize_text text in
    if is_empty (strip sanitized_text) then Ok (inl (failure "decode" "empty_input" byte_length sanitized_text))
    else
      match extract_filterlog_payload sanitized_text with
      | None => Ok (inl (failure "syslog" "missing_filterlog_payload" byte_length sanitized_text))
      | Some payload =>
          match parse_filterlog_fields (parse_csv_fields payload) with
          | inl reason => Ok (inl (failure "filterlog" reason byte_length payload))
          | inr p =>
              let! ts := parse_pfsense_syslog_timestamp sanitized_text now in
              Ok (inr (ParsedPacket
                         (normalize_pfsense_filterlog_event p environment ts sender_ip payload sanitized_text utf8_replaced)
                         p utf8_replaced ts))
          end
      end.
End Events.

(** ** The validation of an event that comes in *)

Definition invalid {A} (message : string) : outcome A := Raise (ValueError message).

Definition required_event_fields : list string :=
  ["event_type"; "severity"; "source_ip"; "source"; "source_type"; "message"; "app_name"; "environment"; "raw_payload"].
Definition required_payload_fields : list string :=
  ["action"; "interface"; "direction"; "ip_version"; "protocol"; "source_ip"; "destination_ip"].

Definition missing_value (v : pyval) : bool :=
  match v with PNone => true | PStr s => is_empty (strip s) | _ => false end.

Definition port_ok (raw : pydict) (key : string) : bool :=
  is_none (dget raw key) || bool_decide (is_Some (optional_port (dget raw key))).

Definition icmp_type_ok (v : pyval) : bool :=
  bool_decide (is_Some (optional_icmp_value v)) || str_in (lower (clean v)) PFSENSE_TEXTUAL_ICMP_TYPES.

Definition identifier_ok (v : pyval) : bool :=
  match v with
  | PNone | PInt _ | PBool _ => true
  | PStr s => negb (is_empty (sanitize_text s))
  | _ => false
  end.

Definition raw_payload_ok (raw : pydict) (event_type : string) : bool :=
  let action := lower (clean (dget raw "action")) in
  let protocol := lower (clean (dget raw "protocol")) in
  forallb (dmem raw) required_payload_fields &&
  str_in action actions && String.eqb (event_type_of action) event_type &&
  negb (is_empty (clean (dget raw "interface"))) &&
  (let direction := lower (clean (dget raw "direction")) in is_empty direction || str_in direction ["in"; "out"]) &&
  String.eqb (clean (dget raw "ip_version")) "4" && str_in protocol PFSENSE_VALID_PROTOCOLS &&
  bool_decide (is_Some (validated_ip (dget raw "source_ip"))) && bool_decide (is_Some (validated_ip (dget raw "destination_ip"))) &&
  port_ok raw "source_port" && port_ok raw "destination_port" &&
  negb (str_in protocol ["tcp"; "udp"] && (is_none (dget raw "source_port") || is_none (dget raw "destination_port"))) &&
  negb (String.eqb protocol "icmp" && (dmem raw "source_port" || dmem raw "destination_port")) &&
  (negb (dmem raw "icmp_type") || icmp_type_ok (dget raw "icmp_type")) &&
  (negb (dmem raw "icmp_code") || bool_decide (is_Some (optional_icmp_value (dget raw "icmp_code")))) &&
  identifier_ok (dget raw "rule_id") && identifier_ok (dget raw "tracker").

Definition validate_pfsense_raw_payload (raw : pydict) (event_type : string) : outcome unit :=
  if raw_payload_ok raw event_type then Ok tt else invalid "Invalid raw_payload".

Definition validate_pfsense_normalized_event (data : pyval) : outcome pydict :=
  match data with
  | PDict data =>
      if existsb (fun k => missing_value (dget data k)) required_event_fields then invalid "Missing required fields"
      else
        let event_type := strip (py_str (dget data "event_type")) in
        let severity := lower (strip (py_str (dget data "severity"))) in
        let source := strip (py_str (dget data "source")) in
        let source_type := strip (py_str (dget data "source_type")) in
        if negb (str_in event_type ["firewall_block"; "firewall_allow"]) then invalid "Invalid event_type"
        else if negb (str_in severity ["low"; "medium"; "high"; "critical"]) then invalid "Invalid severity"
        else if negb (String.eqb source "pfsense" && String.eqb source_type "firewall") then invalid "Invalid source fields"
        else
          match validated_ip (dget data "source_ip") with
          | None => invalid "Invalid source_ip"
          | Some source_ip =>
              match dget data "raw_payload" with
              | PDict raw =>
                  let! _ := validate_pfsense_raw_payload raw event_type in
                  Ok [("event_type", PStr event_type); ("severity", PStr severity); ("source_ip", PStr source_ip);
                      ("source", PStr source); ("source_type", PStr source_type);
                      ("event_timestamp", dget data "event_timestamp"); ("message", PStr (strip (py_str (dget data "message"))));
                      ("app_name", PStr (strip (py_str (dget data "app_name"))));
                      ("environment", PStr (environment_text (dget data "environment"))); ("raw_payload", PDict raw)]
              | _ => invalid "Invalid raw_payload"
              end
          end
  | _ => invalid "Invalid JSON"
  end.

Definition ex_zone (name : string) : outcome timezone :=
  if String.eqb name "UTC" then Ok (Timezone id (fun _ => 0)) else Raise (OtherException "ZoneInfoNotFoundError").
