(* ===== verification/FilterlogProofs.v ===== *)
(** * FilterlogProofs: the parser against the validation of the backend

    The listener sends what the parser produced over HTTP, and the backend
    validates it again.  Which events pass, and that they pass unchanged. *)

From S2P Require Import Prelude PyText PyFloat PyValue IpAddress AddressText Identifiers Filterlog FilterlogEvent.

(** * Texts that survive being read again

    Sanitizing is idempotent, printed numbers and addresses are read back as
    they were: what the parser of a packet has written, the validation of the
    event finds unchanged. *)

Open Scope Z_scope.

(** ** Sanitized texts *)

Definition safe_char (c : ascii) : bool := negb (unsafe_control c).

Lemma drop_chars_all p s : all_chars (fun c => negb (p c)) (drop_chars p s) = true.
Proof. induction s as [|c s IH]; [done|]. cbn. destruct (p c) eqn:Hc; [exact IH|]. cbn. by rewrite Hc, IH. Qed.

Lemma drop_chars_id p s : all_chars (fun c => negb (p c)) s = true -> drop_chars p s = s.
Proof.
  induction s as [|c s IH]; [done|]. cbn. intros [Hc Hs]%andb_true_iff. apply negb_true_iff in Hc. by rewrite Hc, IH.
Qed.

Lemma lstrip_all p s : all_chars p s = true -> all_chars p (lstrip s) = true.
Proof. induction s as [|c s IH]; [done|]. cbn. intros [Hc Hs]%andb_true_iff. destruct (is_space c); [auto|]. cbn. by rewrite Hc. Qed.

Lemma rstrip_all p s : all_chars p s = true -> all_chars p (rstrip s) = true.
Proof.
  induction s as [|c s IH]; [done|]. cbn. intros [Hc Hs]%andb_true_iff. specialize (IH Hs).
  destruct (rstrip s); [destruct (is_space c); [done|cbn; by rewrite Hc]|]. cbn in *. by rewrite Hc.
Qed.

Lemma strip_all p s : all_chars p s = true -> all_chars p (strip s) = true.
Proof. intros Hs. by apply rstrip_all, lstrip_all. Qed.

(** A text that is sanitized: sanitizing it again changes nothing. *)
Definition sanitized (s : string) : Prop := sanitize_text s = s.

Lemma sanitized_intro s : all_chars safe_char s = true -> strip s = s -> sanitized s.
Proof. intros Hs Hstrip. unfold sanitized, sanitize_text. by rewrite drop_chars_id. Qed.

Lemma sanitize_idemp s : sanitized (sanitize_text s).
Proof. apply sanitized_intro; [apply strip_all, drop_chars_all|apply strip_idemp]. Qed.

Lemma clean_sanitized v : sanitized (clean v).
Proof. unfold clean, sanitize_pfsense_text. destruct (is_none v); [done|apply sanitize_idemp]. Qed.

Lemma clean_text s : sanitized s -> clean (PStr s) = s.
Proof. done. Qed.

Lemma lower_all p s : (forall c, p (lower_char c) = p c) -> all_chars p (lower s) = all_chars p s.
Proof. intros Hp. induction s as [|c s IH]; [done|]. cbn. by rewrite Hp, IH. Qed.

Lemma safe_lower c : safe_char (lower_char c) = safe_char c.
Proof. by destruct c as [[] [] [] [] [] [] [] []]. Qed.

Lemma drop_lower s : drop_chars unsafe_control (lower s) = lower (drop_chars unsafe_control s).
Proof.
  induction s as [|c s IH]; [done|]. cbn. pose proof (safe_lower c) as Hc. unfold safe_char in Hc.
  apply (f_equal negb) in Hc. rewrite !negb_involutive in Hc. rewrite Hc, IH. by destruct (unsafe_control c).
Qed.

Lemma sanitize_lower s : sanitize_text (lower s) = lower (sanitize_text s).
Proof. unfold sanitize_text. by rewrite drop_lower, strip_of_lower. Qed.

Lemma sanitized_lower s : sanitized s -> sanitized (lower s).
Proof. unfold sanitized. intros Hs. by rewrite sanitize_lower, Hs. Qed.

(** A text of visible ASCII characters. *)
Definition visible (c : ascii) : bool := let n := N_of_ascii c in ((33 <=? n) && (n <=? 126))%N.

Lemma visible_space c : visible c = true -> negb (is_space c) = true.
Proof. by destruct c as [[] [] [] [] [] [] [] []]. Qed.
Lemma visible_safe_char c : visible c = true -> safe_char c = true.
Proof. by destruct c as [[] [] [] [] [] [] [] []]. Qed.

Lemma visible_strip s : all_chars visible s = true -> strip s = s.
Proof.
  intros Hs. apply (all_chars_impl _ _ _ visible_space) in Hs. apply strip_clean; [|by apply rstrip_clean_chars].
  destruct s as [|c s]; [done|]. cbn in *. apply andb_true_iff in Hs as [Hc _]. by apply negb_true_iff.
Qed.

Lemma visible_sanitized s : all_chars visible s = true -> sanitized s.
Proof. intros Hs. apply sanitized_intro; [by apply (all_chars_impl _ _ _ visible_safe_char)|by apply visible_strip]. Qed.

(** ** Numbers *)

Lemma number_visible c : number_char c = true -> visible c = true.
Proof. by destruct c as [[] [] [] [] [] [] [] []]. Qed.

Lemma str_int_visible z : all_chars visible (str_int z) = true.
Proof. apply (all_chars_impl _ _ _ number_visible), str_int_chars. Qed.

Lemma pretty_digit d s acc cnt : (d < 10)%N ->
  take_digits (String (pretty_N_char d) s) acc cnt = take_digits s (acc * 10 + Z.of_N d) (cnt + 1).
Proof.
  intros Hd. cbn [take_digits]. rewrite pretty_N_char_digit by done. f_equal.
  assert (d ∈ [0; 1; 2; 3; 4; 5; 6; 7; 8; 9]%N) as Hin by (rewrite !elem_of_cons; lia).
  repeat (apply elem_of_cons in Hin as [->|Hin]; [cbn; lia|]). by apply not_elem_of_nil in Hin.
Qed.

Lemma take_pretty x : forall s acc cnt, exists k, 0 <= k /\ ((0 < x)%N -> 0 < k) /\
  take_digits (pretty_N_go x s) acc cnt = take_digits s (acc * 10 ^ k + Z.of_N x) (cnt + k).
Proof.
  induction (N.lt_wf_0 x) as [x _ IH]. intros s acc cnt. destruct (decide (x = 0)%N) as [->|Hx].
  { exists 0. rewrite pretty_N_go_0. split_and!; [done|done|]. f_equal; lia. }
  rewrite pretty_N_go_step by lia. assert (x / 10 < x)%N as Hlt by (apply N.div_lt; lia).
  destruct (IH _ Hlt (String (pretty_N_char (x mod 10)) s) acc cnt) as (k & Hk & _ & ->).
  exists (k + 1). split_and!; [lia|lia|]. rewrite pretty_digit by (apply N.mod_lt; lia). rewrite Z.pow_add_r by lia.
  f_equal; [|lia]. pose proof (N.Div0.div_mod x 10). lia.
Qed.

(** A printed natural number is read back. *)
Lemma parse_int_str_int n : 0 <= n -> parse_int (str_int n) = Some n.
Proof.
  intros Hn. unfold parse_int. rewrite visible_strip by apply str_int_visible.
  destruct (decide (n = 0)) as [->|Hn0]; [done|].
  assert (str_int n = pretty_N_go (Z.to_N n) "") as Heq.
  { unfold str_int, pretty, pretty_Z. destruct n as [|p|p]; [lia| |lia]. unfold pretty_positive, pretty, pretty_N. by rewrite decide_False. }
  assert (take_sign (str_int n) = (false, str_int n)) as ->.
  { assert (all_chars is_digit (str_int n) = true) as Hd.
    { rewrite Heq. assert (forall x s, all_chars is_digit s = true -> all_chars is_digit (pretty_N_go x s) = true) as H; [|by apply H].
      intros x. induction (N.lt_wf_0 x) as [x _ IH]. intros s Hs. destruct (decide (x = 0)%N) as [->|Hx]; [by rewrite pretty_N_go_0|].
      rewrite pretty_N_go_step by lia. apply IH; [apply N.div_lt; lia|]. cbn [all_chars]. rewrite Hs, pretty_N_char_digit; [done|].
      apply N.mod_lt. lia. }
    destruct (str_int n) as [|c s]; [done|]. cbn in Hd. apply andb_true_iff in Hd as [Hd _]. by destruct c as [[] [] [] [] [] [] [] []]. }
  rewrite Heq. destruct (take_pretty (Z.to_N n) "" 0 0) as (k & _ & Hk & ->). cbn [take_digits is_empty].
  rewrite (proj2 (Z.ltb_lt 0 (0 + k))) by (specialize (Hk ltac:(lia)); lia). cbn. f_equal. lia.
Qed.

Lemma str_int_nonempty z : is_empty (str_int z) = false.
Proof.
  unfold str_int, pretty, pretty_Z. destruct z as [|p|p]; [done| |done]. unfold pretty_positive, pretty, pretty_N. rewrite decide_False by done.
  destruct (take_pretty (N.pos p) "" 0 0) as (k & _ & Hk & H). destruct (pretty_N_go (N.pos p) ""); [|done].
  cbn in H. injection H as _ H. specialize (Hk ltac:(lia)). lia.
Qed.

Lemma bounded_int_again top n : 0 <= n <= top -> bounded_int top (PInt n) = Some n.
Proof.
  intros [H1 H2]. unfold bounded_int. change (clean (PInt n)) with (sanitize_text (str_int n)).
  rewrite (visible_sanitized _ (str_int_visible n)), str_int_nonempty, parse_int_str_int by done.
  apply Z.leb_le in H1, H2. by rewrite H1, H2.
Qed.

Lemma bounded_int_range top v n : bounded_int top v = Some n -> 0 <= n <= top.
Proof.
  unfold bounded_int. destruct (is_empty _); [done|]. destruct (parse_int _) as [m|]; [|done].
  destruct (_ && _) eqn:H; [|done]. intros [= <-]. apply andb_true_iff in H as [?%Z.leb_le ?%Z.leb_le]. done.
Qed.

(** ** Addresses *)

Lemma ipv4_char_visible c : is_digit c || Ascii.eqb c "." = true -> visible c = true.
Proof. by destruct c as [[] [] [] [] [] [] [] []]. Qed.

Lemma validated_ip_text v t : validated_ip v = Some t ->
  all_chars visible t = true /\ is_empty t = false /\ validated_ip (PStr t) = Some t.
Proof.
  unfold validated_ip. destruct (parse_ip (clean v)) as [a|e] eqn:Hp; [|done]. destruct (ip_v6 a) eqn:Hv; [done|]. intros [= <-].
  pose proof (parse_ip_range _ _ Hp) as Hr. rewrite Hv in Hr. cbn [max_prefixlen] in Hr.
  assert (all_chars visible (ip_text a) = true) as Hvis.
  { unfold ip_text. rewrite Hv. apply (all_chars_impl _ _ _ ipv4_char_visible), (parse_ipv4_chars _ (ip_int a)).
    by apply parse_ipv4_text. }
  assert (parse_ip (ip_text a) = Ok a) as Ha by (apply parse_ip_text; by rewrite Hv).
  split_and!; [exact Hvis| |].
  - destruct (ip_text a); [by vm_compute in Ha|done].
  - rewrite clean_text by (by apply visible_sanitized). by rewrite Ha, Hv.
Qed.

(** ** What a parsed line holds *)

Definition plain_text (o : option string) : Prop := forall s, o = Some s -> sanitized s /\ is_empty s = false.
Definition port_range (o : option Z) (top : Z) : Prop := forall n, o = Some n -> 0 <= n <= top.

Record line_ok (p : filterlog) : Prop := LineOk {
  lo_action : str_in (fl_action p) actions = true;
  lo_version : fl_ip_version p = "4";
  lo_protocol : str_in (fl_protocol p) PFSENSE_VALID_PROTOCOLS = true;
  lo_source : exists v, validated_ip v = Some (fl_source_ip p);
  lo_destination : exists v, validated_ip v = Some (fl_destination_ip p);
  lo_interface : plain_text (fl_interface p);
  lo_direction : plain_text (fl_direction p);
  lo_lower : forall s, fl_direction p = Some s -> lower s = s;
  lo_rule : plain_text (fl_rule_id p);
  lo_tracker : plain_text (fl_tracker p);
  lo_source_port : port_range (fl_source_port p) 65535;
  lo_destination_port : port_range (fl_destination_port p) 65535;
  lo_ports : str_in (fl_protocol p) ["tcp"; "udp"] = true -> is_Some (fl_source_port p) /\ is_Some (fl_destination_port p);
  lo_no_ports : str_in (fl_protocol p) ["tcp"; "udp"] = false -> fl_source_port p = None /\ fl_destination_port p = None;
  lo_icmp_type : fl_icmp_type p = PNone \/ (exists n, fl_icmp_type p = PInt n /\ 0 <= n <= 255) \/
    (exists s, fl_icmp_type p = PStr s /\ str_in s PFSENSE_TEXTUAL_ICMP_TYPES = true);
  lo_icmp_code : port_range (fl_icmp_code p) 255;
}.

Lemma plain_or_none s : sanitized s -> plain_text (text_or_none s).
Proof. intros Hs t. unfold text_or_none. destruct (is_empty s) eqn:He; [done|]. by intros [= <-]. Qed.

Lemma text_or_none_Some s t : text_or_none s = Some t -> t = s.
Proof. unfold text_or_none. destruct (is_empty s); [done|]. by intros [= <-]. Qed.

Lemma no_range top : port_range None top.
Proof. done. Qed.

Lemma parse_icmp_ok fields icmp_type code : parse_icmp_fields fields = inr (icmp_type, code) ->
  ((exists n, icmp_type = PInt n /\ 0 <= n <= 255) \/ (exists s, icmp_type = PStr s /\ str_in s PFSENSE_TEXTUAL_ICMP_TYPES = true)) /\
  port_range code 255.
Proof.
  unfold parse_icmp_fields. destruct (optional_icmp_value _) as [n|] eqn:Hn.
  - apply bounded_int_range in Hn. destruct (optional_icmp_value (PStr _)) as [m|] eqn:Hm.
    + intros [= <- <-]. split; [left; eauto|]. intros k [= <-]. by apply bounded_int_range in Hm.
    + destruct (negb _); [done|]. intros [= <- <-]. split; [left; eauto|done].
  - destruct (str_in _ PFSENSE_TEXTUAL_ICMP_TYPES) eqn:Ht; [|done]. cbn [negb]. match goal with |- (if ?b then _ else _) = _ -> _ => destruct b end; [done|].
    intros [= <- <-]. split; [right; eauto|done].
Qed.

Lemma protocol_fields_ok fields protocol sp dp flags icmp_type code :
  protocol_fields fields protocol = inr (sp, dp, flags, icmp_type, code) ->
  port_range sp 65535 /\ port_range dp 65535 /\ port_range code 255 /\
  (str_in protocol ["tcp"; "udp"] = true -> is_Some sp /\ is_Some dp) /\
  (str_in protocol ["tcp"; "udp"] = false -> sp = None /\ dp = None) /\
  (icmp_type = PNone \/ (exists n, icmp_type = PInt n /\ 0 <= n <= 255) \/
   (exists s, icmp_type = PStr s /\ str_in s PFSENSE_TEXTUAL_ICMP_TYPES = true)).
Proof.
  unfold protocol_fields. destruct (str_in protocol ["tcp"; "udp"]).
  - destruct (optional_port (field fields 20)) as [s|] eqn:Hs; [|done]. destruct (optional_port (field fields 21)) as [d|] eqn:Hd; [|done].
    intros [= <- <- <- <- <-]. split_and!; [|..]; try done; try (by left); try (by intros; split; eauto).
    + intros n [= <-]. by apply bounded_int_range in Hs.
    + intros n [= <-]. by apply bounded_int_range in Hd.
  - destruct (String.eqb protocol "icmp").
    + destruct (parse_icmp_fields fields) as [reason|[t c]] eqn:Hi; [done|]. intros [= <- <- <- <- <-].
      apply parse_icmp_ok in Hi as [Ht Hc]. by split_and!; [..|right].
    + intros [= <- <- <- <- <-]. split_and!; try done. by left.
Qed.

Lemma parsed_line_ok fields p : parse_filterlog_fields fields = inr p -> line_ok p.
Proof.
  unfold parse_filterlog_fields. destruct (_ <? 20)%nat; [done|]. destruct (String.eqb_spec (clean_field fields 8) "4") as [Hv|]; [|done].
  cbn [negb]. destruct (str_in (lower (clean_field fields 16)) PFSENSE_VALID_PROTOCOLS) eqn:Hp; [|done].
  destruct (str_in (lower (clean_field fields 6)) actions) eqn:Ha; [|done]. cbn [negb].
  destruct (validated_ip (field fields 18)) as [src|] eqn:Hsrc; [|done]. destruct (validated_ip (field fields 19)) as [dst|] eqn:Hdst; [|done].
  destruct (protocol_fields fields _) as [reason|[[[[sp dp] flags] it] ic]] eqn:Hf; [done|]. intros [= <-].
  apply protocol_fields_ok in Hf as (Hsp & Hdp & Hic & Hports & Hnone & Hit). split; cbn; eauto using plain_or_none, clean_sanitized.
  - apply plain_or_none, sanitized_lower, clean_sanitized.
  - intros s ->%text_or_none_Some. apply lower_twice.
Qed.

(** ** The payload, key by key *)

Lemma dlookup_app a b k : dlookup (a ++ b) k = match dlookup a k with Some v => Some v | None => dlookup b k end.
Proof. induction a as [|[k' v] a IH]; [done|]. cbn. by destruct (String.eqb k' k). Qed.

Lemma dlookup_unless key v k :
  dlookup (unless_missing key v) k = if String.eqb key k && negb (is_none v || eq_str v "") then Some v else None.
Proof. unfold unless_missing. destruct (_ || _); cbn; [by rewrite andb_false_r|]. by destruct (String.eqb key k). Qed.

Section Payload.
Context (p : filterlog) (ts : timestamp_result) (sender_ip summary raw_message : string) (replaced : bool).
Abbreviation raw := (pfsense_raw_payload p ts sender_ip summary raw_message replaced).

Lemma dlookup_sender k : String.eqb "pfsense_sender_ip" k = false ->
  dlookup (if is_empty sender_ip then [] else [("pfsense_sender_ip", PStr (sanitize_text sender_ip))]) k = None.
Proof. intros Hk. destruct (is_empty sender_ip); [done|]. cbn [dlookup]. by rewrite Hk. Qed.

Lemma raw_lookup k v :
  (k, v) ∈ [("source_port", opt_int (fl_source_port p)); ("destination_port", opt_int (fl_destination_port p));
            ("icmp_type", fl_icmp_type p); ("icmp_code", opt_int (fl_icmp_code p)); ("rule_id", opt_text (fl_rule_id p));
            ("tracker", opt_text (fl_tracker p))] ->
  dlookup raw k = if is_none v || eq_str v "" then None else Some v.
Proof.
  intros Hin. unfold pfsense_raw_payload. rewrite !dlookup_app, !dlookup_unless.
  repeat (apply elem_of_cons in Hin as [[= -> ->]|Hin];
    [cbn [dlookup String.eqb Ascii.eqb Bool.eqb andb]; rewrite ?dlookup_sender by done; by destruct (_ || _)|]).
  by apply not_elem_of_nil in Hin.
Qed.
End Payload.

(** ** The verdict of the backend *)

Definition direction_known (p : filterlog) : bool :=
  match fl_direction p with Some d => str_in d ["in"; "out"] | None => true end.

(** The events the backend takes. *)
Definition acceptable (p : filterlog) : bool := bool_decide (is_Some (fl_interface p)) && direction_known p.

Lemma known_texts s l : str_in s l = true -> Forall (fun t => lower t = t /\ sanitized t) l -> lower s = s /\ sanitized s.
Proof. intros Hs%str_in_spec Hl. by eapply Forall_forall in Hl. Qed.

Lemma identifier_plain o : plain_text o -> identifier_ok (opt_text o) = true /\ (is_none (opt_text o) || eq_str (opt_text o) "" = is_none (opt_text o)).
Proof.
  intros Ho. destruct o as [s|]; [|done]. destruct (Ho s eq_refl) as [Hs He]. cbn. rewrite Hs, He. split; [done|]. by destruct s.
Qed.

Lemma opt_int_missing o : is_none (opt_int o) || eq_str (opt_int o) "" = is_none (opt_int o).
Proof. by destruct o. Qed.

Lemma port_range_ok o top : port_range o top -> is_none (opt_int o) || bool_decide (is_Some (bounded_int top (opt_int o))) = true.
Proof. destruct o as [n|]; [|done]. intros Hn. cbn [opt_int is_none orb]. rewrite bounded_int_again by (by apply Hn). by apply bool_decide_eq_true. Qed.

Lemma icmp_type_passes p : line_ok p ->
  (is_none (fl_icmp_type p) || eq_str (fl_icmp_type p) "" = is_none (fl_icmp_type p)) /\
  (is_none (fl_icmp_type p) || icmp_type_ok (fl_icmp_type p) = true).
Proof.
  intros Hp. unfold icmp_type_ok. destruct (lo_icmp_type p Hp) as [->|[(n & -> & Hn)|(s & -> & Hs)]]; [done| |].
  - split; [done|]. unfold optional_icmp_value. rewrite bounded_int_again by done. by rewrite bool_decide_true.
  - destruct (known_texts s PFSENSE_TEXTUAL_ICMP_TYPES Hs) as [Hl Hc]; [repeat constructor|].
    split; [by destruct s|]. rewrite clean_text by done. rewrite Hl, Hs. by rewrite orb_true_r.
Qed.

Section Verdict.
Context (p : filterlog) (ts : timestamp_result) (sender_ip summary raw_message : string) (replaced : bool).
Context (Hp : line_ok p).
Abbreviation raw := (pfsense_raw_payload p ts sender_ip summary raw_message replaced).

Lemma raw_value k v :
  (k, v) ∈ [("source_port", opt_int (fl_source_port p)); ("destination_port", opt_int (fl_destination_port p));
            ("icmp_type", fl_icmp_type p); ("icmp_code", opt_int (fl_icmp_code p)); ("rule_id", opt_text (fl_rule_id p));
            ("tracker", opt_text (fl_tracker p))] ->
  dget raw k = v /\ dmem raw k = negb (is_none v).
Proof.
  intros Hin. assert (is_none v || eq_str v "" = is_none v) as Hv.
  { repeat (apply elem_of_cons in Hin as [[= -> ->]|Hin]; [|]); [..|by apply not_elem_of_nil in Hin].
    1,2,4: apply opt_int_missing. 1: by apply icmp_type_passes. 1,2: apply identifier_plain; apply Hp. }
  unfold dget, dmem. rewrite (raw_lookup p ts sender_ip summary raw_message replaced k v Hin), Hv. by destruct v.
Qed.

Lemma payload_verdict : raw_payload_ok raw (event_type_of (fl_action p)) = acceptable p.
Proof.
  assert (lower (fl_action p) = fl_action p /\ sanitized (fl_action p)) as [Hal Has].
  { eapply known_texts; [exact (lo_action p Hp)|]. repeat constructor. }
  assert (lower (fl_protocol p) = fl_protocol p /\ sanitized (fl_protocol p)) as [Hpl Hps].
  { eapply known_texts; [exact (lo_protocol p Hp)|]. repeat constructor. }
  destruct (lo_source p Hp) as (v1 & (_ & _ & Hsrc)%validated_ip_text). destruct (lo_destination p Hp) as (v2 & (_ & _ & Hdst)%validated_ip_text).
  destruct (raw_value "source_port" _ ltac:(by repeat (left || right))) as [Hsp Hspm].
  destruct (raw_value "destination_port" _ ltac:(by repeat (left || right))) as [Hdp Hdpm].
  destruct (raw_value "icmp_type" _ ltac:(by repeat (left || right))) as [Hit Hitm].
  destruct (raw_value "icmp_code" _ ltac:(by repeat (left || right))) as [Hic Hicm].
  destruct (raw_value "rule_id" _ ltac:(by repeat (left || right))) as [Hr _].
  destruct (raw_value "tracker" _ ltac:(by repeat (left || right))) as [Htr _].
  unfold raw_payload_ok, port_ok, optional_port, optional_icmp_value. rewrite Hsp, Hdp, Hit, Hic, Hr, Htr, Hspm, Hdpm, Hitm, Hicm, !negb_involutive.
  change (dget raw "action") with (PStr (fl_action p)). change (dget raw "protocol") with (PStr (fl_protocol p)).
  change (dget raw "interface") with (opt_text (fl_interface p)). change (dget raw "direction") with (opt_text (fl_direction p)).
  change (dget raw "ip_version") with (PStr (fl_ip_version p)). change (dget raw "source_ip") with (PStr (fl_source_ip p)).
  change (dget raw "destination_ip") with (PStr (fl_destination_ip p)). change (forallb (dmem raw) required_payload_fields) with true.
  rewrite !clean_text, Hal, Hpl, (lo_action p Hp), (lo_protocol p Hp), (lo_version p Hp), Hsrc, Hdst, String.eqb_refl by (done || by rewrite (lo_version p Hp)).
  rewrite (port_range_ok _ _ (lo_source_port p Hp)), (port_range_ok _ _ (lo_destination_port p Hp)), (port_range_ok _ _ (lo_icmp_code p Hp)).
  rewrite (proj2 (icmp_type_passes p Hp)), (proj1 (identifier_plain _ (lo_rule p Hp))), (proj1 (identifier_plain _ (lo_tracker p Hp))).
  assert (negb (str_in (fl_protocol p) ["tcp"; "udp"] && (is_none (opt_int (fl_source_port p)) || is_none (opt_int (fl_destination_port p)))) = true) as ->.
  { destruct (str_in (fl_protocol p) ["tcp"; "udp"]) eqn:E; [|done]. destruct (lo_ports p Hp E) as [[? ->] [? ->]]. done. }
  assert (negb (String.eqb (fl_protocol p) "icmp" && (negb (is_none (opt_int (fl_source_port p))) || negb (is_none (opt_int (fl_destination_port p))))) = true) as ->.
  { destruct (String.eqb_spec (fl_protocol p) "icmp") as [E|]; [|done]. destruct (lo_no_ports p Hp) as [-> ->]; [by rewrite E|done]. }
  rewrite !bool_decide_true by eauto. cbn [andb]. rewrite !andb_true_r. unfold acceptable, direction_known. f_equal.
  - destruct (fl_interface p) as [s|] eqn:E; [|by rewrite bool_decide_false by (by intros [? ?])]. destruct (lo_interface p Hp s E) as [Hs He].
    cbn [opt_text]. by rewrite clean_text, He, bool_decide_true by eauto.
  - destruct (fl_direction p) as [s|] eqn:E; [|done]. destruct (lo_direction p Hp s E) as [Hs He].
    cbn [opt_text]. by rewrite clean_text, (lo_lower p Hp s E), He.
Qed.
End Verdict.

(** ** The event *)

Lemma sanitized_strip s : sanitized s -> strip s = s.
Proof. unfold sanitized, sanitize_text. intros Hs. rewrite <-Hs at 1. rewrite strip_idemp. exact Hs. Qed.

Lemma strip_append a b : starts_clean a -> is_empty a = false -> all_chars visible b = true -> is_empty b = false ->
  strip (a +:+ b) = a +:+ b.
Proof.
  intros Ha Hne Hb Hbe. apply strip_clean; [by destruct a|].
  assert (rstrip b = b) as Hr by (apply strip_fixed_rstrip; by apply visible_strip).
  rewrite rstrip_app; by rewrite Hr.
Qed.

Lemma visible_app a b : all_chars visible (a +:+ b) = all_chars visible a && all_chars visible b.
Proof. apply all_chars_app. Qed.

Lemma message_strip p event_type : line_ok p -> strip (build_message p event_type) = build_message p event_type.
Proof.
  intros Hp. destruct (lo_destination p Hp) as (v & (Hvis & Hne & _)%validated_ip_text). unfold build_message.
  set (tail := match fl_destination_port p with Some n => ":" +:+ str_int n | None => "" end).
  assert (all_chars visible (fl_destination_ip p +:+ tail) = true) as Hv.
  { rewrite visible_app, Hvis. unfold tail. destruct (fl_destination_port p); [|done]. rewrite visible_app. by rewrite str_int_visible. }
  assert (is_empty (fl_destination_ip p +:+ tail) = false) as He by (by destruct (fl_destination_ip p)).
  rewrite <-!str_app_assoc. rewrite str_app_assoc. by apply strip_append.
Qed.

Lemma environment_again v : let e := environment_text v in environment_text (PStr e) = e /\ strip e = e /\ is_empty e = false.
Proof.
  assert (sanitized (environment_text v) /\ is_empty (environment_text v) = false) as [Hs He].
  { unfold environment_text. destruct (is_empty (sanitize_pfsense_text v)) eqn:He; [by vm_compute|]. split; [apply (clean_sanitized v)|done]. }
  cbv zeta. split_and!; [|by apply sanitized_strip|exact He]. unfold environment_text at 1.
  change (sanitize_pfsense_text (PStr ?s)) with (sanitize_text s). by rewrite Hs, He.
Qed.

Lemma normalized_verdict p environment ts sender_ip summary raw_message replaced : line_ok p ->
  let e := normalize_pfsense_filterlog_event p environment ts sender_ip summary raw_message replaced in
  validate_pfsense_normalized_event (PDict e) = if acceptable p then Ok e else Raise (ValueError "Invalid raw_payload").
Proof.
  intros Hp e. set (raw := pfsense_raw_payload p ts sender_ip summary raw_message replaced).
  destruct (environment_again (PStr environment)) as (Henv & Hes & Hene).
  pose proof (message_strip p (event_type_of (fl_action p)) Hp) as Hmsg.
  assert (fl_action p = "block" \/ fl_action p = "pass") as Ha.
  { pose proof (lo_action p Hp) as H%str_in_spec. apply elem_of_cons in H as [H|H%list_elem_of_singleton]; auto. }
  destruct (lo_source p Hp) as (v & (Hvis & Hne & Hsrc)%validated_ip_text).
  assert (existsb (fun k => missing_value (dget e k)) required_event_fields = false) as Hreq.
  { unfold e, required_event_fields, normalize_pfsense_filterlog_event. cbn -[build_message strip environment_text].
    rewrite Hes, Hene, Hmsg, (visible_strip _ Hvis), Hne.
    change (is_empty (build_message p (event_type_of (fl_action p)))) with false. by destruct Ha as [-> | ->]. }
  unfold validate_pfsense_normalized_event. rewrite Hreq.
  change (dget e "event_type") with (PStr (event_type_of (fl_action p))). change (dget e "severity") with (PStr (severity_of (fl_action p))).
  change (dget e "source_ip") with (PStr (fl_source_ip p)). change (dget e "raw_payload") with (PDict raw).
  change (dget e "message") with (PStr (build_message p (event_type_of (fl_action p)))).
  change (dget e "environment") with (PStr (environment_text (PStr environment))).
  cbn [py_str]. rewrite Hsrc, Hmsg, Henv.
  assert (strip (event_type_of (fl_action p)) = event_type_of (fl_action p) /\
    str_in (event_type_of (fl_action p)) ["firewall_block"; "firewall_allow"] = true /\
    lower (strip (severity_of (fl_action p))) = severity_of (fl_action p) /\
    str_in (severity_of (fl_action p)) ["low"; "medium"; "high"; "critical"] = true) as (-> & -> & -> & ->) by (by destruct Ha as [-> | ->]).
  change (strip (py_str (dget e "source"))) with "pfsense". change (strip (py_str (dget e "source_type"))) with "firewall".
  cbn [negb andb String.eqb Ascii.eqb Bool.eqb]. unfold validate_pfsense_raw_payload.
  pose proof (payload_verdict p ts sender_ip summary raw_message replaced Hp) as Hv. fold raw in Hv. rewrite Hv.
  by destruct (acceptable p).
Qed.

(** A packet that parses is a line that is well formed and the event of it. *)
Lemma parsed_packet_inv zone_info syslog_timezone decode packet environment sender_ip now pp :
  parse_pfsense_filterlog_packet zone_info syslog_timezone decode packet environment sender_ip now = Ok (inr pp) ->
  line_ok (pp_parsed pp) /\ exists ts summary raw_message replaced,
    pp_event pp = normalize_pfsense_filterlog_event (pp_parsed pp) environment ts sender_ip summary raw_message replaced.
Proof.
  unfold parse_pfsense_filterlog_packet. destruct (MAX_PACKET_BYTES <? _); [done|]. destruct (decode_packet decode packet) as [text replaced].
  destruct (is_empty _); [done|]. destruct (extract_filterlog_payload _) as [payload|]; [|done].
  destruct (parse_filterlog_fields _) as [reason|p] eqn:Hp; [done|]. apply parsed_line_ok in Hp.
  destruct (parse_pfsense_syslog_timestamp _ _ _ _) as [ts|e]; [|done]. cbn [obind]. intros [= <-]. cbn. eauto 10.
Qed.

(** the backend takes the events of the listener unchanged.  An event
    that the parser makes of a packet passes the validation of the backend,
    which gives it back as it is, exactly when the line names an interface
    and its direction is in, out or left open; every other event is refused
    with "Invalid raw_payload". *)
Theorem parsed_events_accepted zone_info syslog_timezone decode packet environment sender_ip now pp :
  parse_pfsense_filterlog_packet zone_info syslog_timezone decode packet environment sender_ip now = Ok (inr pp) ->
  validate_pfsense_normalized_event (PDict (pp_event pp)) =
    if bool_decide (is_Some (fl_interface (pp_parsed pp))) &&
       match fl_direction (pp_parsed pp) with Some d => str_in d ["in"; "out"] | None => true end
    then Ok (pp_event pp) else Raise (ValueError "Invalid raw_payload").
Proof. intros (Hp & ts & summary & raw_message & replaced & ->)%parsed_packet_inv. by apply normalized_verdict. Qed.

(** A packet of a firewall, parsed, validated, unchanged. *)
Lemma parsed_events_accepted_witness :
  exists pp, parse_pfsense_filterlog_packet ex_zone "UTC" (fun s => (s, true)) ex_tcp_line "prod" "10.0.0.1" 1767600000000000 = Ok (inr pp) /\
    validate_pfsense_normalized_event (PDict (pp_event pp)) = Ok (pp_event pp).
Proof.
  set (r := parse_pfsense_filterlog_packet _ _ _ _ _ _ _). assert (exists pp, r = Ok (inr pp)) as [pp Hpp] by (vm_compute; eauto).
  exists pp. split; [exact Hpp|]. rewrite (parsed_events_accepted _ _ _ _ _ _ _ _ Hpp).
  assert (match r with Ok (inr pp) => bool_decide (is_Some (fl_interface (pp_parsed pp))) &&
       match fl_direction (pp_parsed pp) with Some d => str_in d ["in"; "out"] | None => true end | _ => false end = true) as H by (vm_compute; reflexivity).
  rewrite Hpp in H. by rewrite H.
Defined.

(** ** Timestamps *)

(** a BSD header of the last day of February in a leap year is never
    understood, in whatever year and zone: the event loses its time, as if
    the firewall had sent an impossible date. *)
Theorem leap_day_never_parsed zone_info syslog_timezone text now h mi sec :
  rfc5424_timestamp (sanitize_text text) = None -> bsd_fields (sanitize_text text) = Some ("Feb", 29, h, mi, sec) ->
  parse_pfsense_syslog_timestamp zone_info syslog_timezone text now = Ok (TimestampResult None "invalid" (Some "invalid_bsd_timestamp")).
Proof. intros Hr Hb. unfold parse_pfsense_syslog_timestamp. by rewrite Hr, Hb. Qed.

Definition ex_leap_day : string := "<134>Feb 29 10:11:12 fw filterlog[4321]: 5".

Lemma leap_day_never_parsed_witness :
  parse_pfsense_syslog_timestamp ex_zone "UTC" ex_leap_day 1835400000000000 =
    Ok (TimestampResult None "invalid" (Some "invalid_bsd_timestamp")).
Proof. apply (leap_day_never_parsed ex_zone "UTC" ex_leap_day 1835400000000000 10 11 12); vm_compute; reflexivity. Defined.
