(* ===== verification/PfsenseFilter.v ===== *)
(** * PfsenseFilter: engines/pfsense_ingest_filter.py

    Which firewall events are worth keeping: the five retention categories,
    their overrides in pfsense_ingest_config, the effective policy and its
    verdict on an event; with the part of the ingest route that asks for it
    and the admin route that changes it. *)

From S2P Require Import Prelude PyText PyFloat PyValue Tables NotificationPolicy FilterlogEvent.

Open Scope Z_scope.

(** ** Categories and their parameters *)

Definition MAX_SENSITIVE_PORTS : nat := 64.
Definition DEFAULT_SENSITIVE_PORTS : list Z := [21; 22; 23; 25; 135; 445; 1433; 3306; 3389; 5432; 5900; 6379; 27017].

Definition BLOCK_EVENTS : string := "block_events".
Definition SENSITIVE_ALLOWS : string := "inbound_sensitive_port_allows".
Definition ALL_ALLOWS : string := "all_allow_events".
Definition DNS_TRAFFIC : string := "dns_traffic".
Definition ICMP_TRAFFIC : string := "icmp_traffic".

Definition ports_value (ports : list Z) : pyval := PList (map PInt ports).

(** Category, enabled, parameters. *)
Definition DEFAULT_PFSENSE_INGEST_CONFIG : list (string * bool * pydict) :=
  [(BLOCK_EVENTS, true, []); (SENSITIVE_ALLOWS, true, [("sensitive_ports", ports_value DEFAULT_SENSITIVE_PORTS)]);
   (ALL_ALLOWS, false, []); (DNS_TRAFFIC, false, []); (ICMP_TRAFFIC, false, [])].

Definition known_category (k : string) : bool :=
  str_in k (map (fun d => d.1.1) DEFAULT_PFSENSE_INGEST_CONFIG).

(** ** Validation *)

Fixpoint checked_ports (items : list pyval) : outcome (list Z) :=
  match items with
  | [] => Ok []
  | PInt port :: items =>
      if (port <? 1) || (65535 <? port) then refuse "sensitive_ports must be between 1 and 65535"
      else let! ports := checked_ports items in Ok (port :: ports)
  | _ :: _ => refuse "sensitive_ports must contain integers"
  end.

Definition validate_sensitive_ports (value : pyval) : outcome (list Z) :=
  let bounded := "sensitive_ports must be a non-empty bounded list" in
  match value with
  | PList [] => refuse bounded
  | PList items =>
      if (MAX_SENSITIVE_PORTS <? length items)%nat then refuse bounded
      else
        let! ports := checked_ports items in
        if bool_decide (NoDup ports) then Ok (merge_sort Z.le ports) else refuse "sensitive_ports must not contain duplicates"
  | _ => refuse bounded
  end.

(** What validation leaves of the parameters: nothing, or the ports. *)
Record filter_entry := FilterEntry { fe_enabled : bool; fe_sensitive_ports : option (list Z) }.

(** The dict of a validated entry's parameters. *)
Definition entry_parameters (e : filter_entry) : pydict :=
  match fe_sensitive_ports e with Some ports => [("sensitive_ports", ports_value ports)] | None => [] end.

(** [json.loads] of parameters that come as text; JSONDecodeError is a
    ValueError. *)
Definition json_decoder := string -> outcome pyval.

Definition decoded_parameters (json_loads : json_decoder) (parameters : pyval) : outcome pyval :=
  match parameters with
  | PStr text =>
      match json_loads text with
      | Raise (ValueError _) => refuse "parameters must be valid JSON"
      | o => o
      end
  | _ => Ok parameters
  end.

Definition validate_config_entry (json_loads : json_decoder) (category : string) (enabled parameters : pyval) : outcome filter_entry :=
  if negb (known_category category) then refuse "Unknown pfSense ingest filter category"
  else
    match enabled with
    | PBool enabled =>
        let! parameters := decoded_parameters json_loads parameters in
        match parameters with
        | PDict parameters =>
            let allowed := if String.eqb category SENSITIVE_ALLOWS then ["sensitive_ports"] else [] in
            if negb (forallb (fun k => str_in k allowed) (map fst parameters)) then refuse "Unknown pfSense ingest filter parameter"
            else if String.eqb category SENSITIVE_ALLOWS then
              let! ports := validate_sensitive_ports (default (ports_value DEFAULT_SENSITIVE_PORTS) (dlookup parameters "sensitive_ports")) in
              Ok (FilterEntry enabled (Some ports))
            else Ok (FilterEntry enabled None)
        | _ => refuse "parameters must be an object"
        end
    | _ => refuse "enabled must be a boolean"
    end.

(** ** The policy *)

Record category_entry := CategoryEntry {
  ca_entry : filter_entry;
  ca_has_override : bool;
  ca_override_status : string;
  ca_updated_by : option string;
  ca_updated_at : option string;
}.

(** The categories in the order of the dict. *)
Record filter_policy := FilterPolicy { fp_status : string; fp_categories : list (string * category_entry) }.

Fixpoint category_of (cats : list (string * category_entry)) (k : string) : option category_entry :=
  match cats with [] => None | (k', e) :: cats => if String.eqb k' k then Some e else category_of cats k end.

(** [policy["categories"][k] = e]. *)
Fixpoint set_category (cats : list (string * category_entry)) (k : string) (e : category_entry) : list (string * category_entry) :=
  match cats with
  | [] => [(k, e)]
  | (k', e') :: cats => if String.eqb k' k then (k', e) :: cats else (k', e') :: set_category cats k e
  end.

Definition default_category (e : filter_entry) : category_entry := CategoryEntry e false "default" None None.

Section Policy.
Context (json_loads : json_decoder).

Fixpoint default_categories (config : list (string * bool * pydict)) : outcome (list (string * category_entry)) :=
  match config with
  | [] => Ok []
  | (key, enabled, parameters) :: config =>
      let! e := validate_config_entry json_loads key (PBool enabled) (PDict parameters) in
      let! rest := default_categories config in
      Ok ((key, default_category e) :: rest)
  end.

Definition default_effective_policy (status : string) : outcome filter_policy :=
  let! cats := default_categories DEFAULT_PFSENSE_INGEST_CONFIG in
  Ok (FilterPolicy status cats).

(** A row of pfsense_ingest_config: a CHECK keeps its parameters an object. *)
Record config_row := ConfigRow {
  fr_enabled : bool;
  fr_parameters : pydict;
  fr_updated_by : option string;
  fr_updated_at : Z;
}.

(** The table by category, the primary key; [None] before its migration. *)
Abbreviation config_table := (option (gmap string config_row)).

#[export, refine] Instance config_table_tx : Transactional config_table := { restore snap _ := snap; }.
Proof. all: done. Defined.

Context (text_le : string -> string -> Prop) `{!RelDecision text_le}.

Definition row_le (a b : string * config_row) : Prop := text_le a.1 b.1.
#[local] Instance row_le_dec : RelDecision row_le.
Proof. intros a b. unfold row_le. apply _. Defined.

(** SELECT .. ORDER BY category. *)
Definition config_rows (t : gmap string config_row) : list (string * config_row) := merge_sort row_le (map_to_list t).

Definition select_config : M config_table (list (string * config_row)) := fun t =>
  match t with
  | None => (Raise (DatabaseError "relation pfsense_ingest_config does not exist"), t)
  | Some rows => (Ok (config_rows rows), t)
  end.

Definition applied_entry (e : filter_entry) (r : config_row) : category_entry :=
  CategoryEntry e true "applied" (fr_updated_by r) (Some (isoformat " " (utc_datetime (fr_updated_at r)))).

Fixpoint apply_overrides (rows : list (string * config_row)) (seen : list string) (cats : list (string * category_entry))
    : outcome (list (string * category_entry)) :=
  match rows with
  | [] => Ok cats
  | (category, r) :: rows =>
      if str_in category seen then refuse "duplicate pfSense ingest filter category"
      else
        let! e := validate_config_entry json_loads category (PBool (fr_enabled r)) (PDict (fr_parameters r)) in
        apply_overrides rows (category :: seen) (set_category cats category (applied_entry e r))
  end.

(** The statements between the SAVEPOINT and its RELEASE. *)
Definition read_policy : M config_table filter_policy :=
  let* rows := select_config in
  let* policy := of_outcome (default_effective_policy "applied") in
  let* cats := of_outcome (apply_overrides rows [] (fp_categories policy)) in
  ret (FilterPolicy (fp_status policy) cats).

(** In an aborted transaction the SAVEPOINT is refused, and so are the
    statements of the handler, whose errors it swallows. *)
Definition load_effective_policy : M (conn config_table) filter_policy := fun c =>
  if cn_aborted c then (default_effective_policy "unavailable", c)
  else
    match read_policy (cn_current c) with
    | (Ok policy, t) => (Ok policy, Conn (cn_committed c) t false)
    | (Raise e, t) =>
        (default_effective_policy (if is_value_error e then "invalid" else "unavailable"),
         Conn (cn_committed c) (restore (cn_current c) t) false)
    end.

(** On a connection of its own; [None] when it cannot be opened. *)
Definition get_all_effective_config (committed : option config_table) : outcome filter_policy :=
  match committed with
  | None => default_effective_policy "unavailable"
  | Some t =>
      match load_effective_policy (open_conn t) with
      | (Ok policy, _) => Ok policy
      | (Raise _, _) => default_effective_policy "unavailable"
      end
  end.

(** [policy["categories"][k]]. *)
Definition category_entry_of (policy : filter_policy) (k : string) : outcome category_entry :=
  match category_of (fp_categories policy) k with Some e => Ok e | None => Raise (KeyError k) end.

(** [.. ["parameters"]["sensitive_ports"]]. *)
Definition sensitive_ports_of (policy : filter_policy) : outcome (list Z) :=
  let! e := category_entry_of policy SENSITIVE_ALLOWS in
  match fe_sensitive_ports (ca_entry e) with Some ports => Ok ports | None => Raise (KeyError "sensitive_ports") end.

Definition get_effective_sensitive_ports : M (conn config_table) (list Z) :=
  let* policy := load_effective_policy in of_outcome (sensitive_ports_of policy).

(** ** The verdict *)

Record filter_decision := FilterDecision { fd_retain : bool; fd_category : string; fd_reason : string }.

(** [v == n] for an integer. *)
Definition equals_int (v : pyval) (n : Z) : bool :=
  match v with
  | PInt z => z =? n
  | PBool b => (if b then 1 else 0) =? n
  | PFloat f => match float_of_int n with Ok g => feq f g | Raise _ => false end
  | PDec m e => if 0 <=? e then m * 10 ^ e =? n else m =? n * 10 ^ (- e)
  | _ => false
  end.

(** [a and b], for a condition that may raise. *)
Definition and_then (a : bool) (b : outcome bool) : outcome bool := if a then b else Ok false.

Definition category_enabled (policy : filter_policy) (k : string) : outcome bool :=
  let! e := category_entry_of policy k in Ok (fe_enabled (ca_entry e)).

(** [str(raw.get(key) or "").lower()]. *)
Definition payload_text (raw : pydict) (key : string) : string := lower (py_str (py_or (dget raw key) (PStr ""))).

Definition retained (category reason : string) : outcome filter_decision := Ok (FilterDecision true category reason).

Definition evaluate_payload (raw : pydict) (policy : filter_policy) : outcome filter_decision :=
  let action := payload_text raw "action" in
  let protocol := payload_text raw "protocol" in
  let direction := payload_text raw "direction" in
  let destination_port := dget raw "destination_port" in
  let pass := String.eqb action "pass" in
  let tcp_udp := str_in protocol ["tcp"; "udp"] in
  let! block := and_then (String.eqb action "block") (category_enabled policy BLOCK_EVENTS) in
  if block then retained BLOCK_EVENTS "blocked_traffic"
  else
    let! all_allows := and_then pass (category_enabled policy ALL_ALLOWS) in
    if all_allows then retained ALL_ALLOWS "all_allowed_traffic"
    else
      let! icmp := and_then (pass && String.eqb protocol "icmp") (category_enabled policy ICMP_TRAFFIC) in
      if icmp then retained ICMP_TRAFFIC "allowed_icmp"
      else
        let! sensitive :=
          and_then (pass && tcp_udp && String.eqb direction "in")
            (let! ports := sensitive_ports_of policy in
             and_then (existsb (equals_int destination_port) ports) (category_enabled policy SENSITIVE_ALLOWS)) in
        if sensitive then retained SENSITIVE_ALLOWS "inbound_sensitive_port"
        else
          let! dns := and_then (pass && tcp_udp && equals_int destination_port 53) (category_enabled policy DNS_TRAFFIC) in
          if dns then retained DNS_TRAFFIC "allowed_port_53"
          else Ok (FilterDecision false "routine_allow" "no_enabled_retention_category").

Definition evaluate_event (normalized_event : pydict) (policy : filter_policy) : outcome filter_decision :=
  match py_or (dget normalized_event "raw_payload") (PDict []) with
  | PDict raw => evaluate_payload raw policy
  | _ => Raise (OtherException "AttributeError")
  end.

(** [_decision_counts]. *)
Abbreviation decision_counts := (gmap string Z).

Definition decision_key (d : filter_decision) : string :=
  (if fd_retain d then "retained" else "filtered") +:+ ":" +:+ fd_reason d.

Definition record_filter_decision (d : filter_decision) : M decision_counts unit :=
  modify (fun s => <[decision_key d := default 0 (s !! decision_key d) + 1]> s).

(** ** Overrides *)

(** INSERT .. ON CONFLICT (category) DO UPDATE, with the CHECK of the
    categories. *)
Definition write_config (category : string) (r : config_row) : M config_table unit := fun t =>
  match t with
  | None => (Raise (DatabaseError "relation pfsense_ingest_config does not exist"), t)
  | Some rows =>
      if known_category category then (Ok tt, Some (<[category := r]> rows))
      else (Raise (IntegrityError "pfsense_ingest_config_category_check"), t)
  end.

Definition upsert_config_override (clk : clock) (category : string) (enabled parameters : pyval) (updated_by : option string)
    : M (conn config_table) filter_entry :=
  let* validated := of_outcome (validate_config_entry json_loads category enabled parameters) in
  Tables.execute (write_config category (ConfigRow (fe_enabled validated) (entry_parameters validated) updated_by (sql_now clk))) ;;;
  ret validated.

(** ** The routes *)

(** What a handler answers, with the category entry of an update. *)
Inductive filter_response :=
  | FilterError (status : Z) (message : string)
  | FilterUpdated (e : category_entry).

(** What log_audit_event is told of an update: the entries before and after. *)
Record filter_audit := FilterAudit { fa_category : string; fa_old : filter_entry; fa_new : filter_entry }.

(** The body of the try of update_pfsense_ingest_filter, for a payload with
    "enabled" and at most "parameters". *)
Definition store_override (clk : clock) (category : string) (payload : pydict) (user : option string)
    : M (conn config_table) (filter_response * option filter_audit) :=
  let* old_policy := load_effective_policy in
  let* old_entry := of_outcome (category_entry_of old_policy category) in
  let parameters := default (PDict (entry_parameters (ca_entry old_entry))) (dlookup payload "parameters") in
  let* error :=
    try_catch
      (upsert_config_override clk category (dget payload "enabled") parameters user ;;; ret None)
      (fun e => match e with
                | ValueError message => rollback_conn ;;; ret (Some message)
                | _ => raise e
                end) in
  match error with
  | Some message => ret (FilterError 400 message, None)
  | None =>
      let* updated_policy := load_effective_policy in
      let* updated_entry := of_outcome (category_entry_of updated_policy category) in
      commit_conn ;;;
      ret (FilterUpdated updated_entry, Some (FilterAudit category (ca_entry old_entry) (ca_entry updated_entry)))
  end.

Definition update_pfsense_ingest_filter (clk : clock) (category : string) (payload : pyval) (user : option string)
    : M (conn config_table) (filter_response * option filter_audit) :=
  if negb (known_category category) then ret (FilterError 404 "pfSense ingest filter category not found", None)
  else
    match payload with
    | PDict payload =>
        if negb (forallb (fun k => str_in k ["enabled"; "parameters"]) (map fst payload))
        then ret (FilterError 400 "Unknown pfSense ingest filter field", None)
        else if negb (dmem payload "enabled") then ret (FilterError 400 "Missing required field: enabled", None)
        else try_catch (store_override clk category payload user)
               (fun _ => rollback_conn ;;; ret (FilterError 500 "Unable to update pfSense ingest filter", None))
    | _ => ret (FilterError 400 "Invalid JSON", None)
    end.

(** The screening of an event that came in over HTTP, up to the ingestion of
    those that are kept. *)
Inductive screening :=
  | Refused (status : Z) (message : string)
  | Filtered (d : filter_decision) (config_status : string)
  | Kept (event : pydict).

Record screen_state := ScreenState { ss_conn : conn config_table; ss_counts : decision_counts }.

Definition on_conn {A} (m : M (conn config_table) A) : M screen_state A :=
  zoom ss_conn (fun c s => ScreenState c (ss_counts s)) m.
Definition on_counts {A} (m : M decision_counts A) : M screen_state A :=
  zoom ss_counts (fun n s => ScreenState (ss_conn s) n) m.

Definition screen_valid_event (event : pydict) : M screen_state screening :=
  let* policy := on_conn load_effective_policy in
  let* decision := of_outcome (evaluate_event event policy) in
  on_counts (record_filter_decision decision) ;;;
  if fd_retain decision then ret (Kept event)
  else on_conn rollback_conn ;;; ret (Filtered decision (fp_status policy)).

Definition screen_pfsense_event (data : pyval) : M screen_state screening :=
  match data with
  | PDict _ =>
      match validate_pfsense_normalized_event data with
      | Raise (ValueError message) => ret (Refused 400 message)
      | Raise _ => ret (Refused 500 "Internal server error")
      | Ok event =>
          try_catch (screen_valid_event event)
            (fun _ => on_conn rollback_conn ;;; ret (Refused 500 "Internal server error"))
      end
  | _ => ret (Refused 400 "Invalid JSON")
  end.
End Policy.
