(* ===== verification/PfsenseFilterProofs.v ===== *)
(** * PfsenseFilterProofs: what the retention filter keeps

    Every policy it works with is a valid one, an update takes effect as a
    whole or not at all, and the events kept are those the policy names. *)

From S2P Require Import Prelude PyText PyFloat PyValue IpAddress AddressText Tables NotificationPolicy.
From S2P Require Import Filterlog FilterlogEvent FilterlogProofs PfsenseFilter.

Open Scope Z_scope.

(** ** Validated entries *)

Lemma checked_ports_Ok ports : Forall (fun p => 1 <= p <= 65535) ports -> checked_ports (map PInt ports) = Ok ports.
Proof.
  induction 1 as [|p ports Hp _ IH]; [done|]. cbn [map checked_ports]. rewrite IH.
  by rewrite (proj2 (Z.ltb_ge p 1)), (proj2 (Z.ltb_ge 65535 p)) by lia.
Qed.

Lemma checked_ports_range items ports :
  checked_ports items = Ok ports -> Forall (fun p => 1 <= p <= 65535) ports /\ length ports = length items.
Proof.
  revert ports. induction items as [|v items IH]; intros ports; cbn [checked_ports]; [by intros [= <-]|].
  destruct v; try done. destruct ((z <? 1) || (65535 <? z)) eqn:Hz; [done|]. apply orb_false_iff in Hz as [?%Z.ltb_ge ?%Z.ltb_ge].
  destruct (checked_ports items) as [ports'|]; [|done]. intros [= <-]. destruct (IH _ eq_refl) as [Hr Hl].
  split; [by constructor|]. cbn. by rewrite Hl.
Qed.

(** The list a validation gives: in order, bounded, each port once. *)
Record canonical_ports (ports : list Z) : Prop := CanonicalPorts {
  cp_some : ports <> [];
  cp_bounded : (length ports <= MAX_SENSITIVE_PORTS)%nat;
  cp_range : Forall (fun p => 1 <= p <= 65535) ports;
  cp_once : NoDup ports;
  cp_sorted : StronglySorted Z.le ports;
}.

Lemma canonical_accepted ports : canonical_ports ports -> validate_sensitive_ports (ports_value ports) = Ok ports.
Proof.
  intros [Hne Hb Hr Hn Hs]. unfold validate_sensitive_ports, ports_value. destruct ports as [|p ports]; [done|].
  cbn [map]. rewrite length_cons, length_map. rewrite (proj2 (Nat.ltb_ge _ _)) by exact Hb.
  change (PInt p :: map PInt ports) with (map PInt (p :: ports)). rewrite checked_ports_Ok by done. cbn [obind].
  rewrite bool_decide_true by done. f_equal.
  apply (StronglySorted_unique Z.le); [by apply (StronglySorted_merge_sort _)|done|apply merge_sort_Permutation].
Qed.

Lemma validated_canonical v ports : validate_sensitive_ports v = Ok ports -> canonical_ports ports.
Proof.
  unfold validate_sensitive_ports. destruct v; try done. destruct l as [|v l]; [done|].
  destruct (Nat.ltb_spec MAX_SENSITIVE_PORTS (length (v :: l))) as [|Hb]; [done|].
  destruct (checked_ports (v :: l)) as [checked|] eqn:Hc; [|done]. cbn [obind]. apply checked_ports_range in Hc as [Hr Hl].
  destruct (bool_decide_reflect (NoDup checked)) as [Hn|]; [|done]. intros [= <-].
  pose proof (merge_sort_Permutation Z.le checked) as Hp. split.
  - intros He. rewrite He in Hp. apply Permutation_nil in Hp as ->. done.
  - rewrite Hp. lia.
  - by rewrite Hp.
  - by rewrite Hp.
  - by apply (StronglySorted_merge_sort _).
Qed.

Section Loaded.
Context (json_loads : json_decoder) (text_le : string -> string -> Prop) `{!RelDecision text_le}.
Abbreviation validate := (validate_config_entry json_loads).
Abbreviation load := (load_effective_policy json_loads text_le).
Abbreviation update := (update_pfsense_ingest_filter json_loads text_le).

(** An entry the validation takes as it is. *)
Definition entry_ok (k : string) (e : filter_entry) : Prop := validate k (PBool (fe_enabled e)) (PDict (entry_parameters e)) = Ok e.

Lemma validated_entry_ok k enabled parameters e : validate k enabled parameters = Ok e -> entry_ok k e.
Proof.
  unfold entry_ok, validate_config_entry. destruct (known_category k); [|done]. cbn [negb]. destruct enabled; try done.
  destruct (decoded_parameters json_loads parameters) as [[| | | | | | | | |d]|]; try done. cbn [obind decoded_parameters].
  destruct (negb _); [done|]. destruct (String.eqb k SENSITIVE_ALLOWS).
  - destruct (validate_sensitive_ports _) as [ports|] eqn:Hp; [|done]. cbn [obind]. intros [= <-].
    change (dlookup (entry_parameters (FilterEntry b (Some ports))) "sensitive_ports") with (Some (ports_value ports)).
    cbn -[validate_sensitive_ports]. by rewrite (canonical_accepted ports (validated_canonical _ _ Hp)).
  - by intros [= <-].
Qed.

(** ** Policies *)

Definition category_names : list string := map (fun d => d.1.1) DEFAULT_PFSENSE_INGEST_CONFIG.

(** The categories of the default policy, in order. *)
Definition default_cats : list (string * category_entry) :=
  map (fun k => (k, default_category
    (FilterEntry (str_in k [BLOCK_EVENTS; SENSITIVE_ALLOWS])
       (if String.eqb k SENSITIVE_ALLOWS then Some DEFAULT_SENSITIVE_PORTS else None)))) category_names.

Lemma default_policy status : default_effective_policy json_loads status = Ok (FilterPolicy status default_cats).
Proof. vm_compute. reflexivity. Qed.

(** A policy an event can be judged by. *)
Record policy_ok (p : filter_policy) : Prop := PolicyOk {
  po_names : map fst (fp_categories p) = category_names;
  po_entries : Forall (fun c => entry_ok c.1 (ca_entry c.2)) (fp_categories p);
}.

Lemma default_policy_ok status : policy_ok (FilterPolicy status default_cats).
Proof. split; [done|]. repeat constructor. Qed.

Lemma set_category_names cats k e : k ∈ map fst cats -> map fst (set_category cats k e) = map fst cats.
Proof.
  induction cats as [|[k' e'] cats IH]; cbn; [by intros ?%not_elem_of_nil|]. destruct (String.eqb_spec k' k); [done|].
  intros [->|Hin]%elem_of_cons; [done|]. cbn. by rewrite IH.
Qed.

Lemma set_category_Forall (P : string * category_entry -> Prop) cats k e :
  Forall P cats -> P (k, e) -> Forall P (set_category cats k e).
Proof.
  intros Hc He. induction Hc as [|[k' e'] cats Hk Hc IH]; cbn; [by repeat constructor|].
  destruct (String.eqb_spec k' k) as [->|]; by constructor.
Qed.

Lemma category_of_set cats k e k' :
  category_of (set_category cats k e) k' = if String.eqb k k' then Some e else category_of cats k'.
Proof.
  induction cats as [|[k0 e0] cats IH]; [cbn; by destruct (String.eqb k k')|]. cbn [set_category].
  destruct (String.eqb_spec k0 k) as [->|Hk]; cbn [category_of]; [by destruct (String.eqb k k')|]. rewrite IH.
  destruct (String.eqb_spec k0 k') as [<-|]; [|done]. destruct (String.eqb_spec k k0); [congruence|done].
Qed.

Lemma validated_known k enabled parameters e : validate k enabled parameters = Ok e -> known_category k = true.
Proof. unfold validate_config_entry. by destruct (known_category k). Qed.

Lemma known_names k : known_category k = true <-> k ∈ category_names.
Proof. unfold known_category. by rewrite str_in_spec. Qed.

Lemma apply_overrides_ok rows seen cats cats' :
  apply_overrides json_loads rows seen cats = Ok cats' ->
  map fst cats = category_names -> Forall (fun c => entry_ok c.1 (ca_entry c.2)) cats ->
  map fst cats' = category_names /\ Forall (fun c => entry_ok c.1 (ca_entry c.2)) cats'.
Proof.
  revert seen cats. induction rows as [|[k r] rows IH]; intros seen cats; cbn [apply_overrides]; [by intros [= ->]|].
  destruct (str_in k seen); [done|]. destruct (validate k _ _) as [e|] eqn:Hv; [|done]. cbn [obind]. intros Ha Hn Hc.
  apply (IH _ _ Ha).
  - rewrite set_category_names; [done|]. rewrite Hn. apply known_names. by eapply validated_known.
  - apply set_category_Forall; [done|]. by eapply validated_entry_ok.
Qed.

Lemma apply_overrides_error rows seen cats e :
  apply_overrides json_loads rows seen cats = Raise e -> is_value_error e = true \/ exists k b d, validate k b (PDict d) = Raise e.
Proof.
  revert seen cats. induction rows as [|[k r] rows IH]; intros seen cats; cbn [apply_overrides]; [done|].
  destruct (str_in k seen); [intros [= <-]; by left|]. destruct (validate k _ _) as [x|x] eqn:Hv; cbn [obind]; [apply IH|].
  intros [= <-]. right. eauto.
Qed.

Lemma read_policy_state t : (read_policy json_loads text_le t).2 = t.
Proof.
  unfold read_policy, select_config. run_monad. destruct t as [rows|]; [|done]. rewrite default_policy. cbn.
  by destruct (apply_overrides _ _ _ _).
Qed.

Lemma policy_loaded c : exists p, load c = (Ok p, c) /\ policy_ok p.
Proof.
  unfold load_effective_policy. destruct (cn_aborted c) eqn:Ha.
  { rewrite default_policy. eauto using default_policy_ok. }
  pose proof (read_policy_state (cn_current c)) as Ht. destruct (read_policy _ _ _) as [[p|e] t] eqn:Hr; cbn in Ht; subst t.
  - exists p. split; [f_equal; by destruct c as [? ? []]|]. revert Hr. unfold read_policy, select_config. run_monad.
    destruct (cn_current c) as [rows|]; [|done]. rewrite default_policy. cbn.
    destruct (apply_overrides _ _ _ _) as [cats|] eqn:Hc; [|done]. intros [= <-].
    apply apply_overrides_ok in Hc as [Hn Hf]; [by split|done|apply (default_policy_ok "applied")].
  - rewrite default_policy. eexists. split; [|apply default_policy_ok]. f_equal. destruct c as [? ? []]; [done|]. cbn. by destruct (is_value_error e).
Qed.

(** whatever the table holds, and even in a transaction that has already
    failed or before the table exists, loading the policy never raises, leaves
    the connection exactly as it was, and gives a policy that has each of the
    five categories once and in order, every one of them valid: switched on or
    off, and for the inbound category between 1 and 64 distinct ports in
    ascending order within 1..65535. *)
Theorem loaded_policy_valid c :
  exists p, load c = (Ok p, c) /\ policy_ok p /\
    forall k e ports, category_of (fp_categories p) k = Some e -> fe_sensitive_ports (ca_entry e) = Some ports ->
      k = SENSITIVE_ALLOWS /\ canonical_ports ports.
Proof.
  destruct (policy_loaded c) as (p & Hp & Hok).
  exists p. split_and!; [done|done|]. intros k e ports Hk Hports.
  assert (entry_ok k (ca_entry e)) as He.
  { destruct Hok as [_ Hf]. induction Hf as [|[k' e'] cats Hke _ IH]; [done|]. cbn in Hk.
    destruct (String.eqb_spec k' k) as [->|]; [|auto]. injection Hk as ->. exact Hke. }
  unfold entry_ok, validate_config_entry in He. destruct (known_category k); [|done]. cbn [negb decoded_parameters obind] in He.
  destruct (negb _); [done|]. destruct (String.eqb_spec k SENSITIVE_ALLOWS) as [->|].
  - split; [done|]. destruct (validate_sensitive_ports _) as [ps|] eqn:Hv; [|done]. cbn in He. injection He as He.
    rewrite <-He in Hports. injection Hports as <-. by eapply validated_canonical.
  - injection He as He. by rewrite <-He in Hports.
Qed.

(** ** The categories of a table *)

Definition row_entry (k : string) (r : config_row) : outcome filter_entry :=
  validate k (PBool (fr_enabled r)) (PDict (fr_parameters r)).

Definition rows_valid (t : gmap string config_row) : Prop := forall k r, t !! k = Some r -> exists e, row_entry k r = Ok e.

(** What the policy says of a category, when the table is read. *)
Definition effective_category (t : gmap string config_row) (k : string) : option category_entry :=
  match (load (open_conn (Some t))).1 with Ok p => category_of (fp_categories p) k | Raise _ => None end.

Lemma apply_overrides_lookup rows seen cats :
  NoDup (map fst rows) -> (forall k, k ∈ map fst rows -> k ∉ seen) ->
  (forall k r, (k, r) ∈ rows -> exists e, row_entry k r = Ok e) ->
  exists cats', apply_overrides json_loads rows seen cats = Ok cats' /\
    (forall k r e, (k, r) ∈ rows -> row_entry k r = Ok e -> category_of cats' k = Some (applied_entry e r)) /\
    (forall k, k ∉ map fst rows -> category_of cats' k = category_of cats k).
Proof.
  revert seen cats. induction rows as [|[k r] rows IH]; intros seen cats Hn Hs Hv; cbn [apply_overrides].
  { exists cats. split_and!; [done|by intros ? ? ? ?%not_elem_of_nil|done]. }
  cbn [map fst] in *. apply NoDup_cons in Hn as [Hk Hn]. destruct (str_in k seen) eqn:E.
  { apply str_in_spec in E. exfalso. apply (Hs k); [left|done]. }
  destruct (Hv k r ltac:(left)) as [e He]. unfold row_entry in He. rewrite He. cbn [obind].
  destruct (IH (k :: seen) (set_category cats k (applied_entry e r)) Hn) as (cats' & Ha & Hin & Hout).
  { intros k' Hk' [->|Hseen]%elem_of_cons; [done|]. apply (Hs k'); [by right|done]. }
  { intros k' r' Hr'. apply Hv. by right. }
  exists cats'. split_and!; [done| |].
  - intros k' r' e' [[= -> ->]|Hr']%elem_of_cons He'; [|by eapply Hin].
    unfold row_entry in He'. rewrite He in He'. injection He' as <-. rewrite (Hout k Hk), category_of_set. by rewrite String.eqb_refl.
  - intros k' [Hk1 Hk2]%not_elem_of_cons. rewrite (Hout k' Hk2), category_of_set. by rewrite (proj2 (String.eqb_neq k k')).
Qed.

Lemma config_rows_elem t k r : (k, r) ∈ config_rows text_le t <-> t !! k = Some r.
Proof. unfold config_rows. by rewrite merge_sort_Permutation, elem_of_map_to_list. Qed.

Lemma config_rows_keys t k : k ∈ map fst (config_rows text_le t) <-> is_Some (t !! k).
Proof.
  split.
  - intros ([? r] & -> & Hr)%list_elem_of_fmap. apply config_rows_elem in Hr. eauto.
  - intros [r Hr]. apply config_rows_elem in Hr. apply list_elem_of_fmap. by exists (k, r).
Qed.

Lemma config_rows_NoDup t : NoDup (map fst (config_rows text_le t)).
Proof. unfold config_rows. rewrite merge_sort_Permutation. apply NoDup_fst_map_to_list. Qed.

(** Reading a valid table. *)
Lemma load_valid t com : rows_valid t ->
  exists cats, load (Conn com (Some t) false) = (Ok (FilterPolicy "applied" cats), Conn com (Some t) false) /\
    forall k, category_of cats k = effective_category t k.
Proof.
  intros Hv. destruct (apply_overrides_lookup (config_rows text_le t) [] default_cats) as (cats & Ha & _).
  { apply config_rows_NoDup. }
  { intros ? _. apply not_elem_of_nil. }
  { intros k r Hr. apply Hv. by apply config_rows_elem. }
  assert (read_policy json_loads text_le (Some t) = (Ok (FilterPolicy "applied" cats), Some t)) as Hr.
  { unfold read_policy, select_config. run_monad. rewrite default_policy. cbn. by rewrite Ha. }
  exists cats. unfold effective_category, load_effective_policy. cbn [cn_aborted cn_current cn_committed open_conn]. by rewrite Hr.
Qed.

Lemma effective_value t k : rows_valid t ->
  effective_category t k =
    match t !! k with
    | Some r => match row_entry k r with Ok e => Some (applied_entry e r) | Raise _ => None end
    | None => category_of default_cats k
    end.
Proof.
  intros Hv. destruct (apply_overrides_lookup (config_rows text_le t) [] default_cats) as (cats & Ha & Hin & Hout).
  { apply config_rows_NoDup. }
  { intros ? _. apply not_elem_of_nil. }
  { intros k' r Hr. apply Hv. by apply config_rows_elem. }
  assert (effective_category t k = category_of cats k) as ->.
  { unfold effective_category, load_effective_policy, read_policy, select_config. run_monad. rewrite default_policy. cbn. by rewrite Ha. }
  destruct (t !! k) as [r|] eqn:Ht.
  - destruct (Hv k r Ht) as [e He]. rewrite He. by apply Hin; [apply config_rows_elem|].
  - apply Hout. rewrite config_rows_keys, Ht. by intros [? [=]].
Qed.

Lemma default_category_of k : known_category k = true -> is_Some (category_of default_cats k).
Proof.
  intros Hk%known_names. unfold category_names in Hk. cbn in Hk.
  repeat (apply elem_of_cons in Hk as [->|Hk]; [vm_compute; eauto|]). by apply not_elem_of_nil in Hk.
Qed.

Lemma effective_some t k : rows_valid t -> known_category k = true -> is_Some (effective_category t k).
Proof.
  intros Hv Hk. rewrite effective_value by done. destruct (t !! k) as [r|] eqn:Ht; [|by apply default_category_of].
  destruct (Hv k r Ht) as [e ->]. eauto.
Qed.

(** ** Updates *)

Definition stored_row (clk : clock) (e : filter_entry) (user : option string) : config_row :=
  ConfigRow (fe_enabled e) (entry_parameters e) user (sql_now clk).

Lemma insert_valid t k r e : rows_valid t -> row_entry k r = Ok e -> rows_valid (<[k := r]> t).
Proof. intros Hv He k' r' [[<- <-]|[_ Hr]]%lookup_insert_Some; eauto. Qed.

(** The parameters an update stores: those it is given, or those in force. *)
Definition update_parameters (old : category_entry) (payload : pydict) : pyval :=
  default (PDict (entry_parameters (ca_entry old))) (dlookup payload "parameters").

Lemma store_override_effect clk t k payload user old : rows_valid t -> effective_category t k = Some old -> known_category k = true ->
  store_override json_loads text_le clk k payload user (open_conn (Some t)) =
    match validate k (dget payload "enabled") (update_parameters old payload) with
    | Ok e =>
        let r := stored_row clk e user in
        (Ok (FilterUpdated (applied_entry e r), Some (FilterAudit k (ca_entry old) e)), open_conn (Some (<[k := r]> t)))
    | Raise (ValueError message) => (Ok (FilterError 400 message, None), open_conn (Some t))
    | Raise e => (Raise e, open_conn (Some t))
    end.
Proof.
  intros Hv Hold Hknown. destruct (load_valid t (Some t) Hv) as (cats & Hl & Hcats).
  unfold store_override. rewrite (bind_ok _ _ _ _ _ Hl). unfold category_entry_of. cbn [fp_categories].
  rewrite Hcats, Hold. cbn [bind of_outcome]. fold (update_parameters old payload).
  unfold bind at 1. unfold of_outcome at 1. unfold bind at 1. unfold try_catch, upsert_config_override. unfold bind at 1, bind at 1, of_outcome at 1.
  destruct (validate k _ _) as [e|err] eqn:He.
  - unfold bind at 1. unfold execute, write_config. cbn [cn_aborted cn_current cn_committed open_conn]. rewrite Hknown.
    cbn [ret]. fold (stored_row clk e user). set (r := stored_row clk e user).
    assert (row_entry k r = Ok e) as Hr by (apply (validated_entry_ok _ _ _ _ He)).
    destruct (load_valid (<[k := r]> t) (Some t) (insert_valid _ _ _ _ Hv Hr)) as (cats' & Hl' & Hcats').
    unfold ret at 1. rewrite (bind_ok _ _ _ _ _ Hl'). unfold category_entry_of. cbn [fp_categories].
    rewrite Hcats', effective_value by (by eapply insert_valid). rewrite lookup_insert_eq, Hr. done.
  - by destruct err.
Qed.

(** C30: an update of a category takes effect as a whole or not at all.  Over
    a table of valid rows, an accepted update commits the one row, answers
    with the category as every later load will give it, carrying exactly the
    validated switch and ports, tells the audit log the entry before and
    after, and leaves the other categories as they were; an update that the
    validation refuses, with 400, changes nothing.  Parameters that are not
    given stay those in force. *)
Theorem update_all_or_nothing clk t k payload user :
  rows_valid t -> known_category k = true -> dmem payload "enabled" = true ->
  forallb (fun f => str_in f ["enabled"; "parameters"]) (map fst payload) = true ->
  exists old, effective_category t k = Some old /\
    match validate k (dget payload "enabled") (update_parameters old payload) with
    | Ok e =>
        exists t' entry,
          update clk k (PDict payload) user (open_conn (Some t)) =
            (Ok (FilterUpdated entry, Some (FilterAudit k (ca_entry old) e)), open_conn (Some t')) /\
          ca_entry entry = e /\ rows_valid t' /\ effective_category t' k = Some entry /\
          (forall k', k' <> k -> effective_category t' k' = effective_category t k')
    | Raise (ValueError message) =>
        update clk k (PDict payload) user (open_conn (Some t)) = (Ok (FilterError 400 message, None), open_conn (Some t))
    | Raise _ =>
        update clk k (PDict payload) user (open_conn (Some t)) =
          (Ok (FilterError 500 "Unable to update pfSense ingest filter", None), open_conn (Some t))
    end.
Proof.
  intros Hv Hk He Hf. destruct (effective_some t k Hv Hk) as [old Hold]. exists old. split; [done|].
  pose proof (store_override_effect clk t k payload user old Hv Hold Hk) as Hs.
  assert (update clk k (PDict payload) user (open_conn (Some t)) =
    try_catch (store_override json_loads text_le clk k payload user)
      (fun _ => rollback_conn ;;; ret (FilterError 500 "Unable to update pfSense ingest filter", None)) (open_conn (Some t))) as ->.
  { unfold update_pfsense_ingest_filter. by rewrite Hk, Hf, He. }
  unfold try_catch. rewrite Hs. destruct (validate k _ _) as [e|err] eqn:Hval; [|by destruct err].
  set (r := stored_row clk e user). assert (row_entry k r = Ok e) as Hr by (apply (validated_entry_ok _ _ _ _ Hval)).
  pose proof (insert_valid t k r e Hv Hr) as Hv'. exists (<[k := r]> t), (applied_entry e r). split_and!; try done.
  - rewrite effective_value by done. by rewrite lookup_insert_eq, Hr.
  - intros k' Hne. rewrite !effective_value by done. by rewrite lookup_insert_ne.
Qed.
End Loaded.

(** ** The verdict on a parsed line *)

(** The category is switched on. *)
Definition switched_on (p : filter_policy) (k : string) : Prop :=
  exists e, category_of (fp_categories p) k = Some e /\ fe_enabled (ca_entry e) = true.

Definition sensitive_port (p : filter_policy) (port : Z) : Prop :=
  exists e ports, category_of (fp_categories p) SENSITIVE_ALLOWS = Some e /\ fe_sensitive_ports (ca_entry e) = Some ports /\ port ∈ ports.

(** The lines a policy keeps. *)
Inductive worth_keeping (p : filter_policy) (l : filterlog) : string -> Prop :=
  | KeepBlock : fl_action l = "block" -> switched_on p BLOCK_EVENTS -> worth_keeping p l BLOCK_EVENTS
  | KeepAllow : fl_action l = "pass" -> switched_on p ALL_ALLOWS -> worth_keeping p l ALL_ALLOWS
  | KeepIcmp : fl_action l = "pass" -> fl_protocol l = "icmp" -> switched_on p ICMP_TRAFFIC -> worth_keeping p l ICMP_TRAFFIC
  | KeepSensitive port :
      fl_action l = "pass" -> fl_protocol l ∈ ["tcp"; "udp"] -> fl_direction l = Some "in" ->
      fl_destination_port l = Some port -> sensitive_port p port -> switched_on p SENSITIVE_ALLOWS ->
      worth_keeping p l SENSITIVE_ALLOWS
  | KeepDns :
      fl_action l = "pass" -> fl_protocol l ∈ ["tcp"; "udp"] -> fl_destination_port l = Some 53 -> switched_on p DNS_TRAFFIC ->
      worth_keeping p l DNS_TRAFFIC.

Lemma policy_category jl p k : policy_ok jl p -> known_category k = true ->
  exists e, category_of (fp_categories p) k = Some e /\ entry_ok jl k (ca_entry e).
Proof.
  intros [Hn Hf] Hk%known_names. rewrite <-Hn in Hk. clear Hn. induction Hf as [|[k' e] cats He _ IH]; [by apply not_elem_of_nil in Hk|].
  cbn in *. destruct (String.eqb_spec k' k) as [->|Hne]; [eauto|]. apply IH. by apply elem_of_cons in Hk as [->|Hk].
Qed.

Lemma entry_ok_ports jl e : entry_ok jl SENSITIVE_ALLOWS e -> is_Some (fe_sensitive_ports e).
Proof.
  unfold entry_ok, validate_config_entry. destruct (fe_sensitive_ports e) as [ports|] eqn:He; [eauto|].
  unfold entry_parameters. rewrite He. cbn [known_category negb map forallb decoded_parameters obind dlookup default].
  change (validate_sensitive_ports _) with (Ok DEFAULT_SENSITIVE_PORTS). cbn. intros [= Heq]. rewrite <-Heq in He. discriminate.
Qed.

Lemma category_enabled_spec jl p k : policy_ok jl p -> known_category k = true ->
  exists b, category_enabled p k = Ok b /\ (b = true <-> switched_on p k).
Proof.
  intros Hp Hk. destruct (policy_category jl p k Hp Hk) as (e & He & _). exists (fe_enabled (ca_entry e)).
  unfold category_enabled, category_entry_of, switched_on. rewrite He. split; [done|]. split; [eauto|]. intros (e' & [= <-] & H). exact H.
Qed.

Lemma sensitive_ports_spec jl p : policy_ok jl p ->
  exists ports, sensitive_ports_of p = Ok ports /\ forall port, port ∈ ports <-> sensitive_port p port.
Proof.
  intros Hp. destruct (policy_category jl p SENSITIVE_ALLOWS Hp eq_refl) as (e & He & Hok). destruct (entry_ok_ports jl _ Hok) as [ports Hports].
  exists ports. unfold sensitive_ports_of, category_entry_of, sensitive_port. rewrite He. cbn [obind]. rewrite Hports. split; [done|].
  intros port. split; [eauto|]. intros (e' & ports' & [= <-] & H & Hin). rewrite Hports in H. by injection H as <-.
Qed.

Lemma port_in port ports : existsb (equals_int (PInt port)) ports = bool_decide (port ∈ ports).
Proof.
  apply Bool.eq_iff_eq_true. rewrite existsb_exists, bool_decide_eq_true, list_elem_of_In. split.
  - by intros (n & Hn & ->%Z.eqb_eq).
  - intros Hn. exists port. split; [done|]. apply Z.eqb_refl.
Qed.

Section Lines.
Context (l : filterlog) (Hl : line_ok l) (ts : timestamp_result) (sender_ip summary raw_message : string) (replaced : bool).
Abbreviation raw := (pfsense_raw_payload l ts sender_ip summary raw_message replaced).

Lemma known_nonempty s known : str_in s known = true -> str_in "" known = false -> is_empty s = false.
Proof. intros Hs He. destruct s; [congruence|done]. Qed.

Lemma line_texts :
  payload_text raw "action" = fl_action l /\ payload_text raw "protocol" = fl_protocol l /\
  payload_text raw "direction" = default "" (fl_direction l) /\ dget raw "destination_port" = opt_int (fl_destination_port l).
Proof.
  split_and!.
  - destruct (known_texts _ _ (lo_action l Hl)) as [Hlow _]; [repeat constructor|]. pose proof (known_nonempty _ _ (lo_action l Hl) eq_refl) as He.
    unfold payload_text. change (dget raw "action") with (PStr (fl_action l)). unfold py_or. cbn [truthy]. rewrite He. exact Hlow.
  - destruct (known_texts _ _ (lo_protocol l Hl)) as [Hlow _]; [repeat constructor|]. pose proof (known_nonempty _ _ (lo_protocol l Hl) eq_refl) as He.
    unfold payload_text. change (dget raw "protocol") with (PStr (fl_protocol l)). unfold py_or. cbn [truthy]. rewrite He. exact Hlow.
  - unfold payload_text. change (dget raw "direction") with (opt_text (fl_direction l)).
    destruct (fl_direction l) as [d|] eqn:Hd; [|done]. destruct (lo_direction l Hl d Hd) as [_ He]. unfold py_or. cbn [opt_text truthy].
    rewrite He. exact (lo_lower l Hl d Hd).
  - by apply raw_value; [exact Hl|right; left].
Qed.

(** The verdict is to keep the line; or no category names it. *)
Ltac keep := eexists; split; [reflexivity|]; cbn [fd_retain fd_category]; try (constructor; tauto).
Ltac not_named :=
  simplify_eq; try congruence;
  repeat match goal with
  | H : switched_on ?p ?k, S : _ = true <-> switched_on ?p ?k |- _ => apply S in H
  | H : sensitive_port ?p ?n, S : forall port, port ∈ _ <-> sensitive_port ?p port |- _ => apply S in H
  end; try done; try contradiction.
Ltac drop := eexists; split; [reflexivity|]; cbn [fd_retain fd_category]; split; [done|]; intros ? []; not_named.

(** How [evaluate_payload] chooses, as an equation over its conditions. *)
Lemma evaluate_line jl p : policy_ok jl p ->
  exists d, evaluate_payload raw p = Ok d /\
    (if fd_retain d then worth_keeping p l (fd_category d) else fd_category d = "routine_allow" /\ forall k, ~ worth_keeping p l k).
Proof.
  intros Hp. destruct line_texts as (Ha & Hpr & Hd & Hport).
  destruct (category_enabled_spec jl p BLOCK_EVENTS Hp eq_refl) as (b1 & H1 & S1).
  destruct (category_enabled_spec jl p ALL_ALLOWS Hp eq_refl) as (b2 & H2 & S2).
  destruct (category_enabled_spec jl p ICMP_TRAFFIC Hp eq_refl) as (b3 & H3 & S3).
  destruct (category_enabled_spec jl p SENSITIVE_ALLOWS Hp eq_refl) as (b4 & H4 & S4).
  destruct (category_enabled_spec jl p DNS_TRAFFIC Hp eq_refl) as (b5 & H5 & S5).
  destruct (sensitive_ports_spec jl p Hp) as (ports & Hports & Sp).
  unfold evaluate_payload. rewrite Ha, Hpr, Hd, Hport, H1, H2, H3, H4, H5, Hports. cbn [obind].
  assert (fl_action l = "block" \/ fl_action l = "pass") as [Hb|Hb].
  { pose proof (lo_action l Hl) as H%str_in_spec. apply elem_of_cons in H as [H|H%list_elem_of_singleton]; auto. }
  { rewrite Hb. cbn [String.eqb Ascii.eqb Bool.eqb andb and_then obind]. destruct b1; [keep|drop]. }
  rewrite Hb; cbn [String.eqb Ascii.eqb Bool.eqb andb and_then obind].
  destruct b2; [keep|]. destruct (String.eqb_spec (fl_protocol l) "icmp") as [Hi|Hi]; cbn [and_then obind].
  { assert (fl_protocol l ∉ ["tcp"; "udp"]) by (rewrite Hi; by apply (bool_decide_unpack _)).
    rewrite Hi. cbn [str_in existsb String.eqb Ascii.eqb Bool.eqb orb andb and_then obind]. destruct b3; [keep|drop]. }
  destruct (str_in (fl_protocol l) ["tcp"; "udp"]) eqn:Ht; cbn [andb and_then obind].
  2: { assert (fl_protocol l ∉ ["tcp"; "udp"]) by (by rewrite <-str_in_spec, Ht). drop. }
  destruct (lo_ports l Hl Ht) as [_ [port Hdp]]. rewrite Hdp. cbn [opt_int]. apply str_in_spec in Ht.
  rewrite port_in. change (equals_int (PInt port) 53) with (port =? 53).
  destruct (String.eqb_spec (default "" (fl_direction l)) "in") as [Hin|Hin]; cbn [and_then obind].
  - assert (fl_direction l = Some "in") as Hdir by (destruct (fl_direction l); cbn in Hin; congruence).
    destruct (bool_decide_reflect (port ∈ ports)) as [Hport'|Hport']; cbn [and_then obind].
    + destruct b4; [keep; apply (KeepSensitive p l port); try tauto; by apply Sp|].
      destruct (Z.eqb_spec port 53) as [->|H53]; cbn [and_then obind]; [destruct b5; [keep|drop]|drop].
    + destruct (Z.eqb_spec port 53) as [->|H53]; cbn [and_then obind]; [destruct b5; [keep|drop]|drop].
  - assert (fl_direction l <> Some "in") by (intros Hdir; by rewrite Hdir in Hin).
    destruct (Z.eqb_spec port 53) as [->|H53]; cbn [and_then obind]; [destruct b5; [keep|drop]|drop].
Qed.
End Lines.

(** ** From the packet to the verdict *)

Section Screening.
Context (json_loads : json_decoder) (text_le : string -> string -> Prop) `{!RelDecision text_le}.

(** C20: what becomes of a packet that the listener has parsed and sent on,
    under whatever policy is in force when the backend screens it.  The event
    is kept, unchanged and without touching the connection, exactly when a
    category that is switched on names the line: blocked traffic, all allowed
    traffic, allowed ICMP, an allowed inbound connection to a listed port, or
    an allowed connection to port 53.  It is filtered, with the transaction
    rolled back, when none does, and refused with 400 only when the line
    names no interface or an unknown direction.  No other answer and no
    exception is possible. *)
Theorem parsed_events_screened zone_info syslog_timezone decode packet environment sender_ip now pp s :
  parse_pfsense_filterlog_packet zone_info syslog_timezone decode packet environment sender_ip now = Ok (inr pp) ->
  exists policy, load_effective_policy json_loads text_le (ss_conn s) = (Ok policy, ss_conn s) /\
    match screen_pfsense_event json_loads text_le (PDict (pp_event pp)) s with
    | (Ok (Kept event), s') =>
        event = pp_event pp /\ ss_conn s' = ss_conn s /\ exists k, worth_keeping policy (pp_parsed pp) k
    | (Ok (Filtered _ _), s') =>
        (forall k, ~ worth_keeping policy (pp_parsed pp) k) /\ ss_conn s' = (rollback_conn (ss_conn s)).2
    | (Ok (Refused status _), s') => status = 400 /\ s' = s /\ acceptable (pp_parsed pp) = false
    | (Raise _, _) => False
    end.
Proof.
  intros (Hl & ts & summary & raw_message & replaced & He)%parsed_packet_inv.
  destruct (policy_loaded json_loads text_le (ss_conn s)) as (policy & Hload & Hok). exists policy. split; [exact Hload|].
  unfold screen_pfsense_event. rewrite He, normalized_verdict by done. destruct (acceptable (pp_parsed pp)) eqn:Ha; [|done].
  rewrite <-He. destruct (evaluate_line (pp_parsed pp) Hl ts sender_ip summary raw_message replaced json_loads policy Hok) as (d & Hd & Hspec).
  assert (evaluate_event (pp_event pp) policy = Ok d) as Hev by (rewrite He; exact Hd).
  unfold screen_valid_event, try_catch, bind at 1, on_conn, zoom. rewrite Hload. unfold bind, of_outcome. rewrite Hev.
  unfold on_counts, zoom, record_filter_decision, modify. destruct (fd_retain d); cbn; [eauto|]. split; [tauto|done].
Qed.
End Screening.

(** The test settings: no text parameters, the collation of code points. *)
Definition no_json : json_decoder := fun _ => refuse "not JSON".
Definition ex_screen : screen_state := ScreenState (open_conn (Some ∅)) ∅.
Abbreviation ex_packet := (parse_pfsense_filterlog_packet ex_zone "UTC" (fun s => (s, true)) ex_tcp_line "prod" "10.0.0.1" 1767600000000000).

(** A blocked connection is kept by default. *)
Lemma parsed_events_screened_witness :
  exists pp s', ex_packet = Ok (inr pp) /\
    screen_pfsense_event no_json str_le (PDict (pp_event pp)) ex_screen = (Ok (Kept (pp_event pp)), s') /\
    exists policy k, worth_keeping policy (pp_parsed pp) k.
Proof.
  assert (match ex_packet with
          | Ok (inr pp) => match screen_pfsense_event no_json str_le (PDict (pp_event pp)) ex_screen with (Ok (Kept _), _) => true | _ => false end
          | _ => false end = true) as H by (vm_compute; reflexivity).
  destruct ex_packet as [[f|pp]|e] eqn:Hpp; [done| |done].
  destruct (parsed_events_screened no_json str_le _ _ _ _ _ _ _ pp ex_screen Hpp) as (policy & _ & Hs).
  remember (screen_pfsense_event no_json str_le (PDict (pp_event pp)) ex_screen) as sc eqn:Hsc. destruct sc as [[[| |e]|] s']; try discriminate H.
  destruct Hs as (-> & _ & [k Hk]). exists pp, s'. split_and!; [reflexivity|by symmetry|]. by exists policy, k.
Defined.

(** An update that switches the retention of allowed ICMP on. *)
Lemma update_all_or_nothing_witness :
  exists t' entry,
    update_pfsense_ingest_filter no_json str_le (Clock 0 0) ICMP_TRAFFIC (PDict [("enabled", PBool true)]) (Some "admin") (open_conn (Some ∅)) =
      (Ok (FilterUpdated entry, Some (FilterAudit ICMP_TRAFFIC (FilterEntry false None) (FilterEntry true None))), open_conn (Some t')) /\
    ca_entry entry = FilterEntry true None.
Proof.
  destruct (update_all_or_nothing no_json str_le (Clock 0 0) ∅ ICMP_TRAFFIC [("enabled", PBool true)] (Some "admin")) as (old & Hold & H).
  - intros k r. by rewrite lookup_empty.
  - reflexivity.
  - reflexivity.
  - reflexivity.
  - vm_compute in Hold. injection Hold as <-. destruct H as (t' & entry & Hu & He & _). eauto.
Defined.

(** ** Ports written as text *)

(** the validation takes a port that is written as text, but the filter
    compares it with the numbers of the list: an allowed inbound connection
    to port 22 sent with "destination_port" as "22" is filtered by the
    default policy, the same event with the number 22 is kept. *)
Theorem text_port_filtered :
  let event port :=
    [("event_type", PStr "firewall_allow"); ("severity", PStr "low"); ("source_ip", PStr "198.51.100.7"); ("source", PStr "pfsense");
     ("source_type", PStr "firewall"); ("message", PStr "ssh"); ("app_name", PStr "fw"); ("environment", PStr "prod");
     ("raw_payload", PDict [("action", PStr "pass"); ("interface", PStr "igb0"); ("direction", PStr "in"); ("ip_version", PStr "4");
       ("protocol", PStr "tcp"); ("source_ip", PStr "198.51.100.7"); ("destination_ip", PStr "203.0.113.9");
       ("source_port", PInt 51515); ("destination_port", port)])] in
  (exists e, (screen_pfsense_event no_json str_le (PDict (event (PInt 22))) ex_screen).1 = Ok (Kept e)) /\
  (exists d, (screen_pfsense_event no_json str_le (PDict (event (PStr "22"))) ex_screen).1 = Ok (Filtered d "applied") /\ fd_retain d = false).
Proof. cbv zeta. split; eexists; [vm_compute; reflexivity|split; [vm_compute; reflexivity|reflexivity]]. Qed.
