(* ===== verification/PfsenseListener.v ===== *)
(** * PfsenseListener: engines/pfsense_syslog_listener.py

    The UDP listener for the syslog of the firewalls: its configuration, its
    rate limiter, what it does with a datagram and its loop.  Instants of the
    monotonic clock are nanoseconds; a fraction of one in the configured
    window is dropped. *)

From S2P Require Import Prelude PyText PyFloat PyValue RateLimiter Filterlog FilterlogEvent NotificationPolicy.

Open Scope Z_scope.

(** ** Configuration *)

Definition DEFAULT_BIND_HOST : string := "127.0.0.1".
Definition DEFAULT_BIND_PORT : Z := 5514.
Definition DEFAULT_BACKEND_URL : string := "http://127.0.0.1:5051/ingest/pfsense".
Definition DEFAULT_API_KEY_HEADER : string := "X-API-Key".
Definition DEFAULT_GLOBAL_RATE_LIMIT : Z := 200.
Definition DEFAULT_PER_SOURCE_RATE_LIMIT : Z := 50.
Definition DEFAULT_ENVIRONMENT : string := "prod".

Record listener_config := ListenerConfig {
  lc_bind_host : string;
  lc_bind_port : Z;
  lc_allowed_source_ips : gset string;
  lc_backend_url : string;
  lc_api_key : string;
  lc_api_key_header : string;
  lc_max_packet_bytes : Z;
  lc_global_rate_limit : Z;
  lc_per_source_rate_limit : Z;
  lc_rate_limit_window_seconds : pyfloat;
  lc_backend_timeout_seconds : pyfloat;
  lc_recv_timeout_seconds : pyfloat;
  lc_environment : string;
  lc_max_packets : option Z;
}.

Definition parse_allowed_source_ips (value : option string) : gset string :=
  match value with
  | None => ∅
  | Some value => list_to_set (List.filter (fun s => negb (is_empty s)) (map strip (split_on "," value)))
  end.

(** [env.get(name, default)]. *)
Definition env_text (env : environ) (name d : string) : string := default d (env name).

(** [env.get(name, default).strip() or default]. *)
Definition env_or (env : environ) (name d : string) : string :=
  let s := strip (env_text env name d) in if is_empty s then d else s.

Definition env_int (env : environ) (name : string) (d : Z) : outcome Z := py_int (PStr (env_text env name (str_int d))).
Definition env_float (env : environ) (name d : string) : outcome pyfloat := py_float (PStr (env_text env name d)).

(** The first of the variables that is set and not empty. *)
Fixpoint first_set (env : environ) (names : list string) : string :=
  match names with
  | [] => ""
  | name :: names => match env name with
                     | Some s => if is_empty s then first_set env names else s
                     | None => first_set env names
                     end
  end.

Definition load_config_from_environ (env : environ) : outcome listener_config :=
  let api_key := first_set env ["PFSENSE_INGEST_API_KEY"; "SIEM_INGEST_API_KEY"; "INGEST_API_KEY"] in
  let max_packets_raw := strip (env_text env "PFSENSE_LISTENER_MAX_PACKETS" "") in
  let! max_packets := if is_empty max_packets_raw then Ok None else let! n := py_int (PStr max_packets_raw) in Ok (Some n) in
  let! bind_port := env_int env "PFSENSE_LISTENER_PORT" DEFAULT_BIND_PORT in
  let! max_packet_bytes := env_int env "PFSENSE_MAX_PACKET_BYTES" MAX_PACKET_BYTES in
  let! global_limit := env_int env "PFSENSE_GLOBAL_RATE_LIMIT" DEFAULT_GLOBAL_RATE_LIMIT in
  let! per_source_limit := env_int env "PFSENSE_PER_SOURCE_RATE_LIMIT" DEFAULT_PER_SOURCE_RATE_LIMIT in
  let! window := env_float env "PFSENSE_RATE_LIMIT_WINDOW_SECONDS" "1.0" in
  let! backend_timeout := env_float env "PFSENSE_BACKEND_TIMEOUT_SECONDS" "5.0" in
  let! recv_timeout := env_float env "PFSENSE_RECV_TIMEOUT_SECONDS" "1.0" in
  Ok (ListenerConfig (env_or env "PFSENSE_LISTENER_BIND_HOST" DEFAULT_BIND_HOST) bind_port
        (parse_allowed_source_ips (env "PFSENSE_ALLOWED_SOURCE_IPS"))
        (env_or env "PFSENSE_BACKEND_URL" DEFAULT_BACKEND_URL) (strip api_key)
        (env_or env "PFSENSE_API_KEY_HEADER" DEFAULT_API_KEY_HEADER) max_packet_bytes global_limit per_source_limit
        window backend_timeout recv_timeout (env_or env "PFSENSE_ENVIRONMENT" DEFAULT_ENVIRONMENT) max_packets).

Definition validate_config (config : listener_config) : outcome unit :=
  if bool_decide (lc_allowed_source_ips config = ∅) then refuse "PFSENSE_ALLOWED_SOURCE_IPS must include at least one source IP"
  else if is_empty (lc_api_key config) then refuse "PFSENSE_INGEST_API_KEY or SIEM_INGEST_API_KEY must be set"
  else if (lc_bind_port config <? 1) || (65535 <? lc_bind_port config) then refuse "PFSENSE_LISTENER_PORT must be between 1 and 65535"
  else if lc_max_packet_bytes config <? 1 then refuse "PFSENSE_MAX_PACKET_BYTES must be positive"
  else Ok tt.

(** ** The rate limiter *)

(** [max(0.0, window)] in nanoseconds, [None] when it is infinite. *)
Definition window_of (f : pyfloat) : option Z :=
  match f with
  | S754_finite false m e => let '(n, d) := ratio_of m e in Some (n * 1000000000 / d)
  | S754_infinity false => None
  | _ => Some 0
  end.

Record source_limiter := SourceLimiter {
  sl_global_limit : Z;
  sl_per_source_limit : Z;
  sl_window : option Z;
  sl_global_events : list Z;
  sl_per_source_events : gmap string (list Z);
}.

Definition new_limiter (global_limit per_source_limit : Z) (window : option Z) : source_limiter :=
  SourceLimiter (Z.max 0 global_limit) (Z.max 0 per_source_limit) window [] ∅.

(** [stamp > now - window]. *)
Definition recent (window : option Z) (now stamp : Z) : bool :=
  match window with Some w => now - w <? stamp | None => true end.

Definition allow (source_ip : string) (now : Z) : M source_limiter bool := fun s =>
  if (sl_global_limit s =? 0) || (sl_per_source_limit s =? 0) then (Ok false, s)
  else
    let global_events := List.filter (recent (sl_window s) now) (sl_global_events s) in
    let source_events := List.filter (recent (sl_window s) now) (default [] (sl_per_source_events s !! source_ip)) in
    let state g e :=
      SourceLimiter (sl_global_limit s) (sl_per_source_limit s) (sl_window s) g (<[source_ip := e]> (sl_per_source_events s)) in
    if sl_global_limit s <=? Z.of_nat (length global_events) then (Ok false, state global_events source_events)
    else if sl_per_source_limit s <=? Z.of_nat (length source_events) then (Ok false, state global_events source_events)
    else (Ok true, state (global_events ++ [now]) (source_events ++ [now])).

(** ** Counters *)

Record listener_stats := ListenerStats {
  st_accepted : Z;
  st_rejected_source : Z;
  st_oversized : Z;
  st_rate_limited : Z;
  st_parse_failed : Z;
  st_forwarded : Z;
  st_filtered : Z;
  st_ingested : Z;
  st_rejected : Z;
  st_backend_failed : Z;
}.

Definition no_stats : listener_stats := ListenerStats 0 0 0 0 0 0 0 0 0 0.

Inductive counter :=
  | Accepted | RejectedSource | Oversized | RateLimited | ParseFailed | Forwarded | FilteredOut | Ingested | RejectedEvent | BackendFailed.

(** The name the listener counts, returns and logs. *)
Definition counter_name (k : counter) : string :=
  match k with
  | Accepted => "accepted" | RejectedSource => "rejected_source" | Oversized => "oversized" | RateLimited => "rate_limited"
  | ParseFailed => "parse_failed" | Forwarded => "forwarded" | FilteredOut => "filtered" | Ingested => "ingested"
  | RejectedEvent => "rejected" | BackendFailed => "backend_failed"
  end.

(** [stats.<counter> += 1]. *)
Definition count_up (k : counter) (s : listener_stats) : listener_stats :=
  let up c n := if String.eqb (counter_name k) (counter_name c) then n + 1 else n in
  ListenerStats (up Accepted (st_accepted s)) (up RejectedSource (st_rejected_source s)) (up Oversized (st_oversized s))
    (up RateLimited (st_rate_limited s)) (up ParseFailed (st_parse_failed s)) (up Forwarded (st_forwarded s))
    (up FilteredOut (st_filtered s)) (up Ingested (st_ingested s)) (up RejectedEvent (st_rejected s))
    (up BackendFailed (st_backend_failed s)).

(** ** Forwarding *)

(** What comes of a POST with urllib: the classes the listener handles, and
    the exceptions it does not (urllib wraps in URLError what goes wrong while
    a request is sent, not while the response is read). *)
Inductive http_reply :=
  | Responded (status : Z)
  | HttpError (code : Z)
  | UrlError
  | TimedOut
  | OtherFailure (e : exn).

Record event_request := EventRequest { er_url : string; er_event : pydict; er_headers : pydict; er_timeout : pyfloat }.

Section Listener.
(** The network and the backend, and what the parser needs. *)
Context {W : Type} (post : event_request -> M W http_reply).
Context (zone_info : string -> outcome timezone) (syslog_timezone : string) (decode : string -> string * bool).

Definition forward_normalized_event (config : listener_config) (event : pydict) : M W (bool * option Z * option string) :=
  let* reply := post (EventRequest (lc_backend_url config) event
                        [("Content-Type", PStr "application/json"); (lc_api_key_header config, PStr (lc_api_key config))]
                        (lc_backend_timeout_seconds config)) in
  match reply with
  | Responded status => ret (true, Some status, None)
  | HttpError code => ret (false, Some code, Some "http_error")
  | UrlError => ret (false, None, Some "network_error")
  | TimedOut => ret (false, None, Some "timeout")
  | OtherFailure e => raise e
  end.

Record listener := Listener { ls_stats : listener_stats; ls_limiter : source_limiter; ls_world : W }.

Definition count (k : counter) : M listener unit := modify (fun s => Listener (count_up k (ls_stats s)) (ls_limiter s) (ls_world s)).
Definition on_limiter {A} (m : M source_limiter A) : M listener A :=
  zoom ls_limiter (fun x s => Listener (ls_stats s) x (ls_world s)) m.
Definition on_world {A} (m : M W A) : M listener A := zoom ls_world (fun x s => Listener (ls_stats s) (ls_limiter s) x) m.

(** The outcome of a forwarded event. *)
Definition backend_outcome (ok : bool) (backend_status : option Z) : counter :=
  let status_in a b := match backend_status with Some n => (a <=? n) && (n <? b) | None => false end in
  if ok && bool_decide (backend_status = Some 202) then FilteredOut
  else if ok && status_in 200 300 then Ingested
  else if status_in 400 500 then RejectedEvent
  else BackendFailed.

(** [now] is read from the monotonic clock, [utc_now] from the other. *)
Definition process_datagram (config : listener_config) (data source_ip : string) (now utc_now : Z) : M listener counter :=
  let packet_bytes := Z.of_nat (String.length data) in
  if bool_decide (source_ip ∉ lc_allowed_source_ips config) then count RejectedSource ;;; ret RejectedSource
  else
    let* allowed := on_limiter (allow source_ip now) in
    if negb allowed then count RateLimited ;;; ret RateLimited
    else if lc_max_packet_bytes config <? packet_bytes then count Oversized ;;; ret Oversized
    else
      count Accepted ;;;
      let* parse_result :=
        of_outcome (parse_pfsense_filterlog_packet zone_info syslog_timezone decode data (lc_environment config) source_ip utc_now) in
      match parse_result with
      | inl _ => count ParseFailed ;;; ret ParseFailed
      | inr parsed =>
          let* (ok, backend_status, _) := on_world (forward_normalized_event config (pp_event parsed)) in
          count Forwarded ;;;
          let k := backend_outcome ok backend_status in
          count k ;;; ret k
      end.

(** ** The loop *)

(** What a call of recvfrom comes back with. *)
Inductive received :=
  | Datagram (data source_ip : string) (now utc_now : Z)
  | RecvTimeout
  | RecvError.

(** With it, whether a shutdown has been requested by then. *)
Record socket_event := SocketEvent { se_received : received; se_shutdown : bool }.

(** How a series of socket events leaves the listener: waiting for the next
    one, stopped, or ended by an exception. *)
Inductive loop_result := Waiting | Stopped | Crashed (e : exn).

(** recvfrom cuts a datagram to the size of its buffer. *)
Definition cut (config : listener_config) (data : string) : string :=
  String.substring 0 (Z.to_nat (lc_max_packet_bytes config + 1)) data.

Definition limit_reached (config : listener_config) (packets_processed : Z) : bool :=
  match lc_max_packets config with Some n => n <=? packets_processed | None => false end.

Fixpoint listen (config : listener_config) (requested : bool) (packets_processed : Z) (events : list socket_event)
    (s : listener) : loop_result * listener :=
  if requested || limit_reached config packets_processed then (Stopped, s)
  else
    match events with
    | [] => (Waiting, s)
    | SocketEvent r shutdown :: events =>
        match r with
        | RecvTimeout => listen config shutdown packets_processed events s
        | RecvError => if shutdown then (Stopped, s) else listen config shutdown packets_processed events s
        | Datagram data source_ip now utc_now =>
            match process_datagram config (cut config data) source_ip now utc_now s with
            | (Ok _, s) => listen config shutdown (packets_processed + 1) events s
            | (Raise e, s) => (Crashed e, s)
            end
        end
    end.

Definition run_pfsense_syslog_listener (config : listener_config) (requested : bool) (events : list socket_event) (w : W)
    : outcome (loop_result * listener) :=
  let! _ := validate_config config in
  Ok (listen config requested 0 events
        (Listener no_stats
           (new_limiter (lc_global_rate_limit config) (lc_per_source_rate_limit config) (window_of (lc_rate_limit_window_seconds config)))
           w)).
End Listener.
Arguments listener : clear implicits.
Arguments Listener {W} _ _ _.
Arguments ls_stats {W} _.
Arguments ls_limiter {W} _.
Arguments ls_world {W} _.
