(* ===== verification/PfsenseListenerProofs.v ===== *)
(** * PfsenseListenerProofs: admission, accounting and failure of the listener

    The pruned lists of the rate limiter decide as the full history would,
    the counters of the listener account for every packet, and a failure of
    the transport it does not expect ends it. *)

From S2P Require Import Prelude PyText PyFloat PyValue RateLimiter Filterlog FilterlogEvent FilterlogProofs PfsenseListener.

Open Scope Z_scope.

(** ** The limiter against the whole history *)

Section Admission.
Context (global_limit per_source_limit : Z) (window : option Z).

(** Every admission so far: its source and its instant. *)
Abbreviation history := (list (string * Z)).

Definition instants (h : history) : list Z := map snd h.
Definition instants_of (source : string) (h : history) : list Z := map snd (List.filter (fun x => String.eqb x.1 source) h).

(** Admit when both the source and all sources together have had fewer
    admissions than allowed in the window that ends now. *)
Definition admissible (h : history) (source : string) (now : Z) : bool :=
  let used l := Z.of_nat (length (List.filter (recent window now) l)) in
  (used (instants h) <? global_limit) && (used (instants_of source h) <? per_source_limit).

Fixpoint admissions (h : history) (calls : list (string * Z)) : list bool * history :=
  match calls with
  | [] => ([], h)
  | (source, now) :: calls =>
      let b := admissible h source now in
      let '(bs, h') := admissions (if b then h ++ [(source, now)] else h) calls in
      (b :: bs, h')
  end.

(** The limiter asked for the same series. *)
Fixpoint decisions (calls : list (string * Z)) : M source_limiter (list bool) :=
  match calls with
  | [] => ret []
  | (source, now) :: calls =>
      let* b := allow source now in
      let* bs := decisions calls in
      ret (b :: bs)
  end.

Lemma filter_filter_recent now now' l : now <= now' ->
  List.filter (recent window now') (List.filter (recent window now) l) = List.filter (recent window now') l.
Proof.
  intros Hle. induction l as [|t l IH]; [done|]. cbn [List.filter]. destruct (recent window now t) eqn:Hr; cbn [List.filter]; [by rewrite IH|].
  rewrite IH. unfold recent in *. destruct window as [w|]; [|done].
  apply Z.ltb_ge in Hr. by rewrite (proj2 (Z.ltb_ge _ _)) by lia.
Qed.

(** What is kept agrees with the history as far as any later window can see. *)
Record agrees (last : Z) (h : history) (s : source_limiter) : Prop := Agrees {
  ag_global : sl_global_limit s = Z.max 0 global_limit;
  ag_source : sl_per_source_limit s = Z.max 0 per_source_limit;
  ag_window : sl_window s = window;
  ag_events : forall now, last <= now -> List.filter (recent window now) (sl_global_events s) = List.filter (recent window now) (instants h);
  ag_source_events : forall source now, last <= now ->
    List.filter (recent window now) (default [] (sl_per_source_events s !! source)) = List.filter (recent window now) (instants_of source h);
}.

Lemma instants_snoc h source now : instants (h ++ [(source, now)]) = instants h ++ [now].
Proof. unfold instants. by rewrite map_app. Qed.

Lemma instants_of_snoc s h source now :
  instants_of s (h ++ [(source, now)]) = instants_of s h ++ (if String.eqb source s then [now] else []).
Proof. unfold instants_of. rewrite List.filter_app, map_app. cbn. by destruct (String.eqb source s). Qed.

Lemma agrees_new t : agrees t [] (new_limiter global_limit per_source_limit window).
Proof. by split. Qed.

(** One call: the same answer, and agreement goes on. *)
Lemma allow_agrees last h s source now : last <= now -> agrees last h s ->
  exists s', allow source now s = (Ok (admissible h source now), s') /\
    agrees now (if admissible h source now then h ++ [(source, now)] else h) s'.
Proof.
  intros Hnow [Hg Hs Hw He Hse]. unfold allow, admissible. rewrite Hg, Hs, Hw, He, Hse by done.
  set (g := List.filter (recent window now) (instants h)). set (e := List.filter (recent window now) (instants_of source h)).
  assert (forall g' e' hs, (forall now', now <= now' -> List.filter (recent window now') g' = List.filter (recent window now') (instants hs)) ->
    (forall now', now <= now' -> List.filter (recent window now') e' = List.filter (recent window now') (instants_of source hs)) ->
    (forall s', s' <> source -> instants_of s' hs = instants_of s' h) ->
    agrees now hs (SourceLimiter (Z.max 0 global_limit) (Z.max 0 per_source_limit) window g' (<[source := e']> (sl_per_source_events s)))) as Hstate.
  { intros g' e' hs Hg' He' Ho. split; try done. intros s' now' Hle. cbn. destruct (decide (source = s')) as [<-|Hne].
    - rewrite lookup_insert_eq. by apply He'.
    - rewrite lookup_insert_ne by done. rewrite Ho by done. apply Hse. lia. }
  assert (agrees now h s) as Hlater by (split; try done; intros; [apply He|apply Hse]; lia).
  assert (forall now', now <= now' -> List.filter (recent window now') g = List.filter (recent window now') (instants h)) as Hg'.
  { intros now' Hle. by apply filter_filter_recent. }
  assert (forall now', now <= now' -> List.filter (recent window now') e = List.filter (recent window now') (instants_of source h)) as He'.
  { intros now' Hle. by apply filter_filter_recent. }
  destruct (Z.eqb_spec (Z.max 0 global_limit) 0) as [H0|H0].
  { rewrite (proj2 (Z.ltb_ge (Z.of_nat (length g)) global_limit)) by lia. cbn. eauto. }
  destruct (Z.eqb_spec (Z.max 0 per_source_limit) 0) as [H1|H1].
  { rewrite (proj2 (Z.ltb_ge (Z.of_nat (length e)) per_source_limit)), andb_false_r by lia. cbn. eauto. }
  cbn [orb]. rewrite !Z.max_r by lia. rewrite !Z.max_r in Hstate by lia.
  destruct (Z.leb_spec global_limit (Z.of_nat (length g))) as [Hl|Hl].
  { rewrite (proj2 (Z.ltb_ge _ _)) by lia. eexists. split; [done|]. apply Hstate; auto. }
  rewrite (proj2 (Z.ltb_lt _ _)) by lia. destruct (Z.leb_spec per_source_limit (Z.of_nat (length e))) as [Hl'|Hl'].
  { rewrite (proj2 (Z.ltb_ge _ _)) by lia. eexists. split; [done|]. apply Hstate; auto. }
  rewrite (proj2 (Z.ltb_lt _ _)) by lia. eexists. split; [done|]. cbn [andb]. apply Hstate.
  - intros now' Hle. by rewrite instants_snoc, !List.filter_app, Hg'.
  - intros now' Hle. by rewrite instants_of_snoc, String.eqb_refl, !List.filter_app, He'.
  - intros s' Hne. rewrite instants_of_snoc. by rewrite (proj2 (String.eqb_neq _ _)), app_nil_r by done.
Qed.

Lemma decisions_agree calls : forall last h s, Sorted Z.le (last :: map snd calls) -> agrees last h s ->
  (decisions calls s).1 = Ok (admissions h calls).1.
Proof.
  induction calls as [|[source now] calls IH]; intros last h s Hs Ha; [done|]. cbn [map snd] in Hs.
  inversion Hs as [|? ? Hs' Hhd]; subst. inversion Hhd; subst. destruct (allow_agrees last h s source now ltac:(done) Ha) as (s' & Hrun & Ha').
  cbn [decisions admissions]. unfold bind at 1. rewrite Hrun. specialize (IH now _ s' Hs' Ha').
  destruct (admissions _ calls) as [bs h']. unfold bind. destruct (decisions calls s') as [[bs'|] s2]; cbn in IH |- *; congruence.
Qed.

(** ** No window is overrun *)

Definition within (a : Z) (l : list Z) : list Z :=
  List.filter (fun t => match window with Some w => (a <? t) && (t <=? a + w) | None => true end) l.

(** Admissions up to the instant [last], no window of which has more than
    the limits. *)
Record bounded (last : Z) (h : history) : Prop := Bounded {
  bd_past : Forall (fun t => t <= last) (instants h);
  bd_global : forall a, Z.of_nat (length (within a (instants h))) <= Z.max 0 global_limit;
  bd_source : forall source a, Z.of_nat (length (within a (instants_of source h))) <= Z.max 0 per_source_limit;
}.

Lemma within_snoc limit last now l a : last <= now -> Forall (fun t => t <= last) l ->
  Z.of_nat (length (within a l)) <= Z.max 0 limit -> Z.of_nat (length (List.filter (recent window now) l)) < limit ->
  Z.of_nat (length (within a (l ++ [now]))) <= Z.max 0 limit.
Proof.
  intros Hnow Hpast Ha Hl. unfold within. rewrite List.filter_app, length_app. cbn [List.filter].
  destruct (match window with Some w => (a <? now) && (now <=? a + w) | None => true end) eqn:Hin; [|cbn; unfold within in Ha; lia].
  assert (length (within a l) <= length (List.filter (recent window now) l))%nat as Hle; [|unfold within in Hle; cbn; lia].
  clear -Hin Hnow Hpast. unfold within. induction Hpast as [|t l Ht _ IH]; [done|]. cbn [List.filter]. destruct window as [w|]; cbn [recent].
  - destruct ((a <? t) && (t <=? a + w)) eqn:E; [|destruct (now - w <? t); cbn; lia].
    apply andb_true_iff in E as [E1%Z.ltb_lt E2%Z.leb_le]. apply andb_true_iff in Hin as [I1%Z.ltb_lt I2%Z.leb_le].
    rewrite (proj2 (Z.ltb_lt (now - w) t)) by lia. cbn. lia.
  - cbn. lia.
Qed.

Lemma instants_of_past last source h : Forall (fun t => t <= last) (instants h) -> Forall (fun t => t <= last) (instants_of source h).
Proof.
  induction h as [|[s t] h IH]; [constructor|]. intros Hh. inversion Hh; subst. unfold instants_of in *. cbn [List.filter fst].
  destruct (String.eqb s source); [constructor|]; auto.
Qed.

Lemma bounded_step last now h source : last <= now -> bounded last h ->
  bounded now (if admissible h source now then h ++ [(source, now)] else h).
Proof.
  intros Hnow [Hp Hg Hs]. assert (Forall (fun t => t <= now) (instants h)) as Hp' by (eapply Forall_impl; [exact Hp|]; cbn; intros; lia).
  destruct (admissible h source now) eqn:Ha; [|by split]. unfold admissible in Ha. apply andb_true_iff in Ha as [H1%Z.ltb_lt H2%Z.ltb_lt]. split.
  - rewrite instants_snoc. apply Forall_app. split; [done|]. by repeat constructor.
  - intros a. rewrite instants_snoc. by eapply within_snoc.
  - intros s' a. rewrite instants_of_snoc. destruct (String.eqb_spec source s') as [<-|]; [|by rewrite app_nil_r].
    eapply within_snoc; [exact Hnow|by apply instants_of_past|apply Hs|done].
Qed.

Lemma admissions_bounded calls : forall last h, Sorted Z.le (last :: map snd calls) -> bounded last h -> exists t, bounded t (admissions h calls).2.
Proof.
  induction calls as [|[source now] calls IH]; intros last h Hs Hb; [by exists last|]. cbn [map snd] in Hs.
  inversion Hs as [|? ? Hs' Hhd]; subst. inversion Hhd; subst. cbn [admissions]. pose proof (bounded_step last now h source ltac:(done) Hb) as Hb'.
  destruct (IH now _ Hs' Hb') as [t Ht]. destruct (admissions _ calls) as [bs h']. eauto.
Qed.

(** C29: the limiter of the listener forgets what it may forget.  Asked at
    instants that never go back, it decides exactly as a limiter that recounts
    its whole history would: a packet is admitted when fewer than the limit of
    all packets and fewer than the limit of its source have been admitted in
    the window that ends then.  And so no window, wherever it starts, sees more
    admissions than the limit, over all sources or from one. *)
Theorem limiter_recounts_history calls : Sorted Z.le (map snd calls) ->
  (decisions calls (new_limiter global_limit per_source_limit window)).1 = Ok (admissions [] calls).1 /\
  forall a, let admitted := (admissions [] calls).2 in
    Z.of_nat (length (within a (instants admitted))) <= Z.max 0 global_limit /\
    forall source, Z.of_nat (length (within a (instants_of source admitted))) <= Z.max 0 per_source_limit.
Proof.
  intros Hs. destruct calls as [|[source now] calls]; [split; [done|]; intros a; cbn; split; intros; lia|].
  assert (Sorted Z.le (now :: map snd ((source, now) :: calls))) as Hs' by (constructor; [exact Hs|by constructor]).
  split; [by eapply decisions_agree, agrees_new|].
  assert (bounded now []) as Hb by (split; intros; cbn; try constructor; lia).
  destruct (admissions_bounded _ _ _ Hs' Hb) as [t [_ Hg Hsrc]]. auto.
Qed.
End Admission.

(** Three packets of one source with room for two in a second. *)
Lemma limiter_recounts_history_witness :
  (decisions [("a", 0); ("a", 5); ("b", 6); ("a", 7); ("a", 1000000000)] (new_limiter 3 2 (Some 1000000000))).1 = Ok [true; true; true; false; true] /\
  (admissions 3 2 (Some 1000000000) [] [("a", 0); ("a", 5); ("b", 6); ("a", 7); ("a", 1000000000)]).1 = [true; true; true; false; true].
Proof.
  pose proof (limiter_recounts_history 3 2 (Some 1000000000) [("a", 0); ("a", 5); ("b", 6); ("a", 7); ("a", 1000000000)]) as H.
  destruct H as [H _]; [vm_compute; repeat (constructor; try discriminate)|].
  rewrite H. split; vm_compute; reflexivity.
Defined.

(** ** The counters *)

Section Accounting.
Context {W : Type} (post : event_request -> M W http_reply).
Context (zone_info : string -> outcome timezone) (syslog_timezone : string) (decode : string -> string * bool).
Abbreviation process := (process_datagram post zone_info syslog_timezone decode).
Abbreviation listen := (listen post zone_info syslog_timezone decode).
Abbreviation run := (run_pfsense_syslog_listener post zone_info syslog_timezone decode).

(** The packets the counters know of. *)
Definition packets (s : listener_stats) : Z := st_rejected_source s + st_rate_limited s + st_oversized s + st_accepted s.

(** Every packet is in one counter of each level, but for [open] packets
    that were accepted and then neither refused nor forwarded. *)
Record accounted (open : Z) (s : listener_stats) : Prop := Accounted {
  ac_accepted : st_accepted s = st_parse_failed s + st_forwarded s + open;
  ac_forwarded : st_forwarded s = st_filtered s + st_ingested s + st_rejected s + st_backend_failed s;
}.

Lemma backend_outcome_cases ok status :
  backend_outcome ok status = FilteredOut \/ backend_outcome ok status = Ingested \/
  backend_outcome ok status = RejectedEvent \/ backend_outcome ok status = BackendFailed.
Proof. unfold backend_outcome. destruct (_ && _); [tauto|]. destruct (_ && _); [tauto|]. destruct status; [destruct (_ && _)|]; tauto. Qed.

(** Evaluate the counters that have gone up. *)
Ltac tally := split; [|split]; cbn; lia.

Lemma process_accounts config data source now utc (s : listener W) :
  accounted 0 (ls_stats s) ->
  let r := process config data source now utc s in
  packets (ls_stats r.2) = packets (ls_stats s) + 1 /\
  match r.1 with Ok _ => accounted 0 (ls_stats r.2) | Raise _ => accounted 1 (ls_stats r.2) end.
Proof.
  intros [Ha Hf]. unfold process_datagram, forward_normalized_event, count, on_limiter, on_world, packets.
  destruct s as [st lim w]; cbn [ls_stats] in *. case_bool_decide; [run_monad; tally|].
  assert (exists b l', allow source now lim = (Ok b, l')) as (b & l' & Hallow).
  { unfold allow. repeat (destruct (_ || _) || destruct (_ <=? _)); eauto. }
  run_monad. rewrite !Hallow. destruct b; cbn [negb]; [|tally].
  destruct (_ <? _); [tally|].
  destruct (parse_pfsense_filterlog_packet _ _ _ _ _ _ _) as [[f|pp]|e]; [tally| |tally].
  cbn. destruct (post _ w) as [[[status|code| | |e]|e] w']; cbn -[backend_outcome]; try (by tally);
    match goal with |- context [backend_outcome ?ok ?status] => destruct (backend_outcome_cases ok status) as [-> | [-> | [-> | ->]]] end; tally.
Qed.

(** The datagrams among the events. *)
Definition datagrams (events : list socket_event) : Z :=
  Z.of_nat (length (List.filter (fun e => match se_received e with Datagram _ _ _ _ => true | _ => false end) events)).

Definition open_packets (r : loop_result) : Z := match r with Crashed _ => 1 | _ => 0 end.

(** No more than the configured number of packets. *)
Lemma listen_limited config : forall events requested n (s : listener W) m,
  accounted 0 (ls_stats s) -> packets (ls_stats s) = n -> lc_max_packets config = Some m ->
  packets (ls_stats (listen config requested n events s).2) <= Z.max n m.
Proof.
  induction events as [|[rcv shutdown] events IH]; intros requested n s m Ha Hn Hm; cbn [PfsenseListener.listen];
    destruct (requested || limit_reached config n) eqn:Hstop; cbn [snd]; try lia.
  assert (n < m) as Hroom.
  { apply orb_false_iff in Hstop as [_ Hstop]. unfold limit_reached in Hstop. rewrite Hm in Hstop. by apply Z.leb_gt. }
  destruct rcv as [data source now utc| |]; [|by apply IH|destruct shutdown; [cbn; lia|by apply IH]].
  pose proof (process_accounts config (cut config data) source now utc s Ha) as Hp.
  destruct (process config (cut config data) source now utc s) as [[k|e] s']; cbn in Hp |- *; destruct Hp as [Hcount Hacc]; [|lia].
  specialize (IH shutdown (n + 1) s' m Hacc ltac:(lia) Hm). lia.
Qed.

(** Whether a shutdown has been requested by the end of what was read. *)
Definition shutdown_after (requested : bool) (read : list socket_event) : bool :=
  match last read with Some e => se_shutdown e | None => requested end.

(** The events a run reads: it comes to the same with no others, on fewer it
    would still be waiting. *)
Record reads config (requested : bool) (n : Z) (s : listener W) (read : list socket_event) (result : loop_result) (s' : listener W) : Prop := Reads {
  rd_same : listen config requested n read s = (result, s');
  rd_least : forall shorter later, read = shorter ++ later -> later <> [] -> (listen config requested n shorter s).1 = Waiting;
}.

Definition stop_cause config (requested : bool) (read : list socket_event) (packets : Z) : Prop :=
  shutdown_after requested read = true \/ exists m, lc_max_packets config = Some m /\ m <= packets.

Definition listened config (requested : bool) (n : Z) (events : list socket_event) (s : listener W) (r : loop_result * listener W) : Prop :=
  accounted (open_packets r.1) (ls_stats r.2) /\
  exists read rest, events = read ++ rest /\ reads config requested n s read r.1 r.2 /\ packets (ls_stats r.2) = n + datagrams read /\
    match r.1 with Waiting => rest = [] | Stopped => stop_cause config requested read (packets (ls_stats r.2)) | Crashed _ => True end.

Lemma reads_nothing config requested n s result : listen config requested n [] s = (result, s) -> reads config requested n s [] result s.
Proof. intros H. split; [done|]. intros shorter later Heq Hl. symmetry in Heq. by apply app_eq_nil in Heq as [_ ->]. Qed.

(** One event more, read first. *)
Lemma reads_more config requested n s ev read result s' requested1 n1 s1 :
  (forall events, listen config requested n (ev :: events) s = listen config requested1 n1 events s1) ->
  (requested || limit_reached config n) = false ->
  reads config requested1 n1 s1 read result s' -> reads config requested n s (ev :: read) result s'.
Proof.
  intros Hstep Hgo [Hsame Hleast]. split; [by rewrite Hstep|]. intros [|e shorter] later Heq Hl.
  - cbn. by rewrite Hgo.
  - injection Heq as <- ->. rewrite Hstep. by eapply Hleast.
Qed.

(** An event that ends the loop. *)
Lemma reads_last config requested n s ev result s' :
  listen config requested n [ev] s = (result, s') -> (requested || limit_reached config n) = false -> reads config requested n s [ev] result s'.
Proof.
  intros H Hgo. split; [done|]. intros [|e shorter] later Heq Hl; [cbn; by rewrite Hgo|]. injection Heq as <- Heq. symmetry in Heq.
  by apply app_eq_nil in Heq as [_ ->].
Qed.

Lemma shutdown_after_cons requested ev read : shutdown_after requested (ev :: read) = shutdown_after (se_shutdown ev) read.
Proof. unfold shutdown_after. destruct read as [|e read]; [done|]. rewrite last_cons_cons. destruct (last (e :: read)) eqn:E; [done|]. by apply last_None in E. Qed.

Lemma listened_more config requested n events s ev requested1 n1 s1 :
  (forall events, listen config requested n (ev :: events) s = listen config requested1 n1 events s1) ->
  (requested || limit_reached config n) = false -> requested1 = se_shutdown ev -> n1 = n + datagrams [ev] ->
  listened config requested1 n1 events s1 (listen config requested1 n1 events s1) ->
  listened config requested n (ev :: events) s (listen config requested n (ev :: events) s).
Proof.
  intros Hstep Hgo -> -> (Ha & read & rest & -> & Hr & Hp & Hc). rewrite Hstep. split; [done|]. exists (ev :: read), rest.
  split; [done|]. split; [by eapply reads_more|]. split.
  - rewrite Hp. unfold datagrams. cbn [List.filter]. destruct (se_received ev); cbn; lia.
  - destruct (listen _ _ _ _ _).1; try done. unfold stop_cause in *. by rewrite shutdown_after_cons.
Qed.

Lemma listened_stopped config requested n events s :
  accounted 0 (ls_stats s) -> packets (ls_stats s) = n -> (requested || limit_reached config n) = true ->
  listened config requested n events s (listen config requested n events s).
Proof.
  intros Ha Hn Hgo. assert (forall l, listen config requested n l s = (Stopped, s)) as Hrun by (intros []; cbn; by rewrite Hgo).
  rewrite Hrun. split; [exact Ha|]. exists [], events. split; [done|]. split; [by apply reads_nothing|].
  split; [unfold datagrams; cbn; lia|]. cbn. apply orb_true_iff in Hgo as [Hgo|Hgo]; [by left|]. right.
  unfold limit_reached in Hgo. destruct (lc_max_packets config) as [m|]; [|done]. exists m. split; [done|]. apply Z.leb_le in Hgo. lia.
Qed.

Lemma listen_listened config : forall events requested n (s : listener W),
  accounted 0 (ls_stats s) -> packets (ls_stats s) = n -> listened config requested n events s (listen config requested n events s).
Proof.
  induction events as [|[rcv shutdown] events IH]; intros requested n s Ha Hn; destruct (requested || limit_reached config n) eqn:Hgo.
  1,3: by apply listened_stopped.
  - cbn. rewrite Hgo. split; [exact Ha|]. exists [], []. split; [done|]. split; [apply reads_nothing; cbn; by rewrite Hgo|].
    split; [unfold datagrams; cbn; lia|done].
  - destruct rcv as [data source now utc| |].
    + pose proof (process_accounts config (cut config data) source now utc s Ha) as Hp.
      destruct (process config (cut config data) source now utc s) as [[k|e] s'] eqn:Ep; cbn in Hp; destruct Hp as [Hcount Hacc].
      * eapply (listened_more _ _ _ _ _ _ shutdown (n + 1) s'); [intros l; cbn; by rewrite Hgo, Ep|done|done|done|]. apply IH; [done|lia].
      * assert (forall l, listen config requested n (SocketEvent (Datagram data source now utc) shutdown :: l) s = (Crashed e, s')) as Hrun
          by (intros l; cbn; by rewrite Hgo, Ep).
        rewrite Hrun. split; [done|]. exists [SocketEvent (Datagram data source now utc) shutdown], events. split; [done|].
        split; [apply reads_last; [apply Hrun|done]|]. split; [|done]. cbn [snd]. rewrite Hcount, Hn. unfold datagrams. cbn. lia.
    + eapply (listened_more _ _ _ _ _ _ shutdown n s); [intros l; cbn; by rewrite Hgo|done|done|unfold datagrams; cbn; lia|]. by apply IH.
    + destruct shutdown.
      * assert (forall l, listen config requested n (SocketEvent RecvError true :: l) s = (Stopped, s)) as Hrun by (intros l; cbn; by rewrite Hgo).
        rewrite Hrun. split; [done|]. exists [SocketEvent RecvError true], events. split; [done|].
        split; [apply reads_last; [apply Hrun|done]|]. split; [unfold datagrams; cbn; lia|]. by left.
      * eapply (listened_more _ _ _ _ _ _ false n s); [intros l; cbn; by rewrite Hgo|done|done|unfold datagrams; cbn; lia|]. by apply IH.
Qed.

(** C21: the counters of the listener account for every packet, whatever the
    network, the senders and the backend do.  A run reads some first part of
    the socket events: on it alone the listener comes to the same, on any
    shorter one it would still be waiting.  The packets are those from unknown
    senders, those over the rate, those too large and those accepted, and
    they are exactly the datagrams read; the accepted ones failed to parse or
    were forwarded; the forwarded ones were filtered, ingested, rejected or
    lost by the backend.  A listener that waits has read everything, one that
    has stopped was asked to or reached its limit, which it never exceeds.
    Only when an exception ends the loop, one accepted packet is in no
    further counter. *)
Theorem every_packet_accounted config requested events w result s :
  run config requested events w = Ok (result, s) ->
  let st := ls_stats s in
  st_accepted st = st_parse_failed st + st_forwarded st + open_packets result /\
  st_forwarded st = st_filtered st + st_ingested st + st_rejected st + st_backend_failed st /\
  (forall m, lc_max_packets config = Some m -> packets st <= Z.max 0 m) /\
  exists read rest, events = read ++ rest /\ packets st = datagrams read /\
    run config requested read w = Ok (result, s) /\
    (forall shorter later, read = shorter ++ later -> later <> [] -> exists s', run config requested shorter w = Ok (Waiting, s')) /\
    match result with
    | Waiting => rest = []
    | Stopped => shutdown_after requested read = true \/ exists m, lc_max_packets config = Some m /\ m <= packets st
    | Crashed _ => True
    end.
Proof.
  unfold run_pfsense_syslog_listener. destruct (validate_config config); [|done]. cbn [obind].
  set (s0 := Listener no_stats _ w). intros [= Hr].
  destruct (listen_listened config events requested 0 s0 ltac:(by split) eq_refl) as ([Ha Hf] & read & rest & Hev & [Hsame Hleast] & Hp & Hc).
  pose proof (listen_limited config events requested 0 s0) as Hm. rewrite Hr in *. cbn [fst snd] in *.
  split_and!; [exact Ha|exact Hf|intros m Hmax; by apply Hm|]. exists read, rest. split_and!; [done|lia|by rewrite Hsame| |exact Hc].
  intros shorter later Heq Hl. specialize (Hleast shorter later Heq Hl). destruct (listen config requested 0 shorter s0) as [r s'].
  cbn in Hleast. subst r. eauto.
Qed.

(** ** Failures it does not expect *)

(** The datagram passes every check before the backend is asked. *)
Definition forwardable (config : listener_config) (s : listener W) (data source : string) (now utc : Z) (event : pydict) : Prop :=
  source ∈ lc_allowed_source_ips config /\ (allow source now (ls_limiter s)).1 = Ok true /\
  Z.of_nat (String.length data) <= lc_max_packet_bytes config /\
  exists pp, parse_pfsense_filterlog_packet zone_info syslog_timezone decode data (lc_environment config) source utc = Ok (inr pp) /\ pp_event pp = event.

Lemma cut_short config data : Z.of_nat (String.length data) <= lc_max_packet_bytes config -> cut config data = data.
Proof.
  intros Hlen. unfold cut. assert (String.length data <= Z.to_nat (lc_max_packet_bytes config + 1))%nat as Hle by lia.
  clear Hlen. revert Hle. generalize (Z.to_nat (lc_max_packet_bytes config + 1)). induction data as [|c data IH]; intros n Hle; [by destruct n|].
  cbn in Hle. destruct n as [|n]; [lia|]. cbn. f_equal. apply IH. lia.
Qed.

(** a failure of the transport that urllib does not wrap (the backend
    closes the connection before it answers, say) ends the listener: the
    exception passes through the loop, the packet is counted as accepted but
    neither as forwarded nor as failed, and no later packet is read, whatever
    it is. *)
Theorem unexpected_failure_ends_listener config n s data source now utc event e w' shutdown :
  limit_reached config n = false -> forwardable config s data source now utc event ->
  (forall r, er_event r = event -> post r (ls_world s) = (Ok (OtherFailure e), w')) ->
  exists s', (forall later, listen config false n (SocketEvent (Datagram data source now utc) shutdown :: later) s = (Crashed e, s')) /\
    st_accepted (ls_stats s') = st_accepted (ls_stats s) + 1 /\ st_forwarded (ls_stats s') = st_forwarded (ls_stats s) /\
    st_backend_failed (ls_stats s') = st_backend_failed (ls_stats s).
Proof.
  intros Hn (Hsrc & Hallow & Hlen & pp & Hparse & <-) Hpost.
  assert (exists s', process config (cut config data) source now utc s = (Raise e, s') /\
    st_accepted (ls_stats s') = st_accepted (ls_stats s) + 1 /\ st_forwarded (ls_stats s') = st_forwarded (ls_stats s) /\
    st_backend_failed (ls_stats s') = st_backend_failed (ls_stats s)) as (s' & Hrun & Hcounts).
  { rewrite cut_short by done. unfold process_datagram, forward_normalized_event, count, on_limiter, on_world.
    rewrite bool_decide_false by (intros H; by apply H). unfold bind at 1, zoom at 1.
    destruct (allow source now (ls_limiter s)) as [b l'] eqn:E. cbn in Hallow. subst b. cbn [negb].
    rewrite (proj2 (Z.ltb_ge _ _)) by done. run_monad. rewrite Hparse, Hpost by done. eexists. split; [done|]. cbn. lia. }
  exists s'. split_and!; try apply Hcounts; intros; cbn [PfsenseListener.listen]; by rewrite Hn, Hrun.
Qed.
End Accounting.

(** ** The theorems at work *)

(** One firewall may send, up to two packets a second. *)
Definition ex_listener_config : listener_config :=
  ListenerConfig DEFAULT_BIND_HOST DEFAULT_BIND_PORT {["10.0.0.1"]} DEFAULT_BACKEND_URL "key" DEFAULT_API_KEY_HEADER MAX_PACKET_BYTES
    200 2 (float_of_dec 1 0) (float_of_dec 5 0) (float_of_dec 1 0) "prod" None.

(** A backend that filters every event, and one that hangs up on the second. *)
Definition filtering : event_request -> M nat http_reply := fun _ n => (Ok (Responded 202), S n).
Definition hanging_up : event_request -> M nat http_reply := fun _ n =>
  (Ok (if (n =? 1)%nat then OtherFailure (OtherException "RemoteDisconnected") else Responded 201), S n).

Definition ex_datagram (now : Z) : socket_event := SocketEvent (Datagram ex_tcp_line "10.0.0.1" now 1767600000000000) false.

Definition ex_events : list socket_event :=
  [ex_datagram 0; SocketEvent (Datagram "?" "10.9.9.9" 1 0) false; SocketEvent RecvTimeout false; ex_datagram 2; ex_datagram 3;
   SocketEvent (Datagram "?" "10.0.0.1" 2000000000 0) false].

Lemma every_packet_accounted_witness :
  exists s, run_pfsense_syslog_listener filtering ex_zone "UTC" (fun s => (s, true)) ex_listener_config false ex_events 0%nat = Ok (Waiting, s) /\
    ls_stats s = ListenerStats 3 1 0 1 1 2 2 0 0 0 /\ packets (ls_stats s) = 5.
Proof.
  assert (exists s, run_pfsense_syslog_listener filtering ex_zone "UTC" (fun s => (s, true)) ex_listener_config false ex_events 0%nat = Ok (Waiting, s) /\
    ls_stats s = ListenerStats 3 1 0 1 1 2 2 0 0 0) as (s & Hrun & Hstats) by (vm_compute; eauto).
  exists s. split_and!; [exact Hrun|exact Hstats|].
  destruct (every_packet_accounted _ _ _ _ _ _ _ _ _ _ Hrun) as (_ & _ & _ & read & rest & Hev & Hp & _ & _ & Hrest).
  subst rest. rewrite app_nil_r in Hev. subst read. rewrite Hp. reflexivity.
Defined.

Definition ex_busy_listener : listener nat := Listener no_stats (new_limiter 200 2 (Some 1000000000)) 1%nat.

Lemma unexpected_failure_ends_listener_witness :
  exists s', forall later,
    listen hanging_up ex_zone "UTC" (fun s => (s, true)) ex_listener_config false 0 (ex_datagram 0 :: later) ex_busy_listener =
      (Crashed (OtherException "RemoteDisconnected"), s').
Proof.
  assert (exists pp, parse_pfsense_filterlog_packet ex_zone "UTC" (fun s => (s, true)) ex_tcp_line "prod" "10.0.0.1" 1767600000000000 = Ok (inr pp))
    as [pp Hpp] by (vm_compute; eauto).
  destruct (unexpected_failure_ends_listener hanging_up ex_zone "UTC" (fun s => (s, true)) ex_listener_config 0 ex_busy_listener ex_tcp_line
    "10.0.0.1" 0 1767600000000000 (pp_event pp) (OtherException "RemoteDisconnected") 2%nat false) as (s' & H & _).
  - reflexivity.
  - split; [cbn [ex_listener_config lc_allowed_source_ips]; set_solver|]. split_and!; [vm_compute; reflexivity|vm_compute; discriminate|exists pp; cbn [ex_listener_config lc_environment]; split; [exact Hpp|reflexivity]].
  - intros r _. reflexivity.
  - exists s'. exact H.
Defined.
