(* ===== verification/DetectionCatalog.v ===== *)
(** * DetectionCatalog: engines/detection_rule_catalog.py and
    engines/detection_applicability.py

    The catalog of detection rules and what is derived from it: the inventory
    of base and correlation rules, their default parameters, the sources a
    rule applies to, and the validation the catalog is meant to pass.  The
    prose of a record that is only displayed (family, evidence, guidance,
    reasons, the source of the severity matrix) is left out. *)

From S2P Require Import Prelude PyText PyFloat PyValue NotificationPolicy.

Open Scope Z_scope.

(** ** Records *)

Inductive severity := Low | Medium | High | Critical.
Inductive rule_type := Base | Correlation.
Inductive implementation_state := Implemented | Reserved.

#[export] Instance severity_eq_dec : EqDecision severity.
Proof. solve_decision. Defined.
#[export] Instance rule_type_eq_dec : EqDecision rule_type.
Proof. solve_decision. Defined.
#[export] Instance implementation_state_eq_dec : EqDecision implementation_state.
Proof. solve_decision. Defined.

(** The texts of VALID_SEVERITIES, and their index. *)
Definition severity_text (s : severity) : string :=
  match s with Low => "low" | Medium => "medium" | High => "high" | Critical => "critical" end.
Definition severity_index (s : severity) : Z := match s with Low => 0 | Medium => 1 | High => 2 | Critical => 3 end.

Record source_identity := SourceIdentity { si_source : string; si_source_type : string }.

#[export] Instance source_identity_eq_dec : EqDecision source_identity.
Proof. solve_decision. Defined.

Record source_applicability := SourceApplicability { sa_classification : string; sa_allowed_sources : list source_identity }.

Record mitre_mapping := MitreMapping { mm_technique_id : string; mm_technique_name : string; mm_tactic : string }.

Record detection_rule_catalog_record := DetectionRuleCatalogRecord {
  rc_rule_id : string;
  rc_display_name : string;
  rc_description : string;
  rc_rule_type : rule_type;
  rc_default_severity : severity;
  rc_maximum_severity : severity;
  rc_source_applicability : source_applicability;
  rc_mitre : option mitre_mapping;
  rc_parameter_definitions : list (string * Z);
  rc_implementation_state : implementation_state;
}.

Definition HONEYPOT : source_identity := SourceIdentity "honeypot" "honeypot".
Definition BANK_APP : source_identity := SourceIdentity "bank_app" "custom".
Definition PFSENSE : source_identity := SourceIdentity "pfsense" "firewall".
Definition NGINX : source_identity := SourceIdentity "nginx" "web_log".
Definition AZURE_INSIGHTS : source_identity := SourceIdentity "azure_insights" "cloud_api".
Definition OPENTELEMETRY : source_identity := SourceIdentity "opentelemetry" "telemetry".

Definition CANONICAL_SOURCE_IDENTITIES : list source_identity :=
  [HONEYPOT; BANK_APP; PFSENSE; NGINX; AZURE_INSIGHTS; OPENTELEMETRY].

(** The order of [sorted] on identities, which differ in their source. *)
Definition identity_le (a b : source_identity) : Prop := str_le (si_source a) (si_source b).
#[export] Instance identity_le_dec : RelDecision identity_le.
Proof. intros a b. unfold identity_le. apply _. Defined.

Definition sorted_identities (l : list source_identity) : list source_identity := merge_sort identity_le l.

(** ** The catalog *)

Definition FAILED_LOGIN_THRESHOLD : Z := 3.
Definition FAILED_LOGIN_WINDOW_MINUTES : Z := 15.
Definition PORT_SCAN_THRESHOLD : Z := 2.
Definition PORT_SCAN_WINDOW_MINUTES : Z := 15.
Definition PASSWORD_SPRAY_THRESHOLD : Z := 5.
Definition PASSWORD_SPRAY_WINDOW_MINUTES : Z := 15.
Definition HTTP_ERROR_THRESHOLD : Z := 5.
Definition HTTP_ERROR_WINDOW_MINUTES : Z := 15.
Definition APPLICATION_EXCEPTION_THRESHOLD : Z := 3.
Definition APPLICATION_EXCEPTION_WINDOW_MINUTES : Z := 10.
Definition APP_INSIGHTS_UNAUTHORIZED_ACCESS_THRESHOLD : Z := 5.
Definition APP_INSIGHTS_UNAUTHORIZED_ACCESS_WINDOW_MINUTES : Z := 10.
Definition HIGH_REQUEST_RATE_THRESHOLD : Z := 20.
Definition HIGH_REQUEST_RATE_WINDOW_MINUTES : Z := 5.
Definition CORRELATION_WINDOW_MINUTES : Z := 10.
Definition SUCCESS_AFTER_SPRAY_SUCCESS_WINDOW_MINUTES : Z := 15.
Definition SUCCESS_AFTER_SPRAY_FAILED_LOOKBACK_MINUTES : Z := 30.
Definition SUCCESS_AFTER_SPRAY_CORRELATION_WINDOW_MINUTES : Z := 15.
Definition SUCCESS_AFTER_SPRAY_THRESHOLD : Z := 5.
Definition HONEYPOT_ENV_PROBE_THRESHOLD : Z := 3.
Definition HONEYPOT_ENV_PROBE_WINDOW_MINUTES : Z := 10.
Definition HONEYPOT_ADMIN_PROBE_THRESHOLD : Z := 3.
Definition HONEYPOT_ADMIN_PROBE_WINDOW_MINUTES : Z := 10.
Definition HONEYPOT_SCANNER_DETECTED_THRESHOLD : Z := 1.
Definition HONEYPOT_SCANNER_DETECTED_WINDOW_MINUTES : Z := 10.
Definition HONEYPOT_CREDENTIAL_STUFFING_THRESHOLD : Z := 5.
Definition HONEYPOT_CREDENTIAL_STUFFING_WINDOW_MINUTES : Z := 15.
Definition PFSENSE_REPEATED_DENY_THRESHOLD : Z := 5.
Definition PFSENSE_REPEATED_DENY_WINDOW_MINUTES : Z := 15.
Definition PFSENSE_PORT_SCAN_THRESHOLD : Z := 2.
Definition PFSENSE_PORT_SCAN_WINDOW_MINUTES : Z := 15.
Definition PFSENSE_PORT_SCAN_HOST_THRESHOLD : Z := 5.
Definition PFSENSE_NOISY_SOURCE_THRESHOLD : Z := 20.
Definition PFSENSE_NOISY_SOURCE_WINDOW_MINUTES : Z := 15.
Definition PFSENSE_SUSPICIOUS_ALLOW_THRESHOLD : Z := 1.
Definition PFSENSE_SUSPICIOUS_ALLOW_WINDOW_MINUTES : Z := 15.
Definition PFSENSE_SUSPICIOUS_ALLOW_HIGH_CONFIDENCE_REPEAT_THRESHOLD : Z := 3.
Definition PFSENSE_SUSPICIOUS_ALLOW_DISTINCT_PORT_ESCALATION_THRESHOLD : Z := 2.
Definition PFSENSE_ALLOW_AFTER_DENY_MIN_DENY_THRESHOLD : Z := 3.
Definition PFSENSE_ALLOW_AFTER_DENY_WINDOW_MINUTES : Z := 30.
Definition CATALOG_RECORDS : list detection_rule_catalog_record :=
  [DetectionRuleCatalogRecord "failed_login_threshold" "Failed Login Threshold"
     "Triggers when multiple failed login attempts occur within a time window."
     Base High High
     (SourceApplicability "canonical_multi_source_authentication" [BANK_APP; AZURE_INSIGHTS; NGINX; OPENTELEMETRY])
     (Some (MitreMapping "T1110" "Brute Force" "Credential Access"))
     [("threshold", FAILED_LOGIN_THRESHOLD); ("window_minutes", FAILED_LOGIN_WINDOW_MINUTES)] Implemented;
   DetectionRuleCatalogRecord "port_scan_threshold" "Port Scan Threshold"
     "Triggers when repeated port scan events occur from the same source within a time window."
     Base Medium High
     (SourceApplicability "canonical_legacy_custom_telemetry" [BANK_APP])
     (Some (MitreMapping "T1046" "Network Service Discovery" "Discovery"))
     [("threshold", PORT_SCAN_THRESHOLD); ("window_minutes", PORT_SCAN_WINDOW_MINUTES)] Implemented;
   DetectionRuleCatalogRecord "password_spraying_threshold" "Password Spraying Threshold"
     "Triggers when failed logins target multiple distinct usernames from the same source within a time window."
     Base High High
     (SourceApplicability "canonical_multi_source_authentication" [BANK_APP; AZURE_INSIGHTS])
     (Some (MitreMapping "T1110.003" "Password Spraying" "Credential Access"))
     [("threshold", PASSWORD_SPRAY_THRESHOLD); ("window_minutes", PASSWORD_SPRAY_WINDOW_MINUTES)] Implemented;
   DetectionRuleCatalogRecord "http_error_threshold" "HTTP Error Threshold"
     "Triggers when repeated HTTP error events occur from the same source within a time window."
     Base Medium High
     (SourceApplicability "canonical_multi_source_application_web" [HONEYPOT; NGINX; AZURE_INSIGHTS; OPENTELEMETRY])
     None
     [("threshold", HTTP_ERROR_THRESHOLD); ("window_minutes", HTTP_ERROR_WINDOW_MINUTES)] Implemented;
   DetectionRuleCatalogRecord "application_exception_threshold" "Application Exception Threshold"
     "Triggers when repeated application exception events occur from the same source within a time window."
     Base Medium High
     (SourceApplicability "canonical_multi_source_application" [AZURE_INSIGHTS; OPENTELEMETRY])
     None
     [("threshold", APPLICATION_EXCEPTION_THRESHOLD); ("window_minutes", APPLICATION_EXCEPTION_WINDOW_MINUTES)] Implemented;
   DetectionRuleCatalogRecord "app_insights_unauthorized_access_threshold" "App Insights Unauthorized Access Threshold"
     "Triggers when repeated Application Insights 401/403 events occur from the same source within a time window."
     Base High High
     (SourceApplicability "source_specific" [AZURE_INSIGHTS])
     None
     [("threshold", APP_INSIGHTS_UNAUTHORIZED_ACCESS_THRESHOLD); ("window_minutes", APP_INSIGHTS_UNAUTHORIZED_ACCESS_WINDOW_MINUTES)] Implemented;
   DetectionRuleCatalogRecord "high_request_rate_threshold" "High Request Rate Threshold"
     "Triggers when high request volume occurs from the same source within a time window."
     Base Medium High
     (SourceApplicability "partially_source_aware_becoming_explicit" [NGINX; OPENTELEMETRY])
     None
     [("threshold", HIGH_REQUEST_RATE_THRESHOLD); ("window_minutes", HIGH_REQUEST_RATE_WINDOW_MINUTES)] Implemented;
   DetectionRuleCatalogRecord "successful_login_after_spray" "Successful Login After Spray"
     "Triggers when password spraying activity is followed by a successful login from the same source."
     Base Critical Critical
     (SourceApplicability "canonical_multi_source_authentication_sequence" [BANK_APP; AZURE_INSIGHTS])
     (Some (MitreMapping "T1110.003" "Password Spraying" "Credential Access"))
     [("threshold", SUCCESS_AFTER_SPRAY_THRESHOLD); ("success_window_minutes", SUCCESS_AFTER_SPRAY_SUCCESS_WINDOW_MINUTES); ("failed_lookback_minutes", SUCCESS_AFTER_SPRAY_FAILED_LOOKBACK_MINUTES); ("correlation_window_minutes", SUCCESS_AFTER_SPRAY_CORRELATION_WINDOW_MINUTES)] Implemented;
   DetectionRuleCatalogRecord "honeypot_env_probe_threshold" "Honeypot Env Probe Threshold"
     "Triggers when one source IP probes multiple distinct sensitive file paths within a time window."
     Base High High
     (SourceApplicability "source_specific" [HONEYPOT])
     None
     [("threshold", HONEYPOT_ENV_PROBE_THRESHOLD); ("window_minutes", HONEYPOT_ENV_PROBE_WINDOW_MINUTES)] Implemented;
   DetectionRuleCatalogRecord "honeypot_admin_probe_threshold" "Honeypot Admin Probe Threshold"
     "Triggers when one source IP probes multiple distinct admin paths within a time window."
     Base Medium Medium
     (SourceApplicability "source_specific" [HONEYPOT])
     None
     [("threshold", HONEYPOT_ADMIN_PROBE_THRESHOLD); ("window_minutes", HONEYPOT_ADMIN_PROBE_WINDOW_MINUTES)] Implemented;
   DetectionRuleCatalogRecord "honeypot_scanner_detected" "Honeypot Scanner Detected"
     "Triggers when scanner activity from one source IP meets the configured threshold within a time window."
     Base Medium Medium
     (SourceApplicability "source_specific" [HONEYPOT])
     None
     [("threshold", HONEYPOT_SCANNER_DETECTED_THRESHOLD); ("window_minutes", HONEYPOT_SCANNER_DETECTED_WINDOW_MINUTES)] Implemented;
   DetectionRuleCatalogRecord "honeypot_credential_stuffing_threshold" "Honeypot Credential Stuffing Threshold"
     "Triggers when one source IP attempts logins across multiple distinct usernames within a time window."
     Base High High
     (SourceApplicability "source_specific" [HONEYPOT])
     None
     [("threshold", HONEYPOT_CREDENTIAL_STUFFING_THRESHOLD); ("window_minutes", HONEYPOT_CREDENTIAL_STUFFING_WINDOW_MINUTES)] Implemented;
   DetectionRuleCatalogRecord "pfsense_firewall_repeated_deny" "pfSense Firewall Repeated Deny"
     "Triggers when pfSense blocks repeated equivalent traffic from the same source within a time window."
     Base Low High
     (SourceApplicability "source_specific" [PFSENSE])
     None
     [("threshold", PFSENSE_REPEATED_DENY_THRESHOLD); ("window_minutes", PFSENSE_REPEATED_DENY_WINDOW_MINUTES)] Implemented;
   DetectionRuleCatalogRecord "pfsense_firewall_port_scan" "pfSense Firewall Port Scan"
     "Triggers when pfSense firewall events show one source contacting multiple distinct destination ports, or sweeping multiple distinct destination hosts."
     Base Medium High
     (SourceApplicability "source_specific" [PFSENSE])
     (Some (MitreMapping "T1046" "Network Service Discovery" "Discovery"))
     [("threshold", PFSENSE_PORT_SCAN_THRESHOLD); ("window_minutes", PFSENSE_PORT_SCAN_WINDOW_MINUTES); ("host_threshold", PFSENSE_PORT_SCAN_HOST_THRESHOLD)] Implemented;
   DetectionRuleCatalogRecord "pfsense_firewall_noisy_source" "pfSense Firewall Noisy Source"
     "Suppresses duplicate low-value pfSense firewall alerts while retaining source activity counters."
     Base Low Low
     (SourceApplicability "source_specific" [PFSENSE])
     None
     [("threshold", PFSENSE_NOISY_SOURCE_THRESHOLD); ("window_minutes", PFSENSE_NOISY_SOURCE_WINDOW_MINUTES)] Implemented;
   DetectionRuleCatalogRecord "pfsense_firewall_suspicious_allow" "pfSense Firewall Suspicious Allow"
     "Triggers when pfSense allows inbound traffic to a sensitive destination port; escalates to high severity only on repeated, multi-port, or progression-backed evidence."
     Base Medium High
     (SourceApplicability "source_specific" [PFSENSE])
     None
     [("threshold", PFSENSE_SUSPICIOUS_ALLOW_THRESHOLD); ("window_minutes", PFSENSE_SUSPICIOUS_ALLOW_WINDOW_MINUTES); ("high_confidence_repeat_threshold", PFSENSE_SUSPICIOUS_ALLOW_HIGH_CONFIDENCE_REPEAT_THRESHOLD); ("distinct_port_escalation_threshold", PFSENSE_SUSPICIOUS_ALLOW_DISTINCT_PORT_ESCALATION_THRESHOLD)] Implemented;
   DetectionRuleCatalogRecord "pfsense_firewall_allow_after_deny" "pfSense Firewall Allow After Deny"
     "Triggers when the same external source first produces repeated inbound firewall denies and later reaches an inbound allow to the same protected service within the bounded progression window."
     Base Medium High
     (SourceApplicability "source_specific" [PFSENSE])
     None
     [("minimum_deny_threshold", PFSENSE_ALLOW_AFTER_DENY_MIN_DENY_THRESHOLD); ("window_minutes", PFSENSE_ALLOW_AFTER_DENY_WINDOW_MINUTES); ("high_confidence_deny_threshold", PFSENSE_REPEATED_DENY_THRESHOLD)] Implemented;
   DetectionRuleCatalogRecord "correlated_activity" "Correlated Activity"
     "Detects multi-source suspicious activity from one IP when multiple qualifying open alerts align within the shared correlation window."
     Correlation High High
     (SourceApplicability "correlation_multi_source" [BANK_APP; NGINX; AZURE_INSIGHTS; PFSENSE; OPENTELEMETRY])
     None
     [] Implemented;
   DetectionRuleCatalogRecord "web_to_app_attack_pattern" "Web-to-App Attack Pattern"
     "Detects correlated nginx web pressure and bank application authentication pressure from the same IP within the targeted rule window."
     Correlation High High
     (SourceApplicability "correlation_targeted" [BANK_APP; NGINX])
     None
     [] Implemented;
   DetectionRuleCatalogRecord "spray_then_success_pattern" "Spray-Then-Success Pattern"
     "Detects the combination of password spraying and successful-login-after-spray alerts for the same IP within the targeted rule window."
     Correlation High High
     (SourceApplicability "correlation_targeted" [BANK_APP; AZURE_INSIGHTS])
     (Some (MitreMapping "T1110.003" "Password Spraying" "Credential Access"))
     [] Implemented;
   DetectionRuleCatalogRecord "cloud_app_error_pattern" "Cloud/App Error Pattern"
     "Detects correlated Azure and nginx application error activity from the same IP within the targeted rule window."
     Correlation High High
     (SourceApplicability "correlation_targeted" [AZURE_INSIGHTS; NGINX])
     None
     [] Implemented;
   DetectionRuleCatalogRecord "azure_auth_abuse_exception_correlation" "Azure Auth Abuse Exception Correlation"
     "Detects correlated Azure authentication-abuse and application exception activity from the same IP within the targeted rule window."
     Correlation High High
     (SourceApplicability "correlation_targeted" [AZURE_INSIGHTS])
     None
     [] Implemented;
   DetectionRuleCatalogRecord "suspicious_ip_reputation" "Suspicious IP Reputation"
     "Legacy reputation-only alert metadata preserved for MITRE enrichment compatibility."
     Base Medium Medium
     (SourceApplicability "legacy_compatibility" (sorted_identities CANONICAL_SOURCE_IDENTITIES))
     (Some (MitreMapping "T1595" "Active Scanning" "Reconnaissance"))
     [] Reserved].

(** ** Reading it *)

Definition record_of (records : list detection_rule_catalog_record) (rule_id : string) : option detection_rule_catalog_record :=
  find (fun r => String.eqb (rc_rule_id r) rule_id) records.

Definition implemented (r : detection_rule_catalog_record) : bool := bool_decide (rc_implementation_state r = Implemented).

Definition list_detection_rule_catalog (include_reserved : bool) : list detection_rule_catalog_record :=
  List.filter (fun r => include_reserved || implemented r) CATALOG_RECORDS.

Definition get_detection_rule_catalog_record (rule_id : string) : outcome detection_rule_catalog_record :=
  match record_of CATALOG_RECORDS rule_id with
  | Some r => Ok r
  | None => refuse "Unknown detection rule catalog record"
  end.

Definition get_base_rule_catalog_records (include_reserved : bool) : list detection_rule_catalog_record :=
  List.filter (fun r => bool_decide (rc_rule_type r = Base)) (list_detection_rule_catalog include_reserved).

Definition get_correlation_rule_catalog_records (include_reserved : bool) : list detection_rule_catalog_record :=
  List.filter (fun r => bool_decide (rc_rule_type r = Correlation)) (list_detection_rule_catalog include_reserved).

(** The dict of a rule's parameters, in the order of their definitions. *)
Definition get_rule_parameter_defaults (rule_id : string) : outcome (list (string * Z)) :=
  let! r := get_detection_rule_catalog_record rule_id in
  Ok (rc_parameter_definitions r).

Definition get_rule_mitre_mapping (rule_id : string) : option mitre_mapping :=
  match record_of CATALOG_RECORDS rule_id with Some r => rc_mitre r | None => None end.

(** The mappings of [list_catalog_mitre_mappings], one for each technique. *)
Fixpoint distinct_techniques (records : list detection_rule_catalog_record) (seen : list string) : list mitre_mapping :=
  match records with
  | [] => []
  | r :: records =>
      match get_rule_mitre_mapping (rc_rule_id r) with
      | None => distinct_techniques records seen
      | Some m =>
          if str_in (mm_technique_id m) seen then distinct_techniques records seen
          else m :: distinct_techniques records (mm_technique_id m :: seen)
      end
  end.

Definition list_catalog_mitre_mappings (include_reserved : bool) : list mitre_mapping :=
  distinct_techniques (list_detection_rule_catalog include_reserved) [].

(** ** Its validation *)

(** The checks of one record, by the message of the first that fails. *)
Definition record_defect (r : detection_rule_catalog_record) : option string :=
  if is_empty (rc_rule_id r) || is_empty (rc_display_name r) || is_empty (rc_description r)
  then Some ("Missing required metadata for rule_id=" +:+ str_repr (rc_rule_id r))
  else if severity_index (rc_maximum_severity r) <? severity_index (rc_default_severity r)
  then Some ("default_severity exceeds maximum_severity for rule_id=" +:+ rc_rule_id r)
  else if is_empty (sa_classification (rc_source_applicability r))
  then Some ("Missing source applicability classification for rule_id=" +:+ rc_rule_id r)
  else if bool_decide (sa_allowed_sources (rc_source_applicability r) = [])
  then Some ("Empty source applicability for rule_id=" +:+ rc_rule_id r)
  else if negb (forallb (fun i => bool_decide (i ∈ CANONICAL_SOURCE_IDENTITIES)) (sa_allowed_sources (rc_source_applicability r)))
  then Some ("Unsupported source applicability identity for rule_id=" +:+ rc_rule_id r)
  else
    match rc_mitre r with
    | Some m =>
        if is_empty (mm_technique_id m) || is_empty (mm_technique_name m) || is_empty (mm_tactic m)
        then Some ("Malformed MITRE metadata for rule_id=" +:+ rc_rule_id r) else None
    | None => None
    end.

Fixpoint record_defects (records : list detection_rule_catalog_record) : option string :=
  match records with
  | [] => None
  | r :: records => match record_defect r with Some m => Some m | None => record_defects records end
  end.

(** [sorted(set(a) - set(b))]. *)
Definition ids_missing (a b : list string) : list string := merge_sort str_le (remove_dups (filter (fun i => i ∉ b) a)).

(** The catalog's own list of records is what the source validates. *)
Definition validate_detection_rule_catalog (records : list detection_rule_catalog_record)
    (base_ids correlation_ids : option (list string)) : outcome unit :=
  let listed ty := map rc_rule_id (List.filter (fun r => implemented r && bool_decide (rc_rule_type r = ty)) records) in
  let missing_base := match base_ids with Some ids => ids_missing ids (listed Base) | None => [] end in
  let missing_correlation := match correlation_ids with Some ids => ids_missing ids (listed Correlation) | None => [] end in
  let known := default [] base_ids ++ default [] correlation_ids in
  let orphaned := merge_sort str_le (filter (fun i => i ∉ known) (map rc_rule_id (List.filter implemented records))) in
  if negb (bool_decide (NoDup (map rc_rule_id records))) then refuse "Duplicate rule IDs exist in the detection rule catalog"
  else
    match record_defects records with
    | Some message => refuse message
    | None =>
        if negb (bool_decide (missing_base = []))
        then refuse ("Implemented base detection rule(s) missing catalog metadata: " +:+ show_choices missing_base)
        else if negb (bool_decide (missing_correlation = []))
        then refuse ("Implemented correlation rule(s) missing catalog metadata: " +:+ show_choices missing_correlation)
        else if negb (bool_decide (known = [])) && negb (bool_decide (orphaned = []))
        then refuse ("Catalog rule(s) marked implemented without runtime implementation: " +:+ show_choices orphaned)
        else Ok tt
    end.

(** ** Applicability *)

(** [RULE_APPLICABILITY]: the implemented base rules. *)
Definition RULE_APPLICABILITY (rule_id : string) : option source_applicability :=
  rc_source_applicability <$> record_of (get_base_rule_catalog_records false) rule_id.

(** The columns are text or absent; no coercion. *)
Definition identity_of (source source_type : option string) : option source_identity :=
  match source, source_type with
  | Some s, Some t =>
      let candidate := SourceIdentity s t in
      if bool_decide (candidate ∈ CANONICAL_SOURCE_IDENTITIES) then Some candidate else None
  | _, _ => None
  end.

Definition rule_applies_to_source (rule_id : string) (source source_type : option string) : bool :=
  match identity_of source source_type, RULE_APPLICABILITY rule_id with
  | Some identity, Some applicability => bool_decide (identity ∈ sa_allowed_sources applicability)
  | _, _ => false
  end.

(** [serialize_source_applicability]: category and sorted sources. *)
Definition serialize_source_applicability (r : detection_rule_catalog_record) : string * list source_identity :=
  (sa_classification (rc_source_applicability r), sorted_identities (sa_allowed_sources (rc_source_applicability r))).

Definition get_rule_applicability_metadata (rule_id : string) : outcome (string * list source_identity) :=
  let! r := get_detection_rule_catalog_record rule_id in
  Ok (serialize_source_applicability r).

Definition validate_rule_inventory (rule_ids : list string) : outcome unit :=
  let registered := map rc_rule_id (get_base_rule_catalog_records false) in
  let missing := ids_missing rule_ids registered in
  let extra := ids_missing registered rule_ids in
  if negb (bool_decide (missing = [] /\ extra = []))
  then refuse ("Detection applicability inventory mismatch: missing=" +:+ show_choices missing +:+ ", extra=" +:+ show_choices extra)
  else if existsb (fun r => bool_decide (sa_allowed_sources (rc_source_applicability r) = [])) (get_base_rule_catalog_records false)
  then refuse "Every detection rule must have at least one applicable source"
  else Ok tt.
