(* ===== verification/DetectionConfig.v ===== *)
(** * DetectionConfig: engines/detection_config.py

    The parameters of the base detection rules: the defaults of the catalog,
    the overrides in detection_config with their validation, the effective
    rule, and the handler update_detection_rule of routes/admin_routes.py. *)

From S2P Require Import Prelude Tables PyText PyFloat PyValue NotificationPolicy PfsenseFilter DetectionCatalog.

Open Scope Z_scope.

(** ** Parameters *)

(** A dict of integers, in insertion order. *)
Abbreviation parameters := (list (string * Z)).

(** [d[k]]. *)
Fixpoint parameter (d : parameters) (k : string) : option Z :=
  match d with [] => None | (k', v) :: d => if String.eqb k' k then Some v else parameter d k end.

(** [d[k] = v]. *)
Fixpoint set_parameter (d : parameters) (k : string) (v : Z) : parameters :=
  match d with
  | [] => [(k, v)]
  | (k', v') :: d => if String.eqb k' k then (k', v) :: d else (k', v') :: set_parameter d k v
  end.

(** [d.update(e)]. *)
Definition update_parameters (d e : parameters) : parameters := foldl (fun d kv => set_parameter d kv.1 kv.2) d e.

Definition DETECTION_THRESHOLD_MIN : Z := 1.
Definition DETECTION_THRESHOLD_MAX : Z := 100.
Definition DETECTION_WINDOW_MINUTES_MIN : Z := 1.
Definition DETECTION_WINDOW_MINUTES_MAX : Z := 1440.

Definition in_bounds (key : string) (value : Z) : bool :=
  if String.eqb key "threshold" then (DETECTION_THRESHOLD_MIN <=? value) && (value <=? DETECTION_THRESHOLD_MAX)
  else (DETECTION_WINDOW_MINUTES_MIN <=? value) && (value <=? DETECTION_WINDOW_MINUTES_MAX).

Definition bounds_message (key : string) : string :=
  if String.eqb key "threshold"
  then "Parameter " +:+ key +:+ " must be between " +:+ str_int DETECTION_THRESHOLD_MIN +:+ " and " +:+ str_int DETECTION_THRESHOLD_MAX
  else "Parameter " +:+ key +:+ " must be between " +:+ str_int DETECTION_WINDOW_MINUTES_MIN +:+ " and " +:+ str_int DETECTION_WINDOW_MINUTES_MAX.

(** ** Defaults *)

Record rule_defaults := RuleDefaults {
  rd_rule_id : string;
  rd_display_name : string;
  rd_parameters : parameters;
  rd_active : bool;
  rd_description : string;
}.

Definition default_rule (r : detection_rule_catalog_record) : rule_defaults :=
  RuleDefaults (rc_rule_id r) (rc_display_name r) (rc_parameter_definitions r) true (rc_description r).

(** The dict by rule id, in the order of the catalog. *)
Definition get_detection_rule_defaults : list rule_defaults := map default_rule (get_base_rule_catalog_records false).

Definition defaults_of (rule_id : string) : option rule_defaults :=
  find (fun d => String.eqb (rd_rule_id d) rule_id) get_detection_rule_defaults.

(** A row of detection_config. *)
Record override_row := OverrideRow {
  ov_parameters : pyval;
  ov_active : bool;
  ov_updated_by : option string;
  ov_updated_at : Z;
}.

(** The table by rule id, its primary key; [None] before its migration. *)
Abbreviation override_table := (option (gmap string override_row)).

#[export, refine] Instance override_table_tx : Transactional override_table := { restore snap _ := snap; }.
Proof. all: done. Defined.

(** ** Validation *)

Section Config.
Context (json_loads : json_decoder).

Definition parse_detection_rule_parameters (raw_parameters : pyval) : outcome pydict :=
  match raw_parameters with
  | PNone => Ok []
  | _ =>
      let! value :=
        match raw_parameters with
        | PStr text =>
            match json_loads text with
            | Raise (ValueError _) => refuse "Parameters must be valid JSON"
            | o => o
            end
        | v => Ok v
        end in
      match value with PDict d => Ok d | _ => refuse "Parameters must be an object" end
  end.

Fixpoint normalize_parameters (allowed : list string) (items : pydict) (normalized : parameters) : outcome parameters :=
  match items with
  | [] => Ok normalized
  | (key, value) :: items =>
      if negb (str_in key allowed) then refuse ("Unknown parameter key: " +:+ key)
      else
        match value with
        | PInt value =>
            if negb (in_bounds key value) then refuse (bounds_message key)
            else normalize_parameters allowed items (set_parameter normalized key value)
        | _ => refuse ("Parameter " +:+ key +:+ " must be an integer")
        end
  end.

Definition validate_detection_rule_config (rule_id : string) (raw_parameters active : pyval) : outcome (parameters * bool) :=
  match defaults_of rule_id with
  | None => refuse "Unknown rule_id"
  | Some defaults =>
      let! items := parse_detection_rule_parameters raw_parameters in
      match active with
      | PBool active =>
          let! normalized := normalize_parameters (map fst (rd_parameters defaults)) items [] in
          Ok (normalized, active)
      | _ => refuse "Active must be a boolean"
      end
  end.

(** ** The effective rule *)

Record effective_rule := EffectiveRule {
  er_defaults : rule_defaults;
  er_parameters : parameters;
  er_active : bool;
  er_updated_by : option string;
  er_updated_at : option string;
  er_has_override : bool;
  er_override_status : string;
  er_applicability : string * list source_identity;
}.

Definition default_effective_rule (d : rule_defaults) (status : string) (applicability : string * list source_identity) : effective_rule :=
  EffectiveRule d (rd_parameters d) (rd_active d) None None false status applicability.

Definition no_table {A} : outcome A := Raise (DatabaseError "relation detection_config does not exist").

Definition select_override (rule_id : string) : M override_table (option override_row) := fun t =>
  match t with None => (no_table, t) | Some rows => (Ok (rows !! rule_id), t) end.

(** What the code between the SELECT and the handlers makes of a row: the
    rule as far as it got, and the exception that stopped it. *)
Definition apply_override (rule_id : string) (base : effective_rule) (row : override_row) : effective_rule * option exn :=
  let found := EffectiveRule (er_defaults base) (er_parameters base) (er_active base) None None true (er_override_status base) (er_applicability base) in
  match parse_detection_rule_parameters (ov_parameters row) with
  | Raise e => (found, Some e)
  | Ok items =>
      let stamped :=
        EffectiveRule (er_defaults base) (er_parameters base) (er_active base) (ov_updated_by row)
          (Some (isoformat " " (utc_datetime (ov_updated_at row)))) true (er_override_status base) (er_applicability base) in
      match validate_detection_rule_config rule_id (PDict items) (PBool (ov_active row)) with
      | Raise e => (stamped, Some e)
      | Ok (validated, active) =>
          (EffectiveRule (er_defaults base) (update_parameters (er_parameters base) validated) active
             (er_updated_by stamped) (er_updated_at stamped) true "applied" (er_applicability base), None)
      end
  end.

Definition with_status (r : effective_rule) (status : string) : effective_rule :=
  EffectiveRule (er_defaults r) (er_parameters r) (er_active r) (er_updated_by r) (er_updated_at r) (er_has_override r) status (er_applicability r).

Definition failed_status (e : exn) : string := if is_value_error e then "invalid" else "unavailable".

(** On a cursor of the caller.  A failed SELECT is undone by the savepoint;
    in an aborted transaction the SAVEPOINT is refused, and so are the
    statements of the handlers, whose errors they swallow. *)
Definition get_effective_detection_rule (rule_id : string) : M (conn override_table) effective_rule :=
  match defaults_of rule_id with
  | None => raise (ValueError "Unknown rule_id")
  | Some d =>
      let* applicability := of_outcome (get_rule_applicability_metadata rule_id) in
      let base := default_effective_rule d "default" applicability in
      fun c =>
        if cn_aborted c then (Ok (with_status base "unavailable"), c)
        else
          match select_override rule_id (cn_current c) with
          | (Raise e, t) => (Ok (with_status base (failed_status e)), Conn (cn_committed c) (restore (cn_current c) t) false)
          | (Ok None, t) => (Ok base, c)
          | (Ok (Some row), t) =>
              match apply_override rule_id base row with
              | (r, None) => (Ok r, c)
              | (r, Some e) => (Ok (with_status r (failed_status e)), c)
              end
          end
  end.

Fixpoint effective_rules (rule_ids : list string) : M (conn override_table) (list effective_rule) :=
  match rule_ids with
  | [] => ret []
  | rule_id :: rule_ids =>
      let* r := get_effective_detection_rule rule_id in
      let* rules := effective_rules rule_ids in
      ret (r :: rules)
  end.

(** The list shown when a connection of its own cannot be opened. *)
Fixpoint unavailable_rules (defaults : list rule_defaults) : outcome (list effective_rule) :=
  match defaults with
  | [] => Ok []
  | d :: defaults =>
      let! applicability := get_rule_applicability_metadata (rd_rule_id d) in
      let! rules := unavailable_rules defaults in
      Ok (default_effective_rule d "unavailable" applicability :: rules)
  end.

Definition get_all_effective_detection_rules (committed : option override_table) : outcome (list effective_rule) :=
  match committed with
  | None => unavailable_rules get_detection_rule_defaults
  | Some t =>
      match effective_rules (map rd_rule_id get_detection_rule_defaults) (open_conn t) with
      | (Ok rules, _) => Ok rules
      | (Raise _, _) => unavailable_rules get_detection_rule_defaults
      end
  end.

(** ** The admin route *)

Inductive rule_response :=
  | RuleError (status : Z) (message : string)
  | RuleUpdated (r : effective_rule).

(** One entry of the changes an update reports. *)
Inductive rule_change :=
  | ParameterChange (field : string) (old new : option Z)
  | ActiveChange (old new : bool).

(** What log_audit_event is told. *)
Record rule_audit := RuleAudit {
  ra_rule_id : string;
  ra_old_parameters : parameters; ra_new_parameters : parameters;
  ra_old_active : bool; ra_new_active : bool;
  ra_changes : list rule_change;
}.

Definition parameter_changes (old merged : parameters) : list rule_change :=
  let keys := merge_sort str_le (remove_dups (map fst old ++ map fst merged)) in
  omap (fun key =>
    let old_value := parameter old key in
    let new_value := or_else (parameter merged key) old_value in
    if bool_decide (old_value = new_value) then None else Some (ParameterChange key old_value new_value)) keys.

Definition rule_changes (old : effective_rule) (merged : parameters) (updated_active : bool) : list rule_change :=
  parameter_changes (er_parameters old) merged ++
  (if Bool.eqb (er_active old) updated_active then [] else [ActiveChange (er_active old) updated_active]).

(** INSERT .. ON CONFLICT (rule_id) DO UPDATE. *)
Definition write_override (rule_id : string) (row : override_row) : M override_table unit := fun t =>
  match t with None => (no_table, t) | Some rows => (Ok tt, Some (<[rule_id := row]> rows)) end.

Definition parameters_value (d : parameters) : pyval := PDict (map (fun kv => (kv.1, PInt kv.2)) d).

Definition store_rule_override (clk : clock) (rule_id : string) (payload : pydict) (user : option string)
    : M (conn override_table) (rule_response * option rule_audit) :=
  let* old := get_effective_detection_rule rule_id in
  let requested_active := default (PBool (er_active old)) (dlookup payload "active") in
  let requested_parameters := default (PDict []) (dlookup payload "parameters") in
  match validate_detection_rule_config rule_id requested_parameters requested_active with
  | Raise e =>
      if is_value_error e then rollback_conn ;;; ret (RuleError 400 (exn_str e), None) else raise e
  | Ok (normalized, updated_active) =>
      let merged := update_parameters (er_parameters old) normalized in
      Tables.execute (write_override rule_id (OverrideRow (parameters_value merged) updated_active user (sql_now clk))) ;;;
      let* updated := get_effective_detection_rule rule_id in
      commit_conn ;;;
      ret (RuleUpdated updated,
           Some (RuleAudit rule_id (er_parameters old) (er_parameters updated) (er_active old) (er_active updated)
                   (rule_changes old merged updated_active)))
  end.

Definition first_unknown_field (payload : pydict) : option string :=
  head (merge_sort str_le (filter (fun k => str_in k ["parameters"; "active"] = false) (map fst payload))).

Definition update_detection_rule (clk : clock) (rule_id : string) (payload : pyval) (user : option string)
    : M (conn override_table) (rule_response * option rule_audit) :=
  match defaults_of rule_id with
  | None => ret (RuleError 404 "Detection rule not found", None)
  | Some _ =>
      match payload with
      | PDict payload =>
          match first_unknown_field payload with
          | Some field => ret (RuleError 400 ("Unknown field: " +:+ field), None)
          | None =>
              if bool_decide (payload = []) then ret (RuleError 400 "At least one of parameters or active is required", None)
              else
                match dlookup payload "active" with
                | None | Some (PBool _) =>
                    try_catch (store_rule_override clk rule_id payload user)
                      (fun _ => rollback_conn ;;; ret (RuleError 500 "Unable to update detection rule", None))
                | Some _ => ret (RuleError 400 "Active must be a boolean", None)
                end
          end
      | _ => ret (RuleError 400 "Invalid JSON", None)
      end
  end.
End Config.

(** * What the configuration of the rules guarantees

    Whatever the table of overrides holds, the effective rule has exactly
    the parameters of the catalog, all within the bounds of the validation;
    an update through the admin route takes effect whole or not at all. *)

(** ** The catalog *)

Lemma catalog_ids_distinct : NoDup (map rc_rule_id CATALOG_RECORDS).
Proof. apply (bool_decide_unpack _). vm_compute. exact I. Qed.

(** The catalog passes its own validation with the rules the engines
    implement. *)
Lemma catalog_validates :
  validate_detection_rule_catalog CATALOG_RECORDS
    (Some (map rc_rule_id (get_base_rule_catalog_records false))) (Some (map rc_rule_id (get_correlation_rule_catalog_records false))) = Ok tt.
Proof. vm_compute. reflexivity. Qed.

Definition parameters_in_bounds (d : parameters) : Prop := Forall (fun kv => in_bounds kv.1 kv.2 = true) d.

(** What the defaults of a rule guarantee. *)
Record defaults_ok (d : rule_defaults) : Prop := DefaultsOk {
  do_bounds : parameters_in_bounds (rd_parameters d);
  do_keys : NoDup (map fst (rd_parameters d));
  do_active : rd_active d = true;
  do_metadata : exists m, get_rule_applicability_metadata (rd_rule_id d) = Ok m;
}.

Definition defaults_check (d : rule_defaults) : bool :=
  forallb (fun kv => in_bounds kv.1 kv.2) (rd_parameters d) && bool_decide (NoDup (map fst (rd_parameters d))) && rd_active d &&
  match get_rule_applicability_metadata (rd_rule_id d) with Ok _ => true | Raise _ => false end.

Lemma defaults_checked : forallb defaults_check get_detection_rule_defaults = true.
Proof. vm_compute. reflexivity. Qed.

Lemma checked_ok d : defaults_check d = true -> defaults_ok d.
Proof.
  unfold defaults_check. intros [[[Hb Hk]%andb_true_iff Ha]%andb_true_iff Hm]%andb_true_iff. split.
  - apply list.Forall_forall. intros kv Hkv. rewrite forallb_forall in Hb. by apply Hb, list_elem_of_In.
  - by apply bool_decide_eq_true in Hk.
  - done.
  - destruct (get_rule_applicability_metadata _) as [m|]; [by exists m|done].
Qed.

Lemma found_checked l rule_id d : forallb defaults_check l = true -> find (fun d => String.eqb (rd_rule_id d) rule_id) l = Some d ->
  rd_rule_id d = rule_id /\ defaults_ok d.
Proof.
  intros Hall [Hin Heq]%find_some. apply String.eqb_eq in Heq. split; [done|]. apply checked_ok.
  rewrite forallb_forall in Hall. by apply Hall.
Qed.

Lemma defaults_of_ok rule_id d : defaults_of rule_id = Some d -> rd_rule_id d = rule_id /\ defaults_ok d.
Proof. exact (found_checked _ rule_id d defaults_checked). Qed.

(** ** Dicts of integers *)

Lemma parameter_in d k : k ∈ map fst d <-> is_Some (parameter d k).
Proof.
  induction d as [|[k' v] d IH]; cbn; [split; [intros H; by apply not_elem_of_nil in H|by intros [? ?]]|].
  rewrite elem_of_cons. destruct (String.eqb_spec k' k) as [->|Hne]; [split; eauto|]. rewrite IH. split; [intros [-> |?]; done|by right].
Qed.

Lemma set_keys d k v : k ∈ map fst d -> map fst (set_parameter d k v) = map fst d.
Proof.
  induction d as [|[k' v'] d IH]; cbn; intros Hk; [by apply not_elem_of_nil in Hk|].
  destruct (String.eqb_spec k' k) as [->|Hne]; cbn; [done|]. f_equal. apply IH. apply elem_of_cons in Hk as [-> |?]; done.
Qed.

Lemma set_in_bounds d k v : in_bounds k v = true -> parameters_in_bounds d -> parameters_in_bounds (set_parameter d k v).
Proof.
  intros Hv. induction 1 as [|[k' v'] d Hkv Hd IH]; cbn; [by repeat constructor|].
  destruct (String.eqb_spec k' k) as [->|Hne]; by constructor.
Qed.

Lemma set_subset d k v (allowed : list string) : k ∈ allowed -> map fst d ⊆ allowed -> map fst (set_parameter d k v) ⊆ allowed.
Proof.
  intros Hk. induction d as [|[k' v'] d IH]; cbn; intros Hs; [set_solver|].
  destruct (String.eqb_spec k' k) as [->|Hne]; cbn; [done|]. set_solver.
Qed.

Lemma update_keys d e : map fst e ⊆ map fst d -> map fst (update_parameters d e) = map fst d.
Proof.
  unfold update_parameters. revert d. induction e as [|[k v] e IH]; intros d Hs; cbn in *; [done|].
  rewrite IH; rewrite set_keys by set_solver; [done|set_solver].
Qed.

Lemma update_in_bounds d e : parameters_in_bounds d -> parameters_in_bounds e -> parameters_in_bounds (update_parameters d e).
Proof.
  unfold update_parameters. intros Hd He. revert d Hd. induction He as [|[k v] e Hkv _ IH]; intros d Hd; cbn; [done|].
  apply IH. by apply set_in_bounds.
Qed.

Lemma parameter_set d k v k' : parameter (set_parameter d k v) k' = if String.eqb k k' then Some v else parameter d k'.
Proof.
  induction d as [|[k0 v0] d IH]; cbn; [done|].
  destruct (String.eqb_spec k0 k) as [->|Hne]; cbn; [by destruct (String.eqb k k')|]. rewrite IH.
  destruct (String.eqb_spec k0 k') as [->|]; [|done]. by destruct (String.eqb_spec k k') as [->|].
Qed.

(** Two dicts with the same keys in the same order and the same values. *)
Lemma parameters_ext (d e : parameters) : NoDup (map fst d) -> map fst d = map fst e ->
  (forall k, parameter d k = parameter e k) -> d = e.
Proof.
  revert e. induction d as [|[k v] d IH]; intros [|[k' v'] e] Hnd Hk Hv; try done.
  injection Hk as -> Hk. apply NoDup_cons in Hnd as [Hn Hnd].
  pose proof (Hv k') as Hhd. cbn in Hhd. rewrite String.eqb_refl in Hhd. injection Hhd as ->. f_equal. apply IH; [done|done|].
  intros j. specialize (Hv j). cbn in Hv. destruct (String.eqb_spec k' j) as [->|]; [|done].
  assert (forall f : parameters, j ∉ map fst f -> parameter f j = None) as Hnone.
  { intros f Hf. rewrite parameter_in in Hf. destruct (parameter f j); [destruct Hf; by eexists|done]. }
  rewrite !Hnone; [done| |done]. by rewrite <- Hk.
Qed.

Lemma update_parameter d e k : NoDup (map fst e) ->
  parameter (update_parameters d e) k = or_else (parameter e k) (parameter d k).
Proof.
  unfold update_parameters. revert d. induction e as [|[k' v] e IH]; intros d Hnd; cbn; [done|].
  apply NoDup_cons in Hnd as [Hn Hnd]. rewrite IH by done. cbn. rewrite parameter_set.
  destruct (String.eqb_spec k' k) as [->|]; [|done].
  rewrite parameter_in in Hn. cbn [fst] in Hn. destruct (parameter e k); [destruct Hn; by eexists|done].
Qed.

Lemma update_all d e : NoDup (map fst e) -> map fst d = map fst e -> update_parameters d e = e.
Proof.
  intros Hnd Hk. apply parameters_ext.
  - rewrite update_keys by (rewrite Hk; set_solver). by rewrite Hk.
  - rewrite update_keys by (rewrite Hk; set_solver). done.
  - intros k. rewrite update_parameter by done. destruct (parameter e k) eqn:E; [done|]. cbn.
    destruct (parameter d k) eqn:Ed; [|done]. assert (k ∈ map fst e) as Hin by (rewrite <- Hk; apply parameter_in; eauto).
    apply parameter_in in Hin as [? ?]. congruence.
Qed.

Section Proofs.
Context (json_loads : json_decoder).
Abbreviation effective := (get_effective_detection_rule json_loads).

(** ** Validation *)

Lemma normalize_ok allowed items normalized result :
  normalize_parameters allowed items normalized = Ok result ->
  parameters_in_bounds normalized -> map fst normalized ⊆ allowed ->
  parameters_in_bounds result /\ map fst result ⊆ allowed.
Proof.
  revert normalized. induction items as [|[key value] items IH]; cbn; intros normalized H Hb Hs; [by injection H as <-|].
  destruct (str_in key allowed) eqn:Ek; cbn [negb] in H; [|done]. destruct value; try done.
  destruct (in_bounds key z) eqn:Eb; cbn [negb] in H; [|done]. apply str_in_spec in Ek.
  apply IH in H; [done|by apply set_in_bounds|by apply set_subset].
Qed.

Lemma validated_ok rule_id d raw active normalized b : defaults_of rule_id = Some d ->
  validate_detection_rule_config json_loads rule_id raw active = Ok (normalized, b) ->
  parameters_in_bounds normalized /\ map fst normalized ⊆ map fst (rd_parameters d) /\ active = PBool b.
Proof.
  unfold validate_detection_rule_config. intros ->. destruct (parse_detection_rule_parameters json_loads raw) as [items|]; [|done].
  cbn [obind]. destruct active; try done. destruct (normalize_parameters _ items []) as [n|] eqn:En; [|done].
  intros [= <- <-]. apply normalize_ok in En; [|constructor|set_solver]. tauto.
Qed.

(** ** The effective rule *)

Record rule_ok (d : rule_defaults) (r : effective_rule) : Prop := RuleOk {
  ro_defaults : er_defaults r = d;
  ro_keys : map fst (er_parameters r) = map fst (rd_parameters d);
  ro_bounds : parameters_in_bounds (er_parameters r);
  ro_status : er_override_status r ∈ ["default"; "applied"; "invalid"; "unavailable"];
  ro_fallback : er_override_status r <> "applied" -> er_parameters r = rd_parameters d /\ er_active r = true;
}.

Lemma base_ok d status m : defaults_ok d -> status ∈ ["default"; "invalid"; "unavailable"] -> rule_ok d (default_effective_rule d status m).
Proof. intros [Hb Hk Ha Hm] Hs. split; cbn; try done. set_solver. Qed.

Lemma failed_status_known e : failed_status e ∈ ["invalid"; "unavailable"].
Proof. unfold failed_status. destruct (is_value_error e); set_solver. Qed.

Lemma with_status_ok d r e : rule_ok d r -> er_override_status r <> "applied" -> rule_ok d (with_status r (failed_status e)).
Proof.
  intros [H1 H2 H3 H4 H5] Hne. pose proof (failed_status_known e) as Hf. split; cbn; try done; [set_solver|]. by intros _; apply H5.
Qed.

Lemma override_ok rule_id d m row r o : defaults_of rule_id = Some d -> defaults_ok d ->
  apply_override json_loads rule_id (default_effective_rule d "default" m) row = (r, o) ->
  rule_ok d r /\ (o <> None -> er_override_status r <> "applied").
Proof.
  intros Hd Hok. unfold apply_override. destruct Hok as [Hb Hk Ha Hm].
  destruct (parse_detection_rule_parameters json_loads (ov_parameters row)) as [items|e].
  - destruct (validate_detection_rule_config json_loads rule_id (PDict items) (PBool (ov_active row))) as [[validated active]|e] eqn:Ev;
      intros [= <- <-].
    + split; [|done]. destruct (validated_ok _ _ _ _ _ _ Hd Ev) as (Hvb & Hvk & _). split; cbn; [done|by apply update_keys| |set_solver|done].
      by apply update_in_bounds.
    + split; [|done]. split; cbn; try done; set_solver.
  - intros [= <- <-]. split; [|done]. split; cbn; try done; set_solver.
Qed.

Lemma effective_loaded rule_id d c : defaults_of rule_id = Some d -> exists r, effective rule_id c = (Ok r, c) /\ rule_ok d r.
Proof.
  intros Hd. destruct (defaults_of_ok _ _ Hd) as [Hid Hok]. destruct (do_metadata _ Hok) as [m Hm]. rewrite Hid in Hm.
  unfold get_effective_detection_rule. rewrite Hd. unfold bind, of_outcome. rewrite Hm.
  destruct c as [com cur ab]. cbn [cn_aborted cn_current cn_committed].
  destruct ab; [eexists; split; [reflexivity|apply base_ok; [done|set_solver]]|].
  unfold select_override. destruct cur as [rows|].
  - destruct (rows !! rule_id) as [row|].
    + destruct (apply_override json_loads rule_id (default_effective_rule d "default" m) row) as [r [e|]] eqn:Eo;
        destruct (override_ok _ _ _ _ _ _ Hd Hok Eo) as [Hr Hne]; (eexists; split; [reflexivity|]); [|done].
      apply with_status_ok; [done|by apply Hne].
    + eexists; split; [reflexivity|]. apply base_ok; [done|set_solver].
  - eexists; split; [reflexivity|]. apply (base_ok d "unavailable"); [done|set_solver].
Qed.

(** C24: whatever the table of overrides holds, and even in a transaction
    that has failed or before the table exists, the effective rule of a base
    detection rule is found without an exception and without touching the
    connection.  It has exactly the parameters of the catalog, its threshold
    between 1 and 100 and every other parameter between 1 and 1440; unless a
    valid override is applied they are the defaults, and the rule is
    active. *)
Theorem effective_rule_in_bounds rule_id d c : defaults_of rule_id = Some d ->
  exists r, effective rule_id c = (Ok r, c) /\ er_defaults r = d /\
    map fst (er_parameters r) = map fst (rd_parameters d) /\
    (forall k v, (k, v) ∈ er_parameters r -> 1 <= v <= if String.eqb k "threshold" then 100 else 1440) /\
    (er_override_status r <> "applied" -> er_parameters r = rd_parameters d /\ er_active r = true).
Proof.
  intros Hd. destruct (effective_loaded rule_id d c Hd) as (r & Hr & [H1 H2 H3 H4 H5]). exists r. split_and!; [done..| |done].
  intros k v Hkv. unfold parameters_in_bounds in H3. rewrite list.Forall_forall in H3. specialize (H3 (k, v) Hkv). cbn in H3.
  unfold in_bounds, DETECTION_THRESHOLD_MIN, DETECTION_THRESHOLD_MAX, DETECTION_WINDOW_MINUTES_MIN, DETECTION_WINDOW_MINUTES_MAX in H3.
  destruct (String.eqb k "threshold"); lia.
Qed.

(** ** Updates *)

Lemma set_fresh d k v : k ∉ map fst d -> set_parameter d k v = d ++ [(k, v)].
Proof.
  induction d as [|[k' v'] d IH]; cbn; intros Hk; [done|]. apply not_elem_of_cons in Hk as [Hne Hk].
  destruct (String.eqb_spec k' k) as [->|_]; [done|]. by rewrite IH.
Qed.

Lemma normalize_stored allowed e acc : NoDup (map fst (acc ++ e)) -> parameters_in_bounds e -> map fst e ⊆ allowed ->
  normalize_parameters allowed (map (fun kv => (kv.1, PInt kv.2)) e) acc = Ok (acc ++ e).
Proof.
  revert acc. induction e as [|[k v] e IH]; intros acc Hnd Hb Hs; cbn; [by rewrite app_nil_r|].
  apply Forall_cons in Hb as [Hv Hb]. cbn in Hv, Hs.
  assert (str_in k allowed = true) as -> by (apply str_in_spec; set_solver). cbn [negb]. rewrite Hv. cbn [negb].
  rewrite set_fresh.
  - rewrite IH; [by rewrite <- app_assoc|by rewrite <- app_assoc|done|set_solver].
  - rewrite map_app in Hnd. apply NoDup_app in Hnd as (_ & Hd & _). intros Hin. apply (Hd k Hin). cbn. set_solver.
Qed.

Lemma validate_stored rule_id d e active : defaults_of rule_id = Some d -> defaults_ok d ->
  map fst e = map fst (rd_parameters d) -> parameters_in_bounds e ->
  validate_detection_rule_config json_loads rule_id (parameters_value e) (PBool active) = Ok (e, active).
Proof.
  intros Hd Hok Hk Hb. unfold validate_detection_rule_config. rewrite Hd. cbn [parse_detection_rule_parameters parameters_value obind].
  rewrite normalize_stored; [done| |done|].
  - cbn [app]. rewrite Hk. apply (do_keys _ Hok).
  - by rewrite Hk.
Qed.

(** The row an update writes is the rule in force. *)
Lemma stored_in_force rule_id d e active user now rows : defaults_of rule_id = Some d ->
  map fst e = map fst (rd_parameters d) -> parameters_in_bounds e ->
  rows !! rule_id = Some (OverrideRow (parameters_value e) active user now) ->
  exists r, (forall c, cn_current c = Some rows -> cn_aborted c = false -> effective rule_id c = (Ok r, c)) /\
    er_parameters r = e /\ er_active r = active /\ er_override_status r = "applied".
Proof.
  intros Hd Hk Hb Hrow. destruct (defaults_of_ok _ _ Hd) as [Hid Hok]. destruct (do_metadata _ Hok) as [m Hm]. rewrite Hid in Hm.
  pose proof (validate_stored rule_id d e active Hd Hok Hk Hb) as Hv.
  assert (update_parameters (rd_parameters d) e = e) as Hup by (apply update_all; [rewrite Hk; apply (do_keys _ Hok)|done]).
  exists (EffectiveRule d (update_parameters (rd_parameters d) e) active user (Some (isoformat " " (utc_datetime now))) true "applied" m).
  split; [|split_and!; [exact Hup|reflexivity|reflexivity]].
  intros [com cur ab] Hcur Hab. cbn in Hcur, Hab. subst cur ab. unfold get_effective_detection_rule. rewrite Hd. unfold bind, of_outcome.
  rewrite Hm. cbn [cn_aborted cn_current select_override]. rewrite Hrow.
  unfold apply_override. cbn [parameters_value ov_parameters ov_active parse_detection_rule_parameters obind].
  change (PDict (map (fun kv => (kv.1, PInt kv.2)) e)) with (parameters_value e). rewrite Hv. reflexivity.
Qed.

(** A load depends on the rule's own row only. *)
Lemma effective_other rule_id rows rows' : rows !! rule_id = rows' !! rule_id ->
  (effective rule_id (open_conn (Some rows))).1 = (effective rule_id (open_conn (Some rows'))).1.
Proof.
  intros Hrow. unfold get_effective_detection_rule. destruct (defaults_of rule_id); [|done]. unfold bind, of_outcome.
  destruct (get_rule_applicability_metadata rule_id); [|done]. cbn [open_conn cn_aborted cn_current select_override]. rewrite <- Hrow.
  destruct (rows !! rule_id); [|done]. by destruct (apply_override _ _ _ _) as [? []].
Qed.

(** an update of a rule through the admin route takes effect as a whole or
    not at all.  When the validation accepts it, the one row is committed,
    with the parameters in force before (the defaults, when the old row was
    not valid) overwritten by those of the request; it is what the handler
    answers and what every later load finds, as an applied override, and the
    other rules load as before.  When the validation refuses it, nothing
    changes and the answer is 400. *)
Theorem rule_update_all_or_nothing clk rule_id d payload user rows :
  defaults_of rule_id = Some d -> first_unknown_field payload = None -> payload <> [] ->
  match dlookup payload "active" with None | Some (PBool _) => True | Some _ => False end ->
  exists old, effective rule_id (open_conn (Some rows)) = (Ok old, open_conn (Some rows)) /\
    let update := update_detection_rule json_loads clk rule_id (PDict payload) user (open_conn (Some rows)) in
    match validate_detection_rule_config json_loads rule_id (default (PDict []) (dlookup payload "parameters"))
            (default (PBool (er_active old)) (dlookup payload "active")) with
    | Ok (requested, active) =>
        let merged := update_parameters (er_parameters old) requested in
        let rows' := <[rule_id := OverrideRow (parameters_value merged) active user (sql_now clk)]> rows in
        exists new audit, update = (Ok (RuleUpdated new, Some audit), open_conn (Some rows')) /\
          er_parameters new = merged /\ er_active new = active /\ er_override_status new = "applied" /\
          effective rule_id (open_conn (Some rows')) = (Ok new, open_conn (Some rows')) /\
          forall other, other <> rule_id ->
            (effective other (open_conn (Some rows'))).1 = (effective other (open_conn (Some rows))).1
    | Raise (ValueError message) => update = (Ok (RuleError 400 message, None), open_conn (Some rows))
    | Raise _ => exists status message, update = (Ok (RuleError status message, None), open_conn (Some rows))
    end.
Proof.
  intros Hd Hf Hne Hactive. destruct (effective_loaded rule_id d (open_conn (Some rows)) Hd) as (old & Hold & Hro).
  exists old. split; [done|]. cbv zeta. unfold update_detection_rule. rewrite Hd, Hf, bool_decide_eq_false_2 by done.
  assert (match dlookup payload "active" with
          | None | Some (PBool _) => try_catch (store_rule_override json_loads clk rule_id payload user)
                      (fun _ => rollback_conn ;;; ret (RuleError 500 "Unable to update detection rule", None))
          | Some _ => ret (RuleError 400 "Active must be a boolean", None)
          end = try_catch (store_rule_override json_loads clk rule_id payload user)
                      (fun _ => rollback_conn ;;; ret (RuleError 500 "Unable to update detection rule", None))) as ->.
  { destruct (dlookup payload "active") as [[]|]; done. }
  unfold try_catch, store_rule_override. rewrite (bind_ok _ _ _ old _ Hold).
  destruct (validate_detection_rule_config _ _ _ _) as [[requested active]|e] eqn:Ev; [|by destruct e; eauto].
  destruct (validated_ok _ _ _ _ _ _ Hd Ev) as (Hvb & Hvk & _). destruct Hro as [H1 H2 H3 H4 H5].
  set (merged := update_parameters (er_parameters old) requested).
  set (rows' := <[rule_id := OverrideRow (parameters_value merged) active user (sql_now clk)]> rows).
  assert (map fst merged = map fst (rd_parameters d)) as Hk by (unfold merged; rewrite update_keys by (by rewrite H2); done).
  assert (parameters_in_bounds merged) as Hb by by apply update_in_bounds.
  destruct (stored_in_force rule_id d merged active user (sql_now clk) rows' Hd Hk Hb) as (new & Hload & Hp & Ha & Hs).
  { unfold rows'. by rewrite lookup_insert_eq. }
  exists new. eexists. split; [|split_and!; [done..|by apply Hload|]].
  - unfold bind, Tables.execute. cbn [open_conn cn_aborted cn_current write_override cn_committed]. fold rows'.
    rewrite Hload by done. reflexivity.
  - intros other Hother. apply effective_other. unfold rows'. by rewrite lookup_insert_ne.
Qed.
End Proofs.

(** A table with a broken override: a threshold above its bound. *)
Definition ex_overrides : gmap string override_row :=
  {["port_scan_threshold" := OverrideRow (PDict [("threshold", PInt 500)]) false (Some "ann") 0]}.
Definition ex_json : json_decoder := fun _ => Raise (ValueError "Expecting value").

Lemma effective_rule_in_bounds_witness :
  exists d r, defaults_of "port_scan_threshold" = Some d /\
    get_effective_detection_rule ex_json "port_scan_threshold" (open_conn (Some ex_overrides)) = (Ok r, open_conn (Some ex_overrides)) /\
    er_override_status r = "invalid" /\ er_parameters r = rd_parameters d /\ er_active r = true.
Proof.
  destruct (defaults_of "port_scan_threshold") as [d|] eqn:Hd; [|discriminate Hd].
  destruct (effective_rule_in_bounds ex_json "port_scan_threshold" d (open_conn (Some ex_overrides)) Hd) as (r & Hr & _ & _ & _ & Hf).
  exists d, r. split; [done|]. split; [done|].
  assert (er_override_status r = "invalid") as Hs.
  { assert (Ok r = (get_effective_detection_rule ex_json "port_scan_threshold" (open_conn (Some ex_overrides))).1) as Heq by by rewrite Hr.
    vm_compute in Heq. injection Heq as ->. reflexivity. }
  split; [done|]. apply Hf. by rewrite Hs.
Defined.

(** The broken override is repaired by a valid update. *)
Lemma rule_update_all_or_nothing_witness :
  exists new, (update_detection_rule ex_json (Clock 0 7) "port_scan_threshold" (PDict [("parameters", PDict [("threshold", PInt 9)])]) (Some "bob")
    (open_conn (Some ex_overrides))).1 = Ok new /\ exists r, new.1 = RuleUpdated r /\ er_parameters r = [("threshold", 9); ("window_minutes", 15)] /\
    er_active r = true /\ er_override_status r = "applied".
Proof.
  destruct (defaults_of "port_scan_threshold") as [d|] eqn:Hd; [|discriminate Hd].
  destruct (rule_update_all_or_nothing ex_json (Clock 0 7) "port_scan_threshold" d [("parameters", PDict [("threshold", PInt 9)])] (Some "bob")
    ex_overrides Hd) as (old & Hold & H); [by vm_compute|discriminate|exact I|].
  assert (er_parameters old = [("threshold", 2); ("window_minutes", 15)] /\ er_active old = true) as [Hp Ha].
  { assert (Ok old = (get_effective_detection_rule ex_json "port_scan_threshold" (open_conn (Some ex_overrides))).1) as Heq by by rewrite Hold.
    vm_compute in Heq. injection Heq as ->. done. }
  cbn [dlookup String.eqb Ascii.eqb Bool.eqb default] in H. rewrite Ha, Hp in H. vm_compute validate_detection_rule_config in H.
  destruct H as (new & audit & Hup & H1 & H2 & H3 & _). exists (RuleUpdated new, Some audit). split; [by rewrite Hup|].
  exists new. split; [done|]. split; [by rewrite H1|]. done.
Defined.
