(* ===== verification/Reputation.v ===== *)
(** * Reputation: the reputation of an address, in core/ip_helpers.py

    [lookup_ip_reputation] asks AbuseIPDB through the cache of the process;
    the response action of an alert follows from the score. *)

From S2P Require Import Prelude PyText PyFloat PyValue.

Open Scope Z_scope.

(** The score is a number as the provider's JSON has it. *)
Record reputation := Reputation { rp_score : pyval; rp_label : string; rp_source : string; rp_summary : string }.

(** [v >= k] for a value and an integer; other values raise TypeError. *)
Definition at_least (v : pyval) (k : Z) : option bool :=
  match v with
  | PFloat f => match float_of_int k with Ok x => Some (fle x f) | Raise _ => None end
  | _ => (fun z => k <=? z) <$> as_int v
  end.

(** ** The provider *)

(** What [requests.get] comes back with; the body when it is JSON. *)
Inductive abuse_reply :=
  | NoReply
  | Reply (status : Z) (body : option pyval).

(** [None] where the code raises. *)
Definition reputation_label (score : pyval) : option string :=
  match at_least score 70, at_least score 30 with
  | Some true, _ => Some "high-risk"
  | Some false, Some true => Some "medium-risk"
  | Some false, Some false => Some "low-risk"
  | _, _ => None
  end.

Definition reply_reputation (reply : abuse_reply) : option reputation :=
  match reply with
  | Reply status (Some (PDict body)) =>
      if negb (status =? 200) then None
      else
        match dlookup body "data" with
        | Some (PDict data) =>
            let score := default (PInt 0) (dlookup data "abuseConfidenceScore") in
            match reputation_label score with
            | None => None
            | Some label =>
                Some (Reputation score label "abuseipdb"
                  (py_str (default (PInt 0) (dlookup data "totalReports")) +:+ " reports. ISP: " +:+
                   py_str (default (PStr "unknown") (dlookup data "isp"))))
            end
        | _ => None
        end
  | _ => None
  end.

Definition mock_reputation : reputation := Reputation (PInt 50) "unknown" "mock" "No API key configured".
Definition fallback_reputation : reputation := Reputation (PInt 50) "unknown" "fallback" "API lookup failed".

(** ** The cache *)

Definition REPUTATION_CACHE_SIZE : nat := 5000.

(** [REPUTATION_CACHE]. *)
Abbreviation reputation_cache := (gmap string reputation).

Definition cache_reputation (ip_address : string) (r : reputation) (cache : reputation_cache) : reputation_cache :=
  let cache := <[ip_address := r]> cache in
  if (REPUTATION_CACHE_SIZE <? size cache)%nat then ∅ else cache.

Section Lookup.
Context {W : Type} (api_key : bool) (abuseipdb : string -> W -> abuse_reply * W).

Record lookups := Lookups { lk_cache : reputation_cache; lk_world : W }.

Definition remember (ip_address : string) (r : reputation) : M lookups reputation := fun s =>
  (Ok r, Lookups (cache_reputation ip_address r (lk_cache s)) (lk_world s)).

Definition ask_provider (ip_address : string) : M lookups abuse_reply := fun s =>
  let '(reply, w) := abuseipdb ip_address (lk_world s) in (Ok reply, Lookups (lk_cache s) w).

Definition lookup_ip_reputation (ip_address : string) : M lookups reputation :=
  let* s := get in
  match lk_cache s !! ip_address with
  | Some r => ret r
  | None =>
      if negb api_key then remember ip_address mock_reputation
      else
        let* reply := ask_provider ip_address in
        remember ip_address (default fallback_reputation (reply_reputation reply))
  end.
End Lookup.
Arguments lookups : clear implicits.
Arguments Lookups {W} _ _.

(** ** The response *)

Definition determine_response_action (score : pyval) : outcome string :=
  match at_least score 80, at_least score 60 with
  | Some true, _ => Ok "block_ip"
  | Some false, Some true => Ok "flag_high_priority"
  | Some false, Some false => Ok "monitor"
  | _, _ => Raise TypeError
  end.

Definition floor_response_action_for_severity (response_action severity : string) : string :=
  let action := if is_empty (strip response_action) then "monitor" else strip response_action in
  if String.eqb (lower (strip severity)) "critical" && String.eqb action "monitor" then "flag_high_priority" else action.

(** ** Facts *)

Definition is_number (v : pyval) : bool := match v with PInt _ | PBool _ | PFloat _ => true | _ => false end.

Lemma number_compares v k : is_number v = true -> k ∈ [30; 60; 70; 80] -> is_Some (at_least v k).
Proof.
  intros Hv Hk. destruct v; try discriminate Hv; cbn; try by eexists.
  repeat (apply elem_of_cons in Hk as [->|Hk]; [eexists; vm_compute; reflexivity|]). by apply not_elem_of_nil in Hk.
Qed.

Lemma compared_number v k b : at_least v k = Some b -> is_number v = true.
Proof. by destruct v. Qed.

Lemma response_of_number v : is_number v = true ->
  exists action, determine_response_action v = Ok action /\ action ∈ ["block_ip"; "flag_high_priority"; "monitor"].
Proof.
  intros Hv. unfold determine_response_action.
  destruct (number_compares v 80 Hv) as [x ->]; [set_solver|]. destruct (number_compares v 60 Hv) as [y ->]; [set_solver|].
  destruct x, y; eexists; (split; [reflexivity|set_solver]).
Qed.

Lemma floor_response action severity : action ∈ ["block_ip"; "flag_high_priority"; "monitor"] ->
  floor_response_action_for_severity action severity ∈ ["block_ip"; "flag_high_priority"; "monitor"].
Proof.
  intros Ha. unfold floor_response_action_for_severity. destruct (_ && _); [set_solver|].
  repeat (apply elem_of_cons in Ha as [->|Ha]; [set_solver|]). by apply not_elem_of_nil in Ha.
Qed.

Definition reputations_scored (cache : reputation_cache) : Prop := map_Forall (fun _ r => is_number (rp_score r) = true) cache.

Lemma reply_scored reply r : reply_reputation reply = Some r -> is_number (rp_score r) = true.
Proof.
  unfold reply_reputation. destruct reply as [|status [[]|]]; try done. destruct (negb _); [done|].
  destruct (dlookup d "data") as [[]|]; try done. destruct (reputation_label _) as [label|] eqn:E; [|done].
  intros [= <-]. cbn. unfold reputation_label in E. destruct (at_least _ 70) eqn:E70; [|done]. by eapply compared_number.
Qed.

Lemma cache_scored ip r cache : is_number (rp_score r) = true -> reputations_scored cache -> reputations_scored (cache_reputation ip r cache).
Proof. intros Hr Hc. unfold cache_reputation. destruct (_ <? _)%nat; [apply map_Forall_empty|]. by apply map_Forall_insert_2. Qed.

(** A lookup never raises, answers a score, and keeps the cache bounded. *)
Lemma lookup_scored {W} api_key abuseipdb ip (s : lookups W) : reputations_scored (lk_cache s) ->
  exists r s', lookup_ip_reputation api_key abuseipdb ip s = (Ok r, s') /\
    is_number (rp_score r) = true /\ reputations_scored (lk_cache s').
Proof.
  intros Hs. unfold lookup_ip_reputation. rewrite (bind_ok _ _ _ s s) by done.
  destruct (lk_cache s !! ip) as [r|] eqn:E; [exists r, s; split_and!; [done|by apply (Hs ip)|done]|].
  destruct api_key; cbn [negb].
  - unfold bind, ask_provider. destruct (abuseipdb ip (lk_world s)) as [reply w]. unfold remember. cbn [lk_cache lk_world].
    eexists _, _. split; [reflexivity|]. cbn [lk_cache].
    assert (is_number (rp_score (default fallback_reputation (reply_reputation reply))) = true) as Hn.
    { destruct (reply_reputation reply) eqn:Er; [by eapply reply_scored|done]. }
    split; [done|by apply cache_scored].
  - eexists _, _. split; [reflexivity|]. split; [done|by apply cache_scored].
Qed.

Lemma lookup_bounded {W} api_key abuseipdb ip (s : lookups W) : (size (lk_cache s) <= REPUTATION_CACHE_SIZE)%nat ->
  (size (lk_cache (lookup_ip_reputation api_key abuseipdb ip s).2) <= REPUTATION_CACHE_SIZE)%nat.
Proof.
  intros Hs. assert (forall r cache, size (cache_reputation ip r cache) <= REPUTATION_CACHE_SIZE)%nat as Hb.
  { intros r cache. unfold cache_reputation. destruct (_ <? _)%nat eqn:E; [rewrite map_size_empty; lia|].
    apply Nat.ltb_ge in E. exact E. }
  unfold lookup_ip_reputation. rewrite (bind_ok _ _ _ s s) by done. destruct (_ !! ip); [done|].
  destruct api_key; cbn [negb]; [|apply Hb]. unfold bind, ask_provider. destruct (abuseipdb ip (lk_world s)) as [reply w]. apply Hb.
Qed.
