(* ===== verification/Detections.v ===== *)
(** * Detections: the detectors of engines/detection_engine.py

    Twelve detectors count events of one address, source and type in a
    window and raise an alert at a threshold, unless one of the same address
    and type is open.  Eleven differ in what [detector] lists; the twelfth
    joins failed and successful logins.  The firewall detectors are in
    [PfsenseDetectors]. *)

From S2P Require Import Prelude Tables PyText PyFloat PyValue Alerts PfsenseFilter DetectionCatalog DetectionConfig.
From S2P Require Import Reputation.

(** * The tables and queries of detection

    The events, the alerts they raise, and the statements of
    engines/detection_engine.py and engines/correlation_engine.py on them.
    What PostgreSQL computes itself (the parser of inet, LOWER, the text of a
    JSON value, casts) is the record [postgres]. *)

Open Scope Z_scope.

(** ** PostgreSQL *)

Record postgres := Postgres {
  pg_now : Z;                              (** NOW(), of the transaction *)
  pg_inet : string -> option string;       (** an inet column, as it is printed back *)
  pg_lower : string -> string;             (** LOWER *)
  pg_space : ascii -> bool;                (** the class of \s in a pattern *)
  pg_json_text : pyval -> string;          (** ->> of a value that is neither a string nor null *)
  pg_float8 : string -> option pyfloat;    (** the cast to double precision *)
  pg_int4 : pyval -> option Z;             (** a number into an INTEGER column *)
  pg_text : pyval -> outcome string;       (** a parameter that is no string into a TEXT column *)
  pg_timestamptz : pyval -> outcome (option Z);
  pg_jsonb : pyval -> outcome pyval;       (** a value as JSONB keeps it *)
}.

(** ** Rows *)

Record event_row := EventRow {
  ev_event_type : string;
  ev_severity : string;
  ev_source_ip : string;
  ev_source : string;
  ev_source_type : string;
  ev_event_timestamp : option Z;
  ev_message : string;
  ev_app_name : string;
  ev_environment : string;
  ev_raw_payload : pyval;
  ev_created_at : Z;
}.

Record alert_row := AlertRow {
  al_alert_type : string;
  al_severity : string;
  al_source_ip : string;
  al_source : option string;
  al_source_type : option string;
  al_message : string;
  al_status : string;
  al_response_action : string;
  al_response_status : string;
  al_country : option string;
  al_city : option string;
  al_latitude : option pyfloat;
  al_longitude : option pyfloat;
  al_reputation_score : Z;
  al_reputation_label : string;
  al_reputation_source : string;
  al_reputation_summary : string;
  al_context : pyval;
  al_created_at : Z;
}.

(** The row as the driver returns it. *)
Definition alert_columns (i : Z) (r : alert_row) : pydict :=
  let opt_float o := match o with Some f => PFloat f | None => PNone end in
  [("id", PInt i); ("alert_type", PStr (al_alert_type r)); ("severity", PStr (al_severity r));
   ("source_ip", PStr (al_source_ip r)); ("source", opt_text (al_source r)); ("source_type", opt_text (al_source_type r));
   ("message", PStr (al_message r)); ("status", PStr (al_status r));
   ("country", opt_text (al_country r)); ("city", opt_text (al_city r));
   ("latitude", opt_float (al_latitude r)); ("longitude", opt_float (al_longitude r));
   ("reputation_score", PInt (al_reputation_score r)); ("reputation_label", PStr (al_reputation_label r));
   ("reputation_source", PStr (al_reputation_source r)); ("reputation_summary", PStr (al_reputation_summary r));
   ("response_action", PStr (al_response_action r)); ("response_status", PStr (al_response_status r));
   ("context", al_context r); ("created_at", PDateTime (utc_datetime (al_created_at r)))].

(** The location of an event. *)
Record location := Location {
  lo_country : option string;
  lo_city : option string;
  lo_latitude : option pyfloat;
  lo_longitude : option pyfloat;
}.

Definition no_location : location := Location None None None None.

(** A row of source_ingestion_health_state, as ingestion maintains it. *)
Record health_row := HealthRow {
  hr_latest_event_at : option Z;
  hr_latest_qualifying_at : option Z;
  hr_total_events : Z;
  hr_total_initialized : bool;
  hr_updated_at : Z;
}.

(** What is read of a row of audit_log; details NULL is PNone. *)
Record audit_row := AuditRow {
  au_target_alert_id : option Z;
  au_event_type : string;
  au_details : pyval;
  au_created_at : Z;
}.

Record siem_db := SiemDb {
  sd_events : gmap Z event_row;
  sd_event_seq : Z;
  sd_alerts : gmap Z alert_row;
  sd_alert_seq : Z;
  sd_overrides : override_table;
  sd_health : gmap string health_row;
  sd_audit : gmap Z audit_row;
  sd_filter : option (gmap string config_row);
}.

(** A rollback does not give back the values of the sequences. *)
#[export, refine] Instance siem_db_tx : Transactional siem_db := {
  restore snap cur := SiemDb (sd_events snap) (sd_event_seq cur) (sd_alerts snap) (sd_alert_seq cur) (sd_overrides snap) (sd_health snap)
                        (sd_audit snap) (sd_filter snap);
}.
Proof. all: by intros []. Defined.

(** ** Text functions *)

Definition is_blank_char (c : ascii) : bool := Ascii.eqb c " ".

Fixpoint trim_left (s : string) : string :=
  match s with String c s' => if is_blank_char c then trim_left s' else s | EmptyString => s end.
Fixpoint trim_right (s : string) : string :=
  match s with
  | EmptyString => EmptyString
  | String c s => match trim_right s with
                  | EmptyString => if is_blank_char c then EmptyString else String c EmptyString
                  | t => String c t
                  end
  end.

(** TRIM: spaces only. *)
Definition sql_trim (s : string) : string := trim_right (trim_left s).

(** NULLIF(s, ''). *)
Definition nullif_empty (s : string) : option string := if is_empty s then None else Some s.

(** An alert with the next id. *)
Definition add_alert (r : alert_row) (d : siem_db) : siem_db :=
  SiemDb (sd_events d) (sd_event_seq d) (<[sd_alert_seq d := r]> (sd_alerts d)) (sd_alert_seq d + 1) (sd_overrides d) (sd_health d)
    (sd_audit d) (sd_filter d).

Section Queries.
Context (pg : postgres).

(** [v->key] and [v->>key]. *)
Definition json_get (v : pyval) (key : string) : option pyval :=
  match v with PDict d => dlookup d key | _ => None end.
Definition json_text (o : option pyval) : option string :=
  match o with
  | None | Some PNone => None
  | Some (PStr s) => Some s
  | Some v => Some (pg_json_text pg v)
  end.

(** The normalized text of a column. *)
Definition normalized (o : option string) : option string :=
  match o with Some s => nullif_empty (pg_lower pg (sql_trim s)) | None => None end.

(** What [\s*([^,;]+)] captures at the start of a text: after the white
    space, up to a comma or semicolon; when nothing is left there, the white
    space gives back its last character. *)
Fixpoint up_to_separator (s : string) : string :=
  match s with
  | String c s => if Ascii.eqb c "," || Ascii.eqb c ";" then EmptyString else String c (up_to_separator s)
  | EmptyString => EmptyString
  end.
Fixpoint captured (last : string) (s : string) : option string :=
  match s with
  | String c s' =>
      if pg_space pg c then captured (String c EmptyString) s'
      else nullif_empty (if is_empty (up_to_separator s) then last else up_to_separator s)
  | EmptyString => nullif_empty last
  end.

(** SUBSTRING(s FROM 'Failed login attempt for username:\s*([^,;]+)'). *)
Fixpoint named_in_message (s : string) : option string :=
  let here :=
    match drop_prefix "Failed login attempt for username:" s with
    | Some rest => captured EmptyString rest
    | None => None
    end in
  match here, s with
  | Some name, _ => Some name
  | None, String _ s' => named_in_message s'
  | None, EmptyString => None
  end.

Definition payload_column (key : string) (e : event_row) : option string := json_text (json_get (ev_raw_payload e) key).

Definition normalized_username (e : event_row) : option string := normalized (payload_column "username" e).
Definition normalized_path (e : event_row) : option string := normalized (payload_column "path" e).

Definition extracted_username (e : event_row) : option string :=
  normalized
    (or_else (payload_column "username" e)
       (match payload_column "message" e with Some s => named_in_message s | None => None end)).

Definition destination_port (e : event_row) : option Z :=
  let text := or_else (payload_column "destination_port" e)
      (or_else (payload_column "dest_port" e) (or_else (payload_column "dst_port" e) (payload_column "port" e))) in
  match text with
  | Some s =>
      if all_chars is_digit s && negb (is_empty s) && (String.length s <=? 5)%nat
      then let port := decimal s in if (1 <=? port) && (port <=? 65535) then Some port else None
      else None
  | None => None
  end.

(** ** Selections of events *)

Definition event_selected (types : list string) (source source_type : string) (e : event_row) : bool :=
  str_in (ev_event_type e) types && String.eqb (ev_source e) source && String.eqb (ev_source_type e) source_type.

Definition within (window : Z) (e : event_row) : bool := pg_now pg - minutes window <=? ev_created_at e.

(** The rows of a table, by id. *)
Definition rows {R} (t : gmap Z R) : list R := map snd (select (fun i _ => [i]) (fun _ _ => true) t).

(** [%s::inet], refused when it is no address. *)
Definition inet_parameter (s : string) : outcome string :=
  match pg_inet pg s with Some a => Ok a | None => Raise (DatabaseError "invalid input syntax for type inet") end.

Definition events_in_window (types : list string) (source source_type source_ip : string) (window : Z) : M siem_db (list event_row) := fun d =>
  match inet_parameter source_ip with
  | Raise e => (Raise e, d)
  | Ok ip =>
      (Ok (List.filter (fun e => event_selected types source source_type e && String.eqb (ev_source_ip e) ip && within window e)
             (rows (sd_events d))), d)
  end.

(** GROUP BY source_ip. *)
Definition by_source_ip (l : list event_row) : list (string * list event_row) :=
  map (fun ip => (ip, List.filter (fun e => String.eqb (ev_source_ip e) ip) l)) (remove_dups (map ev_source_ip l)).

(** What a rule counts: the rows, or the distinct values of a column that is
    not null. *)
Inductive metric :=
  | CountRows
  | DistinctTexts (column : event_row -> option string)
  | DistinctPorts (column : event_row -> option Z).

Definition has_value {A} (o : option A) : bool := match o with Some _ => true | None => false end.

(** The WHERE of the outer query. *)
Definition counted (m : metric) (e : event_row) : bool :=
  match m with
  | CountRows => true
  | DistinctTexts column => has_value (column e)
  | DistinctPorts column => has_value (column e)
  end.

Definition count_of (m : metric) (l : list event_row) : Z :=
  match m with
  | CountRows => Z.of_nat (length l)
  | DistinctTexts column => Z.of_nat (length (remove_dups (omap column l)))
  | DistinctPorts column => Z.of_nat (length (remove_dups (omap column l)))
  end.

(** SELECT source_ip, COUNT(..) .. GROUP BY source_ip HAVING COUNT(..) >= threshold. *)
Definition having (m : metric) (threshold : Z) (l : list event_row) : list (string * Z) :=
  List.filter (fun g => threshold <=? g.2) (map (fun g => (g.1, count_of m g.2)) (by_source_ip (List.filter (counted m) l))).

(** The newest event of a selection; ties by id. *)
Definition newest (p : event_row -> bool) (t : gmap Z event_row) : option event_row :=
  snd <$> select_one (fun i e => [- ev_created_at e; i]) (fun _ e => p e) t.

Definition float_column (o : option string) : outcome (option pyfloat) :=
  match o with
  | None => Ok None
  | Some s =>
      if is_empty s then Ok None
      else match pg_float8 pg s with
           | Some f => Ok (Some f)
           | None => Raise (DatabaseError "invalid input syntax for type double precision")
           end
  end.

Definition event_location (e : event_row) : outcome location :=
  let field key := json_text (match json_get (ev_raw_payload e) "location" with Some v => json_get v key | None => None end) in
  let! latitude := float_column (field "lat") in
  let! longitude := float_column (field "lon") in
  Ok (Location (field "country") (field "city") latitude longitude).

Definition fetch_latest_location (types : list string) (source source_type source_ip : string) : M siem_db location := fun d =>
  match inet_parameter source_ip with
  | Raise e => (Raise e, d)
  | Ok ip =>
      match newest (fun e => event_selected types source source_type e && String.eqb (ev_source_ip e) ip) (sd_events d) with
      | Some e => (event_location e, d)
      | None => (Ok no_location, d)
      end
  end.

(** ** Alerts *)

Definition open_alert (source_ip alert_type : string) (r : alert_row) : bool :=
  String.eqb (al_source_ip r) source_ip && String.eqb (al_alert_type r) alert_type && String.eqb (al_status r) "open".

(** SELECT 1 FROM alerts WHERE .. status = 'open'. *)
Definition open_alert_exists (source_ip alert_type : string) : M siem_db bool := fun d =>
  match inet_parameter source_ip with
  | Raise e => (Raise e, d)
  | Ok ip => (Ok (existsb (open_alert ip alert_type) (rows (sd_alerts d))), d)
  end.

(** The INSERT with the id that currval returns after it.  The values are
    constants of the statement: one that does not fit its column refuses it
    before the sequence is asked. *)
Definition insert_alert (alert_type : string) (sev : severity) (source_ip : string) (source source_type : option string)
    (message response_action : string) (l : location) (r : reputation) (context : outcome pyval) : M siem_db Z := fun d =>
  let i := sd_alert_seq d in
  match inet_parameter source_ip, pg_int4 pg (rp_score r), context with
  | Raise e, _, _ => (Raise e, d)
  | _, None, _ => (Raise (DatabaseError "integer out of range"), d)
  | _, _, Raise e => (Raise e, d)
  | Ok ip, Some score, Ok context =>
      if negb (int4 i) then (Raise (DatabaseError "nextval: reached maximum value of sequence"), d)
      else
        (Ok i, add_alert (AlertRow alert_type (severity_text sev) ip source source_type message "open" response_action "pending"
                            (lo_country l) (lo_city l) (lo_latitude l) (lo_longitude l)
                            score (rp_label r) (rp_source r) (rp_summary r) context (pg_now pg)) d)
  end.
End Queries.

(** ** The state of a detection

    The transaction, the reputation cache of the process, and the outside. *)
Record detection (W : Type) := Detection { dn_conn : conn siem_db; dn_lookups : lookups W }.
Arguments Detection {W} _ _.
Arguments dn_conn {W} _.
Arguments dn_lookups {W} _.

Section Detections.
Context {W : Type} (pg : postgres) (json_loads : json_decoder).
Context (api_key : bool) (abuseipdb : string -> W -> abuse_reply * W).

Definition on_conn {A} (m : M (conn siem_db) A) : M (detection W) A :=
  zoom dn_conn (fun c s => Detection c (dn_lookups s)) m.
Definition sql {A} (m : M siem_db A) : M (detection W) A := on_conn (Tables.execute m).
Definition reputation_of (ip : string) : M (detection W) reputation :=
  zoom dn_lookups (fun l s => Detection (dn_conn s) l) (lookup_ip_reputation api_key abuseipdb ip).

Definition effective_rule_of (rule_id : string) : M (detection W) effective_rule :=
  on_conn (zoom_conn sd_overrides
             (fun t d => SiemDb (sd_events d) (sd_event_seq d) (sd_alerts d) (sd_alert_seq d) t (sd_health d)
                                (sd_audit d) (sd_filter d))
             (get_effective_detection_rule json_loads rule_id)).

(** ** What every detector starts with *)

Definition prepare_rule_evaluation (rule_id : string) (source source_type : option string) (rule_config : option effective_rule)
    : M (detection W) (option effective_rule) :=
  if negb (rule_applies_to_source rule_id source source_type) then ret None
  else
    let* effective := match rule_config with Some r => ret r | None => effective_rule_of rule_id end in
    ret (if er_active effective then Some effective else None).

(** The newest event of the source when no address is given. *)
Definition newest_source_ip (source source_type : string) : M siem_db (option string) := fun d =>
  let newest := select_one (fun i e => [- ev_created_at e; - i])
    (fun _ e => String.eqb (ev_source e) source && String.eqb (ev_source_type e) source_type) (sd_events d) in
  (Ok ((fun x => ev_source_ip x.2) <$> newest), d).

Definition resolve_evaluation_source_ip (source_ip : option string) (source source_type : string) : M (detection W) (option string) :=
  match source_ip with
  | Some ip => ret (Some ip)
  | None => sql (newest_source_ip source source_type)
  end.

(** [rule_config["parameters"][key]]. *)
Definition rule_parameter (r : effective_rule) (key : string) : outcome Z :=
  match parameter (er_parameters r) key with Some v => Ok v | None => Raise (KeyError key) end.

(** ** Raising an alert *)

(** What distinguishes the alerts of a rule. *)
Record alert_form := AlertForm {
  af_rule_id : string;                 (** the alert_type *)
  af_severity : severity;
  af_floor : option string;            (** the severity the response action is floored for *)
  af_location_types : list string;     (** the events whose location it takes *)
}.

Definition response_action_of (form : alert_form) (r : reputation) : outcome string :=
  let! action := determine_response_action (rp_score r) in
  Ok (match af_floor form with Some s => floor_response_action_for_severity action s | None => action end).

(** One turn of the loop over the rows: [None] when the alert is open. *)
Definition raise_alert (form : alert_form) (source source_type ip message : string) (detail : string * pyval)
    : M (detection W) (option pydict) :=
  let* r := reputation_of ip in
  let* response_action := of_outcome (response_action_of form r) in
  let* l := sql (fetch_latest_location pg (af_location_types form) source source_type ip) in
  let* duplicate := sql (open_alert_exists pg ip (af_rule_id form)) in
  if duplicate then ret None
  else
    let* alert_id := sql (insert_alert pg (af_rule_id form) (af_severity form) ip (Some source) (Some source_type)
                            message response_action l r (Ok (PDict []))) in
    ret (Some [("source_ip", PStr ip); detail; ("alert_id", PInt alert_id);
               ("response_action", PStr response_action); ("severity", PStr (severity_text (af_severity form)))]).

Fixpoint raise_alerts {A} (turn : A -> M (detection W) (option pydict)) (rows : list A) : M (detection W) (list pydict) :=
  match rows with
  | [] => ret []
  | row :: rows =>
      let* alert := turn row in
      let* alerts := raise_alerts turn rows in
      ret (match alert with Some a => a :: alerts | None => alerts end)
  end.

(** ** The threshold detectors *)

Record detector := Detector {
  de_form : alert_form;
  de_metric : metric;
  de_message : string -> Z -> string;
  de_count_key : string;
}.

Definition raise_threshold_alert (det : detector) (source source_type : string) (row : string * Z) : M (detection W) (option pydict) :=
  raise_alert (de_form det) source source_type row.1 (de_message det row.1 row.2) (de_count_key det, PInt row.2).

Definition run_threshold_detector (det : detector) (source source_type source_ip : option string) (rule_config : option effective_rule)
    : M (detection W) (list pydict) :=
  let* prepared := prepare_rule_evaluation (af_rule_id (de_form det)) source source_type rule_config in
  match prepared, source, source_type with
  | Some rule, Some source, Some source_type =>
      let* resolved := resolve_evaluation_source_ip source_ip source source_type in
      match resolved with
      | None => ret []
      | Some ip =>
          let* threshold := of_outcome (rule_parameter rule "threshold") in
          let* window := of_outcome (rule_parameter rule "window_minutes") in
          let* events := sql (events_in_window pg (af_location_types (de_form det)) source source_type ip window) in
          raise_alerts (raise_threshold_alert det source source_type) (having (de_metric det) threshold events)
      end
  | _, _, _ => ret []
  end.

Definition failed_login : detector :=
  Detector (AlertForm "failed_login_threshold" High (Some "critical") ["failed_login"; "login_failure"; "unauthorized_access"])
    CountRows (fun ip n => str_int n +:+ " failed login attempts detected from " +:+ ip) "attempts".
Definition generate_failed_login_alerts_core := run_threshold_detector failed_login.

Definition http_error : detector :=
  Detector (AlertForm "http_error_threshold" Medium (Some "critical") ["http_error"])
    CountRows (fun ip _ => "Repeated HTTP server errors detected from " +:+ ip) "attempts".
Definition generate_http_error_alerts_core := run_threshold_detector http_error.

Definition port_scan : detector :=
  Detector (AlertForm "port_scan_threshold" Medium None ["port_scan"])
    (DistinctPorts (destination_port pg)) (fun ip n => str_int n +:+ " port scan events detected from " +:+ ip) "attempts".
Definition generate_port_scan_alerts_core := run_threshold_detector port_scan.

Definition password_spraying : detector :=
  Detector (AlertForm "password_spraying_threshold" High None ["failed_login"])
    (DistinctTexts (extracted_username pg))
    (fun ip n => "Password spraying suspected from " +:+ ip +:+ ": failed logins across " +:+ str_int n +:+ " usernames")
    "distinct_username_count".
Definition generate_password_spraying_alerts_core := run_threshold_detector password_spraying.

Definition application_exception : detector :=
  Detector (AlertForm "application_exception_threshold" High None ["application_exception"])
    CountRows (fun ip _ => "Repeated application exceptions detected from " +:+ ip) "attempts".
Definition generate_application_exception_alerts_core := run_threshold_detector application_exception.

Definition app_insights_unauthorized_access : detector :=
  Detector (AlertForm "app_insights_unauthorized_access_threshold" High (Some "high") ["unauthorized_access"])
    CountRows (fun ip _ => "Repeated Application Insights unauthorized access detected from " +:+ ip) "attempts".
Definition generate_app_insights_unauthorized_access_alerts_core := run_threshold_detector app_insights_unauthorized_access.

Definition high_request_rate : detector :=
  Detector (AlertForm "high_request_rate_threshold" Medium None ["normal_activity"; "unauthorized_access"; "http_error"])
    CountRows (fun ip _ => "High request rate detected from " +:+ ip) "attempts".
Definition generate_high_request_rate_alerts_core := run_threshold_detector high_request_rate.

Definition env_probe : detector :=
  Detector (AlertForm "honeypot_env_probe_threshold" High None ["env_probe"])
    (DistinctTexts (normalized_path pg))
    (fun ip n => "Sensitive file probing detected from " +:+ ip +:+ ": " +:+ str_int n +:+ " distinct paths") "distinct_path_count".
Definition generate_env_probe_alerts_core := run_threshold_detector env_probe.

Definition admin_probe : detector :=
  Detector (AlertForm "honeypot_admin_probe_threshold" Medium None ["admin_probe"])
    (DistinctTexts (normalized_path pg))
    (fun ip n => "Admin panel probing detected from " +:+ ip +:+ ": " +:+ str_int n +:+ " distinct paths") "distinct_path_count".
Definition generate_admin_probe_alerts_core := run_threshold_detector admin_probe.

Definition scanner_detected : detector :=
  Detector (AlertForm "honeypot_scanner_detected" Medium None ["scanner_detected"])
    CountRows (fun ip n => "Scanner activity detected from " +:+ ip +:+ ": " +:+ str_int n +:+ " scanner events") "scanner_events".
Definition generate_scanner_detected_alerts_core := run_threshold_detector scanner_detected.

Definition credential_stuffing : detector :=
  Detector (AlertForm "honeypot_credential_stuffing_threshold" High None ["credential_stuffing"])
    (DistinctTexts (normalized_username pg))
    (fun ip n => "Credential stuffing suspected from " +:+ ip +:+ ": " +:+ str_int n +:+ " distinct usernames")
    "distinct_username_count".
Definition generate_credential_stuffing_alerts_core := run_threshold_detector credential_stuffing.

(** ** A success after a spray *)

(** The usernames of the failed logins that count for a success: in the
    correlation window that ends with it. *)
Definition sprayed_usernames (correlation_window : Z) (success : event_row) (failed : list event_row) : list string :=
  remove_dups (omap (extracted_username pg)
    (List.filter (fun f => String.eqb (ev_source_ip f) (ev_source_ip success) &&
                           (ev_created_at success - minutes correlation_window <=? ev_created_at f) &&
                           (ev_created_at f <=? ev_created_at success)) failed)).

Definition instant_le (a b : string * Z) : Prop := a.2 <= b.2.
#[local] Instance instant_le_dec : RelDecision instant_le.
Proof. intros a b. unfold instant_le. apply _. Defined.

(** The joined rows, grouped by address and instant of success: one group
    for each, in ascending order. *)
Definition qualifying_successes (threshold correlation_window : Z) (successes failed : list event_row) : list (string * Z) :=
  let groups := remove_dups (map (fun s => (ev_source_ip s, ev_created_at s))
    (List.filter (fun s => let names := sprayed_usernames correlation_window s failed in
                           negb (bool_decide (names = [])) && (threshold <=? Z.of_nat (length names))) successes)) in
  merge_sort instant_le groups.

Definition login_after_spray : alert_form :=
  AlertForm "successful_login_after_spray" Critical (Some "critical") ["successful_login"; "failed_login"].

Definition raise_success_alert (source source_type : string) (row : string * Z) : M (detection W) (option pydict) :=
  raise_alert login_after_spray source source_type row.1
    ("Successful login after password spraying detected from " +:+ row.1)
    ("success_at", PStr (isoformat " " (utc_datetime row.2))).

Definition generate_successful_login_after_spray_alerts_core (source source_type source_ip : option string)
    (rule_config : option effective_rule) : M (detection W) (list pydict) :=
  let* prepared := prepare_rule_evaluation "successful_login_after_spray" source source_type rule_config in
  match prepared, source, source_type with
  | Some rule, Some source, Some source_type =>
      let* resolved := resolve_evaluation_source_ip source_ip source source_type in
      match resolved with
      | None => ret []
      | Some ip =>
          let* threshold := of_outcome (rule_parameter rule "threshold") in
          let* success_window := of_outcome (rule_parameter rule "success_window_minutes") in
          let* failed_lookback := of_outcome (rule_parameter rule "failed_lookback_minutes") in
          let* correlation_window := of_outcome (rule_parameter rule "correlation_window_minutes") in
          let* successes := sql (events_in_window pg ["successful_login"] source source_type ip success_window) in
          let* failed := sql (events_in_window pg ["failed_login"] source source_type ip failed_lookback) in
          raise_alerts (raise_success_alert source source_type) (qualifying_successes threshold correlation_window successes failed)
      end
  | _, _, _ => ret []
  end.
End Detections.

(** * How detection changes the alerts

    An alert is raised as a step: a new open row of an allowed type for an
    address that has no open alert of that type.  [raises_only types m] says
    that the computation [m] changes the transaction by such steps alone and
    announces exactly the rows it has raised.  The detectors of every source
    are held to it, and it composes. *)

(** ** Steps *)

Definition none_open (d : siem_db) (ip alert_type : string) : Prop :=
  forall i r, sd_alerts d !! i = Some r -> open_alert ip alert_type r = false.

Inductive raising (types : list string) : siem_db -> list alert_row -> siem_db -> Prop :=
  | raising_nil d : raising types d [] d
  | raising_cons d r new d' :
      al_alert_type r ∈ types -> al_status r = "open" -> none_open d (al_source_ip r) (al_alert_type r) ->
      raising types (add_alert r d) new d' -> raising types d (r :: new) d'.

(** The new rows with their ids. *)
Fixpoint numbered (i : Z) (new : list alert_row) : list (Z * alert_row) :=
  match new with [] => [] | r :: new => (i, r) :: numbered (i + 1) new end.

(** A result dict tells the row it stands for; the address as PostgreSQL
    reads it. *)
Record announces (pg : postgres) (a : pydict) (x : Z * alert_row) : Prop := Announces {
  an_id : dget a "alert_id" = PInt x.1;
  an_address : exists ip, dget a "source_ip" = PStr ip /\ pg_inet pg ip = Some (al_source_ip x.2);
  an_response : dget a "response_action" = PStr (al_response_action x.2);
  an_severity : dget a "severity" = PStr (al_severity x.2);
  an_type : dget a "alert_type" = PNone \/ dget a "alert_type" = PStr (al_alert_type x.2);
  an_int4 : int4 x.1 = true;
}.

Section Moves.
Context {W : Type}.
Implicit Types (s : detection W) (types : list string).

Definition current s : siem_db := cn_current (dn_conn s).

(** [rows]: how the result names what was raised. *)
Record raised {A} (announced : A -> list (Z * alert_row) -> Prop) types s (o : outcome A) s' : Prop := Raised {
  rs_committed : cn_committed (dn_conn s') = cn_committed (dn_conn s);
  rs_new : exists new, raising types (current s) new (current s') /\
             forall a, o = Ok a -> announced a (numbered (sd_alert_seq (current s)) new);
}.

(** From a state of which [P] holds. *)
Definition raises_when {A} (P : siem_db -> Prop) (announced : A -> list (Z * alert_row) -> Prop) types (m : M (detection W) A) : Prop :=
  forall s, P (current s) -> raised announced types s (m s).1 (m s).2.

Definition raises {A} (announced : A -> list (Z * alert_row) -> Prop) types (m : M (detection W) A) : Prop :=
  forall s, raised announced types s (m s).1 (m s).2.

Definition names_all pg (l : list pydict) (rows : list (Z * alert_row)) : Prop := Forall2 (announces pg) l rows.
Definition names_one pg (o : option pydict) (rows : list (Z * alert_row)) : Prop :=
  match o, rows with Some a, [x] => announces pg a x | None, [] => True | _, _ => False end.

Definition raises_only pg types (m : M (detection W) (list pydict)) : Prop := raises (names_all pg) types m.

(** A computation that leaves the transaction's tables alone, and what its
    value says of them. *)
Definition reads {A} (m : M (detection W) A) (Q : A -> siem_db -> Prop) : Prop :=
  forall s, cn_committed (dn_conn (m s).2) = cn_committed (dn_conn s) /\ current (m s).2 = current s /\
    forall a, (m s).1 = Ok a -> Q a (current s).

Definition reads_any {A} (m : M (detection W) A) : Prop := reads m (fun _ _ => True).
End Moves.

(** ** Facts about steps *)

Lemma raising_app types d new d' new' d'' : raising types d new d' -> raising types d' new' d'' -> raising types d (new ++ new') d''.
Proof. induction 1; intros Hnew; [done|]. cbn. constructor; auto. Qed.

Lemma raising_weaken types types' d new d' : types ⊆ types' -> raising types d new d' -> raising types' d new d'.
Proof. intros Hsub. induction 1; constructor; auto. Qed.

Lemma raising_seq types d new d' : raising types d new d' -> sd_alert_seq d' = sd_alert_seq d + Z.of_nat (length new).
Proof. induction 1; cbn [length]; [lia|]. rewrite IHraising. cbn. lia. Qed.

Lemma numbered_app i new new' : numbered i (new ++ new') = numbered i new ++ numbered (i + Z.of_nat (length new)) new'.
Proof.
  revert i. induction new as [|r new IH]; intros i; cbn; [f_equal; lia|]. f_equal. rewrite IH. f_equal. f_equal. lia.
Qed.

Lemma raising_frame types d new d' : raising types d new d' ->
  sd_events d' = sd_events d /\ sd_event_seq d' = sd_event_seq d /\ sd_overrides d' = sd_overrides d /\ sd_health d' = sd_health d /\
  sd_audit d' = sd_audit d /\ sd_filter d' = sd_filter d.
Proof. induction 1; [done|]. destruct IHraising as (-> & -> & -> & -> & -> & ->). done. Qed.

(** Ids below the sequence, and at most one open alert of a type for an
    address. *)
Record alerts_ok (d : siem_db) : Prop := AlertsOk {
  ao_ids : forall i r, sd_alerts d !! i = Some r -> i < sd_alert_seq d;
  ao_one_open : forall i j r r', sd_alerts d !! i = Some r -> sd_alerts d !! j = Some r' ->
    al_status r = "open" -> al_status r' = "open" ->
    al_source_ip r = al_source_ip r' -> al_alert_type r = al_alert_type r' -> i = j;
}.

Lemma open_alert_self r : al_status r = "open" -> open_alert (al_source_ip r) (al_alert_type r) r = true.
Proof. intros H. unfold open_alert. by rewrite !String.eqb_refl, H. Qed.

Lemma add_alert_ok d r : alerts_ok d -> none_open d (al_source_ip r) (al_alert_type r) -> alerts_ok (add_alert r d).
Proof.
  intros [Hid Hone] Hno. split; cbn.
  - intros i r' [[<- _]|[_ H]]%lookup_insert_Some; [lia|]. apply Hid in H. lia.
  - intros i j a b [[<- <-]|[Hi Ha]]%lookup_insert_Some [[<- <-]|[Hj Hb]]%lookup_insert_Some Hoa Hob Hip Hty; [done| | |by eapply Hone].
    + apply Hno in Hb. rewrite Hip, Hty, open_alert_self in Hb by done. done.
    + apply Hno in Ha. rewrite <- Hip, <- Hty, open_alert_self in Ha by done. done.
Qed.

Lemma raising_ok types d new d' : raising types d new d' -> alerts_ok d -> alerts_ok d'.
Proof. induction 1; intros Hok; [done|]. by apply IHraising, add_alert_ok. Qed.

(** Old rows stay, the new ones are found under their ids. *)
Lemma raising_kept types d new d' i r : raising types d new d' -> alerts_ok d ->
  sd_alerts d !! i = Some r -> sd_alerts d' !! i = Some r.
Proof.
  induction 1; intros Hok Hi; [done|]. apply IHraising; [by apply add_alert_ok|]. cbn.
  rewrite lookup_insert_ne; [done|]. apply (ao_ids _ Hok) in Hi. lia.
Qed.

Lemma raising_found types d new d' : raising types d new d' -> alerts_ok d ->
  Forall (fun x => sd_alerts d' !! x.1 = Some x.2) (numbered (sd_alert_seq d) new).
Proof.
  induction 1 as [|d r new d' Hty Ho Hno Hr IH]; intros Hok; cbn; [constructor|].
  assert (alerts_ok (add_alert r d)) as Hok' by by apply add_alert_ok. constructor.
  - cbn. eapply raising_kept; [done|done|]. cbn. by rewrite lookup_insert_eq.
  - apply IH, Hok'.
Qed.

Lemma raising_rows types d new d' i r : raising types d new d' ->
  sd_alerts d' !! i = Some r -> sd_alerts d !! i = Some r \/ (i, r) ∈ numbered (sd_alert_seq d) new.
Proof.
  induction 1 as [|d r0 new d' Hty Ho Hno Hr IH]; intros Hi; [by left|]. cbn.
  destruct (IH Hi) as [H|H]; [|right; right; exact H]. cbn in H.
  apply lookup_insert_Some in H as [[<- <-]|[_ H]]; [right; left|by left].
Qed.

Lemma raising_types types d new d' : raising types d new d' -> Forall (fun r => al_alert_type r ∈ types /\ al_status r = "open") new.
Proof. induction 1; constructor; auto. Qed.

(** ** Rules *)

Section Rules.
Context {W : Type}.
Implicit Types (s : detection W).

Lemma raises_ret {A} (ann : A -> list (Z * alert_row) -> Prop) types a : ann a [] -> raises ann types (ret a : M (detection W) A).
Proof. intros Ha s. split; [done|]. exists []. split; [constructor|]. by intros ? [= <-]. Qed.

Lemma raises_raise {A} (ann : A -> list (Z * alert_row) -> Prop) types e : raises ann types (raise e : M (detection W) A).
Proof. intros s. split; [done|]. exists []. split; [constructor|done]. Qed.

Lemma raises_any {A} P (ann : A -> list (Z * alert_row) -> Prop) types (m : M (detection W) A) :
  raises ann types m -> raises_when P ann types m.
Proof. intros Hm s _. apply Hm. Qed.

Lemma raises_read {A B} (P : siem_db -> Prop) (ann : B -> list (Z * alert_row) -> Prop) types
    (m : M (detection W) A) (k : A -> M (detection W) B) (Q : A -> siem_db -> Prop) :
  reads m Q -> (forall a, raises_when (fun d => P d /\ Q a d) ann types (k a)) -> raises_when P ann types (bind m k).
Proof.
  intros Hm Hk s Hs. unfold bind. specialize (Hm s) as (Hc & Hd & HQ). destruct (m s) as [[a|e] s1]; cbn [fst snd] in *.
  - destruct (Hk a s1) as [Hc' Hnew]; [rewrite Hd; auto|]. split; [congruence|]. by rewrite <- Hd.
  - split; [done|]. exists []. rewrite Hd. split; [constructor|done].
Qed.

Lemma raises_from_any {A} (ann : A -> list (Z * alert_row) -> Prop) types (m : M (detection W) A) :
  raises_when (fun _ => True) ann types m -> raises ann types m.
Proof. intros Hm s. by apply Hm. Qed.

Lemma raises_bind {A B} (ann : A -> list (Z * alert_row) -> Prop) (ann' : B -> list (Z * alert_row) -> Prop) types
    (m : M (detection W) A) (k : A -> M (detection W) B) :
  raises ann types m ->
  (forall a x, ann a x -> raises (fun b y => ann' b (x ++ y)) types (k a)) -> raises ann' types (bind m k).
Proof.
  intros Hm Hk s. unfold bind. specialize (Hm s) as [Hc (new & Hnew & Hann)]. destruct (m s) as [[a|e] s1]; cbn [fst snd] in *.
  - destruct (Hk a _ (Hann a eq_refl) s1) as [Hc' (new' & Hnew' & Hann')]. split; [congruence|].
    exists (new ++ new'). split; [by eapply raising_app|]. intros b Hb. rewrite numbered_app, <- (raising_seq _ _ _ _ Hnew). by apply Hann'.
  - split; [done|]. exists new. split; [done|done].
Qed.

Lemma raises_mono {A} (ann ann' : A -> list (Z * alert_row) -> Prop) types types' (m : M (detection W) A) :
  types ⊆ types' -> (forall a x, ann a x -> ann' a x) -> raises ann types m -> raises ann' types' m.
Proof.
  intros Ht Ha Hm s. specialize (Hm s) as [Hc (new & Hnew & Hann)]. split; [done|].
  exists new. split; [by eapply raising_weaken|auto].
Qed.

Lemma reads_zoom {A} (m : M (lookups W) A) (Q : A -> Prop) :
  (forall l a, (m l).1 = Ok a -> Q a) -> reads (zoom dn_lookups (fun l s => Detection (dn_conn s) l) m) (fun a _ => Q a).
Proof. intros HQ s. unfold zoom. specialize (HQ (dn_lookups s)). destruct (m (dn_lookups s)) as [o l]. auto. Qed.

Lemma reads_outcome {A} (o : outcome A) (Q : A -> Prop) : (forall a, o = Ok a -> Q a) -> reads (of_outcome o : M (detection W) A) (fun a _ => Q a).
Proof. intros HQ s. auto. Qed.

Lemma leaves_ret {A} (a : A) : reads (ret a : M (detection W) A) (fun a' _ => a' = a).
Proof. intros s. split_and!; [done|done|]. by intros ? [= <-]. Qed.

Lemma leaves_ret_any {A} (a : A) : reads_any (ret a : M (detection W) A).
Proof. intros s. split_and!; [done|done|]. by intros. Qed.

Lemma reads_weaken {A} (m : M (detection W) A) (Q Q' : A -> siem_db -> Prop) :
  reads m Q -> (forall a d, Q a d -> Q' a d) -> reads m Q'.
Proof. intros Hm HQ s. destruct (Hm s) as (? & ? & ?). auto. Qed.

Lemma leaves_bind {A B} (m : M (detection W) A) (k : A -> M (detection W) B) (Q : A -> siem_db -> Prop) (Q' : B -> siem_db -> Prop) :
  reads m Q -> (forall a, reads (k a) Q') -> reads (bind m k) Q'.
Proof.
  intros Hm Hk s. unfold bind. specialize (Hm s) as (Hc & Hd & HQ). destruct (m s) as [[a|e] s1]; cbn [fst snd] in *; [|split_and!; done].
  destruct (Hk a s1) as (Hc' & Hd' & HQ'). split_and!; [congruence|congruence|]. rewrite <- Hd. done.
Qed.

Lemma reads_sql {A} (m : M siem_db A) (Q : A -> siem_db -> Prop) :
  (forall d, (m d).2 = d) -> (forall d a, (m d).1 = Ok a -> Q a d) -> reads (sql m : M (detection W) A) Q.
Proof.
  intros Hd HQ s. unfold sql, on_conn, zoom, Tables.execute. destruct (cn_aborted (dn_conn s)); [done|].
  specialize (Hd (cn_current (dn_conn s))). specialize (HQ (cn_current (dn_conn s))).
  destruct (m (cn_current (dn_conn s))) as [[a|e] d]; cbn [fst snd] in *; subst d; split_and!; done || auto.
Qed.

(** Running [raises_only] computations over a list. *)
Lemma raises_alerts {A} pg types (turn : A -> M (detection W) (option pydict)) l :
  (forall a, raises (names_one pg) types (turn a)) -> raises_only pg types (raise_alerts turn l).
Proof.
  intros Ht. induction l as [|a l IH]; cbn; [apply raises_ret; constructor|].
  eapply raises_bind; [apply Ht|]. intros o x Hx. eapply raises_bind; [exact IH|]. intros l' y Hy.
  apply raises_ret. rewrite app_nil_r. destruct o as [alert|], x as [|? [|??]]; cbn in Hx; try done; by constructor.
Qed.

Lemma raises_only_app pg types (m1 m2 : M (detection W) (list pydict)) :
  raises_only pg types m1 -> raises_only pg types m2 -> raises_only pg types (let* a := m1 in let* b := m2 in ret (a ++ b)).
Proof.
  intros H1 H2. eapply raises_bind; [exact H1|]. intros a x Hx. eapply raises_bind; [exact H2|]. intros b y Hy.
  apply raises_ret. rewrite app_nil_r. by apply Forall2_app.
Qed.
End Rules.
