(* ===== verification/Correlations.v ===== *)
(** * Correlations: engines/correlation_engine.py

    Alerts raised because of other alerts: several types from several
    sources on one address, and four patterns of alerts that belong
    together.  Log messages, and the count made for one, are left out. *)

From S2P Require Import Prelude PyText PyFloat PyValue Tables PfsenseFilter DetectionCatalog DetectionConfig Reputation.
From S2P Require Import Detections.

Open Scope Z_scope.

(** ** What contributed *)

(** [_dedupe_preserve_order]. *)
Fixpoint dedupe (values : list string) (seen : list string) : list string :=
  match values with
  | [] => []
  | v :: values => if str_in v seen then dedupe values seen else v :: dedupe values (v :: seen)
  end.

(** An alert as the queries return it. *)
Abbreviation alert_entry := (Z * alert_row)%type.

Definition texts (l : list string) : pyval := PList (map PStr l).

Definition contributing_fields_from_rows (rows : list alert_entry) : pydict :=
  [("contributing_alert_ids", PList (map (fun r => PInt r.1) rows));
   ("contributing_alert_types", texts (dedupe (map (fun r => al_alert_type r.2) rows) []));
   ("contributing_sources", texts (dedupe (omap (fun r => al_source r.2) rows) []));
   ("contributing_source_types", texts (dedupe (omap (fun r => al_source_type r.2) rows) []))].

Definition build_correlated_activity_context (rows : list alert_entry) : pydict :=
  [("correlation_type", PStr "correlated_activity"); ("matched_rule_id", PStr "correlated_activity");
   ("matched_window_minutes", PInt CORRELATION_WINDOW_MINUTES); ("matched_alert_count", PInt (Z.of_nat (length rows)))] ++
  contributing_fields_from_rows rows.

(** [_alert_result]. *)
Definition alert_result (alert_id : Z) (source_ip response_action : string) (sev : severity) (alert_type source source_type : string) : pydict :=
  [("alert_id", PInt alert_id); ("source_ip", PStr source_ip); ("response_action", PStr response_action);
   ("severity", PStr (severity_text sev)); ("alert_type", PStr alert_type); ("source", PStr source); ("source_type", PStr source_type)].

(** [value or other] for a nullable column. *)
Definition text_or (o : option string) (other : string) : string :=
  match o with Some s => if is_empty s then other else s | None => other end.

Definition newest_location (r : alert_row) : location := Location (al_country r) (al_city r) (al_latitude r) (al_longitude r).

Section Correlations.
Context {W : Type} (pg : postgres) (api_key : bool) (abuseipdb : string -> W -> abuse_reply * W).

(** ** Selecting alerts *)

(** The open alerts of an address in a window, newest first. *)
Definition recent_open_alerts (source_ip : string) (window : Z) (p : alert_row -> bool) : M siem_db (list alert_entry) := fun d =>
  match inet_parameter pg source_ip with
  | Raise e => (Raise e, d)
  | Ok ip =>
      (Ok (select (fun i r => [- al_created_at r; i])
             (fun _ r => String.eqb (al_source_ip r) ip && String.eqb (al_status r) "open" && p r &&
                         (pg_now pg - minutes window <=? al_created_at r))
             (sd_alerts d)), d)
  end.

(** The insert both kinds of rule end with. *)
Definition insert_correlation (alert_type : string) (sev : severity) (floor : option string) (source_ip message : string)
    (newest : alert_row) (context : pydict) : M (detection W) pydict :=
  let source := text_or (al_source newest) "unknown" in
  let source_type := text_or (al_source_type newest) "legacy" in
  let* r := reputation_of api_key abuseipdb source_ip in
  let* response_action := of_outcome (response_action_of (AlertForm alert_type sev floor []) r) in
  let* alert_id := sql (insert_alert pg alert_type sev source_ip (Some source) (Some source_type) message response_action
                          (newest_location newest) r (pg_jsonb pg (PDict context))) in
  ret (alert_result alert_id source_ip response_action sev alert_type source source_type).

(** ** Correlated activity *)

Definition qualifying_alert_types : list string :=
  ["failed_login_threshold"; "password_spraying_threshold"; "successful_login_after_spray"; "port_scan_threshold";
   "http_error_threshold"; "high_request_rate_threshold"; "pfsense_firewall_repeated_deny"; "pfsense_firewall_port_scan";
   "pfsense_firewall_suspicious_allow"].

Definition known_source (r : alert_row) : option string :=
  match al_source r with
  | Some s => let n := lower (strip s) in if is_empty n || String.eqb n "unknown" then None else Some n
  | None => None
  end.

(** The distinct types and known sources, in order of appearance. *)
Definition distinct_alert_types (rows : list alert_entry) : list string := dedupe (map (fun r => al_alert_type r.2) rows) [].
Definition distinct_known_sources (rows : list alert_entry) : list string := dedupe (omap (fun r => known_source r.2) rows) [].

Definition correlated (rows : list alert_entry) : bool :=
  (2 <=? length rows)%nat && (2 <=? length (distinct_alert_types rows))%nat && (2 <=? length (distinct_known_sources rows))%nat.

Definition generate_correlated_activity_alerts (source_ip : string) : M (detection W) (list pydict) :=
  let* duplicate := sql (open_alert_exists pg source_ip "correlated_activity") in
  if duplicate then ret []
  else
    let* rows := sql (recent_open_alerts source_ip CORRELATION_WINDOW_MINUTES (fun r => str_in (al_alert_type r) qualifying_alert_types)) in
    match rows with
    | (_, newest) :: _ =>
        if negb (correlated rows) then ret []
        else
          let message := "Multi-source suspicious activity detected from " +:+ source_ip +:+ " involving: " +:+
                         String.concat ", " (distinct_alert_types rows) in
          let* alert := insert_correlation "correlated_activity" High None source_ip message newest
                          (build_correlated_activity_context rows) in
          ret [alert]
    | [] => ret []
    end.

(** ** Targeted patterns *)

Record targeted_rule := TargetedRule {
  tr_alert_type : string;
  tr_window_minutes : Z;
  tr_severity : severity;
  tr_message : string -> string;
  tr_matches : alert_row -> bool;
  tr_required_groups : list string;
  tr_group_for_row : alert_row -> option string;
}.

(** [(row[2], row[3]) == (source, source_type)]. *)
Definition from_source (r : alert_row) (i : source_identity) : bool :=
  bool_decide (al_source r = Some (si_source i)) && bool_decide (al_source_type r = Some (si_source_type i)).

(** An alert of one of the types from one source. *)
Definition typed_from (i : source_identity) (types : list string) (r : alert_row) : bool :=
  from_source r i && str_in (al_alert_type r) types.

(** Two groups, each of alerts of a source and types. *)
Definition two_groups (a : string * source_identity * list string) (b : string * source_identity * list string) (r : alert_row) : option string :=
  if typed_from a.1.2 a.2 r then Some a.1.1 else if typed_from b.1.2 b.2 r then Some b.1.1 else None.

Definition nginx_web := ("nginx_web", NGINX, ["http_error_threshold"; "high_request_rate_threshold"]).
Definition bank_app_custom := ("bank_app_custom", BANK_APP, ["failed_login_threshold"; "password_spraying_threshold"]).
Definition azure_cloud := ("azure_cloud", AZURE_INSIGHTS, ["http_error_threshold"; "application_exception_threshold"]).
Definition azure_auth_abuse :=
  ("azure_auth_abuse", AZURE_INSIGHTS,
   ["app_insights_unauthorized_access_threshold"; "password_spraying_threshold"; "failed_login_threshold"]).
Definition azure_exception := ("azure_exception", AZURE_INSIGHTS, ["application_exception_threshold"]).

Definition pair_rule (alert_type : string) (message : string -> string) (a b : string * source_identity * list string) : targeted_rule :=
  TargetedRule alert_type 10 High message (fun r => typed_from a.1.2 a.2 r || typed_from b.1.2 b.2 r) [a.1.1; b.1.1] (two_groups a b).

Definition web_to_app : targeted_rule :=
  pair_rule "web_to_app_attack_pattern" (fun ip => "Web-to-app attack pattern detected from " +:+ ip) nginx_web bank_app_custom.

Definition spray_then_success : targeted_rule :=
  let types := ["password_spraying_threshold"; "successful_login_after_spray"] in
  TargetedRule "spray_then_success_pattern" 15 High (fun ip => "Password spray followed by successful login from " +:+ ip)
    (fun r => str_in (al_alert_type r) types) types (fun r => if str_in (al_alert_type r) types then Some (al_alert_type r) else None).

Definition cloud_app_error : targeted_rule :=
  pair_rule "cloud_app_error_pattern" (fun ip => "Cloud and web application errors correlated from " +:+ ip) azure_cloud nginx_web.

Definition azure_auth_abuse_exception : targeted_rule :=
  pair_rule "azure_auth_abuse_exception_correlation"
    (fun ip => "Azure auth abuse and application instability correlated from " +:+ ip) azure_auth_abuse azure_exception.

Definition targeted_rules : list targeted_rule := [web_to_app; spray_then_success; cloud_app_error; azure_auth_abuse_exception].

Definition matched_groups (rule : targeted_rule) (qualifying : list alert_entry) : list string :=
  dedupe (omap (fun r => tr_group_for_row rule r.2) qualifying) [].

Definition build_targeted_correlation_context (rule : targeted_rule) (qualifying : list alert_entry) : pydict :=
  [("correlation_type", PStr "targeted_correlation"); ("matched_rule_id", PStr (tr_alert_type rule));
   ("matched_window_minutes", PInt (tr_window_minutes rule)); ("matched_alert_count", PInt (Z.of_nat (length qualifying)));
   ("matched_groups", texts (matched_groups rule qualifying))] ++
  contributing_fields_from_rows qualifying.

Definition evaluate_targeted_rule (source_ip : string) (rule : targeted_rule) : M (detection W) (option pydict) :=
  let* duplicate := sql (open_alert_exists pg source_ip (tr_alert_type rule)) in
  if duplicate then ret None
  else
    let* rows := sql (recent_open_alerts source_ip (tr_window_minutes rule) (fun _ => true)) in
    let qualifying := List.filter (fun r => tr_matches rule r.2) rows in
    if negb (forallb (fun g => str_in g (matched_groups rule qualifying)) (tr_required_groups rule)) then ret None
    else
      match qualifying with
      | [] => raise (OtherException "list index out of range")
      | (_, newest) :: _ =>
          let* alert := insert_correlation (tr_alert_type rule) (tr_severity rule) (Some (severity_text (tr_severity rule)))
                          source_ip (tr_message rule source_ip) newest (build_targeted_correlation_context rule qualifying) in
          ret (Some alert)
      end.

Definition generate_targeted_correlation_alerts (source_ip : string) : M (detection W) (list pydict) :=
  raise_alerts (evaluate_targeted_rule source_ip) targeted_rules.
End Correlations.
