(* ===== verification/IngestEngine.v ===== *)
(** * IngestEngine: engines/ingest_engine.py

    The central path of an event: passwords refused, the event stored, the
    health of its source noted, the detectors of its type run, correlations
    of the addresses they name, and alerts of synthetic events marked.  With
    reject_raw_password_fields of helpers/ingest_normalizers.py,
    record_persisted_push_event of core/source_ingestion_health_state.py and
    the provenance of core/synthetic_data_policy.py.  The detectors of
    firewall events are the class [FirewallDetectors], which
    [PfsenseDetectorProofs] discharges. *)

From S2P Require Import Prelude PyText PyFloat PyValue Tables PfsenseFilter DetectionCatalog DetectionConfig Reputation.
From S2P Require Import Detections Correlations.

Open Scope Z_scope.

(** ** Passwords *)

Definition HONEYPOT_EVENT_TYPES : list string := ["env_probe"; "admin_probe"; "scanner_detected"; "credential_stuffing"; "http_error"].
Definition RAW_PASSWORD_FIELD_NAMES : list string := ["password"; "passwd"; "pwd"; "user_password"].

Definition password_field (key : string) : bool := str_in (lower (strip key)) RAW_PASSWORD_FIELD_NAMES.

Fixpoint reject_recursive (value : pyval) (path : string) : outcome unit :=
  match value with
  | PDict d =>
      (fix fields (d : pydict) : outcome unit :=
         match d with
         | [] => Ok tt
         | (key, child) :: d =>
             let child_path := if is_empty path then key else path +:+ "." +:+ key in
             if password_field key then Raise (ValueError ("Raw password field '" +:+ child_path +:+ "' is not allowed"))
             else let! _ := reject_recursive child child_path in fields d
         end) d
  | PList l =>
      (fix items (l : list pyval) (index : Z) : outcome unit :=
         match l with
         | [] => Ok tt
         | item :: l => let! _ := reject_recursive item (path +:+ "[" +:+ str_int index +:+ "]") in items l (index + 1)
         end) l 0
  | _ => Ok tt
  end.

Definition reject_raw_password_fields (event : pydict) : outcome unit :=
  let! honeypot := in_str_set (dget event "event_type") HONEYPOT_EVENT_TYPES in
  if honeypot then reject_recursive (PDict event) "payload" else Ok tt.

(** ** Provenance *)

Definition SYNTHETIC_PROVENANCE_VALUES : list string :=
  ["azure_smoke"; "demo"; "manual_test"; "seed"; "seeded_test"; "smoke"; "simulated"; "simulation"; "simulator"; "synthetic"; "test"].

(** [str(value or "").strip().lower()]. *)
Definition lower_text (v : pyval) : string := lower (strip (py_str (py_or v (PStr EmptyString)))).

Definition str_or_none (v : pyval) : pyval := match v with PStr _ => v | _ => PNone end.

Definition synthetic_json_provenance_values (payload : pyval) : list string :=
  match payload with
  | PDict payload =>
      let provenance := dget payload "provenance" in
      let metadata := dget payload "metadata" in
      List.filter (fun s => negb (is_empty s)) (map lower_text
        [dget payload "data_provenance"; dget payload "telemetry_provenance"; str_or_none provenance;
         dget (dict_or_empty provenance) "classification"; dget (dict_or_empty provenance) "source";
         dget (dict_or_empty provenance) "origin"; dget (dict_or_empty metadata) "data_provenance";
         dget (dict_or_empty metadata) "provenance"])
  | _ => []
  end.

Definition synthetic_json_provenance_value (payload : pyval) : string := default EmptyString (head (synthetic_json_provenance_values payload)).

Definition is_synthetic_json_payload (payload : pyval) : bool :=
  str_in (synthetic_json_provenance_value payload) SYNTHETIC_PROVENANCE_VALUES.

Definition build_synthetic_provenance_context (event : pydict) : option pydict :=
  let raw_payload := dget event "raw_payload" in
  let markers := synthetic_json_provenance_values raw_payload ++
    [lower_text (dget event "source"); lower_text (dget event "source_type"); lower_text (dget event "app_name")] in
  if negb (existsb (fun m => str_in m SYNTHETIC_PROVENANCE_VALUES) markers) then None
  else
    let provenance := dict_or_empty (dget (dict_or_empty raw_payload) "provenance") in
    let origin := py_or (dget provenance "origin") (dget provenance "source") in
    Some [("data_provenance", PStr "synthetic");
          ("provenance", PDict [("classification", PStr "synthetic");
             ("origin", py_or origin (py_or (dget event "app_name") (py_or (dget event "source") (PStr "ingest"))))])].

(** ** The health of a source *)

Definition CANONICAL_SOURCE_IDS : list string := ["honeypot"; "bank_app"; "pfsense"; "nginx"; "azure_insights"; "opentelemetry"].
Definition CANONICAL_PUSH_SOURCE_IDS : list string := ["honeypot"; "bank_app"; "pfsense"; "nginx"; "opentelemetry"].

(** GREATEST, which ignores NULL. *)
Definition greatest (a b : option Z) : option Z :=
  match a, b with Some x, Some y => Some (Z.max x y) | Some x, None => Some x | None, _ => b end.

Section Ingest.
Context {W : Type} (pg : postgres) (json_loads : json_decoder).
Context (api_key : bool) (abuseipdb : string -> W -> abuse_reply * W).

Definition upsert_health (source : string) (latest qualifying : option Z) : M siem_db unit := fun d =>
  let row :=
    match sd_health d !! source with
    | None => HealthRow latest qualifying 0 false (pg_now pg)
    | Some r => HealthRow (greatest (hr_latest_event_at r) latest) (greatest (hr_latest_qualifying_at r) qualifying)
                  (hr_total_events r + (if hr_total_initialized r then 1 else 0)) (hr_total_initialized r) (pg_now pg)
    end in
  (Ok tt, SiemDb (sd_events d) (sd_event_seq d) (sd_alerts d) (sd_alert_seq d) (sd_overrides d) (<[source := row]> (sd_health d))
             (sd_audit d) (sd_filter d)).

Definition record_persisted_push_event (source : pyval) (ingested_at : Z) (raw_payload : pyval) : M (detection W) bool :=
  match source with
  | PStr source =>
      if negb (str_in source CANONICAL_SOURCE_IDS) then ret false
      else
        let push := str_in source CANONICAL_PUSH_SOURCE_IDS in
        let latest := if push then Some ingested_at else None in
        let qualifying := if negb push || is_synthetic_json_payload raw_payload then None else Some ingested_at in
        sql (upsert_health source latest qualifying) ;;; ret true
  | _ => ret false
  end.

(** ** Storing the event *)

Definition nul : ascii := ascii_of_N 0.

(** A parameter for a TEXT NOT NULL column. *)
Definition text_parameter (v : pyval) : outcome string :=
  match v with
  | PStr s => if char_in nul s then Raise (ValueError "A string literal cannot contain NUL (0x00) characters.") else Ok s
  | PNone => Raise (IntegrityError "null value violates not-null constraint")
  | v => pg_text pg v
  end.

Definition inet_value (v : pyval) : outcome string :=
  let! s := text_parameter v in inet_parameter pg s.

(** The parameters of the INSERT as its columns take them. *)
Definition event_of (event_type sev source_ip source source_type event_timestamp message app_name environment raw_payload : pyval)
    : outcome event_row :=
  let! event_type := text_parameter event_type in
  let! sev := text_parameter sev in
  let! ip := inet_value source_ip in
  let! source := text_parameter source in
  let! source_type := text_parameter source_type in
  let! timestamp := pg_timestamptz pg event_timestamp in
  let! message := text_parameter message in
  let! app_name := text_parameter app_name in
  let! environment := text_parameter environment in
  let! raw_payload := pg_jsonb pg raw_payload in
  Ok (EventRow event_type sev ip source source_type timestamp message app_name environment raw_payload (pg_now pg)).

Definition insert_event (row : outcome event_row) : M siem_db Z := fun d =>
  match row with
  | Raise e => (Raise e, d)
  | Ok row =>
      let i := sd_event_seq d in
      if negb (int4 i) then (Raise (DatabaseError "nextval: reached maximum value of sequence"), d)
      else (Ok (ev_created_at row),
            SiemDb (<[i := row]> (sd_events d)) (i + 1) (sd_alerts d) (sd_alert_seq d) (sd_overrides d) (sd_health d)
              (sd_audit d) (sd_filter d))
  end.

End Ingest.

(** ** Detectors by event type *)

(** A detector as [_run_detector] calls it: source, source type, address,
    rule. *)
Definition detector_core (W : Type) : Type :=
  option string -> option string -> option string -> option effective_rule -> M (detection W) (list pydict).

(** The detectors of firewall events, by the functions that implement them:
    like every detector they only raise alerts, of their own type. *)
Class FirewallDetectors (W : Type) (pg : postgres) := {
  generate_pfsense_repeated_deny_alerts_core : detector_core W;
  generate_pfsense_port_scan_alerts_core : detector_core W;
  generate_pfsense_noisy_source_alerts_core : detector_core W;
  generate_pfsense_allow_after_deny_alerts_core : detector_core W;
  generate_pfsense_suspicious_allow_alerts_core : detector_core W;
  repeated_deny_raises : forall s t ip r, raises_only pg ["pfsense_firewall_repeated_deny"] (generate_pfsense_repeated_deny_alerts_core s t ip r);
  port_scan_raises : forall s t ip r, raises_only pg ["pfsense_firewall_port_scan"] (generate_pfsense_port_scan_alerts_core s t ip r);
  noisy_source_raises : forall s t ip r, raises_only pg ["pfsense_firewall_noisy_source"] (generate_pfsense_noisy_source_alerts_core s t ip r);
  allow_after_deny_raises : forall s t ip r, raises_only pg ["pfsense_firewall_allow_after_deny"] (generate_pfsense_allow_after_deny_alerts_core s t ip r);
  suspicious_allow_raises : forall s t ip r, raises_only pg ["pfsense_firewall_suspicious_allow"] (generate_pfsense_suspicious_allow_alerts_core s t ip r);
}.

Section Engine.
Context {W : Type} (pg : postgres) `{!FirewallDetectors W pg} (json_loads : json_decoder).
Context (api_key : bool) (abuseipdb : string -> W -> abuse_reply * W).

Definition IMPLEMENTED_BASE_DETECTION_RULE_IDS : list string :=
  ["failed_login_threshold"; "port_scan_threshold"; "password_spraying_threshold"; "http_error_threshold";
   "application_exception_threshold"; "app_insights_unauthorized_access_threshold"; "high_request_rate_threshold";
   "successful_login_after_spray"; "honeypot_env_probe_threshold"; "honeypot_admin_probe_threshold";
   "honeypot_scanner_detected"; "honeypot_credential_stuffing_threshold"; "pfsense_firewall_repeated_deny";
   "pfsense_firewall_port_scan"; "pfsense_firewall_noisy_source"; "pfsense_firewall_suspicious_allow";
   "pfsense_firewall_allow_after_deny"].

Definition failed_login_rule : string * detector_core W :=
  ("failed_login_threshold", generate_failed_login_alerts_core pg json_loads api_key abuseipdb).
Definition after_spray_rule : string * detector_core W :=
  ("successful_login_after_spray", generate_successful_login_after_spray_alerts_core pg json_loads api_key abuseipdb).
Definition request_rate_rule : string * detector_core W :=
  ("high_request_rate_threshold", generate_high_request_rate_alerts_core pg json_loads api_key abuseipdb).
Definition noisy_source_rule : string * detector_core W :=
  ("pfsense_firewall_noisy_source", generate_pfsense_noisy_source_alerts_core).

(** The dict [detector_candidates]. *)
Definition candidates_by_type : list (string * list (string * detector_core W)) :=
  [("failed_login",
     [failed_login_rule;
      ("password_spraying_threshold", generate_password_spraying_alerts_core pg json_loads api_key abuseipdb);
      after_spray_rule]);
   ("unauthorized_access",
     [failed_login_rule;
      ("app_insights_unauthorized_access_threshold", generate_app_insights_unauthorized_access_alerts_core pg json_loads api_key abuseipdb);
      request_rate_rule]);
   ("http_error",
     [("http_error_threshold", generate_http_error_alerts_core pg json_loads api_key abuseipdb); request_rate_rule]);
   ("application_exception",
     [("application_exception_threshold", generate_application_exception_alerts_core pg json_loads api_key abuseipdb)]);
   ("normal_activity", [request_rate_rule]);
   ("successful_login", [after_spray_rule]);
   ("port_scan", [("port_scan_threshold", generate_port_scan_alerts_core pg json_loads api_key abuseipdb)]);
   ("env_probe", [("honeypot_env_probe_threshold", generate_env_probe_alerts_core pg json_loads api_key abuseipdb)]);
   ("admin_probe", [("honeypot_admin_probe_threshold", generate_admin_probe_alerts_core pg json_loads api_key abuseipdb)]);
   ("scanner_detected", [("honeypot_scanner_detected", generate_scanner_detected_alerts_core pg json_loads api_key abuseipdb)]);
   ("credential_stuffing",
     [("honeypot_credential_stuffing_threshold", generate_credential_stuffing_alerts_core pg json_loads api_key abuseipdb)]);
   ("firewall_block",
     [("pfsense_firewall_repeated_deny", generate_pfsense_repeated_deny_alerts_core);
      ("pfsense_firewall_port_scan", generate_pfsense_port_scan_alerts_core);
      noisy_source_rule]);
   ("firewall_allow",
     [("pfsense_firewall_allow_after_deny", generate_pfsense_allow_after_deny_alerts_core);
      ("pfsense_firewall_suspicious_allow", generate_pfsense_suspicious_allow_alerts_core);
      noisy_source_rule])].

(** [detector_candidates.get(event_type, ())]. *)
Definition detector_candidates (event_type : pyval) : list (string * detector_core W) :=
  match event_type with
  | PStr t => match find (fun c => String.eqb c.1 t) candidates_by_type with Some c => c.2 | None => [] end
  | _ => []
  end.

Definition run_detector (rule_id : string) (core : detector_core W) (source_ip source source_type : option string)
    : M (detection W) (list pydict) :=
  if negb (rule_applies_to_source rule_id source source_type) then ret []
  else
    let* rule := effective_rule_of json_loads rule_id in
    if negb (er_active rule) then ret [] else core source source_type source_ip (Some rule).

Fixpoint run_detectors (candidates : list (string * detector_core W)) (source_ip source source_type : option string)
    : M (detection W) (list pydict) :=
  match candidates with
  | [] => ret []
  | (rule_id, core) :: candidates =>
      let* alerts := run_detector rule_id core source_ip source source_type in
      let* rest := run_detectors candidates source_ip source source_type in
      ret (alerts ++ rest)
  end.

(** ** Correlation *)

(** The set of the addresses the alerts name, in the order of their first
    appearance; the alerts of one event name one. *)
Definition correlated_source_ips (alerts : list pydict) : list string :=
  dedupe (omap (fun a => let ip := dget a "source_ip" in if is_none ip then None else Some (py_str ip)) alerts) [].

Fixpoint correlate (ips : list string) : M (detection W) (list pydict) :=
  match ips with
  | [] => ret []
  | ip :: ips =>
      let* activity := generate_correlated_activity_alerts pg api_key abuseipdb ip in
      let* targeted := generate_targeted_correlation_alerts pg api_key abuseipdb ip in
      let* rest := correlate ips in
      ret (activity ++ targeted ++ rest)
  end.

(** ** Marking alerts of synthetic events *)

(** [jsonb || jsonb] with an object on the right. *)
Definition json_concat (a : pyval) (b : pydict) : pyval :=
  match a with
  | PDict d => PDict (dmerge d b)
  | PList l => PList (l ++ [PDict b])
  | v => PList [v; PDict b]
  end.

Definition set_al_context (r : alert_row) (context : pyval) : alert_row :=
  AlertRow (al_alert_type r) (al_severity r) (al_source_ip r) (al_source r) (al_source_type r) (al_message r) (al_status r)
    (al_response_action r) (al_response_status r) (al_country r) (al_city r) (al_latitude r) (al_longitude r)
    (al_reputation_score r) (al_reputation_label r) (al_reputation_source r) (al_reputation_summary r) context (al_created_at r).

(** UPDATE alerts SET context = context || .. WHERE id = ANY(..). *)
Definition update_contexts (ids : list Z) (context : outcome pyval) : M siem_db unit := fun d =>
  match context with
  | Raise e => (Raise e, d)
  | Ok context =>
      (Ok tt,
       SiemDb (sd_events d) (sd_event_seq d)
         (map_imap (fun i r => Some (if bool_decide (i ∈ ids)
                                     then set_al_context r (json_concat (al_context r) (dict_or_empty context)) else r)) (sd_alerts d))
         (sd_alert_seq d) (sd_overrides d) (sd_health d) (sd_audit d) (sd_filter d))
  end.

Fixpoint alert_ids (alerts : list pydict) : outcome (list Z) :=
  match alerts with
  | [] => Ok []
  | a :: alerts =>
      if is_none (dget a "alert_id") then alert_ids alerts
      else let! i := py_int (dget a "alert_id") in let! ids := alert_ids alerts in Ok (i :: ids)
  end.

Definition mark_alerts_with_synthetic_provenance (alerts : list pydict) (context : option pydict) : M (detection W) unit :=
  match context with
  | None => ret tt
  | Some context =>
      let* ids := of_outcome (alert_ids alerts) in
      if bool_decide (ids = []) then ret tt else sql (update_contexts ids (pg_jsonb pg (PDict context)))
  end.

(** ** Ingestion *)

Definition ingest_normalized_event (event : pydict) : M (detection W) (list pydict) :=
  let* event_type := of_outcome (dindex event "event_type") in
  let* sev := of_outcome (dindex event "severity") in
  let* source_ip := of_outcome (dindex event "source_ip") in
  let source := default (PStr "bank_app") (dlookup event "source") in
  let source_type := default (PStr "custom") (dlookup event "source_type") in
  let event_timestamp := dget event "event_timestamp" in
  let* message := of_outcome (dindex event "message") in
  let* app_name := of_outcome (dindex event "app_name") in
  let* environment := of_outcome (dindex event "environment") in
  let* raw_payload := of_outcome (dindex event "raw_payload") in
  of_outcome (reject_raw_password_fields event) ;;;
  let* ingested_at := sql (insert_event (event_of pg event_type sev source_ip source source_type event_timestamp
                                           message app_name environment raw_payload)) in
  record_persisted_push_event pg source ingested_at raw_payload ;;;
  let* detected := run_detectors (detector_candidates event_type) (as_str source_ip) (as_str source) (as_str source_type) in
  let* correlations := correlate (correlated_source_ips detected) in
  let alerts_created := detected ++ correlations in
  mark_alerts_with_synthetic_provenance alerts_created (build_synthetic_provenance_context event) ;;;
  ret alerts_created.
End Engine.
