(* ===== verification/DetectionProofs.v ===== *)
(** * DetectionProofs: what the detectors do

    Every detector only raises alerts ([raises_only]); a threshold detector
    raises one exactly when its count reaches the threshold and none is open;
    the severities stay within the catalog's. *)

From S2P Require Import Prelude Tables PyText PyFloat PyValue Alerts PfsenseFilter DetectionCatalog DetectionConfig.
From S2P Require Import Reputation Detections Correlations.

Open Scope Z_scope.

(** ** Lists *)

Lemma existsb_false {A} (p : A -> bool) l : existsb p l = false <-> forall x, x ∈ l -> p x = false.
Proof.
  split.
  - intros H x Hx. apply list_elem_of_In in Hx. destruct (p x) eqn:E; [|done].
    assert (existsb p l = true) by (apply existsb_exists; eauto). congruence.
  - intros H. destruct (existsb p l) eqn:E; [|done]. apply existsb_exists in E as (x & Hx & Hp).
    apply list_elem_of_In in Hx. rewrite (H x Hx) in Hp. done.
Qed.

Lemma elem_of_rows {R} (t : gmap Z R) r : r ∈ rows t <-> exists i, t !! i = Some r.
Proof.
  unfold rows. rewrite list_elem_of_fmap. split.
  - intros ([i r'] & -> & H%elem_of_select). exists i. tauto.
  - intros [i Hi]. exists (i, r). split; [done|]. by apply elem_of_select.
Qed.

Section Proofs.
Context {W : Type} (pg : postgres) (json_loads : json_decoder).
Context (api_key : bool) (abuseipdb : string -> W -> abuse_reply * W).
Implicit Types (s : detection W).

(** ** Statements that only read *)

Lemma reads_reputation ip : reads_any (reputation_of api_key abuseipdb ip : M (detection W) reputation).
Proof. apply (reads_zoom (lookup_ip_reputation api_key abuseipdb ip) (fun _ => True)). done. Qed.

Lemma reads_outcome_any {A} (o : outcome A) : reads_any (of_outcome o : M (detection W) A).
Proof. by apply (reads_outcome o (fun _ => True)). Qed.

Lemma reads_sql_any {A} (m : M siem_db A) : (forall d, (m d).2 = d) -> reads_any (sql m : M (detection W) A).
Proof. intros Hm. by apply reads_sql. Qed.

Lemma location_reads types source source_type ip : reads_any (sql (fetch_latest_location pg types source source_type ip) : M (detection W) location).
Proof. apply reads_sql_any. intros d. unfold fetch_latest_location. destruct (inet_parameter pg ip); [|done]. by destruct (newest _ _). Qed.

Lemma events_read types source source_type ip window :
  reads_any (sql (events_in_window pg types source source_type ip window) : M (detection W) (list event_row)).
Proof. apply reads_sql_any. intros d. unfold events_in_window. by destruct (inet_parameter pg ip). Qed.

Lemma recent_reads ip window p : reads_any (sql (recent_open_alerts pg ip window p) : M (detection W) (list alert_entry)).
Proof. apply reads_sql_any. intros d. unfold recent_open_alerts. by destruct (inet_parameter pg ip). Qed.

(** The test for an open alert says what it says of the address as
    PostgreSQL reads it. *)
Definition tested (ip alert_type : string) (dup : bool) (d : siem_db) : Prop :=
  dup = false -> forall a, pg_inet pg ip = Some a -> none_open d a alert_type.

Lemma open_test_reads ip alert_type : reads (sql (open_alert_exists pg ip alert_type) : M (detection W) bool) (tested ip alert_type).
Proof.
  apply reads_sql; intros d; unfold open_alert_exists, inet_parameter; destruct (pg_inet pg ip) as [a|] eqn:E; cbn; try done.
  intros dup [= <-] Hdup a' Ha' i r Hr. rewrite E in Ha'. injection Ha' as <-. apply (proj1 (existsb_false _ _) Hdup), elem_of_rows. eauto.
Qed.

Lemma override_reads {A} (m : M (conn override_table) A) :
  (forall c, (m c).2 = c) ->
  reads_any (on_conn (zoom_conn sd_overrides
             (fun t d => SiemDb (sd_events d) (sd_event_seq d) (sd_alerts d) (sd_alert_seq d) t (sd_health d) (sd_audit d) (sd_filter d)) m) : M (detection W) A).
Proof.
  intros Hm s. unfold on_conn, zoom, zoom_conn. specialize (Hm (Conn (sd_overrides (cn_committed (dn_conn s))) (sd_overrides (cn_current (dn_conn s))) (cn_aborted (dn_conn s)))).
  destruct (m _) as [o t]. cbn in *. subst t. cbn. split_and!; [done| |done]. unfold current. cbn. by destruct (cn_current (dn_conn s)).
Qed.

Lemma effective_rule_still rule_id (c : conn override_table) : (get_effective_detection_rule json_loads rule_id c).2 = c.
Proof.
  unfold get_effective_detection_rule. destruct (defaults_of rule_id); [|done]. unfold bind, of_outcome.
  destruct (get_rule_applicability_metadata rule_id); [|done]. destruct c as [com cur ab]. cbn [cn_aborted cn_current cn_committed].
  destruct ab; [done|]. unfold select_override. destruct cur as [rows|]; [|done]. destruct (rows !! rule_id) as [row|]; [|done].
  by destruct (apply_override _ _ _ _) as [? [e|]].
Qed.

Lemma rule_reads rule_id : reads_any (effective_rule_of json_loads rule_id : M (detection W) effective_rule).
Proof. apply override_reads, effective_rule_still. Qed.

Lemma prepare_reads rule_id source source_type rule : reads_any (prepare_rule_evaluation json_loads rule_id source source_type rule : M (detection W) _).
Proof.
  unfold prepare_rule_evaluation. destruct (negb _); [apply leaves_ret_any|].
  eapply leaves_bind.
  - destruct rule; [apply leaves_ret_any|apply rule_reads].
  - intros r. apply leaves_ret_any.
Qed.

Lemma resolve_reads source_ip source source_type : reads_any (resolve_evaluation_source_ip source_ip source source_type : M (detection W) _).
Proof. unfold resolve_evaluation_source_ip. destruct source_ip; [apply leaves_ret_any|by apply reads_sql_any]. Qed.

(** ** Raising *)

(** The insert, and the dict made of its id, after a test for duplicates. *)
Lemma insert_raises {A} alert_type sev ip source source_type message action l r (context : outcome pyval) (k : Z -> A) (ann : A -> list (Z * alert_row) -> Prop) types :
  alert_type ∈ types ->
  (forall i row, int4 i = true -> al_alert_type row = alert_type -> al_severity row = severity_text sev -> al_response_action row = action ->
     pg_inet pg ip = Some (al_source_ip row) -> ann (k i) [(i, row)]) ->
  raises_when (tested ip alert_type false) ann types
    (let* i := sql (insert_alert pg alert_type sev ip source source_type message action l r context) in
     ret (k i) : M (detection W) A).
Proof.
  intros Hty Hk s Hs. unfold bind, sql, on_conn, zoom, Tables.execute.
  destruct (cn_aborted (dn_conn s)); [split; [done|]; exists []; split; [constructor|done]|].
  unfold insert_alert, inet_parameter. destruct (pg_inet pg ip) as [a|] eqn:Ea;
    [|split; [done|]; exists []; split; [constructor|done]].
  destruct (pg_int4 pg (rp_score r)) as [score|]; [|split; [done|]; exists []; split; [constructor|done]].
  destruct context as [ctx|e]; [|split; [done|]; exists []; split; [constructor|done]].
  destruct (int4 _) eqn:Hint; cbn [negb]; [|split; [done|]; exists []; split; [constructor|done]].
  split; [done|]. eexists [_]. split.
  - eapply raising_cons; cycle 3; [apply raising_nil|exact Hty|reflexivity|exact (Hs eq_refl a Ea)].
  - cbn. intros b [= <-]. by apply Hk.
Qed.

Lemma raise_alert_raises form source source_type ip message key v :
  key ∉ ["alert_id"; "response_action"; "severity"; "source_ip"; "alert_type"] ->
  raises (names_one pg) [af_rule_id form] (raise_alert pg api_key abuseipdb form source source_type ip message (key, v) : M (detection W) _).
Proof.
  intros Hkey. apply raises_from_any. unfold raise_alert.
  eapply raises_read; [apply reads_reputation|]. intros r.
  eapply raises_read; [apply reads_outcome_any|]. intros action.
  eapply raises_read; [apply location_reads|]. intros l.
  eapply raises_read; [apply open_test_reads|]. intros dup. cbn beta.
  destruct dup; [apply raises_any, raises_ret; done|].
  intros s [_ Hs]. eapply (insert_raises _ _ _ _ _ _ _ _ _ _
    (fun i => Some [("source_ip", PStr ip); (key, v); ("alert_id", PInt i); ("response_action", PStr action);
                    ("severity", PStr (severity_text (af_severity form)))])); [set_solver| |exact Hs].
  intros i row Hi _ Hsev Hact Hip. cbn.
  assert (String.eqb key "alert_id" = false /\ String.eqb key "response_action" = false /\ String.eqb key "severity" = false /\
          String.eqb key "alert_type" = false) as (K1 & K2 & K3 & K4).
  { split_and!; apply String.eqb_neq; intros ->; apply Hkey; set_solver. }
  split; cbn; rewrite ?K1, ?K2, ?K3, ?K4, ?Hsev, ?Hact; try done; [by exists ip|by left].
Qed.
(** ** Detectors *)

Lemma threshold_detector_raises det source source_type source_ip rule :
  de_count_key det ∉ ["alert_id"; "response_action"; "severity"; "source_ip"; "alert_type"] ->
  raises_only pg [af_rule_id (de_form det)]
    (run_threshold_detector pg json_loads api_key abuseipdb det source source_type source_ip rule : M (detection W) _).
Proof.
  intros Hkey. apply raises_from_any. unfold run_threshold_detector.
  eapply raises_read; [apply prepare_reads|]. intros prepared.
  destruct prepared as [r|], source as [source|], source_type as [source_type|]; try (apply raises_any, raises_ret; constructor).
  eapply raises_read; [apply resolve_reads|]. intros [ip|]; [|apply raises_any, raises_ret; constructor].
  eapply raises_read; [apply reads_outcome_any|]. intros threshold.
  eapply raises_read; [apply reads_outcome_any|]. intros window.
  eapply raises_read; [apply events_read|]. intros events.
  apply raises_any, raises_alerts. intros row. by apply raise_alert_raises.
Qed.

Lemma success_detector_raises source source_type source_ip rule :
  raises_only pg ["successful_login_after_spray"]
    (generate_successful_login_after_spray_alerts_core pg json_loads api_key abuseipdb source source_type source_ip rule : M (detection W) _).
Proof.
  apply raises_from_any. unfold generate_successful_login_after_spray_alerts_core.
  eapply raises_read; [apply prepare_reads|]. intros prepared.
  destruct prepared as [r|], source as [source|], source_type as [source_type|]; try (apply raises_any, raises_ret; constructor).
  eapply raises_read; [apply resolve_reads|]. intros [ip|]; [|apply raises_any, raises_ret; constructor].
  do 4 (eapply raises_read; [apply reads_outcome_any|]; intros ?).
  do 2 (eapply raises_read; [apply events_read|]; intros ?).
  apply raises_any, raises_alerts. intros row. apply (raise_alert_raises login_after_spray). set_solver.
Qed.

(** ** Correlations *)

Lemma insert_correlation_raises {A} alert_type sev floor ip message newest context (k : pydict -> A)
    (ann : A -> list (Z * alert_row) -> Prop) :
  (forall a x, announces pg a x -> ann (k a) [x]) ->
  raises_when (tested ip alert_type false) ann [alert_type]
    (let* a := insert_correlation pg api_key abuseipdb alert_type sev floor ip message newest context in ret (k a) : M (detection W) A).
Proof.
  intros Hk s Hs. unfold insert_correlation. rewrite !bind_assoc. revert s Hs.
  eapply raises_read; [apply reads_reputation|]. intros r s [Hs _]. rewrite bind_assoc. revert s Hs.
  eapply raises_read; [apply reads_outcome_any|]. intros action s [Hs _]. rewrite bind_assoc. revert s Hs.
  eapply (insert_raises _ _ _ _ _ _ _ _ _ _ (fun i => k (alert_result i ip action sev alert_type _ _))); [set_solver|].
  intros i row Hi Hty Hsev Hact Hip. apply Hk.
  split; cbn; try done; [by exists ip|by rewrite Hact|by rewrite Hsev|right; by rewrite Hty].
Qed.

Lemma correlated_activity_raises ip :
  raises_only pg ["correlated_activity"] (generate_correlated_activity_alerts pg api_key abuseipdb ip : M (detection W) _).
Proof.
  apply raises_from_any. unfold generate_correlated_activity_alerts.
  eapply raises_read; [apply open_test_reads|]. intros [|]; [apply raises_any, raises_ret; constructor|].
  eapply raises_read; [apply recent_reads|]. intros [|[i newest] l]; [apply raises_any, raises_ret; constructor|].
  destruct (negb _); [apply raises_any, raises_ret; constructor|].
  intros s [[_ Hs] _]. eapply insert_correlation_raises; [|exact Hs]. intros a x Hx. constructor; [done|constructor].
Qed.

Lemma targeted_rule_raises ip rule :
  raises (names_one pg) [tr_alert_type rule] (evaluate_targeted_rule pg api_key abuseipdb ip rule : M (detection W) _).
Proof.
  apply raises_from_any. unfold evaluate_targeted_rule.
  eapply raises_read; [apply open_test_reads|]. intros [|]; [by apply raises_any, raises_ret|].
  eapply raises_read; [apply recent_reads|]. intros l.
  destruct (negb _); [by apply raises_any, raises_ret|].
  destruct (List.filter _ l) as [|[i newest] q]; [apply raises_any, raises_raise|].
  intros s [[_ Hs] _]. eapply insert_correlation_raises; [|exact Hs]. by intros a x Hx.
Qed.

Definition targeted_types : list string := map tr_alert_type targeted_rules.

Lemma targeted_raises ip : raises_only pg targeted_types (generate_targeted_correlation_alerts pg api_key abuseipdb ip : M (detection W) _).
Proof.
  unfold generate_targeted_correlation_alerts, targeted_types. induction targeted_rules as [|rule rules IH]; cbn [raise_alerts map].
  { apply raises_ret. constructor. }
  eapply raises_bind.
  - eapply raises_mono; [|intros a x Hx; exact Hx|apply targeted_rule_raises]. set_solver.
  - intros o x Hx. eapply raises_bind.
    + eapply raises_mono; [|intros a y Hy; exact Hy|exact IH]. set_solver.
    + intros l y Hy. apply raises_ret. rewrite app_nil_r. destruct o as [alert|], x as [|? [|??]]; cbn in Hx; try done; by constructor.
Qed.
End Proofs.

(** ** Exactly when a threshold detector raises *)

Lemma remove_dups_const {A} `{EqDecision A} (l : list A) a : l <> [] -> (forall x, x ∈ l -> x = a) -> remove_dups l = [a].
Proof.
  induction l as [|x l IH]; intros Hne Hall; [done|]. cbn.
  assert (x = a) as -> by (apply Hall; left). destruct l as [|y l]; [done|].
  assert (remove_dups (y :: l) = [a]) as Hl by (apply IH; [done|]; intros z Hz; apply Hall; by right).
  case_decide as Hin; [exact Hl|]. exfalso. apply Hin. assert (y = a) as -> by (apply Hall; right; left). left.
Qed.

Lemma filter_all {A} (p : A -> bool) l : (forall x, x ∈ l -> p x = true) -> List.filter p l = l.
Proof.
  induction l as [|x l IH]; intros H; cbn; [done|]. rewrite (H x) by left. f_equal. apply IH. intros y Hy. apply H. by right.
Qed.

Lemma count_nil m : count_of m [] = 0.
Proof. by destruct m. Qed.

(** Rows of one address make one group, or none. *)
Lemma having_one m threshold a l : (forall e, e ∈ l -> ev_source_ip e = a) -> 1 <= threshold ->
  let n := count_of m (List.filter (counted m) l) in
  having m threshold l = if threshold <=? n then [(a, n)] else [].
Proof.
  intros Hall Ht. cbv zeta. unfold having. set (q := List.filter (counted m) l).
  assert (forall e, e ∈ q -> ev_source_ip e = a) as Hq.
  { intros e He. apply Hall. unfold q in He. apply list_elem_of_In, filter_In in He as [He _]. by apply list_elem_of_In. }
  clearbody q. unfold by_source_ip. destruct q as [|e q].
  - cbn. rewrite count_nil. destruct (threshold <=? 0) eqn:E; [|done]. apply Z.leb_le in E. lia.
  - rewrite (remove_dups_const _ a); [|done|].
    + cbn [map List.filter fst snd]. rewrite (Hq e) by left. rewrite String.eqb_refl.
      rewrite (filter_all (fun x => String.eqb (ev_source_ip x) a) q).
      * cbn [fst snd]. by destruct (_ <=? _).
      * intros x Hx. rewrite (Hq x) by (by right). apply String.eqb_refl.
    + intros x Hx. apply list_elem_of_fmap in Hx as (e' & -> & He'). by apply Hq.
Qed.

Section Raise.
Context {W : Type} (pg : postgres) (api_key : bool) (abuseipdb : string -> W -> abuse_reply * W).
Context (form : alert_form) (source source_type : string).

Definition already_open (a : string) (d : siem_db) : bool := existsb (open_alert a (af_rule_id form)) (rows (sd_alerts d)).

(** What an alert for the address [a] is made of in the state [s]: the
    database takes the values. *)
Record raisable (s : detection W) (a : string) (r : reputation) (later : lookups W) (action : string) (score : Z) (l : location) : Prop := Raisable {
  ra_alive : cn_aborted (dn_conn s) = false;
  ra_inet : pg_inet pg a = Some a;
  ra_lookup : lookup_ip_reputation api_key abuseipdb a (dn_lookups s) = (Ok r, later);
  ra_action : response_action_of form r = Ok action;
  ra_score : pg_int4 pg (rp_score r) = Some score;
  ra_location : (fetch_latest_location pg (af_location_types form) source source_type a (current s)).1 = Ok l;
  ra_id : int4 (sd_alert_seq (current s)) = true;
}.

Definition raised_row (a message : string) (r : reputation) (action : string) (score : Z) (l : location) : alert_row :=
  AlertRow (af_rule_id form) (severity_text (af_severity form)) a (Some source) (Some source_type) message "open" action "pending"
    (lo_country l) (lo_city l) (lo_latitude l) (lo_longitude l) score (rp_label r) (rp_source r) (rp_summary r) (PDict []) (pg_now pg).

Definition raised_result (a : string) (detail : string * pyval) (i : Z) (action : string) : pydict :=
  [("source_ip", PStr a); detail; ("alert_id", PInt i); ("response_action", PStr action);
   ("severity", PStr (severity_text (af_severity form)))].

Lemma sql_run {A} (m : M siem_db A) (s : detection W) a d : cn_aborted (dn_conn s) = false -> m (current s) = (Ok a, d) ->
  sql m s = (Ok a, Detection (Conn (cn_committed (dn_conn s)) d false) (dn_lookups s)).
Proof. intros Ha Hm. unfold sql, on_conn, zoom, Tables.execute. rewrite Ha. unfold current in Hm. by rewrite Hm. Qed.

Lemma conn_alive (s : detection W) : cn_aborted (dn_conn s) = false -> Conn (cn_committed (dn_conn s)) (current s) false = dn_conn s.
Proof. destruct s as [[com cur ab] lk]. cbn. by intros ->. Qed.

Lemma sql_read {A} (m : M siem_db A) (s : detection W) a : cn_aborted (dn_conn s) = false -> m (current s) = (Ok a, current s) -> sql m s = (Ok a, s).
Proof. intros Ha Hm. rewrite (sql_run m s a _ Ha Hm), conn_alive by done. by destruct s. Qed.

(** The statements up to the test for an open alert. *)
Lemma raise_alert_tested s a message detail r later action l :
  cn_aborted (dn_conn s) = false -> pg_inet pg a = Some a ->
  lookup_ip_reputation api_key abuseipdb a (dn_lookups s) = (Ok r, later) -> response_action_of form r = Ok action ->
  (fetch_latest_location pg (af_location_types form) source source_type a (current s)).1 = Ok l ->
  raise_alert pg api_key abuseipdb form source source_type a message detail s =
    if already_open a (current s) then (Ok None, Detection (dn_conn s) later)
    else
      (let* alert_id := sql (insert_alert pg (af_rule_id form) (af_severity form) a (Some source) (Some source_type)
                               message action l r (Ok (PDict []))) in
       ret (Some (raised_result a detail alert_id action))) (Detection (dn_conn s) later).
Proof.
  intros Ha Hi Hl Hact Hloc. unfold raise_alert. set (s1 := Detection (dn_conn s) later).
  rewrite (bind_ok _ _ s r s1) by (unfold reputation_of, zoom; by rewrite Hl).
  rewrite (bind_ok _ _ s1 action s1) by (unfold of_outcome; by rewrite Hact).
  assert (fetch_latest_location pg (af_location_types form) source source_type a (current s1) = (Ok l, current s1)) as Hf.
  { change (current s1) with (current s). revert Hloc. unfold fetch_latest_location, inet_parameter. rewrite Hi. destruct (newest _ _); cbn; by intros ->. }
  rewrite (bind_ok _ _ s1 l s1) by exact (sql_read _ s1 l Ha Hf).
  assert (open_alert_exists pg a (af_rule_id form) (current s1) = (Ok (already_open a (current s)), current s1)) as Ho.
  { unfold open_alert_exists, inet_parameter. by rewrite Hi. }
  rewrite (bind_ok _ _ s1 (already_open a (current s)) s1) by exact (sql_read _ s1 _ Ha Ho).
  by destruct (already_open a (current s)).
Qed.

Lemma raise_turn s a message detail r later action score l : raisable s a r later action score l ->
  raise_alert pg api_key abuseipdb form source source_type a message detail s =
    if already_open a (current s) then (Ok None, Detection (dn_conn s) later)
    else (Ok (Some (raised_result a detail (sd_alert_seq (current s)) action)),
          Detection (Conn (cn_committed (dn_conn s)) (add_alert (raised_row a message r action score l) (current s)) false) later).
Proof.
  intros [Ha Hi Hl Hact Hs Hloc Hid]. rewrite (raise_alert_tested s a message detail r later action l) by done.
  destruct (already_open a (current s)); [done|].
  erewrite bind_ok; [reflexivity|]. eapply (sql_run _ (Detection (dn_conn s) later)); [done|]. unfold insert_alert, inet_parameter. rewrite Hi, Hs.
  change (sd_alert_seq (current (Detection (dn_conn s) later))) with (sd_alert_seq (current s)). rewrite Hid. reflexivity.
Qed.
End Raise.

Section Exact.
Context {W : Type} (pg : postgres) (json_loads : json_decoder).
Context (api_key : bool) (abuseipdb : string -> W -> abuse_reply * W).
Context (det : detector) (source source_type : string).
Let form := de_form det.

(** The events of the rule in its window, and what it counts in them. *)
Definition matching_events (a : string) (window : Z) (d : siem_db) : list event_row :=
  List.filter (fun e => event_selected (af_location_types (de_form det)) source source_type e && String.eqb (ev_source_ip e) a && within pg window e)
    (rows (sd_events d)).

Definition observed (a : string) (window : Z) (d : siem_db) : Z :=
  count_of (de_metric det) (List.filter (counted (de_metric det)) (matching_events a window d)).

(** C14: a threshold detector raises an alert exactly when it should.  For an
    applicable source, an active rule and an address, it counts what the
    rule counts (events, distinct ports, paths or usernames) in the events
    of its types from that address and source in the window; at the
    threshold, and when no alert of the rule is open for the address, it
    inserts the one alert and answers its description; otherwise the
    transaction stays as it was and the answer is empty. *)
Theorem threshold_detector_exact s ip a rule threshold window r later action score l :
  rule_applies_to_source (af_rule_id (de_form det)) (Some source) (Some source_type) = true -> er_active rule = true ->
  parameter (er_parameters rule) "threshold" = Some threshold -> parameter (er_parameters rule) "window_minutes" = Some window ->
  1 <= threshold -> pg_inet pg ip = Some a -> raisable pg api_key abuseipdb (de_form det) source source_type s a r later action score l ->
  let n := observed a window (current s) in
  let run := run_threshold_detector pg json_loads api_key abuseipdb det (Some source) (Some source_type) (Some ip) (Some rule) s in
  if (threshold <=? n) && negb (already_open (de_form det) a (current s))
  then run = (Ok [raised_result (de_form det) a (de_count_key det, PInt n) (sd_alert_seq (current s)) action],
              Detection (Conn (cn_committed (dn_conn s))
                           (add_alert (raised_row pg (de_form det) source source_type a (de_message det a n) r action score l) (current s)) false) later)
  else run.1 = Ok [] /\ dn_conn run.2 = dn_conn s.
Proof.
  intros Happ Hact Ht Hw H1 Hip Hr. cbv zeta. unfold run_threshold_detector, prepare_rule_evaluation. rewrite Happ. cbn [negb].
  rewrite (bind_ok _ _ s (Some rule) s) by (unfold bind, ret; by rewrite Hact). cbn [resolve_evaluation_source_ip].
  rewrite (bind_ok _ _ s (Some ip) s) by done. unfold rule_parameter. rewrite Ht, Hw.
  rewrite (bind_ok _ _ s threshold s) by done. rewrite (bind_ok _ _ s window s) by done.
  assert (events_in_window pg (af_location_types (de_form det)) source source_type ip window (current s) = (Ok (matching_events a window (current s)), current s)) as He.
  { unfold events_in_window, inet_parameter. by rewrite Hip. }
  pose proof (ra_alive _ _ _ _ _ _ _ _ _ _ _ _ _ Hr) as Ha.
  rewrite (bind_ok _ _ s (matching_events a window (current s)) s) by exact (sql_read _ s _ Ha He).
  rewrite (having_one _ _ a); [|intros e Hin|done].
  2: { apply list_elem_of_In, filter_In in Hin as [_ [[_ Hin]%andb_true_iff _]%andb_true_iff]. by apply String.eqb_eq. }
  fold (observed a window (current s)). destruct (threshold <=? observed a window (current s)); cbn [andb raise_alerts]; [|done].
  pose proof (raise_turn pg api_key abuseipdb _ _ _ s a (de_message det a (observed a window (current s)))
    (de_count_key det, PInt (observed a window (current s))) _ _ _ _ _ Hr) as Hturn.
  unfold raise_threshold_alert. cbn [fst snd]. destruct (already_open (de_form det) a (current s)); cbn [negb]; unfold bind; rewrite Hturn; done.
Qed.
End Exact.

(** ** A login after a spray *)

Section Spray.
Context {W : Type} (pg : postgres) (json_loads : json_decoder).
Context (api_key : bool) (abuseipdb : string -> W -> abuse_reply * W).
Context (source source_type : string).
Abbreviation turn := (raise_success_alert pg api_key abuseipdb source source_type).
Abbreviation spray_open := (already_open login_after_spray).

Lemma response_action_scored form r : is_number (rp_score r) = true -> exists action, response_action_of form r = Ok action.
Proof.
  intros Hn. unfold response_action_of. destruct (response_of_number _ Hn) as (action & -> & _). cbn. destruct (af_floor form); eauto.
Qed.

Lemma location_frame types a d d' : sd_events d' = sd_events d ->
  (fetch_latest_location pg types source source_type a d').1 = (fetch_latest_location pg types source source_type a d).1.
Proof. intros He. unfold fetch_latest_location. destruct (inet_parameter pg a); [|done]. rewrite He. by destruct (newest _ _). Qed.

Lemma open_after form r d : al_status r = "open" -> al_alert_type r = af_rule_id form ->
  already_open form (al_source_ip r) (add_alert r d) = true.
Proof.
  intros Ho Hty. unfold already_open. apply existsb_exists. exists r. split; [|rewrite <- Hty; by apply open_alert_self].
  apply list_elem_of_In, elem_of_rows. exists (sd_alert_seq d). cbn. by rewrite lookup_insert_eq.
Qed.

(** Later rows find the alert open. *)
Lemma later_successes a l rows (s : detection W) :
  (forall row, row ∈ rows -> row.1 = a) -> cn_aborted (dn_conn s) = false -> pg_inet pg a = Some a ->
  reputations_scored (lk_cache (dn_lookups s)) ->
  (fetch_latest_location pg (af_location_types login_after_spray) source source_type a (current s)).1 = Ok l ->
  spray_open a (current s) = true ->
  (raise_alerts turn rows s).1 = Ok [] /\ dn_conn (raise_alerts turn rows s).2 = dn_conn s.
Proof.
  revert s. induction rows as [|row rows IH]; intros s Hrows Ha Hi Hc Hl Ho; cbn [raise_alerts]; [done|].
  destruct (lookup_scored api_key abuseipdb a (dn_lookups s) Hc) as (r & later & Hlk & Hn & Hc').
  destruct (response_action_scored login_after_spray r Hn) as [action Hact].
  assert (turn row s = (Ok None, Detection (dn_conn s) later)) as Hturn.
  { unfold raise_success_alert. rewrite (Hrows row) by left.
    rewrite (raise_alert_tested pg api_key abuseipdb _ _ _ s a _ _ r later action l) by done. by rewrite Ho. }
  destruct (IH (Detection (dn_conn s) later)) as [H1 H2]; [intros x Hx; apply Hrows; by right|done..|].
  rewrite (bind_ok _ _ _ _ _ Hturn). unfold bind. destruct (raise_alerts turn rows (Detection (dn_conn s) later)) as [o s'].
  cbn [fst snd] in H1, H2. subst o. cbn. done.
Qed.

Definition login_events (types : list string) (a : string) (window : Z) (d : siem_db) : list event_row :=
  List.filter (fun e => event_selected types source source_type e && String.eqb (ev_source_ip e) a && within pg window e) (rows (sd_events d)).

(** A success that enough distinct usernames failed before. *)
Definition follows_spray (threshold correlation_window : Z) (failed : list event_row) (success : event_row) : bool :=
  threshold <=? Z.of_nat (length (sprayed_usernames pg correlation_window success failed)).

Lemma qualifying_spec threshold cw successes failed row : 1 <= threshold ->
  row ∈ qualifying_successes pg threshold cw successes failed <->
  exists e, e ∈ successes /\ follows_spray threshold cw failed e = true /\ row = (ev_source_ip e, ev_created_at e).
Proof.
  intros Ht. unfold qualifying_successes. rewrite merge_sort_Permutation, elem_of_remove_dups, list_elem_of_fmap. split.
  - intros (e & -> & He). apply list_elem_of_In, filter_In in He as [He [_ Hq]%andb_true_iff].
    exists e. split_and!; [by apply list_elem_of_In|done|done].
  - intros (e & He & Hq & ->). exists e. split; [done|]. apply list_elem_of_In, filter_In. split; [by apply list_elem_of_In|].
    apply andb_true_iff. split; [|exact Hq]. apply negb_true_iff, bool_decide_eq_false. intros Hnil.
    unfold follows_spray in Hq. rewrite Hnil in Hq. cbn in Hq. apply Z.leb_le in Hq. lia.
Qed.

(** C15: the one critical alert.  successful_login_after_spray raises an alert
    exactly when some successful login of the success window had, in the
    correlation window that ends with it, failed logins of the same address
    under at least the threshold of distinct usernames, and no such alert is
    open for the address.  It raises one, however many logins qualify, and
    names the instant of one that does. *)
Theorem login_after_spray_exact s ip a rule threshold sw fl cw r later action score l :
  rule_applies_to_source "successful_login_after_spray" (Some source) (Some source_type) = true -> er_active rule = true ->
  parameter (er_parameters rule) "threshold" = Some threshold -> parameter (er_parameters rule) "success_window_minutes" = Some sw ->
  parameter (er_parameters rule) "failed_lookback_minutes" = Some fl -> parameter (er_parameters rule) "correlation_window_minutes" = Some cw ->
  1 <= threshold -> pg_inet pg ip = Some a -> reputations_scored (lk_cache (dn_lookups s)) ->
  raisable pg api_key abuseipdb login_after_spray source source_type s a r later action score l ->
  let successes := login_events ["successful_login"] a sw (current s) in
  let failed := login_events ["failed_login"] a fl (current s) in
  let run := generate_successful_login_after_spray_alerts_core pg json_loads api_key abuseipdb (Some source) (Some source_type) (Some ip) (Some rule) s in
  if existsb (follows_spray threshold cw failed) successes && negb (spray_open a (current s))
  then exists e, e ∈ successes /\ follows_spray threshold cw failed e = true /\
    run.1 = Ok [raised_result login_after_spray a ("success_at", PStr (isoformat " " (utc_datetime (ev_created_at e)))) (sd_alert_seq (current s)) action] /\
    dn_conn run.2 = Conn (cn_committed (dn_conn s))
      (add_alert (raised_row pg login_after_spray source source_type a
         ("Successful login after password spraying detected from " +:+ a) r action score l) (current s)) false
  else run.1 = Ok [] /\ dn_conn run.2 = dn_conn s.
Proof.
  intros Happ Hact Ht Hsw Hfl Hcw H1 Hip Hc Hr. cbv zeta. unfold generate_successful_login_after_spray_alerts_core, prepare_rule_evaluation.
  rewrite Happ. cbn [negb]. rewrite (bind_ok _ _ s (Some rule) s) by (unfold bind, ret; by rewrite Hact).
  cbn [resolve_evaluation_source_ip]. rewrite (bind_ok _ _ s (Some ip) s) by done. unfold rule_parameter. rewrite Ht, Hsw, Hfl, Hcw.
  do 4 (erewrite bind_ok; [|reflexivity]). pose proof (ra_alive _ _ _ _ _ _ _ _ _ _ _ _ _ Hr) as Ha.
  pose proof (ra_inet _ _ _ _ _ _ _ _ _ _ _ _ _ Hr) as Hi. pose proof (ra_location _ _ _ _ _ _ _ _ _ _ _ _ _ Hr) as Hl.
  assert (forall types w, events_in_window pg types source source_type ip w (current s) = (Ok (login_events types a w (current s)), current s)) as He.
  { intros. unfold events_in_window, inet_parameter. by rewrite Hip. }
  rewrite (bind_ok _ _ s _ s) by exact (sql_read _ s _ Ha (He ["successful_login"] sw)).
  rewrite (bind_ok _ _ s _ s) by exact (sql_read _ s _ Ha (He ["failed_login"] fl)).
  set (successes := login_events ["successful_login"] a sw (current s)). set (failed := login_events ["failed_login"] a fl (current s)).
  assert (forall e, e ∈ successes -> ev_source_ip e = a) as Hips.
  { intros e Hin. apply list_elem_of_In, filter_In in Hin as [_ [[_ Hin]%andb_true_iff _]%andb_true_iff]. by apply String.eqb_eq. }
  pose proof (qualifying_spec threshold cw successes failed) as Hq.
  assert (forall row, row ∈ qualifying_successes pg threshold cw successes failed -> row.1 = a) as Hrows.
  { intros row (e & Hin & _ & ->)%Hq; [|done]. by apply Hips. }
  destruct (existsb (follows_spray threshold cw failed) successes) eqn:Ex; cbn [andb].
  - destruct (qualifying_successes pg threshold cw successes failed) as [|row rest] eqn:Eq.
    { apply existsb_exists in Ex as (e & Hin & Hf). exfalso. apply (not_elem_of_nil (ev_source_ip e, ev_created_at e)).
      apply Hq; [done|]. exists e. split_and!; [by apply list_elem_of_In|done|done]. }
    destruct (spray_open a (current s)) eqn:Eo; cbn [negb]; [by apply (later_successes a l)|].
    destruct (proj1 (Hq row H1)) as (e & Hin & Hf & ->); [left|]. cbn [raise_alerts].
    rewrite (Hips e Hin).
    pose proof (raise_turn pg api_key abuseipdb login_after_spray source source_type s a
      ("Successful login after password spraying detected from " +:+ a)
      ("success_at", PStr (isoformat " " (utc_datetime (ev_created_at e)))) r later action score l Hr) as Hturn.
    rewrite Eo in Hturn. rewrite (bind_ok (turn (a, ev_created_at e)) _ s _ _ Hturn). clear Hturn.
    match goal with |- context [Detection ?c later] => set (s1 := Detection c later) end.
    destruct (later_successes a l rest s1) as [R1 R2].
    + intros row Hrow. apply Hrows. by right.
    + done.
    + done.
    + destruct (lookup_scored api_key abuseipdb a (dn_lookups s) Hc) as (r' & later' & Hlk & _ & Hc').
      rewrite (ra_lookup _ _ _ _ _ _ _ _ _ _ _ _ _ Hr) in Hlk. injection Hlk as <- <-. exact Hc'.
    + rewrite <- Hl. by apply location_frame.
    + by exact (open_after login_after_spray (raised_row pg login_after_spray source source_type a _ r action score l) (current s) eq_refl eq_refl).
    + exists e. split_and!; [done|done| |]; unfold bind; destruct (raise_alerts turn rest s1) as [o s2];
        cbn [fst snd] in R1, R2; subst o; cbn; [done|]. rewrite R2. reflexivity.
  - destruct (qualifying_successes pg threshold cw successes failed) as [|row rest] eqn:Eq; [done|].
    destruct (proj1 (Hq row H1)) as (e & Hin & Hf & _); [left|].
    rewrite (proj1 (existsb_false _ _) Ex e Hin) in Hf. done.
Qed.
End Spray.

(** ** Witnesses *)

Definition ex_pg : postgres :=
  Postgres 7200000000 (fun s => if String.eqb s "203.0.113.7/32" then Some "203.0.113.7" else Some s) lower is_space
    (fun _ => "") (fun _ => None) (fun v => as_int v) (fun _ => Raise TypeError) (fun _ => Ok None) (fun v => Ok v).

Definition ex_decoder : json_decoder := fun _ => Raise TypeError.
Definition ex_provider : string -> unit -> abuse_reply * unit := fun _ w => (NoReply, w).

Definition ex_event (type username : string) (created_at : Z) : event_row :=
  EventRow type "high" "203.0.113.7" "bank_app" "custom" None "" "bank" "prod" (PDict [("username", PStr username)]) created_at.

(** Two failed logins under two names, then a successful one. *)
Definition ex_state : detection unit :=
  let d := SiemDb (list_to_map [(1, ex_event "failed_login" "ann" 7200000000); (2, ex_event "failed_login" "Bob " 7200000000);
                                (3, ex_event "successful_login" "ann" 7200000000)]) 4 ∅ 9 None ∅ ∅ None in
  Detection (Conn d d false) (Lookups ∅ tt).

Definition ex_rule (parameters : DetectionConfig.parameters) : effective_rule :=
  default_effective_rule (RuleDefaults "" "" parameters true "") "default" ("", []).

Lemma ex_raisable form : af_location_types form = ["failed_login"; "login_failure"; "unauthorized_access"] \/ form = login_after_spray ->
  af_floor form = Some "critical" ->
  raisable ex_pg false ex_provider form "bank_app" "custom" ex_state "203.0.113.7" mock_reputation
    (Lookups {["203.0.113.7" := mock_reputation]} tt) "flag_high_priority" 50 no_location.
Proof.
  intros Hform Hfloor. split; try (vm_compute; reflexivity).
  - unfold response_action_of. rewrite Hfloor. vm_compute. reflexivity.
  - destruct Hform as [-> | ->]; vm_compute; reflexivity.
Qed.

Lemma threshold_detector_exact_witness :
  (generate_failed_login_alerts_core ex_pg ex_decoder false ex_provider (Some "bank_app") (Some "custom") (Some "203.0.113.7/32")
     (Some (ex_rule [("threshold", 2); ("window_minutes", 10)])) ex_state).1 =
  Ok [raised_result (de_form failed_login) "203.0.113.7" ("attempts", PInt 2) 9 "flag_high_priority"].
Proof.
  pose proof (threshold_detector_exact ex_pg ex_decoder false ex_provider failed_login "bank_app" "custom" ex_state "203.0.113.7/32" "203.0.113.7"
    (ex_rule [("threshold", 2); ("window_minutes", 10)]) 2 10 mock_reputation _ "flag_high_priority" 50 no_location
    ltac:(vm_compute; reflexivity) eq_refl eq_refl eq_refl ltac:(lia) eq_refl (ex_raisable (de_form failed_login) (or_introl eq_refl) eq_refl)) as H.
  cbv zeta in H. replace (observed _ _ _ _ _ _ _) with 2 in H by (vm_compute; reflexivity).
  replace (already_open _ _ _) with false in H by (vm_compute; reflexivity).
  cbn [Z.leb Z.compare Pos.compare Pos.compare_cont negb andb] in H. unfold generate_failed_login_alerts_core. rewrite H. reflexivity.
Defined.

Lemma login_after_spray_exact_witness :
  (generate_successful_login_after_spray_alerts_core ex_pg ex_decoder false ex_provider (Some "bank_app") (Some "custom") (Some "203.0.113.7")
     (Some (ex_rule [("threshold", 2); ("success_window_minutes", 10); ("failed_lookback_minutes", 30); ("correlation_window_minutes", 15)])) ex_state).1 =
  Ok [raised_result login_after_spray "203.0.113.7" ("success_at", PStr "1970-01-01 02:00:00+00:00") 9 "flag_high_priority"].
Proof.
  pose proof (login_after_spray_exact ex_pg ex_decoder false ex_provider "bank_app" "custom" ex_state "203.0.113.7" "203.0.113.7"
    (ex_rule [("threshold", 2); ("success_window_minutes", 10); ("failed_lookback_minutes", 30); ("correlation_window_minutes", 15)])
    2 10 30 15 mock_reputation _ "flag_high_priority" 50 no_location
    ltac:(vm_compute; reflexivity) eq_refl eq_refl eq_refl eq_refl eq_refl ltac:(lia) eq_refl ltac:(exact (map_Forall_empty _))
    (ex_raisable login_after_spray (or_intror eq_refl) eq_refl)) as H.
  cbv zeta in H. replace (already_open _ _ _) with false in H by (vm_compute; reflexivity).
  replace (existsb _ _) with true in H by (vm_compute; reflexivity).
  destruct H as (e & He & _ & H & _). rewrite H. do 3 f_equal.
  replace (login_events _ _ _ _ _ _ _) with [ex_event "successful_login" "ann" 7200000000] in He by (vm_compute; reflexivity).
  apply list_elem_of_singleton in He as ->. vm_compute. reflexivity.
Defined.

(** * When alerts are correlated

    Both kinds of rule look at the open alerts of the address in a window,
    and insert one alert when these fit and none of the rule is open; a
    targeted rule never runs out of alerts to take its location from. *)

Lemma elem_of_dedupe x l seen : x ∈ dedupe l seen <-> x ∈ l /\ x ∉ seen.
Proof.
  revert seen. induction l as [|v l IH]; intros seen; cbn; [set_solver|].
  destruct (str_in v seen) eqn:E.
  - apply str_in_spec in E. rewrite IH. split; [set_solver|]. intros [[->|H]%elem_of_cons Hn]; [done|set_solver].
  - assert (v ∉ seen) as Hv by (intros H; apply str_in_spec in H; congruence).
    rewrite elem_of_cons, IH. destruct (decide (x = v)); set_solver.
Qed.

Section Correlation.
Context {W : Type} (pg : postgres) (api_key : bool) (abuseipdb : string -> W -> abuse_reply * W).
Implicit Types (s : detection W).

(** The open alerts of the address [a] in a window, newest first. *)
Definition open_within (a : string) (window : Z) (p : alert_row -> bool) (d : siem_db) : list alert_entry :=
  select (fun i r => [- al_created_at r; i])
    (fun _ r => String.eqb (al_source_ip r) a && String.eqb (al_status r) "open" && p r && (pg_now pg - minutes window <=? al_created_at r))
    (sd_alerts d).

Lemma recent_run a window p s : cn_aborted (dn_conn s) = false -> pg_inet pg a = Some a ->
  sql (recent_open_alerts pg a window p) s = (Ok (open_within a window p (current s)), s).
Proof. intros Ha Hi. apply sql_read; [done|]. unfold recent_open_alerts, inet_parameter. by rewrite Hi. Qed.

Lemma open_test_run a alert_type s : cn_aborted (dn_conn s) = false -> pg_inet pg a = Some a ->
  sql (open_alert_exists pg a alert_type) s = (Ok (existsb (open_alert a alert_type) (rows (sd_alerts (current s)))), s).
Proof. intros Ha Hi. apply sql_read; [done|]. unfold open_alert_exists, inet_parameter. by rewrite Hi. Qed.

(** The alert a correlation inserts, and its description. *)
Definition correlation_row (alert_type : string) (sev : severity) (a message action : string) (newest : alert_row) (r : reputation)
    (score : Z) (context : pyval) : alert_row :=
  AlertRow alert_type (severity_text sev) a (Some (text_or (al_source newest) "unknown")) (Some (text_or (al_source_type newest) "legacy"))
    message "open" action "pending" (al_country newest) (al_city newest) (al_latitude newest) (al_longitude newest)
    score (rp_label r) (rp_source r) (rp_summary r) context (pg_now pg).

(** The database takes the alert. *)
Record insertable s (a : string) (floor : option string) (r : reputation) (later : lookups W) (action : string) (score : Z) : Prop := Insertable {
  in_alive : cn_aborted (dn_conn s) = false;
  in_inet : pg_inet pg a = Some a;
  in_lookup : lookup_ip_reputation api_key abuseipdb a (dn_lookups s) = (Ok r, later);
  in_action : response_action_of (AlertForm "" High floor []) r = Ok action;
  in_score : pg_int4 pg (rp_score r) = Some score;
  in_id : int4 (sd_alert_seq (current s)) = true;
  in_jsonb : forall d, exists v, pg_jsonb pg (PDict d) = Ok v;
}.

Lemma insert_correlation_run s a alert_type sev floor message newest context r later action score v :
  insertable s a floor r later action score -> pg_jsonb pg (PDict context) = Ok v ->
  insert_correlation pg api_key abuseipdb alert_type sev floor a message newest context s =
    (Ok (alert_result (sd_alert_seq (current s)) a action sev alert_type (text_or (al_source newest) "unknown") (text_or (al_source_type newest) "legacy")),
     Detection (Conn (cn_committed (dn_conn s)) (add_alert (correlation_row alert_type sev a message action newest r score v) (current s)) false) later).
Proof.
  intros [Ha Hi Hl Hact Hs Hid _] Hv. unfold insert_correlation. set (s1 := Detection (dn_conn s) later).
  rewrite (bind_ok _ _ s r s1) by (unfold reputation_of, zoom; by rewrite Hl).
  rewrite (bind_ok _ _ s1 action s1) by (unfold of_outcome; unfold response_action_of in *; cbn [af_floor] in *; by rewrite Hact).
  erewrite bind_ok; [reflexivity|]. eapply (sql_run _ s1); [done|]. unfold insert_alert, inet_parameter. rewrite Hi, Hs, Hv.
  change (sd_alert_seq (current s1)) with (sd_alert_seq (current s)). rewrite Hid. reflexivity.
Qed.

Abbreviation is_open a t s := (existsb (open_alert a t) (rows (sd_alerts (current s)))).

(** correlated activity.  An alert is raised exactly when the open
    alerts of the address in the last window are at least two, of at least
    two of the qualifying types and from at least two known sources, and no
    correlated_activity alert is open for it; its location and source are
    those of the newest of them. *)
Theorem correlated_activity_exact s a r later action score :
  insertable s a None r later action score ->
  let found := open_within a CORRELATION_WINDOW_MINUTES (fun r => str_in (al_alert_type r) qualifying_alert_types) (current s) in
  let run := generate_correlated_activity_alerts pg api_key abuseipdb a s in
  if correlated found && negb (is_open a "correlated_activity" s)
  then exists i newest v rest, found = (i, newest) :: rest /\ pg_jsonb pg (PDict (build_correlated_activity_context found)) = Ok v /\
    run = (Ok [alert_result (sd_alert_seq (current s)) a action High "correlated_activity" (text_or (al_source newest) "unknown")
                 (text_or (al_source_type newest) "legacy")],
           Detection (Conn (cn_committed (dn_conn s))
             (add_alert (correlation_row "correlated_activity" High a
                ("Multi-source suspicious activity detected from " +:+ a +:+ " involving: " +:+ String.concat ", " (distinct_alert_types found))
                action newest r score v) (current s)) false) later)
  else run = (Ok [], s).
Proof.
  intros Hin. pose proof (in_alive _ _ _ _ _ _ _ Hin) as Ha. pose proof (in_inet _ _ _ _ _ _ _ Hin) as Hi. cbv zeta.
  unfold generate_correlated_activity_alerts. rewrite (bind_ok _ _ s _ s (open_test_run a _ s Ha Hi)).
  set (found := open_within _ _ _ _). destruct (existsb _ _); [by rewrite andb_false_r|]. cbn [negb]. rewrite andb_true_r.
  rewrite (bind_ok _ _ s _ s (recent_run a _ _ s Ha Hi)). fold found.
  destruct found as [|[i newest] rest] eqn:Ef; [done|]. destruct (correlated _) eqn:Ec; cbn [negb]; [|done].
  destruct (in_jsonb _ _ _ _ _ _ _ Hin (build_correlated_activity_context ((i, newest) :: rest))) as [v Hv].
  exists i, newest, v, rest. split; [done|]. split; [exact Hv|].
  erewrite bind_ok; [reflexivity|]. by apply (insert_correlation_run s a _ _ None).
Qed.

(** The groups of a rule that a list of alerts has. *)
Definition has_groups (rule : targeted_rule) (l : list alert_entry) : bool := forallb (fun g => str_in g (matched_groups rule l)) (tr_required_groups rule).

Lemma groups_need_alerts rule : rule ∈ targeted_rules -> has_groups rule [] = false.
Proof. unfold targeted_rules. intros H. repeat (apply elem_of_cons in H as [->|H]; [reflexivity|]). by apply not_elem_of_nil in H. Qed.

(** C22: targeted patterns.  A rule raises its one alert exactly when, among
    the open alerts of the address in its window, every group the rule
    requires has an alert of its types from its source, and no alert of the
    rule is open; an empty selection never reaches the newest alert. *)
Theorem targeted_correlation_exact s a rule r later action score :
  rule ∈ targeted_rules -> insertable s a (Some (severity_text (tr_severity rule))) r later action score ->
  let matching := List.filter (fun x => tr_matches rule x.2) (open_within a (tr_window_minutes rule) (fun _ => true) (current s)) in
  let run := evaluate_targeted_rule pg api_key abuseipdb a rule s in
  ((has_groups rule matching = true <-> forall g, g ∈ tr_required_groups rule -> exists x, x ∈ matching /\ tr_group_for_row rule x.2 = Some g) /\
  if has_groups rule matching && negb (is_open a (tr_alert_type rule) s)
  then exists i newest v rest, matching = (i, newest) :: rest /\ pg_jsonb pg (PDict (build_targeted_correlation_context rule matching)) = Ok v /\
    run = (Ok (Some (alert_result (sd_alert_seq (current s)) a action (tr_severity rule) (tr_alert_type rule) (text_or (al_source newest) "unknown")
                 (text_or (al_source_type newest) "legacy"))),
           Detection (Conn (cn_committed (dn_conn s))
             (add_alert (correlation_row (tr_alert_type rule) (tr_severity rule) a (tr_message rule a) action newest r score v) (current s)) false) later)
  else run = (Ok None, s)).
Proof.
  intros Hr Hin. pose proof (in_alive _ _ _ _ _ _ _ Hin) as Ha. pose proof (in_inet _ _ _ _ _ _ _ Hin) as Hi. cbv zeta.
  set (matching := List.filter _ _). split.
  { unfold has_groups. rewrite forallb_forall. split; intros H g Hg.
    - apply list_elem_of_In, H, str_in_spec, elem_of_dedupe in Hg as [Hg _]. apply list_elem_of_omap in Hg as (x & Hx & Hx'). eauto.
    - apply list_elem_of_In, H in Hg as (x & Hx & Hg). apply str_in_spec, elem_of_dedupe. split; [|apply not_elem_of_nil].
      apply list_elem_of_omap. eauto. }
  unfold evaluate_targeted_rule. rewrite (bind_ok _ _ s _ s (open_test_run a _ s Ha Hi)).
  destruct (existsb _ _); [by rewrite andb_false_r|]. cbn [negb]. rewrite andb_true_r.
  rewrite (bind_ok _ _ s _ s (recent_run a _ _ s Ha Hi)). fold matching. fold (has_groups rule matching).
  destruct (has_groups rule matching) eqn:Eg; cbn [negb]; [|done].
  destruct matching as [|[i newest] rest] eqn:Em; [by rewrite groups_need_alerts in Eg|].
  destruct (in_jsonb _ _ _ _ _ _ _ Hin (build_targeted_correlation_context rule ((i, newest) :: rest))) as [v Hv].
  exists i, newest, v, rest. split; [done|]. split; [exact Hv|].
  erewrite bind_ok; [reflexivity|]. by apply insert_correlation_run.
Qed.
End Correlation.

(** ** Witnesses *)

Definition ex_source_alert (alert_type source source_type : string) : alert_row :=
  AlertRow alert_type "high" "203.0.113.7" (Some source) (Some source_type) "" "open" "monitor" "pending" None None None None
    50 "" "" "" PNone 7200000000.

(** A failed-login alert of the bank and an error alert of nginx. *)
Definition ex_pair : detection unit :=
  let d := SiemDb ∅ 1 (list_to_map [(1, ex_source_alert "failed_login_threshold" "bank_app" "custom"); (2, ex_source_alert "http_error_threshold" "nginx" "web_log")])
             3 (Some ∅) ∅ ∅ None in
  Detection (Conn d d false) (Lookups ∅ tt).

Lemma ex_insertable floor : floor = None \/ floor = Some "high" ->
  insertable ex_pg false ex_provider ex_pair "203.0.113.7" floor mock_reputation (Lookups {["203.0.113.7" := mock_reputation]} tt) "monitor" 50.
Proof. intros Hf. split; try (destruct Hf as [-> | ->]; vm_compute; reflexivity). intros d. by exists (PDict d). Qed.

Lemma correlated_activity_exact_witness :
  (generate_correlated_activity_alerts ex_pg false ex_provider "203.0.113.7" ex_pair).1 =
  Ok [alert_result 3 "203.0.113.7" "monitor" High "correlated_activity" "bank_app" "custom"].
Proof.
  pose proof (correlated_activity_exact ex_pg false ex_provider ex_pair "203.0.113.7" mock_reputation _ "monitor" 50
    (ex_insertable None (or_introl eq_refl))) as H.
  cbv zeta in H. replace (existsb _ _) with false in H by (vm_compute; reflexivity).
  replace (correlated _) with true in H by (vm_compute; reflexivity). cbn [negb andb] in H.
  destruct H as (i & newest & v & rest & Hf & _ & ->).
  assert (newest = ex_source_alert "failed_login_threshold" "bank_app" "custom") as -> by (vm_compute in Hf; injection Hf as _ Hn _; by rewrite <- Hn).
  reflexivity.
Defined.

Lemma targeted_correlation_exact_witness :
  (evaluate_targeted_rule ex_pg false ex_provider "203.0.113.7" web_to_app ex_pair).1 =
  Ok (Some (alert_result 3 "203.0.113.7" "monitor" High "web_to_app_attack_pattern" "bank_app" "custom")).
Proof.
  pose proof (targeted_correlation_exact ex_pg false ex_provider ex_pair "203.0.113.7" web_to_app mock_reputation _ "monitor" 50
    ltac:(left) (ex_insertable (Some "high") (or_intror eq_refl))) as H.
  cbv zeta in H. destruct H as [_ H]. replace (existsb _ _) with false in H by (vm_compute; reflexivity).
  replace (has_groups _ _) with true in H by (vm_compute; reflexivity). cbn [negb andb] in H.
  destruct H as (i & newest & v & rest & Hf & _ & ->).
  assert (newest = ex_source_alert "failed_login_threshold" "bank_app" "custom") as -> by (vm_compute in Hf; injection Hf as _ Hn _; by rewrite <- Hn).
  reflexivity.
Defined.
