(* ===== verification/IngestProofs.v ===== *)
(** * IngestProofs: what the ingestion of an event does

    An event with a password is refused before anything is stored; an event
    that is accepted adds itself and the alerts that its detectors and the
    correlations raise, which the answer names; at most one alert of a type
    is open for an address. *)

From S2P Require Import Prelude Tables PyText PyFloat PyValue ResponseQueue Outcomes Alerts PlaybookStore StepEvents.
From S2P Require Import StepActions PlaybookOrchestrator EnqueueOrchestrator EnqueueProofs IngestDispatch PfsenseFilter.
From S2P Require Import DetectionCatalog DetectionConfig Reputation Detections Correlations IngestEngine.
From S2P Require Import DetectionProofs.

Open Scope Z_scope.

(** ** Passwords *)

(** A key that names a password, at any depth. *)
Inductive has_password : pyval -> Prop :=
  | hp_here d key v : (key, v) ∈ d -> password_field key = true -> has_password (PDict d)
  | hp_field d key v : (key, v) ∈ d -> has_password v -> has_password (PDict d)
  | hp_item l v : v ∈ l -> has_password v -> has_password (PList l).

Definition refused (o : outcome unit) : Prop := exists m, o = Raise (ValueError m).

Lemma reject_recursive_spec v : forall path,
  (reject_recursive v path = Ok tt /\ ~ has_password v) \/ (refused (reject_recursive v path) /\ has_password v).
Proof.
  induction v as [| | | | | | | |l IH|d IH] using pyval_nested_ind; intros path;
    try (left; split; [done|]; inversion 1).
  - cbn. generalize 0. induction IH as [|v l Hv Hl IHl]; intros index.
    { left. split; [done|]. inversion 1 as [| |? ? Hin]. by apply not_elem_of_nil in Hin. }
    destruct (Hv (path +:+ "[" +:+ str_int index +:+ "]")) as [[-> Hn]|[[m ->] Hp]]; cbn.
    + destruct (IHl (index + 1)) as [[-> Hn']|[Hr Hp]].
      * left. split; [done|]. inversion 1 as [| |? x Hin Hx]; subst. apply elem_of_cons in Hin as [->|Hin]; [done|]. apply Hn'. by econstructor.
      * right. split; [done|]. inversion Hp as [| |? x Hin Hx]; subst. apply (hp_item _ x); [by right|done].
    + right. split; [by eexists|]. apply (hp_item _ v); [left|done].
  - cbn. induction IH as [|[key v] d Hv Hd IHd].
    { left. split; [done|]. inversion 1 as [? ? ? Hin|? ? ? Hin|]; by apply not_elem_of_nil in Hin. }
    destruct (password_field key) eqn:Hk.
    { right. split; [by eexists|]. apply (hp_here _ key v); [left|done]. }
    cbn in Hv. destruct (Hv (if is_empty path then key else path +:+ "." +:+ key)) as [[-> Hn]|[[m ->] Hp]]; cbn.
    + destruct IHd as [[-> Hn']|[Hr Hp]].
      * left. split; [done|]. inversion 1 as [? k x Hin Hx|? k x Hin Hx|]; subst; apply elem_of_cons in Hin as [[= -> ->]|Hin]; try done; [congruence| |]; apply Hn'; [by eapply hp_here|by eapply hp_field].
      * right. split; [done|]. inversion Hp as [? k x Hin Hx|? k x Hin Hx|]; subst; [apply (hp_here _ k x)|apply (hp_field _ k x)]; try done; by right.
    + right. split; [by eexists|]. apply (hp_field _ key v); [left|done].
Qed.

(** ** Tables with new alerts *)

Lemma numbered_fst i new x : x ∈ numbered i new -> i <= x.1 < i + Z.of_nat (length new).
Proof.
  revert i. induction new as [|r new IH]; intros i Hx; cbn in *; [by apply not_elem_of_nil in Hx|].
  apply elem_of_cons in Hx as [->|Hx]; [cbn; lia|]. apply IH in Hx. lia.
Qed.

Definition with_new (mark : alert_row -> alert_row) (i : Z) (new : list alert_row) (t : gmap Z alert_row) : gmap Z alert_row :=
  list_to_map (map (fun x => (x.1, mark x.2)) (numbered i new)) ∪ t.

Lemma new_absent mark i j new : j < i -> list_to_map (M := gmap Z alert_row) (map (fun x => (x.1, mark x.2)) (numbered i new)) !! j = None.
Proof.
  intros Hj. apply not_elem_of_list_to_map_1. intros Hin. rewrite <- list_fmap_compose in Hin.
  apply list_elem_of_fmap in Hin as (x & Hx & Hin). apply numbered_fst in Hin. cbn in Hx. lia.
Qed.

Lemma raising_table types d new d' : raising types d new d' -> sd_alerts d' = with_new id (sd_alert_seq d) new (sd_alerts d).
Proof.
  unfold with_new. induction 1 as [d|d r new d' Hty Ho Hno Hr IH]; cbn; [by rewrite (left_id_L ∅ (∪))|].
  rewrite IH. cbn. rewrite <- insert_union_r by (apply (new_absent id); lia). by rewrite insert_union_l.
Qed.

(** The UPDATE of the rows just inserted. *)
Lemma mark_new (mark : alert_row -> alert_row) i new t : (forall j r, t !! j = Some r -> j < i) ->
  map_imap (fun j r => Some (if bool_decide (j ∈ map fst (numbered i new)) then mark r else r)) (with_new id i new t) =
  with_new mark i new t.
Proof.
  intros Ht. apply map_eq. intros j. rewrite map_lookup_imap. unfold with_new.
  destruct (decide (j ∈ map fst (numbered i new))) as [Hin|Hout].
  - assert (forall f, list_to_map (M := gmap Z alert_row) (map (fun x => (x.1, f x.2)) (numbered i new)) !! j =
      f <$> (list_to_map (M := gmap Z alert_row) (numbered i new) !! j)) as Hf.
    { intros f. clear. generalize (numbered i new). intros l. induction l as [|[k r] l IH]; cbn; [done|].
      destruct (decide (k = j)) as [->|]; [by rewrite !lookup_insert_eq|]. by rewrite !lookup_insert_ne. }
    rewrite !lookup_union, !Hf. apply list_elem_of_fmap in Hin as (x & Hx & Hin). assert (i <= j) as Hj by (apply numbered_fst in Hin; subst j; lia).
    assert (t !! j = None) as -> by (destruct (t !! j) eqn:Ek; [apply Ht in Ek; lia|done]).
    destruct (list_to_map (M := gmap Z alert_row) (numbered i new) !! j) eqn:E; cbn; [|done].
    rewrite bool_decide_eq_true_2; [done|]. apply list_elem_of_fmap. by exists x.
  - assert (forall f, list_to_map (M := gmap Z alert_row) (map (fun x => (x.1, f x.2)) (numbered i new)) !! j = None) as Hn.
    { intros f. apply not_elem_of_list_to_map_1. by rewrite <- list_fmap_compose. }
    rewrite !lookup_union, !Hn, !(left_id_L None _). destruct (t !! j); cbn; [|done]. by rewrite bool_decide_eq_false_2.
Qed.

(** Marking leaves what [alerts_ok] speaks of. *)
Lemma marked_ok d d' f : (forall i r, sd_alerts d' !! i = Some r -> exists r0, sd_alerts d !! i = Some r0 /\ (r = r0 \/ r = set_al_context r0 (f r0))) ->
  sd_alert_seq d' = sd_alert_seq d -> alerts_ok d -> alerts_ok d'.
Proof.
  intros Hrows Hseq [Hid Hone]. split.
  - intros i r Hi. apply Hrows in Hi as (r0 & Hi & _). rewrite Hseq. eauto.
  - intros i j r r' (r0 & Hi & Hr)%Hrows (r1 & Hj & Hr')%Hrows Ho Ho' Hip Hty. apply (Hone i j r0 r1); try done;
      destruct Hr as [-> | ->], Hr' as [-> | ->]; done.
Qed.

(** ** Detectors and correlations of an event *)

Definition correlation_types : list string := "correlated_activity" :: targeted_types.

Section Ingestion.
Context {W : Type} (pg : postgres) `{!FirewallDetectors W pg} (json_loads : json_decoder).
Context (api_key : bool) (abuseipdb : string -> W -> abuse_reply * W).
Implicit Types (s : detection W).
Abbreviation candidates := (detector_candidates pg json_loads api_key abuseipdb).
Abbreviation ingest := (ingest_normalized_event pg json_loads api_key abuseipdb).

Definition core_raises (c : string * detector_core W) : Prop :=
  forall source source_type ip rule, raises_only pg [c.1] (c.2 source source_type ip rule).

Lemma threshold_core_raises rule_id det : rule_id = af_rule_id (de_form det) ->
  de_count_key det ∉ ["alert_id"; "response_action"; "severity"; "source_ip"; "alert_type"] ->
  core_raises (rule_id, run_threshold_detector pg json_loads api_key abuseipdb det).
Proof. intros -> Hk source source_type ip rule. by apply threshold_detector_raises. Qed.

Ltac core_raises :=
  first [exact (success_detector_raises pg json_loads api_key abuseipdb) | exact repeated_deny_raises | exact port_scan_raises
        | exact noisy_source_raises | exact allow_after_deny_raises | exact suspicious_allow_raises
        | refine (threshold_core_raises _ _ _ _); [reflexivity|vm_compute; set_solver]].

Lemma candidates_raise event_type : Forall core_raises (candidates event_type).
Proof.
  assert (Forall (fun c => Forall core_raises c.2) (candidates_by_type pg json_loads api_key abuseipdb)) as Hall.
  { repeat apply Forall_cons_2; try apply Forall_nil_2; cbn [snd]; repeat apply Forall_cons_2; try apply Forall_nil_2; core_raises. }
  unfold detector_candidates. destruct event_type; try apply Forall_nil_2. destruct (find _ _) as [c|] eqn:E; [|constructor].
  apply find_some in E as [Hin _]. rewrite Forall_forall in Hall. apply Hall. by apply list_elem_of_In.
Qed.

Lemma run_detectors_raise l ip source source_type : Forall core_raises l ->
  raises_only pg (map fst l) (run_detectors json_loads l ip source source_type : M (detection W) _).
Proof.
  induction 1 as [|[rule_id core] l Hc Hl IH]; cbn [run_detectors map]; [apply raises_ret; constructor|].
  apply raises_only_app.
  - apply (raises_mono (names_all pg) (names_all pg) [rule_id] _ _); [set_solver|done|]. unfold run_detector.
    destruct (negb _); [apply raises_ret; constructor|]. apply raises_from_any. eapply raises_read; [apply rule_reads|]. intros rule.
    destruct (negb _); [apply raises_any, raises_ret; constructor|]. apply raises_any, Hc.
  - eapply raises_mono; [|intros a x Hx; exact Hx|exact IH]. intros x Hx. by right.
Qed.

Lemma correlate_raises ips : raises_only pg correlation_types (correlate pg api_key abuseipdb ips : M (detection W) _).
Proof.
  induction ips as [|ip ips IH]; cbn [correlate]; [apply raises_ret; constructor|].
  eapply raises_bind.
  { eapply raises_mono; [|intros a x Hx; exact Hx|apply correlated_activity_raises]. unfold correlation_types. set_solver. }
  intros a x Hx. eapply raises_bind.
  { eapply raises_mono; [|intros b y Hy; exact Hy|apply targeted_raises]. intros t Ht. by right. }
  intros b y Hy. eapply raises_bind; [exact IH|]. intros c z Hz. apply raises_ret. rewrite app_nil_r. repeat apply Forall2_app; done.
Qed.

(** ** The transaction of an ingestion *)

Definition committed_kept {A} (m : M (detection W) A) : Prop := forall s, cn_committed (dn_conn (m s).2) = cn_committed (dn_conn s).

Lemma committed_bind {A B} (m : M (detection W) A) (k : A -> M (detection W) B) :
  committed_kept m -> (forall a, committed_kept (k a)) -> committed_kept (bind m k).
Proof.
  intros Hm Hk s. unfold bind. specialize (Hm s). destruct (m s) as [[a|e] s1]; cbn in *; [|done]. by rewrite (Hk a s1).
Qed.

Lemma committed_sql {A} (m : M siem_db A) : committed_kept (sql m : M (detection W) A).
Proof.
  intros s. unfold sql, on_conn, zoom, Tables.execute. destruct (cn_aborted (dn_conn s)); [done|].
  by destruct (m (cn_current (dn_conn s))) as [[a|e] d].
Qed.

Lemma committed_raises {A} (ann : A -> list (Z * alert_row) -> Prop) types (m : M (detection W) A) : raises ann types m -> committed_kept m.
Proof. intros Hm s. apply (rs_committed _ _ _ _ _ (Hm s)). Qed.

Definition found_types (event : pydict) : list string := map fst (candidates (dget event "event_type")) ++ correlation_types.

(** Detection and correlation together. *)
Lemma findings_raise event_type ip source source_type :
  raises_only pg (map fst (candidates event_type) ++ correlation_types)
    (let* detected := run_detectors json_loads (candidates event_type) ip source source_type in
     let* correlations := correlate pg api_key abuseipdb (correlated_source_ips detected) in
     ret (detected ++ correlations) : M (detection W) _).
Proof.
  eapply raises_bind.
  { eapply raises_mono; [|intros a x Hx; exact Hx|apply run_detectors_raise, candidates_raise]. intros t Ht. apply elem_of_app. by left. }
  intros a x Hx. eapply raises_bind.
  { eapply raises_mono; [|intros b y Hy; exact Hy|apply correlate_raises]. intros t Ht. apply elem_of_app. by right. }
  intros b y Hy. apply raises_ret. rewrite app_nil_r. by apply Forall2_app.
Qed.

Lemma record_committed source at_ payload : committed_kept (record_persisted_push_event pg source at_ payload : M (detection W) bool).
Proof.
  unfold record_persisted_push_event. destruct source; try done. destruct (negb _); [done|].
  apply committed_bind; [apply committed_sql|done].
Qed.

Lemma mark_committed alerts context : committed_kept (mark_alerts_with_synthetic_provenance pg alerts context : M (detection W) unit).
Proof.
  unfold mark_alerts_with_synthetic_provenance. destruct context; [|done]. apply committed_bind; [done|]. intros ids.
  destruct (bool_decide _); [done|apply committed_sql].
Qed.

(** Nothing is committed on the way, whatever happens. *)
Lemma ingest_committed event : committed_kept (ingest event : M (detection W) _).
Proof.
  unfold ingest_normalized_event. do 7 (apply committed_bind; [done|]; intros ?).
  apply committed_bind; [done|]; intros _.
  apply committed_bind; [apply committed_sql|]; intros ingested_at.
  apply committed_bind; [apply record_committed|]; intros _.
  apply committed_bind; [eapply committed_raises, run_detectors_raise, candidates_raise|]; intros detected.
  apply committed_bind; [eapply committed_raises, correlate_raises|]; intros correlations.
  apply committed_bind; [apply mark_committed|done].
Qed.

(** The row of an event that has its fields. *)
Definition stored_row (event : pydict) : outcome event_row :=
  event_of pg (dget event "event_type") (dget event "severity") (dget event "source_ip")
    (default (PStr "bank_app") (dlookup event "source")) (default (PStr "custom") (dlookup event "source_type"))
    (dget event "event_timestamp") (dget event "message") (dget event "app_name") (dget event "environment") (dget event "raw_payload").

Lemma dindex_given event key v : dindex event key = Ok v -> dget event key = v.
Proof. unfold dindex, dget. destruct (dlookup event key); [by intros [= ->]|done]. Qed.

Lemma sql_ok {A} (m : M siem_db A) s a s' : sql m s = (Ok a, s') -> m (current s) = (Ok a, current s').
Proof.
  unfold sql, on_conn, zoom, Tables.execute, current. destruct (cn_aborted (dn_conn s)); [done|].
  destruct (m (cn_current (dn_conn s))) as [[b|e] d] eqn:E; intros [= <- <-]. done.
Qed.

(** The tables other than the health of the sources. *)
Record same_but_health (d d' : siem_db) : Prop := SameButHealth {
  sb_events : sd_events d' = sd_events d;
  sb_event_seq : sd_event_seq d' = sd_event_seq d;
  sb_alerts : sd_alerts d' = sd_alerts d;
  sb_alert_seq : sd_alert_seq d' = sd_alert_seq d;
  sb_overrides : sd_overrides d' = sd_overrides d;
}.

Lemma record_same source at_ payload s b s' :
  record_persisted_push_event pg source at_ payload s = (Ok b, s') -> same_but_health (current s) (current s').
Proof.
  unfold record_persisted_push_event. destruct source; try (by intros [= <- <-]). destruct (negb _); [by intros [= <- <-]|].
  intros ([] & s1 & H & [= <- <-])%bind_ok_inv. apply sql_ok in H. injection H as H. by rewrite <- H.
Qed.

Lemma insert_stored row s at_ s' : sql (insert_event row) s = (Ok at_, s') ->
  exists e, row = Ok e /\ sd_events (current s') = <[sd_event_seq (current s) := e]> (sd_events (current s)) /\
    sd_event_seq (current s') = sd_event_seq (current s) + 1 /\ sd_alerts (current s') = sd_alerts (current s) /\
    sd_alert_seq (current s') = sd_alert_seq (current s) /\ sd_overrides (current s') = sd_overrides (current s).
Proof.
  intros H%sql_ok. unfold insert_event in H. destruct row as [e|]; [|done]. destruct (negb _); [done|]. injection H as _ H.
  exists e. by rewrite <- H.
Qed.

(** What marking does to a new row. *)
Definition marked (event : pydict) (r : alert_row) : alert_row :=
  match build_synthetic_provenance_context event with
  | None => r
  | Some context =>
      match pg_jsonb pg (PDict context) with
      | Ok v => set_al_context r (json_concat (al_context r) (dict_or_empty v))
      | Raise _ => r
      end
  end.

Lemma announced_ids alerts l : Forall2 (announces pg) alerts l -> alert_ids alerts = Ok (map fst l).
Proof.
  induction 1 as [|a x alerts l Ha Hl IH]; [done|]. cbn [alert_ids map]. rewrite (an_id _ _ _ Ha), IH. done.
Qed.

Lemma mark_effect event alerts i new t s b s' :
  sd_alerts (current s) = with_new id i new t -> (forall j r, t !! j = Some r -> j < i) -> Forall2 (announces pg) alerts (numbered i new) ->
  mark_alerts_with_synthetic_provenance pg alerts (build_synthetic_provenance_context event) s = (Ok b, s') ->
  sd_alerts (current s') = with_new (marked event) i new t /\ sd_alert_seq (current s') = sd_alert_seq (current s) /\
  sd_events (current s') = sd_events (current s) /\ sd_event_seq (current s') = sd_event_seq (current s) /\
  sd_overrides (current s') = sd_overrides (current s).
Proof.
  intros Ht Hid Hann. unfold mark_alerts_with_synthetic_provenance, marked.
  destruct (build_synthetic_provenance_context event) as [context|]; [|by intros [= <- <-]].
  rewrite (announced_ids _ _ Hann). intros (ids & s1 & [= <- <-] & H)%bind_ok_inv.
  case_bool_decide as Hnil.
  - injection H as <- <-. destruct new; [|done]. done.
  - apply sql_ok in H. unfold update_contexts in H. destruct (pg_jsonb pg (PDict context)) as [v|]; [|done].
    injection H as _ H. rewrite <- H. cbn. split; [|done]. rewrite Ht.
    etransitivity; [|apply (mark_new _ i new t Hid)]. apply map_eq. intros j. rewrite !map_lookup_imap.
    unfold with_new at 1. done.
Qed.

(** The rows of a table that marking has passed. *)
Lemma with_new_ok event i new d d' d'' : alerts_ok d -> i = sd_alert_seq d -> alerts_ok d' ->
  sd_alerts d' = with_new id i new (sd_alerts d) -> sd_alerts d'' = with_new (marked event) i new (sd_alerts d) ->
  sd_alert_seq d'' = sd_alert_seq d' -> alerts_ok d''.
Proof.
  intros Hok -> Hok' Ht Ht' Hseq.
  set (f := fun r => match build_synthetic_provenance_context event with
                     | Some c => match pg_jsonb pg (PDict c) with Ok v => json_concat (al_context r) (dict_or_empty v) | _ => al_context r end
                     | None => al_context r end).
  apply (marked_ok d' d'' f); [|done|done]. intros j r Hj. rewrite Ht' in Hj. rewrite <- (mark_new (marked event)) in Hj by apply (ao_ids _ Hok).
  rewrite map_lookup_imap in Hj. rewrite <- Ht in Hj. destruct (sd_alerts d' !! j) as [r0|]; [|done]. cbn in Hj. injection Hj as <-.
  exists r0. split; [done|]. destruct (bool_decide _); [|by left]. unfold marked, f. destruct (build_synthetic_provenance_context event) as [c|]; [|by left].
  destruct (pg_jsonb pg (PDict c)); [by right|by left].
Qed.

Lemma parse_event {A} (event : pydict) key (k : pyval -> M (detection W) A) s a s' :
  bind (of_outcome (dindex event key)) k s = (Ok a, s') -> k (dget event key) s = (Ok a, s').
Proof. intros (v & s1 & [= Hv <-] & H)%bind_ok_inv. by rewrite (dindex_given _ _ _ Hv). Qed.

Lemma ingest_accepted event s alerts :
  alerts_ok (current s) -> (ingest event s).1 = Ok alerts ->
    exists row new, let d := current s in let d' := current (ingest event s).2 in
      stored_row event = Ok row /\ sd_events d' = <[sd_event_seq d := row]> (sd_events d) /\ sd_event_seq d' = sd_event_seq d + 1 /\
      sd_alerts d' = with_new (marked event) (sd_alert_seq d) new (sd_alerts d) /\ sd_alert_seq d' = sd_alert_seq d + Z.of_nat (length new) /\
      Forall2 (announces pg) alerts (numbered (sd_alert_seq d) new) /\
      Forall (fun r => al_alert_type r ∈ found_types event /\ al_status r = "open") new /\
      sd_overrides d' = sd_overrides d /\ alerts_ok d'.
Proof.
  intros Hok H.
  destruct (ingest event s) as [o s'] eqn:E. cbn [fst snd] in H |- *. subst o. unfold ingest_normalized_event in E.
  do 7 apply parse_event in E. apply bind_ok_inv in E as (? & ? & [= _ <-] & E).
  apply bind_ok_inv in E as (at_ & s1 & Hins & E). apply bind_ok_inv in E as (b & s2 & Hrec & E).
  apply insert_stored in Hins as (row & Hrow & He & Hes & Ha & Has & Ho). apply record_same in Hrec as [He' Hes' Ha' Has' Ho'].
  rewrite He in He'. rewrite Hes in Hes'. rewrite Ha in Ha'. rewrite Has in Has'. rewrite Ho in Ho'.
  assert (alerts_ok (current s2)) as Hok2 by (destruct Hok; split; rewrite ?Ha', ?Has'; done).
  apply bind_ok_inv in E as (detected & s3 & Hdet & E). apply bind_ok_inv in E as (correlations & s4 & Hcor & E).
  apply bind_ok_inv in E as ([] & s5 & Hmark & [= <- <-]).
  pose proof (findings_raise (dget event "event_type") (as_str (dget event "source_ip")) (as_str (default (PStr "bank_app") (dlookup event "source")))
    (as_str (default (PStr "custom") (dlookup event "source_type"))) s2) as [_ (new & Hnew & Hann)].
  rewrite (bind_ok _ _ s2 _ _ Hdet), (bind_ok _ _ s3 _ _ Hcor) in Hnew, Hann. cbn [fst snd ret] in Hann, Hnew. specialize (Hann _ eq_refl).
  pose proof (raising_table _ _ _ _ Hnew) as Htab. rewrite Ha', Has' in Htab. rewrite Has' in Hann.
  destruct (raising_frame _ _ _ _ Hnew) as (Fe & Fs & Fo & _).
  destruct (mark_effect event _ _ new (sd_alerts (current s)) s4 _ s5 Htab (ao_ids _ Hok) Hann Hmark) as (K1 & K2 & K3 & K4 & K5).
  pose proof (raising_seq _ _ _ _ Hnew) as Hseq. rewrite Has' in Hseq.
  exists row, new. cbv zeta. split_and!; [exact Hrow|congruence|congruence|exact K1|congruence|exact Hann| |congruence|].
  - exact (raising_types _ _ _ _ Hnew).
  - apply (with_new_ok event (sd_alert_seq (current s)) new (current s) (current s4)); try done. by eapply raising_ok.
Qed.

(** C13: the effect of ingesting an event.  Nothing is committed on the way.
    When the event is accepted, exactly its row is added to the events, under
    the next id; the alerts it raised are added under consecutive ids, each
    of a type its detectors or the correlations have; the answer names
    exactly these, in order, with their address, severity and response; the
    alerts that were there are untouched, and the new ones carry the
    provenance of a synthetic event; the overrides of the rules are
    untouched; and still at most one alert of a type is open for an
    address. *)
Theorem ingestion_effect event s :
  alerts_ok (current s) ->
  let run := ingest event s in
  cn_committed (dn_conn run.2) = cn_committed (dn_conn s) /\
  forall alerts, run.1 = Ok alerts ->
    exists row new, let d := current s in let d' := current run.2 in
      stored_row event = Ok row /\ sd_events d' = <[sd_event_seq d := row]> (sd_events d) /\ sd_event_seq d' = sd_event_seq d + 1 /\
      sd_alerts d' = with_new (marked event) (sd_alert_seq d) new (sd_alerts d) /\ sd_alert_seq d' = sd_alert_seq d + Z.of_nat (length new) /\
      Forall2 (announces pg) alerts (numbered (sd_alert_seq d) new) /\
      Forall (fun r => al_alert_type r ∈ found_types event /\ al_status r = "open") new /\
      sd_overrides d' = sd_overrides d /\ alerts_ok d'.
Proof. intros Hok. split; [apply ingest_committed|]. intros alerts H. by apply ingest_accepted. Qed.

(** C23: passwords are not stored.  A honeypot event with a key that names a
    password, at any depth, in any case and spacing, is refused and leaves
    everything as it was; an event that is accepted from a honeypot type has
    none anywhere. *)
Theorem passwords_refused event type s :
  dget event "event_type" = PStr type -> type ∈ HONEYPOT_EVENT_TYPES ->
  (has_password (PDict event) -> exists e, ingest event s = (Raise e, s) /\
     (Forall (fun k => is_Some (dlookup event k)) ["event_type"; "severity"; "source_ip"; "message"; "app_name"; "environment"; "raw_payload"] ->
      exists m, e = ValueError m)) /\
  (forall alerts, (ingest event s).1 = Ok alerts -> ~ has_password (PDict event)).
Proof.
  intros Hty Hin.
  assert (reject_raw_password_fields event = reject_recursive (PDict event) "payload") as Hrej.
  { unfold reject_raw_password_fields, in_str_set. rewrite Hty. cbn. by rewrite (proj2 (str_in_spec _ _) Hin). }
  assert (has_password (PDict event) -> exists e, ingest event s = (Raise e, s) /\
     (Forall (fun k => is_Some (dlookup event k)) ["event_type"; "severity"; "source_ip"; "message"; "app_name"; "environment"; "raw_payload"] ->
      exists m, e = ValueError m)) as Href.
  { intros Hp. destruct (reject_recursive_spec (PDict event) "payload") as [[_ []]|[[m Hm] _]]; [done|].
    unfold ingest_normalized_event, bind, of_outcome. unfold dindex. rewrite Hrej, Hm.
    repeat (match goal with |- context [match dlookup event ?k with _ => _ end] =>
      destruct (dlookup event k) eqn:?; cbn beta iota; [|eexists; split; [reflexivity|intros HF; exfalso; rewrite Forall_forall in HF;
        destruct (HF k ltac:(set_solver)); congruence]] end).
    eexists. split; [reflexivity|]. eauto. }
  split; [exact Href|]. intros alerts Ha Hp. destruct (Href Hp) as (e & He & _). rewrite He in Ha. done.
Qed.

(** an event type that is counted but never looked at.
    failed_login_threshold counts login_failure events, and ingestion accepts
    them, but no detector runs when one arrives: it raises nothing, however
    many there are. *)
Theorem login_failure_undetected event s alerts :
  let run := ingest_normalized_event pg json_loads api_key abuseipdb event s in
  dget event "event_type" = PStr "login_failure" -> run.1 = Ok alerts ->
  "login_failure" ∈ af_location_types (de_form failed_login) /\ alerts = [] /\ sd_alerts (current run.2) = sd_alerts (current s).
Proof.
  intros run Hty H. split; [set_solver|]. unfold run in *. clear run. destruct (ingest event s) as [o s'] eqn:E. cbn [fst snd] in *. subst o. unfold ingest_normalized_event in E.
  do 7 apply parse_event in E. apply bind_ok_inv in E as (? & ? & [= _ <-] & E).
  apply bind_ok_inv in E as (at_ & s1 & Hins & E). apply bind_ok_inv in E as (b & s2 & Hrec & E).
  apply insert_stored in Hins as (row & _ & _ & _ & Ha & _). apply record_same in Hrec as [_ _ Ha' _ _].
  rewrite Hty in E. cbn [detector_candidates candidates_by_type find String.eqb Ascii.eqb Bool.eqb fst run_detectors] in E.
  apply bind_ok_inv in E as (? & ? & [= <- <-] & E). apply bind_ok_inv in E as (? & ? & [= <- <-] & E).
  apply bind_ok_inv in E as ([] & s5 & Hmark & [= <- <-]). split; [done|]. rewrite <- Ha, <- Ha'.
  revert Hmark. unfold mark_alerts_with_synthetic_provenance. destruct (build_synthetic_provenance_context event); [|by intros [= <-]].
  intros (? & ? & [= <- <-] & Hm)%bind_ok_inv. cbn in Hm. by injection Hm as <-.
Qed.
End Ingestion.

(** ** Witnesses *)

Lemma quiet_raises rule_id : raises_only ex_pg [rule_id] (ret [] : M (detection unit) (list pydict)).
Proof. apply raises_ret. constructor. Qed.

(** Firewall detectors that find nothing. *)
#[export] Instance quiet_firewall : FirewallDetectors unit ex_pg := {
  generate_pfsense_repeated_deny_alerts_core := fun _ _ _ _ => ret [];
  generate_pfsense_port_scan_alerts_core := fun _ _ _ _ => ret [];
  generate_pfsense_noisy_source_alerts_core := fun _ _ _ _ => ret [];
  generate_pfsense_allow_after_deny_alerts_core := fun _ _ _ _ => ret [];
  generate_pfsense_suspicious_allow_alerts_core := fun _ _ _ _ => ret [];
  repeated_deny_raises := fun _ _ _ _ => quiet_raises _;
  port_scan_raises := fun _ _ _ _ => quiet_raises _;
  noisy_source_raises := fun _ _ _ _ => quiet_raises _;
  allow_after_deny_raises := fun _ _ _ _ => quiet_raises _;
  suspicious_allow_raises := fun _ _ _ _ => quiet_raises _;
}.

Definition ex_login (type : string) (payload : pydict) : pydict :=
  [("event_type", PStr type); ("severity", PStr "high"); ("source_ip", PStr "203.0.113.7"); ("message", PStr "failed login");
   ("app_name", PStr "bank"); ("environment", PStr "prod"); ("raw_payload", PDict payload)].

(** [ex_state] with a table of overrides, so that rules are the defaults. *)
Definition ex_before : detection unit :=
  let d := current ex_state in
  let d := SiemDb (sd_events d) (sd_event_seq d) (sd_alerts d) (sd_alert_seq d) (Some ∅) (sd_health d) (sd_audit d) (sd_filter d) in
  Detection (Conn d d false) (dn_lookups ex_state).

Abbreviation ex_ingest := (ingest_normalized_event ex_pg ex_decoder false ex_provider).

(** The third failed login raises an alert, marked as synthetic. *)
Lemma ingestion_effect_witness :
  exists row r, let run := ex_ingest (ex_login "failed_login" [("data_provenance", PStr "Simulated")]) ex_before in
    sd_events (current run.2) = <[4 := row]> (sd_events (current ex_before)) /\
    sd_alerts (current run.2) !! 9 = Some r /\ al_alert_type r = "failed_login_threshold" /\
    exists p, al_context r = PDict [("data_provenance", PStr "synthetic"); ("provenance", PDict p)].
Proof.
  assert (alerts_ok (current ex_before)) as Hok by (split; [intros i r Hi|intros i j r r' Hi]; discriminate Hi).
  destruct (ingestion_effect ex_pg ex_decoder false ex_provider (ex_login "failed_login" [("data_provenance", PStr "Simulated")]) ex_before Hok)
    as [_ H].
  destruct (H [raised_result (de_form failed_login) "203.0.113.7" ("attempts", PInt 3) 9 "flag_high_priority"] ltac:(vm_compute; reflexivity))
    as (row & new & _ & He & _).
  destruct (sd_alerts (current (ex_ingest (ex_login "failed_login" [("data_provenance", PStr "Simulated")]) ex_before).2) !! 9) as [r|] eqn:Er.
  - exists row, r. cbv zeta. split; [exact He|]. split; [exact Er|]. vm_compute in Er. injection Er as <-. split; [reflexivity|]. eexists. reflexivity.
  - vm_compute in Er. discriminate Er.
Defined.

(** A password in a list in the payload. *)
Lemma passwords_refused_witness :
  exists m, (ex_ingest (ex_login "env_probe" [("form", PList [PDict [(" PassWD ", PStr "x")]])]) ex_before) = (Raise (ValueError m), ex_before).
Proof.
  destruct (passwords_refused ex_pg ex_decoder false ex_provider (ex_login "env_probe" [("form", PList [PDict [(" PassWD ", PStr "x")]])]) "env_probe" ex_before)
    as [H _]; [reflexivity|left|].
  destruct H as (e & He & Hm).
  - eapply hp_field; [do 6 right; left|]. eapply hp_field; [left|]. eapply hp_item; [left|]. eapply hp_here; [left|reflexivity].
  - destruct Hm as [m ->]; [repeat constructor; eauto|]. exists m. exact He.
Defined.

Lemma login_failure_undetected_witness : (ex_ingest (ex_login "login_failure" []) ex_before).1 = Ok [].
Proof.
  destruct ((ex_ingest (ex_login "login_failure" []) ex_before).1) as [alerts|] eqn:E; [|vm_compute in E; discriminate E].
  by destruct (login_failure_undetected ex_pg ex_decoder false ex_provider (ex_login "login_failure" []) ex_before alerts eq_refl E) as (_ & -> & _).
Defined.

(** * From an event to playbooks and the queue

    The alerts that the ingestion of an event answers are what the dispatch
    after the commit expects: the theorems of [IngestDispatch] apply to them. *)

(** The committed table of alerts, as playbooks and the queue read it. *)
Definition alert_rows (d : siem_db) : alert_table := map_imap (fun i r => Some (alert_columns i r)) (sd_alerts d).

Lemma alert_rows_lookup d i : alert_rows d !! i = alert_columns i <$> sd_alerts d !! i.
Proof. unfold alert_rows. rewrite map_lookup_imap. by destruct (sd_alerts d !! i). Qed.

Lemma with_new_lookup mark i new t x : x ∈ numbered i new -> is_Some (with_new mark i new t !! x.1).
Proof.
  intros Hx. unfold with_new. apply lookup_union_is_Some. left.
  destruct (list_to_map _ !! x.1) eqn:E; [by eexists|]. exfalso. apply not_elem_of_list_to_map in E. apply E.
  apply list_elem_of_fmap. exists (x.1, mark x.2). split; [done|]. apply list_elem_of_fmap. by exists x.
Qed.

Section Composition.
Context {W W' : Type} (pg : postgres) `{!FirewallDetectors W pg} (json_loads : json_decoder).
Context (api_key : bool) (abuseipdb : string -> W -> abuse_reply * W).
Context (env : exec_env) (enqueue_clock : clock) (int_column : pyval -> outcome Z) (queue_uuid_hex : Z -> string).

(** An announced alert that is in the table. *)
Lemma announced_entry (d : dispatch_db W') tables a x :
  en_inet env = pg_inet pg -> xd_alerts (dd_exec d) = alert_rows tables -> is_Some (sd_alerts tables !! x.1) -> announces pg a x ->
  entry_for x.1 (PDict a) /\ committed_entry (dispatch_enqueue_env env enqueue_clock int_column queue_uuid_hex d) (PDict a).
Proof.
  intros Hinet Htab [r Hr] [Hid (ip & Hip & Ha) _ _ Hty Hint]. split; [by exists a|]. cbn. rewrite Hid, Hip. cbn.
  split_and!; [done| |by rewrite Hinet, Ha|by destruct Hty as [-> | ->]].
  unfold alert_exists. rewrite Htab, alert_rows_lookup, Hr. done.
Qed.

(** what an ingestion raises, the dispatch can handle.  Once the
    transaction of an accepted event is committed, every alert it answered
    is an entry for a row of the alerts table, with a readable address and
    type, which is what scheduling playbooks and filling the queue need. *)
Theorem ingested_alerts_dispatchable event s alerts (d : dispatch_db W') :
  alerts_ok (current s) -> (ingest_normalized_event pg json_loads api_key abuseipdb event s).1 = Ok alerts ->
  en_inet env = pg_inet pg ->
  xd_alerts (dd_exec d) = alert_rows (current (ingest_normalized_event pg json_loads api_key abuseipdb event s).2) ->
  Forall (fun v => exists a, entry_for a v) (map PDict alerts) /\
  Forall (committed_entry (dispatch_enqueue_env env enqueue_clock int_column queue_uuid_hex d)) (map PDict alerts).
Proof.
  intros Hok Hrun Hinet Htab.
  destruct (ingest_accepted pg json_loads api_key abuseipdb event s alerts Hok Hrun) as (row & new & _ & _ & _ & Ha & _ & Hann & _).
  cbv zeta in *. assert (Forall (fun v => (exists a, entry_for a v) /\
    committed_entry (dispatch_enqueue_env env enqueue_clock int_column queue_uuid_hex d) v) (map PDict alerts)) as H.
  { apply Forall_forall. intros v Hv. apply list_elem_of_fmap in Hv as (a & -> & Hin).
    destruct (proj1 (list_elem_of_lookup _ _) Hin) as [k Hk]. destruct (Forall2_lookup_l _ _ _ _ _ Hann Hk) as (x & Hx & Hax).
    edestruct (announced_entry d _ a x Hinet Htab) as [He Hc]; [|exact Hax|split; [by exists x.1|exact Hc]].
    rewrite Ha. apply with_new_lookup. by eapply list_elem_of_lookup_2. }
  split; (eapply Forall_impl; [exact H|]); by intros v [? ?].
Qed.
End Composition.

(** ** Witness *)

Definition ex_event_login : pydict := ex_login "failed_login" [].

Definition ex_committed : dispatch_db unit :=
  DispatchDb
    (ExecDb (DeadLetters.SoarDb empty_pb_store DeadLetters.empty_letters) Approvals.empty_approvals empty_outcomes (Deliveries.DeliveryStore ∅ 1)
       (alert_rows (current (ex_ingest ex_event_login ex_before).2)) tt)
    empty_queue.

Definition ex_reader : exec_env :=
  ExecEnv (Clock 0 0) (pg_inet ex_pg) (fun _ => "0123456789ab") id (fun _ => true) (fun _ => true) (fun _ _ => true) "worker-1" None None.

Lemma ingested_alerts_dispatchable_witness :
  exists a, (ex_ingest ex_event_login ex_before).1 = Ok [a] /\ entry_for 9 (PDict a) /\
    committed_entry (dispatch_enqueue_env ex_reader (Clock 0 0) (fun v => Raise TypeError) (fun _ => "") ex_committed) (PDict a).
Proof.
  set (a := raised_result (de_form failed_login) "203.0.113.7" ("attempts", PInt 3) 9 "flag_high_priority").
  assert ((ex_ingest ex_event_login ex_before).1 = Ok [a]) as Hrun by (vm_compute; reflexivity).
  assert (alerts_ok (current ex_before)) as Hok by (split; [intros i r Hi|intros i j r r' Hi]; discriminate Hi).
  destruct (ingested_alerts_dispatchable ex_pg ex_decoder false ex_provider ex_reader (Clock 0 0) (fun v => Raise TypeError) (fun _ => "")
    ex_event_login ex_before [a] ex_committed Hok Hrun eq_refl eq_refl) as [_ H].
  exists a. split; [exact Hrun|]. split; [exists a; split; reflexivity|exact (Forall_inv H)].
Defined.
