(* ===== verification/PfsenseRecon.v ===== *)
(** * PfsenseRecon: core/pfsense_recon.py

    What the firewall detectors make of an event: ports and texts
    normalized, the role a TCP packet plays in its connection, samples of
    targets and the texts about them.  The csv module's limit of 131072
    characters for a field is left out. *)

From S2P Require Import Prelude PyText PyFloat PyValue IpAddress AddressText ProtectedTargets Filterlog UrlTarget.

Open Scope Z_scope.

Definition PFSENSE_RELATED_EVENT_LIMIT : Z := 100.
Definition PFSENSE_TARGET_SAMPLE_LIMIT : nat := 5.
Definition PFSENSE_SERVICE_SIGNATURE_LIMIT : nat := 24.
Definition PFSENSE_EPHEMERAL_PORT_START : Z := 32768.

(** ** Normalizing *)

(** [str(value or "").strip()]. *)
Definition stripped (v : pyval) : string := strip (py_str (py_or v (PStr EmptyString))).
Definition text_or_none (s : string) : option string := if is_empty s then None else Some s.

(** A digit that is no decimal passes [isdigit] and fails in [int]. *)
Definition parse_port (v : pyval) : outcome (option Z) :=
  let text := stripped v in
  if negb (isdigit text) then Ok None
  else
    let! port := py_int (PStr text) in
    Ok (if (port <? 1) || (65535 <? port) then None else Some port).

Definition normalize_protocol (v : pyval) : option string := text_or_none (lower (stripped v)).
Definition normalize_interface (v : pyval) : option string := text_or_none (lower (stripped v)).
Definition normalize_direction (v : pyval) : option string := text_or_none (lower (stripped v)).

Definition tcp_flag (c : ascii) : bool := existsb (Ascii.eqb c) ["S"; "A"; "F"; "R"; "P"; "U"; "E"; "W"; "C"]%char.

Definition normalize_tcp_flags (v : pyval) : option string := text_or_none (keep_chars tcp_flag (upper (stripped v))).

Definition to_ip_text (v : pyval) : option string := text_or_none (stripped v).

(** ** Addresses *)

(** [ip.is_global] in CPython 3.11. *)
Definition shared_v4 : list ip_network := Eval vm_compute in networks ["100.64.0.0/10"].
Definition is_global (ip : ip_address) : bool :=
  negb (is_private ip) && (ip_v6 ip || negb (in_any ip shared_v4)).

Definition is_public_ip (v : pyval) : bool :=
  match to_ip_text v with
  | None => false
  | Some text => match parse_ip text with Ok ip => is_global ip | Raise _ => false end
  end.

(** [str(ip_network(f"{ip}/{prefix}", strict=False))] of the address a text
    denotes: a scope goes when host bits are cleared. *)
Definition range_text (text : string) (ip : ip_address) : string :=
  let prefix := if ip_v6 ip then 64 else 24 in
  let base := Z.land (ip_int ip) (netmask (ip_v6 ip) prefix) in
  ip_text (IpAddress (ip_v6 ip) base) +:+
  (if ip_v6 ip && (base =? ip_int ip) then scope_suffix text else EmptyString) +:+ "/" +:+ str_int prefix.

Definition range_of (v : pyval) : option string :=
  match to_ip_text v with
  | None => None
  | Some text => match parse_ip text with Ok ip => Some (range_text text ip) | Raise _ => None end
  end.

(** The one range all readable addresses lie in. *)
Definition protected_range_key (destination_ips : list pyval) : option string :=
  match remove_dups (omap range_of destination_ips) with [range] => Some range | _ => None end.

(** ** Samples *)

(** The order by count, descending, then by key. *)
Definition ranked_le {K} (key_le : K -> K -> Prop) (a b : K * Z) : Prop := b.2 < a.2 \/ (a.2 = b.2 /\ key_le a.1 b.1).
#[export] Instance ranked_le_dec {K} (key_le : K -> K -> Prop) `{!RelDecision key_le} : RelDecision (ranked_le key_le).
Proof. intros a b. unfold ranked_le. apply _. Defined.

(** [sample_ranked_values(.., key_type="ip")] and [key_type="port"]. *)
Definition sample_ranked_texts (counts : list (string * Z)) : list string :=
  take PFSENSE_TARGET_SAMPLE_LIMIT (map fst (merge_sort (ranked_le str_le) (List.filter (fun x => negb (is_empty x.1)) counts))).
Definition sample_ranked_ports (counts : list (Z * Z)) : list Z :=
  take PFSENSE_TARGET_SAMPLE_LIMIT (map fst (merge_sort (ranked_le Z.le) counts)).

Definition build_service_signature (ports : list pyval) : outcome (list Z) :=
  let! values := omap_list parse_port ports in
  Ok (take PFSENSE_SERVICE_SIGNATURE_LIMIT (merge_sort Z.le (remove_dups (omap id values)))).

(** A list under a key, when there is one. *)
Definition listed (key : string) (l : list pyval) : pydict := match l with [] => [] | _ => [(key, PList l)] end.
Definition given (key : string) (o : option string) : pydict :=
  match o with Some s => if is_empty s then [] else [(key, PStr s)] | None => [] end.

Definition build_related_event_filter (event_types : list string) (source_ip : string) (destination_ips : list string)
    (destination_ports : list Z) (protocol direction first_seen last_seen : option string) : pydict :=
  [("event_types", PList (map PStr (List.filter (fun t => negb (is_empty t)) event_types)));
   ("limit", PInt (Z.max 1 (Z.min PFSENSE_RELATED_EVENT_LIMIT PFSENSE_RELATED_EVENT_LIMIT)))] ++
  given "source_ip" (Some source_ip) ++
  (if bool_decide (destination_ips = []) then []
   else [("destination_ips", PList (map PStr (List.filter (fun t => negb (is_empty t)) destination_ips)))]) ++
  listed "destination_ports" (map PInt destination_ports) ++
  given "protocol" protocol ++ given "direction" direction ++ given "first_seen" first_seen ++ given "last_seen" last_seen.

Definition singular_or_plural (count : Z) (singular : string) : string := if count =? 1 then singular else singular +:+ "s".

Definition build_scan_description (port_count destination_count : Z) (primary_destination_port : option Z) (targets_are_public : bool) : string :=
  let host_label := if targets_are_public then "public IPs" else "destination hosts" in
  let default :=
    "Scanned " +:+ str_int port_count +:+ " " +:+ singular_or_plural port_count "port" +:+ " across " +:+
    str_int destination_count +:+ " " +:+ singular_or_plural destination_count "destination host" +:+ "." in
  match (port_count =? 1) && (1 <? destination_count), primary_destination_port with
  | true, Some port => "Scanned port " +:+ str_int port +:+ " across " +:+ str_int destination_count +:+ " " +:+ host_label +:+ "."
  | _, _ =>
      if (destination_count =? 1) && (1 <? port_count) then "Scanned " +:+ str_int port_count +:+ " ports on 1 destination host."
      else default
  end.

(** ** The role of a TCP packet *)

(** [next(csv.reader(StringIO(raw_log)))]. *)
Definition first_record (raw_log : string) : option (list string) := csv_record (CsvReader StartRecord [] "") (io_lines raw_log).

Definition extract_pfsense_tcp_flags (raw_payload : pyval) : option string :=
  match raw_payload with
  | PDict raw_payload =>
      match normalize_tcp_flags (dget raw_payload "tcp_flags") with
      | Some direct => Some direct
      | None =>
          let raw_log := stripped (dget raw_payload "raw_log") in
          if is_empty raw_log then None
          else
            match first_record raw_log with
            | None => None
            | Some fields => match fields !! 23%nat with Some f => normalize_tcp_flags (PStr f) | None => None end
            end
      end
  | _ => None
  end.

Inductive packet_role := InitiationLike | ReplyOrTeardownLike | Ambiguous | NotApplicable.
#[export] Instance packet_role_eq_dec : EqDecision packet_role.
Proof. solve_decision. Defined.

Definition role_text (r : packet_role) : string :=
  match r with
  | InitiationLike => "initiation_like"
  | ReplyOrTeardownLike => "reply_or_teardown_like"
  | Ambiguous => "ambiguous"
  | NotApplicable => "not_applicable"
  end.

(** The dict with the part of its evidence that is read. *)
Record traffic_class := TrafficClass { tc_classification : packet_role; tc_reason : string; tc_source_is_protected : bool }.

Definition is_probable_service_port (value : option Z) : bool :=
  match value with Some p => (p <=? 1024) || existsb (Z.eqb p) [1194; 3389; 51820; 8443] | None => false end.
Definition is_probable_ephemeral_port (value : option Z) : bool :=
  match value with Some p => PFSENSE_EPHEMERAL_PORT_START <=? p | None => false end.

(** What the flags say, for a packet that has some. *)
Definition role_of_flags (flags : string) (served : bool) : packet_role * string :=
  let has c := char_in c flags in
  if has "S"%char && negb (has "A"%char) then (InitiationLike, "TCP SYN without ACK indicates a new connection attempt")
  else if has "S"%char && has "A"%char
  then (ReplyOrTeardownLike, "TCP SYN+ACK indicates response traffic rather than a new source-initiated connection")
  else if negb (has "S"%char) && (has "A"%char || has "F"%char || has "R"%char || has "P"%char)
  then (ReplyOrTeardownLike,
        if served then "Protected-host service traffic replied to a remote ephemeral port without a new SYN"
        else "TCP flags indicate reply or teardown traffic rather than a new connection attempt")
  else (Ambiguous, "TCP flags did not reliably show whether the source initiated the connection").

Definition classify_pfsense_tcp_traffic_role (protected : option string)
    (source_ip destination_ip protocol direction source_port destination_port : pyval) (tcp_flags : option string) : outcome traffic_class :=
  let flags := normalize_tcp_flags (opt_text tcp_flags) in
  let! source_port := parse_port source_port in
  let! destination_port := parse_port destination_port in
  let! source_protected := is_protected_target protected (to_ip_text source_ip) in
  let! _ := is_protected_target protected (to_ip_text destination_ip) in
  let class role := Ok (TrafficClass role.1 role.2 source_protected) in
  if negb (bool_decide (normalize_protocol protocol = Some "tcp"))
  then class (NotApplicable, "TCP initiator semantics do not apply to this protocol")
  else
    match flags with
    | None => class (Ambiguous, "TCP flags were missing, so initiator role could not be determined")
    | Some flags =>
        class (role_of_flags flags
          (bool_decide (normalize_direction direction = Some "out") && source_protected &&
           is_probable_service_port source_port && is_probable_ephemeral_port destination_port))
    end.
