(* ===== verification/PfsenseDetectors.v ===== *)
(** * PfsenseDetectors: the firewall detectors of engines/detection_engine.py

    Repeated denies, port scans, suspicious allows, allows after denies and
    noisy sources.  Each looks at the firewall events of an address in a
    window, leaves it at that when an alert is open or one of at least the
    severity was resolved in the last hour, and inserts an alert with its
    context.  The dash of two messages stands as its UTF-8 bytes. *)

From S2P Require Import Prelude Tables PyText PyFloat PyValue ProtectedTargets PfsenseFilter PfsenseRecon.
From S2P Require Import DetectionCatalog DetectionConfig Reputation Detections IngestEngine.

Open Scope Z_scope.

Definition REPEATED_DENY : string := "pfsense_firewall_repeated_deny".
Definition PORT_SCAN : string := "pfsense_firewall_port_scan".
Definition SUSPICIOUS_ALLOW : string := "pfsense_firewall_suspicious_allow".
Definition ALLOW_AFTER_DENY : string := "pfsense_firewall_allow_after_deny".
Definition NOISY_SOURCE : string := "pfsense_firewall_noisy_source".

Definition PFSENSE_ESCALATION_ALERT_TYPES : list string := [REPEATED_DENY; PORT_SCAN; SUSPICIOUS_ALLOW; ALLOW_AFTER_DENY].
Definition PFSENSE_NOISY_SOURCE_GUARD_ALERT_TYPES : list string := PFSENSE_ESCALATION_ALERT_TYPES ++ [NOISY_SOURCE].

Definition PFSENSE_ALERT_COOLDOWN_MINUTES : Z := 60.
Definition PFSENSE_SEVERITY_ESCALATION_MULTIPLIER : Z := 3.
Definition PFSENSE_HIGH_REPUTATION_SCORE : Z := 70.

(** ** Severities *)

(** [_PFSENSE_SEVERITY_RANK.get(text, 0)]. *)
Definition pfsense_severity_rank (text : string) : Z :=
  match find (fun s => String.eqb (severity_text s) text) [Low; Medium; High; Critical] with
  | Some s => severity_index s
  | None => 0
  end.

(** [score is not None and score >= PFSENSE_HIGH_REPUTATION_SCORE]. *)
Definition high_reputation (score : pyval) : outcome bool :=
  if is_none score then Ok false
  else match at_least score PFSENSE_HIGH_REPUTATION_SCORE with Some b => Ok b | None => Raise TypeError end.

(** [threshold and count >= threshold * n]. *)
Definition reaches (threshold count n : Z) : bool := negb (threshold =? 0) && (threshold * n <=? count).

Definition pfsense_port_scan_severity (distinct_port_count distinct_destination_count threshold host_threshold : Z) (score : pyval)
    : outcome severity :=
  if reaches threshold distinct_port_count 3 || reaches host_threshold distinct_destination_count 3 then Ok High
  else
    let! high := high_reputation score in
    Ok (if high && (reaches threshold distinct_port_count 2 || reaches host_threshold distinct_destination_count 2) then High else Medium).

(** The reputation, an argument in the source, is not asked. *)
Definition pfsense_repeated_deny_severity (count threshold : Z) (outbound protected_source : bool)
    (initiation_event_count reply_or_teardown_event_count : Z) : severity :=
  if outbound && protected_source then
    if reaches threshold initiation_event_count 1 then High
    else if 0 <? initiation_event_count then Medium
    else if 0 <? reply_or_teardown_event_count then Low
    else Low
  else if outbound then if reaches threshold count 1 then High else Medium
  else if reaches threshold count PFSENSE_SEVERITY_ESCALATION_MULTIPLIER then Medium else Low.

Definition pfsense_suspicious_allow_severity (event_count distinct_port_count repeat_threshold port_threshold : Z) (score : pyval)
    : outcome severity :=
  if repeat_threshold <=? event_count then Ok High
  else if port_threshold <=? distinct_port_count then Ok High
  else
    let! high := high_reputation score in
    Ok (if high && (2 <=? event_count) then High else Medium).

Definition is_high (s : severity) : bool := match s with High => true | _ => false end.
Definition is_medium (s : severity) : bool := match s with Medium => true | _ => false end.

Definition pfsense_response_action_for_severity (s : severity) (containment_eligible : bool) : string :=
  if is_high s && containment_eligible then "block_ip" else if is_medium s then "enrich_source_ip" else "monitor_only".

Record operational_flags := OperationalFlags {
  of_incident_eligible : bool;
  of_containment_eligible : bool;
  of_aggregate_eligible : bool;
  of_immediate_alert_eligible : bool;
}.

Definition build_pfsense_operational_flags (alert_type : string) (s : severity) (direction : option string)
    (containment_eligible aggregate_eligible : bool) : operational_flags :=
  let incident_eligible :=
    is_high s &&
    (if String.eqb alert_type SUSPICIOUS_ALLOW || String.eqb alert_type ALLOW_AFTER_DENY then true
     else if String.eqb alert_type REPEATED_DENY && bool_decide (direction = Some "out") then true
     else String.eqb alert_type PORT_SCAN && negb aggregate_eligible) in
  OperationalFlags incident_eligible containment_eligible aggregate_eligible (is_high s && negb aggregate_eligible).

Definition flags_dict (f : operational_flags) : pyval :=
  PDict [("incident_eligible", PBool (of_incident_eligible f)); ("containment_eligible", PBool (of_containment_eligible f));
         ("aggregate_eligible", PBool (of_aggregate_eligible f)); ("immediate_alert_eligible", PBool (of_immediate_alert_eligible f))].

Definition notification_dict (eligible : bool) : pyval := PDict [("immediate_alert_eligible", PBool eligible)].

(** ** Values of a context *)

Definition opt_int (o : option Z) : pyval := match o with Some z => PInt z | None => PNone end.
Definition iso_text (t : Z) : string := isoformat "T" (utc_datetime t).
Definition iso (o : option Z) : pyval := match o with Some t => PStr (iso_text t) | None => PNone end.
Definition texts_of (l : list string) : pyval := PList (map PStr l).
Definition ports_of (l : list Z) : pyval := PList (map PInt l).
Definition port_or_text (port : option Z) (text : option string) : pyval := py_or (opt_int port) (opt_text text).
Definition nonempty_texts (o : option string) : list string := match o with Some s => if is_empty s then [] else [s] | None => [] end.
Definition or_text (o : option string) (other : string) : string := match o with Some s => if is_empty s then other else s | None => other end.

(** [_build_pfsense_target_context]: fields that are None or empty are
    dropped. *)
Definition build_pfsense_target_context (mode : string) (fields : pydict) : pyval :=
  PDict (("mode", PStr mode) :: List.filter (fun kv => negb (match kv.2 with PNone => true | PStr s => is_empty s | _ => false end)) fields).

Definition window_dict (first last : option Z) : pyval := PDict [("first_seen", iso first); ("last_seen", iso last)].

(** [_safe_int] of a text column. *)
Definition safe_int (text : option string) : option Z :=
  match text with Some s => match py_int (PStr s) with Ok z => Some z | Raise _ => None end | None => None end.

(** [bucket = d.setdefault(key, fresh)], then the changes of [change]. *)
Fixpoint upsert {K B} `{EqDecision K} (key : K) (fresh : B) (change : B -> B) (d : list (K * B)) : list (K * B) :=
  match d with
  | [] => [(key, change fresh)]
  | (k, b) :: d => if decide (k = key) then (k, change b) :: d else (k, b) :: upsert key fresh change d
  end.

Definition counted_up {K} `{EqDecision K} (key : K) (d : list (K * Z)) : list (K * Z) := upsert key 0 (fun n => n + 1) d.

(** What the allows after a deny are grouped by, and a group. *)
Record allow_key := AllowKey {
  ak_source_ip : string;
  ak_destination_ip : option string;
  ak_destination_port : option string;
  ak_protocol : option string;
  ak_interface : option string;
}.
#[export] Instance allow_key_eq_dec : EqDecision allow_key.
Proof. solve_decision. Defined.

Record allow_group := AllowGroup { ag_key : allow_key; ag_last_allow_at : Z; ag_count : Z }.

(** [returned]: the groups in the order a statement returns them. *)
Section Firewall.
Context {W : Type} (pg : postgres) (text_le : string -> string -> Prop) `{!RelDecision text_le} (json_loads : json_decoder).
Context (api_key : bool) (abuseipdb : string -> W -> abuse_reply * W) (protected : option string)
  (returned : list allow_group -> list allow_group).

(** ** Traffic roles *)

Definition classify_pfsense_event_traffic_role (raw_payload : pyval) : outcome traffic_class :=
  let p := dict_or_empty raw_payload in
  classify_pfsense_tcp_traffic_role protected (dget p "source_ip") (dget p "destination_ip") (dget p "protocol") (dget p "direction")
    (dget p "source_port") (dget p "destination_port") (extract_pfsense_tcp_flags (PDict p)).

Record traffic_summary := TrafficSummary {
  ts_classification : packet_role;
  ts_reason : string;
  ts_initiation : Z;
  ts_reply_or_teardown : Z;
  ts_ambiguous : Z;
  ts_source_port : option Z;
  ts_destination_port : option Z;
  ts_tcp_flags : option string;
  ts_source_is_protected : bool;
}.

Definition role_count (role : packet_role) (l : list traffic_class) : Z :=
  Z.of_nat (length (List.filter (fun c => bool_decide (tc_classification c = role)) l)).

Definition summarize_pfsense_traffic_roles (l : list traffic_class) (sample_payload : pyval) : outcome traffic_summary :=
  let initiation := role_count InitiationLike l in
  let reply := role_count ReplyOrTeardownLike l in
  let ambiguous := role_count Ambiguous l in
  let first_reason other := match List.filter (fun r => negb (is_empty r)) (map tc_reason l) with r :: _ => r | [] => other end in
  let '(role, reason) :=
    if negb (initiation =? 0) && (reply =? 0) && (ambiguous =? 0)
    then (InitiationLike, first_reason "Observed connection-initiation traffic")
    else if negb (reply =? 0) && (initiation =? 0) && (ambiguous =? 0)
    then (ReplyOrTeardownLike, first_reason "Observed reply or teardown traffic")
    else (Ambiguous,
          if negb (initiation =? 0) || negb (reply =? 0) then "Observed mixed or incomplete packet-role evidence"
          else "Observed packet-role evidence was not sufficient to determine initiator role") in
  let sample := dict_or_empty sample_payload in
  let! source_port := parse_port (dget sample "source_port") in
  let! destination_port := parse_port (dget sample "destination_port") in
  let! is_protected :=
    (if bool_decide (sample = []) then Ok false
     else let! c := classify_pfsense_event_traffic_role (PDict sample) in Ok (tc_source_is_protected c)) in
  Ok (TrafficSummary role reason initiation reply ambiguous source_port destination_port
        (extract_pfsense_tcp_flags (PDict sample)) is_protected).

Definition summary_dict (s : traffic_summary) : pyval :=
  PDict [("classification", PStr (role_text (ts_classification s))); ("reason", PStr (ts_reason s));
         ("initiation_event_count", PInt (ts_initiation s)); ("reply_or_teardown_event_count", PInt (ts_reply_or_teardown s));
         ("ambiguous_event_count", PInt (ts_ambiguous s)); ("sample_source_port", opt_int (ts_source_port s));
         ("sample_destination_port", opt_int (ts_destination_port s)); ("sample_tcp_flags", opt_text (ts_tcp_flags s));
         ("source_is_protected", PBool (ts_source_is_protected s))].

(** ** Statements *)

(** The events of an address in a window, oldest or newest first. *)
Definition firewall_events (key : Z -> event_row -> list Z) (types : list string) (source source_type source_ip : string) (window : Z)
    : M siem_db (list event_row) := fun d =>
  match inet_parameter pg source_ip with
  | Raise e => (Raise e, d)
  | Ok ip =>
      (Ok (map snd (select key (fun _ e => event_selected types source source_type e && String.eqb (ev_source_ip e) ip && within pg window e)
                      (sd_events d))), d)
  end.
Definition oldest_first (i : Z) (e : event_row) : list Z := [ev_created_at e; i].
Definition newest_first (i : Z) (e : event_row) : list Z := [- ev_created_at e; i].

Definition column (key : string) (e : event_row) : option string := payload_column pg key e.

(** An audit entry of an alert of the address and type that was resolved. *)
Definition closes (d : siem_db) (ip alert_type : string) (a : audit_row) : option alert_row :=
  match au_target_alert_id a with
  | None => None
  | Some i =>
      match sd_alerts d !! i with
      | Some r =>
          if String.eqb (al_source_ip r) ip && String.eqb (al_alert_type r) alert_type && String.eqb (al_status r) "resolved" &&
             String.eqb (au_event_type a) "UPDATE_ALERT_STATUS" &&
             bool_decide (json_text pg (json_get (au_details a) "status") = Some "resolved") &&
             (pg_now pg - minutes PFSENSE_ALERT_COOLDOWN_MINUTES <=? au_created_at a)
          then Some r else None
      | None => None
      end
  end.

Definition last_closed (source_ip alert_type : string) : M siem_db (option alert_row) := fun d =>
  match inet_parameter pg source_ip with
  | Raise e => (Raise e, d)
  | Ok ip =>
      (Ok (match select_one (fun i a => [- au_created_at a; i]) (fun _ a => has_value (closes d ip alert_type a)) (sd_audit d) with
           | Some x => closes d ip alert_type x.2
           | None => None
           end), d)
  end.

Definition pfsense_cooldown_suppresses (source_ip alert_type : string) (candidate : severity) : M (detection W) bool :=
  let* closed := sql (last_closed source_ip alert_type) in
  ret (match closed with
       | None => false
       | Some r => pfsense_severity_rank (severity_text candidate) <=? pfsense_severity_rank (al_severity r)
       end).

(** The location, the insert and the description every firewall alert ends
    with. *)
Definition insert_firewall_alert (alert_type : string) (sev : severity) (event_type source source_type ip message response_action : string)
    (r : reputation) (context : pydict) (detail : pydict) : M (detection W) pydict :=
  let* l := sql (fetch_latest_location pg [event_type] source source_type ip) in
  let* alert_id := sql (insert_alert pg alert_type sev ip (Some source) (Some source_type) message response_action l r
                          (pg_jsonb pg (PDict context))) in
  ret ([("source_ip", PStr ip)] ++ detail ++
       [("alert_id", PInt alert_id); ("alert_type", PStr alert_type); ("response_action", PStr response_action);
        ("severity", PStr (severity_text sev))]).

(** What every detector starts with. *)
Definition with_rule (rule_id : string) (source source_type source_ip : option string) (rule_config : option effective_rule)
    (body : effective_rule -> string -> string -> string -> M (detection W) (list pydict)) : M (detection W) (list pydict) :=
  let* prepared := prepare_rule_evaluation json_loads rule_id source source_type rule_config in
  match prepared, source, source_type with
  | Some rule, Some source, Some source_type =>
      let* resolved := resolve_evaluation_source_ip source_ip source source_type in
      match resolved with Some ip => body rule source source_type ip | None => ret [] end
  | _, _, _ => ret []
  end.

Definition sensitive_ports : M (detection W) (list Z) :=
  on_conn (zoom_conn sd_filter
             (fun t d => SiemDb (sd_events d) (sd_event_seq d) (sd_alerts d) (sd_alert_seq d) (sd_overrides d) (sd_health d) (sd_audit d) t)
             (get_effective_sensitive_ports json_loads text_le)).

(** ** Repeated denies *)

Record deny_key := DenyKey {
  dk_source_ip : string;
  dk_destination_ip : option string;
  dk_destination_port : option string;
  dk_protocol : option string;
  dk_interface : option string;
  dk_direction : option string;
}.
#[export] Instance deny_key_eq_dec : EqDecision deny_key.
Proof. solve_decision. Defined.

Definition deny_key_of (e : event_row) : deny_key :=
  DenyKey (ev_source_ip e) (column "destination_ip" e) (column "destination_port" e) (column "protocol" e) (column "interface" e)
    (column "direction" e).

Record deny_bucket := DenyBucket {
  db_event_count : Z;
  db_first_seen : Z;
  db_last_seen : Z;
  db_classifications : list traffic_class;
  db_sample_payload : pyval;
}.

Fixpoint deny_buckets (events : list event_row) (grouped : list (deny_key * deny_bucket)) : outcome (list (deny_key * deny_bucket)) :=
  match events with
  | [] => Ok grouped
  | e :: events =>
      let payload := PDict (dict_or_empty (ev_raw_payload e)) in
      let! role := classify_pfsense_event_traffic_role payload in
      deny_buckets events
        (upsert (deny_key_of e) (DenyBucket 0 (ev_created_at e) (ev_created_at e) [] payload)
           (fun b => DenyBucket (db_event_count b + 1) (db_first_seen b) (ev_created_at e) (db_classifications b ++ [role]) (db_sample_payload b))
           grouped)
  end.

Definition destination_text (destination_ip destination_port : option string) : string :=
  or_text destination_ip "unknown destination" +:+
  match nonempty_texts destination_port with p :: _ => ":" +:+ p | [] => EmptyString end.

Definition repeated_deny_message (key : deny_key) (count : Z) (reply_only : bool) : string :=
  let target := destination_text (dk_destination_ip key) (dk_destination_port key) +:+ " (" +:+ or_text (dk_protocol key) "unknown protocol" +:+ ")" in
  if reply_only then
    "pfSense blocked " +:+ str_int count +:+ " outbound response packets from protected host " +:+ dk_source_ip key +:+ " to " +:+ target +:+
    " — host compromise is not established"
  else if bool_decide (dk_direction key = Some "out") then
    "pfSense blocked " +:+ str_int count +:+ " outbound connections from internal host " +:+ dk_source_ip key +:+ " to " +:+ target +:+
    " — possible compromised internal host"
  else "pfSense blocked " +:+ str_int count +:+ " connections from " +:+ dk_source_ip key +:+ " to " +:+ target.

Definition repeated_deny_context (key : deny_key) (b : deny_bucket) (role : traffic_summary) (flags : operational_flags)
    (port : option Z) (signature : list Z) : pydict :=
  let ips := nonempty_texts (dk_destination_ip key) in
  let ports := match port with Some p => [p] | None => [] end in
  let first := Some (db_first_seen b) in
  let last := Some (db_last_seen b) in
  let protocol := normalize_protocol (opt_text (dk_protocol key)) in
  let direction := normalize_direction (opt_text (dk_direction key)) in
  [("action", PStr "block"); ("destination_ip", opt_text (dk_destination_ip key));
   ("destination_port", port_or_text port (dk_destination_port key)); ("protocol", opt_text (dk_protocol key));
   ("interface", opt_text (dk_interface key)); ("direction", opt_text (dk_direction key)); ("event_count", PInt (db_event_count b));
   ("source_port", opt_int (ts_source_port role)); ("tcp_flags", opt_text (ts_tcp_flags role));
   ("first_seen", iso first); ("last_seen", iso last); ("traffic_role", summary_dict role);
   ("protected_range_key", opt_text (protected_range_key (map PStr ips))); ("service_signature_ports", ports_of signature);
   ("notification_policy", notification_dict (of_immediate_alert_eligible flags)); ("operational_flags", flags_dict flags);
   ("related_event_filter", PDict (build_related_event_filter ["firewall_block"] (dk_source_ip key) ips ports protocol direction
      (Some (iso_text (db_first_seen b))) (Some (iso_text (db_last_seen b)))));
   ("target_context", build_pfsense_target_context "exact_target"
      [("evidence_kind", PStr "exact_target"); ("primary_destination_ip", opt_text (dk_destination_ip key));
       ("primary_destination_port", port_or_text port (dk_destination_port key)); ("destination_ip", opt_text (dk_destination_ip key));
       ("destination_port", port_or_text port (dk_destination_port key)); ("sample_destination_ips", texts_of ips);
       ("sample_destination_ports", ports_of ports); ("distinct_destination_count", PInt (Z.of_nat (length ips)));
       ("distinct_port_count", PInt (Z.of_nat (length ports))); ("protocol", opt_text protocol); ("firewall_action", PStr "block");
       ("attempts", PInt (db_event_count b)); ("first_seen", iso first); ("last_seen", iso last);
       ("interface", opt_text (normalize_interface (opt_text (dk_interface key)))); ("direction", opt_text direction);
       ("related_event_count", PInt (db_event_count b)); ("evidence_window", window_dict first last)])].

Definition raise_repeated_deny (threshold : Z) (source source_type : string) (x : deny_key * deny_bucket) : M (detection W) (option pydict) :=
  let '(key, b) := x in
  let ip := dk_source_ip key in
  let outbound := bool_decide (dk_direction key = Some "out") in
  if db_event_count b <? threshold then ret None
  else
    let* duplicate := sql (open_alert_exists pg ip REPEATED_DENY) in
    if duplicate then ret None
    else
      let* r := reputation_of api_key abuseipdb ip in
      let* role := of_outcome (summarize_pfsense_traffic_roles (db_classifications b) (db_sample_payload b)) in
      let protected_source := ts_source_is_protected role in
      let sev := pfsense_repeated_deny_severity (db_event_count b) threshold outbound protected_source
                   (ts_initiation role) (ts_reply_or_teardown role) in
      let* cooling := pfsense_cooldown_suppresses ip REPEATED_DENY sev in
      if cooling then ret None
      else
        let reply_only := outbound && protected_source && bool_decide (ts_classification role = ReplyOrTeardownLike) in
        let flags := build_pfsense_operational_flags REPEATED_DENY sev (dk_direction key)
                       (is_high sev && outbound && negb reply_only) (negb outbound) in
        let* port := of_outcome (parse_port (opt_text (dk_destination_port key))) in
        let* signature := of_outcome (build_service_signature (match port with Some p => [PInt p] | None => [] end)) in
        let* alert := insert_firewall_alert REPEATED_DENY sev "firewall_block" source source_type ip
                        (repeated_deny_message key (db_event_count b) reply_only)
                        (pfsense_response_action_for_severity sev (of_containment_eligible flags)) r
                        (repeated_deny_context key b role flags port signature) [("event_count", PInt (db_event_count b))] in
        ret (Some alert).

Definition repeated_deny_core : detector_core W := fun source source_type source_ip rule_config =>
    with_rule REPEATED_DENY source source_type source_ip rule_config (fun rule source source_type ip =>
      let* threshold := of_outcome (rule_parameter rule "threshold") in
      let* window := of_outcome (rule_parameter rule "window_minutes") in
      let* events := sql (firewall_events oldest_first ["firewall_block"] source source_type ip window) in
      let* grouped := of_outcome (deny_buckets events []) in
      raise_alerts (raise_repeated_deny threshold source source_type) grouped).

(** ** Port scans *)

Record scan_bucket := ScanBucket {
  sb_event_count : Z;
  sb_destination_counts : list (option string * Z);
  sb_port_counts : list (Z * Z);
  sb_roles : list traffic_class;
  sb_first_seen : Z;
  sb_last_seen : Z;
  sb_sample_payload : pyval;
}.

(** Outbound packets of a protected host that answer, or may, are no scan. *)
Definition not_scanning (e : event_row) (role : traffic_class) : bool :=
  bool_decide (column "direction" e = Some "out") && tc_source_is_protected role &&
  bool_decide (tc_classification role ∈ [ReplyOrTeardownLike; Ambiguous]).

Fixpoint scan_buckets (events : list event_row) (grouped : list (string * scan_bucket)) : outcome (list (string * scan_bucket)) :=
  match events with
  | [] => Ok grouped
  | e :: events =>
      let! port := parse_port (opt_text (column "destination_port" e)) in
      match port with
      | None => scan_buckets events grouped
      | Some port =>
          let payload := PDict (dict_or_empty (ev_raw_payload e)) in
          let! role := classify_pfsense_event_traffic_role payload in
          if not_scanning e role then scan_buckets events grouped
          else
            scan_buckets events
              (upsert (ev_source_ip e) (ScanBucket 0 [] [] [] (ev_created_at e) (ev_created_at e) payload)
                 (fun b => ScanBucket (sb_event_count b + 1) (counted_up (column "destination_ip" e) (sb_destination_counts b))
                             (counted_up port (sb_port_counts b)) (sb_roles b ++ [role]) (sb_first_seen b) (ev_created_at e) (sb_sample_payload b))
                 grouped)
      end
  end.

(** [str] of a column, and the order of its texts. *)
Definition column_text (o : option string) : string := match o with Some s => s | None => "None" end.
Definition column_le (a b : option string) : Prop := str_le (column_text a) (column_text b).
#[local] Instance column_le_dec : RelDecision column_le.
Proof. intros a b. unfold column_le. apply _. Defined.

(** [sorted(destination_counts)]: None and texts do not compare. *)
Definition sorted_destinations (keys : list (option string)) : outcome (list (option string)) :=
  if bool_decide (None ∈ keys) && (2 <=? length keys)%nat then Raise TypeError else Ok (merge_sort column_le keys).

Definition top_destination (counts : list (option string * Z)) : option string :=
  match merge_sort (ranked_le column_le) counts with x :: _ => x.1 | [] => None end.
Definition top_port (counts : list (Z * Z)) : option Z := fst <$> head (merge_sort (ranked_le Z.le) counts).

Definition port_scan_context (ip : string) (b : scan_bucket) (role : traffic_summary) (flags : operational_flags)
    (description : string) (destinations : list (option string)) (ports : list Z) (ips : list string) (sample_ports signature : list Z) : pydict :=
  let first := Some (sb_first_seen b) in
  let last := Some (sb_last_seen b) in
  let port_count := PInt (Z.of_nat (length (sb_port_counts b))) in
  let destination_count := PInt (Z.of_nat (length (sb_destination_counts b))) in
  let top := opt_text (top_destination (sb_destination_counts b)) in
  let top_port := opt_int (top_port (sb_port_counts b)) in
  [("action", PStr "block"); ("distinct_port_count", port_count); ("distinct_destination_count", destination_count);
   ("event_count", PInt (sb_event_count b)); ("first_seen", iso first); ("last_seen", iso last);
   ("scan_description", PStr description); ("protected_range_key", opt_text (protected_range_key (map opt_text destinations)));
   ("service_signature_ports", ports_of signature); ("traffic_role", summary_dict role);
   ("notification_policy", notification_dict (of_immediate_alert_eligible flags)); ("operational_flags", flags_dict flags);
   ("related_event_filter", PDict (build_related_event_filter ["firewall_block"] ip ips sample_ports None None
      (Some (iso_text (sb_first_seen b))) (Some (iso_text (sb_last_seen b)))));
   ("target_context", build_pfsense_target_context "aggregate_sample"
      [("evidence_kind", PStr "aggregate_sample"); ("primary_destination_ip", top); ("primary_destination_port", top_port);
       ("top_destination_ip", top); ("top_destination_port", top_port); ("sample_destination_ips", texts_of ips);
       ("sample_destination_ports", ports_of sample_ports); ("distinct_destination_count", destination_count);
       ("distinct_port_count", port_count); ("protocol", PNone); ("firewall_action", PStr "block"); ("attempts", PInt (sb_event_count b));
       ("first_seen", iso first); ("last_seen", iso last); ("related_event_count", PInt (sb_event_count b));
       ("evidence_window", window_dict first last)])].

Definition raise_port_scan (threshold host_threshold : Z) (source source_type : string) (x : string * scan_bucket) : M (detection W) (option pydict) :=
  let '(ip, b) := x in
  let port_count := Z.of_nat (length (sb_port_counts b)) in
  let destination_count := Z.of_nat (length (sb_destination_counts b)) in
  if (port_count <? threshold) && (destination_count <? host_threshold) then ret None
  else
    let* destinations := of_outcome (sorted_destinations (map fst (sb_destination_counts b))) in
    let ports := merge_sort Z.le (map fst (sb_port_counts b)) in
    let* duplicate := sql (open_alert_exists pg ip PORT_SCAN) in
    if duplicate then ret None
    else
      let* r := reputation_of api_key abuseipdb ip in
      let* role := of_outcome (summarize_pfsense_traffic_roles (sb_roles b) (sb_sample_payload b)) in
      let* sev := of_outcome (pfsense_port_scan_severity port_count destination_count threshold host_threshold (rp_score r)) in
      let* cooling := pfsense_cooldown_suppresses ip PORT_SCAN sev in
      if cooling then ret None
      else
        let ips := sample_ranked_texts (map (fun t => (t, 1)) (flat_map nonempty_texts destinations)) in
        let sample_ports := sample_ranked_ports (map (fun p => (p, 1)) ports) in
        let targets_are_public := negb (bool_decide (ips = [])) && forallb (fun t => is_public_ip (PStr t)) ips in
        let description := build_scan_description port_count destination_count (top_port (sb_port_counts b)) targets_are_public in
        let flags := build_pfsense_operational_flags PORT_SCAN sev None (is_high sev) (negb (is_high sev)) in
        let* signature := of_outcome (build_service_signature (map PInt ports)) in
        let* alert := insert_firewall_alert PORT_SCAN sev "firewall_block" source source_type ip
                        ("pfSense firewall scan activity suspected from " +:+ ip +:+ ": " +:+ description)
                        (pfsense_response_action_for_severity sev (of_containment_eligible flags)) r
                        (port_scan_context ip b role flags description destinations ports ips sample_ports signature)
                        [("distinct_port_count", PInt port_count)] in
        ret (Some alert).

Definition port_scan_core : detector_core W := fun source source_type source_ip rule_config =>
    with_rule PORT_SCAN source source_type source_ip rule_config (fun rule source source_type ip =>
      let* threshold := of_outcome (rule_parameter rule "threshold") in
      let* window := of_outcome (rule_parameter rule "window_minutes") in
      let host_threshold := default PFSENSE_PORT_SCAN_HOST_THRESHOLD (parameter (er_parameters rule) "host_threshold") in
      let* events := sql (firewall_events oldest_first ["firewall_block"] source source_type ip window) in
      let* grouped := of_outcome (scan_buckets events []) in
      raise_alerts (raise_port_scan threshold host_threshold source source_type) grouped).

(** ** Suspicious allows *)

Definition inbound (e : event_row) : bool := bool_decide (column "direction" e = Some "in").

(** [~ '^\d{1,5}$'] and the cast behind it. *)
Definition port_text (text : string) : option Z :=
  if all_chars is_digit text && negb (is_empty text) && (String.length text <=? 5)%nat then Some (decimal text) else None.

Definition on_sensitive_port (ports : list Z) (e : event_row) : bool :=
  match column "destination_port" e with
  | Some text => match port_text text with Some port => bool_decide (port ∈ ports) | None => false end
  | None => false
  end.

(** MIN and MAX of created_at. *)
Definition earliest (l : list event_row) : option Z :=
  foldr (fun e m => Some (match m with Some t => Z.min (ev_created_at e) t | None => ev_created_at e end)) None l.
Definition latest (l : list event_row) : option Z :=
  foldr (fun e m => Some (match m with Some t => Z.max (ev_created_at e) t | None => ev_created_at e end)) None l.

Definition suspicious_allow_context (ip : string) (group : list event_row) (newest : event_row) (distinct_port_count : Z)
    (flags : operational_flags) (port : option Z) (signature : list Z) : pydict :=
  let event_count := PInt (Z.of_nat (length group)) in
  let destination_ip := column "destination_ip" newest in
  let destination_port := port_or_text port (column "destination_port" newest) in
  let protocol := normalize_protocol (opt_text (column "protocol" newest)) in
  let ips := nonempty_texts destination_ip in
  let ports := match port with Some p => [p] | None => [] end in
  let first := earliest group in
  let last := latest group in
  [("action", PStr "pass"); ("destination_ip", opt_text destination_ip); ("destination_port", destination_port);
   ("protocol", opt_text (column "protocol" newest)); ("interface", opt_text (column "interface" newest)); ("direction", PStr "in");
   ("event_count", event_count); ("distinct_sensitive_port_count", PInt distinct_port_count);
   ("first_seen", iso first); ("last_seen", iso last);
   ("protected_range_key", opt_text (protected_range_key (map PStr ips))); ("service_signature_ports", ports_of signature);
   ("notification_policy", notification_dict (of_immediate_alert_eligible flags)); ("operational_flags", flags_dict flags);
   ("related_event_filter", PDict (build_related_event_filter ["firewall_allow"] ip ips ports protocol (Some "in")
      (iso_text <$> first) (iso_text <$> last)));
   ("target_context", build_pfsense_target_context "exact_target"
      [("evidence_kind", PStr "exact_target"); ("primary_destination_ip", opt_text destination_ip);
       ("primary_destination_port", destination_port); ("destination_ip", opt_text destination_ip); ("destination_port", destination_port);
       ("sample_destination_ips", texts_of ips); ("sample_destination_ports", ports_of ports);
       ("distinct_destination_count", PInt (Z.of_nat (length ips))); ("distinct_port_count", PInt (Z.of_nat (length ports)));
       ("protocol", opt_text protocol); ("firewall_action", PStr "pass"); ("attempts", event_count);
       ("first_seen", iso first); ("last_seen", iso last);
       ("interface", opt_text (normalize_interface (opt_text (column "interface" newest)))); ("direction", PStr "in");
       ("related_event_count", event_count); ("evidence_window", window_dict first last)])].

(** A group has its events newest first. *)
Definition raise_suspicious_allow (repeat_threshold port_threshold : Z) (source source_type : string) (x : string * list event_row)
    : M (detection W) (option pydict) :=
  let '(ip, group) := x in
  match group with
  | [] => ret None
  | newest :: _ =>
      let event_count := Z.of_nat (length group) in
      let distinct_port_count := Z.of_nat (length (remove_dups (omap (column "destination_port") group))) in
      let* duplicate := sql (open_alert_exists pg ip SUSPICIOUS_ALLOW) in
      if duplicate then ret None
      else
        let* r := reputation_of api_key abuseipdb ip in
        let* sev := of_outcome (pfsense_suspicious_allow_severity event_count distinct_port_count repeat_threshold port_threshold (rp_score r)) in
        let* cooling := pfsense_cooldown_suppresses ip SUSPICIOUS_ALLOW sev in
        if cooling then ret None
        else
          let* port := of_outcome (parse_port (opt_text (column "destination_port" newest))) in
          let flags := build_pfsense_operational_flags SUSPICIOUS_ALLOW sev (Some "in") (is_high sev) false in
          let* signature := of_outcome (build_service_signature [opt_int port]) in
          let* alert := insert_firewall_alert SUSPICIOUS_ALLOW sev "firewall_allow" source source_type ip
                          ("pfSense allowed inbound traffic from " +:+ ip +:+ " to sensitive port " +:+
                           column_text (column "destination_port" newest) +:+ " (" +:+
                           or_text (column "protocol" newest) "unknown protocol" +:+ ")")
                          (pfsense_response_action_for_severity sev (of_containment_eligible flags)) r
                          (suspicious_allow_context ip group newest distinct_port_count flags port signature)
                          [("event_count", PInt event_count)] in
          ret (Some alert)
  end.

Definition suspicious_allow_core : detector_core W := fun source source_type source_ip rule_config =>
  with_rule SUSPICIOUS_ALLOW source source_type source_ip rule_config (fun rule source source_type ip =>
    let* threshold := of_outcome (rule_parameter rule "threshold") in
    let* window := of_outcome (rule_parameter rule "window_minutes") in
    let* ports := sensitive_ports in
    let* events := sql (firewall_events newest_first ["firewall_allow"] source source_type ip window) in
    let groups := List.filter (fun g => threshold <=? Z.of_nat (length g.2))
                    (by_source_ip (List.filter (fun e => inbound e && on_sensitive_port ports e) events)) in
    let parameter_or key other := default other (parameter (er_parameters rule) key) in
    raise_alerts (raise_suspicious_allow
      (parameter_or "high_confidence_repeat_threshold" PFSENSE_SUSPICIOUS_ALLOW_HIGH_CONFIDENCE_REPEAT_THRESHOLD)
      (parameter_or "distinct_port_escalation_threshold" PFSENSE_SUSPICIOUS_ALLOW_DISTINCT_PORT_ESCALATION_THRESHOLD)
      source source_type) groups).

(** ** Allows after denies *)

Definition allow_key_of (e : event_row) : allow_key :=
  AllowKey (ev_source_ip e) (column "destination_ip" e) (column "destination_port" e) (column "protocol" e) (column "interface" e).

Definition allow_groups (events : list event_row) : list allow_group :=
  map (fun x => AllowGroup x.1 x.2.1 x.2.2)
    (foldl (fun d e => upsert (allow_key_of e) (ev_created_at e, 0) (fun b => (Z.max b.1 (ev_created_at e), b.2 + 1)) d) [] events).

(** The denies of the same service before the last allow; their destination
    is left open. *)
Definition denied_before (source source_type : string) (g : allow_group) (port window : Z) (e : event_row) : bool :=
  event_selected ["firewall_block"] source source_type e && inbound e &&
  match ak_protocol (ag_key g) with Some p => bool_decide (column "protocol" e = Some p) | None => false end &&
  bool_decide (column "destination_port" e = Some (str_int port)) &&
  (ag_last_allow_at g - minutes window <=? ev_created_at e) && (ev_created_at e <=? ag_last_allow_at g).

Definition qualifying_denies (source source_type : string) (g : allow_group) (port window : Z) : M siem_db (list event_row) := fun d =>
  match inet_parameter pg (ak_source_ip (ag_key g)) with
  | Raise e => (Raise e, d)
  | Ok ip => (Ok (List.filter (fun e => String.eqb (ev_source_ip e) ip && denied_before source source_type g port window e) (rows (sd_events d))), d)
  end.

(** [raw_payload->>'destination_ip' = %s]. *)
Definition same_destination (g : allow_group) (e : event_row) : bool :=
  match ak_destination_ip (ag_key g) with Some ip => bool_decide (column "destination_ip" e = Some ip) | None => false end.

Record progression := Progression {
  pr_matching_mode : string;
  pr_severity : severity;
  pr_deny_count : Z;
  pr_exact_count : Z;
  pr_first_deny : option Z;
  pr_last_deny : option Z;
}.

(** [None]: too few denies. *)
Definition progression_of (minimum high : Z) (ports : list Z) (g : allow_group) (port : Z) (denies : list event_row) : option progression :=
  let deny_count := Z.of_nat (length denies) in
  let exact_count := Z.of_nat (length (List.filter (same_destination g) denies)) in
  if deny_count <? minimum then None
  else
    let '(mode, sev) :=
      if high <=? deny_count
      then if high <=? exact_count then ("exact_target", High)
           else if bool_decide (port ∈ ports) then ("sensitive_service", High)
           else ("same_service_within_range", Medium)
      else ("same_service_within_range", Medium) in
    Some (Progression mode sev deny_count exact_count (earliest denies) (latest denies)).

Definition allow_after_deny_context (g : allow_group) (port : Z) (range : string) (p : progression) (flags : operational_flags) : pydict :=
  let k := ag_key g in
  let ips := nonempty_texts (ak_destination_ip k) in
  let protocol := normalize_protocol (opt_text (ak_protocol k)) in
  let first := pr_first_deny p in
  let last := Some (ag_last_allow_at g) in
  [("action", PStr "pass"); ("direction", PStr "in"); ("destination_ip", opt_text (ak_destination_ip k)); ("destination_port", PInt port);
   ("protocol", opt_text (ak_protocol k)); ("interface", opt_text (ak_interface k)); ("event_count", PInt (ag_count g));
   ("first_seen", iso first); ("last_seen", iso last); ("protected_range_key", PStr range); ("service_signature_ports", ports_of [port]);
   ("progression", PDict
      [("matching_mode", PStr (pr_matching_mode p)); ("qualifying_deny_count", PInt (pr_deny_count p));
       ("exact_target_deny_count", PInt (pr_exact_count p)); ("deny_first_seen", iso first); ("deny_last_seen", iso (pr_last_deny p));
       ("allow_seen", iso last)]);
   ("notification_policy", notification_dict (of_immediate_alert_eligible flags)); ("operational_flags", flags_dict flags);
   ("related_event_filter", PDict (build_related_event_filter ["firewall_block"; "firewall_allow"] (ak_source_ip k) ips [port] protocol (Some "in")
      (iso_text <$> first) (iso_text <$> last)));
   ("target_context", build_pfsense_target_context "exact_target"
      [("evidence_kind", PStr "exact_target"); ("primary_destination_ip", opt_text (ak_destination_ip k));
       ("primary_destination_port", PInt port); ("destination_ip", opt_text (ak_destination_ip k)); ("destination_port", PInt port);
       ("sample_destination_ips", texts_of ips); ("sample_destination_ports", ports_of [port]);
       ("distinct_destination_count", PInt (Z.of_nat (length ips))); ("distinct_port_count", PInt 1); ("protocol", opt_text protocol);
       ("firewall_action", PStr "pass"); ("attempts", PInt (ag_count g)); ("first_seen", iso first); ("last_seen", iso last);
       ("interface", opt_text (normalize_interface (opt_text (ak_interface k)))); ("direction", PStr "in");
       ("related_event_count", PInt (pr_deny_count p + ag_count g)); ("evidence_window", window_dict first last)])].

Definition raise_allow_after_deny (minimum high window : Z) (ports : list Z) (source source_type : string) (g : allow_group)
    : M (detection W) (option pydict) :=
  let k := ag_key g in
  let ip := ak_source_ip k in
  let* port := of_outcome (parse_port (opt_text (ak_destination_port k))) in
  match port, protected_range_key [opt_text (ak_destination_ip k)] with
  | Some port, Some range =>
      let* duplicate := sql (open_alert_exists pg ip ALLOW_AFTER_DENY) in
      if duplicate then ret None
      else
        let* denies := sql (qualifying_denies source source_type g port window) in
        match progression_of minimum high ports g port denies with
        | None => ret None
        | Some p =>
            let sev := pr_severity p in
            let* cooling := pfsense_cooldown_suppresses ip ALLOW_AFTER_DENY sev in
            if cooling then ret None
            else
              let* r := reputation_of api_key abuseipdb ip in
              let flags := build_pfsense_operational_flags ALLOW_AFTER_DENY sev (Some "in") (is_high sev) false in
              let* alert := insert_firewall_alert ALLOW_AFTER_DENY sev "firewall_allow" source source_type ip
                              ("pfSense allowed inbound traffic from " +:+ ip +:+ " after " +:+ str_int (pr_deny_count p) +:+
                               " prior denies to " +:+ column_text (ak_destination_ip k) +:+ ":" +:+ str_int port +:+ " (" +:+
                               or_text (ak_protocol k) "unknown protocol" +:+ ")")
                              (pfsense_response_action_for_severity sev (of_containment_eligible flags)) r
                              (allow_after_deny_context g port range p flags) [] in
              ret (Some alert)
        end
  | _, _ => ret None
  end.

Definition allow_after_deny_core : detector_core W := fun source source_type source_ip rule_config =>
  with_rule ALLOW_AFTER_DENY source source_type source_ip rule_config (fun rule source source_type ip =>
    let* minimum := of_outcome (rule_parameter rule "minimum_deny_threshold") in
    let* window := of_outcome (rule_parameter rule "window_minutes") in
    let* high := of_outcome (rule_parameter rule "high_confidence_deny_threshold") in
    let* ports := sensitive_ports in
    let* events := sql (firewall_events oldest_first ["firewall_allow"] source source_type ip window) in
    raise_alerts (raise_allow_after_deny minimum high window ports source source_type)
      (returned (allow_groups (List.filter inbound events)))).

(** ** Noisy sources *)

(** The order of a text column: the collation's, nulls last. *)
Definition nullable_le (a b : option string) : Prop :=
  match a, b with _, None => True | None, Some _ => False | Some a, Some b => text_le a b end.
#[local] Instance nullable_le_dec : RelDecision nullable_le.
Proof. intros [a|] [b|]; unfold nullable_le; apply _. Defined.

(** The value of a column that most events have. *)
Definition most_frequent (values : list (option string)) : option string :=
  match merge_sort (ranked_le nullable_le) (foldl (fun d v => counted_up v d) [] values) with x :: _ => x.1 | [] => None end.

(** COUNT(DISTINCT ..), NULL for none. *)
Definition distinct_or_null (values : list (option string)) : option Z :=
  let n := Z.of_nat (length (remove_dups (omap id values))) in if 0 <? n then Some n else None.

Definition event_action (e : event_row) : string :=
  default (if String.eqb (ev_event_type e) "firewall_block" then "block" else "pass") (column "action" e).

Definition firewall_action (group : list event_row) : string :=
  match remove_dups (map event_action group) with [action] => action | _ => "mixed" end.

Definition open_of_types (source_ip : string) (types : list string) : M siem_db bool := fun d =>
  match inet_parameter pg source_ip with
  | Raise e => (Raise e, d)
  | Ok ip => (Ok (existsb (fun r => existsb (fun t => open_alert ip t r) types) (rows (sd_alerts d))), d)
  end.

Definition noisy_source_context (group : list event_row) : pydict :=
  let event_count := PInt (Z.of_nat (length group)) in
  let destinations := map (column "destination_ip") group in
  let ports := map (column "destination_port") group in
  let top := most_frequent destinations in
  let top_port := safe_int (most_frequent ports) in
  let first := earliest group in
  let last := latest group in
  [("event_count", event_count); ("first_seen", iso first); ("last_seen", iso last); ("suppressed", PBool true);
   ("notification_policy", notification_dict false);
   ("operational_flags", flags_dict (build_pfsense_operational_flags NOISY_SOURCE Low None false false));
   ("target_context", build_pfsense_target_context "aggregate_sample"
      [("evidence_kind", PStr "aggregate_sample"); ("primary_destination_ip", opt_text top); ("primary_destination_port", opt_int top_port);
       ("top_destination_ip", opt_text top); ("top_destination_port", opt_int top_port);
       ("sample_destination_ips", texts_of (nonempty_texts top));
       ("sample_destination_ports", ports_of (match top_port with Some p => [p] | None => [] end));
       ("distinct_destination_count", opt_int (distinct_or_null destinations)); ("distinct_port_count", opt_int (distinct_or_null ports));
       ("firewall_action", PStr (firewall_action group)); ("attempts", event_count); ("first_seen", iso first); ("last_seen", iso last);
       ("related_event_count", event_count); ("evidence_window", window_dict first last)])].

Definition raise_noisy_source (source source_type : string) (x : string * list event_row) : M (detection W) (option pydict) :=
  let '(ip, group) := x in
  let* duplicate := sql (open_of_types ip PFSENSE_NOISY_SOURCE_GUARD_ALERT_TYPES) in
  if duplicate then ret None
  else
    let* cooling := pfsense_cooldown_suppresses ip NOISY_SOURCE Low in
    if cooling then ret None
    else
      let* r := reputation_of api_key abuseipdb ip in
      let event_count := Z.of_nat (length group) in
      let* alert := insert_firewall_alert NOISY_SOURCE Low "firewall_block" source source_type ip
                      ("pfSense firewall noise suppressed from " +:+ ip +:+ ": " +:+ str_int event_count +:+ " routine events")
                      "suppress_noisy_source" r (noisy_source_context group) [("event_count", PInt event_count)] in
      ret (Some alert).

Definition noisy_source_core : detector_core W := fun source source_type source_ip rule_config =>
  with_rule NOISY_SOURCE source source_type source_ip rule_config (fun rule source source_type ip =>
    let* threshold := of_outcome (rule_parameter rule "threshold") in
    let* window := of_outcome (rule_parameter rule "window_minutes") in
    let* events := sql (firewall_events oldest_first ["firewall_block"; "firewall_allow"] source source_type ip window) in
    raise_alerts (raise_noisy_source source source_type)
      (List.filter (fun g => threshold <=? Z.of_nat (length g.2)) (by_source_ip events))).
End Firewall.
