(* ===== verification/PfsenseDetectorProofs.v ===== *)
(** * PfsenseDetectorProofs: what the firewall detectors do

    They raise alerts of their own type and nothing else, which makes them
    the [FirewallDetectors] of ingestion. *)

From S2P Require Import Prelude Tables PyText PyFloat PyValue ProtectedTargets PfsenseFilter PfsenseFilterProofs PfsenseRecon.
From S2P Require Import DetectionCatalog DetectionConfig Reputation Detections DetectionProofs IngestEngine PfsenseDetectors.

Open Scope Z_scope.

Section Proofs.
Context {W : Type} (pg : postgres) (text_le : string -> string -> Prop) `{!RelDecision text_le} (json_loads : json_decoder).
Context (api_key : bool) (abuseipdb : string -> W -> abuse_reply * W) (protected : option string).
Context (returned : list allow_group -> list allow_group).
Implicit Types (s : detection W).

(** ** Reading *)

Lemma firewall_events_read key types source source_type ip window :
  reads_any (sql (firewall_events pg key types source source_type ip window) : M (detection W) (list event_row)).
Proof. apply reads_sql_any. intros d. unfold firewall_events. by destruct (inet_parameter pg ip). Qed.

Lemma denies_read source source_type g port window :
  reads_any (sql (qualifying_denies pg source source_type g port window) : M (detection W) (list event_row)).
Proof. apply reads_sql_any. intros d. unfold qualifying_denies. by destruct (inet_parameter pg _). Qed.

Lemma cooldown_reads ip alert_type sev : reads_any (pfsense_cooldown_suppresses pg ip alert_type sev : M (detection W) bool).
Proof.
  unfold pfsense_cooldown_suppresses. eapply leaves_bind; [|intros closed; apply leaves_ret_any].
  apply (reads_sql_any (last_closed pg ip alert_type)). intros d. unfold last_closed. by destruct (inet_parameter pg ip).
Qed.

Lemma sensitive_ports_read : reads_any (sensitive_ports text_le json_loads : M (detection W) (list Z)).
Proof.
  intros s. unfold sensitive_ports, on_conn, zoom, zoom_conn.
  set (c := Conn _ _ _). assert ((get_effective_sensitive_ports json_loads text_le c).2 = c) as H.
  { unfold get_effective_sensitive_ports. destruct (policy_loaded json_loads text_le c) as (policy & Hl & _).
    by rewrite (bind_ok _ _ c policy c Hl). }
  destruct (get_effective_sensitive_ports json_loads text_le c) as [o t]. cbn [snd] in H. subst t. cbn.
  split_and!; [done| |done]. unfold current. cbn. by destruct (cn_current (dn_conn s)).
Qed.

Lemma with_rule_reads types rule_id source source_type source_ip rule body :
  (forall rule source source_type ip, raises_only pg types (body rule source source_type ip)) ->
  raises_only pg types (with_rule json_loads rule_id source source_type source_ip rule body : M (detection W) _).
Proof.
  intros Hbody. apply raises_from_any. unfold with_rule. eapply raises_read; [apply prepare_reads|]. intros prepared.
  destruct prepared as [r|], source as [source|], source_type as [source_type|]; try (apply raises_any, raises_ret; constructor).
  eapply raises_read; [apply resolve_reads|]. intros [ip|]; [|apply raises_any, raises_ret; constructor]. apply raises_any, Hbody.
Qed.

(** ** Raising *)

(** The details of a result that leave its other keys alone. *)
Definition plain (detail : pydict) : Prop := detail = [] \/ exists k v, detail = [(k, v)] /\ (k = "event_count" \/ k = "distinct_port_count").

Lemma insert_firewall_raises P alert_type sev event_type source source_type ip message action r context detail :
  plain detail -> (forall d, P d -> tested pg ip alert_type false d) ->
  raises_when P (names_one pg) [alert_type]
    (let* alert := insert_firewall_alert pg alert_type sev event_type source source_type ip message action r context detail in
     ret (Some alert) : M (detection W) _).
Proof.
  intros Hd HP s Hs. apply HP in Hs. unfold insert_firewall_alert. rewrite !bind_assoc. revert s Hs.
  eapply raises_read; [apply location_reads|]. intros l s [Hs _]. rewrite bind_assoc. revert s Hs.
  eapply (insert_raises pg _ _ _ _ _ _ _ _ _ _ (fun i => Some _)); [set_solver|].
  intros i row Hi Hty Hsev Hact Hip.
  destruct Hd as [->|(k & v & -> & [-> | ->])]; (split; cbn; [done|by exists ip|by rewrite Hact|by rewrite Hsev|right; by rewrite Hty|done]).
Qed.

Lemma open_of_types_reads ip types :
  reads (sql (open_of_types pg ip types) : M (detection W) bool) (fun dup d => forall t, t ∈ types -> tested pg ip t dup d).
Proof.
  apply reads_sql; intros d; unfold open_of_types, inet_parameter; destruct (pg_inet pg ip) as [a|] eqn:E; cbn; try done.
  intros dup [= <-] t Ht Hdup a' Ha' i r Hr. rewrite E in Ha'. injection Ha' as <-.
  apply (proj1 (existsb_false _ _)) with (x := r) in Hdup; [|apply elem_of_rows; eauto].
  by apply (proj1 (existsb_false _ _) Hdup).
Qed.

#[local] Ltac read_step :=
  eapply raises_read;
  [first [apply reads_reputation | apply reads_outcome_any | apply cooldown_reads | apply denies_read | apply sensitive_ports_read
         | apply firewall_events_read | apply open_test_reads | apply open_of_types_reads]|].

#[local] Ltac nothing := by apply raises_any, raises_ret.

Lemma repeated_deny_turn threshold source source_type x :
  raises (names_one pg) [REPEATED_DENY] (raise_repeated_deny pg api_key abuseipdb protected threshold source source_type x : M (detection W) _).
Proof.
  apply raises_from_any. destruct x as [key b]. unfold raise_repeated_deny. destruct (_ <? _); [nothing|].
  read_step. intros [|]; [nothing|]. do 2 (read_step; intros ?). read_step. intros [|]; [nothing|]. do 2 (read_step; intros ?).
  apply insert_firewall_raises; [right; eauto|]. tauto.
Qed.

Lemma port_scan_turn threshold host_threshold source source_type x :
  raises (names_one pg) [PORT_SCAN] (raise_port_scan pg api_key abuseipdb protected threshold host_threshold source source_type x : M (detection W) _).
Proof.
  apply raises_from_any. destruct x as [ip b]. unfold raise_port_scan. destruct (_ && _); [nothing|].
  read_step. intros ?. read_step. intros [|]; [nothing|]. do 3 (read_step; intros ?). read_step. intros [|]; [nothing|]. read_step. intros ?.
  apply insert_firewall_raises; [right; eauto|]. tauto.
Qed.

Lemma suspicious_allow_turn repeat_threshold port_threshold source source_type x :
  raises (names_one pg) [SUSPICIOUS_ALLOW]
    (raise_suspicious_allow pg api_key abuseipdb repeat_threshold port_threshold source source_type x : M (detection W) _).
Proof.
  apply raises_from_any. destruct x as [ip [|newest group]]; unfold raise_suspicious_allow; [nothing|].
  read_step. intros [|]; [nothing|]. do 2 (read_step; intros ?). read_step. intros [|]; [nothing|]. do 2 (read_step; intros ?).
  apply insert_firewall_raises; [right; eauto|]. tauto.
Qed.

Lemma allow_after_deny_turn minimum high window ports source source_type g :
  raises (names_one pg) [ALLOW_AFTER_DENY]
    (raise_allow_after_deny pg api_key abuseipdb minimum high window ports source source_type g : M (detection W) _).
Proof.
  apply raises_from_any. unfold raise_allow_after_deny. read_step. intros [port|]; [|nothing]. destruct (protected_range_key _); [|nothing].
  read_step. intros [|]; [nothing|]. read_step. intros denies. destruct (progression_of _ _ _ _ _ _); [|nothing].
  read_step. intros [|]; [nothing|]. read_step. intros ?. apply insert_firewall_raises; [by left|]. tauto.
Qed.

Lemma noisy_source_turn source source_type x :
  raises (names_one pg) [NOISY_SOURCE] (raise_noisy_source pg text_le api_key abuseipdb source source_type x : M (detection W) _).
Proof.
  apply raises_from_any. destruct x as [ip group]. unfold raise_noisy_source. read_step. intros [|]; [nothing|].
  read_step. intros [|]; [nothing|]. read_step. intros ?. apply insert_firewall_raises; [right; eauto|].
  intros d H. apply H. unfold PFSENSE_NOISY_SOURCE_GUARD_ALERT_TYPES. set_solver.
Qed.

(** ** The interface *)

#[local] Ltac core turn :=
  intros; apply with_rule_reads; intros; apply raises_from_any; repeat (read_step; intros ?); apply raises_any, raises_alerts; intros; apply turn.

#[local, refine] Instance pfsense_detectors : FirewallDetectors W pg := {
  generate_pfsense_repeated_deny_alerts_core := repeated_deny_core pg json_loads api_key abuseipdb protected;
  generate_pfsense_port_scan_alerts_core := port_scan_core pg json_loads api_key abuseipdb protected;
  generate_pfsense_noisy_source_alerts_core := noisy_source_core pg text_le json_loads api_key abuseipdb;
  generate_pfsense_allow_after_deny_alerts_core := allow_after_deny_core pg text_le json_loads api_key abuseipdb returned;
  generate_pfsense_suspicious_allow_alerts_core := suspicious_allow_core pg text_le json_loads api_key abuseipdb;
}.
Proof.
  - core repeated_deny_turn.
  - core port_scan_turn.
  - core noisy_source_turn.
  - core allow_after_deny_turn.
  - core suspicious_allow_turn.
Defined.

(** ** Walking through an answer *)

Lemma read_inv {A B} (m : M (detection W) A) (k : A -> M (detection W) B) Q s b s' :
  reads m Q -> bind m k s = (Ok b, s') -> exists a s1, current s1 = current s /\ Q a (current s) /\ k a s1 = (Ok b, s').
Proof.
  intros Hm (a & s1 & Ha & Hk)%bind_ok_inv. destruct (Hm s) as (_ & Hc & HQ). rewrite Ha in Hc, HQ. eauto 6.
Qed.

Lemma ok_pair {A T} (x : outcome A * T) a : x.1 = Ok a -> exists t, x = (Ok a, t).
Proof. destruct x as [o t]. cbn. intros ->. eauto. Qed.

Lemma outcome_inv {A B} (o : outcome A) (k : A -> M (detection W) B) s b s' :
  bind (of_outcome o) k s = (Ok b, s') -> exists a, o = Ok a /\ k a s = (Ok b, s').
Proof. intros (a & s1 & [= Ha <-] & Hk)%bind_ok_inv. eauto. Qed.

(** The events of an address in a window, as the statement selects them. *)
Definition window_events (key : Z -> event_row -> list Z) (types : list string) (source source_type a : string) (window : Z) (d : siem_db) : list event_row :=
  map snd (select key (fun _ e => event_selected types source source_type e && String.eqb (ev_source_ip e) a && within pg window e) (sd_events d)).

Lemma events_selected key types source source_type ip window :
  reads (sql (firewall_events pg key types source source_type ip window) : M (detection W) (list event_row))
    (fun l d => exists a, pg_inet pg ip = Some a /\ l = window_events key types source source_type a window d).
Proof.
  apply reads_sql; intros d; unfold firewall_events, inet_parameter; destruct (pg_inet pg ip) as [a|] eqn:E; cbn; try done.
  intros l [= <-]. eauto.
Qed.

Lemma window_events_address key types source source_type a window d e :
  e ∈ window_events key types source source_type a window d -> ev_source_ip e = a.
Proof.
  intros ([i e'] & -> & [_ H]%elem_of_select)%list_elem_of_fmap. apply andb_true_iff in H as [[_ H]%andb_true_iff _]. by apply String.eqb_eq.
Qed.

(** An alert of the answer is that of a turn; the turns before it raised
    others. *)
Lemma raise_alerts_inv {A} (turn : A -> M (detection W) (option pydict)) l s alerts s' alert :
  raise_alerts turn l s = (Ok alerts, s') -> alert ∈ alerts -> exists x s1 s2, x ∈ l /\ turn x s1 = (Ok (Some alert), s2).
Proof.
  revert s alerts. induction l as [|x l IH]; intros s alerts; cbn [raise_alerts].
  { intros [= <- <-] []%not_elem_of_nil. }
  intros (o & s1 & Ht & H)%bind_ok_inv Hin. apply bind_ok_inv in H as (rest & s2 & Hr & [= <- <-]).
  assert (Some alert = o \/ alert ∈ rest) as [<-|Hrest].
  { destruct o as [a|]; [|by right]. apply elem_of_cons in Hin as [->|Hin]; auto. }
  - exists x, s, s1. split; [left|done].
  - destruct (IH _ _ Hr Hrest) as (y & s3 & s4 & Hy & Hturn). exists y, s3, s4. split; [by right|done].
Qed.

Lemma with_rule_inv rule_id source source_type ip rule body s l s' :
  with_rule json_loads rule_id (Some source) (Some source_type) (Some ip) (Some rule) body s = (Ok l, s') ->
  l = [] /\ current s' = current s \/ exists s1, current s1 = current s /\ body rule source source_type ip s1 = (Ok l, s').
Proof.
  unfold with_rule, prepare_rule_evaluation. destruct (negb _); [intros [= <- <-]; left; done|].
  intros (o & s1 & Ho & H)%bind_ok_inv. apply bind_ok_inv in Ho as (r & s2 & [= <- <-] & [= <- <-]).
  destruct (er_active rule); [|injection H as <- <-; left; done]. cbn in H. right. exists s. split; [done|exact H].
Qed.

(** ** Buckets *)

(** Changing the entry of a key. *)
Lemma upsert_in {K B} `{EqDecision K} (key : K) (fresh : B) change d k b :
  NoDup (map fst d) -> (k, b) ∈ upsert key fresh change d ->
  k <> key /\ (k, b) ∈ d \/ k = key /\ (b = change fresh /\ key ∉ map fst d \/ exists b0, (key, b0) ∈ d /\ b = change b0).
Proof.
  induction d as [|[k' b'] d IH]; cbn; intros Hnd Hin.
  { apply list_elem_of_singleton in Hin as [= -> ->]. right. split; [done|]. left. split; [done|]. apply not_elem_of_nil. }
  apply NoDup_cons in Hnd as [Hk' Hnd]. destruct (decide (k' = key)) as [->|Hne].
  - apply elem_of_cons in Hin as [[= -> ->]|Hin].
    + right. split; [done|]. right. exists b'. split; [left|done].
    + left. split; [|by right]. intros ->. apply Hk', list_elem_of_fmap. by exists (key, b).
  - apply elem_of_cons in Hin as [[= -> ->]|Hin]; [left; split; [done|left]|].
    destruct (IH Hnd Hin) as [[? ?]|[-> [[-> Hn]|(b0 & Hb & ->)]]].
    + left. split; [done|by right].
    + right. split; [done|]. left. split; [done|]. by apply not_elem_of_cons.
    + right. split; [done|]. right. exists b0. split; [by right|done].
Qed.

Lemma upsert_keys {K B} `{EqDecision K} (key : K) (fresh : B) change d :
  map fst (upsert key fresh change d) = if decide (key ∈ map fst d) then map fst d else map fst d ++ [key].
Proof.
  induction d as [|[k b] d IH]; cbn; [by destruct (decide _) as [[]%not_elem_of_nil|]|].
  destruct (decide (k = key)) as [->|Hne]; cbn.
  - rewrite decide_True by left. done.
  - rewrite IH. destruct (decide (key ∈ map fst d)) as [Hin|Hout].
    + rewrite decide_True by (by right). done.
    + rewrite decide_False by (rewrite elem_of_cons; intros [->|?]; done). done.
Qed.

Lemma upsert_nodup {K B} `{EqDecision K} (key : K) (fresh : B) change d : NoDup (map fst d) -> NoDup (map fst (upsert key fresh change d)).
Proof.
  intros Hnd. rewrite upsert_keys. destruct (decide _) as [|Hout]; [done|]. apply NoDup_app. split_and!; [done| |apply NoDup_singleton].
  intros x Hx ->%list_elem_of_singleton. done.
Qed.

(** What a bucket holds of the events of its key. *)
Definition of_key (key : deny_key) : list event_row -> list event_row := List.filter (fun e => bool_decide (deny_key_of pg e = key)).

Abbreviation classify e := (classify_pfsense_event_traffic_role protected (PDict (dict_or_empty (ev_raw_payload e)))).

Record covers (events : list event_row) (key : deny_key) (b : deny_bucket) : Prop := Covers {
  co_count : db_event_count b = Z.of_nat (length (of_key key events));
  co_roles : Forall2 (fun e c => classify e = Ok c) (of_key key events) (db_classifications b);
  co_sample : (fun e => PDict (dict_or_empty (ev_raw_payload e))) <$> head (of_key key events) = Some (db_sample_payload b);
}.

Definition buckets_cover (events : list event_row) (grouped : list (deny_key * deny_bucket)) : Prop :=
  NoDup (map fst grouped) /\ (forall key b, (key, b) ∈ grouped -> covers events key b) /\
  forall key, key ∉ map fst grouped -> of_key key events = [].

Lemma of_key_snoc key events e :
  of_key key (events ++ [e]) = if decide (deny_key_of pg e = key) then of_key key events ++ [e] else of_key key events.
Proof.
  unfold of_key. rewrite List.filter_app. cbn. case_bool_decide; destruct (decide _); try done. by rewrite app_nil_r.
Qed.

Lemma deny_buckets_cover events grouped grouped' done_ :
  deny_buckets pg protected events grouped = Ok grouped' -> buckets_cover done_ grouped -> buckets_cover (done_ ++ events) grouped'.
Proof.
  revert grouped done_. induction events as [|e events IH]; intros grouped done_; cbn [deny_buckets].
  { intros [= <-]. by rewrite app_nil_r. }
  destruct (classify e) as [role|] eqn:Hrole; cbn [obind]; [|done]. intros H (Hnd & Hin & Hout).
  rewrite cons_middle, (assoc_L (++)). eapply IH; [exact H|]. split_and!; [by apply upsert_nodup| |].
  - intros key b Hb. apply upsert_in in Hb as [[Hne Hb]|[-> [[-> Hn]|(b0 & Hb & ->)]]]; [| | |done].
    + destruct (Hin _ _ Hb) as [H1 H2 H3]. split; rewrite of_key_snoc, decide_False by done; done.
    + split; rewrite of_key_snoc, decide_True, (Hout _ Hn) by done; cbn; [done| |done]. by repeat constructor.
    + destruct (Hin _ _ Hb) as [H1 H2 H3]. split; rewrite of_key_snoc, decide_True by done; cbn.
      * rewrite length_app, H1. cbn. lia.
      * apply Forall2_app; [done|]. by repeat constructor.
      * destruct (of_key _ done_); [done|]. exact H3.
  - intros key Hkey. rewrite upsert_keys in Hkey. rewrite of_key_snoc.
    destruct (decide (deny_key_of pg e ∈ map fst grouped)) as [Hi|Hi].
    + rewrite decide_False; [by apply Hout|]. by intros <-.
    + apply not_elem_of_app in Hkey as [Hk1 Hk2]. rewrite decide_False; [by apply Hout|]. intros <-. apply Hk2. left.
Qed.

(** ** Containment for repeated denies *)

Definition protected_host (e : event_row) : bool :=
  match dict_or_empty (ev_raw_payload e), classify e with _ :: _, Ok c => tc_source_is_protected c | _, _ => false end.
Definition has_role (role : packet_role) (e : event_row) : bool :=
  match classify e with Ok c => bool_decide (tc_classification c = role) | Raise _ => false end.

Lemma role_count_spec role events classes :
  Forall2 (fun e c => classify e = Ok c) events classes -> role_count role classes = Z.of_nat (length (List.filter (has_role role) events)).
Proof.
  intros H. unfold role_count. f_equal. induction H as [|e c events classes Hc _ IH]; [done|]. cbn. unfold has_role at 1. rewrite Hc.
  destruct (bool_decide _); cbn; by rewrite IH.
Qed.

Lemma summary_spec classes sample role : summarize_pfsense_traffic_roles protected classes sample = Ok role ->
  ts_initiation role = role_count InitiationLike classes /\
  ts_source_is_protected role =
    match dict_or_empty sample, classify_pfsense_event_traffic_role protected (PDict (dict_or_empty sample)) with
    | _ :: _, Ok c => tc_source_is_protected c | _, _ => false
    end.
Proof.
  unfold summarize_pfsense_traffic_roles. destruct (if _ : bool then (InitiationLike, _) else _ : packet_role * string) as [r reason].
  destruct (parse_port _); cbn [obind]; [|done]. destruct (parse_port _); cbn [obind]; [|done].
  destruct (dict_or_empty sample) as [|kv d]; [by intros [= <-]|]. rewrite bool_decide_eq_false_2 by done.
  destruct (classify_pfsense_event_traffic_role protected _) as [c|]; cbn [obind]; [|done]. by intros [= <-].
Qed.

Lemma insert_firewall_inv alert_type sev event_type source source_type ip message action r context detail s d s' : plain detail ->
  insert_firewall_alert pg alert_type sev event_type source source_type ip message action r context detail s = (Ok d, s' : detection W) ->
  dget d "response_action" = PStr action /\ dget d "severity" = PStr (severity_text sev).
Proof.
  intros Hd. unfold insert_firewall_alert. intros (l & s1 & _ & H)%bind_ok_inv. apply bind_ok_inv in H as (i & s2 & _ & [= <- _]).
  by destruct Hd as [->|(k & v & -> & [-> | ->])].
Qed.

Lemma repeated_deny_turn_inv threshold source source_type key b s alert s' :
  raise_repeated_deny pg api_key abuseipdb protected threshold source source_type (key, b) s = (Ok (Some alert), s' : detection W) ->
  dget alert "response_action" = PStr "block_ip" ->
  threshold <= db_event_count b /\ dk_direction key = Some "out" /\ exists role,
    summarize_pfsense_traffic_roles protected (db_classifications b) (db_sample_payload b) = Ok role /\
    (ts_source_is_protected role = true -> threshold <= ts_initiation role).
Proof.
  unfold raise_repeated_deny. destruct (_ <? _) eqn:Hn; [done|]. apply Z.ltb_ge in Hn.
  intros (dup & s1 & _ & H)%bind_ok_inv. destruct dup; [done|]. apply bind_ok_inv in H as (r & s2 & _ & H).
  apply outcome_inv in H as (role & Hrole & H). apply bind_ok_inv in H as (cool & s3 & _ & H). destruct cool; [done|].
  apply outcome_inv in H as (port & _ & H). apply outcome_inv in H as (sig & _ & H). apply bind_ok_inv in H as (a & s4 & H & [= -> _]).
  apply insert_firewall_inv in H as [-> _]; [|right; eauto]. intros [= Hact]. split; [done|].
  set (sev := pfsense_repeated_deny_severity _ _ _ _ _ _) in Hact. unfold pfsense_response_action_for_severity, build_pfsense_operational_flags in Hact.
  cbn [of_containment_eligible] in Hact. destruct (is_high sev) eqn:Hhigh; [|by destruct (is_medium sev)].
  destruct (bool_decide (dk_direction key = Some "out")) eqn:Hout; [|by destruct (is_medium sev)]. split; [by apply bool_decide_eq_true in Hout|].
  exists role. split; [done|]. intros Hp. unfold sev, pfsense_repeated_deny_severity in Hhigh. rewrite Hp in Hhigh. cbn [andb] in Hhigh.
  unfold reaches in Hhigh. destruct (negb _ && _) eqn:E; [apply andb_true_iff in E as [_ E%Z.leb_le]; lia|].
  by destruct (0 <? _); [|destruct (0 <? _)].
Qed.

(** C16: containment for repeated denies.  An alert of the rule asks for
    block_ip only when the denied packets went out, at least the threshold of
    them to one destination, port, protocol and interface in the window; and
    when the first of them shows a protected host as their source, at least
    the threshold of them started a connection (a SYN without an ACK).  The
    dropped replies of a protected server never get it blocked. *)
Theorem repeated_deny_containment source source_type ip rule s alerts alert :
  (repeated_deny_core pg json_loads api_key abuseipdb protected (Some source) (Some source_type) (Some ip) (Some rule) s : _ * detection W).1 = Ok alerts ->
  alert ∈ alerts -> dget alert "response_action" = PStr "block_ip" ->
  exists a threshold window key e group, pg_inet pg ip = Some a /\
    rule_parameter rule "threshold" = Ok threshold /\ rule_parameter rule "window_minutes" = Ok window /\
    of_key key (window_events oldest_first ["firewall_block"] source source_type a window (current s)) = e :: group /\
    dk_direction key = Some "out" /\ threshold <= Z.of_nat (length (e :: group)) /\
    (protected_host e = true -> threshold <= Z.of_nat (length (List.filter (has_role InitiationLike) (e :: group)))).
Proof.
  intros [s' Hrun]%ok_pair Hin Hblock.
  apply with_rule_inv in Hrun as [[-> _]|(s1 & Hs1 & H)]; [by apply not_elem_of_nil in Hin|].
  apply outcome_inv in H as (threshold & Ht & H). apply outcome_inv in H as (window & Hw & H).
  eapply read_inv in H as (events & s2 & Hs2 & Hev & H); [|apply events_selected]. destruct Hev as (a & Ha & ->).
  apply outcome_inv in H as (grouped & Hg & H). eapply raise_alerts_inv in H as ([key b] & s3 & s4 & Hx & Hturn); [|exact Hin].
  rewrite Hs1 in Hg. eapply (deny_buckets_cover _ _ _ []) in Hg as (_ & Hcov & _).
  2: { split_and!; [constructor| |done]. by intros ? ? []%not_elem_of_nil. }
  destruct (Hcov _ _ Hx) as [Hcount Hroles Hsample]. cbn [app] in *.
  apply repeated_deny_turn_inv in Hturn as (Hn & Hout & role & Hrole & Hp); [|done].
  destruct (of_key key _) as [|e group] eqn:Hgroup; [done|]. exists a, threshold, window, key, e, group.
  split_and!; [done..|by rewrite <- Hcount|]. intros He. apply summary_spec in Hrole as [Hi Hprot].
  rewrite <- (role_count_spec _ _ _ Hroles), <- Hi. apply Hp. rewrite Hprot. injection Hsample as <-. exact He.
Qed.

(** ** Silence *)

(** Turns that stay silent, whatever changes that is no change of the
    tables. *)
Definition silent {A} (turn : A -> M (detection W) (option pydict)) s x : Prop :=
  forall s1 o s2, current s1 = current s -> turn x s1 = (Ok o, s2) -> o = None.

Lemma silent_alerts {A} types (turn : A -> M (detection W) (option pydict)) l s s1 alerts s' :
  (forall x, raises (names_one pg) types (turn x)) -> (forall x, x ∈ l -> silent turn s x) -> current s1 = current s ->
  raise_alerts turn l s1 = (Ok alerts, s') -> alerts = [] /\ current s' = current s.
Proof.
  intros Hr. revert s1 alerts. induction l as [|x l IH]; intros s1 alerts Hl Hs1; cbn [raise_alerts]; [by intros [= <- <-]|].
  intros (o & s2 & Ht & H)%bind_ok_inv. apply bind_ok_inv in H as (rest & s3 & Hrest & [= <- <-]).
  assert (o = None) as -> by (eapply Hl; [left|exact Hs1|exact Ht]).
  destruct (Hr x s1) as [_ (new & Hnew & Hann)]. rewrite Ht in Hnew, Hann. cbn [fst snd] in *. specialize (Hann _ eq_refl).
  destruct new as [|r new]; [|done]. inversion Hnew. refine (IH s2 rest _ _ Hrest); [|congruence]. intros y Hy. apply Hl. by right.
Qed.

#[local] Ltac walk H :=
  let x := fresh "x" in let s' := fresh "s" in let Hs := fresh "Hs" in
  eapply read_inv in H as (x & s' & Hs & _ & H);
  [|first [apply reads_reputation | apply reads_outcome_any | apply cooldown_reads | apply denies_read | apply sensitive_ports_read
          | apply firewall_events_read | apply open_test_reads | apply open_of_types_reads]]; cbn beta in H.

(** The candidates are not critical. *)
Lemma port_scan_rank pc dc t h score sev : pfsense_port_scan_severity pc dc t h score = Ok sev -> severity_index sev <= 2.
Proof.
  unfold pfsense_port_scan_severity. destruct (_ || _); [intros [= <-]; cbn; lia|]. destruct (high_reputation score) as [b|]; cbn [obind]; [|done].
  intros [= <-]. destruct (_ && _); cbn; lia.
Qed.

Lemma repeated_deny_rank count t out prot i r : severity_index (pfsense_repeated_deny_severity count t out prot i r) <= 2.
Proof. unfold pfsense_repeated_deny_severity. repeat (destruct (_ : bool)); cbn; lia. Qed.

Lemma suspicious_allow_rank n p rt pt score sev : pfsense_suspicious_allow_severity n p rt pt score = Ok sev -> severity_index sev <= 2.
Proof.
  unfold pfsense_suspicious_allow_severity. destruct (_ <=? _); [intros [= <-]; cbn; lia|]. destruct (_ <=? _); [intros [= <-]; cbn; lia|].
  destruct (high_reputation score) as [b|]; cbn [obind]; [|done]. intros [= <-]. destruct (_ && _); cbn; lia.
Qed.

Lemma rank_index sev : pfsense_severity_rank (severity_text sev) = severity_index sev.
Proof. by destruct sev. Qed.

(** The alert of the type whose resolution in the last hour is the newest. *)
Definition last_resolved (d : siem_db) (a alert_type : string) (r : alert_row) : Prop :=
  exists i x, sd_audit d !! i = Some x /\ closes pg d a alert_type x = Some r /\
    forall j y r', sd_audit d !! j = Some y -> closes pg d a alert_type y = Some r' ->
      au_created_at y <= au_created_at x /\ (au_created_at y = au_created_at x -> r' = r).

Lemma last_resolved_read a alert_type r d : pg_inet pg a = Some a -> last_resolved d a alert_type r -> last_closed pg a alert_type d = (Ok (Some r), d).
Proof.
  intros Ha (i & x & Hx & Hr & Hmax). unfold last_closed, inet_parameter. rewrite Ha.
  destruct (select_one _ _ _) as [[j y]|] eqn:Es.
  - apply select_one_Some in Es as (Hy & Hyr & Hmin). cbn [snd]. unfold has_value in Hyr.
    destruct (closes pg d a alert_type y) as [r'|] eqn:Hr'; [|done]. do 3 f_equal.
    destruct (Hmax _ _ _ Hy Hr') as [Hle Heq]. apply Heq. specialize (Hmin i x Hx). rewrite Hr in Hmin. specialize (Hmin eq_refl). cbn in Hmin. lia.
  - rewrite select_one_None in Es. specialize (Es i x Hx). by rewrite Hr in Es.
Qed.

Lemma cooldown_value a alert_type r sev s b s' : pg_inet pg a = Some a -> last_resolved (current s) a alert_type r ->
  pfsense_cooldown_suppresses pg a alert_type sev s = (Ok b, s' : detection W) -> b = (severity_index sev <=? pfsense_severity_rank (al_severity r)).
Proof.
  intros Ha Hr. unfold pfsense_cooldown_suppresses. intros (o & s1 & Ho & H)%bind_ok_inv. injection H as <- <-.
  unfold sql, on_conn, zoom, Tables.execute in Ho. destruct (cn_aborted (dn_conn s)); [done|].
  unfold current in Hr. rewrite (last_resolved_read _ _ _ _ Ha Hr) in Ho. injection Ho as <- <-. by rewrite rank_index.
Qed.

(** An address resolved at high or above: no candidate gets through. *)
Definition cooling s a alert_type : Prop :=
  forall sev s1 b s2, severity_index sev <= 2 -> current s1 = current s -> pfsense_cooldown_suppresses pg a alert_type sev s1 = (Ok b, s2) -> b = true.

Lemma resolved_cooling s a alert_type r : pg_inet pg a = Some a -> last_resolved (current s) a alert_type r ->
  al_severity r ∈ ["high"; "critical"] -> cooling s a alert_type.
Proof.
  intros Ha Hr Hsev sev s1 b s2 Hi Hs1 H. rewrite <- Hs1 in Hr. rewrite (cooldown_value _ _ _ _ _ _ _ Ha Hr H).
  apply Z.leb_le. assert (2 <= pfsense_severity_rank (al_severity r)); [|lia].
  by repeat (apply elem_of_cons in Hsev as [->|Hsev]; [vm_compute|]); [..|apply not_elem_of_nil in Hsev].
Qed.

#[local] Ltac cooled H Hc Hb :=
  apply bind_ok_inv in H as (? & ? & Hb & H); apply Hc in Hb as ->; [by injection H as <- _| |congruence].

Lemma repeated_deny_silent threshold source source_type s a x : cooling s a REPEATED_DENY -> dk_source_ip x.1 = a ->
  silent (raise_repeated_deny pg api_key abuseipdb protected threshold source source_type) s x.
Proof.
  intros Hc Ha s1 o s2 Hs1 H. destruct x as [key b]. cbn in Ha. unfold raise_repeated_deny in H. destruct (_ <? _); [by injection H as <- _|].
  rewrite Ha in H. walk H. destruct x; [by injection H as <- _|]. do 2 walk H. cooled H Hc Hb. apply repeated_deny_rank.
Qed.

Lemma port_scan_silent threshold host_threshold source source_type s a x : cooling s a PORT_SCAN -> x.1 = a ->
  silent (raise_port_scan pg api_key abuseipdb protected threshold host_threshold source source_type) s x.
Proof.
  intros Hc Ha s1 o s2 Hs1 H. destruct x as [ip b]. cbn in Ha. unfold raise_port_scan in H. destruct (_ && _); [by injection H as <- _|].
  subst ip. do 2 walk H. destruct x0; [by injection H as <- _|]. do 2 walk H. apply outcome_inv in H as (sev & Hsev & H).
  cooled H Hc Hb. by eapply port_scan_rank.
Qed.

Lemma suspicious_allow_silent rt pt source source_type s a x : cooling s a SUSPICIOUS_ALLOW -> x.1 = a ->
  silent (raise_suspicious_allow pg api_key abuseipdb rt pt source source_type) s x.
Proof.
  intros Hc Ha s1 o s2 Hs1 H. destruct x as [ip [|e group]]; cbn in Ha; unfold raise_suspicious_allow in H; [by injection H as <- _|].
  subst ip. walk H. destruct x; [by injection H as <- _|]. walk H. apply outcome_inv in H as (sev & Hsev & H).
  cooled H Hc Hb. by eapply suspicious_allow_rank.
Qed.

Lemma progression_rank minimum high ports g port denies p : progression_of pg minimum high ports g port denies = Some p -> severity_index (pr_severity p) <= 2.
Proof.
  unfold progression_of. destruct (_ <? _); [done|]. destruct (high <=? _); [|intros [= <-]; cbn; lia].
  destruct (high <=? _); [intros [= <-]; cbn; lia|]. destruct (bool_decide _); intros [= <-]; cbn; lia.
Qed.

Lemma allow_after_deny_silent minimum high window ports source source_type s a g : cooling s a ALLOW_AFTER_DENY -> ak_source_ip (ag_key g) = a ->
  silent (raise_allow_after_deny pg api_key abuseipdb minimum high window ports source source_type) s g.
Proof.
  intros Hc Ha s1 o s2 Hs1 H. unfold raise_allow_after_deny in H. rewrite Ha in H. walk H. destruct x as [port|]; [|by injection H as <- _].
  destruct (protected_range_key _); [|by injection H as <- _]. walk H. destruct x; [by injection H as <- _|].
  walk H. destruct (progression_of _ _ _ _ _ _ _) as [p|] eqn:Hp; [|by injection H as <- _]. cooled H Hc Hb. by eapply progression_rank.
Qed.

Lemma noisy_source_cooled source source_type s a x : cooling s a NOISY_SOURCE -> x.1 = a ->
  silent (raise_noisy_source pg text_le api_key abuseipdb source source_type) s x.
Proof.
  intros Hc Ha s1 o s2 Hs1 H. destruct x as [ip group]. cbn in Ha. unfold raise_noisy_source in H. subst ip.
  walk H. destruct x; [by injection H as <- _|]. cooled H Hc Hb. cbn. lia.
Qed.

(** ** The rows are of the address asked for *)

Definition all_from (a : string) (events : list event_row) : Prop := forall e, e ∈ events -> ev_source_ip e = a.

Lemma window_events_from key types source source_type a window d : all_from a (window_events key types source source_type a window d).
Proof. intros e. apply window_events_address. Qed.

Lemma filtered_from a p events : all_from a events -> all_from a (List.filter p events).
Proof. intros H e [He _]%list_elem_of_In%filter_In. apply H. by apply list_elem_of_In. Qed.

Lemma deny_buckets_from a events grouped key b : all_from a events -> deny_buckets pg protected events [] = Ok grouped ->
  (key, b) ∈ grouped -> dk_source_ip key = a.
Proof.
  intros Hall Hg Hin. eapply (deny_buckets_cover _ _ _ []) in Hg as (_ & Hcov & _).
  2: { split_and!; [constructor| |done]. by intros ? ? []%not_elem_of_nil. }
  destruct (Hcov _ _ Hin) as [_ _ Hs]. destruct (of_key key _) as [|e group] eqn:Hk; [done|].
  assert (e ∈ of_key key events) as He by (cbn [app] in Hk; rewrite Hk; left).
  apply list_elem_of_In, filter_In in He as [He <-%bool_decide_eq_true]. apply Hall. by apply list_elem_of_In.
Qed.

Lemma scan_buckets_from a events grouped grouped' : all_from a events -> scan_buckets pg protected events grouped = Ok grouped' ->
  (forall k, k ∈ map fst grouped -> k = a) -> forall k, k ∈ map fst grouped' -> k = a.
Proof.
  revert grouped. induction events as [|e events IH]; intros grouped Hall; cbn [scan_buckets]; [by intros [= <-]|].
  assert (all_from a events) as Hall' by (intros x Hx; apply Hall; by right).
  destruct (parse_port _) as [[port|]|]; cbn [obind]; [|by apply IH|done].
  destruct (classify e) as [role|]; cbn [obind]; [|done]. destruct (not_scanning _ _ _); [by apply IH|].
  intros H Hk. eapply IH; [done|exact H|]. intros k. rewrite upsert_keys. destruct (decide _); [by apply Hk|].
  intros [Hin|Hin]%elem_of_app; [by apply Hk|]. apply list_elem_of_singleton in Hin as ->. apply Hall. left.
Qed.

Lemma groups_from a events g : all_from a events -> g ∈ by_source_ip events -> g.1 = a.
Proof.
  intros Hall (ip & -> & Hip)%list_elem_of_fmap. rewrite elem_of_remove_dups in Hip. apply list_elem_of_fmap in Hip as (e & -> & He). by apply Hall.
Qed.

Lemma allow_groups_from a events g : all_from a events -> g ∈ allow_groups pg events -> ak_source_ip (ag_key g) = a.
Proof.
  intros Hall (x & -> & Hx)%list_elem_of_fmap. cbn. apply (list_elem_of_fmap_2 fst) in Hx. revert Hx.
  match goal with |- context [foldl ?f [] events] =>
    enough (forall d, (forall k, k ∈ map fst d -> ak_source_ip k = a) -> forall k, k ∈ map fst (foldl f d events) -> ak_source_ip k = a) as H
      by (apply H; intros ? []%not_elem_of_nil) end.
  induction events as [|e events IH]; intros d Hd; cbn [foldl]; [done|]. apply IH; [intros y Hy; apply Hall; by right|].
  intros k. rewrite upsert_keys. destruct (decide _); [by apply Hd|].
  intros [Hin|Hin]%elem_of_app; [by apply Hd|]. apply list_elem_of_singleton in Hin as ->. cbn. apply Hall. left.
Qed.

(** ** Quiet after a resolution *)

(** The five detectors by their alert types. *)
Definition firewall_cores : list (string * detector_core W) :=
  [(REPEATED_DENY, repeated_deny_core pg json_loads api_key abuseipdb protected);
   (PORT_SCAN, port_scan_core pg json_loads api_key abuseipdb protected);
   (SUSPICIOUS_ALLOW, suspicious_allow_core pg text_le json_loads api_key abuseipdb);
   (ALLOW_AFTER_DENY, allow_after_deny_core pg text_le json_loads api_key abuseipdb returned);
   (NOISY_SOURCE, noisy_source_core pg text_le json_loads api_key abuseipdb)].

(** The events of a statement on the address. *)
#[local] Ltac selected H :=
  let l := fresh "events" in let s' := fresh "s" in let Hs := fresh "Hs" in let He := fresh "He" in let b := fresh "b" in let Hb := fresh "Hb" in
  eapply read_inv in H as (l & s' & Hs & He & H); [|apply events_selected]; destruct He as (b & Hb & ->); simplify_eq.

(** C17: quiet after a resolution.  When an alert of the type for the address
    was resolved in the last hour with high or critical severity (the newest
    resolution counts), the detector of that type raises nothing for it and
    leaves the tables as they were, however many events come in: no
    candidate of a firewall detector is graver than high. *)
Theorem resolved_stays_quiet alert_type core source source_type ip a r rule s alerts :
  (alert_type, core) ∈ firewall_cores -> (forall l, returned l ≡ₚ l) ->
  pg_inet pg ip = Some a -> pg_inet pg a = Some a ->
  last_resolved (current s) a alert_type r -> al_severity r ∈ ["high"; "critical"] ->
  (core (Some source) (Some source_type) (Some ip) (Some rule) s).1 = Ok alerts ->
  alerts = [] /\ current (core (Some source) (Some source_type) (Some ip) (Some rule) s).2 = current s.
Proof.
  intros Hcore Hperm Hip Ha Hr Hsev. pose proof (resolved_cooling s a alert_type r Ha Hr Hsev) as Hc. clear Hr Hsev r.
  intros [s' Hrun]%ok_pair. rewrite Hrun. cbn [snd]. unfold firewall_cores in Hcore.
  repeat (apply elem_of_cons in Hcore as [[= -> ->]|Hcore]); [..|by apply not_elem_of_nil in Hcore];
    (apply with_rule_inv in Hrun as [[-> Hs]|(s1 & Hs1 & H)]; [done|]).
  - apply outcome_inv in H as (t & _ & H). apply outcome_inv in H as (w & _ & H). selected H.
    apply outcome_inv in H as (grouped & Hg & H). eapply (silent_alerts _ _ _ _ _ _ _ (repeated_deny_turn _ _ _)) in H; [exact H| |congruence].
    intros [key b] Hx. eapply repeated_deny_silent; [exact Hc|]. by eapply (deny_buckets_from a); [apply window_events_from|exact Hg|exact Hx].
  - apply outcome_inv in H as (t & _ & H). apply outcome_inv in H as (w & _ & H). selected H.
    apply outcome_inv in H as (grouped & Hg & H). eapply (silent_alerts _ _ _ _ _ _ _ (port_scan_turn _ _ _ _)) in H; [exact H| |congruence].
    intros x Hx. eapply port_scan_silent; [exact Hc|]. eapply (scan_buckets_from a); [apply window_events_from|exact Hg|by intros ? []%not_elem_of_nil|].
    by apply list_elem_of_fmap_2.
  - apply outcome_inv in H as (t & _ & H). apply outcome_inv in H as (w & _ & H). walk H. selected H.
    eapply (silent_alerts _ _ _ _ _ _ _ (suspicious_allow_turn _ _ _ _)) in H; [exact H| |congruence].
    intros g [Hg _]%list_elem_of_In%filter_In. eapply suspicious_allow_silent; [exact Hc|].
    eapply groups_from; [apply filtered_from, window_events_from|]. by apply list_elem_of_In.
  - do 3 (apply outcome_inv in H as (? & _ & H)). walk H. selected H.
    eapply (silent_alerts _ _ _ _ _ _ _ (allow_after_deny_turn _ _ _ _ _ _)) in H; [exact H| |congruence].
    intros g Hg. rewrite Hperm in Hg. eapply allow_after_deny_silent; [exact Hc|]. eapply allow_groups_from; [|exact Hg]. apply filtered_from, window_events_from.
  - apply outcome_inv in H as (t & _ & H). apply outcome_inv in H as (w & _ & H). selected H.
    eapply (silent_alerts _ _ _ _ _ _ _ (noisy_source_turn _ _)) in H; [exact H| |congruence].
    intros g [Hg _]%list_elem_of_In%filter_In. eapply noisy_source_cooled; [exact Hc|].
    eapply groups_from; [apply window_events_from|]. by apply list_elem_of_In.
Qed.

(** ** The last resort *)

(** noise yields to detections.  While an alert of any of the five
    firewall types is open for the address, the noisy-source detector raises
    nothing for it and leaves the tables as they were. *)
Theorem noisy_source_yields source source_type ip a i r rule s alerts :
  pg_inet pg ip = Some a -> pg_inet pg a = Some a ->
  sd_alerts (current s) !! i = Some r -> al_status r = "open" -> al_source_ip r = a ->
  al_alert_type r ∈ ["pfsense_firewall_repeated_deny"; "pfsense_firewall_port_scan"; "pfsense_firewall_suspicious_allow";
                     "pfsense_firewall_allow_after_deny"; "pfsense_firewall_noisy_source"] ->
  let run := noisy_source_core pg text_le json_loads api_key abuseipdb (Some source) (Some source_type) (Some ip) (Some rule) s in
  run.1 = Ok alerts -> alerts = [] /\ current run.2 = current s.
Proof.
  intros Hip Ha Hi Ho Hr Hty run [s' Hrun]%ok_pair. unfold run in *. rewrite Hrun. cbn [snd].
  apply with_rule_inv in Hrun as [[-> Hs]|(s1 & Hs1 & H)]; [done|].
  apply outcome_inv in H as (t & _ & H). apply outcome_inv in H as (w & _ & H). selected H.
  eapply (silent_alerts _ _ _ _ _ _ _ (noisy_source_turn _ _)) in H; [exact H| |congruence].
  intros [g group] [Hg _]%list_elem_of_In%filter_In. apply list_elem_of_In in Hg.
  apply (groups_from (al_source_ip r)) in Hg; [|apply window_events_from]. cbn [fst] in Hg. subst g.
  intros s2 o s3 Hs2 H2. unfold raise_noisy_source in H2.
  eapply read_inv in H2 as (dup & s4 & Hs4 & Hdup & H2); [|apply open_of_types_reads]. destruct dup; [by injection H2 as <- _|].
  rewrite Hs2 in Hdup. specialize (Hdup (al_alert_type r) Hty eq_refl _ Ha i r Hi). by rewrite open_alert_self in Hdup.
Qed.

(** ** An allow after denies *)

(** What the database and the provider answer for an alert of [a]. *)
Record takes_alert s (event_type source source_type a : string) (r : reputation) (later : lookups W) (score : Z) (l : location) : Prop := TakesAlert {
  ta_alive : cn_aborted (dn_conn s) = false;
  ta_inet : pg_inet pg a = Some a;
  ta_lookup : lookup_ip_reputation api_key abuseipdb a (dn_lookups s) = (Ok r, later);
  ta_score : pg_int4 pg (rp_score r) = Some score;
  ta_location : (fetch_latest_location pg [event_type] source source_type a (current s)).1 = Ok l;
  ta_id : int4 (sd_alert_seq (current s)) = true;
  ta_jsonb : forall d, exists v, pg_jsonb pg (PDict d) = Ok v;
}.

Definition firewall_row (alert_type : string) (sev : severity) (source source_type a message action : string) (r : reputation)
    (score : Z) (l : location) (context : pyval) : alert_row :=
  AlertRow alert_type (severity_text sev) a (Some source) (Some source_type) message "open" action "pending"
    (lo_country l) (lo_city l) (lo_latitude l) (lo_longitude l) score (rp_label r) (rp_source r) (rp_summary r) context (pg_now pg).

Lemma insert_firewall_run s event_type source source_type a r later score l alert_type sev message action context detail :
  takes_alert s event_type source source_type a r later score l ->
  exists v, pg_jsonb pg (PDict context) = Ok v /\
    insert_firewall_alert pg alert_type sev event_type source source_type a message action r context detail (Detection (dn_conn s) later) =
    (Ok ([("source_ip", PStr a)] ++ detail ++
         [("alert_id", PInt (sd_alert_seq (current s))); ("alert_type", PStr alert_type); ("response_action", PStr action);
          ("severity", PStr (severity_text sev))]),
     Detection (Conn (cn_committed (dn_conn s)) (add_alert (firewall_row alert_type sev source source_type a message action r score l v) (current s)) false) later).
Proof.
  intros [Ha Hi Hl Hs Hloc Hid Hj]. destruct (Hj context) as [v Hv]. exists v. split; [done|]. unfold insert_firewall_alert.
  set (s1 := Detection (dn_conn s) later).
  assert (fetch_latest_location pg [event_type] source source_type a (current s1) = (Ok l, current s1)) as Hf.
  { change (current s1) with (current s). revert Hloc. unfold fetch_latest_location, inet_parameter. rewrite Hi. destruct (newest _ _); cbn; by intros ->. }
  rewrite (bind_ok _ _ s1 l s1) by exact (sql_read _ s1 l Ha Hf).
  erewrite bind_ok; [reflexivity|]. eapply (sql_run _ s1); [done|]. unfold insert_alert, inet_parameter. rewrite Hi, Hs, Hv.
  change (sd_alert_seq (current s1)) with (sd_alert_seq (current s)). rewrite Hid. reflexivity.
Qed.

(** The alert of the type whose resolution in the last hour is the newest,
    if there is one. *)
Definition newest_resolution s (a alert_type : string) (res : option alert_row) : Prop :=
  match res with
  | Some r => last_resolved (current s) a alert_type r
  | None => forall i x, sd_audit (current s) !! i = Some x -> closes pg (current s) a alert_type x = None
  end.

(** It was at least as severe as the candidate. *)
Definition cools (sev : severity) (res : option alert_row) : bool :=
  match res with Some r => severity_index sev <=? pfsense_severity_rank (al_severity r) | None => false end.

Lemma cooldown_run s a alert_type sev res : cn_aborted (dn_conn s) = false -> pg_inet pg a = Some a -> newest_resolution s a alert_type res ->
  pfsense_cooldown_suppresses pg a alert_type sev s = (Ok (cools sev res), s).
Proof.
  intros Ha Hi Hn. unfold pfsense_cooldown_suppresses. rewrite (bind_ok _ _ s res s); [by destruct res as [r|]; [cbn; rewrite rank_index|]|].
  apply sql_read; [done|]. destruct res as [r|]; [by apply last_resolved_read|]. unfold last_closed, inet_parameter. rewrite Hi.
  destruct (select_one _ _ _) as [[j y]|] eqn:Es; [|done]. apply select_one_Some in Es as (Hy & Hp & _). by rewrite (Hn _ _ Hy) in Hp.
Qed.

Lemma no_open_run s a alert_type : cn_aborted (dn_conn s) = false -> pg_inet pg a = Some a ->
  sql (open_alert_exists pg a alert_type) s = (Ok (existsb (open_alert a alert_type) (rows (sd_alerts (current s)))), s).
Proof. intros Ha Hi. apply sql_read; [done|]. unfold open_alert_exists, inet_parameter. by rewrite Hi. Qed.

(** The blocked inbound events of an address for a protocol and port between
    two instants; their destination is open. *)
Definition denies_of_service (source source_type a protocol : string) (port from until : Z) (d : siem_db) : list event_row :=
  List.filter (fun e =>
      String.eqb (ev_event_type e) "firewall_block" && String.eqb (ev_source e) source && String.eqb (ev_source_type e) source_type &&
      String.eqb (ev_source_ip e) a && bool_decide (column pg "direction" e = Some "in") &&
      bool_decide (column pg "protocol" e = Some protocol) && bool_decide (column pg "destination_port" e = Some (str_int port)) &&
      (from <=? ev_created_at e) && (ev_created_at e <=? until)) (rows (sd_events d)).

Lemma denies_run source source_type a destination port_text protocol interface last count port window d : pg_inet pg a = Some a ->
  qualifying_denies pg source source_type (AllowGroup (AllowKey a destination port_text (Some protocol) interface) last count) port window d =
  (Ok (denies_of_service source source_type a protocol port (last - minutes window) last d), d).
Proof.
  intros Hi. unfold qualifying_denies, inet_parameter. cbn. rewrite Hi. do 2 f_equal. apply List.filter_ext. intros e.
  unfold denied_before, event_selected, inbound. cbn. unfold str_in. cbn [existsb]. rewrite orb_false_r.
  by destruct (String.eqb (ev_source_ip e) a), (String.eqb (ev_event_type e) _), (String.eqb (ev_source e) _), (String.eqb (ev_source_type e) _).
Qed.

Lemma progression_run minimum high ports g destination port denies : ak_destination_ip (ag_key g) = Some destination ->
  let n := Z.of_nat (length denies) in
  let exact := Z.of_nat (length (List.filter (fun e => bool_decide (column pg "destination_ip" e = Some destination)) denies)) in
  ((minimum <=? n) = false -> progression_of pg minimum high ports g port denies = None) /\
  ((minimum <=? n) = true -> exists p, progression_of pg minimum high ports g port denies = Some p /\
     pr_severity p = if (high <=? n) && ((high <=? exact) || bool_decide (port ∈ ports)) then High else Medium).
Proof.
  intros Hg n exact. unfold progression_of. fold n. rewrite Z.ltb_antisym.
  replace (List.filter (same_destination pg g) denies) with (List.filter (fun e => bool_decide (column pg "destination_ip" e = Some destination)) denies)
    by (apply List.filter_ext; intros e; unfold same_destination; by rewrite Hg).
  fold exact. split; intros ->; cbn [negb]; [done|].
  destruct (high <=? n), (high <=? exact), (bool_decide (port ∈ ports)); cbn [andb orb]; eexists; split; reflexivity.
Qed.

(** C18: an allow after denies.  For inbound allows of an address, on a
    live transaction that takes an alert, an alert is raised exactly when
    the destination lies in a network and the port is one, no alert of the
    type is open for the address, the firewall had, in the window that ends
    with the last allow, blocked at least the minimum of inbound packets of
    the address for that protocol and port, and no alert of the type as
    severe was the last the address had resolved within the hour.  The code
    counts the blocked packets to whatever destination, in the allowed one's
    network or not, where the rule's design document asks for the same
    network.  The alert is high when they reach the higher threshold and
    either enough of them had the very destination or the port is a
    sensitive one.  When none is raised, nothing changes. *)
Theorem allow_after_deny_exact source source_type s a destination port_text protocol interface last count minimum high window ports port
    r later score l res :
  parse_port (PStr port_text) = Ok port -> takes_alert s "firewall_allow" source source_type a r later score l ->
  newest_resolution s a "pfsense_firewall_allow_after_deny" res ->
  let open := existsb (open_alert a "pfsense_firewall_allow_after_deny") (rows (sd_alerts (current s))) in
  let run := raise_allow_after_deny pg api_key abuseipdb minimum high window ports source source_type
               (AllowGroup (AllowKey a (Some destination) (Some port_text) (Some protocol) interface) last count) s in
  match port, protected_range_key [PStr destination] with
  | Some port, Some _ =>
      let denies := denies_of_service source source_type a protocol port (last - minutes window) last (current s) in
      let n := Z.of_nat (length denies) in
      let exact := Z.of_nat (length (List.filter (fun e => bool_decide (column pg "destination_ip" e = Some destination)) denies)) in
      let sev := if (high <=? n) && ((high <=? exact) || bool_decide (port ∈ ports)) then High else Medium in
      let action := match sev with High => "block_ip" | _ => "enrich_source_ip" end in
      if negb open && (minimum <=? n) && negb (cools sev res)
      then exists message context,
        run = (Ok (Some [("source_ip", PStr a); ("alert_id", PInt (sd_alert_seq (current s)));
                         ("alert_type", PStr "pfsense_firewall_allow_after_deny"); ("response_action", PStr action);
                         ("severity", PStr (severity_text sev))]),
               Detection (Conn (cn_committed (dn_conn s))
                 (add_alert (firewall_row "pfsense_firewall_allow_after_deny" sev source source_type a message action r score l context) (current s))
                 false) later)
      else run = (Ok None, s)
  | _, _ => run = (Ok None, s)
  end.
Proof.
  intros Hport Hta Hres. pose proof (ta_alive _ _ _ _ _ _ _ _ _ Hta) as Ha. pose proof (ta_inet _ _ _ _ _ _ _ _ _ Hta) as Hi.
  cbv zeta. unfold raise_allow_after_deny. cbn [ag_key ak_source_ip ak_destination_ip ak_destination_port ak_protocol opt_text].
  rewrite Hport, (bind_ok _ _ s port s) by done. destruct port as [port|]; [|done]. destruct (protected_range_key _) as [range|]; [|done].
  set (denies := denies_of_service _ _ _ _ _ _ _ _). rewrite (bind_ok _ _ s _ s (no_open_run s a ALLOW_AFTER_DENY Ha Hi)). fold ALLOW_AFTER_DENY in *.
  destruct (existsb _ _); cbn [negb andb]; [done|].
  set (g := AllowGroup _ _ _). rewrite (bind_ok _ _ s denies s) by exact (sql_read _ s _ Ha (denies_run _ _ _ _ _ _ _ _ _ _ _ _ Hi)).
  destruct (progression_run minimum high ports g destination port denies eq_refl) as [Hfew Henough].
  destruct (minimum <=? _) eqn:Hn; cbn [negb andb]; [|by rewrite Hfew].
  destruct Henough as (p & -> & Hsev); [done|]. rewrite Hsev. set (sev := if _ && _ then High else Medium).
  rewrite (bind_ok _ _ s _ s (cooldown_run _ _ _ sev _ Ha Hi Hres)). destruct (cools sev res); cbn [negb]; [done|].
  rewrite (bind_ok _ _ s r (Detection (dn_conn s) later)) by (unfold reputation_of, zoom; by rewrite (ta_lookup _ _ _ _ _ _ _ _ _ Hta)).
  match goal with |- context [insert_firewall_alert pg ?t ?sv ?et _ _ _ ?m ?ac _ ?cx ?dt] =>
    destruct (insert_firewall_run s et source source_type a r later score l t sv m ac cx dt Hta) as (v & _ & Hrun) end.
  rewrite (bind_ok _ _ _ _ _ Hrun). eexists _, v. unfold ret. unfold sev. destruct (_ && _); reflexivity.
Qed.

(** ** The breadth of a scan *)

(** A blocked packet to a port that may be part of a scan: not one that a
    protected host sends out and that answers, or may. *)
Definition scans (e : event_row) (port : Z) : Prop :=
  parse_port (opt_text (column pg "destination_port" e)) = Ok (Some port) /\ exists c, classify e = Ok c /\
  ~ (column pg "direction" e = Some "out" /\ tc_source_is_protected c = true /\
     (tc_classification c = ReplyOrTeardownLike \/ tc_classification c = Ambiguous)).

Lemma not_scanning_spec e c : not_scanning pg e c = false ->
  ~ (column pg "direction" e = Some "out" /\ tc_source_is_protected c = true /\
     (tc_classification c = ReplyOrTeardownLike \/ tc_classification c = Ambiguous)).
Proof.
  unfold not_scanning. intros H (Hd & Hp & Hr). rewrite Hp, !bool_decide_eq_true_2 in H; [done| |done].
  destruct Hr as [-> | ->]; set_solver.
Qed.

(** What a bucket has counted, it has seen in the events. *)
Definition seen (events : list event_row) (b : scan_bucket) : Prop :=
  NoDup (map fst (sb_port_counts b)) /\ (forall p, p ∈ map fst (sb_port_counts b) -> exists e, e ∈ events /\ scans e p) /\
  NoDup (map fst (sb_destination_counts b)) /\
  forall d, d ∈ map fst (sb_destination_counts b) -> exists e p, e ∈ events /\ scans e p /\ column pg "destination_ip" e = d.

Lemma counted_up_elem {K} `{EqDecision K} (key k : K) d : k ∈ map fst (counted_up key d) -> k ∈ map fst d \/ k = key.
Proof. unfold counted_up. rewrite upsert_keys. destruct (decide _); [auto|]. rewrite elem_of_app, list_elem_of_singleton. tauto. Qed.

Lemma scan_buckets_seen all events grouped grouped' : (forall e, e ∈ events -> e ∈ all) -> scan_buckets pg protected events grouped = Ok grouped' ->
  NoDup (map fst grouped) -> (forall k b, (k, b) ∈ grouped -> seen all b) -> forall k b, (k, b) ∈ grouped' -> seen all b.
Proof.
  revert grouped. induction events as [|e events IH]; intros grouped Hall; cbn [scan_buckets]; [by intros [= <-]|].
  assert (forall x, x ∈ events -> x ∈ all) as Hall' by (intros x Hx; apply Hall; by right).
  destruct (parse_port _) as [[port|]|] eqn:Hp; cbn [obind]; [|by apply IH|done].
  destruct (classify e) as [role|] eqn:Hc; cbn [obind]; [|done]. destruct (not_scanning _ _ _) eqn:Hn; [by apply IH|].
  assert (scans e port) as He by (split; [done|]; exists role; split; [done|by apply not_scanning_spec]).
  intros H Hnd Hseen. eapply IH; [done|exact H|by apply upsert_nodup|].
  assert (e ∈ all) as Hin by (apply Hall; left).
  assert (forall b, seen all b -> seen all (ScanBucket (sb_event_count b + 1) (counted_up (column pg "destination_ip" e) (sb_destination_counts b))
            (counted_up port (sb_port_counts b)) (sb_roles b ++ [role]) (sb_first_seen b) (ev_created_at e) (sb_sample_payload b))) as Hstep.
  { intros b (H1 & H2 & H3 & H4). split_and!; [by apply upsert_nodup| |by apply upsert_nodup|]; cbn.
    - intros p [Hx| ->]%counted_up_elem; eauto.
    - intros d [Hx| ->]%counted_up_elem; eauto. }
  intros k b [[_ Hb]|[-> [[-> _]|(b0 & Hb & ->)]]]%upsert_in; [by eapply Hseen|apply Hstep|by eapply Hstep, Hseen|done].
  split_and!; cbn; try constructor; by intros ? []%not_elem_of_nil.
Qed.

(** C19: the breadth of a scan.  An alert of the rule stands for at least the
    threshold of distinct ports, or of distinct destinations, among the
    blocked packets of the address in the window; the replies of a protected
    host, and packets of it whose role is unclear, never count. *)
Theorem port_scan_breadth source source_type ip rule s alerts alert :
  (port_scan_core pg json_loads api_key abuseipdb protected (Some source) (Some source_type) (Some ip) (Some rule) s : _ * detection W).1 = Ok alerts ->
  alert ∈ alerts -> exists a threshold window, pg_inet pg ip = Some a /\
    rule_parameter rule "threshold" = Ok threshold /\ rule_parameter rule "window_minutes" = Ok window /\
    let events := window_events oldest_first ["firewall_block"] source source_type a window (current s) in
    let host_threshold := default 5 (parameter (er_parameters rule) "host_threshold") in
    (exists ports, NoDup ports /\ threshold <= Z.of_nat (length ports) /\ forall p, p ∈ ports -> exists e, e ∈ events /\ scans e p) \/
    (exists destinations, NoDup destinations /\ host_threshold <= Z.of_nat (length destinations) /\
       forall d, d ∈ destinations -> exists e p, e ∈ events /\ scans e p /\ column pg "destination_ip" e = d).
Proof.
  intros [s' Hrun]%ok_pair Hin. apply with_rule_inv in Hrun as [[-> _]|(s1 & Hs1 & H)]; [by apply not_elem_of_nil in Hin|].
  apply outcome_inv in H as (threshold & Ht & H). apply outcome_inv in H as (window & Hw & H).
  eapply read_inv in H as (events & s2 & Hs2 & Hev & H); [|apply events_selected]. destruct Hev as (a & Ha & ->).
  apply outcome_inv in H as (grouped & Hg & H). eapply raise_alerts_inv in H as ([k b] & s3 & s4 & Hx & Hturn); [|exact Hin].
  rewrite Hs1 in Hg. eapply scan_buckets_seen in Hg as (H1 & H2 & H3 & H4); [|by intros e He|constructor|by intros ? ? []%not_elem_of_nil|exact Hx].
  exists a, threshold, window. split_and!; [done..|]. cbv zeta. unfold raise_port_scan in Hturn.
  destruct (Z.of_nat (length (sb_port_counts b)) <? threshold) eqn:Ep; cbn [andb] in Hturn.
  - destruct (Z.of_nat (length (sb_destination_counts b)) <? _) eqn:Ed; [done|]. apply Z.ltb_ge in Ed. right.
    exists (map fst (sb_destination_counts b)). rewrite length_map. done.
  - apply Z.ltb_ge in Ep. left. exists (map fst (sb_port_counts b)). rewrite length_map. done.
Qed.

End Proofs.

(** ** Witnesses *)

Definition ex_packet (type direction source destination port flags : string) : event_row :=
  EventRow type "info" source "pfsense" "firewall" None "" "pfsense" "prod"
    (PDict [("source_ip", PStr source); ("destination_ip", PStr destination); ("protocol", PStr "tcp"); ("direction", PStr direction);
            ("source_port", PStr "50000"); ("destination_port", PStr port); ("tcp_flags", PStr flags); ("interface", PStr "wan")]) 7200000000.

Definition ex_firewall (events : list event_row) (alerts : list alert_row) (audit : list audit_row) : detection unit :=
  let table {R} (l : list R) : gmap Z R := list_to_map (imap (fun i x => (Z.of_nat i + 1, x)) l) in
  let d := SiemDb (table events) (Z.of_nat (length events) + 1) (table alerts) (Z.of_nat (length alerts) + 1) (Some ∅) ∅ (table audit) (Some ∅) in
  Detection (Conn d d false) (Lookups ∅ tt).

Definition ex_protected : option string := Some "10.0.0.0/8".
Definition ex_window : effective_rule := ex_rule [("threshold", 2); ("window_minutes", 10); ("host_threshold", 5)].

(** A protected host that opens two connections the firewall denies. *)
Definition ex_outbound : list event_row :=
  [ex_packet "firewall_block" "out" "10.0.0.5" "198.51.100.9" "443" "S"; ex_packet "firewall_block" "out" "10.0.0.5" "198.51.100.9" "443" "S"].

Definition ex_contained : pydict :=
  [("source_ip", PStr "10.0.0.5"); ("event_count", PInt 2); ("alert_id", PInt 1); ("alert_type", PStr REPEATED_DENY);
   ("response_action", PStr "block_ip"); ("severity", PStr "high")].

Lemma repeated_deny_containment_witness :
  exists a threshold window key e group, ex_pg.(pg_inet) "10.0.0.5" = Some a /\
    rule_parameter ex_window "threshold" = Ok threshold /\ rule_parameter ex_window "window_minutes" = Ok window /\
    of_key ex_pg key (window_events ex_pg oldest_first ["firewall_block"] "pfsense" "firewall" a window (current (ex_firewall ex_outbound [] []))) = e :: group /\
    dk_direction key = Some "out" /\ threshold <= Z.of_nat (length (e :: group)) /\
    (protected_host ex_protected e = true -> threshold <= Z.of_nat (length (List.filter (has_role ex_protected InitiationLike) (e :: group)))).
Proof.
  apply (repeated_deny_containment ex_pg ex_decoder false ex_provider ex_protected "pfsense" "firewall" "10.0.0.5" ex_window
    (ex_firewall ex_outbound [] []) [ex_contained] ex_contained); [vm_compute; reflexivity|left|reflexivity].
Defined.

(** Inbound connections to two ports of a protected host. *)
Definition ex_scan : list event_row :=
  [ex_packet "firewall_block" "in" "203.0.113.7" "10.0.0.5" "22" "S"; ex_packet "firewall_block" "in" "203.0.113.7" "10.0.0.5" "23" "S"].

Lemma port_scan_breadth_witness :
  exists a threshold window, ex_pg.(pg_inet) "203.0.113.7" = Some a /\
    rule_parameter ex_window "threshold" = Ok threshold /\ rule_parameter ex_window "window_minutes" = Ok window /\
    let events := window_events ex_pg oldest_first ["firewall_block"] "pfsense" "firewall" a window (current (ex_firewall ex_scan [] [])) in
    let host_threshold := default 5 (parameter (er_parameters ex_window) "host_threshold") in
    (exists ports, NoDup ports /\ threshold <= Z.of_nat (length ports) /\ forall p, p ∈ ports -> exists e, e ∈ events /\ scans ex_pg ex_protected e p) \/
    (exists destinations, NoDup destinations /\ host_threshold <= Z.of_nat (length destinations) /\
       forall d, d ∈ destinations -> exists e p, e ∈ events /\ scans ex_pg ex_protected e p /\ column ex_pg "destination_ip" e = d).
Proof.
  eapply (port_scan_breadth ex_pg ex_decoder false ex_provider ex_protected "pfsense" "firewall" "203.0.113.7" ex_window (ex_firewall ex_scan [] [])
    [[("source_ip", PStr "203.0.113.7"); ("distinct_port_count", PInt 2); ("alert_id", PInt 1); ("alert_type", PStr PORT_SCAN);
      ("response_action", PStr "enrich_source_ip"); ("severity", PStr "medium")]] _); [vm_compute; reflexivity|left].
Defined.

Definition ex_firewall_alert (alert_type severity status ip : string) : alert_row :=
  AlertRow alert_type severity ip (Some "pfsense") (Some "firewall") "" status "monitor_only" "pending" None None None None 50 "" "" "" PNone 7000000000.

(** The alert of the protected host, resolved a minute ago. *)
Definition ex_resolved : detection unit :=
  ex_firewall ex_outbound [ex_firewall_alert REPEATED_DENY "high" "resolved" "10.0.0.5"]
    [AuditRow (Some 1) "UPDATE_ALERT_STATUS" (PDict [("status", PStr "resolved")]) 7140000000].

Lemma ex_last_resolved :
  last_resolved ex_pg (current ex_resolved) "10.0.0.5" REPEATED_DENY (ex_firewall_alert REPEATED_DENY "high" "resolved" "10.0.0.5").
Proof.
  exists 1. eexists. split_and!; [vm_compute; reflexivity|vm_compute; reflexivity|]. intros j y r' Hy Hr.
  unfold ex_resolved, ex_firewall, current in Hy. cbn in Hy. apply lookup_insert_Some in Hy as [[<- <-]|[_ Hy]]; [|by rewrite lookup_empty in Hy].
  vm_compute in Hr. injection Hr as <-. done.
Qed.

Lemma resolved_stays_quiet_witness :
  let run := repeated_deny_core ex_pg ex_decoder false ex_provider ex_protected (Some "pfsense") (Some "firewall") (Some "10.0.0.5") (Some ex_window) ex_resolved in
  run.1 = Ok [] /\ current run.2 = current ex_resolved.
Proof.
  intros run. split; [vm_compute; reflexivity|].
  apply (resolved_stays_quiet ex_pg str_le ex_decoder false ex_provider ex_protected (fun l => l) REPEATED_DENY _ "pfsense" "firewall" "10.0.0.5" "10.0.0.5"
    (ex_firewall_alert REPEATED_DENY "high" "resolved" "10.0.0.5") ex_window ex_resolved []);
    [left|done|reflexivity|reflexivity|exact ex_last_resolved|left|vm_compute; reflexivity].
Defined.

(** Two noisy events, and an open port-scan alert. *)
Lemma noisy_source_yields_witness :
  let s := ex_firewall ex_scan [ex_firewall_alert PORT_SCAN "medium" "open" "203.0.113.7"] [] in
  let run := noisy_source_core ex_pg str_le ex_decoder false ex_provider (Some "pfsense") (Some "firewall") (Some "203.0.113.7") (Some ex_window) s in
  run.1 = Ok [] /\ current run.2 = current s.
Proof.
  intros s run. split; [vm_compute; reflexivity|].
  refine (proj2 (noisy_source_yields ex_pg str_le ex_decoder false ex_provider "pfsense" "firewall" "203.0.113.7" "203.0.113.7" 1
    (ex_firewall_alert PORT_SCAN "medium" "open" "203.0.113.7") ex_window s [] eq_refl eq_refl _ eq_refl eq_refl _ _)).
  - vm_compute. reflexivity.
  - right. left.
  - vm_compute. reflexivity.
Defined.

(** Two denies to a host of one network, then an allow to a host of
    another. *)
Definition ex_progression : detection unit :=
  ex_firewall [ex_packet "firewall_block" "in" "203.0.113.7" "198.51.100.9" "22" "S"; ex_packet "firewall_block" "in" "203.0.113.7" "198.51.100.9" "22" "S";
               ex_packet "firewall_allow" "in" "203.0.113.7" "192.0.2.10" "22" "S"] [] [].

Lemma ex_takes_alert :
  takes_alert ex_pg false ex_provider ex_progression "firewall_allow" "pfsense" "firewall" "203.0.113.7" mock_reputation
    (Lookups {["203.0.113.7" := mock_reputation]} tt) 50 no_location.
Proof. split; try (vm_compute; reflexivity). intros d. by exists (PDict d). Qed.

Lemma allow_after_deny_exact_witness :
  protected_range_key [PStr "192.0.2.10"] <> protected_range_key [PStr "198.51.100.9"] /\
  (raise_allow_after_deny ex_pg false ex_provider 2 5 30 [22] "pfsense" "firewall"
     (AllowGroup (AllowKey "203.0.113.7" (Some "192.0.2.10") (Some "22") (Some "tcp") (Some "wan")) 7200000000 1) ex_progression).1 =
  Ok (Some [("source_ip", PStr "203.0.113.7"); ("alert_id", PInt 1); ("alert_type", PStr "pfsense_firewall_allow_after_deny");
            ("response_action", PStr "enrich_source_ip"); ("severity", PStr "medium")]).
Proof.
  split; [by vm_compute|].
  pose proof (allow_after_deny_exact ex_pg false ex_provider "pfsense" "firewall" ex_progression "203.0.113.7" "192.0.2.10" "22" "tcp" (Some "wan")
    7200000000 1 2 5 30 [22] (Some 22) mock_reputation _ 50 no_location None ltac:(vm_compute; reflexivity)
    ex_takes_alert ltac:(intros i x Hx; by vm_compute in Hx)) as H.
  replace (protected_range_key [PStr "192.0.2.10"]) with (Some "192.0.2.0/24") in H by (vm_compute; reflexivity).
  cbv beta iota zeta in H. replace (denies_of_service _ _ _ _ _ _ _ _ _) with (take 2 [ex_packet "firewall_block" "in" "203.0.113.7" "198.51.100.9" "22" "S"; ex_packet "firewall_block" "in" "203.0.113.7" "198.51.100.9" "22" "S"]) in H by (vm_compute; reflexivity).
  destruct H as (message & context & ->). reflexivity.
Defined.
